(* ===== verification/_CoqProject ===== *)
-Q . S2P
Prelude.v
Ipam.v
IPv4Text.v
Registry.v
NetworkModels.v
VimModels.v
Database.v
PrometheusModels.v
K8sModels.v
TopologyModel.v
Topology.v
TopologyProps.v
TopologyWorker.v
BlueprintTypes.v
Performance.v
Blueprint.v
BlueprintReload.v
BlueprintWorker.v
BlueprintWorkerProps.v
BlueprintManager.v
BlueprintManagerProps.v
PduProvider.v
Core5GModels.v
Generic5G.v
Generic5GProps.v
Horse.v
HorseProps.v
Regex.v
Ansible.v
Resources.v
Generic5GK8s.v
SdCore.v
SdCoreProps.v
OaiUtils.v
OaiChart.v
Oai.v
OaiProps.v
OaiValues.v
HelmPlugins.v
VirtCommon.v
HelmProvider.v
HelmProviderProps.v
Proxmox.v
ProxmoxProps.v
OpenStack.v
OpenStackProps.v
Deployment.v
DeploymentSteps.v
Ueransim.v
UeransimProps.v
UeransimSims.v
UeransimErrors.v
Upf5G.v
Upf5GProps.v
Vyos.v
VyosProps.v
K8sBlueprint.v
K8sProps.v
K8sRefinement.v
ProvidersAggregator.v
AggregatorProps.v
OpenStackBlueprints.v
