(* ===== verification/Prelude.v ===== *)
(** * Verification development for ePEM / NFVCL (HORSE project)

    The program is the orchestrator of the HORSE project: it keeps a topology (the virtualization
    infrastructures, their networks, routers, Kubernetes clusters and physical devices), creates
    blueprints (services made of virtual machines, Helm charts and other blueprints), and applies
    mitigation requests to the machines it has created.  Paths below are relative to src/src/nfvcl/.

    ** The parts and their files

    - Shared ground: this file has the exceptions, the result and state monads, Python's lists and
      dictionaries, and the triples used for programs.  Regex.v has the substitutions by regular
      expressions, Registry.v the lists of named objects seen as maps.
    - Topology.  Ipam.v (utils/ipam.py and the address pools), IPv4Text.v (addresses as text),
      NetworkModels.v, VimModels.v, PrometheusModels.v and K8sModels.v (the models under models/),
      TopologyModel.v (models/topology/topology_models.py), Database.v (utils/database.py),
      Topology.v (topology/topology.py: every operation changes the model, saves it and publishes
      an event, under a lock), TopologyWorker.v (topology/topology_worker.py, and several
      processes on one topology).  TopologyProps.v has the theorems.
    - Life of a blueprint.  BlueprintTypes.v (types and day-2 routes), Blueprint.v (the object of
      blueprints_ng/blueprint_ng.py and its serialization), BlueprintReload.v (a document saved
      and read back), BlueprintWorker.v (the thread of a blueprint), BlueprintManager.v (the
      collection of workers, in any interleaving with the threads), Performance.v (durations),
      PduProvider.v (the locks of physical devices).
    - What blueprints are made of.  Ansible.v (ansible_builder.py: playbooks under construction),
      Resources.v (resources.py: machines, networks, charts), Deployment.v (the registry of
      resources and the calls of the providers; objects shared by reference live in a store),
      DeploymentSteps.v (reasoning shared by the blueprints), HelmPlugins.v (plugins of a cluster).
    - Providers.  VirtCommon.v (waiting for SSH, cloud-init, netplan), OpenStack.v and Proxmox.v
      (machines and networks on the two kinds of infrastructure), ProvidersAggregator.v (the
      provider of an area, as an instance of the class the blueprints use), HelmProvider.v (charts
      on the clusters of the topology).  OpenStackBlueprints.v puts a blueprint on the aggregator
      and the aggregator on OpenStack, with theorems about the three together.
    - Blueprints.  Core5GModels.v and Generic5G.v (the state machine of the 5G cores, with methods
      a core can replace), Generic5GK8s.v (cores that are Helm charts), SdCore.v and Oai.v with
      OaiUtils.v and OaiChart.v (two such cores and the values of their charts), Upf5G.v (UPF
      blueprints and the one of SD-Core), Ueransim.v (simulated GNBs and UEs), K8sBlueprint.v
      (Kubernetes clusters), Vyos.v (routers).
    - The mitigation endpoints of the project: Horse.v (rest_endpoints/HORSE/).

    A file with the suffix Props, Refinement, Sims, Errors or Values has the theorems about the file of
    the same stem; the other files state theirs at the end.  A method of a class is a definition
    of the same name; an object is a record, or a position in a list or store where the code
    shares it; a method that changes its object is a computation of the monad [M], whose state is
    the object with the part of the world it reaches and whose failures are the exceptions of
    [exn].  Loops and branches have the shape they have in the code; a named piece of a method is a
    definition of its own, with the lines it stands for in the manifest.

    ** How the parts meet

    The topology object saves through the database and reserves through the allocator; the
    worker of the topology and the PDU provider rebuild it from the database for each call.  The
    manager creates workers and blueprints; a worker calls the operations of its blueprint through
    a class with a contract, which Blueprint.v and the blueprints fill.  Blueprints create and
    configure machines through the class [Provider], whose laws ([ProviderLaws]) say which
    machines a call can leave behind; what a playbook does is given by its tasks, as Ansible.v
    writes them.  The aggregator over OpenStack is an instance of [Provider] for which the laws are
    theorems.  A 5G core is an instance of the class [Core5G], and of [Day2Methods] for the methods
    that follow a change of the configuration; the generic operations are proved against the
    contract of these classes.

    ** What the theorems show

    - Topology: the invariant of a topology is kept by every command; a reservation is inside the
      network and disjoint from what was taken before, and one is found whenever there is room;
      a call that succeeds is in the database, one that fails leaves it; the model refines finite
      maps; several processes keep the database well formed, and can still reserve one range twice.
    - Blueprints: a blueprint saved and read back is the same blueprint, shared resources
      included; when the code of a blueprint keeps its contract with the worker, each message is
      answered once and its outcome recorded, a failed destruction excepted; the manager names one worker for each blueprint and keeps protected
      blueprints; routes lead to the registered methods.
    - 5G: a day-2 operation applies its change or restores the configuration, which stays well
      formed; the deployed areas are those of the configuration.
    - UERANSIM and Kubernetes: whatever is requested and whatever fails, the destruction of a
      blueprint leaves none of its machines; as long as requests succeed, the SIMs that run and
      the nodes of the cluster are those of an abstract specification; worker numbers are never
      shared.
    - Providers: a machine that OpenStack created can be configured and destroyed, and a UERANSIM
      blueprint on the aggregator leaves no server whatever fails; Proxmox gives the least free
      identifier and leases that leave the gateway out; waiting for SSH ends; a cluster on which a
      blueprint installed more often than it uninstalled cannot be deleted from the topology.
    - SD-Core: the values of the chart are those of the configuration after every request that
      succeeds, for a specification written without the loops of the code.  OpenAirInterface: the
      values of the chart equal such a specification when it has one, and the update raises when it
      has none; which requests of day 2 can never succeed, and what they leave.  UPFs: after an
      update that returns there is one for each data network of the request.  VyOS: the source rules
      of the router are those that were requested.
    - HORSE: at most one action for each request, in the right place, and a callback that tells
      the truth about it.
    - The theorems named error show what the code does where it goes wrong: requests that can
      never succeed, states that block later requests, failures nobody hears of.

    ** Assumptions, bounds and fuel

    Code outside the repository is an argument: MongoDB, Redis, Ansible runs, the providers of
    virtualization, the Kubernetes API and Helm, HTTP, YAML, templates, files, clocks and the
    generation of identifiers.  What is relied on is a class of laws (for MongoDB, the providers
    and the calls that leave machines alone) or a hypothesis, and each has a concrete instance on
    which the theorems are evaluated.  For OpenStack the laws are a ledger of servers: a created
    server has a new identifier and a deleted one is gone; calls on other resources leave it alone.
    For VyOS they are what the router does with the lines it is sent; for Helm, that an update that
    succeeds puts the values it is given; for the UDR of OpenAirInterface, nothing.  Validation by pydantic is modelled where a check is more
    than the type of a field.  Text is ASCII.  The order of a Python set is a parameter.
    Integers are unbounded, as in Python; addresses have their 32 bits and raise beyond them.
    Durations are floats of the standard library's SpecFloat.  Recursion with fuel is used where
    a list changes while it is iterated, with the length of the list as fuel, which bounds the
    positions the iterator can reach, and for the cut of address ranges, with a lemma that the
    fuel is enough.  The wait for SSH has the fuel of its time-out, with a theorem that it is enough;
    two waits of the code have no bound (the guest agent of Proxmox, the AMF of SD-Core), and end in
    the exception Unfinished after a number of turns that is a parameter.

    ** Not modelled

    Write failures of the database server and the local backup; the terraform paths of the
    topology, beyond the KeyError they all raise (the dictionary they read is never filled); the
    text of messages and logs; the REST endpoints that only pass a request on; the clients of the
    Kubernetes API and the functions of the OpenStack client that forward one call; what the
    aggregator forwards unchanged to the Helm, PDU and blueprint providers; IPv6 addresses of
    machines; the Free5GC core, whose creation always fails after its chart is installed, with its
    default configuration and the models of it (large literals); the method update_slice of
    OpenAirInterface, which no route leads to; the router blueprints and the UPFs of OpenAirInterface
    and Free5GC, which the cores see through an interface; the Athonet core; authentication and user management. *)

From stdpp Require Import base list strings gmap.
From Stdlib Require Import ZArith Lia Ascii.

Open Scope Z_scope.

(** ** Python exceptions and results

    One constructor per exception class the modelled code raises.  The text of a message is
    not modelled: no modelled code branches on it. *)
Inductive exn : Type :=
| ValueError
| AddressValueError                (* ipaddress; a subclass of ValueError *)
| ValidationError                  (* pydantic; a subclass of ValueError *)
| KeyError
| IndexError
| AttributeError
| TypeError
| AssertionError
| HTTPException (status_code : Z)
| TopoK8SHasBlueprintException
| TopoK8SNotFoundException
| BlueprintNGException
| BlueprintNotFoundException
| BlueprintAlreadyExisting
| BlueprintProtectedException
| BlueprintTypeNotDeclared
| PDUProviderException
| PDUManagerException
| VyOSNATRuleAlreadyPresent
| VyOSNATRuleNotFound
| VyOSNetworkNotConnectedToVM
| VyOSInterfaceNotExisting
| VirtualizationProviderException
| OverflowError
| RuntimeError
| OSError
| ReadTimeout                      (* httpx *)
| ConnectTimeout                   (* httpx *)
| ConnectError                     (* httpx *)
| FailToCreateError                (* kubernetes *)
| VirtualizationConfiguratorException
| VirtualizationProviderOpenstackException
| VirtualizationProviderProxmoxException
| ForbiddenException               (* openstack *)
| HelmError                        (* pyhelm3 *)
| K8SProviderNativeException
| Unfinished                       (* the call has not returned within the turns given *)
| PlainException                   (* [Exception] itself *)
| ExternalError (code : nat).      (* raised by code outside the repository *)

#[export] Instance exn_eq_dec : EqDecision exn.
Proof. solve_decision. Defined.

(** [except ValueError] catches the class and its subclasses. *)
Definition is_value_error (e : exn) : bool :=
  match e with
  | ValueError | AddressValueError | ValidationError => true
  | _ => false
  end.

Inductive result (A : Type) : Type :=
| Ok (a : A)
| Raise (e : exn).
Arguments Ok {_} _.
Arguments Raise {_} _.

#[export] Instance result_eq_dec {A} `{EqDecision A} : EqDecision (result A).
Proof. solve_decision. Defined.

#[export] Instance result_ret : MRet result := λ A a, Ok a.
#[export] Instance result_bind : MBind result := λ A B f m,
  match m with Ok a => f a | Raise e => Raise e end.

(** ** The state-and-exception monad of a Python method

    A method may mutate its objects and then raise: the state reached before the exception is
    kept, as in Python. *)
Definition M (S A : Type) : Type := S → result A * S.

#[export] Instance M_ret {S} : MRet (M S) := λ A a s, (Ok a, s).
#[export] Instance M_bind {S} : MBind (M S) := λ A B f m s,
  match m s with
  | (Ok a, s') => f a s'
  | (Raise e, s') => (Raise e, s')
  end.

Definition raise {S A} (e : exn) : M S A := λ s, (Raise e, s).
Definition getS {S} : M S S := λ s, (Ok s, s).
Definition putS {S} (s : S) : M S unit := λ _, (Ok tt, s).
Definition modifyS {S} (f : S → S) : M S unit := λ s, (Ok tt, f s).
Definition liftR {S A} (r : result A) : M S A := λ s, (r, s).

(** [try: m except ...: h], the handler chosen by the exception. *)
Definition catch {S A} (m : M S A) (h : exn → option (M S A)) : M S A := λ s,
  match m s with
  | (Raise e, s') => match h e with Some k => k s' | None => (Raise e, s') end
  | r => r
  end.

(** Run a method of an object stored in a field of a larger state. *)
Definition zoom {S T A} (pr : T → S) (upd : S → T → T) (m : M S A) : M T A := λ t,
  match m (pr t) with (r, s') => (r, upd s' t) end.

(** [for x in l: f(x)], stopping at the first exception. *)
Fixpoint for_each {S A} (l : list A) (f : A → M S unit) : M S unit :=
  match l with
  | [] => mret tt
  | x :: l' => f x ;; for_each l' f
  end.

(** A list comprehension whose element may raise. *)
Fixpoint map_result {A B} (f : A → result B) (l : list A) : result (list B) :=
  match l with
  | [] => Ok []
  | x :: l' => y ← f x; ys ← map_result f l'; Ok (y :: ys)
  end.

(** ** Dynamic values

    What the code keeps in untyped dictionaries and JSON documents. *)
Inductive pyval : Type :=
| VNone
| VBool (b : bool)
| VInt (z : Z)
| VStr (s : string)
| VList (l : list pyval)
| VDict (d : list (string * pyval)).

Definition dict : Type := list (string * pyval).

(** [d[k]]. *)
Definition dict_getitem (d : dict) (k : string) : result pyval :=
  match find (λ kv, String.eqb kv.1 k) d with Some (_, v) => Ok v | None => Raise KeyError end.

(** [k in d]. *)
Definition dict_has (k : string) (d : dict) : bool := existsb (λ kv, String.eqb kv.1 k) d.

(** ** Strings *)

(** Truth of an [Optional[str]]: [None] and the empty string are false. *)
Definition str_true (o : option string) : bool :=
  match o with Some s => negb (String.eqb s EmptyString) | None => false end.

Fixpoint string_map (f : Ascii.ascii → Ascii.ascii) (s : string) : string :=
  match s with
  | EmptyString => EmptyString
  | String c s' => String (f c) (string_map f s')
  end.

Fixpoint all_chars (p : ascii → bool) (s : string) : bool :=
  match s with EmptyString => true | String c s' => p c && all_chars p s' end.

(** [str.lower] on ASCII. *)
Definition ascii_lower (c : Ascii.ascii) : Ascii.ascii :=
  let n := Ascii.nat_of_ascii c in
  if (65 <=? n)%nat && (n <=? 90)%nat then Ascii.ascii_of_nat (n + 32) else c.
Definition lower : string → string := string_map ascii_lower.

(** [str.replace] of one character by another. *)
Definition replace_char (a b : Ascii.ascii) : string → string :=
  string_map (λ c, if Ascii.eqb c a then b else c).

(** ** Python's list primitives *)
Section py_lists.
Context {A : Type}.

(** [x in l]: CPython compares the element (left) with the needle (right). *)
Definition py_in (eqb : A → A → bool) (x : A) (l : list A) : bool :=
  existsb (λ item, eqb item x) l.

Fixpoint find_index (p : A → bool) (l : list A) : option nat :=
  match l with
  | [] => None
  | x :: l' => if p x then Some 0%nat else S <$> find_index p l'
  end.

(** [next((i for i, item in enumerate(l) if p(item)), -1)]. *)
Definition next_index (p : A → bool) (l : list A) : Z :=
  match find_index p l with Some i => Z.of_nat i | None => -1 end.

(** [next((x for x in l if p(x)), None)]. *)
Definition next_item (p : A → bool) (l : list A) : option A := find p l.

(** The position Python gives to a subscript: negative ones count from the end. *)
Definition py_pos (l : list A) (i : Z) : option nat :=
  let j := if i <? 0 then i + Z.of_nat (length l) else i in
  if (0 <=? j) && (j <? Z.of_nat (length l)) then Some (Z.to_nat j) else None.

Definition py_getitem (l : list A) (i : Z) : result A :=
  match py_pos l i with
  | Some n => match l !! n with Some x => Ok x | None => Raise IndexError end
  | None => Raise IndexError
  end.

Definition py_setitem (l : list A) (i : Z) (x : A) : result (list A) :=
  match py_pos l i with Some n => Ok (<[n := x]> l) | None => Raise IndexError end.

(** [l.pop(i)]: the removed element and the list left. *)
Definition py_pop (l : list A) (i : Z) : result (A * list A) :=
  match py_pos l i with
  | Some n => match l !! n with
              | Some x => Ok (x, delete n l)
              | None => Raise IndexError
              end
  | None => Raise IndexError
  end.

(** [l.index(x)]. *)
Definition py_index (eqb : A → A → bool) (x : A) (l : list A) : result Z :=
  match find_index (λ item, eqb item x) l with
  | Some i => Ok (Z.of_nat i)
  | None => Raise ValueError
  end.

(** [l.remove(x)]: drops the first element equal to [x]. *)
Definition py_remove (eqb : A → A → bool) (x : A) (l : list A) : result (list A) :=
  match find_index (λ item, eqb item x) l with
  | Some i => Ok (delete i l)
  | None => Raise ValueError
  end.

(** [l.remove(x)] for the object [x] found at position [i] of [l] itself: identity counts as
    equality, so the element dropped is the first one equal to it, at [i] at the latest. *)
Definition py_remove_at (eqb : A → A → bool) (i : nat) (l : list A) : list A :=
  match l !! i with
  | Some x => match find_index (λ item, eqb item x) (take i l) with
              | Some j => delete j l
              | None => delete i l
              end
  | None => l
  end.
End py_lists.

(** ** Lemmas on the list primitives *)
Section py_list_lemmas.
Context {A : Type}.
Implicit Types (l : list A) (p : A → bool) (x : A).

Lemma find_index_Some p l i :
  find_index p l = Some i ↔
  ∃ x, l !! i = Some x ∧ p x = true ∧ ∀ j y, (j < i)%nat → l !! j = Some y → p y = false.
Proof.
  revert i; induction l as [|a l IH]; intros i; simpl.
  { split; [done|]. intros (x & H & _). by rewrite lookup_nil in H. }
  destruct (p a) eqn:Hp.
  - split.
    + intros [= <-]. exists a. repeat split; [done|]. intros; lia.
    + intros (x & Hx & Hpx & Hlt). destruct i as [|i]; [done|].
      specialize (Hlt 0%nat a ltac:(lia) eq_refl). congruence.
  - rewrite fmap_Some. split.
    + intros (j & Hj & ->). apply IH in Hj as (x & Hx & Hpx & Hlt).
      exists x. split; [done|split; [done|]]. intros [|k] y Hk Hy; simpl in Hy; [congruence|].
      eapply Hlt; [|done]. lia.
    + intros (x & Hx & Hpx & Hlt). destruct i as [|i]; simpl in Hx; [congruence|].
      exists i. split; [|done]. apply IH. exists x. split; [done|split; [done|]].
      intros j y Hj Hy. apply (Hlt (S j) y); [lia|done].
Qed.

Lemma find_index_None p l : find_index p l = None ↔ ∀ x, x ∈ l → p x = false.
Proof.
  induction l as [|a l IH]; simpl.
  { split; [|done]. intros _ x Hx. by apply not_elem_of_nil in Hx. }
  destruct (p a) eqn:Hp.
  - split; [done|]. intros H. rewrite H in Hp; [done|]. left.
  - rewrite fmap_None, IH. split.
    + intros H x [->|Hx]%elem_of_cons; auto.
    + intros H x Hx. apply H. by right.
Qed.

Lemma find_index_lt p l i : find_index p l = Some i → (i < length l)%nat.
Proof. intros (x & Hx & _)%find_index_Some. by eapply lookup_lt_Some. Qed.

Lemma next_index_neg p l : (next_index p l <? 0) = true ↔ find_index p l = None.
Proof.
  unfold next_index. destruct (find_index p l) eqn:E; [|done].
  split; [|done]. intros H%Z.ltb_lt. lia.
Qed.

Lemma next_index_Some p l i : find_index p l = Some i → next_index p l = Z.of_nat i.
Proof. unfold next_index. by intros ->. Qed.

Lemma py_pos_nat l (i : nat) : (i < length l)%nat → py_pos l (Z.of_nat i) = Some i.
Proof.
  intros Hi. unfold py_pos.
  replace (Z.of_nat i <? 0) with false by (symmetry; apply Z.ltb_ge; lia).
  replace ((0 <=? Z.of_nat i) && (Z.of_nat i <? Z.of_nat (length l))) with true.
  - by rewrite Nat2Z.id.
  - symmetry. apply andb_true_iff. rewrite Z.leb_le, Z.ltb_lt. lia.
Qed.

Lemma py_pos_lt l (i : Z) n : py_pos l i = Some n → (n < length l)%nat.
Proof.
  unfold py_pos. intros H. destruct (_ && _) eqn:E in H; [|done].
  apply andb_true_iff in E as [E1%Z.leb_le E2%Z.ltb_lt].
  injection H as <-. lia.
Qed.

Lemma py_getitem_nat l (i : nat) x : l !! i = Some x → py_getitem l (Z.of_nat i) = Ok x.
Proof.
  intros Hx. unfold py_getitem. rewrite py_pos_nat by by eapply lookup_lt_Some.
  by rewrite Hx.
Qed.

Lemma py_setitem_nat l (i : nat) x :
  (i < length l)%nat → py_setitem l (Z.of_nat i) x = Ok (<[i:=x]> l).
Proof. intros Hi. unfold py_setitem. by rewrite py_pos_nat. Qed.

Lemma py_pop_nat l (i : nat) x :
  l !! i = Some x → py_pop l (Z.of_nat i) = Ok (x, delete i l).
Proof.
  intros Hx. unfold py_pop. rewrite py_pos_nat by by eapply lookup_lt_Some. by rewrite Hx.
Qed.

Lemma py_pop_inv l (i : Z) x l' : py_pop l i = Ok (x, l') → ∃ n, l' = delete n l ∧ l !! n = Some x.
Proof.
  unfold py_pop. destruct (py_pos l i) as [n|]; [|done].
  destruct (l !! n) eqn:E; [|done]. intros [= <- <-]. eauto.
Qed.

Lemma py_remove_inv eqb x l l' :
  py_remove eqb x l = Ok l' →
  ∃ i y, l !! i = Some y ∧ eqb y x = true ∧ l' = delete i l.
Proof.
  unfold py_remove. destruct (find_index _ l) as [i|] eqn:E; [|done].
  intros [= <-]. apply find_index_Some in E as (y & Hy & Hp & _). eauto.
Qed.

Lemma py_in_spec eqb x l : py_in eqb x l = true ↔ ∃ y, y ∈ l ∧ eqb y x = true.
Proof.
  unfold py_in. rewrite existsb_exists. by setoid_rewrite list_elem_of_In.
Qed.

Lemma py_in_false eqb x l : py_in eqb x l = false ↔ ∀ y, y ∈ l → eqb y x = false.
Proof.
  rewrite <-not_true_iff_false, py_in_spec. split.
  - intros H y Hy. destruct (eqb y x) eqn:E; [|done]. exfalso; eauto.
  - intros H (y & Hy & E). rewrite H in E; done.
Qed.

Lemma elem_of_delete_list l (i : nat) x : x ∈ delete i l → x ∈ l.
Proof.
  intros (j & Hj)%list_elem_of_lookup. apply list_elem_of_lookup.
  destruct (decide (j < i)%nat).
  - exists j. by rewrite list_lookup_delete_lt in Hj.
  - exists (S j). by rewrite list_lookup_delete_ge in Hj by lia.
Qed.

Lemma sublist_delete_list l (i : nat) : delete i l `sublist_of` l.
Proof.
  revert i; induction l as [|a l IH]; intros [|i]; simpl.
  - constructor.
  - constructor.
  - apply sublist_cons, reflexivity.
  - apply sublist_skip, IH.
Qed.

Lemma delete_insert_list l (i : nat) x : delete i (<[i:=x]> l) = delete i l.
Proof.
  revert i; induction l as [|a l IH]; intros [|i]; simpl; [done..|]. f_equal. apply IH.
Qed.

Lemma Forall_delete_list (P : A → Prop) l (i : nat) : Forall P l → Forall P (delete i l).
Proof. rewrite !Forall_forall. eauto using elem_of_delete_list. Qed.

Lemma Forall_insert_list (P : A → Prop) l (i : nat) x :
  Forall P l → P x → Forall P (<[i:=x]> l).
Proof.
  intros Hl Hx. apply Forall_insert; [done|]. done.
Qed.
End py_list_lemmas.

(** Filters: the elements other than one, and predicates that agree on the list. *)
Section filters.
Context {A : Type} `{!EqDecision A}.
Implicit Types (x : A) (l : list A).
Lemma filter_absent x l : x ∉ l → filter (λ y, y ≠ x) l = l.
Proof.
  intros Hx. induction l as [|y l IH]; [done|]. apply not_elem_of_cons in Hx as [Hy Hx].
  rewrite filter_cons, decide_True by congruence. by rewrite IH.
Qed.
Lemma delete_filter l i x : NoDup l → l !! i = Some x → delete i l = filter (λ y, y ≠ x) l.
Proof.
  revert i. induction l as [|y l IH]; intros i Hnd Hi; [done|]. apply NoDup_cons in Hnd as [Hy Hnd]. rewrite filter_cons.
  destruct i as [|i]; cbn in Hi.
  - injection Hi as ->. rewrite decide_False by (by intros ?). cbn. by rewrite filter_absent.
  - rewrite decide_True by (intros ->; by apply list_elem_of_lookup_2 in Hi). cbn. f_equal. by apply IH.
Qed.
Lemma filter_in_iff (P Q : A → Prop) `{!∀ x, Decision (P x), !∀ x, Decision (Q x)} l :
  (∀ x, x ∈ l → P x ↔ Q x) → filter P l = filter Q l.
Proof.
  induction l as [|x l IH]; intros Heq; [done|]. rewrite !filter_cons. assert (Hx : P x ↔ Q x) by (apply Heq; by left).
  rewrite IH by (intros y Hy; apply Heq; by right). destruct (decide (P x)), (decide (Q x)); tauto.
Qed.
End filters.

Lemma py_in_String x l : py_in String.eqb x l = true ↔ x ∈ l.
Proof.
  rewrite py_in_spec. split; [by intros (y & ? & ->%String.eqb_eq)|].
  intros Hx. exists x. by rewrite String.eqb_refl.
Qed.

Lemma py_in_Z x l : py_in Z.eqb x l = true ↔ x ∈ l.
Proof.
  rewrite py_in_spec. split; [by intros (y & ? & ->%Z.eqb_eq)|].
  intros Hx. exists x. by rewrite Z.eqb_refl.
Qed.

(** [w in s]. *)
Fixpoint str_contains (w s : string) : bool :=
  String.prefix w s || match s with EmptyString => false | String _ s' => str_contains w s' end.

(** ** Prefixes, lines, and splitting at a text *)
Fixpoint strip_prefix (p s : string) : option string :=
  match p, s with
  | EmptyString, _ => Some s
  | String c p', String d s' => if Ascii.eqb c d then strip_prefix p' s' else None
  | _, EmptyString => None
  end.
(** [str.split(sep)] for a separator of several characters; [skip] is what is left of the last one met. *)
Fixpoint split_from (sep : string) (skip : nat) (s : string) : list string :=
  match s with
  | EmptyString => [EmptyString]
  | String c s' =>
      match skip with
      | S k => split_from sep k s'
      | O => match strip_prefix sep s with
             | Some _ => EmptyString :: split_from sep (String.length sep - 1) s'
             | None => match split_from sep 0 s' with w :: ws => String c w :: ws | [] => [] end
             end
      end
  end.
Definition split_text (sep s : string) : list string := split_from sep 0 s.
(** [str.strip] and its halves, on ASCII. *)
Definition is_space (c : ascii) : bool :=
  let n := Ascii.nat_of_ascii c in
  (9 <=? n)%nat && (n <=? 13)%nat || (28 <=? n)%nat && (n <=? 32)%nat.
Fixpoint lstrip (s : string) : string :=
  match s with String c s' => if is_space c then lstrip s' else s | EmptyString => s end.
Fixpoint rstrip (s : string) : string :=
  match s with
  | EmptyString => EmptyString
  | String c s' => match rstrip s' with
                   | EmptyString => if is_space c then EmptyString else String c EmptyString
                   | r => String c r
                   end
  end.
Definition strip (s : string) : string := rstrip (lstrip s).
(** [str.splitlines]. *)
Definition ends_line (c : Ascii.ascii) : bool :=
  let n := Ascii.nat_of_ascii c in ((10 <=? n)%nat && (n <=? 13)%nat) || ((28 <=? n)%nat && (n <=? 30)%nat).
Fixpoint splitlines (s : string) : list string :=
  match s with
  | EmptyString => []
  | String c s' =>
      if ends_line c then
        EmptyString :: match s' with
                       | String d s2 => if (Ascii.nat_of_ascii c =? 13)%nat && (Ascii.nat_of_ascii d =? 10)%nat
                                        then splitlines s2 else splitlines s'
                       | EmptyString => []
                       end
      else match splitlines s' with w :: ws => String c w :: ws | [] => [String c EmptyString] end
  end.

(** ** Splitting *)
Fixpoint py_split (sep : ascii) (s : string) : list string :=
  match s with
  | EmptyString => [EmptyString]
  | String c s' =>
      if Ascii.eqb c sep then EmptyString :: py_split sep s'
      else match py_split sep s' with
           | [] => [String c EmptyString]
           | w :: ws => String c w :: ws
           end
  end.

(** [sep.join(l)]. *)
Fixpoint py_join (sep : ascii) (l : list string) : string :=
  match l with
  | [] => EmptyString
  | [w] => w
  | w :: l' => w +:+ String sep (py_join sep l')
  end.

Fixpoint no_char (c : ascii) (s : string) : bool :=
  match s with EmptyString => true | String d s' => negb (Ascii.eqb d c) && no_char c s' end.

Lemma py_split_word sep w : no_char sep w = true → py_split sep w = [w].
Proof.
  induction w as [|c w IH]; simpl; [done|]. intros [Hc Hw]%andb_true_iff.
  apply negb_true_iff in Hc. by rewrite Hc, IH.
Qed.

Lemma py_split_app sep w s :
  no_char sep w = true → py_split sep (w +:+ String sep s) = w :: py_split sep s.
Proof.
  induction w as [|c w IH]; simpl.
  - intros _. by rewrite Ascii.eqb_refl.
  - intros [Hc Hw]%andb_true_iff. apply negb_true_iff in Hc. by rewrite Hc, IH.
Qed.

Lemma py_split_join sep l :
  l ≠ [] → Forall (λ w, no_char sep w = true) l → py_split sep (py_join sep l) = l.
Proof.
  induction l as [|w l IH]; [done|]. intros _ [Hw Hl]%Forall_cons.
  destruct l as [|w' l]; [by apply py_split_word|].
  transitivity (w :: py_split sep (py_join sep (w' :: l))).
  - apply (py_split_app sep w (py_join sep (w' :: l)) Hw).
  - by rewrite IH.
Qed.

Lemma py_join_split sep s : py_join sep (py_split sep s) = s.
Proof.
  induction s as [|c s IH]; simpl; [done|].
  assert (Hne : py_split sep s ≠ []).
  { destruct s as [|d s]; simpl; [done|]. destruct (Ascii.eqb _ _); [done|].
    by destruct (py_split sep s). }
  destruct (Ascii.eqb c sep) eqn:E.
  - apply Ascii.eqb_eq in E as ->. destruct (py_split sep s); [done|]. simpl in *. by rewrite IH.
  - destruct (py_split sep s) as [|w [|w' l]]; [done|simpl in *; congruence|].
    change (String c (py_join sep (w :: w' :: l)) = String c s). congruence.
Qed.

Lemma forallb_same {A} (f g : A → bool) l : (∀ x, f x = g x) → forallb f l = forallb g l.
Proof. intros H. induction l as [|x l IH]; [done|]. cbn. by rewrite H, IH. Qed.
Lemma omap_ext_in {A B} (f g : A → option B) (l : list A) :
  (∀ x, x ∈ l → f x = g x) → omap f l = omap g l.
Proof.
  induction l as [|x l IH]; intros H; [done|].
  change (match f x with Some y => y :: omap f l | None => omap f l end =
          match g x with Some y => y :: omap g l | None => omap g l end).
  rewrite IH by (intros; apply H; by right). by rewrite (H x) by left.
Qed.

(** ** Dictionaries with string keys

    A Python dictionary keeps the order of first insertion. *)
Section odict.
Context {V : Type}.
Implicit Types (d : list (string * V)) (k : string) (v : V).

Fixpoint od_get k d : option V :=
  match d with
  | [] => None
  | (k', v) :: d' => if String.eqb k' k then Some v else od_get k d'
  end.

(** [d[k] = v]. *)
Fixpoint od_set k v d : list (string * V) :=
  match d with
  | [] => [(k, v)]
  | (k', v') :: d' => if String.eqb k' k then (k', v) :: d' else (k', v') :: od_set k v d'
  end.

(** [d.pop(k)] and [del d[k]], for a key that is there. *)
Fixpoint od_pop k d : list (string * V) :=
  match d with
  | [] => []
  | (k', v') :: d' => if String.eqb k' k then d' else (k', v') :: od_pop k d'
  end.

(** [k in d]. *)
Definition od_in k d : bool := match od_get k d with Some _ => true | None => false end.

(** [d[k]]. *)
Definition od_getitem k d : result V :=
  match od_get k d with Some v => Ok v | None => Raise KeyError end.

Definition od_keys d : list string := d.*1.
Definition od_values d : list V := d.*2.

Lemma od_get_set k k' v d : od_get k (od_set k' v d) = if String.eqb k' k then Some v else od_get k d.
Proof.
  induction d as [|[k1 v1] d IH]; simpl; [done|].
  destruct (String.eqb k1 k') eqn:E1; simpl.
  - apply String.eqb_eq in E1 as ->. by destruct (String.eqb k' k).
  - rewrite IH. destruct (String.eqb k1 k) eqn:E2; [|done].
    apply String.eqb_eq in E2 as ->. by rewrite String.eqb_sym, E1.
Qed.

Lemma od_get_set_eq k v d : od_get k (od_set k v d) = Some v.
Proof. by rewrite od_get_set, String.eqb_refl. Qed.

Lemma od_get_set_ne k k' v d : k ≠ k' → od_get k (od_set k' v d) = od_get k d.
Proof. intros Hne. rewrite od_get_set, (proj2 (String.eqb_neq k' k)); congruence. Qed.

Lemma od_get_None k d : od_get k d = None ↔ k ∉ od_keys d.
Proof.
  induction d as [|[k1 v1] d IH]; simpl; [by split; [intros _ ?%not_elem_of_nil|]|].
  rewrite not_elem_of_cons. destruct (String.eqb_spec k1 k) as [->|Hne]; [naive_solver|].
  rewrite IH. naive_solver.
Qed.

Lemma od_in_keys k d : od_in k d = true ↔ k ∈ od_keys d.
Proof.
  unfold od_in. destruct (od_get k d) eqn:E.
  - split; [|done]. intros _. apply dec_stable. intros Hn%od_get_None. congruence.
  - split; [done|]. by apply od_get_None in E.
Qed.

Lemma od_in_false k d : od_in k d = false ↔ od_get k d = None.
Proof. unfold od_in. by destruct (od_get k d). Qed.

Lemma od_set_new k v d : od_get k d = None → od_set k v d = d ++ [(k, v)].
Proof.
  induction d as [|[k1 v1] d IH]; simpl; [done|]. destruct (String.eqb k1 k); [done|].
  intros H. by rewrite IH.
Qed.

Lemma od_set_same k v d : od_get k d = Some v → od_set k v d = d.
Proof.
  induction d as [|[k1 v1] d IH]; simpl; [done|]. destruct (String.eqb k1 k); [by intros [= ->]|].
  intros H. by rewrite IH.
Qed.

Lemma od_set_set k v v' d : od_set k v (od_set k v' d) = od_set k v d.
Proof.
  induction d as [|[k1 v1] d IH]; simpl; [by rewrite String.eqb_refl|].
  destruct (String.eqb k1 k) eqn:E; simpl; rewrite E; [done|by rewrite IH].
Qed.

Lemma od_keys_set_old k v d : k ∈ od_keys d → od_keys (od_set k v d) = od_keys d.
Proof.
  induction d as [|[k1 v1] d IH]; simpl; [by intros ?%not_elem_of_nil|].
  destruct (String.eqb_spec k1 k) as [->|Hne]; simpl; [done|].
  intros [->|Hk]%elem_of_cons; [done|]. unfold od_keys in *. by rewrite IH.
Qed.

Lemma od_keys_set_NoDup k v d : NoDup (od_keys d) → NoDup (od_keys (od_set k v d)).
Proof.
  intros Hd. destruct (decide (k ∈ od_keys d)) as [Hk|Hk]; [by rewrite od_keys_set_old|].
  rewrite od_set_new by by apply od_get_None.
  unfold od_keys. rewrite fmap_app. apply NoDup_app. split; [done|].
  split; [|by apply NoDup_singleton]. intros x Hx Hk'%list_elem_of_singleton. by subst.
Qed.

Lemma od_pop_sublist k d : od_pop k d `sublist_of` d.
Proof.
  induction d as [|[k1 v1] d IH]; simpl; [constructor|].
  destruct (String.eqb k1 k); [by apply sublist_cons|by apply sublist_skip].
Qed.

Lemma od_keys_pop_NoDup k d : NoDup (od_keys d) → NoDup (od_keys (od_pop k d)).
Proof. intros H. eapply sublist_NoDup; [done|]. apply fmap_sublist, od_pop_sublist. Qed.

Lemma od_get_pop k k' d :
  NoDup (od_keys d) → od_get k (od_pop k' d) = if String.eqb k' k then None else od_get k d.
Proof.
  induction d as [|[k1 v1] d IH]; simpl; [by destruct (String.eqb k' k)|].
  intros [Hn Hd]%NoDup_cons. destruct (String.eqb_spec k1 k') as [->|Hne]; simpl.
  - destruct (String.eqb_spec k' k) as [->|]; [|done]. by apply od_get_None.
  - rewrite IH by done. destruct (String.eqb_spec k1 k) as [->|]; [|done].
    by rewrite (proj2 (String.eqb_neq k' k)).
Qed.

Lemma od_get_pop_ne k k' d : k' ≠ k → od_get k (od_pop k' d) = od_get k d.
Proof.
  intros Hne. induction d as [|[k1 v1] d IH]; simpl; [done|]. destruct (String.eqb_spec k1 k') as [->|].
  - by rewrite (proj2 (String.eqb_neq k' k)).
  - simpl. by rewrite IH.
Qed.

Lemma od_get_elem k v d : NoDup (od_keys d) → od_get k d = Some v ↔ (k, v) ∈ d.
Proof.
  induction d as [|[k1 v1] d IH]; simpl; [by split; [|intros ?%not_elem_of_nil]|].
  intros [Hn Hd]%NoDup_cons. rewrite elem_of_cons. destruct (String.eqb_spec k1 k) as [->|Hne].
  - split; [intros [= ->]; by left|]. intros [[= ->]|Hin]; [done|].
    destruct Hn. by apply (list_elem_of_fmap_2' fst _ (k, v)).
  - rewrite IH by done. naive_solver.
Qed.
Lemma od_get_in k v d : od_get k d = Some v → (k, v) ∈ d.
Proof.
  induction d as [|[k1 v1] d IH]; simpl; [done|]. destruct (String.eqb_spec k1 k) as [->|].
  - intros [= ->]. by left.
  - intros H. right. by apply IH.
Qed.

Lemma od_set_elem k v k' v' d : (k', v') ∈ od_set k v d → (k' = k ∧ v' = v) ∨ (k', v') ∈ d.
Proof.
  induction d as [|[k1 v1] d IH]; simpl.
  - intros [= -> ->]%list_elem_of_singleton. by left.
  - destruct (String.eqb_spec k1 k) as [->|]; intros [[= -> ->]|H]%elem_of_cons;
      rewrite ?elem_of_cons; naive_solver.
Qed.
End odict.

(** ** Lists whose elements are identified by a key *)
Section keyed.
Context {A K : Type} (key : A → K).
Implicit Types (l : list A) (x : A).

Definition keys_unique l : Prop := NoDup (key <$> l).

Lemma keys_unique_nil : keys_unique [].
Proof. constructor. Qed.

Lemma keys_unique_snoc l x :
  keys_unique l → (∀ y, y ∈ l → key y ≠ key x) → keys_unique (l ++ [x]).
Proof.
  intros Hl Hx. unfold keys_unique. rewrite fmap_app. apply NoDup_app. split; [done|].
  split; [|by apply NoDup_singleton].
  intros k (y & -> & Hy)%list_elem_of_fmap Hk. apply list_elem_of_singleton in Hk.
  by apply (Hx y).
Qed.

Lemma keys_unique_delete l (i : nat) : keys_unique l → keys_unique (delete i l).
Proof.
  unfold keys_unique. intros H. eapply sublist_NoDup; [done|].
  apply fmap_sublist, sublist_delete_list.
Qed.

Lemma keys_unique_insert l (i : nat) x y :
  keys_unique l → l !! i = Some y → key y = key x → keys_unique (<[i:=x]> l).
Proof.
  unfold keys_unique. intros Hl Hy Hk. rewrite list_fmap_insert, list_insert_id; [done|].
  rewrite list_lookup_fmap, Hy. simpl. by rewrite Hk.
Qed.

Lemma keys_unique_inj l (i j : nat) x y :
  keys_unique l → l !! i = Some x → l !! j = Some y → key x = key y → i = j.
Proof.
  unfold keys_unique. intros Hl Hx Hy Hk. eapply NoDup_lookup; [done| |].
  - by rewrite list_lookup_fmap, Hx.
  - rewrite list_lookup_fmap, Hy. simpl. by rewrite Hk.
Qed.

Lemma keys_unique_elem l x y :
  keys_unique l → x ∈ l → y ∈ l → key x = key y → x = y.
Proof.
  intros Hl [i Hx]%list_elem_of_lookup [j Hy]%list_elem_of_lookup Hk.
  assert (i = j) as -> by by eapply keys_unique_inj. congruence.
Qed.

Lemma keys_unique_perm l (i : nat) x :
  keys_unique l → l !! i = Some x → ∀ y, y ∈ delete i l → key y ≠ key x.
Proof.
  intros Hl Hx y Hy Hk. pose proof (delete_Permutation l i x Hx) as Hp.
  unfold keys_unique in Hl. rewrite Hp in Hl. simpl in Hl.
  apply NoDup_cons in Hl as [Hn _]. apply Hn. rewrite <-Hk.
  by apply list_elem_of_fmap_2.
Qed.
End keyed.

(** Position lookup by a string key, the shape of every [find_*_index] of the code. *)
Lemma next_index_key {A} (key : A → string) (k : string) (l : list A) :
  ((next_index (λ it, String.eqb (key it) k) l <? 0) = true ∧ ∀ x, x ∈ l → key x ≠ k) ∨
  (∃ i x, next_index (λ it, String.eqb (key it) k) l = Z.of_nat i ∧
          (next_index (λ it, String.eqb (key it) k) l <? 0) = false ∧
          l !! i = Some x ∧ key x = k).
Proof.
  destruct (find_index (λ it, String.eqb (key it) k) l) as [i|] eqn:E.
  - right. pose proof (next_index_Some _ _ _ E) as Hi.
    apply find_index_Some in E as (x & Hx & Hk & _). exists i, x.
    rewrite Hi. repeat split; [|done|by apply String.eqb_eq].
    apply Z.ltb_ge. lia.
  - left. split; [by apply next_index_neg|]. intros x Hx.
    apply find_index_None with (x := x) in E; [|done]. by apply String.eqb_neq.
Qed.

Lemma string_map_map f g s : string_map f (string_map g s) = string_map (λ c, f (g c)) s.
Proof. induction s as [|c s IH]; simpl; [done|]. by rewrite IH. Qed.

Lemma string_map_ext f g s : (∀ c, f c = g c) → string_map f s = string_map g s.
Proof. intros H. induction s as [|c s IH]; simpl; [done|]. by rewrite H, IH. Qed.

(** ** Reasoning about the monad *)
Lemma bind_Ok {S A B} (m : M S A) (f : A → M S B) s s1 a :
  m s = (Ok a, s1) → (m ≫= f) s = f a s1.
Proof. intros H. unfold mbind, M_bind. by rewrite H. Qed.

Lemma getitem_0 {A} (l : list A) : py_getitem l 0 = match head l with Some x => Ok x | None => Raise IndexError end.
Proof. by destruct l. Qed.

Lemma getitem_1 {A} (l : list A) : py_getitem l 1 = match l with _ :: y :: _ => Ok y | _ => Raise IndexError end.
Proof. destruct l as [|x [|y l]]; [done..|]. by apply (py_getitem_nat (x :: y :: l) 1). Qed.

Lemma bind_liftR {S A B} (r : result A) (f : A → M S B) s :
  (liftR r ≫= f) s = match r with Ok a => f a s | Raise e => (Raise e, s) end.
Proof. by destruct r. Qed.
Lemma bind_getS {S B} (f : S → M S B) s : (getS ≫= f) s = f s s.
Proof. done. Qed.
Lemma bind_modifyS {S B} (g : S → S) (f : unit → M S B) s : (modifyS g ≫= f) s = f tt (g s).
Proof. done. Qed.
Lemma for_each_app {S A} (l l' : list A) (f : A → M S unit) s : for_each (l ++ l') f s = (for_each l f ;; for_each l' f) s.
Proof.
  revert s. induction l as [|x l IH]; intros s; [done|]. cbn [app for_each]. unfold mbind, M_bind in *.
  destruct (f x s) as [[[]|e] s']; [by rewrite IH|done].
Qed.
Lemma map_result_all {A B} (f : A → result B) (g : A → B) l : Forall (λ x, f x = Ok (g x)) l → map_result f l = Ok (g <$> l).
Proof. induction 1 as [|x l Hx _ IH]; [done|]. cbn [map_result]. rewrite Hx. unfold mbind, result_bind in *. by rewrite IH. Qed.
Lemma bind_Raise {S A B} (m : M S A) (f : A → M S B) s s1 e :
  m s = (Raise e, s1) → (m ≫= f) s = (Raise e, s1).
Proof. intros H. unfold mbind, M_bind. by rewrite H. Qed.

Lemma bind_Ok_inv {S A B} (m : M S A) (f : A → M S B) s s2 b :
  (m ≫= f) s = (Ok b, s2) → ∃ a s1, m s = (Ok a, s1) ∧ f a s1 = (Ok b, s2).
Proof. unfold mbind, M_bind. destruct (m s) as [[a|e] s1]; naive_solver. Qed.

Lemma result_bind_Ok_inv {A B} (m : result A) (f : A → result B) b :
  (m ≫= f) = Ok b → ∃ a, m = Ok a ∧ f a = Ok b.
Proof. destruct m; naive_solver. Qed.

(** [preserves I m]: the method keeps [I], whether it returns or raises. *)
Definition preserves {S A} (I : S → Prop) (m : M S A) : Prop := ∀ s, I s → I (m s).2.

(** [reads m]: the method does not change the state. *)
Definition reads {S A} (m : M S A) : Prop := ∀ s, (m s).2 = s.

Section preserves.
Context {S : Type} (I : S → Prop).

Lemma preserves_ret {A} (a : A) : preserves I (mret a).
Proof. by intros s. Qed.
Lemma preserves_raise {A} e : preserves I (raise (A:=A) e).
Proof. by intros s. Qed.
Lemma preserves_getS : preserves I getS.
Proof. by intros s. Qed.
Lemma preserves_liftR {A} (r : result A) : preserves I (liftR r).
Proof. by intros s. Qed.
Lemma preserves_putS s : I s → preserves I (putS s).
Proof. by intros ? ?. Qed.
Lemma preserves_modifyS f : (∀ s, I s → I (f s)) → preserves I (modifyS f).
Proof. intros H s Hs. by apply H. Qed.

Lemma preserves_bind {A B} (m : M S A) (f : A → M S B) :
  preserves I m → (∀ a, preserves I (f a)) → preserves I (m ≫= f).
Proof.
  intros Hm Hf s Hs. unfold mbind, M_bind. specialize (Hm s Hs).
  destruct (m s) as [[a|e] s1]; [by apply Hf|done].
Qed.

Lemma preserves_get_bind {B} (f : S → M S B) :
  (∀ s, I s → I (f s s).2) → preserves I (getS ≫= f).
Proof. intros H s Hs. by apply H. Qed.

Lemma preserves_get_known {B} (f : S → M S B) :
  (∀ s, I s → preserves I (f s)) → preserves I (getS ≫= f).
Proof. intros H s Hs. by apply H. Qed.

Lemma preserves_if {A} (b : bool) (m1 m2 : M S A) :
  preserves I m1 → preserves I m2 → preserves I (if b then m1 else m2).
Proof. by destruct b. Qed.

Lemma preserves_for_each {A} (l : list A) (f : A → M S unit) :
  (∀ x, preserves I (f x)) → preserves I (for_each l f).
Proof.
  intros Hf. induction l as [|x l IH]; simpl; [apply preserves_ret|].
  apply preserves_bind; auto.
Qed.

(** A loop one of whose steps raises. *)
Lemma for_each_raises {A} (hit : A → Prop) (l : list A) (f : A → M S unit) s :
  (∀ x, preserves I (f x)) → (∀ x s, hit x → I s → ∃ e, (f x s).1 = Raise e) →
  I s → Exists hit l → ∃ e, (for_each l f s).1 = Raise e.
Proof.
  intros Hf Hx Hs Hl. revert s Hs. induction Hl as [x l Hh|x l Hl IH]; intros s Hs; simpl.
  - destruct (Hx x s Hh Hs) as [e He]. exists e. unfold mbind, M_bind. by destruct (f x s) as [[]].
  - specialize (Hf x s Hs). unfold mbind, M_bind. destruct (f x s) as [[[]|e] s1]; [by apply IH|by exists e].
Qed.

Lemma preserves_catch {A} (m : M S A) h :
  preserves I m → (∀ e k, h e = Some k → preserves I k) → preserves I (catch m h).
Proof.
  intros Hm Hh s Hs. unfold catch. specialize (Hm s Hs).
  destruct (m s) as [[a|e] s1]; simpl in *; [done|].
  destruct (h e) as [k|] eqn:E; [by apply (Hh e k)|done].
Qed.

Lemma preserves_reads {A} (m : M S A) : reads m → preserves I m.
Proof. intros H s Hs. by rewrite H. Qed.
End preserves.

Lemma preserves_zoom {S T A} (I : T → Prop) (J : S → Prop) (pr : T → S) upd (m : M S A) :
  (∀ t, I t → J (pr t)) → (∀ s t, I t → J s → I (upd s t)) →
  preserves J m → preserves I (zoom pr upd m).
Proof.
  intros H1 H2 Hm t Ht. unfold zoom. specialize (Hm (pr t) (H1 t Ht)).
  destruct (m (pr t)) as [r s']. simpl in *. by apply H2.
Qed.

(** ** Triples

    From a state with [P], a call that returns leads to [Q], one that raises leads to [E]. *)
Definition triple {S A} (P : S → Prop) (m : M S A) (Q : A → S → Prop) (E : S → Prop) : Prop :=
  ∀ s, P s → match m s with (Ok a, s') => Q a s' | (Raise _, s') => E s' end.

Section triples.
Context {S : Type}.
Implicit Types (P E : S → Prop).

Lemma triple_ret {A} P E (Q : A → S → Prop) (a : A) : (∀ s, P s → Q a s) → triple P (mret a) Q E.
Proof. intros H s Hs. by apply H. Qed.
Lemma triple_raise {A} P E (Q : A → S → Prop) e : (∀ s, P s → E s) → triple P (raise e) Q E.
Proof. intros H s Hs. by apply H. Qed.
Lemma triple_liftR {A} P E (Q : A → S → Prop) (r : result A) :
  (∀ s a, P s → r = Ok a → Q a s) → (∀ s, P s → E s) → triple P (liftR r) Q E.
Proof. intros H1 H2 s Hs. unfold liftR. destruct r; [by apply H1|by apply H2]. Qed.
Lemma triple_modifyS P E (Q : unit → S → Prop) f : (∀ s, P s → Q tt (f s)) → triple P (modifyS f) Q E.
Proof. intros H s Hs. by apply H. Qed.
Lemma triple_bind {A B} P E (R : A → S → Prop) (Q : B → S → Prop) (m : M S A) (f : A → M S B) :
  triple P m R E → (∀ a, triple (R a) (f a) Q E) → triple P (m ≫= f) Q E.
Proof.
  intros Hm Hf s Hs. specialize (Hm s Hs). unfold mbind, M_bind.
  destruct (m s) as [[a|e] s1]; [by apply Hf|done].
Qed.
(** The state read by [getS] may be used in what follows. *)
Lemma triple_get {B} P E (Q : B → S → Prop) (f : S → M S B) :
  (∀ s, P s → triple (λ s', s' = s) (f s) Q E) → triple P (s ← getS; f s) Q E.
Proof. intros H s Hs. by apply (H s Hs s). Qed.
Lemma triple_conseq {A} P P' E E' (Q Q' : A → S → Prop) (m : M S A) :
  triple P' m Q' E' → (∀ s, P s → P' s) → (∀ a s, Q' a s → Q a s) → (∀ s, E' s → E s) → triple P m Q E.
Proof.
  intros Hm HP HQ HE s Hs. specialize (Hm s (HP s Hs)). destruct (m s) as [[]]; auto.
Qed.
Lemma triple_for_each {A} P E (l : list A) (f : A → M S unit) :
  (∀ x, x ∈ l → triple P (f x) (λ _, P) E) → triple P (for_each l f) (λ _, P) E.
Proof.
  induction l as [|x l IH]; intros Hf; [by apply triple_ret|].
  apply triple_bind with (λ _, P); [apply Hf; by left|]. intros []. apply IH. intros y Hy. apply Hf. by right.
Qed.
Lemma triple_preserves {A} P (m : M S A) : triple P m (λ _, P) P ↔ preserves P m.
Proof.
  split; intros H s Hs; specialize (H s Hs); destruct (m s) as [[]]; done.
Qed.
End triples.

Create HintDb preserve discriminated.
#[export] Hint Resolve preserves_ret preserves_raise preserves_getS preserves_liftR
  preserves_bind preserves_if preserves_for_each : preserve.

(** Split a method into its steps and keep the invariant through each. *)
Ltac preserve_steps :=
  repeat match goal with
  | |- preserves _ (mret _) => apply preserves_ret
  | |- preserves _ (raise _) => apply preserves_raise
  | |- preserves _ (liftR _) => apply preserves_liftR
  | |- preserves _ getS => apply preserves_getS
  | |- preserves _ (_ ≫= _) => apply preserves_bind; [|intros ?]
  | |- preserves _ (for_each _ _) => apply preserves_for_each; intros ?
  | |- preserves _ (if ?b then _ else _) => destruct b eqn:?
  | |- preserves _ (match ?x with _ => _ end) => destruct x eqn:?
  | |- preserves _ _ => solve [eauto with preserve]
  end.

(** Run a monadic program on a state as far as its tests are known. *)
Ltac run_M :=
  repeat (unfold mbind, M_bind, result_bind, mret, M_ret, result_ret, raise, getS, putS, modifyS,
            liftR in *; cbn -[Z.add Z.mul Z.sub Z.ltb Z.leb Z.eqb String.eqb] in * ).

(** ** Dictionaries keyed by an area *)
Section areas.
Context {V : Type}.
Fixpoint z_get (a : Z) (l : list (Z * V)) : option V :=
  match l with [] => None | (b, v) :: l' => if b =? a then Some v else z_get a l' end.
Fixpoint z_set (a : Z) (v : V) (l : list (Z * V)) : list (Z * V) :=
  match l with [] => [(a, v)] | (b, w) :: l' => if b =? a then (a, v) :: l' else (b, w) :: z_set a v l' end.
Lemma z_get_set a b v l : z_get a (z_set b v l) = if b =? a then Some v else z_get a l.
Proof.
  induction l as [|[c w] l IH]; cbn; [done|]. destruct (Z.eqb_spec c b) as [->|Hcb]; cbn.
  - by destruct (b =? a).
  - rewrite IH. destruct (Z.eqb_spec c a) as [->|], (Z.eqb_spec b a) as [->|]; done.
Qed.
Lemma z_get_in a v l : z_get a l = Some v → a ∈ l.*1.
Proof.
  induction l as [|[c w] l IH]; cbn; [done|]. destruct (Z.eqb_spec c a) as [->|]; [left|right; auto].
Qed.
End areas.
