(* ===== verification/Ipam.v ===== *)
(** * IPv4 addresses, pools and the range allocator

    The part of Python's [ipaddress] the code uses, [IPv4Pool] and [IPv4ReservedRange] of
    models/network/network_models.py, and utils/ipam.py.  An address is its integer value; every
    address computation goes through [IPv4Address], which raises outside 32 bits. *)

From stdpp Require Import base list strings gmap.
From Stdlib Require Import ZArith Lia Sorted Permutation.
From S2P Require Import Prelude.

Open Scope Z_scope.

(** ** ipaddress *)
Definition max_ipv4 : Z := 2 ^ 32 - 1.

(** [IPv4Address(n)] for an integer. *)
Definition IPv4Address (n : Z) : result Z :=
  if (0 <=? n) && (n <=? max_ipv4) then Ok n else Raise AddressValueError.

Record IPv4Network := { network_address : Z; prefixlen : Z }.

#[export] Instance IPv4Network_eq_dec : EqDecision IPv4Network.
Proof. solve_decision. Defined.

Definition num_addresses (n : IPv4Network) : Z := 2 ^ (32 - prefixlen n).
Definition broadcast_address (n : IPv4Network) : Z := network_address n + num_addresses n - 1.

Definition wf_network (n : IPv4Network) : Prop :=
  0 ≤ prefixlen n ≤ 32 ∧ 0 ≤ network_address n ∧ broadcast_address n ≤ max_ipv4.

(** [cidr[n]]: negative subscripts count from the broadcast address. *)
Definition network_getitem (c : IPv4Network) (n : Z) : result Z :=
  if 0 <=? n then
    if broadcast_address c <? network_address c + n then Raise IndexError
    else IPv4Address (network_address c + n)
  else
    let n' := n + 1 in
    if broadcast_address c + n' <? network_address c then Raise IndexError
    else IPv4Address (broadcast_address c + n').

(** [ip in cidr]. *)
Definition in_network (ip : Z) (c : IPv4Network) : bool :=
  (network_address c <=? ip) && (ip <=? broadcast_address c).

(** ** Pools and reserved ranges *)
Record IPv4Pool := { start : Z; end_ : Z }.

#[export] Instance IPv4Pool_eq_dec : EqDecision IPv4Pool.
Proof. solve_decision. Defined.

(** pydantic's field-wise equality. *)
Definition IPv4Pool_eqb (a b : IPv4Pool) : bool := (start a =? start b) && (end_ a =? end_ b).

Record IPv4ReservedRange := { range_pool : IPv4Pool; owner : string }.

#[export] Instance IPv4ReservedRange_eq_dec : EqDecision IPv4ReservedRange.
Proof. solve_decision. Defined.

(** [IPv4ReservedRange.__eq__(self, other)]: an end of [self] lies in [other]. *)
Definition IPv4ReservedRange_eq (self other : IPv4ReservedRange) : bool :=
  let s := range_pool self in let o := range_pool other in
  ((start o <=? start s) && (start s <=? end_ o)) ||
  ((start o <=? end_ s) && (end_ s <=? end_ o)).

(** ** utils/ipam.py *)
Definition is_ip_in_range (ip ip_min ip_max : Z) : bool := (ip_min <=? ip) && (ip <=? ip_max).

Definition check_range_in_cidr (ip_min ip_max : Z) (cidr : IPv4Network) : bool :=
  in_network ip_min cidr && in_network ip_max cidr.

Definition get_range_length (ip_min ip_max : Z) : Z := ip_max - ip_min.

(** [sorted(reserved_ranges, key=lambda k: inet_aton(k.start.exploded))]: a stable sort; the
    order of the packed bytes is the order of the addresses. *)
Fixpoint insert_by_start (r : IPv4Pool) (l : list IPv4Pool) : list IPv4Pool :=
  match l with
  | [] => [r]
  | x :: l' => if start r <=? start x then r :: x :: l' else x :: insert_by_start r l'
  end.

Definition sort_by_start (l : list IPv4Pool) : list IPv4Pool := foldr insert_by_start [] l.

(** One turn of the outer loop of [get_available_network_ip]. *)
Definition cut_available (cidr : IPv4Network) (r : IPv4Pool) (available : list IPv4Pool)
  : result (list IPv4Pool) :=
  if end_ r - start r <? 0 then Raise ValueError
  else if negb (check_range_in_cidr (start r) (end_ r) cidr) then Raise ValueError
  else
    match find_index (λ ava, start r <? end_ ava) available with
    | None => Ok available
    | Some i =>
        match available !! i with
        | None => Ok available
        | Some ava =>
            let original_end := end_ ava in
            new_end ← IPv4Address (start r - 1);
            let ava' := {| start := start ava; end_ := new_end |} in
            let available1 := <[i := ava']> available in
            let available2 := if new_end <=? start ava'
                              then py_remove_at IPv4Pool_eqb i available1 else available1 in
            new_start ← IPv4Address (end_ r + 1);
            Ok (available2 ++ [{| start := new_start; end_ := original_end |}])
        end
    end.

Fixpoint cut_all (cidr : IPv4Network) (ordered : list IPv4Pool) (available : list IPv4Pool)
  : result (list IPv4Pool) :=
  match ordered with
  | [] => Ok available
  | r :: ordered' => available' ← cut_available cidr r available; cut_all cidr ordered' available'
  end.

Definition get_available_network_ip (cidr : IPv4Network) (reserved_ranges : list IPv4Pool)
  : result (list IPv4Pool) :=
  first ← network_getitem cidr 4;
  last ← network_getitem cidr (-2);
  cut_all cidr (sort_by_start reserved_ranges) [{| start := first; end_ := last |}].

Definition get_range_in_cidr (cidr : IPv4Network) (reserved_ranges : list IPv4Pool)
  (range_length : Z) : result IPv4Pool :=
  available_ranges ← get_available_network_ip cidr reserved_ranges;
  match find (λ ava, range_length <=? get_range_length (start ava) (end_ ava)) available_ranges with
  | Some ava =>
      new_end ← IPv4Address (start ava + range_length);
      Ok {| start := start ava; end_ := new_end |}
  | None => Raise ValueError
  end.

(** ** The contract of the allocator *)

(** Two pools share no address. *)
Definition pools_disjoint (a b : IPv4Pool) : Prop := end_ a < start b ∨ end_ b < start a.

(** The first and the last address the code hands out. *)
Definition first_usable (c : IPv4Network) : Z := network_address c + 4.
Definition last_usable (c : IPv4Network) : Z := broadcast_address c - 1.

(** A reservation the cutting loop can process: the two checks of the loop, and neighbours that
    are addresses. *)
Definition reservation_ok (c : IPv4Network) (r : IPv4Pool) : Prop :=
  start r ≤ end_ r ∧ check_range_in_cidr (start r) (end_ r) c = true ∧
  0 < start r ∧ end_ r < max_ipv4.

#[export] Instance pools_disjoint_sym : Symmetric pools_disjoint.
Proof. unfold pools_disjoint. intros a b. tauto. Qed.

Lemma IPv4Address_Ok n a : IPv4Address n = Ok a ↔ a = n ∧ 0 ≤ n ≤ max_ipv4.
Proof.
  unfold IPv4Address. destruct (_ && _) eqn:E.
  - apply andb_true_iff in E as [Ha%Z.leb_le Hb%Z.leb_le].
    split; [by intros [= <-]|by intros [-> _]].
  - apply andb_false_iff in E as [Ha%Z.leb_gt|Ha%Z.leb_gt]; (split; [done|lia]).
Qed.

Lemma network_getitem_nonneg c n a :
  0 ≤ n → network_getitem c n = Ok a → a = network_address c + n.
Proof.
  intros Hn. unfold network_getitem. rewrite (proj2 (Z.leb_le 0 n)) by lia.
  destruct (_ <? _); [done|]. by intros [-> _]%IPv4Address_Ok.
Qed.

Lemma network_getitem_last c a : network_getitem c (-2) = Ok a → a = last_usable c.
Proof.
  unfold network_getitem, last_usable. simpl. destruct (_ <? _); [done|].
  intros [-> _]%IPv4Address_Ok. lia.
Qed.

(** The order of the outer loop does not change which ranges are reserved. *)
Lemma insert_by_start_perm r l : Permutation (insert_by_start r l) (r :: l).
Proof.
  induction l as [|x l IH]; simpl; [done|]. destruct (_ <=? _); [done|].
  rewrite IH. constructor.
Qed.

Lemma sort_by_start_perm l : Permutation (sort_by_start l) l.
Proof.
  induction l as [|x l IH]; simpl; [done|]. by rewrite insert_by_start_perm, IH.
Qed.

Definition starts_before (a b : IPv4Pool) : Prop := start a ≤ start b.

Lemma sort_by_start_sorted l : StronglySorted starts_before (sort_by_start l).
Proof.
  unfold starts_before. induction l as [|x l IH]; simpl; [constructor|].
  induction IH as [|y l' Hs IH' Hall]; simpl; [repeat constructor|].
  destruct (start x <=? start y) eqn:E.
  - apply Z.leb_le in E. repeat constructor; try done.
    eapply Forall_impl; [done|]. simpl. lia.
  - apply Z.leb_gt in E. constructor; [done|].
    rewrite insert_by_start_perm. constructor; [lia|done].
Qed.

Lemma ForallOrdPairs_disjoint_perm l l' :
  Permutation l l' → ForallOrdPairs pools_disjoint l → ForallOrdPairs pools_disjoint l'.
Proof.
  induction 1 as [|x l l' Hp IH|x y l|l l' l'' _ IH1 _ IH2]; intros H; auto.
  - inversion H as [|? ? Hx Hl]; subst. constructor; [by rewrite <-Hp|auto].
  - inversion H as [|? ? Hx Hl]; subst. inversion Hl as [|? ? Hy Hl']; subst.
    inversion Hx as [|? ? Hxy Hx']; subst.
    constructor; [constructor; [by symmetry|done]|by constructor].
Qed.

(** ** One cut *)
Lemma cut_available_guards c r l l' :
  cut_available c r l = Ok l' →
  start r ≤ end_ r ∧ check_range_in_cidr (start r) (end_ r) c = true.
Proof.
  unfold cut_available. destruct (end_ r - start r <? 0) eqn:E; [done|].
  apply Z.ltb_ge in E. destruct (check_range_in_cidr _ _ _); [|done]. simpl.
  intros _. split; [lia|done].
Qed.

(** What remains of the last pool on the left of a reservation. *)
Definition left_part (s : Z) (r : IPv4Pool) : list IPv4Pool :=
  if start r - 1 <=? s then [] else [{| start := s; end_ := start r - 1 |}].

Lemma find_index_app_last {A} (p : A → bool) l x :
  (∀ y, y ∈ l → p y = false) → p x = true → find_index p (l ++ [x]) = Some (length l).
Proof.
  intros Hl Hx. apply find_index_Some. exists x.
  split; [by rewrite lookup_app_r, Nat.sub_diag by lia|]. split; [done|].
  intros j y Hj Hy. rewrite lookup_app_l in Hy by done.
  apply Hl. by eapply list_elem_of_lookup_2.
Qed.

Lemma insert_app_last {A} (l : list A) x y : <[length l := y]> (l ++ [x]) = l ++ [y].
Proof. rewrite insert_app_r_alt by done. by rewrite Nat.sub_diag. Qed.

Lemma py_remove_at_last (l : list IPv4Pool) x :
  (∀ y, y ∈ l → IPv4Pool_eqb y x = false) → py_remove_at IPv4Pool_eqb (length l) (l ++ [x]) = l.
Proof.
  intros Hl. unfold py_remove_at. rewrite lookup_app_r, Nat.sub_diag by lia. simpl.
  rewrite take_app_length. rewrite (proj2 (find_index_None _ l)) by done.
  clear Hl. induction l as [|a l IH]; simpl; [done|]. by rewrite IH.
Qed.

(** Every pool but the last was closed by an earlier reservation, so a reservation cuts the
    last one. *)
Lemma cut_available_last c r closed lst :
  (∀ p, p ∈ closed → start p < end_ p ∧ end_ p < start r) → start r < end_ lst →
  reservation_ok c r →
  cut_available c r (closed ++ [lst]) =
  Ok (closed ++ left_part (start lst) r ++ [{| start := end_ r + 1; end_ := end_ lst |}]).
Proof.
  intros Hcl Hlst (Hle & Hin & H0 & Hmax). unfold cut_available.
  rewrite (proj2 (Z.ltb_ge _ _)) by lia. rewrite Hin. simpl.
  rewrite find_index_app_last; [|intros y [? ?]%Hcl; apply Z.ltb_ge; lia|by apply Z.ltb_lt].
  rewrite lookup_app_r, Nat.sub_diag by lia. simpl.
  assert (start r ≤ max_ipv4) by lia.
  rewrite (proj2 (IPv4Address_Ok (start r - 1) _)) by (split; [done|lia]). simpl.
  rewrite (proj2 (IPv4Address_Ok (end_ r + 1) _)) by (split; [done|lia]). simpl.
  rewrite insert_app_last. unfold left_part. destruct (_ <=? _) eqn:E.
  - apply Z.leb_le in E. rewrite py_remove_at_last; [done|].
    intros y [? ?]%Hcl. unfold IPv4Pool_eqb. simpl.
    destruct (Z.eqb_spec (start y) (start lst)), (Z.eqb_spec (end_ y) (start r - 1)); try done; lia.
  - by rewrite <-(assoc_L (++)).
Qed.

Lemma cut_available_Ok_bounds c r closed lst l' :
  cut_available c r (closed ++ [lst]) = Ok l' → start r < end_ lst →
  (∀ p, p ∈ closed → end_ p < start r) →
  reservation_ok c r.
Proof.
  intros H Hlst Hcl. pose proof (cut_available_guards _ _ _ _ H) as [Hle Hin].
  unfold cut_available in H. rewrite (proj2 (Z.ltb_ge _ _)) in H by lia. rewrite Hin in H.
  simpl in H.
  rewrite find_index_app_last in H; [|intros y ?%Hcl; apply Z.ltb_ge; lia|by apply Z.ltb_lt].
  rewrite lookup_app_r, Nat.sub_diag in H by lia. simpl in H.
  apply result_bind_Ok_inv in H as (n1 & [_ H1]%IPv4Address_Ok & H).
  apply result_bind_Ok_inv in H as (n2 & [_ H2]%IPv4Address_Ok & H).
  unfold reservation_ok. repeat split; try done; lia.
Qed.

(** ** The loop *)

(** The pools after the reservations [done] with [rest] still to come: the closed ones end
    before all of [rest] and avoid all of [done]; the last one ends at the last usable address
    and starts after all of [done]. *)
Record cut_inv (c : IPv4Network) (done rest closed : list IPv4Pool) (lst : IPv4Pool) : Prop := {
  ci_end : end_ lst = last_usable c;
  ci_low : network_address c < start lst;
  ci_done : ∀ d, d ∈ done → end_ d < start lst;
  ci_closed : ∀ p, p ∈ closed →
    network_address c < start p ∧ start p < end_ p ∧ end_ p < last_usable c ∧
    (∀ d, d ∈ done → pools_disjoint p d) ∧ (∀ r, r ∈ rest → end_ p < start r)
}.

(** What the loop needs of the reservations still to come. *)
Definition cut_input (c : IPv4Network) (rest : list IPv4Pool) : Prop :=
  StronglySorted starts_before rest ∧ ForallOrdPairs pools_disjoint rest ∧
  ∀ r, r ∈ rest → start r < last_usable c.

Lemma left_part_elem p s r :
  p ∈ left_part s r → start p = s ∧ end_ p = start r - 1 ∧ start p < end_ p.
Proof.
  unfold left_part. destruct (_ <=? _) eqn:E; [by intros ?%not_elem_of_nil|].
  apply Z.leb_gt in E. intros ->%list_elem_of_singleton. simpl. lia.
Qed.

Lemma check_range_low c a b : check_range_in_cidr a b c = true → network_address c ≤ a ≤ broadcast_address c ∧ network_address c ≤ b ≤ broadcast_address c.
Proof.
  unfold check_range_in_cidr, in_network. rewrite !andb_true_iff, !Z.leb_le. lia.
Qed.

Lemma cut_inv_step c dn r rest closed lst :
  cut_inv c dn (r :: rest) closed lst → cut_input c (r :: rest) → reservation_ok c r →
  (∀ r', r' ∈ rest → start r' ≤ end_ r') →
  (∀ d, d ∈ dn → end_ d < start r) →
  cut_inv c (r :: dn) rest (closed ++ left_part (start lst) r)
    {| start := end_ r + 1; end_ := end_ lst |} ∧
  (∀ d, d ∈ r :: dn → ∀ r', r' ∈ rest → end_ d < start r').
Proof.
  intros [Hend Hlow Hdone Hclosed] (Hs & Hd & Hlast) (Hle & Hin & H0 & Hmax) Hval Hdr.
  apply StronglySorted_inv in Hs as [_ Hsr]. inversion Hd as [|? ? Hdr' _]; subst.
  rewrite Forall_forall in Hsr, Hdr'.
  apply check_range_low in Hin as [Hin1 Hin2].
  assert (Hr : ∀ r', r' ∈ rest → end_ r < start r').
  { intros r' Hr'. specialize (Hsr r' Hr'). specialize (Hdr' r' Hr'). specialize (Hval r' Hr').
    unfold starts_before, pools_disjoint in *. lia. }
  assert (Hrl : start r < last_usable c) by (apply Hlast; left).
  split.
  - constructor; simpl; [done|lia| |].
    + intros d [->|Hd']%elem_of_cons; [lia|]. specialize (Hdr d Hd'). lia.
    + intros p [Hp|Hp]%elem_of_app.
      * destruct (Hclosed p Hp) as (? & ? & ? & Hpd & Hpr). repeat split; try done.
        -- intros d [->|Hd']%elem_of_cons; [|by apply Hpd].
           left. apply Hpr. left.
        -- intros r' Hr'. apply Hpr. by right.
      * apply left_part_elem in Hp as (Hp1 & Hp2 & Hp3). repeat split; try lia.
        -- intros d [->|Hd']%elem_of_cons; [left; lia|].
           right. specialize (Hdone d Hd'). lia.
        -- intros r' Hr'. specialize (Hr r' Hr'). lia.
  - intros d [->|Hd']%elem_of_cons r' Hr'; [by apply Hr|].
    specialize (Hdr d Hd'). specialize (Hr r' Hr'). lia.
Qed.

Lemma cut_input_tail c r rest : cut_input c (r :: rest) → cut_input c rest.
Proof.
  intros (Hs & Hd & Hl). split; [by apply StronglySorted_inv in Hs as [? _]|].
  split; [by inversion Hd|]. intros r' Hr'. apply Hl. by right.
Qed.

(** The loop keeps the pool invariant, and pools that hold a free interval keep holding it. *)
Definition covered (a b : Z) (avail : list IPv4Pool) : Prop :=
  ∃ p, p ∈ avail ∧ start p ≤ a ∧ b ≤ end_ p.

Lemma covered_step a b closed lst r :
  a < b → start r ≤ end_ r →
  covered a b (closed ++ [lst]) → pools_disjoint {| start := a; end_ := b |} r →
  covered a b (closed ++ left_part (start lst) r ++ [{| start := end_ r + 1; end_ := end_ lst |}]).
Proof.
  intros Hab Hr (p & Hp & Hpa & Hpb) Hdis. apply elem_of_app in Hp as [Hp|Hp].
  { exists p. split; [|done]. apply elem_of_app. by left. }
  apply list_elem_of_singleton in Hp as ->. destruct Hdis as [Hd|Hd]; simpl in Hd.
  - exists {| start := start lst; end_ := start r - 1 |}. simpl. split; [|lia].
    apply elem_of_app. right. apply elem_of_app. left. unfold left_part.
    rewrite (proj2 (Z.leb_gt _ _)) by lia. left.
  - exists {| start := end_ r + 1; end_ := end_ lst |}. simpl. split; [|lia].
    rewrite !elem_of_app. right. right. left.
Qed.

Lemma cut_all_sound c rest :
  ∀ dn closed lst avail,
  cut_inv c dn rest closed lst → cut_input c rest →
  (∀ d, d ∈ dn → ∀ r, r ∈ rest → end_ d < start r) →
  cut_all c rest (closed ++ [lst]) = Ok avail →
  ∀ p, p ∈ avail →
    network_address c < start p ∧ end_ p ≤ last_usable c ∧
    (start p ≤ end_ p → ∀ r, r ∈ dn ++ rest → pools_disjoint p r).
Proof.
  induction rest as [|r rest IH]; intros dn closed lst avail Hinv Hin Hdr H p Hp.
  - simpl in H. injection H as <-. rewrite app_nil_r.
    apply elem_of_app in Hp as [Hp| ->%list_elem_of_singleton].
    + apply Hinv in Hp as (? & ? & ? & ? & _). repeat split; auto. lia.
    + destruct Hinv as [He Hl Hd _]. repeat split; [done|lia|].
      intros Hse r Hr. right. by apply Hd.
  - simpl in H. apply result_bind_Ok_inv in H as (avail1 & H1 & H2).
    assert (Hlst : start r < end_ lst).
    { rewrite (ci_end _ _ _ _ _ Hinv). apply Hin. left. }
    assert (Hcl : ∀ q, q ∈ closed → start q < end_ q ∧ end_ q < start r).
    { intros q Hq. apply Hinv in Hq as (? & ? & ? & _ & Hr). split; [done|]. apply Hr. left. }
    pose proof (cut_available_Ok_bounds _ _ _ _ _ H1 Hlst (λ q Hq, proj2 (Hcl q Hq))) as Hok.
    rewrite cut_available_last in H1 by done. injection H1 as <-.
    assert (Hval : ∀ r', r' ∈ rest → start r' ≤ end_ r').
    { intros r' Hr'. clear -H2 Hr'. revert H2.
      generalize (closed ++ left_part (start lst) r ++ [{| start := end_ r + 1; end_ := end_ lst |}]).
      induction rest as [|x rest IH]; [by apply not_elem_of_nil in Hr'|].
      intros l Hl. simpl in Hl. apply result_bind_Ok_inv in Hl as (l1 & Hl1 & Hl2).
      apply elem_of_cons in Hr' as [->|Hr']; [by apply cut_available_guards in Hl1 as [? _]|].
      by eapply IH. }
    destruct (cut_inv_step c dn r rest closed lst) as [Hinv' Hdr'];
      [done|done|done|done|intros d Hd; apply Hdr; [done|left]|].
    rewrite (assoc_L (++)) in H2.
    destruct (IH _ _ _ _ Hinv' (cut_input_tail _ _ _ Hin) Hdr' H2 p Hp) as (? & ? & Hall).
    repeat split; [done|done|]. intros Hse q Hq. apply Hall; [done|].
    rewrite elem_of_app in *. rewrite !elem_of_cons in *. tauto.
Qed.

Lemma cut_all_complete c rest a b :
  a < b →
  ∀ dn closed lst,
  cut_inv c dn rest closed lst → cut_input c rest →
  (∀ d, d ∈ dn → ∀ r, r ∈ rest → end_ d < start r) →
  (∀ r, r ∈ rest → reservation_ok c r ∧ pools_disjoint {| start := a; end_ := b |} r) →
  covered a b (closed ++ [lst]) →
  ∃ avail, cut_all c rest (closed ++ [lst]) = Ok avail ∧ covered a b avail.
Proof.
  intros Hab. induction rest as [|r rest IH]; intros dn closed lst Hinv Hin Hdr Hres Hcov.
  { by eexists. }
  destruct (Hres r ltac:(left)) as [Hok Hdis].
  assert (Hlst : start r < end_ lst).
  { rewrite (ci_end _ _ _ _ _ Hinv). apply Hin. left. }
  assert (Hcl : ∀ q, q ∈ closed → start q < end_ q ∧ end_ q < start r).
  { intros q Hq. apply Hinv in Hq as (? & ? & ? & _ & Hr). split; [done|]. apply Hr. left. }
  destruct (cut_inv_step c dn r rest closed lst) as [Hinv' Hdr'];
    [done|done|done|intros r' Hr'; apply (Hres r'); by right
    |intros d Hd; apply Hdr; [done|left]|].
  simpl. rewrite cut_available_last by done. unfold mbind, result_bind.
  pose proof (covered_step a b closed lst r Hab (proj1 Hok) Hcov Hdis) as Hcov'.
  rewrite (assoc_L (++)) in *.
  eapply IH; [done|by eapply cut_input_tail|done| |done].
  intros r' Hr'. apply Hres. by right.
Qed.

Lemma cut_inv_init c rest :
  network_address c + 4 ≤ broadcast_address c →
  cut_inv c [] rest [] {| start := first_usable c; end_ := last_usable c |}.
Proof.
  intros H. unfold first_usable. constructor; simpl; [done|lia| |].
  - by intros d ?%not_elem_of_nil.
  - by intros p ?%not_elem_of_nil.
Qed.

Lemma cut_input_sort c reserved :
  ForallOrdPairs pools_disjoint reserved →
  (∀ r, r ∈ reserved → start r < last_usable c) →
  cut_input c (sort_by_start reserved).
Proof.
  intros Hd Hl. split; [apply sort_by_start_sorted|]. split.
  - eapply ForallOrdPairs_disjoint_perm; [|done]. symmetry. apply sort_by_start_perm.
  - intros r Hr. apply Hl. by rewrite sort_by_start_perm in Hr.
Qed.

Lemma network_getitem_4 c :
  network_getitem c 4 =
  if broadcast_address c <? network_address c + 4 then Raise IndexError
  else IPv4Address (network_address c + 4).
Proof. done. Qed.

(** The range handed out has the requested extent, lies inside the network without its
    first and last address, and meets no reserved range. *)
Lemma get_range_in_cidr_Ok c reserved n p :
  0 ≤ n → ForallOrdPairs pools_disjoint reserved →
  (∀ r, r ∈ reserved → start r < last_usable c) →
  get_range_in_cidr c reserved n = Ok p →
  end_ p = start p + n ∧ network_address c < start p ∧ end_ p ≤ last_usable c ∧
  ∀ r, r ∈ reserved → pools_disjoint p r.
Proof.
  intros Hn Hd Hl H. unfold get_range_in_cidr in H.
  apply result_bind_Ok_inv in H as (avail & Hav & H).
  destruct (find _ avail) as [ava|] eqn:Hf; [|done].
  apply find_some in Hf as [Hmem Hlen%Z.leb_le]. apply list_elem_of_In in Hmem.
  unfold get_range_length in Hlen.
  apply result_bind_Ok_inv in H as (e & [-> He]%IPv4Address_Ok & H). injection H as <-. simpl.
  unfold get_available_network_ip in Hav.
  apply result_bind_Ok_inv in Hav as (f & Hf & Hav).
  apply result_bind_Ok_inv in Hav as (l & Hll & Hav).
  rewrite network_getitem_4 in Hf. destruct (_ <? _) eqn:Hb in Hf; [done|].
  apply Z.ltb_ge in Hb. apply IPv4Address_Ok in Hf as [-> Hf].
  apply network_getitem_last in Hll as ->.
  edestruct (cut_all_sound c (sort_by_start reserved) [] []) as (Hlow & Hup & Hdis);
    [by apply cut_inv_init|by apply cut_input_sort|by intros ? ?%not_elem_of_nil|exact Hav|exact Hmem|].
  repeat split; [done|lia|]. intros r Hr.
  assert (Hdr : pools_disjoint ava r).
  { apply Hdis; [lia|]. simpl. by rewrite sort_by_start_perm. }
  unfold pools_disjoint in *. simpl. lia.
Qed.

Lemma get_range_in_cidr_total c reserved n a :
  0 < n → ForallOrdPairs pools_disjoint reserved →
  (∀ r, r ∈ reserved → reservation_ok c r ∧ start r < last_usable c) →
  0 ≤ network_address c → broadcast_address c ≤ max_ipv4 →
  first_usable c ≤ a → a + n ≤ last_usable c →
  (∀ r, r ∈ reserved → pools_disjoint {| start := a; end_ := a + n |} r) →
  ∃ p, get_range_in_cidr c reserved n = Ok p.
Proof.
  unfold first_usable, last_usable. intros Hn Hd Hres H0 Hmax Ha Hb Hfree.
  unfold get_range_in_cidr, get_available_network_ip.
  rewrite network_getitem_4, (proj2 (Z.ltb_ge _ _)) by lia.
  rewrite (proj2 (IPv4Address_Ok (network_address c + 4) _)) by (split; [done|lia]).
  assert (network_getitem c (-2) = Ok (last_usable c)) as Hlast.
  { unfold network_getitem, last_usable. simpl. rewrite (proj2 (Z.ltb_ge _ _)) by lia.
    apply IPv4Address_Ok. split; [done|lia]. }
  rewrite Hlast. clear Hlast.
  destruct (cut_all_complete c (sort_by_start reserved) a (a + n) ltac:(lia) [] []
    {| start := first_usable c; end_ := last_usable c |}) as (avail & Hall & p & Hp & Hpa & Hpb).
  - apply cut_inv_init; lia.
  - apply cut_input_sort; [done|]. intros r Hr. by apply Hres.
  - by intros d ?%not_elem_of_nil.
  - intros r Hr. rewrite sort_by_start_perm in Hr.
    split; [by apply Hres|by apply Hfree].
  - eexists. split; [left|]. simpl. unfold first_usable, last_usable. lia.
  - simpl in Hall. unfold first_usable in Hall. cbn [mbind result_bind]. rewrite Hall. cbn [mbind result_bind].
    destruct (find _ avail) as [ava|] eqn:Hf.
    + apply find_some in Hf as [Hmem Hlen%Z.leb_le]. apply list_elem_of_In in Hmem.
      edestruct (cut_all_sound c (sort_by_start reserved) [] []) as (Hlow & Hup & _);
        [by apply cut_inv_init; lia|apply cut_input_sort; [done|intros r Hr; by apply Hres]
        |by intros ? ?%not_elem_of_nil|exact Hall|exact Hmem|].
      unfold get_range_length, last_usable in *.
      rewrite (proj2 (IPv4Address_Ok (start ava + n) _)) by (split; [done|lia]).
      simpl. by eexists.
    + exfalso. apply find_none with (x := p) in Hf; [|by apply list_elem_of_In].
      unfold get_range_length in Hf. apply Z.leb_gt in Hf. lia.
Qed.

(** ** Properties *)

(** C3: an allocation is safe.  For reserved ranges that are pairwise disjoint and start before
    the last usable address, a range handed out by [get_range_in_cidr] has exactly the requested
    extent, stays strictly between the network address and the broadcast address and shares no
    address with any reserved range, whatever the order in which the ranges are listed. *)
Theorem get_range_in_cidr_sound (c : IPv4Network) (reserved : list IPv4Pool) (n : Z) (p : IPv4Pool) :
  0 ≤ n → ForallOrdPairs pools_disjoint reserved →
  (∀ r, r ∈ reserved → start r < last_usable c) →
  get_range_in_cidr c reserved n = Ok p →
  end_ p = start p + n ∧ network_address c < start p ∧ end_ p < broadcast_address c ∧
  ∀ r, r ∈ reserved → pools_disjoint p r.
Proof.
  intros Hn Hd Hl H.
  destruct (get_range_in_cidr_Ok _ _ _ _ Hn Hd Hl H) as (? & ? & Hlast & ?).
  unfold last_usable in Hlast. repeat split; auto; lia.
Qed.

(** C4: an allocation finds room when there is room.  Let the size [n] be positive, the
    reserved ranges pairwise disjoint, each of them well formed, inside the network and starting
    before its last usable address, and the network inside the IPv4 addresses.  If some interval of
    [n + 1] addresses of the usable part of the network is free, then [get_range_in_cidr] returns
    a range: it neither raises nor misses it.  A request for [n = 0] and a reservation outside the
    network are left out, for there the code can raise although an address is free. *)
Theorem get_range_in_cidr_complete (c : IPv4Network) (reserved : list IPv4Pool) (n a : Z) :
  0 < n → ForallOrdPairs pools_disjoint reserved →
  (∀ r, r ∈ reserved → reservation_ok c r ∧ start r < last_usable c) →
  0 ≤ network_address c → broadcast_address c ≤ max_ipv4 →
  first_usable c ≤ a → a + n ≤ last_usable c →
  (∀ r, r ∈ reserved → pools_disjoint {| start := a; end_ := a + n |} r) →
  ∃ p, get_range_in_cidr c reserved n = Ok p.
Proof. apply get_range_in_cidr_total. Qed.

(** Both hypotheses of the safety of an allocation are needed.  With a reserved range nested
    in another one, and with a reservation of the last usable address, the allocator returns a
    range that overlaps a reservation. *)
Theorem get_range_in_cidr_overlaps :
  (∃ c reserved n p r, ¬ ForallOrdPairs pools_disjoint reserved ∧
     get_range_in_cidr c reserved n = Ok p ∧ r ∈ reserved ∧ ¬ pools_disjoint p r) ∧
  (∃ c r n p, start r = last_usable c ∧
     get_range_in_cidr c [r] n = Ok p ∧ ¬ pools_disjoint p r).
Proof.
  set (c := {| network_address := 3232235776; prefixlen := 24 |}).
  split.
  - exists c, [{| start := 3232235786; end_ := 3232235796 |}; {| start := 3232235788; end_ := 3232235791 |}],
      230, {| start := 3232235792; end_ := 3232236022 |}, {| start := 3232235786; end_ := 3232235796 |}.
    split; [|split; [by vm_compute|split; [by left|]]].
    + intros H. inversion H as [|? ? Hx _]; subst. inversion Hx as [|? ? Hxy _]; subst.
      unfold pools_disjoint in Hxy. simpl in Hxy. lia.
    + unfold pools_disjoint. simpl. lia.
  - exists c, {| start := 3232236030; end_ := 3232236030 |}, 250,
      {| start := 3232235780; end_ := 3232236030 |}.
    split; [by vm_compute|split; [by vm_compute|]]. unfold pools_disjoint. simpl. lia.
Qed.

(** A /24 with two reservations. *)
Definition example_cidr : IPv4Network := {| network_address := 3232235776; prefixlen := 24 |}.
Definition example_reserved : list IPv4Pool :=
  [{| start := 3232235840; end_ := 3232235850 |}; {| start := 3232235780; end_ := 3232235790 |}].

Lemma get_range_in_cidr_sound_witness :
  let p := {| start := 3232235791; end_ := 3232235811 |} in
  end_ p = start p + 20 ∧ network_address example_cidr < start p ∧
  end_ p < broadcast_address example_cidr ∧
  ∀ r, r ∈ example_reserved → pools_disjoint p r.
Proof.
  apply (get_range_in_cidr_sound example_cidr example_reserved 20).
  - lia.
  - repeat constructor; unfold pools_disjoint; simpl; lia.
  - intros r [->|[->|[]%not_elem_of_nil]%elem_of_cons]%elem_of_cons; vm_compute; reflexivity.
  - vm_compute. reflexivity.
Defined.

Lemma get_range_in_cidr_complete_witness :
  ∃ p, get_range_in_cidr example_cidr example_reserved 20 = Ok p.
Proof.
  apply (get_range_in_cidr_complete example_cidr example_reserved 20 3232235900).
  - lia.
  - repeat constructor; unfold pools_disjoint; simpl; lia.
  - intros r [->|[->|[]%not_elem_of_nil]%elem_of_cons]%elem_of_cons;
      (split; [split; [vm_compute; discriminate|split; [vm_compute; reflexivity|]]|]);
      vm_compute; auto.
  - vm_compute; discriminate.
  - vm_compute; discriminate.
  - vm_compute; discriminate.
  - vm_compute; discriminate.
  - intros r [->|[->|[]%not_elem_of_nil]%elem_of_cons]%elem_of_cons;
      unfold pools_disjoint; simpl; lia.
Defined.
