(* ===== verification/IPv4Text.v ===== *)
(** * Addresses as text

    [str.split], and the textual form of an IPv4 address: [IPv4Address(str)] as the [ipaddress]
    module of the standard library parses it (four decimal octets, no sign, no leading zero) and
    [exploded] as it prints it, with the functions of the code that go through them:
    [check_ipv4_valid] of utils/ipam.py, [PduInterface.get_ip] of
    models/network/network_models.py and [LBPool.get_ip_address_list] of
    models/k8s/common_k8s_model.py. *)

From Stdlib Require Import Ascii.
From stdpp Require Import base list strings gmap pretty.
From Stdlib Require Import ZArith Lia.
From S2P Require Import Prelude Ipam.

Open Scope Z_scope.

(** ** Octets *)
Definition digit_of (c : ascii) : option Z :=
  let n := Ascii.nat_of_ascii c in
  if (48 <=? n)%nat && (n <=? 57)%nat then Some (Z.of_nat n - 48) else None.

Fixpoint digits_value (s : string) (acc : Z) : option Z :=
  match s with
  | EmptyString => Some acc
  | String c s' => match digit_of c with
                   | Some d => digits_value s' (10 * acc + d)
                   | None => None
                   end
  end.

(** [IPv4Address._parse_octet]. *)
Definition parse_octet (s : string) : option Z :=
  match digits_value s 0 with
  | None => None
  | Some v =>
      if (String.length s =? 0)%nat then None
      else if (3 <? String.length s)%nat then None
      else if (match s with String "0"%char (String _ _) => true | _ => false end) then None
      else if 255 <? v then None
      else Some v
  end.

(** [IPv4Address(s)] for a string. *)
Definition IPv4Address_str (s : string) : result Z :=
  match py_split "."%char s with
  | [a; b; c; d] =>
      match parse_octet a, parse_octet b, parse_octet c, parse_octet d with
      | Some a, Some b, Some c, Some d =>
          Ok (Z.lor (Z.shiftl a 24) (Z.lor (Z.shiftl b 16) (Z.lor (Z.shiftl c 8) d)))
      | _, _, _, _ => Raise AddressValueError
      end
  | _ => Raise AddressValueError
  end.

Definition octet (n : Z) (k : Z) : Z := Z.land (Z.shiftr n k) 255.

(** [ip.exploded]. *)
Definition exploded (n : Z) : string :=
  py_join "."%char [pretty (octet n 24); pretty (octet n 16); pretty (octet n 8); pretty (octet n 0)].

Arguments IPv4Address_str : simpl never.
Arguments exploded : simpl never.

(** ** Round trip *)
Lemma octet_bound n k : 0 ≤ octet n k < 256.
Proof.
  unfold octet. change 255 with (Z.ones 8). rewrite Z.land_ones by lia.
  change (2 ^ 8) with 256. apply Z.mod_pos_bound. lia.
Qed.

(** Each of the 256 octets, by evaluation. *)
Definition octet_roundtrip (v : Z) : bool :=
  bool_decide (parse_octet (pretty v) = Some v) && no_char "."%char (pretty v).

Lemma octets_ok : forallb octet_roundtrip (Z.of_nat <$> seq 0 256) = true.
Proof. vm_compute. reflexivity. Qed.

Lemma parse_octet_pretty v : 0 ≤ v < 256 →
  parse_octet (pretty v) = Some v ∧ no_char "."%char (pretty v) = true.
Proof.
  intros Hv. pose proof octets_ok as H. rewrite forallb_forall in H.
  specialize (H v). unfold octet_roundtrip in H.
  rewrite andb_true_iff, bool_decide_eq_true in H. apply H.
  apply list_elem_of_In, list_elem_of_fmap. exists (Z.to_nat v). split; [lia|].
  apply elem_of_seq. lia.
Qed.

Lemma octets_assemble n : 0 ≤ n ≤ max_ipv4 →
  Z.lor (Z.shiftl (octet n 24) 24) (Z.lor (Z.shiftl (octet n 16) 16)
    (Z.lor (Z.shiftl (octet n 8) 8) (octet n 0))) = n.
Proof.
  intros Hn. apply Z.bits_inj'. intros i Hi. unfold octet. change 255 with (Z.ones 8).
  assert (Hhi : 32 ≤ i → Z.testbit n i = false).
  { intros H. destruct (decide (n = 0)) as [->|]; [apply Z.bits_0|].
    apply Z.bits_above_log2; [lia|]. apply Z.log2_lt_pow2; [lia|].
    unfold max_ipv4 in Hn. apply Z.lt_le_trans with (2 ^ 32); [lia|].
    apply Z.pow_le_mono_r; lia. }
  rewrite !Z.lor_spec, !Z.shiftl_spec, !Z.land_spec by lia.
  assert (Hones : ∀ j, Z.testbit (Z.ones 8) j = (0 <=? j) && (j <? 8)).
  { intros j. destruct (Z.ltb_spec j 0).
    - rewrite Z.testbit_neg_r by lia. rewrite (proj2 (Z.leb_gt 0 j)) by lia. done.
    - rewrite Z.testbit_ones_nonneg by lia. by rewrite (proj2 (Z.leb_le 0 j)) by lia. }
  rewrite !Hones.
  assert (Hs : ∀ k, 0 ≤ k → (k <=? i) = true → Z.testbit (Z.shiftr n k) (i - k) = Z.testbit n i).
  { intros k Hk Hki%Z.leb_le. rewrite Z.shiftr_spec by lia. f_equal. lia. }
  destruct (Z.testbit n i) eqn:E.
  - assert (Hlt : i < 32) by (destruct (Z.lt_ge_cases i 32) as [?|Hge]; [done|]; specialize (Hhi Hge); congruence).
    destruct (Z.ltb_spec i 8); [|destruct (Z.ltb_spec i 16); [|destruct (Z.ltb_spec i 24)]].
    + rewrite (Z.shiftr_spec n 0 i) by lia. rewrite Z.add_0_r, E.
      rewrite (proj2 (Z.leb_le 0 i)) by lia. by rewrite ?orb_true_r.
    + rewrite (Hs 8) by (lia || (apply Z.leb_le; lia)).
      rewrite (proj2 (Z.leb_le 0 (i - 8))), (proj2 (Z.ltb_lt (i - 8) 8)) by lia.
      by rewrite ?orb_true_r.
    + rewrite (Hs 16) by (lia || (apply Z.leb_le; lia)).
      rewrite (proj2 (Z.leb_le 0 (i - 16))), (proj2 (Z.ltb_lt (i - 16) 8)) by lia.
      by rewrite ?orb_true_r.
    + rewrite (Hs 24) by (lia || (apply Z.leb_le; lia)).
      rewrite (proj2 (Z.leb_le 0 (i - 24))), (proj2 (Z.ltb_lt (i - 24) 8)) by lia. done.
  - assert (Hz : ∀ k, 0 ≤ k →
      Z.testbit (Z.shiftr n k) (i - k) && ((0 <=? i - k) && (i - k <? 8)) = false).
    { intros k Hk. destruct (Z.leb_spec 0 (i - k)); [|by rewrite andb_false_r].
      rewrite Z.shiftr_spec by lia. replace (i - k + k) with i by lia. by rewrite E. }
    rewrite !Hz by lia. simpl.
    specialize (Hz 0 ltac:(lia)). rewrite Z.sub_0_r in Hz. done.
Qed.

Lemma IPv4Address_str_exploded n : 0 ≤ n ≤ max_ipv4 → IPv4Address_str (exploded n) = Ok n.
Proof.
  intros Hn. unfold IPv4Address_str, exploded.
  assert (Hp : ∀ k, parse_octet (pretty (octet n k)) = Some (octet n k) ∧
                    no_char "."%char (pretty (octet n k)) = true)
    by (intros k; apply parse_octet_pretty, octet_bound).
  rewrite py_split_join; [|done|repeat constructor; apply Hp].
  rewrite !(λ k, proj1 (Hp k)). by rewrite octets_assemble.
Qed.

Lemma parse_octet_bound s v : parse_octet s = Some v → 0 ≤ v < 256.
Proof.
  unfold parse_octet. destruct (digits_value s 0) as [w|] eqn:E; [|done].
  destruct (_ =? _)%nat; [done|]. destruct (_ <? _)%nat; [done|].
  destruct (match s with EmptyString => _ | _ => _ end); [done|].
  destruct (255 <? w) eqn:Hw; [done|]. intros [= <-]. apply Z.ltb_ge in Hw.
  assert (Hge : ∀ s a r, digits_value s a = Some r → 0 ≤ a → 0 ≤ r); [|specialize (Hge _ _ _ E); lia].
  clear. intros s. induction s as [|c s IH]; simpl; intros a r H Ha; [injection H as <-; done|].
  destruct (digit_of c) as [d|] eqn:Ed; [|done]. apply (IH _ _ H).
  unfold digit_of in Ed. destruct (_ && _) eqn:Eb; [|done]. injection Ed as <-.
  apply andb_true_iff in Eb as [?%Nat.leb_le _]. lia.
Qed.

Lemma lor_bound a b k : 0 ≤ a < 2 ^ k → 0 ≤ b < 2 ^ k → 0 ≤ k → 0 ≤ Z.lor a b < 2 ^ k.
Proof.
  intros Ha Hb Hk. split; [apply Z.lor_nonneg; lia|].
  destruct (decide (Z.lor a b = 0)) as [->|Hne]; [lia|].
  assert (Hpos : 0 < Z.lor a b) by (pose proof (proj2 (Z.lor_nonneg a b)); lia).
  apply Z.log2_lt_pow2; [done|]. rewrite Z.log2_lor by lia.
  apply Z.max_lub_lt.
  - destruct (decide (a = 0)) as [->|]; [|apply Z.log2_lt_pow2; lia].
    destruct (decide (b = 0)) as [->|]; [by rewrite Z.lor_0_l in Hne|].
    simpl. pose proof (Z.log2_nonneg b). apply Z.le_lt_trans with (Z.log2 b); [lia|].
    apply Z.log2_lt_pow2; lia.
  - destruct (decide (b = 0)) as [->|]; [|apply Z.log2_lt_pow2; lia].
    destruct (decide (a = 0)) as [->|]; [by rewrite Z.lor_0_l in Hne|].
    pose proof (Z.log2_nonneg a). apply Z.le_lt_trans with (Z.log2 a); [simpl; lia|].
    apply Z.log2_lt_pow2; lia.
Qed.

(** Text never denotes anything but a 32-bit address. *)
Lemma IPv4Address_str_bound s n : IPv4Address_str s = Ok n → 0 ≤ n ≤ max_ipv4.
Proof.
  unfold IPv4Address_str. destruct (py_split _ s) as [|a [|b [|c [|d [|]]]]]; try done.
  destruct (parse_octet a) as [va|] eqn:Ea; [|done].
  destruct (parse_octet b) as [vb|] eqn:Eb; [|done].
  destruct (parse_octet c) as [vc|] eqn:Ec; [|done].
  destruct (parse_octet d) as [vd|] eqn:Ed; [|done].
  apply parse_octet_bound in Ea, Eb, Ec, Ed. intros [= <-].
  rewrite !Z.shiftl_mul_pow2 by lia.
  change (2 ^ 24) with 16777216. change (2 ^ 16) with 65536. change (2 ^ 8) with 256.
  unfold max_ipv4.
  enough (0 ≤ Z.lor (va * 16777216) (Z.lor (vb * 65536) (Z.lor (vc * 256) vd)) < 2 ^ 32) by lia.
  repeat apply lor_bound; change (2 ^ 32) with 4294967296; lia.
Qed.

(** ** Networks as text

    The mask of a network: a length, a netmask or a hostmask. *)
Definition find_length (p : nat → bool) : option Z := Z.of_nat <$> find p (seq 0 33).
Definition netmask_length (m : Z) : option Z := find_length (λ p, m =? 2 ^ 32 - 2 ^ (32 - Z.of_nat p)).
Definition hostmask_length (m : Z) : option Z := find_length (λ p, m =? 2 ^ (32 - Z.of_nat p) - 1).
Definition mask_length (s : string) : result Z :=
  match digits_value s 0 with
  | Some v => if String.eqb s EmptyString || (32 <? v) then Raise ValueError else Ok v
  | None =>
      match IPv4Address_str s with
      | Raise _ => Raise ValueError
      | Ok m =>
          match netmask_length m with
          | Some p => Ok p
          | None => match hostmask_length m with Some p => Ok p | None => Raise ValueError end
          end
      end
  end.
(** [ipaddress.IPv4Network(cidr)]: no host bit may be set. *)
Definition IPv4Network_str (cidr : string) : result IPv4Network :=
  let network a (mask : result Z) :=
    n ← IPv4Address_str a;
    len ← mask;
    if n mod 2 ^ (32 - len) =? 0 then Ok {| network_address := n; prefixlen := len |} else Raise ValueError in
  match py_split "/"%char cidr with
  | [a] => network a (Ok 32)
  | [a; m] => network a (mask_length m)
  | _ => Raise AddressValueError
  end.

(** ** The functions of the code that parse and print addresses *)

(** [check_ipv4_valid] of utils/ipam.py: only [AddressValueError] is caught. *)
Definition check_ipv4_valid (ipv4 : string) : result bool :=
  match IPv4Address_str ipv4 with
  | Ok _ => Ok true
  | Raise AddressValueError => Ok false
  | Raise e => Raise e
  end.

(** What a field of an address model is given: a string, an address, or something else. *)
Inductive address_input := FromStr (s : string) | FromAddress (a : Z) | FromOther.

(** [IPv4Pool.start_val] and [end_val]. *)
Definition start_val (val : address_input) : result Z :=
  match val with
  | FromStr s => IPv4Address_str s
  | FromAddress a => Ok a
  | FromOther => Raise ValueError
  end.
Definition end_val (val : address_input) : result Z :=
  match val with
  | FromStr s => IPv4Address_str s
  | FromAddress a => Ok a
  | FromOther => Raise ValueError
  end.

(** [IPv4Pool.serialize_start] and [serialize_end]. *)
Definition serialize_start (a : option Z) : option string := exploded <$> a.
Definition serialize_end (a : option Z) : option string := exploded <$> a.

(** [IPv4Pool.model_validate] and [model_dump]. *)
Definition load_pool (s e : address_input) : result IPv4Pool :=
  s' ← start_val s; e' ← end_val e; Ok {| start := s'; end_ := e' |}.
Definition dump_pool (p : IPv4Pool) : option string * option string :=
  (serialize_start (Some (start p)), serialize_end (Some (end_ p))).

(** [PduInterface.get_ip_str] and [get_ip]: an interface with several addresses keeps them in
    one string, separated by semicolons. *)
Definition get_ip_str (ip_address : string) : list string := py_split ";"%char ip_address.
Definition get_ip (ip_address : string) : result (list Z) :=
  map_result IPv4Address_str (py_split ";"%char ip_address).

(** [LBPool] of models/k8s/common_k8s_model.py. *)
Inductive LbType := layer2 | layer3.

Record LBPool := {
  lb_mode : LbType;
  lb_net_name : string;
  ip_start : option string;
  ip_end : option string;
  range_length : option Z
}.

(** [IPv4Address(x)] for an optional string: [str(None)] is no address. *)
Definition IPv4Address_opt (o : option string) : result Z :=
  match o with Some s => IPv4Address_str s | None => Raise AddressValueError end.

(** The loop of [get_ip_address_list]: [fuel] turns are left, [i] is the loop variable. *)
Fixpoint ip_list_loop (ip_s ip_e : Z) (fuel : nat) (i : Z) : result (list string) :=
  match fuel with
  | O => Ok []
  | S fuel' =>
      ip ← IPv4Address (ip_s + i);
      if ip =? ip_e then Ok [exploded ip]
      else rest ← ip_list_loop ip_s ip_e fuel' (i + 1); Ok (exploded ip :: rest)
  end.

Definition get_ip_address_list (self : LBPool) (max_num : nat) : result (list string) :=
  ip_s ← IPv4Address_opt (ip_start self);
  ip_e ← IPv4Address_opt (ip_end self);
  ip_list ← ip_list_loop ip_s ip_e max_num 0;
  if (length ip_list =? 0)%nat then Raise AssertionError else Ok ip_list.

(** [n] consecutive addresses from [a] on. *)
Definition addresses (a : Z) (n : nat) : list string :=
  (λ i, exploded (a + Z.of_nat i)) <$> seq 0 n.

Lemma addresses_S a n : addresses a (S n) = exploded a :: addresses (a + 1) n.
Proof.
  unfold addresses. simpl. rewrite Z.add_0_r. f_equal.
  rewrite <-fmap_S_seq, <-list_fmap_compose. apply list_fmap_ext. intros i x _. simpl.
  f_equal. lia.
Qed.

Lemma ip_list_loop_reach s e fuel i :
  0 ≤ s + i → s + i ≤ e → e ≤ max_ipv4 →
  ip_list_loop s e fuel i =
  Ok (addresses (s + i) (Nat.min fuel (Z.to_nat (e - (s + i) + 1)))).
Proof.
  revert i; induction fuel as [|fuel IH]; intros i H0 Hle Hmax; [done|]. simpl ip_list_loop.
  rewrite (proj2 (IPv4Address_Ok (s + i) _)) by (split; [done|lia]).
  unfold mbind at 1, result_bind at 1. destruct (Z.eqb_spec (s + i) e) as [->|Hne].
  - replace (Z.to_nat (e - e + 1)) with 1%nat by lia.
    replace (Nat.min (S fuel) 1) with 1%nat by lia. by rewrite addresses_S.
  - rewrite IH by lia. unfold mbind, result_bind.
    replace (Z.to_nat (e - (s + i) + 1)) with (S (Z.to_nat (e - (s + (i + 1)) + 1))) by lia.
    rewrite <-Nat.succ_min_distr, addresses_S. by replace (s + i + 1) with (s + (i + 1)) by lia.
Qed.

Lemma ip_list_loop_past s e fuel i :
  0 ≤ s + i → e < s + i → s + i + Z.of_nat fuel ≤ max_ipv4 + 1 →
  ip_list_loop s e fuel i = Ok (addresses (s + i) fuel).
Proof.
  revert i; induction fuel as [|fuel IH]; intros i H0 Hle Hmax; [done|]. simpl ip_list_loop.
  rewrite (proj2 (IPv4Address_Ok (s + i) _)) by (split; [done|lia]).
  unfold mbind at 1, result_bind at 1. rewrite (proj2 (Z.eqb_neq (s + i) e)) by lia.
  rewrite IH by lia. unfold mbind, result_bind. rewrite addresses_S.
  by replace (s + i + 1) with (s + (i + 1)) by lia.
Qed.

(** ** Properties *)

(** An address range survives its textual form.  What [IPv4Pool] writes for a range of 32-bit
    addresses is read back as the same range, printed addresses are recognised as valid, and no
    string is ever read as something that is not a 32-bit address. *)
Theorem pool_text_roundtrip (p : IPv4Pool) :
  0 ≤ start p ≤ max_ipv4 → 0 ≤ end_ p ≤ max_ipv4 →
  (∃ s e, dump_pool p = (Some s, Some e) ∧ load_pool (FromStr s) (FromStr e) = Ok p ∧
          check_ipv4_valid s = Ok true) ∧
  (∀ s a, start_val (FromStr s) = Ok a → 0 ≤ a ≤ max_ipv4).
Proof.
  intros Hs He. split.
  - exists (exploded (start p)), (exploded (end_ p)). split; [reflexivity|].
    unfold load_pool, check_ipv4_valid, start_val, end_val.
    rewrite !IPv4Address_str_exploded by assumption. split; [|reflexivity]. destruct p; reflexivity.
  - intros s a. apply IPv4Address_str_bound.
Qed.

(** The address list of a load-balancer pool.  For a pool given by its two ends the list is
    exactly the addresses from the first to the last, cut at [max_num]; when the ends are the
    wrong way round the end is never met and [max_num] addresses beyond the start are returned. *)
Theorem lb_pool_addresses (p : LBPool) (s e : Z) (max_num : nat) :
  0 ≤ s ≤ max_ipv4 → 0 ≤ e ≤ max_ipv4 → (0 < max_num)%nat →
  ip_start p = Some (exploded s) → ip_end p = Some (exploded e) →
  (s ≤ e → get_ip_address_list p max_num =
           Ok (addresses s (Nat.min max_num (Z.to_nat (e - s + 1))))) ∧
  (e < s → s + Z.of_nat max_num ≤ max_ipv4 + 1 →
           get_ip_address_list p max_num = Ok (addresses s max_num)).
Proof.
  intros Hs He Hmax Hps Hpe. unfold get_ip_address_list. rewrite Hps, Hpe. unfold IPv4Address_opt.
  rewrite !IPv4Address_str_exploded by assumption. unfold mbind, result_bind. split.
  - intros Hle. rewrite ip_list_loop_reach by lia. rewrite !Z.add_0_r.
    destruct (Nat.min max_num _) eqn:E; [lia|]. done.
  - intros Hlt Hm. rewrite ip_list_loop_past by lia. rewrite Z.add_0_r.
    destruct max_num; [lia|]. done.
Qed.

(** An interface with several addresses keeps them all: the addresses joined by semicolons
    are read back by [PduInterface.get_ip] in the same order. *)
Theorem get_ip_roundtrip (l : list Z) :
  l ≠ [] → Forall (λ a, 0 ≤ a ≤ max_ipv4) l →
  get_ip (py_join ";"%char (exploded <$> l)) = Ok l.
Proof.
  assert (Hno : ∀ a, no_char ";"%char (exploded a) = true).
  { intros a. unfold exploded.
    assert (Hp : ∀ v, 0 ≤ v < 256 → no_char ";"%char (pretty v) = true).
    { intros v Hv. assert (H : forallb (λ v, no_char ";"%char (pretty v)) (Z.of_nat <$> seq 0 256) = true)
        by (vm_compute; reflexivity).
      rewrite forallb_forall in H. apply H, list_elem_of_In, list_elem_of_fmap.
      exists (Z.to_nat v). split; [lia|]. apply elem_of_seq. lia. }
    assert (Happ : ∀ x y, no_char ";"%char (x +:+ y) = no_char ";"%char x && no_char ";"%char y).
    { intros x y. induction x as [|c x IH]; [done|].
      change (String c x +:+ y) with (String c (x +:+ y)). simpl. by rewrite IH, andb_assoc. }
    assert (Hdot : ∀ y, no_char ";"%char (String "."%char y) = no_char ";"%char y) by done.
    unfold py_join. rewrite !Happ, !Hdot, !Happ, !Hdot, !Happ, !Hdot.
    rewrite !Hp by apply octet_bound. done. }
  intros Hne Hl. unfold get_ip. rewrite py_split_join.
  - clear Hne. induction Hl as [|a l Ha Hl IH]; [reflexivity|].
    rewrite fmap_cons. cbn [map_result].
    rewrite IPv4Address_str_exploded by assumption. unfold mbind, result_bind in *.
    rewrite IH. reflexivity.
  - intros H%fmap_nil_inv. contradiction.
  - apply Forall_fmap. rewrite Forall_forall. intros a _. apply Hno.
Qed.

Lemma pool_text_roundtrip_witness :
  ∃ s e, dump_pool {| start := 3232235777; end_ := 3232235800 |} = (Some s, Some e) ∧
         load_pool (FromStr s) (FromStr e) = Ok {| start := 3232235777; end_ := 3232235800 |} ∧
         check_ipv4_valid s = Ok true.
Proof.
  apply (pool_text_roundtrip {| start := 3232235777; end_ := 3232235800 |});
    vm_compute; split; discriminate.
Defined.

Definition example_lb_pool : LBPool :=
  {| lb_mode := layer2; lb_net_name := "data"; ip_start := Some (exploded 3232235777);
     ip_end := Some (exploded 3232235780); range_length := None |}.

Lemma lb_pool_addresses_witness :
  get_ip_address_list example_lb_pool 256 =
  Ok (addresses 3232235777 (Nat.min 256 (Z.to_nat (3232235780 - 3232235777 + 1)))).
Proof.
  apply (lb_pool_addresses example_lb_pool 3232235777 3232235780 256);
    try reflexivity; try (vm_compute; split; discriminate); lia.
Defined.

Lemma get_ip_roundtrip_witness :
  get_ip (py_join ";"%char (exploded <$> [3232235777; 167772167])) = Ok [3232235777; 167772167].
Proof.
  apply (get_ip_roundtrip [3232235777; 167772167]); [discriminate|].
  repeat constructor; vm_compute; discriminate.
Defined.
