(* ===== verification/Registry.v ===== *)
(** * Registries: lists of named objects as finite maps

    The topology keeps its VIMs, networks, PDUs, clusters and Prometheus servers in lists whose
    elements are identified by a name.  This file states once what such a list promises (add,
    get, update and delete by name, on a finite map) and proves that an implementation whose
    operations have the shape used by models/topology/topology_models.py keeps the promise. *)

From stdpp Require Import base list strings gmap.
From Stdlib Require Import ZArith Lia.
From S2P Require Import Prelude.

Open Scope Z_scope.

(** ** The abstract contract *)
Section contract.
Context {A : Type} (key : A → string).

Inductive reg_op :=
| RAdd (x : A)
| RGet (k : string)
| RUpd (x : A)
| RDel (k : string).

(** The contract: one exception for a name already taken, one for an unknown name, and a
    guard that may forbid the deletion of an object. *)
Record reg_errors := { taken : exn; unknown : exn; busy : A → option exn }.

Definition reg_step (err : reg_errors) (op : reg_op) (r : gmap string A)
  : result A * gmap string A :=
  match op with
  | RAdd x => match r !! key x with
              | Some _ => (Raise (taken err), r)
              | None => (Ok x, <[key x := x]> r)
              end
  | RGet k => match r !! k with Some x => (Ok x, r) | None => (Raise (unknown err), r) end
  | RUpd x => match r !! key x with
              | Some _ => (Ok x, <[key x := x]> r)
              | None => (Raise (unknown err), r)
              end
  | RDel k => match r !! k with
              | Some x => match busy err x with
                          | Some e => (Raise e, r)
                          | None => (Ok x, delete k r)
                          end
              | None => (Raise (unknown err), r)
              end
  end.
End contract.
Arguments reg_op : clear implicits.
Arguments reg_errors : clear implicits.

Fixpoint run_ops {S A O} (step : O → S → result A * S) (ops : list O) (s : S)
  : list (result A) * S :=
  match ops with
  | [] => ([], s)
  | op :: ops' => let '(r, s1) := step op s in
                  let '(rs, s2) := run_ops step ops' s1 in (r :: rs, s2)
  end.

(** ** From lists to maps *)
Section abstraction.
Context {A : Type} (key : A → string).
Implicit Types (l : list A) (x y : A).

Definition registry l : gmap string A := list_to_map ((λ x, (key x, x)) <$> l).

Lemma registry_keys l : ((λ x, (key x, x)) <$> l).*1 = key <$> l.
Proof. by rewrite <-list_fmap_compose. Qed.

Lemma registry_lookup l x :
  keys_unique key l → x ∈ l → registry l !! key x = Some x.
Proof.
  intros Hl Hx. apply elem_of_list_to_map.
  - by rewrite registry_keys.
  - apply list_elem_of_fmap. by exists x.
Qed.

Lemma registry_None l k : (∀ x, x ∈ l → key x ≠ k) → registry l !! k = None.
Proof.
  intros H. apply not_elem_of_list_to_map. rewrite registry_keys.
  intros (x & -> & Hx)%list_elem_of_fmap. by apply (H x).
Qed.

Lemma registry_Some l k x : registry l !! k = Some x → x ∈ l ∧ key x = k.
Proof.
  intros (y & [= -> ->] & Hy)%elem_of_list_to_map_2%list_elem_of_fmap. done.
Qed.

Lemma registry_perm l l' :
  keys_unique key l → Permutation l l' → registry l = registry l'.
Proof.
  intros Hl Hp. apply list_to_map_proper; [by rewrite registry_keys|by rewrite Hp].
Qed.

Lemma registry_snoc l x :
  keys_unique key (l ++ [x]) → registry (l ++ [x]) = <[key x := x]> (registry l).
Proof.
  intros Hl. rewrite (registry_perm _ (x :: l)) by (done || apply Permutation_app_comm).
  done.
Qed.

Lemma registry_delete l (i : nat) x :
  keys_unique key l → l !! i = Some x → registry (delete i l) = delete (key x) (registry l).
Proof.
  intros Hl Hx. rewrite (registry_perm l (x :: delete i l)) by
    (done || by apply delete_Permutation).
  unfold registry at 2. simpl. rewrite delete_insert_id; [done|].
  apply registry_None. by eapply keys_unique_perm.
Qed.

Lemma registry_insert l (i : nat) x y :
  keys_unique key l → l !! i = Some y → key y = key x →
  registry (<[i := x]> l) = <[key x := x]> (registry l).
Proof.
  intros Hl Hy Hk.
  assert (Hi : (i < length l)%nat) by by eapply lookup_lt_Some.
  assert (Hl' : keys_unique key (<[i:=x]> l)) by by eapply keys_unique_insert.
  assert (Hx : <[i:=x]> l !! i = Some x) by by apply list_lookup_insert_eq.
  rewrite (registry_perm _ (x :: delete i l)); [|done|].
  2:{ rewrite (delete_Permutation _ i x Hx). by rewrite delete_insert_list. }
  rewrite (registry_perm l (y :: delete i l)) by (done || by apply delete_Permutation).
  unfold registry. simpl. rewrite Hk. by rewrite insert_insert_eq.
Qed.
End abstraction.

(** ** Implementations *)

(** The position of the object named [k], the way [find_*_index] computes it. *)
Definition position {A} (key : A → string) (k : string) (l : list A) : option nat :=
  find_index (λ it, String.eqb (key it) k) l.

(** What the four operations of a registry kept in a list do to it.  [S] is the object that
    holds the list among other fields. *)
Class RegistryImpl (S A : Type) := {
  ri_key : A → string;
  ri_errors : reg_errors A;
  ri_items : S → list A;
  ri_put : list A → S → S;
  ri_add : A → M S A;
  ri_get : string → M S A;
  ri_upd : A → M S A;
  ri_del : string → M S A;
  ri_items_put : ∀ l s, ri_items (ri_put l s) = l;
  ri_put_items : ∀ s, ri_put (ri_items s) s = s;
  ri_put_put : ∀ l l' s, ri_put l (ri_put l' s) = ri_put l s;
  ri_add_law : ∀ x s,
    ri_add x s =
    if py_in (λ a b, String.eqb (ri_key a) (ri_key b)) x (ri_items s) then (Raise (taken ri_errors), s)
    else (Ok x, ri_put (ri_items s ++ [x]) s);
  ri_get_law : ∀ k s,
    (position ri_key k (ri_items s) = None → ri_get k s = (Raise (unknown ri_errors), s)) ∧
    (∀ i x, position ri_key k (ri_items s) = Some i → ri_items s !! i = Some x →
            ri_get k s = (Ok x, s));
  ri_upd_law : ∀ y s,
    (position ri_key (ri_key y) (ri_items s) = None → ri_upd y s = (Raise (unknown ri_errors), s)) ∧
    (∀ i x, position ri_key (ri_key y) (ri_items s) = Some i → ri_items s !! i = Some x →
            ri_upd y s = (Ok y, ri_put (<[i := y]> (ri_items s)) s));
  ri_del_law : ∀ k s,
    (position ri_key k (ri_items s) = None → ri_del k s = (Raise (unknown ri_errors), s)) ∧
    (∀ i x, position ri_key k (ri_items s) = Some i → ri_items s !! i = Some x →
            ri_del k s = match busy ri_errors x with
                         | Some e => (Raise e, s)
                         | None => (Ok x, ri_put (delete i (ri_items s)) s)
                         end)
}.

Lemma position_cases {A} (key : A → string) k (l : list A) :
  (position key k l = None ∧ ∀ x, x ∈ l → key x ≠ k) ∨
  (∃ i x, position key k l = Some i ∧ l !! i = Some x ∧ key x = k).
Proof.
  unfold position. destruct (find_index _ l) as [i|] eqn:E.
  - right. apply find_index_Some in E as (x & Hx & Hk & _). exists i, x.
    split; [done|split; [done|]]. by apply String.eqb_eq.
  - left. split; [done|]. intros x Hx. apply find_index_None with (x := x) in E; [|done].
    by apply String.eqb_neq.
Qed.

Section refinement.
Context {S A : Type} `{RI : RegistryImpl S A}.
Implicit Types (s : S) (x : A).

Definition ri_step (op : reg_op A) : M S A :=
  match op with
  | RAdd x => ri_add x
  | RGet k => ri_get k
  | RUpd x => ri_upd x
  | RDel k => ri_del k
  end.

Definition ri_wf s : Prop := keys_unique ri_key (ri_items s).
Definition ri_abs s : gmap string A := registry ri_key (ri_items s).

Lemma ri_step_refines op s :
  ri_wf s →
  let '(r, s') := ri_step op s in
  reg_step ri_key ri_errors op (ri_abs s) = (r, ri_abs s') ∧ ri_wf s' ∧
  s' = ri_put (ri_items s') s.
Proof.
  intros Hwf. unfold ri_abs, ri_wf in *.
  assert (Hs : s = ri_put (ri_items s) s) by by rewrite ri_put_items.
  destruct op as [x|k|x|k]; simpl.
  - rewrite ri_add_law. destruct (py_in _ x (ri_items s)) eqn:E.
    + apply py_in_spec in E as (y & Hy & Hk%String.eqb_eq).
      rewrite <-Hk, (registry_lookup ri_key (ri_items s) y) by done. done.
    + rewrite py_in_false in E.
      assert (Hf : ∀ y, y ∈ ri_items s → ri_key y ≠ ri_key x).
      { intros y Hy. apply String.eqb_neq. by apply E. }
      rewrite registry_None by done. rewrite ri_items_put.
      assert (keys_unique ri_key (ri_items s ++ [x])) by by apply keys_unique_snoc.
      rewrite registry_snoc by done. done.
  - destruct (position_cases ri_key k (ri_items s)) as [[Hp Hn]|(i & x & Hp & Hx & <-)].
    + rewrite (proj1 (ri_get_law k s) Hp). by rewrite registry_None.
    + rewrite (proj2 (ri_get_law _ s) i x Hp Hx).
      rewrite (registry_lookup ri_key (ri_items s) x) by
        (done || by eapply list_elem_of_lookup_2). done.
  - destruct (position_cases ri_key (ri_key x) (ri_items s)) as [[Hp Hn]|(i & y & Hp & Hy & Hk)].
    + rewrite (proj1 (ri_upd_law x s) Hp). by rewrite registry_None.
    + rewrite (proj2 (ri_upd_law x s) i y Hp Hy). rewrite ri_items_put.
      rewrite <-Hk at 1. rewrite (registry_lookup ri_key (ri_items s) y) by
        (done || by eapply list_elem_of_lookup_2).
      rewrite (registry_insert ri_key _ _ _ _ Hwf Hy Hk).
      split; [done|split; [by eapply keys_unique_insert|done]].
  - destruct (position_cases ri_key k (ri_items s)) as [[Hp Hn]|(i & x & Hp & Hx & <-)].
    + rewrite (proj1 (ri_del_law k s) Hp). by rewrite registry_None.
    + rewrite (proj2 (ri_del_law _ s) i x Hp Hx).
      rewrite (registry_lookup ri_key (ri_items s) x) by
        (done || by eapply list_elem_of_lookup_2).
      destruct (busy ri_errors x); [done|]. rewrite ri_items_put.
      rewrite (registry_delete ri_key _ _ _ Hwf Hx).
      split; [done|split; [by apply keys_unique_delete|done]].
Qed.

(** A sequence of operations, failing ones included, behaves like the same sequence on the
    finite map: same results, same map at the end, and no other field touched. *)
Lemma ri_run_refines ops s :
  ri_wf s →
  let '(rs, s') := run_ops ri_step ops s in
  run_ops (reg_step ri_key ri_errors) ops (ri_abs s) = (rs, ri_abs s') ∧ ri_wf s' ∧
  s' = ri_put (ri_items s') s.
Proof.
  revert s; induction ops as [|op ops IH]; intros s Hwf; simpl.
  { by rewrite ri_put_items. }
  pose proof (ri_step_refines op s Hwf) as H1.
  destruct (ri_step op s) as [r s1]. destruct H1 as (H1 & Hwf1 & Hf1). rewrite H1.
  specialize (IH s1 Hwf1). destruct (run_ops ri_step ops s1) as [rs s2].
  destruct IH as (H2 & Hwf2 & Hf2). rewrite H2. split; [done|split; [done|]].
  rewrite Hf2, Hf1. by rewrite ri_put_put, ri_items_put.
Qed.

(** Each operation alone keeps the names unique. *)
Lemma ri_step_wf op s : ri_wf s → ri_wf (ri_step op s).2.
Proof.
  intros Hwf. pose proof (ri_step_refines op s Hwf) as H.
  destruct (ri_step op s) as [r s']. by destruct H as (_ & ? & _).
Qed.
End refinement.

(** A property of all objects survives every operation whose argument has it. *)
Section elements.
Context {S A : Type} `{RI : RegistryImpl S A} (P : A → Prop).

Definition op_ok (op : reg_op A) : Prop :=
  match op with RAdd x | RUpd x => P x | _ => True end.

Lemma ri_step_Forall op s :
  op_ok op → Forall P (ri_items s) → Forall P (ri_items (ri_step op s).2).
Proof.
  intros Hop Hs. destruct op as [x|k|x|k]; simpl in *.
  - rewrite ri_add_law. destruct (py_in _ _ _); [done|]. simpl. rewrite ri_items_put.
    apply Forall_app. by repeat constructor.
  - destruct (position_cases ri_key k (ri_items s)) as [[Hp _]|(i & y & Hp & Hy & _)].
    + by rewrite (proj1 (ri_get_law k s) Hp).
    + by rewrite (proj2 (ri_get_law k s) i y Hp Hy).
  - destruct (position_cases ri_key (ri_key x) (ri_items s)) as [[Hp _]|(i & y & Hp & Hy & _)].
    + by rewrite (proj1 (ri_upd_law x s) Hp).
    + rewrite (proj2 (ri_upd_law x s) i y Hp Hy). simpl. rewrite ri_items_put.
      by apply Forall_insert_list.
  - destruct (position_cases ri_key k (ri_items s)) as [[Hp _]|(i & y & Hp & Hy & _)].
    + by rewrite (proj1 (ri_del_law k s) Hp).
    + rewrite (proj2 (ri_del_law k s) i y Hp Hy). destruct (busy _ _); [done|]. simpl.
      rewrite ri_items_put. by apply Forall_delete_list.
Qed.

(** An object handed out by an operation that only looks has been in the list. *)
Lemma ri_get_elem k s x s' : ri_get k s = (Ok x, s') → s' = s ∧ x ∈ ri_items s ∧ ri_key x = k.
Proof.
  destruct (position_cases ri_key k (ri_items s)) as [[Hp _]|(i & y & Hp & Hy & Hk)].
  - by rewrite (proj1 (ri_get_law k s) Hp).
  - rewrite (proj2 (ri_get_law k s) i y Hp Hy). intros [= -> <-]. split; [done|].
    split; [by eapply list_elem_of_lookup_2|done].
Qed.
End elements.
