(* ===== verification/NetworkModels.v ===== *)
(** * Networks, routers and PDUs

    models/network/network_models.py: the data models of the topology's networks, routers and
    physical deployment units, and the reservation of address ranges inside a network. *)

From stdpp Require Import base list strings gmap.
From Stdlib Require Import ZArith Lia Permutation.
From S2P Require Import Prelude Ipam.

Open Scope Z_scope.

(** ** Data *)
Inductive NetworkTypeEnum := vlan | vxlan | gre | flat.

Record NetworkModel := {
  net_name : string;
  external : bool;
  net_type : NetworkTypeEnum;
  vid : option Z;
  dhcp : bool;
  ids : list dict;
  cidr : IPv4Network;
  gateway_ip : option Z;
  allocation_pool : list IPv4Pool;
  reserved_ranges : list IPv4ReservedRange;
  dns_nameservers : list Z
}.

Definition build_network_model (name : string) (type : NetworkTypeEnum) (c : IPv4Network) : NetworkModel :=
  {| net_name := name; external := false; net_type := type; vid := None; dhcp := true; ids := [];
     cidr := c; gateway_ip := None; allocation_pool := []; reserved_ranges := [];
     dns_nameservers := [] |}.

Definition set_reserved_ranges (l : list IPv4ReservedRange) (n : NetworkModel) : NetworkModel :=
  {| net_name := net_name n; external := external n; net_type := net_type n; vid := vid n;
     dhcp := dhcp n; ids := ids n; cidr := cidr n; gateway_ip := gateway_ip n;
     allocation_pool := allocation_pool n; reserved_ranges := l;
     dns_nameservers := dns_nameservers n |}.

(** [NetworkModel.__eq__]. *)
Definition NetworkModel_eq (a b : NetworkModel) : bool := String.eqb (net_name a) (net_name b).

Record RouterPortModel := { port_net : string; ip_addr : Z }.

Record RouterModel := {
  router_name : string;
  ports : list RouterPortModel;
  internal_net : list RouterPortModel;
  external_gateway_info : option dict
}.

Definition RouterModel_eq (a b : RouterModel) : bool := String.eqb (router_name a) (router_name b).

Record NetworkInterfaceModel := {
  nif_name : string;
  nif_mgmt : bool;
  nif_interface_name : option string;
  nif_ip : Z;
  nif_network : option IPv4Network;
  nif_gateway : option Z
}.

Inductive PduType := LINUX | GNB | LWGATEWAY | RU | CUDU | CORE5G.

#[export] Instance PduType_eq_dec : EqDecision PduType.
Proof. solve_decision. Defined.

Record PduModel := {
  pdu_name : string;
  pdu_area : Z;
  pdu_type : PduType;
  instance_type : string;
  description : option string;
  network_interfaces : list NetworkInterfaceModel;
  username : option string;
  password : option string;
  become_password : option string;
  config : dict;
  locked_by : option string
}.

Definition set_locked_by (o : option string) (p : PduModel) : PduModel :=
  {| pdu_name := pdu_name p; pdu_area := pdu_area p; pdu_type := pdu_type p;
     instance_type := instance_type p; description := description p;
     network_interfaces := network_interfaces p; username := username p;
     password := password p; become_password := become_password p; config := config p;
     locked_by := o |}.

Definition PduModel_eq (a b : PduModel) : bool := String.eqb (pdu_name a) (pdu_name b).

(** [PduModel.get_mgmt_ip]: the function falls off its end, returning [None], when no interface
    is a management one. *)
Definition get_mgmt_ip (p : PduModel) : option Z :=
  match find nif_mgmt (network_interfaces p) with
  | Some interface => Some (nif_ip interface)
  | None => None
  end.

(** ** Reserving and releasing ranges *)
Definition add_reserved_range (reserved_range : IPv4ReservedRange) : M NetworkModel unit :=
  self ← getS;
  if py_in IPv4ReservedRange_eq reserved_range (reserved_ranges self) then raise ValueError
  else putS (set_reserved_ranges (reserved_ranges self ++ [reserved_range]) self).

(** The loop of [release_range], from position [i] on. *)
Fixpoint release_range_loop (owner_name : string) (ip_range : option IPv4ReservedRange)
  (rest : list IPv4ReservedRange) (i : nat) : M NetworkModel (option IPv4ReservedRange) :=
  match rest with
  | [] => mret None
  | reserved_range :: rest' =>
      let release :=
        modifyS (λ self, set_reserved_ranges
                           (py_remove_at IPv4ReservedRange_eq i (reserved_ranges self)) self) ;;
        mret (Some reserved_range) in
      match ip_range with
      | None =>
          if String.eqb (owner reserved_range) owner_name then release
          else release_range_loop owner_name ip_range rest' (S i)
      | Some r =>
          if negb (String.eqb owner_name (owner r)) then raise AssertionError
          else if IPv4ReservedRange_eq reserved_range r then release
          else release_range_loop owner_name ip_range rest' (S i)
      end
  end.

Definition release_range (owner_name : string) (ip_range : option IPv4ReservedRange)
  : M NetworkModel (option IPv4ReservedRange) :=
  self ← getS; release_range_loop owner_name ip_range (reserved_ranges self) 0.

(** ** The reservation invariant of a network *)

(** Everything the allocator must keep away from. *)
Definition reservations (n : NetworkModel) : list IPv4Pool :=
  allocation_pool n ++ (range_pool <$> reserved_ranges n).

(** The ranges of the VIM and of the blueprints are pairwise disjoint, non-empty and start
    before the last usable address. *)
Definition network_ok (n : NetworkModel) : Prop :=
  ForallOrdPairs pools_disjoint (reservations n) ∧
  ∀ r, r ∈ reservations n → start r ≤ end_ r ∧ start r < last_usable (cidr n).

Lemma ForallOrdPairs_snoc {A} (R : A → A → Prop) l x :
  ForallOrdPairs R l → (∀ y, y ∈ l → R y x) → ForallOrdPairs R (l ++ [x]).
Proof.
  induction 1 as [|y l Hy Hl IH]; intros Hx; simpl; [repeat constructor|].
  constructor.
  - apply Forall_app. split; [done|]. constructor; [|done]. apply Hx. left.
  - apply IH. intros z Hz. apply Hx. by right.
Qed.

Lemma ForallOrdPairs_sublist {A} (R : A → A → Prop) l l' :
  l `sublist_of` l' → ForallOrdPairs R l' → ForallOrdPairs R l.
Proof.
  induction 1 as [|x l l' Hs IH|x l l' Hs IH]; intros H; [done| |].
  - inversion H as [|? ? Hx Hl]; subst. constructor; [|auto].
    rewrite Forall_forall in *. intros y Hy. apply Hx. by eapply elem_of_sublist.
  - inversion H; subst; auto.
Qed.

Lemma ForallOrdPairs_lookup {A} (R : A → A → Prop) l (i j : nat) x y :
  ForallOrdPairs R l → l !! i = Some x → l !! j = Some y → (i < j)%nat → R x y.
Proof.
  intros H. revert i j. induction H as [|z l Hz Hl IH]; intros i j Hx Hy Hij; [done|].
  destruct j as [|j]; [lia|]. destruct i as [|i]; simpl in *.
  - injection Hx as ->. rewrite Forall_forall in Hz. apply Hz.
    by eapply list_elem_of_lookup_2.
  - apply (IH i j); [done|done|lia].
Qed.

(** Two ranges that share an address are told apart by [__eq__] only when the new one is
    strictly inside the old one. *)
Lemma IPv4ReservedRange_eq_disjoint a b :
  pools_disjoint (range_pool a) (range_pool b) →
  start (range_pool a) ≤ end_ (range_pool a) → start (range_pool b) ≤ end_ (range_pool b) →
  IPv4ReservedRange_eq a b = false.
Proof.
  unfold pools_disjoint, IPv4ReservedRange_eq. intros H Ha Hb.
  apply orb_false_iff. rewrite !andb_false_iff, !Z.leb_gt. lia.
Qed.

Lemma IPv4ReservedRange_eq_spec a b :
  start (range_pool a) ≤ end_ (range_pool a) → start (range_pool b) ≤ end_ (range_pool b) →
  IPv4ReservedRange_eq a b = false ↔
  pools_disjoint (range_pool a) (range_pool b) ∨
  (start (range_pool a) < start (range_pool b) ∧ end_ (range_pool b) < end_ (range_pool a)).
Proof.
  unfold pools_disjoint, IPv4ReservedRange_eq. intros Ha Hb.
  rewrite orb_false_iff, !andb_false_iff, !Z.leb_gt. lia.
Qed.

(** ** Lemmas on reservation *)
Lemma reservations_set_app n r :
  reservations (set_reserved_ranges (reserved_ranges n ++ [r]) n) = reservations n ++ [range_pool r].
Proof. unfold reservations. simpl. by rewrite fmap_app, (assoc_L (++)). Qed.

Lemma reservations_reserved n r : r ∈ reserved_ranges n → range_pool r ∈ reservations n.
Proof.
  intros Hr. unfold reservations. apply elem_of_app. right. by apply list_elem_of_fmap_2.
Qed.

Lemma reservations_set_delete n (i : nat) :
  reservations (set_reserved_ranges (delete i (reserved_ranges n)) n) `sublist_of` reservations n.
Proof.
  unfold reservations. simpl. apply sublist_app; [done|].
  apply fmap_sublist, sublist_delete_list.
Qed.

(** A range disjoint from everything reserved is accepted. *)
Lemma add_reserved_range_fresh n r :
  network_ok n → start (range_pool r) ≤ end_ (range_pool r) →
  (∀ q, q ∈ reservations n → pools_disjoint (range_pool r) q) →
  add_reserved_range r n = (Ok tt, set_reserved_ranges (reserved_ranges n ++ [r]) n).
Proof.
  intros [_ Hok] Hr Hfree. unfold add_reserved_range. run_M.
  rewrite (proj2 (py_in_false _ _ _)); [done|].
  intros x Hx%reservations_reserved. apply IPv4ReservedRange_eq_disjoint; [|by apply Hok|done].
  symmetry. by apply Hfree.
Qed.

Lemma network_ok_app n r :
  network_ok n → start (range_pool r) ≤ end_ (range_pool r) →
  start (range_pool r) < last_usable (cidr n) →
  (∀ q, q ∈ reservations n → pools_disjoint (range_pool r) q) →
  network_ok (set_reserved_ranges (reserved_ranges n ++ [r]) n).
Proof.
  intros [Hd Hok] Hr Hlast Hfree. unfold network_ok. rewrite reservations_set_app. split.
  - apply ForallOrdPairs_snoc; [done|]. intros y Hy. symmetry. by apply Hfree.
  - intros q [Hq| ->%list_elem_of_singleton]%elem_of_app; [by apply Hok|]. done.
Qed.

Lemma network_ok_delete n (i : nat) :
  network_ok n → network_ok (set_reserved_ranges (delete i (reserved_ranges n)) n).
Proof.
  intros [Hd Hok]. pose proof (reservations_set_delete n i) as Hs. split.
  - by eapply ForallOrdPairs_sublist.
  - intros q Hq. apply Hok. by eapply elem_of_sublist.
Qed.

Lemma reserved_disjoint n (i j : nat) x y :
  network_ok n → reserved_ranges n !! i = Some x → reserved_ranges n !! j = Some y → i ≠ j →
  pools_disjoint (range_pool x) (range_pool y).
Proof.
  intros [Hd _] Hx Hy Hij.
  assert (Hd' : ForallOrdPairs pools_disjoint (range_pool <$> reserved_ranges n)).
  { eapply ForallOrdPairs_sublist; [|exact Hd]. unfold reservations. by apply sublist_inserts_l. }
  assert (Hx' : (range_pool <$> reserved_ranges n) !! i = Some (range_pool x))
    by by rewrite list_lookup_fmap, Hx.
  assert (Hy' : (range_pool <$> reserved_ranges n) !! j = Some (range_pool y))
    by by rewrite list_lookup_fmap, Hy.
  destruct (decide (i < j)%nat).
  - by eapply (ForallOrdPairs_lookup _ _ i j).
  - symmetry. eapply (ForallOrdPairs_lookup _ _ j i); [done..|lia].
Qed.

(** Removing the object at a position: no other range of a well-formed network equals it. *)
Lemma py_remove_at_reserved n (i : nat) x :
  network_ok n → reserved_ranges n !! i = Some x →
  py_remove_at IPv4ReservedRange_eq i (reserved_ranges n) = delete i (reserved_ranges n).
Proof.
  intros Hn Hx. unfold py_remove_at. rewrite Hx.
  destruct (find_index _ _) as [j|] eqn:E; [|done].
  apply find_index_Some in E as (y & Hy & He & _).
  assert (Hj : (j < i)%nat).
  { apply lookup_lt_Some in Hy. rewrite length_take in Hy. lia. }
  rewrite lookup_take_lt in Hy by done.
  rewrite IPv4ReservedRange_eq_disjoint in He; [done| | |].
  - eapply (reserved_disjoint n j i); [done..|lia].
  - apply Hn, reservations_reserved. by eapply list_elem_of_lookup_2.
  - apply Hn, reservations_reserved. by eapply list_elem_of_lookup_2.
Qed.

(** The test [release_range] applies to each range. *)
Definition release_test (owner_name : string) (ip_range : option IPv4ReservedRange)
  (r : IPv4ReservedRange) : bool :=
  match ip_range with
  | None => String.eqb (owner r) owner_name
  | Some q => IPv4ReservedRange_eq r q
  end.

(** The caller must name itself in the range it passes. *)
Definition release_owner_ok (owner_name : string) (ip_range : option IPv4ReservedRange) : bool :=
  match ip_range with None => true | Some q => String.eqb owner_name (owner q) end.

Lemma release_range_loop_spec owner_name ip_range rest k n :
  release_owner_ok owner_name ip_range = true →
  release_range_loop owner_name ip_range rest k n =
  match find_index (release_test owner_name ip_range) rest with
  | Some i => (Ok (rest !! i),
               set_reserved_ranges (py_remove_at IPv4ReservedRange_eq (k + i) (reserved_ranges n)) n)
  | None => (Ok None, n)
  end.
Proof.
  intros Hown. revert k. induction rest as [|r rest IH]; intros k; simpl; [done|].
  unfold release_owner_ok, release_test in *.
  assert (Hstep : ∀ b : bool,
    (if b then
       (modifyS (λ self, set_reserved_ranges
          (py_remove_at IPv4ReservedRange_eq k (reserved_ranges self)) self) ;;
        mret (Some r))
     else release_range_loop owner_name ip_range rest (S k)) n =
    match (if b then Some 0%nat else S <$> find_index (release_test owner_name ip_range) rest) with
    | Some i => (Ok ((r :: rest) !! i),
        set_reserved_ranges (py_remove_at IPv4ReservedRange_eq (k + i) (reserved_ranges n)) n)
    | None => (Ok None, n)
    end).
  { intros [|]; [by rewrite Nat.add_0_r|]. rewrite IH. unfold release_test.
    destruct (find_index _ rest) as [i|]; [|done]. simpl. by rewrite <-plus_n_Sm. }
  destruct ip_range as [q|].
  - rewrite Hown. simpl. apply Hstep.
  - apply Hstep.
Qed.

Lemma release_range_spec owner_name ip_range n :
  network_ok n → release_owner_ok owner_name ip_range = true →
  release_range owner_name ip_range n =
  match find_index (release_test owner_name ip_range) (reserved_ranges n) with
  | Some i => (Ok (reserved_ranges n !! i), set_reserved_ranges (delete i (reserved_ranges n)) n)
  | None => (Ok None, n)
  end.
Proof.
  intros Hn Hown. unfold release_range. run_M. rewrite release_range_loop_spec by done.
  destruct (find_index _ _) as [i|] eqn:E; [|done]. simpl.
  apply find_index_Some in E as (x & Hx & _). by erewrite py_remove_at_reserved.
Qed.

Lemma release_range_preserves owner_name ip_range :
  preserves network_ok (release_range owner_name ip_range).
Proof.
  intros n Hn. destruct (release_owner_ok owner_name ip_range) eqn:E.
  - rewrite release_range_spec by done. destruct (find_index _ _); [|done].
    simpl. by apply network_ok_delete.
  - destruct ip_range as [q|]; [|done]. unfold release_owner_ok in E.
    unfold release_range. run_M. destruct (reserved_ranges n) as [|r l]; simpl; [done|].
    by rewrite E.
Qed.

(** ** Properties *)

(** Reserving and releasing are inverse.  On a well-formed network, a valid range that meets
    no reservation is accepted, and releasing it afterwards, by a caller who owns no other range,
    gives back exactly the network before, whether the caller names the range or only itself. *)
Theorem reserve_release_roundtrip (n : NetworkModel) (r : IPv4ReservedRange) (named : bool) :
  network_ok n → start (range_pool r) ≤ end_ (range_pool r) →
  start (range_pool r) < last_usable (cidr n) →
  (∀ q, q ∈ reservations n → pools_disjoint (range_pool r) q) →
  (∀ q, q ∈ reserved_ranges n → owner q ≠ owner r) →
  (add_reserved_range r ;; release_range (owner r) (if named then Some r else None)) n =
  (Ok (Some r), n).
Proof.
  intros Hn Hr Hlast Hfree Hown.
  erewrite bind_Ok by by apply add_reserved_range_fresh.
  rewrite release_range_spec.
  2:{ by apply network_ok_app. }
  2:{ destruct named; simpl; [apply String.eqb_refl|done]. }
  change (reserved_ranges (set_reserved_ranges ?l _)) with l.
  rewrite find_index_app_last.
  - rewrite lookup_app_r, Nat.sub_diag by lia. rewrite delete_middle, app_nil_r. by destruct n.
  - intros y Hy. destruct named; simpl.
    + apply IPv4ReservedRange_eq_disjoint; [symmetry; by apply Hfree, reservations_reserved| |done].
      by apply Hn, reservations_reserved.
    + apply String.eqb_neq. by apply Hown.
  - destruct named; simpl; [|apply String.eqb_refl]. unfold IPv4ReservedRange_eq.
    apply orb_true_iff. left. apply andb_true_iff. rewrite !Z.leb_le. lia.
Qed.

(** [IPv4ReservedRange.__eq__] does not detect every overlap.  A range strictly inside one
    that is already reserved is not recognised, so [add_reserved_range] accepts it, and a caller
    that names it releases a range of another owner. *)
Theorem nested_range_accepted :
  ∃ n r n', add_reserved_range r n = (Ok tt, n') ∧
    (∃ q, q ∈ reserved_ranges n ∧ ¬ pools_disjoint (range_pool r) (range_pool q)) ∧
    ∃ q r', release_range (owner r') (Some r') n = (Ok (Some q), set_reserved_ranges [] n) ∧
            owner q ≠ owner r'.
Proof.
  set (q := {| range_pool := {| start := 3232235786; end_ := 3232235796 |}; owner := "BLUE1" |}).
  set (n := set_reserved_ranges [q] (build_network_model "net1" vlan example_cidr)).
  set (r := {| range_pool := {| start := 3232235788; end_ := 3232235791 |}; owner := "BLUE2" |}).
  exists n, r, (set_reserved_ranges [q; r] n). split; [by vm_compute|]. split.
  - exists q. split; [left|]. unfold pools_disjoint. simpl. lia.
  - exists q, {| range_pool := {| start := 3232235780; end_ := 3232235800 |}; owner := "BLUE2" |}.
    split; [by vm_compute|]. done.
Qed.

Definition example_range : IPv4ReservedRange :=
  {| range_pool := {| start := 3232235800; end_ := 3232235810 |}; owner := "BLUE1" |}.

Lemma reserve_release_roundtrip_witness :
  (add_reserved_range example_range ;; release_range "BLUE1" None)
    (build_network_model "net1" vlan example_cidr) =
  (Ok (Some example_range), build_network_model "net1" vlan example_cidr).
Proof.
  apply (reserve_release_roundtrip (build_network_model "net1" vlan example_cidr) example_range false).
  - split; [constructor|]. by intros r ?%not_elem_of_nil.
  - vm_compute. discriminate.
  - vm_compute. reflexivity.
  - by intros r ?%not_elem_of_nil.
  - by intros r ?%not_elem_of_nil.
Defined.
