(* ===== verification/VimModels.v ===== *)
(** * VIMs

    models/vim/vim_models.py: the model of a VIM (an OpenStack or Proxmox installation) with the
    names of its networks and routers and the areas it serves, the update message, and the
    descriptors built for virtual deployment units. *)

From Stdlib Require Import Ascii.
From stdpp Require Import base list strings gmap pretty.
From Stdlib Require Import ZArith Lia.
From S2P Require Import Prelude.

Open Scope Z_scope.

(** ** Data *)
Inductive VimTypeEnum := OPENSTACK | PROXMOX.

Record VimConfigModel := { insecure : bool; APIversion : string; use_floating_ip : bool }.

Record VimModel := {
  vim_name : string;
  vim_type : VimTypeEnum;
  schema_version : string;
  vim_url : string;
  vim_tenant_name : string;
  vim_user : string;
  vim_password : string;
  ssh_keys : option (list string);
  vim_proxmox_realm : option string;
  vim_proxmox_storage_id : option string;
  vim_proxmox_storage_volume : option string;
  osm_onboard : option bool;
  vim_config : VimConfigModel;
  networks : list string;
  routers : list string;
  areas : list Z
}.

(** The fields operations change. *)
Definition set_vim_lists (nets rts : list string) (ars : list Z) (v : VimModel) : VimModel :=
  {| vim_name := vim_name v; vim_type := vim_type v; schema_version := schema_version v;
     vim_url := vim_url v; vim_tenant_name := vim_tenant_name v; vim_user := vim_user v;
     vim_password := vim_password v; ssh_keys := ssh_keys v;
     vim_proxmox_realm := vim_proxmox_realm v; vim_proxmox_storage_id := vim_proxmox_storage_id v;
     vim_proxmox_storage_volume := vim_proxmox_storage_volume v; osm_onboard := osm_onboard v;
     vim_config := vim_config v; networks := nets; routers := rts; areas := ars |}.

Definition set_networks (l : list string) (v : VimModel) := set_vim_lists l (routers v) (areas v) v.
Definition set_routers (l : list string) (v : VimModel) := set_vim_lists (networks v) l (areas v) v.
Definition set_areas (l : list Z) (v : VimModel) := set_vim_lists (networks v) (routers v) l v.

(** The validator of [name]: lower case, and [-] replaced by [_]. *)
Definition normalize_vim_name (name : string) : string :=
  replace_char "-"%char "_"%char (lower name).

Definition set_vim_name (n : string) (v : VimModel) : VimModel :=
  {| vim_name := n; vim_type := vim_type v; schema_version := schema_version v;
     vim_url := vim_url v; vim_tenant_name := vim_tenant_name v; vim_user := vim_user v;
     vim_password := vim_password v; ssh_keys := ssh_keys v;
     vim_proxmox_realm := vim_proxmox_realm v; vim_proxmox_storage_id := vim_proxmox_storage_id v;
     vim_proxmox_storage_volume := vim_proxmox_storage_volume v; osm_onboard := osm_onboard v;
     vim_config := vim_config v; networks := networks v; routers := routers v; areas := areas v |}.

(** [VimModel.model_validate] of the dump of a VIM. *)
Definition validate_vim (v : VimModel) : VimModel := set_vim_name (normalize_vim_name (vim_name v)) v.

Definition VimModel_eq (a b : VimModel) : bool := String.eqb (vim_name a) (vim_name b).

Record UpdateVimModel := {
  upd_name : string;
  networks_to_add : list string;
  networks_to_del : list string;
  routers_to_add : list string;
  routers_to_del : list string;
  areas_to_add : list Z;
  areas_to_del : list Z
}.

(** ** Operations *)
Definition add_net (net : string) : M VimModel unit :=
  self ← getS;
  if py_in String.eqb net (networks self) || String.eqb net EmptyString then mret tt
  else putS (set_networks (networks self ++ [net]) self).

Definition del_net (net : string) : M VimModel (option string) :=
  self ← getS;
  if negb (py_in String.eqb net (networks self)) then mret None
  else
    idx ← liftR (py_index String.eqb net (networks self));
    '(removed, rest) ← liftR (py_pop (networks self) idx);
    putS (set_networks rest self) ;; mret (Some removed).

Definition get_net (net : string) : M VimModel (option string) :=
  self ← getS;
  mret (if negb (py_in String.eqb net (networks self)) then None else Some net).

Definition get_nets : M VimModel (list string) := self ← getS; mret (networks self).

Definition add_router (router : string) : M VimModel unit :=
  self ← getS;
  if py_in String.eqb router (routers self) || String.eqb router EmptyString then mret tt
  else putS (set_routers (routers self ++ [router]) self).

(** The guard tests the networks, as the code does. *)
Definition del_router (router : string) : M VimModel (option string) :=
  self ← getS;
  if negb (py_in String.eqb router (networks self)) then mret None
  else
    idx ← liftR (py_index String.eqb router (routers self));
    '(removed, rest) ← liftR (py_pop (routers self) idx);
    putS (set_routers rest self) ;; mret (Some removed).

Definition get_router (router : string) : M VimModel (option string) :=
  self ← getS;
  mret (if negb (py_in String.eqb router (routers self)) then None else Some router).

(** [area_id == (empty string)] is false of every integer. *)
Definition add_area (area_id : Z) : M VimModel unit :=
  self ← getS;
  if py_in Z.eqb area_id (areas self) then mret tt
  else putS (set_areas (areas self ++ [area_id]) self).

Definition del_area (area_id : Z) : M VimModel (option Z) :=
  self ← getS;
  if negb (py_in Z.eqb area_id (areas self)) then mret None
  else
    idx ← liftR (py_index Z.eqb area_id (areas self));
    '(removed, rest) ← liftR (py_pop (areas self) idx);
    putS (set_areas rest self) ;; mret (Some removed).

(** ** The invariant of a VIM: no list names anything twice *)
Definition vim_ok (v : VimModel) : Prop :=
  NoDup (networks v) ∧ NoDup (routers v) ∧ NoDup (areas v).

Section remove_first.
Context {A : Type} (eqb : A → A → bool) (eqb_ok : ∀ x y, eqb x y = true ↔ x = y).
Implicit Types (x : A) (l : list A).

(** [idx = l.index(x); l.pop(idx)] of a present element. *)
Lemma index_pop x l :
  x ∈ l → ∃ i, py_index eqb x l = Ok (Z.of_nat i) ∧ l !! i = Some x ∧
               py_pop l (Z.of_nat i) = Ok (x, delete i l).
Proof.
  intros Hx. unfold py_index. destruct (find_index _ l) as [i|] eqn:E.
  - apply find_index_Some in E as (y & Hy & ->%eqb_ok & _). exists i.
    repeat split; [done|]. by apply py_pop_nat.
  - apply find_index_None with (x := x) in E; [|done].
    by rewrite (proj2 (eqb_ok x x)) in E.
Qed.

Lemma NoDup_delete_list l (i : nat) : NoDup l → NoDup (delete i l).
Proof. intros H. eapply sublist_NoDup; [done|]. apply sublist_delete_list. Qed.

Lemma delete_NoDup_elem l (i : nat) x y :
  NoDup l → l !! i = Some x → y ∈ delete i l ↔ y ∈ l ∧ y ≠ x.
Proof.
  intros Hl Hx. pose proof (delete_Permutation l i x Hx) as Hp. rewrite Hp in Hl.
  apply NoDup_cons in Hl as [Hn _]. rewrite Hp at 2. rewrite elem_of_cons.
  split; [intros Hy; split; [by right|by intros ->]|]. by intros [[->|?] ?].
Qed.

Lemma NoDup_snoc_list l x : NoDup l → x ∉ l → NoDup (l ++ [x]).
Proof.
  intros Hl Hx. apply NoDup_app. split; [done|]. split; [|by apply NoDup_singleton].
  by intros y Hy ->%list_elem_of_singleton.
Qed.
End remove_first.

(** What each operation does, in terms of membership: the result, and the exact new state. *)
Lemma add_net_spec net v :
  add_net net v =
  (Ok tt, if bool_decide (net ∈ networks v ∨ net = EmptyString) then v
          else set_networks (networks v ++ [net]) v).
Proof.
  unfold add_net. run_M. case_bool_decide as H.
  - replace (_ || _) with true; [done|]. symmetry.
    apply orb_true_iff. by rewrite py_in_String, String.eqb_eq.
  - destruct (_ || _) eqn:E; [|done]. exfalso. apply H.
    by rewrite orb_true_iff, py_in_String, String.eqb_eq in E.
Qed.

Lemma del_net_spec net v :
  ((net ∉ networks v) ∧ del_net net v = (Ok None, v)) ∨
  (∃ i, networks v !! i = Some net ∧
        del_net net v = (Ok (Some net), set_networks (delete i (networks v)) v)).
Proof.
  unfold del_net. run_M. destruct (py_in String.eqb net (networks v)) eqn:E.
  - right. apply py_in_String in E.
    destruct (index_pop String.eqb String.eqb_eq _ _ E) as (i & Hi & Hl & Hp).
    exists i. rewrite Hi. simpl. by rewrite Hp.
  - left. split; [|done]. rewrite <-py_in_String. by rewrite E.
Qed.

Lemma del_area_spec a v :
  ((a ∉ areas v) ∧ del_area a v = (Ok None, v)) ∨
  (∃ i, areas v !! i = Some a ∧
        del_area a v = (Ok (Some a), set_areas (delete i (areas v)) v)).
Proof.
  unfold del_area. run_M. destruct (py_in Z.eqb a (areas v)) eqn:E.
  - right. apply py_in_Z in E.
    destruct (index_pop Z.eqb Z.eqb_eq _ _ E) as (i & Hi & Hl & Hp).
    exists i. rewrite Hi. simpl. by rewrite Hp.
  - left. split; [|done]. rewrite <-py_in_Z. by rewrite E.
Qed.

(** The guard of [del_router] lets a name through only when a network has it too. *)
Lemma del_router_spec r v :
  ((r ∉ networks v) ∧ del_router r v = (Ok None, v)) ∨
  (r ∈ networks v ∧ (r ∉ routers v) ∧ del_router r v = (Raise ValueError, v)) ∨
  (∃ i, r ∈ networks v ∧ routers v !! i = Some r ∧
        del_router r v = (Ok (Some r), set_routers (delete i (routers v)) v)).
Proof.
  unfold del_router. run_M. destruct (py_in String.eqb r (networks v)) eqn:E.
  2:{ left. split; [|done]. rewrite <-py_in_String. by rewrite E. }
  right. apply py_in_String in E. destruct (decide (r ∈ routers v)) as [Hr|Hr].
  - right. destruct (index_pop String.eqb String.eqb_eq _ _ Hr) as (i & Hi & Hl & Hp).
    exists i. rewrite Hi. simpl. by rewrite Hp.
  - left. split; [done|split; [done|]]. unfold py_index.
    rewrite (proj2 (find_index_None _ _)); [done|].
    intros x Hx. apply String.eqb_neq. by intros ->.
Qed.

Lemma vim_ok_networks v l : vim_ok v → NoDup l → vim_ok (set_networks l v).
Proof. by intros (? & ? & ?) ?. Qed.
Lemma vim_ok_routers v l : vim_ok v → NoDup l → vim_ok (set_routers l v).
Proof. by intros (? & ? & ?) ?. Qed.
Lemma vim_ok_areas v l : vim_ok v → NoDup l → vim_ok (set_areas l v).
Proof. by intros (? & ? & ?) ?. Qed.

Lemma add_net_preserves net : preserves vim_ok (add_net net).
Proof.
  intros v Hv. rewrite add_net_spec. simpl. case_bool_decide as H; [done|].
  apply vim_ok_networks; [done|]. apply NoDup_snoc_list; [apply Hv|]. tauto.
Qed.

Lemma del_net_preserves net : preserves vim_ok (del_net net).
Proof.
  intros v Hv. destruct (del_net_spec net v) as [[_ ->]|(i & _ & ->)]; [done|].
  simpl. apply vim_ok_networks; [done|]. apply NoDup_delete_list, Hv.
Qed.

Lemma add_router_preserves r : preserves vim_ok (add_router r).
Proof.
  intros v Hv. unfold add_router. run_M. destruct (_ || _) eqn:E; [done|].
  apply orb_false_iff in E as [E _]. simpl. apply vim_ok_routers; [done|].
  apply NoDup_snoc_list; [apply Hv|]. rewrite <-py_in_String. by rewrite E.
Qed.

Lemma del_router_preserves r : preserves vim_ok (del_router r).
Proof.
  intros v Hv. destruct (del_router_spec r v) as [[_ ->]|[(_ & _ & ->)|(i & _ & _ & ->)]];
    [done|done|]. simpl. apply vim_ok_routers; [done|]. apply NoDup_delete_list, Hv.
Qed.

Lemma add_area_preserves a : preserves vim_ok (add_area a).
Proof.
  intros v Hv. unfold add_area. run_M. destruct (py_in _ _ _) eqn:E; [done|].
  simpl. apply vim_ok_areas; [done|].
  apply NoDup_snoc_list; [apply Hv|]. rewrite <-py_in_Z. by rewrite E.
Qed.

Lemma del_area_preserves a : preserves vim_ok (del_area a).
Proof.
  intros v Hv. destruct (del_area_spec a v) as [[_ ->]|(i & _ & ->)]; [done|].
  simpl. apply vim_ok_areas; [done|]. apply NoDup_delete_list, Hv.
Qed.

#[export] Hint Resolve add_net_preserves del_net_preserves add_router_preserves
  del_router_preserves add_area_preserves del_area_preserves : preserve.

(** The name normalisation is idempotent: a VIM read back from the database is unchanged. *)
Lemma ascii_normalize_idem c :
  let f c := if Ascii.eqb (ascii_lower c) "-"%char then "_"%char else ascii_lower c in
  f (f c) = f c.
Proof. destruct c as [[] [] [] [] [] [] [] []]; reflexivity. Qed.

Lemma normalize_vim_name_idem n : normalize_vim_name (normalize_vim_name n) = normalize_vim_name n.
Proof.
  unfold normalize_vim_name, replace_char, lower. rewrite !string_map_map.
  apply string_map_ext. intros c. apply (ascii_normalize_idem c).
Qed.

Lemma validate_vim_idem v : validate_vim (validate_vim v) = validate_vim v.
Proof. unfold validate_vim, set_vim_name. simpl. by rewrite normalize_vim_name_idem. Qed.

Lemma validate_vim_id v : normalize_vim_name (vim_name v) = vim_name v → validate_vim v = v.
Proof. unfold validate_vim. intros ->. by destruct v. Qed.

(** ** Deployment unit descriptors *)
Record VimNetMap := {
  vnm_vld : string; vnm_name : string; vim_net : string; vnm_mgt : bool;
  k8s_cluster_net : string; vnm_ip_address : option string
}.

Definition build_vnm (vld name net : string) (mgt : bool) (cluster_net : string) : VimNetMap :=
  {| vnm_vld := vld; vnm_name := name; vim_net := net; vnm_mgt := mgt;
     k8s_cluster_net := cluster_net; vnm_ip_address := None |}.

Record VimLink := {
  vld : string; link_name : string; mgt : bool; intf_type : option string;
  port_security_enabled : bool
}.

Definition build_vim_link (net_map : VimNetMap) (type : option string) (port_security : bool) : VimLink :=
  {| vld := vnm_vld net_map; link_name := vnm_name net_map; mgt := vnm_mgt net_map;
     intf_type := type; port_security_enabled := port_security |}.

Record VMFlavors := { memory_mb : string; storage_gb : string; vcpu_count : string }.

(** [VMFlavors.validate_field]: strings pass, integers are printed, [bool] is an [int]. *)
Definition validate_field (v : pyval) : result string :=
  match v with
  | VStr s => Ok s
  | VInt z => Ok (pretty z)
  | VBool b => Ok (if b then "True" else "False")
  | _ => Raise ValueError
  end.

Record VirtualDeploymentUnit := {
  vdu_count : Z; vdu_id : string; image : string; vm_flavor : VMFlavors;
  interface : list VimLink; vim_monitoring : bool
}.

(** The loop of [build_vdu], from interface number [intf_index] on. *)
Fixpoint data_interfaces (nets : list string) (intf_index : Z) : list VimLink :=
  match nets with
  | [] => []
  | net_name :: nets' =>
      {| vld := "data_" +:+ net_name; link_name := "ens" +:+ pretty intf_index; mgt := false;
         intf_type := None; port_security_enabled := false |}
      :: data_interfaces nets' (intf_index + 1)
  end.

Definition build_vdu (id img : string) (vdu_data_int_list : list string) (flavor : VMFlavors)
  : VirtualDeploymentUnit :=
  {| vdu_count := 1; vdu_id := id; image := img; vm_flavor := flavor;
     interface := {| vld := "mgt"; link_name := "ens3"; mgt := true; intf_type := None;
                     port_security_enabled := false |} :: data_interfaces vdu_data_int_list 4;
     vim_monitoring := true |}.

Lemma append_inj_l (a b c : string) : a +:+ b = a +:+ c → b = c.
Proof. induction a as [|x a IH]; simpl; [done|]. intros [= H]. auto. Qed.

Lemma data_interfaces_lookup nets k (i : nat) l :
  data_interfaces nets k !! i = Some l →
  link_name l = "ens" +:+ pretty (k + Z.of_nat i) ∧ mgt l = false ∧
  vld <$> (data_interfaces nets k !! i) = (λ n, "data_" +:+ n) <$> (nets !! i).
Proof.
  revert k i; induction nets as [|n nets IH]; intros k i; simpl; [done|].
  destruct i as [|i]; simpl.
  - intros [= <-]. simpl. by rewrite Z.add_0_r.
  - intros H. apply IH in H. by replace (k + Z.of_nat (S i)) with (k + 1 + Z.of_nat i) by lia.
Qed.

Lemma data_interfaces_length nets k : length (data_interfaces nets k) = length nets.
Proof. revert k; induction nets as [|n nets IH]; intros k; simpl; [done|]. by rewrite IH. Qed.

(** ** Membership *)
Lemma add_net_elem net v x :
  x ∈ networks (add_net net v).2 ↔ x ∈ networks v ∨ (x = net ∧ net ≠ EmptyString).
Proof.
  rewrite add_net_spec. simpl. case_bool_decide as H; simpl.
  - split; [by left|]. intros [?|[-> Hne]]; [done|]. by destruct H.
  - rewrite elem_of_app, list_elem_of_singleton. split; [|tauto].
    intros [?| ->]; [by left|]. right. split; [done|]. intros ->. apply H. by right.
Qed.

Lemma del_net_elem net v x :
  vim_ok v → x ∈ networks (del_net net v).2 ↔ x ∈ networks v ∧ x ≠ net.
Proof.
  intros Hv. destruct (del_net_spec net v) as [[Hn ->]|(i & Hi & ->)]; simpl.
  - split; [|by intros [? _]]. intros Hx. split; [done|]. by intros ->.
  - apply delete_NoDup_elem; [apply Hv|done].
Qed.

Lemma del_net_result net v :
  (del_net net v).1 = Ok (if bool_decide (net ∈ networks v) then Some net else None).
Proof.
  destruct (del_net_spec net v) as [[Hn ->]|(i & Hi & ->)]; simpl.
  - by rewrite bool_decide_false.
  - rewrite bool_decide_true; [done|]. by eapply list_elem_of_lookup_2.
Qed.

Lemma add_area_elem a v x : x ∈ areas (add_area a v).2 ↔ x ∈ areas v ∨ x = a.
Proof.
  unfold add_area. run_M. destruct (py_in Z.eqb a (areas v)) eqn:E; simpl.
  - apply py_in_Z in E. split; [by left|]. by intros [?| ->].
  - by rewrite elem_of_app, list_elem_of_singleton.
Qed.

Lemma del_area_elem a v x :
  vim_ok v → x ∈ areas (del_area a v).2 ↔ x ∈ areas v ∧ x ≠ a.
Proof.
  intros Hv. destruct (del_area_spec a v) as [[Hn ->]|(i & Hi & ->)]; simpl.
  - split; [|by intros [? _]]. intros Hx. split; [done|]. by intros ->.
  - apply delete_NoDup_elem; [apply Hv|done].
Qed.

(** ** Properties *)

(** The lists of a VIM behave as sets.  On a VIM whose lists have no duplicates, adding a
    network makes it a member (the empty name excepted) and deleting it removes it and nothing
    else, deleting reports the name exactly when it was there, the same holds of areas, and every
    operation of the model keeps the lists free of duplicates. *)
Theorem vim_lists_are_sets (v : VimModel) :
  vim_ok v →
  (∀ net x, x ∈ networks (add_net net v).2 ↔ x ∈ networks v ∨ (x = net ∧ net ≠ EmptyString)) ∧
  (∀ net x, x ∈ networks (del_net net v).2 ↔ x ∈ networks v ∧ x ≠ net) ∧
  (∀ net, (del_net net v).1 = Ok (if bool_decide (net ∈ networks v) then Some net else None)) ∧
  (∀ a x, x ∈ areas (add_area a v).2 ↔ x ∈ areas v ∨ x = a) ∧
  (∀ a x, x ∈ areas (del_area a v).2 ↔ x ∈ areas v ∧ x ≠ a) ∧
  (∀ s a, vim_ok (add_net s v).2 ∧ vim_ok (del_net s v).2 ∧ vim_ok (add_router s v).2 ∧
          vim_ok (del_router s v).2 ∧ vim_ok (add_area a v).2 ∧ vim_ok (del_area a v).2).
Proof.
  intros Hv. split; [intros; apply add_net_elem|]. split; [intros; by apply del_net_elem|].
  split; [intros; apply del_net_result|]. split; [intros; apply add_area_elem|].
  split; [intros; by apply del_area_elem|]. intros s a.
  split; [by apply add_net_preserves|]. split; [by apply del_net_preserves|].
  split; [by apply add_router_preserves|]. split; [by apply del_router_preserves|].
  split; [by apply add_area_preserves|by apply del_area_preserves].
Qed.

(** [VimModel.del_router] guards with the list of networks instead of the list of routers:
    a router whose name is not also that of a network of the VIM is never removed, and a name
    that is a network's but no router's raises instead of being reported. *)
Theorem del_router_guard (r : string) (v : VimModel) :
  (r ∉ networks v → del_router r v = (Ok None, v)) ∧
  (r ∈ networks v → r ∉ routers v → del_router r v = (Raise ValueError, v)).
Proof.
  destruct (del_router_spec r v) as [[Hn Hd]|[(Hn & Hr & Hd)|(i & Hn & Hr & Hd)]].
  - by split.
  - by split.
  - split; [done|]. intros _ Hnr. destruct Hnr. by eapply list_elem_of_lookup_2.
Qed.

(** [build_vdu] gives a deployment unit one interface per data network after the management
    interface, in order, with distinct device names. *)
Theorem build_vdu_interfaces (id img : string) (nets : list string) (f : VMFlavors) :
  let itfs := interface (build_vdu id img nets f) in
  length itfs = S (length nets) ∧ NoDup (link_name <$> itfs) ∧
  (∀ i n, nets !! i = Some n → vld <$> itfs !! S i = Some ("data_" +:+ n)) ∧
  (∀ l, l ∈ itfs → mgt l = true ↔ link_name l = "ens3").
Proof.
  cbn zeta. unfold build_vdu. cbn [interface].
  assert (Hname : ∀ i l, data_interfaces nets 4 !! i = Some l → link_name l = "ens" +:+ pretty (4 + Z.of_nat i))
    by (intros i l H; by apply data_interfaces_lookup in H as (? & _)).
  assert (H3 : ∀ i : nat, "ens3" ≠ "ens" +:+ pretty (4 + Z.of_nat i)).
  { intros i H. change "ens3" with ("ens" +:+ pretty 3) in H.
    apply append_inj_l, (inj pretty) in H. lia. }
  split; [simpl; by rewrite data_interfaces_length|]. split; [|split].
  - simpl. apply NoDup_cons. split.
    + intros (l & Hl & [i Hi]%list_elem_of_lookup)%list_elem_of_fmap.
      rewrite (Hname _ _ Hi) in Hl. by apply (H3 i).
    + apply NoDup_alt. intros i j x. rewrite !list_lookup_fmap, !fmap_Some.
      intros (l1 & H1 & ->) (l2 & H2 & He). rewrite (Hname _ _ H1), (Hname _ _ H2) in He.
      apply append_inj_l, (inj pretty) in He. lia.
  - intros i n Hn. simpl. destruct (data_interfaces nets 4 !! i) as [l|] eqn:Hl.
    + pose proof (data_interfaces_lookup _ _ _ _ Hl) as (_ & _ & Hv).
      rewrite Hl, Hn in Hv. simpl in Hv. done.
    + apply lookup_ge_None in Hl. rewrite data_interfaces_length in Hl.
      apply lookup_lt_Some in Hn. lia.
  - intros l [->|[i Hi]%list_elem_of_lookup]%elem_of_cons; [done|].
    pose proof (data_interfaces_lookup _ _ _ _ Hi) as (_ & Hm & _).
    rewrite Hm, (Hname _ _ Hi). split; [done|]. intros H. by destruct (H3 i).
Qed.

Definition example_vim : VimModel :=
  {| vim_name := "vim1"; vim_type := OPENSTACK; schema_version := "1.3"; vim_url := "http://os";
     vim_tenant_name := "admin"; vim_user := "admin"; vim_password := "admin"; ssh_keys := Some [];
     vim_proxmox_realm := Some "pam"; vim_proxmox_storage_id := Some "local";
     vim_proxmox_storage_volume := Some "local-lvm"; osm_onboard := Some false;
     vim_config := {| insecure := true; APIversion := "v3.3"; use_floating_ip := false |};
     networks := ["mgmt"; "data"]; routers := ["r1"]; areas := [0; 1] |}.

Lemma vim_lists_are_sets_witness :
  "mgmt" ∈ networks (add_net "lte" example_vim).2 ↔
  "mgmt" ∈ networks example_vim ∨ ("mgmt" = "lte" ∧ "lte" ≠ EmptyString).
Proof.
  apply (vim_lists_are_sets example_vim).
  repeat split; apply (bool_decide_unpack _); vm_compute; exact I.
Defined.

Lemma del_router_guard_witness :
  del_router "r1" example_vim = (Ok None, example_vim) ∧
  del_router "mgmt" example_vim = (Raise ValueError, example_vim).
Proof.
  split; [apply (proj1 (del_router_guard "r1" example_vim))
         |apply (proj2 (del_router_guard "mgmt" example_vim))];
    apply (bool_decide_unpack _); vm_compute; exact I.
Defined.
