(* ===== verification/Database.v ===== *)
(** * The document store

    utils/database.py on top of MongoDB.  The server is code outside the repository: a class
    gives the operations the code calls on one collection and the documented behaviour it relies
    on; [list_mongo] is a concrete server, for evaluation.  The order in which the server returns
    documents is left open.  Write failures of the server are not modelled. *)

From stdpp Require Import base list strings gmap.
From Stdlib Require Import ZArith Lia Permutation.
From S2P Require Import Prelude.

Open Scope Z_scope.

(** ** Documents and queries *)

(** The code queries with [{}] or with the value of one textual field. *)
Inductive query := QAll | QField (field value : string).

Class Document (D : Type) := { doc_field : D → string → option string }.

(** A dictionary whose ["id"] entry can be set. *)
Class IdDocument (D : Type) `{Document D} := {
  set_doc_id : string → D → D;
  doc_field_set_id : ∀ i d, doc_field (set_doc_id i d) "id" = Some i
}.

Definition doc_matches {D} `{Document D} (q : query) (d : D) : bool :=
  match q with
  | QAll => true
  | QField f v => match doc_field d f with Some w => String.eqb w v | None => false end
  end.

Definition matches {D} `{Document D} (q : query) (d : D) : Prop := doc_matches q d = true.

#[export] Instance matches_dec {D} `{Document D} q (d : D) : Decision (matches q d).
Proof. unfold matches. solve_decision. Defined.

(** ** A collection

    The documents stored by this code are dumps of one model class: all have the same fields, so
    that [$set] with a whole dump replaces the document. *)
Class Mongo (D C : Type) `{Document D} := {
  docs : C → list D;
  mongo_find : query → C → list D;
  mongo_find_one : query → C → option D;
  mongo_count_documents : query → C → Z;
  mongo_insert_one : D → C → C;
  mongo_update_one : query → D → C → C;      (* {"$set": d}, upsert=True *)
  mongo_delete_many : query → C → C;
  find_docs : ∀ q c, Permutation (mongo_find q c) (filter (matches q) (docs c));
  find_one_Some : ∀ q c d, mongo_find_one q c = Some d → d ∈ docs c ∧ matches q d;
  find_one_None : ∀ q c, mongo_find_one q c = None → ∀ d, d ∈ docs c → ¬ matches q d;
  count_docs : ∀ q c, mongo_count_documents q c = Z.of_nat (length (filter (matches q) (docs c)));
  insert_docs : ∀ d c, Permutation (docs (mongo_insert_one d c)) (d :: docs c);
  update_docs : ∀ q d c,
    (∃ d0 rest, matches q d0 ∧ Permutation (docs c) (d0 :: rest) ∧
                Permutation (docs (mongo_update_one q d c)) (d :: rest)) ∨
    ((∀ d0, d0 ∈ docs c → ¬ matches q d0) ∧
     Permutation (docs (mongo_update_one q d c)) (d :: docs c));
  delete_docs : ∀ q c,
    Permutation (docs (mongo_delete_many q c)) (filter (λ d, ¬ matches q d) (docs c))
}.

(** ** utils/database.py *)
Section database.
Context {D C : Type} `{Mongo D C}.

Definition insert_in_collection (data : D) (c : C) : C := mongo_insert_one data c.
Definition find_in_collection (q : query) (c : C) : list D := mongo_find q c.
Definition find_one_in_collection (q : query) (c : C) : option D := mongo_find_one q c.
Definition exists_in_collection (q : query) (c : C) : bool := 0 <? mongo_count_documents q c.
Definition update_in_collection (data : D) (q : query) (c : C) : C := mongo_update_one q data c.
Definition delete_from_collection (q : query) (c : C) : C := mongo_delete_many q c.

(** [get_ng_blue_list]. *)
Definition get_ng_blue_list (blueprint_type : option string) (c : C) : list D :=
  find_in_collection
    (match blueprint_type with
     | Some t => if str_true blueprint_type then QField "type" t else QAll
     | None => QAll
     end) c.

(** [get_ng_blue_by_id_filter]: the first document of the cursor. *)
Definition get_ng_blue_by_id_filter (blueprint_id : string) (c : C) : option D :=
  head (find_in_collection (QField "id" blueprint_id) c).

Definition save_ng_blue (blueprint_id : string) (dict_blue : D) (c : C) : C :=
  if exists_in_collection (QField "id" blueprint_id) c
  then update_in_collection dict_blue (QField "id" blueprint_id) c
  else insert_in_collection dict_blue c.

Definition destroy_ng_blue (blueprint_id : string) (c : C) : C :=
  delete_from_collection (QField "id" blueprint_id) c.

Definition save_topology (dict_topo : D) (c : C) : C :=
  if exists_in_collection (QField "id" "topology") c
  then update_in_collection dict_topo (QField "id" "topology") c
  else insert_in_collection dict_topo c.

Definition delete_topology (c : C) : C := delete_from_collection (QField "id" "topology") c.

Definition insert_extra `{!IdDocument D} (object_id : string) (object_dict : D) (c : C) : C :=
  let object_dict := set_doc_id object_id object_dict in
  if exists_in_collection (QField "id" object_id) c
  then update_in_collection object_dict (QField "id" object_id) c
  else insert_in_collection object_dict c.

Definition get_extra (object_id : string) (c : C) : option D :=
  head (find_in_collection (QField "id" object_id) c).

(** *** Collections with one document per identifier *)
Definition has_id (i : string) (d : D) : Prop := doc_field d "id" = Some i.

#[global] Instance has_id_dec i d : Decision (has_id i d).
Proof. unfold has_id. apply _. Defined.

Lemma matches_id i d : matches (QField "id" i) d ↔ has_id i d.
Proof.
  unfold matches, has_id, doc_matches. destruct (doc_field d "id") as [j|]; [|done].
  rewrite String.eqb_eq. split; [by intros ->|by intros [= ->]].
Qed.

Definition by_id (i : string) (c : C) : list D := filter (matches (QField "id" i)) (docs c).

(** At most one document per identifier. *)
Definition ids_unique (c : C) : Prop := ∀ i, (length (by_id i c) ≤ 1)%nat.

Lemma exists_by_id i c : exists_in_collection (QField "id" i) c = bool_decide (by_id i c ≠ []).
Proof.
  unfold exists_in_collection. rewrite count_docs. fold (by_id i c).
  destruct (by_id i c); [done|]. by rewrite bool_decide_true.
Qed.

Lemma by_id_perm i c c' : Permutation (docs c) (docs c') → Permutation (by_id i c) (by_id i c').
Proof. unfold by_id. by intros ->. Qed.

Lemma filter_id_cons i d l :
  filter (matches (QField "id" i)) (d :: l) =
  if decide (has_id i d) then d :: filter (matches (QField "id" i)) l
  else filter (matches (QField "id" i)) l.
Proof.
  rewrite filter_cons. destruct (decide (matches _ d)) as [Hm|Hm], (decide (has_id i d)) as [Hi|Hi];
    rewrite matches_id in Hm; done.
Qed.

(** The two branches of a save: afterwards the identifier has exactly the new document, and the
    other identifiers are untouched. *)
Lemma save_by_id i d c :
  ids_unique c → has_id i d →
  (if exists_in_collection (QField "id" i) c
   then by_id i (update_in_collection d (QField "id" i) c)
   else by_id i (insert_in_collection d c)) = [d] ∧
  ∀ j, j ≠ i →
    Permutation (by_id j (if exists_in_collection (QField "id" i) c
                          then update_in_collection d (QField "id" i) c
                          else insert_in_collection d c)) (by_id j c).
Proof.
  intros Hu Hd. rewrite exists_by_id.
  assert (Hother : ∀ j d', j ≠ i → has_id i d' → ¬ has_id j d').
  { unfold has_id. congruence. }
  destruct (bool_decide _) eqn:E.
  - apply bool_decide_eq_true in E. unfold update_in_collection.
    destruct (update_docs (QField "id" i) d c) as [(d0 & rest & Hm & Hc & Hc')|(Hn & _)].
    + rewrite matches_id in Hm. assert (Hrest : filter (matches (QField "id" i)) rest = []).
      { specialize (Hu i). unfold by_id in Hu. rewrite Hc, filter_id_cons in Hu.
        rewrite decide_True in Hu by done. simpl in Hu.
        destruct (filter _ rest); [done|simpl in Hu; lia]. }
      split.
      * apply Permutation_singleton_r. unfold by_id. rewrite Hc', filter_id_cons.
        by rewrite decide_True, Hrest.
      * intros j Hj. unfold by_id. rewrite Hc, Hc', !filter_id_cons.
        by rewrite !decide_False by eauto.
    + exfalso. apply E. unfold by_id. destruct (filter _ (docs c)) as [|x l] eqn:F; [done|].
      assert (Hx : x ∈ filter (matches (QField "id" i)) (docs c)) by (rewrite F; left).
      apply list_elem_of_filter in Hx as [Hx Hin]. by destruct (Hn x).
  - apply bool_decide_eq_false, dec_stable in E. unfold insert_in_collection. split.
    + apply Permutation_singleton_r. unfold by_id. rewrite insert_docs, filter_id_cons.
      rewrite decide_True by done. fold (by_id i c). by rewrite E.
    + intros j Hj. unfold by_id. rewrite insert_docs, filter_id_cons.
      by rewrite decide_False by eauto.
Qed.

(** The same for a document updated by another field, inserting it when it is missing. *)
Definition by_field (f i : string) (c : C) : list D := filter (matches (QField f i)) (docs c).
Definition field_unique (f : string) (c : C) : Prop := ∀ i, (length (by_field f i c) ≤ 1)%nat.

Lemma matches_field f i d : matches (QField f i) d ↔ doc_field d f = Some i.
Proof.
  unfold matches, doc_matches. destruct (doc_field d f) as [j|]; [|done].
  rewrite String.eqb_eq. split; [by intros ->|by intros [= ->]].
Qed.

Lemma update_by_field f i d c :
  field_unique f c → doc_field d f = Some i →
  by_field f i (update_in_collection d (QField f i) c) = [d] ∧
  (∀ j, j ≠ i → Permutation (by_field f j (update_in_collection d (QField f i) c)) (by_field f j c)) ∧
  field_unique f (update_in_collection d (QField f i) c).
Proof.
  intros Hu Hd. assert (Hdi : matches (QField f i) d) by by apply matches_field.
  assert (Hother : ∀ j d', j ≠ i → matches (QField f i) d' → ¬ matches (QField f j) d').
  { intros j d' Hj. rewrite !matches_field. congruence. }
  assert (H12 : by_field f i (update_in_collection d (QField f i) c) = [d] ∧
    ∀ j, j ≠ i → Permutation (by_field f j (update_in_collection d (QField f i) c)) (by_field f j c)).
  { unfold update_in_collection, by_field.
    destruct (update_docs (QField f i) d c) as [(d0 & rest & Hm & Hc & Hc')|(Hn & Hc')].
    - assert (Hrest : filter (matches (QField f i)) rest = []).
      { specialize (Hu i). unfold by_field in Hu. rewrite Hc, filter_cons, decide_True in Hu by done.
        simpl in Hu. destruct (filter _ rest); [done|simpl in Hu; lia]. }
      split.
      + apply Permutation_singleton_r. by rewrite Hc', filter_cons, decide_True, Hrest.
      + intros j Hj. rewrite Hc, Hc', !filter_cons. by rewrite !decide_False by eauto.
    - split.
      + apply Permutation_singleton_r. rewrite Hc', filter_cons, decide_True by done.
        assert (filter (matches (QField f i)) (docs c) = []) as ->; [|done].
        destruct (filter _ (docs c)) as [|x l] eqn:F; [done|].
        assert (Hx : x ∈ filter (matches (QField f i)) (docs c)) by (rewrite F; left).
        apply list_elem_of_filter in Hx as [Hx Hin]. by destruct (Hn x).
      + intros j Hj. rewrite Hc', filter_cons. by rewrite decide_False by eauto. }
  destruct H12 as [H1 H2]. split; [done|split; [done|]]. intros j.
  destruct (decide (j = i)) as [->|Hj]; [by rewrite H1|].
  rewrite (Permutation_length (H2 j Hj)). apply Hu.
Qed.

Lemma find_one_by_field f i d c : by_field f i c = [d] → find_one_in_collection (QField f i) c = Some d.
Proof.
  intros Hd. unfold find_one_in_collection, by_field in *.
  destruct (mongo_find_one (QField f i) c) as [d'|] eqn:E.
  - apply find_one_Some in E as [Hin Hm].
    assert (Hx : d' ∈ filter (matches (QField f i)) (docs c)) by by apply list_elem_of_filter.
    rewrite Hd in Hx. apply list_elem_of_singleton in Hx. congruence.
  - exfalso. assert (Hx : d ∈ filter (matches (QField f i)) (docs c)) by (rewrite Hd; left).
    apply list_elem_of_filter in Hx as [Hx Hin]. by apply (find_one_None _ _ E d).
Qed.

Lemma delete_by_id i c :
  by_id i (delete_from_collection (QField "id" i) c) = [] ∧
  ∀ j, j ≠ i → Permutation (by_id j (delete_from_collection (QField "id" i) c)) (by_id j c).
Proof.
  unfold delete_from_collection. split.
  - apply Permutation_nil_r. unfold by_id. rewrite delete_docs.
    induction (docs c) as [|d l IH]; [done|]. rewrite filter_cons.
    destruct (decide (¬ matches _ d)) as [Hn|Hn]; [|done].
    rewrite filter_cons. rewrite decide_False by done. done.
  - intros j Hj. unfold by_id. rewrite delete_docs.
    enough (Heq : filter (matches (QField "id" j)) (filter (λ d, ¬ matches (QField "id" i) d) (docs c))
                  = filter (matches (QField "id" j)) (docs c)) by by rewrite Heq.
    induction (docs c) as [|d l IH]; [done|]. rewrite filter_cons.
    destruct (decide (¬ matches _ d)) as [Hn|Hn].
    + rewrite !filter_cons. destruct (decide (matches (QField "id" j) d)); by rewrite IH.
    + apply dec_stable in Hn. rewrite matches_id in Hn. rewrite IH.
      rewrite filter_cons, decide_False; [done|]. rewrite matches_id. unfold has_id in *. congruence.
Qed.

Lemma by_id_get i c : get_ng_blue_by_id_filter i c = head (find_in_collection (QField "id" i) c).
Proof. done. Qed.

Lemma get_by_id_singleton i d c : by_id i c = [d] → get_ng_blue_by_id_filter i c = Some d.
Proof.
  intros Hd. unfold get_ng_blue_by_id_filter, find_in_collection.
  pose proof (find_docs (QField "id" i) c) as Hf. fold (by_id i c) in Hf.
  rewrite Hd in Hf. apply Permutation_singleton_r in Hf. by rewrite Hf.
Qed.

Lemma get_by_id_nil i c : by_id i c = [] → get_ng_blue_by_id_filter i c = None.
Proof.
  intros Hd. unfold get_ng_blue_by_id_filter, find_in_collection.
  pose proof (find_docs (QField "id" i) c) as Hf. fold (by_id i c) in Hf.
  rewrite Hd in Hf. apply Permutation_nil_r in Hf. by rewrite Hf.
Qed.

Lemma ids_unique_cases i c : ids_unique c → by_id i c = [] ∨ ∃ d, by_id i c = [d].
Proof.
  intros Hu. specialize (Hu i). destruct (by_id i c) as [|d [|]]; simpl in Hu; [by left|eauto|lia].
Qed.

Lemma get_by_id_perm i c c' :
  ids_unique c → Permutation (by_id i c') (by_id i c) →
  get_ng_blue_by_id_filter i c' = get_ng_blue_by_id_filter i c.
Proof.
  intros Hu Hp. destruct (ids_unique_cases i c Hu) as [Hc|[d Hc]]; rewrite Hc in Hp.
  - apply Permutation_nil_r in Hp. by rewrite !get_by_id_nil.
  - apply Permutation_singleton_r in Hp. by rewrite (get_by_id_singleton i d c), (get_by_id_singleton i d c').
Qed.
End database.

(** ** A concrete server: the list of the documents, in insertion order *)
Section list_mongo.
Context {D : Type} `{Document D}.

Fixpoint replace_first (q : query) (d : D) (l : list D) : option (list D) :=
  match l with
  | [] => None
  | x :: l' => if doc_matches q x then Some (d :: l')
               else (x ::.) <$> replace_first q d l'
  end.

Lemma replace_first_Some q d l l' :
  replace_first q d l = Some l' →
  ∃ d0 rest, matches q d0 ∧ Permutation l (d0 :: rest) ∧ Permutation l' (d :: rest).
Proof.
  revert l'; induction l as [|x l IH]; simpl; intros l' Hr; [done|].
  destruct (doc_matches q x) eqn:E.
  - injection Hr as <-. by exists x, l.
  - apply fmap_Some in Hr as (l1 & Hl1 & ->).
    destruct (IH l1 Hl1) as (d0 & rest & Hm & H1 & H2). exists d0, (x :: rest).
    split; [done|]. rewrite H1, H2. split; constructor.
Qed.

Lemma replace_first_None q d l :
  replace_first q d l = None → ∀ x, x ∈ l → ¬ matches q x.
Proof.
  induction l as [|y l IH]; simpl; intros Hr x; [by intros ?%not_elem_of_nil|].
  destruct (doc_matches q y) eqn:E; [done|]. apply fmap_None in Hr.
  intros [->|Hx]%elem_of_cons; [unfold matches; congruence|by apply IH].
Qed.

#[export] Program Instance list_mongo : Mongo D (list D) := {|
  docs := λ c, c;
  mongo_find := λ q c, filter (matches q) c;
  mongo_find_one := λ q c, head (filter (matches q) c);
  mongo_count_documents := λ q c, Z.of_nat (length (filter (matches q) c));
  mongo_insert_one := λ d c, c ++ [d];
  mongo_update_one := λ q d c, default (c ++ [d]) (replace_first q d c);
  mongo_delete_many := λ q c, filter (λ d, ¬ matches q d) c
|}.
Next Obligation. done. Qed.
Next Obligation.
  intros q c d Hd. cbv beta in *. destruct (filter (matches q) c) as [|x l] eqn:E; [done|].
  injection Hd as ->. apply and_comm, (list_elem_of_filter (matches q)). rewrite E. left.
Qed.
Next Obligation.
  intros q c Hd d Hin Hm. cbv beta in *. destruct (filter (matches q) c) as [|x l] eqn:E; [|done].
  assert (Hf : d ∈ filter (matches q) c) by (by apply list_elem_of_filter).
  rewrite E in Hf. by apply not_elem_of_nil in Hf.
Qed.
Next Obligation. done. Qed.
Next Obligation. intros d c. apply Permutation_app_comm. Qed.
Next Obligation.
  intros q d c. cbv beta. destruct (replace_first q d c) as [l|] eqn:E; simpl.
  - left. by eapply replace_first_Some.
  - right. split; [by eapply replace_first_None|]. apply Permutation_app_comm.
Qed.
Next Obligation. done. Qed.
End list_mongo.

(** ** Properties *)

Lemma save_ng_blue_by_id {D C : Type} `{Mongo D C} i (d : D) (c : C) :
  ids_unique c → has_id i d →
  by_id i (save_ng_blue i d c) = [d] ∧
  (∀ j, j ≠ i → Permutation (by_id j (save_ng_blue i d c)) (by_id j c)) ∧
  ids_unique (save_ng_blue i d c).
Proof.
  intros Hu Hd. destruct (save_by_id i d c Hu Hd) as [H1 H2].
  change (∀ j, j ≠ i → Permutation (by_id j (save_ng_blue i d c)) (by_id j c)) in H2.
  assert (Hs : by_id i (save_ng_blue i d c) = [d]).
  { unfold save_ng_blue. by destruct (exists_in_collection _ _). }
  split; [done|split; [done|]]. intros j. destruct (decide (j = i)) as [->|Hj].
  - rewrite Hs. simpl. lia.
  - rewrite (Permutation_length (H2 j Hj)). apply Hu.
Qed.

Lemma delete_ids_unique {D C : Type} `{Mongo D C} i (c : C) :
  ids_unique c → ids_unique (delete_from_collection (QField "id" i) c).
Proof.
  intros Hu j. destruct (delete_by_id i c) as [H1 H2]. destruct (decide (j = i)) as [->|Hj].
  - rewrite H1. simpl. lia.
  - rewrite (Permutation_length (H2 j Hj)). apply Hu.
Qed.

(** C13: the blueprint collection is a map from identifiers to documents.  As long as every
    blueprint is saved under its own identifier, a saved blueprint is found with its last content,
    a destroyed one is not found, the other identifiers are untouched by both, there is never more
    than one document per identifier, and filtering by type returns exactly the documents of the
    type.  This holds on any server with the documented behaviour. *)
Theorem blueprint_store_is_a_map {D C : Type} `{Mongo D C} (i : string) (d : D) (c : C) :
  ids_unique c → has_id i d →
  get_ng_blue_by_id_filter i (save_ng_blue i d c) = Some d ∧
  get_ng_blue_by_id_filter i (destroy_ng_blue i c) = None ∧
  (∀ j, j ≠ i → get_ng_blue_by_id_filter j (save_ng_blue i d c) = get_ng_blue_by_id_filter j c ∧
                get_ng_blue_by_id_filter j (destroy_ng_blue i c) = get_ng_blue_by_id_filter j c) ∧
  ids_unique (save_ng_blue i d c) ∧ ids_unique (destroy_ng_blue i c) ∧
  (∀ t x, t ≠ EmptyString →
     x ∈ get_ng_blue_list (Some t) c ↔ x ∈ docs c ∧ doc_field x "type" = Some t).
Proof.
  intros Hu Hd. destruct (save_ng_blue_by_id i d c Hu Hd) as (H1 & H2 & H3).
  destruct (delete_by_id i c) as [H4 H5].
  split; [by apply get_by_id_singleton|]. split; [by apply get_by_id_nil|]. split.
  { intros j Hj. split; apply get_by_id_perm; auto. }
  split; [done|]. split; [by apply delete_ids_unique|].
  intros t x Ht. unfold get_ng_blue_list, find_in_collection. simpl.
  rewrite (proj2 (String.eqb_neq t EmptyString)) by done. simpl.
  rewrite find_docs, list_elem_of_filter. unfold matches, doc_matches.
  destruct (doc_field x "type") as [w|].
  - rewrite String.eqb_eq. split; [by intros [-> ?]|by intros [? [= ->]]].
  - by split; intros [? ?].
Qed.

(** An extra object is found under the identifier it was inserted with, whatever identifier
    its dictionary carried, and a second insertion replaces it. *)
Theorem extra_roundtrip {D C : Type} `{Mongo D C} `{!IdDocument D} (i : string) (d d' : D) (c : C) :
  ids_unique c →
  get_extra i (insert_extra i d c) = Some (set_doc_id i d) ∧
  get_extra i (insert_extra i d' (insert_extra i d c)) = Some (set_doc_id i d').
Proof.
  intros Hu.
  change (get_ng_blue_by_id_filter i (save_ng_blue i (set_doc_id i d) c) = Some (set_doc_id i d) ∧
          get_ng_blue_by_id_filter i (save_ng_blue i (set_doc_id i d')
            (save_ng_blue i (set_doc_id i d) c)) = Some (set_doc_id i d')).
  destruct (save_ng_blue_by_id i (set_doc_id i d) c Hu (doc_field_set_id i d)) as (H1 & _ & H3).
  destruct (save_ng_blue_by_id i (set_doc_id i d') _ H3 (doc_field_set_id i d')) as (H4 & _ & _).
  split; by apply get_by_id_singleton.
Qed.

(** Documents reduced to an identifier and a type, for evaluation. *)
#[export] Instance pair_document : Document (string * string) := {
  doc_field d f := if String.eqb f "id" then Some d.1
                   else if String.eqb f "type" then Some d.2 else None
}.
#[export] Instance pair_id_document : IdDocument (string * string) := {
  set_doc_id i d := (i, d.2);
  doc_field_set_id i d := eq_refl
}.

Lemma blueprint_store_is_a_map_witness :
  get_ng_blue_by_id_filter "BLUE1"
    (save_ng_blue "BLUE1" ("BLUE1", "k8s") [("BLUE0", "vyos"); ("BLUE1", "5g")]) =
  Some ("BLUE1", "k8s").
Proof.
  apply (blueprint_store_is_a_map "BLUE1" ("BLUE1", "k8s") [("BLUE0", "vyos"); ("BLUE1", "5g")]).
  - intros i. unfold by_id. simpl. rewrite !filter_cons, filter_nil.
    destruct (decide _) as [H0|H0], (decide _) as [H1|H1]; simpl; try lia.
    apply matches_id in H0. apply matches_id in H1. unfold has_id in *. simpl in *. congruence.
  - reflexivity.
Defined.

Lemma extra_roundtrip_witness :
  get_extra "dns" (insert_extra "dns" ("x", "y") ([] : list (string * string))) =
  Some (set_doc_id "dns" ("x", "y")).
Proof.
  apply (extra_roundtrip "dns" ("x", "y") ("x", "z") ([] : list (string * string))).
  intros i. apply Nat.le_0_l.
Defined.
