(* ===== verification/PrometheusModels.v ===== *)
(** * Prometheus servers

    models/prometheus/prometheus_model.py: a Prometheus server of the topology and the jobs it
    scrapes.  A job is a list of addresses with labels. *)

From stdpp Require Import base list strings gmap.
From Stdlib Require Import ZArith Lia.
From S2P Require Import Prelude.

Open Scope Z_scope.

(** ** Data *)
Record PrometheusTargetModel := { targets : list string; labels : dict }.

Record PrometheusServerModel := {
  srv_id : string;
  srv_ip : string;
  srv_port : string;
  srv_user : string;
  srv_password : string;
  ssh_port : Z;
  srv_targets : list PrometheusTargetModel;
  sd_file_location : string
}.

Definition set_srv_targets (l : list PrometheusTargetModel) (s : PrometheusServerModel) :=
  {| srv_id := srv_id s; srv_ip := srv_ip s; srv_port := srv_port s; srv_user := srv_user s;
     srv_password := srv_password s; ssh_port := ssh_port s; srv_targets := l;
     sd_file_location := sd_file_location s |}.

(** [PrometheusServerModel(id=...)] with the defaults. *)
Definition default_server (id : string) : PrometheusServerModel :=
  {| srv_id := id; srv_ip := "127.0.0.1"; srv_port := "9100"; srv_user := "ubuntu";
     srv_password := "ubuntu"; ssh_port := 22; srv_targets := [];
     sd_file_location := "sd_targets.yml" |}.

Definition PrometheusServerModel_eq (a b : PrometheusServerModel) : bool :=
  String.eqb (srv_id a) (srv_id b).

(** ** Operations *)

(** The loop of [add_target] over the jobs: the position, inside the first job that shares an
    address with the new one, of the first shared address. *)
Fixpoint existing_target_index (jobs : list PrometheusTargetModel) (new_target : PrometheusTargetModel)
  : option nat :=
  match jobs with
  | [] => None
  | current_target :: jobs' =>
      match find_index (λ ip, py_in String.eqb ip (targets new_target)) (targets current_target) with
      | Some index => Some index
      | None => existing_target_index jobs' new_target
      end
  end.

Definition add_target (new_target : PrometheusTargetModel) : M PrometheusServerModel unit :=
  self ← getS;
  match existing_target_index (srv_targets self) new_target with
  | Some index =>
      existing_target ← liftR (py_getitem (srv_targets self) (Z.of_nat index));
      jobs ← liftR (py_setitem (srv_targets self) (Z.of_nat index)
                      {| targets := targets existing_target; labels := labels new_target |});
      putS (set_srv_targets jobs self)
  | None => putS (set_srv_targets (srv_targets self ++ [new_target]) self)
  end.

Definition add_targets (l : list PrometheusTargetModel) : M PrometheusServerModel unit :=
  for_each l add_target.

Definition find_target_by_ipaddress (ip_a : string) : M PrometheusServerModel (option PrometheusTargetModel) :=
  self ← getS; mret (next_item (λ job, py_in String.eqb ip_a (targets job)) (srv_targets self)).

Definition find_job_by_labels (label : string) : M PrometheusServerModel (option PrometheusTargetModel) :=
  self ← getS; mret (next_item (λ job, dict_has label (labels job)) (srv_targets self)).

(** The loop of [del_target] over the addresses of the job to delete.  The position of the job
    found is that of the first job with the address: an earlier job equal to it would hold the
    address too. *)
Fixpoint del_target_loop (ips : list string) : M PrometheusServerModel PrometheusTargetModel :=
  match ips with
  | [] => raise ValueError
  | ip :: ips' =>
      self ← getS;
      match find_index (λ job, py_in String.eqb ip (targets job)) (srv_targets self) with
      | Some index =>
          '(removed, jobs) ← liftR (py_pop (srv_targets self) (Z.of_nat index));
          putS (set_srv_targets jobs self) ;; mret removed
      | None => del_target_loop ips'
      end
  end.

Definition del_target (target_ip : PrometheusTargetModel) : M PrometheusServerModel PrometheusTargetModel :=
  del_target_loop (targets target_ip).

Definition del_targets (l : list PrometheusTargetModel) : M PrometheusServerModel unit :=
  for_each l (λ t, del_target t ;; mret tt).

(** ** The invariant of a server: no address is scraped twice *)
Definition all_targets (jobs : list PrometheusTargetModel) : list string := concat (targets <$> jobs).

Definition server_ok (s : PrometheusServerModel) : Prop := NoDup (all_targets (srv_targets s)).

Lemma all_targets_elem ip jobs : ip ∈ all_targets jobs ↔ ∃ j, j ∈ jobs ∧ ip ∈ targets j.
Proof.
  unfold all_targets. rewrite list_elem_of_In, in_concat. split.
  - intros (l & Hl%list_elem_of_In & Hip%list_elem_of_In).
    apply list_elem_of_fmap in Hl as (j & -> & Hj). eauto.
  - intros (j & Hj & Hip). exists (targets j). rewrite <-!list_elem_of_In.
    split; [|done]. by apply list_elem_of_fmap_2.
Qed.

Lemma existing_target_index_None jobs t :
  existing_target_index jobs t = None ↔ ∀ ip, ip ∈ all_targets jobs → ip ∉ targets t.
Proof.
  setoid_rewrite all_targets_elem. induction jobs as [|j jobs IH]; simpl.
  { split; [|done]. intros _ ip (j & []%not_elem_of_nil & _). }
  destruct (find_index _ _) as [i|] eqn:E.
  - split; [done|]. intros H. apply find_index_Some in E as (ip & Hip & Hin%py_in_String & _).
    destruct (H ip); [|done]. exists j. split; [left|]. by eapply list_elem_of_lookup_2.
  - rewrite IH. rewrite find_index_None in E. split.
    + intros H ip (j' & [->|Hj']%elem_of_cons & Hip); [|apply H; eauto].
      specialize (E ip Hip). rewrite <-py_in_String. by rewrite E.
    + intros H ip (j' & Hj' & Hip). apply H. exists j'. split; [by right|done].
Qed.

Lemma existing_target_index_Some jobs t k :
  existing_target_index jobs t = Some k →
  ∃ (j : nat) job ip, jobs !! j = Some job ∧ targets job !! k = Some ip ∧ ip ∈ targets t ∧
    ∀ j' job', (j' < j)%nat → jobs !! j' = Some job' → ∀ ip', ip' ∈ targets job' → ip' ∉ targets t.
Proof.
  induction jobs as [|j jobs IH]; simpl; [done|].
  destruct (find_index _ _) as [i|] eqn:E.
  - intros [= ->]. apply find_index_Some in E as (ip & Hip & Hin%py_in_String & _).
    exists 0%nat, j, ip. repeat split; try done. intros; lia.
  - intros (p & job & ip & Hp & Hk & Hin & Hlt)%IH. exists (S p), job, ip. repeat split; try done.
    intros [|j'] job' Hj' Hjob' ip' Hip'; simpl in Hjob'.
    + injection Hjob' as <-. rewrite find_index_None in E. specialize (E ip' Hip').
      rewrite <-py_in_String. by rewrite E.
    + eapply Hlt; [|done|done]. lia.
Qed.

Lemma targets_insert (jobs : list PrometheusTargetModel) (k : nat) job job' :
  jobs !! k = Some job → targets job' = targets job → targets <$> <[k:=job']> jobs = targets <$> jobs.
Proof.
  intros Hk Ht. rewrite list_fmap_insert, list_insert_id; [done|].
  by rewrite list_lookup_fmap, Hk, Ht.
Qed.

(** What [add_target] does on every branch. *)
Lemma add_target_run t s :
  add_target t s =
  match existing_target_index (srv_targets s) t with
  | None => (Ok tt, set_srv_targets (srv_targets s ++ [t]) s)
  | Some k =>
      match srv_targets s !! k with
      | Some job => (Ok tt, set_srv_targets
                      (<[k := {| targets := targets job; labels := labels t |}]> (srv_targets s)) s)
      | None => (Raise IndexError, s)
      end
  end.
Proof.
  unfold add_target. run_M. destruct (existing_target_index _ _) as [k|]; [|done].
  destruct (srv_targets s !! k) as [job|] eqn:Hk.
  - rewrite (py_getitem_nat _ _ _ Hk). rewrite py_setitem_nat by by eapply lookup_lt_Some. done.
  - unfold py_getitem, py_pos. apply lookup_ge_None in Hk.
    rewrite (proj2 (Z.ltb_ge (Z.of_nat k) 0)) by lia.
    rewrite (proj2 (Z.ltb_ge (Z.of_nat k) _)) by lia. by rewrite andb_false_r.
Qed.

Lemma add_target_preserves t : NoDup (targets t) → preserves server_ok (add_target t).
Proof.
  intros Ht s Hs. rewrite add_target_run.
  destruct (existing_target_index _ _) as [k|] eqn:E.
  - destruct (srv_targets s !! k) as [job|] eqn:Hk; [|done]. unfold server_ok, all_targets. simpl.
    by erewrite targets_insert.
  - rewrite existing_target_index_None in E. unfold server_ok, all_targets in *. simpl.
    rewrite fmap_app, concat_app. simpl. rewrite app_nil_r. apply NoDup_app. eauto.
Qed.

Lemma sublist_concat (l l' : list (list string)) : l `sublist_of` l' → concat l `sublist_of` concat l'.
Proof.
  induction 1 as [|x l l' _ IH|x l l' _ IH]; simpl; [done| |].
  - by apply sublist_app.
  - by apply sublist_inserts_l.
Qed.

Lemma del_target_loop_run ips s :
  (∃ ip k job, ip ∈ ips ∧ srv_targets s !! k = Some job ∧ ip ∈ targets job ∧
     del_target_loop ips s = (Ok job, set_srv_targets (delete k (srv_targets s)) s)) ∨
  ((∀ ip, ip ∈ ips → ip ∉ all_targets (srv_targets s)) ∧ del_target_loop ips s = (Raise ValueError, s)).
Proof.
  induction ips as [|ip ips IH]; simpl.
  { right. split; [|done]. by intros ip ?%not_elem_of_nil. }
  run_M. destruct (find_index _ _) as [k|] eqn:E.
  - left. apply find_index_Some in E as (job & Hk & Hin%py_in_String & _).
    exists ip, k, job. rewrite (py_pop_nat _ _ _ Hk). repeat split; try done. left.
  - destruct IH as [(ip' & k & job & Hip' & Hk & Hin & ->)|(Hnone & ->)].
    + left. exists ip', k, job. repeat split; try done. by right.
    + right. split; [|done]. intros ip' [->|Hip']%elem_of_cons; [|by apply Hnone].
      rewrite find_index_None in E. rewrite all_targets_elem. intros (j & Hj & Hin).
      apply py_in_String in Hin. by rewrite E in Hin.
Qed.

Lemma del_target_preserves t : preserves server_ok (del_target t).
Proof.
  intros s Hs. unfold del_target.
  destruct (del_target_loop_run (targets t) s) as [(ip & k & job & _ & _ & _ & ->)|(_ & ->)]; [|done].
  simpl. unfold server_ok, all_targets in *. eapply sublist_NoDup; [exact Hs|].
  apply sublist_concat, fmap_sublist, sublist_delete_list.
Qed.

(** ** Properties *)

(** No address is ever scraped twice.  Starting from a server whose jobs share no address,
    any sequence of additions (of jobs without repeated addresses) and deletions keeps the
    addresses of all jobs distinct, failing operations included; an addition that meets no
    existing address appends the job, and a deletion that returns removes exactly one job, which
    holds one of the addresses asked for. *)
Theorem prometheus_targets_unique (adds dels : list PrometheusTargetModel) (s : PrometheusServerModel) :
  server_ok s → Forall (λ t, NoDup (targets t)) adds →
  server_ok (add_targets adds s).2 ∧
  server_ok (del_targets dels s).2 ∧
  (∀ t, (∀ ip, ip ∈ all_targets (srv_targets s) → ip ∉ targets t) →
        add_target t s = (Ok tt, set_srv_targets (srv_targets s ++ [t]) s)) ∧
  (∀ t job s', del_target t s = (Ok job, s') →
        ∃ k ip, srv_targets s !! k = Some job ∧ ip ∈ targets t ∧ ip ∈ targets job ∧
                s' = set_srv_targets (delete k (srv_targets s)) s).
Proof.
  intros Hs Hadds. split; [|split; [|split]].
  - revert s Hs. induction Hadds as [|t adds Ht _ IH]; intros s Hs; [done|].
    change (add_targets (t :: adds)) with (add_target t ;; add_targets adds).
    apply (preserves_bind server_ok); [by apply add_target_preserves| |done].
    intros _ s' Hs'. by apply IH.
  - apply (preserves_for_each server_ok); [|done]. intros t.
    apply preserves_bind; [apply del_target_preserves|]. intros _. apply preserves_ret.
  - intros t Ht. rewrite add_target_run. apply existing_target_index_None in Ht. by rewrite Ht.
  - intros t job s' H. unfold del_target in H.
    destruct (del_target_loop_run (targets t) s) as [(ip & k & j & Hip & Hk & Hin & Hr)|(_ & Hr)];
      rewrite H in Hr; [|done]. injection Hr as -> ->. by exists k, ip.
Qed.

(** Relabelling hits the wrong job.  When the job to add shares an address with a scraped
    job, the code uses the position of the address inside that job as a position in the list of
    jobs: the labels are set on that other job, or [IndexError] is raised when the list is too
    short. *)
Theorem add_target_wrong_job :
  (∀ s t j k job, existing_target_index (srv_targets s) t = Some k →
     srv_targets s !! k = Some job → j ≠ k → srv_targets (add_target t s).2 !! j = srv_targets s !! j) ∧
  (∃ s t, server_ok s ∧ add_target t s = (Raise IndexError, s)) ∧
  (∃ s t job, server_ok s ∧ srv_targets s !! 1%nat = Some job ∧ targets job = targets t ∧
     srv_targets (add_target t s).2 !! 1%nat = Some job ∧ labels job ≠ labels t ∧
     (add_target t s).1 = Ok tt).
Proof.
  split; [|split].
  - intros s t j k job HE Hk Hjk. rewrite add_target_run, HE, Hk. simpl.
    by apply list_lookup_insert_ne.
  - exists (set_srv_targets [{| targets := ["10.0.0.1:9100"; "10.0.0.2:9100"]; labels := [] |}]
              (default_server "prom")), {| targets := ["10.0.0.2:9100"]; labels := [] |}.
    split; [|by vm_compute]. apply (bool_decide_unpack _). by vm_compute.
  - exists (set_srv_targets [{| targets := ["10.0.0.1:9100"]; labels := [] |};
                             {| targets := ["10.0.0.2:9100"]; labels := [] |}]
              (default_server "prom")),
      {| targets := ["10.0.0.2:9100"]; labels := [("job", VStr "upf")] |},
      {| targets := ["10.0.0.2:9100"]; labels := [] |}.
    split; [apply (bool_decide_unpack _); by vm_compute|]. by vm_compute.
Qed.

Definition example_server : PrometheusServerModel :=
  set_srv_targets [{| targets := ["10.0.0.1:9100"; "10.0.0.2:9100"]; labels := [] |}]
    (default_server "prom").

Lemma prometheus_targets_unique_witness :
  server_ok (add_targets [{| targets := ["10.0.0.3:9100"]; labels := [] |}] example_server).2.
Proof.
  apply (prometheus_targets_unique [{| targets := ["10.0.0.3:9100"]; labels := [] |}] []
    example_server).
  - apply (bool_decide_unpack _). vm_compute. exact I.
  - repeat constructor. by intros ?%not_elem_of_nil.
Defined.
