(* ===== verification/K8sModels.v ===== *)
(** * Kubernetes clusters of the topology

    models/k8s/topology_k8s_model.py: the versions the cluster manager supports and the model of
    a cluster the topology knows. *)

From Stdlib Require Import Ascii.
From stdpp Require Import base list strings gmap.
From Stdlib Require Import ZArith Lia.
From S2P Require Import Prelude IPv4Text.

Open Scope Z_scope.

(** ** Data *)
Inductive NfvoStatus := ONBOARDED | NOT_ONBOARDED | ONBOARDING | ERROR.

Inductive K8sVersion := V1_24 | V1_25 | V1_26 | V1_27 | V1_28 | V1_29 | V1_30.

#[export] Instance K8sVersion_eq_dec : EqDecision K8sVersion.
Proof. solve_decision. Defined.

Definition K8sVersion_value (v : K8sVersion) : string :=
  match v with
  | V1_24 => "v1.24" | V1_25 => "v1.25" | V1_26 => "v1.26" | V1_27 => "v1.27"
  | V1_28 => "v1.28" | V1_29 => "v1.29" | V1_30 => "v1.30"
  end.

Definition all_versions : list K8sVersion := [V1_24; V1_25; V1_26; V1_27; V1_28; V1_29; V1_30].

(** [K8sVersion.has_value]. *)
Definition has_value (value : string) : bool :=
  existsb (λ v, String.eqb (K8sVersion_value v) value) all_versions.

(** [K8sVersion(value)]. *)
Definition K8sVersion_of (value : string) : result K8sVersion :=
  match find (λ v, String.eqb (K8sVersion_value v) value) all_versions with
  | Some v => Ok v
  | None => Raise ValueError
  end.

(** [float(s)] for unsigned decimals: numerator and number of decimals.  Decimals of so few
    digits keep their order as floating point numbers. *)
Definition float_of (s : string) : option (Z * nat) :=
  match py_split "."%char s with
  | [w] => match digits_value w 0 with Some n => Some (n, 0%nat) | None => None end
  | [w; f] => match digits_value w 0 with
              | Some n => match digits_value f n with
                          | Some m => Some (m, String.length f)
                          | None => None
                          end
              | None => None
              end
  | _ => None
  end.

Definition float_lt (a b : Z * nat) : bool :=
  a.1 * 10 ^ Z.of_nat b.2 <? b.1 * 10 ^ Z.of_nat a.2.

(** [value[1:]]. *)
Definition drop_first (s : string) : string :=
  match s with EmptyString => EmptyString | String _ s' => s' end.

Definition is_minor (self to_compare : K8sVersion) : result bool :=
  match float_of (drop_first (K8sVersion_value self)), float_of (drop_first (K8sVersion_value to_compare)) with
  | Some this_version, Some other_version => Ok (float_lt this_version other_version)
  | _, _ => Raise ValueError
  end.

Record TopologyK8sModel := {
  k8s_name : string;
  provided_by : string;
  blueprint_ref : string;
  deployed_blueprints : list string;
  credentials : string;
  k8s_vim_name : option string;
  k8s_version : K8sVersion;
  k8s_networks : list string;
  k8s_areas : list Z;
  cni : option string;
  cadvisor_node_port : option Z;
  nfvo_status : NfvoStatus;
  nfvo_onboard : bool;
  anti_spoofing_enabled : option bool
}.

Definition TopologyK8sModel_eq (a b : TopologyK8sModel) : bool := String.eqb (k8s_name a) (k8s_name b).

(** The length constraints [model_validate] checks. *)
Definition validate_k8s (k : TopologyK8sModel) : bool :=
  negb (length (k8s_networks k) =? 0)%nat && negb (length (k8s_areas k) =? 0)%nat.

(** ** Properties *)

(** The release order: the place of a version in the enumeration. *)
Definition release (v : K8sVersion) : Z :=
  match v with V1_24 => 24 | V1_25 => 25 | V1_26 => 26 | V1_27 => 27 | V1_28 => 28 | V1_29 => 29
             | V1_30 => 30 end.

(** Versions compare as they were released.  Although it goes through floating point
    numbers, [is_minor] is the strict release order on the supported versions, it never raises,
    and [has_value] accepts exactly the texts that name a version. *)
Theorem is_minor_release_order :
  (∀ a b, is_minor a b = Ok (release a <? release b)) ∧
  (∀ v, K8sVersion_of (K8sVersion_value v) = Ok v ∧ has_value (K8sVersion_value v) = true) ∧
  (∀ s, has_value s = true ↔ ∃ v, K8sVersion_of s = Ok v).
Proof.
  split; [by intros [] []|]. split; [by intros []|].
  intros s. unfold has_value, K8sVersion_of. split.
  - intros (v & Hin & He)%existsb_exists. destruct (find _ _) as [v'|] eqn:E; [eauto|].
    apply find_none with (x := v) in E; [|done]. congruence.
  - destruct (find _ _) as [v'|] eqn:E; [|by intros [? ?]]. intros _.
    apply existsb_exists. exists v'. by apply find_some in E.
Qed.
