(* ===== verification/TopologyModel.v ===== *)
(** * The topology model

    models/topology/topology_models.py: the object that lists the VIMs, clusters, networks,
    routers, PDUs and Prometheus servers of the installation, with its operations.  A method is a
    computation of the state-and-exception monad whose state is the object; a reference to an
    object of a list is the position of the object. *)

From stdpp Require Import base list strings gmap.
From Stdlib Require Import ZArith Lia.
From S2P Require Import Prelude Ipam Registry NetworkModels VimModels PrometheusModels K8sModels.

Open Scope Z_scope.

(** ** Data *)
Record TopologyModel := {
  topo_id : option string;
  topo_callback : option string;
  topo_vims : list VimModel;
  topo_kubernetes : list TopologyK8sModel;
  topo_networks : list NetworkModel;
  topo_routers : list RouterModel;
  topo_pdus : list PduModel;
  topo_prometheus_srv : list PrometheusServerModel
}.

Definition set_vims (l : list VimModel) (m : TopologyModel) : TopologyModel :=
  {| topo_id := topo_id m; topo_callback := topo_callback m; topo_vims := l;
     topo_kubernetes := topo_kubernetes m; topo_networks := topo_networks m;
     topo_routers := topo_routers m; topo_pdus := topo_pdus m;
     topo_prometheus_srv := topo_prometheus_srv m |}.
Definition set_kubernetes (l : list TopologyK8sModel) (m : TopologyModel) : TopologyModel :=
  {| topo_id := topo_id m; topo_callback := topo_callback m; topo_vims := topo_vims m;
     topo_kubernetes := l; topo_networks := topo_networks m;
     topo_routers := topo_routers m; topo_pdus := topo_pdus m;
     topo_prometheus_srv := topo_prometheus_srv m |}.
Definition set_topo_networks (l : list NetworkModel) (m : TopologyModel) : TopologyModel :=
  {| topo_id := topo_id m; topo_callback := topo_callback m; topo_vims := topo_vims m;
     topo_kubernetes := topo_kubernetes m; topo_networks := l;
     topo_routers := topo_routers m; topo_pdus := topo_pdus m;
     topo_prometheus_srv := topo_prometheus_srv m |}.
Definition set_topo_routers (l : list RouterModel) (m : TopologyModel) : TopologyModel :=
  {| topo_id := topo_id m; topo_callback := topo_callback m; topo_vims := topo_vims m;
     topo_kubernetes := topo_kubernetes m; topo_networks := topo_networks m;
     topo_routers := l; topo_pdus := topo_pdus m;
     topo_prometheus_srv := topo_prometheus_srv m |}.
Definition set_pdus (l : list PduModel) (m : TopologyModel) : TopologyModel :=
  {| topo_id := topo_id m; topo_callback := topo_callback m; topo_vims := topo_vims m;
     topo_kubernetes := topo_kubernetes m; topo_networks := topo_networks m;
     topo_routers := topo_routers m; topo_pdus := l;
     topo_prometheus_srv := topo_prometheus_srv m |}.
Definition set_prometheus_srv (l : list PrometheusServerModel) (m : TopologyModel) : TopologyModel :=
  {| topo_id := topo_id m; topo_callback := topo_callback m; topo_vims := topo_vims m;
     topo_kubernetes := topo_kubernetes m; topo_networks := topo_networks m;
     topo_routers := topo_routers m; topo_pdus := topo_pdus m;
     topo_prometheus_srv := l |}.

(** ** Finding *)
Definition find_prom_srv_index (prom_srv_id : string) : M TopologyModel Z :=
  self ← getS;
  liftR (py_index PrometheusServerModel_eq (default_server prom_srv_id) (topo_prometheus_srv self)).

Definition find_k8s_cluster_index (cluster_name : string) : M TopologyModel Z :=
  self ← getS;
  let k8s_cluster_index :=
    next_index (λ item, String.eqb (k8s_name item) cluster_name) (topo_kubernetes self) in
  if k8s_cluster_index <? 0 then raise TopoK8SNotFoundException else mret k8s_cluster_index.

Definition find_k8s_cluster_index_by_area (area_id : Z) : M TopologyModel Z :=
  self ← getS;
  let k8s_cluster_index :=
    next_index (λ item, py_in Z.eqb area_id (k8s_areas item)) (topo_kubernetes self) in
  if k8s_cluster_index <? 0 then raise TopoK8SNotFoundException else mret k8s_cluster_index.

Definition find_net_index (name : string) : M TopologyModel Z :=
  self ← getS;
  let net_index := next_index (λ item, String.eqb (net_name item) name) (topo_networks self) in
  if net_index <? 0 then raise ValueError else mret net_index.

Definition find_vim_index (name : string) : M TopologyModel Z :=
  self ← getS;
  let vim_index := next_index (λ item, String.eqb (vim_name item) name) (topo_vims self) in
  if vim_index <? 0 then raise ValueError else mret vim_index.

(** The code looks the router up among the VIMs. *)
Definition find_router_index (name : string) : M TopologyModel Z :=
  self ← getS;
  let router_index := next_index (λ item, String.eqb (vim_name item) name) (topo_vims self) in
  if router_index <? 0 then raise ValueError else mret router_index.

Definition find_pdu_index (name : string) : M TopologyModel Z :=
  self ← getS;
  let pdu_index := next_index (λ item, String.eqb (pdu_name item) name) (topo_pdus self) in
  if pdu_index <? 0 then raise ValueError else mret pdu_index.

Definition find_prom_srv (prom_srv_id : string) : M TopologyModel PrometheusServerModel :=
  prom_srv_index ← find_prom_srv_index prom_srv_id;
  self ← getS; liftR (py_getitem (topo_prometheus_srv self) prom_srv_index).

Definition find_k8s_cluster (cluster_name : string) : M TopologyModel TopologyK8sModel :=
  index ← find_k8s_cluster_index cluster_name;
  self ← getS; liftR (py_getitem (topo_kubernetes self) index).

Definition find_k8s_cluster_by_area (area_id : Z) : M TopologyModel TopologyK8sModel :=
  index ← find_k8s_cluster_index_by_area area_id;
  self ← getS; liftR (py_getitem (topo_kubernetes self) index).

(** ** Prometheus servers *)
Definition add_prometheus_srv (prom_srv : PrometheusServerModel) : M TopologyModel unit :=
  self ← getS;
  if py_in PrometheusServerModel_eq prom_srv (topo_prometheus_srv self) then raise ValueError
  else putS (set_prometheus_srv (topo_prometheus_srv self ++ [prom_srv]) self).

Definition del_prometheus_srv (prom_srv_id : string) (force : bool) : M TopologyModel PrometheusServerModel :=
  index ← find_prom_srv_index prom_srv_id;
  self ← getS;
  prom_srv_to_del ← liftR (py_getitem (topo_prometheus_srv self) index);
  if negb (length (srv_targets prom_srv_to_del) =? 0)%nat && negb force then raise ValueError
  else
    '(deleted, rest) ← liftR (py_pop (topo_prometheus_srv self) index);
    putS (set_prometheus_srv rest self) ;; mret deleted.

Definition upd_prometheus_srv (prom_server : PrometheusServerModel) : M TopologyModel PrometheusServerModel :=
  index ← find_prom_srv_index (srv_id prom_server);
  self ← getS;
  l ← liftR (py_setitem (topo_prometheus_srv self) index prom_server);
  putS (set_prometheus_srv l self) ;; mret prom_server.

(** ** Kubernetes clusters *)
Definition add_k8s_cluster (k8s_cluster : TopologyK8sModel) : M TopologyModel unit :=
  self ← getS;
  if py_in TopologyK8sModel_eq k8s_cluster (topo_kubernetes self) then raise ValueError
  else putS (set_kubernetes (topo_kubernetes self ++ [k8s_cluster]) self).

Definition del_k8s_cluster (k8s_cluster_id : string) : M TopologyModel TopologyK8sModel :=
  k8s_index ← find_k8s_cluster_index k8s_cluster_id;
  self ← getS;
  k8s_cluster ← liftR (py_getitem (topo_kubernetes self) k8s_index);
  if negb (length (deployed_blueprints k8s_cluster) =? 0)%nat then raise TopoK8SHasBlueprintException
  else
    '(k8s_deleted, rest) ← liftR (py_pop (topo_kubernetes self) k8s_index);
    putS (set_kubernetes rest self) ;; mret k8s_deleted.

Definition upd_k8s_cluster (k8s_cluster : TopologyK8sModel) : M TopologyModel TopologyK8sModel :=
  k8s_index ← find_k8s_cluster_index (k8s_name k8s_cluster);
  self ← getS;
  l ← liftR (py_setitem (topo_kubernetes self) k8s_index k8s_cluster);
  putS (set_kubernetes l self) ;; mret k8s_cluster.

(** ** PDUs *)
Definition add_pdu (pdu : PduModel) : M TopologyModel PduModel :=
  self ← getS;
  if py_in PduModel_eq pdu (topo_pdus self) then raise ValueError
  else putS (set_pdus (topo_pdus self ++ [pdu]) self) ;; mret pdu.

Definition del_pdu (name : string) : M TopologyModel PduModel :=
  pdu_index ← find_pdu_index name;
  self ← getS;
  '(pdu, rest) ← liftR (py_pop (topo_pdus self) pdu_index);
  putS (set_pdus rest self) ;; mret pdu.

Definition upd_pdu (pdu : PduModel) : M TopologyModel PduModel :=
  pdu_index ← find_pdu_index (pdu_name pdu);
  self ← getS;
  l ← liftR (py_setitem (topo_pdus self) pdu_index pdu);
  putS (set_pdus l self) ;; mret pdu.

Definition get_pdu (name : string) : M TopologyModel PduModel :=
  pdu_index ← find_pdu_index name;
  self ← getS; liftR (py_getitem (topo_pdus self) pdu_index).

Definition get_pdus : M TopologyModel (list PduModel) := self ← getS; mret (topo_pdus self).

(** ** VIMs *)
Definition add_vim (vim : VimModel) : M TopologyModel VimModel :=
  self ← getS;
  if py_in VimModel_eq vim (topo_vims self) then raise ValueError
  else putS (set_vims (topo_vims self ++ [vim]) self) ;; mret vim.

Definition del_vim (name : string) : M TopologyModel VimModel :=
  vim_index ← find_vim_index name;
  self ← getS;
  '(vim, rest) ← liftR (py_pop (topo_vims self) vim_index);
  putS (set_vims rest self) ;; mret vim.

Definition upd_vim (vim : VimModel) : M TopologyModel VimModel :=
  vim_index ← find_vim_index (vim_name vim);
  self ← getS;
  l ← liftR (py_setitem (topo_vims self) vim_index vim);
  putS (set_vims l self) ;; mret vim.

Definition get_vim (name : string) : M TopologyModel VimModel :=
  index_vim ← find_vim_index name;
  self ← getS; liftR (py_getitem (topo_vims self) index_vim).

Definition get_vim_by_area (area_id : Z) : M TopologyModel VimModel :=
  self ← getS;
  match next_item (λ item, py_in Z.eqb area_id (areas item)) (topo_vims self) with
  | None => raise ValueError
  | Some vim => mret vim
  end.

Definition get_vim_list_by_area (area_id : Z) : M TopologyModel (list VimModel) :=
  self ← getS;
  let vim_list := List.filter (λ item, py_in Z.eqb area_id (areas item)) (topo_vims self) in
  if Z.of_nat (length vim_list) <=? 0 then raise ValueError else mret vim_list.

Definition get_vim_name_by_area (area_id : Z) : M TopologyModel string :=
  vim ← get_vim_by_area area_id; mret (vim_name vim).

Definition get_vims : M TopologyModel (list VimModel) := self ← getS; mret (topo_vims self).

(** ** Networks *)
Definition add_network (network : NetworkModel) : M TopologyModel NetworkModel :=
  self ← getS;
  if py_in NetworkModel_eq network (topo_networks self) then raise ValueError
  else putS (set_topo_networks (topo_networks self ++ [network]) self) ;; mret network.

Definition del_network (name : string) : M TopologyModel NetworkModel :=
  net_idx ← find_net_index name;
  self ← getS;
  '(net, rest) ← liftR (py_pop (topo_networks self) net_idx);
  putS (set_topo_networks rest self) ;; mret net.

Definition upd_network (network : NetworkModel) : M TopologyModel NetworkModel :=
  net_index ← find_net_index (net_name network);
  self ← getS;
  l ← liftR (py_setitem (topo_networks self) net_index network);
  putS (set_topo_networks l self) ;; mret network.

Definition get_network (name : string) : M TopologyModel NetworkModel :=
  net_index ← find_net_index name;
  self ← getS; liftR (py_getitem (topo_networks self) net_index).

Definition get_networks : M TopologyModel (list NetworkModel) := self ← getS; mret (topo_networks self).

(** ** Routers *)
Definition add_router (router : RouterModel) : M TopologyModel RouterModel :=
  self ← getS;
  if py_in RouterModel_eq router (topo_routers self) then raise ValueError
  else putS (set_topo_routers (topo_routers self ++ [router]) self) ;; mret router.

Definition del_router (name : string) : M TopologyModel RouterModel :=
  router_idx ← find_router_index name;
  self ← getS;
  '(router, rest) ← liftR (py_pop (topo_routers self) router_idx);
  putS (set_topo_routers rest self) ;; mret router.

Definition upd_router (router : RouterModel) : M TopologyModel RouterModel :=
  router_idx ← find_router_index (router_name router);
  self ← getS;
  l ← liftR (py_setitem (topo_routers self) router_idx router);
  putS (set_topo_routers l self) ;; mret router.

Definition get_router (name : string) : M TopologyModel RouterModel :=
  router_idx ← find_router_index name;
  self ← getS; liftR (py_getitem (topo_routers self) router_idx).

Definition get_routers : M TopologyModel (list RouterModel) := self ← getS; mret (topo_routers self).

(** ** Validation of a document read from the database *)
Definition model_validate (topo : TopologyModel) : result TopologyModel :=
  if forallb validate_k8s (topo_kubernetes topo)
  then Ok (set_vims (validate_vim <$> topo_vims topo) topo)
  else Raise ValidationError.

(** ** The lists are registries

    Five of the six lists implement the contract of Registry.v; the lookup of routers does not
    (see [router_lookup_broken]). *)

Lemma next_index_position {A} (key : A → string) k (l : list A) :
  next_index (λ it, String.eqb (key it) k) l =
  match position key k l with Some i => Z.of_nat i | None => -1 end.
Proof. done. Qed.

Lemma py_index_position {A} (key : A → string) x k (l : list A) :
  key x = k →
  py_index (λ a b, String.eqb (key a) (key b)) x l =
  match position key k l with Some i => Ok (Z.of_nat i) | None => Raise ValueError end.
Proof. by intros <-. Qed.

Lemma of_nat_ltb_0 (i : nat) : (Z.of_nat i <? 0) = false.
Proof. apply Z.ltb_ge. lia. Qed.

(** Run an operation that starts by computing a position. *)
Ltac registry_run :=
  run_M; rewrite ?next_index_position;
  repeat match goal with
  | H : position _ _ _ = _ |- _ => rewrite H; clear H
  end; rewrite ?of_nat_ltb_0; simpl;
  repeat match goal with
  | H : ?l !! ?i = Some ?x |- context [py_getitem ?l (Z.of_nat ?i)] =>
      rewrite (py_getitem_nat l i x H); simpl
  | H : ?l !! ?i = Some ?x |- context [py_pop ?l (Z.of_nat ?i)] =>
      rewrite (py_pop_nat l i x H); simpl
  | H : ?l !! ?i = Some ?x |- context [py_setitem ?l (Z.of_nat ?i) _] =>
      rewrite (py_setitem_nat l i _ (lookup_lt_Some l i x H)); simpl
  end.

#[export] Program Instance vims_registry : RegistryImpl TopologyModel VimModel := {|
  ri_key := vim_name;
  ri_errors := {| taken := ValueError; unknown := ValueError; busy := λ _, None |};
  ri_items := topo_vims; ri_put := set_vims;
  ri_add := add_vim; ri_get := get_vim; ri_upd := upd_vim; ri_del := del_vim
|}.
Next Obligation. done. Qed.
Next Obligation. by intros []. Qed.
Next Obligation. done. Qed.
Next Obligation. intros. unfold add_vim. run_M. by destruct (py_in _ _ _). Qed.
Next Obligation. intros. split; intros; unfold get_vim, find_vim_index; by registry_run. Qed.
Next Obligation. intros. split; intros; unfold upd_vim, find_vim_index; by registry_run. Qed.
Next Obligation. intros. split; intros; unfold del_vim, find_vim_index; by registry_run. Qed.

#[export] Program Instance networks_registry : RegistryImpl TopologyModel NetworkModel := {|
  ri_key := net_name;
  ri_errors := {| taken := ValueError; unknown := ValueError; busy := λ _, None |};
  ri_items := topo_networks; ri_put := set_topo_networks;
  ri_add := add_network; ri_get := get_network; ri_upd := upd_network; ri_del := del_network
|}.
Next Obligation. done. Qed.
Next Obligation. by intros []. Qed.
Next Obligation. done. Qed.
Next Obligation. intros. unfold add_network. run_M. by destruct (py_in _ _ _). Qed.
Next Obligation. intros. split; intros; unfold get_network, find_net_index; by registry_run. Qed.
Next Obligation. intros. split; intros; unfold upd_network, find_net_index; by registry_run. Qed.
Next Obligation. intros. split; intros; unfold del_network, find_net_index; by registry_run. Qed.

#[export] Program Instance pdus_registry : RegistryImpl TopologyModel PduModel := {|
  ri_key := pdu_name;
  ri_errors := {| taken := ValueError; unknown := ValueError; busy := λ _, None |};
  ri_items := topo_pdus; ri_put := set_pdus;
  ri_add := add_pdu; ri_get := get_pdu; ri_upd := upd_pdu; ri_del := del_pdu
|}.
Next Obligation. done. Qed.
Next Obligation. by intros []. Qed.
Next Obligation. done. Qed.
Next Obligation. intros. unfold add_pdu. run_M. by destruct (py_in _ _ _). Qed.
Next Obligation. intros. split; intros; unfold get_pdu, find_pdu_index; by registry_run. Qed.
Next Obligation. intros. split; intros; unfold upd_pdu, find_pdu_index; by registry_run. Qed.
Next Obligation. intros. split; intros; unfold del_pdu, find_pdu_index; by registry_run. Qed.

(** A cluster on which blueprints are deployed cannot be deleted. *)
Definition k8s_busy (k : TopologyK8sModel) : option exn :=
  match deployed_blueprints k with [] => None | _ => Some TopoK8SHasBlueprintException end.

#[export] Program Instance kubernetes_registry : RegistryImpl TopologyModel TopologyK8sModel := {|
  ri_key := k8s_name;
  ri_errors := {| taken := ValueError; unknown := TopoK8SNotFoundException;
                  busy := k8s_busy |};
  ri_items := topo_kubernetes; ri_put := set_kubernetes;
  ri_add := λ k, (add_k8s_cluster k ;; mret k); ri_get := find_k8s_cluster;
  ri_upd := upd_k8s_cluster; ri_del := del_k8s_cluster
|}.
Next Obligation. done. Qed.
Next Obligation. by intros []. Qed.
Next Obligation. done. Qed.
Next Obligation. intros. unfold add_k8s_cluster. run_M. by destruct (py_in _ _ _). Qed.
Next Obligation. intros. split; intros; unfold find_k8s_cluster, find_k8s_cluster_index; by registry_run. Qed.
Next Obligation. intros. split; intros; unfold upd_k8s_cluster, find_k8s_cluster_index; by registry_run. Qed.
Next Obligation.
  intros. split; intros; unfold del_k8s_cluster, find_k8s_cluster_index; registry_run; [done|].
  unfold k8s_busy. by destruct (deployed_blueprints x).
Qed.

(** A server with jobs cannot be deleted unless forced. *)
Definition prometheus_busy (force : bool) (p : PrometheusServerModel) : option exn :=
  match srv_targets p with [] => None | _ => if force then None else Some ValueError end.

#[export] Program Instance prometheus_registry (force : bool) : RegistryImpl TopologyModel PrometheusServerModel := {|
  ri_key := srv_id;
  ri_errors := {| taken := ValueError; unknown := ValueError;
                  busy := prometheus_busy force |};
  ri_items := topo_prometheus_srv; ri_put := set_prometheus_srv;
  ri_add := λ p, (add_prometheus_srv p ;; mret p); ri_get := find_prom_srv;
  ri_upd := upd_prometheus_srv; ri_del := λ k, del_prometheus_srv k force
|}.
Next Obligation. done. Qed.
Next Obligation. intros. by destruct s. Qed.
Next Obligation. intros. reflexivity. Qed.
Next Obligation. intros. unfold add_prometheus_srv. run_M. by destruct (py_in _ _ _). Qed.
Next Obligation.
  intros. unfold find_prom_srv, find_prom_srv_index, PrometheusServerModel_eq.
  split; intros; run_M; rewrite (py_index_position srv_id _ k) by done; by registry_run.
Qed.
Next Obligation.
  intros. unfold upd_prometheus_srv, find_prom_srv_index, PrometheusServerModel_eq.
  split; intros; run_M; rewrite (py_index_position srv_id _ (srv_id y)) by done; by registry_run.
Qed.
Next Obligation.
  intros. unfold del_prometheus_srv, find_prom_srv_index, PrometheusServerModel_eq.
  split; intros; run_M; rewrite (py_index_position srv_id _ k) by done; registry_run; [done|].
  unfold prometheus_busy. by destruct (srv_targets x), force.
Qed.

(** ** The name invariant *)
Definition names_unique (m : TopologyModel) : Prop :=
  keys_unique vim_name (topo_vims m) ∧ keys_unique k8s_name (topo_kubernetes m) ∧
  keys_unique net_name (topo_networks m) ∧ keys_unique router_name (topo_routers m) ∧
  keys_unique pdu_name (topo_pdus m) ∧ keys_unique srv_id (topo_prometheus_srv m).

(** A topology is well formed when names are unique, every network keeps its reservations apart,
    no list of a VIM names anything twice, the identifier is the one the database functions
    expect, and the objects are as validation leaves them. *)
Definition vim_valid (v : VimModel) : Prop :=
  vim_ok v ∧ normalize_vim_name (vim_name v) = vim_name v.
Definition k8s_valid (k : TopologyK8sModel) : Prop := validate_k8s k = true.

Definition topology_ok (m : TopologyModel) : Prop :=
  names_unique m ∧ Forall network_ok (topo_networks m) ∧ Forall vim_valid (topo_vims m) ∧
  topo_id m = Some "topology" ∧ Forall k8s_valid (topo_kubernetes m).

(** Replacing one list keeps what does not depend on it. *)
Lemma topology_ok_vims m l :
  topology_ok m → keys_unique vim_name l → Forall vim_valid l → topology_ok (set_vims l m).
Proof. intros ((? & ? & ? & ? & ? & ?) & ? & ? & ? & ?) ? ?. by split_and!. Qed.
Lemma topology_ok_networks m l :
  topology_ok m → keys_unique net_name l → Forall network_ok l → topology_ok (set_topo_networks l m).
Proof. intros ((? & ? & ? & ? & ? & ?) & ? & ? & ? & ?) ? ?. by split_and!. Qed.
Lemma topology_ok_routers m l :
  topology_ok m → keys_unique router_name l → topology_ok (set_topo_routers l m).
Proof. intros ((? & ? & ? & ? & ? & ?) & ? & ? & ? & ?) ?. by split_and!. Qed.
Lemma topology_ok_pdus m l :
  topology_ok m → keys_unique pdu_name l → topology_ok (set_pdus l m).
Proof. intros ((? & ? & ? & ? & ? & ?) & ? & ? & ? & ?) ?. by split_and!. Qed.
Lemma topology_ok_kubernetes m l :
  topology_ok m → keys_unique k8s_name l → Forall k8s_valid l → topology_ok (set_kubernetes l m).
Proof. intros ((? & ? & ? & ? & ? & ?) & ? & ? & ? & ?) ? ?. by split_and!. Qed.
Lemma topology_ok_prometheus m l :
  topology_ok m → keys_unique srv_id l → topology_ok (set_prometheus_srv l m).
Proof. intros ((? & ? & ? & ? & ? & ?) & ? & ? & ? & ?) ?. by split_and!. Qed.

(** What the caller must guarantee of the objects it hands over. *)
Lemma vims_preserve (op : reg_op VimModel) :
  op_ok vim_valid op → preserves topology_ok (ri_step op).
Proof.
  intros Hop m Hm. pose proof (ri_step_refines op m (proj1 (proj1 Hm))) as H.
  pose proof (ri_step_Forall vim_valid op m Hop (proj1 (proj2 (proj2 Hm)))) as HF.
  destruct (ri_step op m) as [r m']. destruct H as (_ & Hwf & Hf).
  simpl. rewrite Hf. by apply topology_ok_vims.
Qed.

Lemma networks_preserve (op : reg_op NetworkModel) :
  op_ok network_ok op → preserves topology_ok (ri_step op).
Proof.
  intros Hop m Hm. pose proof Hm as ((_ & _ & Hk & _) & HF0 & _).
  pose proof (ri_step_refines op m Hk) as H.
  pose proof (ri_step_Forall network_ok op m Hop HF0) as HF.
  destruct (ri_step op m) as [r m']. destruct H as (_ & Hwf & Hf).
  simpl. rewrite Hf. by apply topology_ok_networks.
Qed.

Lemma pdus_preserve (op : reg_op PduModel) : preserves topology_ok (ri_step op).
Proof.
  intros m Hm. pose proof Hm as ((_ & _ & _ & _ & Hk & _) & _).
  pose proof (ri_step_refines op m Hk) as H.
  destruct (ri_step op m) as [r m']. destruct H as (_ & Hwf & Hf).
  simpl. rewrite Hf. by apply topology_ok_pdus.
Qed.

Lemma kubernetes_preserve (op : reg_op TopologyK8sModel) :
  op_ok k8s_valid op → preserves topology_ok (ri_step op).
Proof.
  intros Hop m Hm. pose proof Hm as ((_ & Hk & _) & _ & _ & _ & Hval).
  pose proof (ri_step_Forall k8s_valid op m Hop Hval) as HF.
  pose proof (ri_step_refines op m Hk) as H.
  destruct (ri_step op m) as [r m']. destruct H as (_ & Hwf & Hf).
  simpl. rewrite Hf. by apply topology_ok_kubernetes.
Qed.

Lemma prometheus_preserve (force : bool) (op : reg_op PrometheusServerModel) :
  preserves topology_ok (ri_step (RI := prometheus_registry force) op).
Proof.
  intros m Hm. pose proof Hm as ((_ & _ & _ & _ & _ & Hk) & _).
  pose proof (ri_step_refines (RI := prometheus_registry force) op m Hk) as H.
  destruct (ri_step (RI := prometheus_registry force) op m) as [r m']. destruct H as (_ & Hwf & Hf).
  simpl. rewrite Hf. by apply topology_ok_prometheus.
Qed.

(** Routers: adding checks the names, and the deletion removes some router. *)
Lemma add_router_topology_preserves r : preserves topology_ok (add_router r).
Proof.
  intros m Hm. unfold add_router. run_M. destruct (py_in _ _ _) eqn:E; [done|].
  simpl. apply topology_ok_routers; [done|]. apply keys_unique_snoc; [apply Hm|]. intros y Hy. rewrite py_in_false in E.
  specialize (E y Hy). by apply String.eqb_neq.
Qed.

Lemma del_router_topology_preserves n : preserves topology_ok (del_router n).
Proof.
  intros m Hm. unfold del_router, find_router_index. run_M.
  destruct (_ <? 0); [done|]. destruct (py_pop (topo_routers m) _) as [[r rest]|] eqn:E; [|done].
  simpl. apply py_pop_inv in E as (i & -> & _).
  apply topology_ok_routers; [done|]. apply keys_unique_delete, Hm.
Qed.

Lemma get_router_reads n : reads (get_router n).
Proof.
  intros m. unfold get_router, find_router_index. run_M. by destruct (_ <? 0).
Qed.

#[export] Hint Resolve add_router_topology_preserves del_router_topology_preserves : preserve.

(** ** Lookups by area *)
Lemma find_next_index {A} (p : A → bool) (l : list A) :
  find p l = match find_index p l with Some i => l !! i | None => None end.
Proof.
  induction l as [|a l IH]; simpl; [done|]. destruct (p a); [done|]. rewrite IH.
  by destruct (find_index p l).
Qed.

Lemma find_first {A} (p : A → bool) (P : A → Prop) (l : list A) x :
  (∀ y, p y = true ↔ P y) →
  find p l = Some x ↔
  ∃ i, l !! i = Some x ∧ P x ∧ ∀ j w, (j < i)%nat → l !! j = Some w → ¬ P w.
Proof.
  intros Hp. rewrite find_next_index. split.
  - destruct (find_index p l) as [i|] eqn:E; [|done]. intros Hi.
    apply find_index_Some in E as (y & Hy & Hpy & Hlt). assert (y = x) as -> by congruence.
    exists i. split; [done|split; [by apply Hp|]]. intros j w Hj Hw Hw'.
    apply Hp in Hw'. by rewrite (Hlt j w Hj Hw) in Hw'.
  - intros (i & Hx & HP & Hlt). assert (find_index p l = Some i) as ->; [|done].
    apply find_index_Some. exists x. split; [done|split; [by apply Hp|]].
    intros j y Hj Hy. apply not_true_iff_false. rewrite Hp. by eapply Hlt.
Qed.

Lemma filter_bool {A} (p : A → bool) (P : A → Prop) `{!∀ x, Decision (P x)} (l : list A) :
  (∀ y, p y = true ↔ P y) → List.filter p l = filter P l.
Proof.
  intros Hp. induction l as [|a l IH]; [done|]. rewrite filter_cons. simpl.
  destruct (p a) eqn:E.
  - apply Hp in E. rewrite decide_True by done. by rewrite IH.
  - rewrite decide_False; [done|]. rewrite <-Hp. by rewrite E.
Qed.

(** ** Properties *)

(** The initial object of a fresh installation. *)
Definition empty_topology : TopologyModel :=
  {| topo_id := Some "topology"; topo_callback := None; topo_vims := []; topo_kubernetes := [];
     topo_networks := []; topo_routers := []; topo_pdus := []; topo_prometheus_srv := [] |}.

(** C7: the topology refines five finite maps.  Whatever sequence of additions, lookups, updates
    and deletions is applied to the VIMs, the networks, the PDUs, the clusters or the Prometheus
    servers of a topology with unique names, the results (values and exceptions) are those of the
    same operations on a map from names to objects, the final lists represent the final map, and
    nothing else of the topology has changed. *)
Theorem topology_refines_maps (m : TopologyModel) :
  names_unique m →
  (∀ ops, let '(rs, m') := run_ops (ri_step (A := VimModel)) ops m in
     run_ops (reg_step vim_name {| taken := ValueError; unknown := ValueError; busy := λ _, None |})
       ops (registry vim_name (topo_vims m)) = (rs, registry vim_name (topo_vims m')) ∧
     m' = set_vims (topo_vims m') m) ∧
  (∀ ops, let '(rs, m') := run_ops (ri_step (A := NetworkModel)) ops m in
     run_ops (reg_step net_name {| taken := ValueError; unknown := ValueError; busy := λ _, None |})
       ops (registry net_name (topo_networks m)) = (rs, registry net_name (topo_networks m')) ∧
     m' = set_topo_networks (topo_networks m') m) ∧
  (∀ ops, let '(rs, m') := run_ops (ri_step (A := PduModel)) ops m in
     run_ops (reg_step pdu_name {| taken := ValueError; unknown := ValueError; busy := λ _, None |})
       ops (registry pdu_name (topo_pdus m)) = (rs, registry pdu_name (topo_pdus m')) ∧
     m' = set_pdus (topo_pdus m') m) ∧
  (∀ ops, let '(rs, m') := run_ops (ri_step (A := TopologyK8sModel)) ops m in
     run_ops (reg_step k8s_name {| taken := ValueError; unknown := TopoK8SNotFoundException;
                                   busy := k8s_busy |})
       ops (registry k8s_name (topo_kubernetes m)) = (rs, registry k8s_name (topo_kubernetes m')) ∧
     m' = set_kubernetes (topo_kubernetes m') m) ∧
  (∀ force ops, let '(rs, m') := run_ops (ri_step (RI := prometheus_registry force)) ops m in
     run_ops (reg_step srv_id {| taken := ValueError; unknown := ValueError;
                                 busy := prometheus_busy force |})
       ops (registry srv_id (topo_prometheus_srv m)) = (rs, registry srv_id (topo_prometheus_srv m')) ∧
     m' = set_prometheus_srv (topo_prometheus_srv m') m).
Proof.
  intros (Hv & Hk & Hn & _ & Hp & Hs).
  split; [|split; [|split; [|split]]].
  - intros ops. pose proof (ri_run_refines (RI := vims_registry) ops m Hv) as H.
    destruct (run_ops _ ops m). by destruct H as (? & _ & ?).
  - intros ops. pose proof (ri_run_refines (RI := networks_registry) ops m Hn) as H.
    destruct (run_ops _ ops m). by destruct H as (? & _ & ?).
  - intros ops. pose proof (ri_run_refines (RI := pdus_registry) ops m Hp) as H.
    destruct (run_ops _ ops m). by destruct H as (? & _ & ?).
  - intros ops. pose proof (ri_run_refines (RI := kubernetes_registry) ops m Hk) as H.
    destruct (run_ops _ ops m). by destruct H as (? & _ & ?).
  - intros force ops.
    pose proof (ri_run_refines (RI := prometheus_registry force) ops m Hs) as H.
    destruct (run_ops _ ops m). by destruct H as (? & _ & ?).
Qed.

(** Routers are looked up among the VIMs.  Whatever the routers of a topology are, a router
    whose name is not the name of a VIM is reported missing by [get_router] and [del_router], and
    a name that is a VIM's yields the router at the VIM's position, or [IndexError]. *)
Theorem router_lookup_broken (m : TopologyModel) (n : string) :
  ((∀ v, v ∈ topo_vims m → vim_name v ≠ n) →
     get_router n m = (Raise ValueError, m) ∧ del_router n m = (Raise ValueError, m)) ∧
  (∀ (i : nat) v, position vim_name n (topo_vims m) = Some i → topo_vims m !! i = Some v →
     (get_router n m).1 = match topo_routers m !! i with Some r => Ok r | None => Raise IndexError end).
Proof.
  split.
  - intros Hn. unfold get_router, del_router, find_router_index. run_M.
    rewrite next_index_position.
    destruct (position_cases vim_name n (topo_vims m)) as [[-> _]|(i & v & _ & Hv & Hk)]; [done|].
    destruct (Hn v); [|done]. by eapply list_elem_of_lookup_2.
  - intros i v Hi Hv. unfold get_router, find_router_index. run_M.
    rewrite next_index_position, Hi, of_nat_ltb_0. simpl.
    destruct (topo_routers m !! i) as [r|] eqn:Hr; [by rewrite (py_getitem_nat _ _ _ Hr)|].
    unfold py_getitem, py_pos. apply lookup_ge_None in Hr.
    rewrite of_nat_ltb_0, (proj2 (Z.ltb_ge _ (Z.of_nat (length _)))) by lia.
    by rewrite andb_false_r.
Qed.

(** Lookups by area.  [get_vim_by_area] returns the first VIM that serves the area and
    [get_vim_list_by_area] all of them in order, both raise [ValueError] exactly when no VIM does,
    [find_k8s_cluster_by_area] returns the first cluster of the area, and none of them changes the
    topology. *)
Theorem lookup_by_area (m : TopologyModel) (a : Z) :
  (∀ v, get_vim_by_area a m = (Ok v, m) ↔
     ∃ i, topo_vims m !! i = Some v ∧ a ∈ areas v ∧
          ∀ j w, (j < i)%nat → topo_vims m !! j = Some w → a ∉ areas w) ∧
  (get_vim_by_area a m = (Raise ValueError, m) ↔ ∀ v, v ∈ topo_vims m → a ∉ areas v) ∧
  (∀ l, get_vim_list_by_area a m = (Ok l, m) ↔
     l = filter (λ v, a ∈ areas v) (topo_vims m) ∧ l ≠ []) ∧
  (∀ k, find_k8s_cluster_by_area a m = (Ok k, m) ↔
     ∃ i, topo_kubernetes m !! i = Some k ∧ a ∈ k8s_areas k ∧
          ∀ j w, (j < i)%nat → topo_kubernetes m !! j = Some w → a ∉ k8s_areas w).
Proof.
  unfold get_vim_by_area, get_vim_list_by_area, find_k8s_cluster_by_area,
    find_k8s_cluster_index_by_area, next_item. run_M.
  pose proof (λ v : VimModel, py_in_Z a (areas v)) as Hp.
  pose proof (λ k : TopologyK8sModel, py_in_Z a (k8s_areas k)) as Hk.
  split; [|split; [|split]].
  - intros v. rewrite <-(find_first _ _ _ _ Hp).
    destruct (find _ (topo_vims m)); split; congruence.
  - destruct (find _ (topo_vims m)) as [v|] eqn:E.
    + split; [done|]. intros H. apply find_some in E as [Hin Ha]. apply list_elem_of_In in Hin.
      apply Hp in Ha. by destruct (H v).
    + split; [|done]. intros _ v Hv. rewrite <-Hp. rewrite (find_none _ _ E); [done|].
      by apply list_elem_of_In.
  - intros l. rewrite (filter_bool _ _ _ Hp).
    destruct (filter _ (topo_vims m)) as [|v l'] eqn:E; simpl.
    + split; [done|]. by intros [-> ?].
    + split; [by intros [= <-]|by intros [-> _]].
  - intros k. rewrite <-(find_first _ _ _ _ Hk), find_next_index. unfold next_index.
    destruct (find_index _ (topo_kubernetes m)) as [i|] eqn:E; [|done].
    rewrite of_nat_ltb_0. apply find_index_Some in E as (x & Hx & _).
    rewrite (py_getitem_nat _ _ _ Hx), Hx. split; congruence.
Qed.

Definition example_network : NetworkModel := build_network_model "net1" vlan example_cidr.
Definition example_topology : TopologyModel :=
  set_topo_networks [example_network] (set_vims [example_vim] empty_topology).

(** Deleting a VIM, looking it up, and deleting it again. *)
Definition example_ops : list (reg_op VimModel) := [RDel "vim1"; RGet "vim1"; RDel "vim1"].

Lemma topology_refines_maps_witness :
  (run_ops (ri_step (A := VimModel)) example_ops example_topology).1 =
    [Ok example_vim; Raise ValueError; Raise ValueError] ∧
  (let '(rs, m') := run_ops (ri_step (A := VimModel)) example_ops example_topology in
   run_ops (reg_step vim_name {| taken := ValueError; unknown := ValueError; busy := λ _, None |})
     example_ops (registry vim_name (topo_vims example_topology)) =
     (rs, registry vim_name (topo_vims m')) ∧
   m' = set_vims (topo_vims m') example_topology).
Proof.
  split; [vm_compute; reflexivity|].
  apply (topology_refines_maps example_topology).
  split_and!; apply (bool_decide_unpack _); vm_compute; exact I.
Defined.

Lemma router_lookup_broken_witness :
  get_router "r1" (set_topo_routers [{| router_name := "r1"; ports := []; internal_net := [];
                                        external_gateway_info := None |}] example_topology) =
  (Raise ValueError,
   set_topo_routers [{| router_name := "r1"; ports := []; internal_net := [];
                        external_gateway_info := None |}] example_topology).
Proof.
  apply (router_lookup_broken (set_topo_routers [{| router_name := "r1"; ports := [];
    internal_net := []; external_gateway_info := None |}] example_topology) "r1").
  intros v Hv. simpl in Hv. apply list_elem_of_singleton in Hv as ->. discriminate.
Defined.
