(* ===== verification/Topology.v ===== *)
(** * The topology object

    topology/topology.py: the operations on the topology as the REST interface and the worker
    call them.  Each changes the model, saves it to the database and publishes an event, under a
    re-entrant lock.  The state of a computation is the object ([_model], [_data]), the topology
    collection of the database, the published events and the depth of the lock.

    A reference to a VIM or a network of the model is its position in the list. *)

From stdpp Require Import base list strings gmap.
From Stdlib Require Import ZArith Lia Permutation.
From S2P Require Import Prelude Ipam IPv4Text Registry NetworkModels VimModels Database PrometheusModels K8sModels TopologyModel.

Open Scope Z_scope.

(** ** Events *)
Inductive TopologyEventType :=
| TOPO_CREATE | TOPO_DELETE | TOPO_VIM_CREATE | TOPO_VIM_DEL | TOPO_VIM_UPDATE
| TOPO_CREATE_NETWORK | TOPO_DELETE_NETWORK | TOPO_CREATED_ROUTER | TOPO_DELETED_ROUTER
| TOPO_CREATE_RANGE_RES | TOPO_DELETE_RANGE_RES | TOPO_CREATE_PDU | TOPO_DELETE_PDU
| TOPO_CREATE_K8S | TOPO_DELETE_K8S | TOPO_UPDATE_K8S
| TOPO_CREATE_PROM_SRV | TOPO_DELETE_PROM_SRV | TOPO_UPDATE_PROM_SRV.

Inductive event_data :=
| DTopology (m : TopologyModel) | DVim (v : VimModel) | DNetwork (n : NetworkModel)
| DRouter (r : RouterModel) | DRange (r : IPv4ReservedRange) | DPdu (p : PduModel)
| DK8s (k : TopologyK8sModel) | DProm (p : PrometheusServerModel).

Record Event := { operation : TopologyEventType; data : event_data }.

(** The broker and the SSH upload of a Prometheus server's target file are outside the
    repository: each answers or raises. *)
Class Environment := {
  redis_publish : list Event → Event → result unit;
  upload_sd_file : PrometheusServerModel → result unit
}.

(** A topology document is the dump of a [TopologyModel]. *)
#[export] Instance topology_document : Document TopologyModel := {
  doc_field t f := if String.eqb f "id" then topo_id t else None
}.

(** ** The object and its surroundings *)
Record World (C : Type) := {
  w_model : option TopologyModel;      (* self._model *)
  w_data : option TopologyModel;       (* self._data, a dump of the model *)
  w_db : C;                            (* the topology collection *)
  w_events : list Event;               (* published so far *)
  w_lock : nat                         (* how many times the lock is held *)
}.
Arguments w_model {_} _.
Arguments w_data {_} _.
Arguments w_db {_} _.
Arguments w_events {_} _.
Arguments w_lock {_} _.

(** What a method's [vim_names_list] can be given: the worker passes a boolean. *)
Inductive vim_names_arg := NoNames | Names (l : list string) | NamesBool (b : bool).

Section topology.
Context {C : Type} `{!Mongo TopologyModel C} `{Environment}.
Implicit Types (w : World C).

Definition set_model (m : option TopologyModel) (w : World C) : World C :=
  {| w_model := m; w_data := w_data w; w_db := w_db w; w_events := w_events w; w_lock := w_lock w |}.
Definition set_data (d : option TopologyModel) (w : World C) : World C :=
  {| w_model := w_model w; w_data := d; w_db := w_db w; w_events := w_events w; w_lock := w_lock w |}.
Definition set_db (c : C) (w : World C) : World C :=
  {| w_model := w_model w; w_data := w_data w; w_db := c; w_events := w_events w; w_lock := w_lock w |}.
Definition set_events (l : list Event) (w : World C) : World C :=
  {| w_model := w_model w; w_data := w_data w; w_db := w_db w; w_events := l; w_lock := w_lock w |}.
Definition set_lock (n : nat) (w : World C) : World C :=
  {| w_model := w_model w; w_data := w_data w; w_db := w_db w; w_events := w_events w; w_lock := n |}.

(** A method call on [self._model]; [None] has no such attribute. *)
Definition on_model {A} (m : M TopologyModel A) : M (World C) A := λ w,
  match w_model w with
  | Some t => match m t with (r, t') => (r, set_model (Some t') w) end
  | None => (Raise AttributeError, w)
  end.

(** A method call on the VIM, or the network, at a position of the model. *)
Definition on_vim {A} (i : nat) (m : M VimModel A) : M TopologyModel A := λ t,
  match topo_vims t !! i with
  | Some v => match m v with (r, v') => (r, set_vims (<[i := v']> (topo_vims t)) t) end
  | None => (Raise AttributeError, t)
  end.
Definition on_network {A} (i : nat) (m : M NetworkModel A) : M TopologyModel A := λ t,
  match topo_networks t !! i with
  | Some n => match m n with (r, n') => (r, set_topo_networks (<[i := n']> (topo_networks t)) t) end
  | None => (Raise AttributeError, t)
  end.

(** [self._model.get_vim(name)] and [get_network(name)], as references. *)
Definition vim_ref (name : string) : M TopologyModel nat :=
  index_vim ← find_vim_index name; mret (Z.to_nat index_vim).
Definition network_ref (name : string) : M TopologyModel nat :=
  net_index ← find_net_index name; mret (Z.to_nat net_index).

Definition vim_at (i : nat) : M TopologyModel VimModel := on_vim i getS.

(** [obj_multiprocess_lock] of utils/decorators.py. *)
Definition obj_multiprocess_lock {A} (func : M (World C) A) : M (World C) A := λ w,
  match func (set_lock (S (w_lock w)) w) with
  | (response, w') => (response, set_lock (pred (w_lock w')) w')
  end.

(** [trigger_redis_event]. *)
Definition trigger_redis_event (t : TopologyEventType) (d : event_data) : M (World C) unit := λ w,
  let ev := {| operation := t; data := d |} in
  match redis_publish (w_events w) ev with
  | Ok _ => (Ok tt, set_events (w_events w ++ [ev]) w)
  | Raise e => (Raise e, w)
  end.

(** No code of the repository ever fills [_os_terraformer]: each access raises. *)
Definition os_terraformer {A} (name : string) : M (World C) A := raise KeyError.

Definition dump_model : M (World C) TopologyModel := on_model getS.

Definition _save_topology_from_model : M (World C) unit :=
  content ← dump_model;
  modifyS (set_data (Some content)) ;;
  modifyS (λ w, set_db (save_topology content (w_db w)) w).

Definition _save_topology : M (World C) unit :=
  w ← getS;
  match w_data w with
  | None => raise AttributeError
  | Some d =>
      content ← liftR (model_validate d);
      modifyS (set_model (Some content)) ;;
      modifyS (λ w, set_db (save_topology content (w_db w)) w)
  end.

(** *** Construction *)

(** [Topology.__init__] on a dictionary: any failure becomes a [ValueError]. *)
Definition init (topo : option TopologyModel) (c : C) : result (World C) :=
  match topo with
  | None => Ok {| w_model := None; w_data := None; w_db := c; w_events := []; w_lock := 0 |}
  | Some t =>
      match model_validate t with
      | Ok m => Ok {| w_model := Some m; w_data := Some m; w_db := c; w_events := []; w_lock := 0 |}
      | Raise _ => Raise ValueError
      end
  end.

Definition from_db (c : C) : result (World C) :=
  match find_one_in_collection QAll c with
  | Some topo => d ← model_validate topo; init (Some d) c
  | None => init None c
  end.

Definition get : M (World C) (option TopologyModel) := w ← getS; mret (w_data w).
Definition get_model : M (World C) (option TopologyModel) := w ← getS; mret (w_model w).

(** *** Routers of a network, floating addresses *)
Definition get_routers_in_net (name : string) : M (World C) (list RouterModel) :=
  m ← dump_model;
  mret (List.filter (λ router, match next_item (λ item, String.eqb (port_net item) name) (ports router) with
                               | Some _ => true | None => false end) (topo_routers m)).

Definition get_routers_in_net_model (name : string) : M (World C) (list RouterModel) :=
  m ← dump_model;
  mret (List.filter (λ router, match next_item (λ item, String.eqb (port_net item) name) (ports router) with
                               | Some _ => true | None => false end) (topo_routers m)).

(** [external_gateway_info and "enable_snat" in it and it["enable_snat"] is True]. *)
Definition snat_enabled (router : RouterModel) : bool :=
  match external_gateway_info router with
  | Some info => match find (λ kv, String.eqb kv.1 "enable_snat") info with
                 | Some (_, VBool true) => true
                 | _ => false
                 end
  | None => false
  end.

Definition check_floating_ips (name : string) : M (World C) bool :=
  net_routers ← get_routers_in_net name;
  mret (existsb snat_enabled net_routers).

(** The disjunction over the networks of a VIM, [check_floating_ips] being skipped once true. *)
Fixpoint floating_ips (nets : list string) (use_floating_ip : bool) : M (World C) bool :=
  match nets with
  | [] => mret use_floating_ip
  | vim_net :: nets' =>
      b ← (if use_floating_ip then mret true else check_floating_ips vim_net);
      floating_ips nets' b
  end.

(** Endpoints are the networks that are not external.  For a VIM, the code reads [net.name] of
    the network names the VIM lists, which are strings. *)
Definition get_network_endpoints (vim : option string) : M (World C) (list NetworkModel) :=
  m ← dump_model;
  if str_true vim then
    match next_item (λ v, match vim with Some n => String.eqb n (vim_name v) | None => false end)
                    (topo_vims m) with
    | Some v => match networks v with
                | [] => mret []
                | _ :: _ => raise AttributeError
                end
    | None => mret []
    end
  else mret (List.filter (λ net, negb (external net)) (topo_networks m)).

(** *** Networks and routers of a VIM *)
Definition _add_vim_net (vim_net_name : string) (vim : nat) (terraform : bool) : M (World C) (option dict) :=
  on_model (on_vim vim (VimModels.add_net vim_net_name)) ;;
  topo_net ← on_model (get_network vim_net_name);
  if terraform then v ← on_model (vim_at vim); os_terraformer (vim_name v)
  else mret None.

Definition _del_vim_net (vim_net_name : string) (vim : nat) (terraform : bool) : M (World C) (option string) :=
  v ← on_model (vim_at vim);
  vim_model ← on_model (vim_ref (vim_name v));
  removed_net ← on_model (on_vim vim_model (VimModels.del_net vim_net_name));
  (if terraform then os_terraformer (vim_name v) else mret tt) ;;
  _save_topology_from_model ;;
  mret removed_net.

Definition del_vim_router (vim_router_name : string) (vim : nat) (terraform : bool) : M (World C) bool :=
  on_model (on_vim vim (VimModels.del_router vim_router_name)) ;;
  if terraform then v ← on_model (vim_at vim); os_terraformer (vim_name v)
  else mret true.

(** The loop over the ports of a router: the external network of a port must have an entry of
    the VIM with both identifiers, and an allocation pool (['ip_addr' in port] is false of any
    port).  The dictionary built is only handed to the terraformer. *)
Definition router_gateway (nets : list NetworkModel) (v : VimModel) (port : RouterPortModel) : result unit :=
  match next_item (λ n, String.eqb (net_name n) (port_net port) && external n) nets with
  | None => Ok tt
  | Some ext_net =>
      (fix scan (l : list dict) : result unit :=
         match l with
         | [] => Raise TypeError
         | item :: l' =>
             x ← dict_getitem item "vim";
             if (match x with VStr s => String.eqb s (vim_name v) | _ => false end) then
               _ ← dict_getitem item "l2net_id";
               _ ← py_getitem (allocation_pool ext_net) 0;
               _ ← dict_getitem item "l3net_id";
               Ok tt
             else scan l'
         end) (ids ext_net)
  end.

Definition add_vim_router (vim_router_name : string) (vim : nat) (terraform : bool) : M (World C) unit :=
  on_model (on_vim vim (VimModels.add_router vim_router_name)) ;;
  router ← on_model (get_router vim_router_name);
  m ← dump_model;
  v ← on_model (vim_at vim);
  for_each (ports router) (λ port, liftR (router_gateway (topo_networks m) v port)) ;;
  (if terraform then os_terraformer (vim_name v) else mret tt) ;;
  _save_topology_from_model.

(** *** VIMs *)
Definition add_vim (vim_model : VimModel) (terraform : bool) : M (World C) unit :=
  obj_multiprocess_lock (
    on_model (TopologyModel.add_vim vim_model) ;;
    m ← dump_model;
    let vim := pred (length (topo_vims m)) in
    (if terraform then
       for_each (networks vim_model) (λ vim_net, _add_vim_net vim_net vim true ;; mret tt) ;;
       for_each (routers vim_model) (λ vim_router, add_vim_router vim_router vim false)
     else mret tt) ;;
    _save_topology_from_model ;;
    floating_ips (networks vim_model) (use_floating_ip (vim_config vim_model)) ;;
    m ← dump_model; trigger_redis_event TOPO_VIM_CREATE (DTopology m)).

Definition del_vim (name : string) (terraform : bool) : M (World C) unit :=
  obj_multiprocess_lock (
    vim_model ← on_model (get_vim name);
    (if terraform then
       m ← dump_model;
       for_each (topo_routers m) (λ router,
         if py_in String.eqb (router_name router) (routers vim_model)
         then os_terraformer (vim_name vim_model) else mret tt) ;;
       for_each (topo_networks m) (λ network,
         if py_in String.eqb (net_name network) (networks vim_model)
         then os_terraformer (vim_name vim_model) else mret tt)
     else mret tt) ;;
    on_model (TopologyModel.del_vim (vim_name vim_model)) ;;
    _save_topology_from_model ;;
    m ← dump_model; trigger_redis_event TOPO_VIM_DEL (DTopology m)).

Definition update_vim (update_msg : UpdateVimModel) (terraform : bool) : M (World C) unit :=
  obj_multiprocess_lock (
    vim_model ← catch (i ← on_model (vim_ref (upd_name update_msg)); mret (Some i))
                      (λ e, if is_value_error e then Some (mret None) else None);
    match vim_model with
    | None => mret tt
    | Some vim =>
        for_each (networks_to_add update_msg) (λ vim_net, _add_vim_net vim_net vim terraform ;; mret tt) ;;
        for_each (networks_to_del update_msg) (λ vim_net, _del_vim_net vim_net vim terraform ;; mret tt) ;;
        for_each (routers_to_add update_msg) (λ vim_router, add_vim_router vim_router vim terraform) ;;
        for_each (routers_to_del update_msg) (λ vim_router, del_vim_router vim_router vim terraform ;; mret tt) ;;
        for_each (areas_to_add update_msg) (λ vim_area, on_model (on_vim vim (VimModels.add_area vim_area))) ;;
        for_each (areas_to_del update_msg) (λ vim_area, on_model (on_vim vim (VimModels.del_area vim_area)) ;; mret tt) ;;
        _save_topology_from_model ;;
        v ← on_model (vim_at vim);
        trigger_redis_event TOPO_VIM_UPDATE (DVim v)
    end).

Definition get_vim_from_area_id_model (area : Z) : M (World C) VimModel :=
  on_model (get_vim_by_area area).
Definition get_vim_from_area_id (area : Z) : M (World C) VimModel :=
  on_model (get_vim_by_area area).
Definition get_vim_name_from_area_id (area : Z) : M (World C) string :=
  v ← get_vim_from_area_id_model area; mret (vim_name v).
Definition get_vim_list_from_area_id_model (area : Z) : M (World C) (list VimModel) :=
  on_model (get_vim_list_by_area area).

(** *** Creating and deleting the topology *)
Definition create (topo : TopologyModel) (terraform : bool) : M (World C) unit :=
  obj_multiprocess_lock (
    w ← getS;
    match w_model w with
    | Some _ => raise ValueError
    | None =>
        modifyS (set_model (Some (set_vims [] topo))) ;;
        for_each (topo_vims topo) (λ vim, add_vim vim terraform) ;;
        _save_topology_from_model ;;
        m ← dump_model; trigger_redis_event TOPO_CREATE (DTopology m)
    end).

(** [for vim in self._model.vims: self.del_vim(...)]: the list shrinks while the position
    grows. *)
Fixpoint delete_vims (fuel : nat) (position : nat) (terraform : bool) : M (World C) unit :=
  match fuel with
  | O => mret tt
  | S fuel' =>
      m ← dump_model;
      match topo_vims m !! position with
      | None => mret tt
      | Some vim => del_vim (vim_name vim) terraform ;; delete_vims fuel' (S position) terraform
      end
  end.

(** The last event dumps [self._model], which has just been set to [None]. *)
Definition delete (terraform : bool) : M (World C) unit :=
  obj_multiprocess_lock (
    w ← getS;
    match w_model w with
    | None => raise ValueError
    | Some m =>
        delete_vims (length (topo_vims m)) 0 terraform ;;
        modifyS (λ w, set_db (delete_topology (w_db w)) w) ;;
        modifyS (set_model None) ;;
        m ← dump_model; trigger_redis_event TOPO_DELETE (DTopology m)
    end).

(** *** Networks *)
Definition get_network_model (name : string) (vim : option string) : M (World C) NetworkModel :=
  net_model ← on_model (TopologyModel.get_network name);
  (match vim with
   | Some v => if str_true vim
               then i ← on_model (vim_ref v); on_model (on_vim i (VimModels.get_net name)) ;; mret tt
               else mret tt
   | None => mret tt
   end) ;;
  mret net_model.

Definition get_network (name : string) (vim : option string) : M (World C) NetworkModel :=
  get_network_model name vim.

Definition add_network_model (network_model : NetworkModel) (vim_names_list : vim_names_arg)
  (terraform : bool) : M (World C) NetworkModel :=
  obj_multiprocess_lock (
    added_network ← on_model (TopologyModel.add_network network_model);
    (match vim_names_list with
     | Names l =>
         for_each l (λ name,
           vim ← on_model (vim_ref name);
           _add_vim_net (net_name network_model) vim terraform ;; mret tt)
     | NamesBool true => raise TypeError
     | NamesBool false | NoNames => mret tt
     end) ;;
    _save_topology_from_model ;;
    trigger_redis_event TOPO_CREATE_NETWORK (DNetwork network_model) ;;
    mret added_network).

Definition add_network (network : NetworkModel) (vim_names_list : vim_names_arg) (terraform : bool)
  : M (World C) unit :=
  add_network_model network vim_names_list terraform ;; mret tt.

(** The loop of [add_network_by_area]. *)
Fixpoint vim_names_of_areas (l : list Z) : M (World C) (list string) :=
  match l with
  | [] => mret []
  | a :: l' => n ← get_vim_name_from_area_id a; ns ← vim_names_of_areas l'; mret (n :: ns)
  end.

(** [areas] defaults to [None], which cannot be iterated. *)
Definition add_network_by_area (network : NetworkModel) (area_list : option (list Z)) (terraform : bool)
  : M (World C) unit :=
  match area_list with
  | None => raise TypeError
  | Some l =>
      vims ← vim_names_of_areas l;
      add_network network (Names vims) terraform
  end.

Definition del_network (network : NetworkModel) (vim_names_list : option (list string))
  (terraform : bool) : M (World C) unit :=
  obj_multiprocess_lock (
    for_each (default [] vim_names_list) (λ name,
      vim ← on_model (vim_ref name);
      _del_vim_net (net_name network) vim terraform ;; mret tt) ;;
    on_model (TopologyModel.del_network (net_name network)) ;;
    _save_topology_from_model ;;
    trigger_redis_event TOPO_DELETE_NETWORK (DNetwork network)).

Definition del_network_by_name (network_name : string) (terraform : bool) : M (World C) unit :=
  obj_multiprocess_lock (
    (if terraform then
       m ← dump_model;
       for_each (seq 0 (length (topo_vims m))) (λ vim,
         v ← on_model (vim_at vim);
         if py_in String.eqb network_name (networks v)
         then _del_vim_net network_name vim terraform ;; mret tt else mret tt)
     else mret tt) ;;
    delete_net ← on_model (TopologyModel.del_network network_name);
    _save_topology_from_model ;;
    trigger_redis_event TOPO_DELETE_NETWORK (DNetwork delete_net)).

(** *** Routers *)
Definition get_router (name : string) : M (World C) RouterModel :=
  on_model (TopologyModel.get_router name).

Definition add_router (router : RouterModel) : M (World C) unit :=
  obj_multiprocess_lock (
    on_model (TopologyModel.add_router router) ;;
    _save_topology_from_model ;;
    trigger_redis_event TOPO_CREATED_ROUTER (DRouter router)).

(** [vim.get_router] only logs when the router is missing, and [vim.del_router(None)] then does
    nothing. *)
Definition del_router (name : string) (vim_names_list : option (list string)) : M (World C) unit :=
  obj_multiprocess_lock (
    router ← on_model (TopologyModel.del_router name);
    for_each (default [] vim_names_list) (λ vname,
      vim ← on_model (vim_ref vname);
      vim_router ← on_model (on_vim vim (VimModels.get_router (router_name router)));
      match vim_router with
      | Some r => on_model (on_vim vim (VimModels.del_router r)) ;; mret tt
      | None => mret tt
      end) ;;
    _save_topology_from_model ;;
    trigger_redis_event TOPO_DELETED_ROUTER (DRouter router)).

(** *** Address ranges *)
Definition set_reserved_ip_range (ip_range : IPv4Pool) (name : string) (owner : string)
  : M (World C) IPv4ReservedRange :=
  topo_net ← on_model (network_ref name);
  n ← on_model (on_network topo_net getS);
  if external n then raise ValueError
  else
    let ip_range := {| range_pool := ip_range; owner := owner |} in
    on_model (on_network topo_net (add_reserved_range ip_range)) ;;
    _save_topology_from_model ;;
    trigger_redis_event TOPO_CREATE_RANGE_RES (DRange ip_range) ;;
    mret ip_range.

(** A missing length is compared with the length of the first available range. *)
Definition range_for (c : IPv4Network) (reserved_ips : list IPv4Pool) (range_length : option Z)
  : result IPv4Pool :=
  match range_length with
  | Some n => get_range_in_cidr c reserved_ips n
  | None => _ ← get_available_network_ip c reserved_ips; Raise TypeError
  end.

Definition reserve_range (name : string) (range_length : option Z) (owner : string)
  (vim : option string) : M (World C) IPv4ReservedRange :=
  obj_multiprocess_lock (
    net ← get_network name vim;
    let reserved_ips := allocation_pool net ++ (range_pool <$> reserved_ranges net) in
    ip_range ← liftR (range_for (cidr net) reserved_ips range_length);
    set_reserved_ip_range ip_range name owner).

Definition reserve_range_lb_pool (lb_pool : LBPool) (owner : string) : M (World C) IPv4ReservedRange :=
  reserve_range (lb_net_name lb_pool) (range_length lb_pool) owner None.

(** The loop over all the networks, stopping at the first that releases something. *)
Fixpoint release_in (nets : list nat) (owner : string) (ip_range : option IPv4ReservedRange)
  : M (World C) (option IPv4ReservedRange) :=
  match nets with
  | [] => mret None
  | network :: nets' =>
      removed_range ← on_model (on_network network (release_range owner ip_range));
      match removed_range with
      | Some r => mret (Some r)
      | None => release_in nets' owner ip_range
      end
  end.

Definition release_ranges (owner : string) (ip_range : option IPv4ReservedRange)
  (name : option string) : M (World C) (option IPv4ReservedRange) :=
  obj_multiprocess_lock (
    removed_range ←
      (match name with
       | None => m ← dump_model; release_in (seq 0 (length (topo_networks m))) owner ip_range
       | Some n =>
           network ← on_model (network_ref n);
           on_model (on_network network (release_range owner ip_range))
       end);
    match removed_range with
    | None => mret None
    | Some r =>
        _save_topology_from_model ;;
        trigger_redis_event TOPO_DELETE_RANGE_RES (DRange r) ;;
        mret (Some r)
    end).

(** *** PDUs *)
Definition add_pdu (pdu_input : PduModel) : M (World C) unit :=
  obj_multiprocess_lock (
    catch (on_model (TopologyModel.add_pdu pdu_input) ;;
           _save_topology_from_model ;;
           trigger_redis_event TOPO_CREATE_PDU (DPdu pdu_input))
          (λ e, if is_value_error e then Some (mret tt) else None)).

Definition upd_pdu (pdu_input : PduModel) : M (World C) unit :=
  obj_multiprocess_lock (
    on_model (TopologyModel.upd_pdu pdu_input) ;;
    _save_topology_from_model ;;
    trigger_redis_event TOPO_CREATE_PDU (DPdu pdu_input)).

(** The event is published before the topology is saved. *)
Definition del_pdu (name : string) : M (World C) unit :=
  obj_multiprocess_lock (
    on_model (TopologyModel.get_pdu name) ;;
    deleted_pdu ← on_model (TopologyModel.del_pdu name);
    trigger_redis_event TOPO_DELETE_PDU (DPdu deleted_pdu) ;;
    _save_topology_from_model).

Definition get_pdu (name : string) : M (World C) PduModel := on_model (TopologyModel.get_pdu name).
Definition get_pdus : M (World C) (list PduModel) := on_model TopologyModel.get_pdus.

(** *** Kubernetes clusters *)
Definition get_k8s_clusters : M (World C) (list TopologyK8sModel) :=
  m ← dump_model; mret (topo_kubernetes m).
Definition get_k8s_cluster (name : string) : M (World C) TopologyK8sModel :=
  on_model (find_k8s_cluster name).
Definition get_k8s_cluster_by_area (area_id : Z) : M (World C) TopologyK8sModel :=
  on_model (find_k8s_cluster_by_area area_id).

Definition add_k8scluster (cluster : TopologyK8sModel) : M (World C) unit :=
  obj_multiprocess_lock (
    on_model (add_k8s_cluster cluster) ;;
    _save_topology_from_model ;;
    trigger_redis_event TOPO_CREATE_K8S (DK8s cluster)).

Definition del_k8scluster (cluster_id : string) : M (World C) unit :=
  obj_multiprocess_lock (
    k8s_deleted_cluster ← on_model (del_k8s_cluster cluster_id);
    _save_topology_from_model ;;
    trigger_redis_event TOPO_DELETE_K8S (DK8s k8s_deleted_cluster)).

Definition update_k8scluster (cluster : TopologyK8sModel) : M (World C) unit :=
  obj_multiprocess_lock (
    updated_cluster ← on_model (upd_k8s_cluster cluster);
    _save_topology_from_model ;;
    trigger_redis_event TOPO_UPDATE_K8S (DK8s updated_cluster)).

(** *** Prometheus servers *)
Definition add_prometheus_server (prom_server : PrometheusServerModel) : M (World C) unit :=
  obj_multiprocess_lock (
    on_model (add_prometheus_srv prom_server) ;;
    _save_topology_from_model ;;
    trigger_redis_event TOPO_CREATE_PROM_SRV (DProm prom_server)).

(** The removal of the server's temporary files is not modelled. *)
Definition del_prometheus_server (prom_srv_id : string) (force : bool) : M (World C) PrometheusServerModel :=
  obj_multiprocess_lock (
    deleted_prom_instance ← on_model (del_prometheus_srv prom_srv_id force);
    _save_topology_from_model ;;
    trigger_redis_event TOPO_DELETE_PROM_SRV (DProm deleted_prom_instance) ;;
    mret deleted_prom_instance).

Definition update_prometheus_server (prom_server : PrometheusServerModel) : M (World C) unit :=
  obj_multiprocess_lock (
    updated_instance ← on_model (upd_prometheus_srv prom_server);
    liftR (upload_sd_file prom_server) ;;
    _save_topology_from_model ;;
    trigger_redis_event TOPO_UPDATE_PROM_SRV (DProm updated_instance)).

Definition get_prometheus_server (prom_server_id : string) : M (World C) PrometheusServerModel :=
  on_model (find_prom_srv prom_server_id).
Definition get_prometheus_servers_model : M (World C) (list PrometheusServerModel) :=
  m ← dump_model; mret (topo_prometheus_srv m).
Definition get_prometheus_servers : M (World C) (list PrometheusServerModel) :=
  w ← getS;
  match w_data w with Some d => mret (topo_prometheus_srv d) | None => raise AttributeError end.
End topology.
