(* ===== verification/TopologyProps.v ===== *)
(** * Correctness of the topology object

    Invariants, persistence, locking and atomicity of the operations of Topology.v, each stated
    for the type of all the commands that change a topology. *)

From stdpp Require Import base list strings gmap.
From Stdlib Require Import ZArith Lia Permutation.
From S2P Require Import Prelude Ipam IPv4Text Registry NetworkModels VimModels Database PrometheusModels K8sModels TopologyModel Topology.

Open Scope Z_scope.

(** ** Commands *)
Inductive command :=
| CCreate (topo : TopologyModel) (terraform : bool)
| CDelete (terraform : bool)
| CAddVim (v : VimModel) (terraform : bool)
| CDelVim (name : string) (terraform : bool)
| CUpdateVim (u : UpdateVimModel) (terraform : bool)
| CAddNetwork (n : NetworkModel) (vims : vim_names_arg) (terraform : bool)
| CAddNetworkByArea (n : NetworkModel) (areas : option (list Z)) (terraform : bool)
| CDelNetwork (n : NetworkModel) (vims : option (list string)) (terraform : bool)
| CDelNetworkByName (name : string) (terraform : bool)
| CAddRouter (r : RouterModel)
| CDelRouter (name : string) (vims : option (list string))
| CReserveRange (net : string) (len : option Z) (owner : string) (vim : option string)
| CReserveLbPool (p : LBPool) (owner : string)
| CReleaseRanges (owner : string) (r : option IPv4ReservedRange) (net : option string)
| CAddPdu (p : PduModel)
| CUpdPdu (p : PduModel)
| CDelPdu (name : string)
| CAddK8s (k : TopologyK8sModel)
| CDelK8s (name : string)
| CUpdK8s (k : TopologyK8sModel)
| CAddProm (p : PrometheusServerModel)
| CDelProm (id : string) (force : bool)
| CUpdProm (p : PrometheusServerModel).

(** The requirements on the objects a caller hands over. *)
Definition len_ok (len : option Z) : Prop := match len with Some n => 0 < n | None => True end.

Definition command_ok (cmd : command) : Prop :=
  match cmd with
  | CCreate topo _ => topology_ok topo
  | CAddVim v _ => vim_valid v
  | CAddNetwork n _ _ | CAddNetworkByArea n _ _ => network_ok n
  | CReserveRange _ len _ _ => len_ok len
  | CAddK8s k | CUpdK8s k => k8s_valid k
  | CReserveLbPool p _ => len_ok (range_length p)
  | _ => True
  end.

Section props.
Context {C : Type} `{!Mongo TopologyModel C} `{Environment}.
Implicit Types (w : World C) (m : TopologyModel).

Definition exec (cmd : command) : M (World C) unit :=
  match cmd with
  | CCreate topo tf => create topo tf
  | CDelete tf => delete tf
  | CAddVim v tf => add_vim v tf
  | CDelVim n tf => del_vim n tf
  | CUpdateVim u tf => update_vim u tf
  | CAddNetwork n vims tf => add_network n vims tf
  | CAddNetworkByArea n ars tf => add_network_by_area n ars tf
  | CDelNetwork n vims tf => del_network n vims tf
  | CDelNetworkByName n tf => del_network_by_name n tf
  | CAddRouter r => add_router r
  | CDelRouter n vims => del_router n vims
  | CReserveRange net len o v => reserve_range net len o v ;; mret tt
  | CReserveLbPool p o => reserve_range_lb_pool p o ;; mret tt
  | CReleaseRanges o r net => release_ranges o r net ;; mret tt
  | CAddPdu p => add_pdu p
  | CUpdPdu p => upd_pdu p
  | CDelPdu n => del_pdu n
  | CAddK8s k => add_k8scluster k
  | CDelK8s n => del_k8scluster n
  | CUpdK8s k => update_k8scluster k
  | CAddProm p => add_prometheus_server p
  | CDelProm n force => del_prometheus_server n force ;; mret tt
  | CUpdProm p => update_prometheus_server p
  end.

(** ** The database holds at most the topology *)
Definition db_ok (c : C) : Prop := (length (docs c) ≤ 1)%nat ∧ ∀ d, d ∈ docs c → topology_ok d.

Definition world_ok w : Prop := (∀ m, w_model w = Some m → topology_ok m) ∧ db_ok (w_db w).

Lemma db_ok_cases c : db_ok c → docs c = [] ∨ ∃ d, docs c = [d] ∧ topology_ok d.
Proof.
  intros [Hlen Hd]. destruct (docs c) as [|d [|]]; simpl in Hlen; [by left| |lia].
  right. exists d. split; [done|]. apply Hd. left.
Qed.

Lemma topology_matches m : topology_ok m → matches (QField "id" "topology") m.
Proof. intros (_ & _ & _ & Hid & _). unfold matches. simpl. by rewrite Hid. Qed.

Lemma save_docs m c : db_ok c → topology_ok m → docs (save_topology m c) = [m].
Proof.
  intros Hc Hm. apply Permutation_singleton_r. unfold save_topology, exists_in_collection.
  rewrite count_docs. destruct (db_ok_cases c Hc) as [Hd|(d & Hd & Hok)].
  - rewrite Hd. simpl. unfold insert_in_collection. by rewrite insert_docs, Hd.
  - rewrite Hd. rewrite filter_cons_True by by apply topology_matches. simpl.
    unfold update_in_collection.
    destruct (update_docs (QField "id" "topology") m c) as [(d0 & rest & _ & Hp & Hp')|(Hn & _)].
    + rewrite Hd in Hp. pose proof (Permutation_length Hp) as Hl. simpl in Hl.
      rewrite Hp'. destruct rest; [done|simpl in Hl; lia].
    + exfalso. apply (Hn d); [rewrite Hd; left|]. by apply topology_matches.
Qed.

Lemma db_ok_singleton m c : topology_ok m → docs c = [m] → db_ok c.
Proof.
  intros Hm Hd. unfold db_ok. rewrite Hd. split; [simpl; lia|].
  by intros d ->%list_elem_of_singleton.
Qed.

Lemma db_ok_nil c : docs c = [] → db_ok c.
Proof. intros Hd. unfold db_ok. rewrite Hd. split; [simpl; lia|]. by intros d ?%not_elem_of_nil. Qed.

Lemma delete_topology_docs c : db_ok c → docs (delete_topology c) = [].
Proof.
  intros Hc. unfold delete_topology, delete_from_collection. apply Permutation_nil_r.
  rewrite delete_docs. destruct (db_ok_cases c Hc) as [->|(d & -> & Hok)]; [done|].
  rewrite filter_cons_False; [done|]. intros Hn. by apply Hn, topology_matches.
Qed.

(** ** The building blocks keep the invariant *)
Lemma world_ok_on_model {A} (op : M TopologyModel A) :
  preserves topology_ok op → preserves world_ok (on_model op).
Proof.
  intros Hop w Hw. unfold on_model. destruct (w_model w) as [m|] eqn:E; [|exact Hw].
  destruct Hw as [Hm Hdb]. specialize (Hop m (Hm m E)). destruct (op m) as [r m']. simpl in *.
  split; [|done]. by intros ? [= <-].
Qed.

Lemma world_ok_locked {A} (op : M (World C) A) :
  preserves world_ok op → preserves world_ok (obj_multiprocess_lock op).
Proof.
  intros Hop w Hw. unfold obj_multiprocess_lock.
  specialize (Hop (set_lock (S (w_lock w)) w) Hw).
  by destruct (op _) as [r w'].
Qed.

Lemma world_ok_trigger t d : preserves world_ok (trigger_redis_event t d).
Proof. intros w Hw. unfold trigger_redis_event. by destruct (redis_publish _ _) as [[]|]. Qed.

Lemma world_ok_save : preserves world_ok _save_topology_from_model.
Proof.
  intros w Hw. unfold _save_topology_from_model, dump_model, on_model. run_M.
  destruct (w_model w) as [m|] eqn:E; [|exact Hw]. simpl.
  destruct Hw as [Hm Hdb]. assert (topology_ok m) by by apply Hm.
  split; [by intros ? [= <-]|]. simpl. eapply db_ok_singleton; [done|]. by apply save_docs.
Qed.

Lemma topology_ok_getS : preserves topology_ok getS.
Proof. apply preserves_getS. Qed.

Lemma world_ok_reads {A} (op : M TopologyModel A) : reads op → preserves world_ok (on_model op).
Proof. intros Hr. apply world_ok_on_model, preserves_reads, Hr. Qed.

(** *** Objects of the model by position *)
Lemma topology_ok_on_vim {A} i (op : M VimModel A) :
  preserves vim_ok op → (∀ v, vim_name (op v).2 = vim_name v) →
  preserves topology_ok (on_vim i op).
Proof.
  intros Hop Hname m Hm. unfold on_vim. destruct (topo_vims m !! i) as [v|] eqn:Hv; [|done].
  assert (Hvok : vim_valid v).
  { destruct Hm as (_ & _ & Hall & _). by eapply Forall_lookup_1. }
  specialize (Hop v (proj1 Hvok)). specialize (Hname v). destruct (op v) as [r v']. simpl in *.
  apply topology_ok_vims; [done| |].
  - eapply keys_unique_insert; [apply Hm|done|done].
  - apply Forall_insert_list; [apply Hm|]. split; [done|]. rewrite Hname. apply Hvok.
Qed.

Lemma topology_ok_on_network {A} i (op : M NetworkModel A) :
  preserves network_ok op → (∀ n, net_name (op n).2 = net_name n) →
  preserves topology_ok (on_network i op).
Proof.
  intros Hop Hname m Hm. unfold on_network.
  destruct (topo_networks m !! i) as [n|] eqn:Hn; [|done].
  assert (Hnok : network_ok n).
  { destruct Hm as (_ & Hall & _). by eapply Forall_lookup_1. }
  specialize (Hop n Hnok). specialize (Hname n). destruct (op n) as [r n']. simpl in *.
  apply topology_ok_networks; [done| |].
  - eapply keys_unique_insert; [apply Hm|done|done].
  - apply Forall_insert_list; [apply Hm|done].
Qed.

(** No operation of a VIM renames it. *)
Lemma add_net_name s v : vim_name (VimModels.add_net s v).2 = vim_name v.
Proof. unfold VimModels.add_net. run_M. by destruct (_ || _). Qed.
Lemma del_net_name s v : vim_name (VimModels.del_net s v).2 = vim_name v.
Proof. destruct (del_net_spec s v) as [[_ ->]|(i & _ & ->)]; done. Qed.
Lemma add_router_name s v : vim_name (VimModels.add_router s v).2 = vim_name v.
Proof. unfold VimModels.add_router. run_M. by destruct (_ || _). Qed.
Lemma del_router_name s v : vim_name (VimModels.del_router s v).2 = vim_name v.
Proof. destruct (del_router_spec s v) as [[_ ->]|[(_ & _ & ->)|(i & _ & _ & ->)]]; done. Qed.
Lemma add_area_name s v : vim_name (VimModels.add_area s v).2 = vim_name v.
Proof. unfold VimModels.add_area. run_M. by destruct (py_in _ _ _). Qed.
Lemma del_area_name s v : vim_name (VimModels.del_area s v).2 = vim_name v.
Proof. destruct (del_area_spec s v) as [[_ ->]|(i & _ & ->)]; done. Qed.

Lemma release_range_name o r n : net_name (release_range o r n).2 = net_name n.
Proof.
  unfold release_range. run_M. generalize 0%nat. generalize (reserved_ranges n) at 1.
  intros l. induction l as [|x l IH]; intros k; simpl; [done|].
  destruct r as [q|].
  - destruct (negb _); [done|]. destruct (IPv4ReservedRange_eq x q); [done|apply IH].
  - destruct (String.eqb _ _); [done|apply IH].
Qed.

(** *** Reading *)
Lemma reads_find {A} (key : A → string) (l : TopologyModel → list A) (e : exn) k :
  reads (self ← getS; let i := next_index (λ it, String.eqb (key it) k) (l self) in
         if i <? 0 then raise e else mret i).
Proof. intros m. run_M. by destruct (_ <? 0). Qed.

Lemma vim_ref_reads n : reads (vim_ref n).
Proof. intros m. unfold vim_ref, find_vim_index. run_M. by destruct (_ <? 0). Qed.
Lemma network_ref_reads n : reads (network_ref n).
Proof. intros m. unfold network_ref, find_net_index. run_M. by destruct (_ <? 0). Qed.
Lemma vim_at_reads i : reads (vim_at i).
Proof.
  intros m. unfold vim_at, on_vim. destruct (topo_vims m !! i) as [v|] eqn:Hv; [|done]. simpl.
  rewrite list_insert_id by done. by destruct m.
Qed.
Lemma network_at_reads i : reads (on_network i getS).
Proof.
  intros m. unfold on_network. destruct (topo_networks m !! i) as [v|] eqn:Hv; [|done]. simpl.
  rewrite list_insert_id by done. by destruct m.
Qed.

Lemma registry_get_reads {A} `{RI : RegistryImpl TopologyModel A} k : reads (ri_get k).
Proof.
  intros m. destruct (position_cases ri_key k (ri_items m)) as [[Hp _]|(i & y & Hp & Hy & _)].
  - by rewrite (proj1 (ri_get_law k m) Hp).
  - by rewrite (proj2 (ri_get_law k m) i y Hp Hy).
Qed.

(** ** Every operation keeps the invariant *)
Lemma world_ok_on_vim {A} i (op : M VimModel A) :
  preserves vim_ok op → (∀ v, vim_name (op v).2 = vim_name v) →
  preserves world_ok (on_model (on_vim i op)).
Proof. intros. by apply world_ok_on_model, topology_ok_on_vim. Qed.

Lemma world_ok_dump : preserves world_ok dump_model.
Proof. apply world_ok_on_model, topology_ok_getS. Qed.
Lemma world_ok_vim_ref n : preserves world_ok (on_model (vim_ref n)).
Proof. apply world_ok_reads, vim_ref_reads. Qed.
Lemma world_ok_network_ref n : preserves world_ok (on_model (network_ref n)).
Proof. apply world_ok_reads, network_ref_reads. Qed.
Lemma world_ok_vim_at i : preserves world_ok (on_model (vim_at i)).
Proof. apply world_ok_reads, vim_at_reads. Qed.
Lemma world_ok_network_at i : preserves world_ok (on_model (on_network i getS)).
Proof. apply world_ok_reads, network_at_reads. Qed.
Lemma world_ok_terraformer {A} n : preserves world_ok (os_terraformer (A := A) n).
Proof. apply preserves_raise. Qed.

Lemma world_ok_release i o r : preserves world_ok (on_model (on_network i (release_range o r))).
Proof.
  apply world_ok_on_model, topology_ok_on_network.
  - apply release_range_preserves.
  - apply release_range_name.
Qed.

Lemma world_ok_catch {A} (m : M (World C) A) h :
  preserves world_ok m → (∀ e k, h e = Some k → preserves world_ok k) →
  preserves world_ok (catch m h).
Proof. apply preserves_catch. Qed.

Hint Resolve world_ok_trigger world_ok_save world_ok_dump world_ok_vim_ref world_ok_network_ref
  world_ok_vim_at world_ok_network_at world_ok_terraformer world_ok_release : preserve.
Hint Resolve add_net_name del_net_name add_router_name del_router_name add_area_name
  del_area_name : preserve.

(** Split an operation of the topology into its steps. *)
Ltac world_steps :=
  repeat match goal with
  | |- preserves _ (obj_multiprocess_lock _) => apply world_ok_locked
  | |- preserves _ (mret _) => apply preserves_ret
  | |- preserves _ (raise _) => apply preserves_raise
  | |- preserves _ (liftR _) => apply preserves_liftR
  | |- preserves _ getS => apply preserves_getS
  | |- preserves _ (_ ≫= _) => apply preserves_bind; [|intros ?]
  | |- preserves _ (for_each _ _) => apply preserves_for_each; intros ?
  | |- preserves _ (if ?b then _ else _) => destruct b eqn:?
  | |- preserves _ (match ?x with _ => _ end) => destruct x eqn:?
  | |- preserves _ (on_model (on_vim _ _)) =>
      apply world_ok_on_vim; [solve [eauto with preserve]|intros ?; solve [eauto with preserve]]
  | |- preserves _ _ => solve [eauto with preserve]
  end.

Lemma world_ok_router_read n : preserves world_ok (on_model (TopologyModel.get_router n)).
Proof. apply world_ok_reads, get_router_reads. Qed.

Lemma world_ok_get_network n : preserves world_ok (on_model (TopologyModel.get_network n)).
Proof. apply world_ok_reads, (registry_get_reads (RI := networks_registry)). Qed.

Lemma world_ok_get_vim n : preserves world_ok (on_model (TopologyModel.get_vim n)).
Proof. apply world_ok_reads, (registry_get_reads (RI := vims_registry)). Qed.

Lemma world_ok_get_pdu n : preserves world_ok (on_model (TopologyModel.get_pdu n)).
Proof. apply world_ok_reads, (registry_get_reads (RI := pdus_registry)). Qed.

Lemma vim_area_reads a : reads (get_vim_by_area a).
Proof. intros m. unfold get_vim_by_area. run_M. by destruct (next_item _ _). Qed.

Lemma world_ok_vim_area a : preserves world_ok (get_vim_name_from_area_id a).
Proof.
  unfold get_vim_name_from_area_id, get_vim_from_area_id_model. apply preserves_bind.
  - apply world_ok_reads, vim_area_reads.
  - intros ?. apply preserves_ret.
Qed.

Hint Resolve world_ok_router_read world_ok_get_network world_ok_get_vim world_ok_get_pdu
  world_ok_vim_area : preserve.

Lemma world_ok_floating nets b : preserves world_ok (floating_ips nets b).
Proof.
  revert b; induction nets as [|n nets IH]; intros b; simpl; [apply preserves_ret|].
  apply preserves_bind; [|intros ?; apply IH].
  unfold check_floating_ips, get_routers_in_net. world_steps.
Qed.

Lemma world_ok_add_vim_net n i tf : preserves world_ok (_add_vim_net n i tf).
Proof. unfold _add_vim_net. world_steps. Qed.
Lemma world_ok_del_vim_net n i tf : preserves world_ok (_del_vim_net n i tf).
Proof. unfold _del_vim_net. world_steps. Qed.
Lemma world_ok_del_vim_router n i tf : preserves world_ok (del_vim_router n i tf).
Proof. unfold del_vim_router. world_steps. Qed.
Lemma world_ok_add_vim_router n i tf : preserves world_ok (add_vim_router n i tf).
Proof. unfold add_vim_router. world_steps. Qed.

Hint Resolve world_ok_floating world_ok_add_vim_net world_ok_del_vim_net world_ok_del_vim_router
  world_ok_add_vim_router : preserve.

Lemma world_ok_vims (op : reg_op VimModel) :
  op_ok vim_valid op → preserves world_ok (on_model (ri_step op)).
Proof. intros. by apply world_ok_on_model, vims_preserve. Qed.
Lemma world_ok_networks (op : reg_op NetworkModel) :
  op_ok network_ok op → preserves world_ok (on_model (ri_step op)).
Proof. intros. by apply world_ok_on_model, networks_preserve. Qed.
Lemma world_ok_pdus (op : reg_op PduModel) : preserves world_ok (on_model (ri_step op)).
Proof. apply world_ok_on_model, pdus_preserve. Qed.

Lemma world_ok_model_del_vim n : preserves world_ok (on_model (TopologyModel.del_vim n)).
Proof. apply (world_ok_vims (RDel n) I). Qed.
Lemma world_ok_model_del_network n : preserves world_ok (on_model (TopologyModel.del_network n)).
Proof. apply (world_ok_networks (RDel n) I). Qed.
Lemma world_ok_model_add_pdu p : preserves world_ok (on_model (TopologyModel.add_pdu p)).
Proof. apply (world_ok_pdus (RAdd p)). Qed.
Lemma world_ok_model_upd_pdu p : preserves world_ok (on_model (TopologyModel.upd_pdu p)).
Proof. apply (world_ok_pdus (RUpd p)). Qed.
Lemma world_ok_model_del_pdu n : preserves world_ok (on_model (TopologyModel.del_pdu n)).
Proof. apply (world_ok_pdus (RDel n)). Qed.

(** [add_k8s_cluster k ;; mret k] keeps what [add_k8s_cluster k] keeps. *)
Lemma preserves_discard {S A B} (I : S → Prop) (op : M S A) (b : B) :
  preserves I (op ;; mret b) → preserves I op.
Proof.
  intros Hop s Hs. specialize (Hop s Hs). revert Hop. unfold mbind, M_bind.
  by destruct (op s) as [[?|?] ?].
Qed.

Lemma world_ok_model_add_k8s k : k8s_valid k → preserves world_ok (on_model (add_k8s_cluster k)).
Proof. intros Hk. apply world_ok_on_model. eapply preserves_discard, (kubernetes_preserve (RAdd k) Hk). Qed.
Lemma world_ok_model_upd_k8s k : k8s_valid k → preserves world_ok (on_model (upd_k8s_cluster k)).
Proof. intros Hk. apply world_ok_on_model, (kubernetes_preserve (RUpd k) Hk). Qed.
Lemma world_ok_model_del_k8s n : preserves world_ok (on_model (del_k8s_cluster n)).
Proof. apply world_ok_on_model, (kubernetes_preserve (RDel n) I). Qed.
Lemma world_ok_model_add_prom p : preserves world_ok (on_model (add_prometheus_srv p)).
Proof. apply world_ok_on_model. eapply preserves_discard, (prometheus_preserve false (RAdd p)). Qed.
Lemma world_ok_model_upd_prom p : preserves world_ok (on_model (upd_prometheus_srv p)).
Proof. apply world_ok_on_model, (prometheus_preserve false (RUpd p)). Qed.
Lemma world_ok_model_del_prom n f : preserves world_ok (on_model (del_prometheus_srv n f)).
Proof. apply world_ok_on_model, (prometheus_preserve f (RDel n)). Qed.

Hint Resolve world_ok_model_del_vim world_ok_model_del_network world_ok_model_add_pdu
  world_ok_model_upd_pdu world_ok_model_del_pdu world_ok_model_add_k8s world_ok_model_upd_k8s
  world_ok_model_del_k8s world_ok_model_add_prom world_ok_model_upd_prom
  world_ok_model_del_prom : preserve.

Lemma world_ok_add_vim v tf : vim_valid v → preserves world_ok (add_vim v tf).
Proof.
  intros Hv. unfold add_vim.
  pose proof (world_ok_vims (RAdd v) Hv). world_steps.
Qed.

Lemma world_ok_del_vim n tf : preserves world_ok (del_vim n tf).
Proof.
  unfold del_vim. world_steps.
Qed.

Lemma world_ok_update_vim u tf : preserves world_ok (update_vim u tf).
Proof.
  unfold update_vim. apply world_ok_locked, preserves_bind.
  - apply preserves_catch; [world_steps|]. intros e k. destruct (is_value_error e); [|done].
    intros [= <-]. apply preserves_ret.
  - intros ?. world_steps.
Qed.

Lemma world_ok_add_network n vims tf : network_ok n → preserves world_ok (add_network n vims tf).
Proof.
  intros Hn. unfold add_network, add_network_model.
  pose proof (world_ok_networks (RAdd n) Hn). world_steps.
Qed.

Lemma world_ok_area_names l : preserves world_ok (vim_names_of_areas l).
Proof. induction l as [|a l IH]; simpl; [apply preserves_ret|]. world_steps. Qed.

Lemma world_ok_add_network_by_area n l tf :
  network_ok n → preserves world_ok (add_network_by_area n l tf).
Proof.
  intros Hn. unfold add_network_by_area. destruct l as [l|]; [|apply preserves_raise].
  apply preserves_bind; [apply world_ok_area_names|intros ?; by apply world_ok_add_network].
Qed.

Lemma world_ok_del_network n vims tf : preserves world_ok (del_network n vims tf).
Proof.
  unfold del_network. world_steps.
Qed.

Lemma world_ok_del_network_by_name n tf : preserves world_ok (del_network_by_name n tf).
Proof.
  unfold del_network_by_name. world_steps.
Qed.

Lemma world_ok_add_router r : preserves world_ok (add_router r).
Proof.
  unfold add_router. world_steps. apply world_ok_on_model, add_router_topology_preserves.
Qed.

Lemma vim_get_router_ok r : preserves vim_ok (VimModels.get_router r).
Proof. intros v Hv. exact Hv. Qed.
Lemma vim_get_router_name r v : vim_name (VimModels.get_router r v).2 = vim_name v.
Proof. done. Qed.
Lemma vim_get_net_ok r : preserves vim_ok (VimModels.get_net r).
Proof. intros v Hv. exact Hv. Qed.
Lemma vim_get_net_name r v : vim_name (VimModels.get_net r v).2 = vim_name v.
Proof. done. Qed.
Hint Resolve vim_get_router_ok vim_get_router_name vim_get_net_ok vim_get_net_name : preserve.

Lemma world_ok_del_router n vims : preserves world_ok (del_router n vims).
Proof.
  unfold del_router.
  pose proof (world_ok_on_model _ (del_router_topology_preserves n)). world_steps.
Qed.

Lemma world_ok_release_in l o r : preserves world_ok (release_in l o r).
Proof.
  induction l as [|i l IH]; simpl; [apply preserves_ret|].
  apply preserves_bind; [apply world_ok_release|]. intros [x|]; [apply preserves_ret|apply IH].
Qed.
Hint Resolve world_ok_release_in : preserve.

Lemma world_ok_release_ranges o r net : preserves world_ok (release_ranges o r net).
Proof. unfold release_ranges. world_steps. Qed.

Lemma world_ok_add_pdu p : preserves world_ok (add_pdu p).
Proof.
  unfold add_pdu. apply world_ok_locked, preserves_catch; [world_steps|].
  intros e k. destruct (is_value_error e); [|done]. intros [= <-]. apply preserves_ret.
Qed.
Lemma world_ok_upd_pdu p : preserves world_ok (upd_pdu p).
Proof. unfold upd_pdu. world_steps. Qed.
Lemma world_ok_del_pdu n : preserves world_ok (del_pdu n).
Proof. unfold del_pdu. world_steps. Qed.

Lemma world_ok_add_k8scluster k : k8s_valid k → preserves world_ok (add_k8scluster k).
Proof. intros Hk. unfold add_k8scluster. world_steps. Qed.
Lemma world_ok_update_k8scluster k : k8s_valid k → preserves world_ok (update_k8scluster k).
Proof. intros Hk. unfold update_k8scluster. world_steps. Qed.
Lemma world_ok_del_k8scluster n : preserves world_ok (del_k8scluster n).
Proof. unfold del_k8scluster. world_steps. Qed.

Lemma world_ok_add_prometheus_server p : preserves world_ok (add_prometheus_server p).
Proof. unfold add_prometheus_server. world_steps. Qed.
Lemma world_ok_update_prometheus_server p : preserves world_ok (update_prometheus_server p).
Proof. unfold update_prometheus_server. world_steps. Qed.
Lemma world_ok_del_prometheus_server n f : preserves world_ok (del_prometheus_server n f).
Proof. unfold del_prometheus_server. world_steps. Qed.

(** Creating and deleting the whole topology. *)
Lemma world_ok_create topo tf : topology_ok topo → preserves world_ok (create topo tf).
Proof.
  intros Ht. unfold create. apply world_ok_locked, preserves_get_bind. intros w Hw.
  destruct (w_model w); [exact Hw|]. revert w Hw.
  change (preserves world_ok
    (modifyS (set_model (Some (set_vims [] topo))) ;;
     for_each (topo_vims topo) (λ vim, add_vim vim tf) ;;
     _save_topology_from_model ;;
     m ← dump_model; trigger_redis_event TOPO_CREATE (DTopology m))).
  apply preserves_bind.
  - apply preserves_modifyS. intros w [_ Hdb]. split; [|exact Hdb].
    intros m [= <-]. apply topology_ok_vims; [done|constructor|constructor].
  - intros _. assert (Hv : Forall vim_valid (topo_vims topo)) by apply Ht.
    apply preserves_bind; [|intros _; world_steps]. intros w Hw.
    induction Hv as [|v l Hv _ IH] in w, Hw |- *; [exact Hw|]. simpl.
    apply (preserves_bind world_ok); [by apply world_ok_add_vim| |done]. intros _ w' Hw'. by apply IH.
Qed.

Lemma world_ok_delete_vims k i tf : preserves world_ok (delete_vims k i tf).
Proof.
  revert i; induction k as [|k IH]; intros i; simpl; [apply preserves_ret|].
  apply preserves_bind; [apply world_ok_dump|]. intros m.
  destruct (topo_vims m !! i) as [v|]; [|apply preserves_ret].
  apply preserves_bind; [apply world_ok_del_vim|]. intros _. apply IH.
Qed.

Lemma world_ok_delete tf : preserves world_ok (delete tf).
Proof.
  unfold delete. apply world_ok_locked. apply preserves_bind; [apply preserves_getS|].
  intros w0. destruct (w_model w0) as [m|]; [|apply preserves_raise].
  apply preserves_bind; [apply world_ok_delete_vims|]. intros _.
  apply preserves_bind.
  { apply preserves_modifyS. intros w [Hm Hdb]. split; [exact Hm|].
    by apply db_ok_nil, delete_topology_docs. }
  intros _. apply preserves_bind; [|intros _; world_steps].
  apply preserves_modifyS. intros w [_ Hdb]. by split.
Qed.

(** *** Reserving a range *)

(** What looking a network up gives, as a value and as a reference. *)
Lemma get_network_run n m :
  (∃ i net, topo_networks m !! i = Some net ∧ net_name net = n ∧
     TopologyModel.get_network n m = (Ok net, m) ∧ network_ref n m = (Ok i, m)) ∨
  ((∀ net, net ∈ topo_networks m → net_name net ≠ n) ∧
   TopologyModel.get_network n m = (Raise ValueError, m) ∧ network_ref n m = (Raise ValueError, m)).
Proof.
  unfold TopologyModel.get_network, network_ref, find_net_index. run_M. rewrite next_index_position.
  destruct (position_cases net_name n (topo_networks m)) as [[-> Hn]|(i & net & -> & Hi & Hk)].
  - right. by split.
  - left. exists i, net. rewrite of_nat_ltb_0, Nat2Z.id. simpl.
    by rewrite (py_getitem_nat _ _ _ Hi).
Qed.

Lemma network_at_run i net m :
  topo_networks m !! i = Some net → on_network i getS m = (Ok net, m).
Proof.
  intros Hi. unfold on_network. rewrite Hi. simpl. rewrite list_insert_id by done. by destruct m.
Qed.

(** A range the allocator chose is safe to record. *)
Lemma allocated_range_safe net len r :
  network_ok net → len_ok len → range_for (cidr net) (reservations net) len = Ok r →
  start r < end_ r ∧ start r < last_usable (cidr net) ∧
  ∀ q, q ∈ reservations net → pools_disjoint r q.
Proof.
  intros [Hd Hok] Hlen Hr. destruct len as [n|]; simpl in Hr.
  - destruct (get_range_in_cidr_Ok (cidr net) (reservations net) n r) as (He & _ & Hl & Hfree).
    + simpl in Hlen. lia.
    + done.
    + intros q Hq. by apply Hok.
    + done.
    + simpl in Hlen. split; [lia|split; [lia|done]].
  - by apply result_bind_Ok_inv in Hr as (? & _ & ?).
Qed.

Lemma world_ok_set_reserved r n o w m i net :
  world_ok w → w_model w = Some m → topo_networks m !! i = Some net →
  network_ref n m = (Ok i, m) →
  start r < end_ r → start r < last_usable (cidr net) →
  (∀ q, q ∈ reservations net → pools_disjoint r q) →
  world_ok (set_reserved_ip_range r n o w).2.
Proof.
  intros Hw Hm Hi Href Hr Hlast Hfree. unfold set_reserved_ip_range.
  assert (H1 : on_model (network_ref n) w = (Ok i, w)).
  { unfold on_model. rewrite Hm, Href. unfold set_model. rewrite <-Hm. by destruct w. }
  assert (H2 : on_model (on_network i getS) w = (Ok net, w)).
  { unfold on_model. rewrite Hm, (network_at_run _ _ _ Hi). unfold set_model.
    rewrite <-Hm. by destruct w. }
  rewrite (bind_Ok _ _ _ _ _ H1), (bind_Ok _ _ _ _ _ H2).
  destruct (external net); [exact Hw|].
  assert (Hstep : preserves world_ok (_save_topology_from_model ;;
    trigger_redis_event TOPO_CREATE_RANGE_RES (DRange {| range_pool := r; owner := o |}) ;;
    mret {| range_pool := r; owner := o |})) by world_steps.
  set (r' := {| range_pool := r; owner := o |}) in *.
  pose proof (proj1 Hw m Hm) as Hm'.
  assert (Hnet : network_ok net).
  { destruct Hm' as (_ & Hall & _). by eapply Forall_lookup_1. }
  unfold on_model, mbind, M_bind. rewrite Hm. unfold on_network. rewrite Hi.
  rewrite (add_reserved_range_fresh net r') by (done || simpl; lia). apply Hstep.
  split; [|apply Hw]. intros ? [= <-]. apply topology_ok_networks; [done| |].
  - eapply keys_unique_insert; [apply Hm'|done|done].
  - apply Forall_insert_list; [apply Hm'|]. apply network_ok_app; try done. simpl. lia.
Qed.

Lemma get_network_model_run n v w :
  world_ok w →
  (get_network_model n v w).2 = w ∧
  ∀ net, (get_network_model n v w).1 = Ok net →
    ∃ m i, w_model w = Some m ∧ topo_networks m !! i = Some net ∧ net_name net = n ∧
           network_ref n m = (Ok i, m).
Proof.
  intros Hw. unfold get_network_model.
  destruct (w_model w) as [m|] eqn:Hm.
  2:{ unfold mbind, M_bind, on_model. rewrite Hm. by split. }
  assert (Hset : set_model (Some m) w = w) by (unfold set_model; rewrite <-Hm; by destruct w).
  assert (Hvim : ∀ v0, (on_model (vim_ref v0) w).2 = w).
  { intros v0. unfold on_model. rewrite Hm. pose proof (vim_ref_reads v0 m) as Hr.
    destruct (vim_ref v0 m). simpl in *. by subst. }
  assert (Hget : ∀ i, (on_model (on_vim i (VimModels.get_net n)) w).2 = w).
  { intros i. unfold on_model, on_vim. rewrite Hm. destruct (topo_vims m !! i) eqn:Hi; [|done].
    simpl. rewrite list_insert_id by done. by destruct m. }
  destruct (get_network_run n m) as [(i & net & Hi & Hk & Hg & Href)|(_ & Hg & _)].
  - assert (H1 : on_model (TopologyModel.get_network n) w = (Ok net, w))
      by (unfold on_model; by rewrite Hm, Hg, Hset).
    rewrite (bind_Ok _ _ _ _ _ H1).
    assert (H2 : ∀ (k : M (World C) unit), (k w).2 = w →
      ((k ;; mret net) w).2 = w ∧ ∀ x, ((k ;; mret net) w).1 = Ok x → x = net).
    { intros k Hk2. unfold mbind, M_bind. destruct (k w) as [[u|e] w'] eqn:E; simpl in *; subst.
      - split; [done|]. intros x Hx. simpl in Hx. congruence.
      - by split. }
    match goal with |- context [(?k ;; mret net) w] => destruct (H2 k) as [Ha Hb] end.
    { destruct v as [v0|]; [|done]. destruct (str_true _); [|done].
      unfold mbind, M_bind. specialize (Hvim v0).
      destruct (on_model (vim_ref v0) w) as [[j|e] w']; simpl in *; subst; [|done].
      specialize (Hget j). destruct (on_model (on_vim j _) w) as [[?|?] w']; by simpl in *. }
    split; [exact Ha|]. intros x Hx. apply Hb in Hx as ->. by exists m, i.
  - unfold mbind, M_bind, on_model. rewrite Hm, Hg. rewrite Hset. by split.
Qed.

Lemma world_ok_reserve_range n len o v : len_ok len → preserves world_ok (reserve_range n len o v).
Proof.
  intros Hlen. unfold reserve_range. apply world_ok_locked. intros w Hw.
  destruct (get_network_model_run n v w Hw) as [Hst Hnet]. unfold get_network.
  destruct (get_network_model n v w) as [[net|e] w'] eqn:E; simpl in Hst, Hnet; subst w'.
  2:{ by rewrite (bind_Raise _ _ _ _ _ E). }
  rewrite (bind_Ok _ _ _ _ _ E).
  destruct (Hnet net eq_refl) as (m & i & Hm & Hi & Hk & Href).
  assert (Hnok : network_ok net).
  { destruct (proj1 Hw m Hm) as (_ & Hall & _). by eapply Forall_lookup_1. }
  change (allocation_pool net ++ (range_pool <$> reserved_ranges net)) with (reservations net).
  destruct (range_for _ _ _) as [r|e] eqn:Hr; [|exact Hw].
  destruct (allocated_range_safe net len r Hnok Hlen Hr) as (H1 & H2 & H3).
  by eapply world_ok_set_reserved.
Qed.

(** Every command keeps the invariant, whether it returns or raises. *)
Lemma exec_preserves cmd : command_ok cmd → preserves world_ok (exec cmd).
Proof.
  assert (Hd : ∀ A (op : M (World C) A), preserves world_ok op → preserves world_ok (op ;; mret tt)).
  { intros A op Hop. apply preserves_bind; [done|]. intros _. apply preserves_ret. }
  destruct cmd; simpl; intros Hok.
  - by apply world_ok_create.
  - apply world_ok_delete.
  - by apply world_ok_add_vim.
  - apply world_ok_del_vim.
  - apply world_ok_update_vim.
  - by apply world_ok_add_network.
  - by apply world_ok_add_network_by_area.
  - apply world_ok_del_network.
  - apply world_ok_del_network_by_name.
  - apply world_ok_add_router.
  - apply world_ok_del_router.
  - by apply Hd, world_ok_reserve_range.
  - by apply Hd, world_ok_reserve_range.
  - apply Hd, world_ok_release_ranges.
  - apply world_ok_add_pdu.
  - apply world_ok_upd_pdu.
  - apply world_ok_del_pdu.
  - by apply world_ok_add_k8scluster.
  - apply world_ok_del_k8scluster.
  - by apply world_ok_update_k8scluster.
  - apply world_ok_add_prometheus_server.
  - apply Hd, world_ok_del_prometheus_server.
  - apply world_ok_update_prometheus_server.
Qed.

(** ** The lock *)
Lemma lock_locked {A} (op : M (World C) A) n :
  (∀ k, preserves (λ w, w_lock w = k) op) →
  preserves (λ w, w_lock w = n) (obj_multiprocess_lock op).
Proof.
  intros Hop w Hw. unfold obj_multiprocess_lock. cbv beta in Hw.
  specialize (Hop (S (w_lock w)) (set_lock (S (w_lock w)) w) eq_refl). cbv beta in Hop.
  destruct (op _) as [r w']. simpl in *. by rewrite Hop, <-Hw.
Qed.

Lemma lock_on_model {A} (op : M TopologyModel A) n : preserves (λ w, w_lock w = n) (on_model op).
Proof. intros w Hw. unfold on_model. destruct (w_model w); [|done]. by destruct (op _). Qed.

Lemma lock_trigger t d n : preserves (λ w, w_lock w = n) (trigger_redis_event t d).
Proof. intros w Hw. unfold trigger_redis_event. by destruct (redis_publish _ _). Qed.

Lemma lock_catch {A} (m : M (World C) A) k n :
  preserves (λ w, w_lock w = n) m → preserves (λ w, w_lock w = n) k →
  preserves (λ w, w_lock w = n) (catch m (λ e, if is_value_error e then Some k else None)).
Proof.
  intros Hm Hk. apply preserves_catch; [done|]. intros e k'.
  destruct (is_value_error e); [|done]. by intros [= <-].
Qed.

Hint Resolve lock_on_model lock_trigger : preserve.

(** Follow the lock through an operation. *)
Ltac lock_steps :=
  repeat match goal with
  | |- preserves _ (obj_multiprocess_lock _) => apply lock_locked; intros ?
  | |- preserves _ (catch _ _) => apply lock_catch
  | |- preserves _ (mret _) => apply preserves_ret
  | |- preserves _ (raise _) => apply preserves_raise
  | |- preserves _ (os_terraformer _) => apply preserves_raise
  | |- preserves _ (liftR _) => apply preserves_liftR
  | |- preserves _ getS => apply preserves_getS
  | |- preserves _ (modifyS _) => apply preserves_modifyS; intros ? ?; done
  | |- preserves _ (_ ≫= _) => apply preserves_bind; [|intros ?]
  | |- preserves _ (for_each _ _) => apply preserves_for_each; intros ?
  | |- preserves _ (if ?b then _ else _) => destruct b eqn:?
  | |- preserves _ (match ?x with _ => _ end) => destruct x eqn:?
  | |- preserves _ _ => solve [eauto with preserve]
  end.

Lemma lock_save n : preserves (λ w, w_lock w = n) _save_topology_from_model.
Proof. unfold _save_topology_from_model, dump_model. lock_steps. Qed.
Lemma lock_dump n : preserves (λ w, w_lock w = n) dump_model.
Proof. apply lock_on_model. Qed.
Hint Resolve lock_save lock_dump : preserve.

Lemma lock_floating nets b n : preserves (λ w, w_lock w = n) (floating_ips nets b).
Proof.
  revert b; induction nets as [|x nets IH]; intros b; simpl; [apply preserves_ret|].
  apply preserves_bind; [|intros ?; apply IH].
  unfold check_floating_ips, get_routers_in_net. lock_steps.
Qed.
Lemma lock_add_vim_net x i tf n : preserves (λ w, w_lock w = n) (_add_vim_net x i tf).
Proof. unfold _add_vim_net. lock_steps. Qed.
Lemma lock_del_vim_net x i tf n : preserves (λ w, w_lock w = n) (_del_vim_net x i tf).
Proof. unfold _del_vim_net. lock_steps. Qed.
Lemma lock_del_vim_router x i tf n : preserves (λ w, w_lock w = n) (del_vim_router x i tf).
Proof. unfold del_vim_router. lock_steps. Qed.
Lemma lock_add_vim_router x i tf n : preserves (λ w, w_lock w = n) (add_vim_router x i tf).
Proof. unfold add_vim_router. lock_steps. Qed.
Hint Resolve lock_floating lock_add_vim_net lock_del_vim_net lock_del_vim_router
  lock_add_vim_router : preserve.
Lemma lock_add_vim v tf n : preserves (λ w, w_lock w = n) (add_vim v tf).
Proof. unfold add_vim. lock_steps. Qed.
Lemma lock_del_vim x tf n : preserves (λ w, w_lock w = n) (del_vim x tf).
Proof. unfold del_vim. lock_steps. Qed.
Hint Resolve lock_add_vim lock_del_vim : preserve.
Lemma lock_delete_vims k i tf n : preserves (λ w, w_lock w = n) (delete_vims k i tf).
Proof. revert i; induction k as [|k IH]; intros i; simpl; lock_steps. Qed.
Lemma lock_release_in l o r n : preserves (λ w, w_lock w = n) (release_in l o r).
Proof. induction l as [|i l IH]; simpl; lock_steps. Qed.
Lemma lock_area_names l n : preserves (λ w, w_lock w = n) (vim_names_of_areas l).
Proof.
  induction l as [|a l IH]; simpl; [apply preserves_ret|].
  unfold get_vim_name_from_area_id, get_vim_from_area_id_model. lock_steps.
Qed.
Hint Resolve lock_delete_vims lock_release_in lock_area_names : preserve.


(** ** Persistence *)

(** The model, its dump and the database agree. *)
Definition saved w : Prop :=
  ∃ m, w_model w = Some m ∧ w_data w = Some m ∧ docs (w_db w) = [m].

(** A topology that has been saved, or none at all. *)
Definition consistent w : Prop := saved w ∨ (w_model w = None ∧ docs (w_db w) = []).

Definition establishes {A} (op : M (World C) A) : Prop :=
  ∀ w a w', world_ok w → op w = (Ok a, w') → saved w'.
Definition keeps_saved {A} (op : M (World C) A) : Prop := preserves saved op.

Lemma establishes_save {A} (k : M (World C) A) :
  keeps_saved k → establishes (_save_topology_from_model ;; k).
Proof.
  intros Hk w a w' Hw. unfold _save_topology_from_model, dump_model, on_model.
  run_M. destruct (w_model w) as [m|] eqn:Hm; [|done]. simpl. intros Hrun.
  specialize (Hk (set_db (save_topology m (w_db w)) (set_data (Some m) (set_model (Some m) w)))).
  simpl in Hk, Hrun. rewrite Hrun in Hk. apply Hk. exists m. simpl.
  split_and!; [done..|]. apply save_docs; [apply Hw|exact (proj1 Hw m Hm)].
Qed.

Lemma establishes_bind {A B} (m : M (World C) A) (f : A → M (World C) B) :
  preserves world_ok m → (∀ a, establishes (f a)) → establishes (m ≫= f).
Proof.
  intros Hm Hf w b w' Hw (a & w1 & H1 & H2)%bind_Ok_inv.
  apply (Hf a w1 b w'); [|done]. specialize (Hm w Hw). by rewrite H1 in Hm.
Qed.

Lemma establishes_locked {A} (op : M (World C) A) :
  establishes op → establishes (obj_multiprocess_lock op).
Proof.
  intros Hop w a w' Hw. unfold obj_multiprocess_lock. destruct (op _) as [r w1] eqn:E.
  intros [= -> <-]. destruct (Hop _ _ _ (Hw : world_ok (set_lock _ w)) E) as (m & ? & ? & ?).
  by exists m.
Qed.

Lemma keeps_trigger t d : keeps_saved (trigger_redis_event t d).
Proof. intros w Hw. unfold trigger_redis_event. by destruct (redis_publish _ _). Qed.

Lemma keeps_reads {A} (op : M TopologyModel A) : reads op → keeps_saved (on_model op).
Proof.
  intros Hr w (m & Hm & Hd & Hdb). unfold on_model. rewrite Hm. specialize (Hr m).
  destruct (op m) as [r m']. simpl in *. subst. by exists m.
Qed.

Lemma keeps_dump : keeps_saved dump_model.
Proof. apply keeps_reads. by intros m. Qed.

Lemma keeps_vim_at i : keeps_saved (on_model (vim_at i)).
Proof. apply keeps_reads, vim_at_reads. Qed.

Lemma keeps_locked {A} (op : M (World C) A) : keeps_saved op → keeps_saved (obj_multiprocess_lock op).
Proof.
  intros Hop w (m & Hm & Hd & Hdb). unfold obj_multiprocess_lock.
  specialize (Hop (set_lock (S (w_lock w)) w)). destruct (op _) as [r w']. simpl in *.
  destruct Hop as (m' & ? & ? & ?); [by exists m|]. by exists m'.
Qed.

Hint Resolve keeps_trigger keeps_dump keeps_vim_at keeps_locked : preserve.

Lemma keeps_floating nets b : keeps_saved (floating_ips nets b).
Proof.
  unfold keeps_saved. revert b; induction nets as [|n nets IH]; intros b; simpl; [apply preserves_ret|].
  apply preserves_bind; [|intros ?; apply IH].
  unfold check_floating_ips, get_routers_in_net.
  destruct b; [apply preserves_ret|]. apply preserves_bind; [|intros ?; apply preserves_ret].
  apply preserves_bind; [apply keeps_dump|intros ?; apply preserves_ret].
Qed.
Hint Resolve keeps_floating : preserve.

Ltac keeps_steps :=
  unfold keeps_saved;
  repeat match goal with
  | |- preserves _ (mret _) => apply preserves_ret
  | |- preserves _ (_ ≫= _) => apply preserves_bind; [|intros ?]
  | |- preserves _ (trigger_redis_event _ _) => apply keeps_trigger
  | |- preserves _ dump_model => apply keeps_dump
  | |- preserves _ (on_model (vim_at _)) => apply keeps_vim_at
  | |- preserves _ (floating_ips _ _) => apply keeps_floating
  end.

(** Everything before the last save keeps [world_ok], everything after it keeps [saved]. *)
Ltac establish_steps :=
  repeat match goal with
  | |- establishes (obj_multiprocess_lock _) => apply establishes_locked
  | |- establishes (_save_topology_from_model ≫= _) => apply establishes_save; keeps_steps
  | |- establishes (_ ≫= _) => apply establishes_bind; [solve [world_steps]|intros ?]
  | |- establishes (let _ := _ in _) => cbv zeta
  end.

Lemma establishes_save_last : establishes _save_topology_from_model.
Proof.
  intros w [] w' Hw Hrun.
  apply (establishes_save (A := unit) (mret tt) ltac:(keeps_steps) w tt w' Hw).
  unfold mbind, M_bind. by rewrite Hrun.
Qed.

Lemma establishes_discard {A B} (op : M (World C) A) (b : B) :
  establishes op → establishes (op ;; mret b).
Proof.
  intros Hop w x w' Hw (a & w1 & H1 & H2)%bind_Ok_inv. injection H2 as _ <-. by eapply Hop.
Qed.

Lemma saved_consistent w : saved w → consistent w.
Proof. by left. Qed.

(** Operations that may return without saving have left the topology as it was. *)
Lemma release_range_None o r n n' : release_range o r n = (Ok None, n') → n' = n.
Proof.
  unfold release_range. run_M. generalize 0%nat. generalize (reserved_ranges n) at 1.
  intros l. induction l as [|x l IH]; intros k; simpl; [by intros [= ->]|].
  destruct r as [q|].
  - destruct (negb _); [done|]. destruct (IPv4ReservedRange_eq x q); [done|apply IH].
  - destruct (String.eqb _ _); [done|apply IH].
Qed.

Lemma release_on_None i o r w w' :
  on_model (on_network i (release_range o r)) w = (Ok None, w') → w' = w.
Proof.
  unfold on_model, on_network. destruct (w_model w) as [m|] eqn:Hm; [|done].
  destruct (topo_networks m !! i) as [n|] eqn:Hi; [|done].
  destruct (release_range o r n) as [x n'] eqn:E. intros [= -> <-].
  apply release_range_None in E as ->. rewrite list_insert_id by done.
  unfold set_model. destruct m, w. simpl in *. by subst.
Qed.

Lemma release_in_None l o r w w' : release_in l o r w = (Ok None, w') → w' = w.
Proof.
  revert w; induction l as [|i l IH]; intros w; simpl; [by intros [= ->]|].
  intros (x & w1 & H1 & H2)%bind_Ok_inv. destruct x as [x|]; [done|].
  apply release_on_None in H1 as ->. by apply IH.
Qed.

Lemma on_model_reads_state {A} (op : M TopologyModel A) w : reads op → (on_model op w).2 = w.
Proof.
  intros Hr. unfold on_model. destruct (w_model w) as [m|] eqn:Hm; [|done]. specialize (Hr m).
  destruct (op m) as [x m']. simpl in *. subst. unfold set_model. rewrite <-Hm. by destruct w.
Qed.

Lemma set_lock_id w : set_lock (w_lock w) w = w.
Proof. by destruct w. Qed.

Lemma consistent_lock n w : consistent (set_lock n w) ↔ consistent w.
Proof. done. Qed.

Lemma release_ranges_persists o r net w a w' :
  world_ok w → consistent w → release_ranges o r net w = (Ok a, w') → consistent w'.
Proof.
  intros Hw Hc. unfold release_ranges, obj_multiprocess_lock.
  match goal with |- (match ?m with _ => _ end) = _ → _ => destruct m as [x w1] eqn:E end.
  intros [= -> <-]. rewrite consistent_lock.
  rewrite <-(consistent_lock (S (w_lock w))) in Hc.
  change (world_ok (set_lock (S (w_lock w)) w)) in Hw.
  revert Hw Hc E. generalize (set_lock (S (w_lock w)) w). clear w. intros w Hw Hc E.
  apply bind_Ok_inv in E as (x & w2 & H1 & H2). destruct x as [x|].
  - assert (Hw2 : world_ok w2).
    { assert (Hp : preserves world_ok (match net with
        | None => m ← dump_model; release_in (seq 0 (length (topo_networks m))) o r
        | Some n => network ← on_model (network_ref n); on_model (on_network network (release_range o r))
        end)) by world_steps.
      specialize (Hp w Hw). by rewrite H1 in Hp. }
    apply saved_consistent. eapply (establishes_save _ _ w2 _ _ Hw2 H2).
    Unshelve. keeps_steps.
  - injection H2 as _ <-. enough (w2 = w) as -> by done. destruct net as [n|].
    + apply bind_Ok_inv in H1 as (i & w3 & Ha & Hb). apply release_on_None in Hb as ->.
      pose proof (on_model_reads_state (network_ref n) w (network_ref_reads n)) as Hs.
      by rewrite Ha in Hs.
    + apply bind_Ok_inv in H1 as (m & w3 & Ha & Hb). apply release_in_None in Hb as ->.
      pose proof (on_model_reads_state getS w (λ m, eq_refl)) as Hs.
      unfold dump_model in Ha. by rewrite Ha in Hs.
Qed.

Lemma update_vim_persists u tf w a w' :
  world_ok w → consistent w → update_vim u tf w = (Ok a, w') → consistent w'.
Proof.
  intros Hw Hc. unfold update_vim, obj_multiprocess_lock.
  match goal with |- (match ?m with _ => _ end) = _ → _ => destruct m as [x w1] eqn:E end.
  intros [= -> <-]. rewrite consistent_lock.
  rewrite <-(consistent_lock (S (w_lock w))) in Hc.
  change (world_ok (set_lock (S (w_lock w)) w)) in Hw.
  revert Hw Hc E. generalize (set_lock (S (w_lock w)) w). clear w. intros w Hw Hc E.
  apply bind_Ok_inv in E as (x & w2 & H1 & H2).
  assert (Hs : w2 = w).
  { unfold catch in H1. unfold mbind, M_bind in H1.
    pose proof (on_model_reads_state (vim_ref (upd_name u)) w (vim_ref_reads _)) as Hr.
    destruct (on_model (vim_ref (upd_name u)) w) as [[i|e] w3]; simpl in *; subst.
    - by injection H1 as _ <-.
    - destruct (is_value_error e); [by injection H1 as _ <-|done]. }
  subst w2. destruct x as [i|].
  - apply saved_consistent. revert Hw H2. generalize w, a, w1. clear.
    match goal with |- ∀ w a w', _ → ?op w = _ → _ => change (establishes op) end.
    establish_steps.
  - by injection H2 as _ <-.
Qed.

Lemma add_pdu_persists p w a w' :
  world_ok w → consistent w → add_pdu p w = (Ok a, w') → consistent w'.
Proof.
  intros Hw Hc. unfold add_pdu, obj_multiprocess_lock, catch.
  match goal with |- (match ?m with _ => _ end) = _ → _ => destruct m as [x w1] eqn:E end.
  intros [= -> <-]. rewrite consistent_lock.
  rewrite <-(consistent_lock (S (w_lock w))) in Hc.
  change (world_ok (set_lock (S (w_lock w)) w)) in Hw.
  revert Hw Hc E. generalize (set_lock (S (w_lock w)) w). clear w. intros w Hw Hc E.
  destruct (on_model (TopologyModel.add_pdu p) w) as [[p'|e] w2] eqn:H1.
  - assert (Hw2 : world_ok w2).
    { pose proof (world_ok_model_add_pdu p w Hw) as Hp. by rewrite H1 in Hp. }
    rewrite (bind_Ok _ _ _ _ _ H1) in E.
    assert (Hm : w_model w2 ≠ None).
    { unfold on_model in H1. destruct (w_model w) as [m|]; [|done].
      destruct (TopologyModel.add_pdu p m). by injection H1 as _ <-. }
    destruct (_save_topology_from_model w2) as [[u|e] w3] eqn:H2.
    + assert (Hs : saved w3) by (eapply (establishes_save_last w2); [exact Hw2|exact H2]).
      rewrite (bind_Ok _ _ _ _ _ H2) in E. apply saved_consistent.
      pose proof (keeps_trigger TOPO_CREATE_PDU (DPdu p) w3 Hs) as Hk.
      destruct (trigger_redis_event _ _ w3) as [[?|e] w4]; simpl in Hk.
      * by injection E as _ <-.
      * destruct (is_value_error e); by injection E as ? <-.
    + exfalso. revert H2. unfold _save_topology_from_model, dump_model, on_model.
      run_M. by destruct (w_model w2).
  - rewrite (bind_Raise _ _ _ _ _ H1) in E.
    assert (w2 = w) as ->.
    { unfold on_model in H1. destruct (w_model w) as [m|] eqn:Hm; [|congruence].
      unfold TopologyModel.add_pdu in H1. run_M. destruct (py_in _ _ _); [|done].
      injection H1 as _ <-. unfold set_model. rewrite <-Hm. by destruct w. }
    destruct (is_value_error e); by injection E as ? <-.
Qed.

Lemma establishes_add_network n vims tf :
  network_ok n → establishes (add_network n vims tf).
Proof.
  intros Hn. unfold add_network, add_network_model. apply establishes_discard.
  pose proof (world_ok_networks (RAdd n) Hn). establish_steps.
Qed.

Lemma establishes_reserve n len o v : len_ok len → establishes (reserve_range n len o v).
Proof.
  intros Hlen w a w' Hw Hrun. pose proof (world_ok_reserve_range n len o v Hlen) as Hp.
  revert Hrun. unfold reserve_range, obj_multiprocess_lock.
  match goal with |- (match ?m with _ => _ end) = _ → _ => destruct m as [x w1] eqn:E end.
  intros [= -> <-]. change (world_ok (set_lock (S (w_lock w)) w)) in Hw.
  apply bind_Ok_inv in E as (net & w2 & H1 & E).
  destruct (get_network_model_run n v _ Hw) as [Hst Hnet].
  unfold get_network in H1. rewrite H1 in Hst, Hnet. simpl in Hst, Hnet. subst w2.
  destruct (Hnet net eq_refl) as (m & i & Hm & Hi & Hk & Href).
  assert (Hnok : network_ok net).
  { destruct (proj1 Hw m Hm) as (_ & Hall & _). by eapply Forall_lookup_1. }
  change (allocation_pool net ++ (range_pool <$> reserved_ranges net)) with (reservations net) in E.
  destruct (range_for _ _ _) as [r|e] eqn:Hr; [|done].
  destruct (allocated_range_safe net len r Hnok Hlen Hr) as (Hr1 & Hr2 & Hr3).
  change ((liftR (Ok r) ≫= (λ x, set_reserved_ip_range x n o)) (set_lock (S (w_lock w)) w))
    with (set_reserved_ip_range r n o (set_lock (S (w_lock w)) w)) in E.
  enough (Hs : saved w1) by exact Hs.
  unfold set_reserved_ip_range in E.
  apply bind_Ok_inv in E as (j & w3 & Ha & E).
  pose proof (on_model_reads_state (network_ref n) (set_lock (S (w_lock w)) w) (network_ref_reads n)) as Hs3.
  rewrite Ha in Hs3. simpl in Hs3. subst w3.
  assert (Hji : j = i).
  { unfold on_model in Ha. simpl in Hm. simpl in Ha. rewrite Hm, Href in Ha. by injection Ha as ->. }
  subst j. apply bind_Ok_inv in E as (n0 & w4 & Hb & E).
  assert (w4 = set_lock (S (w_lock w)) w ∧ n0 = net) as [-> ->].
  { unfold on_model in Hb. simpl in Hm, Hb. rewrite Hm in Hb.
    rewrite (network_at_run _ _ _ Hi) in Hb. injection Hb as <- <-. split; [|done].
    unfold set_model. simpl. by rewrite <-Hm. }
  destruct (external net); [done|].
  apply bind_Ok_inv in E as (u & w5 & Hc & E).
  eapply (establishes_save _ _ w5 _ _ _ E). Unshelve.
  - keeps_steps.
  - set (r' := {| range_pool := r; owner := o |}) in *.
    unfold on_model in Hc. simpl in Hm, Hc. rewrite Hm in Hc. unfold on_network in Hc.
    rewrite Hi in Hc. rewrite (add_reserved_range_fresh net r') in Hc by (done || simpl; lia).
    injection Hc as _ <-. split; [|apply Hw].
    pose proof (proj1 Hw m Hm) as Hm'.
    intros ? [= <-]. apply topology_ok_networks; [done| |].
    + eapply keys_unique_insert; [apply Hm'|done|done].
    + apply Forall_insert_list; [apply Hm'|]. apply network_ok_app; try done. simpl. lia.
Qed.

Lemma establishes_create topo tf : topology_ok topo → establishes (create topo tf).
Proof.
  intros Ht w a w' Hw Hrun. revert Hrun. unfold create, obj_multiprocess_lock.
  match goal with |- (match ?m with _ => _ end) = _ → _ => destruct m as [x w1] eqn:E end.
  intros [= -> <-]. change (saved w1).
  change (world_ok (set_lock (S (w_lock w)) w)) in Hw.
  revert Hw E. generalize (set_lock (S (w_lock w)) w). clear w. intros w Hw E.
  apply bind_Ok_inv in E as (w0 & w2 & H1 & E). injection H1 as <- <-.
  destruct (w_model w); [done|]. revert Hw E. generalize w, a, w1. clear w a w1.
  match goal with |- ∀ w a w', _ → ?op w = _ → _ => change (establishes op) end.
  apply establishes_bind.
  { apply preserves_modifyS. intros w [_ Hdb]. split; [|exact Hdb].
    intros m [= <-]. apply topology_ok_vims; [done|constructor|constructor]. }
  intros _. apply establishes_bind; [|intros _; establish_steps].
  assert (Hv : Forall vim_valid (topo_vims topo)) by apply Ht.
  intros w Hw. induction Hv as [|v l Hv _ IH] in w, Hw |- *; [exact Hw|]. simpl.
  apply (preserves_bind world_ok); [by apply world_ok_add_vim| |done]. intros _ w' Hw'. by apply IH.
Qed.

(** [delete] never returns. *)
Lemma delete_raises tf w a w' : delete tf w ≠ (Ok a, w').
Proof.
  unfold delete, obj_multiprocess_lock.
  match goal with |- (match ?m with _ => _ end) ≠ _ => destruct m as [x w1] eqn:E end.
  intros [= -> _]. apply bind_Ok_inv in E as (w0 & w2 & _ & E).
  destruct (w_model w0) as [m|]; [|done].
  apply bind_Ok_inv in E as (? & w3 & _ & E). apply bind_Ok_inv in E as (? & w4 & _ & E).
  apply bind_Ok_inv in E as (? & w5 & H5 & E). injection H5 as _ <-.
  by apply bind_Ok_inv in E as (? & w6 & H6 & E).
Qed.

Lemma exec_persists cmd w w' :
  command_ok cmd → world_ok w → consistent w → exec cmd w = (Ok tt, w') → consistent w'.
Proof.
  intros Hok Hw Hc Hrun.
  assert (He : establishes (exec cmd) → consistent w').
  { intros He. apply saved_consistent. by eapply (He w tt). }
  destruct cmd; simpl in Hok, Hrun, He.
  - by apply He, establishes_create.
  - by apply delete_raises in Hrun.
  - apply He. unfold add_vim. pose proof (world_ok_vims (RAdd v) Hok). establish_steps.
  - apply He. unfold del_vim. establish_steps.
  - by eapply update_vim_persists.
  - by apply He, establishes_add_network.
  - apply He. unfold add_network_by_area. destruct areas as [l|]; [|by intros ? ? ? _].
    apply establishes_bind; [apply world_ok_area_names|intros ?; by apply establishes_add_network].
  - apply He. unfold del_network. establish_steps.
  - apply He. unfold del_network_by_name. establish_steps.
  - apply He. unfold add_router.
    pose proof (world_ok_on_model _ (add_router_topology_preserves r)). establish_steps.
  - apply He. unfold del_router.
    pose proof (world_ok_on_model _ (del_router_topology_preserves name)). establish_steps.
  - by apply He, establishes_discard, establishes_reserve.
  - by apply He, establishes_discard, establishes_reserve.
  - apply bind_Ok_inv in Hrun as (x & w1 & H1 & H2). injection H2 as <-.
    by eapply release_ranges_persists.
  - by eapply add_pdu_persists.
  - apply He. unfold upd_pdu. establish_steps.
  - apply He. unfold del_pdu. apply establishes_locked.
    do 3 (apply establishes_bind; [solve [world_steps]|intros ?]). apply establishes_save_last.
  - apply He. unfold add_k8scluster. establish_steps.
  - apply He. unfold del_k8scluster. establish_steps.
  - apply He. unfold update_k8scluster. establish_steps.
  - apply He. unfold add_prometheus_server. establish_steps.
  - apply He, establishes_discard. unfold del_prometheus_server. establish_steps.
  - apply He. unfold update_prometheus_server. establish_steps.
Qed.

(** ** Atomicity *)

(** The commands that write to the database once, after everything that can fail. *)
Definition saves_once (cmd : command) : bool :=
  match cmd with
  | CCreate _ _ | CDelete _ => false
  | CAddVim _ tf | CDelNetworkByName _ tf => negb tf
  | CUpdateVim u _ => (length (networks_to_del u) =? 0)%nat && (length (routers_to_add u) =? 0)%nat
  | CDelNetwork _ vims _ => (length (default [] vims) =? 0)%nat
  | _ => true
  end.

Definition db_kept {A} (op : M (World C) A) : Prop := ∀ c, preserves (λ w, w_db w = c) op.

(** A failure leaves the database as it was. *)
Definition atomic {A} (op : M (World C) A) : Prop :=
  ∀ w e w', op w = (Raise e, w') → w_db w' = w_db w.

(** On a topology that exists, the operation returns, and the topology still exists. *)
Definition returns {A} (op : M (World C) A) : Prop :=
  ∀ w, w_model w ≠ None → ∃ a w', op w = (Ok a, w') ∧ w_model w' ≠ None.

Lemma db_on_model {A} (op : M TopologyModel A) : db_kept (on_model op).
Proof. intros c w Hw. unfold on_model. destruct (w_model w); [|done]. by destruct (op _). Qed.

Lemma db_kept_atomic {A} (op : M (World C) A) : db_kept op → atomic op.
Proof. intros Hop w e w' Hr. specialize (Hop (w_db w) w eq_refl). by rewrite Hr in Hop. Qed.

Lemma atomic_bind {A B} (m : M (World C) A) (f : A → M (World C) B) :
  db_kept m → (∀ a, atomic (f a)) → atomic (m ≫= f).
Proof.
  intros Hm Hf w e w' Hr. unfold mbind, M_bind in Hr. specialize (Hm (w_db w) w eq_refl).
  destruct (m w) as [[a|e'] w1]; simpl in Hm.
  - rewrite <-Hm. by eapply Hf.
  - by injection Hr as _ <-.
Qed.

Lemma atomic_save {A} (k : M (World C) A) : returns k → atomic (_save_topology_from_model ;; k).
Proof.
  intros Hk w e w'. unfold _save_topology_from_model, dump_model, on_model. run_M.
  destruct (w_model w) as [m|] eqn:Hm; [|by intros [= _ <-]]. simpl. intros Hr.
  edestruct Hk as (a & w1 & H1 & _); [|rewrite H1 in Hr; done]. done.
Qed.

Lemma atomic_locked {A} (op : M (World C) A) : atomic op → atomic (obj_multiprocess_lock op).
Proof.
  intros Hop w e w'. unfold obj_multiprocess_lock. destruct (op _) as [r w1] eqn:E.
  intros [= -> <-]. by apply Hop in E.
Qed.

Lemma db_kept_bind {A B} (m : M (World C) A) (f : A → M (World C) B) :
  db_kept m → (∀ a, db_kept (f a)) → db_kept (m ≫= f).
Proof. intros Hm Hf c. apply preserves_bind; [apply Hm|]. intros a. apply Hf. Qed.

Ltac db_steps :=
  lazymatch goal with |- db_kept _ => intros ? | _ => idtac end;
  unfold dump_model;
  repeat match goal with
  | |- preserves _ (mret _) => apply preserves_ret
  | |- preserves _ (raise _) => apply preserves_raise
  | |- preserves _ (os_terraformer _) => apply preserves_raise
  | |- preserves _ (liftR _) => apply preserves_liftR
  | |- preserves _ getS => apply preserves_getS
  | |- preserves _ (on_model _) => apply db_on_model
  | |- preserves _ (_ ≫= _) => apply preserves_bind; [|intros ?]
  | |- preserves _ (for_each _ _) => apply preserves_for_each; intros ?
  | |- preserves _ (if ?b then _ else _) => destruct b eqn:?
  | |- preserves _ (match ?x with _ => _ end) => destruct x eqn:?
  | |- preserves _ _ => solve [eauto with preserve]
  end.

Lemma db_floating nets b c : preserves (λ w, w_db w = c) (floating_ips nets b).
Proof.
  revert b. induction nets as [|n nets IH]; intros b; simpl; [apply preserves_ret|].
  apply preserves_bind; [|intros ?; apply IH].
  unfold check_floating_ips, get_routers_in_net.
  destruct b; [apply preserves_ret|]. apply preserves_bind; [|intros ?; apply preserves_ret].
  apply preserves_bind; [apply db_on_model|intros ?; apply preserves_ret].
Qed.
Lemma db_add_vim_net n i tf c : preserves (λ w, w_db w = c) (_add_vim_net n i tf).
Proof. unfold _add_vim_net. db_steps. Qed.
Lemma db_del_vim_router n i tf c : preserves (λ w, w_db w = c) (del_vim_router n i tf).
Proof. unfold del_vim_router. db_steps. Qed.
Lemma db_get_network n v c : preserves (λ w, w_db w = c) (get_network n v).
Proof. unfold get_network, get_network_model. db_steps. Qed.
Lemma db_release_in l o r c : preserves (λ w, w_db w = c) (release_in l o r).
Proof.
  induction l as [|i l IH]; simpl; [apply preserves_ret|].
  apply preserves_bind; [apply db_on_model|]. intros [x|]; [apply preserves_ret|apply IH].
Qed.
Lemma db_area_names l c : preserves (λ w, w_db w = c) (vim_names_of_areas l).
Proof.
  induction l as [|a l IH]; simpl; [apply preserves_ret|].
  unfold get_vim_name_from_area_id, get_vim_from_area_id_model.
  repeat (apply preserves_bind; [|intros ?]); try apply preserves_ret; [apply db_on_model|apply IH].
Qed.
Lemma db_catch_ref n c :
  preserves (λ w, w_db w = c) (catch (i ← on_model (vim_ref n); mret (Some i))
                 (λ e, if is_value_error e then Some (mret None) else None)).
Proof.
  apply preserves_catch; [db_steps|]. intros e k. destruct (is_value_error e); [|done].
  intros [= <-]. apply preserves_ret.
Qed.
Hint Resolve db_floating db_add_vim_net db_del_vim_router db_get_network db_release_in
  db_area_names db_catch_ref db_on_model : preserve.

Section redis_up.
Context (redis_up : ∀ l ev, redis_publish l ev = Ok tt).

Lemma returns_trigger t d : returns (trigger_redis_event t d).
Proof. intros w Hw. unfold trigger_redis_event. rewrite redis_up. by eauto. Qed.

Lemma returns_ret {A} (a : A) : returns (mret a).
Proof. intros w Hw. by exists a, w. Qed.

Lemma returns_bind {A B} (m : M (World C) A) (f : A → M (World C) B) :
  returns m → (∀ a, returns (f a)) → returns (m ≫= f).
Proof.
  intros Hm Hf w Hw. destruct (Hm w Hw) as (a & w1 & H1 & Hw1).
  rewrite (bind_Ok _ _ _ _ _ H1). by apply Hf.
Qed.

Lemma returns_dump : returns dump_model.
Proof.
  intros w Hw. unfold dump_model, on_model. destruct (w_model w) as [m|] eqn:Hm; [|done].
  simpl. eexists _, _. split; [done|]. done.
Qed.

Lemma returns_floating nets b : returns (floating_ips nets b).
Proof.
  revert b; induction nets as [|n nets IH]; intros b; simpl; [apply returns_ret|].
  apply returns_bind; [|intros ?; apply IH].
  destruct b; [apply returns_ret|]. unfold check_floating_ips, get_routers_in_net.
  repeat (apply returns_bind; [|intros ?]); try apply returns_ret. apply returns_dump.
Qed.

Ltac return_steps :=
  repeat match goal with
  | |- returns (mret _) => apply returns_ret
  | |- returns (_ ≫= _) => apply returns_bind; [|intros ?]
  | |- returns (trigger_redis_event _ _) => apply returns_trigger
  | |- returns dump_model => apply returns_dump
  | |- returns (floating_ips _ _) => apply returns_floating
  end.

Ltac atomic_steps :=
  repeat match goal with
  | |- atomic (obj_multiprocess_lock _) => apply atomic_locked
  | |- atomic (_save_topology_from_model ≫= _) => apply atomic_save; solve [return_steps]
  | |- atomic (_ ≫= _) => apply atomic_bind; [solve [db_steps]|intros ?]
  | |- atomic (raise _) => apply db_kept_atomic; db_steps
  | |- atomic (mret _) => apply db_kept_atomic; db_steps
  | |- atomic (if ?b then _ else _) => destruct b
  | |- atomic (match ?x with _ => _ end) => destruct x
  end.

Lemma atomic_discard {A B} (op : M (World C) A) (b : B) : atomic op → atomic (op ;; mret b).
Proof.
  intros Hop w e w' Hr. unfold mbind, M_bind in Hr.
  destruct (op w) as [[a|e'] w1] eqn:E; [done|]. injection Hr as -> <-. by eapply Hop.
Qed.

Lemma atomic_reserve n len o v : atomic (reserve_range n len o v).
Proof. unfold reserve_range, set_reserved_ip_range. atomic_steps. Qed.

Lemma atomic_add_network n vims tf : atomic (add_network n vims tf).
Proof. unfold add_network, add_network_model. apply atomic_discard. atomic_steps. Qed.

Lemma for_each_nil {A} (l : list A) (f : A → M (World C) unit) :
  (length l =? 0)%nat = true → for_each l f = mret tt.
Proof. by destruct l. Qed.

(** A position of the list of VIMs stays one while the lists of the VIMs change. *)
Definition valid_vim (i : nat) w : Prop :=
  ∃ m, w_model w = Some m ∧ (i < length (topo_vims m))%nat.

Lemma valid_on_model {A} i (op : M TopologyModel A) :
  (∀ m, length (topo_vims (op m).2) = length (topo_vims m)) → preserves (valid_vim i) (on_model op).
Proof.
  intros Hop w (m & Hm & Hi). unfold on_model. rewrite Hm. specialize (Hop m).
  destruct (op m) as [r m']. simpl in *. exists m'. split; [done|]. lia.
Qed.

Lemma length_on_vim {A} j (op : M VimModel A) m :
  length (topo_vims (on_vim j op m).2) = length (topo_vims m).
Proof.
  unfold on_vim. destruct (topo_vims m !! j); [|done]. destruct (op _). simpl.
  apply length_insert.
Qed.

Lemma valid_on_vim {A} i j (op : M VimModel A) : preserves (valid_vim i) (on_model (on_vim j op)).
Proof. apply valid_on_model. apply length_on_vim. Qed.

Lemma valid_reads {A} i (op : M TopologyModel A) : reads op → preserves (valid_vim i) (on_model op).
Proof. intros Hr. apply valid_on_model. intros m. by rewrite Hr. Qed.

Lemma valid_add_vim_net i n j tf : preserves (valid_vim i) (_add_vim_net n j tf).
Proof.
  unfold _add_vim_net. apply preserves_bind; [apply valid_on_vim|intros _].
  apply preserves_bind; [apply valid_reads, (registry_get_reads (RI := networks_registry))|intros _].
  destruct tf; [|apply preserves_ret].
  apply preserves_bind; [apply valid_on_vim|intros ?; apply preserves_raise].
Qed.

Lemma valid_del_vim_router i n j tf : preserves (valid_vim i) (del_vim_router n j tf).
Proof.
  unfold del_vim_router. apply preserves_bind; [apply valid_on_vim|intros _].
  destruct tf; [|apply preserves_ret].
  apply preserves_bind; [apply valid_on_vim|intros ?; apply preserves_raise].
Qed.

Lemma atomic_update_vim u tf :
  networks_to_del u = [] → routers_to_add u = [] → atomic (update_vim u tf).
Proof.
  intros Hd Ha. unfold update_vim. rewrite Hd, Ha. apply atomic_locked.
  intros w e w' Hr. unfold mbind at 1, M_bind at 1 in Hr.
  assert (Href : ∀ x w1, catch (i ← on_model (vim_ref (upd_name u)); mret (Some i))
      (λ e, if is_value_error e then Some (mret None) else None) w = (x, w1) →
      w1 = w ∧ ∀ i, x = Ok (Some i) → valid_vim i w).
  { intros x w1. unfold catch, mbind, M_bind.
    pose proof (on_model_reads_state (vim_ref (upd_name u)) w (vim_ref_reads _)) as Hs.
    unfold on_model in *. destruct (w_model w) as [m|] eqn:Hm; [|by intros [= <- <-]].
    unfold vim_ref, find_vim_index in *. run_M. rewrite next_index_position in *.
    destruct (position_cases vim_name (upd_name u) (topo_vims m)) as [[Hp _]|(i & v & Hp & Hv & _)];
      rewrite Hp in *; rewrite ?of_nat_ltb_0, ?Nat2Z.id in *; simpl in *.
    - by intros [= <- <-].
    - intros [= <- <-]. split; [done|]. intros i' [= <-]. exists m. split; [done|].
      by eapply lookup_lt_Some. }
  destruct (catch _ _ w) as [[[i|]|e0] w1]; destruct (Href _ _ eq_refl) as [-> Hi]; [|done|].
  2:{ by injection Hr as _ <-. }
  specialize (Hi i eq_refl). cbn [for_each] in Hr.
  assert (Hpre : ∀ (l1 l2 : list string) (l3 l4 : list Z) (k : M (World C) unit),
    (∀ w e w', valid_vim i w → k w = (Raise e, w') → w_db w' = w_db w) →
    (for_each l1 (λ n, _add_vim_net n i tf ;; mret tt) ;;
     for_each l2 (λ n, del_vim_router n i tf ;; mret tt) ;;
     for_each l3 (λ a, on_model (on_vim i (VimModels.add_area a))) ;;
     for_each l4 (λ a, on_model (on_vim i (VimModels.del_area a)) ;; mret tt) ;; k) w = (Raise e, w') →
    w_db w' = w_db w).
  { intros l1 l2 l3 l4 k Hk.
    assert (Hb : ∀ (m : M (World C) unit) (k : M (World C) unit),
      db_kept m → preserves (valid_vim i) m →
      (∀ w e w', valid_vim i w → k w = (Raise e, w') → w_db w' = w_db w) →
      ∀ w e w', valid_vim i w → (m ;; k) w = (Raise e, w') → w_db w' = w_db w).
    { clear. intros m k Hm1 Hm2 Hk w e w' Hw Hr. unfold mbind, M_bind in Hr.
      specialize (Hm1 (w_db w) w eq_refl). specialize (Hm2 w Hw).
      destruct (m w) as [[x|e'] w1]; simpl in *; [|by injection Hr as _ <-].
      rewrite <-Hm1. by eapply Hk. }
    assert (Hv : ∀ {A} (m : M (World C) A), preserves (valid_vim i) m →
      preserves (valid_vim i) (m ;; mret tt)).
    { intros A m Hm. apply preserves_bind; [done|intros _; apply preserves_ret]. }
    eapply (Hb _ _); [db_steps|apply preserves_for_each; intros; apply Hv, valid_add_vim_net| |done].
    apply (Hb _ _); [db_steps|apply preserves_for_each; intros; apply Hv, valid_del_vim_router|].
    apply (Hb _ _); [db_steps|apply preserves_for_each; intros; apply valid_on_vim|].
    apply (Hb _ _); [db_steps|apply preserves_for_each; intros; apply Hv, valid_on_vim|done]. }
  apply (Hpre _ _ _ _ _) in Hr; [done|]. clear -redis_up.
  intros w e w' (m & Hm & Hi) Hr. unfold _save_topology_from_model, dump_model in Hr.
  destruct (lookup_lt_is_Some_2 _ _ Hi) as [v Hv].
  unfold on_model, vim_at, on_vim, trigger_redis_event in Hr. run_M. rewrite Hm in Hr.
  simpl in Hr. rewrite Hv in Hr. simpl in Hr. by rewrite redis_up in Hr.
Qed.

Lemma exec_atomic cmd : saves_once cmd = true → atomic (exec cmd).
Proof.
  destruct cmd; simpl; intros Hc; try done.
  - apply negb_true_iff in Hc as ->. unfold add_vim. atomic_steps.
  - unfold del_vim. atomic_steps.
  - apply andb_true_iff in Hc as [H1%Nat.eqb_eq H2%Nat.eqb_eq].
    by apply atomic_update_vim; apply nil_length_inv.
  - apply atomic_add_network.
  - unfold add_network_by_area. destruct areas as [l|]; [|atomic_steps].
    apply atomic_bind; [intros ?; apply db_area_names|]. intros ?. apply atomic_add_network.
  - unfold del_network. rewrite for_each_nil by done. atomic_steps.
  - apply negb_true_iff in Hc as ->. unfold del_network_by_name. atomic_steps.
  - unfold add_router. atomic_steps.
  - unfold del_router. atomic_steps.
  - apply atomic_discard, atomic_reserve.
  - apply atomic_discard, atomic_reserve.
  - apply atomic_discard. unfold release_ranges. atomic_steps.
  - unfold add_pdu. apply atomic_locked. intros w e w' Hr. unfold catch in Hr.
    match type of Hr with context [match ?m with _ => _ end] => destruct m as [[x|x] w1] eqn:E end; [done|].
    assert (Ha : atomic (on_model (TopologyModel.add_pdu p) ;; _save_topology_from_model ;;
      trigger_redis_event TOPO_CREATE_PDU (DPdu p))) by atomic_steps.
    apply Ha in E. destruct (is_value_error x); [done|]. by injection Hr as _ <-.
  - unfold upd_pdu. atomic_steps.
  - unfold del_pdu. apply atomic_locked. apply atomic_bind; [db_steps|intros _].
    apply atomic_bind; [db_steps|intros ?].
    apply atomic_bind.
    { intros c w Hw. unfold trigger_redis_event. by destruct (redis_publish _ _). }
    intros _ w e w'. unfold _save_topology_from_model, dump_model, on_model. run_M.
    destruct (w_model w); [done|]. by intros [= _ <-].
  - unfold add_k8scluster. atomic_steps.
  - unfold del_k8scluster. atomic_steps.
  - unfold update_k8scluster. atomic_steps.
  - unfold add_prometheus_server. atomic_steps.
  - apply atomic_discard. unfold del_prometheus_server. atomic_steps.
  - unfold update_prometheus_server. atomic_steps.
Qed.
End redis_up.

(** ** Runs of particular operations *)
Lemma on_model_run {A} (op : M TopologyModel A) w m a m' :
  w_model w = Some m → op m = (Ok a, m') → on_model op w = (Ok a, set_model (Some m') w).
Proof. intros Hm Hop. unfold on_model. by rewrite Hm, Hop. Qed.

Lemma set_model_id w m : w_model w = Some m → set_model (Some m) w = w.
Proof. intros Hm. unfold set_model. rewrite <-Hm. by destruct w. Qed.

(** Saving and publishing, on a topology that exists. *)
Lemma save_trigger_run w m t d :
  w_model w = Some m → (∀ l ev, redis_publish l ev = Ok tt) →
  (_save_topology_from_model ;; trigger_redis_event t d) w =
  (Ok tt, {| w_model := Some m; w_data := Some m; w_db := save_topology m (w_db w);
             w_events := w_events w ++ [{| operation := t; data := d |}]; w_lock := w_lock w |}).
Proof.
  intros Hm Hup. unfold _save_topology_from_model, dump_model, on_model, trigger_redis_event.
  run_M. rewrite Hm. simpl. rewrite Hup. reflexivity.
Qed.

Lemma del_vim_run w m v :
  w_model w = Some m → v ∈ topo_vims m → (∀ l ev, redis_publish l ev = Ok tt) →
  ∃ w' (i : nat), del_vim (vim_name v) false w = (Ok tt, w') ∧
    w_model w' = Some (set_vims (base.delete i (topo_vims m)) m) ∧ (i < length (topo_vims m))%nat ∧
    length (w_events w') = S (length (w_events w)).
Proof.
  intros Hm Hv Hup.
  destruct (position_cases vim_name (vim_name v) (topo_vims m)) as [[_ Hn]|(i & v' & Hp & Hi & Hk)].
  { by destruct (Hn v). }
  pose proof (proj2 (ri_get_law (vim_name v) m) i v' Hp Hi) as Hg.
  pose proof (proj2 (ri_del_law (vim_name v') m) i v') as Hd. rewrite Hk in Hd.
  specialize (Hd Hp Hi).
  unfold del_vim, obj_multiprocess_lock.
  assert (He : w_events w = w_events (set_lock (S (w_lock w)) w)) by done.
  change (w_model (set_lock (S (w_lock w)) w) = Some m) in Hm.
  revert Hm He. generalize (set_lock (S (w_lock w)) w). intros w0 Hm ->.
  rewrite (bind_Ok _ _ _ _ _ (on_model_run (TopologyModel.get_vim (vim_name v)) w0 m v' m Hm Hg)).
  rewrite (set_model_id _ _ Hm).
  assert (H0 : (mret tt : M (World C) unit) w0 = (Ok tt, w0)) by done.
  rewrite (bind_Ok _ _ _ _ _ H0), Hk.
  rewrite (bind_Ok _ _ _ _ _ (on_model_run (TopologyModel.del_vim (vim_name v)) w0 m v' _ Hm Hd)).
  eexists _, i. unfold _save_topology_from_model, dump_model, on_model, trigger_redis_event. run_M.
  rewrite Hup. cbn. split; [reflexivity|]. split; [reflexivity|].
  split; [by eapply lookup_lt_Some|]. cbn [w_events set_lock set_events set_db set_data set_model]. rewrite length_app. simpl. lia.
Qed.

Lemma delete_vims_run k i w m :
  w_model w = Some m → (∀ l ev, redis_publish l ev = Ok tt) →
  (length (topo_vims m) ≤ k + i)%nat →
  ∃ w' m', delete_vims k i false w = (Ok tt, w') ∧ w_model w' = Some m' ∧
    length (w_events w') = (length (w_events w) + (length (topo_vims m) - i + 1) / 2)%nat.
Proof.
  revert i w m. induction k as [|k IH]; intros i w m Hm Hup Hlen.
  - exists w, m. simpl. split_and!; [done..|].
    replace (length (topo_vims m) - i + 1)%nat with 1%nat by lia. simpl. lia.
  - cbn [delete_vims]. unfold dump_model.
    rewrite (bind_Ok _ _ _ _ _ (on_model_run getS w m m m Hm eq_refl)).
    rewrite (set_model_id _ _ Hm).
    destruct (topo_vims m !! i) as [v|] eqn:Hv.
    + destruct (del_vim_run w m v Hm) as (w1 & j & H1 & Hm1 & Hj & He1);
        [by eapply list_elem_of_lookup_2|done|].
      rewrite (bind_Ok _ _ _ _ _ H1). apply lookup_lt_Some in Hv.
      destruct (IH (S i) w1 _ Hm1 Hup) as (w2 & m2 & H2 & Hm2 & He2).
      { simpl. rewrite length_delete by by apply lookup_lt_is_Some_2. lia. }
      exists w2, m2. split; [exact H2|]. split; [exact Hm2|].
      rewrite He2, He1. cbn [topo_vims set_vims]. rewrite length_delete by by apply lookup_lt_is_Some_2.
      destruct (decide (S i < length (topo_vims m))%nat).
      * replace (length (topo_vims m) - i + 1)%nat with
          ((length (topo_vims m) - 1 - S i + 1) + 1 * 2)%nat by lia.
        rewrite Nat.div_add by lia. lia.
      * replace (length (topo_vims m) - i + 1)%nat with 2%nat by lia.
        replace (length (topo_vims m) - 1 - S i + 1)%nat with 1%nat by lia.
        change (2 / 2)%nat with 1%nat. change (1 / 2)%nat with 0%nat. lia.
    + exists w, m. apply lookup_ge_None in Hv. split_and!; [done..|].
      replace (length (topo_vims m) - i + 1)%nat with 1%nat by lia. simpl. lia.
Qed.
Lemma reserve_range_run w m (i : nat) net n len o :
  (∀ l ev, redis_publish l ev = Ok tt) →
  world_ok w → w_model w = Some m → topo_networks m !! i = Some net → net_name net = n →
  external net = false → 0 < len → 0 ≤ network_address (cidr net) →
  broadcast_address (cidr net) ≤ max_ipv4 →
  (∀ r, r ∈ reservations net → reservation_ok (cidr net) r) →
  (∃ a, first_usable (cidr net) ≤ a ∧ a + len ≤ last_usable (cidr net) ∧
        ∀ r, r ∈ reservations net → pools_disjoint {| start := a; end_ := a + len |} r) →
  ∃ r w', reserve_range n (Some len) o None w = (Ok r, w') ∧
    get_range_in_cidr (cidr net) (reservations net) len = Ok (range_pool r) ∧ owner r = o ∧
    w_model w' = Some (set_topo_networks
      (<[i := set_reserved_ranges (reserved_ranges net ++ [r]) net]> (topo_networks m)) m) ∧
    w_events w' = w_events w ++ [{| operation := TOPO_CREATE_RANGE_RES; data := DRange r |}].
Proof.
  intros Hup Hw Hm Hi Hn Hext Hlen H0 Hmax Hres (a & Ha & Hb & Hfree).
  pose proof (proj1 Hw m Hm) as Hmok.
  assert (Hnok : network_ok net).
  { destruct Hmok as (_ & Hall & _). by eapply Forall_lookup_1. }
  destruct (get_range_in_cidr_total (cidr net) (reservations net) len a) as [p Hp]; try done.
  { apply Hnok. }
  { intros r Hr. split; [by apply Hres|]. by apply Hnok. }
  destruct (allocated_range_safe net (Some len) p Hnok Hlen Hp) as (Hp1 & Hp2 & Hp3).
  exists {| range_pool := p; owner := o |}.
  destruct (get_network_run n m) as [(i' & net' & Hi' & Hk' & Hg & Href)|(Hno & _)].
  2:{ destruct (Hno net); [|done]. by eapply list_elem_of_lookup_2. }
  assert (i' = i) as ->.
  { eapply (keys_unique_inj net_name); [apply Hmok|exact Hi'|exact Hi|congruence]. }
  assert (net' = net) as -> by congruence.
  unfold reserve_range, obj_multiprocess_lock.
  assert (He : w_events w = w_events (set_lock (S (w_lock w)) w)) by done.
  change (w_model (set_lock (S (w_lock w)) w) = Some m) in Hm.
  revert Hm He. generalize (set_lock (S (w_lock w)) w). intros w0 Hm ->.
  pose proof (on_model_run (TopologyModel.get_network n) w0 m net m Hm Hg) as Hr1.
  pose proof (on_model_run (network_ref n) w0 m i m Hm Href) as Hr2.
  pose proof (on_model_run (on_network i getS) w0 m net m Hm (network_at_run _ _ _ Hi)) as Hr3.
  rewrite (set_model_id _ _ Hm) in Hr1, Hr2, Hr3.
  assert (Hr0 : get_network n None w0 = (Ok net, w0)).
  { unfold get_network, get_network_model. rewrite (bind_Ok _ _ _ _ _ Hr1). reflexivity. }
  rewrite (bind_Ok _ _ _ _ _ Hr0).
  change (allocation_pool net ++ (range_pool <$> reserved_ranges net)) with (reservations net).
  cbn [range_for]. rewrite Hp.
  change ((liftR (Ok p) ≫= (λ x, set_reserved_ip_range x n o)) w0)
    with (set_reserved_ip_range p n o w0).
  unfold set_reserved_ip_range.
  rewrite (bind_Ok _ _ _ _ _ Hr2), (bind_Ok _ _ _ _ _ Hr3), Hext.
  set (r := {| range_pool := p; owner := o |}).
  assert (Hr4 : on_network i (add_reserved_range r) m =
    (Ok tt, set_topo_networks
      (<[i := set_reserved_ranges (reserved_ranges net ++ [r]) net]> (topo_networks m)) m)).
  { unfold on_network. rewrite Hi. by rewrite (add_reserved_range_fresh net r) by (done || simpl; lia). }
  rewrite (bind_Ok _ _ _ _ _ (on_model_run _ w0 m _ _ Hm Hr4)).
  unfold _save_topology_from_model, dump_model, on_model, trigger_redis_event. run_M. rewrite Hup.
  eexists. split; [reflexivity|]. by split_and!.
Qed.
(** ** Reading the topology back *)
Lemma model_validate_ok m : topology_ok m → model_validate m = Ok m.
Proof.
  intros (_ & _ & Hv & _ & Hk). unfold model_validate.
  replace (forallb validate_k8s (topo_kubernetes m)) with true.
  - f_equal. assert (Heq : validate_vim <$> topo_vims m = topo_vims m).
    { induction Hv as [|v l [_ Hn] _ IH]; [done|]. rewrite fmap_cons, IH.
      by rewrite validate_vim_id. }
    rewrite Heq. by destruct m.
  - symmetry. apply forallb_forall. intros k Hin. rewrite Forall_forall in Hk.
    by apply Hk, list_elem_of_In.
Qed.

Definition loaded (o : option TopologyModel) (c : C) : World C :=
  {| w_model := o; w_data := o; w_db := c; w_events := []; w_lock := 0 |}.

Lemma from_db_run c :
  db_ok c → (docs c = [] ∧ from_db c = Ok (loaded None c)) ∨
            (∃ m, docs c = [m] ∧ topology_ok m ∧ from_db c = Ok (loaded (Some m) c)).
Proof.
  intros Hc. unfold from_db, find_one_in_collection.
  destruct (mongo_find_one QAll c) as [d|] eqn:E.
  - right. apply find_one_Some in E as [Hin _].
    destruct (db_ok_cases c Hc) as [Hd|(m & Hd & Hm)]; rewrite Hd in Hin.
    { by apply not_elem_of_nil in Hin. }
    apply list_elem_of_singleton in Hin as ->. exists m. split; [done|split; [done|]].
    rewrite (model_validate_ok m Hm). simpl. by rewrite (model_validate_ok m Hm).
  - left. pose proof (find_one_None QAll c E) as Hn.
    destruct (db_ok_cases c Hc) as [Hd|(m & Hd & _)]; [done|].
    exfalso. apply (Hn m); [rewrite Hd; left|done].
Qed.

Lemma from_db_ok c w :
  db_ok c → from_db c = Ok w → world_ok w ∧ consistent w ∧ w_db w = c.
Proof.
  intros Hc Hw. destruct (from_db_run c Hc) as [[Hd Hf]|(m & Hd & Hm & Hf)];
    rewrite Hf in Hw; injection Hw as <-.
  - split_and!; [|by right|done]. by split.
  - split_and!; [|left; by exists m|done]. split; [by intros ? [= <-]|done].
Qed.
(** The database holds the well-formed topology [m], and an object built from it has [m]. *)
Definition stored m (c : C) : Prop := docs c = [m] ∧ topology_ok m.
Lemma stored_loaded m c : stored m c → from_db c = Ok (loaded (Some m) c).
Proof.
  intros [Hd Hm]. destruct (from_db_run c) as [[Hd' _]|(m' & Hd' & _ & Hf)].
  - by eapply db_ok_singleton.
  - congruence.
  - rewrite Hf. by assert (m' = m) as -> by congruence.
Qed.
End props.

(** ** Properties *)


(** C5: what succeeded is saved.  For an object that is in step with the database when the command
    starts, and a well-formed topology, a command that returns leaves the database, and the
    dictionary the REST interface serves, with exactly the model of the object. *)
Theorem success_is_persisted {C : Type} `{!Mongo TopologyModel C} `{Environment}
  (cmd : command) (w w' : World C) :
  command_ok cmd → world_ok w → consistent w → exec cmd w = (Ok tt, w') → consistent w'.
Proof. apply exec_persists. Qed.

(** C6: what failed is not saved.  As long as the broker accepts events, a command that raises
    leaves the database as it was.  This leaves out the commands that save before they can still
    fail: creating and deleting a topology, and removing networks from VIMs or adding routers to
    them along the way. *)
Theorem failure_leaves_database {C : Type} `{!Mongo TopologyModel C} `{Environment}
  (cmd : command) (w w' : World C) (e : exn) :
  (∀ l ev, redis_publish l ev = Ok tt) → saves_once cmd = true →
  exec cmd w = (Raise e, w') → w_db w' = w_db w.
Proof. intros Hup Hc. by apply exec_atomic. Qed.

(** C2: reserving a range end to end.  On a well-formed topology, with a broker that accepts
    events, let the network named exist, be internal, lie inside the IPv4 addresses and hold every
    pool and range reserved in it.  When, for [len > 0], it has room for [len + 1] consecutive
    addresses away from the VIM's pools and from the ranges already reserved, [reserve_range]
    returns a range of that extent inside the network that meets none of them, records it under
    its owner in the model of that network and nowhere else, saves the topology, publishes one
    event, and leaves a well-formed topology. *)
Theorem reserve_range_correct {C : Type} `{!Mongo TopologyModel C} `{Environment}
  (w : World C) (m : TopologyModel) (i : nat) (net : NetworkModel) (len a : Z) (o : string) :
  (∀ l ev, redis_publish l ev = Ok tt) →
  world_ok w → w_model w = Some m → topo_networks m !! i = Some net →
  external net = false → 0 < len → 0 ≤ network_address (cidr net) →
  broadcast_address (cidr net) ≤ max_ipv4 →
  (∀ r, r ∈ reservations net → reservation_ok (cidr net) r) →
  first_usable (cidr net) ≤ a → a + len ≤ last_usable (cidr net) →
  (∀ r, r ∈ reservations net → pools_disjoint {| start := a; end_ := a + len |} r) →
  ∃ r w', reserve_range (net_name net) (Some len) o None w = (Ok r, w') ∧
    owner r = o ∧ end_ (range_pool r) = start (range_pool r) + len ∧
    network_address (cidr net) < start (range_pool r) ∧
    end_ (range_pool r) < broadcast_address (cidr net) ∧
    (∀ q, q ∈ reservations net → pools_disjoint (range_pool r) q) ∧
    w_model w' = Some (set_topo_networks
      (<[i := set_reserved_ranges (reserved_ranges net ++ [r]) net]> (topo_networks m)) m) ∧
    saved w' ∧ world_ok w' ∧
    w_events w' = w_events w ++ [{| operation := TOPO_CREATE_RANGE_RES; data := DRange r |}].
Proof.
  intros Hup Hw Hm Hi Hext Hlen H0 Hmax Hres Ha Hb Hfree.
  destruct (reserve_range_run w m i net (net_name net) len o Hup Hw Hm Hi eq_refl Hext Hlen H0 Hmax Hres)
    as (r & w' & Hrun & Hr & Ho & Hm' & He); [by exists a|].
  exists r, w'. assert (Hnok : network_ok net).
  { destruct (proj1 Hw m Hm) as (_ & Hall & _). by eapply Forall_lookup_1. }
  destruct (get_range_in_cidr_Ok (cidr net) (reservations net) len (range_pool r)) as (H1 & H2 & H3 & H4);
    [lia|apply Hnok|intros q Hq; by apply Hnok|done|].
  unfold last_usable in H3. split_and!; try done; try lia.
  - eapply establishes_reserve; [exact (Hlen : len_ok (Some len))|exact Hw|exact Hrun].
  - pose proof (world_ok_reserve_range (net_name net) (Some len) o None Hlen w Hw) as Hp.
    by rewrite Hrun in Hp.
Qed.

(** [delete] never succeeds.  The last line dumps [self._model] after setting it to [None]:
    with the broker up, every deletion of an existing topology ends in [AttributeError], after
    having emptied the database; and because the list of VIMs shrinks under the loop, only every
    other VIM is announced as deleted. *)
Theorem delete_never_succeeds {C : Type} `{!Mongo TopologyModel C} `{Environment} (w : World C) (m : TopologyModel) :
  (∀ l ev, redis_publish l ev = Ok tt) → world_ok w → w_model w = Some m →
  ∃ w', delete false w = (Raise AttributeError, w') ∧ w_model w' = None ∧ docs (w_db w') = [] ∧
        length (w_events w') = (length (w_events w) + (length (topo_vims m) + 1) / 2)%nat.
Proof.
  intros Hup Hw Hm. unfold delete, obj_multiprocess_lock.
  set (w0 := set_lock (S (w_lock w)) w).
  assert (Hw0 : world_ok w0) by exact Hw. assert (Hm0 : w_model w0 = Some m) by exact Hm.
  destruct (delete_vims_run (length (topo_vims m)) 0 w0 m Hm0 Hup ltac:(lia)) as (w1 & m1 & H1 & Hm1 & He).
  assert (Hw1 : world_ok w1).
  { pose proof (world_ok_delete_vims (length (topo_vims m)) 0 false w0 Hw0) as Hp. by rewrite H1 in Hp. }
  change (getS w0) with (Ok w0, w0). unfold mbind at 1, M_bind at 1, getS at 1. rewrite Hm0.
  rewrite (bind_Ok _ _ _ _ _ H1). eexists. split; [reflexivity|]. cbn. split; [done|].
  split; [by apply delete_topology_docs, Hw1|]. rewrite He. by rewrite Nat.sub_0_r.
Qed.

(** What a command saved is what the next process reads.  From any well-formed database the
    topology object is rebuilt without an error, and rebuilding it after a command that returned
    gives back the very model the command left in memory. *)
Theorem saved_topology_is_read_back {C : Type} `{!Mongo TopologyModel C} `{Environment}
  (cmd : command) (w w' : World C) :
  command_ok cmd → world_ok w → consistent w → exec cmd w = (Ok tt, w') →
  ∃ w0, from_db (w_db w') = Ok w0 ∧ w_model w0 = w_model w' ∧ w_data w0 = w_model w0 ∧
        world_ok w0 ∧ w_db w0 = w_db w'.
Proof.
  intros Hok Hw Hc Hrun.
  pose proof (exec_persists cmd w w' Hok Hw Hc Hrun) as Hc'.
  pose proof (exec_preserves cmd Hok w Hw) as Hw'. rewrite Hrun in Hw'.
  destruct Hw' as [Hm' Hdb'].
  destruct (from_db_run (w_db w') Hdb') as [[Hd Hf]|(m & Hd & Hm & Hf)]; rewrite Hf.
  - exists (loaded None (w_db w')). destruct Hc' as [(m & _ & _ & Hd')|[Hm0 _]]; [congruence|].
    split_and!; try done.
  - exists (loaded (Some m) (w_db w')). destruct Hc' as [(m' & Hm0 & _ & Hd')|[_ Hd']]; [|congruence].
    assert (m' = m) as -> by congruence. split_and!; try done. by split; [intros ? [= <-]|].
Qed.

(** ** Two runs that lose data *)

(** A broker that accepts everything, for evaluation. *)
#[export] Instance reachable_environment : Environment := {
  redis_publish _ _ := Ok tt;
  upload_sd_file _ := Ok tt
}.

Definition empty_world : World (list TopologyModel) :=
  {| w_model := None; w_data := None; w_db := []; w_events := []; w_lock := 0 |}.

Definition example_world : World (list TopologyModel) :=
  {| w_model := Some example_topology; w_data := Some example_topology; w_db := [example_topology];
     w_events := []; w_lock := 0 |}.

Lemma example_topology_ok : topology_ok example_topology.
Proof.
  split; [split_and!; apply (bool_decide_unpack _); vm_compute; exact I|].
  split; [constructor; [split; [apply FOP_nil|by intros ? ?%not_elem_of_nil]|constructor]|].
  split; [|split; [reflexivity|constructor]]. constructor; [|constructor].
  split; [|reflexivity]. repeat split; apply (bool_decide_unpack _); vm_compute; exact I.
Qed.

Lemma example_world_ok : world_ok example_world ∧ consistent example_world.
Proof.
  pose proof example_topology_ok as Hm. split; [split|].
  - by intros m [= <-].
  - by apply (db_ok_singleton example_topology).
  - left. by exists example_topology.
Qed.

(** Two ways to lose an update.  A failing [del_network] over a list of VIMs has already
    saved the VIM without the network when it finds that the topology has no such network; and a
    topology created with an identifier other than the one the database functions look for is
    inserted anew at every save, so that what is read back is its first version. *)
Theorem lost_updates :
  (∃ cmd w e w', world_ok w ∧ consistent w ∧ command_ok cmd ∧
     exec cmd w = (Raise e, w') ∧ w_db w' ≠ w_db w) ∧
  (∃ topo n w1 w2 w3, topo_id topo ≠ Some "topology" ∧
     create topo false empty_world = (Ok tt, w1) ∧
     add_network n NoNames false w1 = (Ok tt, w2) ∧
     (∃ m, w_model w2 = Some m ∧ topo_networks m = [n]) ∧
     from_db (w_db w2) = Ok w3 ∧ (∃ m, w_model w3 = Some m ∧ topo_networks m = [])).
Proof.
  split.
  - exists (CDelNetwork (build_network_model "data" vlan example_cidr) (Some ["vim1"]) false),
      example_world, ValueError. eexists.
    split; [apply example_world_ok|]. split; [apply example_world_ok|]. split; [exact I|].
    split; [vm_compute; reflexivity|]. vm_compute. discriminate.
  - exists {| topo_id := Some "lab"; topo_callback := None; topo_vims := []; topo_kubernetes := [];
              topo_networks := []; topo_routers := []; topo_pdus := []; topo_prometheus_srv := [] |},
           example_network. do 3 eexists.
    split; [discriminate|]. split; [vm_compute; reflexivity|]. split; [vm_compute; reflexivity|].
    split; [eexists; split; vm_compute; reflexivity|]. split; [vm_compute; reflexivity|].
    eexists. split; vm_compute; reflexivity.
Qed.


Definition example_result : World (list TopologyModel) := (exec (CDelVim "vim1" false) example_world).2.

Lemma success_is_persisted_witness : consistent example_result.
Proof.
  apply (success_is_persisted (CDelVim "vim1" false) example_world example_result);
    [exact I|apply example_world_ok|apply example_world_ok|]. vm_compute. reflexivity.
Defined.

Lemma failure_leaves_database_witness :
  w_db (exec (CDelVim "vim2" false) example_world).2 = w_db example_world.
Proof.
  apply (failure_leaves_database (CDelVim "vim2" false) example_world _ ValueError);
    [reflexivity|reflexivity|]. vm_compute. reflexivity.
Defined.

Lemma reserve_range_correct_witness :
  ∃ r w', reserve_range "net1" (Some 10) "BLUE1" None example_world = (Ok r, w') ∧
          owner r = "BLUE1" ∧ end_ (range_pool r) = start (range_pool r) + 10.
Proof.
  edestruct (reserve_range_correct example_world example_topology 0 example_network 10 3232235800 "BLUE1")
    as (r & w' & Hrun & Ho & Hr & _);
    [reflexivity|apply example_world_ok|reflexivity|reflexivity|reflexivity|lia
    |vm_compute; discriminate|vm_compute; discriminate|by intros ? ?%not_elem_of_nil
    |vm_compute; discriminate|vm_compute; discriminate|by intros ? ?%not_elem_of_nil|].
  exists r, w'. split; [exact Hrun|]. split; [exact Ho|exact Hr].
Defined.

Lemma delete_never_succeeds_witness :
  ∃ w', delete false example_world = (Raise AttributeError, w') ∧ w_model w' = None ∧
        docs (w_db w') = [] ∧ length (w_events w') = 1%nat.
Proof.
  apply (delete_never_succeeds example_world example_topology);
    [reflexivity|apply example_world_ok|reflexivity].
Defined.

Lemma saved_topology_is_read_back_witness :
  ∃ w0, from_db (w_db example_result) = Ok w0 ∧ w_model w0 = w_model example_result ∧
        w_data w0 = w_model w0 ∧ world_ok w0 ∧ w_db w0 = w_db example_result.
Proof.
  apply (saved_topology_is_read_back (CDelVim "vim1" false) example_world example_result);
    [exact I|apply example_world_ok|apply example_world_ok|]. vm_compute. reflexivity.
Defined.
