(* ===== verification/TopologyWorker.v ===== *)
(** * The topology worker, and several processes on one topology

    topology/topology_worker.py and models/topology/topology_worker_model.py: the thread that
    takes messages from a queue, rebuilds the topology from the database for each of them and runs
    the operation.  The second part models several processes that rebuild the topology and run
    operations under the shared lock, in any order. *)

From stdpp Require Import base list strings gmap.
From Stdlib Require Import ZArith Lia Permutation Relations.
From S2P Require Import Prelude Ipam IPv4Text Registry NetworkModels VimModels Database PrometheusModels K8sModels TopologyModel Topology TopologyProps.

Open Scope Z_scope.

(** ** Messages *)
Inductive TopologyWorkerOperation :=
| ADD_TOPOLOGY | DEL_TOPOLOGY | ADD_VIM | DEL_VIM | UPDATE_VIM | ADD_NET | DEL_NET
| ADD_ROUTER | DEL_ROUTER | ADD_PDU | DEL_PDU | ADD_K8S | DEL_K8S | UPDATE_K8S
| ADD_PROM | DEL_PROM | UPD_PROM.

(** The [data] dictionary of a message: one that a model accepts is represented by the object it
    describes, any other by its textual entries. *)
Inductive message_data :=
| MTopology (m : TopologyModel) | MVim (v : VimModel) | MUpdateVim (u : UpdateVimModel)
| MNetwork (n : NetworkModel) | MRouter (r : RouterModel) | MPdu (p : PduModel)
| MK8s (k : TopologyK8sModel) | MProm (p : PrometheusServerModel)
| MDict (d : list (string * string)).

Record TopologyWorkerMessage := {
  ops_type : TopologyWorkerOperation;
  msg_data : message_data;
  optional_data : option (list (string * bool));
  callback : option string
}.

Definition build_worker_message (t : TopologyWorkerOperation) (d : message_data)
  (o : option (list (string * bool))) (callback_url : option string) : TopologyWorkerMessage :=
  {| ops_type := t; msg_data := d; optional_data := o; callback := callback_url |}.

(** [worker_message.data[key]]. *)
Definition data_get (msg : TopologyWorkerMessage) (key : string) : result string :=
  match msg_data msg with
  | MDict d => match find (λ kv, String.eqb kv.1 key) d with Some (_, v) => Ok v | None => Raise KeyError end
  | _ => Raise KeyError
  end.

(** [worker_message.optional_data['terraform']]. *)
Definition terraform_of (msg : TopologyWorkerMessage) : result bool :=
  match optional_data msg with
  | None => Raise TypeError
  | Some d => match find (λ kv, String.eqb kv.1 "terraform") d with
              | Some (_, b) => Ok b
              | None => Raise KeyError
              end
  end.

(** [Model.model_validate(worker_message.data)]. *)
Definition data_topology (msg : TopologyWorkerMessage) : result TopologyModel :=
  match msg_data msg with MTopology m => model_validate m | _ => Raise ValidationError end.
Definition data_vim (msg : TopologyWorkerMessage) : result VimModel :=
  match msg_data msg with MVim v => Ok (validate_vim v) | _ => Raise ValidationError end.
Definition data_update_vim (msg : TopologyWorkerMessage) : result UpdateVimModel :=
  match msg_data msg with MUpdateVim u => Ok u | _ => Raise ValidationError end.
Definition data_network (msg : TopologyWorkerMessage) : result NetworkModel :=
  match msg_data msg with MNetwork n => Ok n | _ => Raise ValidationError end.
Definition data_router (msg : TopologyWorkerMessage) : result RouterModel :=
  match msg_data msg with MRouter r => Ok r | _ => Raise ValidationError end.
Definition data_pdu (msg : TopologyWorkerMessage) : result PduModel :=
  match msg_data msg with MPdu p => Ok p | _ => Raise ValidationError end.
Definition data_k8s (msg : TopologyWorkerMessage) : result TopologyK8sModel :=
  match msg_data msg with
  | MK8s k => if validate_k8s k then Ok k else Raise ValidationError
  | _ => Raise ValidationError
  end.
Definition data_prom (msg : TopologyWorkerMessage) : result PrometheusServerModel :=
  match msg_data msg with MProm p => Ok p | _ => Raise ValidationError end.

Section worker.
Context {C : Type} `{!Mongo TopologyModel C} `{Environment}.

(** ** [start_operation] *)
Definition start_operation (worker_message : TopologyWorkerMessage) : M (World C) unit :=
  match ops_type worker_message with
  | ADD_TOPOLOGY =>
      t ← liftR (data_topology worker_message); tf ← liftR (terraform_of worker_message); create t tf
  | DEL_TOPOLOGY => tf ← liftR (terraform_of worker_message); delete tf
  | ADD_VIM =>
      v ← liftR (data_vim worker_message); tf ← liftR (terraform_of worker_message); add_vim v tf
  | UPDATE_VIM =>
      u ← liftR (data_update_vim worker_message); tf ← liftR (terraform_of worker_message);
      update_vim u tf
  | DEL_VIM =>
      n ← liftR (data_get worker_message "vim_name"); tf ← liftR (terraform_of worker_message);
      del_vim n tf
  | ADD_NET =>
      n ← liftR (data_network worker_message); tf ← liftR (terraform_of worker_message);
      add_network n (NamesBool tf) false
  | DEL_NET =>
      n ← liftR (data_get worker_message "network_id"); tf ← liftR (terraform_of worker_message);
      del_network_by_name n tf
  | ADD_ROUTER => r ← liftR (data_router worker_message); add_router r
  | DEL_ROUTER => n ← liftR (data_get worker_message "router_id"); del_router n None
  | ADD_PDU => p ← liftR (data_pdu worker_message); add_pdu p
  | DEL_PDU => n ← liftR (data_get worker_message "pdu_id"); del_pdu n
  | ADD_K8S => k ← liftR (data_k8s worker_message); add_k8scluster k
  | DEL_K8S => n ← liftR (data_get worker_message "cluster_name"); del_k8scluster n
  | UPDATE_K8S => k ← liftR (data_k8s worker_message); update_k8scluster k
  | ADD_PROM => p ← liftR (data_prom worker_message); add_prometheus_server p
  | DEL_PROM =>
      n ← liftR (data_get worker_message "prom_srv_id"); del_prometheus_server n false ;; mret tt
  | UPD_PROM => p ← liftR (data_prom worker_message); update_prometheus_server p
  end.

(** ** [listen] *)

(** A raw message that does not parse is [None]. *)
Record WorkerState := {
  queue : list (option TopologyWorkerMessage);
  db : C;
  published : list Event;
  alive : bool
}.

(** One turn of the loop: parsing the message and rebuilding the topology are outside the
    [try], so that their exceptions end the thread; the exceptions of the operation do not. *)
Definition listen_turn (s : WorkerState) : WorkerState :=
  if negb (alive s) then s
  else
    match queue s with
    | [] => s                                       (* blocked on the queue *)
    | None :: rest => {| queue := rest; db := db s; published := published s; alive := false |}
    | Some worker_message :: rest =>
        match from_db (db s) with
        | Raise _ => {| queue := rest; db := db s; published := published s; alive := false |}
        | Ok topology =>
            let w := (start_operation worker_message (set_events (published s) topology)).2 in
            {| queue := rest; db := w_db w; published := w_events w; alive := true |}
        end
    end.

(** What the senders must guarantee of the objects they send. *)
Definition message_ok (msg : TopologyWorkerMessage) : Prop :=
  match msg_data msg with
  | MTopology m => topology_ok (set_vims (validate_vim <$> topo_vims m) m)
  | MVim v => vim_ok v
  | MNetwork n => network_ok n
  | _ => True
  end.

Definition raw_ok (raw : option TopologyWorkerMessage) : Prop :=
  match raw with Some msg => message_ok msg | None => True end.

(** Other threads may put messages at any time. *)
Inductive worker_step : WorkerState → WorkerState → Prop :=
| step_put s raw :
    raw_ok raw →
    worker_step s {| queue := queue s ++ [raw]; db := db s; published := published s; alive := alive s |}
| step_listen s : worker_step s (listen_turn s).

(** ** A message is a command *)
Definition command_of (msg : TopologyWorkerMessage) : result command :=
  match ops_type msg with
  | ADD_TOPOLOGY => t ← data_topology msg; tf ← terraform_of msg; Ok (CCreate t tf)
  | DEL_TOPOLOGY => tf ← terraform_of msg; Ok (CDelete tf)
  | ADD_VIM => v ← data_vim msg; tf ← terraform_of msg; Ok (CAddVim v tf)
  | UPDATE_VIM => u ← data_update_vim msg; tf ← terraform_of msg; Ok (CUpdateVim u tf)
  | DEL_VIM => n ← data_get msg "vim_name"; tf ← terraform_of msg; Ok (CDelVim n tf)
  | ADD_NET => n ← data_network msg; tf ← terraform_of msg; Ok (CAddNetwork n (NamesBool tf) false)
  | DEL_NET => n ← data_get msg "network_id"; tf ← terraform_of msg; Ok (CDelNetworkByName n tf)
  | ADD_ROUTER => r ← data_router msg; Ok (CAddRouter r)
  | DEL_ROUTER => n ← data_get msg "router_id"; Ok (CDelRouter n None)
  | ADD_PDU => p ← data_pdu msg; Ok (CAddPdu p)
  | DEL_PDU => n ← data_get msg "pdu_id"; Ok (CDelPdu n)
  | ADD_K8S => k ← data_k8s msg; Ok (CAddK8s k)
  | DEL_K8S => n ← data_get msg "cluster_name"; Ok (CDelK8s n)
  | UPDATE_K8S => k ← data_k8s msg; Ok (CUpdK8s k)
  | ADD_PROM => p ← data_prom msg; Ok (CAddProm p)
  | DEL_PROM => n ← data_get msg "prom_srv_id"; Ok (CDelProm n false)
  | UPD_PROM => p ← data_prom msg; Ok (CUpdProm p)
  end.

Lemma start_operation_exec msg w :
  start_operation msg w = match command_of msg with Ok cmd => exec cmd w | Raise e => (Raise e, w) end.
Proof.
  unfold start_operation, command_of.
  unfold mbind, M_bind, result_bind, liftR.
  destruct (ops_type msg);
    repeat match goal with
    | |- context [match ?x with Ok _ => _ | Raise _ => _ end] =>
        lazymatch x with
        | context [match _ with _ => _ end] => fail
        | _ => destruct x
        end
    end; try reflexivity.
Qed.

Lemma command_of_ok msg cmd : message_ok msg → command_of msg = Ok cmd → command_ok cmd.
Proof.
  unfold message_ok, command_of, data_topology, data_vim, data_update_vim, data_network,
    data_router, data_pdu, data_k8s, data_prom, data_get, terraform_of.
  unfold mbind, result_bind. intros Hok Hc.
  destruct (ops_type msg);
    repeat match type of Hc with
    | context [match ?x with _ => _ end] =>
        lazymatch x with
        | context [match _ with _ => _ end] => fail
        | _ => destruct x eqn:?; try discriminate
        end
    end; injection Hc as <-; simpl; try exact I; try exact Hok; try assumption.
  - unfold model_validate in *. destruct (forallb _ _); [|discriminate]. by simplify_eq.
  - split; [done|]. apply normalize_vim_name_idem.
Qed.

(** ** Turns of the worker *)
Definition worker_ok (s : WorkerState) : Prop := db_ok (db s) ∧ Forall raw_ok (queue s).

Lemma start_operation_preserves msg : message_ok msg → preserves world_ok (start_operation msg).
Proof.
  intros Hok w Hw. rewrite start_operation_exec. destruct (command_of msg) as [cmd|e] eqn:E; [|done].
  apply exec_preserves; [by eapply command_of_ok|done].
Qed.

Lemma from_db_total c : db_ok c → ∃ w, from_db c = Ok w.
Proof. intros Hc. destruct (from_db_run c Hc) as [[_ ?]|(m & _ & _ & ?)]; eauto. Qed.

Lemma listen_turn_run s msg rest :
  alive s = true → queue s = Some msg :: rest → db_ok (db s) →
  ∃ w, from_db (db s) = Ok w ∧ world_ok w ∧ consistent w ∧ w_db w = db s ∧
    let w1 := (start_operation msg (set_events (published s) w)).2 in
    listen_turn s = {| queue := rest; db := w_db w1; published := w_events w1; alive := true |}.
Proof.
  intros Ha Hq Hdb. destruct (from_db_total (db s) Hdb) as [w Hw]. exists w.
  destruct (from_db_ok (db s) w Hdb Hw) as (H1 & H2 & H3). split_and!; try done.
  unfold listen_turn. by rewrite Ha, Hq, Hw.
Qed.

Lemma listen_turn_ok s : worker_ok s → worker_ok (listen_turn s).
Proof.
  intros Hs. pose proof Hs as [Hdb Hq].
  destruct (alive s) eqn:Ha; [|unfold listen_turn; rewrite Ha; exact Hs].
  destruct (queue s) as [|[msg|] rest] eqn:E.
  - unfold listen_turn. rewrite Ha, E. exact Hs.
  - apply Forall_cons in Hq as [Hm Hrest].
    destruct (listen_turn_run s msg rest Ha E Hdb) as (w & _ & Hw & _ & _ & ->). split; [|done]. simpl.
    apply (start_operation_preserves msg Hm). exact Hw.
  - apply Forall_cons in Hq as [_ Hrest]. unfold listen_turn. rewrite Ha, E. by split.
Qed.

Lemma worker_step_ok s s' : worker_step s s' → worker_ok s → worker_ok s'.
Proof.
  intros Hstep [Hdb Hq]. destruct Hstep as [s raw Hraw|s].
  - split; [done|]. simpl. apply Forall_app. by repeat constructor.
  - by apply listen_turn_ok.
Qed.

(** ** Several processes *)

(** Each process holds a topology object once it has built one. *)
Record System := {
  sys_db : C;
  sys_events : list Event;
  objects : list (option (World C))
}.

(** The object of a process sees the database and the broker of the system. *)
Definition at_system (s : System) (w : World C) : World C :=
  set_events (sys_events s) (set_db (sys_db s) w).

Definition after (s : System) (i : nat) (w : World C) : System :=
  {| sys_db := w_db w; sys_events := w_events w; objects := <[i := Some w]> (objects s) |}.

(** A process builds its object from the database without the lock; an operation runs under
    the lock, so that no other operation runs meanwhile. *)
Inductive sys_step : System → System → Prop :=
| sys_build s i w :
    from_db (sys_db s) = Ok w →
    sys_step s {| sys_db := sys_db s; sys_events := sys_events s; objects := <[i := Some w]> (objects s) |}
| sys_operate s i w cmd :
    objects s !! i = Some (Some w) → command_ok cmd →
    sys_step s (after s i (exec cmd (at_system s w)).2).


End worker.

(** ** Properties *)


(** C29: the worker keeps the database well formed and cannot be killed by an operation.
    Whatever well-formed messages arrive and whenever, in every state the worker reaches the
    database holds at most one well-formed topology; and if every message in the queue parses,
    the worker, left alone, empties its queue and is still listening. *)
Theorem worker_safe_and_live {C : Type} `{!Mongo TopologyModel C} `{Environment}
  (s s' : WorkerState (C := C)) :
  db_ok (db s) → Forall raw_ok (queue s) → rtc worker_step s s' →
  db_ok (db s') ∧
  (alive s' = true → Forall (λ raw, raw ≠ None) (queue s') →
   let s'' := Nat.iter (length (queue s')) listen_turn s' in
   queue s'' = [] ∧ alive s'' = true ∧ db_ok (db s'')).
Proof.
  intros Hdb Hq Hrun.
  assert (Hs' : worker_ok s').
  { assert (Hs : worker_ok s) by done. clear Hdb Hq.
    induction Hrun as [|s1 s2 s3 Hstep _ IH]; [done|]. by eapply IH, worker_step_ok. }
  split; [apply Hs'|]. clear Hdb Hq Hrun s. intros Ha Hall. cbv zeta.
  remember (queue s') as q eqn:Eq. revert s' Eq Ha Hs'.
  induction Hall as [|raw rest Hraw _ IH]; intros s Eq Ha Hs; [by split_and!; [..|apply Hs]|].
  destruct raw as [msg|]; [|done]. cbn [length].
  rewrite Nat.iter_succ_r.
  pose proof (listen_turn_ok s Hs) as Hs1.
  destruct (listen_turn_run s msg rest Ha (eq_sym Eq) (proj1 Hs)) as (w & _ & _ & _ & _ & Ht).
  apply IH; [by rewrite Ht|by rewrite Ht|done].
Qed.

(** One message.  On a well-formed database a message that fails and is not one of the
    multi-save operations leaves the database as it was, and a message that succeeds leaves in it
    exactly the model the operation computed, which is what the next message starts from. *)
Theorem worker_message_outcome {C : Type} `{!Mongo TopologyModel C} `{Environment}
  (s : WorkerState (C := C)) (msg : TopologyWorkerMessage) (rest : list (option TopologyWorkerMessage)) :
  (∀ l ev, redis_publish l ev = Ok tt) →
  alive s = true → queue s = Some msg :: rest → db_ok (db s) → message_ok msg →
  ∃ w, from_db (db s) = Ok w ∧ queue (listen_turn s) = rest ∧ alive (listen_turn s) = true ∧
    match start_operation msg (set_events (published s) w) with
    | (Ok tt, w') => db (listen_turn s) = w_db w' ∧
        ∃ w2, from_db (db (listen_turn s)) = Ok w2 ∧ w_model w2 = w_model w'
    | (Raise _, w') => (∀ cmd, command_of msg = Ok cmd → saves_once cmd = true) →
        db (listen_turn s) = db s
    end.
Proof.
  intros Hup Ha Hq Hdb Hok.
  destruct (listen_turn_run s msg rest Ha Hq Hdb) as (w & Hw & Hwok & Hc & Hwdb & ->).
  exists w. split; [done|]. split; [done|]. split; [done|]. cbn [db].
  rewrite !start_operation_exec. destruct (command_of msg) as [cmd|e] eqn:Hcmd.
  2:{ intros _. simpl. done. }
  pose proof (command_of_ok msg cmd Hok Hcmd) as Hcok.
  change (world_ok (set_events (published s) w)) in Hwok.
  change (consistent (set_events (published s) w)) in Hc.
  destruct (exec cmd (set_events (published s) w)) as [[[]|e] w'] eqn:Hrun; simpl.
  - split; [done|].
    pose proof (exec_persists cmd _ w' Hcok Hwok Hc Hrun) as Hc'.
    pose proof (exec_preserves cmd Hcok _ Hwok) as Hw'. rewrite Hrun in Hw'.
    destruct (from_db_run (w_db w') (proj2 Hw')) as [[Hd Hf]|(m & Hd & Hm & Hf)]; rewrite Hf; eexists;
      (split; [reflexivity|]); simpl; destruct Hc' as [(m' & Hm' & _ & Hd')|[Hm' Hd']]; congruence.
  - intros Hone. rewrite (exec_atomic Hup cmd (Hone cmd eq_refl) _ _ _ Hrun). exact Hwdb.
Qed.

(** A network added through the worker with [terraform] set is never added.  The worker
    passes the flag where the list of VIM names is expected: the operation raises, after which
    the database is as before. *)
Theorem worker_add_net_terraform {C : Type} `{!Mongo TopologyModel C} `{Environment}
  (s : WorkerState (C := C)) (n : NetworkModel) (rest : list (option TopologyWorkerMessage)) :
  alive s = true → db_ok (db s) →
  queue s = Some (build_worker_message ADD_NET (MNetwork n) (Some [("terraform", true)]) None) :: rest →
  db (listen_turn s) = db s ∧
  ∀ w m w', w_model w = Some m →
    start_operation (build_worker_message ADD_NET (MNetwork n) (Some [("terraform", true)]) None) w ≠ (Ok tt, w').
Proof.
  intros Ha Hdb Hq.
  destruct (listen_turn_run s _ rest Ha Hq Hdb) as (w & _ & _ & _ & Hwdb & ->).
  split.
  - simpl. rewrite start_operation_exec. simpl. rewrite <-Hwdb.
    unfold add_network, add_network_model, obj_multiprocess_lock, on_model. run_M.
    destruct (w_model w) as [m|]; [|done]. destruct (TopologyModel.add_network n m) as [[?|?] ?]; done.
  - intros w0 m w'. intros Hm. rewrite start_operation_exec. simpl.
    unfold add_network, add_network_model, obj_multiprocess_lock, on_model. run_M.
    rewrite Hm. by destruct (TopologyModel.add_network n m) as [[?|?] ?].
Qed.

(** Building the topology outside the lock loses reservations.  Two processes that build
    their objects before either reserves are both given a range of the same network, both calls
    return, the two ranges overlap, and in the database only the second reservation is left. *)
Theorem concurrent_reservations_overlap :
  ∃ (s s' : System (C := list TopologyModel)) w r1 w1 r2 w2,
    sys_db s = [example_topology] ∧ rtc sys_step s s' ∧
    from_db (sys_db s) = Ok w ∧
    reserve_range "net1" (Some 10) "BLUE1" None w = (Ok r1, w1) ∧
    reserve_range "net1" (Some 10) "BLUE2" None
      (set_events (w_events w1) (set_db (w_db w1) w)) = (Ok r2, w2) ∧
    ¬ pools_disjoint (range_pool r1) (range_pool r2) ∧
    sys_db s' = w_db w2 ∧
    (∀ d n, d ∈ sys_db s' → n ∈ topo_networks d → reserved_ranges n = [r2]).
Proof.
  set (w := loaded (Some example_topology) [example_topology]).
  set (s0 := {| sys_db := [example_topology]; sys_events := []; objects := [None; None] |}).
  set (s1 := {| sys_db := [example_topology]; sys_events := []; objects := [Some w; None] |}).
  set (s2 := {| sys_db := [example_topology]; sys_events := []; objects := [Some w; Some w] |}).
  set (s3 := after s2 0 (exec (CReserveRange "net1" (Some 10) "BLUE1" None) (at_system s2 w)).2).
  set (s4 := after s3 1 (exec (CReserveRange "net1" (Some 10) "BLUE2" None) (at_system s3 w)).2).
  exists s0, s4, w. do 4 eexists.
  split; [done|]. split.
  { apply rtc_l with s1; [by apply (sys_build s0 0 w)|].
    apply rtc_l with s2; [by apply (sys_build s1 1 w)|].
    apply rtc_l with s3; [by apply (sys_operate s2 0 w)|].
    apply rtc_once. by apply (sys_operate s3 1 w). }
  split; [by vm_compute|]. split; [by vm_compute|]. split; [by vm_compute|].
  split; [unfold pools_disjoint; simpl; lia|]. split; [by vm_compute|].
  intros d n Hd Hn.
  replace (sys_db s4) with [set_topo_networks [set_reserved_ranges
    [{| range_pool := {| start := 3232235780; end_ := 3232235790 |}; owner := "BLUE2" |}]
    example_network] example_topology] in Hd by by vm_compute.
  apply list_elem_of_singleton in Hd as ->. simpl in Hn. by apply list_elem_of_singleton in Hn as ->.
Qed.



Definition del_vim_message : TopologyWorkerMessage :=
  build_worker_message DEL_VIM (MDict [("vim_name", "vim1")]) (Some [("terraform", false)]) None.

Definition example_worker : WorkerState (C := list TopologyModel) :=
  {| queue := [Some del_vim_message]; db := [example_topology]; published := []; alive := true |}.

Lemma worker_safe_and_live_witness :
  let s'' := Nat.iter (length (queue example_worker)) listen_turn example_worker in
  queue s'' = [] ∧ alive s'' = true ∧ db_ok (db s'').
Proof.
  apply (worker_safe_and_live example_worker example_worker).
  - apply example_world_ok.
  - by repeat constructor.
  - apply rtc_refl.
  - reflexivity.
  - by repeat constructor.
Defined.

Lemma worker_message_outcome_witness :
  ∃ w, from_db (db example_worker) = Ok w ∧ queue (listen_turn example_worker) = [] ∧
       alive (listen_turn example_worker) = true.
Proof.
  destruct (worker_message_outcome example_worker del_vim_message []) as (w & H1 & H2 & H3 & _);
    [reflexivity|reflexivity|reflexivity|apply example_world_ok|exact I|].
  exists w. split; [exact H1|]. split; [exact H2|exact H3].
Defined.

Lemma worker_add_net_terraform_witness :
  let s := {| queue := [Some (build_worker_message ADD_NET (MNetwork example_network)
                                (Some [("terraform", true)]) None)];
              db := [] : list TopologyModel; published := []; alive := true |} in
  db (listen_turn s) = db s.
Proof.
  apply (worker_add_net_terraform
    {| queue := [Some (build_worker_message ADD_NET (MNetwork example_network)
                         (Some [("terraform", true)]) None)];
       db := [] : list TopologyModel; published := []; alive := true |} example_network []);
    [reflexivity|by apply db_ok_nil|reflexivity].
Defined.
