(* ===== verification/BlueprintTypes.v ===== *)
(** * Blueprint types and their day-2 routes

    blueprints_ng/lcm/blueprint_type_manager.py: the decorators that register the blueprint
    classes under a type, and their day-2 methods under the path [type + final_path].  Both
    registrations are process-wide dictionaries, kept here as one state. *)

From stdpp Require Import base list strings gmap.
From Stdlib Require Import ZArith Lia Ascii.
From S2P Require Import Prelude.

Open Scope Z_scope.

Inductive HttpRequestType := GET | POST | PUT | PATCH | DELETE.

#[export] Instance HttpRequestType_eq_dec : EqDecision HttpRequestType.
Proof. solve_decision. Defined.

(** ** Classes and methods

    What the decorators see of a class: the attributes [dir] lists.  [day2_function] marks a
    method with a path and the request types. *)
Record Method := {
  __name__ : string;
  parameters : nat;
  day2_fun : option (string * list HttpRequestType)     (* final_path, request_type *)
}.

Record BlueClass := { __module__ : string; __qualname__ : string; dir : list Method }.

(** [day2_function(final_path, request_type)(func)]. *)
Definition day2_function (final_path : string) (request_type : list HttpRequestType)
  (func : Method) : Method :=
  {| __name__ := __name__ func; parameters := parameters func;
     day2_fun := Some (final_path, request_type) |}.

Record BlueprintDay2Route := {
  blue_type : string;
  final_path : string;
  methods : list HttpRequestType;
  function : Method
}.

Definition http_value (r : HttpRequestType) : string :=
  match r with GET => "GET" | POST => "POST" | PUT => "PUT" | PATCH => "PATCH" | DELETE => "DELETE" end.

Definition get_methods_str (r : BlueprintDay2Route) : list string := http_value <$> methods r.

Record BlueprintModule := {
  module : string;
  class_name : string;
  blue_class : BlueClass;
  path : string
}.

(** The two class attributes of [blueprint_type]. *)
Record TypeRegistry := {
  blueprint_module_mapping : list (string * BlueprintModule);
  path_function_mapping : list (string * BlueprintDay2Route)
}.

Definition empty_registry : TypeRegistry :=
  {| blueprint_module_mapping := []; path_function_mapping := [] |}.

Definition set_module_mapping l (r : TypeRegistry) : TypeRegistry :=
  {| blueprint_module_mapping := l; path_function_mapping := path_function_mapping r |}.
Definition set_path_mapping l (r : TypeRegistry) : TypeRegistry :=
  {| blueprint_module_mapping := blueprint_module_mapping r; path_function_mapping := l |}.

(** ** Registration *)

(** [register_day2]: the request types are only indexed to decide on a warning. *)
Definition register_day2 (self_type : string) (fp : string) (request_type : list HttpRequestType)
  (method : Method) : M TypeRegistry unit :=
  r ← getS;
  if od_in fp (path_function_mapping r) then raise ValueError
  else
    _ ← liftR (py_getitem request_type 0);
    putS (set_path_mapping
            (od_set (self_type +:+ fp)
               {| blue_type := self_type; final_path := fp; methods := request_type;
                  function := method |}
               (path_function_mapping r)) r).

Definition register_method (self_type : string) (method : Method) : M TypeRegistry unit :=
  match day2_fun method with
  | Some (fp, request_type) => register_day2 self_type fp request_type method
  | None => mret tt
  end.

(** [blueprint_type(self_type)(original_class)]. *)
Definition call (self_type : string) (original_class : BlueClass) : M TypeRegistry BlueClass :=
  r ← getS;
  if od_in self_type (blueprint_module_mapping r) then raise ValueError
  else
    putS (set_module_mapping
            (od_set self_type
               {| module := __module__ original_class; class_name := __qualname__ original_class;
                  blue_class := original_class; path := self_type |}
               (blueprint_module_mapping r)) r) ;;
    for_each (dir original_class) (register_method self_type) ;;
    mret original_class.

(** ** Lookups *)
Definition get_blueprint_module (t : string) (r : TypeRegistry) : result BlueprintModule :=
  match od_get t (blueprint_module_mapping r) with
  | Some m => Ok m
  | None => Raise BlueprintTypeNotDeclared
  end.

(** [get_blueprint_class]; importing a module and reading a class of it are Python's. *)
Definition get_blueprint_class (import : string → string → result BlueClass) (blue_path : string)
  (r : TypeRegistry) : result BlueClass :=
  blue_path ← py_getitem (py_split "/"%char blue_path) (-1);
  m ← get_blueprint_module blue_path r;
  import (module m) (class_name m).

Definition get_registered_modules (r : TypeRegistry) : list (string * BlueprintModule) :=
  blueprint_module_mapping r.

Definition get_route (p : string) (r : TypeRegistry) : result BlueprintDay2Route :=
  match od_get p (path_function_mapping r) with Some x => Ok x | None => Raise ValueError end.

(** The loop of [get_module_routes] over the keys of the mapping. *)
Fixpoint routes_loop (mapping : list (string * BlueprintDay2Route)) (module_name : string)
  (keys : list string) : result (list BlueprintDay2Route) :=
  match keys with
  | [] => Ok []
  | key :: keys' =>
      w ← py_getitem (py_split "/"%char key) 0;
      if String.eqb w module_name then
        x ← od_getitem key mapping;
        l ← routes_loop mapping module_name keys'; Ok (x :: l)
      else routes_loop mapping module_name keys'
  end.

Definition get_module_routes (module_name : string) (r : TypeRegistry) :
  result (list BlueprintDay2Route) :=
  routes_loop (path_function_mapping r) module_name (od_keys (path_function_mapping r)).

Definition get_routes (r : TypeRegistry) : list BlueprintDay2Route :=
  od_values (path_function_mapping r).

Definition get_function_to_be_called (p : string) (r : TypeRegistry) : result Method :=
  x ← get_route p r; Ok (function x).

(** ** What is registered

    A type is a non-empty word without a slash, a final path starts with one. *)
Definition type_ok (t : string) : Prop := t ≠ EmptyString ∧ no_char "/"%char t = true.
Definition path_ok (fp : string) : Prop := ∃ rest, fp = String "/" rest.

Definition method_ok (m : Method) : Prop :=
  match day2_fun m with Some (fp, request_type) => path_ok fp ∧ request_type ≠ [] | None => True end.

(** The entries a class adds to the routes. *)
Definition entry (t : string) (m : Method) : option (string * BlueprintDay2Route) :=
  match day2_fun m with
  | Some (fp, request_type) =>
      Some (t +:+ fp, {| blue_type := t; final_path := fp; methods := request_type; function := m |})
  | None => None
  end.
Definition class_entries (t : string) (c : BlueClass) : list (string * BlueprintDay2Route) :=
  omap (entry t) (dir c).

Definition final_paths (c : BlueClass) : list string :=
  omap (λ m, fst <$> day2_fun m) (dir c).

Definition class_ok (c : BlueClass) : Prop := Forall method_ok (dir c) ∧ NoDup (final_paths c).

Definition as_module (t : string) (c : BlueClass) : BlueprintModule :=
  {| module := __module__ c; class_name := __qualname__ c; blue_class := c; path := t |}.

Definition all_modules (l : list (string * BlueClass)) : list (string * BlueprintModule) :=
  (λ tc, (tc.1, as_module tc.1 tc.2)) <$> l.
Definition all_entries (l : list (string * BlueClass)) : list (string * BlueprintDay2Route) :=
  l ≫= λ tc, class_entries tc.1 tc.2.

(** The whole registration, as importing the blueprint modules runs it. *)
Definition register_all (l : list (string * BlueClass)) : M TypeRegistry unit :=
  for_each l (λ tc, call tc.1 tc.2 ;; mret tt).

(** ** Paths determine the type and the final path *)
Lemma split_path t fp : type_ok t → path_ok fp → ∃ ws, py_split "/"%char (t +:+ fp) = t :: ws.
Proof. intros [_ Ht] [rest ->]. rewrite py_split_app by done. eauto. Qed.

Lemma path_inj t t' fp fp' :
  type_ok t → type_ok t' → path_ok fp → path_ok fp' → t +:+ fp = t' +:+ fp' → t = t' ∧ fp = fp'.
Proof.
  intros Ht Ht' Hf Hf' Heq. destruct (split_path t fp Ht Hf) as [ws Hs].
  destruct (split_path t' fp' Ht' Hf') as [ws' Hs']. rewrite Heq, Hs' in Hs.
  injection Hs as -> _. split; [done|]. by simplify_eq.
Qed.

(** A final path is never the path of a route: the check for duplicates never fires. *)
Lemma final_path_not_key t fp fp' : type_ok t → path_ok fp' → t +:+ fp ≠ fp'.
Proof.
  intros [Hne Ht] [rest ->]. destruct t as [|c t]; [done|]. simpl in *.
  intros [= -> _]. done.
Qed.

Definition routes_wf (r : TypeRegistry) : Prop :=
  ∀ k, k ∈ od_keys (path_function_mapping r) → ∃ t fp, type_ok t ∧ path_ok fp ∧ k = t +:+ fp.

Lemma no_duplicate_found r fp :
  routes_wf r → path_ok fp → od_in fp (path_function_mapping r) = false.
Proof.
  intros Hr Hf. apply not_true_iff_false. intros (t & fp' & Ht & _ & Heq)%od_in_keys%Hr.
  by apply (final_path_not_key t fp' fp).
Qed.

Lemma routes_wf_set r t fp x :
  routes_wf r → type_ok t → path_ok fp →
  routes_wf (set_path_mapping (od_set (t +:+ fp) x (path_function_mapping r)) r).
Proof.
  intros Hr Ht Hf k. simpl. intros Hk. destruct (decide (k = t +:+ fp)) as [->|Hne]; [eauto|].
  apply Hr. apply od_in_keys. apply od_in_keys in Hk. unfold od_in in *.
  by rewrite od_get_set_ne in Hk.
Qed.

Lemma register_day2_run r t fp request_type m :
  routes_wf r → path_ok fp → request_type ≠ [] →
  register_day2 t fp request_type m r = (Ok tt, set_path_mapping
     (od_set (t +:+ fp) {| blue_type := t; final_path := fp; methods := request_type; function := m |}
        (path_function_mapping r)) r).
Proof.
  intros Hr Hf Hne. unfold register_day2. run_M. rewrite no_duplicate_found by done.
  destruct request_type as [|q l]; [done|].
  by change 0 with (Z.of_nat 0); rewrite (py_getitem_nat (q :: l) 0 q eq_refl).
Qed.

(** ** Registering a class, and all of them *)
Lemma elem_of_entries t (ms : list Method) k x :
  (k, x) ∈ omap (entry t) ms ↔
  ∃ m fp rt, m ∈ ms ∧ day2_fun m = Some (fp, rt) ∧ k = t +:+ fp ∧
    x = {| blue_type := t; final_path := fp; methods := rt; function := m |}.
Proof.
  rewrite list_elem_of_omap. unfold entry. split.
  - intros (m & Hm & He). destruct (day2_fun m) as [[fp rt]|] eqn:E; [|done].
    injection He as <- <-. eauto 8.
  - intros (m & fp & rt & Hm & E & -> & ->). exists m. by rewrite E.
Qed.

Lemma entries_cons t m (ms : list Method) :
  omap (entry t) (m :: ms) =
  match entry t m with Some e => e :: omap (entry t) ms | None => omap (entry t) ms end.
Proof. done. Qed.

Lemma register_methods_run t (ms : list Method) r :
  type_ok t → Forall method_ok ms → routes_wf r →
  NoDup (od_keys (path_function_mapping r ++ omap (entry t) ms)) →
  for_each ms (register_method t) r =
  (Ok tt, set_path_mapping (path_function_mapping r ++ omap (entry t) ms) r).
Proof.
  intros Ht. revert r; induction ms as [|m ms IH]; intros r Hms Hr Hd.
  { simpl. rewrite app_nil_r. by destruct r. }
  apply Forall_cons in Hms as [Hm Hms]. rewrite entries_cons in *.
  change (for_each (m :: ms) (register_method t)) with
    (register_method t m ;; for_each ms (register_method t)).
  unfold method_ok in Hm. unfold entry at 1. unfold entry at 1 in Hd.
  destruct (day2_fun m) as [[fp rt]|] eqn:E.
  2: { erewrite bind_Ok by (by unfold register_method; rewrite E). by apply IH. }
  destruct Hm as [Hf Hrt].
  assert (Hnew : od_get (t +:+ fp) (path_function_mapping r) = None).
  { apply od_get_None. unfold od_keys in *. rewrite fmap_app in Hd. intros Hin.
    apply NoDup_app in Hd as (_ & Hn & _). apply (Hn _ Hin). left. }
  erewrite bind_Ok by (unfold register_method; rewrite E; by apply register_day2_run).
  rewrite od_set_new by done. rewrite IH; simpl.
  - by rewrite <-app_assoc.
  - done.
  - rewrite <-od_set_new by done. by apply routes_wf_set.
  - by rewrite <-app_assoc.
Qed.

(** The registry after the registration of [l]. *)
Definition registered (l : list (string * BlueClass)) : TypeRegistry :=
  {| blueprint_module_mapping := all_modules l; path_function_mapping := all_entries l |}.

Definition classes_ok (l : list (string * BlueClass)) : Prop :=
  Forall (λ tc, type_ok tc.1 ∧ class_ok tc.2) l ∧ NoDup l.*1.

Lemma entries_NoDup t c :
  type_ok t → class_ok c → NoDup (od_keys (class_entries t c)).
Proof.
  intros Ht [_ Hd]. unfold class_entries, final_paths in *. revert Hd.
  induction (dir c) as [|m ms IH]; intros Hd; [constructor|]. rewrite entries_cons.
  change (NoDup (match fst <$> day2_fun m with
                 | Some fp => fp :: omap (λ m, fst <$> day2_fun m) ms
                 | None => omap (λ m, fst <$> day2_fun m) ms end)) in Hd.
  unfold entry. destruct (day2_fun m) as [[fp rt]|] eqn:E; [|by apply IH].
  apply NoDup_cons in Hd as [Hn Hd]. apply NoDup_cons. split; [|by apply IH].
  intros ([k x] & Hk & Hin)%list_elem_of_fmap.
  apply elem_of_entries in Hin as (m' & fp' & rt' & Hin & E' & -> & _).
  simpl in Hk. assert (fp = fp') as -> by by simplify_eq.
  apply Hn. apply list_elem_of_omap. exists m'. by rewrite E'.
Qed.

Lemma elem_of_all_entries l k x :
  (k, x) ∈ all_entries l ↔
  ∃ t c m fp rt, (t, c) ∈ l ∧ m ∈ dir c ∧ day2_fun m = Some (fp, rt) ∧ k = t +:+ fp ∧
    x = {| blue_type := t; final_path := fp; methods := rt; function := m |}.
Proof.
  unfold all_entries. rewrite list_elem_of_bind. split.
  - intros ([t c] & (m & fp & rt & Hm & Hf & Hk & Hx)%elem_of_entries & Hin). eauto 10.
  - intros (t & c & m & fp & rt & Hin & Hm & Hf & Hk & Hx). exists (t, c). split; [|done].
    apply elem_of_entries. eauto 8.
Qed.

Lemma class_path_ok c m fp rt : class_ok c → m ∈ dir c → day2_fun m = Some (fp, rt) → path_ok fp.
Proof.
  intros [Hms _] Hm Hf. rewrite Forall_forall in Hms. specialize (Hms m Hm).
  unfold method_ok in Hms. rewrite Hf in Hms. apply Hms.
Qed.

Lemma all_entries_NoDup l : classes_ok l → NoDup (od_keys (all_entries l)).
Proof.
  induction l as [|[t c] l IH]; [constructor|]. intros [[[Ht Hc] Hl]%Forall_cons [Hn Hd]%NoDup_cons].
  change (all_entries ((t, c) :: l)) with (class_entries t c ++ all_entries l).
  unfold od_keys. rewrite fmap_app. apply NoDup_app.
  split; [by apply entries_NoDup|]. split; [|by apply IH].
  intros k ([k1 x1] & -> & (m & fp & rt & Hm & Hf & -> & _)%elem_of_entries)%list_elem_of_fmap
    ([k2 x2] & Hk & (t' & c' & m' & fp' & rt' & Hin & Hm' & Hf' & -> & _)%elem_of_all_entries)%list_elem_of_fmap.
  simpl in Hk. rewrite Forall_forall in Hl. destruct (Hl _ Hin) as [Ht' Hc'].
  destruct (path_inj t t' fp fp') as [-> _];
    [exact Ht|exact Ht'|exact (class_path_ok _ _ _ _ Hc Hm Hf)
    |exact (class_path_ok _ _ _ _ Hc' Hm' Hf')|exact Hk|].
  apply Hn. by apply (list_elem_of_fmap_2' fst _ (t', c')).
Qed.

Lemma registered_wf l : classes_ok l → routes_wf (registered l).
Proof.
  intros [Hl _] k. simpl. intros ([k1 x1] & -> & Hin)%list_elem_of_fmap.
  apply elem_of_all_entries in Hin as (t & c & m & fp & rt & Hin & Hm & Hf & -> & _).
  rewrite Forall_forall in Hl. destruct (Hl _ Hin) as [Ht Hc].
  exists t, fp. split; [done|]. split; [by eapply class_path_ok|done].
Qed.

Lemma module_keys l : od_keys (all_modules l) = l.*1.
Proof. unfold od_keys, all_modules. rewrite <-list_fmap_compose. by apply list_fmap_ext. Qed.

Lemma classes_ok_app l l' : classes_ok (l ++ l') → classes_ok l.
Proof.
  intros [Hl Hd]. apply Forall_app in Hl as [Hl _]. rewrite fmap_app in Hd.
  apply NoDup_app in Hd as [Hd _]. by split.
Qed.

Lemma call_run t c l :
  classes_ok (l ++ [(t, c)]) →
  call t c (registered l) = (Ok c, registered (l ++ [(t, c)])).
Proof.
  intros Hl. pose proof (classes_ok_app _ _ Hl) as Hl0. pose proof (all_entries_NoDup _ Hl) as Hd.
  assert (Hnew : od_get t (all_modules l) = None).
  { apply od_get_None. rewrite module_keys. destruct Hl as [_ Hn]. rewrite fmap_app in Hn.
    apply NoDup_app in Hn as (_ & Hn & _). intros Hin. apply (Hn t Hin). left. }
  assert (Ht : type_ok t ∧ class_ok c).
  { destruct Hl as [Hl _]. apply Forall_app in Hl as [_ Hl]. by apply Forall_cons in Hl as [? _]. }
  assert (He : all_entries (l ++ [(t, c)]) = all_entries l ++ class_entries t c).
  { unfold all_entries. rewrite bind_app. simpl. by rewrite app_nil_r. }
  unfold call. run_M. rewrite (proj2 (od_in_false t _) Hnew).
  rewrite (register_methods_run t (dir c)); simpl.
  - rewrite od_set_new by done. unfold registered. rewrite He.
    unfold all_modules. by rewrite fmap_app.
  - apply Ht.
  - apply Ht.
  - by apply (registered_wf l).
  - by rewrite He in Hd.
Qed.

Lemma register_all_run l l' :
  classes_ok (l ++ l') → register_all l' (registered l) = (Ok tt, registered (l ++ l')).
Proof.
  revert l; induction l' as [|[t c] l' IH]; intros l Hl.
  { by rewrite app_nil_r. }
  rewrite (assoc_L (++) l [(t, c)] l' : l ++ (t, c) :: l' = _) in *.
  change (register_all ((t, c) :: l')) with ((call t c ;; mret tt) ;; register_all l').
  erewrite bind_Ok; [by apply IH|].
  erewrite bind_Ok by (apply call_run; by eapply classes_ok_app). done.
Qed.

Lemma routes_loop_run t (mapping e : list (string * BlueprintDay2Route)) :
  (∀ k x, (k, x) ∈ e →
     od_get k mapping = Some x ∧ ∃ ws, py_split "/"%char k = blue_type x :: ws) →
  routes_loop mapping t (od_keys e) = Ok (List.filter (λ x, String.eqb (blue_type x) t) (od_values e)).
Proof.
  induction e as [|[k x] e IH]; intros He; [done|]. simpl.
  destruct (He k x) as [Hk [ws Hw]]; [left|]. rewrite Hw.
  change (py_getitem (blue_type x :: ws) 0) with (Ok (blue_type x)). simpl.
  rewrite IH by (intros; apply He; by right).
  destruct (String.eqb (blue_type x) t); [|done]. unfold od_getitem. by rewrite Hk.
Qed.

Lemma class_values_of_type t t' c :
  List.filter (λ x, String.eqb (blue_type x) t) (od_values (class_entries t' c)) =
  if String.eqb t' t then od_values (class_entries t' c) else [].
Proof.
  unfold class_entries. induction (dir c) as [|m ms IH]; [by destruct (String.eqb t' t)|].
  rewrite entries_cons. destruct (entry t' m) as [[k x]|] eqn:E; [|exact IH].
  assert (blue_type x = t') as Hx.
  { unfold entry in E. destruct (day2_fun m) as [[fp rt]|]; [|done]. by simplify_eq. }
  unfold od_values in *. rewrite fmap_cons. cbn [List.filter snd]. rewrite IH, Hx.
  by destruct (String.eqb t' t).
Qed.

Lemma values_of_type t l :
  (t ∉ l.*1 → List.filter (λ x, String.eqb (blue_type x) t) (od_values (all_entries l)) = []) ∧
  (∀ c, NoDup l.*1 → (t, c) ∈ l →
   List.filter (λ x, String.eqb (blue_type x) t) (od_values (all_entries l)) =
   od_values (class_entries t c)).
Proof.
  induction l as [|[t' c'] l [IHn IH]]; [by split; [|intros c _ ?%not_elem_of_nil]|].
  assert (Hc : od_values (all_entries ((t', c') :: l)) =
               od_values (class_entries t' c') ++ od_values (all_entries l)).
  { unfold od_values. by rewrite <-fmap_app. }
  rewrite Hc, List.filter_app, class_values_of_type, fmap_cons. split.
  - intros [Hne Hn]%not_elem_of_cons. rewrite IHn by done.
    by rewrite (proj2 (String.eqb_neq t' t)) by done.
  - intros c [Hn Hd]%NoDup_cons [[= -> ->]|Hin]%elem_of_cons.
    + by rewrite String.eqb_refl, IHn, app_nil_r.
    + rewrite (IH c) by done. destruct (String.eqb_spec t' t) as [->|]; [|done].
      destruct Hn. by apply (list_elem_of_fmap_2' fst _ (t, c)).
Qed.

(** ** Properties *)

(** C11: requests are routed to the methods that were declared for them.  Once the blueprint
    classes have been registered, under distinct types and with distinct final paths inside each
    class, the path [type + final_path] leads to the method declared with that final path by the
    class of that type, a type leads to its class, listing the routes of a type gives exactly
    those of its class in their order, and any other path is refused. *)
Theorem routing_is_exact (l : list (string * BlueClass)) :
  classes_ok l →
  ∃ r, register_all l empty_registry = (Ok tt, r) ∧
  (∀ t c, (t, c) ∈ l →
     get_blueprint_module t r = Ok (as_module t c) ∧
     get_module_routes t r = Ok (od_values (class_entries t c)) ∧
     ∀ m fp rt, m ∈ dir c → day2_fun m = Some (fp, rt) → get_function_to_be_called (t +:+ fp) r = Ok m) ∧
  (∀ p, (∀ t c m fp rt, (t, c) ∈ l → m ∈ dir c → day2_fun m = Some (fp, rt) → p ≠ t +:+ fp) →
     get_function_to_be_called p r = Raise ValueError).
Proof.
  intros Hl. exists (registered l). split; [exact (register_all_run [] l Hl)|].
  pose proof (all_entries_NoDup l Hl) as Hd. split.
  - intros t c Hin. split; [|split].
    + unfold get_blueprint_module. simpl.
      rewrite (proj2 (od_get_elem t (as_module t c) (all_modules l)
                        ltac:(rewrite module_keys; apply Hl))); [done|].
      by apply (list_elem_of_fmap_2 (λ tc, (tc.1, as_module tc.1 tc.2)) l (t, c)).
    + unfold get_module_routes. simpl. rewrite routes_loop_run.
      * f_equal. apply (values_of_type t l); [apply Hl|done].
      * intros k x Hx. split; [by apply od_get_elem|].
        apply elem_of_all_entries in Hx as (t' & c' & m & fp & rt & Hin' & Hm & Hf & -> & ->).
        destruct Hl as [Hl _]. rewrite Forall_forall in Hl. destruct (Hl _ Hin') as [Ht' Hc'].
        apply split_path; [exact Ht'|exact (class_path_ok _ _ _ _ Hc' Hm Hf)].
    + intros m fp rt Hm Hf. unfold get_function_to_be_called, get_route. simpl.
      rewrite (proj2 (od_get_elem (t +:+ fp)
        {| blue_type := t; final_path := fp; methods := rt; function := m |} _ Hd)); [done|].
      apply elem_of_all_entries. eauto 10.
  - intros p Hp. unfold get_function_to_be_called, get_route. simpl.
    destruct (od_get p (all_entries l)) as [x|] eqn:E; [|done]. exfalso.
    apply od_get_elem in E; [|done].
    apply elem_of_all_entries in E as (t & c & m & fp & rt & Hin & Hm & Hf & -> & _).
    by apply (Hp t c m fp rt).
Qed.

(** Declaring the same final path twice in a class is documented to raise a [ValueError],
    and never does: the check looks the final path up among the complete paths.  The second
    method silently replaces the first, and the first can no longer be reached. *)
Theorem duplicate_route_replaces (r : TypeRegistry) (t fp : string) (rt : list HttpRequestType)
  (m1 m2 : Method) :
  routes_wf r → type_ok t → path_ok fp → rt ≠ [] →
  ∃ r', (register_day2 t fp rt m1 ;; register_day2 t fp rt m2) r = (Ok tt, r') ∧
        get_function_to_be_called (t +:+ fp) r' = Ok m2 ∧
        ∀ p, p ≠ t +:+ fp → get_function_to_be_called p r' = get_function_to_be_called p r.
Proof.
  intros Hr Ht Hf Hrt. eexists. split; [|split].
  - erewrite bind_Ok by by apply register_day2_run.
    apply register_day2_run; [by apply routes_wf_set|done|done].
  - unfold get_function_to_be_called, get_route. simpl. by rewrite od_get_set_eq.
  - intros p Hp. unfold get_function_to_be_called, get_route. simpl.
    by rewrite !od_get_set_ne.
Qed.

(** Two types with a route each. *)
Definition example_method (n : string) (fp : string) : Method :=
  day2_function fp [POST] {| __name__ := n; parameters := 2; day2_fun := None |}.
Definition example_classes : list (string * BlueClass) :=
  [("vyos", {| __module__ := "modules.vyos"; __qualname__ := "VyOSBlueprint";
               dir := [example_method "add_snat" "/snat"; example_method "add_dnat" "/dnat"] |});
   ("k8s", {| __module__ := "modules.k8s"; __qualname__ := "K8sBlueprint";
              dir := [example_method "add_node" "/add_node"] |})].

Lemma example_classes_ok : classes_ok example_classes.
Proof.
  split; [|apply (bool_decide_unpack _); vm_compute; exact I].
  repeat constructor; try done; simpl; try by eexists.
  all: try (intros H%list_elem_of_singleton; discriminate).
  all: by intros ?%not_elem_of_nil.
Qed.

Lemma routing_is_exact_witness :
  ∃ r, register_all example_classes empty_registry = (Ok tt, r) ∧
       get_function_to_be_called "vyos/dnat" r = Ok (example_method "add_dnat" "/dnat").
Proof.
  destruct (routing_is_exact example_classes example_classes_ok) as (r & Hr & H & _).
  exists r. split; [exact Hr|].
  eapply (λ HIn Hm, proj2 (proj2 (H "vyos" _ HIn)) (example_method "add_dnat" "/dnat") "/dnat" [POST]
            Hm eq_refl); [left|right; left].
Defined.

Lemma duplicate_route_replaces_witness :
  ∃ r', (register_day2 "vyos" "/snat" [POST] (example_method "a" "/snat") ;;
         register_day2 "vyos" "/snat" [POST] (example_method "b" "/snat")) empty_registry = (Ok tt, r') ∧
        get_function_to_be_called "vyos/snat" r' = Ok (example_method "b" "/snat").
Proof.
  destruct (duplicate_route_replaces empty_registry "vyos" "/snat" [POST]
              (example_method "a" "/snat") (example_method "b" "/snat")) as (r' & H1 & H2 & _).
  - intros k Hk. by apply not_elem_of_nil in Hk.
  - by split.
  - by eexists.
  - done.
  - exists r'. split; [exact H1|exact H2].
Defined.
