(* ===== verification/Performance.v ===== *)
(** * Performance metrics of the blueprints

    models/performance.py and blueprints_ng/lcm/performance_manager.py: the operations running on
    the blueprints and the provider calls inside them, with their durations, persisted to a
    collection of the database.

    An operation is reachable both from its blueprint and from the index of operations, and a
    provider call from its operation and from the index of calls: they are kept in two heaps and
    referred to by their positions.  Identifiers ([uuid4]) and times ([utcnow], in microseconds)
    are arguments. *)

From stdpp Require Import base list strings gmap.
From Stdlib Require Import ZArith Lia Permutation SpecFloat.
From S2P Require Import Prelude Database.

Open Scope Z_scope.

Inductive BlueprintPerformanceType := DAY0 | DAY2 | DELETION.

Record BlueprintPerformanceProviderCall := {
  call_id : string;
  method_name : string;
  info : list (string * string);
  call_start : Z;
  call_end : option Z;
  call_duration : option Z
}.

(** [provider_calls] is a list of positions in the manager and of calls in a dump. *)
Record BlueprintPerformanceOperation (R : Type) := {
  op_id : string;
  op_name : string;
  op_type : BlueprintPerformanceType;
  op_start : Z;
  op_end : option Z;
  op_duration : option Z;
  op_calls : list R
}.
Arguments op_id {_} _.
Arguments op_name {_} _.
Arguments op_type {_} _.
Arguments op_start {_} _.
Arguments op_end {_} _.
Arguments op_duration {_} _.
Arguments op_calls {_} _.

Record BlueprintPerformance (R : Type) := {
  blueprint_id : string;
  blueprint_type : string;
  perf_start : Z;
  perf_operations : list R
}.
Arguments blueprint_id {_} _.
Arguments blueprint_type {_} _.
Arguments perf_start {_} _.
Arguments perf_operations {_} _.

Notation heap_op := (BlueprintPerformanceOperation nat).
Notation heap_performance := (BlueprintPerformance nat).
Notation operation_dump := (BlueprintPerformanceOperation BlueprintPerformanceProviderCall).
Notation performance_dump := (BlueprintPerformance operation_dump).

Record PerformanceManager := {
  performance_dict : list (string * heap_performance);
  pending_operations : list (string * string);       (* blueprint_id: operation_id *)
  operations : list (string * nat);
  provider_calls : list (string * nat);
  op_heap : list heap_op;
  call_heap : list BlueprintPerformanceProviderCall
}.

(** ** Durations

    [round((end - start).total_seconds() * 1000)]: [total_seconds] divides the microseconds by
    10^6 in double precision, [round] goes to the nearest integer, ties to even. *)
Definition double (z : Z) : spec_float := binary_normalize 53 1024 z 0 false.

Definition round_float (x : spec_float) : Z :=
  match x with
  | S754_finite s m e =>
      let a := if 0 <=? e then Z.pos m * 2 ^ e
               else
                 let d := 2 ^ (- e) in
                 let q := Z.pos m / d in
                 match Z.compare (2 * (Z.pos m - q * d)) d with
                 | Lt => q
                 | Gt => q + 1
                 | Eq => if Z.even q then q else q + 1
                 end in
      if s then - a else a
  | _ => 0
  end.

Definition duration_ms (start_ end_ : Z) : Z :=
  round_float (SFmul 53 1024 (SFdiv 53 1024 (double (end_ - start_)) (double 1000000)) (double 1000)).

Example duration_up : duration_ms 0 2600 = 3.
Proof. vm_compute. reflexivity. Qed.
Example duration_tie : duration_ms 0 2500 = 2.
Proof. vm_compute. reflexivity. Qed.

(** ** Updates of the manager *)
Definition set_performance_dict d (s : PerformanceManager) : PerformanceManager :=
  {| performance_dict := d; pending_operations := pending_operations s; operations := operations s;
     provider_calls := provider_calls s; op_heap := op_heap s; call_heap := call_heap s |}.
Definition set_pending_operations d (s : PerformanceManager) : PerformanceManager :=
  {| performance_dict := performance_dict s; pending_operations := d; operations := operations s;
     provider_calls := provider_calls s; op_heap := op_heap s; call_heap := call_heap s |}.
Definition set_operations d (s : PerformanceManager) : PerformanceManager :=
  {| performance_dict := performance_dict s; pending_operations := pending_operations s;
     operations := d; provider_calls := provider_calls s; op_heap := op_heap s;
     call_heap := call_heap s |}.
Definition set_provider_calls d (s : PerformanceManager) : PerformanceManager :=
  {| performance_dict := performance_dict s; pending_operations := pending_operations s;
     operations := operations s; provider_calls := d; op_heap := op_heap s;
     call_heap := call_heap s |}.
Definition set_op_heap l (s : PerformanceManager) : PerformanceManager :=
  {| performance_dict := performance_dict s; pending_operations := pending_operations s;
     operations := operations s; provider_calls := provider_calls s; op_heap := l;
     call_heap := call_heap s |}.
Definition set_call_heap l (s : PerformanceManager) : PerformanceManager :=
  {| performance_dict := performance_dict s; pending_operations := pending_operations s;
     operations := operations s; provider_calls := provider_calls s; op_heap := op_heap s;
     call_heap := l |}.

Definition end_op (now : Z) {R} (o : BlueprintPerformanceOperation R) : BlueprintPerformanceOperation R :=
  {| op_id := op_id o; op_name := op_name o; op_type := op_type o; op_start := op_start o;
     op_end := Some now; op_duration := Some (duration_ms (op_start o) now);
     op_calls := op_calls o |}.
Definition add_op_call (r : nat) (o : heap_op) : heap_op :=
  {| op_id := op_id o; op_name := op_name o; op_type := op_type o; op_start := op_start o;
     op_end := op_end o; op_duration := op_duration o; op_calls := op_calls o ++ [r] |}.
Definition end_call (now : Z) (c : BlueprintPerformanceProviderCall) : BlueprintPerformanceProviderCall :=
  {| call_id := call_id c; method_name := method_name c; info := info c;
     call_start := call_start c; call_end := Some now;
     call_duration := Some (duration_ms (call_start c) now) |}.
Definition add_perf_op (r : nat) (p : heap_performance) : heap_performance :=
  {| blueprint_id := blueprint_id p; blueprint_type := blueprint_type p;
     perf_start := perf_start p; perf_operations := perf_operations p ++ [r] |}.

(** [model_dump] follows the references. *)
Definition dump_op (s : PerformanceManager) (o : heap_op) : operation_dump :=
  {| op_id := op_id o; op_name := op_name o; op_type := op_type o; op_start := op_start o;
     op_end := op_end o; op_duration := op_duration o;
     op_calls := omap (λ r, call_heap s !! r) (op_calls o) |}.
Definition dump_performance (s : PerformanceManager) (p : heap_performance) : performance_dump :=
  {| blueprint_id := blueprint_id p; blueprint_type := blueprint_type p; perf_start := perf_start p;
     perf_operations := omap (λ r, dump_op s <$> op_heap s !! r) (perf_operations p) |}.

#[export] Instance performance_document : Document performance_dump := {
  doc_field p f := if String.eqb f "blueprint_id" then Some (blueprint_id p) else None
}.

Section performance.
Context {C : Type} `{!Mongo performance_dump C}.
Implicit Types (s : PerformanceManager).

(** The manager and the [performance] collection. *)
#[local] Notation PM := (M (PerformanceManager * C)).

Definition get_pm : PM PerformanceManager := w ← getS; mret w.1.
Definition update_pm (f : PerformanceManager → PerformanceManager) : PM unit :=
  modifyS (λ w, (f w.1, w.2)).

(** *** Loading and persisting *)

(** [BlueprintPerformance.model_validate]: fresh objects for the operations and their calls. *)
Definition load_op (o : operation_dump) s : nat * PerformanceManager :=
  let refs := seq (length (call_heap s)) (length (op_calls o)) in
  let s := set_call_heap (call_heap s ++ op_calls o) s in
  (length (op_heap s),
   set_op_heap (op_heap s ++
     [{| op_id := op_id o; op_name := op_name o; op_type := op_type o; op_start := op_start o;
         op_end := op_end o; op_duration := op_duration o; op_calls := refs |}]) s).

Fixpoint load_ops (l : list operation_dump) s : list nat * PerformanceManager :=
  match l with
  | [] => ([], s)
  | o :: l' => let (r, s) := load_op o s in let (rs, s) := load_ops l' s in (r :: rs, s)
  end.

Definition load_performance (p : performance_dump) s : heap_performance * PerformanceManager :=
  let (refs, s) := load_ops (perf_operations p) s in
  ({| blueprint_id := blueprint_id p; blueprint_type := blueprint_type p;
      perf_start := perf_start p; perf_operations := refs |}, s).

(** [_load_from_db], given the ids of the blueprints found in the blueprint collection. *)
Fixpoint _load_from_db (blueprints_to_load : list string) : PM unit :=
  match blueprints_to_load with
  | [] => mret tt
  | id :: rest =>
      w ← getS;
      match find_one_in_collection (QField "blueprint_id" id) w.2 with
      | Some element =>
          let (p, s) := load_performance element w.1 in
          update_pm (λ _, set_performance_dict (od_set (blueprint_id element) p (performance_dict s)) s)
      | None => mret tt
      end ;;
      _load_from_db rest
  end.

(** [PerformanceManager()]. *)
Definition new_manager : PerformanceManager :=
  {| performance_dict := []; pending_operations := []; operations := []; provider_calls := [];
     op_heap := []; call_heap := [] |}.

(** [update_one(..., upsert=True)] for every blueprint. *)
Definition persist_one s (kp : string * heap_performance) (c : C) : C :=
  update_in_collection (dump_performance s kp.2) (QField "blueprint_id" kp.1) c.
Definition _persist_to_db : PM unit :=
  modifyS (λ w, (w.1, fold_left (λ c kp, persist_one w.1 kp c) (performance_dict w.1) w.2)).

Definition get_blue_performance (id : string) : PM performance_dump :=
  w ← getS;
  match find_one_in_collection (QField "blueprint_id" id) w.2 with
  | Some element => mret element
  | None => raise ValueError
  end.

(** *** Operations *)
Definition get_pending_operation_id (id : string) : PM (option string) :=
  s ← get_pm; mret (od_get id (pending_operations s)).

Definition add_blueprint (id blue_type : string) (now : Z) : PM unit :=
  update_pm (λ s, set_performance_dict
    (od_set id {| blueprint_id := id; blueprint_type := blue_type; perf_start := now;
                  perf_operations := [] |} (performance_dict s)) s).

Definition start_operation (id : string) (operation_type : BlueprintPerformanceType)
  (name : string) (uuid : string) (now : Z) : PM (option string) :=
  s ← get_pm;
  match od_get id (performance_dict s) with
  | None => mret None
  | Some p =>
      let r := length (op_heap s) in
      update_pm (λ s, set_op_heap (op_heap s ++
        [{| op_id := uuid; op_name := name; op_type := operation_type; op_start := now;
            op_end := None; op_duration := None; op_calls := [] |}]) s) ;;
      update_pm (λ s, set_performance_dict (od_set id (add_perf_op r p) (performance_dict s)) s) ;;
      update_pm (λ s, set_operations (od_set uuid r (operations s)) s) ;;
      update_pm (λ s, set_pending_operations (od_set id uuid (pending_operations s)) s) ;;
      mret (Some uuid)
  end.

Definition find_in_performance s (id : string) (p : heap_performance) : option nat :=
  find (λ r, match op_heap s !! r with Some o => String.eqb (op_id o) id | None => false end)
       (perf_operations p).

(** The two nested loops of [_find_operation]. *)
Fixpoint find_loop s (id : string) (l : list heap_performance) : option (nat * string) :=
  match l with
  | [] => None
  | p :: l' => match find_in_performance s id p with
               | Some r => Some (r, blueprint_id p)
               | None => find_loop s id l'
               end
  end.

(** An operation identifier of [None] is equal to no identifier. *)
Definition _find_operation s (id : option string) : option (nat * string) :=
  match id with
  | Some id => find_loop s id (od_values (performance_dict s))
  | None => None
  end.

Definition end_operation (id : option string) (now : Z) : PM unit :=
  s ← get_pm;
  match _find_operation s id with
  | None => mret tt
  | Some (r, blueprint) =>
      update_pm (λ s, set_op_heap (alter (end_op now) r (op_heap s)) s) ;;
      s ← get_pm;
      if od_in blueprint (pending_operations s) then
        update_pm (λ s, set_pending_operations (od_pop blueprint (pending_operations s)) s) ;;
        _persist_to_db
      else raise KeyError
  end.

(** *** Provider calls *)
Definition start_provider_call (operation_id : option string) (name : string)
  (call_info : list (string * string)) (uuid : string) (now : Z) : PM (option string) :=
  s ← get_pm;
  match operation_id ≫= λ i, od_get i (operations s) with
  | None => mret None
  | Some r =>
      let c := length (call_heap s) in
      update_pm (λ s, set_call_heap (call_heap s ++
        [{| call_id := uuid; method_name := name; info := call_info; call_start := now;
            call_end := None; call_duration := None |}]) s) ;;
      update_pm (λ s, set_provider_calls (od_set uuid c (provider_calls s)) s) ;;
      update_pm (λ s, set_op_heap (alter (add_op_call c) r (op_heap s)) s) ;;
      mret (Some uuid)
  end.

Definition end_provider_call (provider_call_id : option string) (now : Z) : PM unit :=
  s ← get_pm;
  match provider_call_id ≫= λ i, od_get i (provider_calls s) with
  | None => mret tt
  | Some c => update_pm (λ s, set_call_heap (alter (end_call now) c (call_heap s)) s)
  end.

(** ** The invariant

    Operation identifiers are unique, references point into the heap, a pending operation is one
    of its blueprint. *)
Definition op_named s (r : nat) (id : string) : Prop := ∃ o, op_heap s !! r = Some o ∧ op_id o = id.

(** The references of all the blueprints. *)
Definition all_refs s : list nat := od_values (performance_dict s) ≫= perf_operations.

Record pm_ok s : Prop := {
  pm_keys : NoDup (od_keys (performance_dict s));
  pm_named : ∀ k p, (k, p) ∈ performance_dict s → blueprint_id p = k;
  pm_refs : ∀ r, r ∈ all_refs s → (r < length (op_heap s))%nat;
  pm_ids : NoDup (op_id <$> op_heap s);
  pm_disjoint : NoDup (all_refs s);
  pm_pending_keys : NoDup (od_keys (pending_operations s));
  pm_pending : ∀ b i, od_get b (pending_operations s) = Some i →
    ∃ p r, od_get b (performance_dict s) = Some p ∧ r ∈ perf_operations p ∧ op_named s r i;
  pm_index : ∀ i r, od_get i (operations s) = Some r → op_named s r i
}.

(** *** Finding an operation *)
Lemma find_in_performance_Some s id p r :
  find_in_performance s id p = Some r → r ∈ perf_operations p ∧ op_named s r id.
Proof.
  unfold find_in_performance. intros [Hin Hp]%find_some. split; [by apply list_elem_of_In|].
  destruct (op_heap s !! r) as [o|] eqn:E; [|done]. apply String.eqb_eq in Hp. by exists o.
Qed.

Lemma find_in_performance_None s id p r :
  find_in_performance s id p = None → r ∈ perf_operations p → ¬ op_named s r id.
Proof.
  unfold find_in_performance. intros Hf Hr (o & Ho & Hi).
  apply list_elem_of_In in Hr. pose proof (find_none _ _ Hf r Hr) as Hn. simpl in Hn.
  rewrite Ho in Hn. by apply String.eqb_neq in Hn.
Qed.

Lemma find_loop_Some s id l r b :
  find_loop s id l = Some (r, b) →
  ∃ p, p ∈ l ∧ r ∈ perf_operations p ∧ op_named s r id ∧ b = blueprint_id p.
Proof.
  induction l as [|p l IH]; simpl; [done|].
  destruct (find_in_performance s id p) as [r'|] eqn:E.
  - intros [= -> <-]. apply find_in_performance_Some in E as [? ?]. exists p. split_and!; try done. left.
  - intros (p' & Hp & H)%IH. exists p'. split; [by right|done].
Qed.

Lemma find_loop_None s id l p r :
  find_loop s id l = None → p ∈ l → r ∈ perf_operations p → ¬ op_named s r id.
Proof.
  induction l as [|p' l IH]; simpl; [by intros _ ?%not_elem_of_nil|].
  destruct (find_in_performance s id p') as [r'|] eqn:E; [done|].
  intros Hl [->|Hp]%elem_of_cons; [by apply find_in_performance_None|by apply IH].
Qed.

Lemma op_named_inj s r r' id : pm_ok s → op_named s r id → op_named s r' id → r = r'.
Proof.
  intros Hs (o & Ho & Hi) (o' & Ho' & Hi'). eapply NoDup_lookup; [apply (pm_ids _ Hs)| |].
  - by rewrite list_lookup_fmap, Ho.
  - rewrite list_lookup_fmap, Ho'. simpl. congruence.
Qed.

Lemma bind_owner {A B} (f : A → list B) (l : list A) x y r :
  NoDup (l ≫= f) → x ∈ l → y ∈ l → r ∈ f x → r ∈ f y → x = y.
Proof.
  induction l as [|a l IH]; [by intros _ ?%not_elem_of_nil|].
  change ((a :: l) ≫= f) with (f a ++ (l ≫= f)). intros (_ & Hd & Hl)%NoDup_app.
  intros [->|Hx]%elem_of_cons [->|Hy]%elem_of_cons Hrx Hry; [done| | |by apply IH].
  - destruct (Hd r Hrx). apply list_elem_of_bind. by exists y.
  - destruct (Hd r Hry). apply list_elem_of_bind. by exists x.
Qed.

Lemma find_operation_run s b p r id :
  pm_ok s → od_get b (performance_dict s) = Some p → r ∈ perf_operations p → op_named s r id →
  _find_operation s (Some id) = Some (r, b).
Proof.
  intros Hs Hb Hr Hn. apply od_get_elem in Hb; [|apply (pm_keys _ Hs)].
  assert (Hp : p ∈ od_values (performance_dict s)) by exact (list_elem_of_fmap_2 snd _ _ Hb).
  simpl. destruct (find_loop s id _) as [[r' b']|] eqn:E.
  - apply find_loop_Some in E as (p' & Hp' & Hr' & Hn' & ->).
    assert (r' = r) as -> by by eapply op_named_inj.
    assert (p' = p) as -> by by eapply (bind_owner perf_operations); [apply (pm_disjoint _ Hs)|..].
    by rewrite (pm_named _ Hs b p Hb).
  - by destruct (find_loop_None s id _ p r E Hp Hr Hn).
Qed.

(** *** The operations keep the invariant *)
Lemma alter_ids (f : heap_op → heap_op) r (h : list heap_op) :
  (∀ o, op_id (f o) = op_id o) → op_id <$> alter f r h = op_id <$> h.
Proof.
  intros Hf. apply list_eq. intros i. rewrite !list_lookup_fmap.
  destruct (decide (i = r)) as [->|Hne].
  - rewrite list_lookup_alter_eq. destruct (h !! r); simpl; by rewrite ?Hf.
  - by rewrite list_lookup_alter_ne.
Qed.

Lemma op_named_ids s s' r id :
  op_id <$> op_heap s' = op_id <$> op_heap s → op_named s r id → op_named s' r id.
Proof.
  intros Hids (o & Ho & Hi). assert (H : (op_id <$> op_heap s') !! r = Some id).
  { rewrite Hids, list_lookup_fmap, Ho. by rewrite <-Hi. }
  rewrite list_lookup_fmap in H. apply fmap_Some in H as (o' & Ho' & ->). by exists o'.
Qed.

(** Changes that keep the identifiers of the operations and what refers to them. *)
Lemma pm_ok_same s s' :
  performance_dict s' = performance_dict s → operations s' = operations s →
  op_id <$> op_heap s' = op_id <$> op_heap s →
  NoDup (od_keys (pending_operations s')) →
  (∀ b i, od_get b (pending_operations s') = Some i → od_get b (pending_operations s) = Some i) →
  pm_ok s → pm_ok s'.
Proof.
  intros Hd Ho Hids Hk Hp Hs. constructor; unfold all_refs; rewrite ?Hd, ?Ho, ?Hids; try apply Hs; try done.
  - intros r Hr. apply (pm_refs _ Hs) in Hr. rewrite <-(length_fmap op_id), Hids. by rewrite length_fmap.
  - intros b i Hb%Hp. destruct (pm_pending _ Hs b i Hb) as (p & r & H1 & H2 & H3).
    exists p, r. split_and!; [done..|]. by eapply op_named_ids.
  - intros i r Hi%(pm_index _ Hs). by eapply op_named_ids.
Qed.

Definition started s (b : string) (p : heap_performance) (o : heap_op) : PerformanceManager :=
  {| performance_dict := od_set b (add_perf_op (length (op_heap s)) p) (performance_dict s);
     pending_operations := od_set b (op_id o) (pending_operations s);
     operations := od_set (op_id o) (length (op_heap s)) (operations s);
     provider_calls := provider_calls s; op_heap := op_heap s ++ [o]; call_heap := call_heap s |}.

Definition new_op (t : BlueprintPerformanceType) (n uuid : string) (now : Z) : heap_op :=
  {| op_id := uuid; op_name := n; op_type := t; op_start := now; op_end := None;
     op_duration := None; op_calls := [] |}.

Lemma start_operation_run b t n uuid now s (c : C) :
  start_operation b t n uuid now (s, c) =
  match od_get b (performance_dict s) with
  | Some p => (Ok (Some uuid), (started s b p (new_op t n uuid now), c))
  | None => (Ok None, (s, c))
  end.
Proof. unfold start_operation, get_pm, update_pm. run_M. by destruct (od_get b (performance_dict s)). Qed.

Lemma refs_set b p r (d : list (string * heap_performance)) :
  od_get b d = Some p →
  Permutation (od_values (od_set b (add_perf_op r p) d) ≫= perf_operations)
              (r :: (od_values d ≫= perf_operations)).
Proof.
  induction d as [|[b' p'] d IH]; simpl; [done|]. destruct (String.eqb b' b).
  - intros [= ->]. change (Permutation ((perf_operations p ++ [r]) ++ (od_values d ≫= perf_operations))
      (r :: perf_operations p ++ (od_values d ≫= perf_operations))).
    rewrite <-app_assoc. symmetry. apply Permutation_middle.
  - intros H%IH. change (Permutation (perf_operations p' ++
        (od_values (od_set b (add_perf_op r p) d) ≫= perf_operations))
      (r :: perf_operations p' ++ (od_values d ≫= perf_operations))).
    rewrite H. symmetry. apply Permutation_middle.
Qed.

Lemma started_ok s b p o :
  pm_ok s → od_get b (performance_dict s) = Some p → op_id o ∉ op_id <$> op_heap s →
  pm_ok (started s b p o).
Proof.
  intros Hs Hb Hfresh.
  assert (Hold : ∀ r i, op_named s r i → op_named (started s b p o) r i).
  { intros r i (o' & Ho' & Hi). exists o'. split; [|done]. simpl. by apply lookup_app_l_Some. }
  assert (Hnew : op_named (started s b p o) (length (op_heap s)) (op_id o)).
  { exists o. split; [|done]. simpl. rewrite lookup_app_r, Nat.sub_diag by lia. done. }
  assert (Hperm : Permutation (all_refs (started s b p o)) (length (op_heap s) :: all_refs s)).
  { by apply refs_set. }
  constructor; simpl.
  - apply od_keys_set_NoDup, Hs.
  - intros k p' [[-> ->]|Hin]%od_set_elem; simpl; [|by apply (pm_named _ Hs)].
    apply (pm_named _ Hs). by apply od_get_elem; [apply Hs|].
  - intros r. rewrite Hperm, length_app. intros [->|Hr]%elem_of_cons; simpl; [lia|].
    apply (pm_refs _ Hs) in Hr. lia.
  - rewrite fmap_app. apply NoDup_app. split; [apply Hs|]. split; [|by apply NoDup_singleton].
    intros x Hx Hx'%list_elem_of_singleton. by subst.
  - rewrite Hperm. apply NoDup_cons. split; [|apply Hs]. intros Hr%(pm_refs _ Hs). lia.
  - apply od_keys_set_NoDup, Hs.
  - intros b' i. rewrite od_get_set. destruct (String.eqb_spec b b') as [<-|Hne].
    + intros [= <-]. eexists _, _. split; [apply od_get_set_eq|]. split; [|exact Hnew].
      simpl. apply elem_of_app. right. left.
    + intros (p' & r & H1 & H2 & H3)%(pm_pending _ Hs). exists p', r.
      rewrite od_get_set_ne by done. auto.
  - intros i r. rewrite od_get_set. destruct (String.eqb_spec (op_id o) i) as [<-|Hne].
    + by intros [= <-].
    + intros H%(pm_index _ Hs). auto.
Qed.

(** *** Persisting *)
Lemma persist_fold s (l : list (string * heap_performance)) (c : C) :
  NoDup (od_keys l) → (∀ k p, (k, p) ∈ l → blueprint_id p = k) → field_unique "blueprint_id" c →
  let c' := fold_left (λ c kp, persist_one s kp c) l c in
  field_unique "blueprint_id" c' ∧
  (∀ k p, (k, p) ∈ l → by_field "blueprint_id" k c' = [dump_performance s p]) ∧
  (∀ j, j ∉ od_keys l → Permutation (by_field "blueprint_id" j c') (by_field "blueprint_id" j c)).
Proof.
  revert c; induction l as [|[k p] l IH]; intros c Hd Hn Hu; simpl.
  { split; [done|]. split; [by intros ? ? ?%not_elem_of_nil|done]. }
  apply NoDup_cons in Hd as [Hk Hd].
  destruct (update_by_field "blueprint_id" k (dump_performance s p) c Hu) as (H1 & H2 & H3).
  { simpl. f_equal. apply Hn. left. }
  destruct (IH (persist_one s (k, p) c)) as (I1 & I2 & I3);
    [done|intros; apply Hn; by right|done|].
  split; [done|]. split.
  - intros k' p' [[= -> ->]|Hin]%elem_of_cons; [|by apply I2].
    apply Permutation_singleton_r. rewrite (I3 k Hk). unfold persist_one. simpl. by rewrite H1.
  - intros j [Hne Hj]%not_elem_of_cons. rewrite (I3 j Hj). by apply H2.
Qed.

Definition ended s (r : nat) (b : string) (now : Z) : PerformanceManager :=
  {| performance_dict := performance_dict s;
     pending_operations := od_pop b (pending_operations s); operations := operations s;
     provider_calls := provider_calls s; op_heap := alter (end_op now) r (op_heap s);
     call_heap := call_heap s |}.

(** What [end_operation] does, by what it finds. *)
Lemma end_operation_run id now s (c : C) :
  end_operation id now (s, c) =
  match _find_operation s id with
  | None => (Ok tt, (s, c))
  | Some (r, b) =>
      if od_in b (pending_operations s) then
        (Ok tt, (ended s r b now,
                 fold_left (λ c kp, persist_one (ended s r b now) kp c) (performance_dict s) c))
      else (Raise KeyError, (set_op_heap (alter (end_op now) r (op_heap s)) s, c))
  end.
Proof.
  unfold end_operation, get_pm, update_pm, _persist_to_db. run_M.
  destruct (_find_operation s id) as [[r b]|]; [|done]. simpl.
  by destruct (od_in b (pending_operations s)).
Qed.

Lemma ended_ok s r b now : pm_ok s → pm_ok (ended s r b now).
Proof.
  intros Hs. apply (pm_ok_same s); [done|done| | | |done]; simpl.
  - by apply alter_ids.
  - by apply od_keys_pop_NoDup, Hs.
  - intros b' i. rewrite od_get_pop by apply Hs. by destruct (String.eqb b b').
Qed.

Lemma end_operation_preserves id now : preserves (λ w : PerformanceManager * C, pm_ok w.1) (end_operation id now).
Proof.
  intros [s c] Hs. rewrite end_operation_run. destruct (_find_operation s id) as [[r b]|]; [|done].
  destruct (od_in b _); [by apply ended_ok|]. simpl in *.
  apply (pm_ok_same s); [done|done|by apply alter_ids|apply Hs|done|done].
Qed.

(** Ending the pending operation of a blueprint persists every blueprint. *)
Lemma end_operation_pending id now s (c : C) r b :
  pm_ok s → field_unique "blueprint_id" c → _find_operation s id = Some (r, b) →
  od_in b (pending_operations s) = true →
  let s' := ended s r b now in
  ∃ c', end_operation id now (s, c) = (Ok tt, (s', c')) ∧ field_unique "blueprint_id" c' ∧
    ∀ k p, (k, p) ∈ performance_dict s →
      find_one_in_collection (QField "blueprint_id" k) c' = Some (dump_performance s' p).
Proof.
  intros Hs Hu Hf Hb s'. eexists. rewrite end_operation_run, Hf, Hb. split; [reflexivity|].
  destruct (persist_fold s' (performance_dict s) c) as (H1 & H2 & _); [apply Hs|apply Hs|done|].
  split; [done|]. intros k p Hin. apply find_one_by_field. by apply H2.
Qed.

Lemma alter_last {A} (f : A → A) (h : list A) x : alter f (length h) (h ++ [x]) = h ++ [f x].
Proof.
  induction h as [|a h IH]; [done|].
  change (a :: alter f (length h) (h ++ [x]) = a :: (h ++ [f x])). by rewrite IH.
Qed.

(** Appending an operation to the heap does not change the dumps that do not refer to it. *)
Lemma dump_old s s' p o :
  op_heap s' = op_heap s ++ [o] → call_heap s' = call_heap s →
  (∀ r, r ∈ perf_operations p → (r < length (op_heap s))%nat) →
  omap (λ r, dump_op s' <$> op_heap s' !! r) (perf_operations p) =
  omap (λ r, dump_op s <$> op_heap s !! r) (perf_operations p).
Proof.
  intros Hh Hc Hr. apply omap_ext_in. intros r Hin%Hr. rewrite Hh, lookup_app_l by done.
  unfold dump_op. by rewrite Hc.
Qed.

Lemma refs_bound s b p r :
  pm_ok s → od_get b (performance_dict s) = Some p → r ∈ perf_operations p →
  (r < length (op_heap s))%nat.
Proof.
  intros Hs Hb Hr. apply (pm_refs _ Hs), list_elem_of_bind. exists p. split; [done|].
  apply od_get_elem in Hb; [|apply Hs]. exact (list_elem_of_fmap_2 snd _ _ Hb).
Qed.
End performance.

(** ** Properties *)

(** An operation started and ended on a known blueprint is recorded once.  With a fresh
    identifier, the pair of calls succeeds, appends to the blueprint's metrics exactly one
    operation carrying its type, name, times and duration, leaves the metrics of every other
    blueprint as they were, leaves no pending operation for the blueprint and those of the others
    alone, and the database then holds the metrics of every blueprint as they are in memory. *)
Theorem operation_recorded {C : Type} `{!Mongo performance_dump C} (s : PerformanceManager) (c : C)
  (b : string) (p : heap_performance) (t : BlueprintPerformanceType) (n uuid : string) (t0 t1 : Z) :
  pm_ok s → field_unique "blueprint_id" c →
  od_get b (performance_dict s) = Some p → uuid ∉ op_id <$> op_heap s →
  ∃ s' c', (o ← start_operation b t n uuid t0; end_operation o t1) (s, c) = (Ok tt, (s', c')) ∧
    pm_ok s' ∧
    (∀ b', od_get b' (pending_operations s') =
           if String.eqb b b' then None else od_get b' (pending_operations s)) ∧
    (get_blue_performance b (s', c')).1 =
      Ok {| blueprint_id := b; blueprint_type := blueprint_type p; perf_start := perf_start p;
            perf_operations := perf_operations (dump_performance s p) ++
              [{| op_id := uuid; op_name := n; op_type := t; op_start := t0; op_end := Some t1;
                  op_duration := Some (duration_ms t0 t1); op_calls := [] |}] |} ∧
    (∀ b' p', b' ≠ b → od_get b' (performance_dict s) = Some p' →
       (get_blue_performance b' (s', c')).1 = Ok (dump_performance s p')).
Proof.
  intros Hs Hu Hb Hfresh. set (o := new_op t n uuid t0).
  assert (Hs1 : pm_ok (started s b p o)) by by apply started_ok.
  assert (Hb1 : od_get b (performance_dict (started s b p o)) = Some (add_perf_op (length (op_heap s)) p))
    by apply od_get_set_eq.
  assert (Hf : _find_operation (started s b p o) (Some uuid) = Some (length (op_heap s), b)).
  { apply (find_operation_run _ b _ _ _ Hs1 Hb1).
    - apply elem_of_app. right. left.
    - exists o. split; [|done]. simpl. by rewrite lookup_app_r, Nat.sub_diag by lia. }
  assert (Hp : od_in b (pending_operations (started s b p o)) = true).
  { unfold od_in. simpl. by rewrite od_get_set_eq. }
  destruct (end_operation_pending (Some uuid) t1 _ c _ _ Hs1 Hu Hf Hp) as (c' & Hend & _ & Hdb).
  set (s' := ended _ _ _ _) in *. exists s', c'.
  assert (Hh : op_heap s' = op_heap s ++ [end_op t1 o]) by by apply alter_last.
  assert (Hread : ∀ k q, od_get k (performance_dict s') = Some q →
            (get_blue_performance k (s', c')).1 = Ok (dump_performance s' q)).
  { intros k q Hq. apply od_get_elem in Hq; [|apply Hs1].
    unfold get_blue_performance. run_M. by rewrite (Hdb k q Hq). }
  split; [|split; [|split; [|split]]].
  - erewrite bind_Ok; [exact Hend|]. by rewrite start_operation_run, Hb.
  - by apply ended_ok.
  - intros b'. simpl. rewrite od_get_pop by apply Hs1. simpl. rewrite od_get_set.
    by destruct (String.eqb b b').
  - rewrite (Hread b _ Hb1). f_equal. unfold dump_performance. f_equal.
    + apply (pm_named _ Hs b p). by apply od_get_elem; [apply Hs|].
    + change (perf_operations (add_perf_op (length (op_heap s)) p)) with
        (perf_operations p ++ [length (op_heap s)]).
      rewrite omap_app. f_equal.
      * apply (dump_old s s' p (end_op t1 o)); [done|done|]. intros r. by apply (refs_bound s b).
      * assert (op_heap s' !! length (op_heap s) = Some (end_op t1 o)) as Hl.
        { by rewrite Hh, lookup_app_r, Nat.sub_diag by lia. }
        change (match dump_op s' <$> op_heap s' !! length (op_heap s) with
                | Some y => [y] | None => [] end = [end_op t1 (dump_op s' o)]).
        by rewrite Hl.
  - intros b' p' Hne Hb'. rewrite (Hread b' p'); [|simpl; by rewrite od_get_set_ne].
    f_equal. unfold dump_performance. f_equal.
    apply (dump_old s s' p' (end_op t1 o)); [done|done|]. intros r. by apply (refs_bound s b').
Qed.

(** Overlapping operations on one blueprint break the accounting.  The manager keeps one
    pending operation per blueprint: when two operations overlap, the end of the first to finish
    clears the entry of the other, and the end of the other raises [KeyError] after it has been
    timed and before it is persisted. *)
Theorem overlapping_operations_raise {C : Type} `{!Mongo performance_dump C} (s : PerformanceManager)
  (c : C) (b : string) (p : heap_performance) (t : BlueprintPerformanceType) (n u1 u2 : string)
  (t0 t1 t2 t3 : Z) :
  pm_ok s → od_get b (performance_dict s) = Some p →
  u1 ∉ op_id <$> op_heap s → u2 ∉ op_id <$> op_heap s → u1 ≠ u2 →
  ∃ s' c',
    (o1 ← start_operation b t n u1 t0; o2 ← start_operation b t n u2 t1;
     end_operation o2 t2 ;; end_operation o1 t3) (s, c) = (Raise KeyError, (s', c')) ∧
    od_get b (pending_operations s') = None.
Proof.
  intros Hs Hb H1 H2 Hne. set (o1 := new_op t n u1 t0). set (o2 := new_op t n u2 t1).
  set (s1 := started s b p o1).
  assert (Hs1 : pm_ok s1) by by apply started_ok.
  assert (Hb1 : od_get b (performance_dict s1) = Some (add_perf_op (length (op_heap s)) p))
    by apply od_get_set_eq.
  set (p1 := add_perf_op (length (op_heap s)) p) in *. set (s2 := started s1 b p1 o2).
  assert (Hs2 : pm_ok s2).
  { apply started_ok; [done|done|]. simpl. rewrite fmap_app. intros [H|H]%elem_of_app; [done|].
    apply list_elem_of_singleton in H. done. }
  assert (Hb2 : od_get b (performance_dict s2) = Some (add_perf_op (length (op_heap s1)) p1))
    by apply od_get_set_eq.
  assert (Hin : ∀ r, r = length (op_heap s) ∨ r = length (op_heap s1) →
            r ∈ perf_operations (add_perf_op (length (op_heap s1)) p1)).
  { intros r Hr. simpl. rewrite !elem_of_app, !list_elem_of_singleton. naive_solver. }
  assert (Hn1 : op_named s2 (length (op_heap s)) u1).
  { exists o1. split; [|done]. simpl. rewrite <-app_assoc, lookup_app_r, Nat.sub_diag by lia. done. }
  assert (Hn2 : op_named s2 (length (op_heap s1)) u2).
  { exists o2. split; [|done]. simpl.
    by rewrite lookup_app_r, Nat.sub_diag by (rewrite length_app; lia). }
  pose proof (find_operation_run s2 b _ _ u2 Hs2 Hb2 (Hin _ (or_intror eq_refl)) Hn2) as Hf2.
  set (s3 := ended s2 (length (op_heap s1)) b t2).
  assert (Hs3 : pm_ok s3) by by apply ended_ok.
  pose proof (find_operation_run s3 b _ _ u1 Hs3 Hb2 (Hin _ (or_introl eq_refl))) as Hf1.
  assert (Hp3 : od_get b (pending_operations s3) = None).
  { simpl. rewrite od_get_pop by apply Hs2. by rewrite String.eqb_refl. }
  assert (E1 : start_operation b t n u1 t0 (s, c) = (Ok (Some u1), (s1, c)))
    by by rewrite start_operation_run, Hb.
  assert (E2 : start_operation b t n u2 t1 (s1, c) = (Ok (Some u2), (s2, c)))
    by by rewrite start_operation_run, Hb1.
  assert (E3 : ∃ c3, end_operation (Some u2) t2 (s2, c) = (Ok tt, (s3, c3))).
  { rewrite end_operation_run, Hf2. unfold od_in. simpl. rewrite od_get_set_eq. by eexists. }
  destruct E3 as [c3 E3]. eexists _, _. split.
  - erewrite bind_Ok by exact E1. erewrite bind_Ok by exact E2. erewrite bind_Ok by exact E3.
    rewrite end_operation_run, Hf1; [|eapply op_named_ids; [|exact Hn1]; by apply alter_ids].
    unfold od_in. by rewrite Hp3.
  - exact Hp3.
Qed.

Definition example_manager : PerformanceManager :=
  set_performance_dict [("BLUE1", {| blueprint_id := "BLUE1"; blueprint_type := "k8s";
                                     perf_start := 0; perf_operations := [] |})] new_manager.

Lemma example_manager_ok : pm_ok example_manager.
Proof.
  constructor; simpl; try (apply (bool_decide_unpack _); vm_compute; exact I); try done.
  - by intros k p [= -> ->]%list_elem_of_singleton.
  - by intros r ?%not_elem_of_nil.
Qed.

Lemma operation_recorded_witness :
  ∃ s' c', (o ← start_operation "BLUE1" DAY0 "create" "u1" 0; end_operation o 1500000)
             (example_manager, ([] : list performance_dump)) = (Ok tt, (s', c')) ∧
           od_get "BLUE1" (pending_operations s') = None.
Proof.
  destruct (operation_recorded example_manager ([] : list performance_dump) "BLUE1"
    {| blueprint_id := "BLUE1"; blueprint_type := "k8s"; perf_start := 0; perf_operations := [] |}
    DAY0 "create" "u1" 0 1500000) as (s' & c' & H1 & _ & H2 & _).
  - exact example_manager_ok.
  - intros i. apply Nat.le_0_l.
  - reflexivity.
  - by intros ?%not_elem_of_nil.
  - exists s', c'. split; [exact H1|]. exact (H2 "BLUE1").
Defined.

Lemma overlapping_operations_raise_witness :
  ∃ s' c',
    (o1 ← start_operation "BLUE1" DAY2 "a" "u1" 0; o2 ← start_operation "BLUE1" DAY2 "a" "u2" 1;
     end_operation o2 2 ;; end_operation o1 3) (example_manager, ([] : list performance_dump)) =
    (Raise KeyError, (s', c')) ∧ od_get "BLUE1" (pending_operations s') = None.
Proof.
  apply (overlapping_operations_raise example_manager ([] : list performance_dump) "BLUE1"
    {| blueprint_id := "BLUE1"; blueprint_type := "k8s"; perf_start := 0; perf_operations := [] |}
    DAY2 "a" "u1" "u2" 0 1 2 3).
  - exact example_manager_ok.
  - reflexivity.
  - by intros ?%not_elem_of_nil.
  - by intros ?%not_elem_of_nil.
  - discriminate.
Defined.
