(* ===== verification/Blueprint.v ===== *)
(** * The blueprint object

    blueprints_ng/blueprint_ng.py (with resources.py for the resource classes): the base model of
    a blueprint, its status, its registered resources and children, and its serialization.  A
    document stores a resource once, in the registered resources; wherever else the resource
    occurs, the document has the string "REF=<id>", and loading puts the registered object back.

    Objects are trees of values; an object carries a tag that stands for its identity, so that
    "the same object" can be told from an equal one.  The classes of the blueprint modules are
    open-ended: the hierarchy, pydantic's validation and the construction of a provider's client
    are an interface. *)

From stdpp Require Import base list strings gmap.
From Stdlib Require Import ZArith Lia Ascii.
From S2P Require Import Prelude Ipam IPv4Text Registry NetworkModels VimModels Database PrometheusModels K8sModels TopologyModel Topology.

Open Scope Z_scope.

(** ** Values *)
Inductive val : Type :=
| PNone
| PBool (b : bool)
| PInt (z : Z)
| PStr (s : string)
| PEnum (e : string)
| PList (l : list val)
| PDict (d : list (string * val))
| PObj (cls : string) (tag : nat) (fields : list (string * val)).

(** A step of a path: a key of a dictionary or the name of a field, or an index. *)
Inductive pkey := KName (s : string) | KIdx (n : nat).

#[export] Instance pkey_eq_dec : EqDecision pkey.
Proof. solve_decision. Defined.

(** *** Classes *)
Definition Resource : string := "nfvcl.blueprints_ng.resources.Resource".
Definition ResourceDeployable : string := "nfvcl.blueprints_ng.resources.ResourceDeployable".
Definition ResourceConfiguration : string := "nfvcl.blueprints_ng.resources.ResourceConfiguration".
Definition VmResource : string := "nfvcl.blueprints_ng.resources.VmResource".

Class Pydantic := {
  mro : string → list string;                      (* the class and its ancestors *)
  validate : string → val → result val;            (* get_class_from_path(cls).model_validate(v) *)
  state_class : string → string;                   (* the state type of a blueprint class *)
  default_state : string → val;                    (* state_type() *)
  connect : VimTypeEnum → Z → result unit          (* the client of a virtualization provider *)
}.

Section blueprint.
Context `{Pydantic}.

(** [isinstance(v, cls)], for a class of objects. *)
Definition isinstance (cls : string) (v : val) : bool :=
  match v with PObj c _ _ => py_in String.eqb cls (mro c) | _ => false end.

(** [model_dump]: objects become dictionaries, all the way down. *)
Fixpoint dump (v : val) : val :=
  match v with
  | PList l => PList (map dump l)
  | PDict d => PDict (map (λ kv, (kv.1, dump kv.2)) d)
  | PObj _ _ fs => PDict (map (λ kv, (kv.1, dump kv.2)) fs)
  | _ => v
  end.

(** ** Paths *)

(** [__find_field_occurrences]: the paths to the values that pass the test, outermost first. *)
Fixpoint find_field_occurrences (check_fun : val → bool) (path : list pkey) (obj : val) :
  list (list pkey) :=
  (if check_fun obj then [path] else []) ++
  match obj with
  | PDict d => flat_map (λ kv, find_field_occurrences check_fun (path ++ [KName kv.1]) kv.2) d
  | PList l =>
      (fix items (idx : nat) (l : list val) : list (list pkey) :=
         match l with
         | [] => []
         | item :: l' => find_field_occurrences check_fun (path ++ [KIdx idx]) item ++ items (S idx) l'
         end) 0%nat l
  | PObj _ _ fs => flat_map (λ kv, find_field_occurrences check_fun (path ++ [KName kv.1]) kv.2) fs
  | _ => []
  end.

(** [sorted(occ, key=len, reverse=True)], which is stable. *)
Fixpoint insert_path (p : list pkey) (l : list (list pkey)) : list (list pkey) :=
  match l with
  | [] => [p]
  | q :: l' => if (length q <=? length p)%nat then p :: l else q :: insert_path p l'
  end.
Fixpoint sort_paths (l : list (list pkey)) : list (list pkey) :=
  match l with [] => [] | p :: l' => insert_path p (sort_paths l') end.

(** Replace what is found at a path; only dictionaries and lists are indexed. *)
Fixpoint alter_path (g : val → result val) (path : list pkey) (v : val) : result val :=
  match path with
  | [] => g v
  | KName k :: path' =>
      match v with
      | PDict d => c ← od_getitem k d; c' ← alter_path g path' c; Ok (PDict (od_set k c' d))
      | _ => Raise TypeError
      end
  | KIdx n :: path' =>
      match v with
      | PList l => c ← py_getitem l (Z.of_nat n); c' ← alter_path g path' c; Ok (PList (<[n := c']> l))
      | _ => Raise TypeError
      end
  end.

(** [for path in ...: current = obj_dict; for key in path[:-1]: ...; current[path[-1]] = ...]; an
    empty path has no last key. *)
Definition alter_at (g : val → result val) (path : list pkey) : M val unit :=
  match path with
  | [] => raise IndexError
  | _ => obj_dict ← getS; d ← liftR (alter_path g path obj_dict); putS d
  end.
Definition alter_paths (g : val → result val) (paths : list (list pkey)) : M val unit :=
  for_each paths (alter_at g).

(** ** References *)
Definition REF : string := "REF=".

(** The text before the first occurrence of [sep]. *)
Fixpoint before (sep s : string) : string :=
  if String.prefix sep s then EmptyString
  else match s with EmptyString => EmptyString | String c s' => String c (before sep s') end.

(** [s.split("REF=")[1]], for a text that starts with "REF=". *)
Definition ref_id (s : string) : string :=
  before REF (String.substring 4 (String.length s - 4) s).

Record RegisteredResource := { rr_type : string; rr_value : val }.

(** [current[path[-1]]["id"]]. *)
Definition item_id (v : val) : result val :=
  match v with PDict d => od_getitem "id" d | _ => Raise TypeError end.

Definition to_reference (registered : list (string * RegisteredResource)) (v : val) : result val :=
  current_id ← item_id v;
  match current_id with
  | PStr i => if od_in i registered then Ok (PStr (REF +:+ i)) else Raise BlueprintNGException
  | PList _ | PDict _ => Raise TypeError
  | _ => Raise BlueprintNGException
  end.

(** [__override_variables_in_dict]. *)
Definition override_variables_in_dict (registered : list (string * RegisteredResource)) (obj : val)
  (tipo : string) : M val unit :=
  alter_paths (to_reference registered) (sort_paths (find_field_occurrences (isinstance tipo) [] obj)).

Definition is_reference (v : val) : bool :=
  match v with PStr s => String.prefix REF s | _ => false end.

Definition of_reference (registered : list (string * RegisteredResource)) (v : val) : result val :=
  match v with
  | PStr s => r ← od_getitem (ref_id s) registered; Ok (rr_value r)
  | _ => Raise AttributeError
  end.

(** [__override_variables_in_dict_ref(obj, obj, registered)]. *)
Definition override_variables_in_dict_ref (registered : list (string * RegisteredResource)) :
  M val unit :=
  obj ← getS;
  alter_paths (of_reference registered) (sort_paths (find_field_occurrences is_reference [] obj)).
End blueprint.

(** ** The base model *)
Inductive CurrentOperation := UNDEFINED | IDLE | DEPLOYING | RUNNING_DAY2_OP | DESTROYING.

#[export] Instance CurrentOperation_eq_dec : EqDecision CurrentOperation.
Proof. solve_decision. Defined.

Record BlueprintNGStatus := {
  error : bool;
  current_operation : CurrentOperation;
  detail : string
}.

Definition deploying (blue_id : string) : BlueprintNGStatus :=
  {| error := false; current_operation := DEPLOYING;
     detail := "The blueprint " +:+ blue_id +:+ " is being deployed..." |}.
Definition destroying (blue_id : string) : BlueprintNGStatus :=
  {| error := false; current_operation := DESTROYING;
     detail := "The blueprint " +:+ blue_id +:+ " is being destroyed..." |}.
(** The code gives this status the operation IDLE. *)
Definition running_day2 : BlueprintNGStatus :=
  {| error := false; current_operation := IDLE; detail := "Running day2 operation..." |}.
Definition idle : BlueprintNGStatus :=
  {| error := false; current_operation := IDLE; detail := "Waiting for further operations" |}.

Record BlueprintNGProviderModel := {
  provider_type : option string;
  provider_data_type : option string;
  provider_data : option val
}.

(** The keys of the provider dictionaries are the decimal texts of the areas. *)
Record BlueprintNGBaseModel := {
  bm_id : string;
  bm_type : string;
  parent_blue_id : option string;
  children_blue_ids : list string;
  registered_resources : list (string * RegisteredResource);
  state_type : string;
  state : val;
  create_config_type : option string;
  create_config : option val;
  virt_providers : list (Z * BlueprintNGProviderModel);
  k8s_providers : list (Z * BlueprintNGProviderModel);
  pdu_provider : option BlueprintNGProviderModel;
  blueprint_provider : option BlueprintNGProviderModel;
  created : option Z;
  corrupted : bool;
  protected : bool;
  status : BlueprintNGStatus;
  node_exporters : list PrometheusTargetModel;
  day_2_call_history : list string
}.

Definition set_parent x (bm : BlueprintNGBaseModel) : BlueprintNGBaseModel :=
  {| bm_id := bm_id bm; bm_type := bm_type bm; parent_blue_id := x; children_blue_ids :=
     children_blue_ids bm; registered_resources := registered_resources bm; state_type :=
     state_type bm; state := state bm; create_config_type := create_config_type bm; create_config
     := create_config bm; virt_providers := virt_providers bm; k8s_providers := k8s_providers bm;
     pdu_provider := pdu_provider bm; blueprint_provider := blueprint_provider bm; created :=
     created bm; corrupted := corrupted bm; protected := protected bm; status := status bm;
     node_exporters := node_exporters bm; day_2_call_history := day_2_call_history bm |}.
Definition set_children x (bm : BlueprintNGBaseModel) : BlueprintNGBaseModel :=
  {| bm_id := bm_id bm; bm_type := bm_type bm; parent_blue_id := parent_blue_id bm;
     children_blue_ids := x; registered_resources := registered_resources bm; state_type :=
     state_type bm; state := state bm; create_config_type := create_config_type bm; create_config
     := create_config bm; virt_providers := virt_providers bm; k8s_providers := k8s_providers bm;
     pdu_provider := pdu_provider bm; blueprint_provider := blueprint_provider bm; created :=
     created bm; corrupted := corrupted bm; protected := protected bm; status := status bm;
     node_exporters := node_exporters bm; day_2_call_history := day_2_call_history bm |}.
Definition set_resources x (bm : BlueprintNGBaseModel) : BlueprintNGBaseModel :=
  {| bm_id := bm_id bm; bm_type := bm_type bm; parent_blue_id := parent_blue_id bm;
     children_blue_ids := children_blue_ids bm; registered_resources := x; state_type :=
     state_type bm; state := state bm; create_config_type := create_config_type bm; create_config
     := create_config bm; virt_providers := virt_providers bm; k8s_providers := k8s_providers bm;
     pdu_provider := pdu_provider bm; blueprint_provider := blueprint_provider bm; created :=
     created bm; corrupted := corrupted bm; protected := protected bm; status := status bm;
     node_exporters := node_exporters bm; day_2_call_history := day_2_call_history bm |}.
Definition set_state x (bm : BlueprintNGBaseModel) : BlueprintNGBaseModel :=
  {| bm_id := bm_id bm; bm_type := bm_type bm; parent_blue_id := parent_blue_id bm;
     children_blue_ids := children_blue_ids bm; registered_resources := registered_resources bm;
     state_type := state_type bm; state := x; create_config_type := create_config_type bm;
     create_config := create_config bm; virt_providers := virt_providers bm; k8s_providers :=
     k8s_providers bm; pdu_provider := pdu_provider bm; blueprint_provider := blueprint_provider
     bm; created := created bm; corrupted := corrupted bm; protected := protected bm; status :=
     status bm; node_exporters := node_exporters bm; day_2_call_history := day_2_call_history bm |}.
Definition set_create_config t x (bm : BlueprintNGBaseModel) : BlueprintNGBaseModel :=
  {| bm_id := bm_id bm; bm_type := bm_type bm; parent_blue_id := parent_blue_id bm;
     children_blue_ids := children_blue_ids bm; registered_resources := registered_resources bm;
     state_type := state_type bm; state := state bm; create_config_type := t;
     create_config := x; virt_providers := virt_providers bm; k8s_providers := k8s_providers bm;
     pdu_provider := pdu_provider bm; blueprint_provider := blueprint_provider bm; created :=
     created bm; corrupted := corrupted bm; protected := protected bm; status := status bm;
     node_exporters := node_exporters bm; day_2_call_history := day_2_call_history bm |}.
Definition set_virt x (bm : BlueprintNGBaseModel) : BlueprintNGBaseModel :=
  {| bm_id := bm_id bm; bm_type := bm_type bm; parent_blue_id := parent_blue_id bm;
     children_blue_ids := children_blue_ids bm; registered_resources := registered_resources bm;
     state_type := state_type bm; state := state bm; create_config_type := create_config_type bm;
     create_config := create_config bm; virt_providers := x; k8s_providers := k8s_providers bm;
     pdu_provider := pdu_provider bm; blueprint_provider := blueprint_provider bm; created :=
     created bm; corrupted := corrupted bm; protected := protected bm; status := status bm;
     node_exporters := node_exporters bm; day_2_call_history := day_2_call_history bm |}.
Definition set_k8s x (bm : BlueprintNGBaseModel) : BlueprintNGBaseModel :=
  {| bm_id := bm_id bm; bm_type := bm_type bm; parent_blue_id := parent_blue_id bm;
     children_blue_ids := children_blue_ids bm; registered_resources := registered_resources bm;
     state_type := state_type bm; state := state bm; create_config_type := create_config_type bm;
     create_config := create_config bm; virt_providers := virt_providers bm; k8s_providers := x;
     pdu_provider := pdu_provider bm; blueprint_provider := blueprint_provider bm; created :=
     created bm; corrupted := corrupted bm; protected := protected bm; status := status bm;
     node_exporters := node_exporters bm; day_2_call_history := day_2_call_history bm |}.
Definition set_pdu x (bm : BlueprintNGBaseModel) : BlueprintNGBaseModel :=
  {| bm_id := bm_id bm; bm_type := bm_type bm; parent_blue_id := parent_blue_id bm;
     children_blue_ids := children_blue_ids bm; registered_resources := registered_resources bm;
     state_type := state_type bm; state := state bm; create_config_type := create_config_type bm;
     create_config := create_config bm; virt_providers := virt_providers bm; k8s_providers :=
     k8s_providers bm; pdu_provider := x; blueprint_provider := blueprint_provider bm; created :=
     created bm; corrupted := corrupted bm; protected := protected bm; status := status bm;
     node_exporters := node_exporters bm; day_2_call_history := day_2_call_history bm |}.
Definition set_blue_provider x (bm : BlueprintNGBaseModel) : BlueprintNGBaseModel :=
  {| bm_id := bm_id bm; bm_type := bm_type bm; parent_blue_id := parent_blue_id bm;
     children_blue_ids := children_blue_ids bm; registered_resources := registered_resources bm;
     state_type := state_type bm; state := state bm; create_config_type := create_config_type bm;
     create_config := create_config bm; virt_providers := virt_providers bm; k8s_providers :=
     k8s_providers bm; pdu_provider := pdu_provider bm; blueprint_provider := x; created :=
     created bm; corrupted := corrupted bm; protected := protected bm; status := status bm;
     node_exporters := node_exporters bm; day_2_call_history := day_2_call_history bm |}.
Definition set_corrupted x (bm : BlueprintNGBaseModel) : BlueprintNGBaseModel :=
  {| bm_id := bm_id bm; bm_type := bm_type bm; parent_blue_id := parent_blue_id bm;
     children_blue_ids := children_blue_ids bm; registered_resources := registered_resources bm;
     state_type := state_type bm; state := state bm; create_config_type := create_config_type bm;
     create_config := create_config bm; virt_providers := virt_providers bm; k8s_providers :=
     k8s_providers bm; pdu_provider := pdu_provider bm; blueprint_provider := blueprint_provider
     bm; created := created bm; corrupted := x; protected := protected bm; status := status bm;
     node_exporters := node_exporters bm; day_2_call_history := day_2_call_history bm |}.
Definition set_protected x (bm : BlueprintNGBaseModel) : BlueprintNGBaseModel :=
  {| bm_id := bm_id bm; bm_type := bm_type bm; parent_blue_id := parent_blue_id bm;
     children_blue_ids := children_blue_ids bm; registered_resources := registered_resources bm;
     state_type := state_type bm; state := state bm; create_config_type := create_config_type bm;
     create_config := create_config bm; virt_providers := virt_providers bm; k8s_providers :=
     k8s_providers bm; pdu_provider := pdu_provider bm; blueprint_provider := blueprint_provider
     bm; created := created bm; corrupted := corrupted bm; protected := x; status := status bm;
     node_exporters := node_exporters bm; day_2_call_history := day_2_call_history bm |}.
Definition set_status x (bm : BlueprintNGBaseModel) : BlueprintNGBaseModel :=
  {| bm_id := bm_id bm; bm_type := bm_type bm; parent_blue_id := parent_blue_id bm;
     children_blue_ids := children_blue_ids bm; registered_resources := registered_resources bm;
     state_type := state_type bm; state := state bm; create_config_type := create_config_type bm;
     create_config := create_config bm; virt_providers := virt_providers bm; k8s_providers :=
     k8s_providers bm; pdu_provider := pdu_provider bm; blueprint_provider := blueprint_provider
     bm; created := created bm; corrupted := corrupted bm; protected := protected bm; status :=
     x; node_exporters := node_exporters bm; day_2_call_history := day_2_call_history bm |}.
Definition set_history x (bm : BlueprintNGBaseModel) : BlueprintNGBaseModel :=
  {| bm_id := bm_id bm; bm_type := bm_type bm; parent_blue_id := parent_blue_id bm;
     children_blue_ids := children_blue_ids bm; registered_resources := registered_resources bm;
     state_type := state_type bm; state := state bm; create_config_type := create_config_type bm;
     create_config := create_config bm; virt_providers := virt_providers bm; k8s_providers :=
     k8s_providers bm; pdu_provider := pdu_provider bm; blueprint_provider := blueprint_provider
     bm; created := created bm; corrupted := corrupted bm; protected := protected bm; status :=
     status bm; node_exporters := node_exporters bm; day_2_call_history := x |}.

(** The dump of a base model is a base model whose values are dumped. *)
#[export] Instance blueprint_document : Document BlueprintNGBaseModel := {
  doc_field d f := if String.eqb f "id" then Some (bm_id d)
                   else if String.eqb f "type" then Some (bm_type d) else None
}.

(** [resource.id]: absent, or a text. *)
Definition resource_id (v : val) : result val :=
  match v with
  | PObj _ _ fs => match od_get "id" fs with Some i => Ok i | None => Raise AttributeError end
  | _ => Raise AttributeError
  end.
Definition resource_area (v : val) : result Z :=
  match v with
  | PObj _ _ fs => match od_get "area" fs with Some (PInt a) => Ok a | _ => Raise AttributeError end
  | _ => Raise AttributeError
  end.
Definition set_resource_id (i : string) (v : val) : val :=
  match v with PObj c t fs => PObj c t (od_set "id" (PStr i) fs) | _ => v end.
Definition class_of (v : val) : string := match v with PObj c _ _ => c | _ => EmptyString end.
Definition with_tag (t : nat) (v : val) : val := match v with PObj c _ fs => PObj c t fs | _ => v end.

(** [not resource.id]. *)
Definition no_id (v : val) : bool :=
  match v with PNone => true | PStr s => String.eqb s EmptyString | _ => false end.

Section resources.
Context `{Pydantic} {C : Type} (topology : World C).

(** ** Registered resources *)

(** [register_resource], with the identifier [uuid4] would give; returns the resource, whose
    identifier may have been set. *)
Definition register_resource (uuid : string) (resource : val) : M BlueprintNGBaseModel val :=
  bm ← getS;
  id ← liftR (resource_id resource);
  (if match id with PStr s => negb (String.eqb s EmptyString) && od_in s (registered_resources bm) | _ => false end
   then raise BlueprintNGException else mret tt) ;;
  let resource := if no_id id then set_resource_id uuid resource else resource in
  (if isinstance ResourceDeployable resource then
     area ← liftR (resource_area resource);
     catch (liftR (get_vim_from_area_id_model area topology).1 ;; mret tt)
           (λ e, if is_value_error e then Some (raise BlueprintNGException) else None)
   else mret tt) ;;
  id ← liftR (resource_id resource);
  match id with
  | PStr i =>
      putS (set_resources (od_set i {| rr_type := class_of resource; rr_value := resource |}
                             (registered_resources bm)) bm) ;;
      mret resource
  | _ => raise TypeError
  end.

Definition deregister_resource_by_id (resource_id : string) : M BlueprintNGBaseModel unit :=
  bm ← getS;
  if od_in resource_id (registered_resources bm)
  then putS (set_resources (od_pop resource_id (registered_resources bm)) bm)
  else raise BlueprintNGException.

Definition deregister_resource (resource : val) : M BlueprintNGBaseModel unit :=
  id ← liftR (resource_id resource);
  if no_id id then raise BlueprintNGException
  else match id with
       | PStr i => deregister_resource_by_id i
       | _ => raise BlueprintNGException
       end.

Definition get_registered_resources (type_filter : option string) (bm : BlueprintNGBaseModel) :
  list RegisteredResource :=
  match type_filter with
  | None => od_values (registered_resources bm)
  | Some t => List.filter (λ r, String.eqb (rr_type r) t) (od_values (registered_resources bm))
  end.

(** ** Children *)
Definition register_children (blue_id : string) : M BlueprintNGBaseModel unit :=
  bm ← getS;
  if py_in String.eqb blue_id (children_blue_ids bm) then raise BlueprintNGException
  else putS (set_children (children_blue_ids bm ++ [blue_id]) bm).

Definition deregister_children (blue_id : string) : M BlueprintNGBaseModel unit :=
  bm ← getS;
  if py_in String.eqb blue_id (children_blue_ids bm)
  then l ← liftR (py_remove String.eqb blue_id (children_blue_ids bm)); putS (set_children l bm)
  else raise BlueprintNGException.

(** [BlueprintNG.create], which the blueprints call first in their own. *)
Definition create (model : val) : M BlueprintNGBaseModel unit :=
  modifyS (set_create_config (Some (class_of model)) (Some model)).

(** ** Serialization *)
Definition dump_provider (p : BlueprintNGProviderModel) : BlueprintNGProviderModel :=
  {| provider_type := provider_type p; provider_data_type := provider_data_type p;
     provider_data := dump <$> provider_data p |}.

Definition dump_resource (r : RegisteredResource) : RegisteredResource :=
  {| rr_type := rr_type r; rr_value := dump (rr_value r) |}.

(** [self.base_model.model_dump()]. *)
Definition model_dump (bm : BlueprintNGBaseModel) : BlueprintNGBaseModel :=
  {| bm_id := bm_id bm; bm_type := bm_type bm; parent_blue_id := parent_blue_id bm;
     children_blue_ids := children_blue_ids bm; registered_resources := (λ kr, (kr.1,
     dump_resource kr.2)) <$> registered_resources bm; state_type := state_type bm; state :=
     dump (state bm); create_config_type := create_config_type bm; create_config := dump <$>
     create_config bm; virt_providers := (λ ap, (ap.1, dump_provider ap.2)) <$> virt_providers
     bm; k8s_providers := (λ ap, (ap.1, dump_provider ap.2)) <$> k8s_providers bm; pdu_provider
     := dump_provider <$> pdu_provider bm; blueprint_provider := dump_provider <$>
     blueprint_provider bm; created := created bm; corrupted := corrupted bm; protected :=
     protected bm; status := status bm; node_exporters := node_exporters bm; day_2_call_history
     := day_2_call_history bm |}.

(** Work on the state, or on the value of a registered resource, of the serialized dictionary. *)
Definition in_state {A} (m : M val A) : M BlueprintNGBaseModel A := zoom state set_state m.
Definition in_resource {A} (key : string) (m : M val A) : M BlueprintNGBaseModel A := λ d,
  match od_get key (registered_resources d) with
  | Some r =>
      match m (rr_value r) with
      | (x, v) => (x, set_resources (od_set key {| rr_type := rr_type r; rr_value := v |}
                                       (registered_resources d)) d)
      end
  | None => (Raise KeyError, d)
  end.

(** The [try] block of [__serialize_content]. *)
Definition override_all (bm : BlueprintNGBaseModel) : M BlueprintNGBaseModel unit :=
  in_state (override_variables_in_dict (registered_resources bm) (state bm) Resource) ;;
  for_each (registered_resources bm) (λ kv,
    if isinstance ResourceConfiguration (rr_value kv.2)
    then in_resource kv.1 (override_variables_in_dict (registered_resources bm) (rr_value kv.2)
                             ResourceDeployable)
    else mret tt).

Definition serialize_content (bm : BlueprintNGBaseModel) : result BlueprintNGBaseModel :=
  match catch (override_all bm)
              (λ e, if decide (e = BlueprintNGException) then Some (modifyS (set_corrupted true))
                    else None) (model_dump bm) with
  | (Ok _, serialized_dict) => Ok serialized_dict
  | (Raise e, _) => Raise e
  end.

Definition to_db `{!Mongo BlueprintNGBaseModel D} (bm : BlueprintNGBaseModel) (db : D) : result D :=
  serialized_dict ← serialize_content bm; Ok (save_ng_blue (bm_id bm) serialized_dict db).

(** The summary: id, type, status, creation time, protection, and "corrupted" when it is. *)
Inductive blue_summary :=
| Detailed (d : BlueprintNGBaseModel)
| Summary (id type : string) (st : BlueprintNGStatus) (created : option Z) (protected corrupted : bool).

Definition to_dict (detailed : bool) (bm : BlueprintNGBaseModel) : result blue_summary :=
  if detailed then d ← serialize_content bm; Ok (Detailed d)
  else Ok (Summary (bm_id bm) (bm_type bm) (status bm) (created bm) (protected bm) (corrupted bm)).

(** ** Loading *)

(** The classes of the data of the providers. *)
Definition openstack_data : string :=
  "nfvcl.blueprints_ng.providers.virtualization.virtualization_provider_openstack.VirtualizationProviderDataOpenstack".
Definition proxmox_data : string :=
  "nfvcl.blueprints_ng.providers.virtualization.proxmox.virtualization_provider_proxmox.VirtualizationProviderDataProxmox".
Definition k8s_data : string :=
  "nfvcl.blueprints_ng.providers.kubernetes.k8s_provider_native.K8SProviderDataNative".
Definition pdu_data : string := "nfvcl.blueprints_ng.providers.pdu.pdu_provider.PDUProviderData".
Definition blueprint_data : string :=
  "nfvcl.blueprints_ng.providers.blueprint.blueprint_provider.BlueprintProviderData".
Definition base_data : string :=
  "nfvcl.blueprints_ng.providers.blueprint_ng_provider_interface.BlueprintNGProviderData".

(** The declared type of [provider_data] is the base class, which has no field. *)
Definition base_provider (p : BlueprintNGProviderModel) : BlueprintNGProviderModel :=
  {| provider_type := provider_type p; provider_data_type := provider_data_type p;
     provider_data := (λ _, PObj base_data 0 []) <$> provider_data p |}.

Definition load_provider (cls : string) (p : BlueprintNGProviderModel) : result BlueprintNGProviderModel :=
  data ← validate cls (default PNone (provider_data p));
  Ok {| provider_type := provider_type p; provider_data_type := provider_data_type p;
        provider_data := Some data |}.

(** [get_virt_provider(area)] of a new instance: the class of its data. *)
Definition get_virt_provider (area : Z) : result string :=
  vim ← (get_vim_from_area_id_model area topology).1;
  _ ← connect (vim_type vim) area;
  Ok (match vim_type vim with OPENSTACK => openstack_data | PROXMOX => proxmox_data end).

(** [instance.base_model] after the first validation: no registered resource, the initial state,
    and provider data reduced to the base class. *)
Definition first_base_model (doc : BlueprintNGBaseModel) : result BlueprintNGBaseModel :=
  config ← match create_config doc with
           | Some v => c ← validate (default EmptyString (create_config_type doc)) v; Ok (Some c)
           | None => Ok None
           end;
  Ok {| bm_id := bm_id doc; bm_type := bm_type doc; parent_blue_id := parent_blue_id doc;
     children_blue_ids := children_blue_ids doc; registered_resources := []; state_type :=
     state_type doc; state := default_state (state_class (bm_type doc)); create_config_type :=
     create_config_type doc; create_config := config; virt_providers := (λ ap, (ap.1,
     base_provider ap.2)) <$> virt_providers doc; k8s_providers := (λ ap, (ap.1, base_provider
     ap.2)) <$> k8s_providers doc; pdu_provider := base_provider <$> pdu_provider doc;
     blueprint_provider := base_provider <$> blueprint_provider doc; created := created doc;
     corrupted := corrupted doc; protected := protected doc; status := status doc;
     node_exporters := node_exporters doc; day_2_call_history := day_2_call_history doc |}.

(** [resource["value"]["type"]]. *)
Definition value_type (r : RegisteredResource) : result val :=
  match rr_value r with PDict d => od_getitem "type" d | _ => Raise TypeError end.

(** Validate a value as a resource class and register the new object. *)
Definition load_resource (cls : string) (v : val) : M BlueprintNGBaseModel unit :=
  resource ← liftR (validate cls v);
  bm ← getS;
  register_resource EmptyString (with_tag (S (length (registered_resources bm))) resource) ;; mret tt.

Definition load_deployables (doc : BlueprintNGBaseModel) : M BlueprintNGBaseModel unit :=
  for_each (registered_resources doc) (λ kr,
    t ← liftR (value_type kr.2);
    match t with
    | PStr "ResourceDeployable" => load_resource (rr_type kr.2) (rr_value kr.2)
    | _ => mret tt
    end).

Definition load_configurations (doc : BlueprintNGBaseModel) : M BlueprintNGBaseModel unit :=
  for_each (registered_resources doc) (λ kr,
    t ← liftR (value_type kr.2);
    match t with
    | PStr "ResourceConfiguration" =>
        bm ← getS;
        let '(r, v) := override_variables_in_dict_ref (registered_resources bm) (rr_value kr.2) in
        liftR r ;; load_resource (rr_type kr.2) v
    | _ => mret tt
    end).

(** The state is validated last; a failed validation marks the blueprint as corrupted. *)
Definition load_state (doc : BlueprintNGBaseModel) : M BlueprintNGBaseModel unit :=
  bm ← getS;
  let '(r, v) := override_variables_in_dict_ref (registered_resources bm) (state doc) in
  liftR r ;;
  catch (s ← liftR (validate (state_class (bm_type doc)) v); modifyS (set_state s))
        (λ e, if decide (e = ValidationError) then Some (modifyS (set_corrupted true)) else None).

(** The four groups of providers. *)
Definition load_virt (doc : BlueprintNGBaseModel) : M BlueprintNGBaseModel unit :=
  virt ← liftR (map_result (λ ap : Z * BlueprintNGProviderModel,
                  cls ← get_virt_provider ap.1; p ← load_provider cls ap.2; Ok (ap.1, p))
                  (virt_providers doc));
  modifyS (set_virt virt).
Definition load_k8s (doc : BlueprintNGBaseModel) : M BlueprintNGBaseModel unit :=
  k8s ← liftR (map_result (λ ap : Z * BlueprintNGProviderModel,
                 p ← load_provider k8s_data ap.2; Ok (ap.1, p)) (k8s_providers doc));
  modifyS (set_k8s k8s).
Definition load_pdu (doc : BlueprintNGBaseModel) : M BlueprintNGBaseModel unit :=
  match pdu_provider doc with
  | Some p => p ← liftR (load_provider pdu_data p); modifyS (set_pdu (Some p))
  | None => mret tt
  end.
Definition load_blue (doc : BlueprintNGBaseModel) : M BlueprintNGBaseModel unit :=
  match blueprint_provider doc with
  | Some p => p ← liftR (load_provider blueprint_data p); modifyS (set_blue_provider (Some p))
  | None => mret tt
  end.
Definition load_providers (doc : BlueprintNGBaseModel) : M BlueprintNGBaseModel unit :=
  load_virt doc ;; load_k8s doc ;; load_pdu doc ;; load_blue doc.

Definition from_db_aux (deserialized_dict : BlueprintNGBaseModel) (provider_initialization : bool) :
  result BlueprintNGBaseModel :=
  bm ← first_base_model deserialized_dict;
  match (load_deployables deserialized_dict ;; load_configurations deserialized_dict ;;
         load_state deserialized_dict ;;
         if provider_initialization then load_providers deserialized_dict else mret tt) bm with
  | (Ok _, instance) => Ok instance
  | (Raise e, _) => Raise e
  end.

Definition from_db (deserialized_dict : BlueprintNGBaseModel) : result BlueprintNGBaseModel :=
  from_db_aux deserialized_dict true.
Definition from_db_no_prov_init (deserialized_dict : BlueprintNGBaseModel) : result BlueprintNGBaseModel :=
  from_db_aux deserialized_dict false.
End resources.
