(* ===== verification/BlueprintReload.v ===== *)
(** * A blueprint written to the database is read back

    The two passes over the values of a blueprint, resources to references when it is saved and
    references to resources when it is loaded, seen as structural maps, and their composition. *)

From stdpp Require Import base list strings gmap.
From Stdlib Require Import ZArith Lia Ascii Sorted.
From S2P Require Import Prelude Ipam IPv4Text Registry NetworkModels VimModels Database PrometheusModels K8sModels TopologyModel Topology Blueprint.

Open Scope Z_scope.

(** ** Induction on values *)
Section val_induction.
Variable P : val → Prop.
Hypothesis HNone : P PNone.
Hypothesis HBool : ∀ b, P (PBool b).
Hypothesis HInt : ∀ z, P (PInt z).
Hypothesis HStr : ∀ s, P (PStr s).
Hypothesis HEnum : ∀ e, P (PEnum e).
Hypothesis HList : ∀ l, Forall P l → P (PList l).
Hypothesis HDict : ∀ d, Forall (λ kv, P kv.2) d → P (PDict d).
Hypothesis HObj : ∀ c t fs, Forall (λ kv, P kv.2) fs → P (PObj c t fs).

Fixpoint val_ind' (v : val) : P v :=
  let pairs := fix pairs (d : list (string * val)) : Forall (λ kv, P kv.2) d :=
    match d with [] => @List.Forall_nil _ _ | (k, x) :: d' => @List.Forall_cons _ (λ kv, P kv.2) (k, x) d' (val_ind' x) (pairs d') end in
  match v with
  | PNone => HNone
  | PBool b => HBool b
  | PInt z => HInt z
  | PStr s => HStr s
  | PEnum e => HEnum e
  | PList l => HList l ((fix items (l : list val) : Forall P l :=
      match l with [] => @List.Forall_nil _ _ | x :: l' => @List.Forall_cons _ P x l' (val_ind' x) (items l') end) l)
  | PDict d => HDict d (pairs d)
  | PObj c t fs => HObj c t fs (pairs fs)
  end.
End val_induction.

(** ** The paths that lead somewhere *)

(** The children of a value, by key. *)
Definition children (v : val) : list (pkey * val) :=
  match v with
  | PList l => imap (λ i x, (KIdx i, x)) l
  | PDict d | PObj _ _ d => (λ kv, (KName kv.1, kv.2)) <$> d
  | _ => []
  end.

(** [reaches v p x]: the path [p] leads from [v] to [x]. *)
Inductive reaches : val → list pkey → val → Prop :=
| reaches_here v : reaches v [] v
| reaches_child v k c p x : (k, c) ∈ children v → reaches c p x → reaches v (k :: p) x.

(** Dictionaries have each key once, everywhere. *)
Inductive keys_ok : val → Prop :=
| keys_ok_intro v : NoDup (children v).*1 → (∀ k c, (k, c) ∈ children v → keys_ok c) → keys_ok v.

Lemma keys_ok_inv v : keys_ok v → NoDup (children v).*1 ∧ ∀ k c, (k, c) ∈ children v → keys_ok c.
Proof. by intros [w H1 H2]. Qed.

Lemma find_unfold check path v :
  find_field_occurrences check path v =
  (if check v then [path] else []) ++
  flat_map (λ kc, find_field_occurrences check (path ++ [kc.1]) kc.2) (children v).
Proof.
  destruct v as [| | | | |l|d|c t d]; simpl; f_equal; try done.
  - change (λ i x, (KIdx i, x)) with (λ i (x : val), (KIdx (0 + i)%nat, x)).
    generalize 0%nat. induction l as [|x l IH]; intros idx; [done|]. simpl.
    rewrite Nat.add_0_r, IH. do 2 f_equal. apply imap_ext. intros i y _. simpl. do 2 f_equal. lia.
  - induction d as [|[k x] d IH]; [done|]. simpl. by rewrite IH.
  - induction d as [|[k x] d IH]; [done|]. simpl. by rewrite IH.
Qed.

Lemma children_smaller (P : val → Prop) v :
  (∀ w, (∀ k c, (k, c) ∈ children w → P c) → P w) → P v.
Proof.
  intros H. induction v as [| | | | |l IH|d IH|c t d IH] using val_ind'; apply H; simpl;
    try by intros k x ?%not_elem_of_nil.
  - intros k x (i & y & Heq & Hi)%elem_of_lookup_imap. injection Heq as -> ->.
    rewrite Forall_forall in IH. apply IH. by eapply list_elem_of_lookup_2.
  - intros k x ([k' y] & Heq & Hin)%list_elem_of_fmap. injection Heq as -> ->.
    rewrite Forall_forall in IH. by apply (IH (k', y)).
  - intros k x ([k' y] & Heq & Hin)%list_elem_of_fmap. injection Heq as -> ->.
    rewrite Forall_forall in IH. by apply (IH (k', y)).
Qed.

Lemma find_paths check v path p :
  p ∈ find_field_occurrences check path v ↔ ∃ q x, p = path ++ q ∧ reaches v q x ∧ check x = true.
Proof.
  revert path p. apply (children_smaller (λ v, ∀ path p, p ∈ find_field_occurrences check path v ↔
    ∃ q x, p = path ++ q ∧ reaches v q x ∧ check x = true)).
  clear v. intros v IH path p. rewrite find_unfold, elem_of_app.
  rewrite (list_elem_of_In (flat_map _ _) p), in_flat_map. split.
  - intros [Hp|([k c] & Hc%list_elem_of_In & Hp%list_elem_of_In)].
    + destruct (check v) eqn:E; [|by apply not_elem_of_nil in Hp].
      apply list_elem_of_singleton in Hp as ->.
      exists [], v. rewrite app_nil_r. split_and!; [done|constructor|done].
    + apply (IH k c Hc) in Hp as (q & x & -> & Hq & Hx). exists (k :: q), x.
      rewrite <-app_assoc. split_and!; [done|by econstructor|done].
  - intros (q & x & -> & Hq & Hx). destruct Hq as [v|v k c q x Hc Hq].
    + left. rewrite Hx, app_nil_r. by left.
    + right. exists (k, c). split; [by apply list_elem_of_In|]. apply list_elem_of_In.
      apply (IH k c Hc). exists q, x. by rewrite <-app_assoc.
Qed.

(** ** Sorting *)
Lemma insert_path_perm p l : Permutation (insert_path p l) (p :: l).
Proof.
  induction l as [|q l IH]; simpl; [done|]. destruct (_ <=? _)%nat; [done|].
  rewrite IH. constructor.
Qed.

Lemma sort_paths_perm l : Permutation (sort_paths l) l.
Proof. induction l as [|p l IH]; simpl; [done|]. by rewrite insert_path_perm, IH. Qed.

Notation longer := (λ p q : list pkey, (length q ≤ length p)%nat).

Lemma insert_path_sorted p l : StronglySorted longer l → StronglySorted longer (insert_path p l).
Proof.
  induction 1 as [|q l Hl IH Hq]; simpl; [repeat constructor|].
  destruct (length q <=? length p)%nat eqn:E.
  - apply Nat.leb_le in E. repeat (constructor; try done).
    rewrite Forall_forall in *. intros r Hr%Hq. simpl in *. lia.
  - apply Nat.leb_gt in E. constructor; [done|]. rewrite Forall_forall in *.
    intros r. rewrite insert_path_perm. intros [->|Hr]%elem_of_cons; [simpl; lia|by apply Hq].
Qed.

Lemma sort_paths_sorted l : StronglySorted longer (sort_paths l).
Proof. induction l; simpl; [constructor|]. by apply insert_path_sorted. Qed.

(** No path is followed by one that extends it: what is inside is replaced first. *)
Definition inner_first (l : list (list pkey)) : Prop := ForallOrdPairs (λ p q, ¬ p `prefix_of` q) l.

Lemma sorted_inner_first l : NoDup l → StronglySorted longer l → inner_first l.
Proof.
  induction 2 as [|p l Hl IH Hp]; [constructor|]. apply NoDup_cons in H as [Hn Hd].
  constructor; [|by apply IH]. rewrite Forall_forall in *. intros q Hq [r Hr].
  pose proof (Hp q Hq) as Hlen. simpl in Hlen. rewrite Hr, length_app in Hlen.
  destruct r; [|simpl in Hlen; lia]. rewrite app_nil_r in Hr. congruence.
Qed.

Lemma flat_map_NoDup {K A B} (f : K * A → list B) (l : list (K * A)) :
  NoDup l.*1 → (∀ kc, kc ∈ l → NoDup (f kc)) →
  (∀ kc kc' b, kc ∈ l → kc' ∈ l → b ∈ f kc → b ∈ f kc' → kc.1 = kc'.1) →
  NoDup (flat_map f l).
Proof.
  induction l as [|kc l IH]; intros Hd Hf Hdisj; [constructor|]. simpl.
  rewrite fmap_cons in Hd. apply NoDup_cons in Hd as [Hn Hd]. apply NoDup_app.
  split; [apply Hf; left|]. split.
  - intros b Hb (kc' & Hin & Hb')%list_elem_of_In%in_flat_map.
    apply list_elem_of_In in Hin, Hb'. apply Hn.
    rewrite (Hdisj kc kc' b); [by apply list_elem_of_fmap_2|left|by right|done..].
  - apply IH; [done|intros; apply Hf; by right|].
    intros x y b Hx Hy. apply Hdisj; by right.
Qed.

Lemma find_NoDup check path v : keys_ok v → NoDup (find_field_occurrences check path v).
Proof.
  revert path. apply (children_smaller (λ v, ∀ path, keys_ok v → NoDup (find_field_occurrences check path v))).
  clear v. intros v IH path [Hd Hk]%keys_ok_inv. rewrite find_unfold. apply NoDup_app. split; [|split].
  - destruct (check v); [apply NoDup_singleton|constructor].
  - intros p Hp (kc & _ & Hin%list_elem_of_In)%list_elem_of_In%in_flat_map.
    destruct (check v); [|by apply not_elem_of_nil in Hp]. apply list_elem_of_singleton in Hp as ->.
    apply find_paths in Hin as (q & x & Heq & _).
    apply (f_equal length) in Heq. rewrite !length_app in Heq. simpl in Heq. lia.
  - apply flat_map_NoDup; [done| |].
    + intros [k c] Hin. simpl. apply (IH k c Hin). by apply (Hk k c).
    + intros kc kc' b _ _ (q & x & -> & _)%find_paths (q' & x' & Heq & _)%find_paths.
      rewrite <-!app_assoc in Heq. apply app_inv_head in Heq. by injection Heq.
Qed.

(** ** Replacing along a list of paths *)
Fixpoint alters (g : val → result val) (ps : list (list pkey)) (v : val) : result val :=
  match ps with [] => Ok v | p :: ps' => v' ← alter_path g p v; alters g ps' v' end.

Lemma alters_app g ps ps' v : alters g (ps ++ ps') v = (v' ← alters g ps v; alters g ps' v').
Proof.
  revert v; induction ps as [|p ps IH]; intros v; simpl; [done|].
  destruct (alter_path g p v); simpl; [apply IH|done].
Qed.

Lemma alter_paths_run g ps v v' :
  [] ∉ ps → alters g ps v = Ok v' → alter_paths g ps v = (Ok tt, v').
Proof.
  revert v; induction ps as [|p ps IH]; intros v Hn Hv; simpl in Hv.
  { by injection Hv as ->. }
  apply not_elem_of_cons in Hn as [Hp Hn]. destruct (alter_path g p v) as [v1|] eqn:E; [|done].
  change (alter_paths g (p :: ps)) with (alter_at g p ;; alter_paths g ps).
  erewrite bind_Ok; [by apply IH|]. unfold alter_at. destruct p as [|k p]; [done|].
  run_M. by rewrite E.
Qed.

(** The paths that start with [k], without it. *)
Definition under (k : pkey) (ps : list (list pkey)) : list (list pkey) :=
  omap (λ p, match p with k' :: q => if decide (k' = k) then Some q else None | [] => None end) ps.

#[local] Arguments under : simpl never.

Lemma under_cons k p ps :
  under k (p :: ps) = match p with
                      | k' :: q => if decide (k' = k) then q :: under k ps else under k ps
                      | [] => under k ps
                      end.
Proof.
  unfold under. destruct p as [|k' q]; [done|].
  change (omap _ ((k' :: q) :: ps)) with
    (match (if decide (k' = k) then Some q else None) with
     | Some y => y :: under k ps | None => under k ps end).
  by destruct (decide (k' = k)).
Qed.

Lemma elem_of_under k ps q : q ∈ under k ps ↔ (k :: q) ∈ ps.
Proof.
  induction ps as [|p ps IH]; [by split; intros ?%not_elem_of_nil|]. rewrite under_cons, elem_of_cons.
  destruct p as [|k' q']; [rewrite IH; naive_solver|].
  destruct (decide (k' = k)) as [->|Hne]; [rewrite elem_of_cons|]; rewrite IH; naive_solver.
Qed.

Lemma under_inner_first k ps : inner_first ps → inner_first (under k ps).
Proof.
  induction 1 as [|p ps Hp _ IH]; [constructor|]. rewrite under_cons.
  destruct p as [|k' q]; [done|]. destruct (decide (k' = k)) as [->|]; [|done].
  constructor; [|done]. rewrite Forall_forall in *. intros q' Hq'%elem_of_under.
  specialize (Hp _ Hq'). intros Hpre. apply Hp. by apply prefix_cons.
Qed.

Lemma alters_dict g ps (l : list (string * val)) (f : string → val) :
  NoDup (od_keys l) →
  (∀ p, p ∈ ps → ∃ k q, p = KName k :: q ∧ k ∈ od_keys l) →
  (∀ k c, (k, c) ∈ l → alters g (under (KName k) ps) c = Ok (f k)) →
  alters g ps (PDict l) = Ok (PDict ((λ k, (k, f k)) <$> od_keys l)).
Proof.
  revert l; induction ps as [|p ps IH]; intros l Hd Hps Hf.
  - simpl. do 2 f_equal. unfold od_keys. rewrite <-list_fmap_compose. symmetry.
    rewrite <-(list_fmap_id l) at 2. apply list_fmap_ext. intros i [k c] Hi. simpl. f_equal.
    specialize (Hf k c (list_elem_of_lookup_2 _ _ _ Hi)). simpl in Hf. congruence.
  - destruct (Hps p) as (k & q & -> & Hk); [left|]. simpl.
    destruct (od_get k l) as [c|] eqn:Ek; [|by apply od_get_None in Ek].
    unfold od_getitem. rewrite Ek. simpl.
    pose proof (Hf k c (proj1 (od_get_elem k c l Hd) Ek)) as Hc. rewrite under_cons in Hc.
    rewrite decide_True in Hc by done. simpl in Hc.
    destruct (alter_path g q c) as [c1|] eqn:Eq; [|done]. simpl in *.
    rewrite IH; [by rewrite od_keys_set_old|by apply od_keys_set_NoDup| |].
    + intros p Hp. rewrite od_keys_set_old by done. apply Hps. by right.
    + intros k' c' Hin. apply od_get_elem in Hin; [|by apply od_keys_set_NoDup].
      rewrite od_get_set in Hin. destruct (String.eqb_spec k k') as [<-|Hne].
      * by injection Hin as <-.
      * apply od_get_elem in Hin; [|done]. specialize (Hf k' c' Hin).
        rewrite under_cons in Hf. rewrite decide_False in Hf by congruence. done.
Qed.

Lemma alters_list g ps (l : list val) (f : nat → val) :
  (∀ p, p ∈ ps → ∃ n q, p = KIdx n :: q ∧ (n < length l)%nat) →
  (∀ n c, l !! n = Some c → alters g (under (KIdx n) ps) c = Ok (f n)) →
  alters g ps (PList l) = Ok (PList (f <$> seq 0 (length l))).
Proof.
  revert l; induction ps as [|p ps IH]; intros l Hps Hf.
  - simpl. do 2 f_equal. apply list_eq. intros n. rewrite list_lookup_fmap.
    destruct (l !! n) as [c|] eqn:E.
    + specialize (Hf n c E). simpl in Hf. rewrite lookup_seq_lt by by eapply lookup_lt_Some.
      simpl. congruence.
    + rewrite lookup_seq_ge; [done|]. by apply lookup_ge_None.
  - destruct (Hps p) as (n & q & -> & Hn); [left|]. cbn [alters alter_path].
    destruct (lookup_lt_is_Some_2 l n Hn) as [c Hc]. rewrite (py_getitem_nat l n c Hc). simpl.
    pose proof (Hf n c Hc) as Hq. rewrite under_cons in Hq. rewrite decide_True in Hq by done.
    simpl in Hq. destruct (alter_path g q c) as [c1|] eqn:Eq; [|done]. simpl in *.
    rewrite IH; [by rewrite length_insert| |].
    + intros p Hp. rewrite length_insert. apply Hps. by right.
    + intros m c' Hin. destruct (decide (n = m)) as [<-|Hne].
      * rewrite list_lookup_insert_eq in Hin by done. by injection Hin as <-.
      * rewrite list_lookup_insert_ne in Hin by done. specialize (Hf m c' Hin).
        rewrite under_cons in Hf. rewrite decide_False in Hf by congruence. done.
Qed.

(** ** The structural map *)
Section transform.
Context (P : val → bool) (G : val → val).

(** Values that pass the test are replaced, objects become dictionaries. *)
Fixpoint transform (v : val) : val :=
  if P v then G v
  else match v with
       | PList l => PList (map transform l)
       | PDict d => PDict (map (λ kv, (kv.1, transform kv.2)) d)
       | PObj _ _ d => PDict (map (λ kv, (kv.1, transform kv.2)) d)
       | _ => v
       end.

Definition descend (v : val) : val :=
  match v with
  | PList l => PList (map transform l)
  | PDict d | PObj _ _ d => PDict (map (λ kv, (kv.1, transform kv.2)) d)
  | _ => v
  end.

Lemma transform_eq v : transform v = if P v then G v else descend v.
Proof. by destruct v. Qed.

Lemma inner_first_last ps :
  inner_first ps → [] ∈ ps → ∃ ps', ps = ps' ++ [[]] ∧ [] ∉ ps' ∧ inner_first ps'.
Proof.
  induction 1 as [|p ps Hp Hps IH]; [by intros ?%not_elem_of_nil|].
  intros [<-|Hin]%elem_of_cons.
  - exists []. destruct ps as [|q ps].
    { split; [done|]. split; [apply not_elem_of_nil|constructor]. }
    apply Forall_cons in Hp as [Hq _]. destruct Hq. apply prefix_nil.
  - destruct (IH Hin) as (ps' & -> & Hn & Hf). exists (p :: ps'). split; [done|]. split.
    + intros [<-|?]%elem_of_cons; [|done]. rewrite Forall_forall in Hp.
      apply (Hp [] Hin). apply prefix_nil.
    + constructor; [|done]. by apply Forall_app in Hp as [? _].
Qed.

Definition occurs_at (v : val) (p : list pkey) : Prop := ∃ x, reaches v p x ∧ P x = true.

Lemma od_get_map (f : val → val) k (d : list (string * val)) :
  od_get k (map (λ kv, (kv.1, f kv.2)) d) = f <$> od_get k d.
Proof. induction d as [|[k' x] d IH]; simpl; [done|]. by destruct (String.eqb k' k). Qed.

Lemma od_keys_map (f : val → val) (d : list (string * val)) :
  od_keys (map (λ kv, (kv.1, f kv.2)) d) = od_keys d.
Proof.
  unfold od_keys. change (map ?h d) with (h <$> d). rewrite <-list_fmap_compose.
  by apply list_fmap_ext.
Qed.

Lemma rebuild_dict (f : val → val) (d : list (string * val)) :
  NoDup (od_keys d) →
  (λ k, (k, default PNone (f <$> od_get k d))) <$> od_keys d = map (λ kv, (kv.1, f kv.2)) d.
Proof.
  intros Hd. unfold od_keys. rewrite <-list_fmap_compose. apply list_fmap_ext.
  intros i [k x] Hi%list_elem_of_lookup_2. simpl. apply od_get_elem in Hi; [|done]. by rewrite Hi.
Qed.

Lemma names_NoDup (d : list (string * val)) :
  NoDup ((λ kv : string * val, (KName kv.1, kv.2)) <$> d).*1 → NoDup (od_keys d).
Proof.
  rewrite <-list_fmap_compose. intros H. apply (NoDup_fmap_1 KName).
  unfold od_keys. by rewrite <-list_fmap_compose.
Qed.

(** The paths strictly inside a dictionary, and inside a list. *)
Lemma alters_dict_children (g : val → result val) ps (d : list (string * val)) :
  NoDup (od_keys d) →
  (∀ p, p ∈ ps → ∃ k q c, p = KName k :: q ∧ (k, c) ∈ d) →
  (∀ k c, (k, c) ∈ d → alters g (under (KName k) ps) (dump c) = Ok (transform c)) →
  alters g ps (PDict (map (λ kv, (kv.1, dump kv.2)) d)) =
  Ok (PDict (map (λ kv, (kv.1, transform kv.2)) d)).
Proof.
  intros Hd Hps Hsub.
  rewrite (alters_dict g ps _ (λ k, default PNone (transform <$> od_get k d))).
  - by rewrite od_keys_map, rebuild_dict.
  - by rewrite od_keys_map.
  - intros p (k & q & c & -> & Hin)%Hps. exists k, q. rewrite od_keys_map. split; [done|].
    exact (list_elem_of_fmap_2 fst _ _ Hin).
  - intros k c ([k' x] & Heq & Hin)%list_elem_of_fmap. injection Heq as -> ->.
    rewrite (proj2 (od_get_elem k' x d Hd) Hin). by apply Hsub.
Qed.

Lemma alters_list_children (g : val → result val) ps (l : list val) :
  (∀ p, p ∈ ps → ∃ n q c, p = KIdx n :: q ∧ l !! n = Some c) →
  (∀ n c, l !! n = Some c → alters g (under (KIdx n) ps) (dump c) = Ok (transform c)) →
  alters g ps (PList (map dump l)) = Ok (PList (map transform l)).
Proof.
  intros Hps Hsub.
  rewrite (alters_list g ps _ (λ n, default PNone (transform <$> l !! n))).
  - do 2 f_equal. apply list_eq. intros n. rewrite list_lookup_fmap.
    change (map transform l) with (transform <$> l). rewrite list_lookup_fmap, length_map.
    destruct (l !! n) as [c|] eqn:E.
    + rewrite lookup_seq_lt by by eapply lookup_lt_Some. simpl. by rewrite E.
    + rewrite lookup_seq_ge; [done|]. by apply lookup_ge_None.
  - intros p (n & q & c & -> & Hn)%Hps. exists n, q. split; [done|]. rewrite length_map.
    by eapply lookup_lt_Some.
  - intros n c. change (map dump l) with (dump <$> l). rewrite list_lookup_fmap.
    intros (x & Hx & ->)%fmap_Some. rewrite Hx. by apply Hsub.
Qed.

Lemma alters_children (g : val → result val) v ps :
  keys_ok v →
  (∀ p, p ∈ ps → p ≠ [] ∧ occurs_at v p) →
  (∀ k c, (k, c) ∈ children v → alters g (under k ps) (dump c) = Ok (transform c)) →
  alters g ps (dump v) = Ok (descend v).
Proof.
  intros [Hd _]%keys_ok_inv Hps Hsub.
  assert (Hkey : ∀ p, p ∈ ps → ∃ k q c, p = k :: q ∧ (k, c) ∈ children v).
  { intros p [Hne (x & Hr & _)]%Hps. destruct Hr as [|w k c q x Hk _]; [done|]. eauto. }
  assert (Hnil : children v = [] → ps = []).
  { intros Hc. destruct ps as [|p ps]; [done|].
    destruct (Hkey p) as (k & q & c & _ & Hin); [left|]. rewrite Hc in Hin.
    by apply not_elem_of_nil in Hin. }
  assert (Hdict : ∀ d, children v = (λ kv, (KName kv.1, kv.2)) <$> d →
    alters g ps (PDict (map (λ kv, (kv.1, dump kv.2)) d)) =
    Ok (PDict (map (λ kv, (kv.1, transform kv.2)) d))).
  { intros d Hc. rewrite Hc in *. apply alters_dict_children; [by apply names_NoDup| |].
    - intros p (k & q & c & -> & ([k' x] & Heq & Hin)%list_elem_of_fmap)%Hkey.
      injection Heq as -> ->. eauto.
    - intros k c Hin. apply Hsub. by apply (list_elem_of_fmap_2 (λ kv, (KName kv.1, kv.2)) d (k, c)). }
  destruct v as [| | | | |l|d|c t d]; try (by rewrite Hnil).
  - apply alters_list_children.
    + intros p (k & q & c & -> & (n & x & Heq & Hn)%elem_of_lookup_imap)%Hkey.
      injection Heq as -> ->. eauto.
    + intros n c Hn. apply Hsub. apply elem_of_lookup_imap. eauto.
  - by apply Hdict.
  - by apply Hdict.
Qed.

(** Replacing along the paths to the values that pass the test, those inside a value before the
    value, is the structural map. *)
Lemma alters_transform (g : val → result val) v ps :
  keys_ok v →
  (∀ p x, reaches v p x → P x = true → g (descend x) = Ok (G x)) →
  inner_first ps → (∀ p, p ∈ ps ↔ occurs_at v p) →
  alters g ps (dump v) = Ok (transform v).
Proof.
  revert ps. apply (children_smaller (λ v, ∀ ps, keys_ok v →
    (∀ p x, reaches v p x → P x = true → g (descend x) = Ok (G x)) →
    inner_first ps → (∀ p, p ∈ ps ↔ occurs_at v p) → alters g ps (dump v) = Ok (transform v))).
  clear v. intros v IH ps Hk Hg Hin Hps.
  assert (Hinside : ∀ ps', inner_first ps' → (∀ p, p ∈ ps' ↔ p ≠ [] ∧ occurs_at v p) →
            alters g ps' (dump v) = Ok (descend v)).
  { intros ps' Hin' Hps'. apply alters_children; [done|by apply Hps'|].
    intros k c Hkc. pose proof (keys_ok_inv v Hk) as [Hd Hkc'].
    apply (IH k c Hkc); [by eapply Hkc'| |by apply under_inner_first|].
    - intros p x Hr. apply (Hg (k :: p) x). by econstructor.
    - intros q. rewrite elem_of_under, Hps'. split.
      + intros [_ (x & Hr & Hx)]. inversion Hr as [|w k' c' q' x' Hk' Hr']; subst. exists x.
        split; [|done]. assert (Heq : (k, c) = (k, c')); [|by simplify_eq].
        by eapply (keys_unique_elem fst (children v)).
      + intros (x & Hr & Hx). split; [done|]. exists x. split; [|done]. by econstructor. }
  rewrite transform_eq. destruct (P v) eqn:Ev.
  - destruct (inner_first_last ps Hin) as (ps' & -> & Hn & Hin').
    { apply Hps. exists v. split; [constructor|done]. }
    rewrite alters_app, Hinside; simpl; [|done|].
    + by rewrite (Hg [] v (reaches_here v) Ev).
    + intros p. rewrite <-Hps, elem_of_app, list_elem_of_singleton. naive_solver.
  - apply Hinside; [done|]. intros p. rewrite Hps. split; [|by intros [_ ?]].
    intros Ho. split; [|done]. intros ->. destruct Ho as (x & Hr & Hx). inversion Hr; congruence.
Qed.

(** The loops of the code. *)
Lemma alter_paths_transform (g : val → result val) v :
  keys_ok v → P v = false →
  (∀ p x, reaches v p x → P x = true → g (descend x) = Ok (G x)) →
  alter_paths g (sort_paths (find_field_occurrences P [] v)) (dump v) = (Ok tt, transform v).
Proof.
  intros Hk Hv Hg.
  assert (Hps : ∀ p, p ∈ sort_paths (find_field_occurrences P [] v) ↔ occurs_at v p).
  { intros p. rewrite sort_paths_perm, find_paths. unfold occurs_at. naive_solver. }
  apply alter_paths_run.
  - intros (x & Hr & Hx)%Hps. inversion Hr; congruence.
  - apply alters_transform; [done|done| |done]. apply sorted_inner_first; [|apply sort_paths_sorted].
    rewrite sort_paths_perm. by apply find_NoDup.
Qed.
End transform.

(** ** Saving: resources to references *)

(** The object an identified value is replaced by, from a table of registered resources. *)
Definition object_of (registered : list (string * RegisteredResource)) (x : val) : val :=
  match resource_id x with
  | Ok (PStr i) => match od_get i registered with Some r => rr_value r | None => PNone end
  | _ => PNone
  end.

Definition ref_of (x : val) : val :=
  match resource_id x with Ok (PStr i) => PStr (REF +:+ i) | _ => PNone end.

(** An identifier that a reference can carry. *)
Definition id_ok (i : string) : Prop := i ≠ EmptyString ∧ before REF i = i.

(** No text of the value reads as a reference. *)
Definition no_references (v : val) : Prop := ∀ p s, reaches v p (PStr s) → String.prefix REF s = false.

Section passes.
Context `{Pydantic}.

(** Every occurrence of the class is the object registered under its identifier. *)
Definition linked (tipo : string) (registered : list (string * RegisteredResource)) (v : val) : Prop :=
  ∀ p x, reaches v p x → isinstance tipo x = true → p ≠ [] →
  ∃ i r, resource_id x = Ok (PStr i) ∧ id_ok i ∧ od_get i registered = Some r ∧ rr_value r = x.

Lemma isinstance_obj tipo x : isinstance tipo x = true → ∃ c t fs, x = PObj c t fs.
Proof. destruct x; try done. eauto. Qed.

Lemma to_reference_run tipo registered x i :
  isinstance tipo x = true → resource_id x = Ok (PStr i) → od_in i registered = true →
  to_reference registered (descend (isinstance tipo) ref_of x) = Ok (ref_of x).
Proof.
  intros Hx Hi Hr. destruct (isinstance_obj tipo x Hx) as (c & t & fs & ->).
  unfold ref_of at 2. rewrite Hi. simpl in Hi. destruct (od_get "id" fs) as [w|] eqn:E; [|done].
  injection Hi as ->. unfold to_reference, item_id, od_getitem. simpl.
  rewrite od_get_map, E. simpl. by rewrite Hr.
Qed.

Lemma save_pass tipo registered v :
  keys_ok v → isinstance tipo v = false → linked tipo registered v →
  override_variables_in_dict registered v tipo (dump v) =
  (Ok tt, transform (isinstance tipo) ref_of v).
Proof.
  intros Hk Hv Hl. apply alter_paths_transform; [done|done|]. intros p x Hr Hx.
  destruct (decide (p = [])) as [->|Hp]; [inversion Hr; congruence|].
  destruct (Hl p x Hr Hx Hp) as (i & r & Hi & _ & Hreg & _).
  apply (to_reference_run tipo registered x i); [done|done|]. unfold od_in. by rewrite Hreg.
Qed.

(** ** Loading: references to resources *)
Definition of_ref (registered : list (string * RegisteredResource)) (v : val) : val :=
  match v with
  | PStr s => match od_get (ref_id s) registered with Some r => rr_value r | None => PNone end
  | _ => PNone
  end.

Lemma substring_all s : String.substring 0 (String.length s) s = s.
Proof. induction s as [|c s IH]; [done|]. simpl. by rewrite IH. Qed.

Lemma ref_id_ref i : id_ok i → ref_id (REF +:+ i) = i.
Proof.
  intros [_ Hb]. unfold ref_id. simpl. rewrite Nat.sub_0_r, substring_all. exact Hb.
Qed.

Lemma prefix_ref i : String.prefix REF (REF +:+ i) = true.
Proof.
  generalize REF. intros s. induction s as [|c s IH]; [by destruct i|]. simpl.
  destruct (ascii_dec c c); [exact IH|done].
Qed.

Lemma children_descend P G v :
  children (descend P G v) = (λ kc, (kc.1, transform P G kc.2)) <$> children v.
Proof.
  destruct v as [| | | | |l|d|c t d]; try done; simpl.
  - rewrite (fmap_imap _ (λ kc : pkey * val, (kc.1, transform P G kc.2))).
    change (map (transform P G) l) with (transform P G <$> l). by rewrite imap_fmap.
  - change (map ?h d) with (h <$> d). rewrite <-!list_fmap_compose. by apply list_fmap_ext.
  - change (map ?h d) with (h <$> d). rewrite <-!list_fmap_compose. by apply list_fmap_ext.
Qed.

Lemma reaches_transform P G v p x :
  (∀ y, P y = true → children (G y) = []) → reaches (transform P G v) p x →
  ∃ y, reaches v p y ∧ x = transform P G y.
Proof.
  intros HG Hr. remember (transform P G v) as w eqn:Hw. revert v Hw.
  induction Hr as [w|w k c p x Hc Hr IH]; intros v ->; [exists v; split; [constructor|done]|].
  rewrite transform_eq in Hc. destruct (P v) eqn:E.
  { rewrite HG in Hc by done. by apply not_elem_of_nil in Hc. }
  rewrite children_descend in Hc. apply list_elem_of_fmap in Hc as ([k' c'] & Heq & Hin).
  simpl in Heq. injection Heq as -> ->. destruct (IH c' eq_refl) as (y & Hy & ->).
  exists y. split; [by econstructor|done].
Qed.

Lemma keys_ok_transform P G v :
  (∀ y, P y = true → children (G y) = []) → keys_ok v → keys_ok (transform P G v).
Proof.
  intros HG. apply (children_smaller (λ v, keys_ok v → keys_ok (transform P G v))).
  clear v. intros v IH [Hd Hc]%keys_ok_inv. rewrite transform_eq. destruct (P v) eqn:E.
  { constructor; rewrite HG by done; [constructor|]. by intros k c ?%not_elem_of_nil. }
  constructor; rewrite children_descend.
  - rewrite <-list_fmap_compose. simpl. erewrite list_fmap_ext; [exact Hd|done].
  - intros k c ([k' c'] & Heq & Hin)%list_elem_of_fmap. simpl in Heq. injection Heq as -> ->.
    apply (IH k' c' Hin). by eapply Hc.
Qed.

Lemma dump_transform P G v :
  (∀ y, P y = true → dump (G y) = G y) → dump (transform P G v) = transform P G v.
Proof.
  intros HG. induction v as [| | | | |l IH|d IH|c t d IH] using val_ind';
    rewrite transform_eq; (destruct (P _) eqn:E; [by apply HG|clear E]); try done; simpl; f_equal.
  - induction IH as [|x l Hx _ IHl]; [done|]. simpl. by rewrite Hx, IHl.
  - induction IH as [|[k x] d Hx _ IHl]; [done|]. simpl in *. by rewrite Hx, IHl.
  - induction IH as [|[k x] d Hx _ IHl]; [done|]. simpl in *. by rewrite Hx, IHl.
Qed.

Lemma ref_of_leaf y : children (ref_of y) = [] ∧ dump (ref_of y) = ref_of y.
Proof. unfold ref_of. by destruct (resource_id y) as [[| | | | | | |]|]. Qed.

Lemma descend_compose P1 G1 P2 G2 (F : val → val) v :
  (∀ k c, (k, c) ∈ children v → transform P2 G2 (transform P1 G1 c) = F c) →
  descend P2 G2 (descend P1 G1 v) =
  match v with
  | PList l => PList (map F l)
  | PDict d | PObj _ _ d => PDict (map (λ kv, (kv.1, F kv.2)) d)
  | _ => v
  end.
Proof.
  intros Hc. assert (Hd : ∀ d, (∀ k c, (k, c) ∈ (λ kv : string * val, (KName kv.1, kv.2)) <$> d →
      transform P2 G2 (transform P1 G1 c) = F c) →
    map (λ kv, (kv.1, transform P2 G2 kv.2)) (map (λ kv, (kv.1, transform P1 G1 kv.2)) d) =
    map (λ kv : string * val, (kv.1, F kv.2)) d).
  { intros d Hd. rewrite map_map. apply map_ext_in. intros [k c] Hin%list_elem_of_In. simpl.
    f_equal. apply (Hd (KName k) c). by apply (list_elem_of_fmap_2 (λ kv, (KName kv.1, kv.2)) d (k, c)). }
  destruct v as [| | | | |l|d|c t d]; try done; simpl; f_equal; try by apply Hd.
  rewrite map_map. apply map_ext_in. intros c Hin%list_elem_of_In.
  apply list_elem_of_lookup in Hin as [n Hn].
  apply (Hc (KIdx n) c). apply elem_of_lookup_imap. eauto.
Qed.

Lemma resolve_refs tipo registered v :
  (∀ p s, reaches v p (PStr s) → String.prefix REF s = false) →
  (∀ p x, reaches v p x → isinstance tipo x = true → ∃ i, resource_id x = Ok (PStr i) ∧ id_ok i) →
  transform is_reference (of_ref registered) (transform (isinstance tipo) ref_of v) =
  transform (isinstance tipo) (object_of registered) v.
Proof.
  apply (children_smaller (λ v,
    (∀ p s, reaches v p (PStr s) → String.prefix REF s = false) →
    (∀ p x, reaches v p x → isinstance tipo x = true → ∃ i, resource_id x = Ok (PStr i) ∧ id_ok i) →
    transform is_reference (of_ref registered) (transform (isinstance tipo) ref_of v) =
    transform (isinstance tipo) (object_of registered) v)).
  clear v. intros v IH Hs Hi. rewrite !(transform_eq (isinstance tipo)).
  destruct (isinstance tipo v) eqn:Ev.
  - destruct (Hi [] v (reaches_here v) Ev) as (i & Hid & Hok). unfold ref_of, object_of.
    rewrite Hid, transform_eq. unfold is_reference. rewrite prefix_ref. unfold of_ref.
    by rewrite ref_id_ref.
  - rewrite transform_eq. assert (Hr : is_reference (descend (isinstance tipo) ref_of v) = false).
    { destruct v as [| | |s| | | |]; try done. exact (Hs [] s (reaches_here _)). }
    rewrite Hr, (descend_compose _ _ _ _ (transform (isinstance tipo) (object_of registered))); [by destruct v|].
    intros k c Hc. apply (IH k c Hc); intros p x Hx.
    + apply (Hs (k :: p)). by econstructor.
    + apply (Hi (k :: p)). by econstructor.
Qed.

Lemma load_pass tipo registered registered' v :
  keys_ok v → no_references v → isinstance tipo v = false → linked tipo registered v →
  (∀ i r, od_get i registered = Some r → isinstance tipo (rr_value r) = true →
          od_in i registered' = true) →
  override_variables_in_dict_ref registered' (transform (isinstance tipo) ref_of v) =
  (Ok tt, transform (isinstance tipo) (object_of registered') v).
Proof.
  intros Hk Hn Hv Hl Hreg.
  assert (Hl' : ∀ p x, reaches v p x → isinstance tipo x = true →
            ∃ i, resource_id x = Ok (PStr i) ∧ id_ok i ∧ od_in i registered' = true).
  { intros p x Hr Hx. destruct (decide (p = [])) as [->|Hp]; [inversion Hr; congruence|].
    destruct (Hl p x Hr Hx Hp) as (i & r & Hi & Hok & Hin & <-). exists i.
    split_and!; [done..|]. by apply (Hreg i r). }
  unfold override_variables_in_dict_ref. erewrite bind_Ok by reflexivity.
  rewrite <-(dump_transform (isinstance tipo) ref_of v) at 2 by (intros; apply ref_of_leaf).
  rewrite (alter_paths_transform is_reference (of_ref registered')).
  - rewrite resolve_refs; [done|exact Hn|]. intros p x Hr Hx.
    destruct (Hl' p x Hr Hx) as (i & ? & ? & _). eauto.
  - apply keys_ok_transform; [|done]. intros; apply ref_of_leaf.
  - rewrite transform_eq, Hv. destruct v as [| | |s| | | |]; try done. exact (Hn [] s (reaches_here _)).
  - intros p x Hr Hx. apply reaches_transform in Hr as (y & Hy & ->); [|intros; apply ref_of_leaf].
    rewrite transform_eq in *. destruct (isinstance tipo y) eqn:Ey.
    + destruct (Hl' p y Hy Ey) as (i & Hi & Hok & Hin). unfold ref_of. rewrite Hi. simpl.
      unfold of_reference, of_ref. rewrite ref_id_ref by done. unfold od_in, od_getitem in *.
      by destruct (od_get i registered').
    + destruct y as [| | |s| | | |]; try done. simpl in Hx. rewrite (Hn p s Hy) in Hx. done.
Qed.
End passes.

(** ** Validation

    What is assumed of pydantic: validating the dump of a well-typed object, in which the
    resources inside it have been put back as objects of their classes, gives a new object (of
    tag 0, the tag of the objects whose identity does not matter) equal to it, with these
    resources in it. *)
Section reload.
Context `{Pydantic}.

(** Put objects in the place of the resources. *)
Fixpoint relink (f : val → val) (v : val) : val :=
  if isinstance Resource v then f v
  else match v with
       | PList l => PList (map (relink f) l)
       | PDict d => PDict (map (λ kv, (kv.1, relink f kv.2)) d)
       | PObj c t d => PObj c t (map (λ kv, (kv.1, relink f kv.2)) d)
       | _ => v
       end.

(** The same strictly inside an object. *)
Definition relink_in (f : val → val) (v : val) : val :=
  match v with
  | PObj c t d => PObj c t (map (λ kv, (kv.1, relink f kv.2)) d)
  | _ => v
  end.

(** No resource strictly inside. *)
Definition no_inner (v : val) : Prop := ∀ p x, reaches v p x → p ≠ [] → isinstance Resource x = false.

Definition validates_dumps (typed : val → Prop) : Prop := ∀ f v,
  typed v →
  (∀ p x, reaches v p x → p ≠ [] → isinstance Resource x = true → class_of (f x) = class_of x) →
  validate (class_of v) (descend (isinstance Resource) f v) = Ok (with_tag 0 (relink_in f v)).

Lemma descend_ext P Q G v :
  (∀ p x, reaches v p x → p ≠ [] → P x = Q x) → descend P G v = descend Q G v.
Proof.
  apply (children_smaller (λ v, (∀ p x, reaches v p x → p ≠ [] → P x = Q x) →
                                descend P G v = descend Q G v)).
  clear v. intros v IH HPQ.
  assert (Hc : ∀ k c, (k, c) ∈ children v → transform P G c = transform Q G c).
  { intros k c Hk. rewrite !transform_eq, (HPQ [k] c).
    - destruct (Q c); [done|]. apply (IH k c Hk). intros p x Hr Hp.
      apply (HPQ (k :: p)); [by econstructor|done].
    - econstructor; [done|constructor].
    - done. }
  assert (Hd : ∀ d, (∀ k c, (k, c) ∈ (λ kv : string * val, (KName kv.1, kv.2)) <$> d →
      transform P G c = transform Q G c) →
    map (λ kv, (kv.1, transform P G kv.2)) d = map (λ kv : string * val, (kv.1, transform Q G kv.2)) d).
  { intros d Hd. apply map_ext_in. intros [k c] Hin%list_elem_of_In. simpl. f_equal.
    apply (Hd (KName k) c). by apply (list_elem_of_fmap_2 (λ kv, (KName kv.1, kv.2)) d (k, c)). }
  destruct v as [| | | | |l|d|c t d]; try done; simpl; f_equal; try by apply Hd.
  apply map_ext_in. intros c Hin%list_elem_of_In. apply list_elem_of_lookup in Hin as [n Hn].
  apply (Hc (KIdx n) c). apply elem_of_lookup_imap. eauto.
Qed.

Lemma dump_transform_none G v : dump v = transform (λ _, false) G v.
Proof. reflexivity. Qed.

Lemma dump_no_inner G v : no_inner v → dump v = descend (isinstance Resource) G v.
Proof.
  intros Hn. rewrite (dump_transform_none G), transform_eq. apply descend_ext.
  intros p x Hr Hp. by rewrite (Hn p x Hr Hp).
Qed.

Lemma relink_none f v : (∀ p x, reaches v p x → isinstance Resource x = false) → relink f v = v.
Proof.
  induction v as [| | | | |l IH|d IH|c t d IH] using val_ind'; intros Hn; try done.
  - simpl. f_equal. rewrite <-(List.map_id l) at 2. apply map_ext_in. intros x Hin%list_elem_of_In.
    rewrite Forall_forall in IH. apply (IH x Hin). intros p y Hr.
    apply list_elem_of_lookup in Hin as [n Hin]. apply (Hn (KIdx n :: p)). econstructor; [|done].
    apply elem_of_lookup_imap. eauto.
  - simpl. f_equal. rewrite <-(List.map_id d) at 2. apply map_ext_in. intros [k x] Hin%list_elem_of_In.
    simpl. f_equal. rewrite Forall_forall in IH. apply (IH (k, x) Hin). intros p y Hr.
    apply (Hn (KName k :: p)). econstructor; [|done].
    by apply (list_elem_of_fmap_2 (λ kv, (KName kv.1, kv.2)) d (k, x)).
  - simpl. pose proof (Hn [] _ (reaches_here _)) as H0. simpl in H0. rewrite H0. f_equal.
    rewrite <-(List.map_id d) at 2. apply map_ext_in. intros [k x] Hin%list_elem_of_In.
    simpl. f_equal. rewrite Forall_forall in IH. apply (IH (k, x) Hin). intros p y Hr.
    apply (Hn (KName k :: p)). econstructor; [|done].
    by apply (list_elem_of_fmap_2 (λ kv, (KName kv.1, kv.2)) d (k, x)).
Qed.

Lemma relink_in_none f v : no_inner v → relink_in f v = v.
Proof.
  intros Hn. destruct v as [| | | | | | |c t d]; try done. simpl. f_equal.
  rewrite <-(List.map_id d) at 2. apply map_ext_in. intros [k x] Hin%list_elem_of_In. simpl. f_equal.
  apply relink_none. intros p y Hr. apply (Hn (KName k :: p)); [|done]. econstructor; [|done].
  by apply (list_elem_of_fmap_2 (λ kv, (KName kv.1, kv.2)) d (k, x)).
Qed.

(** An object without resources inside is its dump, validated. *)
Lemma validate_plain typed v :
  validates_dumps typed → typed v → no_inner v → validate (class_of v) (dump v) = Ok (with_tag 0 v).
Proof.
  intros Hv Ht Hn. rewrite (dump_no_inner (λ x, x) v Hn), Hv; [by rewrite relink_in_none|done|done].
Qed.

(** ** What a sound blueprint is *)
Context {C : Type} (topology : World C) (typed : val → Prop).

Definition field (k : string) (v : val) : option val :=
  match v with PObj _ _ fs => od_get k fs | _ => None end.

Record resource_ok (registered : list (string * RegisteredResource)) (kr : string * RegisteredResource) : Prop := {
  ro_id : resource_id (rr_value kr.2) = Ok (PStr kr.1);
  ro_id_ok : id_ok kr.1;
  ro_class : rr_type kr.2 = class_of (rr_value kr.2);
  ro_resource : isinstance Resource (rr_value kr.2) = true;
  ro_typed : typed (rr_value kr.2);
  ro_keys : keys_ok (rr_value kr.2);
  ro_refs : no_references (rr_value kr.2);
  ro_kind :
    (isinstance ResourceDeployable (rr_value kr.2) = true ∧
     isinstance ResourceConfiguration (rr_value kr.2) = false ∧
     field "type" (rr_value kr.2) = Some (PStr "ResourceDeployable") ∧ no_inner (rr_value kr.2) ∧
     ∃ a v, field "area" (rr_value kr.2) = Some (PInt a) ∧
            (get_vim_from_area_id_model a topology).1 = Ok v) ∨
    (isinstance ResourceDeployable (rr_value kr.2) = false ∧
     isinstance ResourceConfiguration (rr_value kr.2) = true ∧
     field "type" (rr_value kr.2) = Some (PStr "ResourceConfiguration") ∧
     linked ResourceDeployable registered (rr_value kr.2) ∧
     ∀ p x, reaches (rr_value kr.2) p x → p ≠ [] →
            isinstance Resource x = isinstance ResourceDeployable x)
}.

(** A value that dumping and validating gives back. *)
Definition plain_data (cls : string) (v : val) : Prop :=
  class_of v = cls ∧ typed v ∧ no_inner v ∧ with_tag 0 v = v.

Definition provider_ok (cls : string) (p : BlueprintNGProviderModel) : Prop :=
  ∃ v, provider_data p = Some v ∧ plain_data cls v.

Record blueprint_ok (bm : BlueprintNGBaseModel) : Prop := {
  bo_ids : NoDup (od_keys (registered_resources bm));
  bo_resources : Forall (resource_ok (registered_resources bm)) (registered_resources bm);
  bo_state_class : class_of (state bm) = state_class (bm_type bm);
  bo_state_obj : isinstance Resource (state bm) = false;
  bo_state_typed : typed (state bm);
  bo_state_tag : with_tag 0 (state bm) = state bm;
  bo_state_keys : keys_ok (state bm);
  bo_state_refs : no_references (state bm);
  bo_state_linked : linked Resource (registered_resources bm) (state bm);
  bo_config : match create_config bm with
              | Some v => ∃ cls, create_config_type bm = Some cls ∧ plain_data cls v
              | None => True
              end;
  bo_virt : Forall (λ ap, ∃ cls, get_virt_provider topology ap.1 = Ok cls ∧ provider_ok cls ap.2)
                   (virt_providers bm);
  bo_k8s : Forall (λ ap, provider_ok k8s_data ap.2) (k8s_providers bm);
  bo_pdu : match pdu_provider bm with Some p => provider_ok pdu_data p | None => True end;
  bo_blue : match blueprint_provider bm with Some p => provider_ok blueprint_data p | None => True end
}.

(** ** Saving a sound blueprint *)
Definition doc_value (v : val) : val :=
  if isinstance ResourceDeployable v then dump v
  else transform (isinstance ResourceDeployable) ref_of v.
Definition doc_entry (kr : string * RegisteredResource) : string * RegisteredResource :=
  (kr.1, {| rr_type := rr_type kr.2; rr_value := doc_value (rr_value kr.2) |}).
Definition dump_entry (kr : string * RegisteredResource) : string * RegisteredResource :=
  (kr.1, dump_resource kr.2).

Definition saved (bm : BlueprintNGBaseModel) : BlueprintNGBaseModel :=
  {| bm_id := bm_id bm; bm_type := bm_type bm; parent_blue_id := parent_blue_id bm;
     children_blue_ids := children_blue_ids bm; registered_resources := doc_entry <$>
     registered_resources bm; state_type := state_type bm; state := transform (isinstance
     Resource) ref_of (state bm); create_config_type := create_config_type bm; create_config :=
     dump <$> create_config bm; virt_providers := (λ ap, (ap.1, dump_provider ap.2)) <$>
     virt_providers bm; k8s_providers := (λ ap, (ap.1, dump_provider ap.2)) <$> k8s_providers
     bm; pdu_provider := dump_provider <$> pdu_provider bm; blueprint_provider := dump_provider
     <$> blueprint_provider bm; created := created bm; corrupted := corrupted bm; protected :=
     protected bm; status := status bm; node_exporters := node_exporters bm; day_2_call_history
     := day_2_call_history bm |}.

Lemma od_get_mid {V} k (v : V) a b : k ∉ od_keys a → od_get k (a ++ (k, v) :: b) = Some v.
Proof.
  induction a as [|[k' x] a IH]; simpl; [by rewrite String.eqb_refl|].
  intros [Hne Hn]%not_elem_of_cons. rewrite (proj2 (String.eqb_neq k' k)) by done. by apply IH.
Qed.

Lemma od_set_mid {V} k (v v' : V) a b :
  k ∉ od_keys a → od_set k v' (a ++ (k, v) :: b) = a ++ (k, v') :: b.
Proof.
  induction a as [|[k' x] a IH]; simpl; [by rewrite String.eqb_refl|].
  intros [Hne Hn]%not_elem_of_cons. rewrite (proj2 (String.eqb_neq k' k)) by done. by rewrite IH.
Qed.

Lemma entry_keys (f : string * RegisteredResource → string * RegisteredResource) l :
  (∀ kr, (f kr).1 = kr.1) → od_keys (f <$> l) = od_keys l.
Proof. intros Hf. unfold od_keys. rewrite <-list_fmap_compose. apply list_fmap_ext. intros. apply Hf. Qed.

Lemma save_loop registered (l1 l2 : list (string * RegisteredResource)) d :
  Forall (resource_ok registered) l2 → NoDup (od_keys (l1 ++ l2)) →
  registered_resources d = (doc_entry <$> l1) ++ (dump_entry <$> l2) →
  for_each l2 (λ kv, if isinstance ResourceConfiguration (rr_value kv.2)
     then in_resource kv.1 (override_variables_in_dict registered (rr_value kv.2) ResourceDeployable)
     else mret tt) d = (Ok tt, set_resources (doc_entry <$> (l1 ++ l2)) d).
Proof.
  revert l1 d; induction l2 as [|[k r] l2 IH]; intros l1 d Hok Hd Hreg.
  { simpl. rewrite !app_nil_r in *. simpl in Hreg. rewrite <-Hreg. by destruct d. }
  apply Forall_cons in Hok as [Hr Hok].
  assert (Hk : k ∉ od_keys (doc_entry <$> l1)).
  { rewrite entry_keys by done. unfold od_keys in *. rewrite fmap_app in Hd.
    apply NoDup_app in Hd as (_ & Hn & _). intros Hin. apply (Hn _ Hin). left. }
  set (d1 := set_resources ((doc_entry <$> (l1 ++ [(k, r)])) ++ (dump_entry <$> l2)) d).
  cbn [for_each]. rewrite (bind_Ok _ _ d d1 tt).
  - rewrite (IH (l1 ++ [(k, r)]) d1); [by rewrite <-app_assoc|done|by rewrite <-app_assoc|done].
  - simpl. rewrite fmap_cons in Hreg. unfold d1. rewrite fmap_app, <-app_assoc. simpl.
    destruct (ro_kind _ _ Hr) as [(Hdep & Hconf & _)|(Hdep & Hconf & _ & Hl & _)]; simpl in *;
      rewrite Hconf.
    + assert (doc_entry (k, r) = dump_entry (k, r)) as ->.
      { unfold doc_entry, doc_value. simpl. by rewrite Hdep. }
      rewrite <-Hreg. by destruct d.
    + change (dump_entry (k, r)) with (k, dump_resource r) in Hreg.
      unfold in_resource. rewrite Hreg, od_get_mid by done. simpl.
      rewrite (save_pass ResourceDeployable registered (rr_value r) (ro_keys _ _ Hr) Hdep Hl).
      rewrite od_set_mid by done.
      unfold doc_entry, doc_value. simpl. by rewrite Hdep.
Qed.

Lemma set_resources_state x y bm : set_resources x (set_state y bm) = set_state y (set_resources x bm).
Proof. done. Qed.

Lemma serialize_run bm : blueprint_ok bm → serialize_content bm = Ok (saved bm).
Proof.
  intros Hb. unfold serialize_content, override_all, catch.
  rewrite (bind_Ok _ _ (model_dump bm)
    (set_state (transform (isinstance Resource) ref_of (state bm)) (model_dump bm)) tt).
  - rewrite (save_loop (registered_resources bm) [] (registered_resources bm)); simpl.
    + done.
    + apply (bo_resources _ Hb).
    + apply (bo_ids _ Hb).
    + done.
  - unfold in_state, zoom. change (state (model_dump bm)) with (dump (state bm)).
    by rewrite (save_pass Resource (registered_resources bm) (state bm) (bo_state_keys _ Hb)
      (bo_state_obj _ Hb) (bo_state_linked _ Hb)).
Qed.

(** ** Loading it *)

(** How a resource is registered when it is loaded. *)
Definition loaded (registered : list (string * RegisteredResource)) (kr : string * RegisteredResource) :
  string * RegisteredResource :=
  (kr.1, {| rr_type := rr_type kr.2;
            rr_value := with_tag (S (length registered)) (relink_in (object_of registered) (rr_value kr.2)) |}).

Definition add_loaded (deployables : bool) (registered : list (string * RegisteredResource))
  (kr : string * RegisteredResource) : list (string * RegisteredResource) :=
  if Bool.eqb (isinstance ResourceDeployable (rr_value kr.2)) deployables
  then registered ++ [loaded registered kr] else registered.

(** First the deployable resources, then the configurations. *)
Definition reloaded (l : list (string * RegisteredResource)) : list (string * RegisteredResource) :=
  fold_left (add_loaded false) l (fold_left (add_loaded true) l []).

Lemma field_relink f k v :
  isinstance Resource v = true →
  (∀ x, field k v = Some x → isinstance Resource x = false ∧ children x = []) →
  field k (relink_in f v) = field k v.
Proof.
  destruct v as [| | | | | | |c t fs]; try done. intros _ Hk. simpl in *. rewrite od_get_map.
  destruct (od_get k fs) as [x|]; [|done]. simpl. destruct (Hk x eq_refl) as [Hx Hc]. f_equal.
  destruct x as [| | | | |l|d|c' t' d]; try done; simpl in *.
  - destruct l; [done|by apply (f_equal length) in Hc].
  - by destruct d.
  - rewrite Hx. by destruct d.
Qed.

Lemma with_tag_field t k v : field k (with_tag t v) = field k v.
Proof. by destruct v. Qed.

Lemma with_tag_isinstance t cls v : isinstance cls (with_tag t v) = isinstance cls v.
Proof. by destruct v. Qed.

Lemma relink_isinstance f cls v : isinstance cls (relink_in f v) = isinstance cls v.
Proof. by destruct v. Qed.

Lemma with_tag_twice t t' v : with_tag t (with_tag t' v) = with_tag t v.
Proof. by destruct v. Qed.

Lemma with_tag_relink f v : with_tag 0 v = v → with_tag 0 (relink_in f v) = relink_in f v.
Proof. destruct v; try done. simpl. congruence. Qed.

Lemma with_tag_class t v : class_of (with_tag t v) = class_of v.
Proof. by destruct v. Qed.

Lemma relink_class f v : class_of (relink_in f v) = class_of v.
Proof. by destruct v. Qed.

Lemma resource_id_field v i : resource_id v = Ok (PStr i) ↔ field "id" v = Some (PStr i).
Proof.
  destruct v; try by split. simpl. destruct (od_get "id" fields) as [w|]; [|by split].
  split; [by intros [= ->]|by intros [= ->]].
Qed.

Lemma resource_area_field v a : field "area" v = Some (PInt a) → resource_area v = Ok a.
Proof. destruct v; try done. simpl. by intros ->. Qed.

Lemma load_resource_run cls d w i bm :
  validate cls d = Ok w → resource_id w = Ok (PStr i) → i ≠ EmptyString →
  od_get i (registered_resources bm) = None →
  (isinstance ResourceDeployable w = true →
     ∃ a v, field "area" w = Some (PInt a) ∧ (get_vim_from_area_id_model a topology).1 = Ok v) →
  load_resource topology cls d bm =
  (Ok tt, set_resources (registered_resources bm ++
     [(i, {| rr_type := class_of w;
             rr_value := with_tag (S (length (registered_resources bm))) w |})]) bm).
Proof.
  intros Hv Hi Hne Hnew Harea. unfold load_resource. erewrite bind_Ok by (unfold liftR; by rewrite Hv).
  erewrite bind_Ok by reflexivity. set (w' := with_tag _ w).
  assert (Hi' : resource_id w' = Ok (PStr i)).
  { apply resource_id_field. unfold w'. rewrite with_tag_field. by apply resource_id_field. }
  assert (Hn : no_id (PStr i) = false) by (simpl; by apply String.eqb_neq).
  erewrite bind_Ok; [reflexivity|]. unfold register_resource. erewrite bind_Ok by reflexivity.
  rewrite Hi'. erewrite bind_Ok by reflexivity. simpl in Hn. cbv beta iota. rewrite Hn.
  rewrite (proj2 (od_in_false i _)) by done. erewrite bind_Ok by reflexivity.
  cbv beta zeta. cbn [no_id]. rewrite Hn.
  assert (Hdep : isinstance ResourceDeployable w' = isinstance ResourceDeployable w)
    by apply with_tag_isinstance.
  rewrite Hdep.
  erewrite (bind_Ok _ _ bm bm tt).
  - rewrite Hi'. erewrite bind_Ok by reflexivity. cbv beta iota. erewrite bind_Ok by reflexivity.
    assert (Hc : class_of w' = class_of w) by apply with_tag_class.
    by rewrite od_set_new, Hc by done.
  - destruct (isinstance ResourceDeployable w) eqn:Ed; [|done].
    destruct (Harea eq_refl) as (a & v & Ha & Hvim).
    erewrite bind_Ok by (unfold liftR; rewrite (resource_area_field w' a); [done|];
      unfold w'; by rewrite with_tag_field).
    unfold catch. erewrite bind_Ok by (unfold liftR; by rewrite Hvim). done.
Qed.

Lemma doc_type registered kr t :
  resource_ok registered kr → field "type" (rr_value kr.2) = Some (PStr t) →
  value_type (doc_entry kr).2 = Ok (PStr t).
Proof.
  intros Hr Ht. pose proof (ro_resource _ _ Hr) as Hobj. unfold value_type, doc_entry, doc_value. simpl.
  destruct (rr_value kr.2) as [| | | | | | |c n fs] eqn:E; try done. simpl in Ht.
  destruct (isinstance ResourceDeployable (PObj c n fs)) eqn:Ed.
  - simpl. unfold od_getitem. by rewrite od_get_map, Ht.
  - rewrite transform_eq, Ed. simpl. unfold od_getitem. by rewrite od_get_map, Ht.
Qed.

(** Registering in the order of the document. *)
Definition fresh_for (b : bool) (regs l : list (string * RegisteredResource)) : Prop :=
  NoDup (od_keys l) ∧
  ∀ kr, kr ∈ l → isinstance ResourceDeployable (rr_value kr.2) = b → od_get kr.1 regs = None.

Lemma fresh_for_cons b regs kr l :
  fresh_for b regs (kr :: l) → fresh_for b (add_loaded b regs kr) l.
Proof.
  intros [[Hn Hd]%NoDup_cons Hf]. split; [done|]. intros kr' Hin Hb'. unfold add_loaded.
  destruct (Bool.eqb _ b) eqn:E; [|apply Hf; [by right|done]].
  apply od_get_None. unfold od_keys. rewrite fmap_app, elem_of_app.
  intros [Hin'|Heq]; [|simpl in Heq; apply list_elem_of_singleton in Heq].
  - assert (Hg : od_get kr'.1 regs = None) by (apply Hf; [by right|done]). by apply od_get_None in Hg.
  - apply Hn. rewrite <-Heq. by apply (list_elem_of_fmap_2 fst).
Qed.

Lemma load_deployables_run registered (l : list (string * RegisteredResource)) bm :
  validates_dumps typed → Forall (resource_ok registered) l →
  fresh_for true (registered_resources bm) l →
  for_each (doc_entry <$> l) (λ kr,
    t ← liftR (value_type kr.2);
    match t with
    | PStr "ResourceDeployable" => load_resource topology (rr_type kr.2) (rr_value kr.2)
    | _ => mret tt
    end) bm = (Ok tt, set_resources (fold_left (add_loaded true) l (registered_resources bm)) bm).
Proof.
  intros Hv. revert bm; induction l as [|kr l IH]; intros bm Hok Hf.
  { simpl. by destruct bm. }
  apply Forall_cons in Hok as [Hr Hok]. rewrite fmap_cons. cbn [for_each fold_left].
  rewrite (bind_Ok _ _ bm (set_resources (add_loaded true (registered_resources bm) kr) bm) tt).
  - rewrite IH; [done|done|]. by apply fresh_for_cons.
  - destruct (ro_kind _ _ Hr) as [(Hdep & _ & Ht & Hn & a & v & Ha & Hvim)|(Hdep & _ & Ht & _)].
    + erewrite bind_Ok by (unfold liftR; by rewrite (doc_type registered kr _ Hr Ht)). cbv beta iota.
      unfold doc_entry, doc_value, add_loaded. simpl. rewrite Hdep. simpl.
      rewrite (load_resource_run (rr_type kr.2) _ (with_tag 0 (rr_value kr.2)) kr.1).
      * unfold loaded. by rewrite relink_in_none, (ro_class _ _ Hr), with_tag_class, with_tag_twice.
      * rewrite (ro_class _ _ Hr). apply (validate_plain typed); [done|apply Hr|done].
      * apply resource_id_field. rewrite with_tag_field. apply resource_id_field, Hr.
      * apply (ro_id_ok _ _ Hr).
      * apply Hf; [left|done].
      * intros _. rewrite with_tag_field. eauto.
    + erewrite bind_Ok by (unfold liftR; by rewrite (doc_type registered kr _ Hr Ht)). cbv beta iota.
      unfold add_loaded. rewrite Hdep. by destruct bm.
Qed.

(** The table has an object of the right class for every deployable resource. *)
Definition covers (tipo : string) (registered regs : list (string * RegisteredResource)) : Prop :=
  ∀ i r, od_get i registered = Some r → isinstance tipo (rr_value r) = true →
  ∃ r', od_get i regs = Some r' ∧ class_of (rr_value r') = class_of (rr_value r).

Lemma covers_class tipo registered regs v :
  linked tipo registered v → covers tipo registered regs →
  ∀ p x, reaches v p x → p ≠ [] → isinstance tipo x = true →
         class_of (object_of regs x) = class_of x.
Proof.
  intros Hl Hc p x Hr Hp Hx. destruct (Hl p x Hr Hx Hp) as (i & r & Hi & _ & Hreg & <-).
  destruct (Hc i r Hreg Hx) as (r' & Hr' & Hcls). unfold object_of. by rewrite Hi, Hr'.
Qed.

Lemma od_get_app {V} k (a b : list (string * V)) :
  od_get k (a ++ b) = match od_get k a with Some v => Some v | None => od_get k b end.
Proof. induction a as [|[k' v] a IH]; simpl; [done|]. by destruct (String.eqb k' k). Qed.

Lemma add_loaded_mono b regs kr i r :
  od_get i regs = Some r → od_get i (add_loaded b regs kr) = Some r.
Proof. intros Hi. unfold add_loaded. destruct (Bool.eqb _ b); [|done]. by rewrite od_get_app, Hi. Qed.

Lemma fold_loaded_mono b l regs i r :
  od_get i regs = Some r → od_get i (fold_left (add_loaded b) l regs) = Some r.
Proof.
  revert regs; induction l as [|kr l IH]; intros regs Hi; [done|]. simpl. by apply IH, add_loaded_mono.
Qed.

Lemma covers_mono tipo registered regs b kr :
  covers tipo registered regs → covers tipo registered (add_loaded b regs kr).
Proof.
  intros Hc i r Hi Hx. destruct (Hc i r Hi Hx) as (r' & Hr' & Hcls). exists r'.
  split; [by apply add_loaded_mono|done].
Qed.

Lemma load_configurations_run registered (l : list (string * RegisteredResource)) bm :
  validates_dumps typed → Forall (resource_ok registered) l →
  fresh_for false (registered_resources bm) l →
  covers ResourceDeployable registered (registered_resources bm) →
  for_each (doc_entry <$> l) (λ kr,
    t ← liftR (value_type kr.2);
    match t with
    | PStr "ResourceConfiguration" =>
        bm ← getS;
        let '(r, v) := override_variables_in_dict_ref (registered_resources bm) (rr_value kr.2) in
        liftR r ;; load_resource topology (rr_type kr.2) v
    | _ => mret tt
    end) bm = (Ok tt, set_resources (fold_left (add_loaded false) l (registered_resources bm)) bm).
Proof.
  intros Hv. revert bm; induction l as [|kr l IH]; intros bm Hok Hf Hcov.
  { simpl. by destruct bm. }
  apply Forall_cons in Hok as [Hr Hok]. rewrite fmap_cons. cbn [for_each fold_left].
  rewrite (bind_Ok _ _ bm (set_resources (add_loaded false (registered_resources bm) kr) bm) tt).
  - rewrite IH; [done|done|by apply fresh_for_cons|by apply covers_mono].
  - destruct (ro_kind _ _ Hr) as [(Hdep & _ & Ht & _)|(Hdep & _ & Ht & Hl & Hin)].
    + erewrite bind_Ok by (unfold liftR; by rewrite (doc_type registered kr _ Hr Ht)). cbv beta iota.
      unfold add_loaded. rewrite Hdep. by destruct bm.
    + erewrite bind_Ok by (unfold liftR; by rewrite (doc_type registered kr _ Hr Ht)). cbv beta iota.
      erewrite bind_Ok by reflexivity. cbv beta iota. unfold doc_entry, doc_value, add_loaded. simpl.
      rewrite Hdep. simpl.
      rewrite (load_pass ResourceDeployable registered (registered_resources bm) (rr_value kr.2)
                 (ro_keys _ _ Hr) (ro_refs _ _ Hr) Hdep Hl).
      2: { intros i r Hi Hx. destruct (Hcov i r Hi Hx) as (r' & Hr' & _). unfold od_in. by rewrite Hr'. }
      erewrite bind_Ok by reflexivity. rewrite transform_eq, Hdep.
      rewrite (descend_ext _ (isinstance Resource)) by (intros p x Hp Hne; symmetry; by apply (Hin p x)).
      rewrite (load_resource_run (rr_type kr.2) _
        (with_tag 0 (relink_in (object_of (registered_resources bm)) (rr_value kr.2))) kr.1).
      * unfold loaded. by rewrite with_tag_class, relink_class, (ro_class _ _ Hr), with_tag_twice.
      * rewrite (ro_class _ _ Hr). apply Hv; [apply Hr|]. intros p x Hp Hne Hx.
        rewrite (Hin p x Hp Hne) in Hx. by apply (covers_class ResourceDeployable registered _ _ Hl Hcov p x).
      * apply resource_id_field. rewrite with_tag_field, field_relink; [apply resource_id_field, Hr|apply Hr|].
        intros x Hx. pose proof (proj1 (resource_id_field _ _) (ro_id _ _ Hr)) as Hid.
        rewrite Hid in Hx. by injection Hx as <-.
      * apply (ro_id_ok _ _ Hr).
      * apply Hf; [left|done].
      * rewrite with_tag_isinstance, relink_isinstance. by rewrite Hdep.
Qed.

(** ** The table of the reloaded blueprint *)
Lemma fold_loaded_get b l regs kr :
  kr ∈ l → fresh_for b regs l → isinstance ResourceDeployable (rr_value kr.2) = b →
  ∃ regs0, od_get kr.1 (fold_left (add_loaded b) l regs) = Some (loaded regs0 kr).2 ∧
    (∀ i r, od_get i regs = Some r → od_get i regs0 = Some r) ∧
    (∀ i r, od_get i regs0 = Some r → od_get i (fold_left (add_loaded b) l regs) = Some r).
Proof.
  revert regs; induction l as [|kr' l IH]; intros regs Hin Hf Hb; [by apply not_elem_of_nil in Hin|].
  apply elem_of_cons in Hin as [<-|Hin]; simpl.
  - exists regs. split; [|split; [done|]].
    + apply fold_loaded_mono. unfold add_loaded. rewrite Hb, Bool.eqb_reflx, od_get_app.
      rewrite (proj2 Hf kr) by (left || done). simpl. by rewrite String.eqb_refl.
    + intros i r Hi. by apply fold_loaded_mono, add_loaded_mono.
  - destruct (IH (add_loaded b regs kr') Hin (fresh_for_cons _ _ _ _ Hf) Hb) as (regs0 & H1 & H2 & H3).
    exists regs0. split; [done|split; [|done]]. intros i r Hi. by apply H2, add_loaded_mono.
Qed.

Lemma fold_loaded_keys b l regs i :
  i ∈ od_keys (fold_left (add_loaded b) l regs) →
  i ∈ od_keys regs ∨ ∃ kr, kr ∈ l ∧ kr.1 = i ∧ isinstance ResourceDeployable (rr_value kr.2) = b.
Proof.
  revert regs; induction l as [|kr l IH]; intros regs Hi; [by left|]. simpl in Hi.
  apply IH in Hi as [Hi|(kr' & Hin & H1 & H2)]; [|right; exists kr'; split; [by right|done]].
  unfold add_loaded in Hi. destruct (Bool.eqb _ b) eqn:E; [|by left].
  unfold od_keys in Hi. rewrite fmap_app in Hi. apply elem_of_app in Hi as [Hi|Hi]; [by left|].
  simpl in Hi. apply list_elem_of_singleton in Hi as ->. right. exists kr.
  split; [left|split; [done|by apply Bool.eqb_prop in E]].
Qed.

Definition tag_of (v : val) : nat := match v with PObj _ t _ => t | _ => 0 end.

(** Each object has a tag of its own. *)
Definition tags (regs : list (string * RegisteredResource)) : list nat :=
  (λ kr, tag_of (rr_value kr.2)) <$> regs.

Lemma fold_loaded_tags registered b l regs :
  Forall (resource_ok registered) l → tags regs = seq 1 (length regs) →
  tags (fold_left (add_loaded b) l regs) = seq 1 (length (fold_left (add_loaded b) l regs)).
Proof.
  revert regs; induction l as [|kr l IH]; intros regs Hok Ht; [done|]. simpl.
  apply Forall_cons in Hok as [Hr Hok]. apply IH; [done|]. unfold add_loaded.
  destruct (Bool.eqb _ b); [|done]. unfold tags in *. rewrite fmap_app, length_app, Ht. simpl.
  rewrite Nat.add_1_r, seq_S. f_equal. f_equal. pose proof (ro_resource _ _ Hr) as Ho.
  by destruct (rr_value kr.2).
Qed.

Lemma relink_ext f g v :
  (∀ p x, reaches v p x → isinstance Resource x = true → f x = g x) → relink f v = relink g v.
Proof.
  induction v as [| | | | |l IH|d IH|c t d IH] using val_ind'; intros Hfg; try done; simpl.
  - f_equal. apply map_ext_in. intros x Hin%list_elem_of_In. rewrite Forall_forall in IH.
    apply (IH x Hin). intros p y Hr. apply list_elem_of_lookup in Hin as [n Hin].
    apply (Hfg (KIdx n :: p)). econstructor; [|done]. apply elem_of_lookup_imap. eauto.
  - f_equal. apply map_ext_in. intros [k x] Hin%list_elem_of_In. simpl. f_equal.
    rewrite Forall_forall in IH. apply (IH (k, x) Hin). intros p y Hr.
    apply (Hfg (KName k :: p)). econstructor; [|done].
    by apply (list_elem_of_fmap_2 (λ kv, (KName kv.1, kv.2)) d (k, x)).
  - destruct (py_in String.eqb Resource (mro c)) eqn:E; [apply (Hfg []); [constructor|exact E]|].
    f_equal. apply map_ext_in. intros [k x] Hin%list_elem_of_In. simpl. f_equal.
    rewrite Forall_forall in IH. apply (IH (k, x) Hin). intros p y Hr.
    apply (Hfg (KName k :: p)). econstructor; [|done].
    by apply (list_elem_of_fmap_2 (λ kv, (KName kv.1, kv.2)) d (k, x)).
Qed.

Lemma relink_in_ext f g v :
  (∀ p x, reaches v p x → p ≠ [] → isinstance Resource x = true → f x = g x) →
  relink_in f v = relink_in g v.
Proof.
  intros Hfg. destruct v as [| | | | | | |c t d]; try done. simpl. f_equal.
  apply map_ext_in. intros [k x] Hin%list_elem_of_In. simpl. f_equal.
  apply relink_ext. intros p y Hr. apply (Hfg (KName k :: p)); [|done]. econstructor; [|done].
  by apply (list_elem_of_fmap_2 (λ kv, (KName kv.1, kv.2)) d (k, x)).
Qed.

Lemma object_of_mono tipo registered regs regs' v :
  linked tipo registered v → covers tipo registered regs →
  (∀ i r, od_get i regs = Some r → od_get i regs' = Some r) →
  ∀ p x, reaches v p x → p ≠ [] → isinstance tipo x = true → object_of regs x = object_of regs' x.
Proof.
  intros Hl Hc Hm p x Hr Hp Hx. destruct (Hl p x Hr Hx Hp) as (i & r & Hi & _ & Hreg & <-).
  destruct (Hc i r Hreg Hx) as (r' & Hr' & _). unfold object_of. rewrite Hi, Hr'.
  by rewrite (Hm i r' Hr').
Qed.

Section table.
Context (l : list (string * RegisteredResource)).
Hypothesis Hids : NoDup (od_keys l).
Hypothesis Hok : Forall (resource_ok l) l.

Lemma deployables_fresh : fresh_for true [] l.
Proof. by split. Qed.

Lemma deployables_covered : covers ResourceDeployable l (fold_left (add_loaded true) l []).
Proof.
  intros i r Hi Hx. apply od_get_elem in Hi; [|done].
  destruct (fold_loaded_get true l [] (i, r) Hi deployables_fresh Hx) as (regs0 & Hg & _).
  eexists. split; [exact Hg|]. simpl. by rewrite with_tag_class, relink_class.
Qed.

Lemma configurations_fresh : fresh_for false (fold_left (add_loaded true) l []) l.
Proof.
  split; [done|]. intros kr Hin Hx. apply od_get_None.
  intros [Hi%not_elem_of_nil|(kr' & Hin' & Heq & Hx')]%fold_loaded_keys; [done|].
  assert (kr' = kr) as ->; [|congruence]. by apply (keys_unique_elem fst l).
Qed.

(** Every resource is in the new table, as an object whose inner resources are those of the new
    table. *)
Lemma reloaded_get kr :
  kr ∈ l → ∃ n, od_get kr.1 (reloaded l) =
    Some {| rr_type := rr_type kr.2;
            rr_value := with_tag n (relink_in (object_of (reloaded l)) (rr_value kr.2)) |}.
Proof.
  intros Hin. assert (Hr : resource_ok l kr) by (rewrite Forall_forall in Hok; by apply Hok).
  destruct (ro_kind _ _ Hr) as [(Hdep & _ & _ & Hn & _)|(Hdep & _ & _ & Hl & Hinner)].
  - destruct (fold_loaded_get true l [] kr Hin deployables_fresh Hdep) as (regs0 & Hg & _ & _).
    exists (S (length regs0)). unfold reloaded. rewrite (fold_loaded_mono _ _ _ _ _ Hg). simpl.
    by rewrite !relink_in_none.
  - destruct (fold_loaded_get false l _ kr Hin configurations_fresh Hdep) as (regs0 & Hg & H0 & H1).
    exists (S (length regs0)). unfold reloaded. rewrite Hg. simpl. do 3 f_equal.
    apply relink_in_ext. intros p x Hp Hne Hx. rewrite (Hinner p x Hp Hne) in Hx.
    apply (object_of_mono ResourceDeployable l regs0 _ (rr_value kr.2) Hl) with p; try done.
    intros i r Hi Hx'. destruct (deployables_covered i r Hi Hx') as (r' & Hr' & ?).
    exists r'. split; [by apply H0|done].
Qed.

Lemma reloaded_covers tipo : covers tipo l (reloaded l).
Proof.
  intros i r Hi _. apply od_get_elem in Hi; [|done]. destruct (reloaded_get (i, r) Hi) as [n Hn].
  eexists. split; [exact Hn|]. simpl. by rewrite with_tag_class, relink_class.
Qed.

Lemma reloaded_keys i : od_in i (reloaded l) = od_in i l.
Proof.
  apply eq_true_iff_eq. rewrite !od_in_keys. split.
  - intros [[Hi%not_elem_of_nil|(kr & Hin & <- & _)]%fold_loaded_keys|(kr & Hin & <- & _)]%fold_loaded_keys.
    { done. }
    all: by apply (list_elem_of_fmap_2 fst).
  - intros ([k r] & -> & Hin)%list_elem_of_fmap. destruct (reloaded_get (k, r) Hin) as [n Hn].
    apply od_in_keys. unfold od_in. simpl in *. by rewrite Hn.
Qed.

Lemma reloaded_tags : NoDup (tags (reloaded l)).
Proof.
  unfold reloaded. rewrite (fold_loaded_tags l); [apply NoDup_seq|done|].
  apply (fold_loaded_tags l); done.
Qed.
End table.

(** ** Loading the state and the providers *)
Lemma load_state_run bm regs' (bm0 : BlueprintNGBaseModel) :
  validates_dumps typed → blueprint_ok bm → registered_resources bm0 = regs' →
  covers Resource (registered_resources bm) regs' →
  load_state (saved bm) bm0 = (Ok tt, set_state (relink_in (object_of regs') (state bm)) bm0).
Proof.
  intros Hv Hb Hreg Hc. unfold load_state. erewrite bind_Ok by reflexivity. cbv beta iota.
  rewrite Hreg. change (state (saved bm)) with (transform (isinstance Resource) ref_of (state bm)).
  rewrite (load_pass Resource (registered_resources bm) regs' (state bm) (bo_state_keys _ Hb)
             (bo_state_refs _ Hb) (bo_state_obj _ Hb) (bo_state_linked _ Hb)).
  2: { intros i r Hi Hx. destruct (Hc i r Hi Hx) as (r' & Hr' & _). unfold od_in. by rewrite Hr'. }
  erewrite bind_Ok by reflexivity. cbv beta iota. rewrite transform_eq, (bo_state_obj _ Hb).
  unfold catch. change (bm_type (saved bm)) with (bm_type bm). rewrite <-(bo_state_class _ Hb).
  erewrite bind_Ok; [reflexivity|]. unfold liftR. f_equal.
  rewrite <-(with_tag_relink _ _ (bo_state_tag _ Hb)). apply Hv; [apply Hb|].
  intros p x Hp Hne Hx.
  by apply (covers_class Resource (registered_resources bm) regs' _ (bo_state_linked _ Hb) Hc p x).
Qed.

Lemma load_provider_run cls p :
  validates_dumps typed → provider_ok cls p → load_provider cls (dump_provider p) = Ok p.
Proof.
  intros Hv (v & Hp & Hcls & Ht & Hn & Htag). unfold load_provider, dump_provider. rewrite Hp. simpl.
  rewrite <-Hcls, (validate_plain typed v Hv Ht Hn), Htag. simpl. rewrite <-Hp. by destruct p.
Qed.

Lemma map_result_dumped {A} (f : A * BlueprintNGProviderModel → result (A * BlueprintNGProviderModel))
  (l : list (A * BlueprintNGProviderModel)) :
  Forall (λ ap, f (ap.1, dump_provider ap.2) = Ok ap) l →
  map_result f ((λ ap, (ap.1, dump_provider ap.2)) <$> l) = Ok l.
Proof.
  induction 1 as [|[a p] l Hap _ IH]; [done|]. rewrite fmap_cons. simpl in *. rewrite Hap. simpl.
  by rewrite IH.
Qed.

Lemma load_virt_run bm bm0 :
  validates_dumps typed → blueprint_ok bm →
  load_virt topology (saved bm) bm0 = (Ok tt, set_virt (virt_providers bm) bm0).
Proof.
  intros Hv Hb. unfold load_virt.
  change (virt_providers (saved bm)) with ((λ ap, (ap.1, dump_provider ap.2)) <$> virt_providers bm).
  erewrite bind_Ok; [reflexivity|]. unfold liftR. f_equal. apply map_result_dumped.
  eapply Forall_impl; [apply (bo_virt _ Hb)|]. intros [a p] (cls & Hcls & Hok). cbn [fst snd] in *.
  rewrite Hcls. cbn. by rewrite (load_provider_run cls p Hv Hok).
Qed.

Lemma load_k8s_run bm bm0 :
  validates_dumps typed → blueprint_ok bm →
  load_k8s (saved bm) bm0 = (Ok tt, set_k8s (k8s_providers bm) bm0).
Proof.
  intros Hv Hb. unfold load_k8s.
  change (k8s_providers (saved bm)) with ((λ ap, (ap.1, dump_provider ap.2)) <$> k8s_providers bm).
  erewrite bind_Ok; [reflexivity|]. unfold liftR. f_equal. apply map_result_dumped.
  eapply Forall_impl; [apply (bo_k8s _ Hb)|]. intros [a p] Hok. cbn [fst snd] in *.
  by rewrite (load_provider_run k8s_data p Hv Hok).
Qed.

Lemma load_pdu_run bm bm0 :
  validates_dumps typed → blueprint_ok bm →
  pdu_provider bm0 = base_provider <$> pdu_provider (saved bm) →
  load_pdu (saved bm) bm0 = (Ok tt, set_pdu (pdu_provider bm) bm0).
Proof.
  intros Hv Hb. unfold load_pdu. pose proof (bo_pdu _ Hb) as Hpdu.
  change (pdu_provider (saved bm)) with (dump_provider <$> pdu_provider bm).
  destruct (pdu_provider bm) as [p|]; intros H0; cbn [fmap option_fmap option_map] in *.
  - unfold liftR. rewrite (load_provider_run pdu_data p Hv Hpdu). reflexivity.
  - destruct bm0. cbn in H0. by subst.
Qed.

Lemma load_blue_run bm bm0 :
  validates_dumps typed → blueprint_ok bm →
  blueprint_provider bm0 = base_provider <$> blueprint_provider (saved bm) →
  load_blue (saved bm) bm0 = (Ok tt, set_blue_provider (blueprint_provider bm) bm0).
Proof.
  intros Hv Hb. unfold load_blue. pose proof (bo_blue _ Hb) as Hblue.
  change (blueprint_provider (saved bm)) with (dump_provider <$> blueprint_provider bm).
  destruct (blueprint_provider bm) as [p|]; intros H0; cbn [fmap option_fmap option_map] in *.
  - unfold liftR. rewrite (load_provider_run blueprint_data p Hv Hblue). reflexivity.
  - destruct bm0. cbn in H0. by subst.
Qed.

Lemma load_providers_run bm bm0 :
  validates_dumps typed → blueprint_ok bm →
  pdu_provider bm0 = base_provider <$> pdu_provider (saved bm) →
  blueprint_provider bm0 = base_provider <$> blueprint_provider (saved bm) →
  load_providers topology (saved bm) bm0 =
  (Ok tt, set_blue_provider (blueprint_provider bm) (set_pdu (pdu_provider bm)
            (set_k8s (k8s_providers bm) (set_virt (virt_providers bm) bm0)))).
Proof.
  intros Hv Hb Hp Hbp. unfold load_providers.
  erewrite bind_Ok by by apply load_virt_run.
  erewrite bind_Ok by by apply load_k8s_run.
  erewrite bind_Ok by by apply load_pdu_run.
  by apply load_blue_run.
Qed.

(** The base model of the new instance before its resources are loaded. *)
Definition first_base (bm : BlueprintNGBaseModel) : BlueprintNGBaseModel :=
  {| bm_id := bm_id bm; bm_type := bm_type bm; parent_blue_id := parent_blue_id bm;
     children_blue_ids := children_blue_ids bm; registered_resources := []; state_type :=
     state_type bm; state := default_state (state_class (bm_type bm)); create_config_type :=
     create_config_type bm; create_config := create_config bm; virt_providers := (λ ap, (ap.1,
     base_provider ap.2)) <$> virt_providers (saved bm); k8s_providers := (λ ap, (ap.1,
     base_provider ap.2)) <$> k8s_providers (saved bm); pdu_provider := base_provider <$>
     pdu_provider (saved bm); blueprint_provider := base_provider <$> blueprint_provider (saved
     bm); created := created bm; corrupted := corrupted bm; protected := protected bm; status
     := status bm; node_exporters := node_exporters bm; day_2_call_history :=
     day_2_call_history bm |}.

Lemma first_base_run bm :
  validates_dumps typed → blueprint_ok bm → first_base_model (saved bm) = Ok (first_base bm).
Proof.
  intros Hv Hb. unfold first_base_model, first_base. pose proof (bo_config _ Hb) as Hc.
  change (create_config (saved bm)) with (dump <$> create_config bm).
  change (create_config_type (saved bm)) with (create_config_type bm).
  destruct (create_config bm) as [v|] eqn:E; simpl; [|reflexivity].
  destruct Hc as (cls & Hcls & <- & Ht & Hn & Htag). rewrite Hcls. simpl.
  rewrite (validate_plain typed v Hv Ht Hn), Htag. reflexivity.
Qed.

(** The whole load. *)
Definition reloaded_blueprint (bm : BlueprintNGBaseModel) : BlueprintNGBaseModel :=
  set_state (relink_in (object_of (reloaded (registered_resources bm))) (state bm))
    (set_resources (reloaded (registered_resources bm)) bm).

Lemma saved_resources bm : registered_resources (saved bm) = doc_entry <$> registered_resources bm.
Proof. done. Qed.

Lemma load_deployables_saved bm bm0 :
  validates_dumps typed → blueprint_ok bm → registered_resources bm0 = [] →
  load_deployables topology (saved bm) bm0 =
  (Ok tt, set_resources (fold_left (add_loaded true) (registered_resources bm) []) bm0).
Proof.
  intros Hv Hb H0. unfold load_deployables. rewrite saved_resources, <-H0.
  apply (load_deployables_run (registered_resources bm)); [done|apply (bo_resources _ Hb)|].
  rewrite H0. apply deployables_fresh, (bo_ids _ Hb).
Qed.

Lemma load_configurations_saved bm bm0 :
  validates_dumps typed → blueprint_ok bm →
  registered_resources bm0 = fold_left (add_loaded true) (registered_resources bm) [] →
  load_configurations topology (saved bm) bm0 =
  (Ok tt, set_resources (reloaded (registered_resources bm)) bm0).
Proof.
  intros Hv Hb H0. unfold load_configurations, reloaded. rewrite saved_resources, <-H0.
  apply (load_configurations_run (registered_resources bm)); [done|apply (bo_resources _ Hb)| |];
    rewrite H0.
  - by apply configurations_fresh; apply Hb.
  - by apply deployables_covered; apply Hb.
Qed.

Lemma load_steps bm bm0 :
  validates_dumps typed → blueprint_ok bm → registered_resources bm0 = [] →
  pdu_provider bm0 = base_provider <$> pdu_provider (saved bm) →
  blueprint_provider bm0 = base_provider <$> blueprint_provider (saved bm) →
  (load_deployables topology (saved bm) ;; load_configurations topology (saved bm) ;;
   load_state (saved bm) ;; load_providers topology (saved bm)) bm0 =
  (Ok tt, set_blue_provider (blueprint_provider bm) (set_pdu (pdu_provider bm)
     (set_k8s (k8s_providers bm) (set_virt (virt_providers bm)
       (set_state (relink_in (object_of (reloaded (registered_resources bm))) (state bm))
         (set_resources (reloaded (registered_resources bm)) bm0)))))).
Proof.
  intros Hv Hb H0 Hp Hbp.
  erewrite bind_Ok by by apply load_deployables_saved.
  erewrite bind_Ok by by apply load_configurations_saved.
  erewrite bind_Ok.
  2: { apply (load_state_run bm (reloaded (registered_resources bm))); [done|done|done|].
       by apply reloaded_covers; apply Hb. }
  by apply load_providers_run.
Qed.

Lemma reload_run bm :
  validates_dumps typed → blueprint_ok bm →
  from_db topology (saved bm) = Ok (reloaded_blueprint bm).
Proof.
  intros Hv Hb. unfold from_db, from_db_aux. rewrite first_base_run by done.
  unfold mbind at 1, result_bind. rewrite load_steps by done.
  unfold reloaded_blueprint. by destruct bm.
Qed.
End reload.

(** ** Properties *)

(** C8: a blueprint written to the database is read back, with its sharing.  Saving a sound
    blueprint stores one document under its identifier; loading that document gives a blueprint
    equal to the saved one in every field, providers, configuration and status included, except
    that each registered resource is a new object, distinct from the others; wherever the state or
    a configuration held a resource, the loaded one holds the very object registered under the
    same identifier. *)
Theorem blueprint_saved_and_reloaded `{Pydantic} {C D : Type} `{!Mongo BlueprintNGBaseModel D}
  (topology : World C) (typed : val → Prop) (bm : BlueprintNGBaseModel) (db : D) :
  validates_dumps typed → blueprint_ok topology typed bm → ids_unique db →
  ∃ db' doc bm', to_db bm db = Ok db' ∧ ids_unique db' ∧
    get_ng_blue_by_id_filter (bm_id bm) db' = Some doc ∧ from_db topology doc = Ok bm' ∧
    let new := object_of (registered_resources bm') in
    bm' = set_state (relink_in new (state bm)) (set_resources (registered_resources bm') bm) ∧
    (∀ i, od_in i (registered_resources bm') = od_in i (registered_resources bm)) ∧
    (∀ i r, od_get i (registered_resources bm) = Some r →
       ∃ n, od_get i (registered_resources bm') =
         Some {| rr_type := rr_type r; rr_value := with_tag n (relink_in new (rr_value r)) |}) ∧
    NoDup (tags (registered_resources bm')).
Proof.
  intros Hv Hb Hu. pose proof (serialize_run topology typed bm Hb) as Hs.
  assert (Hid : has_id (bm_id bm) (saved bm)) by done.
  destruct (save_ng_blue_by_id (bm_id bm) (saved bm) db Hu Hid) as (H1 & _ & H3).
  exists (save_ng_blue (bm_id bm) (saved bm) db), (saved bm), (reloaded_blueprint bm).
  split; [unfold to_db; by rewrite Hs|]. split; [done|]. split; [by apply get_by_id_singleton|].
  split; [by apply (reload_run topology typed)|].
  pose proof (bo_ids _ _ _ Hb) as Hids. pose proof (bo_resources _ _ _ Hb) as Hok.
  split; [done|]. split; [|split].
  - by apply (reloaded_keys topology typed).
  - intros i r Hi. apply od_get_elem in Hi; [|done].
    exact (reloaded_get topology typed _ Hids Hok (i, r) Hi).
  - by apply (reloaded_tags topology typed).
Qed.

(** ** An example: a state with a machine and a configuration of the same machine *)

(** The values inside a value, for evaluation. *)
Fixpoint values (v : val) : list val :=
  v :: match v with
       | PList l => flat_map values l
       | PDict d | PObj _ _ d => flat_map (λ kv, values kv.2) d
       | _ => []
       end.
Definition inner_values (v : val) : list val := tail (values v).

Lemma values_children v k c : (k, c) ∈ children v → ∀ x, x ∈ values c → x ∈ inner_values v.
Proof.
  intros Hc x Hx. unfold inner_values. apply list_elem_of_In.
  destruct v as [| | | | |l|d|c' t d]; simpl in *; try by apply not_elem_of_nil in Hc.
  - apply elem_of_lookup_imap in Hc as (i & y & Heq & Hi). injection Heq as -> ->.
    apply in_flat_map. exists y. split; [|by apply list_elem_of_In].
    apply list_elem_of_In. by eapply list_elem_of_lookup_2.
  - apply list_elem_of_fmap in Hc as ([k' y] & Heq & Hin). injection Heq as -> ->.
    apply in_flat_map. exists (k', y). split; by apply list_elem_of_In.
  - apply list_elem_of_fmap in Hc as ([k' y] & Heq & Hin). injection Heq as -> ->.
    apply in_flat_map. exists (k', y). split; by apply list_elem_of_In.
Qed.

Lemma reaches_values v p x : reaches v p x → x ∈ values v ∧ (p ≠ [] → x ∈ inner_values v).
Proof.
  induction 1 as [v|v k c p x Hc _ [IH _]].
  - split; [|done]. destruct v; left.
  - assert (Hin : x ∈ inner_values v) by by eapply values_children.
    split; [|done]. unfold inner_values in Hin. destruct v; by right.
Qed.

Lemma keys_ok_values v : Forall (λ x, NoDup (children x).*1) (values v) → keys_ok v.
Proof.
  apply (children_smaller (λ v, Forall (λ x, NoDup (children x).*1) (values v) → keys_ok v)).
  clear v. intros v IH Hv. rewrite Forall_forall in Hv. constructor.
  - apply Hv. destruct v; left.
  - intros k c Hc. apply (IH k c Hc), Forall_forall. intros x Hx. apply Hv.
    pose proof (values_children v k c Hc x Hx) as Hin. unfold inner_values in Hin.
    destruct v; by right.
Qed.

Lemma no_references_values v : Forall (λ x, is_reference x = false) (values v) → no_references v.
Proof.
  rewrite Forall_forall. intros Hv p s Hr. apply (Hv (PStr s)). by apply (reaches_values v p).
Qed.

Section values.
Context `{Pydantic}.

Lemma linked_values tipo registered v :
  Forall (λ x, isinstance tipo x = true → ∃ i r, resource_id x = Ok (PStr i) ∧ id_ok i ∧
            od_get i registered = Some r ∧ rr_value r = x) (inner_values v) →
  linked tipo registered v.
Proof.
  rewrite Forall_forall. intros Hv p x Hr Hx Hp. apply Hv; [|done]. by apply (reaches_values v p).
Qed.

Lemma no_inner_values v : Forall (λ x, isinstance Resource x = false) (inner_values v) → no_inner v.
Proof. rewrite Forall_forall. intros Hv p x Hr Hp. apply Hv. by apply (reaches_values v p). Qed.
End values.

Definition ex_vm : val :=
  PObj "Vm" 1 [("id", PStr "r1"); ("type", PStr "ResourceDeployable"); ("area", PInt 0);
               ("name", PStr "vm")].
Definition ex_conf : val :=
  PObj "VmConf" 2 [("id", PStr "c1"); ("type", PStr "ResourceConfiguration"); ("vm_resource", ex_vm)].
Definition ex_state : val := PObj "ExState" 0 [("vm", ex_vm); ("confs", PList [ex_conf])].

Definition ex_mro (c : string) : list string :=
  if String.eqb c "Vm" then [c; ResourceDeployable; Resource]
  else if String.eqb c "VmConf" then [c; ResourceConfiguration; Resource] else [c].

(** A validation that takes the fields as they come, enough for classes whose fields are texts,
    numbers, and lists of resources. *)
Definition ex_pydantic : Pydantic := {|
  mro := ex_mro;
  validate c v := match v with PDict fs => Ok (PObj c 0 fs) | _ => Raise ValidationError end;
  state_class _ := "ExState";
  default_state c := PObj c 0 [];
  connect _ _ := Ok tt
|}.

Definition ex_typed (v : val) : Prop := v = ex_vm ∨ v = ex_conf ∨ v = ex_state.

Definition ex_world : World (list TopologyModel) :=
  {| w_model := Some example_topology; w_data := None; w_db := []; w_events := []; w_lock := 0 |}.

Definition ex_blueprint : BlueprintNGBaseModel :=
  {| bm_id := "BLUE1"; bm_type := "ExBlue"; parent_blue_id := None; children_blue_ids := [];
     registered_resources := [("c1", {| rr_type := "VmConf"; rr_value := ex_conf |});
                              ("r1", {| rr_type := "Vm"; rr_value := ex_vm |})];
     state_type := "ExState"; state := ex_state; create_config_type := None; create_config := None;
     virt_providers := []; k8s_providers := []; pdu_provider := None; blueprint_provider := None;
     created := None; corrupted := false; protected := false; status := idle; node_exporters := [];
     day_2_call_history := [] |}.

Lemma ex_validates : @validates_dumps ex_pydantic ex_typed.
Proof. by intros f v [->|[->| ->]] Hf. Qed.

Ltac by_evaluation := apply (bool_decide_unpack _); vm_compute; exact I.

Lemma ex_linked tipo v :
  v = ex_conf ∧ tipo = ResourceDeployable ∨ v = ex_state ∧ tipo = Resource →
  @linked ex_pydantic tipo (registered_resources ex_blueprint) v.
Proof.
  intros Hv. apply linked_values. destruct Hv as [[-> ->]|[-> ->]];
    repeat constructor; intros Hx; try discriminate Hx;
    first [by exists "r1"; eexists; repeat split | by exists "c1"; eexists; repeat split].
Qed.

Lemma ex_keys v : v ∈ [ex_vm; ex_conf; ex_state] → keys_ok v.
Proof.
  intros Hv. apply keys_ok_values. revert v Hv. apply Forall_forall.
  repeat constructor; by_evaluation.
Qed.

Lemma ex_refs v : v ∈ [ex_vm; ex_conf; ex_state] → no_references v.
Proof.
  intros Hv. apply no_references_values. revert v Hv. apply Forall_forall. repeat constructor.
Qed.

Lemma ex_vm_ok :
  @resource_ok ex_pydantic _ ex_world ex_typed (registered_resources ex_blueprint)
    ("r1", {| rr_type := "Vm"; rr_value := ex_vm |}).
Proof.
  constructor; simpl.
  - reflexivity.
  - split; [discriminate|reflexivity].
  - reflexivity.
  - reflexivity.
  - by left.
  - apply ex_keys. left.
  - apply ex_refs. left.
  - left. split; [reflexivity|]. split; [reflexivity|]. split; [reflexivity|].
    split; [apply no_inner_values; repeat constructor|]. exists 0, example_vim.
    split; [reflexivity|vm_compute; reflexivity].
Qed.

Lemma ex_conf_ok :
  @resource_ok ex_pydantic _ ex_world ex_typed (registered_resources ex_blueprint)
    ("c1", {| rr_type := "VmConf"; rr_value := ex_conf |}).
Proof.
  constructor; simpl.
  - reflexivity.
  - split; [discriminate|reflexivity].
  - reflexivity.
  - reflexivity.
  - by right; left.
  - apply ex_keys. right; left.
  - apply ex_refs. right; left.
  - right. split; [reflexivity|]. split; [reflexivity|]. split; [reflexivity|].
    split; [apply ex_linked; by left|].
    intros p x Hr Hp. destruct (reaches_values ex_conf p x Hr) as [_ Hx]. specialize (Hx Hp).
    clear Hr. revert x Hx. apply Forall_forall. repeat constructor.
Qed.

Lemma ex_sound : @blueprint_ok ex_pydantic _ ex_world ex_typed ex_blueprint.
Proof.
  constructor; simpl.
  - by_evaluation.
  - apply Forall_cons; split; [exact ex_conf_ok|]. apply Forall_cons; split; [exact ex_vm_ok|apply Forall_nil_2].
  - reflexivity.
  - reflexivity.
  - by right; right.
  - reflexivity.
  - apply ex_keys. right; right; left.
  - apply ex_refs. right; right; left.
  - apply ex_linked. by right.
  - exact I.
  - constructor.
  - constructor.
  - exact I.
  - exact I.
Qed.

Lemma blueprint_saved_and_reloaded_witness :
  ∃ db' doc bm', @to_db ex_pydantic _ _ ex_blueprint ([] : list BlueprintNGBaseModel) = Ok db' ∧
    get_ng_blue_by_id_filter "BLUE1" db' = Some doc ∧ @from_db ex_pydantic _ ex_world doc = Ok bm' ∧
    NoDup (tags (registered_resources bm')).
Proof.
  destruct (@blueprint_saved_and_reloaded ex_pydantic _ _ _ ex_world ex_typed ex_blueprint
    ([] : list BlueprintNGBaseModel) ex_validates ex_sound) as (db' & doc & bm' & H1 & _ & H2 & H3 & _ & _ & _ & H4).
  - intros i. apply Nat.le_0_l.
  - exists db', doc, bm'. split; [exact H1|split; [exact H2|split; [exact H3|exact H4]]].
Defined.

(** The same run, evaluated: the loaded state holds the registered objects. *)
Example reloaded_example :
  (db' ← @to_db ex_pydantic _ _ ex_blueprint ([] : list BlueprintNGBaseModel);
   match get_ng_blue_by_id_filter "BLUE1" db' with
   | Some doc => bm' ← @from_db ex_pydantic _ ex_world doc; Ok (state bm')
   | None => Raise KeyError
   end) =
  Ok (PObj "ExState" 0
        [("vm", ex_vm);
         ("confs", PList [PObj "VmConf" 2 [("id", PStr "c1"); ("type", PStr "ResourceConfiguration");
                                           ("vm_resource", ex_vm)]])]).
Proof. vm_compute. reflexivity. Qed.
