(* ===== verification/BlueprintWorker.v ===== *)
(** * The worker of a blueprint

    blueprints_ng/lcm/blueprint_worker.py and models/blueprint_ng/worker_message.py: the thread
    that owns a blueprint, takes messages from its queue and runs the operation of the blueprint
    each of them asks for.  The operations themselves are the code of the blueprint modules and of
    the providers: an interface, with the contract the worker relies on. *)

From stdpp Require Import base list strings gmap.
From Stdlib Require Import ZArith Lia Ascii Permutation.
From S2P Require Import Prelude Ipam IPv4Text Registry NetworkModels VimModels Database PrometheusModels K8sModels TopologyModel Topology BlueprintTypes Performance Blueprint.

Open Scope Z_scope.

(** ** Messages *)
Inductive WorkerMessageType := DAY0 | DAY2 | DAY2_BY_NAME | STOP.

#[export] Instance WorkerMessageType_eq_dec : EqDecision WorkerMessageType.
Proof. solve_decision. Defined.

(** The content of a message: nothing, a model, or the arguments of a call by name. *)
Inductive payload :=
| NoPayload
| Model (v : val)
| Arguments (args : list val) (kwargs : list (string * val)).

(** A callback is named by a number. *)
Record WorkerMessage := {
  message_type : WorkerMessageType;
  msg_path : string;
  message : payload;
  callback : option nat
}.

(** What a callback is called with; at the end of a STOP, it is the identifier alone. *)
Record BlueprintOperationCallbackModel := {
  cb_id : string;
  cb_operation : string;
  cb_status : string;
  cb_result : option val;
  cb_detailed_status : option string
}.

Inductive callback_value := CallbackModel (m : BlueprintOperationCallbackModel) | CallbackId (i : string).

Inductive BlueEventType :=
| BLUE_CREATED | BLUE_DELETED | BLUE_START_PROCESSING | BLUE_END_PROCESSING | BLUE_STARTED_DAY0
| BLUE_STARTED_DAY2 | BLUE_END_DAY2 | BLUE_START_DAYN | BLUE_ERROR.

(** ** The blueprint and its surroundings

    The blueprint of the worker, the collection of blueprints, the performance manager with its
    collection, the published events, and the callbacks called so far. *)
Record BlueWorld (D P : Type) := {
  base_model : BlueprintNGBaseModel;
  blue_db : D;
  perf : PerformanceManager * P;
  blue_events : list (BlueEventType * BlueprintNGBaseModel);
  replies : list (nat * callback_value)
}.
Arguments base_model {_ _} _.
Arguments blue_db {_ _} _.
Arguments perf {_ _} _.
Arguments blue_events {_ _} _.
Arguments replies {_ _} _.

Section setters.
Context {D P : Type}.
Implicit Types (w : BlueWorld D P).

Definition set_base b w : BlueWorld D P :=
  {| base_model := b; blue_db := blue_db w; perf := perf w; blue_events := blue_events w;
     replies := replies w |}.
Definition set_blue_db d w : BlueWorld D P :=
  {| base_model := base_model w; blue_db := d; perf := perf w; blue_events := blue_events w;
     replies := replies w |}.
Definition set_perf p w : BlueWorld D P :=
  {| base_model := base_model w; blue_db := blue_db w; perf := p; blue_events := blue_events w;
     replies := replies w |}.
Definition set_blue_events l w : BlueWorld D P :=
  {| base_model := base_model w; blue_db := blue_db w; perf := perf w; blue_events := l;
     replies := replies w |}.
Definition set_replies l w : BlueWorld D P :=
  {| base_model := base_model w; blue_db := blue_db w; perf := perf w;
     blue_events := blue_events w; replies := l |}.
End setters.

(** The code the worker calls: the operations of the blueprint's class, the broker, the clock,
    fresh identifiers, and the texts of exceptions and JSON documents. *)
Class BlueprintCode (D P : Type) := {
  create_impl : val → M (BlueWorld D P) unit;                (* blueprint.create(msg) *)
  method_impl : string → payload → M (BlueWorld D P) val;    (* getattr(blueprint, name)(...) *)
  destroy_impl : M (BlueWorld D P) unit;                     (* blueprint.destroy() *)
  publish : list (BlueEventType * BlueprintNGBaseModel) → BlueEventType → BlueprintNGBaseModel → result unit;
  uuid4 : BlueWorld D P → string;
  utcnow : BlueWorld D P → Z;
  exn_text : exn → string;
  model_dump_json : val → string
}.

(** The operations of the providers a blueprint's destruction goes through. *)
Class Providers (D P : Type) := {
  provider_delete_blueprint : string → M (BlueWorld D P) unit;
  provider_destroy_vm : val → M (BlueWorld D P) unit;
  provider_uninstall_helm_chart : val → M (BlueWorld D P) unit;
  provider_final_cleanup : M (BlueWorld D P) unit
}.

Section worker.
Context `{Pydantic} {D P : Type} `{!Mongo BlueprintNGBaseModel D} `{!Mongo performance_dump P}.
Context `{!BlueprintCode D P}.
#[local] Notation BW := (M (BlueWorld D P)).

Definition get_base : BW BlueprintNGBaseModel := w ← getS; mret (base_model w).
Definition update_base (f : BlueprintNGBaseModel → BlueprintNGBaseModel) : BW unit :=
  modifyS (λ w, set_base (f (base_model w)) w).
Definition on_base {A} (m : M BlueprintNGBaseModel A) : BW A := zoom base_model set_base m.

(** [self.blueprint.to_db()]. *)
Definition blueprint_to_db : BW unit :=
  w ← getS;
  db ← liftR (to_db (base_model w) (blue_db w));
  modifyS (set_blue_db db).

(** [trigger_redis_event(BLUEPRINT_TOPIC, t, base_model.model_dump())]. *)
Definition trigger_event (t : BlueEventType) : BW unit :=
  w ← getS;
  liftR (publish (blue_events w) t (model_dump (base_model w))) ;;
  modifyS (λ w, set_blue_events (blue_events w ++ [(t, model_dump (base_model w))]) w).

Definition on_perf {A} (m : M (PerformanceManager * P) A) : BW A := zoom perf set_perf m.

Definition perf_start_operation (t : BlueprintPerformanceType) (name : string) : BW (option string) :=
  w ← getS; on_perf (start_operation (bm_id (base_model w)) t name (uuid4 w) (utcnow w)).
Definition perf_end_operation (id : option string) : BW unit :=
  w ← getS; on_perf (end_operation id (utcnow w)).

Definition call_back (msg : WorkerMessage) (v : callback_value) : BW unit :=
  match callback msg with
  | Some c => modifyS (λ w, set_replies (replies w ++ [(c, v)]) w)
  | None => mret tt
  end.

(** [str(CurrentOperation.IDLE)]. *)
Definition idle_text : string := "CurrentOperation.IDLE".

Definition reply_ok (i : string) (r : option val) : callback_value :=
  CallbackModel {| cb_id := i; cb_operation := idle_text; cb_status := "OK"; cb_result := r;
                   cb_detailed_status := None |}.
Definition reply_error (i : string) (e : exn) : callback_value :=
  CallbackModel {| cb_id := i; cb_operation := idle_text; cb_status := "ERROR"; cb_result := None;
                   cb_detailed_status := Some (exn_text e) |}.

Definition plain_status (op : CurrentOperation) (d : string) : BlueprintNGStatus :=
  {| error := false; current_operation := op; detail := d |}.

(** [status.error = True; status.detail = str(e)]. *)
Definition error_status (e : exn) (s : BlueprintNGStatus) : BlueprintNGStatus :=
  {| error := true; current_operation := current_operation s; detail := exn_text e |}.

(** The handler of an exception of the operation. *)
Definition on_error (msg : WorkerMessage) (e : exn) : BW unit :=
  update_base (λ b, set_status (error_status e (status b)) b) ;;
  b ← get_base;
  call_back msg (reply_error (bm_id b) e) ;;
  trigger_event BLUE_ERROR.

(** *** Creation *)
Definition day0_body (msg : WorkerMessage) : BW unit :=
  performance_operation_id ← perf_start_operation Performance.DAY0 "create";
  create_impl (match message msg with Model v => v | _ => PNone end) ;;
  perf_end_operation performance_operation_id ;;
  b ← get_base;
  call_back msg (reply_ok (bm_id b) None) ;;
  update_base (set_status (plain_status IDLE EmptyString)) ;;
  trigger_event BLUE_CREATED.

Definition handle_day0 (msg : WorkerMessage) : BW unit :=
  update_base (λ b, set_status (deploying (bm_id b)) b) ;;
  trigger_event BLUE_STARTED_DAY0 ;;
  blueprint_to_db ;;
  catch (day0_body msg) (λ e, Some (on_error msg e)) ;;
  blueprint_to_db.

(** *** Day 2 *)
Context (types : TypeRegistry).

(** [path.split("/")[-1]]. *)
Definition last_word (path : string) : string :=
  match py_getitem (py_split "/"%char path) (-1) with Ok s => s | Raise _ => EmptyString end.

Definition day2_call (msg : WorkerMessage) : BW val :=
  match message_type msg with
  | DAY2 =>
      (match message msg with
       | Model v => update_base (λ b, set_history (day_2_call_history b ++ [model_dump_json v]) b)
       | Arguments _ _ => raise AttributeError                    (* a tuple has no model_dump_json *)
       | NoPayload => mret tt
       end) ;;
      function ← liftR (get_function_to_be_called (msg_path msg) types);
      performance_operation_id ← perf_start_operation Performance.DAY2 (last_word (msg_path msg));
      result ← method_impl (__name__ function) (message msg);
      perf_end_operation performance_operation_id ;;
      mret result
  | _ =>
      performance_operation_id ← perf_start_operation Performance.DAY2 (last_word (msg_path msg));
      result ← (match message msg with
                | Arguments args kwargs => method_impl (msg_path msg) (Arguments args kwargs)
                | _ => raise TypeError
                end);
      perf_end_operation performance_operation_id ;;
      mret result
  end.

Definition day2_body (msg : WorkerMessage) : BW unit :=
  result ← day2_call msg;
  b ← get_base;
  call_back msg (reply_ok (bm_id b) (Some result)) ;;
  update_base (set_status (plain_status IDLE EmptyString)) ;;
  trigger_event BLUE_END_DAY2.

Definition day2_detail (path id : string) : string :=
  "Calling DAY2 function " +:+ path +:+ " on blueprint " +:+ id.

Definition handle_day2 (msg : WorkerMessage) : BW unit :=
  update_base (λ b, set_status (plain_status RUNNING_DAY2_OP (day2_detail (msg_path msg) (bm_id b))) b) ;;
  trigger_event BLUE_STARTED_DAY2 ;;
  blueprint_to_db ;;
  catch (day2_body msg) (λ e, Some (on_error msg e)) ;;
  blueprint_to_db.

(** *** Destruction: nothing is caught *)
Definition handle_stop (msg : WorkerMessage) : BW unit :=
  update_base (λ b, set_status (destroying (bm_id b)) b) ;;
  trigger_event BLUE_START_DAYN ;;
  performance_operation_id ← perf_start_operation DELETION "delete";
  destroy_impl ;;
  perf_end_operation performance_operation_id ;;
  b ← get_base;
  call_back msg (CallbackId (bm_id b)) ;;
  trigger_event BLUE_DELETED.

(** ** The loop *)
Inductive thread_state := Listening | Finished | Crashed (e : exn).

Record Worker := { queue : list WorkerMessage; thread : thread_state }.

(** [put_message] and [destroy_blueprint]. *)
Definition put_message (t : WorkerMessageType) (path : string) (m : payload) (cb : option nat)
  (wk : Worker) : Worker :=
  {| queue := queue wk ++ [{| message_type := t; msg_path := path; message := m; callback := cb |}];
     thread := thread wk |}.
Definition destroy_blueprint (cb : option nat) (wk : Worker) : Worker :=
  put_message STOP EmptyString (Model (PStr EmptyString)) cb wk.

(** One turn of [_listen]: an exception that escapes ends the thread. *)
Definition listen_step (s : Worker * BlueWorld D P) : Worker * BlueWorld D P :=
  let (wk, w) := s in
  match thread wk, queue wk with
  | Listening, msg :: rest =>
      let handler := match message_type msg with
                     | DAY0 => handle_day0 msg
                     | DAY2 | DAY2_BY_NAME => handle_day2 msg
                     | STOP => handle_stop msg
                     end in
      match handler w with
      | (Ok _, w') =>
          ({| queue := rest; thread := if decide (message_type msg = STOP) then Finished else Listening |}, w')
      | (Raise e, w') => ({| queue := rest; thread := Crashed e |}, w')
      end
  | _, _ => s
  end.

(** [protect_blueprint], run by the caller's thread. *)
Definition protect_blueprint (protect : bool) : BW bool :=
  update_base (set_protected protect) ;;
  blueprint_to_db ;;
  b ← get_base; mret (protected b).

(** [BlueprintNG.destroy]. *)
Context `{!Providers D P}.
Definition HelmChartResource : string := "nfvcl.blueprints_ng.resources.HelmChartResource".

Definition destroy : BW unit :=
  b ← get_base;
  for_each (children_blue_ids b) (λ children_id,
    catch (provider_delete_blueprint children_id)
          (λ e, if decide (e = BlueprintNotFoundException) then Some (mret tt) else None) ;;
    on_base (deregister_children children_id)) ;;
  b ← get_base;
  for_each (registered_resources b) (λ kv,
    if isinstance VmResource (rr_value kv.2) then provider_destroy_vm (rr_value kv.2)
    else if isinstance HelmChartResource (rr_value kv.2) then provider_uninstall_helm_chart (rr_value kv.2)
    else mret tt) ;;
  provider_final_cleanup ;;
  b ← get_base;
  modifyS (λ w, set_blue_db (destroy_ng_blue (bm_id b) (blue_db w)) w).
End worker.
