(* ===== verification/BlueprintWorkerProps.v ===== *)
(** * What the blueprint worker guarantees

    Every creation and day-2 message is answered exactly once, leaves the thread listening and the
    outcome in the database; a failing destruction ends the thread without an answer. *)

From stdpp Require Import base list strings gmap.
From Stdlib Require Import ZArith Lia Ascii Permutation.
From S2P Require Import Prelude Ipam IPv4Text Registry NetworkModels VimModels Database PrometheusModels K8sModels TopologyModel Topology BlueprintTypes Performance Blueprint BlueprintReload BlueprintWorker.

Open Scope Z_scope.

(** ** Serialization does not depend on the status *)
Section commutes.
Context {S : Type} (f : S → S).

(** A computation that neither reads nor writes what [f] changes. *)
Definition commutes {A} (m : M S A) : Prop := ∀ s, m (f s) = ((m s).1, f (m s).2).

Lemma commutes_ret {A} (a : A) : commutes (mret a).
Proof. done. Qed.
Lemma commutes_raise {A} e : commutes (raise (A:=A) e).
Proof. done. Qed.
Lemma commutes_bind {A B} (m : M S A) (k : A → M S B) :
  commutes m → (∀ a, commutes (k a)) → commutes (m ≫= k).
Proof.
  intros Hm Hk s. unfold mbind, M_bind. rewrite Hm. destruct (m s) as [[a|e] s']; simpl; [apply Hk|done].
Qed.
Lemma commutes_for_each {A} (l : list A) (k : A → M S unit) :
  (∀ a, commutes (k a)) → commutes (for_each l k).
Proof.
  intros Hk. induction l as [|a l IH]; simpl; [apply commutes_ret|]. by apply commutes_bind.
Qed.
Lemma commutes_catch {A} (m : M S A) h :
  commutes m → (∀ e k, h e = Some k → commutes k) → commutes (catch m h).
Proof.
  intros Hm Hh s. unfold catch. rewrite Hm. destruct (m s) as [[a|e] s']; simpl; [done|].
  destruct (h e) as [k|] eqn:E; [by apply (Hh e k)|done].
Qed.
Lemma commutes_modify g : (∀ s, g (f s) = f (g s)) → commutes (modifyS g).
Proof. intros H s. unfold modifyS. by rewrite H. Qed.
End commutes.

Section savable.
Context `{Pydantic}.

(** Changes of the fields that serialization copies. *)
Record copied (f : BlueprintNGBaseModel → BlueprintNGBaseModel) : Prop := {
  cp_state : ∀ b, state (f b) = state b;
  cp_resources : ∀ b, registered_resources (f b) = registered_resources b;
  cp_dump : ∀ b, model_dump (f b) = f (model_dump b);
  cp_set_state : ∀ v b, set_state v (f b) = f (set_state v b);
  cp_set_resources : ∀ v b, set_resources v (f b) = f (set_resources v b);
  cp_corrupted : ∀ b, set_corrupted true (f b) = f (set_corrupted true b)
}.

Lemma copied_status s : copied (set_status s).
Proof. by split. Qed.
Lemma copied_history l : copied (set_history l).
Proof. by split. Qed.
Lemma copied_protected b : copied (set_protected b).
Proof. by split. Qed.

Lemma serialize_copied f b :
  copied f → serialize_content (f b) = (d ← serialize_content b; Ok (f d)).
Proof.
  intros Hf. unfold serialize_content. rewrite (cp_dump _ Hf).
  assert (Hc : commutes f (catch (override_all b)
    (λ e, if decide (e = BlueprintNGException) then Some (modifyS (set_corrupted true)) else None))).
  { apply commutes_catch.
    - apply commutes_bind.
      + intros d. unfold in_state, zoom. rewrite (cp_state _ Hf).
        destruct (override_variables_in_dict _ _ _ _) as [r v]. simpl. by rewrite (cp_set_state _ Hf).
      + intros _. apply commutes_for_each. intros [k r].
        destruct (isinstance _ _); [|apply commutes_ret].
        intros d. unfold in_resource. rewrite (cp_resources _ Hf).
        destruct (od_get _ (registered_resources d)) as [r'|]; [|done].
        destruct (override_variables_in_dict _ _ _ _) as [x v]. simpl. by rewrite (cp_set_resources _ Hf).
    - intros e k. destruct (decide _); intros [= <-]. apply commutes_modify.
      intros d. symmetry. by rewrite (cp_corrupted _ Hf). }
  assert (Ho : override_all (f b) = override_all b).
  { unfold override_all. by rewrite (cp_state _ Hf), (cp_resources _ Hf). }
  rewrite Ho, (Hc (model_dump b)).
  by destruct (catch (override_all b) _ (model_dump b)) as [[[]|e] d].
Qed.

(** The blueprint can be saved. *)
Definition savable (b : BlueprintNGBaseModel) : Prop :=
  ∃ doc, serialize_content b = Ok doc ∧ bm_id doc = bm_id b.

Lemma savable_copied f b : copied f → (∀ x, bm_id (f x) = bm_id x) → savable b → savable (f b).
Proof.
  intros Hf Hi (doc & Hd & Hid). exists (f doc). rewrite serialize_copied, Hd by done.
  split; [done|]. by rewrite !Hi.
Qed.
End savable.

(** ** The contract between the worker and the code of the blueprints *)
Section props.
Context `{Pydantic} {D P : Type} `{!Mongo BlueprintNGBaseModel D} `{!Mongo performance_dump P}.
Context `{!BlueprintCode D P} (types : TypeRegistry).
Implicit Types (w : BlueWorld D P).

Definition own_pending w : option string :=
  od_get (bm_id (base_model w)) (pending_operations (perf w).1).

Definition world_sound (code_ok : BlueprintNGBaseModel → Prop) w : Prop :=
  code_ok (base_model w) ∧ savable (base_model w) ∧ ids_unique (blue_db w) ∧ pm_ok (perf w).1.

(** The code of a blueprint leaves the worker's bookkeeping alone. *)
Definition keeps w w' : Prop :=
  bm_id (base_model w') = bm_id (base_model w) ∧ status (base_model w') = status (base_model w) ∧
  replies w' = replies w ∧ own_pending w' = own_pending w.

Record code_contract (code_ok : BlueprintNGBaseModel → Prop) : Prop := {
  cc_status : ∀ s b, code_ok b → code_ok (set_status s b);
  cc_history : ∀ l b, code_ok b → code_ok (set_history l b);
  cc_create : ∀ v w, world_sound code_ok w →
    world_sound code_ok (create_impl v w).2 ∧ keeps w (create_impl v w).2;
  cc_method : ∀ n p w, world_sound code_ok w →
    world_sound code_ok (method_impl n p w).2 ∧ keeps w (method_impl n p w).2;
  cc_fresh : ∀ w, pm_ok (perf w).1 → uuid4 w ∉ op_id <$> op_heap (perf w).1;
  cc_publish : ∀ l t b, publish l t b = Ok tt
}.

Section contract.
Context (code_ok : BlueprintNGBaseModel → Prop) (Hcode : code_contract code_ok).
Notation sound := (world_sound code_ok).

(** Worlds that differ in what the invariant does not see. *)
Lemma sound_status s w : sound w → sound (set_base (set_status s (base_model w)) w).
Proof.
  intros (Hc & Hs & Hu & Hp). split; [by apply Hcode|]. split; [|done].
  apply savable_copied; [apply copied_status|done|done].
Qed.
Lemma sound_history l w : sound w → sound (set_base (set_history l (base_model w)) w).
Proof.
  intros (Hc & Hs & Hu & Hp). split; [by apply Hcode|]. split; [|done].
  apply savable_copied; [apply copied_history|done|done].
Qed.

(** *** The steps *)
Lemma trigger_run t w :
  trigger_event t w =
  (Ok tt, set_blue_events (blue_events w ++ [(t, model_dump (base_model w))]) w).
Proof. unfold trigger_event. run_M. by rewrite (cc_publish _ Hcode). Qed.

Lemma save_run w :
  sound w → ∃ doc, serialize_content (base_model w) = Ok doc ∧
    let w' := set_blue_db (save_ng_blue (bm_id (base_model w)) doc (blue_db w)) w in
    blueprint_to_db w = (Ok tt, w') ∧ sound w' ∧
    get_ng_blue_by_id_filter (bm_id (base_model w)) (blue_db w') = Some doc.
Proof.
  intros (Hc & (doc & Hd & Hid) & Hu & Hp). exists doc. split; [done|].
  assert (Hi : has_id (bm_id (base_model w)) doc) by (unfold has_id; simpl; congruence).
  destruct (save_ng_blue_by_id _ doc (blue_db w) Hu Hi) as (H1 & _ & H3).
  split; [unfold blueprint_to_db, to_db; run_M; by rewrite Hd|]. split.
  - split; [done|]. split; [by exists doc|]. by split.
  - by apply get_by_id_singleton.
Qed.

(** The token of a started operation: none for a blueprint without metrics. *)
Definition token_ok (o : option string) w : Prop :=
  match o with None => True | Some u => own_pending w = Some u end.

Lemma perf_start_run t n w :
  sound w → ∃ o p, perf_start_operation t n w = (Ok o, set_perf p w) ∧ sound (set_perf p w) ∧
                   token_ok o (set_perf p w).
Proof.
  intros (Hc & Hs & Hu & Hp). unfold perf_start_operation, on_perf, zoom.
  erewrite bind_Ok by reflexivity. destruct (perf w) as [s c] eqn:E. rewrite start_operation_run.
  destruct (od_get (bm_id (base_model w)) (performance_dict s)) as [p|] eqn:Ed.
  - eexists _, _. split; [reflexivity|]. split.
    + do 3 (split; [done|]). simpl. apply started_ok; [done|done|].
      simpl. pose proof (cc_fresh _ Hcode w) as Hf. rewrite E in Hf. by apply Hf.
    + unfold token_ok, own_pending. simpl. apply od_get_set_eq.
  - eexists _, _. split; [reflexivity|]. done.
Qed.

Lemma perf_end_run o w :
  sound w → token_ok o w → ∃ p, perf_end_operation o w = (Ok tt, set_perf p w) ∧ sound (set_perf p w).
Proof.
  intros (Hc & Hs & Hu & Hp) Ho. unfold perf_end_operation, on_perf, zoom.
  erewrite bind_Ok by reflexivity. destruct (perf w) as [s c] eqn:E.
  destruct o as [u|]; [|by eexists]. unfold token_ok, own_pending in Ho. rewrite E in Ho. simpl in Ho, Hp.
  destruct (pm_pending s Hp _ _ Ho) as (p & r & H1 & H2 & H3).
  rewrite end_operation_run, (find_operation_run s _ p r u Hp H1 H2 H3). unfold od_in. rewrite Ho.
  eexists. split; [reflexivity|]. do 3 (split; [done|]). by apply ended_ok.
Qed.

(** *** Computations that leave the bookkeeping alone *)
Definition quiet w w' : Prop :=
  bm_id (base_model w') = bm_id (base_model w) ∧ status (base_model w') = status (base_model w) ∧
  replies w' = replies w.

Definition settles {A} (m : M (BlueWorld D P) A) : Prop :=
  ∀ w, sound w → sound (m w).2 ∧ quiet w (m w).2.

Lemma settles_ret {A} (a : A) : settles (mret a).
Proof. by intros w Hw. Qed.
Lemma settles_raise {A} e : settles (raise (A:=A) e).
Proof. by intros w Hw. Qed.
Lemma settles_liftR {A} (r : result A) : settles (liftR r).
Proof. by intros w Hw. Qed.
Lemma settles_bind {A B} (m : M (BlueWorld D P) A) (k : A → M (BlueWorld D P) B) :
  settles m → (∀ a, settles (k a)) → settles (m ≫= k).
Proof.
  intros Hm Hk w Hw. destruct (Hm w Hw) as [H1 (Q1 & Q2 & Q3)]. unfold mbind, M_bind.
  destruct (m w) as [[a|e] w1]; simpl in *; [|done].
  destruct (Hk a w1 H1) as [H2 (Q4 & Q5 & Q6)]. split; [done|]. repeat split; congruence.
Qed.

Lemma settles_history g : settles (update_base (λ b, set_history (g b) b)).
Proof. intros w Hw. split; [by apply sound_history|done]. Qed.

(** An operation between its start and its end in the metrics. *)
Lemma settles_measured {A} t n (impl : M (BlueWorld D P) A) :
  (∀ w, sound w → sound (impl w).2 ∧ keeps w (impl w).2) →
  settles (o ← perf_start_operation t n; r ← impl; perf_end_operation o ;; mret r).
Proof.
  intros Hi w Hw. destruct (perf_start_run t n w Hw) as (o & p & E & Hw1 & Ho).
  erewrite bind_Ok by exact E. destruct (Hi _ Hw1) as [Hw2 (K1 & K2 & K3 & K4)].
  destruct (impl (set_perf p w)) as [[a|e] w2] eqn:Ei; simpl in Hw2, K1, K2, K3, K4.
  - erewrite bind_Ok by exact Ei. destruct (perf_end_run o w2 Hw2) as (p' & E' & Hw3).
    { destruct o as [u|]; [|done]. unfold token_ok in *. congruence. }
    erewrite bind_Ok by exact E'. split; [exact Hw3|exact (conj K1 (conj K2 K3))].
  - erewrite bind_Raise by exact Ei. exact (conj Hw2 (conj K1 (conj K2 K3))).
Qed.

Lemma settles_day2_call msg : settles (day2_call types msg).
Proof.
  unfold day2_call.
  assert (Hm : ∀ n name q, settles (o ← perf_start_operation Performance.DAY2 n;
      r ← method_impl name q; perf_end_operation o ;; mret r)).
  { intros n name q. apply settles_measured. intros w. apply Hcode. }
  assert (Hbad : ∀ n (e : exn), settles (o ← perf_start_operation Performance.DAY2 n;
      r ← raise (A:=val) e; perf_end_operation o ;; mret r)).
  { intros n e. apply settles_measured. intros w Hw. by split. }
  assert (Hby : settles (o ← perf_start_operation Performance.DAY2 (last_word (msg_path msg));
      r ← (match message msg with
           | Arguments args kwargs => method_impl (msg_path msg) (Arguments args kwargs)
           | _ => raise TypeError end);
      perf_end_operation o ;; mret r)) by by destruct (message msg).
  destruct (message_type msg); try exact Hby.
  apply settles_bind.
  - destruct (message msg); [apply settles_ret|apply settles_history|apply settles_raise].
  - intros _. apply settles_bind; [apply settles_liftR|]. intros f. apply Hm.
Qed.

Lemma settles_day0_call msg :
  settles (o ← perf_start_operation Performance.DAY0 "create";
           create_impl (match message msg with Model v => v | _ => PNone end) ;;
           perf_end_operation o).
Proof.
  intros w Hw.
  pose proof (settles_measured Performance.DAY0 "create"
    (create_impl (match message msg with Model v => v | _ => PNone end))
    (λ w, cc_create _ Hcode _ w) w Hw) as Hs.
  unfold mbind, M_bind in *. destruct (perf_start_operation _ _ w) as [[o|e] w1]; [|exact Hs].
  destruct (create_impl _ w1) as [[u|e] w2]; [|exact Hs].
  by destruct (perf_end_operation o w2) as [[v|e] w3].
Qed.

(** ** A handled message *)

(** What the sender is told, and what the blueprint becomes. *)
Inductive outcome (op : CurrentOperation) (i : string) : callback_value → BlueprintNGStatus → Prop :=
| outcome_ok r : outcome op i (reply_ok i r) (plain_status IDLE EmptyString)
| outcome_error e :
    outcome op i (reply_error i e) {| error := true; current_operation := op; detail := exn_text e |}.

Definition answer (msg : WorkerMessage) (v : callback_value) : list (nat * callback_value) :=
  match callback msg with Some c => [(c, v)] | None => [] end.

Lemma call_back_run msg v w :
  call_back msg v w = (Ok tt, set_replies (replies w ++ answer msg v) w).
Proof.
  unfold call_back, answer. destruct (callback msg); [done|]. rewrite app_nil_r. by destruct w.
Qed.

(** The common shape of [handle_day0] and [handle_day2]. *)
Definition handle (f : BlueprintNGBaseModel → BlueprintNGStatus) (begin_event end_event : BlueEventType)
  {A} (call : M (BlueWorld D P) A) (res : A → option val) (msg : WorkerMessage) : M (BlueWorld D P) unit :=
  update_base (λ b, set_status (f b) b) ;;
  trigger_event begin_event ;;
  blueprint_to_db ;;
  catch (a ← call; b ← get_base; call_back msg (reply_ok (bm_id b) (res a)) ;;
         update_base (set_status (plain_status IDLE EmptyString)) ;; trigger_event end_event)
        (λ e, Some (on_error msg e)) ;;
  blueprint_to_db.

Lemma handle_run f ev1 ev2 {A} (call : M (BlueWorld D P) A) res msg w :
  sound w → settles call →
  ∃ w' v, handle f ev1 ev2 call res msg w = (Ok tt, w') ∧ sound w' ∧
    bm_id (base_model w') = bm_id (base_model w) ∧
    replies w' = replies w ++ answer msg v ∧
    outcome (current_operation (f (base_model w))) (bm_id (base_model w)) v (status (base_model w')) ∧
    ∃ doc, serialize_content (base_model w') = Ok doc ∧
           get_ng_blue_by_id_filter (bm_id (base_model w)) (blue_db w') = Some doc.
Proof.
  intros Hw Hcall. unfold handle. erewrite bind_Ok by reflexivity.
  erewrite bind_Ok by apply trigger_run. cbn [base_model set_base set_blue_events].
  set (w1 := set_blue_events _ _).
  assert (Hw1 : sound w1) by exact (sound_status _ w Hw).
  destruct (save_run w1 Hw1) as (doc1 & _ & E1 & Hw2 & _). erewrite bind_Ok by exact E1.
  set (w2 := set_blue_db _ w1) in *.
  assert (Hbody : ∃ w3 v, catch (a ← call; b ← get_base; call_back msg (reply_ok (bm_id b) (res a)) ;;
         update_base (set_status (plain_status IDLE EmptyString)) ;; trigger_event ev2)
        (λ e, Some (on_error msg e)) w2 = (Ok tt, w3) ∧ sound w3 ∧
      bm_id (base_model w3) = bm_id (base_model w) ∧ replies w3 = replies w ++ answer msg v ∧
      outcome (current_operation (f (base_model w))) (bm_id (base_model w)) v (status (base_model w3))).
  { destruct (Hcall w2 Hw2) as [Hw3 (Q1 & Q2 & Q3)]. unfold catch.
    destruct (call w2) as [[a|e] w3] eqn:E; simpl in Hw3, Q1, Q2, Q3.
    - erewrite bind_Ok by exact E. erewrite bind_Ok by reflexivity.
      erewrite bind_Ok by apply call_back_run. erewrite bind_Ok by reflexivity.
      rewrite trigger_run. eexists _, (reply_ok (bm_id (base_model w3)) (res a)).
      split; [reflexivity|]. split; [exact (sound_status _ w3 Hw3)|]. simpl.
      split; [exact Q1|]. split; [by rewrite Q3|]. rewrite Q1. constructor.
    - erewrite bind_Raise by exact E. unfold on_error.
      erewrite bind_Ok by reflexivity. erewrite bind_Ok by reflexivity.
      erewrite bind_Ok by apply call_back_run. rewrite trigger_run.
      eexists _, (reply_error (bm_id (base_model w3)) e).
      split; [reflexivity|]. split; [exact (sound_status _ w3 Hw3)|]. simpl.
      split; [exact Q1|]. split; [by rewrite Q3|]. unfold error_status. rewrite Q1, Q2. constructor. }
  destruct Hbody as (w3 & v & E3 & Hw3 & Hid & Hr & Hout). erewrite bind_Ok by exact E3.
  destruct (save_run w3 Hw3) as (doc & Hdoc & E4 & Hw4 & Hget). rewrite E4.
  eexists _, v. split; [reflexivity|]. split; [exact Hw4|]. split; [exact Hid|].
  split; [exact Hr|]. split; [exact Hout|]. exists doc. split; [exact Hdoc|]. by rewrite <-Hid.
Qed.
(** *** Creation and day 2 are instances of the common shape *)
Lemma bind_bind {S A B C} (m : M S A) (f : A → M S B) (g : B → M S C) s :
  ((m ≫= f) ≫= g) s = (m ≫= λ a, f a ≫= g) s.
Proof. unfold mbind, M_bind. by destruct (m s) as [[a|e] s']. Qed.
Lemma bind_ext {S A B} (m : M S A) (f g : A → M S B) s :
  (∀ a s', f a s' = g a s') → (m ≫= f) s = (m ≫= g) s.
Proof. intros Hfg. unfold mbind, M_bind. destruct (m s) as [[a|e] s']; [apply Hfg|done]. Qed.
Lemma catch_ext {S A} (m m' : M S A) h s : m s = m' s → catch m h s = catch m' h s.
Proof. unfold catch. by intros ->. Qed.

(** The status while the message is handled. *)
Definition begun (msg : WorkerMessage) (b : BlueprintNGBaseModel) : BlueprintNGStatus :=
  match message_type msg with
  | DAY0 => deploying (bm_id b)
  | _ => plain_status RUNNING_DAY2_OP (day2_detail (msg_path msg) (bm_id b))
  end.

Definition answered msg w w' v : Prop :=
  bm_id (base_model w') = bm_id (base_model w) ∧
  replies w' = replies w ++ answer msg v ∧
  outcome (current_operation (begun msg (base_model w))) (bm_id (base_model w)) v (status (base_model w')) ∧
  ∃ doc, serialize_content (base_model w') = Ok doc ∧
         get_ng_blue_by_id_filter (bm_id (base_model w)) (blue_db w') = Some doc.

Lemma handle_day0_run msg w :
  sound w → message_type msg = DAY0 →
  ∃ w' v, handle_day0 msg w = (Ok tt, w') ∧ sound w' ∧ answered msg w w' v.
Proof.
  intros Hw Ht.
  destruct (handle_run (λ b, deploying (bm_id b)) BLUE_STARTED_DAY0 BLUE_CREATED _ (λ _, None) msg w Hw
    (settles_day0_call msg)) as (w' & v & E & Hw' & Ha).
  exists w', v. split; [|split; [done|unfold answered, begun; by rewrite Ht]].
  rewrite <-E. unfold handle_day0, handle. do 3 (apply bind_ext; intros ? ?).
  unfold mbind at 1, M_bind at 1. symmetry. unfold mbind at 1, M_bind at 1.
  erewrite catch_ext; [reflexivity|]. unfold day0_body. rewrite bind_bind. apply bind_ext. intros ? ?.
  rewrite bind_bind. apply bind_ext. intros ? ?. by apply bind_ext.
Qed.

Lemma handle_day2_run msg w :
  sound w → message_type msg ≠ DAY0 →
  ∃ w' v, handle_day2 types msg w = (Ok tt, w') ∧ sound w' ∧ answered msg w w' v.
Proof.
  intros Hw Ht.
  destruct (handle_run (λ b, plain_status RUNNING_DAY2_OP (day2_detail (msg_path msg) (bm_id b)))
    BLUE_STARTED_DAY2 BLUE_END_DAY2 _ Some msg w Hw (settles_day2_call msg)) as (w' & v & E & Hw' & Ha).
  exists w', v. split; [exact E|]. split; [done|]. unfold answered, begun. by destruct (message_type msg).
Qed.

(** ** The thread *)
Lemma listen_step_run wk w msg rest :
  sound w → thread wk = Listening → queue wk = msg :: rest → message_type msg ≠ STOP →
  ∃ w' v, listen_step types (wk, w) = ({| queue := rest; thread := Listening |}, w') ∧
          sound w' ∧ answered msg w w' v.
Proof.
  intros Hw Hl Hq Ht. unfold listen_step. rewrite Hl, Hq.
  assert (H0 : ∃ w' v, (match message_type msg with
      DAY0 => handle_day0 msg | DAY2 | DAY2_BY_NAME => handle_day2 types msg | STOP => handle_stop msg end) w
      = (Ok tt, w') ∧ sound w' ∧ answered msg w w' v).
  { destruct (message_type msg) eqn:E; [by apply handle_day0_run| | |done];
      apply handle_day2_run; try done; by rewrite E. }
  destruct H0 as (w' & v & E & H1). exists w', v. rewrite E, decide_False by done. done.
Qed.

Lemma listen_run q w :
  sound w → Forall (λ msg, message_type msg ≠ STOP) q →
  ∃ w' vs, Nat.iter (length q) (listen_step types) ({| queue := q; thread := Listening |}, w) =
             ({| queue := []; thread := Listening |}, w') ∧
           sound w' ∧ bm_id (base_model w') = bm_id (base_model w) ∧
           length vs = length q ∧ replies w' = replies w ++ concat (zip_with answer q vs).
Proof.
  revert w. induction q as [|msg q IH]; intros w Hw Hq.
  - exists w, []. simpl. by rewrite app_nil_r.
  - apply Forall_cons in Hq as [Ht Hq].
    destruct (listen_step_run {| queue := msg :: q; thread := Listening |} w msg q Hw eq_refl eq_refl Ht)
      as (w1 & v & E & Hw1 & Hid & Hr & _).
    destruct (IH w1 Hw1 Hq) as (w' & vs & E' & Hw' & Hid' & Hl & Hr').
    exists w', (v :: vs). cbn [length]. rewrite Nat.iter_succ_r, E.
    split; [exact E'|]. split; [done|]. split; [congruence|]. split; [simpl; congruence|].
    rewrite Hr', Hr. simpl. by rewrite app_assoc.
Qed.

Lemma answered_once q vs :
  length vs = length q → (concat (zip_with answer q vs)).*1 = omap callback q.
Proof.
  revert vs. induction q as [|msg q IH]; intros [|v vs] Hl; simplify_eq/=; [done|].
  rewrite fmap_app, IH by done. unfold answer. by destruct (callback msg).
Qed.

(** *** The end of the thread *)
Lemma stop_run w wk msg rest :
  sound w → thread wk = Listening → queue wk = msg :: rest → message_type msg = STOP →
  (∀ w, sound w → sound (destroy_impl w).2 ∧ keeps w (destroy_impl w).2) →
  ∃ w1 w', sound w1 ∧ replies w1 = replies w ∧ bm_id (base_model w1) = bm_id (base_model w) ∧
    status (base_model w1) = destroying (bm_id (base_model w)) ∧
    match (destroy_impl w1).1 with
    | Ok _ => listen_step types (wk, w) = ({| queue := rest; thread := Finished |}, w') ∧
              replies w' = replies w ++ answer msg (CallbackId (bm_id (base_model w)))
    | Raise e => listen_step types (wk, w) = ({| queue := rest; thread := Crashed e |}, w') ∧
                 replies w' = replies w
    end ∧ status (base_model w') = destroying (bm_id (base_model w)).
Proof.
  intros Hw Hl Hq Ht Hd. unfold listen_step. rewrite Hl, Hq, Ht. unfold handle_stop.
  erewrite bind_Ok by reflexivity. erewrite bind_Ok by apply trigger_run.
  cbn [base_model set_base set_blue_events].
  set (w0 := set_blue_events _ _). assert (Hw0 : sound w0) by exact (sound_status _ w Hw).
  destruct (perf_start_run DELETION "delete" w0 Hw0) as (o & p & E & Hw1 & Ho).
  erewrite bind_Ok by exact E. set (w1 := set_perf p w0) in *.
  destruct (Hd w1 Hw1) as [Hw2 (K1 & K2 & K3 & K4)].
  destruct (destroy_impl w1) as [[[]|e] w2] eqn:Ed; simpl in Hw2, K1, K2, K3, K4.
  - destruct (perf_end_run o w2 Hw2) as (p' & E' & Hw3).
    { destruct o as [u|]; [|done]. unfold token_ok in *. congruence. }
    erewrite bind_Ok by exact Ed. erewrite bind_Ok by exact E'. erewrite bind_Ok by reflexivity.
    erewrite bind_Ok by apply call_back_run. rewrite trigger_run. cbn [base_model set_perf].
    eexists w1, _. rewrite Ed. do 4 (split; [done|]). simpl. split; [split; [reflexivity|]|]; simpl.
    + by rewrite K1, K3.
    + by rewrite K2.
  - erewrite bind_Raise by exact Ed. exists w1, w2. rewrite Ed. do 4 (split; [done|]). simpl.
    split; [|exact K2]. done.
Qed.

(** Once the thread is over, nothing that is done to the worker is answered. *)
Inductive worker_action := Put (t : WorkerMessageType) (path : string) (m : payload) (cb : option nat) | Turn.

Definition act (a : worker_action) (s : Worker * BlueWorld D P) : Worker * BlueWorld D P :=
  match a with
  | Put t path m cb => (put_message t path m cb s.1, s.2)
  | Turn => listen_step types s
  end.

Lemma over_runs l s :
  thread s.1 ≠ Listening →
  (foldl (flip act) s l).2 = s.2 ∧ thread (foldl (flip act) s l).1 = thread s.1.
Proof.
  revert s. induction l as [|a l IH]; intros [wk w] Hs; [done|].
  assert (Ha : (act a (wk, w)).2 = w ∧ thread (act a (wk, w)).1 = thread wk).
  { destruct a; [done|]. unfold act, listen_step. simpl in Hs. by destruct (thread wk) eqn:E; rewrite ?E. }
  destruct Ha as [H1 H2]. destruct (IH (act a (wk, w))) as [H3 H4]; [by rewrite H2|].
  change (foldl (flip act) (wk, w) (a :: l)) with (foldl (flip act) (act a (wk, w)) l).
  by rewrite H3, H4.
Qed.
End contract.

(** ** The theorems *)

(** C9: the outcome of a DAY0, DAY2 or DAY2_BY_NAME message.  Under the contract between the worker
    and the blueprints, which says that the code of a blueprint, whether it returns or raises
    anything, leaves the blueprint savable and does not touch its id, its status, the callbacks made and the
    operation being measured, that identifiers of operations are fresh and that the broker accepts
    every event, and from a sound world (the blueprint savable, the collection with one document
    per id at most, the measures well formed), a message taken by a listening thread leaves the
    thread listening in a sound world: the callback, if any, is called once, with OK and an idle
    blueprint or with ERROR and the blueprint's status in error, still naming the operation; and
    the collection then holds the current content of the blueprint.  The contract is needed: an
    event or a save that fails outside the [try] ends the thread. *)
Theorem message_outcome code_ok w wk msg rest :
  code_contract code_ok → world_sound code_ok w →
  thread wk = Listening → queue wk = msg :: rest → message_type msg ≠ STOP →
  ∃ w' v,
    listen_step types (wk, w) = ({| queue := rest; thread := Listening |}, w') ∧
    world_sound code_ok w' ∧ bm_id (base_model w') = bm_id (base_model w) ∧
    replies w' = replies w ++ answer msg v ∧
    outcome (current_operation (begun msg (base_model w))) (bm_id (base_model w)) v
            (status (base_model w')) ∧
    ∃ doc, serialize_content (base_model w') = Ok doc ∧
           get_ng_blue_by_id_filter (bm_id (base_model w)) (blue_db w') = Some doc.
Proof.
  intros Hc Hw Hl Hq Ht.
  destruct (listen_step_run code_ok Hc wk w msg rest Hw Hl Hq Ht) as (w' & v & E & Hw' & Ha).
  exists w', v. done.
Qed.

(** C10: under the contract between the worker and the code of the blueprints (the code leaves the
    blueprint savable and the bookkeeping of the worker alone, fresh operations, a broker that
    accepts every event) and from a sound world, a queue of creation and day-2 messages is drained
    in as many turns as it has messages, also when the code of the blueprint raises: the thread is
    listening again, and every callback of the queue was called exactly once, in the order of the
    messages. *)
Theorem all_answered code_ok w q :
  code_contract code_ok → world_sound code_ok w → Forall (λ msg, message_type msg ≠ STOP) q →
  ∃ w', Nat.iter (length q) (listen_step types) ({| queue := q; thread := Listening |}, w) =
          ({| queue := []; thread := Listening |}, w') ∧
        world_sound code_ok w' ∧ (replies w').*1 = (replies w).*1 ++ omap callback q.
Proof.
  intros Hc Hw Hq. destruct (listen_run code_ok Hc q w Hw Hq) as (w' & vs & E & Hw' & _ & Hl & Hr).
  exists w'. split; [done|]. split; [done|]. by rewrite Hr, fmap_app, answered_once.
Qed.

(** The destruction of a blueprint is not protected: if the code that destroys it raises, the
    exception ends the thread, the callback of the STOP message is not called, and neither is any
    callback of any message put in the queue afterwards. *)
Theorem failed_destroy code_ok w wk msg rest e l :
  code_contract code_ok → world_sound code_ok w →
  thread wk = Listening → queue wk = msg :: rest → message_type msg = STOP →
  (∀ w, world_sound code_ok w → world_sound code_ok (destroy_impl w).2 ∧ keeps w (destroy_impl w).2) →
  (∀ w, (destroy_impl w).1 = Raise e) →
  let s' := foldl (flip act) (listen_step types (wk, w)) l in
  thread s'.1 = Crashed e ∧ replies s'.2 = replies w ∧
  status (base_model s'.2) = destroying (bm_id (base_model w)).
Proof.
  intros Hc Hw Hl Hq Ht Hd He.
  destruct (stop_run code_ok Hc w wk msg rest Hw Hl Hq Ht Hd) as (w1 & w' & _ & _ & _ & _ & Hm & Hs).
  rewrite He in Hm. destruct Hm as [E Hr]. rewrite E.
  destruct (over_runs l ({| queue := rest; thread := Crashed e |}, w')) as [H1 H2]; [done|].
  simpl. by rewrite H1, H2.
Qed.

(** When the code that destroys the blueprint returns, the callback of the STOP message is
    called once, with the identifier of the blueprint, and the thread finishes; no later message is
    handled. *)
Theorem successful_destroy code_ok w wk msg rest l :
  code_contract code_ok → world_sound code_ok w →
  thread wk = Listening → queue wk = msg :: rest → message_type msg = STOP →
  (∀ w, world_sound code_ok w → world_sound code_ok (destroy_impl w).2 ∧ keeps w (destroy_impl w).2) →
  (∀ w, (destroy_impl w).1 = Ok tt) →
  let s' := foldl (flip act) (listen_step types (wk, w)) l in
  thread s'.1 = Finished ∧
  replies s'.2 = replies w ++ answer msg (CallbackId (bm_id (base_model w))).
Proof.
  intros Hc Hw Hl Hq Ht Hd He.
  destruct (stop_run code_ok Hc w wk msg rest Hw Hl Hq Ht Hd) as (w1 & w' & _ & _ & _ & _ & Hm & Hs).
  rewrite He in Hm. destruct Hm as [E Hr]. rewrite E.
  destruct (over_runs l ({| queue := rest; thread := Finished |}, w')) as [H1 H2]; [done|].
  simpl. by rewrite H1, H2.
Qed.
End props.

#[local] Existing Instance ex_pydantic.

(** ** A blueprint whose creation needs a model, and whose destruction may fail *)
Definition ex_code (destroy_fails : bool) :
  BlueprintCode (list BlueprintNGBaseModel) (list performance_dump) := {|
  create_impl v := match v with PNone => raise ValueError | _ => mret tt end;
  method_impl n _ := if String.eqb n "add_node" then mret (PStr "done") else raise AttributeError;
  destroy_impl := if destroy_fails then raise (ExternalError 1) else mret tt;
  publish _ _ _ := Ok tt;
  uuid4 w := fresh (op_id <$> op_heap (perf w).1);
  utcnow _ := 0;
  exn_text _ := "exception";
  model_dump_json _ := "{}"
|}.

Definition ex_worker_world : BlueWorld (list BlueprintNGBaseModel) (list performance_dump) :=
  {| base_model := ex_blueprint; blue_db := []; perf := (example_manager, []); blue_events := [];
     replies := [] |}.

Definition ex_any (_ : BlueprintNGBaseModel) : Prop := True.

Lemma ex_contract fails :
  code_contract (BlueprintCode0 := ex_code fails) ex_any.
Proof.
  constructor; try done.
  - intros v w Hw. by destruct v.
  - intros n p w Hw. simpl. by destruct (String.eqb n "add_node").
  - intros w _. apply infinite_is_fresh.
Qed.

Lemma ex_world_sound : world_sound ex_any ex_worker_world.
Proof.
  split; [done|]. split.
  - destruct (serialize_content ex_blueprint) as [doc|e] eqn:E; [|by vm_compute in E].
    exists doc. split; [exact E|]. vm_compute in E. by injection E as <-.
  - split; [intros i; apply Nat.le_0_l|exact example_manager_ok].
Qed.

Lemma ex_destroy fails w :
  world_sound ex_any w →
  world_sound ex_any (destroy_impl (BlueprintCode := ex_code fails) w).2 ∧
  keeps w (destroy_impl (BlueprintCode := ex_code fails) w).2.
Proof. by destruct fails. Qed.

Definition ex_msg (t : WorkerMessageType) (path : string) (m : payload) (cb : nat) : WorkerMessage :=
  {| message_type := t; msg_path := path; message := m; callback := Some cb |}.
Definition ex_queue : list WorkerMessage :=
  [ex_msg DAY0 "" NoPayload 1; ex_msg DAY2_BY_NAME "add_node" (Arguments [] []) 2;
   ex_msg DAY2 "k8s/no_such_path" (Model (PObj "Model" 0 [])) 3].

Lemma message_outcome_witness :
  ∃ w' v, listen_step (BlueprintCode0 := ex_code true) empty_registry ({| queue := ex_queue; thread := Listening |}, ex_worker_world) =
            ({| queue := tail ex_queue; thread := Listening |}, w') ∧ replies w' = [(1%nat, v)].
Proof.
  destruct (message_outcome (BlueprintCode0 := ex_code true) empty_registry ex_any ex_worker_world
    {| queue := ex_queue; thread := Listening |} (ex_msg DAY0 "" NoPayload 1) (tail ex_queue))
    as (w' & v & H1 & _ & _ & H2 & _).
  - exact (ex_contract true).
  - exact ex_world_sound.
  - reflexivity.
  - reflexivity.
  - discriminate.
  - exists w', v. split; [exact H1|exact H2].
Defined.

Lemma all_answered_witness :
  ∃ w', Nat.iter 3 (listen_step (BlueprintCode0 := ex_code true) empty_registry)
          ({| queue := ex_queue; thread := Listening |}, ex_worker_world) =
        ({| queue := []; thread := Listening |}, w') ∧ (replies w').*1 = [1; 2; 3]%nat.
Proof.
  destruct (all_answered (BlueprintCode0 := ex_code true) empty_registry ex_any ex_worker_world ex_queue)
    as (w' & H1 & _ & H2).
  - exact (ex_contract true).
  - exact ex_world_sound.
  - apply (bool_decide_unpack _). vm_compute. exact I.
  - exists w'. split; [exact H1|exact H2].
Defined.

Lemma failed_destroy_witness :
  let s' := foldl (flip (act (BlueprintCode0 := ex_code true) empty_registry))
              (listen_step (BlueprintCode0 := ex_code true) empty_registry
                (destroy_blueprint (Some 4%nat) {| queue := []; thread := Listening |}, ex_worker_world))
              [Put DAY0 EmptyString (Model (PObj "Model" 0 [])) (Some 5%nat); Turn] in
  thread s'.1 = Crashed (ExternalError 1) ∧ replies s'.2 = [].
Proof.
  destruct (failed_destroy (BlueprintCode0 := ex_code true) empty_registry ex_any ex_worker_world
    (destroy_blueprint (Some 4%nat) {| queue := []; thread := Listening |})
    (ex_msg STOP EmptyString (Model (PStr EmptyString)) 4) [] (ExternalError 1)
    [Put DAY0 EmptyString (Model (PObj "Model" 0 [])) (Some 5%nat); Turn]) as (H1 & H2 & _).
  - exact (ex_contract true).
  - exact ex_world_sound.
  - reflexivity.
  - reflexivity.
  - reflexivity.
  - exact (ex_destroy true).
  - reflexivity.
  - split; [exact H1|exact H2].
Defined.

Lemma successful_destroy_witness :
  let s' := foldl (flip (act (BlueprintCode0 := ex_code false) empty_registry))
              (listen_step (BlueprintCode0 := ex_code false) empty_registry
                (destroy_blueprint (Some 4%nat) {| queue := []; thread := Listening |}, ex_worker_world))
              [Put DAY0 EmptyString (Model (PObj "Model" 0 [])) (Some 5%nat); Turn] in
  thread s'.1 = Finished ∧ replies s'.2 = [(4%nat, CallbackId "BLUE1")].
Proof.
  destruct (successful_destroy (BlueprintCode0 := ex_code false) empty_registry ex_any ex_worker_world
    (destroy_blueprint (Some 4%nat) {| queue := []; thread := Listening |})
    (ex_msg STOP EmptyString (Model (PStr EmptyString)) 4) []
    [Put DAY0 EmptyString (Model (PObj "Model" 0 [])) (Some 5%nat); Turn]) as (H1 & H2).
  - exact (ex_contract false).
  - exact ex_world_sound.
  - reflexivity.
  - reflexivity.
  - reflexivity.
  - exact (ex_destroy false).
  - reflexivity.
  - split; [exact H1|exact H2].
Defined.
