(* ===== verification/BlueprintManager.v ===== *)
(** * The blueprint manager

    blueprints_ng/lcm/blueprint_manager.py: the collection of the workers in memory, the creation
    and the deletion of blueprints, and their summaries.

    The state holds every worker ever started, by reference: [worker_collection] only names those
    the manager still knows, and a worker that was removed from it keeps its thread, its queue and
    its copy of the blueprint until its thread is over. *)

From stdpp Require Import base list strings gmap.
From Stdlib Require Import ZArith Lia Ascii Permutation.
From S2P Require Import Prelude Ipam IPv4Text Registry NetworkModels VimModels Database PrometheusModels K8sModels TopologyModel Topology BlueprintTypes Performance Blueprint BlueprintWorker.

Open Scope Z_scope.

Record BlueprintManager (D P : Type) := {
  workers : list (Worker * BlueprintNGBaseModel);
  worker_collection : list (string * nat);
  m_db : D;
  m_perf : PerformanceManager * P;
  m_events : list (BlueEventType * BlueprintNGBaseModel);
  m_replies : list (nat * callback_value);
  waiting : list (nat * string)         (* deletions blocked until their callback is called *)
}.
Arguments workers {_ _} _.
Arguments worker_collection {_ _} _.
Arguments m_db {_ _} _.
Arguments m_perf {_ _} _.
Arguments m_events {_ _} _.
Arguments m_replies {_ _} _.
Arguments waiting {_ _} _.

Section state.
Context {D P : Type}.
Implicit Types (m : BlueprintManager D P).

Definition set_workers l m : BlueprintManager D P :=
  {| workers := l; worker_collection := worker_collection m; m_db := m_db m; m_perf := m_perf m;
     m_events := m_events m; m_replies := m_replies m; waiting := waiting m |}.
Definition set_collection l m : BlueprintManager D P :=
  {| workers := workers m; worker_collection := l; m_db := m_db m; m_perf := m_perf m;
     m_events := m_events m; m_replies := m_replies m; waiting := waiting m |}.
Definition set_m_db d m : BlueprintManager D P :=
  {| workers := workers m; worker_collection := worker_collection m; m_db := d; m_perf := m_perf m;
     m_events := m_events m; m_replies := m_replies m; waiting := waiting m |}.
Definition set_m_perf p m : BlueprintManager D P :=
  {| workers := workers m; worker_collection := worker_collection m; m_db := m_db m; m_perf := p;
     m_events := m_events m; m_replies := m_replies m; waiting := waiting m |}.
Definition set_waiting l m : BlueprintManager D P :=
  {| workers := workers m; worker_collection := worker_collection m; m_db := m_db m; m_perf := m_perf m;
     m_events := m_events m; m_replies := m_replies m; waiting := l |}.

(** What a worker sees: its own blueprint and what all of them share. *)
Definition seen_by b m : BlueWorld D P :=
  {| base_model := b; blue_db := m_db m; perf := m_perf m; blue_events := m_events m;
     replies := m_replies m |}.
Definition after_worker i wk (w : BlueWorld D P) m : BlueprintManager D P :=
  {| workers := <[i := (wk, base_model w)]> (workers m);
     worker_collection := worker_collection m; m_db := blue_db w; m_perf := perf w;
     m_events := blue_events w; m_replies := replies w; waiting := waiting m |}.
End state.

(** [get_class_path_str_from_obj], of an instance of a class. *)
Definition class_path (c : BlueClass) : string := __module__ c +:+ "." +:+ __qualname__ c.

Section manager.
Context `{Pydantic} {D P C : Type} `{!Mongo BlueprintNGBaseModel D} `{!Mongo performance_dump P}.
Context `{!BlueprintCode D P} (types : TypeRegistry) (import : string → string → result BlueClass).
#[local] Notation BM := (M (BlueprintManager D P)).

(** [BlueprintNG(blueprint_id, state_type)]. *)
Definition new_blueprint (c : BlueClass) (blueprint_id : string) (now : Z) : BlueprintNGBaseModel :=
  {| bm_id := blueprint_id; bm_type := class_path c; parent_blue_id := None;
     children_blue_ids := []; registered_resources := [];
     state_type := state_class (class_path c); state := default_state (state_class (class_path c));
     create_config_type := None; create_config := None; virt_providers := []; k8s_providers := [];
     pdu_provider := None; blueprint_provider := None; created := Some now; corrupted := false;
     protected := false; status := plain_status IDLE EmptyString; node_exporters := [];
     day_2_call_history := [] |}.

(** ** Workers *)

(** [BlueprintWorker(blueprint)], then [start_listening]: the reference of the new worker. *)
Definition start_worker (b : BlueprintNGBaseModel) : BM nat := λ m,
  (Ok (length (workers m)),
   set_workers (workers m ++ [({| queue := []; thread := Listening |}, b)]) m).

(** A method of a worker, called by another thread. *)
Definition on_worker {A} (i : nat) (f : Worker * BlueprintNGBaseModel → A) : BM A := λ m,
  match workers m !! i with
  | Some x => (Ok (f x), m)
  | None => (Raise AttributeError, m)           (* a reference always names a worker *)
  end.
Definition update_worker (i : nat) (f : Worker → Worker) : BM unit := λ m,
  match workers m !! i with
  | Some (wk, b) => (Ok tt, set_workers (<[i := (f wk, b)]> (workers m)) m)
  | None => (Raise AttributeError, m)
  end.
Definition in_worker {A} (i : nat) (f : M (BlueWorld D P) A) : BM A := λ m,
  match workers m !! i with
  | Some (wk, b) => match f (seen_by b m) with (r, w) => (r, after_worker i wk w m) end
  | None => (Raise AttributeError, m)
  end.

(** One turn of the thread of a worker. *)
Definition turn (i : nat) (m : BlueprintManager D P) : BlueprintManager D P :=
  match workers m !! i with
  | Some (wk, b) =>
      match listen_step types (wk, seen_by b m) with (wk', w) => after_worker i wk' w m end
  | None => m
  end.

(** ** Loading *)
Section loading.
Context (topology : World C).

Definition _load_blue_from_db (blueprint_id : string) : BM (option BlueprintNGBaseModel) :=
  m ← getS;
  match get_ng_blue_by_id_filter blueprint_id (m_db m) with
  | Some blue => blueprint ← liftR (from_db topology blue); mret (Some blueprint)
  | None => mret None
  end.

Definition _load_all_blue_dict_from_db (blueprint_type : option string) : BM (list BlueprintNGBaseModel) :=
  m ← getS; mret (get_ng_blue_list blueprint_type (m_db m)).

Definition _load_all_blue_from_db (blueprint_type : option string) (provider_initialization : bool) :
  BM (list BlueprintNGBaseModel) :=
  items ← _load_all_blue_dict_from_db blueprint_type;
  liftR (map_result (λ item, if provider_initialization then from_db topology item
                             else from_db_no_prov_init topology item) items).

Definition get_worker (blueprint_id : string) : BM nat :=
  m ← getS;
  match od_get blueprint_id (worker_collection m) with
  | Some worker => mret worker
  | None =>
      blueprint ← _load_blue_from_db blueprint_id;
      match blueprint with
      | Some blueprint =>
          worker ← start_worker blueprint;
          modifyS (λ m, set_collection (od_set blueprint_id worker (worker_collection m)) m) ;;
          mret worker
      | None => raise BlueprintNotFoundException
      end
  end.

(** ** Creation and deletion *)

(** The identifier is the one [generate_blueprint_id] gave. With [wait], the caller then blocks
    until [callback] is called. *)
Definition create_blueprint (blue_id : string) (now : Z) (msg : val) (path : string)
  (parent_id : option string) (callback : option nat) : BM string :=
  existing ← _load_blue_from_db blue_id;
  match existing with
  | Some _ => raise BlueprintAlreadyExisting
  | None =>
      BlueClass ← liftR (get_blueprint_class import path types);
      let created_blue := set_parent parent_id (new_blueprint BlueClass blue_id now) in
      m ← getS;
      db ← liftR (to_db created_blue (m_db m));
      modifyS (set_m_db db) ;;
      worker ← start_worker created_blue;
      zoom m_perf set_m_perf (add_blueprint blue_id path now) ;;
      modifyS (λ m, set_collection (od_set blue_id worker (worker_collection m)) m) ;;
      update_worker worker (put_message BlueprintWorker.DAY0 path (Model msg) callback) ;;
      mret blue_id
  end.

(** [delete_blueprint] up to the STOP message, and the rest of it. *)
Definition delete_request (blueprint_id : string) (callback : option nat) : BM unit :=
  worker ← get_worker blueprint_id;
  b ← on_worker worker snd;
  if protected b then raise BlueprintProtectedException
  else update_worker worker (destroy_blueprint callback).

Definition delete_finish (blueprint_id : string) : BM string :=
  m ← getS;
  if od_in blueprint_id (worker_collection m) then
    putS (set_collection (od_pop blueprint_id (worker_collection m)) m) ;; mret blueprint_id
  else raise KeyError.

(** [delete_blueprint(blueprint_id)]: without [wait]. *)
Definition delete_blueprint (blueprint_id : string) : BM string :=
  delete_request blueprint_id None ;; delete_finish blueprint_id.

(** [delete_blueprint(blueprint_id, wait=True)] until it blocks on a fresh callback. *)
Definition delete_and_wait (blueprint_id : string) (n : nat) : BM unit :=
  delete_request blueprint_id (Some n) ;;
  modifyS (λ m, set_waiting (waiting m ++ [(n, blueprint_id)]) m).

Definition delete_all_blueprints : BM unit :=
  blue_list ← _load_all_blue_dict_from_db None;
  for_each blue_list (λ blue,
    catch (delete_blueprint (bm_id blue) ;; mret tt)
          (λ e, if decide (e = BlueprintProtectedException) then Some (mret tt) else None)).

(** ** Summaries *)
Definition get_blueprint_instance_by_id (blueprint_id : string) : BM BlueprintNGBaseModel :=
  m ← getS;
  match od_get blueprint_id (worker_collection m) with
  | Some worker => on_worker worker snd
  | None =>
      blueprint ← _load_blue_from_db blueprint_id;
      match blueprint with
      | Some b => mret b
      | None => raise BlueprintNotFoundException
      end
  end.

Definition get_blueprint_summary_by_id (blueprint_id : string) (detailed : bool) : BM blue_summary :=
  blueprint ← get_blueprint_instance_by_id blueprint_id;
  liftR (to_dict detailed blueprint).

(** A blueprint of the list, replaced by the one in memory. *)
Definition in_memory (m : BlueprintManager D P) (b : BlueprintNGBaseModel) : BlueprintNGBaseModel :=
  match od_get (bm_id b) (worker_collection m) ≫= (workers m !!.) with
  | Some (_, b') => b'
  | None => b
  end.

Definition get_blueprint_summary_list (blue_type : option string) (detailed : bool) :
  BM (list blue_summary) :=
  blue_list ← _load_all_blue_from_db blue_type false;
  m ← getS;
  liftR (map_result (to_dict detailed) (in_memory m <$> blue_list)).

(** ** The virtual machine with an address *)
Definition access_ip (vm : val) : result val :=
  match vm with
  | PObj _ _ fs => match od_get "access_ip" fs with Some v => Ok v | None => Raise AttributeError end
  | _ => Raise AttributeError
  end.

Fixpoint first_vm (ipv4 : string) (vms : list RegisteredResource) : result (option val) :=
  match vms with
  | [] => Ok None
  | r :: vms' =>
      ip ← access_ip (rr_value r);
      match ip with
      | PStr s => if String.eqb ipv4 s then Ok (Some (rr_value r)) else first_vm ipv4 vms'
      | _ => first_vm ipv4 vms'
      end
  end.

Fixpoint first_blue_vm (ipv4 : string) (blues : list BlueprintNGBaseModel) : result (option val) :=
  match blues with
  | [] => Ok None
  | blue :: blues' =>
      found ← first_vm ipv4 (get_registered_resources (Some VmResource) blue);
      match found with Some vm => Ok (Some vm) | None => first_blue_vm ipv4 blues' end
  end.

Definition get_vm_target_by_ip (ipv4 : string) : BM (option val) :=
  blue_list ← _load_all_blue_from_db None true;
  liftR (first_blue_vm ipv4 blue_list).

(** ** Calls of other blueprints *)

(** [BlueprintProvider.call_blueprint_function] until the caller blocks on the callback [n]. *)
Definition call_blueprint_function (blue_id function_name : string) (args : list val)
  (kwargs : list (string * val)) (n : nat) : BM unit :=
  blue_worker ← get_worker blue_id;
  update_worker blue_worker (put_message DAY2_BY_NAME function_name (Arguments args kwargs) (Some n)).

(** The REST function of that name. *)
Definition rest_protect_blueprint (blueprint_id : string) (protect : bool) : BM blue_summary :=
  worker ← get_worker blueprint_id;
  in_worker worker (protect_blueprint protect) ;;
  get_blueprint_summary_by_id blueprint_id false.
End loading.

(** A caller blocked in [delete_blueprint(wait=True)] goes on once its callback was called. *)
Definition resume (n : nat) (blueprint_id : string) (m : BlueprintManager D P) :
  option (BlueprintManager D P) :=
  if decide ((n, blueprint_id) ∈ waiting m ∧ n ∈ (m_replies m).*1)
  then Some (delete_finish blueprint_id
               (set_waiting (List.filter (λ x, negb (fst x =? n)%nat) (waiting m)) m)).2
  else None.
End manager.
