(* ===== verification/BlueprintManagerProps.v ===== *)
(** * What the blueprint manager guarantees

    The collection names each blueprint's own worker under any interleaving of requests and
    turns of the threads; creation, deletion and protection do what they say; and the deletion
    without waiting can be undone by a request that comes before the thread has finished. *)

From stdpp Require Import base list strings gmap relations.
From Stdlib Require Import ZArith Lia Ascii Permutation.
From S2P Require Import Prelude Ipam IPv4Text Registry NetworkModels VimModels Database PrometheusModels K8sModels TopologyModel Topology BlueprintTypes Performance Blueprint BlueprintReload BlueprintWorker BlueprintManager.

Open Scope Z_scope.

Section props.
Context `{Pydantic} {D P C : Type} `{!Mongo BlueprintNGBaseModel D} `{!Mongo performance_dump P}.
Context `{!BlueprintCode D P} (types : TypeRegistry) (import : string → string → result BlueClass).
Implicit Types (m : BlueprintManager D P) (w : BlueWorld D P).

(** ** Identifiers through serialization, loading and the turns of a thread *)
Definition same_id (i : string) (b : BlueprintNGBaseModel) : Prop := bm_id b = i.

Lemma same_id_for_each {A} i (l : list A) f :
  (∀ x, preserves (same_id i) (f x)) → preserves (same_id i) (for_each l f).
Proof. apply preserves_for_each. Qed.

Lemma override_all_id i bm : preserves (same_id i) (override_all bm).
Proof.
  unfold override_all. apply preserves_bind.
  - apply (preserves_zoom _ (λ _, True)); [done|by intros|]. by intros ? ?.
  - intros _. apply preserves_for_each. intros [k r]. destruct (isinstance _ _); [|apply preserves_ret].
    intros d Hd. unfold in_resource. destruct (od_get _ _) as [x|]; [|done].
    by destruct (override_variables_in_dict _ _ _ _).
Qed.

Lemma serialize_id b doc : serialize_content b = Ok doc → bm_id doc = bm_id b.
Proof.
  unfold serialize_content. intros E.
  assert (Hp : preserves (same_id (bm_id b)) (catch (override_all b)
    (λ e, if decide (e = BlueprintNGException) then Some (modifyS (set_corrupted true)) else None))).
  { apply preserves_catch; [apply override_all_id|].
    intros e k. destruct (decide _); intros [= <-]. by apply preserves_modifyS. }
  specialize (Hp (model_dump b) eq_refl).
  destruct (catch _ _ _) as [[u|e] d]; by simplify_eq/=.
Qed.

Lemma register_resource_id i (t : World C) u r : preserves (same_id i) (register_resource t u r).
Proof.
  unfold register_resource. apply preserves_get_known. intros b Hb. repeat (cbv zeta; preserve_steps).
  all: try (apply preserves_putS; exact Hb).
  all: apply preserves_catch; [preserve_steps|]; intros e k; destruct (is_value_error e); intros [= <-];
    apply preserves_raise.
Qed.

Lemma load_resource_id i (t : World C) c v : preserves (same_id i) (load_resource t c v).
Proof.
  unfold load_resource. preserve_steps. apply register_resource_id.
Qed.

Lemma load_resources_id i (t : World C) doc :
  preserves (same_id i) (load_deployables t doc) ∧ preserves (same_id i) (load_configurations t doc).
Proof.
  split; [unfold load_deployables|unfold load_configurations];
    repeat (preserve_steps; try apply load_resource_id).
Qed.

Lemma load_state_id i doc : preserves (same_id i) (load_state doc).
Proof.
  unfold load_state. repeat preserve_steps. apply preserves_catch.
  - preserve_steps; by apply preserves_modifyS.
  - intros e k. destruct (decide _); intros [= <-]. by apply preserves_modifyS.
Qed.

Lemma load_providers_id i (t : World C) doc : preserves (same_id i) (load_providers t doc).
Proof.
  unfold load_providers, load_virt, load_k8s, load_pdu, load_blue. preserve_steps; by apply preserves_modifyS.
Qed.

Lemma from_db_aux_id (t : World C) doc init b : from_db_aux t doc init = Ok b → bm_id b = bm_id doc.
Proof.
  unfold from_db_aux, first_base_model. intros E.
  apply result_bind_Ok_inv in E as (b0 & E0 & E). apply result_bind_Ok_inv in E0 as (c & _ & [= <-]).
  revert E. set (b0 := Build_BlueprintNGBaseModel _ _ _ _ _ _ _ _ _ _ _ _ _ _ _ _ _ _ _).
  set (p := _ ;; _). intros E.
  assert (Hp : preserves (same_id (bm_id doc)) p).
  { subst p. preserve_steps; try apply load_resources_id; try apply load_state_id.
    apply load_providers_id. }
  specialize (Hp b0 eq_refl). by destruct (p b0) as [[[]|e] b1]; simplify_eq/=.
Qed.

(** What the code of the blueprints may not do: change the identifier of its blueprint, or store a
    second document under an identifier. *)
Definition own (i : string) w : Prop := same_id i (base_model w) ∧ ids_unique (blue_db w).

Record code_respects_ids : Prop := {
  cr_create : ∀ i v, preserves (own i) (create_impl v);
  cr_method : ∀ i n p, preserves (own i) (method_impl n p);
  cr_destroy : ∀ i, preserves (own i) destroy_impl
}.

Lemma own_update i f : (∀ b, bm_id (f b) = bm_id b) → preserves (own i) (update_base (D := D) (P := P) f).
Proof.
  intros Hf. apply preserves_modifyS. intros w [Hi Hu]. split; [|done]. unfold same_id in *. simpl.
  by rewrite Hf.
Qed.

Lemma own_trigger i t : preserves (own i) (trigger_event t).
Proof.
  unfold trigger_event. apply preserves_get_known. intros w Hw. preserve_steps; by apply preserves_modifyS.
Qed.

Lemma own_save i : preserves (own i) blueprint_to_db.
Proof.
  intros w [Hi Hu]. unfold blueprint_to_db, to_db. run_M.
  destruct (serialize_content (base_model w)) as [doc|e] eqn:E; [|done]. simpl. split; [done|].
  apply save_ng_blue_by_id; [done|]. unfold has_id. simpl. f_equal. by apply serialize_id.
Qed.

Lemma own_zoom {A} i (x : M (PerformanceManager * P) A) : preserves (own i) (on_perf x).
Proof. apply (preserves_zoom _ (λ _, True)); [done|by intros|]. by intros ? ?. Qed.

Lemma own_perf_start i t n : preserves (own i) (perf_start_operation t n).
Proof. unfold perf_start_operation. preserve_steps. apply own_zoom. Qed.
Lemma own_perf_end i o : preserves (own i) (perf_end_operation o).
Proof. unfold perf_end_operation. preserve_steps. apply own_zoom. Qed.
Lemma own_call_back i msg v : preserves (own i) (call_back msg v).
Proof. unfold call_back. preserve_steps; by apply preserves_modifyS. Qed.
Lemma own_get_base i : preserves (own i) get_base.
Proof. unfold get_base. preserve_steps. Qed.

Create HintDb own discriminated.
#[local] Hint Resolve own_trigger own_save own_perf_start own_perf_end own_call_back own_get_base : own.

(** Every step of the worker keeps the identifier of its blueprint. *)
Ltac own_steps Hc :=
  repeat match goal with
  | |- preserves _ (update_base _) => apply own_update; done
  | |- preserves _ (create_impl _) => apply (cr_create Hc)
  | |- preserves _ (method_impl _ _) => apply (cr_method Hc)
  | |- preserves _ destroy_impl => apply (cr_destroy Hc)
  | |- preserves _ (catch _ _) => apply preserves_catch; [|intros ? ? [= <-]]
  | |- preserves _ _ => solve [eauto with own]
  | |- preserves _ (mret _) => apply preserves_ret
  | |- preserves _ (raise _) => apply preserves_raise
  | |- preserves _ (liftR _) => apply preserves_liftR
  | |- preserves _ (_ ≫= _) => apply preserves_bind; [|intros ?]
  | |- preserves _ (match ?x with _ => _ end) => destruct x
  end.

(** The destruction every blueprint inherits meets the contract when the providers do. *)
Lemma own_destroy `{!Providers D P} i :
  (∀ c, preserves (own i) (provider_delete_blueprint c)) →
  (∀ v, preserves (own i) (provider_destroy_vm v)) →
  (∀ v, preserves (own i) (provider_uninstall_helm_chart v)) →
  preserves (own i) provider_final_cleanup → preserves (own i) destroy.
Proof.
  intros H1 H2 H3 H4. unfold destroy.
  apply preserves_bind; [apply own_get_base|]. intros b. apply preserves_bind.
  - apply preserves_for_each. intros c. apply preserves_bind.
    + apply preserves_catch; [apply H1|]. intros e k. destruct (decide _); intros [= <-].
      apply preserves_ret.
    + intros _. apply (preserves_zoom _ (same_id i)); [by intros w []|by intros ? ? []|].
      unfold deregister_children. apply preserves_get_known. intros b' Hb'. preserve_steps.
      by apply preserves_putS.
  - intros _. apply preserves_bind; [apply own_get_base|]. intros b'. apply preserves_bind.
    + apply preserves_for_each. intros kv. preserve_steps.
    + intros _. apply preserves_bind; [done|]. intros _. apply preserves_bind; [apply own_get_base|].
      intros b2. apply preserves_modifyS. intros w [Hi Hu]. split; [done|]. simpl.
      by apply delete_ids_unique.
Qed.

Lemma own_handlers (Hc : code_respects_ids) i msg :
  preserves (own i) (handle_day0 msg) ∧ preserves (own i) (handle_day2 types msg) ∧
  preserves (own i) (handle_stop msg).
Proof.
  unfold handle_day0, day0_body, handle_day2, day2_body, day2_call, handle_stop, on_error.
  split_and!; own_steps Hc.
Qed.

Lemma own_listen (Hc : code_respects_ids) i wk w : own i w → own i (listen_step types (wk, w)).2.
Proof.
  intros Hw. unfold listen_step. destruct (thread wk); [|done|done].
  destruct (queue wk) as [|msg rest]; [done|].
  destruct (own_handlers Hc i msg) as (H1 & H2 & H3).
  destruct (message_type msg);
    [specialize (H1 w Hw)|specialize (H2 w Hw)|specialize (H2 w Hw)|specialize (H3 w Hw)];
    match goal with H : own i (?h w).2 |- _ => by destruct (h w) as [[?|?] ?] end.
Qed.

(** ** The collection *)
Record manager_ok m : Prop := {
  mo_keys : NoDup (od_keys (worker_collection m));
  mo_workers : ∀ i r, od_get i (worker_collection m) = Some r →
    ∃ wk b, workers m !! r = Some (wk, b) ∧ bm_id b = i;
  mo_db : ids_unique (m_db m)
}.

Lemma manager_start b m :
  manager_ok m →
  manager_ok (set_collection (od_set (bm_id b) (length (workers m)) (worker_collection m))
                (set_workers (workers m ++ [({| queue := []; thread := Listening |}, b)]) m)).
Proof.
  intros [H1 H2 H3]. split; simpl; [by apply od_keys_set_NoDup| |done].
  intros i r. rewrite od_get_set. destruct (String.eqb_spec (bm_id b) i) as [<-|Hne].
  - intros [= <-]. eexists _, b. split; [|done]. apply list_lookup_middle. done.
  - intros (wk & b' & Hr & Hi)%H2. exists wk, b'. split; [|done]. by apply lookup_app_l_Some.
Qed.

(** The manager after it started a worker for [b]. *)
Definition started_for b m : BlueprintManager D P :=
  set_collection (od_set (bm_id b) (length (workers m)) (worker_collection m))
    (set_workers (workers m ++ [({| queue := []; thread := Listening |}, b)]) m).

(** The three outcomes of [get_worker]: known, loaded, refused. *)
Lemma get_worker_cases (t : World C) i m :
  manager_ok m →
  (∃ r wk b, get_worker t i m = (Ok r, m) ∧ od_get i (worker_collection m) = Some r ∧
     workers m !! r = Some (wk, b) ∧ bm_id b = i) ∨
  (∃ doc b, od_get i (worker_collection m) = None ∧
     get_ng_blue_by_id_filter i (m_db m) = Some doc ∧ Blueprint.from_db t doc = Ok b ∧ bm_id b = i ∧
     get_worker t i m = (Ok (length (workers m)), started_for b m)) ∨
  (∃ e, od_get i (worker_collection m) = None ∧ get_worker t i m = (Raise e, m) ∧
     match get_ng_blue_by_id_filter i (m_db m) with
     | Some doc => Blueprint.from_db t doc = Raise e
     | None => e = BlueprintNotFoundException
     end).
Proof.
  intros Hm. unfold get_worker, _load_blue_from_db. run_M.
  destruct (od_get i (worker_collection m)) as [r|] eqn:Er.
  - left. destruct (mo_workers m Hm i r Er) as (wk & b & Hr & Hi). by exists r, wk, b.
  - right. destruct (get_ng_blue_by_id_filter i (m_db m)) as [doc|] eqn:Ed.
    + assert (Hdoc : bm_id doc = i).
      { unfold get_ng_blue_by_id_filter, find_in_collection in Ed.
        destruct (mongo_find (QField "id" i) (m_db m)) as [|d l] eqn:Ef; [done|]. injection Ed as ->.
        assert (Hin : doc ∈ mongo_find (QField "id" i) (m_db m)) by (rewrite Ef; left).
        rewrite find_docs in Hin. apply list_elem_of_filter in Hin as [Hin _].
        apply matches_id in Hin. unfold has_id in Hin. simpl in Hin. congruence. }
      destruct (Blueprint.from_db t doc) as [b|e] eqn:Ef; [left|right; by exists e].
      assert (Hb : bm_id b = i) by by rewrite (from_db_aux_id t doc true b).
      exists doc, b. unfold started_for, start_worker. rewrite Hb. done.
    + right. by exists BlueprintNotFoundException.
Qed.

Lemma get_worker_ok (t : World C) i : preserves manager_ok (get_worker t i).
Proof.
  intros m Hm. destruct (get_worker_cases t i m Hm) as
    [(r & wk & b & E & _)|[(doc & b & _ & _ & _ & _ & E)|(e & _ & E & _)]]; rewrite E; simpl; try done.
  by apply manager_start.
Qed.

(** A worker whose queue or blueprint changes but not the blueprint's identifier. *)
Lemma replace_worker_ok r wk wk' b b' d p ev rp m :
  manager_ok m → workers m !! r = Some (wk, b) → bm_id b' = bm_id b → ids_unique d →
  manager_ok {| workers := <[r := (wk', b')]> (workers m); worker_collection := worker_collection m;
                m_db := d; m_perf := p; m_events := ev; m_replies := rp; waiting := waiting m |}.
Proof.
  intros [H1 H2 H3] Hr Hb Hd. split; simpl; [done| |done].
  intros i r' (wk1 & b1 & Hr' & Hi)%H2. destruct (decide (r' = r)) as [->|Hne].
  - exists wk', b'. rewrite list_lookup_insert_eq by by eapply lookup_lt_Some. split; [done|]. congruence.
  - exists wk1, b1. by rewrite list_lookup_insert_ne.
Qed.

Lemma update_worker_ok r f : preserves manager_ok (update_worker (D := D) (P := P) r f).
Proof.
  intros m Hm. unfold update_worker. destruct (workers m !! r) as [[wk b]|] eqn:Er; [|done]. simpl.
  eapply replace_worker_ok; [done|exact Er|done|apply Hm].
Qed.
Lemma on_worker_ok {A} r (f : _ → A) : preserves manager_ok (on_worker (D := D) (P := P) r f).
Proof. intros m Hm. unfold on_worker. by destruct (workers m !! r). Qed.

Lemma in_worker_ok {A} r (f : M (BlueWorld D P) A) :
  (∀ i, preserves (own i) f) → preserves manager_ok (in_worker r f).
Proof.
  intros Hf m Hm. unfold in_worker. destruct (workers m !! r) as [[wk b]|] eqn:Er; [|done].
  specialize (Hf (bm_id b) (seen_by b m)). destruct (f (seen_by b m)) as [x w]. simpl in *.
  destruct Hf as [Hi Hd]; [by split; [|apply Hm]|].
  eapply replace_worker_ok; [done|exact Er|done|done].
Qed.

Lemma turn_ok (Hc : code_respects_ids) r m : manager_ok m → manager_ok (turn types r m).
Proof.
  intros Hm. unfold turn. destruct (workers m !! r) as [[wk b]|] eqn:Er; [|done].
  pose proof (own_listen Hc (bm_id b) wk (seen_by b m)) as Ho.
  destruct (listen_step types (wk, seen_by b m)) as [wk' w]. simpl in *.
  destruct Ho as [Hi Hd]; [by split; [|apply Hm]|].
  eapply replace_worker_ok; [done|exact Er|done|done].
Qed.

Lemma pop_ok i m : manager_ok m → manager_ok (set_collection (od_pop i (worker_collection m)) m).
Proof.
  intros [H1 H2 H3]. split; simpl; [by apply od_keys_pop_NoDup| |done].
  intros j r. rewrite od_get_pop by done. destruct (String.eqb i j); [done|apply H2].
Qed.
Lemma set_waiting_ok l m : manager_ok m → manager_ok (set_waiting l m).
Proof. by intros []. Qed.

Lemma delete_finish_ok i : preserves manager_ok (delete_finish (D := D) (P := P) i).
Proof.
  intros m Hm. unfold delete_finish. run_M. destruct (od_in i (worker_collection m)); [|done].
  simpl. by apply pop_ok.
Qed.

Lemma delete_request_ok (t : World C) i cb : preserves manager_ok (delete_request t i cb).
Proof.
  unfold delete_request. apply preserves_bind; [apply get_worker_ok|]. intros r.
  apply preserves_bind; [apply on_worker_ok|]. intros b.
  destruct (protected b); [apply preserves_raise|apply update_worker_ok].
Qed.

(** *** Creation *)
Definition created_for b now path msg cb db m : BlueprintManager D P :=
  {| workers := workers m ++
       [(put_message BlueprintWorker.DAY0 path (Model msg) cb {| queue := []; thread := Listening |}, b)];
     worker_collection := od_set (bm_id b) (length (workers m)) (worker_collection m);
     m_db := db; m_perf := (add_blueprint (bm_id b) path now (m_perf m)).2;
     m_events := m_events m; m_replies := m_replies m; waiting := waiting m |}.

Lemma create_run (t : World C) i now msg path parent cb m :
  create_blueprint types import t i now msg path parent cb m =
  match get_ng_blue_by_id_filter i (m_db m) with
  | Some doc => match Blueprint.from_db t doc with
                | Ok _ => (Raise BlueprintAlreadyExisting, m)
                | Raise e => (Raise e, m)
                end
  | None =>
      match get_blueprint_class import path types with
      | Raise e => (Raise e, m)
      | Ok c =>
          let b := set_parent parent (new_blueprint c i now) in
          match to_db b (m_db m) with
          | Raise e => (Raise e, m)
          | Ok db => (Ok i, created_for b now path msg cb db m)
          end
      end
  end.
Proof.
  unfold create_blueprint, _load_blue_from_db. run_M.
  destruct (get_ng_blue_by_id_filter i (m_db m)) as [doc|].
  { by destruct (Blueprint.from_db t doc). }
  destruct (get_blueprint_class import path types) as [c|e]; [|done].
  destruct (to_db (set_parent parent (new_blueprint c i now)) (m_db m)) as [db|e]; [|done].
  unfold zoom, start_worker. simpl. unfold update_worker. simpl. rewrite list_lookup_middle by done.
  unfold created_for, set_workers. simpl. by rewrite insert_app_r_alt, Nat.sub_diag by done.
Qed.

Lemma to_db_unique b db db' : ids_unique db → to_db b db = Ok db' → ids_unique db'.
Proof.
  intros Hu E. apply result_bind_Ok_inv in E as (doc & E & [= <-]).
  apply save_ng_blue_by_id; [done|]. unfold has_id. simpl. f_equal. by apply serialize_id.
Qed.

Lemma create_ok (t : World C) i now msg path parent cb :
  preserves manager_ok (create_blueprint types import t i now msg path parent cb).
Proof.
  intros m Hm. rewrite create_run.
  destruct (get_ng_blue_by_id_filter i (m_db m)) as [doc|]; [by destruct (Blueprint.from_db t doc)|].
  destruct (get_blueprint_class import path types) as [c|e]; [|done]. cbv zeta.
  destruct (to_db _ (m_db m)) as [db|e] eqn:Ed; [|done]. simpl.
  destruct (manager_start (set_parent parent (new_blueprint c i now)) m Hm) as [H1 H2 H3].
  split; simpl; [exact H1| |by eapply to_db_unique; [apply Hm|exact Ed]].
  intros j r Hj. destruct (H2 j r Hj) as (wk & b & Hr & Hb). simpl in Hr.
  destruct (decide (r = length (workers m))) as [->|Hne].
  - rewrite list_lookup_middle in Hr by done. simplify_eq. eexists _, _. by rewrite list_lookup_middle.
  - exists wk, b. apply lookup_app_Some in Hr as [Hr|[Hr Hr']]; [split; [by apply lookup_app_l_Some|done]|].
    apply lookup_lt_Some in Hr'. simpl in Hr'. lia.
Qed.

Lemma delete_blueprint_ok (t : World C) i : preserves manager_ok (delete_blueprint t i).
Proof.
  unfold delete_blueprint. apply preserves_bind; [apply delete_request_ok|]. intros _.
  apply delete_finish_ok.
Qed.

Lemma delete_all_ok (t : World C) : preserves manager_ok (delete_all_blueprints t).
Proof.
  unfold delete_all_blueprints, _load_all_blue_dict_from_db. preserve_steps.
  apply preserves_catch.
  - apply preserves_bind; [apply delete_blueprint_ok|intros _; apply preserves_ret].
  - intros e k. destruct (decide _); intros [= <-]. apply preserves_ret.
Qed.

Lemma protect_ok (t : World C) i p : preserves manager_ok (rest_protect_blueprint t i p).
Proof.
  unfold rest_protect_blueprint. apply preserves_bind; [apply get_worker_ok|]. intros r.
  apply preserves_bind.
  - apply in_worker_ok. intros j. unfold protect_blueprint.
    apply preserves_bind; [by apply own_update|]. intros _.
    apply preserves_bind; [apply own_save|]. intros _. apply preserves_bind; [apply own_get_base|].
    intros b. apply preserves_ret.
  - intros _. unfold get_blueprint_summary_by_id, get_blueprint_instance_by_id, _load_blue_from_db.
    preserve_steps; try apply on_worker_ok.
Qed.

(** ** Steps

    Requests run by the threads of the REST server, turns of the threads of the workers, and the
    end of blocked deletions, in any order; every request reads the topology in force. *)
Inductive mstep : BlueprintManager D P → BlueprintManager D P → Prop :=
| step_create m (t : World C) i now msg path parent cb :
    mstep m (create_blueprint types import t i now msg path parent cb m).2
| step_delete m (t : World C) i : mstep m (delete_blueprint t i m).2
| step_delete_and_wait m (t : World C) i n : mstep m (delete_and_wait t i n m).2
| step_resume m m' n i : resume n i m = Some m' → mstep m m'
| step_delete_all m (t : World C) : mstep m (delete_all_blueprints t m).2
| step_day2 m (t : World C) i path msg cb :
    mstep m ((r ← get_worker t i; update_worker r (put_message BlueprintWorker.DAY2 path msg cb)) m).2
| step_call m (t : World C) i f args kwargs n : mstep m (call_blueprint_function t i f args kwargs n m).2
| step_protect m (t : World C) i p : mstep m (rest_protect_blueprint t i p m).2
| step_turn m r : mstep m (turn types r m).

Lemma mstep_ok (Hc : code_respects_ids) m m' : mstep m m' → manager_ok m → manager_ok m'.
Proof.
  intros [] Hm.
  - by apply create_ok.
  - by apply delete_blueprint_ok.
  - revert m0 Hm. apply preserves_bind; [apply delete_request_ok|]. intros _.
    apply preserves_modifyS. intros. by apply set_waiting_ok.
  - unfold resume in H0. destruct (decide _); simplify_eq/=.
    apply delete_finish_ok. by apply set_waiting_ok.
  - by apply delete_all_ok.
  - revert m0 Hm. apply preserves_bind; [apply get_worker_ok|]. intros. apply update_worker_ok.
  - revert m0 Hm. apply preserves_bind; [apply get_worker_ok|]. intros. apply update_worker_ok.
  - by apply protect_ok.
  - by apply turn_ok.
Qed.

(** C30: the collection of workers under any interleaving.  If the code of the blueprints leaves
    the identifiers alone, then after any sequence of requests and of turns of the threads every
    entry of the collection names a worker of the blueprint with that identifier, no identifier is
    listed twice, two identifiers never share a worker, and the database has at most one document
    for each of them. *)
Theorem collection_names_its_workers m m' :
  code_respects_ids → rtc mstep m m' → manager_ok m →
  manager_ok m' ∧
  ∀ i j r, od_get i (worker_collection m') = Some r → od_get j (worker_collection m') = Some r → i = j.
Proof.
  intros Hc Hr Hm. assert (Hm' : manager_ok m') by (induction Hr; eauto using mstep_ok).
  split; [done|]. intros i j r Hi Hj.
  destruct (mo_workers m' Hm' i r Hi) as (wk & b & H1 & <-).
  destruct (mo_workers m' Hm' j r Hj) as (wk' & b' & H2 & <-). by simplify_eq.
Qed.

(** ** Deletion *)

(** The manager after an accepted deletion of [i], whose worker is [r]. *)
Definition stopped r i cb wk b m : BlueprintManager D P :=
  set_collection (od_pop i (worker_collection m))
    (set_workers (<[r := (destroy_blueprint cb wk, b)]> (workers m)) m).

Lemma delete_known (t : World C) i r wk b m :
  od_get i (worker_collection m) = Some r → workers m !! r = Some (wk, b) →
  delete_blueprint t i m =
  if protected b then (Raise BlueprintProtectedException, m) else (Ok i, stopped r i None wk b m).
Proof.
  intros Hi Hr. unfold delete_blueprint, delete_request, get_worker, on_worker, update_worker. run_M.
  rewrite Hi. simpl. rewrite Hr. simpl. destruct (protected b); simpl; [done|]. rewrite Hr. simpl.
  unfold delete_finish. run_M. unfold od_in. rewrite Hi. done.
Qed.

Lemma stopped_other r i cb wk b m j r' wk' b' :
  manager_ok m → od_get i (worker_collection m) = Some r → workers m !! r = Some (wk, b) →
  j ≠ i → od_get j (worker_collection m) = Some r' → workers m !! r' = Some (wk', b') →
  od_get j (worker_collection (stopped r i cb wk b m)) = Some r' ∧
  workers (stopped r i cb wk b m) !! r' = Some (wk', b').
Proof.
  intros Hm Hi Hr Hne Hj Hr'. simpl. rewrite od_get_pop by apply Hm.
  rewrite (proj2 (String.eqb_neq i j)) by done. split; [done|].
  rewrite list_lookup_insert_ne; [done|]. intros ->.
  destruct (mo_workers m Hm i r' Hi) as (? & ? & ? & ?), (mo_workers m Hm j r' Hj) as (? & ? & ? & ?).
  by simplify_eq.
Qed.

Lemma stopped_ok r i cb wk b m :
  manager_ok m → workers m !! r = Some (wk, b) → manager_ok (stopped r i cb wk b m).
Proof.
  intros Hm Hr. apply (pop_ok i (set_workers (<[r := (destroy_blueprint cb wk, b)]> (workers m)) m)).
  eapply replace_worker_ok; [done|exact Hr|done|apply Hm].
Qed.

(** What a deletion of the blueprints [l] does to the worker of [i]. *)
Definition fate (l : list string) i r wk b m : Prop :=
  if decide (i ∈ l ∧ protected b = false)
  then od_get i (worker_collection m) = None ∧ workers m !! r = Some (destroy_blueprint None wk, b)
  else od_get i (worker_collection m) = Some r ∧ workers m !! r = Some (wk, b).

Definition delete_each (t : World C) (l : list BlueprintNGBaseModel) : M (BlueprintManager D P) unit :=
  for_each l (λ blue,
    catch (delete_blueprint t (bm_id blue) ;; mret tt)
          (λ e, if decide (e = BlueprintProtectedException) then Some (mret tt) else None)).

Lemma delete_each_head (t : World C) d l r wk b m :
  od_get (bm_id d) (worker_collection m) = Some r → workers m !! r = Some (wk, b) →
  delete_each t (d :: l) m =
  delete_each t l (if protected b then m else stopped r (bm_id d) None wk b m).
Proof.
  intros Hi Hr. unfold delete_each. cbn [for_each].
  erewrite bind_Ok; [reflexivity|]. unfold catch, mbind at 1, M_bind at 1.
  rewrite (delete_known t _ _ _ _ _ Hi Hr). by destruct (protected b).
Qed.

(** One round of the loop, on blueprints that are all in memory. *)
Definition all_known (l : list BlueprintNGBaseModel) m : Prop :=
  manager_ok m ∧ NoDup (bm_id <$> l) ∧ ∀ d, d ∈ l → is_Some (od_get (bm_id d) (worker_collection m)).

Lemma delete_each_cons (t : World C) d l m :
  all_known (d :: l) m →
  ∃ r wk b, od_get (bm_id d) (worker_collection m) = Some r ∧ workers m !! r = Some (wk, b) ∧
    bm_id d ∉ bm_id <$> l ∧
    let m1 := if protected b then m else stopped r (bm_id d) None wk b m in
    delete_each t (d :: l) m = delete_each t l m1 ∧ all_known l m1.
Proof.
  intros (Hm & [Hn Hnd]%NoDup_cons & Hin).
  destruct (Hin d (list_elem_of_here _ _)) as [r Er].
  destruct (mo_workers m Hm _ _ Er) as (wk & b & Hr & _). exists r, wk, b.
  split; [done|]. split; [done|]. split; [done|]. cbv zeta.
  split; [by apply delete_each_head|]. split; [destruct (protected b); [done|by apply stopped_ok]|].
  split; [done|]. intros d' Hd'. destruct (Hin d' (list_elem_of_further _ _ _ Hd')) as [r' Er'].
  destruct (protected b); [by exists r'|]. destruct (mo_workers m Hm _ _ Er') as (wk' & b' & Hr' & _).
  exists r'. eapply (stopped_other r (bm_id d) None wk b m (bm_id d') r' wk' b' Hm Er Hr); try done.
  intros Heq. apply Hn. rewrite <-Heq. by apply list_elem_of_fmap_2.
Qed.

(** What is out of the collection stays out, with its worker untouched. *)
Lemma delete_each_out (t : World C) l m r i x :
  all_known l m → workers m !! r = Some x → (∀ j, od_get j (worker_collection m) ≠ Some r) →
  od_get i (worker_collection m) = None →
  workers (delete_each t l m).2 !! r = Some x ∧
  od_get i (worker_collection (delete_each t l m).2) = None.
Proof.
  revert m. induction l as [|d l IH]; intros m Hk Hr Hx Hi; [done|].
  destruct (delete_each_cons t d l m Hk) as (rd & wk & b & Ed & Hrd & _ & -> & Hk1).
  destruct (protected b); [by apply IH|]. apply IH; [done| | |]; simpl.
  - rewrite list_lookup_insert_ne; [done|]. intros ->. by apply (Hx (bm_id d)).
  - intros j. rewrite od_get_pop by apply Hk. by destruct (String.eqb (bm_id d) j).
  - rewrite od_get_pop by apply Hk. by destruct (String.eqb (bm_id d) i).
Qed.

Lemma delete_each_run (t : World C) l m :
  all_known l m →
  (delete_each t l m).1 = Ok tt ∧ manager_ok (delete_each t l m).2 ∧
  ∀ i r wk b, od_get i (worker_collection m) = Some r → workers m !! r = Some (wk, b) →
    fate (bm_id <$> l) i r wk b (delete_each t l m).2.
Proof.
  clear import. revert m. induction l as [|d l IH]; intros m Hk.
  { split; [done|]. split; [apply Hk|]. intros i r wk b Hi Hr. unfold fate.
    rewrite decide_False; [done|]. by intros [?%not_elem_of_nil _]. }
  destruct (delete_each_cons t d l m Hk) as (rd & wkd & bd & Ed & Hrd & Hn & -> & Hk1).
  destruct (IH _ Hk1) as (H1 & H2 & H3). split; [done|]. split; [done|].
  intros i r wk b Hi Hr. destruct (decide (i = bm_id d)) as [->|Hne].
  - rewrite Hi in Ed. injection Ed as <-. rewrite Hr in Hrd. injection Hrd as <- <-.
    destruct (protected b) eqn:Hp.
    + specialize (H3 _ _ _ _ Hi Hr). unfold fate in *. rewrite Hp in *.
      by rewrite !decide_False in * by naive_solver.
    + unfold fate. rewrite Hp, decide_True by (split; [left|done]).
      destruct Hk as (Hm & _). apply and_comm, delete_each_out; [done| | |]; simpl.
      * rewrite list_lookup_insert_eq; [done|by eapply lookup_lt_Some].
      * intros j. rewrite od_get_pop by apply Hm.
        destruct (String.eqb_spec (bm_id d) j) as [|Hne]; [done|]. intros Hj.
        destruct (mo_workers m Hm _ _ Hj) as (? & ? & ? & ?), (mo_workers m Hm _ _ Hi) as (? & ? & ? & ?).
        by simplify_eq.
      * rewrite od_get_pop by apply Hm. by rewrite String.eqb_refl.
  - assert (Hi1 : od_get i (worker_collection (if protected bd then m else stopped rd (bm_id d) None wkd bd m)) = Some r ∧
                  workers (if protected bd then m else stopped rd (bm_id d) None wkd bd m) !! r = Some (wk, b)).
    { destruct (protected bd); [done|]. by apply stopped_other; [apply Hk|..]. }
    specialize (H3 i r wk b (proj1 Hi1) (proj2 Hi1)). unfold fate in *. simpl.
    destruct (decide (i ∈ bm_id <$> l ∧ protected b = false)) as [Hd|Hd].
    + rewrite decide_True; [done|]. split; [right|]; apply Hd.
    + rewrite decide_False; [done|]. rewrite elem_of_cons. naive_solver.
Qed.

Lemma unique_ids_NoDup (l : list BlueprintNGBaseModel) :
  (∀ i, (length (filter (matches (QField "id" i)) l) ≤ 1)%nat) → NoDup (bm_id <$> l).
Proof.
  induction l as [|d l IH]; intros Hu; simpl; [constructor|]. apply NoDup_cons. split.
  - intros (d' & Heq & Hd')%list_elem_of_fmap. specialize (Hu (bm_id d)).
    rewrite filter_id_cons, decide_True in Hu by done. simpl in Hu.
    assert (Hin : d' ∈ filter (matches (QField "id" (bm_id d))) l).
    { apply list_elem_of_filter. split; [|done]. apply matches_id. unfold has_id. simpl. by rewrite Heq. }
    destruct (filter _ l); [by apply not_elem_of_nil in Hin|simpl in Hu; lia].
  - apply IH. intros i. specialize (Hu i). rewrite filter_id_cons in Hu.
    destruct (decide _); simpl in Hu; lia.
Qed.

Lemma get_all_perm (c : D) : Permutation (get_ng_blue_list None c) (docs c).
Proof.
  unfold get_ng_blue_list, find_in_collection. rewrite find_docs.
  induction (docs c) as [|d l IH]; [done|]. by rewrite filter_cons, decide_True, IH.
Qed.

(** C31: deleting everything.  When every blueprint of the database has its worker in memory,
    [delete_all_blueprints] returns and treats each blueprint on its own: an unprotected one of the
    database gets a STOP message at the end of its queue and leaves the collection, a protected
    one, or one the database does not list, keeps its entry, its queue and its state. *)
Theorem delete_all_spares_protected (t : World C) m :
  manager_ok m → (∀ d, d ∈ docs (m_db m) → is_Some (od_get (bm_id d) (worker_collection m))) →
  ∃ m', delete_all_blueprints t m = (Ok tt, m') ∧ manager_ok m' ∧
    ∀ i r wk b, od_get i (worker_collection m) = Some r → workers m !! r = Some (wk, b) →
      if decide (i ∈ bm_id <$> docs (m_db m) ∧ protected b = false)
      then od_get i (worker_collection m') = None ∧ workers m' !! r = Some (destroy_blueprint None wk, b)
      else od_get i (worker_collection m') = Some r ∧ workers m' !! r = Some (wk, b).
Proof.
  intros Hm Hin. pose proof (get_all_perm (m_db m)) as Hp.
  assert (Hk : all_known (get_ng_blue_list None (m_db m)) m).
  { split; [done|]. split.
    - rewrite Hp. apply unique_ids_NoDup, Hm.
    - intros d Hd. apply Hin. by rewrite <-Hp. }
  destruct (delete_each_run t _ m Hk) as (H1 & H2 & H3).
  assert (E : delete_all_blueprints t m = delete_each t (get_ng_blue_list None (m_db m)) m) by done.
  rewrite E. destruct (delete_each t _ m) as [x m'] eqn:Ed. simpl in *. subst x. exists m'.
  split; [done|]. split; [done|]. intros i r wk b Hi Hr. specialize (H3 i r wk b Hi Hr). unfold fate in H3.
  destruct (decide (i ∈ bm_id <$> get_ng_blue_list None (m_db m) ∧ _)) as [Hd|Hd].
  - rewrite decide_True; [done|]. by rewrite <-Hp.
  - rewrite decide_False; [done|]. by rewrite <-Hp.
Qed.

(** Creating a blueprint.  With an identifier the database does not have and a type that is
    registered, a creation whose empty blueprint can be saved returns the identifier; the database
    then holds the document of the new blueprint, the collection names a new worker whose thread
    listens and whose queue is the DAY0 message alone, and nothing else of the collection changed. *)
Theorem create_blueprint_correct (t : World C) i now msg path parent cb m c doc :
  manager_ok m → get_ng_blue_by_id_filter i (m_db m) = None →
  get_blueprint_class import path types = Ok c →
  serialize_content (set_parent parent (new_blueprint c i now)) = Ok doc →
  ∃ m' r, create_blueprint types import t i now msg path parent cb m = (Ok i, m') ∧ manager_ok m' ∧
    get_ng_blue_by_id_filter i (m_db m') = Some doc ∧
    od_get i (worker_collection m') = Some r ∧
    workers m' !! r = Some ({| queue := [{| message_type := BlueprintWorker.DAY0; msg_path := path;
                                            message := Model msg; callback := cb |}];
                               thread := Listening |}, set_parent parent (new_blueprint c i now)) ∧
    (∀ j, j ≠ i → od_get j (worker_collection m') = od_get j (worker_collection m)) ∧
    (∀ r', r' ≠ r → workers m' !! r' = workers m !! r').
Proof.
  intros Hm Hn Hc Hd. pose proof (create_ok t i now msg path parent cb m Hm) as Hok.
  assert (Hdb : to_db (set_parent parent (new_blueprint c i now)) (m_db m) = Ok (save_ng_blue i doc (m_db m)))
    by (unfold to_db; by rewrite Hd).
  rewrite create_run, Hn, Hc in *. cbv zeta in *. rewrite Hdb in *. simpl in Hok.
  eexists _, (length (workers m)). split; [reflexivity|]. split; [done|]. simpl.
  split; [|split; [apply od_get_set_eq|split; [by apply list_lookup_middle|split]]].
  - apply get_by_id_singleton, save_ng_blue_by_id; [apply Hm|]. unfold has_id. simpl.
    f_equal. by rewrite (serialize_id _ _ Hd).
  - intros j Hj. by rewrite od_get_set_ne.
  - intros r' Hr. destruct (decide (r' < length (workers m))%nat) as [Hlt|Hge].
    + by rewrite lookup_app_l.
    + rewrite !lookup_ge_None_2; [done|lia|rewrite length_app; simpl; lia].
Qed.
End props.

(** ** A manager with one blueprint in memory and in the database *)
#[local] Existing Instance ex_pydantic.

Definition ex_providers : Providers (list BlueprintNGBaseModel) (list performance_dump) := {|
  provider_delete_blueprint _ := mret tt;
  provider_destroy_vm _ := mret tt;
  provider_uninstall_helm_chart _ := mret tt;
  provider_final_cleanup := mret tt
|}.

Definition ex_manager_code : BlueprintCode (list BlueprintNGBaseModel) (list performance_dump) := {|
  create_impl _ := mret tt;
  method_impl _ _ := mret PNone;
  destroy_impl := destroy (Providers0 := ex_providers);
  publish _ _ _ := Ok tt;
  uuid4 w := fresh (op_id <$> op_heap (perf w).1);
  utcnow _ := 0;
  exn_text _ := "exception";
  model_dump_json _ := "{}"
|}.
#[local] Existing Instance ex_manager_code.

Definition ex_class : BlueClass := {| __module__ := "modules.ex"; __qualname__ := "ExBlue"; dir := [] |}.
Definition ex_types : TypeRegistry :=
  {| blueprint_module_mapping := [("ex", as_module "ex" ex_class)]; path_function_mapping := [] |}.
Definition ex_import (_ _ : string) : result BlueClass := Ok ex_class.

Definition ex_manager : BlueprintManager (list BlueprintNGBaseModel) (list performance_dump) :=
  {| workers := [({| queue := []; thread := Listening |}, ex_blueprint)];
     worker_collection := [("BLUE1", O)];
     m_db := match serialize_content ex_blueprint with Ok doc => [doc] | Raise _ => [] end;
     m_perf := (new_manager, []); m_events := []; m_replies := []; waiting := [] |}.

Lemma ex_manager_ok : manager_ok ex_manager.
Proof.
  split.
  - by_evaluation.
  - intros i r. change (worker_collection ex_manager) with (od_set "BLUE1" O []).
    rewrite od_get_set. destruct (String.eqb_spec "BLUE1" i) as [<-|Hne]; [|by intros].
    intros [= <-]. eexists _, _. split; reflexivity.
  - intros i. unfold by_id. etrans; [apply length_filter|].
    apply (bool_decide_unpack _). vm_compute. exact I.
Qed.

(** A deleted blueprint can come back.  The deletion without waiting removes the worker from
    the collection before its thread has destroyed the blueprint; a day-2 request that comes in
    between loads the blueprint again from the database into a second worker.  After the first
    thread has destroyed the blueprint and finished, the second one handles the request and saves
    its copy: the database lists the blueprint again.  Evaluated on one manager. *)
Example deleted_blueprint_comes_back :
  let m1 := (delete_blueprint ex_world "BLUE1" ex_manager).2 in
  let m2 := ((r ← get_worker ex_world "BLUE1";
              update_worker r (put_message BlueprintWorker.DAY2 "ex/f" NoPayload None)) m1).2 in
  let m3 := turn ex_types 0 m2 in
  let m4 := turn ex_types 1 m3 in
  (delete_blueprint ex_world "BLUE1" ex_manager).1 = Ok "BLUE1" ∧
  thread <$> (workers m3).*1 = [Finished; Listening] ∧
  get_ng_blue_by_id_filter "BLUE1" (m_db m3) = None ∧
  bm_id <$> m_db m4 = ["BLUE1"] ∧
  od_get "BLUE1" (worker_collection m4) = Some 1%nat.
Proof. vm_compute. repeat split. Qed.

(** The filter of the list of blueprints.  The documents carry the path of their class while
    the filter is documented to take the type of the blueprint: a blueprint created under the type
    "ex" is listed without a filter and is missing from the list of the type "ex". *)
Theorem summary_filter_misses_type :
  let m1 := (create_blueprint ex_types ex_import ex_world "BLUE2" 0 PNone "ex" None None ex_manager).2 in
  ∃ s l, (get_blueprint_summary_list ex_world None false m1).1 = Ok (s ++ l) ∧ l ≠ [] ∧
         (get_blueprint_summary_list ex_world (Some "ex") false m1).1 = Ok [].
Proof.
  set (m1 := _.2). vm_compute in m1. subst m1. cbv zeta.
  eexists [_], [_]. split; [vm_compute; reflexivity|]. by split.
Qed.

Lemma ex_respects_ids : code_respects_ids (BlueprintCode0 := ex_manager_code).
Proof.
  split; intros; [apply preserves_ret|apply preserves_ret|].
  apply own_destroy; intros; apply preserves_ret.
Qed.

Lemma collection_names_its_workers_witness :
  let m' := turn ex_types 0 (delete_all_blueprints ex_world ex_manager).2 in
  manager_ok m' ∧ ∀ i j r, od_get i (worker_collection m') = Some r →
                           od_get j (worker_collection m') = Some r → i = j.
Proof.
  apply (collection_names_its_workers (C := list TopologyModel) ex_types ex_import ex_manager).
  - exact ex_respects_ids.
  - eapply rtc_l; [apply (step_delete_all ex_types ex_import _ ex_world)|].
    eapply rtc_l; [apply (step_turn ex_types ex_import (C := list TopologyModel))|]. apply rtc_refl.
  - exact ex_manager_ok.
Defined.

Lemma delete_all_spares_protected_witness :
  ∃ m', delete_all_blueprints ex_world ex_manager = (Ok tt, m') ∧
        od_get "BLUE1" (worker_collection m') = None.
Proof.
  destruct (delete_all_spares_protected ex_world ex_manager) as (m' & E & _ & Hm').
  - exact ex_manager_ok.
  - vm_compute. intros d [= ->]%list_elem_of_singleton. by eexists.
  - exists m'. split; [exact E|].
    exact (proj1 (Hm' "BLUE1" O {| queue := []; thread := Listening |} ex_blueprint eq_refl eq_refl)).
Defined.

Lemma create_blueprint_correct_witness :
  ∃ m' r, create_blueprint ex_types ex_import ex_world "BLUE2" 0 PNone "ex" None (Some 7%nat) ex_manager =
            (Ok "BLUE2", m') ∧ od_get "BLUE2" (worker_collection m') = Some r.
Proof.
  destruct (serialize_content (set_parent None (new_blueprint ex_class "BLUE2" 0))) as [doc|e] eqn:Ed;
    [|by vm_compute in Ed].
  destruct (create_blueprint_correct ex_types ex_import ex_world "BLUE2" 0 PNone "ex" None (Some 7%nat)
    ex_manager ex_class doc) as (m' & r & E & _ & _ & Hr & _).
  - exact ex_manager_ok.
  - vm_compute. reflexivity.
  - vm_compute. reflexivity.
  - exact Ed.
  - exists m', r. split; [exact E|exact Hr].
Defined.
