(* ===== verification/PduProvider.v ===== *)
(** * Physical devices and their locks

    blueprints_ng/providers/pdu/pdu_provider.py and blueprints_ng/lcm/pdu_manager.py: a blueprint
    looks for a PDU of the topology, locks it before configuring it and unlocks it at the end.
    The lock is a field of the PDU in the topology; each blueprint's provider also lists the PDUs
    it holds.  Every call builds a new topology object from the database. *)

From stdpp Require Import base list strings gmap relations.
From Stdlib Require Import ZArith Lia Ascii Permutation.
From S2P Require Import Prelude Ipam IPv4Text Registry NetworkModels VimModels Database PrometheusModels K8sModels TopologyModel Topology TopologyProps.

Open Scope Z_scope.

(** ** The registered configurators *)
Record PDUManager := { registered_implementations : list (string * string) }.

Definition register_implementation (name implementation : string) (s : PDUManager) : PDUManager :=
  {| registered_implementations := od_set name implementation (registered_implementations s) |}.

Definition get_implementation (name : string) (s : PDUManager) : result string :=
  if od_in name (registered_implementations s)
  then od_getitem name (registered_implementations s) else Raise PDUManagerException.

(** ** The providers

    The collection of the topology, the events published so far, and [data.locked_pdus] of the
    provider of each blueprint. *)
Record PduWorld (C : Type) := {
  pw_db : C;
  pw_events : list Event;
  pw_locked : gmap string (list PduModel)
}.
Arguments pw_db {_} _.
Arguments pw_events {_} _.
Arguments pw_locked {_} _.

(** [save_to_db]: the [to_db] of the blueprint that owns the provider. *)
Class Persistence := save_provider : string → list PduModel → result unit.

Section provider.
Context {C : Type} `{!Mongo TopologyModel C} `{Environment} `{Persistence}.
Implicit Types (w : PduWorld C) (p : PduModel).
#[local] Notation PW := (M (PduWorld C)).

(** A method of [build_topology()]. *)
Definition build_topology {A} (op : M (World C) A) : PW A := λ w,
  match Topology.from_db (pw_db w) with
  | Ok t =>
      match op (set_events (pw_events w) t) with
      | (r, t') => (r, {| pw_db := w_db t'; pw_events := w_events t'; pw_locked := pw_locked w |})
      end
  | Raise e => (Raise e, w)
  end.

Definition locked (blueprint_id : string) w : list PduModel := default [] (pw_locked w !! blueprint_id).
Definition set_locked (blueprint_id : string) (l : list PduModel) w : PduWorld C :=
  {| pw_db := pw_db w; pw_events := pw_events w; pw_locked := <[blueprint_id := l]> (pw_locked w) |}.

Definition save_to_db (blueprint_id : string) : PW unit :=
  w ← getS; liftR (save_provider blueprint_id (locked blueprint_id w)).

(** [if s:], for an optional text [s]. *)
Definition filter_if (s : option string) (f : PduModel → string) (l : list PduModel) : list PduModel :=
  match s with
  | Some x => if str_true s then List.filter (λ p, String.eqb (f p) x) l else l
  | None => l
  end.

Definition find_pdu (area : Z) (type : PduType) (inst name : option string) : PW PduModel :=
  all_pdus ← build_topology get_pdus;
  let filtered_by_area := List.filter (λ x, pdu_area x =? area) all_pdus in
  let filtered_by_type := List.filter (λ x, bool_decide (pdu_type x = type)) filtered_by_area in
  let found := filter_if name pdu_name (filter_if inst instance_type filtered_by_type) in
  match found with
  | [p] => mret p
  | _ => raise PDUProviderException                 (* none, or more than one *)
  end.

Definition find_by_name (name : string) : PW PduModel :=
  all_pdus ← build_topology get_pdus;
  match List.filter (λ x, String.eqb (pdu_name x) name) all_pdus with
  | p :: _ => mret p
  | [] => raise PDUProviderException
  end.

Definition is_pdu_locked p : bool := match locked_by p with Some _ => true | None => false end.
Definition is_pdu_locked_by_current_blueprint (blueprint_id : string) p : bool :=
  bool_decide (locked_by p = Some blueprint_id).

Definition lock_pdu (blueprint_id : string) (pdu_model : PduModel) : PW PduModel :=
  if negb (is_pdu_locked pdu_model) then
    let pdu_model := set_locked_by (Some blueprint_id) pdu_model in
    modifyS (λ w, set_locked blueprint_id (locked blueprint_id w ++ [pdu_model]) w) ;;
    build_topology (upd_pdu pdu_model) ;;
    save_to_db blueprint_id ;;
    mret pdu_model
  else raise PDUProviderException.

Definition unlock_pdu (blueprint_id : string) (pdu_model : PduModel) : PW PduModel :=
  if is_pdu_locked pdu_model then
    if is_pdu_locked_by_current_blueprint blueprint_id pdu_model then
      let pdu_model := set_locked_by None pdu_model in
      w ← getS;
      l ← liftR (py_remove PduModel_eq pdu_model (locked blueprint_id w));
      modifyS (set_locked blueprint_id l) ;;
      build_topology (upd_pdu pdu_model) ;;
      save_to_db blueprint_id ;;
      mret pdu_model
    else raise PDUProviderException
  else raise PDUProviderException.

(** The path of the configurator's class; loading the class and building it on the PDU is
    Python's. *)
Definition get_pdu_configurator (blueprint_id : string) (s : PDUManager) p : result string :=
  if is_pdu_locked p && is_pdu_locked_by_current_blueprint blueprint_id p
  then get_implementation (instance_type p) s
  else Raise PDUProviderException.

Definition final_cleanup (blueprint_id : string) : PW unit :=
  w ← getS;
  for_each (locked blueprint_id w) (λ pdu_to_unlock,
    catch (updated_model ← find_by_name (pdu_name pdu_to_unlock);
           unlock_pdu blueprint_id updated_model ;; mret tt)
          (λ _, Some (mret tt))) ;;
  save_to_db blueprint_id.
End provider.

(** ** The topology under the providers *)
Section locks.
Context {C : Type} `{!Mongo TopologyModel C} `{Environment} `{Persistence}.
Context (Hup : ∀ l ev, redis_publish l ev = Ok tt) (Hsave : ∀ i l, save_provider i l = Ok tt).
Implicit Types (w : PduWorld C) (p : PduModel) (m : TopologyModel).

(** The database holds the well-formed topology [m]. *)
Definition holds m w : Prop := stored m (pw_db w).

Lemma holds_locked i l m w : holds m w → holds m (set_locked i l w).
Proof. done. Qed.

Lemma holds_loaded m w :
  holds m w → Topology.from_db (pw_db w) = Ok (loaded (Some m) (pw_db w)).
Proof.
  apply stored_loaded.
Qed.

Lemma read_pdus m w : holds m w → build_topology get_pdus w = (Ok (topo_pdus m), w).
Proof.
  intros Hw. unfold build_topology. rewrite (holds_loaded m w Hw).
  unfold get_pdus, on_model, TopologyModel.get_pdus. run_M. by destruct w.
Qed.

Lemma pdu_position m (i : nat) p n :
  topology_ok m → topo_pdus m !! i = Some p → pdu_name p = n →
  position pdu_name n (topo_pdus m) = Some i.
Proof.
  intros Hm Hp Hn. destruct (position_cases pdu_name n (topo_pdus m)) as [[_ Hno]|(j & q & Hj & Hq & Hk)].
  - destruct (Hno p); [by eapply list_elem_of_lookup_2|done].
  - rewrite Hj. f_equal. eapply (keys_unique_inj pdu_name); [apply Hm|exact Hq|exact Hp|congruence].
Qed.

Lemma write_pdu m w (i : nat) q p :
  holds m w → topo_pdus m !! i = Some q → pdu_name p = pdu_name q →
  ∃ w', build_topology (upd_pdu p) w = (Ok tt, w') ∧
        holds (set_pdus (<[i := p]> (topo_pdus m)) m) w' ∧ pw_locked w' = pw_locked w.
Proof.
  intros Hw Hq Hn. unfold build_topology. rewrite (holds_loaded m w Hw).
  set (w1 := set_events _ _).
  assert (Hok1 : world_ok w1).
  { split; [by intros ? [= <-]; apply Hw|]. by eapply db_ok_singleton; apply Hw. }
  pose proof (world_ok_upd_pdu p w1 Hok1) as Hok.
  assert (Hrun : TopologyModel.upd_pdu p m = (Ok p, set_pdus (<[i := p]> (topo_pdus m)) m)).
  { apply (proj2 (ri_upd_law (RegistryImpl := pdus_registry) p m) i q); [|done].
    simpl. rewrite Hn. by apply (pdu_position m i q); [apply Hw|..]. }
  revert Hok. unfold upd_pdu, obj_multiprocess_lock.
  erewrite bind_Ok by (apply (on_model_run _ _ m); [done|exact Hrun]).
  set (m' := set_pdus _ m) in *. set (w2 := set_model _ _).
  rewrite (save_trigger_run w2 m' _ _ eq_refl Hup). intros [Hok _].
  specialize (Hok m' eq_refl). eexists. split; [reflexivity|]. split; [|done].
  split; [|done]. simpl. apply save_docs; [|done]. by eapply db_ok_singleton; apply Hw.
Qed.

(** ** Who holds what *)

(** Every blueprint lists exactly the PDUs whose lock carries its identifier. *)
Definition locks_ok m w : Prop :=
  ∀ b, keys_unique pdu_name (locked b w) ∧
       ∀ n, n ∈ pdu_name <$> locked b w ↔
            ∃ p, p ∈ topo_pdus m ∧ pdu_name p = n ∧ locked_by p = Some b.

Lemma locked_set b b' l w : locked b (set_locked b' l w) = if decide (b = b') then l else locked b w.
Proof.
  unfold locked, set_locked. simpl. destruct (decide (b = b')) as [->|Hne].
  - by rewrite lookup_insert_eq.
  - by rewrite lookup_insert_ne.
Qed.

Lemma locked_eq b w w' : pw_locked w' = pw_locked w → locked b w' = locked b w.
Proof. unfold locked. by intros ->. Qed.

(** Changing the lock of one PDU changes who holds that one. *)
Lemma locked_after m (i : nat) q o b n :
  topology_ok m → topo_pdus m !! i = Some q →
  (∃ p, p ∈ <[i := set_locked_by o q]> (topo_pdus m) ∧ pdu_name p = n ∧ locked_by p = Some b) ↔
  (if decide (n = pdu_name q) then o = Some b
   else ∃ p, p ∈ topo_pdus m ∧ pdu_name p = n ∧ locked_by p = Some b).
Proof.
  intros Hm Hq. assert (Hu : keys_unique pdu_name (topo_pdus m)) by apply Hm.
  assert (Hi : (i < length (topo_pdus m))%nat) by by eapply lookup_lt_Some.
  destruct (decide (n = pdu_name q)) as [->|Hne]; split.
  - intros (p & [j Hj]%list_elem_of_lookup & Hn & Hb). destruct (decide (j = i)) as [->|Hne].
    + rewrite list_lookup_insert_eq in Hj by done. by simplify_eq/=.
    + rewrite list_lookup_insert_ne in Hj by done. destruct Hne.
      by eapply (keys_unique_inj pdu_name).
  - intros ->. exists (set_locked_by (Some b) q). split; [|done].
    apply list_elem_of_lookup. exists i. by apply list_lookup_insert_eq.
  - intros (p & [j Hj]%list_elem_of_lookup & Hn & Hb). destruct (decide (j = i)) as [->|Hne'].
    + rewrite list_lookup_insert_eq in Hj by done. by simplify_eq/=.
    + rewrite list_lookup_insert_ne in Hj by done. exists p. split; [by eapply list_elem_of_lookup_2|done].
  - intros (p & [j Hj]%list_elem_of_lookup & Hn & Hb). exists p. split; [|done].
    apply list_elem_of_lookup. exists j. rewrite list_lookup_insert_ne; [done|]. intros ->. congruence.
Qed.

Lemma lock_run b m w (i : nat) p :
  holds m w → locks_ok m w → topo_pdus m !! i = Some p → locked_by p = None →
  ∃ w', let m' := set_pdus (<[i := set_locked_by (Some b) p]> (topo_pdus m)) m in
    lock_pdu b p w = (Ok (set_locked_by (Some b) p), w') ∧ holds m' w' ∧ locks_ok m' w'.
Proof.
  intros Hw Hl Hp Hb. unfold lock_pdu, is_pdu_locked. rewrite Hb. simpl.
  set (p' := set_locked_by (Some b) p). erewrite bind_Ok by reflexivity.
  set (w1 := set_locked b _ w).
  destruct (write_pdu m w1 i p p') as (w2 & E & Hw2 & HL); [by apply holds_locked|done|done|].
  erewrite bind_Ok by exact E. unfold save_to_db. erewrite bind_Ok by (run_M; by rewrite Hsave).
  exists w2. split; [reflexivity|]. split; [exact Hw2|]. intros b'.
  assert (HL' : locked b' w2 = if decide (b' = b) then locked b w ++ [p'] else locked b' w).
  { rewrite (locked_eq _ _ _ HL). unfold w1. by rewrite locked_set. }
  destruct (Hl b') as [Hu Hn]. rewrite HL'. split.
  - destruct (decide (b' = b)) as [->|]; [|done]. apply keys_unique_snoc; [done|].
    intros y Hy Heq. assert (Hin : pdu_name p ∈ pdu_name <$> locked b w).
    { change (pdu_name p) with (pdu_name p'). rewrite <-Heq. by apply list_elem_of_fmap_2. }
    apply Hn in Hin as (q & Hq & Hqn & Hqb).
    assert (q = p); [|congruence]. eapply (keys_unique_elem pdu_name); [apply Hw|exact Hq| |exact Hqn].
    by eapply list_elem_of_lookup_2.
  - intros n. pose proof (locked_after m i p (Some b) b' n (proj2 Hw) Hp) as Ha. fold p' in Ha.
    cbn [topo_pdus set_pdus]. rewrite Ha.
    destruct (decide (b' = b)) as [->|Hne].
    + rewrite fmap_app, elem_of_app, Hn. change (pdu_name <$> [p']) with [pdu_name p].
      rewrite list_elem_of_singleton.
      destruct (decide (n = pdu_name p)) as [->|Hne]; [naive_solver|]. split; [|naive_solver].
      by intros [?| ->].
    + rewrite Hn. destruct (decide (n = pdu_name p)) as [->|]; [|done]. split; [|by intros [= <-]].
      intros (q & Hq & Hqn & Hqb). assert (q = p); [|congruence].
      eapply (keys_unique_elem pdu_name); [apply Hw|exact Hq| |exact Hqn]. by eapply list_elem_of_lookup_2.
Qed.

Lemma remove_pdu p l :
  keys_unique pdu_name l → pdu_name p ∈ pdu_name <$> l →
  ∃ j q, py_remove PduModel_eq p l = Ok (base.delete j l) ∧ l !! j = Some q ∧ pdu_name q = pdu_name p.
Proof.
  intros Hu (y & Hn & Hy)%list_elem_of_fmap. unfold py_remove.
  destruct (find_index _ l) as [j|] eqn:E.
  - apply find_index_Some in E as (q & Hq & Hk & _). exists j, q.
    split; [done|]. split; [done|]. by apply String.eqb_eq.
  - apply find_index_None with (x := y) in E; [|done]. unfold PduModel_eq in E.
    rewrite Hn, String.eqb_refl in E. done.
Qed.

Lemma elem_of_delete_key l (j : nat) q n :
  keys_unique pdu_name l → l !! j = Some q →
  n ∈ pdu_name <$> base.delete j l ↔ n ∈ pdu_name <$> l ∧ n ≠ pdu_name q.
Proof.
  intros Hu Hj. pose proof (fmap_Permutation pdu_name _ _ (delete_Permutation l j q Hj)) as Hp.
  rewrite fmap_cons in Hp. split.
  - intros (x & -> & Hx)%list_elem_of_fmap. split.
    + rewrite Hp. right. by apply list_elem_of_fmap_2.
    + by eapply (keys_unique_perm pdu_name).
  - intros [Hx Hne]. rewrite Hp, elem_of_cons in Hx. naive_solver.
Qed.

Lemma unlock_run b m w (i : nat) p :
  holds m w → locks_ok m w → topo_pdus m !! i = Some p → locked_by p = Some b →
  ∃ w', let m' := set_pdus (<[i := set_locked_by None p]> (topo_pdus m)) m in
    unlock_pdu b p w = (Ok (set_locked_by None p), w') ∧ holds m' w' ∧ locks_ok m' w'.
Proof.
  intros Hw Hl Hp Hb. unfold unlock_pdu, is_pdu_locked, is_pdu_locked_by_current_blueprint.
  rewrite Hb, bool_decide_true by done. set (p' := set_locked_by None p).
  destruct (Hl b) as [Hu Hn].
  destruct (remove_pdu p' (locked b w) Hu) as (j & q & Hrm & Hj & Hq).
  { apply Hn. exists p. split; [by eapply list_elem_of_lookup_2|done]. }
  erewrite bind_Ok by reflexivity. erewrite bind_Ok by (unfold liftR; by rewrite Hrm).
  erewrite bind_Ok by reflexivity. set (w1 := set_locked b _ w).
  destruct (write_pdu m w1 i p p') as (w2 & E & Hw2 & HL); [by apply holds_locked|done|done|].
  erewrite bind_Ok by exact E. unfold save_to_db. erewrite bind_Ok by (run_M; by rewrite Hsave).
  exists w2. split; [reflexivity|]. split; [exact Hw2|]. intros b'.
  assert (HL' : locked b' w2 = if decide (b' = b) then base.delete j (locked b w) else locked b' w).
  { rewrite (locked_eq _ _ _ HL). unfold w1. by rewrite locked_set. }
  destruct (Hl b') as [Hu' Hn']. rewrite HL'. split.
  - destruct (decide (b' = b)) as [->|]; [|done]. by apply keys_unique_delete.
  - intros n. pose proof (locked_after m i p None b' n (proj2 Hw) Hp) as Ha. fold p' in Ha.
    cbn [topo_pdus set_pdus]. rewrite Ha.
    destruct (decide (b' = b)) as [->|Hne].
    + rewrite (elem_of_delete_key _ _ _ _ Hu Hj), Hn, Hq. change (pdu_name p') with (pdu_name p).
      destruct (decide (n = pdu_name p)) as [->|]; naive_solver.
    + rewrite Hn'. destruct (decide (n = pdu_name p)) as [->|]; [|done]. split; [|done].
      intros (q' & Hq' & Hqn & Hqb). assert (q' = p); [|congruence].
      eapply (keys_unique_elem pdu_name); [apply Hw|exact Hq'| |exact Hqn]. by eapply list_elem_of_lookup_2.
Qed.

(** ** Looking for a PDU *)
Lemma filter_if_elem x o f (l : list PduModel) : x ∈ filter_if o f l → x ∈ l.
Proof.
  unfold filter_if. destruct o as [y|]; [|done]. destruct (str_true _); [|done].
  rewrite !list_elem_of_In, filter_In. by intros [].
Qed.

Lemma find_pdu_cases m w area ty inst name :
  holds m w →
  find_pdu area ty inst name w = (Raise PDUProviderException, w) ∨
  ∃ (i : nat) p, find_pdu area ty inst name w = (Ok p, w) ∧ topo_pdus m !! i = Some p.
Proof.
  intros Hw. unfold find_pdu. erewrite bind_Ok by by apply read_pdus. cbv zeta.
  set (l := filter_if _ _ _).
  assert (Hl : ∀ p, p ∈ l → p ∈ topo_pdus m).
  { intros p Hp. apply filter_if_elem, filter_if_elem in Hp. revert Hp.
    rewrite !list_elem_of_In, !filter_In. by intros [[]]. }
  destruct l as [|p [|]]; [by left| |by left]. right.
  destruct (proj1 (list_elem_of_lookup _ _) (Hl p (list_elem_of_here _ _))) as [i Hi]. by exists i, p.
Qed.

Lemma find_by_name_cases m w n :
  holds m w →
  (find_by_name n w = (Raise PDUProviderException, w) ∧ ∀ p, p ∈ topo_pdus m → pdu_name p ≠ n) ∨
  ∃ (i : nat) p, find_by_name n w = (Ok p, w) ∧ topo_pdus m !! i = Some p ∧ pdu_name p = n.
Proof.
  intros Hw. unfold find_by_name. erewrite bind_Ok by by apply read_pdus.
  destruct (List.filter _ _) as [|p l] eqn:E.
  - left. split; [done|]. intros p Hp Hn.
    assert (Hin : In p (List.filter (λ x, String.eqb (pdu_name x) n) (topo_pdus m))).
    { apply filter_In. split; [by apply list_elem_of_In|]. by apply String.eqb_eq. }
    by rewrite E in Hin.
  - right. assert (Hin : In p (List.filter (λ x, String.eqb (pdu_name x) n) (topo_pdus m))).
    { rewrite E. by left. }
    apply filter_In in Hin as [Hin Hn%String.eqb_eq].
    apply list_elem_of_In, list_elem_of_lookup in Hin as [i Hi]. by exists i, p.
Qed.

(** ** Taking and giving back *)
Definition acquire (b : string) (area : Z) (ty : PduType) (inst name : option string) :
  M (PduWorld C) PduModel :=
  p ← find_pdu area ty inst name; lock_pdu b p.
Definition release (b n : string) : M (PduWorld C) PduModel :=
  p ← find_by_name n; unlock_pdu b p.

Definition consistent_locks w : Prop := ∃ m, holds m w ∧ locks_ok m w.

Lemma acquire_ok b area ty inst name : preserves consistent_locks (acquire b area ty inst name).
Proof.
  intros w (m & Hw & Hl). unfold acquire.
  destruct (find_pdu_cases m w area ty inst name Hw) as [E|(i & p & E & Hp)].
  - erewrite bind_Raise by exact E. by exists m.
  - erewrite bind_Ok by exact E. destruct (locked_by p) as [b'|] eqn:Hb.
    + unfold lock_pdu, is_pdu_locked. rewrite Hb. by exists m.
    + destruct (lock_run b m w i p Hw Hl Hp Hb) as (w' & -> & Hw'). by eexists.
Qed.

Lemma release_ok b n : preserves consistent_locks (release b n).
Proof.
  intros w (m & Hw & Hl). unfold release.
  destruct (find_by_name_cases m w n Hw) as [[E _]|(i & p & E & Hp & Hn)].
  - erewrite bind_Raise by exact E. by exists m.
  - erewrite bind_Ok by exact E. destruct (locked_by p) as [b'|] eqn:Hb.
    + destruct (decide (b' = b)) as [->|Hne].
      * destruct (unlock_run b m w i p Hw Hl Hp Hb) as (w' & -> & Hw'). by eexists.
      * unfold unlock_pdu, is_pdu_locked, is_pdu_locked_by_current_blueprint. rewrite Hb.
        rewrite bool_decide_false by congruence. by exists m.
    + unfold unlock_pdu, is_pdu_locked. rewrite Hb. by exists m.
Qed.

Definition unlock_names (l : list string) (p : PduModel) : PduModel :=
  if decide (pdu_name p ∈ l) then set_locked_by None p else p.

Definition cleanup_loop (b : string) (l : list PduModel) : M (PduWorld C) unit :=
  for_each l (λ pdu_to_unlock,
    catch (updated_model ← find_by_name (pdu_name pdu_to_unlock);
           unlock_pdu b updated_model ;; mret tt) (λ _, Some (mret tt))).

Lemma cleanup_loop_run b l m w :
  holds m w → locks_ok m w → keys_unique pdu_name l →
  (∀ x, x ∈ l → ∃ p, p ∈ topo_pdus m ∧ pdu_name p = pdu_name x ∧ locked_by p = Some b) →
  ∃ w', let m' := set_pdus (unlock_names (pdu_name <$> l) <$> topo_pdus m) m in
    cleanup_loop b l w = (Ok tt, w') ∧ holds m' w' ∧ locks_ok m' w'.
Proof.
  revert m w. induction l as [|x l IH]; intros m w Hw Hl Hu Hin.
  { exists w. cbv zeta. change (pdu_name <$> []) with (@nil string).
    assert (set_pdus (unlock_names [] <$> topo_pdus m) m = m) as ->; [|done].
    rewrite (list_fmap_ext _ id) by (intros; unfold unlock_names; rewrite decide_False; [done|set_solver]).
    rewrite list_fmap_id. by destruct m. }
  destruct (Hin x (list_elem_of_here _ _)) as (p & Hp & Hpn & Hpb).
  destruct (find_by_name_cases m w (pdu_name x) Hw) as [[_ Hno]|(i & q & E & Hq & Hqn)]; [by destruct (Hno p)|].
  assert (q = p) as ->.
  { eapply (keys_unique_elem pdu_name); [apply Hw|by eapply list_elem_of_lookup_2|exact Hp|congruence]. }
  destruct (unlock_run b m w i p Hw Hl Hq Hpb) as (w1 & E1 & Hw1 & Hl1).
  set (m1 := set_pdus (<[i := set_locked_by None p]> (topo_pdus m)) m) in *.
  apply NoDup_cons in Hu as [Hx Hu].
  destruct (IH m1 w1 Hw1 Hl1 Hu) as (w' & E' & Hw' & Hl').
  { intros y Hy. apply (locked_after m i p None b _ (proj2 Hw) Hq). rewrite decide_False.
    - apply Hin. by right.
    - rewrite Hqn. intros Heq. apply Hx. rewrite <-Heq. by apply list_elem_of_fmap_2. }
  assert (Hm : set_pdus (unlock_names (pdu_name <$> l) <$> topo_pdus m1) m1 =
               set_pdus (unlock_names (pdu_name <$> x :: l) <$> topo_pdus m) m).
  { change (set_pdus (unlock_names (pdu_name <$> l) <$> topo_pdus m1) m1)
      with (set_pdus (unlock_names (pdu_name <$> l) <$> topo_pdus m1) m).
    f_equal. unfold m1. cbn [topo_pdus set_pdus]. apply list_eq. intros k.
    rewrite !list_lookup_fmap. destruct (decide (k = i)) as [->|Hne].
    - rewrite list_lookup_insert_eq by by eapply lookup_lt_Some. rewrite Hq. simpl. f_equal.
      unfold unlock_names. simpl. rewrite Hqn. rewrite decide_False by done.
      rewrite decide_True by left. done.
    - rewrite list_lookup_insert_ne by done. destruct (topo_pdus m !! k) as [q|] eqn:Ek; [|done].
      simpl. f_equal. unfold unlock_names. simpl.
      assert (Hqx : pdu_name q ≠ pdu_name x).
      { rewrite <-Hqn. intros Heq. apply Hne.
        eapply (keys_unique_inj pdu_name); [apply Hw|exact Ek|exact Hq|done]. }
      destruct (decide (pdu_name q ∈ pdu_name <$> l)) as [Hd|Hd].
      + by rewrite decide_True by by right.
      + by rewrite decide_False by (rewrite elem_of_cons; naive_solver). }
  rewrite Hm in *. exists w'. split; [|done]. unfold cleanup_loop. cbn [for_each].
  erewrite bind_Ok; [exact E'|]. unfold catch. erewrite bind_Ok by exact E. by erewrite bind_Ok by exact E1.
Qed.

(** The PDUs after blueprint [b] is gone. *)
Definition unlocked_by (b : string) (p : PduModel) : PduModel :=
  if decide (locked_by p = Some b) then set_locked_by None p else p.

Lemma cleanup_run b m w :
  holds m w → locks_ok m w →
  ∃ w', let m' := set_pdus (unlocked_by b <$> topo_pdus m) m in
    final_cleanup b w = (Ok tt, w') ∧ holds m' w' ∧ locks_ok m' w' ∧ locked b w' = [].
Proof.
  intros Hw Hl. destruct (Hl b) as [Hu Hn].
  destruct (cleanup_loop_run b (locked b w) m w Hw Hl Hu) as (w' & E & Hw' & Hl').
  { intros x Hx. apply Hn. by apply list_elem_of_fmap_2. }
  assert (Hm : unlock_names (pdu_name <$> locked b w) <$> topo_pdus m = unlocked_by b <$> topo_pdus m).
  { apply list_eq. intros k. rewrite !list_lookup_fmap.
    destruct (topo_pdus m !! k) as [p|] eqn:Ek; [|done]. simpl. f_equal.
    unfold unlock_names, unlocked_by. assert (Hp : p ∈ topo_pdus m) by by eapply list_elem_of_lookup_2.
    destruct (decide (locked_by p = Some b)) as [Hb|Hb].
    - rewrite decide_True; [done|]. apply Hn. by exists p.
    - rewrite decide_False; [done|]. intros (q & Hq & Hqn & Hqb)%Hn.
      assert (q = p); [|congruence]. by eapply (keys_unique_elem pdu_name); [apply Hw|..]. }
  rewrite Hm in *. exists w'. split.
  - unfold final_cleanup. erewrite bind_Ok by reflexivity.
    change (for_each _ _) with (cleanup_loop b (locked b w)).
    erewrite bind_Ok by exact E. unfold save_to_db. run_M. by rewrite Hsave.
  - split; [done|]. split; [done|]. destruct (locked b w') as [|p l] eqn:El; [done|]. exfalso.
    assert (Hin : pdu_name p ∈ pdu_name <$> locked b w') by (rewrite El; left).
    apply Hl' in Hin as (q & (q0 & -> & _)%list_elem_of_fmap & _ & Hqb).
    unfold unlocked_by in Hqb. by destruct (decide (locked_by q0 = Some b)).
Qed.

Lemma cleanup_ok b : preserves consistent_locks (final_cleanup b).
Proof.
  intros w (m & Hw & Hl). destruct (cleanup_run b m w Hw Hl) as (w' & -> & Hw' & Hl' & _). by eexists.
Qed.

(** Blueprints take, give back and clean up in any order, each on a PDU it has just looked for. *)
Inductive pdu_step : PduWorld C → PduWorld C → Prop :=
| step_acquire w b area ty inst name : pdu_step w (acquire b area ty inst name w).2
| step_release w b n : pdu_step w (release b n w).2
| step_cleanup w b : pdu_step w (final_cleanup b w).2.

Lemma pdu_steps_ok w w' : rtc pdu_step w w' → consistent_locks w → consistent_locks w'.
Proof.
  induction 1 as [|w1 w2 w3 [] _ IH]; [done|..]; intros Hw; apply IH;
    [by apply acquire_ok|by apply release_ok|by apply cleanup_ok].
Qed.
End locks.

(** ** Theorems *)

(** C28: locks exclude each other.  When the blueprints take, release and clean up PDUs in any
    order, each on a PDU it has just looked for, and the broker and the database accept the
    writes, then in every reachable state each blueprint lists exactly the PDUs of the topology
    whose lock carries its identifier; no PDU is listed by two blueprints. *)
Theorem pdu_locks_exclusive {C : Type} `{!Mongo TopologyModel C} `{Environment} `{Persistence}
  (w w' : PduWorld C) :
  (∀ l ev, redis_publish l ev = Ok tt) → (∀ i l, save_provider i l = Ok tt) →
  consistent_locks w → rtc pdu_step w w' →
  (∃ m, docs (pw_db w') = [m] ∧ topology_ok m ∧
     ∀ b n, n ∈ pdu_name <$> locked b w' ↔
            ∃ p, p ∈ topo_pdus m ∧ pdu_name p = n ∧ locked_by p = Some b) ∧
  ∀ b b' n, n ∈ pdu_name <$> locked b w' → n ∈ pdu_name <$> locked b' w' → b = b'.
Proof.
  intros Hup Hsave Hw Hr. destruct (pdu_steps_ok Hup Hsave w w' Hr Hw) as (m & Hm & Hl). split.
  - exists m. split; [apply Hm|]. split; [apply Hm|]. intros b. apply Hl.
  - intros b b' n (p & Hp & Hn & Hb)%Hl (p' & Hp' & Hn' & Hb')%Hl.
    assert (p = p'); [|congruence].
    eapply (keys_unique_elem pdu_name); [apply Hm|done|done|congruence].
Qed.

(** The clean-up of a blueprint gives back what it holds and nothing else: it returns, no PDU
    carries the blueprint's lock afterwards, every other PDU and every other part of the topology
    is as before, and its provider lists nothing. *)
Theorem final_cleanup_releases {C : Type} `{!Mongo TopologyModel C} `{Environment} `{Persistence}
  (b : string) (w : PduWorld C) (m : TopologyModel) :
  (∀ l ev, redis_publish l ev = Ok tt) → (∀ i l, save_provider i l = Ok tt) →
  docs (pw_db w) = [m] → topology_ok m → locks_ok m w →
  ∃ w', final_cleanup b w = (Ok tt, w') ∧ locked b w' = [] ∧
        docs (pw_db w') = [set_pdus (unlocked_by b <$> topo_pdus m) m] ∧
        locks_ok (set_pdus (unlocked_by b <$> topo_pdus m) m) w'.
Proof.
  intros Hup Hsave Hd Hm Hl.
  destruct (cleanup_run Hup Hsave b m w (conj Hd Hm) Hl) as (w' & E & Hw' & Hl' & Hb).
  exists w'. split; [done|]. split; [done|]. by split; [apply Hw'|].
Qed.

(** ** Two blueprints with the model of the same PDU *)
#[export] Instance example_persistence : Persistence := λ _ _, Ok tt.

Definition example_pdu : PduModel :=
  {| pdu_name := "gnb1"; pdu_area := 0; pdu_type := GNB; instance_type := "UERANSIM";
     description := None; network_interfaces := []; username := None; password := None;
     become_password := None; config := []; locked_by := None |}.

Definition example_pdu_world : PduWorld (list TopologyModel) :=
  {| pw_db := [set_pdus [example_pdu] example_topology]; pw_events := []; pw_locked := ∅ |}.

(** The lock is checked on the caller's copy.  Two blueprints that have both looked a PDU up
    before either locks it both succeed: both providers list the PDU, the topology gives it to the
    second, and the first can neither unlock it nor, at its end, clean it up. *)
Theorem stale_lock_steals :
  let w1 := (lock_pdu "A" example_pdu example_pdu_world).2 in
  let w2 := (lock_pdu "B" example_pdu w1).2 in
  (find_pdu 0 GNB None None example_pdu_world).1 = Ok example_pdu ∧
  (lock_pdu "A" example_pdu example_pdu_world).1 = Ok (set_locked_by (Some "A") example_pdu) ∧
  (lock_pdu "B" example_pdu w1).1 = Ok (set_locked_by (Some "B") example_pdu) ∧
  pdu_name <$> locked "A" w2 = ["gnb1"] ∧ pdu_name <$> locked "B" w2 = ["gnb1"] ∧
  (release "A" "gnb1" w2).1 = Raise PDUProviderException ∧
  pdu_name <$> locked "A" (final_cleanup "A" w2).2 = ["gnb1"].
Proof. vm_compute. repeat split. Qed.

Lemma example_locks : locks_ok (set_pdus [example_pdu] example_topology) example_pdu_world.
Proof.
  intros b. split; [constructor|]. intros n. split.
  - by intros ?%not_elem_of_nil.
  - by intros (p & ->%list_elem_of_singleton & _ & Hb).
Qed.

Lemma example_pdu_topology : topology_ok (set_pdus [example_pdu] example_topology).
Proof.
  destruct example_topology_ok as (Hn & H1). split; [|exact H1].
  destruct Hn as (N1 & N2 & N3 & N4 & _ & N6). split_and!; try done. apply NoDup_singleton.
Qed.

Lemma pdu_locks_exclusive_witness :
  ∃ m, docs (pw_db (acquire "A" 0 GNB None None example_pdu_world).2) = [m] ∧ topology_ok m.
Proof.
  destruct (pdu_locks_exclusive example_pdu_world (acquire "A" 0 GNB None None example_pdu_world).2)
    as [(m & Hd & Hm & _) _].
  - reflexivity.
  - reflexivity.
  - exists (set_pdus [example_pdu] example_topology).
    split; [split; [reflexivity|exact example_pdu_topology]|exact example_locks].
  - eapply rtc_l; [apply step_acquire|apply rtc_refl].
  - exists m. split; [exact Hd|exact Hm].
Defined.

Lemma final_cleanup_releases_witness :
  ∃ w', final_cleanup "A" example_pdu_world = (Ok tt, w') ∧ locked "A" w' = [].
Proof.
  destruct (final_cleanup_releases "A" example_pdu_world (set_pdus [example_pdu] example_topology))
    as (w' & E & Hl & _).
  - reflexivity.
  - reflexivity.
  - reflexivity.
  - exact example_pdu_topology.
  - exact example_locks.
  - exists w'. split; [exact E|exact Hl].
Defined.
