(* ===== verification/Core5GModels.v ===== *)
(** * The configuration of a 5G core

    models/blueprint_ng/core5g/common.py, models/blueprint_ng/g5/core.py and g5/upf.py,
    models/pdu/gnb.py, models/linux/ip.py: slices, data networks, subscribers, areas and what is
    computed from them, with the conversion of slice types and identifiers. *)

From Stdlib Require Import Ascii.
From stdpp Require Import base list strings gmap pretty.
From Stdlib Require Import ZArith Lia.
From S2P Require Import Prelude Ipam IPv4Text.

Open Scope Z_scope.

(** ** Data *)
Record Pool := { pool_cidr : string }.

Record SubDataNets := {
  net_name : string;
  dnn : string;
  dns : string;
  pools : list Pool;
  uplinkAmbr : option string;
  downlinkAmbr : option string;
  default5qi : option string
}.

Record Router5GNetworkInfo := { n3_ip : Z; n6_ip : Z; gnb_ip : Z; gnb_cidr : IPv4Network }.

Record NetworkEndPoints := {
  mgt : option string;
  wan : option string;
  data_nets : list SubDataNets
}.

Record SubFlows := { flowId : string; ipAddrFilter : option string; qi : string; gfbr : option string }.
Record SubpduSessions := {
  pduSessionId : string;
  pduSessionAmbr : option string;
  flows : list SubFlows
}.

Inductive IsolationLevel := ISOLATION | NO_ISOLATION.
Record SubProfileParams := {
  isolationLevel : IsolationLevel;
  sliceAmbr : option string;
  ueAmbr : option string;
  maximumNumberUE : option Z;
  pduSessions : list SubpduSessions
}.
Record SubLocationConstraints := { geographicalAreaId : string; tai : string }.
Record SubEnabledUEList := { ICCID : string }.

Inductive SliceType := EMBB | URLLC | MMTC.
#[export] Instance SliceType_eq_dec : EqDecision SliceType.
Proof. solve_decision. Defined.

Record SubSliceProfiles := {
  sliceId : string;
  sliceType : SliceType;
  dnnList : list string;
  profileParams : SubProfileParams;
  locationConstraints : list SubLocationConstraints;
  enabledUEList : list SubEnabledUEList
}.

Record SubSnssai := {
  snssai_sliceId : string;
  snssai_sliceType : SliceType;
  pduSessionIds : list string;
  default_slice : option bool
}.

Record SubSubscribers := {
  imsi : string;
  k : string;
  opc : string;
  snssai : list SubSnssai;
  authenticationMethod : option string;
  authenticationManagementField : option string
}.

Record SubConfig := {
  network_endpoints : NetworkEndPoints;
  plmn : string;
  sliceProfiles : option (list SubSliceProfiles);
  subscribers : list SubSubscribers
}.

Record SubSlices := { area_sliceType : SliceType; area_sliceId : string }.
Record SubAreaNetwork := {
  n3 : option string;
  n6 : option string;
  gnb : option string;
  external_router : option Router5GNetworkInfo
}.
Record SubAreaUPF := { upf_type : string; upf_external : option bool }.

Record SubArea := {
  area_id : Z;
  nci : string;
  idLength : Z;
  core : bool;
  upf : SubAreaUPF;
  networks : SubAreaNetwork;
  slices : option (list SubSlices)
}.

Record Create5gModel := {
  callbackURL : option string;
  config : SubConfig;
  areas : list SubArea
}.

(** [Core5GAddSliceModel] extends a slice profile, [Core5GAddTacModel] is an area,
    [Core5GAddSubscriberModel] a subscriber and [Core5GAddDnnModel] a data network. *)
Record Core5GAddSliceModel := { add_profile : SubSliceProfiles; area_ids : option (list string) }.

(** *** Updates of nested fields *)
Definition set_config (x : SubConfig) (m : Create5gModel) : Create5gModel :=
  {| callbackURL := callbackURL m; config := x; areas := areas m |}.
Definition set_areas (x : list SubArea) (m : Create5gModel) : Create5gModel :=
  {| callbackURL := callbackURL m; config := config m; areas := x |}.
Definition set_sliceProfiles (x : option (list SubSliceProfiles)) (m : Create5gModel) : Create5gModel :=
  set_config {| network_endpoints := network_endpoints (config m); plmn := plmn (config m);
                sliceProfiles := x; subscribers := subscribers (config m) |} m.
Definition set_subscribers (x : list SubSubscribers) (m : Create5gModel) : Create5gModel :=
  set_config {| network_endpoints := network_endpoints (config m); plmn := plmn (config m);
                sliceProfiles := sliceProfiles (config m); subscribers := x |} m.
Definition set_data_nets (x : list SubDataNets) (m : Create5gModel) : Create5gModel :=
  set_config {| network_endpoints := {| mgt := mgt (network_endpoints (config m));
                                        wan := wan (network_endpoints (config m)); data_nets := x |};
                plmn := plmn (config m); sliceProfiles := sliceProfiles (config m);
                subscribers := subscribers (config m) |} m.
Definition set_slices (x : option (list SubSlices)) (a : SubArea) : SubArea :=
  {| area_id := area_id a; nci := nci a; idLength := idLength a; core := core a; upf := upf a;
     networks := networks a; slices := x |}.

(** Iterating over, and appending to, an [Optional[List]]. *)
Definition py_iter {A} (o : option (list A)) : result (list A) :=
  match o with Some l => Ok l | None => Raise TypeError end.
Definition py_append {A} (x : A) (o : option (list A)) : result (option (list A)) :=
  match o with Some l => Ok (Some (l ++ [x])) | None => Raise AttributeError end.

(** ** Lookups *)
Definition get_area (id : Z) (m : Create5gModel) : option SubArea :=
  find (λ area, area_id area =? id) (areas m).

Definition get_slice_profile (slice_id : string) (m : Create5gModel) : result (option SubSliceProfiles) :=
  l ← py_iter (sliceProfiles (config m));
  Ok (find (λ slice, String.eqb (sliceId slice) slice_id) l).

Definition get_slices_profiles_for_area (id : Z) (m : Create5gModel) :
  result (list (option SubSliceProfiles)) :=
  ls ← map_result (λ area,
         if area_id area =? id
         then slices ← py_iter (slices area);
              map_result (λ slice, get_slice_profile (area_sliceId slice) m) slices
         else Ok []) (areas m);
  Ok (concat ls).

(** ** Slice types and network slice identifiers *)
Definition sstType : list (SliceType * Z) := [(EMBB, 1); (URLLC, 2); (MMTC, 3)].

Definition to_string (value : Z) : option SliceType :=
  fst <$> find (λ kv, snd kv =? value) sstType.
Definition to_int (value : SliceType) : option Z :=
  snd <$> find (λ kv : SliceType * Z, bool_decide (kv.1 = value)) sstType.

(** The pattern of [sliceId]: six hexadecimal digits, put in upper case. *)
Definition is_hex (c : ascii) : bool :=
  let n := Ascii.nat_of_ascii c in
  (48 <=? n)%nat && (n <=? 57)%nat || (65 <=? n)%nat && (n <=? 70)%nat || (97 <=? n)%nat && (n <=? 102)%nat.

Definition ascii_upper (c : ascii) : ascii :=
  let n := Ascii.nat_of_ascii c in
  if (97 <=? n)%nat && (n <=? 122)%nat then Ascii.ascii_of_nat (n - 32) else c.

Definition validate_sliceId (s : string) : result string :=
  if all_chars is_hex s && (String.length s =? 6)%nat
  then Ok (string_map ascii_upper s) else Raise ValidationError.

Definition is_digit (c : ascii) : bool := match digit_of c with Some _ => true | None => false end.

(** [SubSubscribers]: 15 digits, and two keys of 32 hexadecimal digits. *)
Definition validate_subscriber (s : SubSubscribers) : result SubSubscribers :=
  if all_chars is_digit (imsi s) && (String.length (imsi s) =? 15)%nat &&
     all_chars is_hex (k s) && (String.length (k s) =? 32)%nat &&
     all_chars is_hex (opc s) && (String.length (opc s) =? 32)%nat
  then Ok s else Raise ValidationError.

(** [SubSlices.model_validate]; [sliceType] is [None] for an unknown number. *)
Definition validate_slice (t : option SliceType) (id : string) : result SubSlices :=
  match t with
  | Some t => id ← validate_sliceId id; Ok {| area_sliceType := t; area_sliceId := id |}
  | None => Raise ValidationError
  end.

Definition toNssi (fromSlice : SubSlices) : option Z * string :=
  (to_int (area_sliceType fromSlice), area_sliceId fromSlice).
Definition toSlice (fromNssi : Z * string) : result SubSlices :=
  validate_slice (to_string fromNssi.1) fromNssi.2.

(** ** UPFs *)
Record BlueCreateModelNetworks := { mgt_net : string; n4_net : string; n3_net : string; n6_net : string }.
Record DnnModel := { dnn_name : option string; dnn_cidr : option string }.
Record SliceModel := { slice_id : string; slice_type : SliceType; dnn_list : list DnnModel }.

Record UPFBlueCreateModel := {
  upf_area_id : Z;
  upf_networks : BlueCreateModelNetworks;
  nrf_ip : option Z;
  upf_slices : list SliceModel;
  upf_start : option bool;
  n3_gateway_ip : Z;
  n6_gateway_ip : Z;
  upf_gnb_cidr : IPv4Network
}.

#[export] Instance UPFBlueCreateModel_eq_dec : EqDecision UPFBlueCreateModel.
Proof.
  assert (EqDecision BlueCreateModelNetworks) by solve_decision.
  assert (EqDecision DnnModel) by solve_decision.
  assert (EqDecision SliceModel) by solve_decision.
  solve_decision.
Defined.

Definition from_slice_profile (slice_profile : option SubSliceProfiles) (all_dnns : list SubDataNets) :
  result SliceModel :=
  match slice_profile with
  | None => Raise AttributeError
  | Some p =>
      l ← map_result (λ d,
            if py_in String.eqb (dnn d) (dnnList p)
            then pool ← py_getitem (pools d) 0;
                 Ok [{| dnn_name := Some (dnn d); dnn_cidr := Some (pool_cidr pool) |}]
            else Ok []) all_dnns;
      Ok {| slice_id := sliceId p; slice_type := sliceType p; dnn_list := concat l |}
  end.

Record UPFNetworkInfo := {
  n4_cidr : IPv4Network; n3_cidr : IPv4Network; n6_cidr : IPv4Network;
  upf_n4_ip : Z; upf_n3_ip : Z; upf_n6_ip : Z
}.

Record DeployedUPFInfo := {
  deployed_area : Z;
  served_slices : list SliceModel;
  network_info : option UPFNetworkInfo;
  vm_resource_id : string;
  vm_configurator_id : string
}.

Definition served_dnns (d : DeployedUPFInfo) : list (option string) :=
  concat ((λ served_slice, dnn_name <$> dnn_list served_slice) <$> served_slices d).

(** ** GNBs *)
Record Route := { network_cidr : string; next_hop : string; device : option string }.

Definition as_linux_replace_command (r : Route) : string :=
  let command := "ip r replace " +:+ network_cidr r +:+ " via " +:+ next_hop r in
  if str_true (device r) then command +:+ " dev " +:+ default EmptyString (device r) else command.

Record GNBPDUSlice := { sst : Z; sd : Z }.
Record GNBPDUConfigure := {
  gnb_area : Z;
  gnb_plmn : string;
  tac : Z;
  amf_ip : string;
  upf_ip : string;
  amf_port : Z;
  nssai : list GNBPDUSlice;
  additional_routes : list Route
}.

(** [network.exploded]. *)
Definition net_exploded (n : IPv4Network) : string :=
  exploded (network_address n) +:+ "/" +:+ pretty (prefixlen n).

(** ** Numbers as text *)

(** [int(s)] on ASCII: spaces around, a sign, digits with single underscores between them.

    The digits after the first one, or after an underscore when [under]. *)
Fixpoint int_digits (s : string) (acc : Z) (under : bool) : option Z :=
  match s with
  | EmptyString => if under then None else Some acc
  | String c s' =>
      match digit_of c with
      | Some d => int_digits s' (10 * acc + d) false
      | None => if Ascii.eqb c "_" && negb under then int_digits s' acc true else None
      end
  end.

Definition py_int (s : string) : result Z :=
  let unsigned s := match int_digits s 0 true with Some v => Ok v | None => Raise ValueError end in
  match rstrip (lstrip s) with
  | String "-" s' => v ← unsigned s'; Ok (- v)
  | String "+" s' => unsigned s'
  | s' => unsigned s'
  end.

(** Validation of six hexadecimal digits as an integer field: like [int], any failure a
    [ValidationError]. *)
Definition validate_int (s : string) : result Z :=
  match py_int s with Ok v => Ok v | Raise _ => Raise ValidationError end.

(** [s.rjust(n, "0")]. *)
Definition rjust0 (n : nat) (s : string) : string :=
  Nat.iter (n - String.length s) (String "0") s.

(** ** Reading numbers back *)
Lemma digit_char_of_N x : (x < 10)%N → digit_of (pretty_N_char x) = Some (Z.of_N x).
Proof.
  intros Hx. assert (Hall : forallb (λ i, bool_decide (digit_of (pretty_N_char (N.of_nat i)) = Some (Z.of_nat i)))
    (seq 0 10) = true) by (vm_compute; reflexivity).
  rewrite forallb_forall in Hall. specialize (Hall (N.to_nat x)).
  rewrite bool_decide_eq_true, N2Nat.id, N_nat_Z in Hall. apply Hall.
  apply in_seq. lia.
Qed.

Lemma pretty_N_go_spec x s :
  (0 < x)%N →
  (all_chars is_digit s = true → all_chars is_digit (pretty_N_go x s) = true) ∧
  digits_value (pretty_N_go x s) 0 = digits_value s (Z.of_N x).
Proof.
  revert s. induction (N.lt_wf_0 x) as [x _ IH]. intros s Hx. rewrite pretty_N_go_step by done.
  assert (Hmod : digit_of (pretty_N_char (x `mod` 10)) = Some (Z.of_N (x `mod` 10))).
  { apply digit_char_of_N, N.mod_lt. done. }
  assert (Hdm : Z.of_N x = 10 * Z.of_N (x `div` 10) + Z.of_N (x `mod` 10)).
  { rewrite N2Z.inj_div, N2Z.inj_mod. apply Z.div_mod. done. }
  destruct (decide (x `div` 10 = 0)%N) as [H0|H0].
  - rewrite H0, pretty_N_go_0. simpl. unfold is_digit. rewrite Hmod. split; [done|].
    f_equal. rewrite Hdm, H0. lia.
  - destruct (IH (x `div` 10)%N (N.div_lt x 10 Hx ltac:(done)) (String (pretty_N_char (x `mod` 10)) s))
      as [H1 H2]; [by apply N.neq_0_lt_0|].
    simpl in H1, H2. unfold is_digit in H1. rewrite Hmod in H1, H2. split; [done|].
    rewrite H2. f_equal. rewrite Hdm. lia.
Qed.

Lemma pretty_N_digits x :
  all_chars is_digit (pretty x) = true ∧ digits_value (pretty x) 0 = Some (Z.of_N x) ∧ pretty x ≠ EmptyString.
Proof.
  unfold pretty, pretty_N. destruct (decide (x = 0)%N) as [->|Hx]; [done|].
  destruct (pretty_N_go_spec x EmptyString) as [H1 H2]; [lia|]. split; [by apply H1|]. split; [done|].
  intros E. rewrite E in H2. simpl in H2. injection H2 as H2. lia.
Qed.

Lemma digit_not_space c : is_digit c = true → is_space c = false.
Proof.
  unfold is_digit, digit_of, is_space. destruct (_ && _) eqn:E; [|done]. intros _.
  apply andb_true_iff in E as [H1%Nat.leb_le H2%Nat.leb_le].
  apply orb_false_iff. split; apply andb_false_iff; rewrite !Nat.leb_gt; lia.
Qed.

Lemma strip_digits s : all_chars is_digit s = true → rstrip (lstrip s) = s.
Proof.
  intros Hs. assert (Hl : lstrip s = s).
  { destruct s as [|c s]; [done|]. simpl in *. apply andb_true_iff in Hs as [Hc _].
    by rewrite (digit_not_space _ Hc). }
  rewrite Hl. clear Hl. induction s as [|c s IH]; [done|]. simpl in *.
  apply andb_true_iff in Hs as [Hc Hs]. rewrite (IH Hs), (digit_not_space _ Hc). by destruct s.
Qed.

Lemma int_digits_value s acc :
  all_chars is_digit s = true → int_digits s acc false = digits_value s acc.
Proof.
  revert acc. induction s as [|c s IH]; intros acc Hs; [done|]. simpl in *.
  apply andb_true_iff in Hs as [Hc Hs]. unfold is_digit in Hc.
  destruct (digit_of c); [by apply IH|done].
Qed.

Lemma unsigned_value s :
  all_chars is_digit s = true → s ≠ EmptyString → int_digits s 0 true = digits_value s 0.
Proof.
  destruct s as [|c s]; [done|]. simpl. intros [Hc Hs]%andb_true_iff _. unfold is_digit in Hc.
  destruct (digit_of c); [by apply int_digits_value|done].
Qed.

Lemma py_int_digits s v :
  all_chars is_digit s = true → s ≠ EmptyString → digits_value s 0 = Some v → py_int s = Ok v.
Proof.
  intros Hs Hne Hv. unfold py_int. rewrite (strip_digits s Hs).
  assert (Hu : match int_digits s 0 true with Some v => Ok v | None => Raise ValueError end = Ok v)
    by by rewrite (unsigned_value s Hs Hne), Hv.
  destruct s as [|c s']; [done|]. simpl in Hs. apply andb_true_iff in Hs as [Hc _].
  assert (c ≠ "-"%char ∧ c ≠ "+"%char) as [H1 H2] by (split; intros ->; vm_compute in Hc; done).
  destruct c as [[] [] [] [] [] [] [] []]; try exact Hu; try (by destruct H1); by destruct H2.
Qed.

(** The keys of the areas: [int(str(a))] is [a]. *)
Lemma py_int_pretty (a : Z) : py_int (pretty a) = Ok a.
Proof.
  destruct a as [|p|p].
  - done.
  - destruct (pretty_N_digits (Npos p)) as (H1 & H2 & H3). by apply (py_int_digits (pretty (Npos p))).
  - destruct (pretty_N_digits (Npos p)) as (H1 & H2 & H3).
    change (pretty (Z.neg p)) with (String "-" (pretty (Npos p))). unfold py_int.
    assert (Hs : rstrip (lstrip (String "-" (pretty (Npos p)))) = String "-" (pretty (Npos p))).
    { cbn [lstrip]. change (is_space "-") with false. cbn [rstrip].
      assert (Hr : rstrip (pretty (Npos p)) = pretty (Npos p)).
      { pose proof (strip_digits _ H1) as Hst. destruct (pretty (Npos p)) as [|c s] eqn:E; [done|].
        simpl in H1. apply andb_true_iff in H1 as [Hc _]. cbn [lstrip] in Hst.
        by rewrite (digit_not_space c Hc) in Hst. }
      rewrite Hr. by destruct (pretty (Npos p)). }
    rewrite Hs. rewrite (unsigned_value _ H1 H3), H2. done.
Qed.

(** *** Slice identifiers made of decimal digits *)
Lemma digit_of_bound c d : digit_of c = Some d → 0 ≤ d < 10.
Proof.
  unfold digit_of. destruct (_ && _) eqn:E; [|done]. intros [= <-].
  apply andb_true_iff in E as [H1%Nat.leb_le H2%Nat.leb_le]. lia.
Qed.

Lemma digit_of_inj c c' d : digit_of c = Some d → digit_of c' = Some d → c = c'.
Proof.
  unfold digit_of. destruct ((48 <=? _)%nat && _) eqn:E; [|done]. intros [= <-].
  destruct ((48 <=? Ascii.nat_of_ascii c')%nat && _) eqn:E'; [|done]. intros [= Heq].
  apply andb_true_iff in E as [H1%Nat.leb_le _], E' as [H2%Nat.leb_le _].
  rewrite <-(Ascii.ascii_nat_embedding c), <-(Ascii.ascii_nat_embedding c'). f_equal. lia.
Qed.

Lemma digits_value_split s a :
  all_chars is_digit s = true →
  ∃ v, digits_value s a = Some (a * 10 ^ Z.of_nat (String.length s) + v) ∧
       0 ≤ v < 10 ^ Z.of_nat (String.length s).
Proof.
  revert a. induction s as [|c s IH]; intros a Hs; simpl in *.
  { exists 0. split; [f_equal; lia|lia]. }
  apply andb_true_iff in Hs as [Hc Hs]. unfold is_digit in Hc.
  destruct (digit_of c) as [d|] eqn:Ed; [|done]. pose proof (digit_of_bound c d Ed) as Hd.
  destruct (IH (10 * a + d) Hs) as (v & -> & Hv).
  rewrite Nat2Z.inj_succ, Z.pow_succ_r by lia.
  exists (d * 10 ^ Z.of_nat (String.length s) + v). split; [f_equal; lia|]. nia.
Qed.

Lemma digits_value_inj s t a v :
  String.length s = String.length t → all_chars is_digit s = true → all_chars is_digit t = true →
  digits_value s a = Some v → digits_value t a = Some v → s = t.
Proof.
  revert t a. induction s as [|c s IH]; intros [|c' t] a Hl Hs Ht Ev Ev'; try done. simpl in *.
  apply andb_true_iff in Hs as [Hc Hs], Ht as [Hc' Ht]. unfold is_digit in Hc, Hc'.
  destruct (digit_of c) as [d|] eqn:Ed; [|done]. destruct (digit_of c') as [d'|] eqn:Ed'; [|done].
  injection Hl as Hl. assert (Hdd : d = d').
  { destruct (digits_value_split s (10 * a + d) Hs) as (w & Hw & Hb).
    destruct (digits_value_split t (10 * a + d') Ht) as (w' & Hw' & Hb').
    rewrite Hw in Ev. rewrite Hw' in Ev'. rewrite Hl in Ev, Hb. injection Ev as Ev. injection Ev' as Ev'.
    set (p := 10 ^ Z.of_nat (String.length t)) in *. nia. }
  subst d'. rewrite (digit_of_inj c c' d Ed Ed'). f_equal. by eapply IH.
Qed.

Lemma rjust0_spec n s :
  all_chars is_digit s = true → (String.length s ≤ n)%nat →
  all_chars is_digit (rjust0 n s) = true ∧ String.length (rjust0 n s) = n ∧
  digits_value (rjust0 n s) 0 = digits_value s 0.
Proof.
  unfold rjust0. intros Hs Hl. assert (H : ∀ i,
    all_chars is_digit (Nat.iter i (String "0") s) = true ∧
    String.length (Nat.iter i (String "0") s) = (i + String.length s)%nat ∧
    digits_value (Nat.iter i (String "0") s) 0 = digits_value s 0).
  { induction i as [|i (H1 & H2 & H3)]; [done|]. simpl. split; [done|]. split; [by rewrite H2|done]. }
  destruct (H (n - String.length s)%nat) as (H1 & H2 & H3). split; [done|]. split; [lia|done].
Qed.

Lemma pretty_length x n : (x < 10 ^ N.of_nat n)%N → (0 < n)%nat → (String.length (pretty x) ≤ n)%nat.
Proof.
  assert (Hgo : ∀ n x s, (x < 10 ^ N.of_nat n)%N →
    (String.length (pretty_N_go x s) ≤ n + String.length s)%nat).
  { clear. induction n as [|n IH]; intros x s Hx.
    - assert (x = 0)%N as -> by (simpl in Hx; lia). by rewrite pretty_N_go_0.
    - destruct (decide (0 < x)%N) as [Hp|Hp]; [|assert (x = 0)%N as -> by lia; rewrite pretty_N_go_0; lia].
      rewrite pretty_N_go_step by done. etrans; [apply IH|simpl; lia].
      apply N.Div0.div_lt_upper_bound. by rewrite Nat2N.inj_succ, N.pow_succ_r' in Hx. }
  intros Hx Hn. unfold pretty, pretty_N. destruct (decide (x = 0)%N); [simpl; lia|].
  specialize (Hgo n x EmptyString Hx). simpl in Hgo. lia.
Qed.

(** A slice identifier goes through an integer field of the GNB's configuration and is looked up
    again as text: decimal digits come back, anything else is refused. *)
Lemma decimal_id_roundtrip s :
  String.length s = 6%nat → all_chars is_digit s = true →
  ∃ v, validate_int s = Ok v ∧ rjust0 6 (pretty v) = s.
Proof.
  intros Hl Hs. assert (Hne : s ≠ EmptyString) by by destruct s.
  destruct (digits_value_split s 0 Hs) as (v & Hv & Hb). rewrite Hl in Hv, Hb. simpl in Hv.
  exists v. unfold validate_int. rewrite (py_int_digits s v Hs Hne Hv). split; [done|].
  assert (Hz : pretty v = pretty (Z.to_N v)).
  { destruct v as [|p|p]; [done|done|lia]. }
  rewrite Hz. destruct (pretty_N_digits (Z.to_N v)) as (H1 & H2 & _).
  assert (Hlen : (String.length (pretty (Z.to_N v)) ≤ 6)%nat).
  { apply pretty_length; [|lia]. change (10 ^ N.of_nat 6)%N with 1000000%N.
    change (10 ^ Z.of_nat 6) with 1000000 in Hb. lia. }
  destruct (rjust0_spec 6 _ H1 Hlen) as (H3 & H4 & H5).
  eapply (digits_value_inj _ _ 0 v); [congruence|done|done| |done].
  rewrite H5, H2. f_equal. lia.
Qed.

Lemma int_digits_letters s acc b :
  all_chars is_hex s = true → all_chars is_digit s = false → int_digits s acc b = None.
Proof.
  revert acc b. induction s as [|c s IH]; intros acc b Hs Hd; [done|]. simpl in *.
  apply andb_true_iff in Hs as [Hc Hs]. unfold is_digit in Hd.
  destruct (digit_of c) as [d|]; [by apply IH|].
  destruct (Ascii.eqb_spec c "_") as [->|]; [done|done].
Qed.

Lemma letters_refused s :
  all_chars is_hex s = true → all_chars is_digit s = false → validate_int s = Raise ValidationError.
Proof.
  intros Hs Hd. unfold validate_int, py_int.
  assert (Hst : rstrip (lstrip s) = s).
  { assert (Hsp : ∀ c, is_hex c = true → is_space c = false).
    { intros c. unfold is_hex, is_space. rewrite !orb_true_iff, !andb_true_iff, !Nat.leb_le.
      intros Hc. apply orb_false_iff. split; apply andb_false_iff; rewrite !Nat.leb_gt; lia. }
    assert (Hl : lstrip s = s).
    { destruct s as [|c s]; [done|]. simpl in *. apply andb_true_iff in Hs as [Hc _].
      by rewrite (Hsp _ Hc). }
    rewrite Hl. clear Hl Hd. induction s as [|c s IH]; [done|]. simpl in *.
    apply andb_true_iff in Hs as [Hc Hs]. rewrite (IH Hs), (Hsp _ Hc). by destruct s. }
  rewrite Hst. assert (Hu : match int_digits s 0 true with Some v => Ok v | None => Raise ValueError end = Raise ValueError)
    by by rewrite int_digits_letters.
  destruct s as [|c s']; [done|]. simpl in Hs. apply andb_true_iff in Hs as [Hc _].
  assert (c ≠ "-"%char ∧ c ≠ "+"%char) as [H1 H2] by (split; intros ->; vm_compute in Hc; done).
  destruct c as [[] [] [] [] [] [] [] []]; try (rewrite Hu; reflexivity); try (by destruct H1);
    by destruct H2.
Qed.
