(* ===== verification/Generic5G.v ===== *)
(** * The generic 5G blueprint

    blueprints_ng/modules/generic_5g/generic_5g.py: the state machine every 5G core of the
    repository shares.  It deploys a router and a UPF in each area of the configuration, attaches
    the GNBs of the areas, and changes subscribers, data networks, slices and areas day by day,
    restoring the configuration when an update fails.

    The other blueprints it creates and calls, the PDUs and the core itself are interfaces. *)

From stdpp Require Import base list strings gmap pretty.
From Stdlib Require Import ZArith Lia Ascii.
From S2P Require Import Prelude Ipam IPv4Text NetworkModels Core5GModels.

Open Scope Z_scope.

(** ** State *)
Record UPFInfo := {
  upf_blue_id : string;
  upf_is_external : bool;
  router_gnb_ip : Z;
  upf_list : list DeployedUPFInfo;
  upf_current_config : UPFBlueCreateModel
}.
Record Router5GInfo := {
  router_blue_id : option string;
  router_external : bool;
  router_network : Router5GNetworkInfo
}.
Record RANAreaInfo := { ran_area : Z; ran_pdu_name : string }.
Record EdgeAreaInfo := {
  edge_area : Z;
  edge_upf : option UPFInfo;
  edge_router : option Router5GInfo
}.

Record Generic5GBlueprintNGState := {
  current_config : option Create5gModel;
  edge_areas : list (string * EdgeAreaInfo);
  ran_areas : list (string * RANAreaInfo);
  core_deployed : bool
}.

(** The blueprint: its state, the identifiers of its children, and the rest of the world. *)
Record Blue5G (X : Type) := {
  st : Generic5GBlueprintNGState;
  children : list string;
  ext : X
}.
Arguments st {_} _.
Arguments children {_} _.
Arguments ext {_} _.

Record Router5GCreateModelNetworks := {
  r_mgt : string; r_gnb : string; r_core : string; r_n3 : string; r_n6 : string
}.
Record Router5GCreateModel := {
  r_area_id : Z;
  r_networks : Router5GCreateModelNetworks;
  r_additional_routes : list Route
}.

(** ** What the blueprint calls

    [call_blueprint_function] does not raise when the function fails: its [result] is then [None],
    and calls whose result is not looked at simply return. *)
Class Surroundings (X : Type) := {
  create_router : Router5GCreateModel → M X string;
  create_upf : UPFBlueCreateModel → string → M X string;
  delete_blueprint : string → M X unit;
  call_router_info : string → M X (option Router5GNetworkInfo);
  call_add_routes : string → list Route → M X unit;
  call_upf_update : string → UPFBlueCreateModel → M X unit;
  call_upfs_info : string → M X (option (list DeployedUPFInfo));
  find_gnb : Z → M X PduModel;
  is_pdu_locked_by_current_blueprint : PduModel → bool;
  lock_pdu : PduModel → M X unit;
  unlock_pdu : PduModel → M X unit;
  find_by_name : string → M X PduModel;
  get_pdu_configurator : PduModel → M X unit;
  configure : PduModel → GNBPDUConfigure → M X unit;
  set_order : list string → list string                  (* in which a set is iterated *)
}.

(** The abstract methods of the class. *)
Class Core5G (X : Type) := {
  create_5g : Create5gModel → M (Blue5G X) unit;
  update_core : M (Blue5G X) unit;
  wait_core_ready : M (Blue5G X) unit;
  get_amf_ip : M (Blue5G X) string;
  get_nrf_ip : M (Blue5G X) string
}.

(** What follows a change of the configuration: methods a core can replace, each called after the generic code has
    checked and made the change. *)
Class Day2Methods (X : Type) := {
  add_ues : SubSubscribers → M (Blue5G X) unit;
  del_ues : string → M (Blue5G X) unit;
  add_dnn : SubDataNets → M (Blue5G X) unit;
  del_dnn : string → M (Blue5G X) unit;
  add_slice : Core5GAddSliceModel → bool → M (Blue5G X) unit;
  del_slice : string → M (Blue5G X) unit;
  add_tac : SubArea → M (Blue5G X) unit;
  del_tac : Z → M (Blue5G X) unit
}.

Definition area_key (id : Z) : string := pretty id.

Section generic.
Context {X : Type} `{!Surroundings X} `{!Core5G X}.
#[local] Notation B := (M (Blue5G X)).

Definition set_st (s : Generic5GBlueprintNGState) (b : Blue5G X) : Blue5G X :=
  {| st := s; children := children b; ext := ext b |}.
Definition set_children (l : list string) (b : Blue5G X) : Blue5G X :=
  {| st := st b; children := l; ext := ext b |}.
Definition set_ext (x : X) (b : Blue5G X) : Blue5G X :=
  {| st := st b; children := children b; ext := x |}.
Definition set_current_config (c : option Create5gModel) (s : Generic5GBlueprintNGState) :=
  {| current_config := c; edge_areas := edge_areas s; ran_areas := ran_areas s;
     core_deployed := core_deployed s |}.
Definition set_edge_areas (l : list (string * EdgeAreaInfo)) (s : Generic5GBlueprintNGState) :=
  {| current_config := current_config s; edge_areas := l; ran_areas := ran_areas s;
     core_deployed := core_deployed s |}.
Definition set_ran_areas (l : list (string * RANAreaInfo)) (s : Generic5GBlueprintNGState) :=
  {| current_config := current_config s; edge_areas := edge_areas s; ran_areas := l;
     core_deployed := core_deployed s |}.

Definition get_st : B Generic5GBlueprintNGState := b ← getS; mret (st b).
Definition update_st (f : Generic5GBlueprintNGState → Generic5GBlueprintNGState) : B unit :=
  modifyS (λ b, set_st (f (st b)) b).
(** A call of another blueprint, or of the PDU provider. *)
Definition on_ext {A} (m : M X A) : B A := zoom ext set_ext m.

(** [self.state.current_config], when an attribute of it is read. *)
Definition get_config : B Create5gModel :=
  s ← get_st;
  match current_config s with Some c => mret c | None => raise AttributeError end.
Definition put_config (c : Create5gModel) : B unit := update_st (set_current_config (Some c)).

Definition get_edge (key : string) : B EdgeAreaInfo := s ← get_st; liftR (od_getitem key (edge_areas s)).
Definition put_edge (key : string) (e : EdgeAreaInfo) : B unit :=
  update_st (λ s, set_edge_areas (od_set key e (edge_areas s)) s).

(** An attribute of an [Optional]. *)
Definition attr {A} (o : option A) : B A :=
  match o with Some a => mret a | None => raise AttributeError end.
(** A value for a field that may not be [None]. *)
Definition field {A} (o : option A) : B A :=
  match o with Some a => mret a | None => raise ValidationError end.

Definition register_children (blue_id : string) : B unit :=
  b ← getS;
  if py_in String.eqb blue_id (children b) then raise BlueprintNGException
  else putS (set_children (children b ++ [blue_id]) b).
Definition deregister_children (blue_id : string) : B unit :=
  b ← getS;
  if py_in String.eqb blue_id (children b)
  then l ← liftR (py_remove String.eqb blue_id (children b)); putS (set_children l b)
  else raise BlueprintNGException.

(** ** Checks *)
Definition configuration_feasibility_check (config_model : Create5gModel) : B unit :=
  l ← liftR (py_iter (sliceProfiles (config config_model)));
  let ddns := concat (dnnList <$> l) in
  if (length (remove_dups ddns) <? length ddns)%nat then raise BlueprintNGException else mret tt.

(** ** Edge areas *)
Definition deploy_router_blueprint (id : Z) : B Router5GInfo :=
  c ← get_config;
  area ← attr (get_area id c);
  mgt ← field (mgt (network_endpoints (config c)));
  gnb ← field (gnb (networks area));
  core ← field (wan (network_endpoints (config c)));
  n3 ← field (n3 (networks area));
  n6 ← field (n6 (networks area));
  router_id ← on_ext (create_router {| r_area_id := area_id area;
    r_networks := {| r_mgt := mgt; r_gnb := gnb; r_core := core; r_n3 := n3; r_n6 := n6 |};
    r_additional_routes := [] |});
  register_children router_id ;;
  router_info ← on_ext (call_router_info router_id);
  network ← field router_info;
  mret {| router_external := false; router_blue_id := Some router_id; router_network := network |}.

Definition undeploy_router_blueprint (id : Z) : B unit :=
  get_config ;;
  edge_area ← get_edge (area_key id);
  router ← attr (edge_router edge_area);
  match router_blue_id router with
  | Some blue_id => on_ext (delete_blueprint blue_id) ;; deregister_children blue_id
  | None => raise BlueprintNotFoundException
  end.

(** For an external router the code only logs the route. *)
Definition add_route_to_router (id : Z) (cidr : option string) (nexthop : string) : B unit :=
  edge_area ← get_edge (area_key id);
  router_info ← attr (edge_router edge_area);
  if router_external router_info then mret tt
  else
    cidr ← field cidr;
    match router_blue_id router_info with
    | Some blue_id =>
        on_ext (call_add_routes blue_id [{| network_cidr := cidr; next_hop := nexthop; device := None |}])
    | None => raise BlueprintNotFoundException
    end.

Definition _create_upf_config (id : Z) : B UPFBlueCreateModel :=
  c ← get_config;
  profiles ← liftR (get_slices_profiles_for_area id c);
  slices ← liftR (map_result (λ p, from_slice_profile p (data_nets (network_endpoints (config c)))) profiles);
  area ← attr (get_area id c);
  mgt ← field (mgt (network_endpoints (config c)));
  n4 ← field (wan (network_endpoints (config c)));
  n3 ← field (n3 (networks area));
  n6 ← field (n6 (networks area));
  edge_area ← get_edge (area_key id);
  router ← attr (edge_router edge_area);
  s ← get_st;
  nrf ← (if core_deployed s then ip ← get_nrf_ip; ip ← liftR (IPv4Address_str ip); mret (Some ip)
         else mret None);
  mret {| upf_area_id := id;
          upf_networks := {| mgt_net := mgt; n4_net := n4; n3_net := n3; n6_net := n6 |};
          nrf_ip := nrf; upf_slices := slices; upf_start := Some true;
          n3_gateway_ip := n3_ip (router_network router);
          n6_gateway_ip := n6_ip (router_network router);
          upf_gnb_cidr := gnb_cidr (router_network router) |}.

Definition get_upfs_info (id : Z) (upf_id : string) (cfg : UPFBlueCreateModel) : B UPFInfo :=
  upf_deployed_info ← on_ext (call_upfs_info upf_id);
  edge_area ← get_edge (area_key id);
  router ← attr (edge_router edge_area);
  l ← field upf_deployed_info;
  mret {| upf_blue_id := upf_id; router_gnb_ip := gnb_ip (router_network router);
          upf_is_external := false; upf_list := l; upf_current_config := cfg |}.

Definition deploy_upf_blueprint (id : Z) (upf_type : string) : B UPFInfo :=
  upf_create_model ← _create_upf_config id;
  upf_id ← on_ext (create_upf upf_create_model upf_type);
  register_children upf_id ;;
  get_upfs_info id upf_id upf_create_model.

Definition undeploy_upf_blueprint (id : Z) : B unit :=
  edge_area ← get_edge (area_key id);
  upf ← attr (edge_upf edge_area);
  on_ext (delete_blueprint (upf_blue_id upf)) ;;
  deregister_children (upf_blue_id upf).

Definition set_upf (u : UPFInfo) (e : EdgeAreaInfo) : EdgeAreaInfo :=
  {| edge_area := edge_area e; edge_upf := Some u; edge_router := edge_router e |}.
Definition set_router (r : Router5GInfo) (e : EdgeAreaInfo) : EdgeAreaInfo :=
  {| edge_area := edge_area e; edge_upf := edge_upf e; edge_router := Some r |}.

(** A new area: its entry is in the state before anything is deployed. *)
Definition deploy_edge_area (area : SubArea) : B unit :=
  let id := area_id area in
  put_edge (area_key id) {| edge_area := id; edge_upf := None; edge_router := None |} ;;
  router_info ← (match external_router (networks area) with
                 | None => deploy_router_blueprint id
                 | Some network => mret {| router_external := true; router_blue_id := None;
                                           router_network := network |}
                 end);
  e ← get_edge (area_key id);
  put_edge (area_key id) (set_router router_info e) ;;
  upf_info ← deploy_upf_blueprint id (upf_type (upf area));
  e ← get_edge (area_key id);
  put_edge (area_key id) (set_upf upf_info e).

(** A deployed area whose UPF may need a new configuration. *)
Definition refresh_edge_area (area : SubArea) : B unit :=
  let id := area_id area in
  edge_info ← get_edge (area_key id);
  updated_config ← _create_upf_config id;
  upf ← attr (edge_upf edge_info);
  if decide (upf_current_config upf = updated_config) then mret tt
  else
    on_ext (call_upf_update (upf_blue_id upf) updated_config) ;;
    info ← get_upfs_info id (upf_blue_id upf) updated_config;
    e ← get_edge (area_key id);
    put_edge (area_key id) (set_upf info e).

(** The routes to the data networks of the area, through its UPFs. *)
Definition route_edge_area (area : SubArea) : B unit :=
  let id := area_id area in
  e ← get_edge (area_key id);
  upf ← attr (edge_upf e);
  for_each (upf_list upf) (λ deployed_upf,
    for_each (served_slices deployed_upf) (λ slice,
      for_each (dnn_list slice) (λ dnn,
        info ← attr (network_info deployed_upf);
        add_route_to_router id (dnn_cidr dnn) (exploded (upf_n6_ip info))))).

Definition update_edge_area (area : SubArea) : B unit :=
  s ← get_st;
  (if od_in (area_key (area_id area)) (edge_areas s)
   then refresh_edge_area area else deploy_edge_area area) ;;
  route_edge_area area.

Definition delete_edge_area (edge_area_id : string) : B unit :=
  edge_area_info ← get_edge edge_area_id;
  router ← attr (edge_router edge_area_info);
  (if router_external router then mret tt
   else id ← liftR (py_int edge_area_id); undeploy_router_blueprint id) ;;
  id ← liftR (py_int edge_area_id);
  undeploy_upf_blueprint id ;;
  update_st (λ s, set_edge_areas (od_pop edge_area_id (edge_areas s)) s).

(** [set(keys) - set(map(str, ids))]. *)
Definition areas_to_delete (deployed : list string) (l : list SubArea) : list string :=
  set_order (List.filter (λ key, negb (py_in String.eqb key ((λ x, area_key (area_id x)) <$> l))) deployed).

Definition update_edge_areas : B unit :=
  c ← get_config;
  for_each (areas c) update_edge_area ;;
  c ← get_config;
  s ← get_st;
  for_each (areas_to_delete (od_keys (edge_areas s)) (areas c)) delete_edge_area.

(** The UPFs that serve a slice. *)
Definition serves (slice : string) (d : DeployedUPFInfo) : bool :=
  existsb (λ x, String.eqb (slice_id x) (rjust0 6 slice)) (served_slices d).

Definition get_upfs_for_slice (slice : string) : B (list DeployedUPFInfo) :=
  s ← get_st;
  ls ← liftR (map_result (λ edge_area : EdgeAreaInfo,
         match edge_upf edge_area with
         | Some upf => Ok (List.filter (serves slice) (upf_list upf))
         | None => Raise AttributeError
         end) (od_values (edge_areas s)));
  mret (concat ls).

(** ** RAN areas *)
Fixpoint lock_gnbs (ids : list Z) : B (list PduModel) :=
  match ids with
  | [] => mret []
  | area :: ids' =>
      pdu_model ← on_ext (find_gnb area);
      (if is_pdu_locked_by_current_blueprint pdu_model then mret tt
       else on_ext (lock_pdu pdu_model)) ;;
      l ← lock_gnbs ids';
      mret (pdu_model :: l)
  end.

Definition get_gnb_pdus : B (list PduModel) := c ← get_config; lock_gnbs (area_id <$> areas c).

Definition _additional_routes_for_gnb (area : string) : B (list Route) :=
  e ← get_edge area;
  upf ← attr (edge_upf e);
  first ← liftR (py_getitem (upf_list upf) 0);
  info ← attr (network_info first);
  mret [{| network_cidr := net_exploded (n3_cidr info); next_hop := exploded (router_gnb_ip upf);
           device := None |}].

(** [GNBPDUSlice(sd=slice.sliceId, sst=...)]: the identifier must be a decimal number. *)
Definition gnb_slice (slice : SubSlices) : result GNBPDUSlice :=
  sd ← validate_int (area_sliceId slice);
  match to_int (area_sliceType slice) with
  | Some sst => Ok {| sst := sst; sd := sd |}
  | None => Raise ValidationError
  end.

Definition gnb_configuration (pdu : PduModel) : B GNBPDUConfigure :=
  c ← get_config;
  area ← liftR (py_getitem (List.filter (λ x, area_id x =? pdu_area pdu) (areas c)) 0);
  area_slices ← liftR (py_iter (slices area));
  slices ← liftR (map_result gnb_slice area_slices);
  amf ← get_amf_ip;
  first ← liftR (py_getitem slices 0);
  upfs ← get_upfs_for_slice (pretty (sd first));
  upf ← liftR (py_getitem upfs 0);
  info ← attr (network_info upf);
  routes ← _additional_routes_for_gnb (area_key (pdu_area pdu));
  mret {| gnb_area := pdu_area pdu; gnb_plmn := plmn (config c); tac := pdu_area pdu; amf_ip := amf;
          upf_ip := exploded (upf_n3_ip info); amf_port := 38412; nssai := slices;
          additional_routes := routes |}.

Definition configure_gnb (pdu : PduModel) : B unit :=
  on_ext (get_pdu_configurator pdu) ;;
  request ← gnb_configuration pdu;
  on_ext (configure pdu request) ;;
  update_st (λ s, set_ran_areas (od_set (area_key (pdu_area pdu))
    {| ran_area := pdu_area pdu; ran_pdu_name := pdu_name pdu |} (ran_areas s)) s).

Definition delete_ran_area (ran_area_id : string) : B unit :=
  s ← get_st;
  ran_area_info ← liftR (od_getitem ran_area_id (ran_areas s));
  pdu ← on_ext (find_by_name (ran_pdu_name ran_area_info));
  on_ext (unlock_pdu pdu) ;;
  update_st (λ s, set_ran_areas (od_pop ran_area_id (ran_areas s)) s).

Definition update_gnb_config : B unit :=
  pdus ← get_gnb_pdus;
  for_each pdus configure_gnb ;;
  c ← get_config;
  s ← get_st;
  for_each (areas_to_delete (od_keys (ran_areas s)) (areas c)) delete_ran_area.

(** ** Creation

    [super().create] keeps the request in the base model of the blueprint, which is not used here. *)
Definition create (create_model : Create5gModel) : B unit :=
  put_config create_model ;;
  configuration_feasibility_check create_model ;;
  get_gnb_pdus ;;
  update_edge_areas ;;
  create_5g create_model ;;
  wait_core_ready ;;
  update_edge_areas ;;
  update_gnb_config.

(** ** Day 2

    The methods of the class itself: [add_ues], [del_ues], [add_dnn] and [del_dnn] update the core, the others
    everything. *)
Definition update_all : B unit := update_edge_areas ;; update_gnb_config ;; update_core.
#[export] Instance generic_methods : Day2Methods X | 100 := {
  add_ues _ := update_core;
  del_ues _ := update_core;
  add_dnn _ := update_core;
  del_dnn _ := update_core;
  add_slice _ _ := update_all;
  del_slice _ := update_all;
  add_tac _ := update_all;
  del_tac _ := update_all
}.
End generic.

Section day2.
Context {X : Type} `{!Surroundings X} `{!Core5G X} `{!Day2Methods X}.
#[local] Notation B := (M (Blue5G X)).

(** [try: ... except Exception as e: self.state.current_config = backup; raise e]. *)
Definition restoring (backup : Create5gModel) (m : B unit) : B unit :=
  catch m (λ e, Some (put_config backup ;; raise e)).

Definition day2_add_ues (subscriber_model : SubSubscribers) : B unit :=
  c ← get_config;
  if existsb (λ s, String.eqb (imsi s) (imsi subscriber_model)) (subscribers (config c))
  then raise BlueprintNGException
  else
    let subscriber_slice_idds := snssai_sliceId <$> snssai subscriber_model in
    profiles ← liftR (py_iter (sliceProfiles (config c)));
    (if existsb (λ x, py_in String.eqb (sliceId x) subscriber_slice_idds) profiles
     then mret tt else raise BlueprintNGException) ;;
    put_config (set_subscribers (subscribers (config c) ++ [subscriber_model]) c) ;;
    restoring c (add_ues subscriber_model).

Definition day2_del_ues (sub_imsi : string) : B unit :=
  c ← get_config;
  if negb (existsb (λ s, String.eqb (imsi s) sub_imsi) (subscribers (config c)))
  then raise BlueprintNGException
  else
    put_config (set_subscribers
      (List.filter (λ x, negb (String.eqb (imsi x) sub_imsi)) (subscribers (config c))) c) ;;
    restoring c (del_ues sub_imsi).

Definition day2_add_dnn (dnn_model : SubDataNets) : B unit :=
  c ← get_config;
  let nets := data_nets (network_endpoints (config c)) in
  if existsb (λ d, String.eqb (dnn d) (dnn dnn_model)) nets then raise BlueprintNGException
  else
    put_config (set_data_nets (nets ++ [dnn_model]) c) ;;
    restoring c (add_dnn dnn_model).

Definition day2_del_dnn (dnn_name : string) : B unit :=
  c ← get_config;
  let nets := data_nets (network_endpoints (config c)) in
  if negb (existsb (λ d, String.eqb (dnn d) dnn_name) nets) then raise BlueprintNGException
  else
    profiles ← liftR (py_iter (sliceProfiles (config c)));
    (if existsb (λ slice, py_in String.eqb dnn_name (dnnList slice)) profiles
     then raise BlueprintNGException else mret tt) ;;
    put_config (set_data_nets (List.filter (λ x, negb (String.eqb (dnn x) dnn_name)) nets) c) ;;
    restoring c (del_dnn dnn_name).

(** The comparison of a list with a text: never equal. *)
Definition list_eq_text (l : list string) (s : string) : bool := false.

(** [self.state.current_config.get_area(id).slices.append(...)]: the first area of that id. *)
Fixpoint append_slice_in (id : Z) (x : SubSlices) (l : list SubArea) : result (list SubArea) :=
  match l with
  | [] => Raise AttributeError
  | a :: l' =>
      if area_id a =? id then s ← py_append x (slices a); Ok (set_slices s a :: l')
      else r ← append_slice_in id x l'; Ok (a :: r)
  end.

Definition append_slice (id : Z) (x : SubSlices) : B unit :=
  c ← get_config; l ← liftR (append_slice_in id x (areas c)); put_config (set_areas l c).

Definition day2_add_slice_generic (add_slice_model : Core5GAddSliceModel) (oss : bool) : B unit :=
  let new_slice := add_profile add_slice_model in
  let area_slice := {| area_sliceType := sliceType new_slice; area_sliceId := sliceId new_slice |} in
  c ← get_config;
  tmp ← liftR (py_append new_slice (sliceProfiles (config c)));
  configuration_feasibility_check (set_sliceProfiles tmp c) ;;
  profiles ← liftR (py_iter (sliceProfiles (config c)));
  (if existsb (λ x, String.eqb (sliceId x) (sliceId new_slice)) profiles
   then raise BlueprintNGException else mret tt) ;;
  let ids := default [] (area_ids add_slice_model) in
  (if oss && (length ids =? 0)%nat then raise BlueprintNGException else mret tt) ;;
  (if (0 <? length ids)%nat then
     if (length ids =? 1)%nat && list_eq_text ids "*"
     then for_each (areas c) (λ area, append_slice (area_id area) area_slice)
     else
       for_each ids (λ id,
         id ← liftR (py_int id);
         match get_area id c with Some _ => mret tt | None => raise BlueprintNGException end) ;;
       for_each ids (λ id, id ← liftR (py_int id); append_slice id area_slice)
   else mret tt) ;;
  c ← get_config;
  l ← liftR (py_append new_slice (sliceProfiles (config c)));
  put_config (set_sliceProfiles l c).

Definition day2_add_slice (oss : bool) (add_slice_model : Core5GAddSliceModel) : B unit :=
  s ← get_st;
  catch (day2_add_slice_generic add_slice_model oss ;; add_slice add_slice_model oss)
        (λ e, Some (update_st (set_current_config (current_config s)) ;; raise e)).
Definition day2_add_slice_oss : Core5GAddSliceModel → B unit := day2_add_slice true.
Definition day2_add_slice_operator : Core5GAddSliceModel → B unit := day2_add_slice false.

(** Without the slice in the areas, one after the other. *)
Fixpoint drop_slice (id : string) (l : list SubArea) : result unit * list SubArea :=
  match l with
  | [] => (Ok tt, [])
  | a :: l' =>
      match slices a with
      | None => (Raise TypeError, l)
      | Some s =>
          let '(r, l'') := drop_slice id l' in
          (r, set_slices (Some (List.filter (λ x, negb (String.eqb (area_sliceId x) id)) s)) a :: l'')
      end
  end.

Definition day2_del_slice (id : string) : B unit :=
  backup_config ← get_config;
  (let '(r, l) := drop_slice id (areas backup_config) in
   put_config (set_areas l backup_config) ;; liftR r) ;;
  c ← get_config;
  profiles ← liftR (py_iter (sliceProfiles (config c)));
  put_config (set_sliceProfiles (Some (List.filter (λ x, negb (String.eqb (sliceId x) id)) profiles)) c) ;;
  restoring backup_config (del_slice id).

Definition day2_add_tac (add_area_model : SubArea) : B unit :=
  c ← get_config;
  match get_area (area_id add_area_model) c with
  | Some _ => raise BlueprintNGException
  | None =>
      put_config (set_areas (areas c ++ [add_area_model]) c) ;;
      restoring c (add_tac add_area_model)
  end.

Definition day2_del_tac (id : Z) : B unit :=
  c ← get_config;
  match get_area id c with
  | None => raise BlueprintNGException
  | Some _ =>
      put_config (set_areas (List.filter (λ x, negb (area_id x =? id)) (areas c)) c) ;;
      restoring c (del_tac id)
  end.
End day2.
