(* ===== verification/Generic5GProps.v ===== *)
(** * What the generic 5G blueprint guarantees

    A day-2 operation either applies its change to the configuration or restores it; the
    configuration stays well formed; a successful update leaves exactly the areas of the
    configuration deployed; and a deployment that fails half-way blocks the blueprint for good. *)

From stdpp Require Import base list strings gmap pretty.
From Stdlib Require Import ZArith Lia Ascii Permutation.
From S2P Require Import Prelude Ipam IPv4Text NetworkModels Core5GModels Generic5G.

Open Scope Z_scope.

(** ** The operations of day 2 *)
Inductive day2 :=
| AddUe (s : SubSubscribers)
| DelUe (i : string)
| AddDnn (d : SubDataNets)
| DelDnn (d : string)
| AddSlice (oss : bool) (m : Core5GAddSliceModel)
| DelSlice (i : string)
| AddTac (a : SubArea)
| DelTac (i : Z).

(** What they mean: the new configuration, or [None] when they are refused. *)
Definition feasible (c : Create5gModel) : bool :=
  match sliceProfiles (config c) with
  | Some l => bool_decide (NoDup (concat (dnnList <$> l)))
  | None => false
  end.

Definition map_slices (f : list SubSlices → list SubSlices) (a : SubArea) : SubArea :=
  set_slices (f <$> slices a) a.

(** The slice added to the areas of the list, once for each time they are listed. *)
Fixpoint add_slice_to (ids : list string) (x : SubSlices) (l : list SubArea) : option (list SubArea) :=
  match ids with
  | [] => Some l
  | id :: ids' =>
      match py_int id with
      | Ok i => match append_slice_in i x l with Ok l' => add_slice_to ids' x l' | Raise _ => None end
      | Raise _ => None
      end
  end.

Definition known_areas (ids : list string) (c : Create5gModel) : bool :=
  forallb (λ id, match py_int id with
                 | Ok i => match get_area i c with Some _ => true | None => false end
                 | Raise _ => false
                 end) ids.

Definition apply (op : day2) (c : Create5gModel) : option Create5gModel :=
  let profiles := default [] (sliceProfiles (config c)) in
  let nets := data_nets (network_endpoints (config c)) in
  match op with
  | AddUe s =>
      if existsb (λ x, String.eqb (imsi x) (imsi s)) (subscribers (config c)) then None
      else if existsb (λ x, py_in String.eqb (sliceId x) (snssai_sliceId <$> snssai s)) profiles
           then Some (set_subscribers (subscribers (config c) ++ [s]) c) else None
  | DelUe i =>
      if existsb (λ x, String.eqb (imsi x) i) (subscribers (config c))
      then Some (set_subscribers (List.filter (λ x, negb (String.eqb (imsi x) i)) (subscribers (config c))) c)
      else None
  | AddDnn d =>
      if existsb (λ x, String.eqb (dnn x) (dnn d)) nets then None else Some (set_data_nets (nets ++ [d]) c)
  | DelDnn d =>
      if existsb (λ x, String.eqb (dnn x) d) nets && negb (existsb (λ x, py_in String.eqb d (dnnList x)) profiles)
      then Some (set_data_nets (List.filter (λ x, negb (String.eqb (dnn x) d)) nets) c) else None
  | AddSlice oss m =>
      let s := add_profile m in
      let ids := default [] (area_ids m) in
      if feasible (set_sliceProfiles (Some (profiles ++ [s])) c) &&
         negb (existsb (λ x, String.eqb (sliceId x) (sliceId s)) profiles) &&
         negb (oss && (length ids =? 0)%nat) && known_areas ids c
      then l ← add_slice_to ids {| area_sliceType := sliceType s; area_sliceId := sliceId s |} (areas c);
           Some (set_sliceProfiles (Some (profiles ++ [s])) (set_areas l c))
      else None
  | DelSlice i =>
      Some (set_sliceProfiles (Some (List.filter (λ x, negb (String.eqb (sliceId x) i)) profiles))
             (set_areas (map_slices (List.filter (λ x, negb (String.eqb (area_sliceId x) i))) <$> areas c) c))
  | AddTac a => match get_area (area_id a) c with Some _ => None | None => Some (set_areas (areas c ++ [a]) c) end
  | DelTac i =>
      match get_area i c with
      | Some _ => Some (set_areas (List.filter (λ x, negb (area_id x =? i)) (areas c)) c)
      | None => None
      end
  end.

(** The lists a request may leave out are there. *)
Definition lists_present (c : Create5gModel) : Prop :=
  is_Some (sliceProfiles (config c)) ∧ Forall (λ a, is_Some (slices a)) (areas c).

(** A configuration in which identifiers identify. *)
Record config_ok (c : Create5gModel) : Prop := {
  ok_lists : lists_present c;
  ok_ues : NoDup (imsi <$> subscribers (config c));
  ok_dnns : NoDup (dnn <$> data_nets (network_endpoints (config c)));
  ok_slices : NoDup (sliceId <$> default [] (sliceProfiles (config c)));
  ok_areas : NoDup (area_id <$> areas c);
  ok_feasible : feasible c = true
}.

Definition op_ok (op : day2) : Prop :=
  match op with AddTac a => is_Some (slices a) | _ => True end.

(** The configuration after the operations that returned, of those tried one after the other. *)
Fixpoint replay (l : list (day2 * bool)) (c : Create5gModel) : Create5gModel :=
  match l with
  | [] => c
  | (op, true) :: l' => replay l' (default c (apply op c))
  | (_, false) :: l' => replay l' c
  end.

(** *** Operations and well-formed configurations *)
Lemma NoDup_snoc_fresh {A} (f : A → string) x l :
  NoDup (f <$> l) → existsb (λ y, String.eqb (f y) (f x)) l = false → NoDup (f <$> l ++ [x]).
Proof.
  intros Hl Hx. rewrite fmap_app. apply NoDup_app. split_and!; [done| |by apply NoDup_singleton].
  intros k (y & -> & Hy)%list_elem_of_fmap Hk%list_elem_of_singleton.
  apply not_true_iff_false in Hx. apply Hx, existsb_exists. exists y.
  split; [by apply list_elem_of_In|]. by rewrite Hk, String.eqb_refl.
Qed.

Lemma sublist_fmap_filter {A B} (f : A → B) p l : (f <$> List.filter p l) `sublist_of` (f <$> l).
Proof.
  induction l as [|a l IH]; [constructor|]. simpl.
  destruct (p a); [by apply sublist_skip|by apply sublist_cons].
Qed.

Lemma NoDup_fmap_filter {A B} (f : A → B) p l : NoDup (f <$> l) → NoDup (f <$> List.filter p l).
Proof. intros Hl. by eapply sublist_NoDup, sublist_fmap_filter. Qed.

Lemma sublist_concat_filter {A B} (f : A → list B) p l :
  concat (f <$> List.filter p l) `sublist_of` concat (f <$> l).
Proof.
  induction l as [|a l IH]; [constructor|]. simpl.
  destruct (p a); simpl; [by apply sublist_app|by apply sublist_inserts_l].
Qed.

Lemma add_slice_to_areas ids x l l' :
  add_slice_to ids x l = Some l' → Forall (λ a, is_Some (slices a)) l →
  area_id <$> l' = area_id <$> l ∧ Forall (λ a, is_Some (slices a)) l'.
Proof.
  revert l. induction ids as [|id ids IH]; intros l; simpl; [by intros [= <-]|].
  destruct (py_int id) as [i|]; [|done]. destruct (append_slice_in i x l) as [l1|] eqn:E; [|done].
  intros H Hl. assert (area_id <$> l1 = area_id <$> l ∧ Forall (λ a, is_Some (slices a)) l1) as [<- H1];
    [|by apply IH]. clear IH H. revert l1 E.
  induction Hl as [|a l [s Hs] Hl IHl]; intros l1; simpl; [done|]. destruct (area_id a =? i).
  - rewrite Hs. intros [= <-]. split; [done|]. constructor; [by eexists|done].
  - destruct (append_slice_in i x l) as [l2|]; [|done]. intros [= <-].
    destruct (IHl _ eq_refl) as [Hi H2]. rewrite !fmap_cons, Hi. split; [done|].
    constructor; [by eexists|done].
Qed.

Lemma feasible_nodup c l : sliceProfiles (config c) = Some l → feasible c = true ↔ NoDup (concat (dnnList <$> l)).
Proof. unfold feasible. intros ->. apply bool_decide_eq_true. Qed.

Lemma get_area_fresh i c : get_area i c = None → i ∉ area_id <$> areas c.
Proof.
  intros H (a & -> & Ha)%list_elem_of_fmap. apply list_elem_of_In in Ha.
  pose proof (find_none _ _ H a Ha) as E. cbv beta in E. by rewrite Z.eqb_refl in E.
Qed.

Lemma apply_add_slice_ok oss m c c' :
  config_ok c → apply (AddSlice oss m) c = Some c' → config_ok c'.
Proof.
  intros Hok. destruct (ok_lists c Hok) as [[l Hl] Ha]. unfold apply. rewrite Hl. cbn [from_option Datatypes.id].
  destruct (feasible _) eqn:Ef; cbn [andb negb]; [|done].
  destruct (existsb _ _) eqn:Ee; cbn [andb negb]; [done|].
  destruct (negb _); cbn [andb]; [|done]. destruct (known_areas _ c); [|done].
  destruct (add_slice_to _ _ _) as [la|] eqn:El; [|done]. intros [= <-].
  destruct (add_slice_to_areas _ _ _ _ El Ha) as [Hids Hla].
  destruct Hok as [_ Hu Hd Hs Har _]. rewrite Hl in Hs. split; cbn; try done.
  - by apply NoDup_snoc_fresh.
  - by rewrite Hids.
Qed.

Lemma apply_ok op c c' : op_ok op → config_ok c → apply op c = Some c' → config_ok c'.
Proof.
  intros Hop Hok. destruct op; try by apply apply_add_slice_ok.
  all: destruct Hok as [[[l Hl] Ha] Hu Hd Hs Har Hf]; unfold apply; rewrite ?Hl in *;
    cbn [from_option Datatypes.id] in *.
  - destruct (existsb _ _) eqn:E; [done|]. destruct (existsb _ l); [|done]. intros [= <-].
    split; cbn; rewrite ?Hl; try done; by apply NoDup_snoc_fresh.
  - destruct (existsb _ _) eqn:E; [|done]. intros [= <-].
    split; cbn; rewrite ?Hl; try done; by apply NoDup_fmap_filter.
  - destruct (existsb _ _) eqn:E; [done|]. intros [= <-].
    split; cbn; rewrite ?Hl; try done; by apply NoDup_snoc_fresh.
  - destruct (_ && _) eqn:E; [|done]. intros [= <-].
    split; cbn; rewrite ?Hl; try done; by apply NoDup_fmap_filter.
  - intros [= <-]. apply (feasible_nodup c l Hl) in Hf. split; cbn; try done.
    + split; [by eexists|]. apply Forall_fmap. eapply Forall_impl; [done|]. intros a [s Hs'].
      cbn. rewrite Hs'. by eexists.
    + by apply NoDup_fmap_filter.
    + rewrite <-list_fmap_compose. erewrite list_fmap_ext; [done|]. by intros.
    + apply bool_decide_eq_true. by eapply sublist_NoDup, sublist_concat_filter.
  - destruct (get_area _ c) eqn:E; [done|]. intros [= <-]. split; cbn; rewrite ?Hl; try done.
    + split; [by eexists|]. apply Forall_app. split; [done|]. by apply Forall_singleton.
    + rewrite fmap_app. apply NoDup_app. split_and!; [done| |by apply NoDup_singleton].
      intros k Hk Hk'%list_elem_of_singleton. subst k. by apply get_area_fresh in E.
  - destruct (get_area _ c) eqn:E; [|done]. intros [= <-]. split; cbn; rewrite ?Hl; try done.
    + split; [by eexists|]. apply Forall_forall. intros a Hin%list_elem_of_In.
      apply filter_In in Hin as [Hin _]. rewrite Forall_forall in Ha. by apply Ha, list_elem_of_In.
    + by apply NoDup_fmap_filter.
Qed.

Section props.
Context {X : Type} `{!Surroundings X} `{!Core5G X} `{!Day2Methods X}.
Implicit Types (b : Blue5G X).

Definition run (op : day2) : M (Blue5G X) unit :=
  match op with
  | AddUe s => day2_add_ues s
  | DelUe i => day2_del_ues i
  | AddDnn d => day2_add_dnn d
  | DelDnn d => day2_del_dnn d
  | AddSlice oss m => day2_add_slice oss m
  | DelSlice i => day2_del_slice i
  | AddTac a => day2_add_tac a
  | DelTac i => day2_del_tac i
  end.

(** The code of a core leaves the generic part of the state alone. *)
Definition keeps b b' : Prop :=
  current_config (st b') = current_config (st b) ∧ edge_areas (st b') = edge_areas (st b).

Record core_contract : Prop := {
  ct_create : ∀ c b, keeps b (create_5g c b).2;
  ct_update : ∀ b, keeps b (update_core b).2;
  ct_wait : ∀ b, keeps b (wait_core_ready b).2;
  ct_amf : ∀ b, keeps b (get_amf_ip b).2;
  ct_nrf : ∀ b, keeps b (get_nrf_ip b).2
}.

Definition with_config (c : Create5gModel) b : Prop := current_config (st b) = Some c.

Lemma get_config_run c b : with_config c b → get_config b = (Ok c, b).
Proof. unfold with_config, get_config, get_st. run_M. by intros ->. Qed.

Lemma no_config_run b : current_config (st b) = None → get_config b = (Raise AttributeError, b).
Proof. unfold get_config, get_st. run_M. by intros ->. Qed.

Lemma put_config_run c b : put_config c b = (Ok tt, set_st (set_current_config (Some c) (st b)) b).
Proof. done. Qed.

Lemma restoring_run c (m : M (Blue5G X) unit) b :
  match restoring c m b with
  | (Ok _, b') => m b = (Ok tt, b')
  | (Raise _, b') => with_config c b'
  end.
Proof.
  unfold restoring, catch. destruct (m b) as [[[]|e] b1]; [done|]. by rewrite (bind_Ok _ _ _ _ _ (put_config_run c b1)).
Qed.

(** ** What an update leaves alone *)
Section kept.
Context (Hc : core_contract) {T : Type} (f : Generic5GBlueprintNGState → T) (v : T).
Context (Hf : ∀ s s', current_config s' = current_config s → edge_areas s' = edge_areas s → f s' = f s).
Definition kept b : Prop := f (st b) = v.

Lemma kept_ext {A} (m : M X A) : preserves kept (on_ext m).
Proof. apply (preserves_zoom _ (λ _, True)); [done|by intros|]. by intros ? ?. Qed.
Lemma kept_get_st : preserves kept get_st.
Proof. by intros b. Qed.
Lemma kept_get_config : preserves kept get_config.
Proof. unfold get_config. apply preserves_bind; [apply kept_get_st|]. intros s.
  destruct (current_config s); [apply preserves_ret|apply preserves_raise].
Qed.
Lemma kept_get_edge k : preserves kept (get_edge k).
Proof. unfold get_edge. apply preserves_bind; [apply kept_get_st|]. intros s. by intros b. Qed.
Lemma kept_update g : (∀ s, f (g s) = f s) → preserves kept (update_st g).
Proof. intros Hg b. unfold kept, update_st, modifyS. simpl. by rewrite Hg. Qed.
Lemma kept_children l : preserves kept (register_children l) ∧ preserves kept (deregister_children l).
Proof.
  split; [unfold register_children|unfold deregister_children]; apply preserves_get_known; intros b Hb;
    destruct (py_in _ _ _); preserve_steps; try by apply preserves_putS.
Qed.
Lemma kept_attr {A} (o : option A) : preserves kept (attr o).
Proof. destruct o; [apply preserves_ret|apply preserves_raise]. Qed.
Lemma kept_field {A} (o : option A) : preserves kept (field o).
Proof. destruct o; [apply preserves_ret|apply preserves_raise]. Qed.
Lemma kept_core :
  preserves kept update_core ∧ preserves kept wait_core_ready ∧ preserves kept get_amf_ip ∧
  preserves kept get_nrf_ip ∧ ∀ c, preserves kept (create_5g c).
Proof.
  split_and!; [..|intros c]; intros b; unfold kept; intros <-; apply Hf;
    solve [apply (ct_update Hc b)|apply (ct_wait Hc b)|apply (ct_amf Hc b)|apply (ct_nrf Hc b)
          |apply (ct_create Hc c b)].
Qed.

Lemma kept_lock_gnbs ids : preserves kept (lock_gnbs ids).
Proof.
  induction ids as [|i ids IH]; simpl; [apply preserves_ret|].
  apply preserves_bind; [apply kept_ext|]. intros p. apply preserves_bind.
  - destruct (is_pdu_locked_by_current_blueprint p); [apply preserves_ret|apply kept_ext].
  - intros q. apply preserves_bind; [done|]. intros l. apply preserves_ret.
Qed.

Ltac kept_step :=
  match goal with
  | |- preserves _ (mret _) => apply preserves_ret
  | |- preserves _ (raise _) => apply preserves_raise
  | |- preserves _ (liftR _) => apply preserves_liftR
  | |- preserves _ (on_ext _) => apply kept_ext
  | |- preserves _ get_st => apply kept_get_st
  | |- preserves _ get_config => apply kept_get_config
  | |- preserves _ (get_edge _) => apply kept_get_edge
  | |- preserves _ (attr _) => apply kept_attr
  | |- preserves _ (field _) => apply kept_field
  | |- preserves _ (register_children _) => apply kept_children
  | |- preserves _ (deregister_children _) => apply kept_children
  | |- preserves _ get_amf_ip => apply kept_core
  | |- preserves _ get_nrf_ip => apply kept_core
  | |- preserves _ update_core => apply kept_core
  | |- preserves _ (lock_gnbs _) => apply kept_lock_gnbs
  | |- preserves _ (_ ≫= _) => apply preserves_bind; [|intros ?]
  | |- preserves _ (for_each _ _) => apply preserves_for_each; intros ?
  | |- preserves _ (if ?b then _ else _) => destruct b
  | |- preserves _ (match ?x with _ => _ end) => destruct x
  end.
Ltac kept_steps := cbv zeta; repeat (kept_step; cbv zeta).

Lemma kept_upf_config id : preserves kept (_create_upf_config id).
Proof. unfold _create_upf_config. kept_steps. Qed.
Lemma kept_upfs_info id u cfg : preserves kept (get_upfs_info id u cfg).
Proof. unfold get_upfs_info. kept_steps. Qed.
Lemma kept_deploy_router id : preserves kept (deploy_router_blueprint id).
Proof. unfold deploy_router_blueprint. kept_steps. Qed.
Lemma kept_deploy_upf id t : preserves kept (deploy_upf_blueprint id t).
Proof. unfold deploy_upf_blueprint. kept_steps; [apply kept_upf_config|apply kept_upfs_info]. Qed.
Lemma kept_route a : preserves kept (route_edge_area a).
Proof. unfold route_edge_area, add_route_to_router. kept_steps. Qed.
Lemma kept_undeploy_router id : preserves kept (undeploy_router_blueprint id).
Proof. unfold undeploy_router_blueprint. kept_steps. Qed.
Lemma kept_undeploy_upf id : preserves kept (undeploy_upf_blueprint id).
Proof. unfold undeploy_upf_blueprint. kept_steps. Qed.
Lemma kept_gnb_config : preserves kept update_gnb_config.
Proof.
  unfold update_gnb_config, get_gnb_pdus, configure_gnb, gnb_configuration, get_upfs_for_slice,
    _additional_routes_for_gnb, delete_ran_area. kept_steps; apply kept_update; intros s; by apply Hf.
Qed.

(** *** Changes of the edge areas *)
Context (He : ∀ k e s, f (set_edge_areas (od_set k e (edge_areas s)) s) = f s).
Context (Hd : ∀ k s, f (set_edge_areas (od_pop k (edge_areas s)) s) = f s).

Lemma kept_put_edge k e : preserves kept (put_edge k e).
Proof. apply kept_update. intros s. apply He. Qed.
Lemma kept_refresh a : preserves kept (refresh_edge_area a).
Proof.
  unfold refresh_edge_area. kept_steps; [apply kept_upf_config|apply kept_upfs_info|apply kept_put_edge].
Qed.
Lemma kept_deploy a : preserves kept (deploy_edge_area a).
Proof.
  unfold deploy_edge_area. kept_steps;
    first [apply kept_put_edge|apply kept_deploy_router|apply kept_deploy_upf].
Qed.
Lemma kept_edge_area a : preserves kept (update_edge_area a).
Proof.
  unfold update_edge_area. kept_steps; first [apply kept_refresh|apply kept_deploy|apply kept_route].
Qed.
Lemma kept_delete_edge k : preserves kept (delete_edge_area k).
Proof.
  unfold delete_edge_area. kept_steps;
    [apply kept_undeploy_router|apply kept_undeploy_upf|apply kept_update; intros s; apply Hd].
Qed.
Lemma kept_update_edges : preserves kept update_edge_areas.
Proof. unfold update_edge_areas. kept_steps; [apply kept_edge_area|apply kept_delete_edge]. Qed.
Lemma kept_update_all : preserves kept update_all.
Proof. unfold update_all. kept_steps; [apply kept_update_edges|apply kept_gnb_config]. Qed.
End kept.

(** ** One operation *)
Definition reconf (c : Create5gModel) b : Blue5G X := set_st (set_current_config (Some c) (st b)) b.

Lemma reconf_config c b : with_config c (reconf c b).
Proof. done. Qed.
Lemma reconf_reconf c c' b : reconf c' (reconf c b) = reconf c' b.
Proof. done. Qed.
Lemma reconf_id c b : with_config c b → reconf c b = b.
Proof. destruct b as [[oc e r d] l x]. unfold with_config. simpl. by intros ->. Qed.

(** The update of the deployment that follows the change. *)
Definition follow_up (op : day2) : M (Blue5G X) unit :=
  match op with
  | AddUe s => add_ues s
  | DelUe i => del_ues i
  | AddDnn d => add_dnn d
  | DelDnn d => del_dnn d
  | AddSlice oss m => add_slice m oss
  | DelSlice i => del_slice i
  | AddTac a => add_tac a
  | DelTac i => del_tac i
  end.

(** The methods of a core leave the configuration as the operation made it. *)
Definition methods_contract : Prop := ∀ op c c', apply op c = Some c' → preserves (with_config c') (follow_up op).

(** What a transaction does: refused without a trace, or applied and followed up, the old
    configuration coming back when the follow-up raises. *)
Definition transaction (op : day2) (c : Create5gModel) b (res : result unit * Blue5G X) : Prop :=
  match apply op c with
  | Some c' => res = restoring c (follow_up op) (reconf c' b)
  | None => ∃ e, res = (Raise e, b)
  end.

Lemma add_ue_run s c b : with_config c b → lists_present c → transaction (AddUe s) c b (day2_add_ues s b).
Proof.
  intros Hb [[l Hl] _]. unfold transaction, day2_add_ues. simpl.
  erewrite bind_Ok by by apply get_config_run. rewrite Hl. simpl.
  destruct (existsb _ (subscribers (config c))); [eexists; reflexivity|].
  erewrite bind_Ok by reflexivity. destruct (existsb _ l); [|eexists; reflexivity]. reflexivity.
Qed.

Lemma del_ue_run i c b : with_config c b → transaction (DelUe i) c b (day2_del_ues i b).
Proof.
  intros Hb. unfold transaction, day2_del_ues. simpl.
  erewrite bind_Ok by by apply get_config_run.
  destruct (existsb _ (subscribers (config c))); [reflexivity|eexists; reflexivity].
Qed.

Lemma add_dnn_run d c b : with_config c b → transaction (AddDnn d) c b (day2_add_dnn d b).
Proof.
  intros Hb. unfold transaction, day2_add_dnn. simpl.
  erewrite bind_Ok by by apply get_config_run. cbv zeta.
  destruct (existsb _ (data_nets _)); [eexists; reflexivity|reflexivity].
Qed.

Lemma del_dnn_run d c b : with_config c b → lists_present c → transaction (DelDnn d) c b (day2_del_dnn d b).
Proof.
  intros Hb [[l Hl] _]. unfold transaction, day2_del_dnn. simpl.
  erewrite bind_Ok by by apply get_config_run. cbv zeta. rewrite Hl. simpl.
  destruct (existsb _ (data_nets _)); [|eexists; reflexivity]. cbn [negb andb].
  erewrite bind_Ok by reflexivity. destruct (existsb _ l); [eexists; reflexivity|reflexivity].
Qed.

Lemma drop_slice_run i l :
  Forall (λ a, is_Some (slices a)) l →
  drop_slice i l = (Ok tt, map_slices (List.filter (λ x, negb (String.eqb (area_sliceId x) i))) <$> l).
Proof.
  induction 1 as [|a l [s Hs] _ IH]; [done|]. simpl. unfold map_slices at 1. by rewrite Hs, IH.
Qed.

Lemma del_slice_run i c b : with_config c b → lists_present c → transaction (DelSlice i) c b (day2_del_slice i b).
Proof.
  intros Hb [[l Hl] Ha]. unfold transaction, day2_del_slice. simpl.
  erewrite bind_Ok by by apply get_config_run. rewrite (drop_slice_run i _ Ha).
  erewrite bind_Ok by reflexivity. erewrite bind_Ok by by apply get_config_run.
  cbn [config set_areas]. rewrite Hl. simpl. reflexivity.
Qed.

Lemma add_tac_run a c b : with_config c b → transaction (AddTac a) c b (day2_add_tac a b).
Proof.
  intros Hb. unfold transaction, day2_add_tac. simpl.
  erewrite bind_Ok by by apply get_config_run. destruct (get_area _ c); [eexists; reflexivity|reflexivity].
Qed.

Lemma del_tac_run i c b : with_config c b → transaction (DelTac i) c b (day2_del_tac i b).
Proof.
  intros Hb. unfold transaction, day2_del_tac. simpl.
  erewrite bind_Ok by by apply get_config_run. destruct (get_area _ c); [reflexivity|eexists; reflexivity].
Qed.

(** *** Adding a slice *)
Lemma remove_dups_id (d : list string) : NoDup d → remove_dups d = d.
Proof.
  induction 1 as [|x d Hx _ IH]; [done|]. simpl. destruct (decide_rel _ x d); [done|by rewrite IH].
Qed.

Lemma remove_dups_le (d : list string) : (length (remove_dups d) ≤ length d)%nat.
Proof. induction d as [|y d IH]; [done|]. simpl. destruct (decide_rel _ y d); simpl; lia. Qed.

Lemma remove_dups_shorter (d : list string) : ¬ NoDup d → (length (remove_dups d) < length d)%nat.
Proof.
  induction d as [|x d IH]; [by intros []; constructor|]. rewrite NoDup_cons. intros Hd. simpl.
  pose proof (remove_dups_le d). destruct (decide_rel _ x d); simpl; [lia|].
  assert (¬ NoDup d) by tauto. specialize (IH ltac:(done)). lia.
Qed.

Lemma feasible_run c b :
  is_Some (sliceProfiles (config c)) →
  configuration_feasibility_check c b = (if feasible c then Ok tt else Raise BlueprintNGException, b).
Proof.
  intros [l Hl]. unfold configuration_feasibility_check, feasible. rewrite Hl.
  erewrite bind_Ok by reflexivity. cbv zeta. set (d := concat _). case_bool_decide as Hd.
  - by rewrite (remove_dups_id d Hd), Nat.ltb_irrefl.
  - by rewrite (proj2 (Nat.ltb_lt _ _) (remove_dups_shorter d Hd)).
Qed.

Lemma known_run ids c b :
  let m := for_each ids (λ id, id ← liftR (py_int id);
             match get_area id c with Some _ => mret tt | None => raise BlueprintNGException end) in
  if known_areas ids c then m b = (Ok tt, b) else ∃ e, m b = (Raise e, b).
Proof.
  cbv zeta. induction ids as [|i ids IH]; [done|].
  change (known_areas (i :: ids) c) with
    (match py_int i with Ok v => match get_area v c with Some _ => true | None => false end
                       | Raise _ => false end && known_areas ids c).
  cbn [for_each]. destruct (py_int i) as [v|e] eqn:Ei.
  - destruct (get_area v c) as [a|] eqn:Ea; cbn [andb].
    + destruct (known_areas ids c); [|destruct IH as [e IH]; exists e];
        (erewrite bind_Ok; [exact IH|]; erewrite bind_Ok by reflexivity; by rewrite Ea).
    + eexists. erewrite bind_Raise; [done|]. erewrite bind_Ok by reflexivity. by rewrite Ea.
  - eexists. erewrite bind_Raise; [done|]. by erewrite bind_Raise by reflexivity.
Qed.

Lemma append_slice_in_run i x l :
  (∃ a, find (λ a, area_id a =? i) l = Some a) → Forall (λ a, is_Some (slices a)) l →
  ∃ l', append_slice_in i x l = Ok l' ∧ area_id <$> l' = area_id <$> l ∧
        Forall (λ a, is_Some (slices a)) l'.
Proof.
  intros [a Ha] Hl. induction Hl as [|a' l [s Hs] Hl IH]; [done|]. simpl in *.
  destruct (area_id a' =? i).
  - rewrite Hs. simpl. eexists. split_and!; [done|done|]. constructor; [by eexists|done].
  - destruct (IH Ha) as (l' & -> & Hi & Hl'). simpl. eexists. split_and!; [done|by rewrite !fmap_cons, Hi|].
    constructor; [by eexists|done].
Qed.

Lemma get_area_ids i l c :
  area_id <$> l = area_id <$> areas c →
  is_Some (get_area i (set_areas l c)) ↔ is_Some (get_area i c).
Proof.
  unfold get_area. cbn [areas set_areas]. generalize (areas c). clear c.
  induction l as [|a l IH]; intros [|a' l'] H; try done. simpl in H. injection H as Hi H.
  simpl. rewrite Hi. destruct (_ =? i); [by rewrite !is_Some_alt|by apply IH].
Qed.

Lemma known_areas_ids ids l c :
  area_id <$> l = area_id <$> areas c → known_areas ids (set_areas l c) = known_areas ids c.
Proof.
  intros H. unfold known_areas. induction ids as [|id ids IH]; [done|]. simpl. rewrite IH. f_equal.
  destruct (py_int id) as [i|]; [|done]. pose proof (get_area_ids i l c H) as Hi.
  destruct (get_area i (set_areas l c)), (get_area i c); try done.
  - by destruct (proj1 Hi (mk_is_Some _ _ eq_refl)).
  - by destruct (proj2 Hi (mk_is_Some _ _ eq_refl)).
Qed.

Lemma append_loop ids x c b :
  with_config c b → known_areas ids c = true → Forall (λ a, is_Some (slices a)) (areas c) →
  ∃ l, add_slice_to ids x (areas c) = Some l ∧
       for_each ids (λ id, id ← liftR (py_int id); append_slice id x) b = (Ok tt, reconf (set_areas l c) b).
Proof.
  revert c b. induction ids as [|id ids IH]; intros c b Hb Hk Ha.
  - exists (areas c). split; [done|]. rewrite reconf_id; [done|]. by destruct c.
  - simpl in Hk. apply andb_true_iff in Hk as [Hi Hk]. cbn [add_slice_to for_each].
    destruct (py_int id) as [i|] eqn:Ei; [|done].
    destruct (append_slice_in_run i x (areas c)) as (l & Hl & Hids & Hs); [|done|].
    { fold (get_area i c). destruct (get_area i c); [by eexists|done]. }
    rewrite Hl. destruct (IH (set_areas l c) (reconf (set_areas l c) b)) as (l' & Hl' & Hrun);
      [done|by rewrite known_areas_ids|done|].
    exists l'. split; [exact Hl'|]. erewrite bind_Ok; [exact Hrun|].
    unfold liftR. erewrite bind_Ok by reflexivity. unfold append_slice.
    erewrite bind_Ok by by apply get_config_run. rewrite Hl. by erewrite bind_Ok by reflexivity.
Qed.

Lemma catch_after (m1 m2 : M (Blue5G X) unit) h b b1 :
  m1 b = (Ok tt, b1) → catch (m1 ;; m2) h b = catch m2 h b1.
Proof. intros H. unfold catch. by rewrite (bind_Ok m1 _ _ _ _ H). Qed.

Lemma catch_refused (m1 m2 : M (Blue5G X) unit) c b e :
  with_config c b → m1 b = (Raise e, b) → restoring c (m1 ;; m2) b = (Raise e, b).
Proof.
  intros Hb H. unfold restoring, catch. rewrite (bind_Raise m1 _ _ _ _ H).
  erewrite bind_Ok by apply put_config_run. fold (reconf c b). by rewrite (reconf_id c b Hb).
Qed.

(** The areas of the request: all are checked, then the slice is added to each. *)
Definition to_areas (ids : list string) (x : SubSlices) (c : Create5gModel) : M (Blue5G X) unit :=
  if (0 <? length ids)%nat then
    for_each ids (λ id, id ← liftR (py_int id);
      match get_area id c with Some _ => mret tt | None => raise BlueprintNGException end) ;;
    for_each ids (λ id, id ← liftR (py_int id); append_slice id x)
  else mret tt.

Lemma to_areas_run ids x c b :
  with_config c b → lists_present c →
  if known_areas ids c then
    ∃ l, add_slice_to ids x (areas c) = Some l ∧ to_areas ids x c b = (Ok tt, reconf (set_areas l c) b)
  else ∃ e, to_areas ids x c b = (Raise e, b).
Proof.
  intros Hb [_ Ha]. unfold to_areas. destruct ids as [|i ids].
  { exists (areas c). split; [done|]. rewrite reconf_id; [done|]. by destruct c. }
  cbn [length Nat.ltb Nat.leb]. pose proof (known_run (i :: ids) c b) as Hk. cbv zeta in Hk.
  destruct (known_areas (i :: ids) c) eqn:Ek.
  - destruct (append_loop (i :: ids) x c b Hb Ek Ha) as (la & Hla & Hrun). exists la. split; [done|].
    by rewrite (bind_Ok _ _ _ _ _ Hk).
  - destruct Hk as [e Hk]. exists e. by rewrite (bind_Raise _ _ _ _ _ Hk).
Qed.

Lemma add_slice_generic_run oss m c b :
  with_config c b → lists_present c →
  match apply (AddSlice oss m) c with
  | Some c' => day2_add_slice_generic m oss b = (Ok tt, reconf c' b)
  | None => ∃ e, day2_add_slice_generic m oss b = (Raise e, b)
  end.
Proof.
  intros Hb Hlp. destruct (Hlp) as [[l Hl] _]. unfold day2_add_slice_generic, apply. cbv zeta.
  rewrite (bind_Ok _ _ _ _ _ (get_config_run c b Hb)), Hl. cbn [from_option Datatypes.id id py_append].
  erewrite bind_Ok by reflexivity.
  pose proof (feasible_run (set_sliceProfiles (Some (l ++ [add_profile m])) c) b (mk_is_Some _ _ eq_refl)) as Hf.
  destruct (feasible _); [|eexists; by erewrite bind_Raise by exact Hf].
  rewrite (bind_Ok _ _ _ _ _ Hf). erewrite bind_Ok by reflexivity. unfold Datatypes.id, id.
  destruct (existsb _ l); [eexists; by erewrite bind_Raise by reflexivity|].
  erewrite bind_Ok by reflexivity. cbn [negb andb]. set (ids := from_option _ _ (area_ids m)).
  destruct (oss && (length ids =? 0)%nat); [eexists; by erewrite bind_Raise by reflexivity|].
  erewrite bind_Ok by reflexivity. cbn [negb andb]. unfold list_eq_text. rewrite andb_false_r.
  set (x := {| area_sliceType := _ |}). pose proof (to_areas_run ids x c b Hb Hlp) as Hloop.
  fold (to_areas ids x c). destruct (known_areas ids c).
  - destruct Hloop as (la & -> & Hrun). cbn [mbind option_bind]. rewrite (bind_Ok _ _ _ _ _ Hrun).
    rewrite (bind_Ok _ _ _ _ _ (get_config_run _ _ (reconf_config _ _))).
    cbn [set_areas config]. rewrite Hl. by erewrite bind_Ok by reflexivity.
  - destruct Hloop as [e Hrun]. exists e. by rewrite (bind_Raise _ _ _ _ _ Hrun).
Qed.

Lemma add_slice_run oss m c b :
  with_config c b → lists_present c → transaction (AddSlice oss m) c b (day2_add_slice oss m b).
Proof.
  intros Hb Hl. pose proof (add_slice_generic_run oss m c b Hb Hl) as Hr. unfold transaction.
  assert (Hs : day2_add_slice oss m b = restoring c (day2_add_slice_generic m oss ;; add_slice m oss) b).
  { unfold day2_add_slice. erewrite bind_Ok by reflexivity. by rewrite Hb. }
  rewrite Hs. destruct (apply _ c) as [c'|].
  - by apply catch_after.
  - destruct Hr as [e Hr]. exists e. by apply catch_refused.
Qed.

(** ** Every operation is a transaction *)
Lemma run_transaction op c b : with_config c b → lists_present c → transaction op c b (run op b).
Proof.
  intros Hb Hl. destruct op; simpl run;
    auto using add_ue_run, del_ue_run, add_dnn_run, del_dnn_run, add_slice_run, del_slice_run,
      add_tac_run, del_tac_run.
Qed.

Definition outcome (op : day2) (c : Create5gModel) b (res : result unit * Blue5G X) : Prop :=
  match res with
  | (Ok _, b') => ∃ c', apply op c = Some c' ∧ with_config c' b' ∧ follow_up op (reconf c' b) = (Ok tt, b')
  | (Raise _, b') =>
      with_config c b' ∧
      match apply op c with
      | None => b' = b
      | Some c' => ∃ e, (follow_up op (reconf c' b)).1 = Raise e
      end
  end.

Lemma run_outcome op c b :
  methods_contract → with_config c b → lists_present c → outcome op c b (run op b).
Proof.
  intros Hc Hb Hl. pose proof (run_transaction op c b Hb Hl) as Ht. unfold transaction in Ht. unfold outcome.
  destruct (apply op c) as [c'|] eqn:Ea; [|by destruct Ht as [e ->]]. rewrite Ht.
  pose proof (Hc op c c' Ea (reconf c' b) (reconf_config c' b)) as Hk.
  unfold restoring, catch. destruct (follow_up op (reconf c' b)) as [[[]|e] b'] eqn:E.
  - exists c'. done.
  - erewrite bind_Ok by apply put_config_run. split; [done|]. by exists e.
Qed.

(** C25: every day-2 operation on subscribers, data networks, slices and areas is a transaction on
    the configuration.  When it returns, the configuration is the one the operation asks for; when
    it raises, whether because the request is refused or because updating the core, the areas or
    the GNBs failed, the configuration is the one before; and a refused request leaves no trace at
    all.  An accepted request whose follow-up succeeds does return. *)
Theorem day2_applies_or_restores op c b :
  methods_contract → with_config c b → lists_present c →
  match run op b with
  | (Ok _, b') => ∃ c', apply op c = Some c' ∧ with_config c' b' ∧ follow_up op (reconf c' b) = (Ok tt, b')
  | (Raise _, b') =>
      with_config c b' ∧
      match apply op c with
      | None => b' = b
      | Some c' => ∃ e, (follow_up op (reconf c' b)).1 = Raise e
      end
  end.
Proof. apply run_outcome. Qed.

Fixpoint run_all (ops : list day2) b : list bool * Blue5G X :=
  match ops with
  | [] => ([], b)
  | op :: ops' =>
      let '(r, b1) := run op b in
      let '(l, b2) := run_all ops' b1 in
      (match r with Ok _ => true | Raise _ => false end :: l, b2)
  end.

(** C26: whatever day-2 operations are tried, in whatever order and whichever of them fail, the
    configuration ends as the operations that returned made it one after the other, and it stays
    well formed: no two subscribers with one IMSI, no two data networks, slices or areas with one
    identifier, no data network in two slices. *)
Theorem configuration_stays_well_formed ops c b :
  methods_contract → with_config c b → config_ok c → Forall op_ok ops →
  let '(flags, b') := run_all ops b in
  with_config (replay (zip ops flags) c) b' ∧ config_ok (replay (zip ops flags) c).
Proof.
  intros Hc Hb Hok Hops. revert c b Hb Hok. induction Hops as [|op ops Hop Hops IH]; intros c b Hb Hok; [done|].
  simpl. pose proof (run_outcome op c b Hc Hb (ok_lists c Hok)) as Hr. unfold outcome in Hr.
  destruct (run op b) as [[[]|e] b1].
  - destruct Hr as (c' & Hc' & Hb1 & _). pose proof (apply_ok op c c' Hop Hok Hc') as Hok'.
    specialize (IH c' b1 Hb1 Hok'). destruct (run_all ops b1) as [flags b']. simpl. by rewrite Hc'.
  - destruct Hr as [Hb1 _]. specialize (IH c b1 Hb1 Hok). by destruct (run_all ops b1).
Qed.

End props.

(** ** The methods of the class itself *)
Section generic_methods.
Context {X : Type} `{!Surroundings X} `{!Core5G X}.
Implicit Types (b : Blue5G X).
Lemma generic_contract : core_contract → methods_contract.
Proof.
  intros Hc op c c' _. change (with_config c') with (kept (X := X) current_config (Some c')). destruct op; cbn.
  all: first [apply (kept_core Hc)|apply (kept_update_all Hc)]; by intros.
Qed.

(** ** The areas that are deployed *)
Definition edge_of (k : string) b : option EdgeAreaInfo := od_get k (edge_areas (st b)).

(** The slices an area offers, with the data networks of each. *)
Definition offered (id : Z) (c : Create5gModel) : result (list SliceModel) :=
  profiles ← get_slices_profiles_for_area id c;
  map_result (λ p, from_slice_profile p (data_nets (network_endpoints (config c)))) profiles.

(** The area has its router and its UPF, and the UPF has the configuration of the area. *)
Definition up_to_date (c : Create5gModel) (id : Z) (e : EdgeAreaInfo) : Prop :=
  ∃ r u, edge_router e = Some r ∧ edge_upf e = Some u ∧
    upf_area_id (upf_current_config u) = id ∧
    offered id c = Ok (upf_slices (upf_current_config u)) ∧
    n3_gateway_ip (upf_current_config u) = n3_ip (router_network r) ∧
    n6_gateway_ip (upf_current_config u) = n6_ip (router_network r).

(** *** What a read returned *)
Lemma get_config_inv b b' c : get_config b = (Ok c, b') → b' = b ∧ with_config c b.
Proof.
  unfold with_config. destruct (current_config (st b)) as [c1|] eqn:E.
  - rewrite (get_config_run c1 b E). by intros [= -> ->].
  - by rewrite (no_config_run b E).
Qed.
Lemma get_st_inv b b' s : get_st b = (Ok s, b') → b' = b ∧ s = st b.
Proof. by intros [= <- <-]. Qed.
Lemma get_edge_inv k b b' e : get_edge k b = (Ok e, b') → b' = b ∧ edge_of k b = Some e.
Proof.
  unfold get_edge, edge_of. erewrite bind_Ok by reflexivity. unfold liftR, od_getitem.
  destruct (od_get _ _); [|done]. by intros [= -> ->].
Qed.
Lemma attr_inv {A} (o : option A) b b' a : attr o b = (Ok a, b') → b' = b ∧ o = Some a.
Proof. destruct o; [by intros [= -> ->]|done]. Qed.
Lemma field_inv {A} (o : option A) b b' a : field o b = (Ok a, b') → b' = b ∧ o = Some a.
Proof. destruct o; [by intros [= -> ->]|done]. Qed.
Lemma liftR_inv {A} (r : result A) b b' a : liftR r b = (Ok a, b') → b' = b ∧ r = Ok a.
Proof. by intros [= -> ->]. Qed.
Lemma ret_inv {A} (x : A) b b' a : mret (M:=M (Blue5G X)) x b = (Ok a, b') → b' = b ∧ x = a.
Proof. by intros [= -> ->]. Qed.

Ltac inv_ok H :=
  match type of H with
  | (_ ≫= _) _ = (Ok _, _) =>
      let H' := fresh "H" in
      apply bind_Ok_inv in H as (? & ? & H' & H); first [inv_ok H'|idtac]; cbv zeta beta in H; inv_ok H
  | get_config _ = (Ok _, _) => apply get_config_inv in H as [? ?]; subst
  | get_st _ = (Ok _, _) => apply get_st_inv in H as [? ?]; subst
  | get_edge _ _ = (Ok _, _) => apply get_edge_inv in H as [? ?]; subst
  | attr _ _ = (Ok _, _) => apply attr_inv in H as [? ?]; subst
  | field _ _ = (Ok _, _) => apply field_inv in H as [? ?]; subst
  | liftR _ _ = (Ok _, _) => apply liftR_inv in H as [? ?]; subst
  | mret _ _ = (Ok _, _) => apply ret_inv in H as [? ?]; subst
  | _ => idtac
  end.

Section edges.
Context (Hc : core_contract).

Lemma same_edges {A} (m : M (Blue5G X) A) b r b' :
  (∀ v, preserves (kept edge_areas v) m) → m b = (r, b') → edge_areas (st b') = edge_areas (st b).
Proof. intros Hm E. specialize (Hm _ b eq_refl). by rewrite E in Hm. Qed.

Lemma same_config {A} (m : M (Blue5G X) A) c b r b' :
  (∀ v, preserves (kept current_config v) m) → with_config c b → m b = (r, b') → with_config c b'.
Proof. intros Hm Hb E. specialize (Hm _ b Hb). by rewrite E in Hm. Qed.

Lemma upf_config_inv id c b cfg b' :
  with_config c b → _create_upf_config id b = (Ok cfg, b') →
  upf_area_id cfg = id ∧ offered id c = Ok (upf_slices cfg) ∧
  ∃ e r, edge_of (area_key id) b = Some e ∧ edge_router e = Some r ∧
    n3_gateway_ip cfg = n3_ip (router_network r) ∧ n6_gateway_ip cfg = n6_ip (router_network r).
Proof.
  intros Hb E. unfold _create_upf_config in E. inv_ok E.
  unfold with_config in *. simplify_eq. simpl. split; [done|].
  split; [|by do 2 eexists]. unfold offered. unfold mbind, result_bind. by rewrite H1.
Qed.

Lemma upfs_info_inv id uid cfg b u b' :
  get_upfs_info id uid cfg b = (Ok u, b') → upf_current_config u = cfg ∧ edge_areas (st b') = edge_areas (st b).
Proof.
  intros E. split; [|by eapply same_edges, E; intros v; apply (kept_upfs_info edge_areas v)].
  unfold get_upfs_info in E. by inv_ok E.
Qed.

(** What an update of one area does to the table. *)
Definition area_done (c : Create5gModel) (id : Z) b b' : Prop :=
  with_config c b' ∧
  ∃ e, edge_areas (st b') = od_set (area_key id) e (edge_areas (st b)) ∧ up_to_date c id e.

Lemma put_edge_inv k e b r b' : put_edge k e b = (r, b') → edge_areas (st b') = od_set k e (edge_areas (st b)).
Proof. by intros [= <- <-]. Qed.

Lemma ext_edges {A} (m : M X A) b r b' : on_ext m b = (r, b') → edge_areas (st b') = edge_areas (st b).
Proof. apply same_edges. intros v. apply kept_ext. Qed.

Lemma upf_config_edges id b r b' : _create_upf_config id b = (r, b') → edge_areas (st b') = edge_areas (st b).
Proof. apply same_edges. intros v. by apply (kept_upf_config Hc edge_areas v). Qed.

Lemma refresh_run a c b b' :
  with_config c b → refresh_edge_area a b = (Ok tt, b') → area_done c (area_id a) b b'.
Proof.
  intros Hb E. split; [by eapply same_config, E; [intros v; by apply kept_refresh|]|].
  unfold refresh_edge_area in E. inv_ok E.
  destruct (upf_config_inv _ _ _ _ _ Hb H) as (Hid & Ho & e' & r & He & Hr & Hg3 & Hg6).
  apply upf_config_edges in H. assert (e' = x) as -> by congruence.
  destruct (decide _) as [<-|_]; inv_ok E.
  - exists x. rewrite od_set_same by done. split; [congruence|]. by exists r, x2.
  - apply upfs_info_inv in H3 as [Hu Hx2]. apply ext_edges in H1. apply put_edge_inv in E.
    unfold edge_of in *. assert (x7 = x) as -> by congruence.
    exists (set_upf x5 x). split; [congruence|]. exists r, x5. by rewrite Hu.
Qed.

Lemma deploy_upf_inv id t c b u b' :
  with_config c b → deploy_upf_blueprint id t b = (Ok u, b') →
  edge_areas (st b') = edge_areas (st b) ∧
  ∀ e r, edge_of (area_key id) b = Some e → edge_router e = Some r →
    up_to_date c id (set_upf u e).
Proof.
  intros Hb E. split; [by eapply same_edges, E; intros v; apply (kept_deploy_upf Hc edge_areas v)|].
  intros e r He Hr. unfold deploy_upf_blueprint in E. inv_ok E.
  destruct (upf_config_inv _ _ _ _ _ Hb H) as (Hid & Ho & e' & r' & He' & Hr' & Hg3 & Hg6).
  apply upfs_info_inv in E as [Hu _]. exists r, u. rewrite Hu. by simplify_eq.
Qed.

Lemma deploy_run a c b b' :
  with_config c b → deploy_edge_area a b = (Ok tt, b') → area_done c (area_id a) b b'.
Proof.
  intros Hb E. split; [by eapply same_config, E; [intros v; by apply kept_deploy|]|].
  unfold deploy_edge_area in E. inv_ok E.
  pose proof (same_config _ c _ _ _ (λ v, kept_put_edge current_config v (λ _ _ _, eq_refl) _ _) Hb H) as Hb0.
  assert (Hr : with_config c x2 ∧ edge_areas (st x2) = edge_areas (st x0)).
  { destruct (external_router _); [by inv_ok H0|]. split.
    - eapply same_config, H0; [|done]. intros v. by apply kept_deploy_router.
    - eapply same_edges, H0. intros v. by apply kept_deploy_router. }
  destruct Hr as [Hb2 Hx2].
  pose proof (same_config _ c _ _ _ (λ v, kept_put_edge current_config v (λ _ _ _, eq_refl) _ _) Hb2 H1) as Hb5.
  destruct (deploy_upf_inv _ _ _ _ _ _ Hb5 H3) as [Hx7 Hup]. apply put_edge_inv in H, H1, E.
  unfold edge_of in *. rewrite Hx7, H1, od_get_set_eq in H5. injection H5 as <-.
  exists (set_upf x6 (set_router x1 x3)). rewrite E, Hx7, H1, Hx2, H, !od_set_set. split; [done|].
  apply (Hup (set_router x1 x3) x1); [|done]. by rewrite H1, od_get_set_eq.
Qed.

Lemma area_run a c b b' :
  with_config c b → update_edge_area a b = (Ok tt, b') → area_done c (area_id a) b b'.
Proof.
  intros Hb E. unfold update_edge_area in E. inv_ok E.
  assert (Hd : area_done c (area_id a) b x0) by
    (destruct (od_in _ _); destruct x; [by apply refresh_run|by apply deploy_run]).
  destruct Hd as (Hb0 & e & He & Hu). split.
  - eapply same_config, E; [|done]. intros v. apply kept_route.
  - exists e. split; [|done]. rewrite <-He. eapply same_edges, E. intros v. apply kept_route.
Qed.

(** *** All the areas *)
Definition deployed_ids (ids : list Z) (c : Create5gModel) b : Prop :=
  ∀ id, id ∈ ids → ∃ e, edge_of (area_key id) b = Some e ∧ up_to_date c id e.

Lemma area_key_inj i j : area_key i = area_key j → i = j.
Proof. intros H. unfold area_key in H. by apply (inj pretty) in H. Qed.

Lemma areas_run l c b b' ids :
  with_config c b → deployed_ids ids c b → for_each l update_edge_area b = (Ok tt, b') →
  with_config c b' ∧ deployed_ids (ids ++ (area_id <$> l)) c b'.
Proof.
  revert b ids. induction l as [|a l IH]; intros b ids Hb Hids E.
  - injection E as <-. by rewrite fmap_nil, app_nil_r.
  - cbn [for_each] in E. inv_ok E. destruct x. destruct (area_run _ _ _ _ Hb H) as (Hb0 & e & He & Hu).
    rewrite fmap_cons. replace (ids ++ area_id a :: (area_id <$> l)) with ((ids ++ [area_id a]) ++ (area_id <$> l))
      by by rewrite <-app_assoc.
    apply (IH _ _ Hb0); [|done]. intros id [Hid|Hid%list_elem_of_singleton]%elem_of_app; unfold edge_of.
    + rewrite He. destruct (decide (id = area_id a)) as [->|Hne]; [rewrite od_get_set_eq; by exists e|].
      rewrite od_get_set_ne by (intros Hk%area_key_inj; done). by apply Hids.
    + subst id. rewrite He, od_get_set_eq. by exists e.
Qed.

Definition keys_ok b : Prop := NoDup (od_keys (edge_areas (st b))).

Lemma areas_keys_ok l c b b' :
  with_config c b → keys_ok b → for_each l update_edge_area b = (Ok tt, b') → keys_ok b'.
Proof.
  revert b. induction l as [|a l IH]; intros b Hb Hk E; [by injection E as <-|].
  cbn [for_each] in E. inv_ok E. destruct x. destruct (area_run _ _ _ _ Hb H) as (Hb0 & e & He & Hu).
  apply (IH _ Hb0); [|done]. unfold keys_ok. rewrite He. by apply od_keys_set_NoDup.
Qed.

Lemma delete_run k b b' :
  delete_edge_area k b = (Ok tt, b') → edge_areas (st b') = od_pop k (edge_areas (st b)).
Proof.
  intros E. unfold delete_edge_area in E. inv_ok E.
  assert (Hx2 : edge_areas (st x2) = edge_areas (st b)).
  { destruct (router_external x0); inv_ok H; [reflexivity|]. eapply same_edges, H. intros v. apply kept_undeploy_router. }
  assert (Hx5 : edge_areas (st x5) = edge_areas (st x2))
    by (eapply same_edges, H2; intros v; apply kept_undeploy_upf).
  injection E as <-. simpl. congruence.
Qed.

Lemma deletes_run l b b' :
  keys_ok b → for_each l delete_edge_area b = (Ok tt, b') →
  ∀ k, edge_of k b' = if py_in String.eqb k l then None else edge_of k b.
Proof.
  revert b. induction l as [|k0 l IH]; intros b Hk E k; [by injection E as <-|].
  cbn [for_each] in E. inv_ok E. destruct x. apply delete_run in H.
  rewrite (IH x0); [|by unfold keys_ok; rewrite H; apply od_keys_pop_NoDup|done].
  unfold edge_of. rewrite H, od_get_pop by done.
  change (py_in String.eqb k (k0 :: l)) with (String.eqb k0 k || py_in String.eqb k l).
  by destruct (String.eqb k0 k), (py_in String.eqb k l).
Qed.

Lemma to_delete k deployed l :
  (∀ l, Permutation (set_order l) l) →
  py_in String.eqb k (areas_to_delete deployed l) =
    bool_decide (k ∈ deployed) && negb (bool_decide (k ∈ area_key <$> (area_id <$> l))).
Proof.
  intros Hset. apply eq_bool_prop_intro. rewrite andb_True, negb_True, !bool_decide_spec, !Is_true_true.
  unfold areas_to_delete. rewrite py_in_String, Hset, list_elem_of_In, filter_In, <-list_elem_of_In.
  rewrite <-list_fmap_compose, negb_true_iff, <-not_true_iff_false, py_in_String. done.
Qed.

(** C32: when an update of the edge areas returns, the areas deployed are exactly those of the
    configuration: every area of the configuration has its router and its UPF, the UPF having the
    slices, the data networks and the gateways of the area, and every other area is gone. *)
Theorem edge_areas_follow_the_configuration c b b' :
  (∀ l, Permutation (set_order l) l) → with_config c b → NoDup (od_keys (edge_areas (st b))) →
  update_edge_areas b = (Ok tt, b') →
  (∀ k, k ∈ od_keys (edge_areas (st b')) ↔ k ∈ area_key <$> (area_id <$> areas c)) ∧
  ∀ id, id ∈ area_id <$> areas c → ∃ e, edge_of (area_key id) b' = Some e ∧ up_to_date c id e.
Proof.
  intros Hset Hb Hk E. unfold update_edge_areas in E. inv_ok E. destruct x0.
  assert (Hids : deployed_ids [] c b) by by intros ? ?%not_elem_of_nil.
  destruct (areas_run _ _ _ _ [] Hb Hids H) as [Hb1 Hd]. simpl in Hd.
  pose proof (areas_keys_ok _ _ _ _ Hb Hk H) as Hk1.
  unfold with_config in *. assert (x2 = c) as -> by congruence. assert (x = c) as -> by congruence.
  pose proof (deletes_run _ _ _ Hk1 E) as Hfin. setoid_rewrite to_delete in Hfin; [|done..]. split.
  - intros k. rewrite <-od_in_keys. unfold od_in. fold (edge_of k b'). rewrite Hfin.
    destruct (decide (k ∈ area_key <$> (area_id <$> areas c))) as [Hin|Hout].
    + rewrite (bool_decide_true _ Hin), andb_false_r. split; [done|]. intros _.
      apply list_elem_of_fmap in Hin as (id & -> & Hid). by destruct (Hd id Hid) as (e & -> & _).
    + rewrite (bool_decide_false _ Hout), andb_true_r. split; [|done].
      case_bool_decide as Hx; [done|]. unfold edge_of. by rewrite (proj2 (od_get_None _ _) Hx).
  - intros id Hid. rewrite Hfin, (bool_decide_true (area_key id ∈ area_key <$> (area_id <$> areas c))),
      andb_false_r; [by apply Hd|].
    by apply list_elem_of_fmap_2.
Qed.

(** *** An area whose router was never deployed *)
Definition stuck (k : string) b : Prop := ∃ e, edge_of k b = Some e ∧ edge_router e = None.

Lemma stuck_kept {A} k (m : M (Blue5G X) A) : (∀ v, preserves (kept edge_areas v) m) → preserves (stuck k) m.
Proof.
  intros Hm b (e & He & Hr). exists e. split; [|done]. unfold edge_of.
  by rewrite (Hm (edge_areas (st b)) b eq_refl).
Qed.

Lemma stuck_put_edge k k' e : k' ≠ k → preserves (stuck k) (put_edge k' e).
Proof.
  intros Hne b (e' & He & Hr). exists e'. split; [|done]. unfold edge_of. simpl.
  by rewrite od_get_set_ne.
Qed.

Lemma stuck_upf_config id b :
  stuck (area_key id) b → ∃ e b', _create_upf_config id b = (Raise e, b').
Proof.
  intros (e & He & Hr). destruct (_create_upf_config id b) as [[cfg|x] b'] eqn:E; [|by exists x, b'].
  exfalso. destruct (current_config (st b)) as [c|] eqn:Hb.
  - destruct (upf_config_inv _ _ _ _ _ Hb E) as (_ & _ & e' & r & He' & Hr' & _). congruence.
  - unfold _create_upf_config in E. by rewrite (bind_Raise _ _ _ _ _ (no_config_run b Hb)) in E.
Qed.

Lemma stuck_hit a b :
  stuck (area_key (area_id a)) b →
  ∃ x b', update_edge_area a b = (Raise x, b') ∧ edge_areas (st b') = edge_areas (st b).
Proof.
  intros Hs. destruct (stuck_upf_config _ _ Hs) as (x & b' & E). destruct Hs as (e & He & Hr).
  exists x, b'. split; [|by apply upf_config_edges in E]. unfold update_edge_area.
  erewrite bind_Ok by reflexivity. unfold edge_of in He. unfold od_in. rewrite He.
  erewrite bind_Raise; [done|]. unfold refresh_edge_area. cbv zeta. erewrite bind_Ok; [|].
  - by erewrite bind_Raise.
  - unfold get_edge. erewrite bind_Ok by reflexivity. unfold liftR, od_getitem. by rewrite He.
Qed.

Ltac stuck_steps :=
  cbv zeta; repeat match goal with
  | |- preserves _ (_ ≫= _) => apply preserves_bind; [|intros ?]
  | |- preserves _ (if ?b then _ else _) => destruct b
  | |- preserves _ (match ?x with _ => _ end) => destruct x
  | |- preserves _ (put_edge _ _) => by apply stuck_put_edge
  end.

Lemma stuck_area k a : preserves (stuck k) (update_edge_area a).
Proof.
  destruct (decide (area_key (area_id a) = k)) as [<-|Hne].
  - intros b Hs. destruct (stuck_hit a b Hs) as (x & b' & -> & Hb'). destruct Hs as (e & He & Hr).
    exists e. unfold edge_of. cbn [snd]. by rewrite Hb'.
  - unfold update_edge_area, refresh_edge_area, deploy_edge_area. stuck_steps.
    all: apply stuck_kept; intros v; first
      [apply kept_get_st|apply kept_get_edge|by apply kept_upf_config|apply kept_attr|by apply kept_deploy_upf
      |apply preserves_ret|apply kept_ext|apply kept_upfs_info|apply kept_deploy_router|apply kept_route].
Qed.

Lemma stuck_delete_hit k b : stuck k b → ∃ x, delete_edge_area k b = (Raise x, b).
Proof.
  intros (e & He & Hr). exists AttributeError. unfold delete_edge_area, get_edge.
  erewrite bind_Ok; [|erewrite bind_Ok by reflexivity; unfold liftR, od_getitem; unfold edge_of in He; by rewrite He].
  rewrite Hr. by erewrite bind_Raise by reflexivity.
Qed.

Lemma stuck_delete k k' : preserves (stuck k) (delete_edge_area k').
Proof.
  destruct (decide (k' = k)) as [->|Hne].
  - intros b Hs. by destruct (stuck_delete_hit k b Hs) as [x ->].
  - unfold delete_edge_area. stuck_steps.
    all: try (apply stuck_kept; intros v; first
      [apply kept_get_edge|apply kept_attr|apply preserves_ret|apply preserves_liftR|apply kept_undeploy_router
      |apply kept_undeploy_upf]).
    intros b (e & He & Hr). exists e. split; [|done]. unfold edge_of. simpl. by rewrite od_get_pop_ne.
Qed.

Lemma stuck_update_edges k : preserves (stuck k) update_edge_areas.
Proof.
  unfold update_edge_areas. stuck_steps.
  all: first [apply preserves_for_each; intros ?; first [apply stuck_area|apply stuck_delete]
             |apply stuck_kept; intros v; first [apply kept_get_config|apply kept_get_st]].
Qed.

Lemma stuck_update_raises k b :
  (∀ l, Permutation (set_order l) l) → stuck k b → ∃ x, (update_edge_areas b).1 = Raise x.
Proof.
  intros Hset Hs. unfold update_edge_areas. destruct (current_config (st b)) as [c|] eqn:Hb;
    [|rewrite (bind_Raise _ _ _ _ _ (no_config_run b Hb)); by eexists].
  rewrite (bind_Ok _ _ _ _ _ (get_config_run c b Hb)).
  destruct (decide (k ∈ area_key <$> (area_id <$> areas c))) as [Hin|Hout].
  - destruct (for_each_raises (stuck k) (λ a, area_key (area_id a) = k) (areas c) update_edge_area b)
      as [x Hx]; [by apply stuck_area|..|done| |].
    + intros a b1 <- Hs1. destruct (stuck_hit a b1 Hs1) as (x & b2 & -> & _). by exists x.
    + apply Exists_exists. apply list_elem_of_fmap in Hin as (i & -> & Hin).
      apply list_elem_of_fmap in Hin as (a & -> & Ha). by exists a.
    + exists x. destruct (for_each _ _ b) as [r b1] eqn:E. simpl in Hx. subst r. by erewrite bind_Raise.
  - pose proof (preserves_for_each (stuck k) (areas c) update_edge_area (stuck_area k) b Hs) as Hs1.
    pose proof (λ v, preserves_for_each (kept current_config v) (areas c) update_edge_area
      (λ a, kept_edge_area Hc current_config v ltac:(by intros) ltac:(by intros) a)) as Hkc.
    destruct (for_each _ _ b) as [[[]|x] b1] eqn:E; [|exists x; by erewrite bind_Raise].
    rewrite (bind_Ok _ _ _ _ _ E). pose proof (same_config _ c _ _ _ Hkc Hb E) as Hb1.
    rewrite (bind_Ok _ _ _ _ _ (get_config_run c b1 Hb1)). erewrite bind_Ok by reflexivity.
    apply (for_each_raises (stuck k) (λ k', k' = k)); [apply stuck_delete|..|done|].
    + intros k' b2 -> Hs2. destruct (stuck_delete_hit k b2 Hs2) as [x ->]. by exists x.
    + apply Exists_exists. exists k. split; [|done]. apply py_in_String. rewrite to_delete by done.
      rewrite (bool_decide_false _ Hout), bool_decide_true; [done|]. destruct Hs1 as (e & He & _).
      apply od_in_keys. unfold od_in. unfold edge_of in He. simpl in He. by rewrite He.
Qed.

Lemma stuck_follow_up op k : preserves (stuck k) (follow_up op).
Proof.
  destruct op; simpl; try (apply stuck_kept; intros v; apply (kept_core Hc); by intros);
    unfold update_all; stuck_steps; first [apply stuck_update_edges
      |apply stuck_kept; intros v; first [apply (kept_core Hc); by intros|apply kept_gnb_config; by intros]].
Qed.

(** The operations that update the edge areas. *)
Definition on_areas (op : day2) : bool :=
  match op with AddUe _ | DelUe _ | AddDnn _ | DelDnn _ => false | _ => true end.

Lemma stuck_run op c b k :
  (∀ l, Permutation (set_order l) l) → with_config c b → lists_present c → stuck k b →
  stuck k (run op b).2 ∧ (on_areas op = true → ∃ x, (run op b).1 = Raise x).
Proof.
  intros Hset Hb Hl Hs. pose proof (run_transaction op c b Hb Hl) as Ht. unfold transaction in Ht.
  destruct (apply op c) as [c'|]; [|destruct Ht as [e ->]; split; [done|by exists e]]. rewrite Ht.
  assert (Hs' : stuck k (reconf c' b)) by exact Hs.
  pose proof (stuck_follow_up op k _ Hs') as Hf. unfold restoring, catch.
  assert (Hr : on_areas op = true → ∃ x, (follow_up op (reconf c' b)).1 = Raise x).
  { destruct (stuck_update_raises k _ Hset Hs') as [x Hx]. destruct (update_edge_areas _) as [r b1] eqn:E.
    simpl in Hx. subst r. intros Hop. exists x.
    destruct op; try done; simpl; unfold update_all; by erewrite bind_Raise by exact E. }
  destruct (follow_up op (reconf c' b)) as [[[]|e] b1].
  - split; [done|]. intros Hop. by destruct (Hr Hop).
  - erewrite bind_Ok by apply put_config_run. split; [exact Hf|]. intros _. by exists e.
Qed.

(** An area whose router was never deployed, which is what a failed [day2_add_tac] leaves
    behind, blocks the blueprint for good: its entry stays, and every later operation on slices or
    areas raises, including the one that would remove the area. *)
Theorem failed_area_blocks_the_blueprint ops c b k :
  (∀ l, Permutation (set_order l) l) → with_config c b → config_ok c → Forall op_ok ops → stuck k b →
  stuck k (run_all ops b).2 ∧ Forall2 (λ op f, on_areas op = true → f = false) ops (run_all ops b).1.
Proof.
  intros Hset Hb Hok Hops. revert c b Hb Hok.
  induction Hops as [|op ops Hop Hops IH]; intros c b Hb Hok Hs; [by split; [|constructor]|].
  simpl. destruct (stuck_run op c b k Hset Hb (ok_lists c Hok) Hs) as [Hs1 Hr].
  pose proof (run_outcome op c b (generic_contract Hc) Hb (ok_lists c Hok)) as Ho. unfold outcome in Ho.
  destruct (run op b) as [r b1]. simpl in *.
  assert (∃ c1, with_config c1 b1 ∧ config_ok c1) as (c1 & Hb1 & Hok1).
  { destruct r as [[]|e]; [|by exists c; destruct Ho]. destruct Ho as (c' & Hc' & Hb1 & _).
    exists c'. split; [done|]. by eapply apply_ok. }
  specialize (IH c1 b1 Hb1 Hok1 Hs1). destruct (run_all ops b1) as [flags b2]. destruct IH as [IH1 IH2].
  split; [done|]. simpl. constructor; [|done]. intros Hop'. by destruct (Hr Hop') as [x ->].
Qed.
End edges.
End generic_methods.

(** ** Slice identifiers in the GNBs *)

(** The identifier of a slice, six hexadecimal digits, goes through an integer field of the
    configuration of a GNB and is compared again as text.  For decimal identifiers this loses
    nothing: the UPFs found for the slice of the GNB are exactly those that serve it.  Identifiers
    with a letter, which the models accept, are refused when the GNB is configured. *)
Theorem gnb_slice_identifiers s :
  String.length (area_sliceId s) = 6%nat → all_chars is_hex (area_sliceId s) = true →
  if all_chars is_digit (area_sliceId s) then
    ∃ g, gnb_slice s = Ok g ∧ to_int (area_sliceType s) = Some (sst g) ∧
      ∀ d, serves (pretty (sd g)) d = true ↔ ∃ x, x ∈ served_slices d ∧ slice_id x = area_sliceId s
  else gnb_slice s = Raise ValidationError.
Proof.
  intros Hl Hh. destruct (all_chars is_digit (area_sliceId s)) eqn:Hd.
  - destruct (decimal_id_roundtrip _ Hl Hd) as (v & Hv & Hr).
    assert (∃ t, to_int (area_sliceType s) = Some t) as [t Ht] by (destruct (area_sliceType s); by eexists).
    exists {| sst := t; sd := v |}. unfold gnb_slice, mbind, result_bind. rewrite Hv, Ht. split_and!; [done..|].
    intros d. unfold serves. cbn [sd]. rewrite Hr, existsb_exists. setoid_rewrite list_elem_of_In.
    by setoid_rewrite String.eqb_eq.
  - unfold gnb_slice, mbind, result_bind. by rewrite letters_refused.
Qed.

Example gnb_slice_identifiers_witness :
  gnb_slice {| area_sliceType := EMBB; area_sliceId := "00000A" |} = Raise ValidationError ∧
  ∃ g, gnb_slice {| area_sliceType := URLLC; area_sliceId := "000010" |} = Ok g.
Proof.
  split.
  - apply (gnb_slice_identifiers {| area_sliceType := EMBB; area_sliceId := "00000A" |}); done.
  - pose proof (gnb_slice_identifiers {| area_sliceType := URLLC; area_sliceId := "000010" |} eq_refl eq_refl)
      as (g & Hg & _). by exists g.
Defined.

(** ** A concrete blueprint *)
Module Concrete.
(** The number of blueprints created, and whether routers can still be deployed. *)
Record Lab := { made : Z; broken : bool }.

Definition lab_create (l : Lab) : result string * Lab :=
  (Ok ("blue" +:+ pretty (made l)), {| made := made l + 1; broken := broken l |}).
Definition lab_network : Router5GNetworkInfo :=
  {| n3_ip := 168427521; n6_ip := 168427777; gnb_ip := 168428033;
     gnb_cidr := {| network_address := 168428032; prefixlen := 24 |} |}.
Definition lab_upf : DeployedUPFInfo :=
  let net := {| network_address := 168427520; prefixlen := 24 |} in
  {| deployed_area := 1;
     served_slices := [{| slice_id := "000001"; slice_type := EMBB;
                          dnn_list := [{| dnn_name := Some "internet"; dnn_cidr := Some "10.1.0.0/24" |}] |}];
     network_info := Some {| n4_cidr := net; n3_cidr := net; n6_cidr := net; upf_n4_ip := 168427530;
                             upf_n3_ip := 168427531; upf_n6_ip := 168427532 |};
     vm_resource_id := "vm"; vm_configurator_id := "conf" |}.
Definition lab_pdu (area : Z) : PduModel :=
  {| pdu_name := "gnb" +:+ pretty area; pdu_area := area; pdu_type := GNB; instance_type := "UERANSIM";
     description := None; network_interfaces := []; username := None; password := None;
     become_password := None; NetworkModels.config := []; locked_by := None |}.

#[export] Instance lab_surroundings : Surroundings Lab := {
  create_router _ := λ l, if broken l then (Raise BlueprintNGException, l) else lab_create l;
  create_upf _ _ := lab_create;
  delete_blueprint _ := mret tt;
  call_router_info _ := mret (Some lab_network);
  call_add_routes _ _ := mret tt;
  call_upf_update _ _ := mret tt;
  call_upfs_info _ := mret (Some [lab_upf]);
  find_gnb area := mret (lab_pdu area);
  is_pdu_locked_by_current_blueprint _ := true;
  lock_pdu _ := mret tt;
  unlock_pdu _ := mret tt;
  find_by_name _ := mret (lab_pdu 1);
  get_pdu_configurator _ := mret tt;
  configure _ _ := mret tt;
  set_order l := l
}.

#[export] Instance lab_core : Core5G Lab := {
  create_5g _ := mret tt;
  update_core := mret tt;
  wait_core_ready := mret tt;
  get_amf_ip := mret "10.0.0.1";
  get_nrf_ip := mret "10.0.0.2"
}.

Definition lab_slice : SubSliceProfiles :=
  {| sliceId := "000001"; sliceType := EMBB; dnnList := ["internet"];
     profileParams := {| isolationLevel := NO_ISOLATION; sliceAmbr := None; ueAmbr := None;
                         maximumNumberUE := None; pduSessions := [] |};
     locationConstraints := []; enabledUEList := [] |}.
Definition lab_area (id : Z) : SubArea :=
  {| area_id := id; nci := "0"; idLength := 32; core := false;
     upf := {| upf_type := "sdcore_upf"; upf_external := None |};
     networks := {| n3 := Some "n3"; n6 := Some "n6"; gnb := Some "gnb"; external_router := None |};
     slices := Some [{| area_sliceType := EMBB; area_sliceId := "000001" |}] |}.
Definition lab_config : Create5gModel :=
  {| callbackURL := None;
     config := {| network_endpoints := {| mgt := Some "mgt"; wan := Some "wan";
                    data_nets := [{| net_name := "internet"; dnn := "internet"; dns := "8.8.8.8";
                                     pools := [{| pool_cidr := "10.1.0.0/24" |}]; uplinkAmbr := None;
                                     downlinkAmbr := None; default5qi := None |}] |};
                  plmn := "00101"; sliceProfiles := Some [lab_slice]; subscribers := [] |};
     areas := [lab_area 1] |}.
Definition lab_start : Blue5G Lab :=
  {| st := {| current_config := Some lab_config; edge_areas := []; ran_areas := [];
              core_deployed := false |};
     children := []; ext := {| made := 0; broken := false |} |}.

Lemma lab_contract : core_contract (X := Lab).
Proof. by split. Qed.

Lemma lab_config_ok : config_ok lab_config.
Proof.
  split; vm_compute; repeat constructor; set_solver.
Qed.

(** The blueprint with its area deployed, and after a second area failed for want of a router. *)
Definition lab_deployed : Blue5G Lab := (update_edge_areas lab_start).2.
Definition lab_broken : Blue5G Lab :=
  set_ext {| made := 2; broken := true |} lab_deployed.
Definition lab_stuck : Blue5G Lab := (day2_add_tac (lab_area 2) lab_broken).2.

Example lab_runs :
  (update_edge_areas lab_start).1 = Ok tt ∧
  (day2_add_tac (lab_area 2) lab_deployed).1 = Ok tt ∧
  (run_all [AddTac (lab_area 2); DelTac 1; DelTac 2] lab_deployed).1 = [true; true; true] ∧
  (day2_add_tac (lab_area 2) lab_broken).1 = Raise BlueprintNGException ∧
  (run_all [AddTac (lab_area 2); DelSlice "000001"; DelTac 2; DelTac 1]
     (set_ext {| made := 2; broken := false |} lab_stuck)).1 = [false; false; false; false].
Proof. by vm_compute. Qed.

Example day2_applies_or_restores_witness :
  with_config lab_config lab_broken ∧
  match run (AddTac (lab_area 2)) lab_broken with
  | (Ok _, _) => False
  | (Raise _, b') => with_config lab_config b'
  end.
Proof.
  split; [by vm_compute|].
  pose proof (day2_applies_or_restores (AddTac (lab_area 2)) lab_config lab_broken
    (generic_contract lab_contract) ltac:(by vm_compute) (ok_lists _ lab_config_ok)) as H.
  assert (Hr : ∃ b', run (AddTac (lab_area 2)) lab_broken = (Raise BlueprintNGException, b')) by (eexists; by vm_compute).
  destruct Hr as [b' Hr]. rewrite Hr in *. apply H.
Defined.

Example configuration_stays_well_formed_witness :
  let ops := [AddTac (lab_area 2); DelTac 1; DelTac 2] in
  config_ok (replay (zip ops (run_all ops lab_deployed).1) lab_config).
Proof.
  intros ops. pose proof (configuration_stays_well_formed ops lab_config lab_deployed (generic_contract lab_contract)
    ltac:(by vm_compute) lab_config_ok ltac:(repeat constructor; by eexists)) as H.
  destruct (run_all ops lab_deployed) as [flags b']. apply H.
Defined.

Example edge_areas_follow_the_configuration_witness :
  od_keys (edge_areas (st lab_deployed)) = ["1"] ∧
  ∀ k, k ∈ od_keys (edge_areas (st lab_deployed)) ↔ k ∈ area_key <$> (area_id <$> areas lab_config).
Proof.
  split; [by vm_compute|].
  apply (edge_areas_follow_the_configuration lab_contract lab_config lab_start lab_deployed).
  - done.
  - done.
  - constructor.
  - by vm_compute.
Defined.

Example failed_area_blocks_the_blueprint_witness :
  let b := set_ext {| made := 2; broken := false |} lab_stuck in
  stuck "2" (run_all [AddTac (lab_area 2); DelSlice "000001"; DelTac 2; DelTac 1] b).2.
Proof.
  intros b. apply (failed_area_blocks_the_blueprint lab_contract _ lab_config b "2").
  - done.
  - by vm_compute.
  - apply lab_config_ok.
  - repeat constructor; by eexists.
  - eexists. split; [by vm_compute|done].
Defined.
End Concrete.
