(* ===== verification/Horse.v ===== *)
(** * Mitigation requests of the HORSE project

    rest_endpoints/HORSE/horse.py and models/HORSE/horse_models.py: a mitigation, an Ansible
    playbook for a target, is applied by the orchestrator when the target is one of its machines
    and forwarded to the DOC module otherwise; whoever asked is told through a callback.

    HTTP, YAML, Ansible, the clock and the files are code outside the repository: an environment
    answers as a function of what happened before.  What the endpoints do to the outside, HTTP
    requests and playbook runs, is recorded in a trace. *)

From stdpp Require Import base list strings gmap pretty.
From Stdlib Require Import ZArith Lia Ascii SpecFloat.
From S2P Require Import Prelude IPv4Text Core5GModels Database.

Open Scope Z_scope.

(** ** YAML documents *)
Inductive yaml : Type :=
| YNull
| YBool (b : bool)
| YInt (z : Z)
| YFloat (f : spec_float)
| YStr (s : string)
| YDate (s : string)
| YList (l : list yaml)
| YMap (d : list (yaml * yaml)).

Definition is_key (k : string) (v : yaml) : bool := match v with YStr s => String.eqb s k | _ => false end.
(** The keys equal to [0]. *)
Definition is_zero (v : yaml) : bool :=
  match v with YInt 0 | YBool false | YFloat (S754_zero _) => true | _ => false end.

Definition map_getitem (p : yaml → bool) (d : list (yaml * yaml)) : result yaml :=
  match find (λ kv, p kv.1) d with Some (_, v) => Ok v | None => Raise KeyError end.

(** [v["k"]]. *)
Definition getitem_key (k : string) (v : yaml) : result yaml :=
  match v with YMap d => map_getitem (is_key k) d | _ => Raise TypeError end.

(** [v[0]]. *)
Definition getitem_0 (v : yaml) : result yaml :=
  match v with
  | YList l => py_getitem l 0
  | YStr (String c _) => Ok (YStr (String c EmptyString))
  | YStr EmptyString => Raise IndexError
  | YMap d => map_getitem is_zero d
  | _ => Raise TypeError
  end.

(** [for x in v]. *)
Definition yaml_iter (v : yaml) : result (list yaml) :=
  match v with
  | YList l => Ok l
  | YMap d => Ok d.*1
  | YStr s => Ok ((λ c, YStr (String c EmptyString)) <$> String.list_ascii_of_string s)
  | _ => Raise TypeError
  end.

(** ["k" in v]. *)
Definition yaml_in (k : string) (v : yaml) : result bool :=
  match v with
  | YMap d => Ok (existsb (λ kv, is_key k kv.1) d)
  | YList l => Ok (existsb (is_key k) l)
  | YStr s => Ok (str_contains k s)
  | _ => Raise TypeError
  end.

(** [int(f)] for a floating-point number: truncation. *)
Definition float_int (f : spec_float) : result Z :=
  match f with
  | S754_zero _ => Ok 0
  | S754_finite s m e =>
      let v := if 0 <=? e then Z.pos m * 2 ^ e else Z.pos m / 2 ^ (- e) in Ok (if s then - v else v)
  | S754_infinity _ => Raise OverflowError
  | S754_nan => Raise ValueError
  end.

(** [int(v)]. *)
Definition yaml_int (v : yaml) : result Z :=
  match v with
  | YBool b => Ok (if b then 1 else 0)
  | YInt z => Ok z
  | YFloat f => float_int f
  | YStr s => py_int s
  | _ => Raise TypeError
  end.

(** ** models/HORSE/horse_models.py *)
Inductive RTRActionType := DNS_RATE_LIMIT | DNS_SERV_DISABLE | DNS_SERV_ENABLE | TEST.
#[export] Instance RTRActionType_eq_dec : EqDecision RTRActionType.
Proof. solve_decision. Defined.

Record RTRRestAnswer := {
  description : string;
  status : string;
  status_code : Z;
  data : list (string * string)
}.

(** [DOCActionDNSstatus] and [DOCActionDNSLimit]. *)
Inductive DOCAction :=
| DOCActionDNSstatus (Zone Status : string)
| DOCActionDNSLimit (Zone : string) (Rate : Z).
Record DOCActionDefinition := { ActionType : RTRActionType; Service : string; Action : DOCAction }.
Record DOCNorthModel := { ActionID : string; Target : string; ActionDefinition : DOCActionDefinition }.

Inductive CallbackCode :=
| ACTION_APPLIED_BY_EPEM | ACTION_APPLIED_BY_DOC | ACTION_NOT_APPLIED_BY_EPEM | ACTION_NOT_APPLIED_BY_DOC.
#[export] Instance CallbackCode_eq_dec : EqDecision CallbackCode.
Proof. solve_decision. Defined.
Definition code_value (c : CallbackCode) : Z :=
  match c with
  | ACTION_APPLIED_BY_EPEM => 200
  | ACTION_APPLIED_BY_DOC => 201
  | ACTION_NOT_APPLIED_BY_EPEM => 400
  | ACTION_NOT_APPLIED_BY_DOC => 401
  end.
Record CallbackModel := { actionid : string; code : CallbackCode; cb_description : string; timestamp : string }.

(** [re.match("[0-9]*", s).group(0)]. *)
Fixpoint leading_digits (s : string) : string :=
  match s with
  | String c s' => if is_digit c then String c (leading_digits s') else EmptyString
  | EmptyString => EmptyString
  end.

(** The field [Rate]: the validator before, then the validation as an integer. *)
Definition validate_limit (limit : yaml) : result Z :=
  match yaml_int limit with
  | Ok v => Ok v
  | Raise ValueError =>
      match limit with
      | YStr s => validate_int (leading_digits s)
      | _ => Raise TypeError
      end
  | Raise e => Raise e
  end.

(** ** The environment *)
Inductive body := ToDOC (m : DOCNorthModel) | ToCallback (m : CallbackModel).
Record Response := { resp_status : Z; resp_url : string; resp_headers : string; resp_text : string }.
Record VmTarget := { vm_username : string; vm_password : string }.

(** What the endpoints do to the outside. *)
Inductive event :=
| Post (url : string) (b : body)
| Run (host username password playbook : string).

Class Env := {
  safe_load : string → result yaml;
  httpx_post : list event → string → body → result Response;
  run_ansible_playbook : list event → string → string → string → string → result string; (* status *)
  get_vm_target_by_ip : list event → string → result (option VmTarget);
  touch : list event → result unit;
  write_text : list event → string → result unit;
  now : list event → string;
  uuid4 : list event → string
}.

(** The dictionaries of the collection [extra] this code stores: all values are texts. *)
Definition extra_doc : Type := list (string * string).
#[export] Instance extra_document : Document extra_doc := { doc_field d f := od_get f d }.
#[export] Program Instance extra_id_document : IdDocument extra_doc := {
  set_doc_id i d := od_set "id" i d
}.
Next Obligation. intros i d. apply od_get_set_eq. Qed.

(** *** [get_timeout_from_env], and the truth of an environment variable *)
Definition get_timeout_from_env (HORSE_TIMEOUT : option string) : Z :=
  match HORSE_TIMEOUT with
  | Some timeout_str =>
      if str_true HORSE_TIMEOUT
      then match py_int timeout_str with Ok v => v | Raise _ => 90 end else 60
  | None => 60
  end.

(** *** The patterns of the query parameters *)
Definition digit_le (n : Z) (c : ascii) : bool := match digit_of c with Some d => d <=? n | None => false end.
Definition digit_1 (n : Z) (c : ascii) : bool :=
  match digit_of c with Some d => (1 <=? d) && (d <=? n) | None => false end.
Definition octet (s : string) : bool :=
  match String.list_ascii_of_string s with
  | [a] => is_digit a
  | [a; b] => is_digit a && is_digit b
  | [a; b; c] =>
      Ascii.eqb a "2" && Ascii.eqb b "5" && digit_le 5 c ||
      Ascii.eqb a "2" && digit_le 4 b && is_digit c ||
      digit_le 1 a && is_digit b && is_digit c
  | _ => false
  end.
Definition is_ip (s : string) : bool :=
  let l := py_split "." s in (length l =? 4)%nat && forallb octet l.

Definition is_port (s : string) : bool :=
  match String.list_ascii_of_string s with
  | [a] => digit_1 9 a
  | [a; b] => digit_1 9 a && is_digit b
  | [a; b; c] => digit_1 9 a && is_digit b && is_digit c
  | [a; b; c; d] => digit_1 9 a && is_digit b && is_digit c && is_digit d
  | [a; b; c; d; e] =>
      digit_1 5 a && is_digit b && is_digit c && is_digit d && is_digit e ||
      Ascii.eqb a "6" && digit_le 4 b && is_digit c && is_digit d && is_digit e ||
      Ascii.eqb a "6" && Ascii.eqb b "5" && digit_le 4 c && is_digit d && is_digit e ||
      Ascii.eqb a "6" && Ascii.eqb b "5" && Ascii.eqb c "5" && digit_le 2 d && is_digit e ||
      Ascii.eqb a "6" && Ascii.eqb b "5" && Ascii.eqb c "5" && Ascii.eqb d "3" && digit_le 5 e
  | _ => false
  end.
Definition is_ip_port (s : string) : bool :=
  match py_split ":" s with [ip; port] => is_ip ip && is_port port | _ => false end.

(** [PATH_PATTERN] is not anchored at the end: after the slash, anything matches. *)
Definition is_path (s : string) : bool := match s with String "/" _ => true | _ => false end.

(** ** The endpoints *)
Record World (C : Type) := { extras : C; trace : list event }.
Arguments extras {_} _.
Arguments trace {_} _.

Section endpoints.
Context `{!Env} {C : Type} `{!Mongo extra_doc C}.
#[local] Abbreviation HM := (M (World C)).

(** Ask the environment. *)
Definition ask {A} (f : list event → result A) : HM A := w ← getS; liftR (f (trace w)).
Definition ask_val {A} (f : list event → A) : HM A := w ← getS; mret (f (trace w)).
Definition emit (e : event) : HM unit := modifyS (λ w, {| extras := extras w; trace := trace w ++ [e] |}).

Definition post (url : string) (b : body) : HM Response :=
  w ← getS; emit (Post url b) ;; liftR (httpx_post (trace w) url b).
Definition run_playbook (host username password playbook : string) : HM string :=
  w ← getS; emit (Run host username password playbook) ;;
  liftR (run_ansible_playbook (trace w) host username password playbook).

Definition try_tasks (l : list yaml) : result DOCAction :=
  (fix go l := match l with
   | [] => Raise (HTTPException 422)
   | task :: l' =>
       found ← yaml_in "iptables" task;
       if found : bool then
         rule ← getitem_key "iptables" task;
         limit ← getitem_key "limit" rule;
         rate ← validate_limit limit;
         Ok (DOCActionDNSLimit "0.0.0.0" rate)
       else go l'
   end) l.

Definition extract_action (actionType : RTRActionType) (playbook : string) : result DOCAction :=
  data ← safe_load playbook;
  match actionType with
  | DNS_RATE_LIMIT =>
      let r := first ← getitem_0 data; tasks ← getitem_key "tasks" first;
               l ← yaml_iter tasks; try_tasks l in
      match r with Raise TypeError => Raise (HTTPException 422) | _ => r end
  | DNS_SERV_DISABLE => Ok (DOCActionDNSstatus EmptyString "disabled")
  | DNS_SERV_ENABLE => Ok (DOCActionDNSstatus EmptyString "enabled")
  | TEST => Ok (DOCActionDNSstatus "TEST" "TEST")
  end.

Definition build_request_for_doc (actionid target : string) (actiontype : RTRActionType)
  (service playbook : string) : result DOCNorthModel :=
  action_model ← extract_action actiontype playbook;
  Ok {| ActionID := actionid; Target := target;
        ActionDefinition := {| ActionType := actiontype; Service := service; Action := action_model |} |}.

(** The playbook is text, or absent when the request has no body. *)
Definition dump_playbook (playbook : option string) : HM string :=
  ask touch ;;
  match playbook with
  | Some p =>
      catch (ask (λ t, write_text t p)) (λ e, match e with OSError => Some (mret tt) | _ => None end) ;;
      mret p
  | None => raise TypeError
  end.

Definition send_callback_http (url : option string) (id : option string) (callback_code : CallbackCode)
  (descr : string) : HM unit :=
  match url with
  | None => mret tt
  | Some url =>
      time ← ask_val now;
      match id with
      | None => raise ValidationError
      | Some id =>
          catch
            (callback_resp ← post url (ToCallback {| actionid := id; code := callback_code;
                                                     cb_description := descr; timestamp := time |});
             if resp_status callback_resp =? 200 then mret tt
             else raise (HTTPException (resp_status callback_resp)))
            (λ e, match e with
                  | ReadTimeout => Some (raise (HTTPException 408))
                  | ConnectError => Some (raise (HTTPException 500))
                  | _ => None
                  end)
      end
  end.

Definition nl : string := String (Ascii.ascii_of_nat 10) EmptyString.
Definition response_debug (r : Response) : string :=
  "HTTP Status code: " +:+ pretty (resp_status r) +:+ nl +:+ "Url: " +:+ resp_url r +:+ nl +:+
  "Params: " +:+ resp_headers r +:+ nl +:+ "Body: " +:+ resp_text r.

Definition not_applied (cb : option string) (action_id descr : string) : HM unit :=
  send_callback_http cb (Some action_id) ACTION_NOT_APPLIED_BY_DOC descr.

(** The request to the DOC: it answers, or its caller hears of the failure. *)
Definition contact_doc (doc_url : string) (doc_request : DOCNorthModel) (action_id : string)
  (callback_http_url : option string) : HM Response :=
  catch
    (doc_response ← post doc_url (ToDOC doc_request);
     if resp_status doc_response =? 200 then mret doc_response
     else
       not_applied callback_http_url action_id
         ("Error while forwarding request to DOC module." +:+ nl +:+ resp_text doc_response) ;;
       raise (HTTPException (resp_status doc_response)))
    (λ e, match e with
          | ReadTimeout => Some (
              not_applied callback_http_url action_id ("Connection Timeout to DOC module at " +:+ doc_url) ;;
              raise (HTTPException 408))
          | ConnectError => Some (
              not_applied callback_http_url action_id
                ("Connection Error to DOC module (refused at " +:+ doc_url +:+ ")") ;;
              raise (HTTPException 500))
          | _ => None
          end).

Definition forward_request_to_doc (doc_mod_info : option extra_doc) (doc_request : DOCNorthModel)
  (action_id : string) (callback_http_url : option string) : HM RTRRestAnswer :=
  match doc_mod_info with
  | None => raise TypeError                         (* 'url' in None *)
  | Some info =>
      match od_get "url" info with
      | Some doc_module_url =>
          doc_response ← contact_doc ("http://" +:+ doc_module_url) doc_request action_id callback_http_url;
          send_callback_http callback_http_url (Some action_id) ACTION_APPLIED_BY_DOC
            "Missing implementation of DOC callback, need to implement in future" ;;
          mret {| description := "The request has been forwarded to DOC module. DOC responce is: " +:+ nl +:+
                                 " " +:+ response_debug doc_response;
                  status := "forwarded"; status_code := 200; data := [] |}
      | None =>
          not_applied callback_http_url action_id
            "The action should be forwarded to DOC but it's IP is missing." ;;
          mret {| description := "The request has NOT been forwarded to DOC module cause there is NO DOC module info or missing URL. Please use /set_doc_ip_port to set the URL.";
                  status := "error"; status_code := 500; data := [] |}
      end
  end.

Definition read_doc_module : HM (option extra_doc) := w ← getS; mret (get_extra "doc_module" (extras w)).
Definition applied : RTRRestAnswer :=
  {| description := "Playbook applied"; status := "success"; status_code := 202; data := [] |}.

Definition rtr_request_workaround (target : string) (action_type : RTRActionType)
  (username password : string) (forward_to_doc : bool) (payload service actionID callback_http_url : option string) :
  HM RTRRestAnswer :=
  playbook ← dump_playbook payload;
  if negb forward_to_doc then
    result ← run_playbook target username password playbook;
    (if String.eqb result "failed" then
       send_callback_http callback_http_url actionID ACTION_NOT_APPLIED_BY_EPEM
         "Action application by ePEM has failed" ;;
       raise (HTTPException 500)
     else mret tt) ;;
    send_callback_http callback_http_url actionID ACTION_APPLIED_BY_EPEM "Action applied by the ePEM" ;;
    mret applied
  else
    doc_mod_info ← read_doc_module;
    actionID ← match actionID with Some i => mret i | None => ask_val uuid4 end;
    body ← liftR (build_request_for_doc actionID target action_type (default "DNS" service) playbook);
    forward_request_to_doc doc_mod_info body actionID callback_http_url.

(** [HORSE_DEBUG] is the environment variable; in that mode only the local host is a target. *)
Definition debug_vm (target_ip : string) : option VmTarget :=
  if String.eqb target_ip "127.0.0.1"
  then Some {| vm_username := "ubuntutest"; vm_password := "ubuntutest" |} else None.

Definition rtr_request (HORSE_DEBUG : option string) (target_ip service : string) (actionType : RTRActionType)
  (actionID : string) (payload callback_http_url : option string) : HM RTRRestAnswer :=
  playbook ← dump_playbook payload;
  vm ← (if str_true HORSE_DEBUG then mret (debug_vm target_ip)
        else ask (λ t, get_vm_target_by_ip t target_ip));
  match vm with
  | None =>
      doc_mod_info ← read_doc_module;
      body ← liftR (build_request_for_doc actionID target_ip actionType service playbook);
      forward_request_to_doc doc_mod_info body actionID callback_http_url
  | Some vm =>
      result ← run_playbook target_ip (vm_username vm) (vm_password vm) playbook;
      (if String.eqb result "failed" then
         send_callback_http callback_http_url (Some actionID) ACTION_NOT_APPLIED_BY_EPEM
           "Execution of Playbook failed. See NFVCL DEBUG log for more info." ;;
         raise (HTTPException 500)
       else mret tt) ;;
      send_callback_http callback_http_url (Some actionID) ACTION_APPLIED_BY_EPEM "Action applied by the ePEM" ;;
      mret applied
  end.

(** The patterns of the parameters are checked before the function runs. *)
Definition rest_rtr_request (HORSE_DEBUG : option string) (target_ip : string) (target_port : option string)
  (service : string) (actionType : RTRActionType) (actionID : string) (payload callback_http_url : option string) :
  HM RTRRestAnswer :=
  if is_ip target_ip && match target_port with Some p => is_port p | None => true end
  then rtr_request HORSE_DEBUG target_ip service actionType actionID payload callback_http_url
  else raise (HTTPException 422).

Definition set_doc_ip_port (doc_ip url_path : string) : HM RTRRestAnswer :=
  modifyS (λ w, {| extras := insert_extra "doc_module"
                     [("url", doc_ip +:+ url_path); ("ip", doc_ip); ("url_path", url_path)] (extras w);
                   trace := trace w |}) ;;
  mret {| description := "DOC module IP has been set"; status := "success"; status_code := 202; data := [] |}.

Definition rest_set_doc_ip_port (doc_ip url_path : string) : HM RTRRestAnswer :=
  if is_ip_port doc_ip && is_path url_path then set_doc_ip_port doc_ip url_path
  else raise (HTTPException 422).

Definition get_doc_ip_port : HM RTRRestAnswer :=
  url ← read_doc_module;
  match url with
  | Some url => mret {| description := "DOC URL"; status := "success"; status_code := 202; data := url |}
  | None => raise ValidationError                   (* data is a dictionary *)
  end.
End endpoints.
