(* ===== verification/HorseProps.v ===== *)
(** * What the mitigation endpoints guarantee

    At most one action per request and in the right place, a callback that tells the truth about
    it, the address of the DOC module kept as it was set, rate limits read from the playbook, and
    the failures nobody is told about. *)

From stdpp Require Import base list strings gmap pretty.
From Stdlib Require Import ZArith Lia ZifyBool Ascii.
From S2P Require Import Prelude IPv4Text Core5GModels Database Horse.

Open Scope Z_scope.

(** ** Actions and callbacks *)
Section report.
Context `{!Env} {C : Type} `{!Mongo extra_doc C}.
Implicit Types (w : World C) (t : list event).

(** The callback sent, when there is somebody to call. *)
Definition told (url : option string) (id : string) (c : CallbackCode) (evs : list event) : Prop :=
  match url with
  | None => evs = []
  | Some u => ∃ m, evs = [Post u (ToCallback m)] ∧ actionid m = id ∧ code m = c
  end.

(** What became of an action, when the environment's answer is one the code handles. *)
Definition verdict t (a : event) : option CallbackCode :=
  match a with
  | Run h u p playbook =>
      match run_ansible_playbook t h u p playbook with
      | Ok s => Some (if String.eqb s "failed" then ACTION_NOT_APPLIED_BY_EPEM else ACTION_APPLIED_BY_EPEM)
      | Raise _ => None
      end
  | Post u (ToDOC m) =>
      match httpx_post t u (ToDOC m) with
      | Ok r => Some (if resp_status r =? 200 then ACTION_APPLIED_BY_DOC else ACTION_NOT_APPLIED_BY_DOC)
      | Raise ReadTimeout | Raise ConnectError => Some ACTION_NOT_APPLIED_BY_DOC
      | Raise _ => None
      end
  | Post _ (ToCallback _) => None
  end.

Definition applied_code (c : CallbackCode) : bool :=
  match c with ACTION_APPLIED_BY_EPEM | ACTION_APPLIED_BY_DOC => true | _ => false end.

(** The machine a request is for, as the code decides it. *)
Definition managed (HORSE_DEBUG : option string) t (target_ip : string) : result (option VmTarget) :=
  if str_true HORSE_DEBUG then Ok (debug_vm target_ip) else get_vm_target_by_ip t target_ip.

(** The two actions a request may lead to. *)
Definition acts (vm : option VmTarget) w (target : string) (ty : RTRActionType) (service id playbook : string)
  (a : event) : Prop :=
  match vm with
  | Some vm => a = Run target (vm_username vm) (vm_password vm) playbook
  | None => ∃ info u act, get_extra (D:=extra_doc) "doc_module" (extras w) = Some info ∧ od_get "url" info = Some u ∧
      extract_action ty playbook = Ok act ∧
      a = Post ("http://" +:+ u) (ToDOC {| ActionID := id; Target := target;
            ActionDefinition := {| ActionType := ty; Service := service; Action := act |} |})
  end.

(** *** Steps *)
Lemma post_run url b w :
  post url b w = (httpx_post (trace w) url b, {| extras := extras w; trace := trace w ++ [Post url b] |}).
Proof. done. Qed.

(** The exceptions the code does not turn into an answer. *)
Definition unhandled (e : exn) : Prop := e ≠ ReadTimeout ∧ e ≠ ConnectError.

Lemma callback_run url id c d w r w' :
  send_callback_http url (Some id) c d w = (r, w') →
  (∃ cb, w' = {| extras := extras w; trace := trace w ++ cb |} ∧ told url id c cb) ∧
  ∀ e, r = Raise e → unhandled e.
Proof.
  destruct url as [u|]; simpl.
  - unfold ask_val. erewrite bind_Ok by reflexivity. cbn. set (b := ToCallback _). unfold catch, mbind, M_bind.
    rewrite post_run. intros E. split.
    + exists [Post u b]. split; [|by eexists].
      destruct (httpx_post (trace w) u b) as [x|[]]; [destruct (resp_status x =? 200)|..]; by injection E.
    + intros e ->. destruct (httpx_post (trace w) u b) as [x|[]]; [destruct (resp_status x =? 200)|..];
        try discriminate E; injection E as <- _; split; discriminate.
  - intros [= <- <-]. split; [|done]. exists []. rewrite app_nil_r. by destruct w.
Qed.

(** A callback, and then an exception or an answer. *)
Lemma callback_then {A} (m : M (World C) A) url id c d w r w' (x : result A) :
  (∀ w, m w = (x, w)) → (send_callback_http url (Some id) c d ;; m) w = (r, w') →
  (∃ cb, w' = {| extras := extras w; trace := trace w ++ cb |} ∧ told url id c cb) ∧
  (r = x ∨ ∃ e, r = Raise e ∧ unhandled e).
Proof.
  intros Hm. destruct (send_callback_http url (Some id) c d w) as [r1 w1] eqn:E.
  destruct (callback_run _ _ _ _ _ _ _ E) as (Hcb & He). intros Hr.
  destruct r1 as [[]|e1]; [rewrite (bind_Ok _ _ _ _ _ E), Hm in Hr|rewrite (bind_Raise _ _ _ _ _ E) in Hr];
    injection Hr as <- <-; (split; [done|]); [by left|right]. exists e1. split; [done|by apply He].
Qed.

Lemma callback_ret {A} (y : A) url id c d w r w' :
  (send_callback_http url (Some id) c d ;; mret y) w = (r, w') →
  (∃ cb, w' = {| extras := extras w; trace := trace w ++ cb |} ∧ told url id c cb) ∧
  (r = Ok y ∨ ∃ e, r = Raise e ∧ unhandled e).
Proof. by apply callback_then. Qed.

Lemma callback_raise {A} e url id c d w (r : result A) w' :
  (send_callback_http url (Some id) c d ;; raise e) w = (r, w') → unhandled e →
  (∃ cb, w' = {| extras := extras w; trace := trace w ++ cb |} ∧ told url id c cb) ∧
  ∃ e, r = Raise e ∧ unhandled e.
Proof.
  intros Hr He. destruct (callback_then (raise e) url id c d w r w' (Raise e) ltac:(done) Hr) as [Hcb [->|Hu]];
    (split; [done|]); [by exists e|done].
Qed.

(** *** An action and its callback *)
Definition reported (url : option string) (id : string) t (a : event) (evs : list event)
  (r : result RTRRestAnswer) : Prop :=
  (verdict t a = None ∧ evs = [a] ∧ ∃ e, r = Raise e) ∨
  (∃ c cb, verdict t a = Some c ∧ evs = a :: cb ∧ told url id c cb ∧
           ∀ answer, r = Ok answer → applied_code c = true).

(** What contacting the DOC ends with: its answer, a failure that was told, or one that was not. *)
Lemma contact_run u m id url w r w' :
  let a := Post u (ToDOC m) in
  contact_doc u m id url w = (r, w') →
  ∃ cb, w' = {| extras := extras w; trace := trace w ++ a :: cb |} ∧
    ((∃ x, r = Ok x ∧ verdict (trace w) a = Some ACTION_APPLIED_BY_DOC ∧ cb = []) ∨
     ((∃ e, r = Raise e) ∧ verdict (trace w) a = Some ACTION_NOT_APPLIED_BY_DOC ∧
      told url id ACTION_NOT_APPLIED_BY_DOC cb) ∨
     ((∃ e, r = Raise e) ∧ verdict (trace w) a = None ∧ cb = [])).
Proof.
  intros a. unfold contact_doc, catch, mbind at 1, M_bind at 1. rewrite post_run. fold a.
  set (w1 := {| extras := extras w; trace := trace w ++ [a] |}).
  assert (Hw : ∀ cb, {| extras := extras w1; trace := trace w1 ++ cb |} =
    {| extras := extras w; trace := trace w ++ a :: cb |}) by (intros cb; simpl; by rewrite <-app_assoc).
  assert (Ht : ∀ d c, (not_applied url id d ;; raise (HTTPException c)) w1 = (r, w') →
    ∃ cb, w' = {| extras := extras w; trace := trace w ++ a :: cb |} ∧ (∃ e, r = Raise e) ∧
          told url id ACTION_NOT_APPLIED_BY_DOC cb).
  { intros d c Hr. apply callback_raise in Hr as [(cb & -> & Ht) (e & -> & _)]; [|done].
    exists cb. split; [apply Hw|]. split; [by exists e|done]. }
  unfold verdict, a. destruct (httpx_post (trace w) u (ToDOC m)) as [x|e].
  - destruct (resp_status x =? 200); intros Hr.
    + injection Hr as <- <-. exists []. split; [done|]. left. by exists x.
    + destruct ((not_applied url id _ ;; raise (HTTPException (resp_status x))) w1) as [r1 w2] eqn:E in Hr.
      pose proof E as E'. apply callback_raise in E' as [_ (e & -> & [He1 He2])]; [|done].
      assert ((r, w') = (Raise e, w2)) as [= -> ->] by (rewrite <-Hr; by destruct e).
      apply Ht in E as (cb & ? & ? & ?). exists cb. split; [done|]. right; left. done.
  - intros Hr. destruct e; try (injection Hr as <- <-; exists []; split; [done|]; right; right; (split; [by eexists|done]));
      apply Ht in Hr as (cb & ? & ? & ?); exists cb; (split; [done|]); by right; left.
Qed.

Lemma forward_run info m id url w r w' u :
  od_get "url" info = Some u → forward_request_to_doc (Some info) m id url w = (r, w') →
  ∃ evs, w' = {| extras := extras w; trace := trace w ++ evs |} ∧
         reported url id (trace w) (Post ("http://" +:+ u) (ToDOC m)) evs r.
Proof.
  intros Hu. unfold forward_request_to_doc. rewrite Hu.
  destruct (contact_doc ("http://" +:+ u) m id url w) as [r1 w1] eqn:E.
  destruct (contact_run _ _ _ _ _ _ _ E) as (cb & -> & [(x & -> & Hv & ->)|[((e & ->) & Hv & Ht)|((e & ->) & Hv & ->)]]).
  - rewrite (bind_Ok _ _ _ _ _ E). intros Hr. apply callback_ret in Hr as [(cb & -> & Ht) Hr].
    eexists. split; [simpl; by rewrite <-app_assoc|]. right. by exists ACTION_APPLIED_BY_DOC, cb.
  - rewrite (bind_Raise _ _ _ _ _ E). intros [= <- <-]. eexists. split; [done|]. right.
    by exists ACTION_NOT_APPLIED_BY_DOC, cb.
  - rewrite (bind_Raise _ _ _ _ _ E). intros [= <- <-]. eexists. split; [done|]. left. eauto.
Qed.

Lemma dump_run pl w :
  ∃ r, dump_playbook pl w = (r, w) ∧ ∀ p, r = Ok p → pl = Some p.
Proof.
  unfold dump_playbook, ask. destruct (touch (trace w)) as [[]|e] eqn:E.
  - erewrite bind_Ok by (erewrite bind_Ok by reflexivity; unfold liftR; by rewrite E). destruct pl as [p|]; [|by eexists].
    destruct (write_text (trace w) p) as [[]|e] eqn:Ew.
    + exists (Ok p). split; [|by intros ? [= ->]]. erewrite bind_Ok; [done|]. unfold catch.
      erewrite bind_Ok by reflexivity. unfold liftR. by rewrite Ew.
    + unfold catch, mbind, M_bind. simpl. unfold liftR. rewrite Ew.
      destruct e; eexists; (split; [done|]); by intros ? [= ->].
  - exists (Raise e). split; [|done]. erewrite bind_Raise; [done|]. erewrite bind_Ok by reflexivity.
    unfold liftR. by rewrite E.
Qed.

Lemma local_run ip u p playbook id url w d1 d2 r w' :
  (result ← run_playbook ip u p playbook;
   (if String.eqb result "failed" then
      send_callback_http url (Some id) ACTION_NOT_APPLIED_BY_EPEM d1 ;; raise (HTTPException 500)
    else mret tt) ;;
   send_callback_http url (Some id) ACTION_APPLIED_BY_EPEM d2 ;; mret applied) w = (r, w') →
  ∃ evs, w' = {| extras := extras w; trace := trace w ++ evs |} ∧
         reported url id (trace w) (Run ip u p playbook) evs r.
Proof.
  set (a := Run ip u p playbook). set (w1 := {| extras := extras w; trace := trace w ++ [a] |}).
  assert (Hrun : run_playbook ip u p playbook w = (run_ansible_playbook (trace w) ip u p playbook, w1)) by done.
  assert (Hw : ∀ cb, {| extras := extras w1; trace := trace w1 ++ cb |} =
    {| extras := extras w; trace := trace w ++ a :: cb |}) by (intros cb; simpl; by rewrite <-app_assoc).
  unfold reported, verdict, a. destruct (run_ansible_playbook (trace w) ip u p playbook) as [s|e].
  - rewrite (bind_Ok _ _ _ _ _ Hrun). destruct (String.eqb s "failed").
    + intros Hr. destruct ((send_callback_http url (Some id) ACTION_NOT_APPLIED_BY_EPEM d1 ;;
        raise (A:=unit) (HTTPException 500)) w1) as [r1 w2] eqn:E.
      pose proof E as E'. apply callback_raise in E' as [(cb & -> & Ht) (e & -> & _)]; [|done].
      rewrite (bind_Raise _ _ _ _ _ E) in Hr. injection Hr as <- <-. rewrite Hw. eexists. split; [done|]. right.
      by exists ACTION_NOT_APPLIED_BY_EPEM, cb.
    + erewrite bind_Ok by reflexivity. intros Hr. apply callback_ret in Hr as [(cb & -> & Ht) Hr].
      rewrite Hw. eexists. split; [done|]. right. by exists ACTION_APPLIED_BY_EPEM, cb.
  - rewrite (bind_Raise _ _ _ _ _ Hrun). intros [= <- <-]. exists [a]. split; [done|]. left. eauto.
Qed.

(** Where a request that is not refused ends. *)
Definition settled (HORSE_DEBUG : option string) (ip service : string) (ty : RTRActionType) (id : string)
  (payload url : option string) w (evs : list event) (r : result RTRRestAnswer) : Prop :=
  (∃ vm playbook a, payload = Some playbook ∧ managed HORSE_DEBUG (trace w) ip = Ok vm ∧
     acts vm w ip ty service id playbook a ∧ reported url id (trace w) a evs r) ∨
  (∃ info, managed HORSE_DEBUG (trace w) ip = Ok None ∧ get_extra (D:=extra_doc) "doc_module" (extras w) = Some info ∧
     od_get "url" info = None ∧ told url id ACTION_NOT_APPLIED_BY_DOC evs ∧
     ∀ answer, r = Ok answer → status answer = "error").

Lemma request_run HORSE_DEBUG ip service ty id payload url w r w' :
  rtr_request HORSE_DEBUG ip service ty id payload url w = (r, w') →
  ∃ evs, w' = {| extras := extras w; trace := trace w ++ evs |} ∧
    ((evs = [] ∧ ∃ e, r = Raise e) ∨ settled HORSE_DEBUG ip service ty id payload url w evs r).
Proof.
  assert (Hno : ∀ e, (Raise e, w) = (r, w') → ∃ evs, w' = {| extras := extras w; trace := trace w ++ evs |} ∧
    ((evs = [] ∧ ∃ e, r = Raise e) ∨ settled HORSE_DEBUG ip service ty id payload url w evs r)).
  { intros e [= <- <-]. exists []. rewrite app_nil_r. split; [by destruct w|]. left. eauto. }
  unfold rtr_request. destruct (dump_run payload w) as (r0 & Hd & Hp). destruct r0 as [p|e];
    [rewrite (bind_Ok _ _ _ _ _ Hd); specialize (Hp p eq_refl)|rewrite (bind_Raise _ _ _ _ _ Hd); apply Hno].
  assert (Hm : (if str_true HORSE_DEBUG then mret (debug_vm ip) else ask (λ t, get_vm_target_by_ip t ip)) w =
    (managed HORSE_DEBUG (trace w) ip, w)) by (unfold managed; by destruct (str_true HORSE_DEBUG)).
  destruct (managed HORSE_DEBUG (trace w) ip) as [[vm|]|e] eqn:Em;
    [rewrite (bind_Ok _ _ _ _ _ Hm)..|rewrite (bind_Raise _ _ _ _ _ Hm); apply Hno].
  - intros Hr. apply local_run in Hr as (evs & -> & Hr). exists evs. split; [done|]. right; left.
    by exists (Some vm), p, (Run ip (vm_username vm) (vm_password vm) p).
  - unfold read_doc_module. erewrite bind_Ok by reflexivity.
    unfold build_request_for_doc, liftR. destruct (extract_action ty p) as [act|e] eqn:Ea;
      [erewrite bind_Ok by reflexivity|erewrite bind_Raise by reflexivity; apply Hno].
    destruct (get_extra (D:=extra_doc) "doc_module" (extras w)) as [info|] eqn:Ei; [|apply Hno].
    destruct (od_get "url" info) as [u|] eqn:Eu.
    + intros Hr. destruct (forward_run _ _ _ _ _ _ _ _ Eu Hr) as (evs & -> & Hrep). exists evs. split; [done|].
      right; left. eexists None, p, _. split_and!; [done|done| |exact Hrep]. by exists info, u, act.
    + unfold forward_request_to_doc. rewrite Eu. intros Hr. apply callback_ret in Hr as [(cb & -> & Ht) Hr].
      exists cb. split; [done|]. right; right. exists info. split_and!; [done..|].
      intros answer ->. destruct Hr as [[= ->]|(e & ? & _)]; done.
Qed.
(** C36: a mitigation request does at most one thing, in the right place, and says so.  When nothing
    was done to the outside the request raised; otherwise the playbook was run on the machine the
    orchestrator manages, or the action described by the playbook was posted to the DOC module for
    a machine it does not manage, never both.  The one callback that follows carries the identifier
    of the action and the truth: applied by the orchestrator when the playbook did not fail, by the
    DOC when it answered 200, and not applied otherwise; an answer without an exception means
    applied.  The callback is missing only when the environment failed in a way the code does not
    handle.  Without an address for the DOC, the callback says that nothing was applied. *)
Theorem request_reported HORSE_DEBUG ip service ty id payload url w r w' :
  rtr_request HORSE_DEBUG ip service ty id payload url w = (r, w') →
  ∃ evs, w' = {| extras := extras w; trace := trace w ++ evs |} ∧
    ((evs = [] ∧ ∃ e, r = Raise e) ∨ settled HORSE_DEBUG ip service ty id payload url w evs r).
Proof. apply request_run. Qed.

(** *** The address of the DOC module *)
Lemma reported_doc url id t a evs r u m :
  reported url id t a evs r → Post u (ToDOC m) ∈ evs → a = Post u (ToDOC m).
Proof.
  intros [(_ & -> & _)|(c & cb & _ & -> & Ht & _)].
  - by intros ->%list_elem_of_singleton.
  - intros [->|Hin]%elem_of_cons; [done|]. destruct url as [cu|]; simpl in Ht.
    + destruct Ht as (m' & -> & _). by apply list_elem_of_singleton in Hin.
    + subst cb. by apply not_elem_of_nil in Hin.
Qed.

Lemma told_doc url id c evs u m : told url id c evs → Post u (ToDOC m) ∉ evs.
Proof.
  destruct url as [cu|]; simpl.
  - intros (m' & -> & _). by intros ?%list_elem_of_singleton.
  - intros ->. apply not_elem_of_nil.
Qed.

(** The address of the DOC module is kept as it was set: an address and a path that pass the
    patterns of the parameters are read back joined, and whatever mitigation request is handled
    afterwards posts its action, if it posts one, to exactly that address. *)
Theorem doc_address_roundtrip ip path w answer w1 :
  ids_unique (extras w) → rest_set_doc_ip_port ip path w = (Ok answer, w1) →
  (is_ip_port ip && is_path path) = true ∧ trace w1 = trace w ∧
  (∃ a, get_doc_ip_port w1 = (Ok a, w1) ∧ od_get "url" (data a) = Some (ip +:+ path)) ∧
  ∀ HORSE_DEBUG target service ty id payload url w2 r w3 u m,
    extras w2 = extras w1 →
    rtr_request HORSE_DEBUG target service ty id payload url w2 = (r, w3) →
    Post u (ToDOC m) ∈ drop (length (trace w2)) (trace w3) →
    u = "http://" +:+ ip +:+ path ∧ ActionID m = id ∧ Target m = target.
Proof.
  intros Hu. unfold rest_set_doc_ip_port. destruct (is_ip_port ip && is_path path); [|done].
  unfold set_doc_ip_port. erewrite bind_Ok by reflexivity. intros [= _ <-].
  set (d := [("url", ip +:+ path); ("ip", ip); ("url_path", path)]).
  destruct (extra_roundtrip (D:=extra_doc) "doc_module" d d (extras w) Hu) as [Hg _].
  set (w1 := {| extras := _; trace := _ |}).
  assert (Hx1 : get_extra (D:=extra_doc) "doc_module" (extras w1) = Some (set_doc_id "doc_module" d)) by exact Hg.
  assert (Htr : trace w1 = trace w) by done. clearbody w1. clear Hg.
  split_and!; [done|done| |].
  - assert (Hread : read_doc_module w1 = (Ok (get_extra (D:=extra_doc) "doc_module" (extras w1)), w1)) by done.
    rewrite Hx1 in Hread. unfold get_doc_ip_port. rewrite (bind_Ok _ _ _ _ _ Hread). by eexists.
  - intros dbg target service ty id payload url w2 r w3 u m Hx Hr Hin. simpl in Hx.
    destruct (request_run _ _ _ _ _ _ _ _ _ _ Hr) as (evs & -> & Hev). simpl in Hin.
    rewrite drop_app_length in Hin.
    destruct Hev as [(-> & _)|[(vm & p & a & _ & _ & Ha & Hrep)|(info & _ & _ & _ & Ht & _)]];
      [by apply not_elem_of_nil in Hin| |by apply (told_doc _ _ _ _ u m) in Ht].
    apply (reported_doc _ _ _ _ _ _ u m Hrep) in Hin. subst a.
    destruct vm as [vm|]; [done|]. destruct Ha as (info & u' & act & Hi & Hu' & _ & Heq).
    rewrite Hx, Hx1 in Hi. injection Hi as <-. injection Hu' as <-. by injection Heq as -> ->.
Qed.

(** *** Failures nobody hears of *)

(** Three failures are not reported to whoever asked.  Before the address of the DOC module has
    ever been set, a request for a machine that is not managed raises [TypeError] instead of the
    error answer written for that case, without a callback; a connection to the DOC that times
    out while it is being established escapes the handlers, without a callback; and a playbook
    applied through the other endpoint without an action identifier ends in a validation error
    after it has been run, again without a callback. *)
Theorem unreported_failures HORSE_DEBUG ip service ty id p cb w :
  touch (trace w) = Ok tt → write_text (trace w) p = Ok tt →
  (∀ act, managed HORSE_DEBUG (trace w) ip = Ok None → extract_action ty p = Ok act →
    (get_extra (D:=extra_doc) "doc_module" (extras w) = None →
     rtr_request HORSE_DEBUG ip service ty id (Some p) (Some cb) w = (Raise TypeError, w)) ∧
    (∀ info u, get_extra (D:=extra_doc) "doc_module" (extras w) = Some info → od_get "url" info = Some u →
     (∀ b, httpx_post (trace w) ("http://" +:+ u) b = Raise ConnectTimeout) →
     ∃ m, rtr_request HORSE_DEBUG ip service ty id (Some p) (Some cb) w =
       (Raise ConnectTimeout, {| extras := extras w; trace := trace w ++ [Post ("http://" +:+ u) (ToDOC m)] |}))) ∧
  (∀ user pwd s, run_ansible_playbook (trace w) ip user pwd p = Ok s → String.eqb s "failed" = false →
    rtr_request_workaround ip ty user pwd false (Some p) (Some service) None (Some cb) w =
      (Raise ValidationError, {| extras := extras w; trace := trace w ++ [Run ip user pwd p] |})).
Proof.
  intros Ht Hw. assert (Hd : dump_playbook (Some p) w = (Ok p, w)).
  { unfold dump_playbook, ask. erewrite bind_Ok by (erewrite bind_Ok by reflexivity; unfold liftR; by rewrite Ht).
    erewrite bind_Ok; [done|]. unfold catch. erewrite bind_Ok by reflexivity. unfold liftR. by rewrite Hw. }
  split.
  - intros act Hm Ha. unfold rtr_request. rewrite (bind_Ok _ _ _ _ _ Hd).
    assert (Hvm : (if str_true HORSE_DEBUG then mret (debug_vm ip) else ask (λ t, get_vm_target_by_ip t ip)) w =
      (Ok None, w)) by (rewrite <-Hm; unfold managed; by destruct (str_true HORSE_DEBUG)).
    rewrite (bind_Ok _ _ _ _ _ Hvm). unfold read_doc_module. erewrite bind_Ok by reflexivity.
    unfold build_request_for_doc, liftR. rewrite Ha. erewrite bind_Ok by reflexivity. split.
    + by intros ->.
    + intros info u -> Hu Hpost. unfold forward_request_to_doc. rewrite Hu. eexists.
      erewrite bind_Raise; [done|]. unfold contact_doc, catch. unfold mbind, M_bind. rewrite post_run. by rewrite Hpost.
  - intros user pwd s Hrun Hs. unfold rtr_request_workaround. rewrite (bind_Ok _ _ _ _ _ Hd). cbn [negb].
    unfold run_playbook. erewrite bind_Ok by (erewrite bind_Ok by reflexivity; erewrite bind_Ok by reflexivity;
      unfold liftR; by rewrite Hrun).
    rewrite Hs. erewrite bind_Ok by reflexivity. by erewrite bind_Raise by reflexivity.
Qed.
End report.

(** ** Rate limits *)
Lemma rstrip_app a b : rstrip (a +:+ b) = match rstrip b with EmptyString => rstrip a | r => a +:+ r end.
Proof.
  induction a as [|c a IH]; [change (EmptyString +:+ b) with b; by destruct (rstrip b)|].
  change (String c a +:+ b) with (String c (a +:+ b)). cbn [rstrip]. rewrite IH.
  by destruct (rstrip b), a.
Qed.

Lemma rstrip_head c s : rstrip (String c s) = EmptyString ∨ ∃ s', rstrip (String c s) = String c s'.
Proof. simpl. destruct (rstrip s); [destruct (is_space c)|]; eauto. Qed.

Lemma int_digits_stops a c s acc u :
  all_chars is_digit a = true → a ≠ EmptyString → is_digit c = false → c ≠ "_"%char →
  int_digits (a +:+ String c s) acc u = None.
Proof.
  intros Ha Hne Hc Hu. revert acc u Hne. induction a as [|d a IH]; intros acc u Hne; [done|].
  simpl in *. apply andb_true_iff in Ha as [Hd Ha]. unfold is_digit in Hd.
  destruct (digit_of d) as [v|]; [|done]. destruct a as [|d' a]; [|by apply IH]. simpl.
  unfold is_digit in Hc. destruct (digit_of c); [done|].
  by destruct (Ascii.eqb_spec c "_").
Qed.

Lemma leading_digits_app a c s :
  all_chars is_digit a = true → is_digit c = false → leading_digits (a +:+ String c s) = a.
Proof.
  intros Ha Hc. induction a as [|d a IH]; simpl in *; [by rewrite Hc|].
  apply andb_true_iff in Ha as [-> Ha]. by rewrite IH.
Qed.

(** A number and then something that is neither a digit nor an underscore: [int] reads the number
    when only spaces follow and raises otherwise. *)
Lemma py_int_then a v c s :
  all_chars is_digit a = true → a ≠ EmptyString → digits_value a 0 = Some v →
  is_digit c = false → c ≠ "_"%char →
  py_int (a +:+ String c s) = Ok v ∨ py_int (a +:+ String c s) = Raise ValueError.
Proof.
  intros Ha Hne Hv Hc Hu. pose proof (strip_digits a Ha) as Hst.
  destruct a as [|d a]; [done|]. pose proof Ha as Hd. simpl in Hd. apply andb_true_iff in Hd as [Hd _].
  assert (Hl : ∀ b, lstrip (String d a +:+ b) = String d a +:+ b) by (intros b; simpl; by rewrite digit_not_space).
  assert (Hla : lstrip (String d a) = String d a) by (simpl; by rewrite digit_not_space).
  rewrite Hla in Hst. pose proof (py_int_digits _ _ Ha Hne Hv) as Hok.
  unfold py_int in *. rewrite Hl, rstrip_app. rewrite Hla, Hst in Hok.
  destruct (rstrip_head c s) as [-> |[s' ->]].
  - by left; rewrite Hst.
  - right. pose proof (int_digits_stops _ c s' 0 true Ha Hne Hc Hu) as Hnone.
    change (String d a +:+ String c s') with (String d (a +:+ String c s')) in *.
    assert (Hu' : match int_digits (String d (a +:+ String c s')) 0 true with
                  | Some v => Ok v | None => Raise ValueError end = Raise ValueError) by by rewrite Hnone.
    assert (d ≠ "-"%char ∧ d ≠ "+"%char) as [H1 H2] by (split; intros ->; vm_compute in Hd; done).
    destruct d as [[] [] [] [] [] [] [] []]; try exact Hu'; try (by destruct H1); by destruct H2.
Qed.

Lemma limit_run n s :
  0 ≤ n → (s = EmptyString ∨ ∃ c s', s = String c s' ∧ is_digit c = false ∧ c ≠ "_"%char) →
  validate_limit (YStr (pretty n +:+ s)) = Ok n.
Proof.
  intros Hn Hs. assert (Hz : pretty n = pretty (Z.to_N n)) by (destruct n; [done|done|lia]).
  destruct (pretty_N_digits (Z.to_N n)) as (H1 & H2 & H3). rewrite Z2N.id in H2 by done. rewrite <-Hz in *.
  unfold validate_limit. simpl. destruct Hs as [-> |(c & s' & -> & Hc & Hu)].
  - assert (E : ∀ t, t +:+ EmptyString = t).
    { induction t as [|x t IH]; [done|]. change (String x t +:+ EmptyString) with (String x (t +:+ EmptyString)).
      by rewrite IH. }
    by rewrite E, (py_int_digits _ n H1 H3 H2).
  - destruct (py_int_then _ n c s' H1 H3 H2 Hc Hu) as [-> | ->]; [done|].
    rewrite leading_digits_app by done. unfold validate_int. by rewrite (py_int_digits _ n H1 H3 H2).
Qed.

Section limits.
Context `{!Env}.

(** The rate of a DNS limit is read from the playbook.  The tasks of the first play are searched
    in order; the first one with an [iptables] entry gives the limit, and a limit written as a
    number, alone or followed by a unit as in 72/s or 72 /s, is forwarded as that number; with no
    such task the request is refused as unprocessable. *)
Theorem rate_limit_read p play rest pre l :
  safe_load p = Ok (YList (YMap play :: rest)) →
  map_getitem (is_key "tasks") play = Ok (YList (pre ++ l)) →
  Forall (λ t, yaml_in "iptables" t = Ok false) pre →
  match l with
  | [] => extract_action DNS_RATE_LIMIT p = Raise (HTTPException 422)
  | YMap task :: _ => ∀ rule n s,
      map_getitem (is_key "iptables") task = Ok (YMap rule) →
      map_getitem (is_key "limit") rule = Ok (YStr (pretty n +:+ s)) → 0 ≤ n →
      (s = EmptyString ∨ ∃ c s', s = String c s' ∧ is_digit c = false ∧ c ≠ "_"%char) →
      extract_action DNS_RATE_LIMIT p = Ok (DOCActionDNSLimit "0.0.0.0" n)
  | _ => True
  end.
Proof.
  intros Hp Ht Hpre. unfold extract_action, mbind, result_bind. rewrite Hp. simpl. rewrite Ht. simpl.
  assert (Hskip : ∀ l, try_tasks (pre ++ l) = try_tasks l).
  { clear - Hpre. induction Hpre as [|t pre Ht _ IH]; intros l; [done|]. simpl.
    unfold mbind, result_bind. rewrite Ht. apply IH. }
  destruct l as [|[] l]; try done.
  - by rewrite Hskip.
  - intros rule n s Hr Hl Hn Hs. rewrite Hskip. cbn [try_tasks].
    assert (Hin : yaml_in "iptables" (YMap d) = Ok true).
    { simpl. f_equal. apply existsb_exists. unfold map_getitem in Hr.
      destruct (find _ d) as [[k v]|] eqn:E; [|done]. apply find_some in E as [E1 E2]. by exists (k, v). }
    unfold mbind, result_bind. rewrite Hin. simpl. rewrite Hr. simpl. rewrite Hl. by rewrite limit_run.
Qed.
End limits.

(** ** The patterns of addresses *)
Definition number_in (lo hi : Z) (s : string) : bool :=
  match digits_value s 0 with Some v => (lo <=? v) && (v <=? hi) | None => false end.
Definition no_leading_zero (s : string) : bool :=
  match s with String c _ => negb (Ascii.eqb c "0") | EmptyString => false end.

Lemma eqb_digit c k d n : digit_of c = Some d → digit_of k = Some n → Ascii.eqb c k = (d =? n).
Proof.
  intros Hc Hk. destruct (Ascii.eqb_spec c k) as [->|Hne]; symmetry.
  - apply Z.eqb_eq. congruence.
  - apply Z.eqb_neq. intros ->. by destruct Hne; eapply digit_of_inj.
Qed.

(** Tests on characters become tests on digits. *)
Ltac as_digits :=
  repeat match goal with
  | H : is_digit ?c = true |- _ =>
      let d := fresh "d" in let E := fresh "E" in
      unfold is_digit in H; destruct (digit_of c) as [d|] eqn:E; [clear H|discriminate H];
      pose proof (digit_of_bound c d E)
  end;
  repeat match goal with
  | E : digit_of ?c = Some ?d |- context [Ascii.eqb ?c ?k] =>
      let o := eval vm_compute in (digit_of k) in
      match o with Some ?n => rewrite (eqb_digit c k d n E eq_refl) end
  | E : digit_of ?c = Some ?d |- _ => progress (unfold digit_le, digit_1, is_digit; rewrite !E)
  end.

Lemma octet_short s :
  all_chars is_digit s = true → (1 ≤ String.length s ≤ 3)%nat → octet s = number_in 0 255 s.
Proof.
  intros Hs Hl. destruct s as [|a [|b [|c [|]]]]; try (simpl in Hl; lia); cbn [all_chars] in Hs;
    repeat (apply andb_true_iff in Hs as [? Hs]); clear Hs Hl;
    unfold octet, number_in; cbn [String.list_ascii_of_string digits_value]; as_digits; cbv beta iota; lia.
Qed.

Lemma port_short s :
  all_chars is_digit s = true → (1 ≤ String.length s ≤ 5)%nat →
  is_port s = no_leading_zero s && number_in 1 65535 s.
Proof.
  intros Hs Hl. destruct s as [|a [|b [|c [|d [|e [|]]]]]]; try (simpl in Hl; lia); cbn [all_chars] in Hs;
    repeat (apply andb_true_iff in Hs as [? Hs]); clear Hs Hl;
    unfold is_port, no_leading_zero, number_in; cbn [String.list_ascii_of_string digits_value]; as_digits; cbv beta iota; lia.
Qed.

Lemma digit_le_digit n c : digit_le n c = true → is_digit c = true.
Proof. unfold digit_le, is_digit. by destruct (digit_of c). Qed.
Lemma digit_1_digit n c : digit_1 n c = true → is_digit c = true.
Proof. unfold digit_1, is_digit. by destruct (digit_of c). Qed.

Ltac digits_hyps :=
  repeat match goal with
  | H : (_ || _) = true |- _ => apply orb_true_iff in H as [H|H]
  | H : (_ && _) = true |- _ => let H' := fresh in apply andb_true_iff in H as [H' H]
  | H : digit_le _ _ = true |- _ => apply digit_le_digit in H
  | H : digit_1 _ _ = true |- _ => apply digit_1_digit in H
  | H : Ascii.eqb _ _ = true |- _ => apply Ascii.eqb_eq in H; subst
  end;
  repeat match goal with H : is_digit _ = true |- _ => rewrite H; clear H end.

Lemma octet_digits s : octet s = true → all_chars is_digit s = true ∧ (1 ≤ String.length s ≤ 3)%nat.
Proof.
  destruct s as [|a [|b [|c [|]]]]; try done; intros Hs; (split; [|cbn; lia]);
    cbn -[is_digit digit_le] in *; digits_hyps; reflexivity.
Qed.

Lemma port_digits s : is_port s = true → all_chars is_digit s = true ∧ (1 ≤ String.length s ≤ 5)%nat.
Proof.
  destruct s as [|a [|b [|c [|d [|e [|]]]]]]; try done; intros Hs; (split; [|cbn; lia]);
    cbn -[is_digit digit_le digit_1] in *; digits_hyps; reflexivity.
Qed.

(** The patterns of the query parameters mean what they are for.  A port passes exactly when it
    is the decimal numeral, without leading zeros, of a number from 1 to 65535; an address passes
    exactly when it is four groups of one to three digits, separated by dots, each at most 255. *)
Theorem address_patterns s :
  (is_port s = true ↔
     all_chars is_digit s = true ∧ no_leading_zero s = true ∧
     ∃ v, digits_value s 0 = Some v ∧ 1 ≤ v ≤ 65535) ∧
  (is_ip s = true ↔
     ∃ a b c d, py_split "." s = [a; b; c; d] ∧
       Forall (λ o, all_chars is_digit o = true ∧ (1 ≤ String.length o ≤ 3)%nat ∧
                    ∃ v, digits_value o 0 = Some v ∧ 0 ≤ v ≤ 255) [a; b; c; d]).
Proof.
  assert (Hnum : ∀ lo hi s, number_in lo hi s = true ↔ ∃ v, digits_value s 0 = Some v ∧ lo ≤ v ≤ hi).
  { intros lo hi t. unfold number_in. destruct (digits_value t 0) as [v|].
    - rewrite andb_true_iff, !Z.leb_le. split; [by exists v|]. by intros (? & [= ->] & ?).
    - split; [done|]. by intros (? & ? & _). }
  assert (Hoct : ∀ o, octet o = true ↔ all_chars is_digit o = true ∧ (1 ≤ String.length o ≤ 3)%nat ∧
    ∃ v, digits_value o 0 = Some v ∧ 0 ≤ v ≤ 255).
  { intros o. rewrite <-Hnum. split.
    - intros Ho. destruct (octet_digits o Ho) as [H1 H2]. by rewrite <-octet_short.
    - intros (H1 & H2 & H3). by rewrite octet_short. }
  split.
  - rewrite <-Hnum. split.
    + intros Hp. destruct (port_digits s Hp) as [H1 H2]. rewrite port_short in Hp by done.
      apply andb_true_iff in Hp. tauto.
    + intros (H1 & H2 & H3). rewrite port_short; [by rewrite H2, H3|done|].
      destruct s as [|c s]; [done|]. apply Hnum in H3 as (v & Hv & Hb). simpl. split; [lia|].
      simpl in H1, Hv. apply andb_true_iff in H1 as [Hc Hs]. unfold is_digit in Hc.
      destruct (digit_of c) as [d|] eqn:Ed; [|done].
      destruct (digits_value_split s (10 * 0 + d) Hs) as (x & Hx & Hbx). rewrite Hx in Hv. injection Hv as <-.
      assert (d ≠ 0).
      { intros ->. assert (c = "0"%char) as -> by (eapply digit_of_inj; [exact Ed|done]). done. }
      pose proof (digit_of_bound c d Ed). destruct (decide (String.length s ≤ 4)%nat); [lia|].
      assert (10 ^ 5 ≤ 10 ^ Z.of_nat (String.length s)) by (apply Z.pow_le_mono_r; lia). nia.
  - unfold is_ip. rewrite andb_true_iff, Nat.eqb_eq, forallb_forall. split.
    + intros [Hl Ho]. destruct (py_split "." s) as [|a [|b [|c [|d [|]]]]]; try done.
      exists a, b, c, d. split; [done|]. apply Forall_forall. intros o Hin. apply Hoct, Ho. by apply list_elem_of_In.
    + intros (a & b & c & d & -> & Ho). split; [done|]. intros o Hin. apply Hoct.
      rewrite Forall_forall in Ho. by apply Ho, list_elem_of_In.
Qed.

(** ** A concrete environment *)
Module Concrete.
Definition lab_play : list (yaml * yaml) :=
  [(YStr "tasks", YList [YMap [(YStr "package", YNull)];
                         YMap [(YStr "iptables", YMap [(YStr "limit", YStr "72/s")])]])].

#[export] Instance lab_env : Env := {
  safe_load _ := Ok (YList [YMap lab_play]);
  httpx_post _ u _ :=
    if String.eqb u "http://10.0.0.9:80/slow" then Raise ConnectTimeout
    else Ok {| resp_status := 200; resp_url := u; resp_headers := EmptyString; resp_text := "ok" |};
  run_ansible_playbook _ _ _ _ _ := Ok "successful";
  get_vm_target_by_ip _ ip :=
    Ok (if String.eqb ip "10.0.0.1" then Some {| vm_username := "ubuntu"; vm_password := "pw" |} else None);
  touch _ := Ok tt;
  write_text _ _ := Ok tt;
  now _ := "2025-01-01";
  uuid4 _ := "1234"
}.

Definition lab_world (l : list extra_doc) : World (list extra_doc) := {| extras := l; trace := [] |}.
Definition lab_doc (path : string) : extra_doc := [("url", "10.0.0.9:80" +:+ path); ("id", "doc_module")].
Definition lab_request (ip : string) (l : list extra_doc) :=
  rtr_request None ip "DNS" DNS_RATE_LIMIT "a1" (Some "playbook") (Some "http://cb") (lab_world l).

(** Run here, forwarded, or left without an address for the DOC. *)
Example lab_requests :
  (match (lab_request "10.0.0.1" []) with
   | (Ok a, w) => status a = "success" ∧ length (trace w) = 2%nat ∧
                  head (trace w) = Some (Run "10.0.0.1" "ubuntu" "pw" "playbook")
   | _ => False end) ∧
  (match (lab_request "10.0.0.2" [lab_doc "/doc"]) with
   | (Ok a, w) => status a = "forwarded" ∧ length (trace w) = 2%nat
   | _ => False end) ∧
  (match (lab_request "10.0.0.2" [[("id", "doc_module")]]) with
   | (Ok a, w) => status a = "error" ∧ length (trace w) = 1%nat
   | _ => False end) ∧
  (lab_request "10.0.0.2" []).1 = Raise TypeError ∧
  (lab_request "10.0.0.2" [lab_doc "/slow"]).1 = Raise ConnectTimeout.
Proof. vm_compute. split_and!; reflexivity. Qed.

Example request_reported_witness :
  let w := lab_world [lab_doc "/doc"] in
  let res := rtr_request None "10.0.0.1" "DNS" TEST "a1" (Some "playbook") (Some "http://cb") w in
  ∃ evs, res.2 = {| extras := extras w; trace := trace w ++ evs |} ∧
    ((evs = [] ∧ ∃ e, res.1 = Raise e) ∨
     settled None "10.0.0.1" "DNS" TEST "a1" (Some "playbook") (Some "http://cb") w evs res.1).
Proof.
  intros w res. apply (request_reported None "10.0.0.1" "DNS" TEST "a1" (Some "playbook") (Some "http://cb") w).
  unfold res. by destruct (rtr_request _ _ _ _ _ _ _ w).
Defined.

Example doc_address_roundtrip_witness :
  is_ip_port "10.0.0.9:5000" && is_path "/doc" = true.
Proof.
  assert (Hu : ids_unique (extras (lab_world []))) by (intros i; apply Nat.le_0_l).
  destruct (rest_set_doc_ip_port "10.0.0.9:5000" "/doc" (lab_world [])) as [r w1] eqn:E.
  assert (Hr : ∃ a, r = Ok a) by (vm_compute in E; injection E as <- _; by eexists).
  destruct Hr as [a ->].
  apply (doc_address_roundtrip "10.0.0.9:5000" "/doc" (lab_world []) a w1 Hu E).
Defined.

Example unreported_failures_witness :
  rtr_request None "10.0.0.2" "DNS" TEST "a1" (Some "playbook") (Some "http://cb") (lab_world []) =
    (Raise TypeError, lab_world []).
Proof.
  assert (Ht : touch (trace (lab_world [])) = Ok tt) by done.
  assert (Hw : write_text (trace (lab_world [])) "playbook" = Ok tt) by done.
  by apply (unreported_failures None "10.0.0.2" "DNS" TEST "a1" "playbook" "http://cb" (lab_world []) Ht Hw)
    with (act := DOCActionDNSstatus "TEST" "TEST").
Defined.

Example rate_limit_read_witness :
  extract_action DNS_RATE_LIMIT "playbook" = Ok (DOCActionDNSLimit "0.0.0.0" 72).
Proof.
  assert (Hp : safe_load "playbook" = Ok (YList [YMap lab_play])) by done.
  assert (Hpre : Forall (λ t, yaml_in "iptables" t = Ok false) [YMap [(YStr "package", YNull)]]) by by repeat constructor.
  apply (rate_limit_read "playbook" lab_play [] [YMap [(YStr "package", YNull)]]
    [YMap [(YStr "iptables", YMap [(YStr "limit", YStr "72/s")])]] Hp eq_refl Hpre
    [(YStr "limit", YStr "72/s")] 72 "/s"); [done|done|done|].
  right. by exists "/"%char, "s".
Defined.
End Concrete.
