(* ===== verification/Regex.v ===== *)
(** * Substitutions by regular expressions

    What the code uses of [re]: sequences of characters, of "." and of greedy repetitions of a class of
    characters, and [re.sub] with such a pattern and a replacement without backslashes. *)

From Stdlib Require Import Ascii.
From stdpp Require Import base list strings.
From Stdlib Require Import ZArith Lia.
From S2P Require Import Prelude.

Inductive atom :=
| Chr (c : ascii)
| Dot                             (* any character that does not end the line *)
| Star (p : ascii → bool)
| Plus (p : ascii → bool).

Definition not_newline (c : ascii) : bool := negb (Ascii.eqb c (ascii_of_nat 10)).

(** What is left of the text after a match at its start; repetitions try the longest first. *)
Fixpoint match_at (re : list atom) (s : string) {struct re} : option string :=
  match re with
  | [] => Some s
  | Chr c :: re' => match s with String d s' => if Ascii.eqb c d then match_at re' s' else None | EmptyString => None end
  | Dot :: re' => match s with String d s' => if not_newline d then match_at re' s' else None | EmptyString => None end
  | Star p :: re' =>
      (fix star s :=
         match s with
         | String d s' => if p d then match star s' with Some r => Some r | None => match_at re' s end else match_at re' s
         | EmptyString => match_at re' s
         end) s
  | Plus p :: re' =>
      match s with
      | String d s' =>
          if p d then
            (fix star s :=
               match s with
               | String d s' => if p d then match star s' with Some r => Some r | None => match_at re' s end else match_at re' s
               | EmptyString => match_at re' s
               end) s'
          else None
      | EmptyString => None
      end
  end.

(** The characters still to be skipped are those of the last match. *)
Fixpoint sub_from (re : list atom) (repl : string) (skip : nat) (s : string) : string :=
  match s with
  | EmptyString => EmptyString
  | String c s' =>
      match skip with
      | S k => sub_from re repl k s'
      | O => match match_at re s with
             | Some rest => repl +:+ sub_from re repl (String.length s' - String.length rest) s'
             | None => String c (sub_from re repl 0 s')
             end
      end
  end.
(** [re.sub], for a pattern that matches no empty text. *)
Definition re_sub (re : list atom) (repl s : string) : string := sub_from re repl 0 s.

Fixpoint literal (s : string) : list atom :=
  match s with EmptyString => [] | String c s' => Chr c :: literal s' end.

Definition is_digit_char (c : ascii) : bool := (48 <=? nat_of_ascii c)%nat && (nat_of_ascii c <=? 57)%nat.
Definition digits : atom := Plus is_digit_char.

Example sub_example :
  re_sub ([digits; Dot; digits; Dot; digits; Dot; digits] ++ literal ":6443") "1.2.3.4:6443"
    "kubeadm join 10.0.0.17:6443 --token a" = "kubeadm join 1.2.3.4:6443 --token a".
Proof. reflexivity. Qed.
Example sub_example_greedy :
  re_sub (literal "https://" ++ [Star not_newline] ++ literal ":6443") "X" "a https://b:6443 c:6443 d" = "a X d".
Proof. reflexivity. Qed.
