(* ===== verification/Ansible.v ===== *)
(** * Playbooks

    blueprints_ng/ansible_builder.py: a playbook under construction is an object whose methods append
    tasks and set variables; its dump is the dictionary given to the YAML writer. *)

From stdpp Require Import base list strings gmap pretty.
From Stdlib Require Import ZArith Lia Ascii.
From S2P Require Import Prelude.

Open Scope Z_scope.

(** ** [textwrap.dedent] *)
Definition newline : ascii := Ascii.ascii_of_nat 10.
Definition is_blank (c : ascii) : bool := Ascii.eqb c " " || Ascii.eqb c (Ascii.ascii_of_nat 9).

Fixpoint indent (s : string) : string :=
  match s with
  | String c s' => if is_blank c then String c (indent s') else EmptyString
  | EmptyString => EmptyString
  end.
Fixpoint blank_line (s : string) : bool :=
  match s with String c s' => is_blank c && blank_line s' | EmptyString => true end.
Fixpoint common_prefix (a b : string) : string :=
  match a, b with
  | String c a', String d b' => if Ascii.eqb c d then String c (common_prefix a' b') else EmptyString
  | _, _ => EmptyString
  end.
Fixpoint drop_chars (n : nat) (s : string) : string :=
  match n, s with S n', String _ s' => drop_chars n' s' | _, _ => s end.

(** The margin is the longest common start of the indents of the lines that are not blank. *)
Fixpoint margin (ls : list string) : option string :=
  match ls with
  | [] => None
  | l :: ls' =>
      if blank_line l then margin ls'
      else match margin ls' with None => Some (indent l) | Some m => Some (common_prefix (indent l) m) end
  end.

Definition dedent_lines (ls : list string) : list string :=
  let ls := (λ l, if blank_line l then EmptyString else l) <$> ls in
  match margin ls with None => ls | Some m => (λ l, drop_chars (String.length m) l) <$> ls end.

Definition dedent (s : string) : string := py_join newline (dedent_lines (py_split newline s)).

(** [LS]: a literal block of the YAML text, whose value is the dedented text. *)
Definition LS (s : string) : pyval := VStr (dedent s).

(** ** Tasks *)
Inductive AnsibleTask :=
| AnsibleTemplateTask (src dest : string) (mode : Z) (force backup : string)
| AnsibleCopyTask (src dest : string) (mode : Z) (force backup : string) (remote_src : bool)
| AnsibleReplaceTask (path regexp replace : string)
| AnsibleShellTask (cmd : pyval)
| AnsiblePauseTask (seconds : Z)
| AnsibleServiceTask (name state enabled : string).

Definition dump_task (t : AnsibleTask) : pyval :=
  VDict match t with
  | AnsibleTemplateTask src dest mode force backup =>
      [("src", VStr src); ("dest", VStr dest); ("mode", VInt mode); ("force", VStr force); ("backup", VStr backup)]
  | AnsibleCopyTask src dest mode force backup remote =>
      [("src", VStr src); ("dest", VStr dest); ("mode", VInt mode); ("force", VStr force); ("backup", VStr backup);
       ("remote_src", VBool remote)]
  | AnsibleReplaceTask path regexp replace =>
      [("path", VStr path); ("regexp", VStr regexp); ("replace", VStr replace)]
  | AnsibleShellTask cmd => [("cmd", cmd)]
  | AnsiblePauseTask seconds => [("seconds", VInt seconds)]
  | AnsibleServiceTask name state enabled => [("name", VStr name); ("state", VStr state); ("enabled", VStr enabled)]
  end.

Record AnsibleTaskDescription := {
  tasks_name : string;
  tasks_module : string;
  task : AnsibleTask;
  register_name : option string
}.

Inductive ServiceState := STARTED | STOPPED | RESTARTED | RELOADED.
Definition service_value (s : ServiceState) : string :=
  match s with STARTED => "started" | STOPPED => "stopped" | RESTARTED => "restarted" | RELOADED => "reloaded" end.
(** [f"{s}"] of the member of a plain [Enum]. *)
Definition service_text (s : ServiceState) : string :=
  match s with
  | STARTED => "ServiceState.STARTED" | STOPPED => "ServiceState.STOPPED"
  | RESTARTED => "ServiceState.RESTARTED" | RELOADED => "ServiceState.RELOADED"
  end.

(** ** The builder *)
Record AnsiblePlaybook := {
  pb_name : option string;
  hosts : string;
  connection : option string;
  become : bool;
  gather_facts : string;
  pb_tasks : list dict;
  roles : list string;
  pb_vars : list (string * pyval)
}.

Definition AnsiblePlaybookBuilder (name : string) (become_root gather : bool) (conn : option string) : AnsiblePlaybook :=
  {| pb_name := Some name; hosts := "all"; connection := conn; become := become_root;
     gather_facts := if gather then "yes" else "no"; pb_tasks := []; roles := []; pb_vars := [] |}.
(** With the defaults of the arguments. *)
Definition new_builder (name : string) : AnsiblePlaybook := AnsiblePlaybookBuilder name true false None.

Definition set_tasks (l : list dict) (p : AnsiblePlaybook) : AnsiblePlaybook :=
  {| pb_name := pb_name p; hosts := hosts p; connection := connection p; become := become p;
     gather_facts := gather_facts p; pb_tasks := l; roles := roles p; pb_vars := pb_vars p |}.
Definition set_vars (vars_ : list (string * pyval)) (p : AnsiblePlaybook) : AnsiblePlaybook :=
  {| pb_name := pb_name p; hosts := hosts p; connection := connection p; become := become p;
     gather_facts := gather_facts p; pb_tasks := pb_tasks p; roles := roles p; pb_vars := vars_ |}.
Definition add_role (role : string) (p : AnsiblePlaybook) : AnsiblePlaybook :=
  {| pb_name := pb_name p; hosts := hosts p; connection := connection p; become := become p;
     gather_facts := gather_facts p; pb_tasks := pb_tasks p; roles := roles p ++ [role]; pb_vars := pb_vars p |}.

Definition set_var (key : string) (value : pyval) (p : AnsiblePlaybook) : AnsiblePlaybook :=
  let value := match value with VStr s => LS s | v => v end in
  set_vars (od_set key value (pb_vars p)) p.
(** The fields of a model, in the order of their declaration. *)
Definition set_vars_from_fields (model : list (string * pyval)) (p : AnsiblePlaybook) : AnsiblePlaybook :=
  foldl (λ p kv, set_var kv.1 kv.2 p) p model.
Definition unset_var (key : string) (p : AnsiblePlaybook) : bool * AnsiblePlaybook :=
  if od_in key (pb_vars p) then (true, set_vars (od_pop key (pb_vars p)) p) else (false, p).

(** The tasks of the first play of a file, as the YAML reader gives them. *)
Definition add_tasks_from_file (file_tasks : list dict) (p : AnsiblePlaybook) : AnsiblePlaybook :=
  set_tasks (pb_tasks p ++ file_tasks) p.

Definition append_task (t : dict) (p : AnsiblePlaybook) : AnsiblePlaybook := set_tasks (pb_tasks p ++ [t]) p.

Definition add_task (name task_module : string) (task_content : pyval) (register_output_as : option string)
  (task_vars : option dict) (p : AnsiblePlaybook) : AnsiblePlaybook :=
  let dictionary := od_set task_module task_content [("name", VStr name)] in
  let dictionary :=
    if str_true register_output_as
    then od_set "register" (VStr (default EmptyString register_output_as)) dictionary else dictionary in
  let dictionary :=
    match task_vars with Some (v :: vs) => od_set "vars" (VDict (v :: vs)) dictionary | _ => dictionary end in
  append_task dictionary p.

Definition add_task_embedded (d : AnsibleTaskDescription) : AnsiblePlaybook → AnsiblePlaybook :=
  add_task (tasks_name d) (tasks_module d) (dump_task (task d)) (register_name d) None.

Definition add_template_task (src dest : string) (task_vars : option dict) : AnsiblePlaybook → AnsiblePlaybook :=
  add_task ("Template task for " +:+ dest) "ansible.builtin.template"
    (dump_task (AnsibleTemplateTask src dest 511 "yes" "yes")) None task_vars.
Definition add_copy_task (src dest : string) (remote_src : bool) (mode : Z) : AnsiblePlaybook → AnsiblePlaybook :=
  add_task ("Copy task for " +:+ dest) "ansible.builtin.copy"
    (dump_task (AnsibleCopyTask src dest mode "yes" "yes" remote_src)) None None.
Definition add_replace_task (path regexp replace : string) : AnsiblePlaybook → AnsiblePlaybook :=
  add_task ("Replace task for " +:+ path) "ansible.builtin.replace"
    (dump_task (AnsibleReplaceTask path regexp replace)) None None.

Definition add_gather_template_result_task (var_name value_template : string) : AnsiblePlaybook → AnsiblePlaybook :=
  append_task [("name", VStr ("Gather " +:+ var_name +:+ " value"));
               ("ansible.builtin.set_fact",
                VDict (od_set var_name (VStr value_template) [("cacheable", VBool true)]))].
Definition add_gather_var_task (var_name : string) : AnsiblePlaybook → AnsiblePlaybook :=
  add_gather_template_result_task var_name ("{{ " +:+ var_name +:+ " }}").

Definition add_shell_task (command : string) (register_output_as : option string) :
  AnsiblePlaybook → AnsiblePlaybook :=
  add_task ("Shell Task '" +:+ command +:+ "'") "ansible.builtin.shell"
    (dump_task (AnsibleShellTask (LS command))) register_output_as None.
Definition bool_text (b : bool) : string := if b then "True" else "False".
Definition add_service_task (service_name : string) (service_state : ServiceState) (enabled : bool) :
  AnsiblePlaybook → AnsiblePlaybook :=
  add_task ("Service Task '" +:+ service_name +:+ "': state=<" +:+ service_text service_state +:+
            ">, enabled=<" +:+ bool_text enabled +:+ ">")
    "ansible.builtin.service"
    (dump_task (AnsibleServiceTask service_name (service_value service_state) (if enabled then "true" else "false")))
    None None.
Definition add_pause_task (seconds : Z) : AnsiblePlaybook → AnsiblePlaybook :=
  add_task ("Pause Task for '" +:+ pretty seconds +:+ "' sec") "ansible.builtin.pause"
    (dump_task (AnsiblePauseTask seconds)) None None.
Definition add_set_fact (fact_name value : string) : AnsiblePlaybook → AnsiblePlaybook :=
  add_task ("Set " +:+ fact_name +:+ " fact") "set_fact" (VDict [(fact_name, VStr value)]) None None.

Definition add_run_command_and_gather_output_tasks (command output_var_name : string) (p : AnsiblePlaybook) :
  AnsiblePlaybook :=
  let p := add_shell_task command (Some "tmp_reg") p in
  let p := add_set_fact output_var_name "{{ tmp_reg.stdout }}" p in
  add_gather_template_result_task output_var_name "{{ tmp_reg.stdout }}" p.

(** What [build] gives to the YAML writer: fields without a value are left out. *)
Definition optional_field (k : string) (o : option string) : dict :=
  match o with Some v => [(k, VStr v)] | None => [] end.
Definition build (p : AnsiblePlaybook) : pyval :=
  VList [VDict (optional_field "name" (pb_name p) ++ [("hosts", VStr (hosts p))] ++
    optional_field "connection" (connection p) ++
    [("become", VBool (become p)); ("gather_facts", VStr (gather_facts p));
     ("tasks", VList (VDict <$> pb_tasks p)); ("roles", VList (VStr <$> roles p)); ("vars", VDict (pb_vars p))])].

(** ** Reading a playbook back *)

(** The tasks of the first play. *)
Definition play_tasks (playbook : pyval) : list dict :=
  match playbook with
  | VList (VDict play :: _) =>
      match od_get "tasks" play with
      | Some (VList l) => omap (λ v, match v with VDict d => Some d | _ => None end) l
      | _ => []
      end
  | _ => []
  end.

(** The services a playbook sets, with their state, and the commands it runs. *)
Definition task_service (t : dict) : option (string * string) :=
  match od_get "ansible.builtin.service" t with
  | Some (VDict d) =>
      match od_get "name" d, od_get "state" d with Some (VStr n), Some (VStr s) => Some (n, s) | _, _ => None end
  | _ => None
  end.
Definition play_services (playbook : pyval) : list (string * string) := omap task_service (play_tasks playbook).
Definition task_shell (t : dict) : option string :=
  match od_get "ansible.builtin.shell" t with
  | Some (VDict d) => match od_get "cmd" d with Some (VStr s) => Some s | _ => None end
  | _ => None
  end.
Definition play_shells (playbook : pyval) : list string := omap task_shell (play_tasks playbook).

Lemma play_tasks_build p : play_tasks (build p) = pb_tasks p.
Proof.
  unfold play_tasks, build. destruct p as [[] ? [] ? ? l ? ?]; cbn -[omap];
    (induction l as [|d l IH]; [done|]; cbn; f_equal; exact IH).
Qed.

Lemma play_shells_build p : play_shells (build p) = omap task_shell (pb_tasks p).
Proof. unfold play_shells. by rewrite play_tasks_build. Qed.

(** What a task appended to a playbook holds under the name of a module. *)
Lemma added_task name m content reg vars p :
  ∃ d, pb_tasks (add_task name m content reg vars p) = pb_tasks p ++ [d] ∧
    ∀ key, key ∉ ["name"; "register"; "vars"] → od_get key d = if String.eqb m key then Some content else None.
Proof.
  eexists. split; [reflexivity|]. intros key Hk.
  assert (key ≠ "name" ∧ key ≠ "register" ∧ key ≠ "vars") as (H1 & H2 & H3) by set_solver.
  assert (H0 : ∀ d0 : dict, od_get key (match vars with Some (v :: vs) => od_set "vars" (VDict (v :: vs)) d0 | _ => d0 end)
    = od_get key d0) by (intros d0; destruct vars as [[|v vs]|]; [done|by rewrite od_get_set_ne|done]).
  rewrite H0. destruct (str_true reg); [rewrite od_get_set_ne by done|]; rewrite od_get_set; destruct (String.eqb m key); try done;
    cbn [od_get]; by destruct (String.eqb_spec "name" key).
Qed.
(** Only the service tasks set services, only the shell tasks run commands. *)
Lemma add_task_service name m content reg vars p :
  omap task_service (pb_tasks (add_task name m content reg vars p)) =
  omap task_service (pb_tasks p) ++
  (if String.eqb m "ansible.builtin.service" then option_list (task_service [("ansible.builtin.service", content)]) else []).
Proof.
  destruct (added_task name m content reg vars p) as (d & -> & Hd). rewrite omap_app. f_equal.
  cbn [omap list_omap]. unfold task_service at 1. rewrite Hd by set_solver. destruct (String.eqb m _); [|done].
  unfold task_service. cbn [od_get String.eqb Ascii.eqb Bool.eqb]. by destruct content as [| | | | |l]; [..|destruct (od_get "name" l) as [[]|], (od_get "state" l) as [[]|]].
Qed.
Lemma add_task_shell name m content reg vars p :
  omap task_shell (pb_tasks (add_task name m content reg vars p)) =
  omap task_shell (pb_tasks p) ++
  (if String.eqb m "ansible.builtin.shell" then option_list (task_shell [("ansible.builtin.shell", content)]) else []).
Proof.
  destruct (added_task name m content reg vars p) as (d & -> & Hd). rewrite omap_app. f_equal.
  cbn [omap list_omap]. unfold task_shell at 1. rewrite Hd by set_solver. destruct (String.eqb m _); [|done].
  unfold task_shell. cbn [od_get String.eqb Ascii.eqb Bool.eqb]. by destruct content as [| | | | |l]; [..|destruct (od_get "cmd" l) as [[]|]].
Qed.
