(* ===== verification/Resources.v ===== *)
(** * Resources of a blueprint

    blueprints_ng/resources.py and models/k8s/k8s_objects.py: virtual machines with their network
    interfaces, networks, and Helm charts with what the Kubernetes API reports about them. *)

From stdpp Require Import base list strings gmap pretty.
From Stdlib Require Import ZArith Lia Ascii Permutation.
From S2P Require Import Prelude.

Open Scope Z_scope.

(** ** Virtual machines *)
Record VmResourceImage := { image_name : string; image_url : option string; check_sha512sum : bool }.
Record VmResourceFlavor := {
  flavor_name : option string;
  vcpu_count : string;
  memory_mb : string;
  storage_gb : string;
  vcpu_type : option string;
  flavor_port_security : option bool
}.
Record VmResourceNetworkInterfaceAddress := {
  interface_name : string;
  mac : string;
  ip : string;
  cidr : string
}.
Record VmResourceNetworkInterface := {
  fixed : VmResourceNetworkInterfaceAddress;
  floating : option VmResourceNetworkInterfaceAddress
}.

Record VmResource := {
  vm_id : option string;
  vm_area : Z;
  vm_name : string;
  image : VmResourceImage;
  flavor : VmResourceFlavor;
  username : string;
  password : string;
  become_password : option string;
  management_network : string;
  additional_networks : list string;
  require_floating_ip : bool;
  require_port_security_disabled : option bool;
  created : bool;
  access_ip : option string;
  network_interfaces : list (string * list VmResourceNetworkInterface);
  vm_state : option string
}.
Record NetResource := { net_id : option string; net_area : Z; net_name : string; net_cidr : string }.

#[export] Instance VmResourceImage_eq_dec : EqDecision VmResourceImage.
Proof. solve_decision. Defined.
#[export] Instance VmResourceFlavor_eq_dec : EqDecision VmResourceFlavor.
Proof. solve_decision. Defined.
#[export] Instance Address_eq_dec : EqDecision VmResourceNetworkInterfaceAddress.
Proof. solve_decision. Defined.
#[export] Instance Interface_eq_dec : EqDecision VmResourceNetworkInterface.
Proof. solve_decision. Defined.
#[export] Instance VmResource_eq_dec : EqDecision VmResource.
Proof. solve_decision. Defined.
#[export] Instance NetResource_eq_dec : EqDecision NetResource.
Proof. solve_decision. Defined.

(** [ResourceDeployable.get_name_k8s_format]. *)
Definition get_name_k8s_format (name : string) : string := replace_char "_"%char "-"%char (lower name).

(** [VmResourceNetworkInterfaceAddress]. *)
Definition get_prefix (a : VmResourceNetworkInterfaceAddress) : string :=
  List.last (py_split "/"%char (cidr a)) EmptyString.
Definition get_ip_prefix (a : VmResourceNetworkInterfaceAddress) : string := ip a +:+ "/" +:+ get_prefix a.

(** [model_post_init]: [list(set(l))], in the order [set_order] gives, without the management
    network. *)
Definition clean_networks (set_order : list string → list string) (management : string) (l : list string) :
  list string :=
  let l := set_order (remove_dups l) in
  match py_remove String.eqb management l with Ok l' => l' | Raise _ => l end.

(** A machine as the modules of the blueprints declare it; what they leave out has its default. *)
Definition new_VmResource (set_order : list string → list string) (area : Z) (name : string) (img : VmResourceImage)
  (flv : VmResourceFlavor) (user pass : string) (management : string) (networks : list string)
  (secure_off : option bool) : VmResource :=
  {| vm_id := None; vm_area := area; vm_name := name; image := img; flavor := flv;
     username := user; password := pass; become_password := None;
     management_network := management; additional_networks := clean_networks set_order management networks;
     require_floating_ip := false; require_port_security_disabled := secure_off; created := false;
     access_ip := None; network_interfaces := []; vm_state := None |}.
Definition new_NetResource (area : Z) (name cidr : string) : NetResource :=
  {| net_id := None; net_area := area; net_name := name; net_cidr := cidr |}.

Definition get_all_connected_network_names (v : VmResource) : list string :=
  management_network v :: additional_networks v.
Definition interfaces_of (network : string) (v : VmResource) : result (list VmResourceNetworkInterface) :=
  od_getitem network (network_interfaces v).
Definition first_interface (network : string) (v : VmResource) : result VmResourceNetworkInterface :=
  l ← interfaces_of network v; py_getitem l 0.
Definition get_management_interface (v : VmResource) : result VmResourceNetworkInterface :=
  first_interface (management_network v) v.
Definition get_additional_interfaces (v : VmResource) : result (list VmResourceNetworkInterface) :=
  ls ← map_result (λ key, interfaces_of key v) (additional_networks v); Ok (concat ls).

Definition all_interfaces (v : VmResource) : list VmResourceNetworkInterface :=
  concat (od_values (network_interfaces v)).
Definition get_network_interface_by_name (name : string) (v : VmResource) : option VmResourceNetworkInterface :=
  find (λ i, String.eqb (interface_name (fixed i)) name) (all_interfaces v).
Definition get_network_interface_by_fixed_mac (m : string) (v : VmResource) : option VmResourceNetworkInterface :=
  find (λ i, String.eqb (mac (fixed i)) m) (all_interfaces v).
(** Nothing is returned for a network that is not connected. *)
Definition check_if_network_connected_by_name (network_name : string) (v : VmResource) : option bool :=
  if od_in network_name (network_interfaces v) then Some true else None.
Definition check_if_network_connected_by_cidr (c : string) (v : VmResource) : bool :=
  existsb (λ i, String.eqb (cidr (fixed i)) c) (all_interfaces v).

(** ** Objects of Kubernetes *)
Inductive K8sServiceType := ClusterIP | NodePort | LoadBalancer | ExternalName.
#[export] Instance K8sServiceType_eq_dec : EqDecision K8sServiceType.
Proof. solve_decision. Defined.
Definition service_type_value (t : K8sServiceType) : string :=
  match t with
  | ClusterIP => "ClusterIP" | NodePort => "NodePort" | LoadBalancer => "LoadBalancer" | ExternalName => "ExternalName"
  end.
Inductive K8sServicePortProtocol := TCP | UDP | SCTP.
Inductive TargetPort := PortNumber (z : Z) | PortName (s : string).
Record K8sServicePort := {
  port_name : option string; port : Z; protocol : K8sServicePortProtocol; targetPort : TargetPort
}.
Record K8sService := {
  svc_type : K8sServiceType;
  svc_name : string;
  cluster_ip : option string;
  external_ip : option (list string);
  ports : list K8sServicePort
}.
Record K8sDeployment := { dep_name : string; pods : list string }.

(** [none_str_to_none], on the cluster address; a list never equals a text. *)
Definition none_str_to_none (v : option string) : option string :=
  match v with Some "None" => None | _ => v end.

(** What the Kubernetes API reports; [ingress] is absent while a load balancer has no address. *)
Record V1Service := {
  api_type : K8sServiceType;
  api_name : string;
  api_cluster_ip : option string;
  api_ports : list K8sServicePort;
  ingress : option (list string)
}.

Record HelmChartResource := {
  helm_id : option string;
  helm_area : Z;
  helm_name : string;
  chart : string;
  chart_as_path : bool;
  repo : option string;
  version : option string;
  namespace : string;
  helm_created : bool;
  services : option (list (string * K8sService));
  deployments : option (list (string * K8sDeployment));
  statefulsets : option (list (string * string))
}.

Definition set_services (o : option (list (string * K8sService))) (h : HelmChartResource) : HelmChartResource :=
  {| helm_id := helm_id h; helm_area := helm_area h; helm_name := helm_name h; chart := chart h;
     chart_as_path := chart_as_path h; repo := repo h; version := version h; namespace := namespace h;
     helm_created := helm_created h; services := o; deployments := deployments h; statefulsets := statefulsets h |}.
Definition set_deployments (o : option (list (string * K8sDeployment))) (h : HelmChartResource) : HelmChartResource :=
  {| helm_id := helm_id h; helm_area := helm_area h; helm_name := helm_name h; chart := chart h;
     chart_as_path := chart_as_path h; repo := repo h; version := version h; namespace := namespace h;
     helm_created := helm_created h; services := services h; deployments := o; statefulsets := statefulsets h |}.

Definition put_service (s : K8sService) (h : HelmChartResource) : HelmChartResource :=
  set_services (Some (od_set (svc_name s) s (default [] (services h)))) h.
Definition put_deployment (d : K8sDeployment) (h : HelmChartResource) : HelmChartResource :=
  set_deployments (Some (od_set (dep_name d) d (default [] (deployments h)))) h.

Definition service_of (k8s_service : V1Service) : result K8sService :=
  external_ips ←
    (if String.eqb (service_type_value (api_type k8s_service)) (service_type_value LoadBalancer)
     then match ingress k8s_service with Some l => Ok l | None => Raise TypeError end
     else Ok []);
  Ok {| svc_type := api_type k8s_service; svc_name := api_name k8s_service;
        cluster_ip := none_str_to_none (api_cluster_ip k8s_service);
        external_ip := Some external_ips; ports := api_ports k8s_service |}.

Definition set_services_from_k8s_api (k8s_services : list V1Service) : M HelmChartResource unit :=
  modifyS (set_services (Some [])) ;;
  for_each k8s_services (λ k8s_service, s ← liftR (service_of k8s_service); modifyS (put_service s)).

Definition set_deployments_from_k8s_api (k8s_deployments : list string) (deployments_pods : list (string * list string)) :
  M HelmChartResource unit :=
  modifyS (set_deployments (Some [])) ;;
  for_each k8s_deployments (λ name,
    pods ← liftR (od_getitem name deployments_pods);
    modifyS (put_deployment {| dep_name := name; pods := pods |})).

(** [get_chart_converted]: a path or a text. *)
Definition get_chart_converted (h : HelmChartResource) : string + string :=
  if chart_as_path h then inl (chart h) else inr (chart h).

(** ** Lemmas *)
Lemma clean_networks_spec so management l :
  (∀ l, Permutation (so l) l) →
  NoDup (management :: clean_networks so management l) ∧
  ∀ n, n ∈ management :: clean_networks so management l ↔ n = management ∨ n ∈ l.
Proof.
  intros Hso. unfold clean_networks. set (l' := so (remove_dups l)).
  assert (Hnd : NoDup l') by (unfold l'; rewrite Hso; apply NoDup_remove_dups).
  assert (Hin : ∀ n, n ∈ l' ↔ n ∈ l) by (intros n; unfold l'; rewrite Hso; apply elem_of_remove_dups).
  unfold py_remove. destruct (find_index _ l') as [i|] eqn:E.
  - apply find_index_Some in E as (x & Hx & Heq & _). apply String.eqb_eq in Heq as ->.
    pose proof (delete_Permutation l' i management Hx) as Hp. rewrite Hp in Hnd.
    split; [done|]. intros n. rewrite <-Hp, Hin. split; [by right|]. intros [->|]; [|done].
    apply Hin. by eapply list_elem_of_lookup_2.
  - pose proof (proj1 (find_index_None _ _) E) as Hn. split.
    + constructor; [|done]. intros Hm. specialize (Hn _ Hm). cbv beta in Hn. by rewrite String.eqb_refl in Hn.
    + intros n. by rewrite elem_of_cons, Hin.
Qed.

(** The services recorded after a read of the API are the reported ones, the last of each name, or
    the read raised on a load balancer without address. *)
Lemma services_reported l h h' :
  set_services_from_k8s_api l h = (Ok tt, h') →
  ∃ ss, services h' = Some ss ∧ NoDup (od_keys ss) ∧
    (∀ n, n ∈ od_keys ss ↔ n ∈ api_name <$> l) ∧
    ∀ n s, od_get n ss = Some s → ∃ a, a ∈ l ∧ api_name a = n ∧ service_of a = Ok s.
Proof.
  intros H. unfold set_services_from_k8s_api in H. erewrite bind_Ok in H by reflexivity.
  assert (Hgen : ∀ done h0 ss0, services h0 = Some ss0 → NoDup (od_keys ss0) →
    (∀ n, n ∈ od_keys ss0 ↔ n ∈ api_name <$> done) →
    (∀ n s, od_get n ss0 = Some s → ∃ a, a ∈ done ∧ api_name a = n ∧ service_of a = Ok s) →
    for_each l (λ k8s_service, s ← liftR (service_of k8s_service); modifyS (put_service s)) h0 = (Ok tt, h') →
    ∃ ss, services h' = Some ss ∧ NoDup (od_keys ss) ∧ (∀ n, n ∈ od_keys ss ↔ n ∈ api_name <$> done ++ l) ∧
      ∀ n s, od_get n ss = Some s → ∃ a, a ∈ done ++ l ∧ api_name a = n ∧ service_of a = Ok s);
    [|apply (Hgen [] (set_services (Some []) h) []);
      [done|constructor|intros n; by split; intros ?%not_elem_of_nil|done|exact H]].
  clear H. induction l as [|a l IH]; intros dn h0 ss0 Hs Hnd Hk Hg H.
  { injection H as <-. rewrite app_nil_r. by exists ss0. }
  cbn [for_each] in H. apply bind_Ok_inv in H as ([] & h1 & H1 & H).
  apply bind_Ok_inv in H1 as (s & h2 & H2 & H1). unfold liftR in H2. injection H2 as Hsv <-. injection H1 as <-.
  replace (dn ++ a :: l) with ((dn ++ [a]) ++ l) by by rewrite <-app_assoc.
  assert (Hname : svc_name s = api_name a).
  { unfold service_of, mbind, result_bind in Hsv. destruct (if String.eqb _ _ then _ else _); [|done].
    by injection Hsv as <-. }
  eapply (IH (dn ++ [a]) (put_service s h0) (od_set (svc_name s) s ss0)); [unfold put_service; cbn; by rewrite Hs|by apply od_keys_set_NoDup|..|exact H].
  - intros n. rewrite fmap_app. change (api_name <$> [a]) with [api_name a].
    rewrite elem_of_app, list_elem_of_singleton, <-Hk, <-Hname.
    rewrite <-!od_in_keys. unfold od_in. rewrite od_get_set. destruct (String.eqb_spec (svc_name s) n) as [->|Hne].
    + split; [by right|done].
    + split; [by left|]. intros [?|?]; congruence.
  - intros n s'. rewrite od_get_set. destruct (String.eqb_spec (svc_name s) n) as [<-|Hne].
    + intros [= <-]. exists a. split; [apply elem_of_app; right; by left|done].
    + intros Hgs. destruct (Hg n s' Hgs) as (a' & ? & ? & ?). exists a'. split; [apply elem_of_app; by left|done].
Qed.
