(* ===== verification/Generic5GK8s.v ===== *)
(** * 5G cores installed as Helm charts

    blueprints_ng/modules/generic_5g/generic_5g_k8s.py with utils/metrics/prometheus_utils.py: the network
    functions of a core found in its chart, their addresses, their scaling and the queries of their metrics.
    The state of a core of this kind is what its subclass adds, its chart and its network functions. *)

From Stdlib Require Import Ascii.
From stdpp Require Import base list strings gmap pretty.
From Stdlib Require Import ZArith Lia.
From S2P Require Import Prelude Ipam IPv4Text NetworkModels Core5GModels Resources Generic5G.

Open Scope Z_scope.

(** [NF5GType], a text. *)
Inductive NF5GType := AMF | SMF | NSSF | NEF | NRF | PCF | UDM | UDR | AF | AUSF.
Definition nf_value (t : NF5GType) : string :=
  match t with
  | AMF => "AMF" | SMF => "SMF" | NSSF => "NSSF" | NEF => "NEF" | NRF => "NRF"
  | PCF => "PCF" | UDM => "UDM" | UDR => "UDR" | AF => "AF" | AUSF => "AUSF"
  end.
Record K8s5GNF := { nf_type : NF5GType; nf_deployment : K8sDeployment; nf_service : option K8sService }.
Record NetworkFunctionScaling := { nf : NF5GType; replica_count : Z }.

(** What the core calls: the registry of resources, which gives an identifier, the Helm provider, which also fills
    in the chart it is given, and the Kubernetes API. *)
Class CoreCalls (W : Type) := {
  register_resource : HelmChartResource → M W HelmChartResource;
  install_helm_chart : HelmChartResource → pyval → W → result unit * HelmChartResource * W;
  update_values_helm_chart : HelmChartResource → pyval → W → result unit * HelmChartResource * W;
  get_pod_log : HelmChartResource → string → option Z → M W string;
  k8s_credentials : Z → M W string;
  get_k8s_config_from_file_content : string → M W string;
  k8s_scale_k8s_deployment : string → string → string → Z → M W unit
}.

(** The state of a core: what the subclass adds is [own]; [outside] is the rest of the world. *)
Record K8sCore (S W : Type) := {
  own : S;
  k8s_network_functions : list (string * K8s5GNF);
  core_helm_chart : option HelmChartResource;
  outside : W
}.
Arguments own {_ _} _.
Arguments k8s_network_functions {_ _} _.
Arguments core_helm_chart {_ _} _.
Arguments outside {_ _} _.

(** The other blueprints and the PDUs are reached through the world of the core. *)
Definition set_outside {S W} (w : W) (c : K8sCore S W) : K8sCore S W :=
  {| own := own c; k8s_network_functions := k8s_network_functions c; core_helm_chart := core_helm_chart c; outside := w |}.
Definition reach {S W A} (m : M W A) : M (K8sCore S W) A := zoom outside set_outside m.
#[export] Instance core_surroundings {S W} `{!Surroundings W} : Surroundings (K8sCore S W) := {
  create_router m := reach (create_router m);
  create_upf m t := reach (create_upf m t);
  delete_blueprint i := reach (delete_blueprint i);
  call_router_info i := reach (call_router_info i);
  call_add_routes i l := reach (call_add_routes i l);
  call_upf_update i m := reach (call_upf_update i m);
  call_upfs_info i := reach (call_upfs_info i);
  find_gnb a := reach (find_gnb a);
  is_pdu_locked_by_current_blueprint := is_pdu_locked_by_current_blueprint (X := W);
  lock_pdu p := reach (lock_pdu p);
  unlock_pdu p := reach (unlock_pdu p);
  find_by_name n := reach (find_by_name n);
  get_pdu_configurator p := reach (get_pdu_configurator p);
  configure p r := reach (configure p r);
  set_order := set_order (X := W)
}.

(** [cadvisor_exposed_metrics] and [create_prometheus_query]. *)
Definition cadvisor_exposed_metrics : list string :=
  (λ s, "container_" +:+ s) <$> [
  "blkio_device_usage_total"; "cpu_cfs_periods_total"; "cpu_cfs_throttled_periods_total";
  "cpu_cfs_throttled_seconds_total"; "cpu_load_average_10s"; "cpu_schedstat_run_periods_total";
  "cpu_schedstat_runqueue_seconds_total"; "cpu_schedstat_run_seconds_total"; "cpu_system_seconds_total";
  "cpu_usage_seconds_total"; "cpu_user_seconds_total"; "file_descriptors"; "fs_inodes_free"; "fs_inodes_total";
  "fs_io_current"; "fs_io_time_seconds_total"; "fs_io_time_weighted_seconds_total"; "fs_limit_bytes";
  "fs_reads_bytes_total"; "fs_read_seconds_total"; "fs_reads_merged_total"; "fs_reads_total"; "fs_sector_reads_total";
  "fs_sector_writes_total"; "fs_usage_bytes"; "fs_writes_bytes_total"; "fs_write_seconds_total";
  "fs_writes_merged_total"; "fs_writes_total"; "hugetlb_failcnt"; "hugetlb_max_usage_bytes"; "hugetlb_usage_bytes";
  "last_seen"; "llc_occupancy_bytes"; "memory_bandwidth_bytes"; "memory_bandwidth_local_bytes"; "memory_cache";
  "memory_failcnt"; "memory_failures_total"; "memory_mapped_file"; "memory_max_usage_bytes"; "memory_migrate";
  "memory_numa_pages"; "memory_rss"; "memory_swap"; "memory_usage_bytes"; "memory_working_set_bytes";
  "network_advance_tcp_stats_total"; "network_receive_bytes_total"; "network_receive_errors_total";
  "network_receive_packets_dropped_total"; "network_receive_packets_total"; "network_tcp6_usage_total";
  "network_tcp_usage_total"; "network_transmit_bytes_total"; "network_transmit_errors_total";
  "network_transmit_packets_dropped_total"; "network_transmit_packets_total"; "network_udp6_usage_total";
  "network_udp_usage_total"; "oom_events_total"; "perf_events_scaling_ratio"; "perf_events_total";
  "perf_uncore_events_scaling_ratio"; "perf_uncore_events_total"; "processes"; "referenced_bytes"; "sockets";
  "spec_cpu_period"; "spec_cpu_quota"; "spec_cpu_shares"; "spec_memory_limit_bytes";
  "spec_memory_reservation_limit_bytes"; "spec_memory_swap_limit_bytes"; "start_time_seconds"; "tasks_state";
  "threads"; "threads_max"; "ulimits_soft"].
Definition quoted (s : string) : string := let q := String (Ascii.ascii_of_nat 34) EmptyString in q +:+ s +:+ q.
Fixpoint join_text (sep : string) (l : list string) : string :=
  match l with [] => EmptyString | [s] => s | s :: l' => s +:+ sep +:+ join_text sep l' end.
Definition create_prometheus_query (metric_name : string) (labels : list (string * string)) : string :=
  metric_name +:+ "{" +:+ join_text ", " ((λ kv, kv.1 +:+ "=" +:+ quoted kv.2) <$> labels) +:+ "}".

Section core.
Context {S W : Type} `{!CoreCalls W}.
#[local] Abbreviation B := (M (Blue5G (K8sCore S W))).

Definition get_core : B (K8sCore S W) := b ← getS; mret (ext b).
Definition update_core_state (f : K8sCore S W → K8sCore S W) : B unit := modifyS (λ b, set_ext (f (ext b)) b).
Definition get_own : B S := c ← get_core; mret (own c).
Definition put_own (s : S) : B unit :=
  update_core_state (λ c, {| own := s; k8s_network_functions := k8s_network_functions c;
                             core_helm_chart := core_helm_chart c; outside := outside c |}).
Definition set_chart (h : HelmChartResource) (c : K8sCore S W) : K8sCore S W :=
  {| own := own c; k8s_network_functions := k8s_network_functions c; core_helm_chart := Some h; outside := outside c |}.
Definition set_functions (l : list (string * K8s5GNF)) (c : K8sCore S W) : K8sCore S W :=
  {| own := own c; k8s_network_functions := l; core_helm_chart := core_helm_chart c; outside := outside c |}.
(** A call of the world. *)
Definition world {A} (m : M W A) : B A := on_ext (reach m).
Definition the_chart : B HelmChartResource :=
  c ← get_core; match core_helm_chart c with Some h => mret h | None => raise AttributeError end.

(** A chart the code has just built is registered: [self.register_resource(self.state.core_helm_chart)]. *)
Definition register_chart : B unit := h ← the_chart; h ← world (register_resource h); update_core_state (set_chart h).
(** A call of the provider with the chart of the core. *)
Definition on_chart (call : HelmChartResource → pyval → W → result unit * HelmChartResource * W) (values : pyval) : B unit :=
  c ← get_core;
  match core_helm_chart c with
  | None => raise AttributeError
  | Some h =>
      let '(r, h', w) := call h values (outside c) in
      update_core_state (λ c, set_outside w (set_chart h' c)) ;; liftR r
  end.

(** ** Network functions *)
Definition in_chart {A} (key : string) (o : option (list (string * A))) : B A :=
  match o with Some d => liftR (od_getitem key d) | None => raise TypeError end.
Definition update_k8s_network_functions (network_functions_dictionary : list (NF5GType * (string * string))) : B unit :=
  for_each network_functions_dictionary (λ nft,
    h ← the_chart;
    deployment ← in_chart nft.2.1 (deployments h);
    service ← in_chart nft.2.2 (services h);
    update_core_state (λ c, set_functions
      (od_set (nf_value nft.1) {| nf_type := nft.1; nf_deployment := deployment; nf_service := Some service |}
              (k8s_network_functions c)) c)) ;;
  update_st (λ s, {| current_config := current_config s; edge_areas := edge_areas s; ran_areas := ran_areas s; core_deployed := true |}).

Definition the_function (t : NF5GType) : B K8s5GNF := c ← get_core; liftR (od_getitem (nf_value t) (k8s_network_functions c)).
Definition first_external_ip (t : NF5GType) : B string :=
  f ← the_function t;
  s ← attr (nf_service f);
  match external_ip s with Some l => liftR (py_getitem l 0) | None => raise TypeError end.
Definition k8s_get_amf_ip : B string := first_external_ip AMF.
Definition k8s_get_nrf_ip : B string := first_external_ip NRF.

(** ** Day 2 *)
Definition core_area (c : Create5gModel) : result Z :=
  a ← py_getitem (List.filter core (areas c)) 0; Ok (area_id a).
Definition day2_scale_nf (nf_scaling : NetworkFunctionScaling) : B unit :=
  c ← get_config;
  area ← liftR (core_area c);
  credentials ← world (k8s_credentials area);
  k8s_config ← world (get_k8s_config_from_file_content credentials);
  h ← the_chart;
  f ← the_function (nf nf_scaling);
  world (k8s_scale_k8s_deployment k8s_config (lower (namespace h)) (dep_name (nf_deployment f)) (replica_count nf_scaling)).

Definition metric_labels (namespace pod : string) : list (string * string) :=
  [("container_label_io_kubernetes_pod_namespace", lower namespace);
   ("container_label_io_kubernetes_pod_name", pod);
   ("container_label_io_cri_containerd_kind", "container")].
Definition queries_of (namespace : string) (d : K8sDeployment) : result (list string) :=
  pod ← py_getitem (pods d) 0;
  Ok ((λ metric, create_prometheus_query metric (metric_labels namespace pod)) <$> cadvisor_exposed_metrics).
Definition day2_get_metrics_queries : B (list (string * list string)) :=
  h ← the_chart;
  match deployments h with
  | Some d => liftR (map_result (λ kd, l ← queries_of (namespace h) kd.2; Ok (kd.1, l)) d)
  | None => raise AttributeError
  end.
End core.

(** ** What the calls of a core leave alone: the configuration and the areas *)
Section kept.
Context {S W : Type} `{!Surroundings W} `{!CoreCalls W}.
#[local] Abbreviation X := (K8sCore S W).
#[local] Abbreviation B := (M (Blue5G X)).
Implicit Types b : Blue5G X.
Variables (c : option Create5gModel) (e : list (string * EdgeAreaInfo)).
Definition unmoved b : Prop := current_config (st b) = c ∧ edge_areas (st b) = e.

Lemma unmoved_ext {A} (m : M X A) : preserves unmoved (on_ext m : B A).
Proof. intros b Hb. unfold on_ext, zoom. by destruct (m (ext b)). Qed.
Lemma unmoved_core f : preserves unmoved (update_core_state f : B unit).
Proof. by intros b Hb. Qed.
Lemma unmoved_get_core : preserves unmoved (get_core : B X).
Proof. by intros b Hb. Qed.
Lemma unmoved_get_st : preserves unmoved (get_st : B _).
Proof. by intros b Hb. Qed.
Lemma unmoved_get_config : preserves unmoved (get_config : B _).
Proof. unfold get_config. apply preserves_bind; [apply unmoved_get_st|]. intros s. destruct (current_config s); [apply preserves_ret|apply preserves_raise]. Qed.
Lemma unmoved_attr {A} (o : option A) : preserves unmoved (attr o : B A).
Proof. destruct o; [apply preserves_ret|apply preserves_raise]. Qed.
Lemma unmoved_chart : preserves unmoved (the_chart : B _).
Proof. unfold the_chart. apply preserves_bind; [apply unmoved_get_core|]. intros x. destruct (core_helm_chart x); [apply preserves_ret|apply preserves_raise]. Qed.
Lemma unmoved_on_chart f p : preserves unmoved (on_chart f p : B unit).
Proof.
  unfold on_chart. apply preserves_bind; [apply unmoved_get_core|]. intros x. destruct (core_helm_chart x) as [h|]; [|apply preserves_raise].
  destruct (f h p (outside x)) as [[r h'] w]. apply preserves_bind; [apply unmoved_core|]. intros []. apply preserves_liftR.
Qed.
Lemma unmoved_in_chart {A} k (o : option (list (string * A))) : preserves unmoved (in_chart k o : B A).
Proof. destruct o; [apply preserves_liftR|apply preserves_raise]. Qed.
Lemma unmoved_register : preserves unmoved (register_chart : B unit).
Proof.
  unfold register_chart. apply preserves_bind; [apply unmoved_chart|]. intros h. apply preserves_bind; [apply unmoved_ext|]. intros h'. apply unmoved_core.
Qed.
Lemma unmoved_functions l : preserves unmoved (update_k8s_network_functions l : B unit).
Proof.
  unfold update_k8s_network_functions. apply preserves_bind.
  - apply preserves_for_each. intros [t [d s]]. apply preserves_bind; [apply unmoved_chart|]. intros h.
    apply preserves_bind; [apply unmoved_in_chart|]. intros d'. apply preserves_bind; [apply unmoved_in_chart|]. intros s'. apply unmoved_core.
  - intros [] b [H1 H2]. by split.
Qed.
Lemma unmoved_function t : preserves unmoved (the_function t : B _).
Proof. unfold the_function. apply preserves_bind; [apply unmoved_get_core|]. intros x. apply preserves_liftR. Qed.
Lemma unmoved_ip t : preserves unmoved (first_external_ip t : B string).
Proof.
  unfold first_external_ip. apply preserves_bind; [apply unmoved_function|]. intros f. apply preserves_bind; [apply unmoved_attr|]. intros s.
  destruct (external_ip s); [apply preserves_liftR|apply preserves_raise].
Qed.
Lemma unmoved_own : preserves unmoved (get_own : B S).
Proof. unfold get_own. apply preserves_bind; [apply unmoved_get_core|]. intros x. apply preserves_ret. Qed.
Lemma unmoved_upfs i : preserves unmoved (get_upfs_for_slice i : B _).
Proof. unfold get_upfs_for_slice. apply preserves_bind; [apply unmoved_get_st|]. intros s. apply preserves_bind; [apply preserves_liftR|]. intros l. apply preserves_ret. Qed.
End kept.
Ltac unmoved_step :=
  match goal with
  | |- preserves _ (mret _) => apply preserves_ret
  | |- preserves _ (raise _) => apply preserves_raise
  | |- preserves _ (liftR _) => apply preserves_liftR
  | |- preserves _ (on_ext _) => apply unmoved_ext
  | |- preserves _ (world _) => apply unmoved_ext
  | |- preserves _ (update_core_state _) => apply unmoved_core
  | |- preserves _ (put_own _) => apply unmoved_core
  | |- preserves _ get_own => apply unmoved_own
  | |- preserves _ get_core => apply unmoved_get_core
  | |- preserves _ get_st => apply unmoved_get_st
  | |- preserves _ get_config => apply unmoved_get_config
  | |- preserves _ (attr _) => apply unmoved_attr
  | |- preserves _ the_chart => apply unmoved_chart
  | |- preserves _ (on_chart _ _) => apply unmoved_on_chart
  | |- preserves _ register_chart => apply unmoved_register
  | |- preserves _ (update_k8s_network_functions _) => apply unmoved_functions
  | |- preserves _ (the_function _) => apply unmoved_function
  | |- preserves _ (first_external_ip _) => apply unmoved_ip
  | |- preserves _ (get_upfs_for_slice _) => apply unmoved_upfs
  | |- preserves _ (_ ≫= _) => apply preserves_bind; [|intros ?]
  | |- preserves _ (for_each _ _) => apply preserves_for_each; intros ?
  | |- preserves _ (if ?x then _ else _) => destruct x
  | |- preserves _ (match ?x with _ => _ end) => destruct x
  end.
Ltac unmoved_steps := cbv zeta; repeat (unmoved_step; cbv zeta).
