(* ===== verification/SdCore.v ===== *)
(** * SD-Core

    blueprints_ng/modules/sdcore: a core that is one Helm chart, whose values are computed again from the
    configuration each time it changes (sdcore_values_model.py). *)

From Stdlib Require Import Ascii.
From stdpp Require Import base list strings gmap pretty.
From Stdlib Require Import ZArith Lia.
From S2P Require Import Prelude Ipam IPv4Text NetworkModels Core5GModels Resources Generic5G Generic5GK8s.

Open Scope Z_scope.

(** ** The values of the chart *)
Record Subscriber := {
  ue_id_start : string;
  ue_id_end : string;
  plmn_id : string;
  sub_opc : string;
  sub_op : string;
  key : string;
  sequence_number : string
}.
Record TrafficClass := { tc_name : string; qci : Z; arp : Z; pdb : Z; pelr : Z }.
Record UeDnnQos := { dnn_mbr_downlink : Z; dnn_mbr_uplink : Z; bitrate_unit : string; traffic_class : TrafficClass }.
Record IpDomainExpanded := { ip_dnn : string; dns_primary : string; mtu : Z; ue_ip_pool : string; ue_dnn_qos : UeDnnQos }.
Record DeviceGroup := {
  group_name : string;
  imsis : list string;
  ip_domain_name : string;
  ip_domain_expanded : IpDomainExpanded;
  group_site_info : string
}.
Record SliceId := { slice_sd : string; slice_sst : Z }.
Record ApplicationFilteringRule := { rule_name : string; priority : Z; action : string; endpoint : string }.
Record GNodeB := { gnb_name : string; gnb_tac : Z }.
Record Plmn := { mcc : string; mnc : string }.
Definition as_single_string (p : Plmn) : string := mcc p +:+ mnc p.
Record SdUpf := { upf_name : string; upf_port : Z }.
Record SiteInfo := { g_node_bs : list GNodeB; site_plmn : Plmn; site_name : string; site_upf : SdUpf }.
Record NetworkSlice := {
  slice_name : string;
  slice_id : SliceId;
  site_device_group : list string;
  application_filtering_rules : list ApplicationFilteringRule;
  site_info : SiteInfo
}.
Record SimAppYamlConfiguration := {
  provision_network_slice : bool;
  sub_provision_endpt : string;
  sd_subscribers : list Subscriber;
  device_groups : list DeviceGroup;
  network_slices : list NetworkSlice;
  ext_plmn : option string;
  ext_data_nets : option (list SubDataNets)
}.

Definition set_subs l c := {| provision_network_slice := provision_network_slice c; sub_provision_endpt := sub_provision_endpt c;
  sd_subscribers := l; device_groups := device_groups c; network_slices := network_slices c; ext_plmn := ext_plmn c; ext_data_nets := ext_data_nets c |}.
Definition set_groups l c := {| provision_network_slice := provision_network_slice c; sub_provision_endpt := sub_provision_endpt c;
  sd_subscribers := sd_subscribers c; device_groups := l; network_slices := network_slices c; ext_plmn := ext_plmn c; ext_data_nets := ext_data_nets c |}.
Definition set_network_slices l c := {| provision_network_slice := provision_network_slice c; sub_provision_endpt := sub_provision_endpt c;
  sd_subscribers := sd_subscribers c; device_groups := device_groups c; network_slices := l; ext_plmn := ext_plmn c; ext_data_nets := ext_data_nets c |}.
Definition set_ext_nets p l c := {| provision_network_slice := provision_network_slice c; sub_provision_endpt := sub_provision_endpt c;
  sd_subscribers := sd_subscribers c; device_groups := device_groups c; network_slices := network_slices c; ext_plmn := Some p; ext_data_nets := Some l |}.
Definition set_imsis l g := {| group_name := group_name g; imsis := l; ip_domain_name := ip_domain_name g;
  ip_domain_expanded := ip_domain_expanded g; group_site_info := group_site_info g |}.
Definition set_upf_name n s := {| slice_name := slice_name s; slice_id := slice_id s; site_device_group := site_device_group s;
  application_filtering_rules := application_filtering_rules s;
  site_info := {| g_node_bs := g_node_bs (site_info s); site_plmn := site_plmn (site_info s); site_name := site_name (site_info s);
                  site_upf := {| upf_name := n; upf_port := upf_port (site_upf (site_info s)) |} |} |}.

(** *** From the configuration of a core *)
#[local] Abbreviation V := (M SimAppYamlConfiguration).

(** The areas that list a slice, once for each time they list it. *)
Definition get_areas_with_slice (generic_model : Create5gModel) (slice_profile : SubSliceProfiles) : result (list Z) :=
  ls ← map_result (λ area,
         l ← py_iter (slices area);
         Ok (const (area_id area) <$> List.filter (λ slice, String.eqb (area_sliceId slice) (sliceId slice_profile)) l))
       (areas generic_model);
  Ok (concat ls).

Fixpoint upd_first {A} (p : A → bool) (f : A → A) (l : list A) : list A :=
  match l with [] => [] | x :: l' => if p x then f x :: l' else x :: upd_first p f l' end.
Definition set_upf_ip (id upf_ip : string) : V unit :=
  modifyS (λ c, set_network_slices (upd_first (λ s, String.eqb (slice_sd (slice_id s)) id) (set_upf_name upf_ip) (network_slices c)) c).

(** The words of a rate: a number and a unit. *)
Definition word (ambr : option string) (i : Z) : result string :=
  match ambr with Some s => py_getitem (py_split " "%char s) i | None => Raise AttributeError end.
Definition supported_units : list string := ["mbps"; "gbps"; "kbps"].
Definition ALLOW_ALL : ApplicationFilteringRule :=
  {| rule_name := "ALLOW-ALL"; priority := 250; action := "permit"; endpoint := "0.0.0.0/0" |}.
Definition platinum : TrafficClass := {| tc_name := "platinum"; qci := 9; arp := 6; pdb := 300; pelr := 6 |}.
Definition plmn_of (s : string) : Plmn :=
  {| mcc := String.substring 0 3 s; mnc := String.substring 3 (String.length s - 3) s |}.

(** [SstConvertion.sstType] of a type of slice. *)
Definition sst_of (t : SliceType) : result Z := match to_int t with Some z => Ok z | None => Raise KeyError end.

Definition add_slice_from_generic_model (generic_slice : SubSliceProfiles) (area_id : option Z) : V NetworkSlice :=
  if negb (length (dnnList generic_slice) =? 1)%nat then raise ValueError
  else
    let slice_name := "slice_" +:+ sliceId generic_slice in
    let device_group_name := "device-group-" +:+ slice_name in
    let site_name := "site-" +:+ slice_name in
    self ← getS;
    nets ← liftR (py_iter (ext_data_nets self));
    name ← liftR (py_getitem (dnnList generic_slice) 0);
    data_net ← liftR (py_getitem (List.filter (λ x, String.eqb (dnn x) name) nets) 0);
    down_unit ← liftR (word (downlinkAmbr data_net) 1);
    up_unit ← liftR (word (uplinkAmbr data_net) 1);
    if negb (String.eqb (lower down_unit) (lower up_unit)) then raise ValueError
    else if negb (py_in String.eqb (lower down_unit) supported_units) then raise ValueError
    else
      let gnbs := match area_id with Some a => [{| gnb_name := "gnb" +:+ pretty a; gnb_tac := a |}] | None => [] end in
      sst ← liftR (sst_of (sliceType generic_slice));
      plmn ← liftR (match ext_plmn self with Some p => Ok p | None => Raise TypeError end);
      let new_network_slice :=
        {| slice_name := slice_name; slice_id := {| slice_sd := sliceId generic_slice; slice_sst := sst |};
           site_device_group := [device_group_name]; application_filtering_rules := [ALLOW_ALL];
           site_info := {| g_node_bs := gnbs; site_plmn := plmn_of plmn; site_name := site_name;
                           site_upf := {| upf_name := "PLACEHOLDER"; upf_port := 8805 |} |} |} in
      pool ← liftR (py_getitem (pools data_net) 0);
      down ← liftR (word (downlinkAmbr data_net) 0);
      downlink ← liftR (py_int down);
      up ← liftR (word (uplinkAmbr data_net) 0);
      uplink ← liftR (py_int up);
      let new_device_group :=
        {| group_name := device_group_name; imsis := []; ip_domain_name := "pool1";
           ip_domain_expanded := {| ip_dnn := dnn data_net; dns_primary := dns data_net; mtu := 1410; ue_ip_pool := pool_cidr pool;
             ue_dnn_qos := {| dnn_mbr_downlink := downlink; dnn_mbr_uplink := uplink; bitrate_unit := lower down_unit;
                              traffic_class := platinum |} |};
           group_site_info := site_name |} in
      modifyS (λ c, set_groups (device_groups c ++ [new_device_group]) c) ;;
      modifyS (λ c, set_network_slices (network_slices c ++ [new_network_slice]) c) ;;
      mret new_network_slice.

(** The subscriber joins the group of each slice it lists: the first group of the name the slice has. *)
Definition join_group (ue slice : string) : V unit :=
  self ← getS;
  matching_slice ← liftR (py_getitem (List.filter (λ x, String.eqb (slice_sd (slice_id x)) slice) (network_slices self)) 0);
  name ← liftR (py_getitem (site_device_group matching_slice) 0);
  matching ← liftR (py_getitem (List.filter (λ x, String.eqb (group_name x) name) (device_groups self)) 0);
  putS (set_groups (upd_first (λ x, String.eqb (group_name x) name) (λ g, set_imsis (imsis g ++ [ue]) g) (device_groups self)) self).
Definition add_subscriber_from_generic_model (generic_subscriber : SubSubscribers) : V unit :=
  self ← getS;
  plmn ← liftR (match ext_plmn self with Some p => Ok p | None => Raise ValidationError end);
  putS (set_subs (sd_subscribers self ++
    [{| ue_id_start := imsi generic_subscriber; ue_id_end := imsi generic_subscriber; plmn_id := plmn; sub_opc := opc generic_subscriber;
        sub_op := EmptyString; key := k generic_subscriber; sequence_number := "16f3b3f70fc2" |}]) self) ;;
  for_each (snssai generic_subscriber) (λ s, join_group (imsi generic_subscriber) (snssai_sliceId s)).

Definition from_generic_5g_model (generic_model : Create5gModel) : V unit :=
  modifyS (λ c, set_subs [] (set_network_slices [] (set_groups [] c))) ;;
  modifyS (set_ext_nets (plmn (config generic_model)) (data_nets (network_endpoints (config generic_model)))) ;;
  profiles ← liftR (py_iter (sliceProfiles (config generic_model)));
  for_each profiles (λ generic_slice,
    areas_with_slice ← liftR (get_areas_with_slice generic_model generic_slice);
    let area_id := match areas_with_slice with [a] => Some a | _ => None end in
    add_slice_from_generic_model generic_slice area_id ;; mret tt) ;;
  for_each (subscribers (config generic_model)) add_subscriber_from_generic_model.

(** Two operations no caller uses any more.  The group is changed while it is iterated: after a removal the
    iterator skips the element that took the place of the removed one. *)
Fixpoint remove_iterating (fuel i : nat) (x : string) (l : list string) : list string :=
  match fuel with
  | O => l
  | S n =>
      match l !! i with
      | None => l
      | Some y => if String.eqb y x then match py_remove String.eqb y l with Ok l' => remove_iterating n (S i) x l' | Raise _ => l end
                  else remove_iterating n (S i) x l
      end
  end.
Definition delete_subscriber (ue : string) : V unit :=
  self ← getS;
  match find_index (λ x, String.eqb (ue_id_start x) ue) (sd_subscribers self) with
  | None => raise ValueError
  | Some i =>
      putS (set_subs (delete i (sd_subscribers self))
             (set_groups ((λ g, set_imsis (remove_iterating (length (imsis g)) 0 ue (imsis g)) g) <$> device_groups self) self))
  end.
Definition delete_slice (id : string) : V unit :=
  let slice_name' := "slice_" +:+ id in
  self ← getS;
  match find_index (λ x, String.eqb (slice_name x) slice_name') (network_slices self),
        find_index (λ x, String.eqb (group_name x) ("device-group-" +:+ slice_name')) (device_groups self) with
  | Some i, Some j => putS (set_groups (delete j (device_groups self)) (set_network_slices (delete i (network_slices self)) self))
  | _, _ => raise ValueError
  end.

(** *** The text given to Helm: aliases for the names, no field that is [None], none whose name starts with [ext_] *)
Definition dump_subscriber (s : Subscriber) : pyval :=
  VDict [("ueId-start", VStr (ue_id_start s)); ("ueId-end", VStr (ue_id_end s)); ("plmnId", VStr (plmn_id s)); ("opc", VStr (sub_opc s));
         ("op", VStr (sub_op s)); ("key", VStr (key s)); ("sequenceNumber", VStr (sequence_number s))].
Definition dump_traffic_class (t : TrafficClass) : pyval :=
  VDict [("name", VStr (tc_name t)); ("qci", VInt (qci t)); ("arp", VInt (arp t)); ("pdb", VInt (pdb t)); ("pelr", VInt (pelr t))].
Definition dump_qos (q : UeDnnQos) : pyval :=
  VDict [("dnn-mbr-downlink", VInt (dnn_mbr_downlink q)); ("dnn-mbr-uplink", VInt (dnn_mbr_uplink q)); ("bitrate-unit", VStr (bitrate_unit q));
         ("traffic-class", dump_traffic_class (traffic_class q))].
Definition dump_ip_domain (d : IpDomainExpanded) : pyval :=
  VDict [("dnn", VStr (ip_dnn d)); ("dns-primary", VStr (dns_primary d)); ("mtu", VInt (mtu d)); ("ue-ip-pool", VStr (ue_ip_pool d));
         ("ue-dnn-qos", dump_qos (ue_dnn_qos d))].
Definition dump_group (g : DeviceGroup) : pyval :=
  VDict [("name", VStr (group_name g)); ("imsis", VList (VStr <$> imsis g)); ("ip-domain-name", VStr (ip_domain_name g));
         ("ip-domain-expanded", dump_ip_domain (ip_domain_expanded g)); ("site-info", VStr (group_site_info g))].
Definition dump_rule (r : ApplicationFilteringRule) : pyval :=
  VDict [("rule-name", VStr (rule_name r)); ("priority", VInt (priority r)); ("action", VStr (action r)); ("endpoint", VStr (endpoint r))].
Definition dump_gnb (g : GNodeB) : pyval := VDict [("name", VStr (gnb_name g)); ("tac", VInt (gnb_tac g))].
Definition dump_site (s : SiteInfo) : pyval :=
  VDict [("gNodeBs", VList (dump_gnb <$> g_node_bs s)); ("plmn", VDict [("mcc", VStr (mcc (site_plmn s))); ("mnc", VStr (mnc (site_plmn s)))]);
         ("site-name", VStr (site_name s));
         ("upf", VDict [("upf-name", VStr (upf_name (site_upf s))); ("upf-port", VInt (upf_port (site_upf s)))])].
Definition dump_network_slice (s : NetworkSlice) : pyval :=
  VDict [("name", VStr (slice_name s)); ("slice-id", VDict [("sd", VStr (slice_sd (slice_id s))); ("sst", VInt (slice_sst (slice_id s)))]);
         ("site-device-group", VList (VStr <$> site_device_group s));
         ("application-filtering-rules", VList (dump_rule <$> application_filtering_rules s)); ("site-info", dump_site (site_info s))].
Definition given (key : string) (o : option string) : dict := match o with Some s => [(key, VStr s)] | None => [] end.
Definition dump_data_net (d : SubDataNets) : pyval :=
  VDict ([("net_name", VStr (Core5GModels.net_name d)); ("dnn", VStr (dnn d)); ("dns", VStr (dns d));
          ("pools", VList ((λ p, VDict [("cidr", VStr (pool_cidr p))]) <$> pools d))] ++
         given "uplinkAmbr" (uplinkAmbr d) ++ given "downlinkAmbr" (downlinkAmbr d) ++ given "default5qi" (default5qi d)).
Definition dump_simapp (c : SimAppYamlConfiguration) : dict :=
  [("provision-network-slice", VBool (provision_network_slice c)); ("sub-provision-endpt", VDict [("addr", VStr (sub_provision_endpt c))]);
   ("subscribers", VList (dump_subscriber <$> sd_subscribers c)); ("device-groups", VList (dump_group <$> device_groups c));
   ("network-slices", VList (dump_network_slice <$> network_slices c))] ++
  given "ext_plmn" (ext_plmn c) ++
  match ext_data_nets c with Some l => [("ext_data_nets", VList (dump_data_net <$> l))] | None => [] end.

(** *** [default_config]: what the code never changes, around the configuration *)
Definition repository : pyval := VDict [("repository", VStr "registry.opennetworking.org/docker.io/")].
Definition enabled (b : bool) : pyval := VDict [("enabled", VBool b)].
Definition deploy (b : bool) : pyval := VDict [("deploy", VBool b)].
Definition with_service (l : dict) : pyval := VDict (("serviceType", VStr "LoadBalancer") :: l).
Definition cfg_files (file : string) (l : dict) : dict := [("cfgFiles", VDict [(file, VDict [("configuration", VDict l)])])].
Definition probe : pyval := VDict [("timeoutSeconds", VInt 20)].
Definition control_plane : pyval :=
  VDict [("enable5G", VBool true); ("images", repository); ("kafka", deploy true);
         ("mongodb", VDict [("readinessProbe", probe); ("livenessProbe", probe); ("usePassword", VBool false); ("persistence", enabled false);
                            ("architecture", VStr "replicaset"); ("replicaCount", VInt 2)]);
         ("resources", enabled false);
         ("config", VDict [
            ("mongodb", VDict [("name", VStr "free5gc"); ("url", VStr "mongodb://mongodb-arbiter-headless")]);
            ("managedByConfigPod", enabled true); ("sctplb", deploy false); ("upfadapter", deploy false);
            ("metricfunc", VDict [("deploy", VBool true); ("serviceType", VStr "LoadBalancer")]);
            ("webui", with_service []);
            ("amf", with_service (cfg_files "amfcfg.conf" [("enableDBStore", VBool false)]));
            ("smf", with_service (cfg_files "smfcfg.conf" [("enableDBStore", VBool false)]));
            ("nrf", with_service (cfg_files "nrfcfg.conf" [("mongoDBStreamEnable", VBool false); ("nfProfileExpiryEnable", VBool false);
                                                           ("nfKeepAliveTime", VInt 60)]))])].
Definition chart_values (configuration : dict) : pyval :=
  VDict [("5g-control-plane", control_plane);
         ("omec-sub-provision", VDict [("enable", VBool true); ("images", repository);
            ("config", VDict [("simapp", VDict [("cfgFiles", VDict [("simapp.yaml",
               VDict [("info", VDict [("version", VStr "1.0.0")]); ("configuration", VDict configuration)])])])])]);
         ("omec-control-plane", VDict [("enable4G", VBool false)]); ("omec-user-plane", VDict [("enable", VBool false)]);
         ("5g-ran-sim", VDict [("enable", VBool false)])].
Definition model_dump_for_helm (c : SimAppYamlConfiguration) : pyval :=
  chart_values (List.filter (λ kv, negb (String.prefix "ext_" kv.1)) (dump_simapp c)).

Definition example_group (n : string) (ue : string) (site : string) : DeviceGroup :=
  {| group_name := "5g-gnbsim-user-group" +:+ n; imsis := [ue]; ip_domain_name := "pool1";
     ip_domain_expanded := {| ip_dnn := "internet"; dns_primary := "8.8.8.8"; mtu := 1410; ue_ip_pool := "172.250.1.0/16";
       ue_dnn_qos := {| dnn_mbr_downlink := 100; dnn_mbr_uplink := 100; bitrate_unit := "gbps"; traffic_class := platinum |} |};
     group_site_info := site |}.
Definition example_slice (name sd group site : string) : NetworkSlice :=
  {| slice_name := name; slice_id := {| slice_sd := sd; slice_sst := 1 |}; site_device_group := [group];
     application_filtering_rules := [ALLOW_ALL];
     site_info := {| g_node_bs := [{| gnb_name := "aiab-gnb1"; gnb_tac := 1 |}; {| gnb_name := "aiab-gnb2"; gnb_tac := 2 |}];
                     site_plmn := {| mcc := "208"; mnc := "93" |}; site_name := site; site_upf := {| upf_name := "upf"; upf_port := 8805 |} |} |}.
Definition default_config : SimAppYamlConfiguration :=
  {| provision_network_slice := true; sub_provision_endpt := "webui";
     sd_subscribers := [{| ue_id_start := "208930100007487"; ue_id_end := "208930100007500"; plmn_id := "20893";
                           sub_opc := "981d464c7c52eb6e5036234984ad0bcf"; sub_op := EmptyString;
                           key := "5122250214c33e723a5dd523fc145fc0"; sequence_number := "16f3b3f70fc2" |}];
     device_groups := [example_group "1" "208930100007487" "aiab"; example_group "2" "208930100007488" "aiab2"];
     network_slices := [example_slice "default" "010203" "5g-gnbsim-user-group1" "aiab";
                        example_slice "slice2" "010204" "5g-gnbsim-user-group2" "aiab2"];
     ext_plmn := None; ext_data_nets := None |}.

(** ** The blueprint: its own state is the configuration in the values *)
Section sdcore.
Context {W : Type} `{!Surroundings W} `{!CoreCalls W}.
Variable self_id : string.
Variable patience : nat.   (* how many times the log of the AMF is read *)
#[local] Abbreviation X := (K8sCore (option SimAppYamlConfiguration) W).
#[local] Abbreviation B := (M (Blue5G X)).

Definition network_functions_dictionary : list (NF5GType * (string * string)) :=
  [(AMF, ("amf", "amf")); (AUSF, ("ausf", "ausf")); (NRF, ("nrf", "nrf")); (NSSF, ("nssf", "nssf"));
   (PCF, ("pcf", "pcf")); (SMF, ("smf", "smf")); (UDM, ("udm", "udm")); (UDR, ("udr", "udr"))].

(** [self.config_ref], and a call of one of its methods. *)
Definition config_ref : B SimAppYamlConfiguration := o ← get_own; attr o.
Definition on_values {A} (m : V A) : B A :=
  c ← config_ref; let '(r, c') := m c in put_own (Some c') ;; liftR r.

(** The address of the UPF of each slice of each area, the last one winning. *)
Definition set_upf_of_slice (slice : SubSlices) : B unit :=
  upfs ← get_upfs_for_slice (area_sliceId slice);
  edge_info ← liftR (py_getitem upfs 0);
  info ← attr (network_info edge_info);
  on_values (set_upf_ip (area_sliceId slice) (exploded (upf_n4_ip info))).
Definition update_sdcore_values : B unit :=
  s ← get_st;
  match current_config s with
  | Some c =>
      on_values (from_generic_5g_model c) ;;
      for_each (areas c) (λ area, l ← liftR (py_iter (slices area)); for_each l set_upf_of_slice)
  | None =>
      (* the values are cleared before the attribute of [None] is read *)
      on_values (modifyS (λ c, set_subs [] (set_network_slices [] (set_groups [] c)))) ;; raise AttributeError
  end.

Definition sd_update_core : B unit :=
  update_sdcore_values ;;
  c ← config_ref;
  on_chart update_values_helm_chart (model_dump_for_helm c).

Definition sd_create_5g (create_model : Create5gModel) : B unit :=
  put_own (Some default_config) ;;
  update_sdcore_values ;;
  c ← get_config;
  area ← liftR (core_area c);
  update_core_state (set_chart {| helm_id := None; helm_area := area; helm_name := "sdcore";
    chart := "helm_charts/charts/sdcore-1.0.0.tgz"; chart_as_path := true; repo := None; version := None; namespace := self_id;
    helm_created := false; services := None; deployments := None; statefulsets := None |}) ;;
  register_chart ;;
  c ← config_ref;
  on_chart install_helm_chart (model_dump_for_helm c) ;;
  update_k8s_network_functions network_functions_dictionary ;;
  k8s_get_amf_ip ;; mret tt.

(** The loop of the code has no bound: it is [Unfinished] when the log was read [patience] times. *)
Fixpoint wait_amf (n : nat) : B unit :=
  match n with
  | O => raise Unfinished
  | S n =>
      h ← the_chart;
      f ← the_function AMF;
      pod ← liftR (py_getitem (pods (nf_deployment f)) 0);
      amf_logs ← world (get_pod_log h pod (Some 20));
      if str_contains "Sent Register NF Instance with updated profile" amf_logs then mret tt else wait_amf n
  end.

Definition sd_core : Core5G X := {|
  create_5g := sd_create_5g;
  update_core := sd_update_core;
  wait_core_ready := wait_amf patience;
  get_amf_ip := k8s_get_amf_ip;
  get_nrf_ip := k8s_get_nrf_ip
|}.
End sdcore.
