(* ===== verification/SdCoreProps.v ===== *)
(** * The values of SD-Core describe the configuration

    What the chart of an SD-Core blueprint is given after each successful operation, and the slices that
    cannot be deleted. *)

From Stdlib Require Import Ascii.
From stdpp Require Import base list strings gmap pretty.
From Stdlib Require Import ZArith Lia.
From S2P Require Import Prelude Ipam IPv4Text NetworkModels Core5GModels Resources Generic5G Generic5GProps Generic5GK8s SdCore.

Open Scope Z_scope.

(** ** The specification

    A rate is a number and a unit; a slice has one data network, whose two rates have one unit the core knows. *)
Definition rate (ambr : option string) : option (Z * string) :=
  match py_split " "%char <$> ambr with
  | Some (n :: u :: _) => match py_int n with Ok v => Some (v, lower u) | Raise _ => None end
  | _ => None
  end.
Definition rates (d : SubDataNets) : option (Z * Z * string) :=
  '(down, unit) ← rate (downlinkAmbr d);
  '(up, unit') ← rate (uplinkAmbr d);
  if String.eqb unit unit' && py_in String.eqb unit supported_units then Some (down, up, unit) else None.
Definition net_of_slice (nets : list SubDataNets) (s : SubSliceProfiles) : option SubDataNets :=
  match dnnList s with [n] => find (λ d, String.eqb (dnn d) n) nets | _ => None end.

(** Where a slice is offered: a core serves a slice in one area, listed once. *)
Definition offered_in (c : Create5gModel) (i : string) : list Z :=
  concat ((λ a, const (area_id a) <$> List.filter (λ x, String.eqb (area_sliceId x) i) (default [] (slices a))) <$> areas c).
Definition gnbs_of (c : Create5gModel) (i : string) : list GNodeB :=
  match offered_in c i with [a] => [{| gnb_name := "gnb" +:+ pretty a; gnb_tac := a |}] | _ => [] end.

Definition network_slice_of (c : Create5gModel) (upf : string → string) (s : SubSliceProfiles) : option NetworkSlice :=
  sst ← to_int (sliceType s);
  Some {| slice_name := "slice_" +:+ sliceId s; slice_id := {| slice_sd := sliceId s; slice_sst := sst |};
          site_device_group := ["device-group-slice_" +:+ sliceId s]; application_filtering_rules := [ALLOW_ALL];
          site_info := {| g_node_bs := gnbs_of c (sliceId s); site_plmn := plmn_of (plmn (config c));
                          site_name := "site-slice_" +:+ sliceId s;
                          site_upf := {| upf_name := upf (sliceId s); upf_port := 8805 |} |} |}.
(** The subscribers of a slice, once for each time they list it. *)
Definition members (l : list SubSubscribers) (i : string) : list string :=
  concat ((λ u, const (imsi u) <$> List.filter (λ x, String.eqb (snssai_sliceId x) i) (snssai u)) <$> l).
Definition group_of (nets : list SubDataNets) (l : list SubSubscribers) (s : SubSliceProfiles) : option DeviceGroup :=
  d ← net_of_slice nets s;
  '(down, up, unit) ← rates d;
  pool ← head (pools d);
  Some {| group_name := "device-group-slice_" +:+ sliceId s; imsis := members l (sliceId s); ip_domain_name := "pool1";
          ip_domain_expanded := {| ip_dnn := dnn d; dns_primary := dns d; mtu := 1410; ue_ip_pool := pool_cidr pool;
            ue_dnn_qos := {| dnn_mbr_downlink := down; dnn_mbr_uplink := up; bitrate_unit := unit; traffic_class := platinum |} |};
          group_site_info := "site-slice_" +:+ sliceId s |}.
Definition subscriber_of (plmn : string) (u : SubSubscribers) : Subscriber :=
  {| ue_id_start := imsi u; ue_id_end := imsi u; plmn_id := plmn; sub_opc := opc u; sub_op := EmptyString; key := k u;
     sequence_number := "16f3b3f70fc2" |}.
Definition known_slices (profiles : list SubSliceProfiles) (u : SubSubscribers) : bool :=
  forallb (λ x, existsb (λ s, String.eqb (sliceId s) (snssai_sliceId x)) profiles) (snssai u).

(** The values for a configuration, the addresses of the UPFs given; [None] when SD-Core cannot run it. *)
Definition values_of (c : Create5gModel) (upf : string → string) (v : SimAppYamlConfiguration) : option SimAppYamlConfiguration :=
  let profiles := default [] (sliceProfiles (config c)) in
  let nets := data_nets (network_endpoints (config c)) in
  let l := subscribers (config c) in
  network_slices ← mapM (network_slice_of c upf) profiles;
  groups ← mapM (group_of nets l) profiles;
  if forallb (known_slices profiles) l then
    Some {| provision_network_slice := provision_network_slice v; sub_provision_endpt := sub_provision_endpt v;
            sd_subscribers := subscriber_of (plmn (config c)) <$> l; device_groups := groups; network_slices := network_slices;
            ext_plmn := Some (plmn (config c)); ext_data_nets := Some nets |}
  else None.

(** ** The slices *)
Lemma find_head_filter {A} (p : A → bool) l : py_getitem (List.filter p l) 0 = match find p l with Some x => Ok x | None => Raise IndexError end.
Proof. induction l as [|x l IH]; [done|]. cbn. by destruct (p x). Qed.
Lemma areas_with_slice_run c s : lists_present c → get_areas_with_slice c s = Ok (offered_in c (sliceId s)).
Proof.
  intros [_ Ha]. unfold get_areas_with_slice, offered_in.
  rewrite (map_result_all _ (λ a, const (area_id a) <$> List.filter (λ x, String.eqb (area_sliceId x) (sliceId s)) (default [] (slices a))));
    [done|]. eapply Forall_impl; [exact Ha|]. intros a [x Hx]. cbv beta. by rewrite Hx.
Qed.

(** The values once their extra fields are those of a configuration. *)
Definition ready_for (c : Create5gModel) (v : SimAppYamlConfiguration) : Prop :=
  ext_plmn v = Some (plmn (config c)) ∧ ext_data_nets v = Some (data_nets (network_endpoints (config c))).
Definition with_slices (gs : list DeviceGroup) (ns : list NetworkSlice) (v : SimAppYamlConfiguration) : SimAppYamlConfiguration :=
  set_network_slices (network_slices v ++ ns) (set_groups (device_groups v ++ gs) v).

Definition placeholder : string → string := const "PLACEHOLDER".
Definition an_area (l : list Z) : option Z := match l with [a] => Some a | _ => None end.

(** A rate, as the code reads it word by word. *)
Lemma rate_words o :
  rate o = match word o 0, word o 1 with
           | Ok n, Ok u => match py_int n with Ok v => Some (v, lower u) | Raise _ => None end
           | _, _ => None
           end.
Proof.
  unfold rate, word. destruct o as [s|]; [|done]. rewrite getitem_0, getitem_1. cbn. by destruct (py_split " "%char s) as [|n [|u l]].
Qed.

Definition number (ambr : option string) : option Z :=
  match word ambr 0 with Ok n => match py_int n with Ok v => Some v | Raise _ => None end | Raise _ => None end.
Lemma rates_words d :
  rates d = match word (downlinkAmbr d) 1, word (uplinkAmbr d) 1 with
            | Ok du, Ok uu =>
                if String.eqb (lower du) (lower uu) && py_in String.eqb (lower du) supported_units
                then down ← number (downlinkAmbr d); up ← number (uplinkAmbr d); Some (down, up, lower du) else None
            | _, _ => None
            end.
Proof.
  unfold rates, number. rewrite !rate_words.
  destruct (word (downlinkAmbr d) 0) as [dn|]; [destruct (py_int dn)|]; destruct (word (downlinkAmbr d) 1); cbn; try done;
    destruct (word (uplinkAmbr d) 0) as [un|]; try (destruct (py_int un)); destruct (word (uplinkAmbr d) 1); cbn; try done; by destruct (_ && _).
Qed.
Lemma number_run {A} ambr (f : Z → M SimAppYamlConfiguration A) v :
  match number ambr with
  | Some z => (n ← liftR (word ambr 0); z ← liftR (py_int n); f z) v = f z v
  | None => ∃ e, (n ← liftR (word ambr 0); z ← liftR (py_int n); f z) v = (Raise e, v)
  end.
Proof. unfold number. rewrite bind_liftR. destruct (word ambr 0) as [n|]; [|by eexists]. rewrite bind_liftR. destruct (py_int n); [done|by eexists]. Qed.

Lemma add_slice_spec c s v :
  ready_for c v →
  let r := add_slice_from_generic_model s (an_area (offered_in c (sliceId s))) v in
  match network_slice_of c placeholder s, group_of (data_nets (network_endpoints (config c))) [] s with
  | Some n, Some g => r = (Ok n, with_slices [g] [n] v)
  | _, _ => ∃ e, r = (Raise e, v)
  end.
Proof.
  intros [Hp Hn]. unfold add_slice_from_generic_model, group_of, net_of_slice, network_slice_of, sst_of.
  assert (∃ t, to_int (sliceType s) = Some t) as [t Ht] by (destruct (sliceType s); by eexists). rewrite Ht. cbn [mbind option_bind].
  destruct (dnnList s) as [|name [|]] eqn:El; cbn [length Nat.eqb negb]; [by eexists| |by eexists].
  rewrite bind_getS, bind_liftR, Hn. cbn [py_iter]. rewrite bind_liftR. change (py_getitem [name] 0) with (Ok name). cbv beta iota.
  rewrite bind_liftR, find_head_filter. destruct (find _ _) as [d|]; [|by eexists]. cbn [mbind option_bind]. rewrite rates_words.
  rewrite bind_liftR. destruct (word (downlinkAmbr d) 1) as [du|]; [|by eexists].
  rewrite bind_liftR. destruct (word (uplinkAmbr d) 1) as [uu|]; [|by eexists].
  destruct (String.eqb _ _); cbn [negb andb]; [|by eexists]. destruct (py_in _ _ _); cbn [negb]; [|by eexists].
  rewrite bind_liftR. cbv beta iota. rewrite bind_liftR, Hp. cbv beta iota. rewrite bind_liftR, getitem_0.
  pose proof (λ A, number_run (A := A) (downlinkAmbr d)) as Hdown. pose proof (λ A, number_run (A := A) (uplinkAmbr d)) as Hup.
  destruct (pools d) as [|pool ps]; cbn [head].
  { destruct (number (downlinkAmbr d)), (number (uplinkAmbr d)); by eexists. }
  destruct (number (downlinkAmbr d)) as [down|]; cbn [mbind option_bind]; [|exact (Hdown NetworkSlice _ v)].
  rewrite Hdown. destruct (number (uplinkAmbr d)) as [up|]; cbn [mbind option_bind]; [|exact (Hup NetworkSlice _ v)].
  rewrite Hup. unfold gnbs_of, an_area, with_slices, placeholder. by destruct (offered_in c (sliceId s)) as [|a [|]].
Qed.

Lemma with_slices_app gs gs' ns ns' v : with_slices gs' ns' (with_slices gs ns v) = with_slices (gs ++ gs') (ns ++ ns') v.
Proof. unfold with_slices. cbn. by rewrite !app_assoc. Qed.
Lemma with_slices_nil v : with_slices [] [] v = v.
Proof. unfold with_slices. rewrite !app_nil_r. by destruct v. Qed.

Definition add_one (c : Create5gModel) (generic_slice : SubSliceProfiles) : M SimAppYamlConfiguration unit :=
  areas_with_slice ← liftR (get_areas_with_slice c generic_slice);
  let area_id := match areas_with_slice with [a] => Some a | _ => None end in
  add_slice_from_generic_model generic_slice area_id ;; mret tt.
Lemma add_one_run c s v :
  lists_present c → ready_for c v →
  match network_slice_of c placeholder s, group_of (data_nets (network_endpoints (config c))) [] s with
  | Some n, Some g => add_one c s v = (Ok tt, with_slices [g] [n] v)
  | _, _ => ∃ e, add_one c s v = (Raise e, v)
  end.
Proof.
  intros Hl Hv. pose proof (add_slice_spec c s v Hv) as Hs. cbv zeta in Hs. unfold add_one. rewrite bind_liftR, areas_with_slice_run by done.
  cbv zeta. change (match offered_in c (sliceId s) with [a] => Some a | _ => None end) with (an_area (offered_in c (sliceId s))).
  destruct (network_slice_of c placeholder s); [destruct (group_of _ [] s)|];
    [by rewrite (bind_Ok _ _ _ _ _ Hs)|destruct Hs as [e Hs]; exists e; by rewrite (bind_Raise _ _ _ _ _ Hs)..].
Qed.
Lemma add_slices_run c profiles v :
  lists_present c → ready_for c v →
  match mapM (network_slice_of c placeholder) profiles, mapM (group_of (data_nets (network_endpoints (config c))) []) profiles with
  | Some ns, Some gs => for_each profiles (add_one c) v = (Ok tt, with_slices gs ns v)
  | _, _ => ∃ e v', for_each profiles (add_one c) v = (Raise e, v')
  end.
Proof.
  intros Hl. revert v. induction profiles as [|s l IH]; intros v Hv; [cbn; by rewrite with_slices_nil|].
  cbn [mapM for_each]. pose proof (add_one_run c s v Hl Hv) as Hs.
  destruct (network_slice_of c placeholder s) as [n|]; cbn [mbind option_bind].
  2: { destruct Hs as [e Hs]. exists e, v. by rewrite (bind_Raise _ _ _ _ _ Hs). }
  destruct (group_of _ [] s) as [g|]; cbn [mbind option_bind].
  2: { destruct Hs as [e Hs]. destruct (mapM (network_slice_of c placeholder) l); exists e, v; by rewrite (bind_Raise _ _ _ _ _ Hs). }
  specialize (IH (with_slices [g] [n] v) Hv). rewrite (bind_Ok _ _ _ _ _ Hs).
  destruct (mapM (network_slice_of c placeholder) l) as [ns|], (mapM (group_of _ []) l) as [gs|]; cbn [mbind option_bind mret option_ret].
  2-4: exact IH.
  by rewrite IH, with_slices_app.
Qed.

(** ** The subscribers *)
Section keyed.
Context {A : Type} (f : A → string).
Lemma find_keyed i l :
  match find (λ x, String.eqb (f x) i) l with Some x => f x = i ∧ x ∈ l ∧ i ∈ f <$> l | None => i ∉ f <$> l end.
Proof.
  induction l as [|x l IH]; [by intros ?%not_elem_of_nil|]. cbn. destruct (String.eqb_spec (f x) i) as [E|E].
  - split_and!; [done|by left|rewrite E; by left].
  - destruct (find _ l); [destruct IH as (? & ? & ?); split_and!; [done|by right..]|]. by intros [->|?]%elem_of_cons.
Qed.
Lemma upd_first_keyed i (g : A → A) l : NoDup (f <$> l) → upd_first (λ x, String.eqb (f x) i) g l = (λ x, if String.eqb (f x) i then g x else x) <$> l.
Proof.
  induction l as [|x l IH]; [done|]. cbn. intros [Hx Hl]%NoDup_cons. destruct (String.eqb_spec (f x) i) as [E|E]; [|by rewrite IH].
  f_equal. symmetry. rewrite <-(list_fmap_id l) at 2. apply list_fmap_ext. intros j y Hy. destruct (String.eqb_spec (f y) i) as [Ey|]; [|done].
  exfalso. apply Hx. rewrite E, <-Ey. apply list_elem_of_fmap_2. by eapply list_elem_of_lookup_2.
Qed.
End keyed.

Definition group_called (i : string) : string := "device-group-slice_" +:+ i.
Lemma group_called_inj i j : group_called i = group_called j → i = j.
Proof. unfold group_called. by intros ?%(inj _). Qed.

(** The values have the slices [ids] and a group for each. *)
Definition slices_are (ids : list string) (v : SimAppYamlConfiguration) : Prop :=
  (λ n, slice_sd (slice_id n)) <$> network_slices v = ids ∧
  Forall (λ n, site_device_group n = [group_called (slice_sd (slice_id n))]) (network_slices v) ∧
  group_name <$> device_groups v = group_called <$> ids.

Definition join (ue i : string) (g : DeviceGroup) : DeviceGroup :=
  if String.eqb (group_name g) (group_called i) then set_imsis (imsis g ++ [ue]) g else g.
Lemma join_name ue i g : group_name (join ue i g) = group_name g.
Proof. unfold join. by destruct (String.eqb _ _). Qed.
Lemma slices_are_join ids ue i v : slices_are ids v → slices_are ids (set_groups (join ue i <$> device_groups v) v).
Proof.
  intros (H1 & H2 & H3). split_and!; [done..|]. cbn. rewrite <-H3, <-list_fmap_compose. apply list_fmap_ext. intros. apply join_name.
Qed.
Lemma join_run ids ue i v :
  NoDup ids → slices_are ids v →
  join_group ue i v = if bool_decide (i ∈ ids) then (Ok tt, set_groups (join ue i <$> device_groups v) v) else (Raise IndexError, v).
Proof.
  intros Hnd (H1 & H2 & H3). unfold join_group. rewrite bind_getS, bind_liftR, find_head_filter.
  pose proof (find_keyed (λ n, slice_sd (slice_id n)) i (network_slices v)) as Hf. rewrite H1 in Hf.
  destruct (find _ _) as [n|]; [|by rewrite bool_decide_false]. destruct Hf as (Hn & Hin & Hi).
  rewrite bool_decide_true by done. rewrite bind_liftR. rewrite Forall_forall in H2. rewrite (H2 n Hin), Hn.
  change (py_getitem [group_called i] 0) with (Ok (group_called i)). cbv beta iota. rewrite bind_liftR, find_head_filter.
  pose proof (find_keyed group_name (group_called i) (device_groups v)) as Hg. rewrite H3 in Hg.
  destruct (find _ (device_groups v)) as [g|]; [|by destruct Hg; apply list_elem_of_fmap_2].
  unfold putS. rewrite upd_first_keyed; [done|]. rewrite H3. apply NoDup_fmap_2_strong; [|done]. intros x y _ _. apply group_called_inj.
Qed.

Definition joins (u : SubSubscribers) (g : DeviceGroup) : DeviceGroup := foldl (λ g i, join (imsi u) i g) g (snssai_sliceId <$> snssai u).
Definition enroll_all (l : list SubSubscribers) (g : DeviceGroup) : DeviceGroup := foldl (λ g u, joins u g) g l.
Lemma set_imsis_same g : set_imsis (imsis g) g = g.
Proof. by destruct g. Qed.
Lemma joins_members u i g : group_name g = group_called i → joins u g = set_imsis (imsis g ++ members [u] i) g.
Proof.
  unfold joins, members. cbn [fmap list_fmap concat]. rewrite app_nil_r. generalize (snssai u). intros l. revert g.
  induction l as [|x l IH]; intros g Hg; [cbn; by rewrite app_nil_r, set_imsis_same|]. cbn [fmap list_fmap foldl]. rewrite IH by by rewrite join_name.
  unfold join. rewrite Hg. cbn [List.filter]. destruct (String.eqb_spec (snssai_sliceId x) i) as [<-|Hne].
  - rewrite String.eqb_refl. cbn. unfold set_imsis at 1. cbn. by rewrite <-app_assoc.
  - destruct (String.eqb_spec (group_called i) (group_called (snssai_sliceId x))) as [E|]; [|done]. by apply group_called_inj in E.
Qed.
Lemma joins_name u g : group_name (joins u g) = group_name g.
Proof. unfold joins. generalize (snssai_sliceId <$> snssai u). intros l. revert g. induction l as [|i l IH]; intros g; [done|]. cbn. by rewrite IH, join_name. Qed.
Lemma enroll_members l i g : group_name g = group_called i → enroll_all l g = set_imsis (imsis g ++ members l i) g.
Proof.
  revert g. induction l as [|u l IH]; intros g Hg; [cbn; by rewrite app_nil_r, set_imsis_same|]. cbn [enroll_all foldl].
  fold (enroll_all l (joins u g)). rewrite IH by by rewrite joins_name. rewrite (joins_members u i g Hg).
  unfold members, set_imsis. cbn. by rewrite app_nil_r, <-app_assoc.
Qed.

(** One subscriber. *)
Definition all_known (ids : list string) (u : SubSubscribers) : bool := forallb (λ x, bool_decide (snssai_sliceId x ∈ ids)) (snssai u).
Lemma join_all_run ids ue l v :
  NoDup ids → slices_are ids v →
  let r := for_each l (λ s, join_group ue (snssai_sliceId s)) v in
  if forallb (λ x, bool_decide (snssai_sliceId x ∈ ids)) l
  then r = (Ok tt, set_groups ((λ g, foldl (λ g i, join ue i g) g (snssai_sliceId <$> l)) <$> device_groups v) v)
  else ∃ e v', r = (Raise e, v').
Proof.
  intros Hnd. revert v. induction l as [|x l IH]; intros v Hv; cbn [for_each forallb]; cbv zeta.
  { cbn. rewrite list_fmap_id. by destruct v. }
  pose proof (join_run ids ue (snssai_sliceId x) v Hnd Hv) as Hj. case_bool_decide as Hi; cbn [andb].
  - rewrite (bind_Ok _ _ _ _ _ Hj). specialize (IH _ (slices_are_join ids ue (snssai_sliceId x) v Hv)). cbv zeta in IH.
    destruct (forallb _ l); [|exact IH]. rewrite IH. cbn. by rewrite <-list_fmap_compose.
  - exists IndexError, v. by rewrite (bind_Raise _ _ _ _ _ Hj).
Qed.
Lemma slices_are_groups ids f v : (∀ g, group_name (f g) = group_name g) → slices_are ids v → slices_are ids (set_groups (f <$> device_groups v) v).
Proof. intros Hf (H1 & H2 & H3). split_and!; [done..|]. cbn. rewrite <-H3, <-list_fmap_compose. apply list_fmap_ext. intros. apply Hf. Qed.
Lemma enroll_run ids p u v :
  NoDup ids → slices_are ids v → ext_plmn v = Some p →
  if all_known ids u
  then add_subscriber_from_generic_model u v =
       (Ok tt, set_groups (joins u <$> device_groups v) (set_subs (sd_subscribers v ++ [subscriber_of p u]) v))
  else ∃ e v', add_subscriber_from_generic_model u v = (Raise e, v').
Proof.
  intros Hnd Hv Hp. unfold add_subscriber_from_generic_model. rewrite bind_getS, bind_liftR, Hp. cbv beta iota.
  fold (subscriber_of p u). set (v1 := set_subs _ v).
  pose proof (join_all_run ids (imsi u) (snssai u) v1 Hnd Hv) as Hj. cbv zeta in Hj. unfold all_known.
  destruct (forallb _ (snssai u)); [exact Hj|]. exact Hj.
Qed.
Lemma enroll_all_run ids p l v :
  NoDup ids → slices_are ids v → ext_plmn v = Some p →
  if forallb (all_known ids) l
  then for_each l add_subscriber_from_generic_model v =
       (Ok tt, set_groups (enroll_all l <$> device_groups v) (set_subs (sd_subscribers v ++ (subscriber_of p <$> l)) v))
  else ∃ e v', for_each l add_subscriber_from_generic_model v = (Raise e, v').
Proof.
  intros Hnd. revert v. induction l as [|u l IH]; intros v Hv Hp; cbn [for_each forallb].
  { cbn. rewrite app_nil_r, list_fmap_id. by destruct v. }
  pose proof (enroll_run ids p u v Hnd Hv Hp) as Hu. destruct (all_known ids u); cbn [andb].
  - rewrite (bind_Ok _ _ _ _ _ Hu). specialize (IH (set_groups (joins u <$> device_groups v) (set_subs (sd_subscribers v ++ [subscriber_of p u]) v))).
    specialize (IH (slices_are_groups ids (joins u) (set_subs _ v) (joins_name u) Hv) Hp).
    destruct (forallb _ l); [|exact IH]. rewrite IH. cbn. by rewrite <-list_fmap_compose, <-app_assoc.
  - destruct Hu as (e & v' & Hu). exists e, v'. by rewrite (bind_Raise _ _ _ _ _ Hu).
Qed.

(** ** The translation *)
Lemma slices_named c upf profiles ns :
  mapM (network_slice_of c upf) profiles = Some ns →
  (λ n, slice_sd (slice_id n)) <$> ns = sliceId <$> profiles ∧
  Forall (λ n, site_device_group n = [group_called (slice_sd (slice_id n))]) ns.
Proof.
  intros H%mapM_Some_1. induction H as [|s n l ns Hn _ [IH1 IH2]]; [done|].
  unfold network_slice_of in Hn. destruct (to_int (sliceType s)); [|done]. injection Hn as <-.
  cbn. rewrite IH1. by repeat constructor.
Qed.
Lemma groups_named nets l profiles gs :
  mapM (group_of nets l) profiles = Some gs → group_name <$> gs = group_called <$> (sliceId <$> profiles).
Proof.
  intros H%mapM_Some_1. induction H as [|s g l' gs Hg _ IH]; [done|].
  assert (group_name g = group_called (sliceId s)) as Hs.
  { unfold group_of in Hg. destruct (net_of_slice nets s) as [d|]; [|done]. cbn [mbind option_bind] in Hg.
    destruct (rates d) as [[[? ?] ?]|]; [|done]. cbn [mbind option_bind] in Hg. destruct (head (pools d)); [|done]. by injection Hg as <-. }
  rewrite !fmap_cons, Hs, IH. done.
Qed.
Lemma group_enrolled nets l s : group_of nets l s = enroll_all l <$> group_of nets [] s.
Proof.
  unfold group_of. destruct (net_of_slice nets s) as [d|]; [|done]. cbn [mbind option_bind].
  destruct (rates d) as [[[? ?] ?]|]; [|done]. cbn [mbind option_bind]. destruct (head (pools d)); [|done]. cbn.
  by rewrite (enroll_members l (sliceId s)).
Qed.
Lemma groups_enrolled nets l profiles : mapM (group_of nets l) profiles = fmap (enroll_all l) <$> mapM (group_of nets []) profiles.
Proof.
  induction profiles as [|s p IH]; [done|]. cbn [mapM]. rewrite group_enrolled. destruct (group_of nets [] s) as [g|]; [|done]. cbn [fmap option_fmap option_map mbind option_bind].
  rewrite IH. by destruct (mapM (group_of nets []) p).
Qed.
Lemma known_ids profiles l : forallb (known_slices profiles) l = forallb (all_known (sliceId <$> profiles)) l.
Proof.
  apply forallb_same. intros u. unfold known_slices, all_known. apply forallb_same. intros x. apply Bool.eq_iff_eq_true.
  rewrite bool_decide_eq_true, existsb_exists. split.
  - intros (s & Hs%list_elem_of_In & E%String.eqb_eq). rewrite <-E. by apply list_elem_of_fmap_2.
  - intros (s & -> & Hs)%list_elem_of_fmap. exists s. split; [by apply list_elem_of_In|apply String.eqb_refl].
Qed.

Lemma from_generic_run c v :
  lists_present c → NoDup (sliceId <$> default [] (sliceProfiles (config c))) →
  match values_of c placeholder v with
  | Some v' => from_generic_5g_model c v = (Ok tt, v')
  | None => ∃ e v', from_generic_5g_model c v = (Raise e, v')
  end.
Proof.
  intros Hl Hnd. pose proof Hl as [[profiles Hp] _]. unfold from_generic_5g_model, values_of. rewrite Hp in *. cbn [from_option] in *. unfold Datatypes.id, id in *.
  rewrite bind_modifyS, bind_modifyS, bind_liftR. cbn [py_iter]. set (nets := data_nets _). set (v0 := set_ext_nets _ _ _).
  assert (Hv0 : ready_for c v0) by done. pose proof (add_slices_run c profiles v0 Hl Hv0) as Hs.
  change (for_each profiles _) with (for_each profiles (add_one c)). fold nets in Hs. rewrite groups_enrolled.
  destruct (mapM (network_slice_of c placeholder) profiles) as [ns|] eqn:En; cbn [mbind option_bind].
  2: { destruct Hs as (e & v' & Hs). exists e, v'. by rewrite (bind_Raise _ _ _ _ _ Hs). }
  destruct (mapM (group_of nets []) profiles) as [gs|] eqn:Eg; cbn [mbind option_bind fmap option_fmap option_map].
  2: { destruct Hs as (e & v' & Hs). exists e, v'. by rewrite (bind_Raise _ _ _ _ _ Hs). }
  rewrite (bind_Ok _ _ _ _ _ Hs), known_ids. set (v1 := with_slices gs ns v0).
  destruct (slices_named _ _ _ _ En) as [Hn1 Hn2]. pose proof (groups_named _ _ _ _ Eg) as Hg.
  pose proof (enroll_all_run (sliceId <$> profiles) (plmn (config c)) (subscribers (config c)) v1 Hnd) as He.
  specialize (He ltac:(done) eq_refl). destruct (forallb _ _); [|exact He]. exact He.
Qed.

(** C27: the translation of a configuration for SD-Core, written as loops over slices, areas and subscribers that
    change the values in place, gives exactly the values of the specification, and raises exactly when
    there are none: a slice without exactly one data network, rates that cannot be read or mix units, a data network
    without pool, or a subscriber of an unknown slice. *)
Theorem translation_is_exact c v :
  lists_present c → NoDup (sliceId <$> default [] (sliceProfiles (config c))) →
  match values_of c placeholder v with
  | Some v' => from_generic_5g_model c v = (Ok tt, v')
  | None => ∃ e v', from_generic_5g_model c v = (Raise e, v')
  end.
Proof. apply from_generic_run. Qed.

(** ** The addresses of the UPFs *)
Definition upfs_of (s : Generic5GBlueprintNGState) (i : string) : result (list DeployedUPFInfo) :=
  ls ← map_result (λ e, match edge_upf e with Some u => Ok (List.filter (serves i) (upf_list u)) | None => Raise AttributeError end)
         (od_values (edge_areas s));
  Ok (concat ls).
(** The address on N4 of the first UPF that serves a slice. *)
Definition upf_address (s : Generic5GBlueprintNGState) (i : string) : option string :=
  match upfs_of s i with
  | Ok (u :: _) => exploded ∘ upf_n4_ip <$> network_info u
  | _ => None
  end.
Definition offered_slices (c : Create5gModel) : list string := concat ((λ a, area_sliceId <$> default [] (slices a)) <$> areas c).
(** A slice that no area offers keeps a placeholder. *)
Definition upf_of (c : Create5gModel) (s : Generic5GBlueprintNGState) (i : string) : string :=
  if bool_decide (i ∈ offered_slices c) then default "PLACEHOLDER" (upf_address s i) else "PLACEHOLDER".

Section update.
Context {W : Type} `{!Surroundings W} `{!CoreCalls W}.
#[local] Abbreviation X := (K8sCore (option SimAppYamlConfiguration) W).
Implicit Types (b : Blue5G X).

Definition set_own (v : SimAppYamlConfiguration) b : Blue5G X :=
  set_ext {| own := Some v; k8s_network_functions := k8s_network_functions (ext b);
             core_helm_chart := core_helm_chart (ext b); outside := outside (ext b) |} b.
Definition holds_values (v : SimAppYamlConfiguration) b : Prop := own (ext b) = Some v.

Lemma on_values_run {A} (m : M SimAppYamlConfiguration A) v b :
  holds_values v b → on_values m b = ((m v).1, set_own (m v).2 b).
Proof.
  intros Hv. unfold on_values, config_ref, get_own, get_core. unfold mbind, M_bind, getS, mret, M_ret. rewrite Hv. cbn.
  destruct (m v) as [r v']. done.
Qed.
Lemma upfs_run i b : get_upfs_for_slice i b = (upfs_of (st b) i, b).
Proof.
  unfold get_upfs_for_slice, upfs_of. unfold get_st. unfold mbind, M_bind, getS, mret, M_ret, liftR.
  by destruct (map_result _ _).
Qed.

Definition at_upfs (f : string → string) (ids : list string) (v : SimAppYamlConfiguration) : SimAppYamlConfiguration :=
  set_network_slices ((λ n, let i := slice_sd (slice_id n) in if bool_decide (i ∈ ids) then set_upf_name (f i) n else n) <$> network_slices v) v.
Lemma set_upf_run x f v b :
  holds_values v b → NoDup ((λ n, slice_sd (slice_id n)) <$> network_slices v) →
  match upf_address (st b) (area_sliceId x) with
  | Some a => f (area_sliceId x) = a → set_upf_of_slice x b = (Ok tt, set_own (at_upfs f [area_sliceId x] v) b)
  | None => ∃ e, set_upf_of_slice x b = (Raise e, b)
  end.
Proof.
  intros Hv Hnd. unfold set_upf_of_slice, upf_address. pose proof (upfs_run (area_sliceId x) b) as Hu.
  destruct (upfs_of (st b) (area_sliceId x)) as [l|e]; [|exists e; by rewrite (bind_Raise _ _ _ _ _ Hu)].
  rewrite (bind_Ok _ _ _ _ _ Hu), bind_liftR, getitem_0. destruct l as [|u l]; [by eexists|]. cbn [head].
  destruct (network_info u) as [info|]; [|by eexists]. cbn [attr fmap option_fmap option_map]. intros Hf.
  rewrite (bind_Ok (mret info) _ b b info) by done. unfold set_upf_ip, compose in *.
  rewrite (on_values_run _ v b Hv). unfold modifyS. cbn [fst snd]. do 2 f_equal. unfold at_upfs. f_equal.
  rewrite upd_first_keyed by done. apply list_fmap_ext. intros j n _. cbv zeta. rewrite <-Hf.
  destruct (String.eqb_spec (slice_sd (slice_id n)) (area_sliceId x)) as [E|E].
  - rewrite E, bool_decide_true by by left. by rewrite Hf.
  - rewrite bool_decide_false; [done|]. by intros ?%list_elem_of_singleton.
Qed.
Lemma at_upfs_names f ids v : (λ n, slice_sd (slice_id n)) <$> network_slices (at_upfs f ids v) = (λ n, slice_sd (slice_id n)) <$> network_slices v.
Proof. unfold at_upfs. cbn. rewrite <-list_fmap_compose. apply list_fmap_ext. intros j n _. cbn. by case_bool_decide. Qed.
Lemma at_upfs_app f l l' v : at_upfs f l' (at_upfs f l v) = at_upfs f (l ++ l') v.
Proof.
  unfold at_upfs, set_network_slices. cbn. f_equal. rewrite <-list_fmap_compose. apply list_fmap_ext. intros j n _. cbn.
  rewrite (bool_decide_ext (slice_sd (slice_id n) ∈ l ++ l') (slice_sd (slice_id n) ∈ l ∨ slice_sd (slice_id n) ∈ l')) by apply elem_of_app.
  case_bool_decide as H1; cbn; case_bool_decide as H2; case_bool_decide as H3; try done; tauto.
Qed.
Lemma at_upfs_nil f v : at_upfs f [] v = v.
Proof. unfold at_upfs. cbn. rewrite list_fmap_id. by destruct v. Qed.
Lemma set_own_own v v' b : set_own v' (set_own v b) = set_own v' b.
Proof. done. Qed.

(** All the slices of a list. *)
Lemma set_upfs_run f l v b :
  holds_values v b → NoDup ((λ n, slice_sd (slice_id n)) <$> network_slices v) →
  Forall (λ i, ∀ a, upf_address (st b) i = Some a → f i = a) (area_sliceId <$> l) →
  if forallb (λ i, bool_decide (is_Some (upf_address (st b) i))) (area_sliceId <$> l)
  then for_each l set_upf_of_slice b = (Ok tt, set_own (at_upfs f (area_sliceId <$> l) v) b)
  else ∃ e b', for_each l set_upf_of_slice b = (Raise e, b') ∧ st b' = st b.
Proof.
  intros Hv Hnd Hf. revert v b Hv Hnd Hf. induction l as [|x l IH]; intros v b Hv Hnd Hf; cbn [for_each fmap list_fmap forallb].
  { rewrite at_upfs_nil. unfold set_own, set_ext. unfold holds_values in Hv. destruct b as [? ? []]; cbn in *. by rewrite Hv. }
  apply Forall_cons in Hf as [Hf1 Hf]. pose proof (set_upf_run x f v b Hv Hnd) as Hx. destruct (upf_address (st b) (area_sliceId x)) as [a|] eqn:Ea.
  - rewrite bool_decide_true by by eexists. cbn [andb]. specialize (Hx (Hf1 _ eq_refl)). rewrite (bind_Ok _ _ _ _ _ Hx).
    specialize (IH (at_upfs f [area_sliceId x] v) (set_own (at_upfs f [area_sliceId x] v) b) eq_refl).
    rewrite at_upfs_names in IH. specialize (IH Hnd Hf). change (st (set_own _ b)) with (st b) in IH.
    destruct (forallb _ _); [|exact IH]. rewrite IH, at_upfs_app. done.
  - rewrite bool_decide_false by by intros []. destruct Hx as [e Hx]. exists e, b. by rewrite (bind_Raise _ _ _ _ _ Hx).
Qed.

Lemma areas_loop l b :
  Forall (λ a, is_Some (slices a)) l →
  for_each l (λ area, l ← liftR (py_iter (slices area)); for_each l set_upf_of_slice) b =
  for_each (concat ((λ a, default [] (slices a)) <$> l)) set_upf_of_slice b.
Proof.
  intros Hl. revert b. induction Hl as [|a l [x Hx] _ IH]; intros b; [done|]. cbn [for_each fmap list_fmap concat]. rewrite for_each_app.
  unfold mbind, M_bind. rewrite Hx. unfold liftR. cbn. destruct (for_each x _ b) as [[[]|e] b1]; [apply IH|done].
Qed.

Lemma slices_at c s :
  mapM (network_slice_of c (upf_of c s)) (default [] (sliceProfiles (config c))) =
  fmap (λ n, let i := slice_sd (slice_id n) in if bool_decide (i ∈ offered_slices c) then set_upf_name (upf_of c s i) n else n) <$>
    mapM (network_slice_of c placeholder) (default [] (sliceProfiles (config c))).
Proof.
  induction (default [] (sliceProfiles (config c))) as [|p l IH]; [done|]. cbn [mapM]. rewrite IH.
  assert (E : network_slice_of c (upf_of c s) p =
    (λ n, let i := slice_sd (slice_id n) in if bool_decide (i ∈ offered_slices c) then set_upf_name (upf_of c s i) n else n) <$>
      network_slice_of c placeholder p).
  { unfold network_slice_of. destruct (to_int (sliceType p)) as [t|]; [|done]. cbn. unfold upf_of. by case_bool_decide. }
  rewrite E. destruct (network_slice_of c placeholder p); [|done]. by destruct (mapM (network_slice_of c placeholder) l).
Qed.
Lemma values_at c s v :
  values_of c (upf_of c s) v = at_upfs (upf_of c s) (offered_slices c) <$> values_of c placeholder v.
Proof.
  unfold values_of. cbv zeta. rewrite (slices_at c s). destruct (mapM (network_slice_of c placeholder) _) as [ns|]; [|done]. cbn.
  destruct (mapM (group_of _ _) _); [|done]. cbn. by destruct (forallb _ _).
Qed.
Lemma values_names c v v' :
  values_of c placeholder v = Some v' →
  (λ n, slice_sd (slice_id n)) <$> network_slices v' = sliceId <$> default [] (sliceProfiles (config c)).
Proof.
  unfold values_of. cbv zeta. destruct (mapM (network_slice_of c placeholder) _) as [ns|] eqn:En; [|done]. cbn.
  destruct (mapM (group_of _ _) _); [|done]. cbn. destruct (forallb _ _); [|done]. intros [= <-]. cbn. exact (proj1 (slices_named _ _ _ _ En)).
Qed.

(** Every slice an area offers is served by a UPF. *)
Definition all_served (c : Create5gModel) (s : Generic5GBlueprintNGState) : bool :=
  forallb (λ i, bool_decide (is_Some (upf_address s i))) (offered_slices c).
Lemma offered_concat c : area_sliceId <$> concat ((λ a, default [] (slices a)) <$> areas c) = offered_slices c.
Proof. unfold offered_slices. induction (areas c) as [|a l IH]; [done|]. cbn. by rewrite fmap_app, IH. Qed.

Lemma update_values_run c v b :
  with_config c b → holds_values v b → lists_present c → NoDup (sliceId <$> default [] (sliceProfiles (config c))) →
  match (if all_served c (st b) then values_of c (upf_of c (st b)) v else None) with
  | Some v' => update_sdcore_values b = (Ok tt, set_own v' b)
  | None => ∃ e b', update_sdcore_values b = (Raise e, b') ∧ st b' = st b
  end.
Proof.
  intros Hb Hv Hl Hnd. unfold update_sdcore_values. rewrite (bind_Ok get_st _ b b (st b)) by done. rewrite Hb.
  pose proof (on_values_run (from_generic_5g_model c) v b Hv) as Hf. pose proof (from_generic_run c v Hl Hnd) as Hg. rewrite values_at.
  destruct (values_of c placeholder v) as [v1|] eqn:Ev; cbn [fmap option_fmap option_map].
  2: { destruct Hg as (e & v1 & Hg). rewrite Hg in Hf. cbn in Hf.
       assert (∃ e b', (on_values (from_generic_5g_model c) ;; for_each (areas c) (λ area, l ← liftR (py_iter (slices area)); for_each l set_upf_of_slice)) b
         = (Raise e, b') ∧ st b' = st b) as HR by (exists e, (set_own v1 b); by rewrite (bind_Raise _ _ _ _ _ Hf)).
       by destruct (all_served c (st b)). }
  rewrite Hg in Hf. cbn [fst snd] in Hf. rewrite (bind_Ok _ _ _ _ _ Hf), areas_loop by apply Hl.
  pose proof (set_upfs_run (upf_of c (st b)) (concat ((λ a, default [] (slices a)) <$> areas c)) v1 (set_own v1 b) eq_refl) as Hs.
  rewrite (values_names _ _ _ Ev) in Hs. specialize (Hs Hnd). change (st (set_own v1 b)) with (st b) in Hs. rewrite offered_concat in Hs.
  fold (all_served c (st b)) in Hs. assert (Hf1 : Forall (λ i, ∀ a, upf_address (st b) i = Some a → upf_of c (st b) i = a) (offered_slices c)).
  { apply Forall_forall. intros i Hi a Ha. unfold upf_of. by rewrite bool_decide_true, Ha. }
  specialize (Hs Hf1). by destruct (all_served c (st b)).
Qed.

(** *** The contract of a core *)
Variables (self_id : string) (patience : nat).
#[local] Instance this_core : Core5G X := sd_core self_id patience.
#[local] Notation U := (unmoved (S := option SimAppYamlConfiguration) (W := W)).

Lemma unmoved_values {A} c e (m : M SimAppYamlConfiguration A) : preserves (U c e) (on_values m).
Proof. unfold on_values, config_ref. apply preserves_bind; [unmoved_steps|]. intros v. destruct (m v). unmoved_steps. Qed.
Lemma unmoved_update_values c e : preserves (U c e) update_sdcore_values.
Proof. unfold update_sdcore_values, set_upf_of_slice. unmoved_steps; apply unmoved_values. Qed.
Lemma unmoved_update_core c e : preserves (U c e) sd_update_core.
Proof. unfold sd_update_core, config_ref. unmoved_steps. apply unmoved_update_values. Qed.
Lemma unmoved_wait c e n : preserves (U c e) (wait_amf n).
Proof. induction n as [|n IH]; cbn [wait_amf]; unmoved_steps. done. Qed.
Lemma unmoved_create c e m : preserves (U c e) (sd_create_5g self_id m).
Proof. unfold sd_create_5g, config_ref, k8s_get_amf_ip. unmoved_steps. apply unmoved_update_values. Qed.
Lemma sd_contract : core_contract (X := X).
Proof.
  split; intros; match goal with |- keeps ?b _ => generalize (conj (eq_refl (current_config (st b))) (eq_refl (edge_areas (st b)))) end;
    [apply unmoved_create|apply unmoved_update_core|apply unmoved_wait|apply unmoved_ip..].
Qed.

(** ** After an operation *)

(** The values describe a configuration: translating it again gives them. *)
Definition describes (c : Create5gModel) (upf : string → string) (v : SimAppYamlConfiguration) : Prop := values_of c upf v = Some v.
Lemma values_describe c upf v v' : values_of c upf v = Some v' → describes c upf v'.
Proof.
  unfold describes, values_of. cbv zeta. destruct (mapM (network_slice_of c upf) _); [|done]. cbn. destruct (mapM (group_of _ _) _); [|done]. cbn.
  destruct (forallb _ _); [|done]. by intros [= <-].
Qed.

Lemma values_known c upf v v' :
  values_of c upf v = Some v' → forallb (known_slices (default [] (sliceProfiles (config c)))) (subscribers (config c)) = true.
Proof.
  unfold values_of. cbv zeta. destruct (mapM (network_slice_of c upf) _); [|done]. cbn. destruct (mapM (group_of _ _) _); [|done]. cbn.
  by destruct (forallb _ _).
Qed.

(** The values describe the configuration, and they were the last ones given to the chart. *)
Definition values_given (c : Create5gModel) b : Prop :=
  ∃ v, holds_values v b ∧ describes c (upf_of c (st b)) v ∧ all_served c (st b) = true ∧
       ∃ h h' w, update_values_helm_chart h (model_dump_for_helm v) w = (Ok tt, h', outside (ext b)).

Lemma update_core_given c b b' :
  with_config c b → lists_present c → NoDup (sliceId <$> default [] (sliceProfiles (config c))) →
  sd_update_core b = (Ok tt, b') → values_given c b'.
Proof.
  intros Hb Hl Hnd Hr. unfold sd_update_core in Hr. apply bind_Ok_inv in Hr as ([] & b1 & Hu & Hr).
  destruct (own (ext b)) as [v|] eqn:Hv.
  2: { unfold update_sdcore_values in Hu. rewrite (bind_Ok get_st _ b b (st b)) in Hu by done. rewrite Hb in Hu.
       apply bind_Ok_inv in Hu as ([] & b2 & Hu & _). unfold on_values in Hu. apply bind_Ok_inv in Hu as (v & b3 & Hu & _).
       unfold config_ref, get_own, get_core in Hu. unfold mbind, M_bind, getS, mret, M_ret in Hu. by rewrite Hv in Hu. }
  pose proof (update_values_run c v b Hb Hv Hl Hnd) as H. destruct (all_served c (st b)) eqn:Ha.
  2: { destruct H as (e & b2 & H & _). by rewrite H in Hu. }
  destruct (values_of c _ v) as [v'|] eqn:Ev; [|destruct H as (e & b2 & H & _); by rewrite H in Hu].
  rewrite H in Hu. injection Hu as <-. rewrite (bind_Ok config_ref _ _ (set_own v' b) v') in Hr by done.
  unfold on_chart in Hr. rewrite (bind_Ok get_core _ _ (set_own v' b) (ext (set_own v' b))) in Hr by done.
  destruct (core_helm_chart (ext (set_own v' b))) as [h|]; [|done].
  destruct (update_values_helm_chart h (model_dump_for_helm v') (outside (ext (set_own v' b)))) as [[r h'] w] eqn:Ec.
  unfold update_core_state in Hr. rewrite bind_modifyS in Hr. injection Hr as -> <-.
  exists v'. split_and!; [done|by eapply values_describe|done|]. by exists h, h', (outside (ext (set_own v' b))).
Qed.

Lemma follow_up_given op c b b' :
  with_config c b → lists_present c → NoDup (sliceId <$> default [] (sliceProfiles (config c))) →
  follow_up op b = (Ok tt, b') → values_given c b'.
Proof.
  intros Hb Hl Hnd Hr.
  assert (Hcore : update_core b = (Ok tt, b') → values_given c b') by (by apply update_core_given).
  assert (Hall : update_all b = (Ok tt, b') → values_given c b').
  { unfold update_all. intros Ha. apply bind_Ok_inv in Ha as ([] & b1 & H1 & Ha). apply bind_Ok_inv in Ha as ([] & b2 & H2 & Ha).
    pose proof (kept_update_edges sd_contract current_config (Some c) ltac:(by intros) ltac:(by intros) ltac:(by intros) b Hb) as Hb1.
    rewrite H1 in Hb1. pose proof (kept_gnb_config sd_contract current_config (Some c) ltac:(by intros) b1 Hb1) as Hb2.
    rewrite H2 in Hb2. by eapply update_core_given. }
  by destruct op; auto.
Qed.

(** C33: a slice with subscribers is never deleted, although the documentation says that its deletion removes its
    subscribers and their sessions automatically.  From a well-formed configuration in force, the deletion of a slice that
    some subscriber names raises and the configuration, with the slice and the subscriber, comes back: the operation leaves
    the subscribers in the configuration, and SD-Core finds one of them without its slice. *)
Theorem slice_with_subscribers_stays i u c b :
  with_config c b → config_ok c → u ∈ subscribers (config c) → i ∈ snssai_sliceId <$> snssai u →
  ∃ e b', run (DelSlice i) b = (Raise e, b') ∧ with_config c b'.
Proof.
  intros Hb Hok Hu Hi. pose proof (run_outcome (DelSlice i) c b (generic_contract sd_contract) Hb (ok_lists c Hok)) as Ho. unfold outcome in Ho.
  destruct (run (DelSlice i) b) as [[[]|e] b'] eqn:Hr; [|exists e, b'; by destruct Ho]. exfalso.
  destruct Ho as (c' & Ha & Hb' & Hf). pose proof (apply_ok (DelSlice i) c c' I Hok Ha) as Hok'.
  apply (follow_up_given (DelSlice i) c') in Hf as (v & _ & Hd & _); [|apply reconf_config|by apply ok_lists|by apply ok_slices].
  injection Ha as <-. pose proof (values_known _ _ _ _ Hd) as Ef.
  cbn [config set_sliceProfiles set_config set_areas subscribers sliceProfiles from_option] in Ef. unfold Datatypes.id, id in Ef.
  rewrite forallb_forall in Ef. specialize (Ef u ltac:(by apply list_elem_of_In)). unfold known_slices in Ef. rewrite forallb_forall in Ef.
  apply list_elem_of_fmap in Hi as (x & -> & Hx). specialize (Ef x ltac:(by apply list_elem_of_In)).
  apply existsb_exists in Ef as (s & Hs & E%String.eqb_eq). apply filter_In in Hs as [_ Hs]. by rewrite E, String.eqb_refl in Hs.
Qed.
(** What the provider of charts does: after an update that returns, the release has the values it was given. *)
Context (released : W → option pyval).
Hypothesis update_effect : ∀ h p w h' w', update_values_helm_chart h p w = (Ok tt, h', w') → released w' = Some p.

Definition serves_config (c : Create5gModel) b : Prop :=
  ∃ v, holds_values v b ∧ describes c (upf_of c (st b)) v ∧ all_served c (st b) = true ∧
       released (outside (ext b)) = Some (model_dump_for_helm v).

(** C23: the chart of SD-Core follows the configuration.  After a day-2 operation that returns, whatever failed
    before it, the release has the values that describe the new configuration: a network slice and a device group for
    each slice, with the rates of its data network and the address of the UPF that serves it, and every subscriber
    in the groups of its slices and in no other. *)
Theorem chart_follows_configuration op c b b' :
  with_config c b → config_ok c → op_ok op → run op b = (Ok tt, b') →
  ∃ c', apply op c = Some c' ∧ with_config c' b' ∧ serves_config c' b'.
Proof.
  intros Hb Hok Hop Hr. pose proof (run_outcome op c b (generic_contract sd_contract) Hb (ok_lists c Hok)) as Ho. unfold outcome in Ho. rewrite Hr in Ho.
  destruct Ho as (c' & Ha & Hb' & Hf). exists c'. split_and!; [done..|]. pose proof (apply_ok op c c' Hop Hok Ha) as Hok'.
  destruct (follow_up_given op c' _ b' (reconf_config c' b) (ok_lists c' Hok') (ok_slices c' Hok') Hf) as (v & H1 & H2 & H3 & h & h' & w & Hu).
  exists v. split_and!; [done..|]. by eapply update_effect.
Qed.

End update.

(** ** A concrete core *)
Module ConcreteSdCore.
(** The world is the values of the release. *)
#[export] Instance lab_surroundings : Surroundings (option pyval) := {
  create_router _ := mret "router";
  create_upf _ _ := mret "upf";
  delete_blueprint _ := mret tt;
  call_router_info _ := mret (Some Concrete.lab_network);
  call_add_routes _ _ := mret tt;
  call_upf_update _ _ := mret tt;
  call_upfs_info _ := mret (Some [Concrete.lab_upf]);
  find_gnb area := mret (Concrete.lab_pdu area);
  is_pdu_locked_by_current_blueprint _ := true;
  lock_pdu _ := mret tt;
  unlock_pdu _ := mret tt;
  find_by_name _ := mret (Concrete.lab_pdu 1);
  get_pdu_configurator _ := mret tt;
  configure _ _ := mret tt;
  set_order l := l
}.
Definition lab_service (n : string) : K8sService :=
  {| svc_type := LoadBalancer; svc_name := n; cluster_ip := None; external_ip := Some ["10.0.0.9"]; ports := [] |}.
Definition lab_chart (h : HelmChartResource) : HelmChartResource :=
  set_services (Some ((λ n, (n, lab_service n)) <$> ((λ x, x.2.2) <$> network_functions_dictionary)))
    (set_deployments (Some ((λ n, (n, {| dep_name := n; pods := [n +:+ "-0"] |})) <$> ((λ x, x.2.1) <$> network_functions_dictionary))) h).
#[export] Instance lab_calls : CoreCalls (option pyval) := {
  register_resource h := mret h;
  install_helm_chart h p w := (Ok tt, lab_chart h, Some p);
  update_values_helm_chart h p w := (Ok tt, h, Some p);
  get_pod_log _ _ _ := mret "Sent Register NF Instance with updated profile";
  k8s_credentials _ := mret "credentials";
  get_k8s_config_from_file_content c := mret c;
  k8s_scale_k8s_deployment _ _ _ _ := mret tt
}.
Definition lab_net : SubDataNets :=
  {| Core5GModels.net_name := "internet"; dnn := "internet"; dns := "8.8.8.8"; pools := [{| pool_cidr := "10.1.0.0/24" |}];
     uplinkAmbr := Some "50 Mbps"; downlinkAmbr := Some "100 mbps"; default5qi := None |}.
Definition lab_ue : SubSubscribers :=
  {| imsi := "001010000000001"; k := "00"; opc := "11";
     snssai := [{| snssai_sliceId := "000001"; snssai_sliceType := EMBB; pduSessionIds := []; default_slice := None |}];
     authenticationMethod := None; authenticationManagementField := None |}.
Definition lab_core_area : SubArea :=
  {| area_id := 1; nci := "0"; idLength := 32; core := true; upf := {| upf_type := "sdcore_upf"; upf_external := None |};
     networks := networks (Concrete.lab_area 1); slices := slices (Concrete.lab_area 1) |}.
Definition lab_config : Create5gModel := set_areas [lab_core_area] (set_data_nets [lab_net] Concrete.lab_config).
Definition lab_new : Blue5G (K8sCore (option SimAppYamlConfiguration) (option pyval)) :=
  {| st := {| current_config := None; edge_areas := []; ran_areas := []; core_deployed := false |}; children := [];
     ext := {| own := None; k8s_network_functions := []; core_helm_chart := None; outside := None |} |}.
#[local] Instance lab_core : Core5G (K8sCore (option SimAppYamlConfiguration) (option pyval)) := sd_core "blue" 3.
Definition lab_created := (create lab_config lab_new).2.

Lemma sd_config_ok : config_ok lab_config.
Proof. split; vm_compute; repeat constructor; set_solver. Qed.
Example lab_create_returns : (create lab_config lab_new).1 = Ok tt.
Proof. vm_compute. reflexivity. Qed.
Lemma translation_is_exact_witness :
  ∃ v, values_of lab_config placeholder default_config = Some v ∧ from_generic_5g_model lab_config default_config = (Ok tt, v).
Proof.
  assert (Hl : lists_present lab_config) by (split; [by eexists|repeat constructor; by eexists]).
  assert (Hn : NoDup (sliceId <$> default [] (sliceProfiles (config lab_config)))) by (vm_compute; repeat constructor; set_solver).
  pose proof (translation_is_exact lab_config default_config Hl Hn) as H. destruct (values_of lab_config placeholder default_config) as [v|] eqn:E.
  - exists v. by split.
  - exfalso. revert E. vm_compute. discriminate.
Defined.
Lemma chart_follows_configuration_witness :
  ∃ c' b', run (AddUe lab_ue) lab_created = (Ok tt, b') ∧ apply (AddUe lab_ue) lab_config = Some c' ∧
           serves_config (λ w, w) c' b' ∧ subscribers (config c') = [lab_ue].
Proof.
  destruct (run (AddUe lab_ue) lab_created) as [r b'] eqn:E.
  assert (r = Ok tt) as -> by (transitivity (run (AddUe lab_ue) lab_created).1; [by rewrite E|vm_compute; reflexivity]).
  destruct (chart_follows_configuration "blue" 3 (λ w : option pyval, w)) with (op := AddUe lab_ue) (c := lab_config) (b := lab_created) (b' := b')
    as (c' & Ha & _ & Hs); [by intros ? ? ? ? ? [= _ <-]|vm_compute; reflexivity|apply sd_config_ok|done|exact E|].
  exists c', b'. split_and!; [done|done|exact Hs|]. injection Ha as <-. reflexivity.
Defined.
Lemma slice_with_subscribers_stays_witness :
  ∃ e b', run (DelSlice "000001") (run (AddUe lab_ue) lab_created).2 = (Raise e, b') ∧ with_config (set_subscribers [lab_ue] lab_config) b'.
Proof.
  apply (slice_with_subscribers_stays "blue" 3) with (u := lab_ue); [vm_compute; reflexivity|split; vm_compute; repeat constructor; set_solver|by left|by left].
Defined.
End ConcreteSdCore.
