(* ===== verification/OaiUtils.v ===== *)
(** * The configuration files of OpenAirInterface

    models/blueprint_ng/core5g/OAI_Models.py, the parts the code writes, and blueprints_ng/modules/oai/oai_utils.py:
    functions that add an item to a list of a configuration unless it is there, and remove one.  Each works on the
    list it changes; the configuration of a core has eight of them, that of a UPF three. *)

From Stdlib Require Import Ascii.
From stdpp Require Import base list strings gmap pretty.
From Stdlib Require Import ZArith Lia.
From S2P Require Import Prelude Ipam IPv4Text Core5GModels.

Open Scope Z_scope.

(** ** Models *)
Record Snssai := { sst : Z; sd : option string }.
Record ServedGuamiListItem := { gu_mcc : string; gu_mnc : string; amf_region_id : string; amf_set_id : string; amf_pointer : string }.
Record PlmnSupportListItem := { pl_mcc : string; pl_mnc : string; pl_tac : Z; pl_nssai : list Snssai }.
Record UpfAvailable := { upf_host : string; enable_usage_reporting : string }.
Record DnnItem := { item_dnn : string }.
(** [SNssaiSmfInfoListItem] and [SNssaiUpfInfoListItem] have the same fields. *)
Record SNssaiInfoListItem := { sNssai : Snssai; dnnInfoList : list DnnItem }.
Record QosProfile := { field_5qi : Z; session_ambr_ul : string; session_ambr_dl : string }.
Record LocalSubscriptionInfo := { single_nssai : Snssai; lsi_dnn : string; qos_profile : QosProfile }.
Record Dnn := { dnn_text : string; pdu_session_type : string; ipv4_subnet : string }.
Record HostAliase := { alias_ip : string; hostnames : string }.

#[export] Instance Snssai_eq_dec : EqDecision Snssai. Proof. solve_decision. Defined.
#[export] Instance Guami_eq_dec : EqDecision ServedGuamiListItem. Proof. solve_decision. Defined.
#[export] Instance Plmn_eq_dec : EqDecision PlmnSupportListItem. Proof. solve_decision. Defined.
#[export] Instance UpfAvailable_eq_dec : EqDecision UpfAvailable. Proof. solve_decision. Defined.
#[export] Instance DnnItem_eq_dec : EqDecision DnnItem. Proof. solve_decision. Defined.
#[export] Instance Info_eq_dec : EqDecision SNssaiInfoListItem. Proof. solve_decision. Defined.
#[export] Instance QosProfile_eq_dec : EqDecision QosProfile. Proof. solve_decision. Defined.
#[export] Instance Local_eq_dec : EqDecision LocalSubscriptionInfo. Proof. solve_decision. Defined.
#[export] Instance Dnn_eq_dec : EqDecision Dnn. Proof. solve_decision. Defined.
#[export] Instance HostAliase_eq_dec : EqDecision HostAliase. Proof. solve_decision. Defined.

(** ** Lists of items *)
Section items.
Context {A : Type} `{!EqDecision A}.

(** [if x not in l: l.append(x); return x], and nothing otherwise. *)
Definition add_item (x : A) : M (list A) (option A) :=
  l ← getS; if bool_decide (x ∈ l) then mret None else putS (l ++ [x]) ;; mret (Some x).
(** The first item of a kind leaves the list; an item equal to it is of the kind as well. *)
Definition del_item (p : A → bool) : M (list A) (option A) :=
  l ← getS; match find_index p l with Some i => putS (delete i l) ;; mret (l !! i) | None => mret None end.
Definition or_raise (m : M (list A) (option A)) : M (list A) A :=
  o ← m; match o with Some x => mret x | None => raise ValueError end.
Definition found (m : M (list A) (option A)) : M (list A) bool := o ← m; mret (bool_decide (is_Some o)).

(** [for item in l: if p(item): f(item); return], the item changed in place. *)
Fixpoint change_item (p : A → bool) (f : A → A) (l : list A) : option (list A) :=
  match l with
  | [] => None
  | x :: l' => if p x then Some (f x :: l') else cons x <$> change_item p f l'
  end.
(** When there is no such item it is created and the function calls itself again, and returns nothing. *)
Fixpoint change_or_create (fuel : nat) (p : A → bool) (f : A → A) (create : M (list A) (option A)) : M (list A) (option bool) :=
  l ← getS;
  match change_item p f l with
  | Some l' => putS l' ;; mret (Some true)
  | None =>
      match fuel with
      | O => raise Unfinished
      | S n => create ;; change_or_create n p f create ;; mret None
      end
  end.
End items.
(** [if x not in l: l.append(x)], as a value. *)
Definition add_missing {A} `{!EqDecision A} (x : A) (l : list A) : list A := if bool_decide (x ∈ l) then l else l ++ [x].

(** ** Slices and data networks, in the configurations of the core and of the UPF *)
Definition new_snssai (slice_id : string) (slice_type : SliceType) : result Snssai :=
  match to_int slice_type with Some t => Ok {| sst := t; sd := Some (rjust0 6 slice_id) |} | None => Raise ValidationError end.
Definition add_snssai (slice_id : string) (slice_type : SliceType) : M (list Snssai) Snssai :=
  x ← liftR (new_snssai slice_id slice_type); or_raise (add_item x).
Definition is_slice (slice_id : string) (x : Snssai) : bool := bool_decide (sd x = Some slice_id).
Definition del_snssai (slice_id : string) : M (list Snssai) Snssai := or_raise (del_item (is_slice slice_id)).
Definition add_dnn_dnns (dnn_name dnn_cidr : string) : M (list Dnn) (option Dnn) :=
  add_item {| dnn_text := dnn_name; pdu_session_type := "IPV4"; ipv4_subnet := dnn_cidr |}.
Definition del_dnn_dnns (dnn_to_remove : string) : M (list Dnn) bool := found (del_item (λ d, String.eqb (dnn_text d) dnn_to_remove)).

(** The data networks of a slice.  The two versions of these functions, for the SMF and for the UPF, differ only in the
    list they are for. *)
Definition create_info (nssai : Snssai) : M (list SNssaiInfoListItem) (option SNssaiInfoListItem) :=
  add_item {| sNssai := nssai; dnnInfoList := [] |}.
Definition create_snssai_upf_info_list_item := create_info.
Definition create_snssai_smf_info_list := create_info.
Definition destroy_info (slice_id : string) : M (list SNssaiInfoListItem) bool :=
  found (del_item (λ item, is_slice slice_id (sNssai item))).
Definition destroy_snssai_upf_info_list_item := destroy_info.
Definition destroy_snssai_smf_info_list_item := destroy_info.
Definition same_sd (nssai : Snssai) (item : SNssaiInfoListItem) : bool := bool_decide (sd (sNssai item) = sd nssai).
Definition add_info_dnn (d : DnnItem) (item : SNssaiInfoListItem) : SNssaiInfoListItem :=
  {| sNssai := sNssai item; dnnInfoList := add_missing d (dnnInfoList item) |}.
Definition add_info (nssai : Snssai) (d : DnnItem) : M (list SNssaiInfoListItem) (option bool) :=
  change_or_create 1 (same_sd nssai) (add_info_dnn d) (create_info nssai).
Definition add_dnn_snssai_upf_info_list_item := add_info.
Definition add_dnn_snssai_smf_info_list_item := add_info.

(** ** The AMF *)
Definition add_served_guami_list_item (mcc mnc : string) : M (list ServedGuamiListItem) (option ServedGuamiListItem) :=
  add_item {| gu_mcc := mcc; gu_mnc := mnc; amf_region_id := mnc; amf_set_id := mcc; amf_pointer := mnc |}.
Definition del_served_guami_list_item (mcc mnc : string) : M (list ServedGuamiListItem) bool :=
  found (del_item (λ i, String.eqb (gu_mcc i) mcc && String.eqb (gu_mnc i) mnc)).

Definition is_plmn (mcc mnc : string) (area_id : Z) (i : PlmnSupportListItem) : bool :=
  String.eqb (pl_mcc i) mcc && String.eqb (pl_mnc i) mnc && (pl_tac i =? area_id).
Definition create_plmn_list (mcc mnc : string) (area_id : Z) : M (list PlmnSupportListItem) (option PlmnSupportListItem) :=
  add_item {| pl_mcc := mcc; pl_mnc := mnc; pl_tac := area_id; pl_nssai := [] |}.
Definition destroy_plmn_list (mcc mnc : string) (area_id : Z) : M (list PlmnSupportListItem) bool :=
  found (del_item (is_plmn mcc mnc area_id)).
Definition set_nssai (l : list Snssai) (i : PlmnSupportListItem) : PlmnSupportListItem :=
  {| pl_mcc := pl_mcc i; pl_mnc := pl_mnc i; pl_tac := pl_tac i; pl_nssai := l |}.
Definition add_plmn_item (mcc mnc : string) (area_id : Z) (nssai : Snssai) : M (list PlmnSupportListItem) (option bool) :=
  change_or_create 1 (is_plmn mcc mnc area_id) (λ i, set_nssai (add_missing nssai (pl_nssai i)) i) (create_plmn_list mcc mnc area_id).
(** An item that becomes empty leaves the list: the first of its identifiers. *)
Definition del_plmn_item (mcc mnc : string) (area_id : Z) (nssai : Snssai) : M (list PlmnSupportListItem) bool :=
  l ← getS;
  match find_index (λ i, is_plmn mcc mnc area_id i && bool_decide (nssai ∈ pl_nssai i)) l with
  | None => mret false
  | Some n =>
      match l !! n with
      | None => mret false
      | Some i =>
          rest ← liftR (py_remove (λ x y, bool_decide (x = y)) nssai (pl_nssai i));
          putS (<[n := set_nssai rest i]> l) ;;
          (if (length rest =? 0)%nat then destroy_plmn_list mcc mnc area_id ;; mret tt else mret tt) ;;
          mret true
      end
  end.

(** ** The SMF *)
Definition upf_host_name (area_id : Z) : string := "oai-upf" +:+ pretty area_id.
Definition add_host_aliases (area_id : Z) (ip_upf : string) : M (list HostAliase) HostAliase :=
  or_raise (add_item {| alias_ip := ip_upf; hostnames := upf_host_name area_id |}).
Definition del_host_aliases (area_id : Z) : M (list HostAliase) HostAliase :=
  or_raise (del_item (λ h, String.eqb (hostnames h) (upf_host_name area_id))).
Definition add_available_upf (area_id : Z) : M (list UpfAvailable) (option UpfAvailable) :=
  add_item {| upf_host := upf_host_name area_id; enable_usage_reporting := "no" |}.
Definition del_available_upf (area_id : Z) : M (list UpfAvailable) bool :=
  found (del_item (λ u, String.eqb (upf_host u) (upf_host_name area_id))).

(** [s.replace(" ", "")] of a rate. *)
Fixpoint drop_spaces (s : string) : string :=
  match s with EmptyString => EmptyString | String c s' => if Ascii.eqb c " " then drop_spaces s' else String c (drop_spaces s') end.
Definition rate_text (o : option string) : result string := match o with Some s => Ok (drop_spaces s) | None => Raise AttributeError end.
Definition qos_of (d : SubDataNets) : result QosProfile :=
  ul ← rate_text (uplinkAmbr d);
  dl ← rate_text (downlinkAmbr d);
  qi ← match default5qi d with Some s => validate_int s | None => Raise ValidationError end;
  Ok {| field_5qi := qi; session_ambr_ul := ul; session_ambr_dl := dl |}.
Definition add_local_subscription_info (snnsai : Snssai) (d : SubDataNets) : M (list LocalSubscriptionInfo) (option LocalSubscriptionInfo) :=
  qos ← liftR (qos_of d);
  add_item {| single_nssai := snnsai; lsi_dnn := dnn d; qos_profile := qos |}.
Definition del_local_subscription_info (slice_id dnn_name : string) : M (list LocalSubscriptionInfo) bool :=
  found (del_item (λ i, String.eqb (lsi_dnn i) dnn_name && is_slice slice_id (single_nssai i))).

(** ** What they do *)
Section items_lemmas.
Context {A : Type} `{!EqDecision A}.
Lemma add_item_run (x : A) l : add_item x l = if bool_decide (x ∈ l) then (Ok None, l) else (Ok (Some x), l ++ [x]).
Proof. unfold add_item. rewrite bind_getS. by case_bool_decide. Qed.
Lemma or_raise_run (m : M (list A) (option A)) l :
  or_raise m l = match m l with (Ok (Some x), l') => (Ok x, l') | (Ok None, l') => (Raise ValueError, l') | (Raise e, l') => (Raise e, l') end.
Proof. unfold or_raise, mbind, M_bind. by destruct (m l) as [[[]|] ?]. Qed.
Lemma change_item_Some p f (l : list A) :
  match change_item p f l with
  | Some l' => ∃ i x, find_index p l = Some i ∧ l !! i = Some x ∧ l' = <[i:=f x]> l
  | None => ∀ x, x ∈ l → p x = false
  end.
Proof.
  induction l as [|x l IH]; [by intros ? ?%not_elem_of_nil|]. cbn. destruct (p x) eqn:Ep; [by exists 0%nat, x|].
  destruct (change_item p f l) as [l'|]; cbn.
  - destruct IH as (i & y & -> & Hy & ->). exists (S i), y. done.
  - intros y [->|Hy]%elem_of_cons; [done|by apply IH].
Qed.
Lemma change_item_snoc p f (l : list A) x : (∀ y, y ∈ l → p y = false) → p x = true → change_item p f (l ++ [x]) = Some (l ++ [f x]).
Proof.
  intros Hl Hx. induction l as [|y l IH]; cbn; [by rewrite Hx|]. rewrite (Hl y) by by left.
  rewrite IH; [done|]. intros z Hz. apply Hl. by right.
Qed.
(** One more call is enough: the item it creates is the one it looks for. *)
Lemma change_or_create_run p f x (l : list A) :
  p x = true →
  change_or_create 1 p f (add_item x) l =
  match change_item p f l with Some l' => (Ok (Some true), l') | None => (Ok None, l ++ [f x]) end.
Proof.
  intros Hx. cbn [change_or_create]. rewrite bind_getS. pose proof (change_item_Some p f l) as H.
  destruct (change_item p f l) as [l'|]; [done|]. assert (Hn : x ∉ l) by (intros Hin; rewrite (H x Hin) in Hx; done).
  rewrite (bind_Ok _ _ l (l ++ [x]) (Some x)) by by rewrite add_item_run, bool_decide_false.
  erewrite bind_Ok; [reflexivity|]. rewrite bind_getS. by rewrite change_item_snoc.
Qed.
End items_lemmas.
Lemma add_info_run n d l :
  add_info n d l = match change_item (same_sd n) (add_info_dnn d) l with
                   | Some l' => (Ok (Some true), l')
                   | None => (Ok None, l ++ [{| sNssai := n; dnnInfoList := [d] |}])
                   end.
Proof. unfold add_info, create_info. rewrite change_or_create_run; [done|]. by apply bool_decide_true. Qed.
Lemma add_plmn_run mcc mnc a n l :
  add_plmn_item mcc mnc a n l =
  match change_item (is_plmn mcc mnc a) (λ i, set_nssai (add_missing n (pl_nssai i)) i) l with
  | Some l' => (Ok (Some true), l')
  | None => (Ok None, l ++ [{| pl_mcc := mcc; pl_mnc := mnc; pl_tac := a; pl_nssai := [n] |}])
  end.
Proof.
  unfold add_plmn_item, create_plmn_list. rewrite change_or_create_run; [done|]. unfold is_plmn. cbn. by rewrite !String.eqb_refl, Z.eqb_refl.
Qed.
