(* ===== verification/OaiChart.v ===== *)
(** * The values of the chart of OpenAirInterface

    models/blueprint_ng/core5g/OAI_Models.py and blueprints_ng/modules/oai/oai_default_core_config.py: the values the chart
    is installed with.  The code writes eight of their lists, which are the data of the model; all the rest is the constant
    of the default configuration, which is written where the models have it. *)

From Stdlib Require Import Ascii.
From stdpp Require Import base list strings gmap pretty.
From Stdlib Require Import ZArith Lia.
From S2P Require Import Prelude Ipam IPv4Text Core5GModels OaiUtils.

Open Scope Z_scope.

Record OaiCoreValuesModel := {
  hostAliases : list HostAliase;
  served_guami_list : list ServedGuamiListItem;
  plmn_support_list : list PlmnSupportListItem;
  upfs : list UpfAvailable;
  sNssaiSmfInfoList : list SNssaiInfoListItem;
  local_subscription_infos : list LocalSubscriptionInfo;
  snssais : list Snssai;
  dnns : list Dnn
}.
Definition any_slice : Snssai := {| sst := 1; sd := Some "FFFFFF" |}.
Definition default_core_config : OaiCoreValuesModel :=
  let info d := {| sNssai := any_slice; dnnInfoList := [{| item_dnn := d |}] |} in
  let local d qi ul dl := {| single_nssai := any_slice; lsi_dnn := d;
                             qos_profile := {| field_5qi := qi; session_ambr_ul := ul; session_ambr_dl := dl |} |} in
  {| hostAliases := [{| alias_ip := "10.180.2.41"; hostnames := "oai-upf" |}];
     served_guami_list := [{| gu_mcc := "001"; gu_mnc := "01"; amf_region_id := "01"; amf_set_id := "001"; amf_pointer := "01" |}];
     plmn_support_list := [{| pl_mcc := "001"; pl_mnc := "01"; pl_tac := 1; pl_nssai := [any_slice; any_slice] |}];
     upfs := [{| upf_host := "oai-upf"; enable_usage_reporting := "no" |}];
     sNssaiSmfInfoList := [info "oai"; info "ims"];
     local_subscription_infos := [local "oai" 5 "200Mbps" "400Mbps"; local "ims" 2 "100Mbps" "200Mbps"];
     snssais := [any_slice; any_slice];
     dnns := [{| dnn_text := "oai"; pdu_session_type := "IPV4"; ipv4_subnet := "12.1.1.0/24" |};
              {| dnn_text := "ims"; pdu_session_type := "IPV4V6"; ipv4_subnet := "14.1.1.0/24" |}] |}.

(** ** The dump given to Helm: aliases for the names, and no field that is [None] *)
Definition dump_snssai (x : Snssai) : pyval :=
  VDict (("sst", VInt (sst x)) :: match sd x with Some s => [("sd", VStr s)] | None => [] end).
Definition dump_guami (x : ServedGuamiListItem) : pyval :=
  VDict [("mcc", VStr (gu_mcc x)); ("mnc", VStr (gu_mnc x)); ("amf_region_id", VStr (amf_region_id x));
         ("amf_set_id", VStr (amf_set_id x)); ("amf_pointer", VStr (amf_pointer x))].
Definition dump_plmn (x : PlmnSupportListItem) : pyval :=
  VDict [("mcc", VStr (pl_mcc x)); ("mnc", VStr (pl_mnc x)); ("tac", VInt (pl_tac x)); ("nssai", VList (dump_snssai <$> pl_nssai x))].
Definition dump_upf (x : UpfAvailable) : pyval :=
  VDict [("host", VStr (upf_host x)); ("config", VDict [("enable_usage_reporting", VStr (enable_usage_reporting x))])].
Definition dump_info (x : SNssaiInfoListItem) : pyval :=
  VDict [("sNssai", dump_snssai (sNssai x)); ("dnnSmfInfoList", VList ((λ d, VDict [("dnn", VStr (item_dnn d))]) <$> dnnInfoList x))].
Definition dump_local (x : LocalSubscriptionInfo) : pyval :=
  VDict [("single_nssai", dump_snssai (single_nssai x)); ("dnn", VStr (lsi_dnn x));
         ("qos_profile", VDict [("5qi", VInt (field_5qi (qos_profile x))); ("session_ambr_ul", VStr (session_ambr_ul (qos_profile x)));
                                ("session_ambr_dl", VStr (session_ambr_dl (qos_profile x)))])].
Definition dump_dnn (x : Dnn) : pyval :=
  VDict [("dnn", VStr (dnn_text x)); ("pdu_session_type", VStr (pdu_session_type x)); ("ipv4_subnet", VStr (ipv4_subnet x))].
Definition dump_alias (x : HostAliase) : pyval := VDict [("ip", VStr (alias_ip x)); ("hostnames", VStr (hostnames x))].

(** *** The network functions: an image each *)
Definition texts (l : list (string * string)) : pyval := VDict (prod_map id VStr <$> l).
Definition oai_image (name : string) : pyval :=
  texts [("repository", "docker.io/oaisoftwarealliance/" +:+ name); ("version", "v2.0.0"); ("pullPolicy", "IfNotPresent")].
Definition pull_secrets : string * pyval := ("imagePullSecrets", VList [texts [("name", "regcred")]]).
Definition oai_function (name : string) (l : dict) : string * pyval :=
  (name, VDict ([("enabled", VBool true); ("kubernetesType", VStr "Vanilla"); ("nfimage", oai_image name);
                 ("includeTcpDumpContainer", VBool false)] ++ l ++ [("nodeSelector", VDict [])])).
Definition simple_function (name : string) : string * pyval := oai_function name [pull_secrets; ("config", texts [("logLevel", "debug")])].
Definition global_values : string * pyval :=
  ("global", VDict [("nfConfigurationConfigMap", VStr "oai-5g-basic"); ("clusterIpServiceIpAllocation", VBool true); ("waitForNRF", VBool true);
                    ("http2Param", VStr "--http2-prior-knowledge"); ("timeout", VInt 1)]).
Definition mysql_values : string * pyval :=
  ("mysql", VDict [("enabled", VBool true); ("imagePullPolicy", VStr "IfNotPresent"); ("oai5gdatabase", VStr "basic");
                   ("service", VDict [("annotations", VDict []); ("type", VStr "LoadBalancer"); ("port", VInt 3306)]); pull_secrets;
                   ("persistence", VDict [("enabled", VBool false)])]).
Definition amf_function : string * pyval :=
  oai_function "oai-amf" [pull_secrets;
    ("multus", VDict [("defaultGateway", VStr EmptyString);
       ("n2Interface", VDict [("create", VBool false); ("Ipadd", VStr "172.21.6.94"); ("Netmask", VStr "22");
          ("routes", VList [texts [("dst", "10.8.0.0/24"); ("gw", "172.21.7.254")]]); ("hostInterface", VStr "bond0")])])].
Definition smf_function (aliases : list HostAliase) : string * pyval :=
  oai_function "oai-smf" [("hostAliases", VList (dump_alias <$> aliases));
    ("multus", VDict [("defaultGateway", VStr EmptyString);
       ("n4Interface", VDict [("create", VBool false); ("Ipadd", VStr "192.168.24.3"); ("Netmask", VStr "24"); ("Gateway", VStr EmptyString);
          ("hostInterface", VStr "bond0")])]);
    pull_secrets].

(** *** The configuration they share *)
Definition sbi : string * pyval := ("sbi", VDict [("port", VInt 80); ("api_version", VStr "v1"); ("interface_name", VStr "eth0")]).
Definition port_of (name : string) (port : Z) : string * pyval := (name, VDict [("interface_name", VStr "eth0"); ("port", VInt port)]).
Definition nf_of (name : string) (l : dict) : string * pyval := (name, VDict ([("host", VStr ("oai-" +:+ name)); sbi] ++ l)).
Definition nfs : pyval :=
  VDict [nf_of "amf" [port_of "n2" 38412]; nf_of "smf" [port_of "n4" 8805];
         nf_of "upf" [port_of "n3" 2152; port_of "n4" 8805; ("n6", VDict [("interface_name", VStr "eth0")]); port_of "n9" 2152];
         nf_of "udm" []; nf_of "udr" []; nf_of "ausf" []; nf_of "nrf" []].
Definition database_values : pyval :=
  VDict [("host", VStr "mysql"); ("user", VStr "test"); ("type", VStr "mysql"); ("password", VStr "test"); ("database_name", VStr "oai_db");
         ("generate_random", VBool true); ("connection_timeout", VInt 300)].
Definition amf_values (v : OaiCoreValuesModel) : pyval :=
  VDict [("amf_name", VStr "OAI-AMF");
         ("support_features_options", texts [("enable_simple_scenario", "no"); ("enable_nssf", "no"); ("enable_smf_selection", "yes")]);
         ("relative_capacity", VInt 30); ("statistics_timer_interval", VInt 20); ("emergency_support", VBool false);
         ("served_guami_list", VList (dump_guami <$> served_guami_list v)); ("plmn_support_list", VList (dump_plmn <$> plmn_support_list v));
         ("supported_integrity_algorithms", VList [VStr "NIA1"; VStr "NIA2"]);
         ("supported_encryption_algorithms", VList [VStr "NEA0"; VStr "NEA1"; VStr "NEA2"])].
Definition smf_values (v : OaiCoreValuesModel) : pyval :=
  VDict [("ue_mtu", VInt 1500); ("support_features", texts [("use_local_subscription_info", "no"); ("use_local_pcc_rules", "yes")]);
         ("upfs", VList (dump_upf <$> upfs v));
         ("ue_dns", texts [("primary_ipv4", "10.3.2.200"); ("primary_ipv6", "2001:4860:4860::8888"); ("secondary_ipv4", "8.8.8.8");
                           ("secondary_ipv6", "2001:4860:4860::8888")]);
         ("ims", texts [("pcscf_ipv4", "192.168.70.139"); ("pcscf_ipv6", "fe80::7915:f408:1787:db8b")]);
         ("smf_info", VDict [("sNssaiSmfInfoList", VList (dump_info <$> sNssaiSmfInfoList v))]);
         ("local_subscription_infos", VList (dump_local <$> local_subscription_infos v))].
Definition coreconfig (v : OaiCoreValuesModel) : pyval :=
  VDict [("log_level", texts [("general", "info")]); ("register_nf", texts [("general", "yes")]); ("http_version", VInt 2);
         ("snssais", VList (dump_snssai <$> snssais v)); ("nfs", nfs); ("database", database_values);
         ("dnns", VList (dump_dnn <$> dnns v)); ("amf", amf_values v); ("smf", smf_values v)].
Definition dump_core_values (v : OaiCoreValuesModel) : pyval :=
  VDict [global_values; mysql_values; simple_function "oai-nrf"; simple_function "oai-udr"; simple_function "oai-udm";
         simple_function "oai-ausf"; amf_function; smf_function (hostAliases v); ("currentconfig", coreconfig v)].
