(* ===== verification/Oai.v ===== *)
(** * OpenAirInterface

    blueprints_ng/modules/oai/oai_core/OpenAirInterface_blue.py: a core that is a Helm chart, whose subscribers are kept
    by its UDR, reached by HTTP.  It replaces the methods that follow a change of the configuration.
    The method update_slice, which no route leads to, is left out. *)

From Stdlib Require Import Ascii.
From stdpp Require Import base list strings gmap pretty.
From Stdlib Require Import ZArith Lia.
From S2P Require Import Prelude Ipam IPv4Text NetworkModels Core5GModels Resources Generic5G Generic5GK8s OaiUtils OaiChart.

Open Scope Z_scope.

(** ** State *)
Record OAIBlueprintNGState := {
  oai_config_values : option OaiCoreValuesModel;
  ue_dict : list (string * list Snssai);
  mcc : option string;
  mnc : option string;
  udr_ip : option string;
  oai_nrf_ip : option string;
  oai_amf_ip : option string;
  base_udr_url : option string
}.
(** *** Lists of the values *)
Definition set_aliases l v := {| hostAliases := l; served_guami_list := served_guami_list v; plmn_support_list := plmn_support_list v; upfs := upfs v;
  sNssaiSmfInfoList := sNssaiSmfInfoList v; local_subscription_infos := local_subscription_infos v; snssais := snssais v; dnns := dnns v |}.
Definition set_guami l v := {| hostAliases := hostAliases v; served_guami_list := l; plmn_support_list := plmn_support_list v; upfs := upfs v;
  sNssaiSmfInfoList := sNssaiSmfInfoList v; local_subscription_infos := local_subscription_infos v; snssais := snssais v; dnns := dnns v |}.
Definition set_plmns l v := {| hostAliases := hostAliases v; served_guami_list := served_guami_list v; plmn_support_list := l; upfs := upfs v;
  sNssaiSmfInfoList := sNssaiSmfInfoList v; local_subscription_infos := local_subscription_infos v; snssais := snssais v; dnns := dnns v |}.
Definition set_upfs l v := {| hostAliases := hostAliases v; served_guami_list := served_guami_list v; plmn_support_list := plmn_support_list v; upfs := l;
  sNssaiSmfInfoList := sNssaiSmfInfoList v; local_subscription_infos := local_subscription_infos v; snssais := snssais v; dnns := dnns v |}.
Definition set_infos l v := {| hostAliases := hostAliases v; served_guami_list := served_guami_list v; plmn_support_list := plmn_support_list v; upfs := upfs v;
  sNssaiSmfInfoList := l; local_subscription_infos := local_subscription_infos v; snssais := snssais v; dnns := dnns v |}.
Definition set_locals l v := {| hostAliases := hostAliases v; served_guami_list := served_guami_list v; plmn_support_list := plmn_support_list v; upfs := upfs v;
  sNssaiSmfInfoList := sNssaiSmfInfoList v; local_subscription_infos := l; snssais := snssais v; dnns := dnns v |}.
Definition set_snssais l v := {| hostAliases := hostAliases v; served_guami_list := served_guami_list v; plmn_support_list := plmn_support_list v; upfs := upfs v;
  sNssaiSmfInfoList := sNssaiSmfInfoList v; local_subscription_infos := local_subscription_infos v; snssais := l; dnns := dnns v |}.
Definition set_dnns l v := {| hostAliases := hostAliases v; served_guami_list := served_guami_list v; plmn_support_list := plmn_support_list v; upfs := upfs v;
  sNssaiSmfInfoList := sNssaiSmfInfoList v; local_subscription_infos := local_subscription_infos v; snssais := snssais v; dnns := l |}.
(** [clear] on each of them, the served GUAMIs excepted. *)
Definition clear_lists (v : OaiCoreValuesModel) : OaiCoreValuesModel :=
  {| hostAliases := []; served_guami_list := served_guami_list v; plmn_support_list := []; upfs := []; sNssaiSmfInfoList := [];
     local_subscription_infos := []; snssais := []; dnns := [] |}.

Definition set_values v s := {| oai_config_values := Some v; ue_dict := ue_dict s; mcc := mcc s; mnc := mnc s; udr_ip := udr_ip s;
  oai_nrf_ip := oai_nrf_ip s; oai_amf_ip := oai_amf_ip s; base_udr_url := base_udr_url s |}.
Definition set_ue_dict d s := {| oai_config_values := oai_config_values s; ue_dict := d; mcc := mcc s; mnc := mnc s; udr_ip := udr_ip s;
  oai_nrf_ip := oai_nrf_ip s; oai_amf_ip := oai_amf_ip s; base_udr_url := base_udr_url s |}.
Definition set_plmn c n s := {| oai_config_values := oai_config_values s; ue_dict := ue_dict s; mcc := Some c; mnc := Some n; udr_ip := udr_ip s;
  oai_nrf_ip := oai_nrf_ip s; oai_amf_ip := oai_amf_ip s; base_udr_url := base_udr_url s |}.
Definition set_addresses udr nrf amf s := {| oai_config_values := oai_config_values s; ue_dict := ue_dict s; mcc := mcc s; mnc := mnc s; udr_ip := Some udr;
  oai_nrf_ip := Some nrf; oai_amf_ip := Some amf; base_udr_url := Some ("http://" +:+ udr +:+ ":80/nudr-dr/v1/subscription-data") |}.
Definition empty_oai_state : OAIBlueprintNGState := {| oai_config_values := None; ue_dict := []; mcc := None; mnc := None; udr_ip := None;
  oai_nrf_ip := None; oai_amf_ip := None; base_udr_url := None |}.

(** ** The UDR: a base address, a path and what is sent; the status of the answer *)
Class UdrCalls (W : Type) := {
  udr_put : string → string → pyval → M W Z;
  udr_delete : string → string → list (string * pyval) → M W Z
}.

(** [Ue.model_dump(by_alias=True)]. *)
Definition dump_ue (method : string) (u : SubSubscribers) : pyval :=
  VDict [("authenticationMethod", VStr method); ("encPermanentKey", VStr (k u)); ("protectionParameterId", VStr (k u));
         ("sequenceNumber", VDict [("sqn", VStr "000000000020"); ("sqnScheme", VStr "NON_TIME_BASED"); ("lastIndexes", VDict [("ausf", VInt 0)])]);
         ("authenticationManagementField", VStr "8000"); ("algorithmId", VStr "milenage"); ("encOpcKey", VStr (opc u)); ("encTopcKey", VStr (opc u));
         ("vectorGenerationInHss", VBool false); ("n5gcAuthMethod", VStr EmptyString); ("rgAuthenticationInd", VBool false); ("supi", VStr (imsi u))].
(** [DnnConfiguration], and the data of the sessions of a subscriber. *)
Record DnnConfiguration := { uplink : string; downlink : string; five_qi : Z }.
Definition dump_dnn_configuration (d : DnnConfiguration) : pyval :=
  VDict [("sscModes", VDict [("defaultSscMode", VStr "SSC_MODE_1")]);
         ("sessionAmbr", VDict [("uplink", VStr (uplink d)); ("downlink", VStr (downlink d))]);
         ("5gQosProfile", VDict [("5qi", VInt (five_qi d));
            ("arp", VDict [("preemptCap", VStr "NOT_PREEMPT"); ("preemptVuln", VStr "NOT_PREEMPTABLE"); ("priorityLevel", VInt 15)]);
            ("priorityLevel", VInt 1)]);
         ("pduSessionTypes", VDict [("defaultSessionType", VStr "IPV4")])].
Definition dump_sd (x : Snssai) : pyval := match sd x with Some s => VStr s | None => VNone end.
Definition dump_sessions (l : list (string * DnnConfiguration)) (x : Snssai) : pyval :=
  VDict [("dnnConfigurations", VDict ((λ kd, (kd.1, dump_dnn_configuration kd.2)) <$> l)); ("singleNssai", VDict [("sst", VInt (sst x)); ("sd", dump_sd x)])].
(** [add_configuration]: setting a key to the value it has changes nothing. *)
Definition add_configuration (name : string) (d : DnnConfiguration) (l : list (string * DnnConfiguration)) : list (string * DnnConfiguration) := od_set name d l.
Definition configuration_of (d : SubDataNets) : result DnnConfiguration :=
  ul ← rate_text (uplinkAmbr d);
  dl ← rate_text (downlinkAmbr d);
  qi ← match default5qi d with Some s => py_int s | None => Raise TypeError end;
  Ok {| uplink := ul; downlink := dl; five_qi := qi |}.

(** [int(s, 16)] of an identifier, which is made of hexadecimal digits. *)
Definition hex_digit (c : ascii) : option Z :=
  let n := Z.of_nat (Ascii.nat_of_ascii c) in
  if (48 <=? n) && (n <=? 57) then Some (n - 48)
  else if (65 <=? n) && (n <=? 70) then Some (n - 55)
  else if (97 <=? n) && (n <=? 102) then Some (n - 87) else None.
Fixpoint hex_value (s : string) (acc : Z) : result Z :=
  match s with
  | EmptyString => Ok acc
  | String c s' => match hex_digit c with Some d => hex_value s' (16 * acc + d) | None => Raise ValueError end
  end.
(** [Snssai(sst=..., sd=str(int(sliceId, 16)))]. *)
Definition subscriber_nssai (x : SubSnssai) : result Snssai :=
  v ← hex_value (snssai_sliceId x) 0;
  match to_int (snssai_sliceType x) with Some t => Ok {| sst := t; sd := Some (pretty v) |} | None => Raise ValidationError end.

Definition oai_functions : list (NF5GType * (string * string)) :=
  [(AMF, ("oai-amf", "oai-amf-svc-lb")); (AUSF, ("oai-ausf", "oai-ausf-svc-lb")); (NRF, ("oai-nrf", "oai-nrf-svc-lb"));
   (SMF, ("oai-smf", "oai-smf-svc-lb")); (UDM, ("oai-udm", "oai-udm-svc-lb")); (UDR, ("oai-udr", "oai-udr-svc-lb"))].

Section oai.
Context {W : Type} `{!Surroundings W} `{!CoreCalls W} `{!UdrCalls W}.
Variable self_id : string.
#[local] Abbreviation X := (K8sCore OAIBlueprintNGState W).
#[local] Abbreviation B := (M (Blue5G X)).

Definition update_own (f : OAIBlueprintNGState → OAIBlueprintNGState) : B unit := s ← get_own; put_own (f s).
(** A function of oai_utils on a list of the values. *)
Definition on_list {L A} (get : OaiCoreValuesModel → L) (set : L → OaiCoreValuesModel → OaiCoreValuesModel) (m : M L A) : B A :=
  s ← get_own;
  v ← attr (oai_config_values s);
  let '(r, l) := m (get v) in put_own (set_values (set l v) s) ;; liftR r.

(** *** Lookups in the configuration *)
Definition oai_get_slice (slice_id : string) : B SubSliceProfiles :=
  c ← get_config;
  l ← liftR (py_iter (sliceProfiles (config c)));
  match find (λ s, String.eqb (sliceId s) slice_id) l with Some s => mret s | None => raise ValueError end.
Definition get_subscriber (ue : string) : B SubSubscribers :=
  c ← get_config;
  match find (λ s, String.eqb (imsi s) ue) (subscribers (config c)) with Some s => mret s | None => raise ValueError end.
Definition oai_get_area (id : Z) : B SubArea :=
  c ← get_config; match find (λ a, id =? area_id a) (areas c) with Some a => mret a | None => raise ValueError end.
Definition get_area_from_sliceid (id : string) : B SubArea :=
  c ← get_config;
  l ← liftR (map_result (λ a, l ← py_iter (slices a); Ok (existsb (λ x, String.eqb (area_sliceId x) id) l, a)) (areas c));
  match find fst l with Some (_, a) => mret a | None => raise ValueError end.
Definition get_dnn (dnn_name : string) : B SubDataNets :=
  c ← get_config;
  match find (λ d, String.eqb dnn_name (dnn d)) (data_nets (network_endpoints (config c))) with Some d => mret d | None => raise ValueError end.

(** *** The values of the chart *)
Definition deployed_upf (area : Z) : B DeployedUPFInfo :=
  e ← get_edge (area_key area); u ← attr (edge_upf e); liftR (py_getitem (upf_list u) 0).
Definition add_slice_dnn (new_snssai : Snssai) (name : string) : B unit :=
  d ← get_dnn name;
  liftR (py_getitem (pools d) 0) ;;
  on_list local_subscription_infos set_locals (add_local_subscription_info new_snssai d) ;;
  pool ← liftR (py_getitem (pools d) 0);
  on_list dnns set_dnns (add_dnn_dnns (dnn d) (pool_cidr pool)) ;;
  on_list sNssaiSmfInfoList set_infos (add_dnn_snssai_smf_info_list_item new_snssai {| item_dnn := name |}) ;;
  mret tt.
Definition add_area_slice (area : SubArea) (slice : SubSlices) : B unit :=
  new_snssai ← on_list snssais set_snssais (add_snssai (area_sliceId slice) (area_sliceType slice));
  s ← get_own;
  c ← field (mcc s);
  n ← field (mnc s);
  on_list plmn_support_list set_plmns (add_plmn_item c n (area_id area) new_snssai) ;;
  sub_slice ← oai_get_slice (area_sliceId slice);
  for_each (dnnList sub_slice) (add_slice_dnn new_snssai).
Definition add_oai_area (area : SubArea) : B unit :=
  deployed_upf_info ← deployed_upf (area_id area);
  info ← attr (network_info deployed_upf_info);
  on_list hostAliases set_aliases (add_host_aliases (area_id area) (exploded (upf_n4_ip info))) ;;
  on_list upfs set_upfs (add_available_upf (area_id area)) ;;
  l ← liftR (py_iter (slices area));
  for_each l (add_area_slice area).
Definition update_core_values : B unit :=
  on_list served_guami_list set_guami (putS []) ;;
  s ← get_own;
  c ← field (mcc s);
  n ← field (mnc s);
  on_list served_guami_list set_guami (add_served_guami_list_item c n) ;;
  on_list (λ v, v) (λ v _, v) (modifyS clear_lists) ;;
  c ← get_config;
  for_each (areas c) add_oai_area.
Definition oai_update_core : B unit :=
  s ← get_own;
  v ← attr (oai_config_values s);
  on_chart update_values_helm_chart (dump_core_values v).

(** *** Subscribers *)
Definition with_base {A} (call : string → M W A) : B A :=
  s ← get_own; match base_udr_url s with Some u => world (call u) | None => raise TypeError end.
Definition auth_path (ue : string) : string := "/" +:+ ue +:+ "/authentication-data/authentication-subscription".
Definition sms_path (ue plmn : string) : string := "/" +:+ ue +:+ "/" +:+ plmn +:+ "/provisioned-data/sm-data".
Definition add_subscriber_to_conf (u : SubSubscribers) : B unit :=
  with_base (λ base,
    match authenticationMethod u with
    | Some method => udr_put base (auth_path (imsi u)) (dump_ue method u)
    | None => raise ValidationError
    end) ;;
  mret tt.
Definition del_subscriber_to_conf (ue : string) : B unit :=
  status ← with_base (λ base, udr_delete base (auth_path ue) []);
  if status =? 204 then mret tt else raise BlueprintNGException.

(** The data of the sessions are sent again for each data network, with those before it. *)
Fixpoint send_sessions (base path : string) (x : Snssai) (names : list string) (l : list (string * DnnConfiguration)) : B unit :=
  match names with
  | [] => mret tt
  | name :: names' =>
      d ← get_dnn name;
      configuration ← liftR (configuration_of d);
      let l := add_configuration name configuration l in
      world (udr_put base path (dump_sessions l x)) ;;
      send_sessions base path x names' l
  end.
Definition associating_subscriber_with_slice (ue : string) : B unit :=
  s ← get_own;
  if od_in ue (ue_dict s) then raise BlueprintNGException
  else
    subscriber ← get_subscriber ue;
    first ← liftR (py_getitem (snssai subscriber) 0);
    sub_slice ← oai_get_slice (snssai_sliceId first);
    base ← (match base_udr_url s with Some u => mret u | None => raise TypeError end);
    c ← get_config;
    x ← liftR (subscriber_nssai first);
    update_own (λ s, set_ue_dict (od_set ue [x] (ue_dict s)) s) ;;
    send_sessions base (sms_path ue (plmn (config c))) x (dnnList sub_slice) [].

Definition oai_add_ues (u : SubSubscribers) : B unit :=
  add_subscriber_to_conf u ;; associating_subscriber_with_slice (imsi u).

(** *** The core *)
Definition oai_create_5g (create_model : Create5gModel) : B unit :=
  area ← liftR (core_area create_model);
  update_own (set_values default_core_config) ;;
  update_core_state (set_chart {| helm_id := None; helm_area := area; helm_name := "oai"; chart := "helm_charts/charts/oai5gbasic-2.0.0.tgz";
    chart_as_path := true; repo := None; version := None; namespace := self_id; helm_created := false; services := None; deployments := None;
    statefulsets := None |}) ;;
  register_chart ;;
  let p := plmn (config create_model) in
  update_own (set_plmn (String.substring 0 3 p) (String.substring (String.length p - 2) 2 p)) ;;
  update_core_values ;;
  s ← get_own;
  v ← attr (oai_config_values s);
  on_chart install_helm_chart (dump_core_values v) ;;
  update_k8s_network_functions oai_functions ;;
  udr ← first_external_ip UDR;
  nrf ← first_external_ip NRF;
  amf ← first_external_ip AMF;
  update_own (set_addresses udr nrf amf) ;;
  for_each (subscribers (config create_model)) oai_add_ues.
#[export] Instance oai_core : Core5G X := {
  create_5g := oai_create_5g;
  update_core := oai_update_core;
  wait_core_ready := mret tt;
  get_amf_ip := k8s_get_amf_ip;
  get_nrf_ip := k8s_get_nrf_ip
}.

(** One slice of a subscriber: it leaves the list, and the list the dictionary, when the UDR says it is gone. *)
Definition forget_session (ue : string) (x : Snssai) : B unit :=
  c ← get_config;
  status ← with_base (λ base, udr_delete base (sms_path ue (plmn (config c))) [("sst", VInt (sst x)); ("sd", dump_sd x)]);
  if status =? 204 then
    s ← get_own;
    l ← liftR (od_getitem ue (ue_dict s));
    l' ← liftR (py_remove (λ a b, bool_decide (a = b)) x l);
    put_own (set_ue_dict (match l' with [] => od_pop ue (ue_dict s) | _ => od_set ue l' (ue_dict s) end) s)
  else mret tt.
(** The loop reads the list it changes; a list that left the dictionary is empty. *)
Fixpoint forget_sessions (fuel i : nat) (ue : string) : B unit :=
  match fuel with
  | O => mret tt
  | S n =>
      s ← get_own;
      match default [] (od_get ue (ue_dict s)) !! i with
      | Some x => forget_session ue x ;; forget_sessions n (S i) ue
      | None => mret tt
      end
  end.
Definition disassociating_subscriber_from_slice (ue : string) : B unit :=
  s ← get_own;
  l ← liftR (od_getitem ue (ue_dict s));
  forget_sessions (S (length l)) 0 ue ;;
  update_core_values ;;
  oai_update_core ;;
  update_gnb_config.

(** *** What follows a change of the configuration *)
Definition oai_del_ues (ue : string) : B unit := disassociating_subscriber_from_slice ue ;; del_subscriber_to_conf ue.
Definition update_slices : B unit := update_edge_areas ;; update_core_values ;; oai_update_core ;; update_edge_areas ;; update_gnb_config.
Definition update_dnns : B unit := update_core_values ;; oai_update_core ;; update_edge_areas ;; update_gnb_config.
(** The data network is added to the configuration, unless it is there. *)
Definition add_dnn_to_conf (new_dnn : SubDataNets) : B unit :=
  c ← get_config;
  let nets := data_nets (network_endpoints (config c)) in
  if existsb (λ d, String.eqb (dnn d) (dnn new_dnn)) nets then raise BlueprintNGException
  else put_config (set_data_nets (nets ++ [new_dnn]) c) ;; update_dnns.
Definition del_dnn_from_conf (old_dnn : string) : B unit :=
  d ← get_dnn old_dnn;
  c ← get_config;
  l ← liftR (py_iter (sliceProfiles (config c)));
  if existsb (λ s, py_in String.eqb (dnn d) (dnnList s)) l then raise BlueprintNGException
  else
    let nets := data_nets (network_endpoints (config c)) in
    match find_index (λ x, String.eqb (dnn x) (dnn d)) nets with
    | Some i => put_config (set_data_nets (delete i nets) c) ;; update_dnns
    | None => raise ValueError
    end.
(** The subscribers of a deleted slice: the keys of the dictionary are iterated, and a key that leaves it during the
    loop makes the next step of the iterator raise. *)
Fixpoint leave_slice (id : string) (keys : list string) : B unit :=
  match keys with
  | [] => mret tt
  | ue :: keys' =>
      s ← get_own;
      l ← liftR (od_getitem ue (ue_dict s));
      for_each l (λ x, if bool_decide (sd x = Some id) then disassociating_subscriber_from_slice ue else mret tt) ;;
      s' ← get_own;
      if (length (ue_dict s') =? length (ue_dict s))%nat then leave_slice id keys' else raise RuntimeError
  end.
Definition oai_del_slice (id : string) : B unit := s ← get_own; leave_slice id (od_keys (ue_dict s)) ;; update_slices.
#[export] Instance oai_methods : Day2Methods X := {
  add_ues := oai_add_ues;
  del_ues := oai_del_ues;
  add_dnn := add_dnn_to_conf;
  del_dnn := del_dnn_from_conf;
  add_slice _ _ := update_slices;
  del_slice := oai_del_slice;
  add_tac _ := update_slices;
  del_tac _ := update_slices
}.
End oai.
