(* ===== verification/OaiProps.v ===== *)
(** * What the OpenAirInterface core does with the operations of day 2

    Data networks can be neither added nor deleted, a subscriber whose registration failed half-way can be neither
    added again nor deleted, and the sessions of a deleted slice stay. *)

From Stdlib Require Import Ascii.
From stdpp Require Import base list strings gmap pretty.
From Stdlib Require Import ZArith Lia.
From S2P Require Import Prelude Ipam IPv4Text NetworkModels Core5GModels Resources Generic5G Generic5GProps Generic5GK8s SdCoreProps OaiUtils OaiChart Oai.

Open Scope Z_scope.

Section oai_props.
Context {W : Type} `{!Surroundings W} `{!CoreCalls W} `{!UdrCalls W}.
Variable self_id : string.
#[local] Abbreviation X := (K8sCore OAIBlueprintNGState W).
#[local] Instance this_core : Core5G X := oai_core self_id.
#[local] Instance these_methods : Day2Methods X := oai_methods self_id.
Implicit Types (b : Blue5G X).

(** ** Reading the state *)
Lemma get_own_run b : get_own b = (Ok (own (ext b)), b).
Proof. done. Qed.
Definition set_own (s : OAIBlueprintNGState) b : Blue5G X :=
  set_ext {| own := s; k8s_network_functions := k8s_network_functions (ext b);
             core_helm_chart := core_helm_chart (ext b); outside := outside (ext b) |} b.
Lemma set_own_same b : set_own (own (ext b)) b = b.
Proof. by destruct b as [? ? []]. Qed.
Lemma on_list_run {L A} get set (m : M L A) v b :
  oai_config_values (own (ext b)) = Some v →
  on_list get set m b = ((m (get v)).1, set_own (set_values (set (m (get v)).2 v) (own (ext b))) b).
Proof.
  intros Hv. unfold on_list. rewrite (bind_Ok _ _ _ _ _ (get_own_run b)), Hv. cbn [attr].
  rewrite (bind_Ok (mret v) _ b b v) by done. by destruct (m (get v)) as [r l].
Qed.

(** ** Data networks *)

(** C34: the data networks of an OpenAirInterface core are fixed when it is created.  The generic operation
    changes the configuration and then calls the method of the core, which checks the request once more against
    the configuration that has it already: every addition and every deletion of a data network, also of one the
    checks accept, raises and leaves no trace. *)
Theorem data_networks_are_fixed op c b :
  with_config c b → lists_present c → match op with AddDnn _ | DelDnn _ => True | _ => False end →
  ∃ e, run op b = (Raise e, b).
Proof.
  intros Hb Hl Hop. pose proof (run_transaction op c b Hb Hl) as Ht. unfold transaction in Ht.
  destruct (apply op c) as [c'|] eqn:Ea; [|exact Ht]. rewrite Ht.
  assert (Hf : ∃ e, follow_up op (reconf c' b) = (Raise e, reconf c' b)).
  { destruct op as [| |d|d| | | |]; try done; cbn [follow_up add_dnn del_dnn these_methods oai_methods]; cbn [apply] in Ea.
    - destruct (existsb _ _); [done|]. injection Ea as <-. exists BlueprintNGException. unfold add_dnn_to_conf.
      rewrite (bind_Ok _ _ _ _ _ (get_config_run _ _ (reconf_config _ b))). cbn [config set_data_nets set_config network_endpoints data_nets].
      rewrite existsb_app. cbn. by rewrite String.eqb_refl, orb_true_r.
    - destruct (_ && _); [|done]. injection Ea as <-. exists ValueError. unfold del_dnn_from_conf, get_dnn. eapply bind_Raise.
      rewrite (bind_Ok _ _ _ _ _ (get_config_run _ _ (reconf_config _ b))). cbn [config set_data_nets set_config network_endpoints data_nets].
      destruct (find _ _) as [x|] eqn:Ex; [|done]. apply find_some in Ex as [Hx E%String.eqb_eq]. apply filter_In in Hx as [_ Hx].
      by rewrite <-E, String.eqb_refl in Hx. }
  destruct Hf as [e Hf]. exists e. unfold restoring, catch. rewrite Hf, (bind_Ok _ _ _ _ _ (put_config_run c _)).
  unfold raise. fold (reconf c (reconf c' b)). by rewrite reconf_reconf, reconf_id.
Qed.

(** ** Subscribers *)
Definition known (ue : string) b : Prop := od_in ue (ue_dict (own (ext b))) = true.
Definition not_configured (ue : string) (c : Create5gModel) : Prop := existsb (λ s, String.eqb (imsi s) ue) (subscribers (config c)) = false.

Definition same_core (o : OAIBlueprintNGState) (s : Generic5GBlueprintNGState) b : Prop := own (ext b) = o ∧ st b = s.
Lemma same_core_world {A} o s (m : M W A) : preserves (same_core o s) (world m).
Proof. intros b [H1 H2]. unfold world, on_ext, zoom, reach, zoom. cbn. by destruct (m (outside (ext b))). Qed.
Lemma same_core_base {A} o s (call : string → M W A) : preserves (same_core o s) (with_base call).
Proof.
  unfold with_base. apply preserves_bind; [by intros b|]. intros x. destruct (base_udr_url x); [apply same_core_world|apply preserves_raise].
Qed.
Lemma same_core_add o s u : preserves (same_core o s) (add_subscriber_to_conf u).
Proof. unfold add_subscriber_to_conf. apply preserves_bind; [apply same_core_base|]. intros z. apply preserves_ret. Qed.

Lemma find_app_fresh {A} (p : A → bool) l l' : existsb p l = false → find p (l ++ l') = find p l'.
Proof. induction l as [|x l IH]; [done|]. cbn. by destruct (p x). Qed.
Lemma stuck_add u u' c b :
  with_config c b → lists_present c → known (imsi u) b → imsi u' = imsi u →
  ∃ e b', run (AddUe u') b = (Raise e, b') ∧ with_config c b' ∧ known (imsi u) b'.
Proof.
  intros Hb Hl Hk Hi. pose proof (run_transaction (AddUe u') c b Hb Hl) as Ht. unfold transaction in Ht.
  destruct (apply (AddUe u') c) as [c'|]; [|destruct Ht as [e Ht]; by exists e, b]. rewrite Ht. cbn [follow_up add_ues these_methods oai_methods].
  pose proof (same_core_add _ _ u' (reconf c' b) (conj eq_refl eq_refl)) as [Ho Hs]. unfold restoring, catch, oai_add_ues.
  assert (Ha : ∃ e b1, (add_subscriber_to_conf u' ;; associating_subscriber_with_slice (imsi u')) (reconf c' b) = (Raise e, b1) ∧ own (ext b1) = own (ext b)).
  { destruct (add_subscriber_to_conf u' (reconf c' b)) as [[[]|e] b1] eqn:E; cbn [snd] in Ho.
    - exists BlueprintNGException, b1. split; [|done]. rewrite (bind_Ok _ _ _ _ _ E). unfold associating_subscriber_with_slice.
      rewrite (bind_Ok _ _ _ _ _ (get_own_run b1)), Hi. unfold known in Hk. cbn [ext reconf set_st] in Ho. by rewrite Ho, Hk.
    - exists e, b1. split; [|done]. by rewrite (bind_Raise _ _ _ _ _ E). }
  destruct Ha as (e & b1 & -> & Hb1). rewrite (bind_Ok _ _ _ _ _ (put_config_run c b1)). exists e. eexists. split; [done|]. split; [done|].
  unfold known. cbn. by rewrite Hb1.
Qed.
Lemma stuck_del ue c b : with_config c b → lists_present c → not_configured ue c → ∃ e, run (DelUe ue) b = (Raise e, b).
Proof. intros Hb Hl Hn. pose proof (run_transaction (DelUe ue) c b Hb Hl) as Ht. unfold transaction in Ht. cbn [apply] in Ht. by rewrite Hn in Ht. Qed.

(** Requests about a subscriber. *)
Definition concerns (ue : string) (op : day2) : Prop :=
  match op with AddUe u => imsi u = ue | DelUe i => i = ue | _ => False end.
Lemma stays_stuck u c ops b :
  with_config c b → lists_present c → known (imsi u) b → not_configured (imsi u) c → Forall (concerns (imsi u)) ops →
  ∃ b', run_all ops b = (replicate (length ops) false, b') ∧ with_config c b' ∧ known (imsi u) b'.
Proof.
  intros Hb Hl Hk Hn Hops. revert b Hb Hk. induction Hops as [|op ops Hop _ IH]; intros b Hb Hk; [by exists b|].
  assert (Hr : ∃ e b', run op b = (Raise e, b') ∧ with_config c b' ∧ known (imsi u) b').
  { destruct op as [u'|i| | | | | |]; try done; [by apply stuck_add|]. cbn in Hop. subst i.
    destruct (stuck_del (imsi u) c b Hb Hl Hn) as [e He]. by exists e, b. }
  destruct Hr as (e & b1 & Hr & Hb1 & Hk1). destruct (IH b1 Hb1 Hk1) as (b' & Ha & Hb').
  exists b'. cbn [run_all length replicate]. by rewrite Hr, Ha.
Qed.

(** The UDR, asked at [w] for the sessions of a subscriber, fails whatever the sessions are. *)
Definition refuses_sessions (base ue plmn : string) (w : W) : Prop :=
  ∀ v, ∃ e w', udr_put base (sms_path ue plmn) v w = (Raise e, w').
Lemma send_refused base ue x names l b plmn :
  names ≠ [] → refuses_sessions base ue plmn (outside (ext b)) →
  ∃ e b', send_sessions base (sms_path ue plmn) x names l b = (Raise e, b') ∧ own (ext b') = own (ext b).
Proof.
  intros Hn Hr. destruct names as [|name names]; [done|]. cbn [send_sessions].
  assert (Hd : ∃ r, get_dnn name b = (r, b)).
  { unfold get_dnn, mbind, M_bind. assert (Hg : ∃ r, get_config b = (r, b)) by (unfold get_config, get_st; run_M; destruct (current_config _); by eexists).
    destruct Hg as [[c|e] ->]; [|by eexists]. destruct (find _ _); by eexists. }
  destruct Hd as [[d|e] Hd]; [|exists e, b; by rewrite (bind_Raise _ _ _ _ _ Hd)]. rewrite (bind_Ok _ _ _ _ _ Hd), bind_liftR.
  destruct (configuration_of d) as [k|e]; [|by exists e, b]. cbv zeta.
  destruct (Hr (dump_sessions (add_configuration name k l) x)) as (e & w' & E). exists e.
  unfold mbind, M_bind, world, on_ext, zoom, reach, zoom. cbn. rewrite E. by eexists.
Qed.

(** The failed registration. *)
Lemma half_added u c b base method x xs n s z w :
  with_config c b → lists_present c → not_configured (imsi u) c → ¬ known (imsi u) b →
  snssai u = x :: xs → subscriber_nssai x = Ok n →
  find (λ s, String.eqb (sliceId s) (snssai_sliceId x)) (default [] (sliceProfiles (config c))) = Some s → dnnList s ≠ [] →
  base_udr_url (own (ext b)) = Some base → authenticationMethod u = Some method →
  udr_put base (auth_path (imsi u)) (dump_ue method u) (outside (ext b)) = (Ok z, w) →
  refuses_sessions base (imsi u) (plmn (config c)) w →
  ∃ e b', run (AddUe u) b = (Raise e, b') ∧ with_config c b' ∧ known (imsi u) b'.
Proof.
  intros Hb Hl Hn Hk Hx Hs Hf Hd Hbase Hm Hput Href.
  pose proof (run_transaction (AddUe u) c b Hb Hl) as Ht. unfold transaction in Ht. cbn [apply] in Ht. unfold not_configured in Hn. rewrite Hn in Ht.
  rewrite (proj2 (existsb_exists _ _)) in Ht.
  2: { exists s. apply find_some in Hf as [Hin Heq]. split; [done|]. apply py_in_spec. exists (sliceId s). split; [|apply String.eqb_refl].
       apply String.eqb_eq in Heq as ->. rewrite Hx. by left. }
  set (c' := set_subscribers _ c) in Ht. rewrite Ht. cbn [follow_up add_ues these_methods oai_methods]. clear Ht.
  (* the keys are sent *)
  set (b0 := reconf c' b). set (b1 := set_ext {| own := own (ext b); k8s_network_functions := k8s_network_functions (ext b);
    core_helm_chart := core_helm_chart (ext b); outside := w |} b0).
  assert (Hadd : add_subscriber_to_conf u b0 = (Ok tt, b1)).
  { unfold add_subscriber_to_conf, with_base. unfold mbind, M_bind. rewrite get_own_run. cbn [ext b0 reconf set_st]. rewrite Hbase, Hm.
    unfold world, on_ext, zoom, reach, zoom. cbn. by rewrite Hput. }
  set (b2 := set_own (set_ue_dict (od_set (imsi u) [n] (ue_dict (own (ext b)))) (own (ext b))) b1).
  destruct (send_refused base (imsi u) n (dnnList s) [] b2 (plmn (config c)) Hd Href) as (e & b3 & Hsend & Hown).
  exists e, (reconf c b3).
  assert (Hassoc : associating_subscriber_with_slice (imsi u) b1 = (Raise e, b3)).
  { unfold associating_subscriber_with_slice. rewrite (bind_Ok _ _ _ _ _ (get_own_run b1)). cbn [own ext b1 set_ext].
    unfold known in Hk. apply not_true_is_false in Hk as ->.
    assert (Hc1 : with_config c' b1) by done.
    assert (Hsub : get_subscriber (imsi u) b1 = (Ok u, b1)).
    { unfold get_subscriber. rewrite (bind_Ok _ _ _ _ _ (get_config_run c' b1 Hc1)). cbn [c' config set_subscribers set_config subscribers].
      rewrite find_app_fresh by done. cbn. by rewrite String.eqb_refl. }
    rewrite (bind_Ok _ _ _ _ _ Hsub), bind_liftR, Hx, getitem_0. cbn [head].
    assert (Hsl : oai_get_slice (snssai_sliceId x) b1 = (Ok s, b1)).
    { unfold oai_get_slice. rewrite (bind_Ok _ _ _ _ _ (get_config_run c' b1 Hc1)), bind_liftR. cbn [c' config set_subscribers set_config sliceProfiles].
      destruct Hl as [[l El] _]. rewrite El in Hf |- *. cbn [py_iter]. cbn in Hf. by rewrite Hf. }
    rewrite (bind_Ok _ _ _ _ _ Hsl), Hbase. rewrite (bind_Ok (mret base) _ b1 b1 base) by done.
    rewrite (bind_Ok _ _ _ _ _ (get_config_run c' b1 Hc1)), bind_liftR, Hs.
    erewrite bind_Ok; [exact Hsend|]. done. }
  split_and!; [|done|].
  - unfold restoring, catch, oai_add_ues. rewrite (bind_Ok _ _ _ _ _ Hadd), Hassoc. by rewrite (bind_Ok _ _ _ _ _ (put_config_run c b3)).
  - unfold known. cbn [reconf set_st ext]. rewrite Hown. cbn. unfold od_in. by rewrite od_get_set_eq.
Qed.

(** C35: a subscriber whose registration failed half-way is stuck.  Let a subscriber be new to the configuration and to the
    core, and its request be accepted: its first slice exists and has a data network, and the UDR takes its keys but fails on
    its sessions.  Then the request raises and the configuration is restored, but the core has already recorded the subscriber,
    before it sent the sessions, and keeps the record.  From then on every request to add the subscriber, with any data, and
    every request to delete it is refused, in any order and however many follow: an addition because it is recorded, a deletion
    because it is not configured. *)
Theorem half_added_subscriber_is_stuck u c b base method x xs n s z w ops :
  with_config c b → lists_present c → not_configured (imsi u) c → ¬ known (imsi u) b →
  snssai u = x :: xs → subscriber_nssai x = Ok n →
  find (λ s, String.eqb (sliceId s) (snssai_sliceId x)) (default [] (sliceProfiles (config c))) = Some s → dnnList s ≠ [] →
  base_udr_url (own (ext b)) = Some base → authenticationMethod u = Some method →
  udr_put base (auth_path (imsi u)) (dump_ue method u) (outside (ext b)) = (Ok z, w) →
  refuses_sessions base (imsi u) (plmn (config c)) w →
  Forall (concerns (imsi u)) ops →
  ∃ e b', run (AddUe u) b = (Raise e, b') ∧ with_config c b' ∧ known (imsi u) b' ∧
    ∃ b'', run_all ops b' = (replicate (length ops) false, b'') ∧ with_config c b'' ∧ known (imsi u) b''.
Proof.
  intros Hb Hl Hn Hk Hx Hs Hf Hd Hbase Hm Hput Href Hops.
  assert (Hr : ∃ e b', run (AddUe u) b = (Raise e, b') ∧ with_config c b' ∧ known (imsi u) b').
  2: { destruct Hr as (e & b' & Hr & Hb' & Hk'). exists e, b'. split_and!; [done..|]. by apply stays_stuck. }
  by eapply half_added.
Qed.
End oai_props.

(** ** Slices of subscribers *)

(** Identifiers as the models accept them. *)
Definition six_digits (s : string) : Prop := String.length s = 6%nat ∧ all_chars is_hex s = true.

Lemma digit_bounds c d : digit_of c = Some d → 0 ≤ d ≤ 9 ∧ hex_digit c = Some d.
Proof.
  unfold digit_of, hex_digit. set (n := Ascii.nat_of_ascii c). destruct (_ && _)%nat eqn:E; [|done]. intros [= <-].
  apply andb_true_iff in E as [E1%Nat.leb_le E2%Nat.leb_le]. split; [lia|]. rewrite (proj2 (Z.leb_le 48 _)) by lia. by rewrite (proj2 (Z.leb_le _ 57)) by lia.
Qed.
Lemma is_digit_both c : is_digit c = true → ∃ d, 0 ≤ d ≤ 9 ∧ digit_of c = Some d ∧ hex_digit c = Some d.
Proof. unfold is_digit. destruct (digit_of c) as [d|] eqn:E; [|done]. intros _. exists d. by destruct (digit_bounds c d E). Qed.
Lemma pretty_nonneg v : 0 ≤ v → all_chars is_digit (pretty v) = true ∧ digits_value (pretty v) 0 = Some v ∧ (v < 10 → (String.length (pretty v) ≤ 1)%nat).
Proof.
  intros Hv. destruct v as [|p|p]; [|..|lia]; [by split_and!; [|..|cbn; lia]|].
  destruct (pretty_N_digits (Npos p)) as (H1 & H2 & H3). split_and!; [done..|]. intros Hp. apply (pretty_length (Npos p) 1); [|lia].
  change (10 ^ N.of_nat 1)%N with 10%N. lia.
Qed.
Lemma hex_nonneg s acc v : 0 ≤ acc → hex_value s acc = Ok v → 0 ≤ v.
Proof.
  revert acc. induction s as [|c s IH]; intros acc Ha; cbn; [by intros [= <-]|]. destruct (hex_digit c) as [d|] eqn:E; [|done]. apply IH.
  unfold hex_digit in E. repeat (case_match; try done); injection E as <-; repeat match goal with H : _ && _ = true |- _ => apply andb_true_iff in H as [?%Z.leb_le ?%Z.leb_le] end; lia.
Qed.

(** The decimal text of a hexadecimal identifier is never the identifier. *)
Lemma decimal_is_not_hex s v : String.length s = 6%nat → hex_value s 0 = Ok v → pretty v ≠ s.
Proof.
  intros Hs Hv E. pose proof (hex_nonneg s 0 v ltac:(lia) Hv) as H0. destruct (pretty_nonneg v H0) as (Hd & Hval & Hlen). rewrite E in Hd, Hval, Hlen.
  do 6 (destruct s as [|? s]; [done|]). destruct s; [|done]. cbn [all_chars] in Hd.
  repeat match goal with H : _ && _ = true |- _ => apply andb_true_iff in H as [? ?] end.
  cbn [hex_value digits_value] in Hv, Hval.
  repeat match goal with H : is_digit ?c = true |- _ => let Hb := fresh "Hb" in apply is_digit_both in H as (? & ? & Hb & ?) end.
  repeat match goal with H : digit_of _ = Some _ |- _ => rewrite H in Hval; clear H end.
  repeat match goal with H : hex_digit _ = Some _ |- _ => rewrite H in Hv; clear H end.
  injection Hv as Hv. injection Hval as Hval. assert (v < 10) by lia. specialize (Hlen ltac:(done)). cbn in Hlen. lia.
Qed.

Section sessions.
Context {W : Type} `{!Surroundings W} `{!CoreCalls W} `{!UdrCalls W}.
Variable self_id : string.
#[local] Abbreviation X := (K8sCore OAIBlueprintNGState W).
#[local] Existing Instance oai_core.
Implicit Types (b : Blue5G X).

(** Every recorded subscriber is associated with slices of six-digit identifiers, and those that are not the slice [id] do
    not have a number that reads, in decimal, like [id]. *)
Definition recorded_slice (id : string) (x : Snssai) : Prop :=
  ∃ y, String.length (snssai_sliceId y) = 6%nat ∧ subscriber_nssai y = Ok x ∧ (snssai_sliceId y ≠ id → sd x ≠ Some id).
Definition recorded_slices (id : string) b : Prop := Forall (λ kl, Forall (recorded_slice id) kl.2) (ue_dict (own (ext b))).

Lemma recorded_differs y x : String.length (snssai_sliceId y) = 6%nat → subscriber_nssai y = Ok x → sd x ≠ Some (snssai_sliceId y).
Proof.
  intros Hl Hx E. unfold subscriber_nssai in Hx. destruct (hex_value (snssai_sliceId y) 0) as [v|] eqn:Ev; [|done].
  cbn [mbind result_bind] in Hx. destruct (to_int _); [|done]. injection Hx as <-. cbn [sd] in E. injection E as E.
  by apply (decimal_is_not_hex _ _ Hl Ev).
Qed.
Lemma leave_slice_run id keys b :
  recorded_slices id b → Forall (λ k, k ∈ od_keys (ue_dict (own (ext b)))) keys →
  leave_slice self_id id keys b = (Ok tt, b).
Proof.
  intros Ha Hk. induction Hk as [|ue keys Hu _ IH]; [done|]. cbn [leave_slice]. rewrite (bind_Ok _ _ _ _ _ (get_own_run b)), bind_liftR.
  apply od_in_keys in Hu. unfold od_in, od_getitem in *. destruct (od_get ue (ue_dict (own (ext b)))) as [l|] eqn:El; [|done].
  assert (Hx : Forall (recorded_slice id) l).
  { unfold recorded_slices in Ha. rewrite Forall_forall in Ha. apply (Ha (ue, l)). by apply od_get_in. }
  assert (Hn : for_each l (λ x, if bool_decide (sd x = Some id) then disassociating_subscriber_from_slice self_id ue else mret tt) b = (Ok tt, b)).
  { clear -Hx. induction Hx as [|x l (y & Hy & Hs & Ho) _ IHl]; [done|]. cbn [for_each].
    rewrite bool_decide_false; [by rewrite (bind_Ok (mret tt) _ b b tt)|].
    destruct (decide (snssai_sliceId y = id)) as [<-|Hne]; [by apply recorded_differs|by apply Ho]. }
  rewrite (bind_Ok _ _ _ _ _ Hn), (bind_Ok _ _ _ _ _ (get_own_run b)), Nat.eqb_refl. exact IH.
Qed.

(** The deletion of a slice ends no session of its subscribers, although the documentation says that they are
    removed.  A subscriber is recorded with the number of its slice in decimal, and the deletion compares that text with the
    hexadecimal identifier of the slice, which is never the same: so, whatever subscribers of the deleted slice and of others
    are recorded, as long as the number of no other slice reads in decimal like the deleted identifier, the deletion is the
    update of areas and chart that follows any other change, which asks nothing of the UDR. *)
Theorem sessions_of_a_deleted_slice_stay id b :
  recorded_slices id b → oai_del_slice self_id id b = update_slices self_id b.
Proof.
  intros Ha. unfold oai_del_slice. rewrite (bind_Ok _ _ _ _ _ (get_own_run b)). erewrite bind_Ok; [reflexivity|].
  apply leave_slice_run; [done|]. by apply Forall_forall.
Qed.
End sessions.
(** It can find the subscribers of another slice. *)
Example wrong_slice_found :
  subscriber_nssai {| snssai_sliceId := "0186A0"; snssai_sliceType := EMBB; pduSessionIds := []; default_slice := None |}
  = Ok {| sst := 1; sd := Some "100000" |}.
Proof. reflexivity. Qed.

(** ** A concrete core, with a UDR that knows the keys of subscribers and not their sessions *)
Module ConcreteOai.
Definition lab_chart (h : HelmChartResource) : HelmChartResource :=
  set_services (Some ((λ n, (n, ConcreteSdCore.lab_service n)) <$> ((λ x, x.2.2) <$> oai_functions)))
    (set_deployments (Some ((λ n, (n, {| dep_name := n; pods := [n +:+ "-0"] |})) <$> ((λ x, x.2.1) <$> oai_functions))) h).
#[local] Existing Instance ConcreteSdCore.lab_surroundings.
#[export] Instance lab_calls : CoreCalls (option pyval) := {
  register_resource h := mret h;
  install_helm_chart h p w := (Ok tt, lab_chart h, Some p);
  update_values_helm_chart h p w := (Ok tt, h, Some p);
  get_pod_log _ _ _ := mret EmptyString;
  k8s_credentials _ := mret "credentials";
  get_k8s_config_from_file_content c := mret c;
  k8s_scale_k8s_deployment _ _ _ _ := mret tt
}.
#[export] Instance lab_udr : UdrCalls (option pyval) := {
  udr_put _ path _ := if str_contains "sm-data" path then raise ConnectError else mret 201;
  udr_delete _ _ _ := mret 204
}.
Definition lab_net : SubDataNets :=
  {| Core5GModels.net_name := "internet"; dnn := "internet"; dns := "8.8.8.8"; pools := [{| pool_cidr := "10.1.0.0/24" |}];
     uplinkAmbr := Some "50 Mbps"; downlinkAmbr := Some "100 Mbps"; default5qi := Some "9" |}.
Definition rename_net (d : SubDataNets) : SubDataNets :=
  {| Core5GModels.net_name := "video"; dnn := "video"; dns := dns d; pools := pools d;
     uplinkAmbr := uplinkAmbr d; downlinkAmbr := downlinkAmbr d; default5qi := default5qi d |}.
Definition lab_config : Create5gModel := set_data_nets [lab_net] ConcreteSdCore.lab_config.
Definition lab_ue : SubSubscribers :=
  {| imsi := "001010000000001"; k := "00"; opc := "11"; snssai := snssai ConcreteSdCore.lab_ue;
     authenticationMethod := Some "5G_AKA"; authenticationManagementField := None |}.
Definition lab_new : Blue5G (K8sCore OAIBlueprintNGState (option pyval)) :=
  {| st := {| current_config := None; edge_areas := []; ran_areas := []; core_deployed := false |}; children := [];
     ext := {| own := empty_oai_state; k8s_network_functions := []; core_helm_chart := None; outside := None |} |}.
#[local] Instance lab_core : Core5G (K8sCore OAIBlueprintNGState (option pyval)) := oai_core "blue".
#[local] Instance lab_methods : Day2Methods (K8sCore OAIBlueprintNGState (option pyval)) := oai_methods "blue".
Definition lab_created := (create lab_config lab_new).2.
(** The core after the failed registration. *)
Definition lab_half := (run (AddUe lab_ue) lab_created).2.

Lemma lab_lists : lists_present lab_config.
Proof. split; [by eexists|repeat constructor; by eexists]. Qed.
Example oai_create_returns : (create lab_config lab_new).1 = Ok tt.
Proof. vm_compute. reflexivity. Qed.
Lemma data_networks_are_fixed_witness :
  (∃ e, run (AddDnn (rename_net lab_net)) lab_created = (Raise e, lab_created)) ∧ (∃ e, run (DelDnn "internet") lab_created = (Raise e, lab_created)).
Proof.
  split; apply (data_networks_are_fixed "blue" _ lab_config); first [done | apply lab_lists | vm_compute; reflexivity].
Defined.
Lemma lab_refuses base w : refuses_sessions base "001010000000001" "00101" w.
Proof. intros v. by exists ConnectError, w. Qed.
Lemma lab_base : base_udr_url (own (ext lab_created)) = Some "http://10.0.0.9:80/nudr-dr/v1/subscription-data".
Proof. vm_compute. reflexivity. Qed.
Lemma lab_unknown : ¬ known "001010000000001" lab_created.
Proof. vm_compute. discriminate. Qed.
Lemma lab_configured : with_config lab_config lab_created.
Proof. vm_compute. reflexivity. Qed.
Lemma half_added_subscriber_is_stuck_witness :
  ∃ e b', run (AddUe lab_ue) lab_created = (Raise e, b') ∧ with_config lab_config b' ∧ known "001010000000001" b' ∧
    ∃ b'', run_all [AddUe lab_ue; DelUe "001010000000001"; AddUe lab_ue] b' = ([false; false; false], b'') ∧
           with_config lab_config b'' ∧ known "001010000000001" b''.
Proof.
  eapply (half_added_subscriber_is_stuck "blue" lab_ue lab_config lab_created);
    [apply lab_configured|apply lab_lists|reflexivity|apply lab_unknown|reflexivity|reflexivity|reflexivity|discriminate|apply lab_base
    |reflexivity|reflexivity|apply lab_refuses|repeat constructor].
Defined.
Lemma sessions_of_a_deleted_slice_stay_witness :
  known "001010000000001" lab_half ∧ oai_del_slice "blue" "000001" lab_half = update_slices "blue" lab_half.
Proof.
  split; [vm_compute; reflexivity|]. apply sessions_of_a_deleted_slice_stay. unfold recorded_slices.
  assert (ue_dict (own (ext lab_half)) = [("001010000000001", [{| sst := 1; sd := Some "1" |}])]) as -> by (vm_compute; reflexivity).
  repeat constructor. by exists {| snssai_sliceId := "000001"; snssai_sliceType := EMBB; pduSessionIds := []; default_slice := None |}.
Defined.
End ConcreteOai.
