(* ===== verification/OaiValues.v ===== *)
(** * The values of OpenAirInterface

    The lists the chart is given, as a function of the configuration and of the addresses of the UPFs, and the proof
    that the loops of update_core_values compute them, and raise when the function has no value. *)

From Stdlib Require Import Ascii.
From stdpp Require Import base list strings gmap pretty.
From Stdlib Require Import ZArith Lia.
From S2P Require Import Prelude Ipam IPv4Text NetworkModels Core5GModels Resources Generic5G Generic5GProps Generic5GK8s OaiUtils OaiChart Oai OaiProps.

Open Scope Z_scope.

(** ** The specification: the areas with the slices they offer, and the data networks of these *)
Definition net_entry : Type := SubDataNets * Pool * QosProfile.
Definition slice_entry : Type := SubSlices * list net_entry.
Definition area_entry : Type := SubArea * string * list slice_entry.

Definition nssai_of (x : SubSlices) : Snssai := {| sst := default 0 (to_int (area_sliceType x)); sd := Some (rjust0 6 (area_sliceId x)) |}.
Definition local_of (x : SubSlices) (d : net_entry) : LocalSubscriptionInfo :=
  {| single_nssai := nssai_of x; lsi_dnn := dnn d.1.1; qos_profile := d.2 |}.
Definition dnn_of (d : net_entry) : Dnn := {| dnn_text := dnn d.1.1; pdu_session_type := "IPV4"; ipv4_subnet := pool_cidr d.1.2 |}.
Definition item_of (d : net_entry) : DnnItem := {| item_dnn := dnn d.1.1 |}.
(** What an item that is added unless it is there makes of a list: each item once, where it is first. *)
Definition once {A} `{!EqDecision A} (l : list A) : list A := foldl (λ acc x, add_missing x acc) [] l.
Definition info_of (e : slice_entry) : list SNssaiInfoListItem :=
  match e.2 with [] => [] | _ => [{| sNssai := nssai_of e.1; dnnInfoList := once (item_of <$> e.2) |}] end.
Definition plmn_of (mcc mnc : string) (a : area_entry) : list PlmnSupportListItem :=
  match a.2 with [] => [] | _ => [{| pl_mcc := mcc; pl_mnc := mnc; pl_tac := area_id a.1.1; pl_nssai := nssai_of ∘ fst <$> a.2 |}] end.
Definition slices_of (l : list area_entry) : list slice_entry := concat (snd <$> l).

Definition values (mcc mnc : string) (l : list area_entry) : OaiCoreValuesModel :=
  {| hostAliases := (λ a : area_entry, {| alias_ip := a.1.2; hostnames := upf_host_name (area_id a.1.1) |}) <$> l;
     served_guami_list := [{| gu_mcc := mcc; gu_mnc := mnc; amf_region_id := mnc; amf_set_id := mcc; amf_pointer := mnc |}];
     plmn_support_list := concat (plmn_of mcc mnc <$> l);
     upfs := (λ a : area_entry, {| upf_host := upf_host_name (area_id a.1.1); enable_usage_reporting := "no" |}) <$> l;
     sNssaiSmfInfoList := concat (info_of <$> slices_of l);
     local_subscription_infos := once (concat ((λ e : slice_entry, local_of e.1 <$> e.2) <$> slices_of l));
     snssais := nssai_of ∘ fst <$> slices_of l;
     dnns := once (concat ((λ e : slice_entry, dnn_of <$> e.2) <$> slices_of l)) |}.

(** What a configuration asks for; [None] when something it names is missing. *)
Definition net_entry_of (c : Create5gModel) (name : string) : option net_entry :=
  d ← find (λ d, String.eqb name (dnn d)) (data_nets (network_endpoints (config c)));
  pool ← head (pools d);
  match qos_of d with Ok q => Some (d, pool, q) | Raise _ => None end.
Definition slice_entry_of (c : Create5gModel) (x : SubSlices) : option slice_entry :=
  p ← find (λ s, String.eqb (sliceId s) (area_sliceId x)) (default [] (sliceProfiles (config c)));
  l ← mapM (net_entry_of c) (dnnList p);
  Some (x, l).
Definition upf_n4 (s : Generic5GBlueprintNGState) (id : Z) : option string :=
  e ← od_get (area_key id) (edge_areas s);
  u ← edge_upf e;
  d ← head (upf_list u);
  info ← network_info d;
  Some (exploded (upf_n4_ip info)).
Definition area_entry_of (c : Create5gModel) (s : Generic5GBlueprintNGState) (a : SubArea) : option area_entry :=
  ip ← upf_n4 s (area_id a);
  l ← mapM (slice_entry_of c) (default [] (slices a));
  Some (a, ip, l).
Definition oai_values_of (c : Create5gModel) (s : Generic5GBlueprintNGState) (mcc mnc : string) : option OaiCoreValuesModel :=
  values mcc mnc <$> mapM (area_entry_of c s) (areas c).

(** ** Lists under construction *)
Definition ids_of (l : list slice_entry) : list string := (λ e : slice_entry, rjust0 6 (area_sliceId e.1)) <$> l.

Lemma slices_of_app l l' : slices_of (l ++ l') = slices_of l ++ slices_of l'.
Proof. unfold slices_of. by rewrite fmap_app, concat_app. Qed.
Lemma slices_of_last l a : slices_of (l ++ [a]) = slices_of l ++ a.2.
Proof. rewrite slices_of_app. cbn. by rewrite app_nil_r. Qed.

Lemma add_missing_new {A} `{!EqDecision A} (x : A) l : x ∉ l → add_missing x l = l ++ [x].
Proof. intros H. unfold add_missing. by rewrite bool_decide_false. Qed.
Lemma change_last {A} (p : A → bool) f l x : (∀ y, y ∈ l → p y = false) → p x = true → change_item p f (l ++ [x]) = Some (l ++ [f x]).
Proof. apply change_item_snoc. Qed.
Lemma change_none {A} (p : A → bool) f l : (∀ y, y ∈ l → p y = false) → change_item p f l = None.
Proof.
  intros H. pose proof (change_item_Some p f l) as Hc. destruct (change_item p f l); [|done]. destruct Hc as (i & x & Hi & Hx & _).
  apply find_index_Some in Hi as (y & Hy & Hp & _). rewrite (H y) in Hp; [done|]. by eapply list_elem_of_lookup_2.
Qed.

Lemma once_last {A} `{!EqDecision A} (l : list A) x : once (l ++ [x]) = add_missing x (once l).
Proof. unfold once. by rewrite foldl_app. Qed.
Lemma add_item_once {A} `{!EqDecision A} (l : list A) x : ∃ r, add_item x (once l) = (Ok r, once (l ++ [x])).
Proof. rewrite add_item_run, once_last. unfold add_missing. case_bool_decide; by eexists. Qed.
Lemma concat_fmap_last {A C} (f : A → list C) (l : list A) x : concat (f <$> l ++ [x]) = concat (f <$> l) ++ f x.
Proof. rewrite fmap_app, concat_app. cbn. by rewrite app_nil_r. Qed.

Lemma host_name_inj i j : upf_host_name i = upf_host_name j → i = j.
Proof. unfold upf_host_name. intros E. apply (inj (String.append _)) in E. by apply (inj pretty) in E. Qed.

(** One more data network of the last slice. *)
Section one_more.
Context (mcc mnc : string) (l : list area_entry) (a : SubArea) (ip : string) (es : list slice_entry).
Definition upto (es : list slice_entry) : list area_entry := l ++ [(a, ip, es)].

Lemma in_concat_fmap {A C} (f : A → list C) (l0 : list A) y : y ∈ concat (f <$> l0) ↔ ∃ x, x ∈ l0 ∧ y ∈ f x.
Proof.
  rewrite list_elem_of_In, in_concat. split.
  - intros (z & Hz & Hy). apply list_elem_of_In, list_elem_of_fmap in Hz as (x & -> & Hx). exists x. split; [done|by apply list_elem_of_In].
  - intros (x & Hx & Hy). exists (f x). split; [apply list_elem_of_In; by apply list_elem_of_fmap_2|by apply list_elem_of_In].
Qed.

Lemma info_ids x e0 y : rjust0 6 (area_sliceId x) ∉ ids_of e0 → y ∈ concat (info_of <$> e0) → same_sd (nssai_of x) y = false.
Proof.
  intros H (e & He & Hy)%in_concat_fmap. unfold info_of in Hy. destruct (e.2) as [|d ds]; [by apply not_elem_of_nil in Hy|].
  apply list_elem_of_singleton in Hy as ->. apply bool_decide_false. cbn. intros E. apply H. unfold ids_of. apply list_elem_of_fmap. exists e.
  split; [congruence|done].
Qed.
Lemma add_local_more x ds (d : net_entry) :
  qos_of d.1.1 = Ok d.2 →
  ∃ r, add_local_subscription_info (nssai_of x) d.1.1 (local_subscription_infos (values mcc mnc (upto (es ++ [(x, ds)])))) =
  (Ok r, local_subscription_infos (values mcc mnc (upto (es ++ [(x, ds ++ [d])])))).
Proof.
  intros Hq. unfold add_local_subscription_info. rewrite bind_liftR, Hq. fold (local_of x d). cbn [values local_subscription_infos].
  unfold upto. rewrite !slices_of_last. cbn [snd]. rewrite !app_assoc, !concat_fmap_last. cbn [fst snd]. rewrite (fmap_app (local_of x) ds), app_assoc. apply add_item_once.
Qed.
Lemma add_dnn_more x ds (d : net_entry) :
  ∃ r, add_dnn_dnns (dnn d.1.1) (pool_cidr d.1.2) (dnns (values mcc mnc (upto (es ++ [(x, ds)])))) =
  (Ok r, dnns (values mcc mnc (upto (es ++ [(x, ds ++ [d])])))).
Proof.
  unfold add_dnn_dnns. fold (dnn_of d). cbn [values dnns].
  unfold upto. rewrite !slices_of_last. cbn [snd]. rewrite !app_assoc, !concat_fmap_last. cbn [fst snd]. rewrite (fmap_app dnn_of ds), app_assoc. apply add_item_once.
Qed.
Lemma add_info_more x ds (d : net_entry) :
  rjust0 6 (area_sliceId x) ∉ ids_of (slices_of l ++ es) →
  ∃ r, add_info (nssai_of x) (item_of d) (sNssaiSmfInfoList (values mcc mnc (upto (es ++ [(x, ds)])))) =
  (Ok r, sNssaiSmfInfoList (values mcc mnc (upto (es ++ [(x, ds ++ [d])])))).
Proof.
  intros Hi. rewrite add_info_run. cbn [values sNssaiSmfInfoList]. unfold upto. rewrite !slices_of_last. cbn [snd].
  rewrite !app_assoc, !concat_fmap_last. pose proof (λ y, info_ids x (slices_of l ++ es) y Hi) as Hd. set (I0 := concat (info_of <$> slices_of l ++ es)) in *.
  destruct ds as [|d0 ds]; cbn [info_of snd fst app].
  - rewrite app_nil_r, change_none by done. by eexists.
  - rewrite change_last; [|done|by apply bool_decide_true]. eexists. do 3 f_equal. unfold add_info_dnn. cbn [sNssai dnnInfoList]. f_equal. f_equal.
    symmetry. change (item_of <$> d0 :: ds ++ [d]) with (item_of <$> (d0 :: ds) ++ [d]). rewrite (fmap_app item_of (d0 :: ds) [d]). apply once_last.
Qed.

(** One more slice of the last area. *)
Lemma ids_nssai x e0 : rjust0 6 (area_sliceId x) ∉ ids_of e0 → nssai_of x ∉ nssai_of ∘ fst <$> e0.
Proof.
  intros H (e & E & He)%list_elem_of_fmap. apply H. apply list_elem_of_fmap. exists e. split; [|done]. pose proof (f_equal sd E) as Es. cbn in Es. by injection Es.
Qed.
Lemma add_snssai_more x :
  rjust0 6 (area_sliceId x) ∉ ids_of (slices_of l ++ es) →
  add_snssai (area_sliceId x) (area_sliceType x) (snssais (values mcc mnc (upto es))) =
  (Ok (nssai_of x), snssais (values mcc mnc (upto (es ++ [(x, [])])))).
Proof.
  intros Hi. unfold add_snssai, new_snssai.
  assert (to_int (area_sliceType x) = Some (default 0 (to_int (area_sliceType x)))) as E by by destruct (area_sliceType x).
  rewrite bind_liftR. rewrite E. fold (nssai_of x). rewrite or_raise_run, add_item_run. cbn [values snssais]. unfold upto. rewrite !slices_of_last. cbn [snd].
  rewrite bool_decide_false by by apply ids_nssai. by rewrite !app_assoc, (fmap_app _ (slices_of l ++ es)).
Qed.
Lemma plmn_areas l0 y : area_id a ∉ (λ e : area_entry, area_id e.1.1) <$> l0 → y ∈ concat (plmn_of mcc mnc <$> l0) → is_plmn mcc mnc (area_id a) y = false.
Proof.
  intros H (e & He & Hy)%in_concat_fmap. unfold plmn_of in Hy. destruct (e.2) as [|d ds]; [by apply not_elem_of_nil in Hy|].
  apply list_elem_of_singleton in Hy as ->. unfold is_plmn. cbn. rewrite !String.eqb_refl. cbn. apply Z.eqb_neq. intros E. apply H.
  apply list_elem_of_fmap. by exists e.
Qed.
Lemma add_plmn_more x :
  area_id a ∉ (λ e : area_entry, area_id e.1.1) <$> l → rjust0 6 (area_sliceId x) ∉ ids_of (slices_of l ++ es) →
  ∃ r, add_plmn_item mcc mnc (area_id a) (nssai_of x) (plmn_support_list (values mcc mnc (upto es))) =
       (Ok r, plmn_support_list (values mcc mnc (upto (es ++ [(x, [])])))).
Proof.
  intros Ha Hi. rewrite add_plmn_run. cbn [values plmn_support_list]. unfold upto. rewrite !(fmap_app _ l), !concat_app. cbn [fmap list_fmap concat].
  rewrite !app_nil_r. pose proof (λ y, plmn_areas l y Ha) as Hd. set (P0 := concat (plmn_of mcc mnc <$> l)) in *. unfold plmn_of at 1 3. cbn [snd fst].
  destruct es as [|e0 es0] eqn:Ees; cbn [app].
  - rewrite app_nil_r, change_none by done. change (plmn_of mcc mnc (a, ip, [])) with (@nil PlmnSupportListItem). rewrite app_nil_r. by eexists.
  - rewrite change_last; [|done|unfold is_plmn; cbn; by rewrite !String.eqb_refl, Z.eqb_refl]. eexists. do 3 f_equal. unfold set_nssai, plmn_of. cbn [snd fst pl_nssai pl_mcc pl_mnc pl_tac].
    f_equal. f_equal. rewrite add_missing_new; [symmetry; apply (fmap_app (nssai_of ∘ fst) (e0 :: es0) [(x, [])])|]. rewrite <-Ees in *. apply ids_nssai. intros H. apply Hi. unfold ids_of. rewrite fmap_app. apply elem_of_app. by right.
Qed.

(** The lists that do not change when one more item is there. *)
Lemma values_dnn x ds (d : net_entry) :
  let v := values mcc mnc (upto (es ++ [(x, ds)])) in let v' := values mcc mnc (upto (es ++ [(x, ds ++ [d])])) in
  set_infos (sNssaiSmfInfoList v') (set_dnns (dnns v') (set_locals (local_subscription_infos v') v)) = v'.
Proof.
  cbv zeta. unfold set_infos, set_dnns, set_locals. cbn [hostAliases served_guami_list plmn_support_list upfs snssais values]. unfold upto.
  rewrite !slices_of_last, !concat_fmap_last. cbn [snd fst]. unfold values. rewrite !slices_of_last, !concat_fmap_last. cbn [snd fst]. f_equal.
  all: rewrite ?fmap_app; try done. f_equal. unfold plmn_of. cbn [snd]. destruct es as [|e0 es0]; [done|]. cbn [app]. by rewrite !fmap_cons, !fmap_app.
Qed.
Lemma values_slice x :
  let v := values mcc mnc (upto es) in let v' := values mcc mnc (upto (es ++ [(x, [])])) in
  set_plmns (plmn_support_list v') (set_snssais (snssais v') v) = v'.
Proof.
  cbv zeta. unfold set_plmns, set_snssais. cbn [hostAliases served_guami_list upfs sNssaiSmfInfoList local_subscription_infos dnns snssais plmn_support_list values]. unfold upto, values.
  rewrite !slices_of_last. cbn [snd fst]. rewrite !app_assoc, !concat_fmap_last. cbn [snd fst info_of fmap list_fmap]. rewrite !app_nil_r. f_equal.
  all: by rewrite ?fmap_app.
Qed.
Lemma add_alias_more :
  area_id a ∉ (λ e : area_entry, area_id e.1.1) <$> l →
  ∃ r, add_host_aliases (area_id a) ip (hostAliases (values mcc mnc l)) = (Ok r, hostAliases (values mcc mnc (upto []))).
Proof.
  intros Ha. unfold add_host_aliases. rewrite or_raise_run, add_item_run. cbn [hostAliases values]. unfold upto. rewrite (fmap_app _ l). cbn [fmap list_fmap fst snd].
  rewrite bool_decide_false; [by eexists|]. intros (e & E & He)%list_elem_of_fmap. apply Ha. apply list_elem_of_fmap. exists e. split; [|done].
  apply host_name_inj. exact (f_equal hostnames E).
Qed.
Lemma add_upf_more :
  area_id a ∉ (λ e : area_entry, area_id e.1.1) <$> l →
  ∃ r, add_available_upf (area_id a) (upfs (values mcc mnc l)) = (Ok r, upfs (values mcc mnc (upto []))).
Proof.
  intros Ha. unfold add_available_upf. rewrite add_item_run. cbn [upfs values]. unfold upto. rewrite (fmap_app _ l). cbn [fmap list_fmap fst snd].
  rewrite bool_decide_false; [by eexists|]. intros (e & E & He)%list_elem_of_fmap. apply Ha. apply list_elem_of_fmap. exists e. split; [|done].
  apply host_name_inj. exact (f_equal upf_host E).
Qed.
Lemma values_area :
  let v := values mcc mnc l in let v' := values mcc mnc (upto []) in set_upfs (upfs v') (set_aliases (hostAliases v') v) = v'.
Proof.
  cbv zeta. unfold set_upfs, set_aliases. cbn [hostAliases served_guami_list upfs sNssaiSmfInfoList local_subscription_infos dnns snssais plmn_support_list values]. unfold upto, values.
  rewrite !slices_of_last, !concat_fmap_last. cbn [snd plmn_of]. by rewrite !app_nil_r.
Qed.
End one_more.

(** ** The loops *)
Section loops.
Context {W : Type} `{!Surroundings W} `{!CoreCalls W} `{!UdrCalls W}.
#[local] Abbreviation X := (K8sCore OAIBlueprintNGState W).
Implicit Types (b : Blue5G X).
Variables (c : Create5gModel) (mc mn : string).

(** The blueprint with other values. *)
Definition at_values (v : OaiCoreValuesModel) b : Blue5G X := set_own (set_values v (own (ext b))) b.
Lemma at_at v v' b : at_values v' (at_values v b) = at_values v' b.
Proof. done. Qed.
(** A blueprint with this configuration and this PLMN. *)
Definition based b : Prop := with_config c b ∧ Oai.mcc (own (ext b)) = Some mc ∧ Oai.mnc (own (ext b)) = Some mn.
Lemma based_at v b : based b → based (at_values v b).
Proof. done. Qed.
Lemma on_list_at {L A} get set (m : M L A) v b r l :
  m (get v) = (Ok r, l) → on_list get set m (at_values v b) = (Ok r, at_values (set l v) b).
Proof. intros Hm. rewrite (on_list_run get set m v) by done. by rewrite Hm. Qed.
Lemma on_list_raise {L A} get set (m : M L A) v b e l :
  m (get v) = (Raise e, l) → ∃ b', on_list get set m (at_values v b) = (Raise e, b').
Proof. intros Hm. rewrite (on_list_run get set m v) by done. rewrite Hm. by eexists. Qed.

Lemma get_dnn_run name b :
  with_config c b →
  get_dnn name b = match find (λ d, String.eqb name (dnn d)) (data_nets (network_endpoints (config c))) with Some d => (Ok d, b) | None => (Raise ValueError, b) end.
Proof. intros Hb. unfold get_dnn. rewrite (bind_Ok _ _ _ _ _ (get_config_run c b Hb)). by destruct (find _ _). Qed.


(** A step does what the specification says of it. *)
Definition gives (r : result unit * Blue5G X) (o : option OaiCoreValuesModel) b : Prop :=
  match o with Some v => r = (Ok tt, at_values v b) | None => ∃ e b', r = (Raise e, b') end.
Lemma gives_loop {A E} (f : A → M (Blue5G X) unit) (spec : A → option E) (val : list E → OaiCoreValuesModel) b l :
  (∀ pre x suf acc, l = pre ++ x :: suf → Forall2 (λ a e, spec a = Some e) pre acc →
     gives (f x (at_values (val acc) b)) ((λ e, val (acc ++ [e])) <$> spec x) b) →
  gives (for_each l f (at_values (val []) b)) (val <$> mapM spec l) b.
Proof.
  intros Hf. cut (∀ pre acc suf, l = pre ++ suf → Forall2 (λ a e, spec a = Some e) pre acc →
    gives (for_each suf f (at_values (val acc) b)) ((λ es, val (acc ++ es)) <$> mapM spec suf) b).
  { intros H. by apply (H [] [] l). }
  intros pre acc suf. revert pre acc. induction suf as [|x suf IH]; intros pre acc Hl Ha; [cbn; by rewrite app_nil_r|].
  pose proof (Hf pre x suf acc Hl Ha) as Hx. cbn [mapM for_each]. destruct (spec x) as [e|] eqn:Ex; cbn in Hx |- *.
  - rewrite (bind_Ok _ _ _ _ _ Hx). specialize (IH (pre ++ [x]) (acc ++ [e])). rewrite <-app_assoc in IH.
    specialize (IH Hl ltac:(apply Forall2_app; [exact Ha|by repeat constructor])).
    destruct (mapM spec suf) as [es|]; cbn in IH |- *; [by rewrite <-app_assoc in IH|exact IH].
  - destruct Hx as (e & b' & Hx). exists e, b'. by rewrite (bind_Raise _ _ _ _ _ Hx).
Qed.

Lemma one_dnn l a ip es x ds name b :
  based b → rjust0 6 (area_sliceId x) ∉ ids_of (slices_of l ++ es) →
  gives (add_slice_dnn (nssai_of x) name (at_values (values mc mn (upto l a ip (es ++ [(x, ds)]))) b))
    ((λ d, values mc mn (upto l a ip (es ++ [(x, ds ++ [d])]))) <$> net_entry_of c name) b.
Proof.
  intros [Hb _] Hi. unfold add_slice_dnn, net_entry_of. set (b0 := at_values _ b).
  assert (Hb0 : with_config c b0) by exact Hb. pose proof (get_dnn_run name b0 Hb0) as Hd. destruct (find _ _) as [d|] eqn:Ef; cbn [gives fmap option_fmap].
  2: { exists ValueError, b0. by rewrite (bind_Raise _ _ _ _ _ Hd). }
  apply find_some in Ef as [_ ->%String.eqb_eq]. rewrite (bind_Ok _ _ _ _ _ Hd), bind_liftR, getitem_0. cbn [mbind option_bind].
  destruct (pools d) as [|pool ps] eqn:Ep; cbn [head mbind option_bind gives]; [by eexists _, _|].
  destruct (qos_of d) as [q|e] eqn:Eq.
  - destruct (add_local_more mc mn l a ip es x ds (d, pool, q) Eq) as [r1 H1]. destruct (add_dnn_more mc mn l a ip es x ds (d, pool, q)) as [r2 H2].
    destruct (add_info_more mc mn l a ip es x ds (d, pool, q) Hi) as [r3 H3]. cbn [fst snd] in *.
    rewrite (bind_Ok _ _ _ _ _ (on_list_at local_subscription_infos set_locals _ _ b _ _ H1)), bind_liftR.
    rewrite (bind_Ok _ _ _ _ _ (on_list_at dnns set_dnns _ (set_locals _ _) b _ _ H2)).
    rewrite (bind_Ok _ _ _ _ _ (on_list_at sNssaiSmfInfoList set_infos _ (set_dnns _ (set_locals _ _)) b _ _ H3)). cbn [gives fmap option_fmap option_map].
    by rewrite (values_dnn mc mn l a ip es x ds (d, pool, q)).
  - assert (H1 : add_local_subscription_info (nssai_of x) d (local_subscription_infos (values mc mn (upto l a ip (es ++ [(x, ds)])))) =
                 (Raise e, local_subscription_infos (values mc mn (upto l a ip (es ++ [(x, ds)]))))).
    { unfold add_local_subscription_info. by rewrite bind_liftR, Eq. }
    destruct (on_list_raise local_subscription_infos set_locals _ _ b _ _ H1) as [b' H]. exists e, b'. by rewrite (bind_Raise _ _ _ _ _ H).
Qed.
Lemma one_slice l a ip es x b :
  based b → lists_present c → area_id a ∉ (λ e : area_entry, area_id e.1.1) <$> l → rjust0 6 (area_sliceId x) ∉ ids_of (slices_of l ++ es) →
  gives (add_area_slice a x (at_values (values mc mn (upto l a ip es)) b))
    ((λ e, values mc mn (upto l a ip (es ++ [e]))) <$> slice_entry_of c x) b.
Proof.
  intros Hb [[profiles Hp] _] Ha Hi. unfold add_area_slice.
  pose proof (add_snssai_more mc mn l a ip es x Hi) as H1. destruct (add_plmn_more mc mn l a ip es x Ha Hi) as [r2 H2].
  rewrite (bind_Ok _ _ _ _ _ (on_list_at snssais set_snssais _ _ b _ _ H1)), (bind_Ok _ _ _ _ _ (get_own_run _)).
  destruct Hb as (Hb & Hc & Hn). cbn [own ext at_values set_own set_values Oai.mcc Oai.mnc set_ext]. rewrite Hc, Hn. cbn [field].
  rewrite !(bind_Ok (mret _) _ _ _ _ eq_refl).
  rewrite (bind_Ok _ _ _ _ _ (on_list_at plmn_support_list set_plmns _ (set_snssais _ _) b _ _ H2)), (values_slice mc mn l a ip es x).
  assert (Hg : ∀ b', with_config c b' → oai_get_slice (area_sliceId x) b' =
    match find (λ s, String.eqb (sliceId s) (area_sliceId x)) profiles with Some s => (Ok s, b') | None => (Raise ValueError, b') end).
  { intros b' Hb'. unfold oai_get_slice. rewrite (bind_Ok _ _ _ _ _ (get_config_run c b' Hb')), Hp, bind_liftR. cbn [py_iter]. by destruct (find _ _). }
  specialize (Hg (at_values (values mc mn (upto l a ip (es ++ [(x, [])]))) b) Hb). unfold slice_entry_of. rewrite Hp. cbn [default].
  destruct (find _ _) as [p|]; cbn [mbind option_bind].
  - rewrite (bind_Ok _ _ _ _ _ Hg).
    pose proof (gives_loop (add_slice_dnn (nssai_of x)) (net_entry_of c) (λ ds, values mc mn (upto l a ip (es ++ [(x, ds)]))) b (dnnList p)) as H.
    cbv beta in H. destruct (mapM (net_entry_of c) (dnnList p)); apply H; intros pre name suf acc _ _; by apply one_dnn.
  - eexists _, _. by rewrite (bind_Raise _ _ _ _ _ Hg).
Qed.
Lemma entry_slice x e : slice_entry_of c x = Some e → e.1 = x.
Proof. unfold slice_entry_of. destruct (find _ _); cbn; [|done]. destruct (mapM _ _); cbn; [|done]. by intros [= <-]. Qed.
Lemma entry_slices xs es : Forall2 (λ x e, slice_entry_of c x = Some e) xs es → ids_of es = (λ x, rjust0 6 (area_sliceId x)) <$> xs.
Proof. induction 1 as [|x e xs es He _ IH]; [done|]. unfold ids_of in *. rewrite !fmap_cons, IH. by rewrite (entry_slice x e He). Qed.

Lemma raises_bind {A} (m : M (Blue5G X) A) (f : A → M (Blue5G X) unit) b0 b : (∃ e, m b0 = (Raise e, b0)) → gives ((m ≫= f) b0) None b.
Proof. intros [e H]. exists e, b0. by apply bind_Raise. Qed.
Lemma deployed_upf_run i b0 :
  match (e ← od_get (area_key i) (edge_areas (st b0)); u ← edge_upf e; head (upf_list u)) with
  | Some d => deployed_upf i b0 = (Ok d, b0)
  | None => ∃ e, deployed_upf i b0 = (Raise e, b0)
  end.
Proof.
  unfold deployed_upf. assert (Hg : get_edge (area_key i) b0 = (od_getitem (area_key i) (edge_areas (st b0)), b0)) by done.
  unfold od_getitem in Hg. destruct (od_get _ _) as [e|]; cbn [mbind option_bind]; [|eexists; by apply bind_Raise].
  rewrite (bind_Ok _ _ _ _ _ Hg). destruct (edge_upf e) as [u|]; cbn [mbind option_bind attr]; [|eexists; by apply bind_Raise].
  rewrite (bind_Ok (mret u) _ b0 b0 u), getitem_0 by done. destruct (upf_list u); cbn; [by eexists|done].
Qed.
Lemma fresh_id (l : list slice_entry) pre x suf acc :
  Forall2 (λ x e, slice_entry_of c x = Some e) pre acc →
  NoDup (ids_of l ++ ((λ x, rjust0 6 (area_sliceId x)) <$> pre ++ x :: suf)) → rjust0 6 (area_sliceId x) ∉ ids_of (l ++ acc).
Proof.
  intros Hacc Hn. unfold ids_of in *. rewrite fmap_app. fold (ids_of acc). rewrite (entry_slices pre acc Hacc). rewrite fmap_app, app_assoc, fmap_cons in Hn.
  apply NoDup_app in Hn as (_ & Hn & _). intros Hin. by apply (Hn _ Hin); left.
Qed.
Lemma one_area l a xs b :
  based b → lists_present c → slices a = Some xs →
  area_id a ∉ (λ e : area_entry, area_id e.1.1) <$> l → NoDup (ids_of (slices_of l) ++ ((λ x, rjust0 6 (area_sliceId x)) <$> xs)) →
  gives (add_oai_area a (at_values (values mc mn l) b)) ((λ e, values mc mn (l ++ [e])) <$> area_entry_of c (st b) a) b.
Proof.
  intros Hb Hl Hxs Ha Hn. unfold add_oai_area, area_entry_of, upf_n4. set (b0 := at_values (values mc mn l) b).
  pose proof (deployed_upf_run (area_id a) b0) as Hd. change (st b0) with (st b) in Hd.
  destruct (od_get _ _) as [e|]; cbn [mbind option_bind] in Hd |- *; [|by apply raises_bind].
  destruct (edge_upf e) as [u|]; cbn [mbind option_bind] in Hd |- *; [|by apply raises_bind].
  destruct (head (upf_list u)) as [d|]; cbn [mbind option_bind] in Hd |- *; [|by apply raises_bind].
  rewrite (bind_Ok _ _ _ _ _ Hd). destruct (network_info d) as [info|]; cbn [attr mbind option_bind]; [|by eexists _, _].
  rewrite (bind_Ok (mret info) _ b0 b0 info) by done.
  destruct (add_alias_more mc mn l a (exploded (upf_n4_ip info)) Ha) as [r1 H1]. destruct (add_upf_more mc mn l a (exploded (upf_n4_ip info)) Ha) as [r2 H2].
  rewrite (bind_Ok _ _ _ _ _ (on_list_at hostAliases set_aliases _ _ b _ _ H1)).
  rewrite (bind_Ok _ _ _ _ _ (on_list_at upfs set_upfs _ (set_aliases _ _) b _ _ H2)), (values_area mc mn l a), Hxs, bind_liftR. cbn [py_iter from_option id].
  pose proof (gives_loop (add_area_slice a) (slice_entry_of c) (λ es, values mc mn (upto l a (exploded (upf_n4_ip info)) es)) b xs) as H. cbv beta in H.
  destruct (mapM (slice_entry_of c) xs); cbn [mbind option_bind]; apply H; intros pre x suf acc -> Hacc;
    apply one_slice; try done; by apply (fresh_id _ pre x suf).
Qed.

(** The identifiers of the slices a configuration offers, as the values have them. *)
Definition ids_of_area (a : SubArea) : list string := (λ x, rjust0 6 (area_sliceId x)) <$> default [] (slices a).
Definition offered : list string := concat (ids_of_area <$> areas c).
Lemma entry_area s a e : area_entry_of c s a = Some e → e.1.1 = a ∧ ids_of e.2 = ids_of_area a.
Proof.
  unfold area_entry_of. destruct (upf_n4 s (area_id a)) as [ip|]; cbn; [|done]. destruct (mapM _ _) as [l|] eqn:El; cbn; [|done]. intros [= <-].
  split; [done|]. apply entry_slices. by apply mapM_Some.
Qed.
Lemma entry_areas s pre acc :
  Forall2 (λ a e, area_entry_of c s a = Some e) pre acc →
  (λ e : area_entry, area_id e.1.1) <$> acc = area_id <$> pre ∧ ids_of (slices_of acc) = concat (ids_of_area <$> pre).
Proof.
  induction 1 as [|a e pre acc He _ [IH1 IH2]]; [done|]. destruct (entry_area s a e He) as [E1 E2]. rewrite !fmap_cons, IH1, E1. split; [done|].
  change (slices_of (e :: acc)) with (e.2 ++ slices_of acc). unfold ids_of in *. by rewrite fmap_app, E2, IH2.
Qed.

(** C24: the values of the chart are those the configuration asks for.  For a core that has its values and its PLMN, and a
    configuration whose optional lists are there, whose areas have their own identifiers and which offers no slice twice, the
    update of the values replaces the lists with those of the specification, computed from the configuration, the PLMN and the
    addresses of the deployed UPFs; when something the configuration names is missing, a data network, a profile, a pool,
    a quality or a UPF, it raises. *)
Theorem values_follow_the_configuration v b :
  based b → oai_config_values (own (ext b)) = Some v → lists_present c → NoDup (area_id <$> areas c) → NoDup offered →
  match oai_values_of c (st b) mc mn with
  | Some v' => update_core_values b = (Ok tt, at_values v' b)
  | None => ∃ e b', update_core_values b = (Raise e, b')
  end.
Proof.
  intros Hb Hv Hl Ha Ho. unfold update_core_values.
  rewrite (bind_Ok _ _ _ _ _ (on_list_run served_guami_list set_guami (putS []) v b Hv)). cbn [fst snd putS].
  rewrite (bind_Ok _ _ _ _ _ (get_own_run _)). destruct Hb as (Hb & Hc & Hn).
  cbn [own ext set_own set_values Oai.mcc Oai.mnc set_ext]. rewrite Hc, Hn. cbn [field]. rewrite !(bind_Ok (mret _) _ _ _ _ eq_refl).
  assert (H1 : add_served_guami_list_item mc mn [] = (Ok _, served_guami_list (values mc mn []))) by reflexivity.
  rewrite (bind_Ok _ _ _ _ _ (on_list_at served_guami_list set_guami _ (set_guami [] v) b _ _ H1)).
  rewrite (bind_Ok _ _ _ _ _ (on_list_at (λ v, v) (λ v _, v) (modifyS clear_lists) (set_guami _ (set_guami [] v)) b tt (values mc mn []) eq_refl)).
  rewrite (bind_Ok _ _ _ _ _ (get_config_run c (at_values (values mc mn []) b) Hb)). unfold oai_values_of.
  apply (gives_loop add_oai_area (area_entry_of c (st b)) (values mc mn) b (areas c)). intros pre a suf acc E Hacc.
  destruct (entry_areas _ pre acc Hacc) as [E1 E2]. destruct Hl as [Hp Hs]. rewrite Forall_forall in Hs.
  destruct (Hs a ltac:(rewrite E; set_solver)) as [xs Hxs].
  apply (one_area acc a xs); [done|by split; [|apply Forall_forall]|done|..].
  - rewrite E1. rewrite E, fmap_app, fmap_cons in Ha. apply NoDup_app in Ha as (_ & Ha & _). intros Hin. by apply (Ha _ Hin); left.
  - rewrite E2. unfold offered in Ho. rewrite E, fmap_app, concat_app, fmap_cons in Ho. cbn [concat] in Ho. unfold ids_of_area at 2 in Ho. rewrite Hxs, app_assoc in Ho.
    by apply NoDup_app in Ho as (Ho & _ & _).
Qed.
End loops.

(** ** A concrete core *)
Module ConcreteValues.
Import ConcreteOai.
#[local] Existing Instances SdCoreProps.ConcreteSdCore.lab_surroundings lab_core.
Lemma lab_based : based lab_config "001" "01" lab_created.
Proof. unfold based. split; [|split]; vm_compute; reflexivity. Qed.
Lemma lab_nodup : NoDup (area_id <$> areas lab_config) ∧ NoDup (offered lab_config).
Proof. split; vm_compute; repeat constructor; set_solver. Qed.
Lemma values_follow_the_configuration_witness :
  ∃ v, oai_values_of lab_config (st lab_created) "001" "01" = Some v ∧ update_core_values lab_created = (Ok tt, at_values v lab_created) ∧
       snssais v = [{| sst := 1; sd := Some "000001" |}].
Proof.
  destruct (oai_values_of lab_config (st lab_created) "001" "01") as [v|] eqn:E; [|exfalso; revert E; vm_compute; discriminate].
  exists v. split; [done|]. split.
  - pose proof (values_follow_the_configuration lab_config "001" "01" v lab_created) as H. rewrite E in H.
    apply H; [apply lab_based| |apply lab_lists|apply lab_nodup..].
    rewrite <-E. vm_compute. reflexivity.
  - revert E. vm_compute. by intros [= <-].
Defined.
(** A slice that two areas offer: the second one is refused. *)
Definition two_areas : Create5gModel :=
  set_areas (areas lab_config ++ [let a := SdCoreProps.ConcreteSdCore.lab_core_area in
    {| area_id := 2; nci := nci a; idLength := idLength a; core := false; upf := upf a; networks := networks a; slices := slices a |}]) lab_config.
Definition two_deployed : Blue5G (K8sCore OAIBlueprintNGState (option pyval)) :=
  set_st (set_edge_areas ((λ e, ("2", e.2)) <$> edge_areas (st lab_created)) (set_current_config (Some two_areas) (st lab_created))) lab_created.
Example slice_offered_twice :
  (update_core_values (set_st (set_edge_areas (edge_areas (st lab_created) ++ edge_areas (st two_deployed)) (st two_deployed)) two_deployed)).1 = Raise ValueError.
Proof. vm_compute. reflexivity. Qed.
End ConcreteValues.
