(* ===== verification/HelmPlugins.v ===== *)
(** * Plugins of a Kubernetes cluster

    utils/k8s/helm_plugin_manager.py with models/k8s/plugin_k8s_model.py: the plugins found on a
    cluster, and the installation of more of them.  Helm, the Kubernetes API, the template engine and
    the YAML reader are an interface. *)

From Stdlib Require Import Ascii.
From stdpp Require Import base list strings gmap.
From Stdlib Require Import ZArith Lia.
From S2P Require Import Prelude Resources.

Open Scope Z_scope.

Inductive K8sPluginName := FLANNEL | OPEN_EBS | METALLB | CALICO | METRIC_SERVER | MULTUS | ISTIO | CADVISOR.
#[export] Instance K8sPluginName_eq_dec : EqDecision K8sPluginName.
Proof. solve_decision. Defined.
Definition plugin_value (p : K8sPluginName) : string :=
  match p with
  | FLANNEL => "flannel" | OPEN_EBS => "openebs" | METALLB => "metallb" | CALICO => "calico"
  | METRIC_SERVER => "metric-server" | MULTUS => "multus-cni" | ISTIO => "istio" | CADVISOR => "cadvisor"
  end.
Definition plugin_eqb (a b : K8sPluginName) : bool := bool_decide (a = b).

Record K8sLoadBalancerPoolArea := { pool_name : string; ip_list : list string; host_names : option (list string) }.
Record K8sPluginAdditionalData := {
  data_areas : option (list K8sLoadBalancerPoolArea);
  data_pod_network_cidr : option string;
  data_cadvisor_node_port : option Z
}.

(** The pattern of a pool name: words of lower case letters and digits, joined by hyphens. *)
Definition is_pool_char (c : ascii) : bool :=
  let n := nat_of_ascii c in ((97 <=? n)%nat && (n <=? 122)%nat) || ((48 <=? n)%nat && (n <=? 57)%nat).
Definition valid_pool_name (s : string) : bool :=
  forallb (λ w, negb (String.eqb w EmptyString) && all_chars is_pool_char w) (py_split "-"%char s).

(** The Kubernetes API and helm, for the cluster of a credential file.  [get_daemon_sets] gives the
    labels of each daemon set, [read_storage_class] the annotations. *)
Class ClusterApi (X : Type) := {
  chart_object : Type;
  load_kube_config : string → M X unit;
  read_config_map : string → string → string → M X (list (string * string));
  patch_config_map : string → string → string → list (string * string) → M X unit;
  get_daemon_sets : string → M X (list (option (list (string * string))));
  get_chart : string → string + string → option string → option string → M X chart_object;
  install_or_upgrade_release : string → string → chart_object → dict → string → M X unit;
  read_namespaced_storage_class : string → string → M X (option (list (string * string)));
  patch_namespaced_storage_class : string → string → list (string * string) → M X unit;
  render_file_from_template : string → dict → string → M X string;
  create_from_yaml : string → string → M X unit;
  safe_load : string → result pyval;
  safe_load_path : string → result pyval
}.

Section plugins.
Context {X : Type} `{!ClusterApi X}.
#[local] Abbreviation MX := (M X).

(** [v["a"]["b"]] on values. *)
Definition value_getitem (k : string) (v : pyval) : result pyval :=
  match v with VDict d => dict_getitem d k | _ => Raise TypeError end.

Definition get_k8s_cidr_info (k8s_config : string) : MX pyval :=
  data ← read_config_map k8s_config "kube-system" "kubeadm-config";
  cluster_conf_str ← liftR (od_getitem "ClusterConfiguration" data);
  liftR (conf ← safe_load cluster_conf_str; networking ← value_getitem "networking" conf;
         value_getitem "podSubnet" networking).

Definition PLUGIN_PATH (file : string) : string := "helm_charts/k8s_plugins/" +:+ file.

(** The resource of a plugin; its area is not used. *)
Definition plugin_chart (name : K8sPluginName) (chart_name version namespace : string) : HelmChartResource :=
  {| helm_id := None; helm_area := -100; helm_name := plugin_value name; chart := chart_name; chart_as_path := true;
     repo := None; Resources.version := Some version; Resources.namespace := namespace; helm_created := false;
     services := None; deployments := None; statefulsets := None |}.

Variable k8s_credential_file : string.
Variable context_name : string.

Definition install_plugin (name : K8sPluginName) (chart_name version namespace : string) (values : dict) : MX unit :=
  let helm_chart_res := plugin_chart name chart_name version namespace in
  chart ← get_chart k8s_credential_file (get_chart_converted helm_chart_res) (repo helm_chart_res)
            (Resources.version helm_chart_res);
  install_or_upgrade_release k8s_credential_file (lower (helm_name helm_chart_res)) chart values
    (lower (Resources.namespace helm_chart_res)).

(** The definitions are applied once more when they could not be created. *)
Definition apply_yaml_file_to_cluster (yaml_file_path : string) : MX unit :=
  catch (create_from_yaml k8s_credential_file yaml_file_path)
        (λ e, match e with
              | FailToCreateError => Some (create_from_yaml k8s_credential_file yaml_file_path)
              | _ => None
              end).

Definition default_cidr (o : option string) : string :=
  match o with Some s => if str_true (Some s) then s else "10.254.0.0/16" | None => "10.254.0.0/16" end.

Definition _install_openebs : MX unit :=
  install_plugin OPEN_EBS (PLUGIN_PATH "openebs-4.1.1.tgz") "4.1.1" "openebs"
    [("engines", VDict [("replicated", VDict [("mayastor", VDict [("enabled", VBool false)])])])] ;;
  annotations ← read_namespaced_storage_class k8s_credential_file "openebs-hostpath";
  annotations ← liftR (match annotations with Some a => Ok a | None => Raise TypeError end);
  patch_namespaced_storage_class k8s_credential_file "openebs-hostpath"
    (od_set "storageclass.kubernetes.io/is-default-class" "true" annotations).

Definition _install_flannel (plugin_data : K8sPluginAdditionalData) : MX unit :=
  install_plugin FLANNEL (PLUGIN_PATH "flannel-0.26.0.tgz") "0.26.0" "flannel"
    [("podCidr", VStr (default_cidr (data_pod_network_cidr plugin_data)))].

Definition text_or_none (o : option string) : pyval := match o with Some s => VStr s | None => VNone end.
Definition pool_value (a : K8sLoadBalancerPoolArea) : pyval :=
  VDict [("pool_name", VStr (pool_name a)); ("ip_list", VList (VStr <$> ip_list a));
         ("host_names", match host_names a with Some l => VList (VStr <$> l) | None => VNone end)].
Definition dump_plugin_data (d : K8sPluginAdditionalData) : dict :=
  [("areas", match data_areas d with Some l => VList (pool_value <$> l) | None => VNone end);
   ("pod_network_cidr", text_or_none (data_pod_network_cidr d));
   ("cadvisor_node_port", match data_cadvisor_node_port d with Some p => VInt p | None => VNone end)].

Definition _install_metallb (plugin_data : K8sPluginAdditionalData) : MX unit :=
  install_plugin METALLB (PLUGIN_PATH "metallb-0.14.8.tgz") "0.26.0" "metallb" [] ;;
  rendered_file ← render_file_from_template "src/nfvcl/config_templates/k8s/metallb/metallb-config.j2"
                    (dump_plugin_data plugin_data) context_name;
  apply_yaml_file_to_cluster rendered_file.

(** [values["installation"]["calicoNetwork"]["ipPools"][0]["cidr"] = cidr]. *)
Definition set_calico_cidr (cidr : string) (values : pyval) : result dict :=
  match values with
  | VDict top =>
      installation ← dict_getitem top "installation";
      network ← value_getitem "calicoNetwork" installation;
      pools ← value_getitem "ipPools" network;
      match pools with
      | VList (VDict pool :: rest) =>
          let pool := VDict (od_set "cidr" (VStr cidr) pool) in
          let put k v d := match d with VDict d => VDict (od_set k v d) | _ => d end in
          Ok (od_set "installation" (put "calicoNetwork" (put "ipPools" (VList (pool :: rest)) network) installation) top)
      | VList [] => Raise IndexError
      | _ => Raise TypeError
      end
  | _ => Raise TypeError
  end.

(** The values of the chart are read by giving the path of the file to the YAML reader. *)
Definition _install_calico (plugin_data : K8sPluginAdditionalData) : MX unit :=
  calico_values ← liftR (safe_load_path (PLUGIN_PATH "values/calico.yaml"));
  values ← liftR (set_calico_cidr (default_cidr (data_pod_network_cidr plugin_data)) calico_values);
  install_plugin CALICO (PLUGIN_PATH "tigera-operator-v3.29.0.tgz") "3.29.0" "calico" values.

(** What the labels of one daemon set add to the plugins found. *)
Definition plugins_of_labels (labels : list (string * string)) (plugin_list : list K8sPluginName) : list K8sPluginName :=
  let plugin_list :=
    match od_get "app" labels with
    | Some app => if String.eqb app "flannel" then plugin_list ++ [FLANNEL]
                  else if String.eqb app "metallb" then plugin_list ++ [METALLB] else plugin_list
    | None => plugin_list
    end in
  let plugin_list :=
    if od_in "openebs.io/component-name" labels
    then if py_in plugin_eqb OPEN_EBS plugin_list then plugin_list else plugin_list ++ [OPEN_EBS]
    else plugin_list in
  match od_get "k8s-app" labels with
  | Some app => if String.eqb app "calico-node" then plugin_list ++ [CALICO] else plugin_list
  | None => plugin_list
  end.
Fixpoint installed_from (daemon_sets : list (option (list (string * string)))) (plugin_list : list K8sPluginName) :
  result (list K8sPluginName) :=
  match daemon_sets with
  | [] => Ok plugin_list
  | Some labels :: ds => installed_from ds (plugins_of_labels labels plugin_list)
  | None :: _ => Raise TypeError
  end.
Definition get_installed_plugins : MX (list K8sPluginName) :=
  daemon_sets ← get_daemon_sets k8s_credential_file; liftR (installed_from daemon_sets []).

(** [l.remove(x)] where [x] is known to be there. *)
Definition drop_first_plugin (x : K8sPluginName) (l : list K8sPluginName) : list K8sPluginName :=
  match py_remove plugin_eqb x l with Ok l' => l' | Raise _ => l end.
Definition skip_installed (installed plugin_names : list K8sPluginName) : list K8sPluginName :=
  foldl (λ l p, if py_in plugin_eqb p l then drop_first_plugin p l else l) plugin_names installed.

Definition install_plugins (plugin_names : list K8sPluginName) (plugin_data : K8sPluginAdditionalData) : MX unit :=
  installed_plugins ← get_installed_plugins;
  let union := installed_plugins ++ plugin_names in
  if py_in plugin_eqb CALICO union && py_in plugin_eqb FLANNEL union then raise PlainException
  else
    let names := skip_installed installed_plugins plugin_names in
    names ← (if py_in plugin_eqb FLANNEL names
             then _install_flannel plugin_data ;; mret (drop_first_plugin FLANNEL names) else mret names);
    names ← (if py_in plugin_eqb CALICO names
             then _install_calico plugin_data ;; mret (drop_first_plugin CALICO names) else mret names);
    for_each names (λ plugin_name,
      match plugin_name with
      | OPEN_EBS => _install_openebs
      | METALLB => _install_metallb plugin_data
      | _ => mret tt
      end).
End plugins.

(** ** What is installed, and in which order *)

(** The installation of one plugin; of the others the code installs none. *)
Definition install_one {X : Type} `{!ClusterApi X} (k8s_credential_file context_name : string)
    (plugin_data : K8sPluginAdditionalData) (p : K8sPluginName) : M X unit :=
  match p with
  | FLANNEL => _install_flannel k8s_credential_file plugin_data
  | CALICO => _install_calico k8s_credential_file plugin_data
  | OPEN_EBS => _install_openebs k8s_credential_file
  | METALLB => _install_metallb k8s_credential_file context_name plugin_data
  | _ => mret tt
  end.
Definition network_plugin (p : K8sPluginName) : Prop := p = FLANNEL ∨ p = CALICO.
#[export] Instance network_plugin_dec p : Decision (network_plugin p).
Proof. unfold network_plugin. apply _. Defined.
(** The other plugins the manager installs; metric-server, multus, istio and cadvisor are accepted and ignored. *)
Definition service_plugin (p : K8sPluginName) : Prop := p = OPEN_EBS ∨ p = METALLB.
#[export] Instance service_plugin_dec p : Decision (service_plugin p).
Proof. unfold service_plugin. apply _. Defined.
(** The plugins asked for that are not installed and that the manager knows, those of the network first. *)
Definition installation_plan (installed plugin_names : list K8sPluginName) : list K8sPluginName :=
  let missing := filter (λ p, p ∉ installed) plugin_names in
  filter network_plugin missing ++ filter service_plugin missing.
Definition conflicting (l : list K8sPluginName) : Prop := CALICO ∈ l ∧ FLANNEL ∈ l.

Lemma py_in_plugin p l : py_in plugin_eqb p l = true ↔ p ∈ l.
Proof.
  rewrite py_in_spec. split; [intros (q & Hq & He); by apply bool_decide_eq_true in He as ->|].
  intros H. exists p. split; [done|]. by apply bool_decide_eq_true.
Qed.
Lemma drop_first_filter p l : NoDup l → drop_first_plugin p l = filter (λ q, q ≠ p) l.
Proof.
  intros Hnd. unfold drop_first_plugin. destruct (py_remove plugin_eqb p l) as [l'|e] eqn:E.
  - apply py_remove_inv in E as (i & q & Hq & He & ->). apply bool_decide_eq_true in He as ->. by apply delete_filter.
  - symmetry. apply filter_absent. intros Hp. unfold py_remove in E. destruct (find_index _ l) eqn:Ef; [done|].
    pose proof (proj1 (find_index_None _ _) Ef p Hp) as Hf. unfold plugin_eqb in Hf. by rewrite bool_decide_eq_true_2 in Hf.
Qed.
Lemma skip_installed_filter installed l : NoDup l → skip_installed installed l = filter (λ p, p ∉ installed) l.
Proof.
  revert l. induction installed as [|q installed IH]; intros l Hnd.
  { cbn. symmetry. induction Hnd as [|p l Hp Hnd IH]; [done|]. rewrite filter_cons, decide_True by apply not_elem_of_nil. by rewrite IH. }
  cbn [skip_installed foldl]. fold (skip_installed installed).
  assert (Hd : (if py_in plugin_eqb q l then drop_first_plugin q l else l) = filter (λ p, p ≠ q) l).
  { destruct (py_in plugin_eqb q l) eqn:E; [by apply drop_first_filter|]. symmetry. apply filter_absent.
    intros Hq%py_in_plugin. congruence. }
  unfold skip_installed in IH |- *. cbn [foldl]. rewrite Hd, IH by (by apply NoDup_filter).
  rewrite list_filter_filter. apply filter_in_iff. intros p _. rewrite not_elem_of_cons. tauto.
Qed.

Section plan.
Context {X : Type} `{!ClusterApi X}.
Variables (k8s_credential_file context_name : string) (plugin_data : K8sPluginAdditionalData).
#[local] Abbreviation one := (install_one k8s_credential_file context_name plugin_data).
Implicit Types (p q : K8sPluginName) (l : list K8sPluginName).

Lemma filter_one p l : NoDup l → p ∈ l → filter (λ q, q = p) l = [p].
Proof.
  induction 1 as [|q l Hq Hnd IH]; [by intros ?%not_elem_of_nil|]. rewrite filter_cons. intros [->|Hp]%elem_of_cons.
  - rewrite decide_True by done. f_equal. clear -Hq. induction l as [|r l IH]; [done|].
    apply not_elem_of_cons in Hq as [Hr Hq]. rewrite filter_cons, decide_False by congruence. by apply IH.
  - rewrite decide_False by (by intros ->). by apply IH.
Qed.
(** Of a list with one network plugin at most, that plugin and the rest. *)
Lemma split_network p l : NoDup l → p ∈ l → network_plugin p → (∀ q, q ∈ l → network_plugin q → q = p) →
  filter network_plugin l = [p] ∧ filter (λ q, q ≠ p) l = filter (λ q, ¬ network_plugin q) l.
Proof.
  intros Hnd Hp Hn Hu. split.
  - rewrite <-(filter_one p l Hnd Hp). apply filter_in_iff. intros q Hq. split; [by apply Hu|by intros ->].
  - apply filter_in_iff. intros q Hq. split; [|by intros Hq' ->]. intros Hne Hq'. by apply Hne, Hu.
Qed.
Lemma no_network l : (∀ q, q ∈ l → ¬ network_plugin q) → filter network_plugin l = [] ∧ filter (λ q, ¬ network_plugin q) l = l.
Proof.
  intros H. induction l as [|p l IH]; [done|]. assert (Hp : ¬ network_plugin p) by (apply H; by left).
  rewrite !filter_cons, decide_False, decide_True by done. destruct IH as [-> ->]; [|done]. intros q Hq. apply H. by right.
Qed.
Definition other_plugin p : M X unit :=
  match p with
  | OPEN_EBS => _install_openebs k8s_credential_file
  | METALLB => _install_metallb k8s_credential_file context_name plugin_data
  | _ => mret tt
  end.
Lemma others_alike l : (∀ q, q ∈ l → ¬ network_plugin q) → ∀ x, for_each l other_plugin x = for_each l one x.
Proof.
  intros H. induction l as [|p l IH]; intros x; [done|]. cbn [for_each].
  assert (E : other_plugin p = one p).
  { assert (Hp : ¬ network_plugin p) by (apply H; by left). destruct p; try done; destruct Hp; solve [by left|by right]. }
  rewrite E. unfold mbind, M_bind. destruct (one p x) as [[[]|e] y]; [|done]. apply IH. intros q Hq. apply H. by right.
Qed.
Lemma ignored_plugins l x : for_each (filter (λ p, ¬ network_plugin p) l) one x = for_each (filter service_plugin l) one x.
Proof.
  revert x. induction l as [|p l IH]; intros x; [done|]. rewrite !filter_cons.
  assert (Hp : service_plugin p → ¬ network_plugin p) by by intros [->| ->] [?|?].
  assert (Hq : ¬ service_plugin p → ¬ network_plugin p → one p = mret tt).
  { intros H1 H2. destruct p; try done; [destruct H2|destruct H1|destruct H1|destruct H2]; solve [by left|by right]. }
  destruct (decide (service_plugin p)) as [Hs|Hs], (decide (¬ network_plugin p)) as [Hn|Hn]; [|by destruct (Hn (Hp Hs))| |done].
  - cbn [for_each]. unfold mbind, M_bind. destruct (one p x) as [[[]|e] y]; [apply IH|done].
  - cbn [for_each]. unfold mbind, M_bind. rewrite (Hq Hs Hn). apply IH.
Qed.
(** The run once the missing plugins are known. *)
Lemma missing_installed l x : NoDup l → (CALICO ∈ l → FLANNEL ∈ l → False) →
  (names ← (if py_in plugin_eqb FLANNEL l
            then _install_flannel k8s_credential_file plugin_data ;; mret (drop_first_plugin FLANNEL l) else mret l);
   names ← (if py_in plugin_eqb CALICO names
            then _install_calico k8s_credential_file plugin_data ;; mret (drop_first_plugin CALICO names) else mret names);
   for_each names other_plugin) x =
  for_each (filter network_plugin l ++ filter (λ p, ¬ network_plugin p) l) one x.
Proof.
  intros Hnd Hno.
  assert (Hrest : ∀ q, q ∈ filter (λ p, ¬ network_plugin p) l → ¬ network_plugin q) by by intros q [? _]%list_elem_of_filter.
  destruct (py_in plugin_eqb FLANNEL l) eqn:Ef; [apply py_in_plugin in Ef|].
  - destruct (split_network FLANNEL l Hnd Ef (or_introl eq_refl)) as [-> E].
    { intros q Hq [->| ->]; [done|]. by destruct Hno. }
    rewrite drop_first_filter, E by done. cbn [app for_each install_one]. unfold mbind, M_bind, mret, M_ret.
    destruct (_install_flannel _ _ x) as [[[]|e] y]; [|done].
    destruct (py_in plugin_eqb CALICO _) eqn:Ec; [|by apply others_alike].
    apply py_in_plugin, list_elem_of_filter in Ec as [Hn _]. destruct Hn. by right.
  - assert (Hf : FLANNEL ∉ l) by (intros Hf%py_in_plugin; congruence). rewrite (bind_Ok (mret l) _ x x l) by done.
    destruct (py_in plugin_eqb CALICO l) eqn:Ec.
    + apply py_in_plugin in Ec. destruct (split_network CALICO l Hnd Ec (or_intror eq_refl)) as [-> E].
      { by intros q Hq [->| ->]. }
      rewrite drop_first_filter, E by done. cbn [app for_each install_one]. unfold mbind, M_bind, mret, M_ret.
      destruct (_install_calico _ _ x) as [[[]|e] y]; [|done]. by apply others_alike.
    + assert (Hc : CALICO ∉ l) by (intros Hc%py_in_plugin; congruence). rewrite (bind_Ok (mret l) _ x x l) by done.
      destruct (no_network l) as [-> E]; [by intros q Hq [->| ->]|]. rewrite E in Hrest |- *. by apply others_alike.
Qed.

Lemma same_plan l x : for_each (filter network_plugin l ++ filter (λ p, ¬ network_plugin p) l) one x =
  for_each (filter network_plugin l ++ filter service_plugin l) one x.
Proof.
  rewrite !for_each_app. unfold mbind, M_bind. destruct (for_each _ one x) as [[[]|e] y]; [|done]. apply ignored_plugins.
Qed.

(** C37: what an installation of plugins does, against a plan, for a request that names no plugin twice. A
    cluster that would have both Calico and Flannel, with what is installed and what is asked for, is refused
    before anything is installed. Otherwise, of the plugins asked for that are not found on the cluster, exactly
    Flannel or Calico and then OpenEBS and MetalLB are installed, each once, the network first and the others in
    the order of the request. Metric-server, multus, istio and cadvisor are accepted and not installed, against the
    documentation of the function. The run is the same as that of the plan, for every answer of the cluster,
    failures included. *)
Theorem plugins_follow_the_plan plugin_names x :
  NoDup plugin_names →
  install_plugins k8s_credential_file context_name plugin_names plugin_data x =
  (installed ← get_installed_plugins k8s_credential_file;
   if decide (conflicting (installed ++ plugin_names)) then raise PlainException
   else for_each (installation_plan installed plugin_names) one) x.
Proof.
  intros Hnd. unfold install_plugins. unfold mbind at 1, M_bind at 1. symmetry. unfold mbind at 1, M_bind at 1. symmetry.
  destruct (get_installed_plugins _ x) as [[installed|e] y]; [|done].
  rewrite skip_installed_filter by done. unfold installation_plan.
  destruct (decide _) as [[Hc%py_in_plugin Hf%py_in_plugin]|Hno]; [by rewrite Hc, Hf|].
  assert (Hb : py_in plugin_eqb CALICO (installed ++ plugin_names) && py_in plugin_eqb FLANNEL (installed ++ plugin_names) = false).
  { apply not_true_iff_false. intros [Hc%py_in_plugin Hf%py_in_plugin]%andb_true_iff. by apply Hno. }
  rewrite Hb. set (m := filter _ plugin_names). rewrite <-same_plan. assert (Hm : NoDup m) by by apply NoDup_filter.
  apply missing_installed; [done|].
  intros [_ H1]%list_elem_of_filter [_ H2]%list_elem_of_filter. apply Hno. split; apply elem_of_app; by right.
Qed.
End plan.

(** ** A concrete cluster

    The state is the list of the releases that have been installed; MetalLB is found on the cluster. *)
Module ConcretePlugins.
#[export] Instance lab_api : ClusterApi (list string) := {|
  chart_object := unit;
  load_kube_config c := mret tt;
  read_config_map c ns n := mret [];
  patch_config_map c ns n d := mret tt;
  get_daemon_sets c := mret [Some [("app", "metallb")]];
  get_chart c p r v := mret tt;
  install_or_upgrade_release c n o d s := modifyS (λ l, l ++ [n]);
  read_namespaced_storage_class c n := mret (Some []);
  patch_namespaced_storage_class c n a := mret tt;
  render_file_from_template t d c := mret "file";
  create_from_yaml c p := mret tt;
  safe_load s := Ok VNone;
  safe_load_path s := Raise AttributeError
|}.
Definition lab_data : K8sPluginAdditionalData :=
  {| data_areas := None; data_pod_network_cidr := None; data_cadvisor_node_port := None |}.
Definition lab_names : list K8sPluginName := [METALLB; OPEN_EBS; ISTIO; FLANNEL].

Lemma plugins_follow_the_plan_witness :
  install_plugins "credentials" "blue" lab_names lab_data [] = (Ok tt, ["flannel"; "openebs"]).
Proof.
  assert (Hnd : NoDup lab_names) by (unfold lab_names; repeat constructor; set_solver).
  rewrite (plugins_follow_the_plan "credentials" "blue" lab_data lab_names [] Hnd). vm_compute. reflexivity.
Defined.
End ConcretePlugins.
