(* ===== verification/VirtCommon.v ===== *)
(** * What the virtualization providers share

    blueprints_ng/providers/virtualization/common (waiting for a machine, running a playbook on it, the
    playbook that adds network cards) and blueprints_ng/cloudinit_builder.py.  SSH, Ansible, the clock and the
    YAML and JSON writers are an interface. *)

From Stdlib Require Import Ascii.
From stdpp Require Import base list strings gmap.
From Stdlib Require Import ZArith Lia.
From S2P Require Import Prelude Ansible Resources.

Open Scope Z_scope.

(** The function that writes the blueprint to the database. *)
Class Persistence (P : Type) := { save_to_db : string → M P unit }.
Definition double_quote : string := String (Ascii.ascii_of_nat 34) EmptyString.

(** ** Methods on a machine *)
(** What the provider changes of a machine. *)
Definition update_vm (img : VmResourceImage) (nets : list string) (up : bool) (access : option string)
    (ifs : list (string * list VmResourceNetworkInterface)) (v : VmResource) : VmResource :=
  {| vm_id := vm_id v; vm_area := vm_area v; vm_name := vm_name v; image := img; flavor := flavor v;
     username := username v; password := password v; become_password := become_password v;
     management_network := management_network v; additional_networks := nets;
     require_floating_ip := require_floating_ip v;
     require_port_security_disabled := require_port_security_disabled v; created := up;
     access_ip := access; network_interfaces := ifs; vm_state := vm_state v |}.
Definition set_image_name (n : string) (v : VmResource) : VmResource :=
  update_vm {| image_name := n; image_url := image_url (image v); check_sha512sum := check_sha512sum (image v) |}
    (additional_networks v) (created v) (access_ip v) (network_interfaces v) v.
Definition set_vm_networks (l : list string) (v : VmResource) : VmResource :=
  update_vm (image v) l (created v) (access_ip v) (network_interfaces v) v.
Definition set_vm_interfaces (l : list (string * list VmResourceNetworkInterface)) (v : VmResource) : VmResource :=
  update_vm (image v) (additional_networks v) (created v) (access_ip v) l v.
Definition set_access_ip (a : option string) (v : VmResource) : VmResource :=
  update_vm (image v) (additional_networks v) (created v) a (network_interfaces v) v.
Definition set_created (v : VmResource) : VmResource :=
  update_vm (image v) (additional_networks v) true (access_ip v) (network_interfaces v) v.

(** The machine keeps what identifies it. *)
Definition same_machine (v v' : VmResource) : Prop := vm_id v' = vm_id v ∧ vm_name v' = vm_name v ∧ vm_area v' = vm_area v.
Lemma same_machine_trans v1 v2 v3 : same_machine v1 v2 → same_machine v2 v3 → same_machine v1 v3.
Proof. unfold same_machine. intuition congruence. Qed.

(** The machine a method is given, the data of the provider, and the world. *)
Record Call (D P : Type) := { call_vm : VmResource; call_data : D; call_world : P }.
Arguments call_vm {_ _} _.
Arguments call_data {_ _} _.
Arguments call_world {_ _} _.
Section call.
Context {D P : Type}.
Definition the_vm : M (Call D P) VmResource := c ← getS; mret (call_vm c).
Definition the_data : M (Call D P) D := c ← getS; mret (call_data c).
Definition change_vm (f : VmResource → VmResource) : M (Call D P) unit :=
  modifyS (λ c, {| call_vm := f (call_vm c); call_data := call_data c; call_world := call_world c |}).
Definition change_data (f : D → D) : M (Call D P) unit :=
  modifyS (λ c, {| call_vm := call_vm c; call_data := f (call_data c); call_world := call_world c |}).
Definition world {A} (m : M P A) : M (Call D P) A :=
  zoom call_world (λ p c, {| call_vm := call_vm c; call_data := call_data c; call_world := p |}) m.
End call.

(** ** Cloud-init *)
Record CloudInit := {
  manage_etc_hosts : bool;
  chpasswd_list : list string;
  chpasswd_expire : bool;
  disable_root : bool;
  ssh_pwauth : bool;
  ssh_authorized_keys : option (list string);
  packages : option (list string);
  runcmd : option (list string)
}.
Definition new_CloudInit (keys pkgs cmds : option (list string)) : CloudInit :=
  {| manage_etc_hosts := true; chpasswd_list := []; chpasswd_expire := false; disable_root := false; ssh_pwauth := true;
     ssh_authorized_keys := keys; packages := pkgs; runcmd := cmds |}.
Definition set_chpasswd (l : list string) (c : CloudInit) : CloudInit :=
  {| manage_etc_hosts := manage_etc_hosts c; chpasswd_list := l; chpasswd_expire := chpasswd_expire c;
     disable_root := disable_root c; ssh_pwauth := ssh_pwauth c; ssh_authorized_keys := ssh_authorized_keys c;
     packages := packages c; runcmd := runcmd c |}.
Definition set_runcmd (l : list string) (c : CloudInit) : CloudInit :=
  {| manage_etc_hosts := manage_etc_hosts c; chpasswd_list := chpasswd_list c; chpasswd_expire := chpasswd_expire c;
     disable_root := disable_root c; ssh_pwauth := ssh_pwauth c; ssh_authorized_keys := ssh_authorized_keys c;
     packages := packages c; runcmd := Some l |}.

Definition root_commands : list string :=
  ["sed -i'.orig' -e's/PermitRootLogin .*/PermitRootLogin yes/' /etc/ssh/sshd_config";
   "sed -i'.orig' -e's/#PermitRootLogin .*/PermitRootLogin yes/' /etc/ssh/sshd_config";
   "service sshd restart"].
(** The commands of a machine without a list of commands cannot be added to. *)
Definition add_user (user pass : string) (c : CloudInit) : result CloudInit :=
  let c := set_chpasswd (chpasswd_list c ++ [user +:+ ":" +:+ pass]) c in
  if String.eqb user "root" then
    match runcmd c with Some l => Ok (set_runcmd (l ++ root_commands) c) | None => Raise AttributeError end
  else Ok c.

Definition opt_list (k : string) (o : option (list string)) : dict :=
  match o with Some l => [(k, VList (VStr <$> l))] | None => [] end.
Definition cloud_config (c : CloudInit) : dict :=
  [("manage_etc_hosts", VBool (manage_etc_hosts c));
   ("chpasswd", VDict [("list", VList (VStr <$> chpasswd_list c)); ("expire", VBool (chpasswd_expire c))]);
   ("disable_root", VBool (disable_root c)); ("ssh_pwauth", VBool (ssh_pwauth c))] ++
  opt_list "ssh_authorized_keys" (ssh_authorized_keys c) ++ opt_list "packages" (packages c) ++ opt_list "runcmd" (runcmd c).

(** The network part: an entry for each interface, in a dictionary. *)
Record InterfaceCloudInit := { ci_override : bool; ci_mac : string; ci_set_name : string }.
Definition CloudInitNetworkRoot : Type := list (string * InterfaceCloudInit).
Definition add_device (iface macaddress : string) (override : bool) (n : CloudInitNetworkRoot) : CloudInitNetworkRoot :=
  od_set iface {| ci_override := override; ci_mac := macaddress; ci_set_name := iface |} n.
Definition interface_value (i : InterfaceCloudInit) : pyval :=
  VDict ([("dhcp4", VBool true)] ++
         (if ci_override i then [("dhcp4-overrides", VDict [("use-routes", VBool false)])] else []) ++
         [("match", VDict [("macaddress", VStr (ci_mac i))]); ("set-name", VStr (ci_set_name i))]).
Definition network_config (n : CloudInitNetworkRoot) : dict :=
  [("network", VDict [("version", VInt 2); ("ethernets", VDict ((λ p, (p.1, interface_value p.2)) <$> n))])].

(** ** Network cards added to a machine *)
Record NetplanInterface := { nic_name : string; nic_mac : string }.

(** How a connection to a machine ends. *)
Inductive SshOutcome := SshConnected | SSHException | NoValidConnectionsError.

(** A playbook is run with the status and the facts it leaves; the clock is in milliseconds. *)
Class Machines (P : Type) := {
  now : P → Z;
  sleep : Z → M P unit;
  ssh_connect : option string → Z → string → string → M P SshOutcome;
  write_playbook : string → pyval → M P unit;
  ansible_run : option string → string → string → pyval → M P (string * list (string * pyval));
  yaml_text : dict → string;
  json_string : string → string
}.

Section common.
Context {P : Type} `{!Machines P}.

Definition cloud_config_text (c : CloudInit) : string := "#cloud-config" +:+ String newline (yaml_text (cloud_config c)).

Definition netplan_json (n : NetplanInterface) : string :=
  "{" +:+ json_string "dhcp4" +:+ ":" +:+ json_string "true" +:+ "," +:+
  json_string "dhcp4-overrides" +:+ ":{" +:+ json_string "use-routes" +:+ ":false}," +:+
  json_string "set-name" +:+ ":" +:+ json_string (nic_name n) +:+ "," +:+
  json_string "match" +:+ ":{" +:+ json_string "macaddress" +:+ ":" +:+ json_string (nic_mac n) +:+ "}}".
(** [VmAddNicNetplanConfigurator.dump_playbook]. *)
Definition add_nic_playbook (nics : list NetplanInterface) : AnsiblePlaybook :=
  add_shell_task "netplan apply" None
    (foldl (λ p nic, add_shell_task ("netplan set --origin-hint 50-cloud-init 'network.ethernets." +:+ nic_name nic +:+ "=" +:+
                                     netplan_json nic +:+ "'") None p)
           (new_builder "Add nic to netplan") nics).

(** ** Waiting for a machine

    Until the time is over, or a connection succeeds; after a failure the code sleeps.  [fuel] bounds the
    number of turns. *)
Fixpoint wait_loop (fuel : nat) (host : option string) (port : Z) (user passwd : string) (stop retry_interval : Z) : M P bool :=
  match fuel with
  | O => mret false
  | S fuel =>
      p ← getS;
      if now p <? stop then
        r ← ssh_connect host port user passwd;
        match r with
        | SshConnected => mret true
        | SSHException | NoValidConnectionsError =>
            sleep retry_interval ;; wait_loop fuel host port user passwd stop retry_interval
        end
      else mret false
  end.
Definition wait_turns (timeout retry_interval : Z) : nat := S (Z.to_nat (timeout / retry_interval)).
Definition wait_for_ssh_to_be_ready (host : option string) (port : Z) (user passwd : string) (timeout retry_interval : Z) : M P bool :=
  p ← getS;
  wait_loop (S (wait_turns timeout retry_interval)) host port user passwd (now p + timeout) retry_interval.

Definition configure_machine_ansible (host : option string) (user passwd : string) (playbook : pyval) : M P (list (string * pyval)) :=
  '(status, fact_cache) ← ansible_run host user passwd playbook;
  if String.eqb status "failed" then raise VirtualizationConfiguratorException else mret fact_cache.

(** Once the playbook is dumped; whether the machine answered is not looked at. *)
Definition configure_vm_ansible (blueprint_id : string) (v : VmResource) (playbook_str : pyval) : M P (list (string * pyval)) :=
  write_playbook (blueprint_id +:+ "_" +:+ vm_name v +:+ ".yml") playbook_str ;;
  wait_for_ssh_to_be_ready (access_ip v) 22 (username v) (password v) 300000 5000 ;;
  configure_machine_ansible (access_ip v) (username v) (password v) playbook_str.
End common.

(** ** The wait ends *)
Class ClockLaws (P : Type) `{!Machines P} := {
  sleep_lasts : ∀ d p p', sleep d p = (Ok tt, p') → now p + d ≤ now p';
  connect_takes_time : ∀ host port user passwd p, now p ≤ now (ssh_connect host port user passwd p).2
}.

Section wait.
Context {P : Type} `{!Machines P, !ClockLaws P}.
Variables (host : option string) (port : Z) (user passwd : string) (interval : Z).
Hypothesis interval_pos : 0 < interval.
#[local] Abbreviation loop fuel stop := (wait_loop fuel host port user passwd stop interval).

Lemma wait_enough n : ∀ fuel fuel' stop p, stop - now p ≤ Z.of_nat n * interval → (n < fuel)%nat → (n < fuel')%nat →
  loop fuel stop p = loop fuel' stop p.
Proof.
  induction n as [|n IH]; intros [|fuel] [|fuel'] stop p Hn Hf Hf'; try lia; cbn [wait_loop]; rewrite !(bind_Ok getS _ p p p) by done;
    destruct (Z.ltb_spec (now p) stop) as [Hlt|Hge]; [lia|done| |done].
  unfold mbind, M_bind. pose proof (connect_takes_time host port user passwd p) as Hc.
  destruct (ssh_connect host port user passwd p) as [[[]|e] p1]; try done; cbn in Hc;
    (destruct (sleep interval p1) as [[[]|e] p2] eqn:Es; [|done]; apply sleep_lasts in Es; apply IH; [|lia|lia];
     rewrite Nat2Z.inj_succ, Z.mul_succ_l in Hn; lia).
Qed.
Lemma wait_stops fuel : ∀ stop p p', loop fuel stop p = (Ok false, p') → loop (S fuel) stop p = (Ok false, p') → stop ≤ now p'.
Proof.
  induction fuel as [|fuel IH]; intros stop p p' H1 H2.
  - cbn in H1. injection H1 as <-. cbn [wait_loop] in H2. rewrite (bind_Ok getS _ p p p) in H2 by done.
    destruct (Z.ltb_spec (now p) stop) as [Hlt|]; [|done]. unfold mbind, M_bind in H2.
    pose proof (connect_takes_time host port user passwd p) as Hc.
    destruct (ssh_connect host port user passwd p) as [[[]|e] p1]; try done; cbn in Hc;
      (destruct (sleep interval p1) as [[[]|e] p2] eqn:Es; [|done]; apply sleep_lasts in Es; injection H2 as ->; lia).
  - cbn [wait_loop] in H1. remember (S fuel) as f. cbn [wait_loop] in H2. rewrite !(bind_Ok getS _ p p p) in * by done.
    destruct (Z.ltb_spec (now p) stop) as [Hlt|Hge]; [|by injection H1 as <-].
    unfold mbind, M_bind in H1, H2. destruct (ssh_connect host port user passwd p) as [[[]|e] p1]; try done;
      (destruct (sleep interval p1) as [[[]|e] p2]; [|done]; subst f; by eapply IH).
Qed.
End wait.

(** C40: waiting for a machine ends. When sleeping lasts at least as long as asked and time does not go back,
    the loop makes at most one turn more than the time-out has intervals, whatever the machine answers: with any larger
    bound on the turns the result and the state are the same as those of the wait. And an answer [false] is
    given only once the time-out is over. *)
Theorem waiting_ends {P} `{!Machines P, !ClockLaws P} host port user passwd timeout interval p fuel :
  0 ≤ timeout → 0 < interval → (wait_turns timeout interval < fuel)%nat →
  wait_loop fuel host port user passwd (now p + timeout) interval p =
    wait_for_ssh_to_be_ready host port user passwd timeout interval p ∧
  ∀ p', wait_for_ssh_to_be_ready host port user passwd timeout interval p = (Ok false, p') → now p + timeout ≤ now p'.
Proof.
  intros Ht Hi Hf.
  assert (Hn : now p + timeout - now p ≤ Z.of_nat (wait_turns timeout interval) * interval).
  { unfold wait_turns. rewrite Nat2Z.inj_succ, Z2Nat.id by (apply Z.div_pos; lia).
    pose proof (Z.mul_succ_div_gt timeout interval Hi). lia. }
  unfold wait_for_ssh_to_be_ready. rewrite (bind_Ok getS _ p p p) by done. split.
  - apply (wait_enough host port user passwd interval (wait_turns timeout interval)); [done|done|lia].
  - intros p' H. apply (wait_stops host port user passwd interval Hi (S (wait_turns timeout interval)) _ p p' H).
    rewrite <-H. apply (wait_enough host port user passwd interval (wait_turns timeout interval)); [done|lia|lia].
Qed.

(** ** A machine that answers after a while *)
Module ConcreteWait.
Record Lab := { lab_now : Z; lab_ready : Z }.
#[export] Instance lab_machines : Machines Lab := {|
  now := lab_now;
  sleep d := modifyS (λ p, {| lab_now := lab_now p + d; lab_ready := lab_ready p |});
  ssh_connect h port u pw := p ← getS; mret (if lab_ready p <=? lab_now p then SshConnected else NoValidConnectionsError);
  write_playbook f v := mret tt;
  ansible_run h u pw v := mret ("successful", []);
  yaml_text d := "yaml";
  json_string s := s
|}.
#[export] Program Instance lab_clock : ClockLaws Lab.
Next Obligation. intros d p p'. unfold sleep, now. cbn. intros [= <-]. cbn. lia. Qed.
Next Obligation. intros h port u pw p. apply Z.le_refl. Qed.
Lemma waiting_ends_witness :
  let p := {| lab_now := 7; lab_ready := 400000 |} in
  wait_loop 1000 (Some "10.0.0.2") 22 "ubuntu" "ubuntu" (now p + 300000) 5000 p =
    wait_for_ssh_to_be_ready (Some "10.0.0.2") 22 "ubuntu" "ubuntu" 300000 5000 p ∧
  (wait_for_ssh_to_be_ready (Some "10.0.0.2") 22 "ubuntu" "ubuntu" 300000 5000 p).1 = Ok false.
Proof.
  intros p. split; [|vm_compute; reflexivity].
  apply (waiting_ends (Some "10.0.0.2") 22 "ubuntu" "ubuntu" 300000 5000 p 1000); [lia|lia|apply Nat.ltb_lt; vm_compute; reflexivity].
Defined.
End ConcreteWait.
