(* ===== verification/HelmProvider.v ===== *)
(** * Helm charts of a blueprint

    blueprints_ng/providers/kubernetes/k8s_provider_native.py: the charts a blueprint installs on the Kubernetes
    cluster of an area, and [get_k8s_cluster_by_area] of rest_endpoints/k8s.py.  The cluster lists the blueprints
    deployed on it in the topology, once for each chart; a cluster that lists one cannot be deleted.  Helm, the
    Kubernetes API and files are an interface. *)

From Stdlib Require Import Ascii.
From stdpp Require Import base list strings gmap.
From Stdlib Require Import ZArith Lia.
From S2P Require Import Prelude Ipam IPv4Text Registry NetworkModels VimModels Database PrometheusModels K8sModels TopologyModel Topology TopologyProps.
From S2P Require Import Resources VirtCommon.

Open Scope Z_scope.

(** ** What the provider reaches *)
Record Release := { release_name : string; release_namespace : string }.
Record Deployment_api := { deployment_name : string; match_labels : option (list (string * string)) }.

(** A client is the path of its credential file.  [create_tmp_file] touches the file and gives its path;
    [write_values] writes the file the debug command names; the status of a revision is helm's text. *)
Class Helm (H : Type) := {
  chart_object : Type;
  create_tmp_file : string → M H string;
  write_credentials : string → string → M H unit;
  write_values : string → dict → M H unit;
  get_chart : string → string + string → option string → option string → M H chart_object;
  install_or_upgrade_release : string → string → chart_object → dict → string → M H Release;
  uninstall_release : string → string → string → M H unit;
  list_releases : string → M H (list Release);
  current_revision : string → Release → M H string;
  load_kube_config : string → M H unit;
  get_services : string → string → M H (list V1Service);
  get_deployments : string → string → M H (list Deployment_api);
  get_pods_for_k8s_namespace : string → string → string → M H (list string);
  k8s_delete_namespace : string → string → M H unit;
  get_logs_for_pod : string → string → string → option Z → M H string
}.

(** The topology collection with the events published so far, the clients all blueprints share, and the rest. *)
Record HelmWorld (C H : Type) := {
  hw_topology : C;
  hw_events : list Event;
  helm_client_dict : list (Z * string);
  hw_outside : H
}.
Arguments hw_topology {_ _} _.
Arguments hw_events {_ _} _.
Arguments helm_client_dict {_ _} _.
Arguments hw_outside {_ _} _.

(** A call: the chart it is given, the namespaces the provider recorded, and the world. *)
Record HelmCall (C H : Type) := { call_chart : HelmChartResource; call_namespaces : list string; call_world : HelmWorld C H }.
Arguments call_chart {_ _} _.
Arguments call_namespaces {_ _} _.
Arguments call_world {_ _} _.

Definition set_deployed (l : list string) (k : TopologyK8sModel) : TopologyK8sModel :=
  {| k8s_name := k8s_name k; provided_by := provided_by k; blueprint_ref := blueprint_ref k; deployed_blueprints := l;
     credentials := credentials k; k8s_vim_name := k8s_vim_name k; k8s_version := k8s_version k;
     k8s_networks := k8s_networks k; k8s_areas := k8s_areas k; cni := cni k; cadvisor_node_port := cadvisor_node_port k;
     nfvo_status := nfvo_status k; nfvo_onboard := nfvo_onboard k; anti_spoofing_enabled := anti_spoofing_enabled k |}.

Section helm.
Context {C H : Type} `{!Mongo TopologyModel C} `{!Environment} `{!Helm H} `{!Persistence H}.
#[local] Abbreviation W := (HelmWorld C H).
#[local] Abbreviation MW := (M (HelmWorld C H)).
#[local] Abbreviation MC := (M (HelmCall C H)).
Implicit Types w : W.

Definition outside {A} (m : M H A) : MW A :=
  zoom hw_outside (λ h w, {| hw_topology := hw_topology w; hw_events := hw_events w;
                             helm_client_dict := helm_client_dict w; hw_outside := h |}) m.
Definition set_clients (l : list (Z * string)) w : W :=
  {| hw_topology := hw_topology w; hw_events := hw_events w; helm_client_dict := l; hw_outside := hw_outside w |}.
(** Methods of one object built from the database. *)
Definition on_topology {A} (op : M (World C) A) : MW A := λ w,
  match Topology.from_db (hw_topology w) with
  | Ok t =>
      match op (set_events (hw_events w) t) with
      | (r, t') => (r, {| hw_topology := w_db t'; hw_events := w_events t'; helm_client_dict := helm_client_dict w;
                          hw_outside := hw_outside w |})
      end
  | Raise e => (Raise e, w)
  end.

(** ** Clusters and clients *)
Definition get_k8s_cluster_by_area (area_id : Z) : MW TopologyK8sModel :=
  k8s_clusters ← on_topology get_k8s_clusters;
  match find (λ x, py_in Z.eqb area_id (k8s_areas x)) k8s_clusters with
  | Some k => mret k
  | None => raise (HTTPException 404)
  end.

(** A new client is built when there is none for the area, or it has another credential file. *)
Definition get_helm_client_by_area (area : Z) : MW string :=
  k8s_cluster ← get_k8s_cluster_by_area area;
  k8s_credential_file_path ← outside (create_tmp_file ("k8s_credential_" +:+ k8s_name k8s_cluster));
  w ← getS;
  (if match z_get area (helm_client_dict w) with Some p => String.eqb p k8s_credential_file_path | None => false end
   then mret tt
   else
     k8s_cluster ← get_k8s_cluster_by_area area;
     outside (write_credentials k8s_credential_file_path (credentials k8s_cluster)) ;;
     modifyS (λ w, set_clients (z_set area k8s_credential_file_path (helm_client_dict w)) w)) ;;
  w ← getS;
  liftR (match z_get area (helm_client_dict w) with Some c => Ok c | None => Raise KeyError end).

(** The cluster, as it was when the provider was built, and the client. *)
Definition init (area : Z) : MW (TopologyK8sModel * string) :=
  k8s_cluster ← get_k8s_cluster_by_area area;
  helm_client ← get_helm_client_by_area area;
  mret (k8s_cluster, helm_client).

(** ** The provider of an area *)
Section provider.
Variables (area : Z) (blueprint_id : string) (k8s_cluster : TopologyK8sModel) (helm_client : string).

Definition the_chart : MC HelmChartResource := c ← getS; mret (call_chart c).
Definition change_chart (m : M HelmChartResource unit) : MC unit :=
  zoom call_chart (λ h c, {| call_chart := h; call_namespaces := call_namespaces c; call_world := call_world c |}) m.
Definition world {A} (m : MW A) : MC A :=
  zoom call_world (λ w c, {| call_chart := call_chart c; call_namespaces := call_namespaces c; call_world := w |}) m.
Definition reach {A} (m : M H A) : MC A := world (outside m).
Definition record_namespace (ns : string) : MC unit :=
  modifyS (λ c, if py_in String.eqb ns (call_namespaces c) then c
                else {| call_chart := call_chart c; call_namespaces := call_namespaces c ++ [ns]; call_world := call_world c |}).

Definition DEPLOYED : string := "deployed".
Definition same_release (name ns : string) (r : Release) : bool :=
  String.eqb (release_name r) name && String.eqb (release_namespace r) ns.

Definition _check_if_helm_chart_installed (name ns : string) : MW bool :=
  releases ← outside (list_releases helm_client);
  mret (existsb (same_release name ns) releases).

(** The revision of every release up to the one looked for is asked for. *)
Fixpoint check_status_loop (name ns desired : string) (releases : list Release) : MW bool :=
  match releases with
  | [] => raise K8SProviderNativeException
  | release :: l =>
      status ← outside (current_revision helm_client release);
      if same_release name ns release then mret (String.eqb status desired) else check_status_loop name ns desired l
  end.
Definition _check_helm_chart_status (name ns desired : string) : MW bool :=
  releases ← outside (list_releases helm_client);
  check_status_loop name ns desired releases.

(** The text of the command is only logged; its values are written to a file. *)
Definition _generate_debug_cmd_cli (h : HelmChartResource) (values : dict) : MW unit :=
  outside (write_values (lower (namespace h) +:+ "_" +:+ helm_name h +:+ ".yaml") values).

(** [cluster.deployed_blueprints] is changed in the cluster of the topology, which then saves it. *)
Definition change_deployed (f : list string → result (list string)) : M (World C) unit :=
  cluster ← Topology.get_k8s_cluster_by_area area;
  l ← liftR (f (deployed_blueprints cluster));
  on_model (
    index ← find_k8s_cluster_index_by_area area;
    self ← getS;
    clusters ← liftR (py_setitem (topo_kubernetes self) index (set_deployed l cluster));
    putS (set_kubernetes clusters self)) ;;
  update_k8scluster (set_deployed l cluster).
Definition append_blueprint (l : list string) : result (list string) := Ok (l ++ [blueprint_id]).

(** [",".join(f"{k}={v}")] over the labels a deployment selects. *)
Definition label_selector (d : Deployment_api) : result string :=
  match match_labels d with
  | Some labels => Ok (py_join ","%char ((λ kv, kv.1 +:+ "=" +:+ kv.2) <$> labels))
  | None => Raise AttributeError
  end.
Fixpoint pods_of (ns : string) (deployments : list Deployment_api) (d : list (string * list string)) : MW (list (string * list string)) :=
  match deployments with
  | [] => mret d
  | deployment :: l =>
      selector ← liftR (label_selector deployment);
      pods ← outside (get_pods_for_k8s_namespace (credentials k8s_cluster) ns selector);
      pods_of ns l (od_set (deployment_name deployment) pods d)
  end.

Definition release_chart (h : HelmChartResource) (values : dict) (on_error : MW unit) : MW Release :=
  chart ← outside (get_chart helm_client (get_chart_converted h) (repo h) (version h));
  catch (outside (install_or_upgrade_release helm_client (lower (helm_name h)) chart values (lower (namespace h))))
        (λ e, match e with HelmError => Some (on_error ;; raise HelmError) | _ => None end).
Definition deployed_or_raise (r : Release) : MW unit :=
  deployed ← _check_helm_chart_status (release_name r) (release_namespace r) DEPLOYED;
  if (deployed : bool) then mret tt else raise K8SProviderNativeException.

(** *** What the cluster reports of the chart *)
Definition read_chart (h : HelmChartResource) : MC unit :=
  let ns := lower (namespace h) in
  reach (load_kube_config (credentials k8s_cluster)) ;;
  services ← reach (get_services (credentials k8s_cluster) ns);
  deployments ← reach (get_deployments (credentials k8s_cluster) ns);
  deployments_pods ← world (pods_of ns deployments []);
  change_chart (set_services_from_k8s_api services) ;;
  change_chart (set_deployments_from_k8s_api (deployment_name <$> deployments) deployments_pods).

Definition install_helm_chart (values : dict) : MC unit :=
  h ← the_chart;
  revision ← world (release_chart h values (_generate_debug_cmd_cli h values));
  record_namespace (lower (namespace h)) ;;
  reach (save_to_db blueprint_id) ;;
  world (deployed_or_raise revision) ;;
  world (on_topology (change_deployed append_blueprint)) ;;
  read_chart h ;;
  reach (save_to_db blueprint_id).

Definition update_values_helm_chart (values : dict) : MC unit :=
  h ← the_chart;
  revision ← world (release_chart h values (mret tt));
  world (deployed_or_raise revision) ;;
  reach (save_to_db blueprint_id).

Definition uninstall_helm_chart : MC unit :=
  h ← the_chart;
  reach (uninstall_release helm_client (lower (helm_name h)) (lower (namespace h))) ;;
  reach (save_to_db blueprint_id) ;;
  installed ← world (_check_if_helm_chart_installed (lower (helm_name h)) (lower (namespace h)));
  if (installed : bool) then raise K8SProviderNativeException
  else world (catch (on_topology (change_deployed (py_remove String.eqb blueprint_id)))
                    (λ e, if is_value_error e then Some (mret tt) else None)).

(** Namespaces that cannot be deleted are left. *)
Definition final_cleanup : MC unit :=
  reach (load_kube_config (credentials k8s_cluster)) ;;
  c ← getS;
  for_each (call_namespaces c) (λ ns,
    catch (reach (k8s_delete_namespace (credentials k8s_cluster) ns)) (λ _, Some (mret tt))).

Definition get_pod_log (pod_name : string) (tail_lines : option Z) : MC string :=
  h ← the_chart;
  reach (load_kube_config (credentials k8s_cluster)) ;;
  reach (get_logs_for_pod (credentials k8s_cluster) (lower (namespace h)) pod_name tail_lines).
End provider.
End helm.
