(* ===== verification/HelmProviderProps.v ===== *)
(** * The charts of the blueprints are counted by the topology

    What the calls of the providers of HelmProvider.v do to the clusters of the topology, and that a cluster in
    use is kept. *)

From stdpp Require Import base list strings gmap.
From Stdlib Require Import ZArith Lia.
From S2P Require Import Prelude Ipam IPv4Text Registry NetworkModels VimModels Database PrometheusModels K8sModels TopologyModel Topology TopologyProps.
From S2P Require Import Resources VirtCommon HelmProvider.

Open Scope Z_scope.

(** ** Entries of a cluster *)
Definition entries (b : string) (l : list string) : nat := length (filter (λ x, x = b) l).
(** [l.remove(b)] when [ValueError] is caught. *)
Definition drop (b : string) (l : list string) : list string := match py_remove String.eqb b l with Ok l' => l' | Raise _ => l end.

Lemma entries_app b l l' : entries b (l ++ l') = (entries b l + entries b l')%nat.
Proof. unfold entries. by rewrite filter_app, length_app. Qed.
Lemma entries_one b b' : entries b [b'] = if decide (b' = b) then 1%nat else 0%nat.
Proof. unfold entries. rewrite filter_cons, filter_nil. by destruct (decide _). Qed.
Lemma chart_entries_cons b x l : entries b (x :: l) = (entries b [x] + entries b l)%nat.
Proof. apply (entries_app b [x] l). Qed.
Lemma entries_drop b b' l : entries b (drop b' l) = if decide (b' = b) then pred (entries b l) else entries b l.
Proof.
  unfold drop, py_remove. destruct (find_index _ l) as [i|] eqn:E.
  - apply find_index_Some in E as (x & Hx & ->%String.eqb_eq & _).
    assert (Hp : entries b l = (entries b [b'] + entries b (base.delete i l))%nat).
    { rewrite <-chart_entries_cons. unfold entries. by rewrite <-(delete_Permutation l i b' Hx). }
    rewrite Hp, entries_one. by destruct (decide (b' = b)).
  - destruct (decide (b' = b)) as [->|]; [|done]. replace (entries b l) with 0%nat; [done|].
    unfold entries. destruct (filter _ l) as [|x f] eqn:Ef; [done|].
    assert (Hx : x ∈ filter (λ x, x = b) l) by (rewrite Ef; left).
    apply list_elem_of_filter in Hx as [-> Hx]. pose proof (proj1 (find_index_None _ _) E _ Hx) as Hn.
    cbn in Hn. by rewrite String.eqb_refl in Hn.
Qed.
Lemma entries_pos b l : (0 < entries b l)%nat → l ≠ [].
Proof. intros Hp ->. unfold entries in Hp. cbn in Hp. lia. Qed.

(** ** The cluster of an area *)
Definition cluster_index (a : Z) (m : TopologyModel) : option nat :=
  find_index (λ k, py_in Z.eqb a (k8s_areas k)) (topo_kubernetes m).
Definition put_deployed (i : nat) (l : list string) (k : TopologyK8sModel) (m : TopologyModel) : TopologyModel :=
  set_kubernetes (<[i := set_deployed l k]> (topo_kubernetes m)) m.
(** The same clusters, but for the blueprints deployed on them. *)
Definition same_clusters (m m' : TopologyModel) : Prop :=
  Forall2 (λ k k', k' = set_deployed (deployed_blueprints k') k) (topo_kubernetes m) (topo_kubernetes m').

Lemma set_deployed_id k : set_deployed (deployed_blueprints k) k = k.
Proof. by destruct k. Qed.
Lemma same_clusters_refl m : same_clusters m m.
Proof. apply Forall_Forall2_diag, Forall_true. intros k. by rewrite set_deployed_id. Qed.
Lemma same_clusters_put m m' i l k :
  same_clusters m m' → topo_kubernetes m' !! i = Some k → same_clusters m (put_deployed i l k m').
Proof.
  intros Hs Hk. unfold same_clusters, put_deployed. cbn [topo_kubernetes set_kubernetes].
  destruct (Forall2_lookup_r _ _ _ _ _ Hs Hk) as (k0 & Hk0 & E).
  rewrite <-(list_insert_id (topo_kubernetes m) i k0 Hk0). apply Forall2_insert; [done|].
  cbn. by rewrite E.
Qed.
Lemma same_clusters_index m m' a : same_clusters m m' → cluster_index a m' = cluster_index a m.
Proof.
  unfold same_clusters, cluster_index. induction 1 as [|k k' l l' E _ IH]; [done|].
  cbn. rewrite IH. assert (k8s_areas k' = k8s_areas k) as -> by by rewrite E. done.
Qed.

Section props.
Context {C H : Type} `{!Mongo TopologyModel C} `{!Environment} `{!Helm H} `{!Persistence H}.
Context (Hup : ∀ l ev, redis_publish l ev = Ok tt).
#[local] Abbreviation W := (HelmWorld C H).
#[local] Abbreviation MC := (M (HelmCall C H)).
Implicit Types (w : W) (m : TopologyModel) (c : HelmCall C H).

Definition holds m w : Prop := stored m (hw_topology w).

Lemma topology_ok_put m i l k :
  topology_ok m → topo_kubernetes m !! i = Some k → topology_ok (put_deployed i l k m).
Proof.
  intros Hm Hk. apply topology_ok_kubernetes; [done| |].
  - eapply keys_unique_insert; [apply Hm|done|done].
  - apply Forall_insert_list; [apply Hm|].
    destruct Hm as (_ & _ & _ & _ & Hv). by eapply (Forall_lookup_1 _ _ _ _ Hv) in Hk.
Qed.

Lemma name_index m i k : topology_ok m → topo_kubernetes m !! i = Some k →
  find_index (λ x, String.eqb (k8s_name x) (k8s_name k)) (topo_kubernetes m) = Some i.
Proof.
  intros Hm Hk. destruct (position_cases k8s_name (k8s_name k) (topo_kubernetes m)) as [[_ Hno]|(j & q & Hj & Hq & Hn)].
  - destruct (Hno k); [by eapply list_elem_of_lookup_2|done].
  - unfold position in Hj. rewrite Hj. f_equal.
    eapply (keys_unique_inj k8s_name); [apply Hm|exact Hq|exact Hk|done].
Qed.

Lemma update_k8scluster_run m (t : World C) i k l :
  topology_ok m → w_model t = Some m → topo_kubernetes m !! i = Some k → db_ok (w_db t) →
  ∃ t', update_k8scluster (set_deployed l k) t = (Ok tt, t') ∧ stored (put_deployed i l k m) (w_db t').
Proof.
  intros Hm Ht Hk Hdb. pose proof (topology_ok_put m i l k Hm Hk) as Hok.
  assert (Hrun : upd_k8s_cluster (set_deployed l k) m = (Ok (set_deployed l k), put_deployed i l k m)).
  { unfold upd_k8s_cluster, find_k8s_cluster_index. run_M. rewrite (next_index_Some _ _ _ (name_index m i k Hm Hk)).
    rewrite of_nat_ltb_0. cbn. rewrite py_setitem_nat by by eapply lookup_lt_Some. done. }
  unfold update_k8scluster, obj_multiprocess_lock.
  erewrite bind_Ok by (apply (on_model_run _ _ m); [exact Ht|exact Hrun]).
  set (t2 := set_model _ _). rewrite (save_trigger_run t2 (put_deployed i l k m) _ _ eq_refl Hup). eexists. split; [reflexivity|].
  split; [|done]. cbn. by apply save_docs.
Qed.

(** Changing the list of the cluster of an area. *)
Lemma change_deployed_run area f m w :
  holds m w →
  match cluster_index area m with
  | None => on_topology (change_deployed area f) w = (Raise TopoK8SNotFoundException, w)
  | Some i =>
      ∃ k, topo_kubernetes m !! i = Some k ∧
      match f (deployed_blueprints k) with
      | Raise e => on_topology (change_deployed area f) w = (Raise e, w)
      | Ok l => ∃ w', on_topology (change_deployed area f) w = (Ok tt, w') ∧ holds (put_deployed i l k m) w'
      end
  end.
Proof.
  intros Hw. unfold on_topology. rewrite (stored_loaded m _ Hw). set (t := set_events _ _).
  unfold change_deployed, Topology.get_k8s_cluster_by_area, cluster_index.
  destruct (find_index _ (topo_kubernetes m)) as [i|] eqn:E.
  2:{ unfold on_model, find_k8s_cluster_by_area, find_k8s_cluster_index_by_area, next_index. run_M. rewrite E. cbn. by destruct w. }
  pose proof E as (k & Hk & _)%find_index_Some. exists k. split; [done|].
  assert (Hi : find_k8s_cluster_index_by_area area m = (Ok (Z.of_nat i), m)).
  { unfold find_k8s_cluster_index_by_area, next_index. run_M. rewrite E. by rewrite of_nat_ltb_0. }
  assert (Hg : on_model (find_k8s_cluster_by_area area) t = (Ok k, t)).
  { erewrite on_model_run; [by rewrite set_model_id|done|]. unfold find_k8s_cluster_by_area.
    erewrite bind_Ok by exact Hi. run_M. by rewrite (py_getitem_nat _ _ _ Hk). }
  destruct (f (deployed_blueprints k)) as [l|e] eqn:Ef.
  2:{ erewrite bind_Ok by exact Hg. run_M. rewrite Ef. by destruct w. }
  pose proof (topology_ok_put m i l k (proj2 Hw) Hk) as Hok.
  set (t1 := set_model (Some (put_deployed i l k m)) t).
  destruct (update_k8scluster_run (put_deployed i l k m) t1 i (set_deployed l k) l) as (t' & Hr & Hs); [done|done| | |].
  { cbn. apply list_lookup_insert_eq. by eapply lookup_lt_Some. }
  { cbn. eapply db_ok_singleton; apply Hw. }
  eexists. split.
  - erewrite bind_Ok by exact Hg. erewrite bind_Ok by (unfold liftR; rewrite Ef; reflexivity).
    erewrite bind_Ok.
    2:{ apply (on_model_run _ _ m (tt) (put_deployed i l k m)); [done|]. erewrite bind_Ok by exact Hi.
        run_M. rewrite py_setitem_nat by by eapply lookup_lt_Some. done. }
    change (set_deployed l (set_deployed l k)) with (set_deployed l k) in Hr. fold t1. rewrite Hr. reflexivity.
  - unfold holds. cbn. unfold put_deployed in Hs |- *. cbn in Hs. by rewrite list_insert_insert_eq in Hs.
Qed.
(** ** Calls *)
Inductive HelmRequest :=
| InstallChart (values : dict)
| UpdateValues (values : dict)
| UninstallChart
| FinalCleanup
| PodLog (pod : string) (tail_lines : option Z).
Definition serve (b : string) (area : Z) (k : TopologyK8sModel) (client : string) (r : HelmRequest) : MC unit :=
  match r with
  | InstallChart values => install_helm_chart area b k client values
  | UpdateValues values => update_values_helm_chart b client values
  | UninstallChart => uninstall_helm_chart area b client
  | FinalCleanup => final_cleanup k
  | PodLog pod t => get_pod_log k pod t ;; mret tt
  end.

(** What a request that returns does to the list of its cluster. *)
Definition list_after (b : string) (r : HelmRequest) (l : list string) : list string :=
  match r with InstallChart _ => l ++ [b] | UninstallChart => drop b l | _ => l end.
Definition after (b : string) (area : Z) (r : HelmRequest) m : TopologyModel :=
  match cluster_index area m with
  | Some i => match topo_kubernetes m !! i with
              | Some k => put_deployed i (list_after b r (deployed_blueprints k)) k m
              | None => m
              end
  | None => m
  end.
Lemma put_deployed_id m i k : topo_kubernetes m !! i = Some k → put_deployed i (deployed_blueprints k) k m = m.
Proof. intros Hk. unfold put_deployed. rewrite set_deployed_id, list_insert_id by done. by destruct m. Qed.
Lemma after_id b area r m : (∀ l, list_after b r l = l) → after b area r m = m.
Proof.
  intros Hr. unfold after. destruct (cluster_index area m) as [i|]; [|done].
  destruct (topo_kubernetes m !! i) as [k|] eqn:E; [|done]. rewrite Hr. by apply put_deployed_id.
Qed.

Definition in_call m c : Prop := holds m (call_world c).

Lemma keep_outside {A} m (op : M H A) : preserves (holds m) (outside op).
Proof. intros w Hw. unfold outside, zoom. by destruct (op _). Qed.
Lemma keep_world {A} m (op : M W A) : preserves (holds m) op → preserves (in_call m) (world op).
Proof. intros Hop. by apply preserves_zoom with (J := holds m). Qed.
Lemma keep_reach {A} m (op : M H A) : preserves (in_call m) (reach op).
Proof. apply keep_world, keep_outside. Qed.
Lemma keep_chart m op : preserves (in_call m) (change_chart op : MC unit).
Proof. by apply preserves_zoom with (J := λ _, True). Qed.
Lemma keep_catch {S A} (I : S → Prop) (op : M S A) h :
  preserves I op → (∀ e k, h e = Some k → preserves I k) → preserves I (catch op h).
Proof. apply preserves_catch. Qed.
Lemma keep_cluster m area : preserves (holds m) (get_k8s_cluster_by_area area).
Proof.
  unfold get_k8s_cluster_by_area. preserve_steps. intros w Hw. unfold on_topology.
  rewrite (stored_loaded m _ Hw). unfold get_k8s_clusters, dump_model, on_model. by run_M.
Qed.
Hint Resolve keep_outside keep_reach keep_chart keep_cluster : preserve.

Lemma keep_init m area : preserves (holds m) (init area).
Proof.
  unfold init, get_helm_client_by_area. preserve_steps; try (apply preserves_modifyS; done).
Qed.
Lemma keep_status m client l n ns d : preserves (holds m) (check_status_loop client n ns d l).
Proof. induction l; cbn; preserve_steps. Qed.
Lemma keep_pods m k ns l d : preserves (holds m) (pods_of k ns l d).
Proof. revert d. induction l; intros d; cbn; preserve_steps; auto. Qed.
Hint Resolve keep_status keep_pods : preserve.
Lemma keep_release m client h values op : preserves (holds m) op → preserves (holds m) (release_chart client h values op).
Proof.
  intros Hop. unfold release_chart. preserve_steps. apply keep_catch; [preserve_steps|].
  intros e k. destruct e; try done. intros [= <-]. preserve_steps.
Qed.
Lemma keep_deployed m client r : preserves (holds m) (deployed_or_raise client r).
Proof. unfold deployed_or_raise, _check_helm_chart_status. preserve_steps. Qed.
Lemma keep_read m k h : preserves (in_call m) (read_chart k h).
Proof. unfold read_chart. preserve_steps. apply keep_world, keep_pods. Qed.
Lemma keep_namespace m ns : preserves (in_call m) (record_namespace ns).
Proof. apply preserves_modifyS. intros c Hc. by destruct (py_in _ _ _). Qed.
Lemma keep_the_chart m : preserves (in_call m) the_chart.
Proof. unfold the_chart. preserve_steps. Qed.

(** *** The list of the cluster *)
Lemma append_triple m b area values :
  triple (holds m) (on_topology (change_deployed area (append_blueprint b)))
    (λ _, holds (after b area (InstallChart values) m)) (holds m).
Proof.
  intros w Hw. pose proof (change_deployed_run area (append_blueprint b) m w Hw) as Hr. unfold after.
  destruct (cluster_index area m) as [i|]; [|by rewrite Hr].
  destruct Hr as (k & Hk & w' & E & Hw'). by rewrite E, Hk.
Qed.
Lemma remove_triple m b area :
  triple (holds m)
    (catch (on_topology (change_deployed area (py_remove String.eqb b))) (λ e, if is_value_error e then Some (mret tt) else None))
    (λ _, holds (after b area UninstallChart m)) (holds m).
Proof.
  intros w Hw. pose proof (change_deployed_run area (py_remove String.eqb b) m w Hw) as Hr. unfold after, catch.
  destruct (cluster_index area m) as [i|]; [|by rewrite Hr].
  destruct Hr as (k & Hk & Hr). rewrite Hk. cbn [list_after]. unfold drop.
  destruct (py_remove String.eqb b (deployed_blueprints k)) as [l|e] eqn:E.
  - destruct Hr as (w' & -> & Hw'). done.
  - rewrite Hr. assert (e = ValueError) as ->.
    { revert E. unfold py_remove. by destruct (find_index _ _); intros [= <-]. }
    cbn. by rewrite put_deployed_id.
Qed.

Lemma triple_world {A} m (Q : A → W → Prop) (E : W → Prop) (op : M W A) :
  triple (holds m) op Q E → triple (in_call m) (world op) (λ a c, Q a (call_world c)) (λ c, E (call_world c)).
Proof. intros Hop c Hc. specialize (Hop _ Hc). unfold world, zoom. by destruct (op _) as [[] w]. Qed.
Lemma triple_kept {A} (I : HelmCall C H → Prop) (E : HelmCall C H → Prop) (op : MC A) :
  preserves I op → (∀ c, I c → E c) → triple I op (λ _, I) E.
Proof. intros Hop HE. eapply triple_conseq; [by apply triple_preserves|done|done|done]. Qed.

(** A call leaves the topology alone or does to the list of its cluster what it is for; when it returns, it
    has done so. *)
Lemma serve_triple m b area k client r :
  triple (in_call m) (serve b area k client r) (λ _, in_call (after b area r m))
    (λ c, in_call m c ∨ in_call (after b area r m) c).
Proof.
  destruct r as [values|values| | |pod t]; cbn [serve].
  - unfold install_helm_chart.
    assert (Hl : ∀ c, in_call m c → in_call m c ∨ in_call (after b area (InstallChart values) m) c) by (intros; by left).
    eapply triple_bind; [apply triple_kept, Hl; apply keep_the_chart|intros h].
    eapply triple_bind; [apply triple_kept, Hl; apply keep_world, keep_release, keep_outside|intros release].
    eapply triple_bind; [apply triple_kept, Hl; apply keep_namespace|intros []].
    eapply triple_bind; [apply triple_kept, Hl; apply keep_reach|intros []].
    eapply triple_bind; [apply triple_kept, Hl; apply keep_world, keep_deployed|intros []].
    eapply triple_bind.
    { eapply triple_conseq; [apply (triple_world m _ _ _ (append_triple m b area values))|done| |by left].
      intros a c Hc. exact Hc. }
    intros []. apply (triple_kept (in_call (after b area (InstallChart values) m))); [|by right].
    apply preserves_bind; [apply keep_read|intros []]. apply keep_reach.
  - rewrite (after_id b area (UpdateValues values)) by done. apply (triple_kept (in_call m)); [|by left].
    unfold update_values_helm_chart. apply preserves_bind; [apply keep_the_chart|intros h].
    apply preserves_bind; [apply keep_world, keep_release, preserves_ret|intros release].
    apply preserves_bind; [apply keep_world, keep_deployed|intros []]. apply keep_reach.
  - unfold uninstall_helm_chart.
    assert (Hl : ∀ c, in_call m c → in_call m c ∨ in_call (after b area UninstallChart m) c) by (intros; by left).
    eapply triple_bind; [apply triple_kept, Hl; apply keep_the_chart|intros h].
    eapply triple_bind; [apply triple_kept, Hl; apply keep_reach|intros []].
    eapply triple_bind; [apply triple_kept, Hl; apply keep_reach|intros []].
    eapply triple_bind; [apply triple_kept, Hl; apply keep_world; unfold _check_if_helm_chart_installed; preserve_steps|intros i].
    destruct i; [apply triple_raise; by left|].
    eapply triple_conseq; [apply (triple_world m _ _ _ (remove_triple m b area))|done| |by left].
    intros a c Hc. exact Hc.
  - rewrite (after_id b area FinalCleanup) by done. apply (triple_kept (in_call m)); [|by left].
    unfold final_cleanup. preserve_steps. apply keep_catch; [apply keep_reach|]. intros ? ? [= <-]. apply preserves_ret.
  - rewrite (after_id b area (PodLog pod t)) by done. apply (triple_kept (in_call m)); [|by left].
    unfold get_pod_log. preserve_steps.
Qed.

(** ** Histories

    Providers are built and called by any blueprints, in any order; [es] are the calls so far and whether each
    returned. *)
Record Served := { by_blueprint : string; in_area : Z; request : HelmRequest; returned : bool }.
Inductive history w0 : list Served → W → Prop :=
| history_start : history w0 [] w0
| history_init es w area : history w0 es w → history w0 es (init area w).2
| history_call es w b area k client r h ns :
    history w0 es w →
    history w0 (es ++ [{| by_blueprint := b; in_area := area; request := r;
                          returned := bool_decide ((serve b area k client r {| call_chart := h; call_namespaces := ns; call_world := w |}).1 = Ok tt) |}])
      (call_world (serve b area k client r {| call_chart := h; call_namespaces := ns; call_world := w |}).2).

(** Calls of [b] that installed a chart on the cluster at position [i] less those that uninstalled one, from [n];
    a second installation of a chart, an upgrade for Helm, counts as one more. *)
Definition tally b m (i : nat) (n : nat) (e : Served) : nat :=
  if bool_decide (by_blueprint e = b ∧ cluster_index (in_area e) m = Some i)
  then match request e with InstallChart _ => S n | UninstallChart => pred n | _ => n end
  else n.
Lemma entries_after b b' r l :
  entries b (list_after b' r l) =
  if decide (b' = b) then match r with InstallChart _ => S (entries b l) | UninstallChart => pred (entries b l) | _ => entries b l end
  else entries b l.
Proof.
  destruct r; cbn [list_after]; try by destruct (decide _).
  - rewrite entries_app, entries_one. destruct (decide _); lia.
  - apply entries_drop.
Qed.

Lemma same_after b area r m m' : same_clusters m m' → same_clusters m (after b area r m').
Proof.
  intros Hs. unfold after. destruct (cluster_index area m') as [i|]; [|done].
  destruct (topo_kubernetes m' !! i) as [k|] eqn:E; [|done]. by apply same_clusters_put.
Qed.
Lemma entries_one_call b m m' b' area r ok i k' :
  same_clusters m m' → topo_kubernetes m' !! i = Some k' →
  ∃ k'', topo_kubernetes (after b' area r m') !! i = Some k'' ∧
    entries b (deployed_blueprints k'') =
    tally b m i (entries b (deployed_blueprints k')) {| by_blueprint := b'; in_area := area; request := r; returned := ok |}.
Proof.
  intros Hs Hk. unfold after, tally. cbn [by_blueprint in_area request]. rewrite (same_clusters_index m m' area Hs).
  destruct (cluster_index area m) as [j|] eqn:Ej.
  2:{ exists k'. split; [done|]. by rewrite bool_decide_false by naive_solver. }
  destruct (decide (j = i)) as [->|Hne].
  - rewrite Hk. eexists. split; [apply list_lookup_insert_eq; by eapply lookup_lt_Some|]. cbn [deployed_blueprints set_deployed]. rewrite entries_after.
    destruct (decide (b' = b)) as [->|]; [by rewrite bool_decide_true|by rewrite bool_decide_false by naive_solver].
  - rewrite bool_decide_false by naive_solver. exists k'. split; [|done].
    destruct (topo_kubernetes m' !! j); [|done]. cbn. by rewrite list_lookup_insert_ne.
Qed.

Lemma call_follows b m m' w b' area k client r c :
  same_clusters m m' → holds m' w → call_world c = w →
  let e := {| by_blueprint := b'; in_area := area; request := r; returned := bool_decide ((serve b' area k client r c).1 = Ok tt) |} in
  (by_blueprint e = b → returned e = true) →
  ∃ m2, holds m2 (call_world (serve b' area k client r c).2) ∧ same_clusters m m2 ∧
    ∀ i k', topo_kubernetes m' !! i = Some k' →
    ∃ k2, topo_kubernetes m2 !! i = Some k2 ∧
      entries b (deployed_blueprints k2) = tally b m i (entries b (deployed_blueprints k')) e.
Proof.
  intros Hs Hw <- e Hok. pose proof (serve_triple m' b' area k client r c Hw) as Ht. subst e. cbn in Hok.
  destruct (serve b' area k client r c) as [[[]|e] c']; cbn in *.
  - exists (after b' area r m'). split; [done|]. split; [by apply same_after|]. intros i k' Hk. by apply entries_one_call.
  - destruct Ht as [Ht|Ht].
    + exists m'. split; [done|]. split; [done|]. intros i k' Hk. exists k'. split; [done|].
      unfold tally. rewrite bool_decide_false; [done|]. cbn. intros [Hb _]. by apply Hok in Hb.
    + exists (after b' area r m'). split; [done|]. split; [by apply same_after|]. intros i k' Hk. by apply entries_one_call.
Qed.

Lemma history_follows b m w es w' :
  holds m w → history w es w' → (∀ e, e ∈ es → by_blueprint e = b → returned e = true) →
  ∃ m', holds m' w' ∧ same_clusters m m' ∧
    ∀ i k, topo_kubernetes m !! i = Some k →
    ∃ k', topo_kubernetes m' !! i = Some k' ∧
      entries b (deployed_blueprints k') = foldl (tally b m i) (entries b (deployed_blueprints k)) es.
Proof.
  intros Hw Hh. induction Hh as [|es w1 area Hh IH|es w1 b' area k client r h ns Hh IH]; intros Hok.
  - exists m. split; [done|]. split; [apply same_clusters_refl|]. intros i k Hk. by exists k.
  - destruct (IH Hok) as (m' & Hm' & Hs & He). exists m'. split; [|done]. by apply keep_init.
  - destruct IH as (m' & Hm' & Hs & He). { intros e Hin. apply Hok, elem_of_app. by left. }
    destruct (call_follows b m m' w1 b' area k client r {| call_chart := h; call_namespaces := ns; call_world := w1 |} Hs Hm' eq_refl) as (m2 & H2 & Hs2 & He2).
    { apply Hok, elem_of_app. right. left. }
    exists m2. split; [done|]. split; [done|]. intros i k0 Hk0. destruct (He i k0 Hk0) as (k1 & Hk1 & E1).
    destruct (He2 i k1 Hk1) as (k2 & Hk2 & E2). exists k2. split; [done|]. by rewrite E2, E1, foldl_app.
Qed.

Lemma del_refused m w i k :
  holds m w → topo_kubernetes m !! i = Some k → deployed_blueprints k ≠ [] →
  on_topology (del_k8scluster (k8s_name k)) w = (Raise TopoK8SHasBlueprintException, w).
Proof.
  intros Hw Hk Hd. unfold on_topology. rewrite (stored_loaded m _ Hw).
  assert (Hr : del_k8s_cluster (k8s_name k) m = (Raise TopoK8SHasBlueprintException, m)).
  { unfold del_k8s_cluster, find_k8s_cluster_index. run_M. rewrite (next_index_Some _ _ _ (name_index m i k (proj2 Hw) Hk)).
    rewrite of_nat_ltb_0. cbn. rewrite (py_getitem_nat _ _ _ Hk). by destruct (deployed_blueprints k). }
  unfold del_k8scluster, obj_multiprocess_lock, on_model. run_M. rewrite Hr. by destruct w.
Qed.

(** C20: a Kubernetes cluster in use is kept.  Blueprints install, update and uninstall charts on the clusters of
    their areas, in any order, with any client and also with calls that fail half-way, with a broker that accepts
    events.  For a blueprint whose own calls all returned, every cluster lists it in the topology once for each
    call that installed a chart there, less one for each call that uninstalled one (never below none), whatever
    the others did; as long as an entry is left, the deletion of the cluster is refused and changes nothing.  The
    entries count calls and not charts: installing again a chart that is there, which Helm does as an upgrade,
    adds an entry that the one uninstallation of the chart does not remove. *)
Theorem used_cluster_is_kept b m w es w' :
  holds m w → history w es w' → (∀ e, e ∈ es → by_blueprint e = b → returned e = true) →
  ∃ m', holds m' w' ∧ ∀ i k, topo_kubernetes m !! i = Some k →
    let n := foldl (tally b m i) (entries b (deployed_blueprints k)) es in
    (∃ k', topo_kubernetes m' !! i = Some k' ∧ k8s_name k' = k8s_name k ∧ entries b (deployed_blueprints k') = n) ∧
    ((0 < n)%nat → on_topology (del_k8scluster (k8s_name k)) w' = (Raise TopoK8SHasBlueprintException, w')).
Proof.
  intros Hw Hh Hok. destruct (history_follows b m w es w' Hw Hh Hok) as (m' & Hm' & Hs & He).
  exists m'. split; [done|]. intros i k Hk n. destruct (He i k Hk) as (k' & Hk' & En).
  assert (Hname : k8s_name k' = k8s_name k).
  { destruct (Forall2_lookup_l _ _ _ _ _ Hs Hk) as (k1 & Hk1 & E). rewrite Hk' in Hk1. injection Hk1 as <-. by rewrite E. }
  split; [by exists k'|]. intros Hn. rewrite <-Hname.
  apply (del_refused m' w' i k' Hm' Hk'). apply (entries_pos b). by rewrite En.
Qed.

End props.

(** ** A concrete cluster *)
Module ConcreteCluster.
(** Helm keeps the list of its releases and refuses to uninstall what is not there. *)
#[export] Instance lab_helm : Helm (list Release) := {|
  chart_object := unit;
  create_tmp_file n := mret ("/tmp/" +:+ n);
  write_credentials _ _ := mret tt;
  write_values _ _ := mret tt;
  get_chart _ _ _ _ := mret tt;
  install_or_upgrade_release _ n _ _ ns := modifyS (λ l, {| release_name := n; release_namespace := ns |} :: l) ;;
                                           mret {| release_name := n; release_namespace := ns |};
  uninstall_release _ n ns := l ← getS;
    if existsb (same_release n ns) l then putS (List.filter (λ r, negb (same_release n ns r)) l) else raise HelmError;
  list_releases _ := getS;
  current_revision _ _ := mret "deployed";
  load_kube_config _ := mret tt;
  get_services _ _ := mret [];
  get_deployments _ _ := mret [{| deployment_name := "upf"; match_labels := Some [("app", "upf")] |}];
  get_pods_for_k8s_namespace _ _ _ := mret ["upf-0"];
  k8s_delete_namespace _ _ := mret tt;
  get_logs_for_pod _ _ _ _ := mret EmptyString
|}.
#[export] Instance lab_persistence : Persistence (list Release) := {| save_to_db _ := mret tt |}.

Definition lab_cluster : TopologyK8sModel :=
  {| k8s_name := "k8s"; provided_by := "blue"; blueprint_ref := "k"; deployed_blueprints := []; credentials := "secret";
     k8s_vim_name := None; k8s_version := V1_29; k8s_networks := ["mgmt"]; k8s_areas := [0]; cni := None;
     cadvisor_node_port := None; nfvo_status := NOT_ONBOARDED; nfvo_onboard := false; anti_spoofing_enabled := None |}.
Definition lab_topology : TopologyModel := set_kubernetes [lab_cluster] example_topology.
Definition lab_chart (n : string) : HelmChartResource :=
  {| helm_id := Some n; helm_area := 0; helm_name := n; chart := "charts/core.tgz"; chart_as_path := true; repo := None;
     version := None; namespace := "Core"; helm_created := false; services := None; deployments := None; statefulsets := None |}.
Definition lab_world : HelmWorld (list TopologyModel) (list Release) :=
  {| hw_topology := [lab_topology]; hw_events := []; helm_client_dict := []; hw_outside := [] |}.
Definition lab_call (n : string) (w : HelmWorld (list TopologyModel) (list Release)) : HelmCall _ _ :=
  {| call_chart := lab_chart n; call_namespaces := []; call_world := w |}.
Definition lab_ready : HelmWorld (list TopologyModel) (list Release) := (init 0 lab_world).2.
Definition lab_installed := serve "A" 0 lab_cluster "/tmp/k8s_credential_k8s" (InstallChart []) (lab_call "Core" lab_ready).
Definition lab_refused := serve "B" 0 lab_cluster "/tmp/k8s_credential_k8s" UninstallChart (lab_call "other" (call_world lab_installed.2)).
Definition lab_history : list Served :=
  [{| by_blueprint := "A"; in_area := 0; request := InstallChart []; returned := bool_decide (lab_installed.1 = Ok tt) |}] ++
  [{| by_blueprint := "B"; in_area := 0; request := UninstallChart; returned := bool_decide (lab_refused.1 = Ok tt) |}].

Example lab_run :
  lab_installed.1 = Ok tt ∧ lab_refused.1 = Raise HelmError ∧
  call_namespaces lab_installed.2 = ["core"] ∧
  services (call_chart lab_installed.2) = Some [] ∧
  deployments (call_chart lab_installed.2) = Some [("upf", {| dep_name := "upf"; pods := ["upf-0"] |})] ∧
  (on_topology (del_k8scluster "k8s") lab_ready).1 = Ok tt.
Proof. vm_compute. repeat split. Qed.

Lemma lab_topology_ok : topology_ok lab_topology.
Proof.
  apply topology_ok_kubernetes; [exact example_topology_ok|apply NoDup_singleton|]. by apply Forall_singleton.
Qed.

(** A chart of one blueprint keeps the cluster, also when another blueprint fails to uninstall its own. *)
Lemma used_cluster_is_kept_witness :
  on_topology (del_k8scluster "k8s") (call_world lab_refused.2) = (Raise TopoK8SHasBlueprintException, call_world lab_refused.2).
Proof.
  assert (Hup : ∀ l ev, redis_publish l ev = Ok tt) by reflexivity.
  destruct (used_cluster_is_kept Hup "A" lab_topology lab_world lab_history (call_world lab_refused.2)) as (m' & _ & Hk).
  - split; [reflexivity|exact lab_topology_ok].
  - unfold lab_history, lab_refused. apply history_call. unfold lab_installed. apply (history_call _ []).
    apply history_init, history_start.
  - intros e [->%list_elem_of_singleton| ->%list_elem_of_singleton]%elem_of_app; [reflexivity|discriminate].
  - apply (Hk 0%nat lab_cluster); [reflexivity|]. vm_compute. apply le_n.
Defined.
End ConcreteCluster.
