(* ===== verification/Proxmox.v ===== *)
(** * The Proxmox provider

    blueprints_ng/providers/virtualization/proxmox: virtual machines and networks of a Proxmox node, through
    commands sent over SSH and through its REST interface.  SSH, HTTP, the JSON reader and the validation of
    the answers are an interface. *)

From Stdlib Require Import Ascii.
From stdpp Require Import base list strings gmap pretty.
From Stdlib Require Import ZArith Lia.
From S2P Require Import Prelude Ipam IPv4Text VimModels Ansible Resources VirtCommon.
From S2P Require Core5GModels.

Open Scope Z_scope.

(** ** models.py *)
Record ProxmoxTicket := { ticket : option string; csrfpreventiontoken : option string }.
Record ProxmoxMac := { p_mac : string; p_net_name : string; hw_interface_name : string; p_interface_name : string }.
#[export] Instance ProxmoxMac_eq_dec : EqDecision ProxmoxMac.
Proof. solve_decision. Defined.
Record ProxmoxNode := { node : string; node_status : string }.
Record ProxmoxZone := { zone_digest : string; zone_type : string; zone : string }.
Record Subnet := { subnet_vnet : option string; subnet_id : option string; subnet_cidr : string; subnet_zone : string }.

(** The devices given to each machine, as the dictionary [nets]. *)
Definition ProxmoxNetsDevice : Type := list (string * list string).
Definition get_next_available_interface (vmid : string) (nets : ProxmoxNetsDevice) : result string :=
  match od_get vmid nets with
  | Some l =>
      last ← py_getitem l (-1);
      index ← py_getitem (split_text "net" last) 1;
      n ← Core5GModels.py_int index;
      Ok ("net" +:+ pretty (n + 1))
  | None => Ok "net0"
  end.
Definition add_net_device (vmid : string) (nets : ProxmoxNetsDevice) : result (string * ProxmoxNetsDevice) :=
  interface_name ← get_next_available_interface vmid nets;
  let nets := if od_in vmid nets then nets else od_set vmid [] nets in
  l ← od_getitem vmid nets;
  Ok (interface_name, od_set vmid (l ++ [interface_name]) nets).

Record VirtualizationProviderDataProxmox := {
  proxmox_dict : gmap (option string) string;
  proxmox_macs : list (string * list ProxmoxMac);
  proxmox_net_device : ProxmoxNetsDevice;
  proxmox_vnet : list string;
  proxmox_node_name : string;
  proxmox_credentials : ProxmoxTicket
}.
Definition new_data : VirtualizationProviderDataProxmox :=
  {| proxmox_dict := ∅; proxmox_macs := []; proxmox_net_device := []; proxmox_vnet := []; proxmox_node_name := EmptyString;
     proxmox_credentials := {| ticket := None; csrfpreventiontoken := None |} |}.
Definition set_dict x (d : VirtualizationProviderDataProxmox) :=
  {| proxmox_dict := x; proxmox_macs := proxmox_macs d; proxmox_net_device := proxmox_net_device d; proxmox_vnet := proxmox_vnet d;
     proxmox_node_name := proxmox_node_name d; proxmox_credentials := proxmox_credentials d |}.
Definition set_macs x (d : VirtualizationProviderDataProxmox) :=
  {| proxmox_dict := proxmox_dict d; proxmox_macs := x; proxmox_net_device := proxmox_net_device d; proxmox_vnet := proxmox_vnet d;
     proxmox_node_name := proxmox_node_name d; proxmox_credentials := proxmox_credentials d |}.
Definition set_devices x (d : VirtualizationProviderDataProxmox) :=
  {| proxmox_dict := proxmox_dict d; proxmox_macs := proxmox_macs d; proxmox_net_device := x; proxmox_vnet := proxmox_vnet d;
     proxmox_node_name := proxmox_node_name d; proxmox_credentials := proxmox_credentials d |}.
Definition set_vnet x (d : VirtualizationProviderDataProxmox) :=
  {| proxmox_dict := proxmox_dict d; proxmox_macs := proxmox_macs d; proxmox_net_device := proxmox_net_device d; proxmox_vnet := x;
     proxmox_node_name := proxmox_node_name d; proxmox_credentials := proxmox_credentials d |}.
Definition set_node x (d : VirtualizationProviderDataProxmox) :=
  {| proxmox_dict := proxmox_dict d; proxmox_macs := proxmox_macs d; proxmox_net_device := proxmox_net_device d; proxmox_vnet := proxmox_vnet d;
     proxmox_node_name := x; proxmox_credentials := proxmox_credentials d |}.
Definition set_credentials x (d : VirtualizationProviderDataProxmox) :=
  {| proxmox_dict := proxmox_dict d; proxmox_macs := proxmox_macs d; proxmox_net_device := proxmox_net_device d; proxmox_vnet := proxmox_vnet d;
     proxmox_node_name := proxmox_node_name d; proxmox_credentials := x |}.

(** ** What the provider reaches *)
Inductive ApiRequestType := POST | PUT | GET | DELETE.
Record Response := { reason_phrase : string; body : result pyval }.

(** A command gives its exit status and the lines it prints; the validations are those of the models above;
    [repr] is the text Python gives to a list or a dictionary. *)
Class Proxmox (P : Type) := {
  host_connect : string → string → string → M P unit;
  exec_command : string → string → M P (Z * list string);
  sftp_put : string → string → string → M P unit;
  http_request : ApiRequestType → string → list (string * string) → dict → pyval → M P Response;
  json_loads : string → result pyval;
  repr : pyval → string;
  validate_nodes : pyval → result (list ProxmoxNode);
  validate_zones : pyval → result (list ProxmoxZone);
  validate_subnets : pyval → result (list Subnet)
}.

(** ** Values of JSON *)
Definition subscript (v : pyval) (k : string) : result pyval :=
  match v with VDict d => dict_getitem d k | _ => Raise TypeError end.
(** [for x in v]. *)
Definition iterate (v : pyval) : result (list pyval) :=
  match v with
  | VList l => Ok l
  | VDict d => Ok ((λ p, VStr p.1) <$> d)
  | VStr s => Ok ((λ c, VStr (String c EmptyString)) <$> String.list_ascii_of_string s)
  | _ => Raise TypeError
  end.
(** [v[0]]. *)
Definition first_item (v : pyval) : result pyval :=
  match v with
  | VList (x :: _) => Ok x
  | VList [] | VStr EmptyString => Raise IndexError
  | VStr (String c _) => Ok (VStr (String c EmptyString))
  | VDict _ => Raise KeyError
  | _ => Raise TypeError
  end.
(** A field that has to be a string. *)
Definition str_field (v : pyval) : result string := match v with VStr s => Ok s | _ => Raise ValidationError end.
(** [s in v], for a text [s]. *)
Definition contains (s : string) (v : pyval) : result bool :=
  match v with
  | VStr t => Ok (match split_text s t with [_] => false | _ => true end)
  | VList l => Ok (existsb (λ x, match x with VStr t => String.eqb t s | _ => false end) l)
  | VDict d => Ok (dict_has s d)
  | _ => Raise TypeError
  end.
(** An optional text, or a value, in an f-string. *)
Definition opt_text (o : option string) : string := default "None" o.
Definition words : list string → string := py_join " "%char.

(** "^net[0-9]+$", which allows a line feed at the end. *)
Fixpoint digits_to_end (s : string) : bool :=
  match s with
  | EmptyString => true
  | String c EmptyString => Core5GModels.is_digit c || Ascii.eqb c newline
  | String c s' => Core5GModels.is_digit c && digits_to_end s'
  end.
Definition is_net_key (s : string) : bool :=
  match strip_prefix "net" s with
  | Some (String c s') => Core5GModels.is_digit c && digits_to_end s'
  | _ => false
  end.

(** A device of the configuration of a machine: "virtio=<mac>,bridge=<net>,...". *)
Definition parse_device (key : string) (v : pyval) : result ProxmoxMac :=
  t ← match v with VStr s => Ok s | _ => Raise AttributeError end;
  let tmp := py_split ","%char t in
  t0 ← py_getitem tmp 0;
  m ← py_getitem (split_text "virtio=" t0) 1;
  t1 ← py_getitem tmp 1;
  n ← py_getitem (split_text "bridge=" t1) 1;
  k ← py_getitem (split_text "net" key) 1;
  Ok {| p_mac := lower (strip m); p_net_name := strip n; hw_interface_name := key; p_interface_name := "eth" +:+ k |}.
Definition add_mac (vmid : string) (m : ProxmoxMac) (macs : list (string * list ProxmoxMac)) : list (string * list ProxmoxMac) :=
  let l := default [] (od_get vmid macs) in
  od_set vmid (if bool_decide (m ∈ l) then l else l ++ [m]) macs.

(** The free identifiers, in order. *)
Definition nfvcl_vmid : list Z := (λ k, 10000 + Z.of_nat k) <$> seq 0 1000.
Fixpoint drop_used (vms : list pyval) (ids : list Z) : result (list Z) :=
  match vms with
  | [] => Ok ids
  | item :: l =>
      v ← subscript item "vmid";
      drop_used l (match v with VInt z => List.filter (λ i, negb (i =? z)) ids | _ => ids end)
  end.
Definition pick_vmid (vms : pyval) : result Z := l ← iterate vms; ids ← drop_used l nfvcl_vmid; py_getitem ids 0.

(** The path of the storage that can hold images. *)
Fixpoint storage_path (storage_id : option string) (l : list pyval) : result pyval :=
  match l with
  | [] => Ok VNone
  | item :: l' =>
      s ← subscript item "storage";
      if match s, storage_id with VStr x, Some y => String.eqb x y | VNone, None => true | _, _ => false end then
        c ← subscript item "content";
        iso ← contains "iso" c;
        if (iso : bool) then subscript item "path" else storage_path storage_id l'
      else storage_path storage_id l'
  end.

(** [ipaddress.ip_network(cidr)], for IPv4: the mask is a length, a netmask or a hostmask, and no host bit may
    be set. *)
Definition ip_network (cidr : string) : result IPv4Network :=
  a_p ← match py_split "/"%char cidr with
        | [a] => Ok (a, Ok 32)
        | [a; m] => Ok (a, mask_length m)
        | _ => Raise ValueError
        end : result (string * result Z);
  let '(a, p) := a_p in
  match IPv4Address_str a, p with
  | Ok n, Ok len => if n mod 2 ^ (32 - len) =? 0 then Ok {| network_address := n; prefixlen := len |} else Raise ValueError
  | _, _ => Raise ValueError
  end.
(** The gateway, and the first and the last address that is leased. *)
Definition get_ips_for_subnets (cidr : string) : result (string * string * string) :=
  ips ← ip_network cidr;
  gateway ← network_getitem ips (-2);
  start_dhcp ← network_getitem ips 2;
  end_dhcp ← network_getitem ips (-3);
  Ok (exploded gateway, exploded start_dhcp, exploded end_dhcp).

(** Megabytes of each disk, from the lines of the configuration. *)
Definition disk_size (line : string) : result Z :=
  t ← py_getitem (split_text "size=" line) 1;
  m ← py_getitem (py_split "M"%char t) 0;
  Core5GModels.py_int (strip m).
(** [math.ceil((desired - size) / 1024)]. *)
Definition gigabytes_to_add (desired size : Z) : Z := - (- (desired - size) / 1024).

(** ** The provider *)
Section provider.
Context {P : Type} `{!Proxmox P, !Machines P, !Persistence P}.
Variable vim : VimModel.
Variable path : pyval.
Variable blueprint_id : string.
(** How often the guest agent is asked. *)
Variable patience : nat.
#[local] Abbreviation Data := VirtualizationProviderDataProxmox.
#[local] Abbreviation MD := (M (Data * P)).
#[local] Abbreviation MC := (M (Call Data P)).
Definition outside {A} (m : M P A) : MD A := zoom snd (λ p s, (s.1, p)) m.
Definition data : MD Data := s ← getS; mret s.1.
Definition update_data (f : Data → Data) : MD unit := modifyS (λ s, (f s.1, s.2)).
(** A method that does not look at the machine. *)
Definition without_vm {A} (m : MD A) : MC A :=
  zoom (λ c, (call_data c, call_world c)) (λ s c, {| call_vm := call_vm c; call_data := s.1; call_world := s.2 |}) m.

Definition path_text : string := match path with VStr s => s | VNone => "None" | v => repr v end.
Definition number_text (v : pyval) : string :=
  match v with VStr s => s | VInt z => pretty z | VBool true => "True" | VBool false => "False" | VNone => "None" | v => repr v end.

(** *** Commands and requests *)
Definition execute_ssh_command (command : string) : M P (list string) :=
  '(exit_status, stdout) ← exec_command (vim_url vim) command;
  if exit_status =? 0 then mret stdout else raise VirtualizationProviderProxmoxException.
Definition readline (stdout : list string) : string := default EmptyString (head stdout).
Definition execute_rest_request (url : string) (parameters : dict) (r_type : ApiRequestType) (my_json : pyval) : MD Response :=
  d ← data;
  outside (http_request r_type ("https://" +:+ vim_url vim +:+ ":8006/api2/json/" +:+ url)
             [("Content-Type", "application/json");
              ("Cookie", "PVEAuthCookie=" +:+ opt_text (ticket (proxmox_credentials d)));
              ("CSRFPreventionToken", opt_text (csrfpreventiontoken (proxmox_credentials d)))]
             parameters (match r_type with POST => my_json | _ => VNone end)).
Definition json {A} (validate : pyval → result A) (r : Response) : MD A := liftR (b ← body r; validate b).
Definition run (command : string) : MD unit := outside (execute_ssh_command command) ;; mret tt.

(** *** Machines *)
Definition get_free_vmid : MD Z :=
  stdout ← outside (execute_ssh_command "pvesh get /cluster/resources --type vm --output-format json");
  liftR (vms ← json_loads (readline stdout); pick_vmid vms).

Definition load_cloud_init (cloud_init cloud_init_path : string) : MD unit :=
  run ("echo -e '" +:+ cloud_init +:+ "' > " +:+ cloud_init_path).
Definition download_cloud_image (url name : string) : MD unit :=
  run (words ["/root/scripts/image_script.sh"; url; path_text +:+ "/template/qcow/" +:+ name +:+ ".qcow2"]).

(** The devices of the machine are added to those already known, up to the first that is not understood. *)
Fixpoint read_devices (vmid : string) (config : dict) : MD unit :=
  match config with
  | [] => mret tt
  | (key, v) :: l =>
      (if is_net_key key then
         m ← liftR (parse_device key v);
         update_data (λ d, set_macs (add_mac vmid m (proxmox_macs d)) d)
       else mret tt) ;;
      read_devices vmid l
  end.
Definition get_macs (vmid : string) : MD unit :=
  d ← data;
  response ← execute_rest_request ("nodes/" +:+ proxmox_node_name d +:+ "/qemu/" +:+ vmid +:+ "/config") [] GET VNone;
  config ← liftR (b ← body response; subscript b "data");
  match config with
  | VDict config => read_devices vmid config
  | _ => raise AttributeError
  end.

Definition known_macs (vmid : string) : MD (list ProxmoxMac) := d ← data; liftR (od_getitem vmid (proxmox_macs d)).
Definition new_device (vmid : string) : MD string :=
  d ← data;
  '(interface, nets) ← liftR (add_net_device vmid (proxmox_net_device d));
  update_data (set_devices nets) ;;
  mret interface.

Definition resize_disk (vmid : string) (desired_size : Z) : MD unit :=
  stdout ← outside (execute_ssh_command ("qm config " +:+ vmid +:+ " | grep -E 'scsi[0-9]+:'"));
  sizes ← liftR (map_result disk_size stdout);
  size ← liftR (py_getitem sizes 0);
  let desired_size := desired_size * 1024 in
  if size <? desired_size then run (words ["qm"; "resize"; vmid; "scsi0"; "+" +:+ pretty (gigabytes_to_add desired_size size) +:+ "G"])
  else raise VirtualizationProviderProxmoxException.

(** The agent is asked until it answers; false when the patience is over. *)
Fixpoint agent_loop (fuel : nat) (vmid : string) : M P bool :=
  match fuel with
  | O => mret false
  | S fuel =>
      '(exit_status, _) ← exec_command (vim_url vim) (words ["qm"; "agent"; vmid; "ping"]);
      if exit_status =? 0 then mret true else agent_loop fuel vmid
  end.
Definition qemu_guest_agent_ready (vmid : string) : M P bool := agent_loop patience vmid.

(** One card as the agent reports it, for one device that has its hardware address. *)
Definition agent_address (interface : pyval) (m : string) : result VmResourceNetworkInterface :=
  name ← subscript interface "name";
  has ← contains "ip-addresses" interface;
  '(ip, cidr) ← (if has : bool then
                   l ← subscript interface "ip-addresses";
                   a ← first_item l;
                   ip ← subscript a "ip-address";
                   prefix ← subscript a "prefix";
                   Ok (ip, VStr (number_text ip +:+ "/" +:+ number_text prefix))
                 else Ok (VNone, VNone));
  name ← str_field name;
  ip ← str_field ip;
  cidr ← str_field cidr;
  Ok {| fixed := {| interface_name := name; mac := m; ip := ip; cidr := cidr |}; floating := None |}.
Definition add_interface (net : string) (i : VmResourceNetworkInterface) (v : VmResource) : VmResource :=
  let l := default [] (od_get net (network_interfaces v)) in
  set_vm_interfaces (od_set net (if bool_decide (i ∈ l) then l else l ++ [i]) (network_interfaces v)) v.
Fixpoint parse_card (interface : pyval) (m : string) (macs : list ProxmoxMac) : MC unit :=
  match macs with
  | [] => mret tt
  | p :: l =>
      (if String.eqb m (p_mac p) then
         i ← liftR (agent_address interface m);
         change_vm (add_interface (p_net_name p) i)
       else mret tt) ;;
      parse_card interface m l
  end.
Fixpoint parse_cards (vmid : string) (l : list pyval) : MC unit :=
  match l with
  | [] => mret tt
  | interface :: l' =>
      hardware ← liftR (subscript interface "hardware-address");
      macs ← without_vm (known_macs vmid);
      match hardware with VStr m => parse_card interface m macs | _ => mret tt end ;;
      parse_cards vmid l'
  end.
Definition parse_proxmox_addresses (vmid : string) : MC unit :=
  net_informations ← without_vm (
    stdout ← outside (execute_ssh_command (words ["qm"; "agent"; vmid; "network-get-interfaces"]));
    net_informations ← liftR (json_loads (words stdout));
    get_macs vmid ;;
    mret net_informations);
  l ← liftR (iterate net_informations);
  parse_cards vmid l.

Definition cloud_init_packages : list string := ["qemu-guest-agent"].
Definition cloud_init_runcmd : list string := ["systemctl enable qemu-guest-agent.service"; "systemctl start qemu-guest-agent.service"].
Definition snippet (kind vmid : string) : string := kind +:+ "_cloud_init_" +:+ vmid +:+ "_" +:+ blueprint_id +:+ ".yaml".
Definition network_cloud_init (management : string) (macs : list ProxmoxMac) : CloudInitNetworkRoot :=
  foldl (λ n m, add_device (p_interface_name m) (p_mac m) (negb (String.eqb (p_net_name m) management)) n) [] macs.

Definition choose_node : MD unit :=
  d ← data;
  if (String.length (proxmox_node_name d) =? 0)%nat then
    response ← execute_rest_request "nodes" [] GET VNone;
    nodes ← json validate_nodes response;
    n ← liftR (py_getitem nodes 0);
    update_data (set_node (node n))
  else mret tt.

(** Until the machine is recorded. *)
Definition prepare_vm : MC string :=
  without_vm choose_node ;;
  v ← the_vm;
  without_vm (download_cloud_image (opt_text (image_url (image v))) (image_name (image v))) ;;
  c_init ← liftR (add_user (username v) (password v) (new_CloudInit (ssh_keys vim) (Some cloud_init_packages) (Some cloud_init_runcmd)));
  without_vm (
    vmid ← get_free_vmid;
    let vmid := pretty vmid in
    load_cloud_init (cloud_config_text c_init) (path_text +:+ "/snippets/" +:+ snippet "user" vmid) ;;
    interface0 ← new_device vmid;
    run (words ["qm"; "create"; vmid; "--agent"; "1"; "--memory"; memory_mb (flavor v); "--name"; get_name_k8s_format (vm_name v);
                "--cores"; vcpu_count (flavor v); "--sockets"; "1"; "--cpu"; opt_text (vcpu_type (flavor v)); "--" +:+ interface0;
                "virtio,bridge=" +:+ management_network v +:+ ",firewall=0"; "--scsihw"; "virtio-scsi-pci"]) ;;
    for_each (additional_networks v) (λ net,
      interface ← new_device vmid;
      run (words ["qm"; "set"; vmid; "--" +:+ interface; "virtio,bridge=" +:+ net +:+ ",firewall=0"])) ;;
    get_macs vmid ;;
    macs ← known_macs vmid;
    load_cloud_init (yaml_text (network_config (network_cloud_init (management_network v) macs)))
                    (path_text +:+ "/snippets/" +:+ snippet "network" vmid) ;;
    update_data (λ d, set_dict (<[vm_id v := vmid]> (proxmox_dict d)) d) ;;
    mret vmid).

(** The disk, and the files for the first start. *)
Definition equip_vm (v : VmResource) (vmid : string) : MD unit :=
  let volume := opt_text (vim_proxmox_storage_volume vim) in
  run (words ["qm"; "importdisk"; vmid; path_text +:+ "/template/qcow/" +:+ image_name (image v) +:+ ".qcow2"; volume]) ;;
  run (words ["qm"; "set"; vmid; "--scsi0"; volume +:+ ":vm-" +:+ vmid +:+ "-disk-0,discard=on,iothread=on,cache=writethrough"]) ;;
  size ← liftR (Core5GModels.py_int (storage_gb (flavor v)));
  resize_disk vmid size ;;
  run (words ["qm"; "set"; vmid; "--ide2"; volume +:+ ":cloudinit"]) ;;
  run (words ["qm"; "set"; vmid; "--boot"; "order=scsi0"]) ;;
  run (words ["qm"; "set"; vmid; "--cicustom";
              double_quote +:+ "user=local:snippets/" +:+ snippet "user" vmid +:+ ",network=local:snippets/" +:+ snippet "network" vmid +:+ double_quote]).

(** When the guest agent has not answered yet the call has not returned: there is no result. *)
Definition create_vm : MC (option unit) :=
  vmid ← prepare_vm;
  world (save_to_db blueprint_id) ;;
  v ← the_vm;
  without_vm (equip_vm v vmid) ;;
  world (save_to_db blueprint_id) ;;
  without_vm (run (words ["qm"; "start"; vmid])) ;;
  ready ← world (qemu_guest_agent_ready vmid);
  if (ready : bool) then
    parse_proxmox_addresses vmid ;;
    v ← the_vm;
    match od_get (management_network v) (network_interfaces v) with
    | Some (i :: _) => change_vm (set_access_ip (Some (ip (fixed i))))
    | _ => raise VirtualizationProviderProxmoxException
    end ;;
    change_vm set_created ;;
    world (save_to_db blueprint_id) ;;
    mret (Some tt)
  else mret None.

(** After the check of the interface that the machine is created, and the dump of the playbook. *)
Definition configure_vm (v : VmResource) (playbook : pyval) : MD (list (string * pyval)) :=
  configurator_facts ← outside (configure_vm_ansible blueprint_id v playbook);
  outside (save_to_db blueprint_id) ;;
  mret configurator_facts.

Definition destroy_vm (v : VmResource) : MD unit :=
  d ← data;
  vmid ← liftR (match proxmox_dict d !! vm_id v with Some i => Ok i | None => Raise KeyError end);
  run (words ["qm"; "stop"; vmid]) ;;
  run (words ["qm"; "destroy"; vmid; "--purge"; "1"; "--destroy-unreferenced-disks"; "1"]) ;;
  run (words ["rm"; path_text +:+ "/snippets/" +:+ snippet "user" vmid]) ;;
  run (words ["rm"; path_text +:+ "/snippets/" +:+ snippet "network" vmid]) ;;
  update_data (λ d, set_dict (delete (vm_id v) (proxmox_dict d)) d).

(** *** Networks attached to a machine *)
Fixpoint attach_each (vmid : string) (nets : list string) : MC (list string) :=
  match nets with
  | [] => mret []
  | net :: l =>
      change_vm (λ v, set_vm_networks (additional_networks v ++ [net]) v) ;;
      interface ← without_vm (new_device vmid);
      without_vm (run (words ["qm"; "set"; vmid; "--" +:+ interface; "virtio,bridge=" +:+ net +:+ ",firewall=0"])) ;;
      rest ← attach_each vmid l;
      mret (interface :: rest)
  end.
Definition nics_of (macs : list ProxmoxMac) (interface : string) : list NetplanInterface :=
  (λ m, {| nic_name := p_interface_name m; nic_mac := p_mac m |}) <$>
    List.filter (λ m, String.eqb (hw_interface_name m) interface) macs.
(** The addresses of the new cards, each once. *)
Definition ips_of_net (nics : list NetplanInterface) (ifs : list VmResourceNetworkInterface) (ips : list string) : list string :=
  foldl (λ ips nic, foldl (λ ips i,
    if String.eqb (interface_name (fixed i)) (nic_name nic) && negb (py_in String.eqb (ip (fixed i)) ips)
    then ips ++ [ip (fixed i)] else ips) ips ifs) ips nics.
Fixpoint new_ips (nics : list NetplanInterface) (nets : list string) (v : VmResource) (ips : list string) : result (list string) :=
  match nets with
  | [] => Ok ips
  | net :: l =>
      ifs ← match nics with [] => Ok [] | _ => interfaces_of net v end;
      new_ips nics l v (ips_of_net nics ifs ips)
  end.
Definition attach_nets (nets_name : list string) : MC (list string) :=
  v ← the_vm;
  d ← without_vm data;
  vmid ← liftR (match proxmox_dict d !! vm_id v with Some i => Ok i | None => Raise KeyError end);
  interfaces ← attach_each vmid nets_name;
  n ← liftR (Core5GModels.py_int vmid);
  without_vm (get_macs (pretty n)) ;;
  macs ← (if (length interfaces =? 0)%nat then mret [] else without_vm (known_macs vmid));
  let nics := concat (nics_of macs <$> interfaces) in
  v ← the_vm;
  world (configure_vm_ansible blueprint_id v (build (add_nic_playbook nics))) ;;
  parse_proxmox_addresses vmid ;;
  world (save_to_db blueprint_id) ;;
  v ← the_vm;
  liftR (new_ips nics nets_name v []).

(** *** Networks of the node *)
Definition apply_sdn : MD unit := run "pvesh set /cluster/sdn".
Definition get_nfvcl_sdn_zone : MD ProxmoxZone :=
  response ← execute_rest_request "cluster/sdn/zones" [("type", VStr "simple")] GET VNone;
  zones ← json validate_zones response;
  match find (λ z, String.eqb (lower (zone z)) "nfvcl") zones with
  | Some z => mret z
  | None => raise VirtualizationProviderProxmoxException
  end.
Definition check_phrase (r : Response) : MD unit :=
  if String.eqb (reason_phrase r) "OK" then mret tt else raise VirtualizationProviderProxmoxException.
Definition create_sdn_vnet (vnet : NetResource) : MD unit :=
  nfvcl_zone ← get_nfvcl_sdn_zone;
  stdout ← execute_rest_request "cluster/sdn/vnets" [] POST (VDict [("vnet", VStr (net_name vnet)); ("zone", VStr (zone nfvcl_zone))]);
  check_phrase stdout ;;
  apply_sdn ;;
  update_data (λ d, set_vnet (proxmox_vnet d ++ [lower (net_name vnet)]) d).
Definition create_sdn_subnet (vnet : NetResource) : MD unit :=
  '(gateway, start_dhcp, end_dhcp) ← liftR (get_ips_for_subnets (net_cidr vnet));
  stdout ← execute_rest_request ("cluster/sdn/vnets/" +:+ net_name vnet +:+ "/subnets") [] POST
    (VDict [("subnet", VStr (net_cidr vnet)); ("type", VStr "subnet"); ("gateway", VStr gateway);
            ("dhcp-range", VStr ("start-address=" +:+ start_dhcp +:+ ",end-address=" +:+ end_dhcp))]);
  check_phrase stdout ;;
  apply_sdn.
Definition create_net (net_resource : NetResource) : MD unit := create_sdn_vnet net_resource ;; create_sdn_subnet net_resource.

Definition delete_sdn_subnet (s : Subnet) : MD unit :=
  run ("pvesh delete /cluster/sdn/vnets/" +:+ opt_text (subnet_vnet s) +:+ "/subnets/" +:+ opt_text (subnet_id s)) ;; apply_sdn.
Definition delete_sdn_vnet (vnet : string) : MD unit :=
  response ← execute_rest_request ("cluster/sdn/vnets/" +:+ vnet +:+ "/subnets") [] GET VNone;
  subnets ← json validate_subnets response;
  for_each subnets delete_sdn_subnet ;;
  run ("pvesh delete /cluster/sdn/vnets/" +:+ vnet) ;;
  apply_sdn ;;
  d ← data;
  l ← liftR (py_remove String.eqb (lower vnet) (proxmox_vnet d));
  update_data (set_vnet l).

(** The list is iterated by position while each turn removes an element of it; the length it had is enough
    turns. *)
Fixpoint cleanup_from (fuel i : nat) : MD unit :=
  match fuel with
  | O => mret tt
  | S fuel =>
      d ← data;
      match proxmox_vnet d !! i with
      | None => mret tt
      | Some vnet => delete_sdn_vnet vnet ;; cleanup_from fuel (S i)
      end
  end.
Definition final_cleanup : MD unit := d ← data; cleanup_from (length (proxmox_vnet d)) 0.
End provider.

(** ** [init] *)
Section init.
Context {P : Type} `{!Proxmox P, !Machines P, !Persistence P}.
Variable vim : VimModel.
Definition ticket_of (response : Response) : result ProxmoxTicket :=
  b ← body response;
  d ← subscript b "data";
  t ← subscript d "ticket";
  c ← subscript d "CSRFPreventionToken";
  t ← str_field t;
  c ← str_field c;
  Ok {| ticket := Some t; csrfpreventiontoken := Some c |}.
(** The path of the storage, and the data of a new provider. *)
Definition init : M P (pyval * VirtualizationProviderDataProxmox) :=
  host_connect (vim_url vim) (vim_user vim) (vim_password vim) ;;
  stdout ← execute_ssh_command vim "pvesh get /storage --output-format json";
  path ← liftR (v ← json_loads (readline stdout); l ← iterate v; storage_path (vim_proxmox_storage_id vim) l);
  response ← http_request POST ("https://" +:+ vim_url vim +:+ ":8006/api2/json/access/ticket") [("Content-Type", "application/json")] []
    (VDict [("username", VStr (vim_user vim +:+ "@" +:+ opt_text (vim_proxmox_realm vim))); ("password", VStr (vim_password vim))]);
  t ← liftR (ticket_of response);
  execute_ssh_command vim ("mkdir -p " +:+ path_text path +:+ "/snippets") ;;
  execute_ssh_command vim ("mkdir -p " +:+ path_text path +:+ "/template/qcow") ;;
  execute_ssh_command vim "mkdir -p /root/scripts" ;;
  sftp_put (vim_url vim) "scripts/image_script.sh" "/root/scripts/image_script.sh" ;;
  execute_ssh_command vim "chmod +x /root/scripts/image_script.sh" ;;
  mret (path, set_credentials t new_data).
End init.
