(* ===== verification/ProxmoxProps.v ===== *)
(** * What the Proxmox provider guarantees

    Identifiers, devices, address ranges and disks; what is left after a cleanup, and after a creation that
    fails. *)

From Stdlib Require Import Ascii.
From stdpp Require Import base list strings gmap pretty.
From Stdlib Require Import ZArith Lia.
From S2P Require Import Prelude Ipam IPv4Text VimModels Ansible Resources VirtCommon Proxmox.
From S2P Require Core5GModels.

Open Scope Z_scope.

(** ** Devices of a machine *)
Definition device (k : nat) : string := "net" +:+ pretty (Z.of_nat k).

Lemma digits_no_n s : all_chars Core5GModels.is_digit s = true → split_from "net" 0 s = [s].
Proof.
  induction s as [|c s IH]; [done|]. cbn [all_chars]. intros [Hc Hs]%andb_true_iff. cbn [split_from strip_prefix].
  destruct (Ascii.eqb_spec "n" c) as [<-|_]; [by vm_compute in Hc|]. by rewrite (IH Hs).
Qed.
Lemma device_number k : py_getitem (split_text "net" (device k)) 1 = Ok (pretty (Z.of_nat k)).
Proof.
  assert (Hd : all_chars Core5GModels.is_digit (pretty (Z.of_nat k)) = true).
  { destruct k as [|k]; [done|]. exact (proj1 (Core5GModels.pretty_N_digits (Npos (Pos.of_succ_nat k)))). }
  change (split_text "net" (device k)) with (EmptyString :: split_from "net" 0 (pretty (Z.of_nat k))).
  by rewrite digits_no_n.
Qed.

Lemma next_device vmid nets l k : od_get vmid nets = Some (l ++ [device k]) →
  add_net_device vmid nets = Ok (device (S k), od_set vmid (l ++ [device k] ++ [device (S k)]) nets).
Proof.
  intros Hg. unfold add_net_device, get_next_available_interface. rewrite Hg.
  assert (Hl : py_getitem (l ++ [device k]) (-1) = Ok (device k)).
  { unfold py_getitem, py_pos. rewrite length_app. cbn. replace (-1 + Z.of_nat (length l + 1)) with (Z.of_nat (length l)) by lia.
    rewrite (proj2 (Z.leb_le 0 _)), (proj2 (Z.ltb_lt _ _)) by lia. cbn. rewrite Nat2Z.id. by rewrite list_lookup_middle. }
  rewrite Hl. cbn [mbind result_bind]. rewrite device_number. cbn [mbind result_bind]. rewrite Core5GModels.py_int_pretty.
  cbn [mbind result_bind]. unfold od_in. rewrite Hg. unfold od_getitem. rewrite Hg. cbn [mbind result_bind].
  rewrite <-app_assoc. unfold device. by replace (Z.of_nat k + 1) with (Z.of_nat (S k)) by lia.
Qed.

(** [n] devices in a row. *)
Fixpoint add_devices (n : nat) (vmid : string) (nets : ProxmoxNetsDevice) : result (list string * ProxmoxNetsDevice) :=
  match n with
  | O => Ok ([], nets)
  | S n =>
      '(i, nets) ← add_net_device vmid nets;
      '(l, nets) ← add_devices n vmid nets;
      Ok (i :: l, nets)
  end.
Lemma add_devices_from n : ∀ vmid nets l k, od_get vmid nets = Some (l ++ [device k]) →
  ∃ nets', add_devices n vmid nets = Ok (device <$> seq (S k) n, nets') ∧
    od_get vmid nets' = Some (l ++ (device <$> seq k (S n))) ∧ ∀ v, v ≠ vmid → od_get v nets' = od_get v nets.
Proof.
  induction n as [|n IH]; intros vmid nets l k Hg; [by exists nets|]. cbn [add_devices]. rewrite (next_device vmid nets l k Hg).
  cbn [mbind result_bind].
  destruct (IH vmid (od_set vmid (l ++ [device k] ++ [device (S k)]) nets) (l ++ [device k]) (S k)) as (nets' & E & H1 & H2).
  { by rewrite od_get_set_eq, <-app_assoc. }
  rewrite E. cbn [mbind result_bind]. exists nets'. split; [done|]. split; [by rewrite H1, <-app_assoc|].
  intros v Hv. rewrite H2, od_get_set_ne by done. done.
Qed.

(** The network devices of a machine are numbered from zero. However many cards a machine that has none is
    given, their devices are "net0", "net1", ..., each once and in order, recorded in that order, and the devices
    of the other machines do not change. *)
Theorem devices_in_order vmid nets n :
  od_get vmid nets = None → (0 < n)%nat →
  ∃ nets', add_devices n vmid nets = Ok (device <$> seq 0 n, nets') ∧ NoDup (device <$> seq 0 n) ∧
    od_get vmid nets' = Some (device <$> seq 0 n) ∧ ∀ v, v ≠ vmid → od_get v nets' = od_get v nets.
Proof.
  intros Hg Hn. destruct n as [|n]; [lia|]. cbn [add_devices].
  assert (Ha : add_net_device vmid nets = Ok ("net0", od_set vmid ["net0"] (od_set vmid [] nets))).
  { unfold add_net_device, get_next_available_interface, od_in, od_getitem. rewrite Hg. cbn [mbind result_bind].
    by rewrite od_get_set_eq. }
  rewrite Ha. cbn [mbind result_bind]. rewrite od_set_set.
  destruct (add_devices_from n vmid (od_set vmid ["net0"] nets) [] 0) as (nets' & E & H1 & H2); [by rewrite od_get_set_eq|].
  rewrite E. cbn [mbind result_bind]. exists nets'. split; [done|]. split_and!; [|done|].
  - apply NoDup_fmap_2; [|apply NoDup_seq]. intros a b. unfold device. intros H. apply (inj (String.app "net")) in H. apply (inj pretty) in H. by apply Nat2Z.inj.
  - intros v Hv. by rewrite H2, od_get_set_ne.
Qed.

(** ** The identifier of a new machine *)
Definition vmid_of (item : pyval) : option pyval := match item with VDict d => match dict_getitem d "vmid" with Ok v => Some v | _ => None end | _ => None end.
Definition used (vms : list pyval) (i : Z) : Prop := Exists (λ item, vmid_of item = Some (VInt i)) vms.
#[local] Instance used_dec vms i : Decision (used vms i).
Proof. unfold used. apply Exists_dec. intros item. destruct (vmid_of item) as [[| |z| | |]|]; try (right; congruence). destruct (decide (z = i)) as [->|]; [by left|right; congruence]. Defined.

Lemma drop_used_spec vms : ∀ ids, Forall (λ item, is_Some (vmid_of item)) vms →
  drop_used vms ids = Ok (filter (λ i, ¬ used vms i) ids).
Proof.
  induction vms as [|item vms IH]; intros ids Hall; cbn [drop_used].
  - f_equal. induction ids as [|i ids IH]; [done|]. rewrite filter_cons, decide_True by (by intros ?%Exists_nil).
    by rewrite <-IH.
  - apply Forall_cons in Hall as [[v Hv] Hall].
    assert (Hs : subscript item "vmid" = Ok v).
    { unfold vmid_of in Hv. destruct item; try done. cbn. destruct (dict_getitem d "vmid"); congruence. }
    rewrite Hs. cbn [mbind result_bind]. rewrite IH by done. f_equal.
    assert (Hi : ∀ i, used (item :: vms) i ↔ v = VInt i ∨ used vms i).
    { intros i. unfold used. rewrite Exists_cons, Hv. naive_solver. }
    assert (Hf : ∀ z, List.filter (λ i, negb (i =? z)) ids = filter (λ i, i ≠ z) ids).
    { intros z. induction ids as [|i ids IHi]; [done|]. cbn [List.filter]. rewrite filter_cons. destruct (Z.eqb_spec i z) as [->|Hne]; cbn [negb].
      - by rewrite decide_False by (by intros []).
      - rewrite decide_True by done. by f_equal. }
    destruct v as [| |z| | |]; try (apply filter_in_iff; intros i _; rewrite Hi; naive_solver).
    rewrite Hf, list_filter_filter. apply filter_in_iff. intros i _. rewrite Hi. naive_solver.
Qed.

(** C38: a new machine gets the least free identifier. When every machine the node reports has an identifier,
    [pick_vmid] gives the least number from 10000 to 10999 that no machine has, and raises exactly when all of
    them are taken. *)
Theorem free_identifier_is_least vms :
  Forall (λ item, is_Some (vmid_of item)) vms →
  (∀ i, pick_vmid (VList vms) = Ok i ↔ 10000 ≤ i < 11000 ∧ ¬ used vms i ∧ ∀ j, 10000 ≤ j < i → used vms j) ∧
  (pick_vmid (VList vms) = Raise IndexError ↔ ∀ i, 10000 ≤ i < 11000 → used vms i).
Proof.
  intros Hall. unfold pick_vmid. cbn [iterate mbind result_bind]. rewrite (drop_used_spec vms nfvcl_vmid Hall). cbn [mbind result_bind].
  assert (Hgen : ∀ n a, (∀ i, py_getitem (filter (λ i, ¬ used vms i) ((λ k, a + Z.of_nat k) <$> seq 0 n)) 0 = Ok i ↔
      a ≤ i < a + Z.of_nat n ∧ ¬ used vms i ∧ ∀ j, a ≤ j < i → used vms j) ∧
    (py_getitem (filter (λ i, ¬ used vms i) ((λ k, a + Z.of_nat k) <$> seq 0 n)) 0 = Raise IndexError ↔
      ∀ i, a ≤ i < a + Z.of_nat n → used vms i)).
  { induction n as [|n IH]; intros a.
    - cbn. split; [|split; [intros _ i; lia|done]]. intros i. split; [done|lia].
    - cbn [seq fmap list_fmap]. rewrite <-fmap_S_seq, <-list_fmap_compose, filter_cons, Z.add_0_r.
      rewrite (list_fmap_ext _ (λ k, (a + 1) + Z.of_nat k)) by (intros ? k _; cbn; lia).
      destruct (decide (¬ used vms a)) as [Hn|Hu].
      + split; [|split; [done|intros H; destruct Hn; apply H; lia]]. intros i. cbn. split.
        * intros [= <-]. split_and!; [lia|lia|done|lia].
        * intros (Hi & Hni & Hj). f_equal. destruct (decide (i = a)) as [->|]; [done|]. destruct Hn. apply Hj. lia.
      + apply dec_stable in Hu. destruct (IH (a + 1)) as [IH1 IH2]. split.
        * intros i. rewrite IH1. split; intros (Hi & Hni & Hj).
          -- split_and!; [lia|lia|done|]. intros j Hlt. destruct (decide (j = a)) as [->|]; [done|]. apply Hj. lia.
          -- split_and!; [|lia|done|intros j Hlt; apply Hj; lia].
             destruct (decide (i = a)) as [->|]; [done|lia].
        * rewrite IH2. split; intros H i Hi; [|apply H; lia]. destruct (decide (i = a)) as [->|]; [done|]. apply H. lia. }
  apply (Hgen 1000%nat 10000).
Qed.

(** ** Addresses of a new network *)

Lemma digits_value_nonneg s : ∀ a v, 0 ≤ a → digits_value s a = Some v → 0 ≤ v.
Proof.
  induction s as [|c s IH]; intros a v Ha; cbn [digits_value]; [by intros [= <-]|].
  destruct (digit_of c) as [d|] eqn:E; [|done]. pose proof (Core5GModels.digit_of_bound c d E). apply IH. lia.
Qed.
Lemma find_length_bound p v : find_length p = Some v → 0 ≤ v ≤ 32.
Proof.
  unfold find_length. intros H. apply fmap_Some in H as (k & Hk & ->). apply find_some in Hk as [Hin%in_seq _]. lia.
Qed.
Lemma mask_length_bound s v : mask_length s = Ok v → 0 ≤ v ≤ 32.
Proof.
  unfold mask_length. destruct (digits_value s 0) as [w|] eqn:E.
  - destruct (String.eqb s EmptyString || (32 <? w)) eqn:Eb; [done|]. intros [= <-]. apply orb_false_iff in Eb as [_ Hw%Z.ltb_ge].
    pose proof (digits_value_nonneg s 0 w ltac:(lia) E). lia.
  - destruct (IPv4Address_str s) as [m|]; [|done]. destruct (netmask_length m) as [p|] eqn:Ef.
    + intros [= <-]. by apply (find_length_bound _ p Ef).
    + destruct (hostmask_length m) as [p|] eqn:Eh; [|done]. intros [= <-]. by apply (find_length_bound _ p Eh).
Qed.
Lemma ip_network_wf cidr n : ip_network cidr = Ok n → wf_network n.
Proof.
  unfold ip_network. intros H. apply result_bind_Ok_inv in H as ([a p] & Hs & H).
  destruct (IPv4Address_str a) as [w|] eqn:Ea; [|done]. destruct p as [len|]; [|done].
  assert (Hl : 0 ≤ len ≤ 32).
  { destruct (py_split "/"%char cidr) as [|x [|y [|]]]; try done; injection Hs as <- Hl; [subst len; lia|]. by apply (mask_length_bound y). }
  destruct (Z.eqb_spec (w mod 2 ^ (32 - len)) 0) as [Hm|]; [|done]. injection H as <-. apply IPv4Address_str_bound in Ea.
  unfold wf_network, broadcast_address, num_addresses. cbn. split; [done|]. split; [lia|]. unfold max_ipv4 in *.
  assert (Hp : 0 < 2 ^ (32 - len)) by (apply Z.pow_pos_nonneg; lia).
  assert (He : 2 ^ 32 = 2 ^ len * 2 ^ (32 - len)) by (rewrite <-Z.pow_add_r by lia; f_equal; lia).
  pose proof (Z.div_mod w (2 ^ (32 - len)) ltac:(lia)) as Hd. rewrite Hm in Hd.
  assert (w / 2 ^ (32 - len) < 2 ^ len) by (apply Z.div_lt_upper_bound; lia). nia.
Qed.

(** C39: the addresses leased in a new network leave the gateway free. For a network of at least eight
    addresses, the first and the last leased address and the gateway are in order, distinct, inside the network
    and different from the network's own two addresses; with fewer than eight the range is empty, holds the
    gateway, or does not exist. *)
Theorem leases_leave_the_gateway cidr n :
  ip_network cidr = Ok n →
  (prefixlen n ≤ 29 → ∃ g s e, get_ips_for_subnets cidr = Ok (exploded g, exploded s, exploded e) ∧
     network_address n < s ∧ s < e ∧ e < g ∧ g < broadcast_address n) ∧
  (prefixlen n = 30 → ∃ g s e, get_ips_for_subnets cidr = Ok (exploded g, exploded s, exploded e) ∧ e < s ∧ s = g) ∧
  (31 ≤ prefixlen n → get_ips_for_subnets cidr = Raise IndexError).
Proof.
  intros Hn. destruct (ip_network_wf cidr n Hn) as (Hp & Ha & Hb). unfold get_ips_for_subnets. rewrite Hn. cbn [mbind result_bind].
  assert (Hget : ∀ k, 0 ≤ network_address n + k ≤ broadcast_address n → 0 ≤ k →
    network_getitem n k = Ok (network_address n + k)).
  { intros k Hk Hk0. unfold network_getitem. rewrite (proj2 (Z.leb_le 0 k)) by lia. rewrite (proj2 (Z.ltb_ge _ _)) by lia.
    unfold IPv4Address. by rewrite (proj2 (Z.leb_le 0 _)), (proj2 (Z.leb_le _ max_ipv4)) by lia. }
  assert (Hneg : ∀ k, k < 0 → network_address n ≤ broadcast_address n + (k + 1) →
    network_getitem n k = Ok (broadcast_address n + (k + 1))).
  { intros k Hk0 Hk. unfold network_getitem. rewrite (proj2 (Z.leb_gt 0 k)) by lia. rewrite (proj2 (Z.ltb_ge _ _)) by lia.
    unfold IPv4Address. by rewrite (proj2 (Z.leb_le 0 _)), (proj2 (Z.leb_le _ max_ipv4)) by lia. }
  unfold broadcast_address, num_addresses in *. split_and!.
  - intros H29. assert (H8 : 8 ≤ 2 ^ (32 - prefixlen n)) by (change 8 with (2 ^ 3); apply Z.pow_le_mono_r; lia).
    rewrite (Hneg (-2)), (Hget 2), (Hneg (-3)) by lia. cbn [mbind result_bind]. eexists _, _, _. split; [done|]. lia.
  - intros H30. rewrite H30 in *. change (2 ^ (32 - 30)) with 4 in *.
    rewrite (Hneg (-2)), (Hget 2), (Hneg (-3)) by lia. cbn [mbind result_bind]. eexists _, _, _. split; [done|]. lia.
  - intros H31. assert (H2 : 2 ^ (32 - prefixlen n) ≤ 2 ^ 1) by (apply Z.pow_le_mono_r; lia).
    change (2 ^ 1) with 2 in H2.
    assert (H1 : 0 < 2 ^ (32 - prefixlen n)) by (apply Z.pow_pos_nonneg; lia).
    assert (Hx : network_getitem n 2 = Raise IndexError).
    { unfold network_getitem. cbn [Z.leb Z.compare]. unfold broadcast_address, num_addresses. rewrite (proj2 (Z.ltb_lt _ _)) by lia. done. }
    destruct (decide (prefixlen n = 32)) as [E|].
    + assert (Hy : network_getitem n (-2) = Raise IndexError).
      { unfold network_getitem. cbn [Z.leb Z.compare]. unfold broadcast_address, num_addresses. rewrite E in *. change (2 ^ (32 - 32)) with 1 in *.
        rewrite (proj2 (Z.ltb_lt _ _)) by lia. done. }
      by rewrite Hy.
    + assert (E : prefixlen n = 31) by lia. rewrite E in *. change (2 ^ (32 - 31)) with 2 in *. rewrite (Hneg (-2)) by lia.
      cbn [mbind result_bind]. by rewrite Hx.
Qed.

(** ** Disks *)

(** A disk that is grown has the size asked for. The gigabytes [resize_disk] adds are at least one, make
    the disk at least as large as desired, and less than a gigabyte larger. *)
Theorem grown_disk_is_large_enough desired size :
  size < desired →
  0 < gigabytes_to_add desired size ∧
  desired ≤ size + 1024 * gigabytes_to_add desired size < desired + 1024.
Proof.
  intros H. unfold gigabytes_to_add. pose proof (Z.div_mod (- (desired - size)) 1024 ltac:(lia)) as Hd.
  pose proof (Z.mod_pos_bound (- (desired - size)) 1024 ltac:(lia)) as Hm. lia.
Qed.

(** ** The provider *)
Section provider.
Context {P : Type} `{!Proxmox P, !Machines P, !Persistence P}.
Variable vim : VimModel.
Variable path : pyval.
Variable blueprint_id : string.
#[local] Abbreviation Data := VirtualizationProviderDataProxmox.
#[local] Abbreviation MD := (M (Data * P)).
#[local] Abbreviation MC := (M (Call Data P)).
Implicit Types (d : Data) (v : VmResource) (c : Call Data P).

(** Methods that do not change the data of the provider. *)
Definition frozen {A : Type} (m : MD A) : Prop := ∀ s, (m s).2.1 = s.1.
Lemma frozen_ret {A} (a : A) : frozen (mret a).
Proof. by intros s. Qed.
Lemma frozen_raise {A} e : frozen (raise (A:=A) e).
Proof. by intros s. Qed.
Lemma frozen_liftR {A} (r : result A) : frozen (liftR r).
Proof. by intros s. Qed.
Lemma frozen_data : frozen data.
Proof. by intros s. Qed.
Lemma frozen_outside {A} (m : M P A) : frozen (outside m).
Proof. intros s. unfold outside, zoom. by destruct (m s.2). Qed.
Lemma frozen_bind {A B} (m : MD A) (f : A → MD B) : frozen m → (∀ a, frozen (f a)) → frozen (m ≫= f).
Proof.
  intros Hm Hf s. unfold mbind, M_bind. specialize (Hm s). destruct (m s) as [[a|e] s1]; cbn in Hm; [by rewrite Hf|done].
Qed.
Lemma frozen_for_each {A} (l : list A) f : (∀ a, frozen (f a)) → frozen (for_each l f).
Proof. intros Hf. induction l as [|a l IH]; [apply frozen_ret|]. by apply frozen_bind. Qed.
Lemma frozen_run command : frozen (run vim command).
Proof. apply frozen_bind; [apply frozen_outside|intros _; apply frozen_ret]. Qed.
Lemma frozen_request u p t j : frozen (execute_rest_request vim u p t j).
Proof. apply frozen_bind; [apply frozen_data|intros d; apply frozen_outside]. Qed.
Lemma frozen_delete_subnet s : frozen (delete_sdn_subnet vim s).
Proof. apply frozen_bind; [apply frozen_run|intros _; apply frozen_run]. Qed.

(** *** What is left after the cleanup *)
Lemma delete_vnet_removes vnet d p d' p' : delete_sdn_vnet vim vnet (d, p) = (Ok tt, (d', p')) →
  py_remove String.eqb (lower vnet) (proxmox_vnet d) = Ok (proxmox_vnet d').
Proof.
  intros H. unfold delete_sdn_vnet in H. apply bind_Ok_inv in H as (r & s1 & H1 & H).
  apply bind_Ok_inv in H as (subnets & s2 & H2 & H). apply bind_Ok_inv in H as ([] & s3 & H3 & H).
  apply bind_Ok_inv in H as ([] & s4 & H4 & H). apply bind_Ok_inv in H as ([] & s5 & H5 & H).
  pose proof (frozen_request ("cluster/sdn/vnets/" +:+ vnet +:+ "/subnets") [] GET VNone (d, p)) as F1. rewrite H1 in F1.
  pose proof (frozen_liftR (b ← body r; validate_subnets b) s1) as F2. unfold json in H2. rewrite H2 in F2.
  pose proof (frozen_for_each subnets _ frozen_delete_subnet s2) as F3. rewrite H3 in F3.
  pose proof (frozen_run ("pvesh delete /cluster/sdn/vnets/" +:+ vnet) s3) as F4. rewrite H4 in F4.
  pose proof (frozen_run "pvesh set /cluster/sdn" s4) as F5. unfold apply_sdn in H5. rewrite H5 in F5. cbn in *.
  assert (E : s5.1 = d) by congruence. clear -H E. unfold data, mbind, M_bind, getS, liftR, update_data, modifyS in H. cbn in H.
  rewrite E in H. destruct (py_remove _ _ _) as [l|] eqn:Er; [|done]. by injection H as <- _.
Qed.

(** Every second element, the first one left out. *)
Fixpoint every_second {A : Type} (l : list A) : list A :=
  match l with _ :: y :: l' => y :: every_second l' | _ => [] end.

Lemma remove_at_position (l1 : list string) x l2 : x ∉ l1 → py_remove String.eqb x (l1 ++ x :: l2) = Ok (l1 ++ l2).
Proof.
  intros Hx. assert (Hf : find_index (λ item, String.eqb item x) (l1 ++ x :: l2) = Some (length l1)).
  { induction l1 as [|y l1 IH]; cbn; [by rewrite String.eqb_refl|]. apply not_elem_of_cons in Hx as [Hy Hx].
    destruct (String.eqb_spec y x) as [->|_]; [done|]. by rewrite IH. }
  unfold py_remove. rewrite Hf. f_equal. by apply delete_middle.
Qed.
Lemma cleanup_done fuel i d p : (length (proxmox_vnet d) ≤ i)%nat → cleanup_from vim fuel i (d, p) = (Ok tt, (d, p)).
Proof.
  intros Hi. destruct fuel as [|fuel]; [done|]. cbn [cleanup_from]. rewrite (bind_Ok data _ (d, p) (d, p) d) by done.
  by rewrite lookup_ge_None_2.
Qed.
Lemma cleanup_keeps fuel : ∀ kept rest d p d' p', proxmox_vnet d = kept ++ rest → NoDup (kept ++ rest) →
  Forall (λ n, lower n = n) rest → (length rest ≤ fuel)%nat →
  cleanup_from vim fuel (length kept) (d, p) = (Ok tt, (d', p')) → proxmox_vnet d' = kept ++ every_second rest.
Proof.
  induction fuel as [|fuel IH]; intros kept rest d p d' p' Hd Hnd Hlow Hf H.
  - destruct rest; [|cbn in Hf; lia]. injection H as <- _. by rewrite Hd.
  - cbn [cleanup_from] in H. rewrite (bind_Ok data _ (d, p) (d, p) d) in H by done. rewrite Hd in H.
    destruct rest as [|x rest].
    { rewrite lookup_ge_None_2 in H by (rewrite length_app; cbn; lia). injection H as <- _. by rewrite Hd. }
    rewrite list_lookup_middle in H by done. apply bind_Ok_inv in H as ([] & [d1 p1] & H1 & H).
    apply delete_vnet_removes in H1. apply Forall_cons in Hlow as [Hx Hlow]. rewrite Hd, Hx in H1.
    apply NoDup_app in Hnd as (Hk & Hd1 & Hr). apply NoDup_cons in Hr as [Hxr Hr].
    rewrite remove_at_position in H1 by (intros Hin; apply (Hd1 x Hin); by left). injection H1 as H1.
    destruct rest as [|y rest].
    + rewrite app_nil_r in H1. rewrite cleanup_done in H by (rewrite <-H1; lia). injection H as <- _.
      cbn [every_second]. by rewrite app_nil_r.
    + cbn [every_second]. apply Forall_cons in Hlow as [_ Hlow].
      replace (S (length kept)) with (length (kept ++ [y])) in H by (rewrite length_app; cbn; lia).
      rewrite (IH (kept ++ [y]) rest d1 p1 d' p'); [by rewrite <-app_assoc|by rewrite <-app_assoc| |done|cbn in Hf; lia|done].
      rewrite <-app_assoc. apply NoDup_app. split; [done|]. split; [|done]. intros z Hz Hin. apply (Hd1 z Hz). by right.
Qed.

(** A cleanup leaves every other network behind. The networks a blueprint created on a node are deleted by
    iterating the list they are removed from, so that of [n] distinct networks, when everything succeeds, only
    the first, the third, ... are deleted; the others stay, and so do their records. With two networks or more
    something is always left. *)
Theorem cleanup_leaves_every_second_network d p d' p' :
  final_cleanup vim (d, p) = (Ok tt, (d', p')) → NoDup (proxmox_vnet d) → Forall (λ n, lower n = n) (proxmox_vnet d) →
  proxmox_vnet d' = every_second (proxmox_vnet d) ∧ ((2 ≤ length (proxmox_vnet d))%nat → proxmox_vnet d' ≠ []).
Proof.
  intros H Hnd Hl. unfold final_cleanup in H. rewrite (bind_Ok data _ (d, p) (d, p) d) in H by done.
  pose proof (cleanup_keeps (length (proxmox_vnet d)) [] (proxmox_vnet d) d p d' p' eq_refl Hnd Hl (le_n _) H) as E.
  cbn in E. split; [done|]. rewrite E. by destruct (proxmox_vnet d) as [|x [|y l]]; cbn; [lia|lia|].
Qed.

(** *** Which machines are recorded *)
Definition keeps_dict {A : Type} (m : MD A) : Prop := ∀ s, proxmox_dict (m s).2.1 = proxmox_dict s.1.
Lemma keeps_frozen {A} (m : MD A) : frozen m → keeps_dict m.
Proof. intros Hm s. by rewrite Hm. Qed.
Lemma keeps_bind {A B} (m : MD A) (f : A → MD B) : keeps_dict m → (∀ a, keeps_dict (f a)) → keeps_dict (m ≫= f).
Proof.
  intros Hm Hf s. unfold mbind, M_bind. specialize (Hm s). destruct (m s) as [[a|e] s1]; cbn in Hm; [by rewrite Hf|done].
Qed.
Lemma keeps_for_each {A} (l : list A) f : (∀ a, keeps_dict (f a)) → keeps_dict (for_each l f).
Proof. intros Hf. induction l as [|a l IH]; [apply keeps_frozen, frozen_ret|]. by apply keeps_bind. Qed.
Lemma keeps_update f : (∀ d, proxmox_dict (f d) = proxmox_dict d) → keeps_dict (update_data f).
Proof. intros Hf s. apply Hf. Qed.
Lemma keeps_device vmid : keeps_dict (new_device vmid).
Proof.
  apply keeps_bind; [apply keeps_frozen, frozen_data|intros d]. apply keeps_bind; [apply keeps_frozen, frozen_liftR|intros [i nets]].
  apply keeps_bind; [by apply keeps_update|intros _]. apply keeps_frozen, frozen_ret.
Qed.
Lemma keeps_devices vmid config : keeps_dict (read_devices vmid config).
Proof.
  induction config as [|[key v] l IH]; cbn [read_devices]; [apply keeps_frozen, frozen_ret|].
  apply keeps_bind; [|done]. destruct (is_net_key key); [|apply keeps_frozen, frozen_ret].
  apply keeps_bind; [apply keeps_frozen, frozen_liftR|intros m; by apply keeps_update].
Qed.
Lemma keeps_get_macs vmid : keeps_dict (get_macs vim vmid).
Proof.
  apply keeps_bind; [apply keeps_frozen, frozen_data|intros d]. apply keeps_bind; [apply keeps_frozen, frozen_request|intros r].
  apply keeps_bind; [apply keeps_frozen, frozen_liftR|intros []]; try apply keeps_frozen, frozen_raise. apply keeps_devices.
Qed.
Lemma keeps_run command : keeps_dict (run vim command).
Proof. apply keeps_frozen, frozen_run. Qed.
Lemma keeps_known vmid : keeps_dict (known_macs vmid).
Proof. apply keeps_bind; [apply keeps_frozen, frozen_data|intros d; apply keeps_frozen, frozen_liftR]. Qed.
Lemma keeps_choose : keeps_dict (choose_node vim).
Proof.
  apply keeps_bind; [apply keeps_frozen, frozen_data|intros d]. destruct (_ =? 0)%nat; [|apply keeps_frozen, frozen_ret].
  apply keeps_bind; [apply keeps_frozen, frozen_request|intros r]. apply keeps_bind; [apply keeps_frozen, frozen_liftR|intros nodes].
  apply keeps_bind; [apply keeps_frozen, frozen_liftR|intros n; by apply keeps_update].
Qed.
Lemma keeps_vmid : keeps_dict (get_free_vmid vim).
Proof. apply keeps_bind; [apply keeps_frozen, frozen_outside|intros l; apply keeps_frozen, frozen_liftR]. Qed.
Lemma keeps_resize vmid size : keeps_dict (resize_disk vim vmid size).
Proof.
  apply keeps_bind; [apply keeps_frozen, frozen_outside|intros l]. do 2 (apply keeps_bind; [apply keeps_frozen, frozen_liftR|intros ?]).
  cbn zeta. destruct (_ <? _); [apply keeps_run|apply keeps_frozen, frozen_raise].
Qed.
Lemma keeps_equip v vmid : keeps_dict (equip_vm vim path blueprint_id v vmid).
Proof.
  unfold equip_vm. do 2 (apply keeps_bind; [apply keeps_run|intros ?]). apply keeps_bind; [apply keeps_frozen, frozen_liftR|intros size].
  apply keeps_bind; [apply keeps_resize|intros ?]. do 2 (apply keeps_bind; [apply keeps_run|intros ?]). apply keeps_run.
Qed.

(** A machine that is not recorded stays so when another is destroyed, and cannot be destroyed itself. *)
Lemma destroy_vm_absent k v d p : proxmox_dict d !! k = None →
  proxmox_dict (destroy_vm vim path blueprint_id v (d, p)).2.1 !! k = None ∧
  (vm_id v = k → (destroy_vm vim path blueprint_id v (d, p)).1 = Raise KeyError).
Proof.
  intros Hk. unfold destroy_vm. rewrite (bind_Ok data _ (d, p) (d, p) d) by done.
  destruct (proxmox_dict d !! vm_id v) as [vmid|] eqn:E; [|by split].
  split; [|intros <-; congruence]. erewrite bind_Ok by reflexivity. clear E.
  assert (Hrun : ∀ command (m : MD unit), (∀ s, proxmox_dict s.1 !! k = None → proxmox_dict (m s).2.1 !! k = None) →
    ∀ s, proxmox_dict s.1 !! k = None → proxmox_dict ((run vim command ;; m) s).2.1 !! k = None).
  { intros command m Hm s Hs. unfold mbind, M_bind. pose proof (frozen_run command s) as Hf.
    destruct (run vim command s) as [[[]|e] s1]; cbn in *; [apply Hm|]; by rewrite Hf. }
  do 4 (apply Hrun; [|done]; clear d p Hk; intros [d p] Hk). cbn. by rewrite lookup_delete_None; right.
Qed.

(** The same, with the machine: it keeps its identifier. *)
Definition undisturbed {A : Type} (m : MC A) : Prop := ∀ c,
  proxmox_dict (call_data (m c).2) = proxmox_dict (call_data c) ∧ same_machine (call_vm c) (call_vm (m c).2).
Lemma undisturbed_without {A} (m : MD A) : keeps_dict m → undisturbed (without_vm m).
Proof. intros Hm c. unfold without_vm, zoom. specialize (Hm (call_data c, call_world c)). by destruct (m _) as [r [d p]]. Qed.
Lemma undisturbed_world {A} (m : M P A) : undisturbed (world m).
Proof. intros c. unfold world, zoom. by destruct (m (call_world c)). Qed.
Lemma undisturbed_vm : undisturbed the_vm.
Proof. by intros c. Qed.
Lemma undisturbed_ret {A} (a : A) : undisturbed (mret a).
Proof. by intros c. Qed.
Lemma undisturbed_raise {A} e : undisturbed (raise (A:=A) e).
Proof. by intros c. Qed.
Lemma undisturbed_liftR {A} (r : result A) : undisturbed (liftR r).
Proof. by intros c. Qed.
Lemma undisturbed_change f : (∀ v, same_machine v (f v)) → undisturbed (change_vm f).
Proof. intros Hf c. split; [done|apply Hf]. Qed.
Lemma undisturbed_bind {A B} (m : MC A) (f : A → MC B) : undisturbed m → (∀ a, undisturbed (f a)) → undisturbed (m ≫= f).
Proof.
  intros Hm Hf c. unfold mbind, M_bind. specialize (Hm c). destruct (m c) as [[a|e] c1]; cbn in Hm; [|done].
  destruct (Hf a c1), Hm. split; [congruence|by eapply same_machine_trans].
Qed.
Lemma undisturbed_card i m macs : undisturbed (parse_card i m macs).
Proof.
  induction macs as [|p l IH]; cbn [parse_card]; [apply undisturbed_ret|]. apply undisturbed_bind; [|done].
  destruct (String.eqb m (p_mac p)); [|apply undisturbed_ret]. apply undisturbed_bind; [apply undisturbed_liftR|intros a; by apply undisturbed_change].
Qed.
Lemma undisturbed_cards vmid l : undisturbed (parse_cards vmid l).
Proof.
  induction l as [|i l IH]; cbn [parse_cards]; [apply undisturbed_ret|]. apply undisturbed_bind; [apply undisturbed_liftR|intros h].
  apply undisturbed_bind; [apply undisturbed_without, keeps_known|intros macs]. apply undisturbed_bind; [|done].
  destruct h; try apply undisturbed_ret. apply undisturbed_card.
Qed.
Lemma undisturbed_addresses vmid : undisturbed (parse_proxmox_addresses vim vmid).
Proof.
  apply undisturbed_bind.
  - apply undisturbed_without, keeps_bind; [apply keeps_frozen, frozen_outside|intros l].
    apply keeps_bind; [apply keeps_frozen, frozen_liftR|intros n]. apply keeps_bind; [apply keeps_get_macs|intros _]. apply keeps_frozen, frozen_ret.
  - intros n. apply undisturbed_bind; [apply undisturbed_liftR|intros l; apply undisturbed_cards].
Qed.

(** The creation records the machine, or it raises before. *)
Definition records {A : Type} (i : option string) (m : MC A) : Prop := ∀ c, vm_id (call_vm c) = i →
  same_machine (call_vm c) (call_vm (m c).2) ∧
  ((∃ vmid, proxmox_dict (call_data (m c).2) = <[i := vmid]> (proxmox_dict (call_data c))) ∨
   proxmox_dict (call_data (m c).2) = proxmox_dict (call_data c) ∧ ∃ e, (m c).1 = Raise e).
Lemma records_before {A B} i (m : MC A) (f : A → MC B) : undisturbed m → (∀ a, records i (f a)) → records i (m ≫= f).
Proof.
  intros Hm Hf c Hi. unfold mbind, M_bind. specialize (Hm c). destruct (m c) as [[a|e] c1]; cbn in Hm; destruct Hm as [H1 H2].
  - destruct (Hf a c1) as [H3 H4]; [by rewrite (proj1 H2)|]. rewrite <-H1. split; [by eapply same_machine_trans|done].
  - split; [done|right]. split; [done|by exists e].
Qed.
Lemma records_after {A B} i (m : MC A) (f : A → MC B) : records i m → (∀ a, undisturbed (f a)) → records i (m ≫= f).
Proof.
  intros Hm Hf c Hi. unfold mbind, M_bind. destruct (Hm c Hi) as [H1 H2]. destruct (m c) as [[a|e] c1]; cbn in *.
  2: { split; [done|]. destruct H2 as [H2|[H2 _]]; [by left|right]. split; [done|by exists e]. }
  destruct (Hf a c1) as [H3 H4]. split; [by eapply same_machine_trans|]. destruct H2 as [[vmid H2]|[_ [e He]]]; [|done]. left. exists vmid. congruence.
Qed.
Lemma records_vm {A} i (f : VmResource → MC A) : (∀ v, vm_id v = i → records i (f v)) → records i (v ← the_vm; f v).
Proof. intros Hf c Hi. by apply (Hf (call_vm c)). Qed.
Definition md_records {A : Type} (i : option string) (m : MD A) : Prop := ∀ s,
  (∃ vmid, proxmox_dict (m s).2.1 = <[i := vmid]> (proxmox_dict s.1)) ∨
  proxmox_dict (m s).2.1 = proxmox_dict s.1 ∧ ∃ e, (m s).1 = Raise e.
Lemma md_records_bind {A B} i (m : MD A) (f : A → MD B) : keeps_dict m → (∀ a, md_records i (f a)) → md_records i (m ≫= f).
Proof.
  intros Hm Hf s. unfold mbind, M_bind. specialize (Hm s). destruct (m s) as [[a|e] s1]; cbn in Hm.
  - rewrite <-Hm. apply Hf.
  - right. split; [done|by exists e].
Qed.
Lemma records_without {A} i (m : MD A) : md_records i m → records i (without_vm m).
Proof.
  intros Hm c Hi. unfold without_vm, zoom. specialize (Hm (call_data c, call_world c)). destruct (m _) as [r [d p]]. cbn in *.
  split; done.
Qed.
Lemma prepare_records i : records i (prepare_vm vim path blueprint_id).
Proof.
  unfold prepare_vm. apply records_before; [apply undisturbed_without, keeps_choose|intros _]. apply records_vm. intros v Hv.
  apply records_before; [apply undisturbed_without, keeps_run|intros _]. apply records_before; [apply undisturbed_liftR|intros ci].
  apply records_without. apply md_records_bind; [apply keeps_vmid|intros n]. cbn zeta.
  apply md_records_bind; [apply keeps_run|intros _]. apply md_records_bind; [apply keeps_device|intros i0].
  apply md_records_bind; [apply keeps_run|intros _]. apply md_records_bind.
  { apply keeps_for_each. intros net. apply keeps_bind; [apply keeps_device|intros i1; apply keeps_run]. }
  intros _. apply md_records_bind; [apply keeps_get_macs|intros _]. apply md_records_bind; [apply keeps_known|intros macs].
  apply md_records_bind; [apply keeps_run|intros _]. intros s. left. exists (pretty n). cbn. by rewrite Hv.
Qed.
Lemma create_records i patience : records i (create_vm vim path blueprint_id patience).
Proof.
  unfold create_vm. apply records_after; [apply prepare_records|intros vmid]. apply undisturbed_bind; [apply undisturbed_world|intros _].
  apply undisturbed_bind; [apply undisturbed_vm|intros v]. apply undisturbed_bind; [apply undisturbed_without, keeps_equip|intros _].
  apply undisturbed_bind; [apply undisturbed_world|intros _]. apply undisturbed_bind; [apply undisturbed_without, keeps_run|intros _].
  apply undisturbed_bind; [apply undisturbed_world|intros ready]. destruct ready; [|apply undisturbed_ret].
  apply undisturbed_bind; [apply undisturbed_addresses|intros _]. apply undisturbed_bind; [apply undisturbed_vm|intros v']. apply undisturbed_bind.
  { destruct (od_get _ _) as [[|i0 l]|]; [apply undisturbed_raise|by apply undisturbed_change|apply undisturbed_raise]. }
  intros _. apply undisturbed_bind; [by apply undisturbed_change|intros _]. apply undisturbed_bind; [apply undisturbed_world|intros _]. apply undisturbed_ret.
Qed.

(** A machine whose creation failed early cannot be destroyed. Either [create_vm] recorded the machine, or it
    raised; in the second case, although the machine may exist on the node by then, [destroy_vm] raises KeyError
    in every state of the outside and changes nothing, so that the blueprint that holds the machine cannot be
    destroyed either. *)
Theorem unrecorded_machine_is_stuck patience c r c' :
  create_vm vim path blueprint_id patience c = (r, c') → proxmox_dict (call_data c) !! vm_id (call_vm c) = None →
  is_Some (proxmox_dict (call_data c') !! vm_id (call_vm c')) ∨
  (∃ e, r = Raise e) ∧ ∀ p, destroy_vm vim path blueprint_id (call_vm c') (call_data c', p) = (Raise KeyError, (call_data c', p)).
Proof.
  intros Hc Hn. destruct (create_records (vm_id (call_vm c)) patience c eq_refl) as [(Hi & _ & _) Ho]. rewrite Hc in *. cbn in *.
  destruct Ho as [[vmid Ho]|[Ho He]]; [left|right; split; [done|]].
  - rewrite Ho, Hi, lookup_insert_eq. by exists vmid.
  - intros p. unfold destroy_vm. rewrite (bind_Ok data _ (call_data c', p) (call_data c', p) (call_data c')) by done.
    by rewrite Ho, Hi, Hn.
Qed.

(** *** The guest agent *)
Definition ping (vmid : string) : M P (Z * list string) := exec_command (vim_url vim) (words ["qm"; "agent"; vmid; "ping"]).
Lemma agent_more fuel : ∀ fuel' vmid p p', agent_loop vim fuel vmid p = (Ok true, p') → (fuel ≤ fuel')%nat →
  agent_loop vim fuel' vmid p = (Ok true, p').
Proof.
  induction fuel as [|fuel IH]; intros [|fuel'] vmid p p' H Hf; try done; [lia|]. cbn [agent_loop] in *.
  unfold mbind, M_bind in *. destruct (exec_command _ _ p) as [[[z l]|e] p1]; [|done].
  destruct (z =? 0); [done|]. apply (IH fuel'); [done|lia].
Qed.
Lemma agent_never fuel vmid : (∀ p, ∃ z l p', ping vmid p = (Ok (z, l), p') ∧ z ≠ 0) →
  ∀ p, (agent_loop vim fuel vmid p).1 = Ok false.
Proof.
  intros Hn. induction fuel as [|fuel IH]; intros p; [done|]. cbn [agent_loop]. destruct (Hn p) as (z & l & p' & E & Hz).
  rewrite (bind_Ok _ _ p p' (z, l) E). by rewrite (proj2 (Z.eqb_neq z 0) Hz).
Qed.

(** A creation waits for the guest agent for as long as it takes. Asking more often changes nothing once
    the agent has answered; and while it does not answer (an image without the agent), the loop, which has no
    time-out, goes on: however often it has asked, [create_vm] has not returned. *)
Theorem creation_waits_for_the_agent :
  (∀ fuel fuel' vmid p p', agent_loop vim fuel vmid p = (Ok true, p') → (fuel ≤ fuel')%nat →
     agent_loop vim fuel' vmid p = (Ok true, p')) ∧
  ((∀ vmid p, ∃ z l p', ping vmid p = (Ok (z, l), p') ∧ z ≠ 0) →
   ∀ patience c, (create_vm vim path blueprint_id patience c).1 ≠ Ok (Some tt)).
Proof.
  split; [intros *; apply agent_more|]. intros Hn patience c H.
  destruct (create_vm vim path blueprint_id patience c) as [r c'] eqn:E. cbn in H. subst r.
  unfold create_vm in E. apply bind_Ok_inv in E as (vmid & c1 & _ & E). do 5 (apply bind_Ok_inv in E as (? & ? & _ & E)).
  apply bind_Ok_inv in E as (ready & c2 & H2 & E). unfold world, zoom, qemu_guest_agent_ready in H2.
  match type of H2 with context [agent_loop vim patience vmid ?p] =>
    pose proof (agent_never patience vmid (Hn vmid) p) as Ha; destruct (agent_loop vim patience vmid p) as [r p'] end.
  cbn in Ha. subst r. by injection H2 as <- _.
Qed.
End provider.

(** *** A card without addresses *)

Lemma dict_has_cases (d : dict) k :
  (dict_has k d = true ∧ ∃ v, dict_getitem d k = Ok v) ∨ (dict_has k d = false ∧ dict_getitem d k = Raise KeyError).
Proof.
  unfold dict_has, dict_getitem. induction d as [|[k' v] d IH]; [by right|]. cbn.
  destruct (String.eqb k' k); [left; split; [done|by exists v]|exact IH].
Qed.

(** A card the agent reports without an address is refused. Although the code keeps going with no address,
    the field of the address is not optional: whatever else is reported, the card is a ValidationError (or lacks
    its name), so that a machine one of whose cards has no lease yet is not created. *)
Theorem card_without_address_is_refused {P} `{!Proxmox P} d m :
  dict_has "ip-addresses" d = false →
  agent_address (VDict d) m = Raise (if dict_has "name" d then ValidationError else KeyError).
Proof.
  intros Hn. unfold agent_address. cbn [subscript contains].
  destruct (dict_has_cases d "name") as [[-> [name ->]]|[-> ->]]; [|done]. cbn [mbind result_bind]. rewrite Hn.
  by destruct name.
Qed.

(** ** A small node *)
Module ConcreteNode.
(** The commands received, and whether cards can be added and the agent answers. *)
Record Node := { log : list string; adds_cards : bool; agent_up : bool }.
Definition starts (p s : string) : bool := match strip_prefix p s with Some _ => true | None => false end.
Definition lab_status (n : Node) (c : string) : Z :=
  if starts "qm set 10000 --net" c && negb (adds_cards n) then 1
  else if String.eqb c "qm agent 10000 ping" && negb (agent_up n) then 1 else 0.
Definition lab_output (c : string) : list string :=
  if starts "pvesh get /storage" c then ["storages"] else if starts "pvesh get /cluster" c then ["vms"]
  else if starts "qm config" c then ["scsi0: local-lvm:vm-10000-disk-0,size=2252M"]
  else if String.eqb c "qm agent 10000 network-get-interfaces" then ["cards"] else [].
Definition lab_json (s : string) : result pyval :=
  if String.eqb s "vms" then Ok (VList [])
  else if String.eqb s "cards" then
    Ok (VList [VDict [("hardware-address", VStr "aa:01"); ("name", VStr "eth0");
                      ("ip-addresses", VList [VDict [("ip-address", VStr "10.0.0.9"); ("prefix", VInt 24)]])]])
  else Raise ValueError.
Definition lab_body (url : string) : pyval :=
  VDict [("data", VDict [("name", VStr "vm"); ("net0", VStr "virtio=AA:01,bridge=mgmt,firewall=0")])].
#[export] Instance lab_node : Proxmox Node := {|
  host_connect h u pw := mret tt;
  exec_command h c := n ← getS;
    putS {| log := log n ++ [c]; adds_cards := adds_cards n; agent_up := agent_up n |} ;; mret (lab_status n c, lab_output c);
  sftp_put h a b := mret tt;
  http_request t url h p j := mret {| reason_phrase := "OK"; body := Ok (lab_body url) |};
  json_loads := lab_json;
  repr v := "";
  validate_nodes v := Ok [{| node := "pve"; node_status := "online" |}];
  validate_zones v := Ok [{| zone_digest := "d"; zone_type := "simple"; zone := "nfvcl" |}];
  validate_subnets v := Ok []
|}.
#[export] Instance lab_machines : Machines Node := {|
  now p := 0;
  sleep d := mret tt;
  ssh_connect h port u pw := mret SshConnected;
  write_playbook f v := mret tt;
  ansible_run h u pw v := mret ("successful", []);
  yaml_text d := "yaml";
  json_string s := s
|}.
#[export] Instance lab_persistence : Persistence Node := {| save_to_db i := mret tt |}.
Definition lab_vim : VimModel :=
  {| vim_name := "pve"; vim_type := PROXMOX; schema_version := "1.0"; vim_url := "10.1.1.1"; vim_tenant_name := "admin";
     vim_user := "root"; vim_password := "root"; ssh_keys := Some []; vim_proxmox_realm := Some "pam"; vim_proxmox_storage_id := Some "local";
     vim_proxmox_storage_volume := Some "local-lvm"; osm_onboard := None;
     vim_config := {| insecure := true; APIversion := "v3.3"; use_floating_ip := false |};
     networks := []; routers := []; areas := [0] |}.
Definition lab_vm (more : list string) : VmResource :=
  {| vm_id := Some "vm"; vm_area := 0; vm_name := "blue_vm";
     image := {| image_name := "ubuntu"; image_url := Some "http://images/ubuntu"; check_sha512sum := false |};
     flavor := {| flavor_name := None; vcpu_count := "1"; memory_mb := "512"; storage_gb := "5"; vcpu_type := Some "host"; flavor_port_security := None |};
     username := "ubuntu"; password := "ubuntu"; become_password := None; management_network := "mgmt"; additional_networks := more;
     require_floating_ip := false; require_port_security_disabled := None; created := false; access_ip := None;
     network_interfaces := []; vm_state := None |}.
Definition lab_call (more : list string) (cards up : bool) : Call VirtualizationProviderDataProxmox Node :=
  {| call_vm := lab_vm more; call_data := new_data; call_world := {| log := []; adds_cards := cards; agent_up := up |} |}.
Definition lab_create := create_vm lab_vim (VStr "/var/lib/vz") "blue" 3.
Definition lab_destroy := destroy_vm lab_vim (VStr "/var/lib/vz") "blue".

Example a_machine_is_created :
  let c' := (lab_create (lab_call ["data"] true true)).2 in
  (lab_create (lab_call ["data"] true true)).1 = Ok (Some tt) ∧ access_ip (call_vm c') = Some "10.0.0.9" ∧
  (lab_destroy (call_vm c') (call_data c', call_world c')).1 = Ok tt.
Proof. vm_compute. repeat split. Qed.

(** The devices of a destroyed machine are not forgotten: the next machine, which gets the same identifier,
    starts at "net1". *)
Example next_machine_has_no_first_device :
  let c1 := (lab_create (lab_call [] true true)).2 in
  let s := (lab_destroy (call_vm c1) (call_data c1, call_world c1)).2 in
  let c2 := (lab_create {| call_vm := lab_vm []; call_data := s.1; call_world := s.2 |}).2 in
  od_get "10000" (proxmox_net_device (call_data c1)) = Some ["net0"] ∧
  od_get "10000" (proxmox_net_device (call_data c2)) = Some ["net0"; "net1"].
Proof. vm_compute. repeat split. Qed.

Lemma devices_in_order_witness :
  ∃ nets', add_devices 3 "10000" [("10001", ["net0"])] = Ok (["net0"; "net1"; "net2"], nets') ∧ od_get "10001" nets' = Some ["net0"].
Proof.
  edestruct (devices_in_order "10000" [("10001", ["net0"])] 3) as (nets' & E & _ & _ & H); [vm_compute; reflexivity|lia|].
  exists nets'. split; [exact E|]. rewrite (H "10001") by discriminate. vm_compute. reflexivity.
Defined.
Definition lab_vms : list pyval := [VDict [("vmid", VInt 10001)]; VDict [("vmid", VInt 100)]; VDict [("vmid", VInt 10000)]].
Lemma free_identifier_is_least_witness : pick_vmid (VList lab_vms) = Ok 10002 ∧ ∀ j, 10000 ≤ j < 10002 → used lab_vms j.
Proof.
  assert (Hall : Forall (λ item, is_Some (vmid_of item)) lab_vms).
  { unfold lab_vms. repeat constructor; eexists; reflexivity. }
  destruct (free_identifier_is_least lab_vms Hall) as [H1 _].
  assert (E : pick_vmid (VList lab_vms) = Ok 10002) by (vm_compute; reflexivity). split; [exact E|].
  apply H1 in E. apply E.
Defined.
Lemma leases_leave_the_gateway_witness :
  get_ips_for_subnets "10.0.0.0/24" = Ok ("10.0.0.254", "10.0.0.2", "10.0.0.253") ∧
  ∃ g s e, get_ips_for_subnets "10.0.0.0/24" = Ok (exploded g, exploded s, exploded e) ∧ s < e ∧ e < g.
Proof.
  split; [vm_compute; reflexivity|].
  destruct (leases_leave_the_gateway "10.0.0.0/24" {| network_address := 167772160; prefixlen := 24 |}) as [H _]; [vm_compute; reflexivity|].
  destruct H as (g & s & e & H & H1 & H2 & H3 & _); [cbn; lia|]. exists g, s, e. split; [exact H|]. split; [exact H2|exact H3].
Defined.
Definition three_nets : VirtualizationProviderDataProxmox := set_vnet ["net_a"; "net_b"; "net_c"] new_data.
Lemma cleanup_leaves_every_second_network_witness :
  ∃ d' p', final_cleanup lab_vim (three_nets, call_world (lab_call [] true true)) = (Ok tt, (d', p')) ∧ proxmox_vnet d' = ["net_b"] ∧
  proxmox_vnet d' ≠ [].
Proof.
  eexists _, _. split; [vm_compute; reflexivity|].
  edestruct (cleanup_leaves_every_second_network lab_vim three_nets (call_world (lab_call [] true true))) as [H1 H2].
  - vm_compute. reflexivity.
  - apply (bool_decide_unpack _). vm_compute. exact I.
  - repeat constructor.
  - split; [exact H1|]. apply H2. cbn. lia.
Defined.
Lemma unrecorded_machine_is_stuck_witness :
  let c' := (lab_create (lab_call ["data"] false true)).2 in
  last (log (call_world c')) = Some "qm set 10000 --net1 virtio,bridge=data,firewall=0" ∧
  (∃ e, (lab_create (lab_call ["data"] false true)).1 = Raise e) ∧
  ∀ p, lab_destroy (call_vm c') (call_data c', p) = (Raise KeyError, (call_data c', p)).
Proof.
  intros c'. split; [vm_compute; reflexivity|].
  destruct (unrecorded_machine_is_stuck lab_vim (VStr "/var/lib/vz") "blue" 3 (lab_call ["data"] false true)
    (lab_create (lab_call ["data"] false true)).1 c') as [[x H]|H]; [reflexivity|reflexivity| |exact H].
  vm_compute in H. discriminate H.
Defined.
Lemma card_without_address_is_refused_witness :
  agent_address (P:=Node) (VDict [("name", VStr "eth1"); ("hardware-address", VStr "aa:02")]) "aa:02" = Raise ValidationError.
Proof.
  rewrite (card_without_address_is_refused (P:=Node) [("name", VStr "eth1"); ("hardware-address", VStr "aa:02")] "aa:02"); vm_compute; reflexivity.
Defined.
End ConcreteNode.
