(* ===== verification/OpenStack.v ===== *)
(** * The OpenStack provider

    blueprints_ng/providers/virtualization/virtualization_provider_openstack.py and what it uses of
    utils/openstack/openstack_client.py: networks, images, flavors and servers of an OpenStack project.  The
    OpenStack client library is an interface; a connection is named by its cloud. *)

From Stdlib Require Import Ascii.
From stdpp Require Import base list strings gmap.
From Stdlib Require Import ZArith Lia.
From S2P Require Import Prelude VimModels Ansible Resources VirtCommon.

Open Scope Z_scope.

(** ** What the client library gives *)
Record OsNetwork := { on_id : string; on_name : string; subnet_ids : list string }.
Record OsImage := { os_image_id : string; hash_value : option string }.
Record OsAddress := { addr : string; mac_addr : string; addr_type : string }.
Record OsServer := { server_id : string; addresses : list (string * list OsAddress) }.
Record ServerSpec := {
  spec_name : string;
  spec_image : OsImage;
  spec_flavor : string;
  auto_ip : bool;
  nat_destination : string;
  ip_pool : option string;
  spec_networks : list string;
  userdata : string
}.

Class OpenStack (P : Type) := {
  render_clouds_file : VimModel → M P unit;
  connect : string → M P unit;
  find_project : string → string → M P (option string);
  networks_shared : string → M P (list OsNetwork);
  networks_of_project : string → string → M P (list OsNetwork);
  get_image : string → string → M P (option OsImage);
  create_image : string → string → string → M P OsImage;
  import_image : string → OsImage → option string → M P unit;
  wait_for_image : string → OsImage → M P unit;
  download_sha512 : option string → M P (Z * string);
  get_flavor : string → string → M P (option string);
  create_flavor : string → string → VmResourceFlavor → bool → M P string;
  get_project : string → string → M P (option string);
  add_flavor_access : string → string → string → M P unit;
  get_external_ipv4_floating_networks : string → M P (list OsNetwork);
  create_server : string → ServerSpec → M P OsServer;
  get_server : string → string → M P (option OsServer);
  delete_server : string → string → M P bool;
  list_ports : string → string → M P (list string);
  update_port : string → string → M P unit;
  list_subnets : string → string → string → string → M P (list string);
  create_network : string → string → M P OsNetwork;
  create_subnet : string → string → string → M P string;
  get_subnet : string → string → M P (option string);
  create_server_interface : string → string → string → M P string;
  delete_flavor : string → string → M P unit;
  delete_subnet : string → string → M P unit;
  delete_network : string → string → M P unit
}.

(** ** [OpenStackClient] *)
Section client.
Context {P : Type} `{!OpenStack P}.
Variable conn project_id : string.
Definition get_available_networks : M P (list (string * OsNetwork)) :=
  shared_networks ← networks_shared conn;
  project_networks ← networks_of_project conn project_id;
  mret (foldl (λ d n, od_set (on_name n) n d) [] (shared_networks ++ project_networks)).
Definition get_network (network_name : string) : M P (option OsNetwork) :=
  all_networks ← get_available_networks; mret (od_get network_name all_networks).
Definition network_names_to_ids (network_names : list string) : M P (list string) :=
  all_networks ← get_available_networks;
  liftR (map_result (λ n, net ← od_getitem n all_networks; Ok (on_id net)) network_names).
End client.

(** ** The provider *)
Record VirtualizationProviderDataOpenstack := {
  os_dict : gmap (option string) string;
  flavors : list string;
  networks_created : list string;
  subnets_created : list string
}.
Definition new_data : VirtualizationProviderDataOpenstack :=
  {| os_dict := ∅; flavors := []; networks_created := []; subnets_created := [] |}.
Definition set_os_dict (d : gmap (option string) string) (s : VirtualizationProviderDataOpenstack) :=
  {| os_dict := d; flavors := flavors s; networks_created := networks_created s; subnets_created := subnets_created s |}.
Definition set_os_flavors (l : list string) (s : VirtualizationProviderDataOpenstack) :=
  {| os_dict := os_dict s; flavors := l; networks_created := networks_created s; subnets_created := subnets_created s |}.
Definition set_os_nets (n s' : list string) (s : VirtualizationProviderDataOpenstack) :=
  {| os_dict := os_dict s; flavors := flavors s; networks_created := n; subnets_created := s' |}.

(** *** Texts of the machine *)
Definition interfaces_command : string :=
  "find /sys/class/net -mindepth 1 -maxdepth 1 ! -name lo -printf " +:+ double_quote +:+ "%P: " +:+ double_quote +:+
  " -execdir cat {}/address \;".
(** [VmInfoGathererConfigurator.dump_playbook]. *)
Definition info_playbook : AnsiblePlaybook :=
  add_run_command_and_gather_output_tasks interfaces_command "interfaces_mac" (new_builder "Info gathering").

(** The lines "name: address", as a dictionary from addresses to names. *)
Definition mac_name_dict (interfaces_mac : string) : list (string * string) :=
  foldl (λ d line, match split_text ": " line with [n; m] => od_set (strip m) (strip n) d | _ => d end) []
        (splitlines (strip interfaces_mac)).

Definition named_address (n : string) (a : VmResourceNetworkInterfaceAddress) : VmResourceNetworkInterfaceAddress :=
  {| interface_name := n; mac := mac a; ip := ip a; cidr := cidr a |}.
(** Interfaces are renamed in place, up to the first address that is not known. *)
Definition rename_if (names : list (string * string)) (i : VmResourceNetworkInterface) : VmResourceNetworkInterface * result unit :=
  match od_get (mac (fixed i)) names with
  | None => (i, Raise KeyError)
  | Some n =>
      let f := named_address n (fixed i) in
      match floating i with
      | None => ({| fixed := f; floating := None |}, Ok tt)
      | Some a => match od_get (mac a) names with
                  | None => ({| fixed := f; floating := Some a |}, Raise KeyError)
                  | Some m => ({| fixed := f; floating := Some (named_address m a) |}, Ok tt)
                  end
      end
  end.
Fixpoint rename_ifs (names : list (string * string)) (l : list VmResourceNetworkInterface) :
  list VmResourceNetworkInterface * result unit :=
  match l with
  | [] => ([], Ok tt)
  | i :: l' => match rename_if names i with
               | (i', Ok _) => let '(l2, r) := rename_ifs names l' in (i' :: l2, r)
               | (i', Raise e) => (i' :: l', Raise e)
               end
  end.
Fixpoint rename_all (names : list (string * string)) (d : list (string * list VmResourceNetworkInterface)) :
  list (string * list VmResourceNetworkInterface) * result unit :=
  match d with
  | [] => ([], Ok tt)
  | (k, l) :: d' => match rename_ifs names l with
                    | (l2, Ok _) => let '(d2, r) := rename_all names d' in ((k, l2) :: d2, r)
                    | (l2, Raise e) => ((k, l2) :: d', Raise e)
                    end
  end.

(** One address of a network of the server. *)
Definition parse_address (subnet_details : list (string * option string)) (network_name : string)
    (acc : option VmResourceNetworkInterfaceAddress * option VmResourceNetworkInterfaceAddress) (a : OsAddress) :
  result (option VmResourceNetworkInterfaceAddress * option VmResourceNetworkInterfaceAddress) :=
  let build :=
    s ← od_getitem network_name subnet_details;
    c ← match s with Some c => Ok c | None => Raise AttributeError end;
    Ok {| interface_name := EmptyString; mac := mac_addr a; ip := addr a; cidr := c |} in
  if String.eqb (addr_type a) "fixed" then f ← build; Ok (Some f, acc.2)
  else if String.eqb (addr_type a) "floating" then f ← build; Ok (acc.1, Some f)
  else Ok acc.

Section provider.
Context {P : Type} `{!OpenStack P, !Machines P, !Persistence P}.
Variable vim : VimModel.
Variable conn project_id : string.
Variable blueprint_id : string.
#[local] Abbreviation MC := (M (Call VirtualizationProviderDataOpenstack P)).

(** *** Images *)
Definition create_image_from_url (vm_image : VmResourceImage) : M P OsImage :=
  image ← catch (create_image conn (image_name vm_image) "public")
            (λ e, match e with
                  | ForbiddenException => Some (create_image conn (image_name vm_image) "private")
                  | _ => None
                  end);
  import_image conn image (image_url vm_image) ;;
  wait_for_image conn image ;;
  mret image.

Definition get_checksum (vm_image : VmResourceImage) : M P string :=
  '(status_code, file_hash) ← download_sha512 (image_url vm_image);
  if status_code =? 200 then mret file_hash else raise ValueError.

Definition prepare_image : MC OsImage :=
  v ← the_vm;
  found_image ← world (get_image conn (image_name (image v)));
  match found_image with
  | None =>
      if str_true (image_url (image v)) then world (create_image_from_url (image v))
      else raise VirtualizationProviderOpenstackException
  | Some found =>
      if check_sha512sum (image v) && check_sha512sum (image v) then
        os_remote_image ← world (get_image conn (image_name (image v)));
        os_remote_image ← liftR (match os_remote_image with Some i => Ok i | None => Raise AttributeError end);
        new_image_hash512 ← world (get_checksum (image v));
        if negb (bool_decide (Some new_image_hash512 = hash_value os_remote_image)) then
          change_vm (λ v, set_image_name (image_name (image v) +:+ String.substring 0 12 new_image_hash512) v) ;;
          v ← the_vm;
          updated ← world (get_image conn (image_name (image v)));
          match updated with
          | None => world (create_image_from_url (image v))
          | Some i => mret i
          end
        else mret found
      else mret found
  end.

(** *** Flavors *)
Definition create_get_flavor (requested_flavor : VmResourceFlavor) (vm_name : string) : MC string :=
  match flavor_name requested_flavor with
  | Some name =>
      found_flavor_on_vim ← world (get_flavor conn name);
      match found_flavor_on_vim with
      | None => world (create_flavor conn name requested_flavor true)
      | Some f => mret f
      end
  | None =>
      let flavor_name := "Flavor_" +:+ vm_name in
      d ← the_data;
      if py_in String.eqb flavor_name (flavors d) then
        flavor ← world (get_flavor conn flavor_name);
        match flavor with Some f => mret f | None => raise VirtualizationProviderOpenstackException end
      else
        flavor ← world (create_flavor conn flavor_name requested_flavor false);
        project ← world (get_project conn (vim_tenant_name vim));
        project ← liftR (match project with Some p => Ok p | None => Raise TypeError end);
        world (add_flavor_access conn flavor project) ;;
        change_data (λ d, set_os_flavors (flavors d ++ [flavor_name]) d) ;;
        mret flavor
  end.

(** *** Addresses *)
Definition pre_creation_checks : MC unit :=
  v ← the_vm;
  for_each (get_all_connected_network_names v) (λ net,
    n ← world (get_network conn project_id net);
    match n with None => raise VirtualizationProviderOpenstackException | Some _ => mret tt end).

(** The first subnet of each network. *)
Fixpoint get_network_details (network_names : list string) (d : list (string * option string)) : M P (list (string * option string)) :=
  match network_names with
  | [] => mret d
  | network_name :: names =>
      network_detail ← get_network conn project_id network_name;
      n ← liftR (match network_detail with Some n => Ok n | None => Raise AttributeError end);
      i ← liftR (py_getitem (subnet_ids n) 0);
      s ← get_subnet conn i;
      get_network_details names (od_set network_name s d)
  end.

Fixpoint parse_addresses (subnet_details : list (string * option string)) (network_name : string) (l : list OsAddress)
    (acc : option VmResourceNetworkInterfaceAddress * option VmResourceNetworkInterfaceAddress) :
  MC (option VmResourceNetworkInterfaceAddress * option VmResourceNetworkInterfaceAddress) :=
  match l with
  | [] => mret acc
  | a :: l' =>
      acc ← liftR (parse_address subnet_details network_name acc a);
      change_vm (λ v, if od_in network_name (network_interfaces v) then v
                      else set_vm_interfaces (od_set network_name [] (network_interfaces v)) v) ;;
      parse_addresses subnet_details network_name l' acc
  end.
Definition parse_os_addresses (addrs : list (string * list OsAddress)) (subnet_details : list (string * option string)) : MC unit :=
  for_each addrs (λ '(network_name, network_info),
    '(fixed, floating) ← parse_addresses subnet_details network_name network_info (None, None);
    v ← the_vm;
    l ← liftR (od_getitem network_name (network_interfaces v));
    f ← liftR (match fixed with Some f => Ok f | None => Raise ValidationError end);
    change_vm (set_vm_interfaces (od_set network_name (l ++ [{| fixed := f; floating := floating |}]) (network_interfaces v)))).

Definition gather_info_from_vm : MC unit :=
  v ← the_vm;
  facts ← world (configure_vm_ansible blueprint_id v (build info_playbook));
  interfaces_mac ← liftR (od_getitem "interfaces_mac" facts);
  text ← liftR (match interfaces_mac with VStr s => Ok s | _ => Raise AttributeError end);
  v ← the_vm;
  let '(ifs, r) := rename_all (mac_name_dict text) (network_interfaces v) in
  change_vm (set_vm_interfaces ifs) ;; liftR r.

Definition update_net_info_vm (server_obj : OsServer) : MC unit :=
  change_vm (set_vm_interfaces []) ;;
  v ← the_vm;
  subnet_detailed ← world (get_network_details (get_all_connected_network_names v) []);
  parse_os_addresses (addresses server_obj) subnet_detailed ;;
  v ← the_vm;
  mgt_interface ← liftR (first_interface (management_network v) v);
  change_vm (set_access_ip (Some (match floating mgt_interface with
                                  | Some a => ip a
                                  | None => ip (fixed mgt_interface)
                                  end))) ;;
  gather_info_from_vm.

Definition disable_port_security_all_ports (server_obj : OsServer) : MC unit :=
  server_ports ← world (list_ports conn (server_id server_obj));
  v ← the_vm;
  if negb (length server_ports =? length (get_all_connected_network_names v))%nat
  then raise VirtualizationProviderOpenstackException
  else match require_port_security_disabled v with
       | Some true => for_each server_ports (λ p, world (update_port conn p))
       | _ => mret tt
       end.

(** *** The operations *)
Definition create_vm : MC unit :=
  pre_creation_checks ;;
  image ← prepare_image;
  v ← the_vm;
  flavor ← create_get_flavor (flavor v) (vm_name v);
  c_init ← liftR (add_user (username v) (password v) (new_CloudInit (ssh_keys vim) None None));
  let auto_ip := use_floating_ip (vim_config vim) || require_floating_ip v in
  floating_ip_net ←
    (if auto_ip then
       float_ip_nets ← world (get_external_ipv4_floating_networks conn);
       match float_ip_nets with
       | [n] => mret (Some (on_name n))
       | _ => raise VirtualizationProviderOpenstackException
       end
     else mret None);
  ids ← world (network_names_to_ids conn project_id (get_all_connected_network_names v));
  server_obj ← world (create_server conn
    {| spec_name := vm_name v; spec_image := image; spec_flavor := flavor; auto_ip := auto_ip;
       nat_destination := management_network v; ip_pool := floating_ip_net; spec_networks := ids;
       userdata := cloud_config_text c_init |});
  change_data (λ d, set_os_dict (<[vm_id v := server_id server_obj]> (os_dict d)) d) ;;
  world (save_to_db blueprint_id) ;;
  update_net_info_vm server_obj ;;
  disable_port_security_all_ports server_obj ;;
  change_vm set_created ;;
  world (save_to_db blueprint_id).

Definition os_server_of : MC string :=
  v ← the_vm; d ← the_data;
  liftR (match os_dict d !! vm_id v with Some i => Ok i | None => Raise KeyError end).

(** The networks that are not attached yet, each once. *)
Definition nets_to_attach (server_obj : OsServer) (nets_name : list string) : list string :=
  foldl (λ to_attach net,
    if negb (od_in net (addresses server_obj)) && negb (py_in String.eqb net to_attach) then to_attach ++ [net] else to_attach)
    [] nets_name.
Fixpoint attach_each (to_attach : list string) : MC (list string) :=
  match to_attach with
  | [] => mret []
  | net :: l =>
      network ← world (get_network conn project_id net);
      id ← os_server_of;
      n ← liftR (match network with Some n => Ok n | None => Raise AttributeError end);
      new_mac ← world (create_server_interface conn id (on_id n));
      change_vm (λ v, set_vm_networks (additional_networks v ++ [net]) v) ;;
      rest ← attach_each l;
      mret (new_mac :: rest)
  end.
(** The interfaces of the new cards, looked for in the machine. *)
Definition new_nics (macs : list string) (v : VmResource) : result (list (NetplanInterface * string)) :=
  map_result (λ m, match get_network_interface_by_fixed_mac m v with
                   | Some i => Ok ({| nic_name := interface_name (fixed i); nic_mac := m |}, ip (fixed i))
                   | None => Raise AttributeError
                   end) macs.
Definition attach_nets (nets_name : list string) : MC (list string) :=
  id ← os_server_of;
  server ← world (get_server conn id);
  to_attach ← liftR (match server, nets_name with
                     | Some server_obj, _ => Ok (nets_to_attach server_obj nets_name)
                     | None, [] => Ok []
                     | None, _ => Raise AttributeError
                     end);
  match server, to_attach with
  | Some server_obj, _ :: _ =>
      macs ← attach_each to_attach;
      update_net_info_vm server_obj ;;
      disable_port_security_all_ports server_obj ;;
      v ← the_vm;
      nics ← liftR (new_nics macs v);
      world (configure_vm_ansible blueprint_id v (build (add_nic_playbook nics.*1))) ;;
      world (save_to_db blueprint_id) ;;
      mret nics.*2
  | _, _ => mret []
  end.

#[local] Abbreviation MD := (M (VirtualizationProviderDataOpenstack * P)).
Definition data_world {A} (m : M P A) : MD A := zoom snd (λ p s, (s.1, p)) m.

Definition create_net (net_resource : NetResource) : MD unit :=
  n ← data_world (get_network conn project_id (net_name net_resource));
  match n with
  | Some _ => raise VirtualizationProviderOpenstackException
  | None =>
      subnets ← data_world (list_subnets conn (net_cidr net_resource) (net_name net_resource) project_id);
      match subnets with
      | _ :: _ => raise VirtualizationProviderOpenstackException
      | [] =>
          network ← data_world (create_network conn (net_name net_resource));
          subnet ← data_world (create_subnet conn (on_id network) (net_cidr net_resource));
          modifyS (λ s, (set_os_nets (networks_created s.1 ++ [on_id network]) (subnets_created s.1 ++ [subnet]) s.1, s.2))
      end
  end.

(** After the check of the interface that the machine is created, and the dump of the playbook. *)
Definition configure_vm (v : VmResource) (playbook : pyval) : MD (list (string * pyval)) :=
  configurator_facts ← data_world (configure_vm_ansible blueprint_id v playbook);
  data_world (save_to_db blueprint_id) ;;
  mret configurator_facts.

Definition destroy_vm (v : VmResource) : MD unit :=
  s ← getS;
  match os_dict s.1 !! vm_id v with
  | Some id => data_world (delete_server conn id) ;; mret tt
  | None => mret tt
  end ;;
  data_world (save_to_db blueprint_id).

Definition final_cleanup : MD unit :=
  s ← getS;
  for_each (flavors s.1) (λ f, data_world (delete_flavor conn f)) ;;
  for_each (subnets_created s.1) (λ i, data_world (delete_subnet conn i)) ;;
  for_each (networks_created s.1) (λ i, data_world (delete_network conn i)).
End provider.
