(* ===== verification/OpenStackProps.v ===== *)
(** * What the OpenStack provider guarantees

    Only [create_vm] and [destroy_vm] change the servers the cloud has handed over; a server is recorded with
    its machine as soon as it is handed over, whatever fails afterwards. *)

From stdpp Require Import base list strings gmap.
From Stdlib Require Import ZArith Lia.
From S2P Require Import Prelude VimModels Ansible Resources VirtCommon OpenStack.

Open Scope Z_scope.

(** ** The client library

    The first part of [ledger] are the servers, with their cloud, that [create_server] returned and that were not
    deleted since, the second all it ever returned: it never gives an identifier again.  Of a call that raises
    nothing is said but that it returns no server.  A deletion that is waited for leaves no server. *)
Definition inert {P A L : Type} (ledger : P → L) (m : M P A) : Prop := ∀ p, ledger (m p).2 = ledger p.

Class OpenStackLaws (P : Type) `{!OpenStack P, !Machines P, !Persistence P} := {
  ledger : P → gset (string * string) * gset (string * string);
  active_past : ∀ p, (ledger p).1 ⊆ (ledger p).2;
  create_server_spec : ∀ conn s p,
    match create_server conn s p with
    | (Ok srv, p') => (conn, server_id srv) ∉ (ledger p).2 ∧
        ledger p' = ({[(conn, server_id srv)]} ∪ (ledger p).1, {[(conn, server_id srv)]} ∪ (ledger p).2)
    | (Raise _, p') => ledger p' = ledger p
    end;
  delete_server_spec : ∀ conn i p,
    match delete_server conn i p with
    | (Ok _, p') => ledger p' = ((ledger p).1 ∖ {[(conn, i)]}, (ledger p).2)
    | (Raise _, p') => (ledger p').1 ⊆ (ledger p).1 ∧ (ledger p').2 = (ledger p).2
    end;
  render_inert : ∀ v, inert ledger (render_clouds_file v);
  connect_inert : ∀ c, inert ledger (connect c);
  find_project_inert : ∀ c n, inert ledger (find_project c n);
  networks_shared_inert : ∀ c, inert ledger (networks_shared c);
  networks_of_project_inert : ∀ c i, inert ledger (networks_of_project c i);
  get_image_inert : ∀ c n, inert ledger (get_image c n);
  create_image_inert : ∀ c n v, inert ledger (create_image c n v);
  import_image_inert : ∀ c i u, inert ledger (import_image c i u);
  wait_for_image_inert : ∀ c i, inert ledger (wait_for_image c i);
  download_inert : ∀ u, inert ledger (download_sha512 u);
  get_flavor_inert : ∀ c n, inert ledger (get_flavor c n);
  create_flavor_inert : ∀ c n f b, inert ledger (create_flavor c n f b);
  get_project_inert : ∀ c n, inert ledger (get_project c n);
  add_flavor_access_inert : ∀ c f i, inert ledger (add_flavor_access c f i);
  floating_inert : ∀ c, inert ledger (get_external_ipv4_floating_networks c);
  get_server_inert : ∀ c i, inert ledger (get_server c i);
  list_ports_inert : ∀ c i, inert ledger (list_ports c i);
  update_port_inert : ∀ c i, inert ledger (update_port c i);
  list_subnets_inert : ∀ c a b i, inert ledger (list_subnets c a b i);
  create_network_inert : ∀ c n, inert ledger (create_network c n);
  create_subnet_inert : ∀ c n a, inert ledger (create_subnet c n a);
  get_subnet_inert : ∀ c i, inert ledger (get_subnet c i);
  create_server_interface_inert : ∀ c i n, inert ledger (create_server_interface c i n);
  delete_flavor_inert : ∀ c n, inert ledger (delete_flavor c n);
  delete_subnet_inert : ∀ c i, inert ledger (delete_subnet c i);
  delete_network_inert : ∀ c i, inert ledger (delete_network c i);
  sleep_inert : ∀ d, inert ledger (sleep d);
  ssh_inert : ∀ h p u w, inert ledger (ssh_connect h p u w);
  write_playbook_inert : ∀ f v, inert ledger (write_playbook f v);
  ansible_inert : ∀ h u w v, inert ledger (ansible_run h u w v);
  save_inert : ∀ i, inert ledger (save_to_db i)
}.

Definition active {P} `{OpenStackLaws P} (p : P) : gset (string * string) := (ledger p).1.
Definition past {P} `{OpenStackLaws P} (p : P) : gset (string * string) := (ledger p).2.

Create HintDb inert discriminated.
#[export] Hint Constants Opaque : inert.
#[export] Hint Resolve render_inert connect_inert find_project_inert networks_shared_inert networks_of_project_inert
  get_image_inert create_image_inert import_image_inert wait_for_image_inert download_inert get_flavor_inert
  create_flavor_inert get_project_inert add_flavor_access_inert floating_inert get_server_inert list_ports_inert
  update_port_inert list_subnets_inert create_network_inert create_subnet_inert get_subnet_inert
  create_server_interface_inert delete_flavor_inert delete_subnet_inert delete_network_inert sleep_inert ssh_inert
  write_playbook_inert ansible_inert save_inert : inert.

Section inert.
Context {P L : Type} {ledger : P → L}.
Lemma inert_ret {A} (a : A) : inert ledger (mret a : M P A).
Proof. by intros p. Qed.
Lemma inert_raise {A} e : inert ledger (raise e : M P A).
Proof. by intros p. Qed.
Lemma inert_liftR {A} (r : result A) : inert ledger (liftR r : M P A).
Proof. by intros p. Qed.
Lemma inert_getS : inert ledger (getS : M P P).
Proof. by intros p. Qed.
Lemma inert_bind {A B} (m : M P A) (f : A → M P B) : inert ledger m → (∀ a, inert ledger (f a)) → inert ledger (m ≫= f).
Proof.
  intros Hm Hf p. unfold mbind, M_bind. specialize (Hm p). destruct (m p) as [[a|e] p1]; [|done]. cbn in Hm.
  by rewrite Hf.
Qed.
Lemma inert_catch {A} (m : M P A) h : inert ledger m → (∀ e k, h e = Some k → inert ledger k) → inert ledger (catch m h).
Proof.
  intros Hm Hh p. unfold catch. specialize (Hm p). destruct (m p) as [[a|e] p1]; [done|]. cbn in Hm.
  destruct (h e) as [k|] eqn:Ek; [|done]. by rewrite (Hh e k Ek).
Qed.
Lemma inert_for_each {A} (l : list A) f : (∀ a, inert ledger (f a)) → inert ledger (for_each l f).
Proof. intros Hf. induction l as [|a l IH]; [apply inert_ret|]. by apply inert_bind. Qed.
End inert.
#[export] Hint Resolve inert_ret inert_raise inert_liftR inert_getS : inert.

(** Through the sequence of a method, branch by branch. *)
Ltac inert_steps :=
  repeat first
    [ solve [auto with inert]
    | apply inert_bind; [|intros ?]
    | apply inert_for_each; intros ?
    | progress cbn beta iota zeta
    | match goal with |- inert _ (match ?x with _ => _ end) => destruct x end
    | match goal with |- inert _ ((match ?x with _ => _ end) _) => destruct x end ].

Section world.
Context {P : Type} `{!OpenStack P, !Machines P, !Persistence P, !OpenStackLaws P}.

Lemma wait_inert fuel : ∀ h port u w stop d, inert ledger (wait_loop fuel h port u w stop d).
Proof. induction fuel as [|fuel IH]; intros h port u w stop d; cbn [wait_loop]; inert_steps; apply IH. Qed.
#[local] Hint Resolve wait_inert : inert.
Lemma configure_inert i v playbook : inert ledger (configure_vm_ansible i v playbook).
Proof.
  unfold configure_vm_ansible, wait_for_ssh_to_be_ready, configure_machine_ansible. inert_steps.
Qed.
Lemma available_inert conn i : inert ledger (get_available_networks conn i).
Proof. unfold get_available_networks. inert_steps. Qed.
Lemma get_network_inert conn i n : inert ledger (get_network conn i n).
Proof. unfold get_network. apply inert_bind; [apply available_inert|auto with inert]. Qed.
Lemma names_to_ids_inert conn i l : inert ledger (network_names_to_ids conn i l).
Proof. unfold network_names_to_ids. apply inert_bind; [apply available_inert|auto with inert]. Qed.
Lemma create_image_from_url_inert conn img : inert ledger (create_image_from_url conn img).
Proof.
  unfold create_image_from_url. inert_steps. apply inert_catch; [auto with inert|].
  intros [] k; try done. intros [= <-]. auto with inert.
Qed.
Lemma get_checksum_inert img : inert ledger (get_checksum img).
Proof. unfold get_checksum. inert_steps. Qed.
Lemma network_details_inert conn i l : ∀ d, inert ledger (get_network_details conn i l d).
Proof.
  induction l as [|n l IH]; intros d; cbn [get_network_details]; [auto with inert|].
  apply inert_bind; [apply get_network_inert|intros o]. inert_steps; apply IH.
Qed.
End world.
#[export] Hint Resolve configure_inert available_inert get_network_inert names_to_ids_inert create_image_from_url_inert
  get_checksum_inert network_details_inert : inert.

(** ** The methods of the provider *)
Section provider.
Context {P : Type} `{!OpenStack P, !Machines P, !Persistence P, !OpenStackLaws P}.
Variable vim : VimModel.
Variables conn project_id blueprint_id : string.
#[local] Abbreviation Data := VirtualizationProviderDataOpenstack.
#[local] Abbreviation MC := (M (Call Data P)).
#[local] Abbreviation MD := (M (Data * P)).
Implicit Types (c : Call Data P) (v : VmResource) (d : Data).

Definition steady {A : Type} (m : MC A) : Prop := ∀ c,
  os_dict (call_data (m c).2) = os_dict (call_data c) ∧
  ledger (call_world (m c).2) = ledger (call_world c) ∧
  same_machine (call_vm c) (call_vm (m c).2).

Lemma steady_ret {A} (a : A) : steady (mret a).
Proof. by intros c. Qed.
Lemma steady_raise {A} e : steady (raise (A:=A) e).
Proof. by intros c. Qed.
Lemma steady_liftR {A} (r : result A) : steady (liftR r).
Proof. by intros c. Qed.
Lemma steady_vm : steady the_vm.
Proof. by intros c. Qed.
Lemma steady_data : steady the_data.
Proof. by intros c. Qed.
Lemma steady_change_vm f : (∀ v, same_machine v (f v)) → steady (change_vm f).
Proof. intros Hf c. split_and!; [done|done|]. apply Hf. Qed.
Lemma steady_change_data f : (∀ d, os_dict (f d) = os_dict d) → steady (change_data f).
Proof. intros Hf c. split_and!; [apply Hf|done|done..]. Qed.
Lemma steady_world {A} (m : M P A) : inert ledger m → steady (world m).
Proof. intros Hm c. unfold world, zoom. specialize (Hm (call_world c)). by destruct (m (call_world c)). Qed.
Lemma steady_bind {A B} (m : MC A) (f : A → MC B) : steady m → (∀ a, steady (f a)) → steady (m ≫= f).
Proof.
  intros Hm Hf c. unfold mbind, M_bind. specialize (Hm c). destruct (m c) as [[a|e] c1]; [|done].
  destruct Hm as (H1 & H2 & H3 & H4 & H5), (Hf a c1) as (G1 & G2 & G3 & G4 & G5).
  cbn in *. unfold same_machine. split_and!; congruence.
Qed.
Lemma steady_for_each {A} (l : list A) f : (∀ a, steady (f a)) → steady (for_each l f).
Proof. intros Hf. induction l as [|a l IH]; [apply steady_ret|]. by apply steady_bind. Qed.
End provider.
Create HintDb steady discriminated.
#[export] Hint Constants Opaque : steady.
#[export] Hint Resolve steady_ret steady_raise steady_liftR steady_vm steady_data : steady.
Ltac steady_steps :=
  repeat first
    [ solve [auto with steady]
    | apply steady_world; solve [auto with inert]
    | apply steady_bind; [|intros ?]
    | apply steady_for_each; intros ?
    | apply steady_change_vm; by intros ?
    | progress cbn beta iota zeta
    | match goal with |- steady (match ?x with _ => _ end) => destruct x end ].

Section methods.
Context {P : Type} `{!OpenStack P, !Machines P, !Persistence P, !OpenStackLaws P}.
Variable vim : VimModel.
Variables conn project_id blueprint_id : string.
#[local] Abbreviation Data := VirtualizationProviderDataOpenstack.
#[local] Abbreviation MC := (M (Call Data P)).
#[local] Abbreviation MD := (M (Data * P)).
Implicit Types (c : Call Data P) (v : VmResource) (d : Data).

Lemma prepare_image_steady : steady (prepare_image conn : MC _).
Proof. unfold prepare_image. steady_steps. Qed.
Lemma flavor_steady f n : steady (create_get_flavor vim conn f n : MC _).
Proof. unfold create_get_flavor. steady_steps. by apply steady_change_data. Qed.
Lemma checks_steady : steady (pre_creation_checks conn project_id : MC _).
Proof. unfold pre_creation_checks. steady_steps. Qed.
Lemma parse_addresses_steady s n l : ∀ acc, steady (parse_addresses s n l acc : MC _).
Proof.
  induction l as [|a l IH]; intros acc; cbn [parse_addresses]; steady_steps.
  apply steady_change_vm. intros v. by destruct (od_in _ _).
Qed.
#[local] Hint Resolve prepare_image_steady flavor_steady checks_steady parse_addresses_steady : steady.
Lemma parse_os_steady l s : steady (parse_os_addresses l s : MC _).
Proof. unfold parse_os_addresses. steady_steps. Qed.
Lemma gather_steady : steady (gather_info_from_vm blueprint_id : MC _).
Proof. unfold gather_info_from_vm. steady_steps. Qed.
#[local] Hint Resolve parse_os_steady gather_steady : steady.
Lemma update_net_steady s : steady (update_net_info_vm conn project_id blueprint_id s : MC _).
Proof. unfold update_net_info_vm. steady_steps. Qed.
Lemma disable_steady s : steady (disable_port_security_all_ports conn s : MC _).
Proof. unfold disable_port_security_all_ports. steady_steps. Qed.
#[local] Hint Resolve update_net_steady disable_steady : steady.

(** ** A machine is created *)
Definition untouched c c' : Prop := os_dict (call_data c') = os_dict (call_data c) ∧ ledger (call_world c') = ledger (call_world c).
Definition recorded c c' : Prop := ∃ sid, (conn, sid) ∉ past (call_world c) ∧
  os_dict (call_data c') = <[vm_id (call_vm c) := sid]> (os_dict (call_data c)) ∧
  ledger (call_world c') = ({[(conn, sid)]} ∪ active (call_world c), {[(conn, sid)]} ∪ past (call_world c)).
(** A new server is recorded, or there is none and the call fails. *)
Definition launches {A : Type} (i : option string) (m : MC A) : Prop := ∀ c, vm_id (call_vm c) = i →
  same_machine (call_vm c) (call_vm (m c).2) ∧
  (recorded c (m c).2 ∨ untouched c (m c).2 ∧ ∃ e, (m c).1 = Raise e).

Lemma launches_raise {A} i e : launches (A:=A) i (raise e).
Proof. intros c Hi. split; [done|right]. split; [done|by exists e]. Qed.
Lemma launches_bind {A B} i (m : MC A) (f : A → MC B) : steady m → (∀ a, launches i (f a)) → launches i (m ≫= f).
Proof.
  intros Hm Hf c Hi. unfold mbind, M_bind. specialize (Hm c). destruct (m c) as [[a|e] c1]; cbn in Hm;
    destruct Hm as (H1 & H2 & H3 & H4 & H5).
  - destruct (Hf a c1) as [(G3 & G4 & G5) Ho]; [congruence|]. split; [unfold same_machine; split_and!; congruence|].
    unfold recorded, untouched, active, past in *. by rewrite <-H1, <-H2, <-H3.
  - split; [done|right]. split; [done|by exists e].
Qed.
Lemma launches_vm {A} i (f : VmResource → MC A) : (∀ v, vm_id v = i → launches i (f v)) → launches i (v ← the_vm; f v).
Proof. intros Hf c Hi. by apply (Hf (call_vm c)). Qed.
Lemma launches_server {A} i spec (m : OsServer → MC A) : (∀ s, steady (m s)) →
  launches i (server_obj ← world (create_server conn spec);
              change_data (λ d, set_os_dict (<[i := server_id server_obj]> (os_dict d)) d) ;; m server_obj).
Proof.
  intros Hm c Hi. unfold mbind, M_bind, world, zoom, change_data, modifyS.
  pose proof (create_server_spec conn spec (call_world c)) as Hs.
  destruct (create_server conn spec (call_world c)) as [[srv|e] p1]; cbn.
  - destruct Hs as [Hnew Hact].
    match goal with |- context [m srv ?c1] => destruct (Hm srv c1) as (H1 & H2 & H3) end. cbn in *.
    split; [done|left]. exists (server_id srv). by rewrite H1, H2, <-Hi.
  - split; [done|right]. split; [done|by exists e].
Qed.

Lemma create_vm_launches i : launches i (create_vm vim conn project_id blueprint_id).
Proof.
  unfold create_vm. apply launches_bind; [auto with steady|intros _]. apply launches_bind; [auto with steady|intros img].
  apply launches_vm. intros v Hv. apply launches_bind; [auto with steady|intros f].
  apply launches_bind; [auto with steady|intros ci]. apply launches_bind.
  { steady_steps. }
  intros net. apply launches_bind; [apply steady_world; auto with inert|intros ids]. rewrite Hv.
  apply launches_server. intros srv. steady_steps.
Qed.

Definition ends_created {A : Type} (m : MC A) : Prop := ∀ c a c', m c = (Ok a, c') → created (call_vm c') = true.
Lemma ends_bind {A B} (m : MC A) (f : A → MC B) : (∀ a, ends_created (f a)) → ends_created (m ≫= f).
Proof. intros Hf c b c' H. apply bind_Ok_inv in H as (a & c1 & _ & H). by apply (Hf a c1 b). Qed.
Lemma create_vm_created : ends_created (create_vm vim conn project_id blueprint_id).
Proof.
  unfold create_vm. do 12 (apply ends_bind; intros ?). intros c [] c'. unfold change_vm, mbind, M_bind, modifyS, world, zoom.
  cbn. by destruct (save_to_db blueprint_id _) as [[[]|e] p]; intros [= <-].
Qed.

(** ** A machine is destroyed *)
Lemma destroy_vm_dict v d p : os_dict (destroy_vm conn blueprint_id v (d, p)).2.1 = os_dict d.
Proof.
  unfold destroy_vm, data_world, mbind, M_bind, getS, zoom. cbn.
  destruct (os_dict d !! vm_id v); cbn; [destruct (delete_server conn s p) as [[b|e] p1]; cbn; [|done]|];
    by destruct (save_to_db blueprint_id _) as [[]].
Qed.
Lemma destroy_vm_ledger v d p : active (destroy_vm conn blueprint_id v (d, p)).2.2 ⊆ active p ∧
  past (destroy_vm conn blueprint_id v (d, p)).2.2 = past p.
Proof.
  unfold destroy_vm, data_world, mbind, M_bind, getS, zoom, active, past. cbn.
  destruct (os_dict d !! vm_id v) as [sid|]; cbn.
  - pose proof (delete_server_spec conn sid p) as Hs.
    destruct (delete_server conn sid p) as [[b|e] p1]; cbn in *; [|done].
    pose proof (save_inert blueprint_id p1) as Hi. destruct (save_to_db blueprint_id p1) as [[] p2]; cbn in *; rewrite Hi, Hs; set_solver.
  - pose proof (save_inert blueprint_id p) as Hi. destruct (save_to_db blueprint_id p) as [[] p2]; cbn in *; by rewrite Hi.
Qed.
Lemma destroy_vm_deletes v d p d' p' sid : destroy_vm conn blueprint_id v (d, p) = (Ok tt, (d', p')) →
  os_dict d !! vm_id v = Some sid → active p' = active p ∖ {[(conn, sid)]}.
Proof.
  unfold destroy_vm, data_world, mbind, M_bind, getS, zoom, active. cbn. intros H Hd. rewrite Hd in H. cbn in H.
  pose proof (delete_server_spec conn sid p) as Hs.
  destruct (delete_server conn sid p) as [[b|e] p1]; cbn in H; [|done].
  pose proof (save_inert blueprint_id p1) as Hi. destruct (save_to_db blueprint_id p1) as [[] p2]; cbn in *; [|done].
  injection H as _ _ <-. by rewrite Hi, Hs.
Qed.
Lemma destroy_vm_unknown v d p : os_dict d !! vm_id v = None →
  active (destroy_vm conn blueprint_id v (d, p)).2.2 = active p.
Proof.
  unfold destroy_vm, data_world, mbind, M_bind, getS, zoom, active. cbn. intros ->. cbn.
  pose proof (save_inert blueprint_id p) as Hi. destruct (save_to_db blueprint_id p) as [[] p2]; cbn in *; by rewrite Hi.
Qed.

(** C15: a server that was handed over can be destroyed. Whatever happens to [create_vm], also when a later step
    raises (addresses, playbook, ports, saving), every server the cloud handed over during the call is recorded
    with the machine: destroying that machine, when it succeeds, leaves exactly the servers there were before.
    The machine is marked as created if [create_vm] returns. *)
Theorem created_machine_can_be_destroyed c r c' d' p' :
  create_vm vim conn project_id blueprint_id c = (r, c') → os_dict (call_data c) !! vm_id (call_vm c) = None →
  destroy_vm conn blueprint_id (call_vm c') (call_data c', call_world c') = (Ok tt, (d', p')) →
  active p' = active (call_world c) ∧ (r = Ok tt → created (call_vm c') = true).
Proof.
  intros Hc Hd Hx. destruct (create_vm_launches (vm_id (call_vm c)) c eq_refl) as [(Hi & _ & _) Ho].
  rewrite Hc in *. cbn in *. split.
  - destruct Ho as [(sid & Hnew & Ho & Ha)|[[Ho Ha] _]].
    + rewrite (destroy_vm_deletes _ _ _ _ _ sid Hx) by (by rewrite Ho, Hi, lookup_insert_eq). unfold active at 1. rewrite Ha. cbn.
      pose proof (active_past (call_world c)) as Hap. unfold active, past in *. set_solver.
    + pose proof (destroy_vm_unknown (call_vm c') (call_data c') (call_world c')) as Hu. rewrite Hx in Hu.
      unfold active at 2. rewrite <-Ha. apply Hu. by rewrite Ho, Hi.
  - intros ->. by apply (create_vm_created c tt).
Qed.
End methods.

(** ** Networks attached to a machine that runs

    The addresses of the machine are read again from the server as it was before. *)
Definition server_macs (s : OsServer) : list string := mac_addr <$> concat (od_values (addresses s)).
(** Every fixed address of the machine has one of the hardware addresses [l]. *)
Definition macs_among (l : list string) (d : list (string * list VmResourceNetworkInterface)) : Prop :=
  ∀ n ifs i, (n, ifs) ∈ d → i ∈ ifs → mac (fixed i) ∈ l.

Lemma macs_among_set l n ifs d :
  macs_among l d → (∀ i, i ∈ ifs → mac (fixed i) ∈ l) → macs_among l (od_set n ifs d).
Proof. intros Hd Hi n' ifs' i [[-> ->]|Hin]%od_set_elem Hii; [by apply Hi|by apply (Hd n' ifs')]. Qed.
Lemma rename_if_mac names i : mac (fixed (rename_if names i).1) = mac (fixed i).
Proof. unfold rename_if. destruct (od_get _ names); [|done]. destruct (floating i) as [a|]; [|done]. by destruct (od_get (mac a) names). Qed.
Lemma rename_ifs_macs names ifs : (λ i, mac (fixed i)) <$> (rename_ifs names ifs).1 = (λ i, mac (fixed i)) <$> ifs.
Proof.
  induction ifs as [|i ifs IH]; [done|]. cbn. pose proof (rename_if_mac names i) as Hi.
  destruct (rename_if names i) as [i' [[]|e]]; cbn in *; [|by rewrite Hi].
  destruct (rename_ifs names ifs) as [ifs' r]. cbn in *. by rewrite Hi, IH.
Qed.
Lemma macs_among_rename names l d : macs_among l d → macs_among l (rename_all names d).1.
Proof.
  induction d as [|[k ifs] d IH]; [done|]. intros Hd. cbn.
  assert (Hk : ∀ i, i ∈ (rename_ifs names ifs).1 → mac (fixed i) ∈ l).
  { intros i Hi. apply (list_elem_of_fmap_2 (λ i, mac (fixed i))) in Hi. rewrite rename_ifs_macs in Hi.
    apply list_elem_of_fmap in Hi as (i' & -> & Hi'). eapply (Hd k ifs); [by left|done]. }
  assert (Hr : macs_among l d) by (intros n ifs' i Hn; apply (Hd n ifs' i); by right).
  destruct (rename_ifs names ifs) as [ifs2 [[]|e]].
  - specialize (IH Hr). destruct (rename_all names d) as [d2 r]. intros n ifs' i Hn Hi.
    apply elem_of_cons in Hn as [[= -> ->]|Hn]; [by apply Hk|by apply (IH n ifs')].
  - intros n ifs' i Hn Hi. apply elem_of_cons in Hn as [[= -> ->]|Hn]; [by apply Hk|by apply (Hr n ifs')].
Qed.
Lemma interface_among m l v : macs_among l (network_interfaces v) → m ∉ l → get_network_interface_by_fixed_mac m v = None.
Proof.
  intros Hl Hm. unfold get_network_interface_by_fixed_mac, all_interfaces.
  destruct (find _ _) as [i|] eqn:E; [|done]. apply find_some in E as [Hin Hi]. apply String.eqb_eq in Hi.
  destruct Hm. rewrite <-Hi. apply in_concat in Hin as (ifs & Hifs & Hin).
  apply list_elem_of_In in Hifs. apply list_elem_of_fmap in Hifs as ([n ifs'] & -> & Hn).
  by apply (Hl n ifs'); [|apply list_elem_of_In].
Qed.

Section attach.
Context {P : Type} `{!OpenStack P, !Machines P, !Persistence P}.
Variables conn project_id blueprint_id : string.
#[local] Abbreviation Data := VirtualizationProviderDataOpenstack.
#[local] Abbreviation MC := (M (Call Data P)).
Implicit Types (c : Call Data P) (v : VmResource).

Section macs.
Variable l : list string.
Definition among c : Prop := macs_among l (network_interfaces (call_vm c)).
Lemma preserves_world {A} (m : M P A) : preserves among (world m).
Proof. intros c Hc. unfold world, zoom. by destruct (m (call_world c)). Qed.
Lemma preserves_the_vm : preserves among (the_vm : MC _).
Proof. by intros c. Qed.
Lemma preserves_change_vm (f : VmResource → VmResource) :
  (∀ v, macs_among l (network_interfaces v) → macs_among l (network_interfaces (f v))) → preserves among (change_vm f : MC _).
Proof. intros Hf c. apply Hf. Qed.

(** The address found for a network, if any, is one of the server's. *)
Definition fixed_among (acc : option VmResourceNetworkInterfaceAddress * option VmResourceNetworkInterfaceAddress) : Prop :=
  ∀ f, acc.1 = Some f → mac f ∈ l.
Lemma parse_address_among sub n acc a acc' :
  fixed_among acc → mac_addr a ∈ l → parse_address sub n acc a = Ok acc' → fixed_among acc'.
Proof.
  intros Hacc Ha. unfold parse_address. destruct (String.eqb (addr_type a) "fixed").
  - intros H. apply result_bind_Ok_inv in H as (f & Hb & [= <-]). intros f' [= <-].
    apply result_bind_Ok_inv in Hb as (s & _ & Hb). by apply result_bind_Ok_inv in Hb as (s' & _ & [= <-]).
  - destruct (String.eqb (addr_type a) "floating"); [|by intros [= <-]].
    intros H. by apply result_bind_Ok_inv in H as (f & Hb & [= <-]).
Qed.
Lemma parse_addresses_among sub n addrs : ∀ acc, fixed_among acc → (∀ a, a ∈ addrs → mac_addr a ∈ l) →
  triple among (parse_addresses sub n addrs acc : MC _) (λ acc' c, among c ∧ fixed_among acc') (λ _, True).
Proof.
  induction addrs as [|a addrs IH]; intros acc Hacc Ha; cbn [parse_addresses]; [by apply triple_ret|].
  apply triple_bind with (λ acc' c, among c ∧ fixed_among acc').
  { apply triple_liftR; [|done]. intros c acc' Hc Hp. split; [done|].
    eapply parse_address_among; [done| |exact Hp]. apply Ha. by left. }
  intros acc'. apply triple_bind with (λ _ c, among c ∧ fixed_among acc').
  { apply triple_modifyS. intros c [Hc Hf]. split; [|done]. unfold among. cbn.
    destruct (od_in _ _); [done|]. apply macs_among_set; [done|]. by intros i ?%not_elem_of_nil. }
  intros _ c [Hc Hf]. apply (IH acc' Hf); [|done]. intros a' Ha'. apply Ha. by right.
Qed.
Lemma parse_os_among addrs sub : (∀ n info a, (n, info) ∈ addrs → a ∈ info → mac_addr a ∈ l) →
  triple among (parse_os_addresses addrs sub : MC _) (λ _, among) (λ _, True).
Proof.
  intros Ha. unfold parse_os_addresses. induction addrs as [|[n info] addrs IH]; [by apply triple_ret|].
  cbn [for_each]. apply triple_bind with (λ _, among); [|intros _; apply IH; intros n' info' a Hn; apply (Ha n' info' a); by right].
  apply triple_bind with (λ acc c, among c ∧ fixed_among acc).
  { apply parse_addresses_among; [done|]. intros a Hin. apply (Ha n info); [by left|done]. }
  intros [f fl]. apply triple_bind with (λ v c, call_vm c = v ∧ among c ∧ fixed_among (f, fl)); [by intros c|intros v].
  apply triple_bind with (λ ifs c, call_vm c = v ∧ among c ∧ fixed_among (f, fl) ∧ od_getitem n (network_interfaces v) = Ok ifs).
  { apply triple_liftR; [|done]. naive_solver. }
  intros ifs. apply triple_bind with (λ f' c, call_vm c = v ∧ among c ∧ f = Some f' ∧ fixed_among (f, fl) ∧ od_getitem n (network_interfaces v) = Ok ifs).
  { apply triple_liftR; [|done]. intros c f' (Hv & Hc & Hf & Hg) Hf'. destruct f; naive_solver. }
  intros f'. apply triple_modifyS. intros c (<- & Hc & -> & Hf & Hg). apply macs_among_set; [done|].
  intros i [Hi|Hi%list_elem_of_singleton]%elem_of_app; [|subst i; by apply Hf].
  unfold od_getitem in Hg. destruct (od_get n _) as [ifs'|] eqn:Eg; [|done]. injection Hg as ->.
  by apply (Hc n ifs); [apply od_get_in|].
Qed.
Lemma gather_among : preserves among (gather_info_from_vm blueprint_id : MC _).
Proof.
  unfold gather_info_from_vm. apply preserves_bind; [apply preserves_the_vm|intros v].
  apply preserves_bind; [apply preserves_world|intros facts]. do 2 (apply preserves_bind; [apply preserves_liftR|intros ?]).
  intros c Hc. pose proof (macs_among_rename (mac_name_dict a0) l (network_interfaces (call_vm c)) Hc) as Hr.
  rewrite (bind_Ok the_vm _ c c (call_vm c)) by done. destruct (rename_all _ _) as [ifs r]. cbn in Hr. destruct r; exact Hr.
Qed.
End macs.

(** The steps before the new cards are looked for. *)
Lemma update_net_among server_obj :
  triple (λ _, True) (update_net_info_vm conn project_id blueprint_id server_obj : MC _) (λ _, among (server_macs server_obj)) (λ _, True).
Proof.
  unfold update_net_info_vm. apply triple_bind with (λ _, among (server_macs server_obj)).
  { apply triple_modifyS. intros c _ n ifs i Hn. by apply not_elem_of_nil in Hn. }
  intros _. apply triple_bind with (λ _, among (server_macs server_obj)).
  { intros c Hc. cbn. done. }
  intros v. apply triple_bind with (λ _, among (server_macs server_obj)).
  { intros c Hc. pose proof (preserves_world _ (get_network_details conn project_id (get_all_connected_network_names v) []) c Hc) as Hw.
    by destruct (world _ c) as [[] c']. }
  intros sub. apply triple_bind with (λ _, among (server_macs server_obj)).
  { apply parse_os_among. intros n info a Hn Ha. apply list_elem_of_fmap. exists a. split; [done|].
    apply list_elem_of_In, in_concat. exists info. split; apply list_elem_of_In; [|done].
    apply list_elem_of_fmap. by exists (n, info). }
  intros _. eapply triple_conseq; [apply (triple_preserves (among (server_macs server_obj)))|done|done|done].
  apply preserves_bind; [apply preserves_the_vm|intros v']. apply preserves_bind; [apply preserves_liftR|intros i].
  apply preserves_bind; [by apply preserves_change_vm|intros _]. apply gather_among.
Qed.

Section stale.
Variables (id : string) (server_obj : OsServer).
(** A network card that is added has a hardware address the server had not. *)
Hypothesis new_card : ∀ n p m p', create_server_interface conn id n p = (Ok m, p') → m ∉ server_macs server_obj.
Definition is_server c : Prop := os_dict (call_data c) !! vm_id (call_vm c) = Some id.
Definition new_macs (macs : list string) : Prop := Forall (λ m, m ∉ server_macs server_obj) macs.

Lemma attach_each_macs l : triple is_server (attach_each conn project_id l : MC _) (λ macs _, new_macs macs ∧ length macs = length l) (λ _, True).
Proof.
  induction l as [|net l IH]; cbn [attach_each]; [apply triple_ret; intros c _; split; [constructor|done]|].
  apply triple_bind with (λ _, is_server).
  { intros c Hc. unfold world, zoom. by destruct (get_network conn project_id net (call_world c)) as [[] p]. }
  intros network. apply triple_bind with (λ i c, is_server c ∧ i = id).
  { intros c Hc. unfold is_server in Hc. unfold os_server_of.
    rewrite (bind_Ok the_vm _ c c (call_vm c)), (bind_Ok the_data _ c c (call_data c)), Hc by done. done. }
  intros i. apply triple_bind with (λ _ c, is_server c ∧ i = id); [by apply triple_liftR|intros n].
  apply triple_bind with (λ m c, is_server c ∧ m ∉ server_macs server_obj).
  { intros c [Hc ->]. unfold world, zoom. destruct (create_server_interface conn id (on_id n) (call_world c)) as [[m|e] p] eqn:E; [|done].
    split; [done|by eapply new_card]. }
  intros m. apply triple_bind with (λ _ c, is_server c ∧ m ∉ server_macs server_obj); [by apply triple_modifyS|intros _].
  apply triple_bind with (λ macs c, (new_macs macs ∧ length macs = length l) ∧ m ∉ server_macs server_obj).
  { intros c [Hc Hm]. specialize (IH c Hc). by destruct (attach_each conn project_id l c) as [[] c']. }
  intros macs. apply triple_ret. intros c [[Hn Hl] Hm]. split; [by constructor|cbn; congruence].
Qed.
Lemma new_nics_fail macs v : macs ≠ [] → new_macs macs → macs_among (server_macs server_obj) (network_interfaces v) →
  new_nics macs v = Raise AttributeError.
Proof.
  intros Hne Hm Hv. destruct Hm as [|m macs Hm _]; [done|]. unfold new_nics. cbn. by rewrite (interface_among m _ v Hv Hm).
Qed.

(** The networks are attached, then no answer is possible. *)
Definition finish_attach (to_attach : list string) : MC (list string) :=
  macs ← attach_each conn project_id to_attach;
  update_net_info_vm conn project_id blueprint_id server_obj ;;
  disable_port_security_all_ports conn server_obj ;;
  v ← the_vm;
  nics ← liftR (new_nics macs v);
  world (configure_vm_ansible blueprint_id v (build (add_nic_playbook nics.*1))) ;;
  world (save_to_db blueprint_id) ;;
  mret nics.*2.
Lemma disable_reads_vm : preserves (among (server_macs server_obj)) (disable_port_security_all_ports conn server_obj : MC _).
Proof.
  unfold disable_port_security_all_ports.
  apply preserves_bind; [apply preserves_world|intros ports]. apply preserves_bind; [apply preserves_the_vm|intros v].
  destruct (negb _); [apply preserves_raise|]. destruct (require_port_security_disabled v) as [[]|]; [|apply preserves_ret..].
  apply preserves_for_each. intros p. apply preserves_world.
Qed.
Lemma finish_attach_raises to_attach : to_attach ≠ [] → triple is_server (finish_attach to_attach) (λ _ _, False) (λ _, True).
Proof.
  intros Hne. unfold finish_attach. apply triple_bind with (λ macs _, new_macs macs ∧ length macs = length to_attach).
  { apply attach_each_macs. }
  intros macs. apply triple_bind with (λ _ c, (new_macs macs ∧ macs ≠ []) ∧ among (server_macs server_obj) c).
  { intros c [Hm Hl]. pose proof (update_net_among server_obj c I) as Hu.
    destruct (update_net_info_vm _ _ _ _ c) as [[] c']; [|done]. split_and!; [done| |done]. by destruct macs, to_attach. }
  intros _. apply triple_bind with (λ _ c, (new_macs macs ∧ macs ≠ []) ∧ among (server_macs server_obj) c).
  { intros c [Hm Hc]. pose proof (disable_reads_vm c Hc) as Hd. by destruct (disable_port_security_all_ports _ _ c) as [[] c']. }
  intros _ c [[Hm Hmn] Hc]. rewrite (bind_Ok the_vm _ c c (call_vm c)) by done.
  rewrite (new_nics_fail macs _ Hmn Hm Hc). done.
Qed.
End stale.

(** Attaching a network to a machine never succeeds. When the network is not attached yet and the card the
    cloud adds has a hardware address of its own, [attach_nets] raises: it reads the addresses of the machine
    from the server object fetched before the card was added, so the new card is not among them. *)
Theorem attaching_a_network_raises c nets_name id server_obj p :
  os_dict (call_data c) !! vm_id (call_vm c) = Some id →
  get_server conn id (call_world c) = (Ok (Some server_obj), p) →
  nets_to_attach server_obj nets_name ≠ [] →
  (∀ n p m p', create_server_interface conn id n p = (Ok m, p') → m ∉ server_macs server_obj) →
  ∃ e, (attach_nets conn project_id blueprint_id nets_name c).1 = Raise e.
Proof.
  intros Hd Hs Hn Hnew. unfold attach_nets.
  assert (Hid : os_server_of c = (Ok id, c)).
  { unfold os_server_of. by rewrite (bind_Ok the_vm _ c c (call_vm c)), (bind_Ok the_data _ c c (call_data c)), Hd by done. }
  set (c1 := {| call_vm := call_vm c; call_data := call_data c; call_world := p |}).
  rewrite (bind_Ok _ _ c c id Hid), (bind_Ok (world (get_server conn id)) _ c c1 (Some server_obj))
    by (unfold world, zoom; by rewrite Hs).
  rewrite (bind_Ok (liftR _) _ _ _ (nets_to_attach server_obj nets_name)) by done.
  destruct (nets_to_attach server_obj nets_name) as [|n ns]; [done|].
  pose proof (finish_attach_raises id server_obj Hnew (n :: ns) ltac:(done) c1 Hd) as Hf. unfold finish_attach in Hf.
  match type of Hf with match ?x with _ => _ end => destruct x as [[a|e] c2] eqn:Ef; [done|] end.
  by exists e.
Qed.
End attach.

(** ** A small cloud *)
Module ConcreteCloud.
Record Cloud := { live : list (string * OsServer); gone : list (string * OsServer); stuck : list string; cards : nat; made : list string }.
(** An identifier longer than those used so far. *)
Definition fresh_server (l : list (string * OsServer)) : string := foldr (λ x s, server_id x.2 +:+ s) "s" l.
Definition nets : list OsNetwork :=
  [{| on_id := "net1"; on_name := "mgmt"; subnet_ids := ["s1"] |}; {| on_id := "net2"; on_name := "data"; subnet_ids := ["s2"] |}].
Definition named_network (n : string) : OsNetwork := {| on_id := n; on_name := n; subnet_ids := [n] |}.
Definition lab_addresses (ids : list string) : list (string * list OsAddress) :=
  (λ i, (if String.eqb i "net1" then "mgmt" else if String.eqb i "net2" then "data" else i, [{| addr := "10.0.0.9"; mac_addr := "mac-" +:+ i; addr_type := "fixed" |}])) <$> ids.
Definition lab_create (conn : string) (s : ServerSpec) : M Cloud OsServer := λ p,
  if String.eqb (spec_name s) "slow"
  then (Raise (ExternalError 0), {| live := live p; gone := gone p; stuck := "slow" :: stuck p; cards := cards p; made := made p |})
  else let srv := {| server_id := fresh_server (live p ++ gone p); addresses := lab_addresses (spec_networks s) |} in
       (Ok srv, {| live := (conn, srv) :: live p; gone := gone p; stuck := stuck p; cards := cards p; made := made p |}).
Definition lab_delete (conn i : string) : M Cloud bool := λ p,
  (Ok true, {| live := List.filter (λ x, negb (String.eqb x.1 conn && String.eqb (server_id x.2) i)) (live p);
               gone := live p ++ gone p; stuck := stuck p; cards := cards p; made := made p |}).
#[export] Instance lab_openstack : OpenStack Cloud := {|
  render_clouds_file v := mret tt;
  connect c := mret tt;
  find_project c n := mret (Some "project");
  networks_shared c := p ← getS; mret (nets ++ (named_network <$> made p));
  networks_of_project c i := mret [];
  get_image c n := mret (Some {| os_image_id := n; hash_value := None |});
  create_image c n v := mret {| os_image_id := n; hash_value := None |};
  import_image c i u := mret tt;
  wait_for_image c i := mret tt;
  download_sha512 u := mret (200, "00");
  get_flavor c n := mret (Some n);
  create_flavor c n f b := mret n;
  get_project c n := mret (Some "project");
  add_flavor_access c f i := mret tt;
  get_external_ipv4_floating_networks c := mret [];
  create_server := lab_create;
  get_server c i := p ← getS; mret (snd <$> find (λ x, String.eqb x.1 c && String.eqb (server_id x.2) i) (live p));
  delete_server := lab_delete;
  list_ports c i := p ← getS;
    mret (repeat "port" (match find (λ x, String.eqb x.1 c && String.eqb (server_id x.2) i) (live p) with
                         | Some x => length (addresses x.2) + cards p
                         | None => 0
                         end)%nat);
  update_port c i := mret tt;
  list_subnets c a b i := mret [];
  create_network c n := modifyS (λ p, {| live := live p; gone := gone p; stuck := stuck p; cards := cards p; made := made p ++ [n] |}) ;;
    mret (named_network n);
  create_subnet c n a := mret a;
  get_subnet c i := mret (Some "10.0.0.0/24");
  create_server_interface c i n := modifyS (λ p, {| live := live p; gone := gone p; stuck := stuck p; cards := S (cards p); made := made p |}) ;; mret "mac-new";
  delete_flavor c n := mret tt;
  delete_subnet c i := mret tt;
  delete_network c i := mret tt
|}.
Definition lab_facts : string :=
  py_join newline ["ens3: mac-net1"; "ens4: mac-net2"; "ens5: mac-new"; "ens6: mac-mgt"; "ens7: mac-n2"; "ens8: mac-n3"; "ens9: mac-radio_blue_1"].
#[export] Instance lab_machines : Machines Cloud := {|
  now p := 0;
  sleep d := mret tt;
  ssh_connect h port u pw := mret SshConnected;
  write_playbook f v := mret tt;
  ansible_run h u pw v := mret ("successful", [("interfaces_mac", VStr lab_facts)]);
  yaml_text d := "yaml";
  json_string s := s
|}.
#[export] Instance lab_persistence : Persistence Cloud := {| save_to_db i := mret tt |}.

Definition lab_keys (l : list (string * OsServer)) : gset (string * string) := list_to_set ((λ x, (x.1, server_id x.2)) <$> l).
Definition lab_ledger (p : Cloud) : gset (string * string) * gset (string * string) := (lab_keys (live p), lab_keys (live p ++ gone p)).
Lemma length_string_app a b : String.length (a +:+ b) = (String.length a + String.length b)%nat.
Proof. induction a as [|c a IH]; [done|exact (f_equal S IH)]. Qed.
Lemma fresh_longer l : ∀ x, x ∈ l → (String.length (server_id x.2) < String.length (fresh_server l))%nat.
Proof.
  assert (Hpos : ∀ l, (1 ≤ String.length (fresh_server l))%nat).
  { induction l0 as [|y l0 IH]; [done|]. cbn [fresh_server foldr]. rewrite length_string_app. unfold fresh_server in IH. lia. }
  induction l as [|y l IH]; intros x Hx; [by apply not_elem_of_nil in Hx|]. cbn [fresh_server foldr]. rewrite length_string_app.
  pose proof (Hpos l) as Hl. unfold fresh_server in *. apply elem_of_cons in Hx as [->|Hx]; [lia|]. specialize (IH x Hx). lia.
Qed.
Lemma elem_of_keys a b l : (a, b) ∈ lab_keys l ↔ ∃ x, x ∈ l ∧ x.1 = a ∧ server_id x.2 = b.
Proof.
  unfold lab_keys. rewrite elem_of_list_to_set, list_elem_of_fmap. split.
  - intros (x & [= -> ->] & Hx). by exists x.
  - intros (x & Hx & <- & <-). by exists x.
Qed.
Lemma keys_app l k : lab_keys (l ++ k) = lab_keys l ∪ lab_keys k.
Proof. unfold lab_keys. by rewrite fmap_app, list_to_set_app_L. Qed.
Lemma keys_filter conn i l :
  lab_keys (List.filter (λ x, negb (String.eqb x.1 conn && String.eqb (server_id x.2) i)) l) = lab_keys l ∖ {[(conn, i)]}.
Proof.
  apply set_eq. intros [a b]. rewrite elem_of_difference, !elem_of_keys, elem_of_singleton. split.
  - intros (x & Hx & <- & <-). apply list_elem_of_In, filter_In in Hx as [Hx Hb].
    split; [exists x; split; [by apply list_elem_of_In|done]|]. intros [= E1 E2].
    by rewrite E1, E2, !String.eqb_refl in Hb.
  - intros [(x & Hx & <- & <-) Hne]. exists x. split; [|done]. apply list_elem_of_In, filter_In.
    split; [by apply list_elem_of_In|]. destruct (String.eqb_spec x.1 conn) as [E1|]; [|done].
    destruct (String.eqb_spec (server_id x.2) i) as [E2|]; [|done]. by rewrite E1, E2 in Hne.
Qed.
#[export] Program Instance lab_laws : OpenStackLaws Cloud := {| ledger := lab_ledger |}.
Next Obligation. intros p. cbn. rewrite keys_app. set_solver. Qed.
Next Obligation.
  intros conn s p. unfold create_server. cbn. unfold lab_create. destruct (String.eqb (spec_name s) "slow"); cbn; [done|].
  split; [|done]. rewrite elem_of_keys. intros (x & Hin & _ & Hx). apply fresh_longer in Hin. rewrite <-Hx in Hin. lia.
Qed.
Next Obligation.
  intros conn i p. change (lab_ledger (lab_delete conn i p).2 = (lab_keys (live p) ∖ {[(conn, i)]}, lab_keys (live p ++ gone p))).
  unfold lab_ledger, lab_delete. cbn [live gone snd]. rewrite !keys_app, keys_filter. f_equal. set_solver.
Qed.
Solve All Obligations with (repeat (intros ?); reflexivity).

Definition lab_vim : VimModel :=
  {| vim_name := "cloud"; vim_type := OPENSTACK; schema_version := "1.0"; vim_url := "https://cloud:5000"; vim_tenant_name := "admin";
     vim_user := "admin"; vim_password := "admin"; ssh_keys := Some []; vim_proxmox_realm := None; vim_proxmox_storage_id := None;
     vim_proxmox_storage_volume := None; osm_onboard := None;
     vim_config := {| insecure := true; APIversion := "v3.3"; use_floating_ip := false |};
     networks := []; routers := []; areas := [0] |}.
Definition lab_vm (name : string) : VmResource :=
  {| vm_id := Some "vm"; vm_area := 0; vm_name := name;
     image := {| image_name := "ubuntu"; image_url := None; check_sha512sum := false |};
     flavor := {| flavor_name := Some "small"; vcpu_count := "1"; memory_mb := "512"; storage_gb := "5"; vcpu_type := None; flavor_port_security := None |};
     username := "ubuntu"; password := "ubuntu"; become_password := None; management_network := "mgmt"; additional_networks := [];
     require_floating_ip := false; require_port_security_disabled := Some true; created := false; access_ip := None;
     network_interfaces := []; vm_state := None |}.
Definition lab_call (name : string) : Call VirtualizationProviderDataOpenstack Cloud :=
  {| call_vm := lab_vm name; call_data := new_data; call_world := {| live := []; gone := []; stuck := []; cards := 0; made := [] |} |}.
Definition lab_run (name : string) := create_vm lab_vim "cloud" "project" "blue" (lab_call name).

Lemma created_machine_can_be_destroyed_witness :
  (lab_run "quick").1 = Ok tt ∧ access_ip (call_vm (lab_run "quick").2) = Some "10.0.0.9" ∧
  ∃ d' p', destroy_vm "cloud" "blue" (call_vm (lab_run "quick").2) (call_data (lab_run "quick").2, call_world (lab_run "quick").2) = (Ok tt, (d', p')) ∧
  active p' = active (call_world (lab_call "quick")) ∧ created (call_vm (lab_run "quick").2) = true.
Proof.
  split; [vm_compute; reflexivity|]. split; [vm_compute; reflexivity|]. eexists _, _. split; [vm_compute; reflexivity|].
  edestruct (created_machine_can_be_destroyed lab_vim "cloud" "project" "blue" (lab_call "quick") (Ok tt) (lab_run "quick").2) as [H1 H2];
    [vm_compute; reflexivity|vm_compute; reflexivity|vm_compute; reflexivity|]. split; [exact H1|by apply H2].
Defined.

(** A creation that times out after the server was started: the machine is not recorded, and destroying it
    succeeds without a word to the cloud. *)
Example timed_out_server_stays :
  let c := (lab_run "slow").2 in
  (lab_run "slow").1 = Raise (ExternalError 0) ∧ os_dict (call_data c) = ∅ ∧
  (destroy_vm "cloud" "blue" (call_vm c) (call_data c, call_world c)).1 = Ok tt ∧
  stuck (destroy_vm "cloud" "blue" (call_vm c) (call_data c, call_world c)).2.2 = ["slow"].
Proof. vm_compute. repeat split. Qed.

Lemma attaching_a_network_raises_witness :
  let c := (lab_run "quick").2 in
  let r := attach_nets "cloud" "project" "blue" ["data"] c in
  (∃ e, r.1 = Raise e) ∧ cards (call_world r.2) = 1%nat ∧ additional_networks (call_vm r.2) = ["data"].
Proof.
  intros c r. split; [|split; vm_compute; reflexivity].
  eapply (attaching_a_network_raises "cloud" "project" "blue" c ["data"]); [vm_compute; reflexivity..|vm_compute; discriminate|].
  intros n p m p' [= <- <-]. vm_compute. intros H. repeat (apply elem_of_cons in H as [H|H]; [discriminate|]). by apply not_elem_of_nil in H.
Defined.
End ConcreteCloud.
