(* ===== verification/Deployment.v ===== *)
(** * The objects of a blueprint that deploys virtual machines

    What blueprints_ng/blueprint_ng.py gives to the modules that create virtual machines: resources
    are Python objects shared by the registry, the state of the blueprint and the configurators, so
    they live in a store and everything else refers to them by position.  Providers and the
    topology are interfaces. *)

From stdpp Require Import base list strings gmap.
From Stdlib Require Import ZArith Lia.
From S2P Require Import Prelude Resources.

Open Scope Z_scope.

Notation loc := nat (only parsing).

(** A resource: a machine, a network, or a configurator of the blueprint's own class. *)
Inductive obj (K : Type) :=
| OVm (v : VmResource)
| ONet (n : NetResource)
| OConf (id : option string) (c : K).
Arguments OVm {_} _.
Arguments ONet {_} _.
Arguments OConf {_} _ _.
#[export] Instance obj_eq_dec {K} `{EqDecision K} : EqDecision (obj K).
Proof. solve_decision. Defined.

Record Blueprint (K S X : Type) := {
  objs : list (obj K);
  registered_resources : list (string * loc);
  children_blue_ids : list string;
  state : S;
  ext : X
}.
Arguments objs {_ _ _} _.
Arguments registered_resources {_ _ _} _.
Arguments children_blue_ids {_ _ _} _.
Arguments state {_ _ _} _.
Arguments ext {_ _ _} _.

(** The calls of [ProvidersAggregator] that the modules make, and of the topology.  [create_vm]
    fills in the machine it is given, also when it then fails; [get_virt_provider] is the provider of
    an area and [run_playbook] the run of a playbook on a machine. *)
Class Provider (X : Type) := {
  create_vm : VmResource → X → result unit * VmResource * X;
  destroy_vm : VmResource → M X unit;
  create_net : NetResource → M X unit;
  get_virt_provider : Z → M X unit;
  run_playbook : VmResource → pyval → M X (list (string * pyval));
  delete_blueprint : string → M X unit;
  final_cleanup : M X unit;
  destroy_ng_blue : M X unit;
  get_vim_from_area_id_model : Z → M X unit;
  uuid4 : X → string * X
}.

(** A configurator: the machine it is for, and its playbook, whose dump reads the machine and may change the configurator. *)
Class Configurator (K : Type) := {
  vm_resource : K → loc;
  dump_playbook : VmResource → K → result pyval * K
}.

Definition obj_id {K} (o : obj K) : option string :=
  match o with OVm v => vm_id v | ONet n => net_id n | OConf i _ => i end.
(** [ResourceDeployable]s have an area. *)
Definition obj_area {K} (o : obj K) : option Z :=
  match o with OVm v => Some (vm_area v) | ONet n => Some (net_area n) | OConf _ _ => None end.

Definition set_vm_id (i : string) (v : VmResource) : VmResource :=
  {| vm_id := Some i; vm_area := vm_area v; vm_name := vm_name v; image := image v; flavor := flavor v;
     username := username v; password := password v; become_password := become_password v;
     management_network := management_network v; additional_networks := additional_networks v;
     require_floating_ip := require_floating_ip v;
     require_port_security_disabled := require_port_security_disabled v; created := created v;
     access_ip := access_ip v; network_interfaces := network_interfaces v; vm_state := vm_state v |}.
Definition set_obj_id {K} (i : string) (o : obj K) : obj K :=
  match o with
  | OVm v => OVm (set_vm_id i v)
  | ONet n => ONet {| net_id := Some i; net_area := net_area n; net_name := net_name n; net_cidr := net_cidr n |}
  | OConf _ c => OConf (Some i) c
  end.

Section deployment.
Context {K S X : Type} `{!Provider X} `{!Configurator K}.
#[local] Abbreviation B := (M (Blueprint K S X)).
Implicit Types b : Blueprint K S X.

Definition set_objs (l : list (obj K)) b : Blueprint K S X :=
  {| objs := l; registered_resources := registered_resources b; children_blue_ids := children_blue_ids b;
     state := state b; ext := ext b |}.
Definition set_registered (l : list (string * loc)) b : Blueprint K S X :=
  {| objs := objs b; registered_resources := l; children_blue_ids := children_blue_ids b;
     state := state b; ext := ext b |}.
Definition set_children (l : list string) b : Blueprint K S X :=
  {| objs := objs b; registered_resources := registered_resources b; children_blue_ids := l;
     state := state b; ext := ext b |}.
Definition set_state (s : S) b : Blueprint K S X :=
  {| objs := objs b; registered_resources := registered_resources b; children_blue_ids := children_blue_ids b;
     state := s; ext := ext b |}.
Definition set_ext (x : X) b : Blueprint K S X :=
  {| objs := objs b; registered_resources := registered_resources b; children_blue_ids := children_blue_ids b;
     state := state b; ext := x |}.

Definition get_state : B S := b ← getS; mret (state b).
Definition update_state (f : S → S) : B unit := modifyS (λ b, set_state (f (state b)) b).
Definition on_ext {A} (m : M X A) : B A := zoom ext set_ext m.

(** ** The store *)
Definition alloc (o : obj K) : B loc :=
  b ← getS; putS (set_objs (objs b ++ [o]) b) ;; mret (length (objs b)).
Definition store (l : loc) (o : obj K) : B unit := modifyS (λ b, set_objs (<[l:=o]> (objs b)) b).
Definition load (l : loc) : B (obj K) :=
  b ← getS; match objs b !! l with Some o => mret o | None => raise AttributeError end.
Definition load_vm (l : loc) : B VmResource :=
  o ← load l; match o with OVm v => mret v | _ => raise AttributeError end.
Definition load_net (l : loc) : B NetResource :=
  o ← load l; match o with ONet n => mret n | _ => raise AttributeError end.
Definition load_conf (l : loc) : B (option string * K) :=
  o ← load l; match o with OConf i c => mret (i, c) | _ => raise AttributeError end.

(** ** The registry *)
Definition new_id : B string := b ← getS; putS (set_ext (uuid4 (ext b)).2 b) ;; mret (uuid4 (ext b)).1.

Definition is_registered (id : option string) b : bool :=
  str_true id && od_in (default EmptyString id) (registered_resources b).

Definition register_resource (l : loc) : B unit :=
  o ← load l;
  b ← getS;
  (if is_registered (obj_id o) b then raise BlueprintNGException else mret tt) ;;
  o ← (if str_true (obj_id o) then mret o
       else i ← new_id; store l (set_obj_id i o) ;; mret (set_obj_id i o));
  match obj_area o with
  | Some area =>
      catch (on_ext (get_vim_from_area_id_model area))
            (λ e, if is_value_error e then Some (raise BlueprintNGException) else None)
  | None => mret tt
  end ;;
  modifyS (λ b, set_registered (od_set (default EmptyString (obj_id o)) l (registered_resources b)) b).

Definition deregister_resource (l : loc) : B unit :=
  o ← load l;
  b ← getS;
  if str_true (obj_id o) then
    if is_registered (obj_id o) b
    then putS (set_registered (od_pop (default EmptyString (obj_id o)) (registered_resources b)) b)
    else raise BlueprintNGException
  else raise BlueprintNGException.

Definition deregister_children (blue_id : string) : B unit :=
  b ← getS;
  if py_in String.eqb blue_id (children_blue_ids b)
  then l ← liftR (py_remove String.eqb blue_id (children_blue_ids b)); putS (set_children l b)
  else raise BlueprintNGException.

(** ** The providers *)
Definition provider_create_vm (l : loc) : B unit :=
  v ← load_vm l;
  b ← getS;
  let '(r, v', x) := create_vm v (ext b) in
  putS (set_ext x b) ;; store l (OVm v') ;; liftR r.
Definition provider_destroy_vm (l : loc) : B unit := v ← load_vm l; on_ext (destroy_vm v).
Definition provider_create_net (l : loc) : B unit := n ← load_net l; on_ext (create_net n).

(** [configure_vm]: on a machine that is created, the playbook of the configurator is dumped, which
    may change it, and run. *)
Definition provider_configure_vm (l : loc) : B (list (string * pyval)) :=
  ic ← load_conf l;
  v ← load_vm (vm_resource ic.2);
  on_ext (get_virt_provider (vm_area v)) ;;
  if created v then
    let '(r, c) := dump_playbook v ic.2 in
    store l (OConf ic.1 c) ;;
    playbook ← liftR r;
    on_ext (run_playbook v playbook)
  else raise VirtualizationProviderException.

(** ** [BlueprintNG.destroy] *)
Definition destroy_object (o : obj K) : B unit :=
  match o with OVm v => on_ext (destroy_vm v) | _ => mret tt end.
Definition destroy_registered : B unit :=
  b ← getS;
  for_each (od_values (registered_resources b)) (λ l, o ← load l; destroy_object o).

Definition base_destroy : B unit :=
  b ← getS;
  for_each (children_blue_ids b) (λ child,
    catch (on_ext (delete_blueprint child))
          (λ e, match e with BlueprintNotFoundException => Some (mret tt) | _ => None end) ;;
    deregister_children child) ;;
  destroy_registered ;;
  on_ext final_cleanup ;;
  on_ext destroy_ng_blue.
End deployment.

(** ** The interface of a virtualization provider

    [servers] are the resources that have a machine, [issued] the identifiers given out so far.  [homes x i a]
    says that a provider knows the identifier [i] in the area [a], and [healthy] is what the providers keep of
    their own state.  A quiet call starts no machine. *)
Definition quiet {X A} (servers issued : X → gset string) (homes : X → string → Z → Prop) (healthy : X → Prop) (m : M X A) : Prop :=
  ∀ x, healthy x → healthy (m x).2 ∧ servers (m x).2 ⊆ servers x ∧ issued (m x).2 = issued x ∧
    ∀ i a, homes (m x).2 i a → homes x i a.

Section quiet.
Context {X : Type} {servers issued : X → gset string} {homes : X → string → Z → Prop} {healthy : X → Prop}.
#[local] Abbreviation still := (quiet servers issued homes healthy).
Lemma quiet_ret {A} (a : A) : still (mret a : M X A).
Proof. by intros x. Qed.
Lemma quiet_raise {A} e : still (raise e : M X A).
Proof. by intros x. Qed.
Lemma quiet_liftR {A} (r : result A) : still (liftR r : M X A).
Proof. by intros x. Qed.
Lemma quiet_getS : still (getS : M X X).
Proof. by intros x. Qed.
Lemma quiet_trans x y z :
  (healthy y ∧ servers y ⊆ servers x ∧ issued y = issued x ∧ ∀ i a, homes y i a → homes x i a) →
  (healthy z ∧ servers z ⊆ servers y ∧ issued z = issued y ∧ ∀ i a, homes z i a → homes y i a) →
  healthy z ∧ servers z ⊆ servers x ∧ issued z = issued x ∧ ∀ i a, homes z i a → homes x i a.
Proof. intros (? & ? & ? & ?) (? & ? & ? & ?). split_and!; [done|set_solver|congruence|auto]. Qed.
Lemma quiet_bind {A B} (m : M X A) (f : A → M X B) : still m → (∀ a, still (f a)) → still (m ≫= f).
Proof.
  intros Hm Hf x Hx. unfold mbind, M_bind. specialize (Hm x Hx). destruct (m x) as [[a|e] x1]; [|done].
  eapply quiet_trans; [exact Hm|]. by apply Hf, Hm.
Qed.
Lemma quiet_catch {A} (m : M X A) h : still m → (∀ e k, h e = Some k → still k) → still (catch m h).
Proof.
  intros Hm Hh x Hx. unfold catch. specialize (Hm x Hx). destruct (m x) as [[a|e] x1]; [done|].
  destruct (h e) as [k|] eqn:Ek; [|done]. eapply quiet_trans; [exact Hm|]. by apply (Hh e k Ek), Hm.
Qed.
Lemma quiet_for_each {A} (l : list A) f : (∀ a, still (f a)) → still (for_each l f).
Proof. intros Hf. induction l as [|a l IH]; [apply quiet_ret|]. by apply quiet_bind. Qed.
Lemma quiet_if {A} (c : bool) (m1 m2 : M X A) : still m1 → still m2 → still (if c then m1 else m2).
Proof. by destruct c. Qed.
End quiet.

(** A machine is created for an identifier no provider knows, and destroyed in the area it was created in. *)
Class ProviderLaws (X : Type) `{!Provider X} := {
  servers : X → gset string;
  issued : X → gset string;
  homes : X → string → Z → Prop;
  healthy : X → Prop;
  uuid4_fresh : ∀ x i x', healthy x → uuid4 x = (i, x') →
    i ≠ EmptyString ∧ i ∉ issued x ∧ issued x' = {[i]} ∪ issued x ∧ servers x' = servers x ∧
    healthy x' ∧ ∀ j a, homes x' j a → homes x j a;
  create_vm_same : ∀ v x r v' x', create_vm v x = (r, v', x') →
    vm_id v' = vm_id v ∧ vm_name v' = vm_name v ∧ vm_area v' = vm_area v;
  create_vm_effect : ∀ v x r v' x' i, create_vm v x = (r, v', x') →
    healthy x → vm_id v = Some i → (∀ a, ¬ homes x i a) →
    healthy x' ∧ issued x' = issued x ∧ servers x' ⊆ {[i]} ∪ servers x ∧
    ∀ j a, homes x' j a → homes x j a ∨ j = i ∧ a = vm_area v;
  destroy_vm_quiet : ∀ v, quiet servers issued homes healthy (destroy_vm v);
  destroy_vm_effect : ∀ v x x' i, destroy_vm v x = (Ok tt, x') →
    healthy x → vm_id v = Some i → (∀ a, homes x i a → a = vm_area v) → i ∉ servers x';
  create_net_quiet : ∀ n, quiet servers issued homes healthy (create_net n);
  get_virt_provider_quiet : ∀ a, quiet servers issued homes healthy (get_virt_provider a);
  run_playbook_quiet : ∀ v p, quiet servers issued homes healthy (run_playbook v p);
  delete_blueprint_quiet : ∀ i, quiet servers issued homes healthy (delete_blueprint i);
  final_cleanup_quiet : quiet servers issued homes healthy final_cleanup;
  destroy_ng_blue_quiet : quiet servers issued homes healthy destroy_ng_blue;
  get_vim_quiet : ∀ a, quiet servers issued homes healthy (get_vim_from_area_id_model a)
}.
Abbreviation harmless := (quiet servers issued homes healthy).
(** A world in which nothing was created yet. *)
Definition pristine {X} `{ProviderLaws X} (x : X) : Prop :=
  healthy x ∧ servers x = ∅ ∧ ∀ i a, ¬ homes x i a.

(** What stays of a configurator when it changes; in particular when its playbook is dumped. *)
Class ConfiguratorLaws (K : Type) `{!Configurator K} := {
  same_conf : K → K → Prop;
  same_conf_refl : ∀ c, same_conf c c;
  same_conf_trans : ∀ c d e, same_conf c d → same_conf d e → same_conf c e;
  dump_same : ∀ v c, same_conf c (dump_playbook v c).2
}.

Section laws.
Context {K S X : Type} `{!Provider X} `{!Configurator K} `{!ConfiguratorLaws K} `{!ProviderLaws X}.
#[local] Abbreviation B := (M (Blueprint K S X)).
Implicit Types b : Blueprint K S X.

(** *** Objects keep their kind, and machines their names and areas *)
Definition same_kind (o o' : obj K) : Prop :=
  match o, o' with
  | OVm v, OVm v' => vm_name v' = vm_name v ∧ vm_area v' = vm_area v
  | ONet _, ONet _ => True
  | OConf _ c, OConf _ c' => same_conf c c'
  | _, _ => False
  end.
Definition extends b b' : Prop :=
  state b' = state b ∧
  ∀ l o, objs b !! l = Some o → ∃ o', objs b' !! l = Some o' ∧ same_kind o o'.
Definition grows {A} (m : B A) : Prop := ∀ b, extends b (m b).2.

Lemma same_kind_refl o : same_kind o o.
Proof. destruct o; [done..|apply same_conf_refl]. Qed.
Lemma same_kind_trans o o' o2 : same_kind o o' → same_kind o' o2 → same_kind o o2.
Proof. destruct o, o', o2; cbn; try done; [intros [] []; split; congruence|apply same_conf_trans]. Qed.
Lemma extends_refl b : extends b b.
Proof. split; [done|]. intros l o Ho. exists o. split; [done|apply same_kind_refl]. Qed.
Lemma extends_trans b1 b2 b3 : extends b1 b2 → extends b2 b3 → extends b1 b3.
Proof.
  intros [Hs1 H1] [Hs2 H2]. split; [congruence|]. intros l o Ho.
  destruct (H1 l o Ho) as (o2 & Ho2 & Hk2). destruct (H2 l o2 Ho2) as (o3 & Ho3 & Hk3).
  exists o3. split; [done|by eapply same_kind_trans].
Qed.
Lemma extends_objs b b' : objs b' = objs b → state b' = state b → extends b b'.
Proof.
  intros Ho Hs. split; [done|]. rewrite Ho. intros l o H. exists o. split; [done|apply same_kind_refl].
Qed.

Lemma grows_ret {A} (a : A) : grows (mret a).
Proof. intros b. apply extends_refl. Qed.
Lemma grows_raise {A} e : grows (raise (A:=A) e).
Proof. intros b. apply extends_refl. Qed.
Lemma grows_liftR {A} (r : result A) : grows (liftR r).
Proof. intros b. apply extends_refl. Qed.
Lemma grows_getS : grows getS.
Proof. intros b. apply extends_refl. Qed.
Lemma grows_bind {A C} (m : B A) (f : A → B C) : grows m → (∀ a, grows (f a)) → grows (m ≫= f).
Proof.
  intros Hm Hf b. unfold mbind, M_bind. specialize (Hm b). destruct (m b) as [[a|e] b1]; [|done].
  eapply extends_trans; [done|apply Hf].
Qed.
Lemma grows_get {A} (f : Blueprint K S X → B A) : (∀ b, extends b (f b b).2) → grows (b ← getS; f b).
Proof. intros H b. apply H. Qed.
Lemma grows_if {A} (c : bool) (m1 m2 : B A) : grows m1 → grows m2 → grows (if c then m1 else m2).
Proof. by destruct c. Qed.
Lemma grows_modifyS f : (∀ b, extends b (f b)) → grows (modifyS f).
Proof. intros H b. apply H. Qed.
Lemma grows_on_ext {A} (m : M X A) : grows (on_ext m).
Proof. intros b. unfold on_ext, zoom. destruct (m (ext b)). by apply extends_objs. Qed.
Lemma grows_for_each {A} (l : list A) (f : A → B unit) : (∀ x, grows (f x)) → grows (for_each l f).
Proof. intros Hf. induction l as [|x l IH]; [apply grows_ret|]. by apply grows_bind. Qed.

Lemma extends_insert b b' l o o' :
  objs b' = <[l:=o']> (objs b) → state b' = state b → objs b !! l = Some o → same_kind o o' → extends b b'.
Proof.
  intros Hb' Hs Ho Hk. split; [done|]. rewrite Hb'. intros l1 o1 Ho1. destruct (decide (l = l1)) as [<-|Hne].
  - exists o'. rewrite list_lookup_insert_eq by (by eapply lookup_lt_Some). naive_solver.
  - exists o1. rewrite list_lookup_insert_ne by done. split; [done|apply same_kind_refl].
Qed.
Lemma set_obj_id_kind i (o : obj K) : same_kind o (set_obj_id i o).
Proof. destruct o; [done..|apply same_conf_refl]. Qed.
Lemma set_obj_id_id i (o : obj K) : obj_id (set_obj_id i o) = Some i.
Proof. by destruct o. Qed.

(** *** What the identifiers and the registry mean *)
Record sound b : Prop := {
  snd_ids : ∀ l l' o o' i, objs b !! l = Some o → objs b !! l' = Some o' →
    obj_id o = Some i → obj_id o' = Some i → l = l';
  snd_issued : ∀ l o i, objs b !! l = Some o → obj_id o = Some i → i ≠ EmptyString ∧ i ∈ issued (ext b);
  snd_keys : NoDup (od_keys (registered_resources b));
  snd_registered : ∀ i l, od_get i (registered_resources b) = Some l →
    ∃ o, objs b !! l = Some o ∧ obj_id o = Some i;
  snd_servers : ∀ i, i ∈ servers (ext b) →
    ∃ l v, od_get i (registered_resources b) = Some l ∧ objs b !! l = Some (OVm v);
  snd_homes : ∀ i a, homes (ext b) i a →
    i ∈ issued (ext b) ∧ ∀ l v, objs b !! l = Some (OVm v) → vm_id v = Some i → vm_area v = a;
  snd_healthy : healthy (ext b)
}.

(** Under [sound], a call of the outside that adds no machine. *)
Lemma sound_ext b x : sound b → healthy x → servers x ⊆ servers (ext b) → issued x = issued (ext b) →
  (∀ i a, homes x i a → homes (ext b) i a) → sound (set_ext x b).
Proof.
  intros [H1 H2 H3 H4 H5 H6 H7] Hx Hs Hi Hh. constructor; cbn; [done| |done|done| | |done].
  - intros. rewrite Hi. eauto.
  - intros i Hin. apply H5. by apply Hs.
  - intros i a. rewrite Hi. by intros ?%Hh%H6.
Qed.
Lemma sound_on_ext {A} (m : M X A) : harmless m → preserves sound (on_ext m).
Proof.
  intros Hq b Hb. unfold on_ext, zoom. destruct (Hq (ext b) (snd_healthy b Hb)) as (? & ? & ? & ?).
  destruct (m (ext b)) as [r x]. by apply sound_ext.
Qed.
Lemma sound_state b s : sound b → sound (set_state s b).
Proof. intros []. by constructor. Qed.

Lemma sound_store b l o o' :
  sound b → objs b !! l = Some o → same_kind o o' → obj_id o' = obj_id o → sound (set_objs (<[l:=o']> (objs b)) b).
Proof.
  intros [H1 H2 H3 H4 H5 H6 H7] Ho Hk Hid.
  assert (Hback : ∀ l1 o1, <[l:=o']> (objs b) !! l1 = Some o1 →
    ∃ o2, objs b !! l1 = Some o2 ∧ same_kind o2 o1 ∧ obj_id o1 = obj_id o2).
  { intros l1 o1. destruct (decide (l = l1)) as [<-|Hne].
    - rewrite list_lookup_insert_eq by (by eapply lookup_lt_Some). intros [= <-]. by exists o.
    - rewrite list_lookup_insert_ne by done. exists o1. split_and!; [done|apply same_kind_refl|done]. }
  assert (Hfwd : ∀ l1 o1, objs b !! l1 = Some o1 →
    ∃ o2, <[l:=o']> (objs b) !! l1 = Some o2 ∧ same_kind o1 o2 ∧ obj_id o2 = obj_id o1).
  { intros l1 o1 Hl1. destruct (decide (l = l1)) as [<-|Hne].
    - rewrite list_lookup_insert_eq by (by eapply lookup_lt_Some). rewrite Hl1 in Ho. injection Ho as ->. by exists o'.
    - rewrite list_lookup_insert_ne by done. exists o1. split_and!; [done|apply same_kind_refl|done]. }
  constructor; cbn; [| |done| | | |done].
  - intros l1 l2 o1 o2 i (o3 & ? & _ & E3)%Hback (o4 & ? & _ & E4)%Hback. rewrite E3, E4. eauto.
  - intros l1 o1 i (o3 & ? & _ & E3)%Hback. rewrite E3. eauto.
  - intros i l1 Hg. destruct (H4 i l1 Hg) as (o1 & (o2 & ? & _ & E2)%Hfwd & ?). exists o2. by rewrite E2.
  - intros i (l1 & v & Hg & (o2 & ? & Hk2 & _)%Hfwd)%H5. destruct o2; [|done..]. by eauto.
  - intros i a Hh. destruct (H6 i a Hh) as [Hin Hv]. split; [done|]. intros l1 v ([v2| |] & Hl & Hk2 & Hid2)%Hback Hvi; [|done..].
    cbn in Hk2, Hid2. destruct Hk2 as [_ ->]. apply (Hv l1); [done|congruence].
Qed.

(** *** The operations *)
Definition holds (l : loc) (o : obj K) b : Prop := objs b !! l = Some o.
(** The object at [l] is registered, under its identifier; if it had none before, no provider knows it. *)
Definition enrolled (l : loc) (o : obj K) b : Prop :=
  ∃ o' i, objs b !! l = Some o' ∧ same_kind o o' ∧ obj_id o' = Some i ∧ od_get i (registered_resources b) = Some l ∧
    (obj_id o = None → ∀ a, ¬ homes (ext b) i a).

Lemma load_run l o b : holds l o b → load l b = (Ok o, b).
Proof. unfold holds, load, mbind, M_bind, getS. by intros ->. Qed.
Lemma load_vm_run l v b : holds l (OVm v) b → load_vm l b = (Ok v, b).
Proof. intros H. unfold load_vm. by erewrite bind_Ok by by apply load_run. Qed.
Lemma load_vm_cases l b :
  (∃ v, holds l (OVm v) b ∧ load_vm l b = (Ok v, b)) ∨ load_vm l b = (Raise AttributeError, b).
Proof.
  destruct (objs b !! l) as [[v|n|i c]|] eqn:El.
  - left. exists v. split; [exact El|]. by apply load_vm_run.
  - right. unfold load_vm. by rewrite (bind_Ok _ _ _ _ _ (load_run l (ONet n) b El)).
  - right. unfold load_vm. by rewrite (bind_Ok _ _ _ _ _ (load_run l (OConf i c) b El)).
  - right. unfold load_vm, load, mbind, M_bind, getS. by rewrite El.
Qed.

Lemma alloc_triple o :
  obj_id o = None → triple sound (alloc o) (λ l b, sound b ∧ holds l o b) sound.
Proof.
  intros Hid b [H1 H2 H3 H4 H5 H6 H7]. unfold alloc, holds. cbn.
  assert (Hback : ∀ l1 o1 i, (objs b ++ [o]) !! l1 = Some o1 → obj_id o1 = Some i → objs b !! l1 = Some o1).
  { intros l1 o1 i [Hl|[_ Hl]]%lookup_app_Some Hi; [done|]. apply list_lookup_singleton_Some in Hl as [_ <-]. congruence. }
  split; [|by apply list_lookup_middle]. constructor; cbn; [| |done| | | |done].
  - intros l l' o1 o2 i Hl Hl' Hi Hi'. eapply H1; [by eapply Hback|by eapply Hback|done|done].
  - intros l o1 i Hl Hi. eapply H2; [by eapply Hback|done].
  - intros i l Hg. destruct (H4 i l Hg) as (o1 & ? & ?). exists o1. split; [by apply lookup_app_l_Some|done].
  - intros i (l & v & ? & ?)%H5. exists l, v. split; [done|by apply lookup_app_l_Some].
  - intros i a Hh. destruct (H6 i a Hh) as [Hin Hv]. split; [done|]. intros l v Hl Hi. apply (Hv l); [by eapply Hback|done].
Qed.

Lemma register_sound b l o i :
  sound b → holds l o b → obj_id o = Some i → od_get i (registered_resources b) = None →
  sound (set_registered (od_set i l (registered_resources b)) b).
Proof.
  intros [H1 H2 H3 H4 H5 H6 H7] Ho Hid Hnew. constructor; cbn; [done|done|by apply od_keys_set_NoDup| | |done|done].
  - intros j l1. rewrite od_get_set. destruct (String.eqb_spec i j) as [<-|]; [intros [= <-]; by exists o|eauto].
  - intros j (l1 & v & Hg & Hv)%H5. exists l1, v. rewrite od_get_set.
    destruct (String.eqb_spec i j) as [<-|]; [congruence|done].
Qed.

(** A new identifier is given to the object. *)
Lemma new_id_triple l o :
  str_true (obj_id o) = false →
  triple (λ b, sound b ∧ holds l o b) (i ← new_id; store l (set_obj_id i o) ;; mret (set_obj_id i o))
    (λ o' b, sound b ∧ holds l o' b ∧ same_kind o o' ∧ ∃ i, obj_id o' = Some i ∧ str_true (Some i) = true ∧
       od_get i (registered_resources b) = None ∧ ∀ a, ¬ homes (ext b) i a) sound.
Proof.
  intros Hno b [Hb Hl]. pose proof Hb as [H1 H2 H3 H4 H5 H6 H7]. unfold holds in *.
  unfold new_id, mbind, M_bind, getS, putS, store, modifyS, mret, M_ret. cbn.
  destruct (uuid4 (ext b)) as [i x] eqn:Eu. destruct (uuid4_fresh _ _ _ H7 Eu) as (Hne & Hfr & Hiss & Hsrv & Hok & Hhm). cbn.
  assert (Hidn : obj_id o = None).
  { destruct (obj_id o) as [s|] eqn:E; [|done]. destruct (H2 l o s Hl E) as [? _]. by destruct s. }
  assert (Hb' : ∀ l1 o1 j, <[l:=set_obj_id i o]> (objs b) !! l1 = Some o1 → obj_id o1 = Some j →
    (l1 = l ∧ j = i) ∨ objs b !! l1 = Some o1 ∧ j ∈ issued (ext b)).
  { intros l1 o1 j Hl1 Hj. destruct (decide (l = l1)) as [<-|Hn].
    - rewrite list_lookup_insert_eq in Hl1 by (by eapply lookup_lt_Some). injection Hl1 as <-.
      rewrite set_obj_id_id in Hj. injection Hj as ->. by left.
    - rewrite list_lookup_insert_ne in Hl1 by done. right. split; [done|]. by apply (H2 l1 o1). }
  assert (Hf : ∀ l1 o1 j, objs b !! l1 = Some o1 → obj_id o1 = Some j → <[l:=set_obj_id i o]> (objs b) !! l1 = Some o1).
  { intros l1 o1 j Hl1 Hj. rewrite list_lookup_insert_ne; [done|]. intros <-. rewrite Hl in Hl1. injection Hl1 as <-. congruence. }
  split; [constructor; cbn; [| |done| | | |done]|].
  - intros l1 l2 o1 o2 j Ho1 Ho2 Hj1 Hj2.
    destruct (Hb' l1 o1 j Ho1 Hj1) as [[-> ->]|[? ?]], (Hb' l2 o2 _ Ho2 Hj2) as [[-> Ej]|[? ?]];
      [done|done|by rewrite Ej in *|by eapply H1].
  - intros l1 o1 j Ho1 Hj1. rewrite Hiss. destruct (Hb' l1 o1 j Ho1 Hj1) as [[-> ->]|[Ho1' Hj]]; [set_solver|].
    split; [by apply (H2 l1 o1)|set_solver].
  - intros j l1 Hg. destruct (H4 j l1 Hg) as (o1 & Ho1 & Hj). exists o1. split; [by eapply Hf|done].
  - intros j. rewrite Hsrv. intros (l1 & v & Hg & Hv)%H5. exists l1, v. split; [done|].
    destruct (H4 j l1 Hg) as (o1 & Ho1 & Hj). rewrite Ho1 in Hv. injection Hv as ->. by eapply Hf.
  - intros j a Hh%Hhm. destruct (H6 j a Hh) as [Hin Hv]. rewrite Hiss. split; [set_solver|]. intros l1 v Hl1 Hj.
    destruct (Hb' l1 (OVm v) j Hl1 Hj) as [[-> ->]|[? _]]; [done|]. by apply (Hv l1).
  - split_and!.
    + apply list_lookup_insert_eq. by eapply lookup_lt_Some.
    + apply set_obj_id_kind.
    + exists i. rewrite set_obj_id_id. split_and!; [done|by destruct i| |by intros a Hh%Hhm; destruct (H6 i a Hh)].
      destruct (od_get i (registered_resources b)) as [l1|] eqn:Hg; [|done].
      destruct (H4 i l1 Hg) as (o1 & Ho1 & Hj). by destruct (H2 l1 o1 i Ho1 Hj).
Qed.

Lemma register_triple l o :
  triple (λ b, sound b ∧ holds l o b) (register_resource l) (λ _ b, sound b ∧ enrolled l o b) sound.
Proof.
  intros b0 [Hb0 Hl0]. unfold register_resource. rewrite (bind_Ok _ _ _ _ _ (load_run l o b0 Hl0)).
  rewrite (bind_Ok getS _ b0 b0 b0) by done.
  destruct (is_registered (obj_id o) b0) eqn:Ereg; [done|]. rewrite (bind_Ok (mret tt) _ b0 b0 tt) by done.
  set (Q := λ (o' : obj K) b, sound b ∧ holds l o' b ∧ same_kind o o' ∧
    ∃ i, obj_id o' = Some i ∧ str_true (Some i) = true ∧ od_get i (registered_resources b) = None ∧
    (obj_id o = None → ∀ a, ¬ homes (ext b) i a)).
  pose (P := λ b, b = b0 ∧ sound b ∧ holds l o b).
  match goal with |- match ?m b0 with _ => _ end => enough (Ht : triple P m (λ _ b, sound b ∧ enrolled l o b) sound)
    by (apply (Ht b0); by split_and!) end.
  apply triple_bind with Q; [|intros o'].
  - destruct (str_true (obj_id o)) eqn:Et.
    + apply triple_ret. intros b (-> & Hb & Hl). split_and!; [done|done|apply same_kind_refl|].
      unfold is_registered in Ereg. rewrite Et in Ereg. destruct (obj_id o) as [i|]; [|done].
      exists i. split_and!; [done|done|by apply od_in_false|done].
    + eapply triple_conseq; [by apply (new_id_triple l o)|..]; [by intros b (-> & ? & ?)| |done].
      intros o' b (? & ? & ? & i & ? & ? & ? & ?). split_and!; [done..|]. by exists i.
  - apply triple_bind with (λ _, Q o').
    + assert (Hst : ∀ m : B unit, triple (Q o') m (λ _, Q o') (Q o') → triple (Q o') m (λ _, Q o') sound).
      { intros m Hm. eapply triple_conseq; [exact Hm|done..|]. by intros b [? _]. }
      apply Hst. destruct (obj_area o') as [a|]; [|by apply triple_ret].
      apply triple_preserves, preserves_catch.
      * intros b (Hb & Hl' & Hk & i & Hi & Ht & Hg & Hno).
        pose proof (sound_on_ext (get_vim_from_area_id_model a) (get_vim_quiet a) b Hb) as Hs.
        destruct (get_vim_quiet a (ext b) (snd_healthy b Hb)) as (_ & _ & _ & Hh).
        unfold on_ext, zoom in *. destruct (get_vim_from_area_id_model a (ext b)). split_and!; [done..|].
        exists i. split_and!; [done..|]. intros Hn a' Ha%Hh. by apply (Hno Hn a').
      * intros e h. destruct (is_value_error e); [|done]. intros [= <-]. by apply preserves_raise.
    + intros []. apply triple_modifyS. intros b (Hb & Hl & Hk & i & Hid & _ & Hnew & Hno). rewrite Hid. cbn. split.
      * by apply register_sound with o'.
      * exists o', i. split_and!; [done|done|done| |done]. cbn. apply od_get_set_eq.
Qed.

(** Forgetting an object that has no machine any more. *)
Lemma deregister_triple l o :
  triple (λ b, sound b ∧ holds l o b ∧ ∀ i, obj_id o = Some i → i ∉ servers (ext b))
    (deregister_resource l) (λ _, sound) sound.
Proof.
  intros b (Hb & Hl & Hs). unfold deregister_resource. rewrite (bind_Ok _ _ _ _ _ (load_run l o b Hl)).
  rewrite (bind_Ok getS _ b b b) by done.
  destruct (str_true (obj_id o)); [|done]. destruct (is_registered (obj_id o) b); [|done].
  destruct Hb as [H1 H2 H3 H4 H5 H6 H7]. constructor; cbn; [done|done|by apply od_keys_pop_NoDup| | |done|done].
  - intros i l'. rewrite od_get_pop by done. destruct (String.eqb _ i); [done|]. apply H4.
  - intros i Hi. destruct (H5 i Hi) as (l' & v & Hg & Hv). exists l', v. split; [|done].
    rewrite od_get_pop by done. destruct (String.eqb_spec (default EmptyString (obj_id o)) i) as [Heq|]; [|done].
    exfalso. destruct (H4 i l' Hg) as (o' & Ho' & Hi'). destruct (obj_id o) as [j|] eqn:Ej.
    + cbn in Heq. subst j. by apply (Hs i).
    + cbn in Heq. subst i. by destruct (H2 l' o' _ Ho' Hi').
Qed.
Lemma deregister_other l b :
  sound b → (∃ o, holds l o b ∧ match o with OVm _ => False | _ => True end) →
  sound (deregister_resource l b).2.
Proof.
  intros Hb (o & Ho & Hk). pose proof (deregister_triple l o b) as Ht. destruct (deregister_resource l b) as [[]] eqn:E;
    apply Ht; (split_and!; [done|done|]); intros i Hi Hin; destruct (snd_servers b Hb i Hin) as (l' & v & Hg & Hv);
    destruct (snd_registered b Hb i l' Hg) as (o' & Ho' & Hi');
    pose proof (snd_ids b Hb l l' o o' i Ho Ho' Hi Hi') as <-; unfold holds in Ho; rewrite Ho in Hv; by injection Hv as ->.
Qed.

(** Creating the machine of an object that is registered, and destroying it. *)
Lemma create_vm_triple l v : vm_id v = None →
  triple (λ b, sound b ∧ enrolled l (OVm v) b) (provider_create_vm l) (λ _, sound) sound.
Proof.
  intros Hnew b (Hb & o & i & Hl & Hk & Hid & Hg & Hno). destruct o as [v0| |]; [|done..]. unfold provider_create_vm.
  rewrite (bind_Ok _ _ _ _ _ (load_vm_run l v0 b Hl)). rewrite (bind_Ok getS _ b b b) by done.
  destruct (create_vm v0 (ext b)) as [[r v'] x] eqn:Ec.
  destruct (create_vm_same _ _ _ _ _ Ec) as (Hi & Hn & Ha). cbn in Hid.
  destruct (create_vm_effect _ _ _ _ _ i Ec (snd_healthy b Hb) Hid (Hno Hnew)) as (Hok & Hiss & Hsrv & Hhm).
  assert (Hb' : sound (set_objs (<[l:=OVm v']> (objs b)) b)) by by apply (sound_store b l (OVm v0)).
  assert (Hl' : <[l:=OVm v']> (objs b) !! l = Some (OVm v')) by (apply list_lookup_insert_eq; by eapply lookup_lt_Some).
  enough (sound (set_objs (<[l:=OVm v']> (objs b)) (set_ext x b))) by (unfold liftR; by destruct r).
  destruct Hb' as [H1 H2 H3 H4 H5 H6 H7]. constructor; cbn in *; [done| |done|done| | |done].
  - rewrite Hiss. done.
  - intros j [->%elem_of_singleton|Hj]%Hsrv%elem_of_union; [by exists l, v'|by apply H5].
  - intros j a Hh. rewrite Hiss. apply Hhm in Hh as [Hh|[-> ->]]; [by apply H6|]. assert (Hi' : obj_id (K:=K) (OVm v') = Some i) by (cbn; congruence).
    split; [by apply (H2 l (OVm v'))|]. intros l1 w Hw Hwi. assert (l1 = l) as -> by by apply (H1 l1 l (OVm w) (OVm v') i). rewrite Hl' in Hw.
    injection Hw as <-. done.
Qed.

Lemma destroy_vm_triple l v :
  triple (λ b, sound b ∧ holds l (OVm v) b) (provider_destroy_vm l)
    (λ _ b, sound b ∧ holds l (OVm v) b ∧ ∀ i, vm_id v = Some i → i ∉ servers (ext b)) sound.
Proof.
  intros b [Hb Hl]. unfold provider_destroy_vm. rewrite (bind_Ok _ _ _ _ _ (load_vm_run l v b Hl)).
  pose proof (sound_on_ext (destroy_vm v) (destroy_vm_quiet v) b Hb) as Hs. unfold on_ext, zoom in *.
  destruct (destroy_vm v (ext b)) as [[[]|e] x] eqn:Ed; [|done]. split_and!; [done|done|].
  intros i Hi. cbn. eapply destroy_vm_effect; [exact Ed|apply snd_healthy, Hb|done|]. intros a Hh.
  destruct (snd_homes b Hb i a Hh) as [_ Hv]. symmetry. by apply (Hv l).
Qed.
(** Destroying a machine, then forgetting its object. *)
Lemma destroy_deregister_sound l {A} (m : B A) :
  preserves sound m → preserves sound (provider_destroy_vm l ;; deregister_resource l ;; m).
Proof.
  intros Hm b Hb. destruct (load_vm_cases l b) as [(v & El & _)|E].
  2: { unfold provider_destroy_vm. rewrite (bind_Raise _ _ b b AttributeError); [done|]. by apply bind_Raise. }
  assert (Ht : triple (λ b, sound b ∧ holds l (OVm v) b) (provider_destroy_vm l ;; deregister_resource l ;; m) (λ _, sound) sound).
  { eapply triple_bind; [apply destroy_vm_triple|intros []]. eapply triple_bind; [apply (deregister_triple l (OVm v))|].
    intros []. by apply triple_preserves. }
  specialize (Ht b (conj Hb El)). by destruct ((provider_destroy_vm l;; deregister_resource l;; m) b) as [[]].
Qed.

Lemma create_net_sound l : preserves sound (provider_create_net l).
Proof.
  unfold provider_create_net, load_net, load. preserve_steps; apply sound_on_ext, create_net_quiet.
Qed.

Lemma load_conf_cases l b :
  (∃ i c, holds l (OConf i c) b ∧ load_conf l b = (Ok (i, c), b)) ∨ load_conf l b = (Raise AttributeError, b).
Proof.
  destruct (objs b !! l) as [[v|n|i c]|] eqn:El.
  - right. unfold load_conf. by rewrite (bind_Ok _ _ _ _ _ (load_run l (OVm v) b El)).
  - right. unfold load_conf. by rewrite (bind_Ok _ _ _ _ _ (load_run l (ONet n) b El)).
  - left. exists i, c. split; [exact El|]. unfold load_conf. by rewrite (bind_Ok _ _ _ _ _ (load_run l (OConf i c) b El)).
  - right. unfold load_conf, load, mbind, M_bind, getS. by rewrite El.
Qed.

Lemma load_conf_run l i c b : holds l (OConf i c) b → load_conf l b = (Ok (i, c), b).
Proof. intros H. unfold load_conf. by rewrite (bind_Ok _ _ _ _ _ (load_run l _ b H)). Qed.
Lemma configure_vm_run l i c v x b :
  holds l (OConf i c) b → holds (vm_resource c) (OVm v) b → created v = true →
  get_virt_provider (vm_area v) (ext b) = (Ok tt, x) →
  provider_configure_vm l b =
    (playbook ← liftR (dump_playbook v c).1; on_ext (run_playbook v playbook))
      (set_ext x (set_objs (<[l:=OConf i (dump_playbook v c).2]> (objs b)) b)).
Proof.
  intros Hl Hv Hc Hg. unfold provider_configure_vm. rewrite (bind_Ok _ _ _ _ _ (load_conf_run l i c b Hl)). cbn [snd fst].
  rewrite (bind_Ok _ _ _ _ _ (load_vm_run _ v b Hv)).
  rewrite (bind_Ok (on_ext _) _ b (set_ext x b) tt) by (unfold on_ext, zoom; by rewrite Hg).
  rewrite Hc. by destruct (dump_playbook v c) as [r c'].
Qed.

(** Either nothing is done, or the playbook of a configurator is dumped for a machine that is
    created, and perhaps run. *)
Lemma configure_vm_cases l b :
  (∃ e b', provider_configure_vm l b = (Raise e, b') ∧ objs b' = objs b ∧ registered_resources b' = registered_resources b ∧
     state b' = state b ∧ (b' = b ∨ ∃ a, ext b' = (get_virt_provider a (ext b)).2)) ∨
  (∃ i c v x, holds l (OConf i c) b ∧ holds (vm_resource c) (OVm v) b ∧ created v = true ∧
     get_virt_provider (vm_area v) (ext b) = (Ok tt, x) ∧
     provider_configure_vm l b =
       (playbook ← liftR (dump_playbook v c).1; on_ext (run_playbook v playbook))
         (set_ext x (set_objs (<[l:=OConf i (dump_playbook v c).2]> (objs b)) b))).
Proof.
  unfold provider_configure_vm.
  destruct (load_conf_cases l b) as [(i & c & Hl & E)|E].
  2: { left. exists AttributeError, b. rewrite (bind_Raise _ _ _ _ _ E). split_and!; by try left. }
  rewrite (bind_Ok _ _ _ _ _ E). cbn [snd].
  destruct (load_vm_cases (vm_resource c) b) as [(v & Hv & E')|E'].
  2: { left. exists AttributeError, b. rewrite (bind_Raise _ _ _ _ _ E'). split_and!; by try left. }
  rewrite (bind_Ok _ _ _ _ _ E'). destruct (get_virt_provider (vm_area v) (ext b)) as [[[]|e] x] eqn:Eg.
  2: { left. exists e, (set_ext x b). split_and!; [|done..|right; exists (vm_area v); by rewrite Eg].
       apply bind_Raise. unfold on_ext, zoom. by rewrite Eg. }
  rewrite (bind_Ok (on_ext _) _ b (set_ext x b) tt) by (unfold on_ext, zoom; by rewrite Eg).
  destruct (created v) eqn:Ec.
  - right. exists i, c, v, x. split_and!; [done..|]. by destruct (dump_playbook v c) as [r c'].
  - left. exists VirtualizationProviderException, (set_ext x b). split_and!; [done..|]. right. exists (vm_area v). by rewrite Eg.
Qed.

Lemma configure_vm_sound l : preserves sound (provider_configure_vm l).
Proof.
  intros b Hb. destruct (configure_vm_cases l b) as [(e & b' & -> & Ho & Hr & _ & Hx)|(i & c & v & x & Hl & _ & _ & Hg & ->)].
  - cbn. destruct Hx as [->|[a Hx]]; [done|]. pose proof (sound_on_ext _ (get_virt_provider_quiet a) b Hb) as [].
    destruct b', b; cbn in *; subst. unfold on_ext, zoom in *. cbn in *. destruct (get_virt_provider a ext1). by constructor.
  - apply preserves_bind; [apply preserves_liftR|intros p; apply sound_on_ext, run_playbook_quiet|].
    destruct (get_virt_provider_quiet (vm_area v) (ext b) (snd_healthy b Hb)) as (? & ? & ? & ?). rewrite Hg in *.
    apply sound_ext; [|done..]. apply (sound_store b l (OConf i c)); [done|done|apply dump_same|done].
Qed.

(** *** What they keep *)
Lemma grows_alloc o : grows (alloc o).
Proof.
  intros b. split; [done|]. intros l o1 Ho. exists o1. split; [by apply lookup_app_l_Some|apply same_kind_refl].
Qed.
Lemma grows_load l : grows (load l).
Proof. unfold load. apply grows_get. intros b. destruct (objs b !! l); apply extends_refl. Qed.
Lemma grows_register l : grows (register_resource l).
Proof.
  intros b. destruct (objs b !! l) as [o|] eqn:El.
  2: { unfold register_resource. rewrite (bind_Raise _ _ b b AttributeError); [apply extends_refl|].
       unfold load, mbind, M_bind, getS. by rewrite El. }
  unfold register_resource. rewrite (bind_Ok _ _ _ _ _ (load_run l o b El)).
  rewrite (bind_Ok getS _ b b b) by done. destruct (is_registered (obj_id o) b); [apply extends_refl|].
  rewrite (bind_Ok (mret tt) _ b b tt) by done.
  assert (Hrest : ∀ o' : obj K, grows (match obj_area o' with
    | Some area => catch (on_ext (get_vim_from_area_id_model area))
        (λ e, if is_value_error e then Some (raise BlueprintNGException) else None)
    | None => mret tt end ;;
    modifyS (λ b, set_registered (od_set (default EmptyString (obj_id o')) l (registered_resources b)) b) : B unit)).
  { intros o'. apply grows_bind; [|intros []; apply grows_modifyS; intros b1; by apply extends_objs]. destruct (obj_area o') as [a|]; [|apply grows_ret].
    intros b1. unfold catch. pose proof (grows_on_ext (get_vim_from_area_id_model a) b1) as Hg.
    destruct (on_ext (get_vim_from_area_id_model a) b1) as [[|e] b2]; [done|]. by destruct (is_value_error e). }
  destruct (str_true (obj_id o)) eqn:Et.
  - rewrite (bind_Ok (mret o) _ b b o) by done. apply Hrest.
  - set (i := (uuid4 (ext b)).1).
    eapply extends_trans; [|rewrite (bind_Ok _ _ b (set_objs (<[l:=set_obj_id i o]> (objs b)) (set_ext (uuid4 (ext b)).2 b)) (set_obj_id i o)) by reflexivity; apply Hrest].
    eapply extends_insert; [done|done|exact El|apply set_obj_id_kind].
Qed.

Lemma grows_deregister l : grows (deregister_resource l).
Proof.
  unfold deregister_resource. apply grows_bind; [apply grows_load|]. intros o. apply grows_get. intros b.
  destruct (str_true (obj_id o)); [|apply extends_refl]. destruct (is_registered (obj_id o) b); [|apply extends_refl].
  by apply extends_objs.
Qed.
Lemma grows_load_vm l : grows (load_vm l).
Proof. intros b. destruct (load_vm_cases l b) as [(v & _ & ->)| ->]; apply extends_refl. Qed.
Lemma grows_create_vm l : grows (provider_create_vm l).
Proof.
  intros b. unfold provider_create_vm. destruct (load_vm_cases l b) as [(v & Hl & E)|E].
  - rewrite (bind_Ok _ _ _ _ _ E). rewrite (bind_Ok getS _ b b b) by done.
    destruct (create_vm v (ext b)) as [[r v'] x] eqn:Ec. apply create_vm_same in Ec as (_ & Hn & Ha).
    by apply (extends_insert b _ l (OVm v) (OVm v')).
  - rewrite (bind_Raise _ _ _ _ _ E). apply extends_refl.
Qed.
Lemma grows_destroy_vm l : grows (provider_destroy_vm l).
Proof. apply grows_bind; [apply grows_load_vm|]. intros v. apply grows_on_ext. Qed.
Lemma grows_create_net l : grows (provider_create_net l).
Proof.
  apply grows_bind; [|intros n; apply grows_on_ext]. apply grows_bind; [apply grows_load|].
  intros []; first [apply grows_ret|apply grows_raise].
Qed.
Lemma grows_configure_vm l : grows (provider_configure_vm l).
Proof.
  intros b. destruct (configure_vm_cases l b) as [(e & b' & -> & Ho & _ & Hs & _)|(i & c & v & x & Hl & _ & _ & _ & ->)];
    [by apply extends_objs|].
  eapply extends_trans; [apply (extends_insert b (set_ext x (set_objs (<[l:=OConf i (dump_playbook v c).2]> (objs b)) b))
    l (OConf i c) (OConf i (dump_playbook v c).2)); [done|done|done|apply dump_same]|].
  apply grows_bind; [apply grows_liftR|]. intros p. apply grows_on_ext.
Qed.

(** What depends on the state and on the kinds of the objects is kept by whatever [grows]. *)
Definition stable (F : Blueprint K S X → Prop) : Prop := ∀ b b', extends b b' → F b → F b'.
Lemma triple_frame {A} P (m : B A) Q E F :
  triple P m Q E → grows m → stable F →
  triple (λ b, P b ∧ F b) m (λ a b, Q a b ∧ F b) (λ b, E b ∧ F b).
Proof.
  intros Ht Hg HF b [HP Hb]. specialize (Ht b HP). specialize (Hg b). destruct (m b) as [[a|e] b']; cbn in Hg;
    (split; [done|by apply (HF b)]).
Qed.
Lemma preserves_frame {A} P (m : B A) F :
  preserves P m → grows m → stable F → preserves (λ b, P b ∧ F b) m.
Proof. intros Hp Hg HF b [HP Hb]. split; [by apply Hp|by apply (HF b)]. Qed.

Definition is_vm (l : loc) b : Prop := ∃ v, objs b !! l = Some (OVm v).
Definition is_net (l : loc) b : Prop := ∃ n, objs b !! l = Some (ONet n).
Definition is_conf (l : loc) b : Prop := ∃ i c, objs b !! l = Some (OConf i c).
Lemma is_vm_extends l b b' : extends b b' → is_vm l b → is_vm l b'.
Proof. intros [_ H] [v Hv]. destruct (H l _ Hv) as ([v'| |] & ? & ?); [|done..]. by exists v'. Qed.
Lemma is_net_extends l b b' : extends b b' → is_net l b → is_net l b'.
Proof. intros [_ H] [v Hv]. destruct (H l _ Hv) as ([|n|] & ? & ?); [done|by exists n|done]. Qed.
Lemma is_conf_extends l b b' : extends b b' → is_conf l b → is_conf l b'.
Proof. intros [_ H] (i & c & Hv). destruct (H l _ Hv) as ([| |j d] & ? & ?); [done..|by exists j, d]. Qed.

(** *** The destruction of a blueprint *)
Definition gone (l : loc) b : Prop := ∀ v i, objs b !! l = Some (OVm v) → vm_id v = Some i → i ∉ servers (ext b).

Lemma quiet_on_ext {A} (m : M X A) b r b' :
  harmless m → sound b → on_ext m b = (r, b') →
  sound b' ∧ objs b' = objs b ∧ registered_resources b' = registered_resources b ∧ servers (ext b') ⊆ servers (ext b).
Proof.
  intros Hq Hb H. pose proof (sound_on_ext m Hq b Hb) as Hs. rewrite H in Hs. revert H. unfold on_ext, zoom.
  destruct (Hq (ext b) (snd_healthy b Hb)) as (_ & Hsrv & _). destruct (m (ext b)) as [r' x]. intros [= <- <-]. done.
Qed.

Lemma destroy_each ls b b' : sound b →
  for_each ls (λ l, o ← load l; destroy_object o) b = (Ok tt, b') →
  sound b' ∧ objs b' = objs b ∧ registered_resources b' = registered_resources b ∧ servers (ext b') ⊆ servers (ext b) ∧
  ∀ l, l ∈ ls → gone l b'.
Proof.
  revert b. induction ls as [|l ls IH]; intros b Hb H.
  { injection H as <-. split_and!; [done..|]. by intros l ?%not_elem_of_nil. }
  cbn [for_each] in H. apply bind_Ok_inv in H as ([] & b1 & H1 & H2).
  apply bind_Ok_inv in H1 as (o & b2 & Hl & H1).
  assert (b2 = b ∧ objs b !! l = Some o) as [-> Ho].
  { unfold load, mbind, M_bind, getS in Hl. destruct (objs b !! l); [|done]. by injection Hl as -> <-. }
  assert (sound b1 ∧ objs b1 = objs b ∧ registered_resources b1 = registered_resources b ∧ servers (ext b1) ⊆ servers (ext b) ∧
    gone l b1) as (Hb1 & Eo1 & Er1 & Hs1 & Hg1).
  { destruct o as [v|n|i c]; cbn in H1; [|injection H1 as <-; split_and!; [done..|]; intros v' i' Hv; congruence..].
    destruct (quiet_on_ext _ _ _ _ (destroy_vm_quiet v) Hb H1) as (? & Eo & ? & ?). split_and!; [done..|].
    intros v' i' Hv Hi. rewrite Eo, Ho in Hv. injection Hv as <-. unfold on_ext, zoom in H1.
    destruct (destroy_vm v (ext b)) as [r x] eqn:Ed. injection H1 as -> <-.
    eapply destroy_vm_effect; [exact Ed|apply snd_healthy, Hb|done|]. intros a Hh.
    destruct (snd_homes b Hb i' a Hh) as [_ Ha]. symmetry. by apply (Ha l). }
  destruct (IH b1 Hb1 H2) as (Hb' & Eo & Er & Hs & Hg).
  split_and!; [done|congruence..|set_solver|]. intros l' [->|Hin]%elem_of_cons; [|by apply Hg].
  intros v i Hv Hi Hin. rewrite Eo in Hv. apply (Hg1 v i Hv Hi). by apply Hs.
Qed.

Lemma deregister_children_sound blue_id : preserves sound (deregister_children blue_id).
Proof.
  intros b Hb. unfold deregister_children. rewrite (bind_Ok getS _ b b b) by done.
  destruct (py_in _ _ _); [|done]. unfold liftR, mbind, M_bind. destruct (py_remove _ _ _); [|done].
  destruct Hb. by constructor.
Qed.

Lemma base_destroy_clean b b' : sound b → base_destroy b = (Ok tt, b') → healthy (ext b') ∧ servers (ext b') = ∅.
Proof.
  intros Hb H. unfold base_destroy in H. rewrite (bind_Ok getS _ b b b) in H by done.
  apply bind_Ok_inv in H as ([] & b1 & Hc & H).
  assert (Hb1 : sound b1).
  { assert (Hp : preserves sound (for_each (children_blue_ids b) (λ child,
      catch (on_ext (delete_blueprint child))
        (λ e, match e with BlueprintNotFoundException => Some (mret tt) | _ => None end) ;;
      deregister_children child))).
    { apply preserves_for_each. intros child. apply preserves_bind; [|intros []; apply deregister_children_sound].
      apply preserves_catch; [apply sound_on_ext, delete_blueprint_quiet|].
      intros [] h; try done. intros [= <-]. apply preserves_ret. }
    specialize (Hp b Hb). by rewrite Hc in Hp. }
  apply bind_Ok_inv in H as ([] & b2 & Hd & H). apply bind_Ok_inv in H as ([] & b3 & Hf & Hn).
  unfold destroy_registered in Hd. rewrite (bind_Ok getS _ b1 b1 b1) in Hd by done.
  destruct (destroy_each _ _ _ Hb1 Hd) as (Hb2 & Eo & Er & Hs & Hg).
  destruct (quiet_on_ext _ _ _ _ final_cleanup_quiet Hb2 Hf) as (Hb3 & _ & _ & Hs3).
  destruct (quiet_on_ext _ _ _ _ destroy_ng_blue_quiet Hb3 Hn) as (Hb4 & _ & _ & Hs4). split; [apply snd_healthy, Hb4|].
  apply elem_of_equiv_empty_L. intros i Hi. assert (Hi2 : i ∈ servers (ext b2)) by set_solver.
  destruct (snd_servers b1 Hb1 i (Hs i Hi2)) as (l & v & Hr & Hv).
  destruct (snd_registered b1 Hb1 i l Hr) as (o & Ho & Hid). rewrite Hv in Ho. injection Ho as <-.
  apply (Hg l) with v i; [|by rewrite Eo|done|done].
  apply od_get_elem in Hr; [|apply Hb1]. apply list_elem_of_fmap. by exists (i, l).
Qed.
Lemma empty_sound (s : S) x : pristine x →
  sound {| objs := []; registered_resources := []; children_blue_ids := []; state := s; ext := x |}.
Proof.
  intros (Hok & Hs & Hh). constructor; cbn; try done; [constructor|rewrite Hs; intros i; set_solver|].
  intros i a H. by destruct (Hh i a).
Qed.
End laws.
