(* ===== verification/DeploymentSteps.v ===== *)
(** * Steps of the operations of a blueprint

    Shared reasoning about the methods that work on the objects of Deployment: [good confs] says that
    the registry is sound, that a predicate of the blueprint that survives changes of its objects
    holds, and that [confs] are configurators; the lemmas carry it through each call. *)

From stdpp Require Import base list strings gmap.
From Stdlib Require Import ZArith Lia.
From S2P Require Import Prelude Resources Deployment.

Open Scope Z_scope.

Section steps.
Context {K S X : Type} `{!Provider X} `{!Configurator K} `{!ConfiguratorLaws K} `{!ProviderLaws X}.
#[local] Abbreviation B := (M (Blueprint K S X)).
#[local] Abbreviation Blue := (Blueprint K S X).
Implicit Types b : Blue.

(** A predicate that what [grows] keeps. *)
Class Stable (F : Blue → Prop) : Prop := is_stable : stable F.

Section inv.
Context {inv : Blue → Prop} `{!Stable inv}.

Definition linked (confs : list loc) b : Prop := inv b ∧ Forall (λ l, is_conf l b) confs.
Definition good (confs : list loc) b : Prop := sound b ∧ linked confs b.

Lemma linked_stable confs : stable (linked confs).
Proof.
  intros b b' Hx [H1 H2]. assert (Hc : ∀ ls, Forall (λ l, is_conf l b) ls → Forall (λ l, is_conf l b') ls).
  { intros ls. rewrite !Forall_forall. intros H l Hin. by apply (is_conf_extends l b b' Hx), H. }
  split; [by apply (is_stable b b')|by apply Hc].
Qed.
Lemma good_weaken confs confs' b : (∀ l, l ∈ confs' → l ∈ confs) → good confs b → good confs' b.
Proof.
  intros Hsub (Hs & Hl & Hc). split; [done|split; [done|]]. rewrite Forall_forall in *. auto.
Qed.
Lemma good_nil confs b : good confs b → good [] b.
Proof. apply good_weaken. by intros l ?%not_elem_of_nil. Qed.

Lemma good_preserves {A} (m : B A) confs : preserves sound m → grows m → preserves (good confs) m.
Proof. intros Hp Hg. apply preserves_frame; [done|done|apply linked_stable]. Qed.
Lemma good_triple {A} (P : Blue → Prop) (m : B A) (Q : A → Blue → Prop) confs :
  triple (λ b, sound b ∧ P b) m (λ a b, sound b ∧ Q a b) sound → grows m →
  triple (λ b, good confs b ∧ P b) m (λ a b, good confs b ∧ Q a b) (good []).
Proof.
  intros Ht Hg. eapply triple_conseq; [by apply (triple_frame _ m _ _ _ Ht Hg (linked_stable confs))|..].
  - intros b [[? ?] ?]. done.
  - intros a b [[? ?] ?]. done.
  - intros b ?. by eapply good_nil.
Qed.
(** A call that keeps [sound], in a sequence. *)
Lemma good_step {A C} (m : B A) (f : A → B C) confs (Q : C → Blue → Prop) :
  preserves sound m → grows m → (∀ a, triple (good confs) (f a) Q (good [])) →
  triple (good confs) (m ≫= f) Q (good []).
Proof.
  intros Hp Hg Hf. apply triple_bind with (λ _, good confs); [|done].
  eapply triple_conseq; [apply triple_preserves, (good_preserves m confs Hp Hg)|done|done|]. by apply good_nil.
Qed.

Lemma sound_reads {A} (m : B A) : reads m → preserves sound m ∧ grows m.
Proof.
  intros Hr. split; [by apply preserves_reads|]. intros b. rewrite Hr. apply extends_refl.
Qed.
Lemma reads_load_vm l : reads (load_vm l : B VmResource).
Proof. intros b. by destruct (load_vm_cases l b) as [(v & _ & ->)| ->]. Qed.
Lemma reads_load l : reads (load l : B (obj K)).
Proof. intros b. unfold load, mbind, M_bind, getS. by destruct (objs b !! l). Qed.
Lemma reads_load_net l : reads (load_net l : B NetResource).
Proof.
  intros b. unfold load_net, mbind, M_bind. pose proof (reads_load l b) as H. destruct (load l b) as [[[]|] b']; done.
Qed.
Lemma reads_load_conf l : reads (load_conf l : B (option string * K)).
Proof. intros b. by destruct (load_conf_cases l b) as [(i & c & _ & ->)| ->]. Qed.
Lemma reads_get_state : reads (get_state : B S).
Proof. by intros b. Qed.
Lemma reads_liftR {A} (r : result A) : reads (liftR r : B A).
Proof. by intros b. Qed.
Lemma reads_bind {A C} (m : B A) (f : A → B C) : reads m → (∀ a, reads (f a)) → reads (m ≫= f).
Proof.
  intros Hm Hf b. unfold mbind, M_bind. specialize (Hm b). destruct (m b) as [[a|e] b1]; cbn in Hm; subst; [apply Hf|done].
Qed.
(** ** The steps *)
Lemma step_alloc o confs : obj_id o = None →
  triple (good confs) (alloc o : B loc) (λ l b, good confs b ∧ holds l o b) (good []).
Proof.
  intros Hid.
  assert (Ht : triple (λ b, sound b ∧ True) (alloc o : B loc) (λ l b, sound b ∧ holds l o b) sound).
  { eapply triple_conseq; [exact (alloc_triple o Hid)|by intros b [? _]|done|done]. }
  eapply triple_conseq; [exact (good_triple _ _ _ confs Ht (grows_alloc o))|done..].
Qed.
Lemma step_register l o confs :
  triple (λ b, good confs b ∧ holds l o b) (register_resource l : B unit) (λ _ b, good confs b ∧ enrolled l o b) (good []).
Proof. apply (good_triple (holds l o)); [apply register_triple|apply grows_register]. Qed.
Lemma step_create_vm l v confs : vm_id v = None →
  triple (λ b, good confs b ∧ enrolled l (OVm v) b) (provider_create_vm l : B unit) (λ _, good confs) (good []).
Proof.
  intros Hv. assert (Ht : triple (λ b, sound b ∧ enrolled l (OVm v) b) (provider_create_vm l : B unit) (λ _ b, sound b ∧ True) sound).
  { eapply triple_conseq; [exact (create_vm_triple l v Hv)|done|done|done]. }
  eapply triple_conseq; [exact (good_triple _ _ _ confs Ht (grows_create_vm l))|done|by intros a b [? _]|done].
Qed.
Lemma step_read {A C} (m : B A) (f : A → B C) confs (Q : C → Blue → Prop) :
  reads m → (∀ a, triple (good confs) (f a) Q (good [])) → triple (good confs) (m ≫= f) Q (good []).
Proof. intros Hr. destruct (sound_reads m Hr). by apply good_step. Qed.
(** The areas read from the state have configurators. *)
Lemma step_state {C} (f : S → B C) (Q : C → Blue → Prop) :
  (∀ s b, good [] b → state b = s → triple (λ b', b' = b) (f s) Q (good [])) →
  triple (good []) (s ← get_state; f s) Q (good []).
Proof. intros H b Hb. by apply (H (state b) b Hb). Qed.
Lemma step_quiet {A C} (m : M X A) (f : A → B C) confs (Q : C → Blue → Prop) :
  harmless m → (∀ a, triple (good confs) (f a) Q (good [])) →
  triple (good confs) (on_ext m ≫= f) Q (good []).
Proof. intros Hq. apply good_step; [by apply sound_on_ext|apply grows_on_ext]. Qed.
Lemma step_configure {C} l (f : list (string * pyval) → B C) confs (Q : C → Blue → Prop) :
  (∀ a, triple (good confs) (f a) Q (good [])) → triple (good confs) (provider_configure_vm l ≫= f) Q (good []).
Proof. apply good_step; [apply configure_vm_sound|apply grows_configure_vm]. Qed.
Lemma step_then_read {A} (P : Blue → Prop) (m : B A) Q confs :
  reads m → (∀ b, P b → good confs b) → (∀ a b, P b → Q a b) → triple P m Q (good []).
Proof.
  intros Hr HP HQ b Hb. pose proof (Hr b) as Hr'. destruct (m b) as [[a|e] b']; cbn in Hr'; subst b'; [by apply HQ|].
  by eapply good_nil, HP.
Qed.
Lemma good_conf l o confs b : good confs b → holds l o b → match o with OConf _ _ => True | _ => False end → good (l :: confs) b.
Proof.
  intros (Hs & Hl & Hc) Ho Hk. split; [done|split; [done|]]. constructor; [|done].
  destruct o as [| |i c]; [done..|]. by exists i, c.
Qed.
Lemma enrolled_conf l o confs b : good confs b → enrolled l o b → match o with OConf _ _ => True | _ => False end → good (l :: confs) b.
Proof.
  intros Hg (o' & i & Ho & Hk & _) Hc. apply (good_conf l o'); [done|exact Ho|]. by destruct o, o'.
Qed.

Lemma weaken_pre {A} (P P' : Blue → Prop) (m : B A) Q E : (∀ b, P b → P' b) → triple P' m Q E → triple P m Q E.
Proof. intros HP Ht b Hb. by apply Ht, HP. Qed.

Lemma step_destroy {C} l (rest : B C) (Q : C → Blue → Prop) confs :
  triple (good confs) rest Q (good []) →
  triple (good confs) (provider_destroy_vm l ;; deregister_resource l ;; rest) Q (good []).
Proof.
  intros Ht b Hb.
  assert (Hd : preserves (good confs) (provider_destroy_vm l ;; deregister_resource l ;; mret tt : B unit)).
  { apply good_preserves; [apply destroy_deregister_sound, preserves_ret|].
    apply grows_bind; [apply grows_destroy_vm|]. intros []. apply grows_bind; [apply grows_deregister|].
    intros []. apply grows_ret. }
  specialize (Hd b Hb). unfold mbind, M_bind in Hd |- *.
  destruct (provider_destroy_vm l b) as [[[]|e] b1]; [|by eapply good_nil].
  destruct (deregister_resource l b1) as [[[]|e] b2]; [|by eapply good_nil]. by apply Ht.
Qed.
Lemma step_forget c confs : c ∈ confs → triple (good confs) (deregister_resource c : B unit) (λ _, good confs) (good []).
Proof.
  intros Hin b (Hs & Hl). assert (Hg : good confs (deregister_resource c b).2).
  { split.
    - apply deregister_other; [done|]. destruct Hl as [_ Hc]. rewrite Forall_forall in Hc.
      destruct (Hc c Hin) as (i & k & Hk). by exists (OConf i k).
    - apply (linked_stable confs b); [apply grows_deregister|done]. }
  destruct (deregister_resource c b) as [[[]|e] b']; [done|by eapply good_nil].
Qed.

Lemma step_store_conf l i c c' confs : same_conf c c' →
  triple (λ b, good confs b ∧ holds l (OConf i c) b) (store l (OConf i c') : B unit) (λ _, good confs) (good []).
Proof.
  intros Hc. apply triple_modifyS. intros b [[Hs Hl] Ho]. split; [by apply (sound_store b l (OConf i c))|].
  apply (linked_stable confs b); [|done]. by apply (extends_insert b _ l (OConf i c) (OConf i c')).
Qed.
(** The state changes, and the predicate still holds; so does [P], which is about the objects. *)
Lemma step_update_keep f confs (P : Blue → Prop) :
  (∀ b s, P b → P (set_state s b)) →
  (∀ b, good confs b → P b → inv (set_state (f (state b)) b)) →
  triple (λ b, good confs b ∧ P b) (update_state f : B unit) (λ _ b, good confs b ∧ P b) (good []).
Proof.
  intros HP Hf. apply triple_modifyS. intros b [Hb Hp]. pose proof (Hf b Hb Hp) as Hi. destruct Hb as (Hs & _ & Hc).
  split; [split; [by apply sound_state|by split]|by apply HP].
Qed.
Lemma step_update_state f confs :
  (∀ b, good confs b → inv (set_state (f (state b)) b)) →
  triple (good confs) (update_state f : B unit) (λ _, good confs) (good []).
Proof.
  intros Hf. eapply triple_conseq; [apply (step_update_keep f confs (λ _, True)); [done|by auto]|by intros b|by intros a b []|done].
Qed.
(** The object registered may be any. *)
Lemma register_any_sound l : preserves sound (register_resource l : B unit).
Proof.
  intros b Hb. destruct (objs b !! l) as [o|] eqn:El.
  - pose proof (register_triple l o b (conj Hb El)) as Ht. destruct (register_resource l b) as [[[]|e] b']; [by destruct Ht|done].
  - unfold register_resource, load, mbind, M_bind, getS. by rewrite El.
Qed.
Lemma step_register_any {C} l (f : unit → B C) confs (Q : C → Blue → Prop) :
  (∀ a, triple (good confs) (f a) Q (good [])) → triple (good confs) (register_resource l ≫= f) Q (good []).
Proof.
  apply good_step; [apply register_any_sound|apply grows_register].
Qed.
Lemma step_last {A} (m : B A) confs : preserves sound m → grows m → triple (good confs) m (λ _, good confs) (good []).
Proof.
  intros Hp Hg. eapply triple_conseq; [apply triple_preserves, (good_preserves m confs Hp Hg)|done|done|]. by apply good_nil.
Qed.
End inv.

End steps.
Arguments linked {_ _ _} inv _ _.
Arguments good {_ _ _ _ _} inv _ _.

Section change.
Context {K S X : Type} `{!Provider X} `{!ProviderLaws X}.
#[local] Abbreviation Blue := (Blueprint K S X).
Implicit Types b : Blue.

(** From one predicate to another. *)
Lemma good_inv (inv inv' : Blue → Prop) confs b : (∀ b, inv b → inv' b) → good inv confs b → good inv' confs b.
Proof. intros H (Hs & Hi & Hc). split; [done|split; [by apply H|done]]. Qed.
Lemma triple_inv {A} (inv inv' : Blue → Prop) P (m : M Blue A) confs confs' :
  (∀ b, inv' b → inv b) → triple P m (λ _, good inv' confs) (good inv' confs') → triple P m (λ _, good inv confs) (good inv confs').
Proof. intros Hi Ht. eapply triple_conseq; [exact Ht|done|intros a b|intros b]; by apply good_inv. Qed.
End change.
