(* ===== verification/Ueransim.v ===== *)
(** * The UERANSIM blueprint

    blueprints_ng/modules/ueransim/ueransim_blue.py with its request models: simulated GNBs, one per
    area, and UEs with their SIMs.  A GNB and each UE is a machine; a configurator writes the playbook
    that sets it up.  The objects live in the store of Deployment. *)

From Stdlib Require Import Ascii.
From stdpp Require Import base list strings gmap pretty.
From Stdlib Require Import ZArith Lia.
From S2P Require Import Prelude NetworkModels Core5GModels Ansible Resources Deployment.

Open Scope Z_scope.

(** ** Requests

    The fields the blueprint never reads (identifiers of the radio cells, addresses filled in by
    earlier versions) are left out. *)
Record UeransimNetworkEndpoints := { ep_mgt : string; ep_n2 : string; ep_n3 : string }.

Record UeransimSlice := { slice_sst : Z; slice_sd : Z }.
Record UeransimSession := { session_type : string; session_apn : string; session_slice : UeransimSlice }.
Record UeransimSim := {
  sim_imsi : string;
  sim_plmn : string;
  sim_key : string;
  sim_op : string;
  sim_opType : string;
  sim_amf : option string;
  configured_nssai : option (list UeransimSlice);
  default_nssai : option (list UeransimSlice);
  sim_sessions : option (list UeransimSession)
}.
Record UeransimUe := { request_ue_id : option Z; request_sims : option (list UeransimSim) }.
Record UeransimArea := { request_area_id : Z; request_ues : list UeransimUe }.
Record UeransimBlueprintRequestInstance := {
  network_endpoints : UeransimNetworkEndpoints;
  request_areas : list UeransimArea
}.

#[export] Instance UeransimSlice_eq_dec : EqDecision UeransimSlice.
Proof. solve_decision. Defined.
#[export] Instance UeransimSession_eq_dec : EqDecision UeransimSession.
Proof. solve_decision. Defined.
#[export] Instance UeransimSim_eq_dec : EqDecision UeransimSim.
Proof. solve_decision. Defined.
#[export] Instance Route_eq_dec : EqDecision Route.
Proof. solve_decision. Defined.
#[export] Instance GNBPDUSlice_eq_dec : EqDecision GNBPDUSlice.
Proof. solve_decision. Defined.
#[export] Instance GNBPDUConfigure_eq_dec : EqDecision GNBPDUConfigure.
Proof. solve_decision. Defined.

(** The constraints on the fields of a SIM. *)
Definition not_empty {A} (o : option (list A)) : bool := match o with Some [] => false | _ => true end.
Definition sim_valid (s : UeransimSim) : bool :=
  all_chars is_digit (sim_imsi s) && (String.length (sim_imsi s) =? 15)%nat &&
  all_chars is_digit (sim_plmn s) && (String.length (sim_plmn s) =? 5)%nat &&
  all_chars is_hex (sim_key s) && (String.length (sim_key s) =? 32)%nat &&
  all_chars is_hex (sim_op s) && (String.length (sim_op s) =? 32)%nat &&
  String.eqb (sim_opType s) "OPC" &&
  match sim_amf s with Some a => (String.length a =? 4)%nat | None => true end &&
  not_empty (configured_nssai s) && not_empty (default_nssai s) && not_empty (sim_sessions s).

(** ** The playbooks *)
Inductive UeransimConf :=
| UeransimGNBConfigurator (vm : loc) (configuration : GNBPDUConfigure) (radio_addr ngap_addr gtp_addr n3_nic_name : string)
    (routes : list Route)
| UeransimUEConfigurator (vm : loc) (sims : list UeransimSim) (gnbSearchList : list string)
    (sims_to_delete : list UeransimSim).
#[export] Instance UeransimConf_eq_dec : EqDecision UeransimConf.
Proof. solve_decision. Defined.

(** What the models become when they are dumped without the fields that are [None]. *)
Definition slice_value (s : UeransimSlice) : pyval := VDict [("sst", VInt (slice_sst s)); ("sd", VInt (slice_sd s))].
Definition session_value (s : UeransimSession) : pyval :=
  VDict [("type", VStr (session_type s)); ("apn", VStr (session_apn s)); ("slice", slice_value (session_slice s))].
Definition list_field {A} (k : string) (f : A → pyval) (o : option (list A)) : dict :=
  match o with Some l => [(k, VList (f <$> l))] | None => [] end.
Definition sim_value (s : UeransimSim) : pyval :=
  VDict ([("imsi", VStr (sim_imsi s)); ("plmn", VStr (sim_plmn s)); ("key", VStr (sim_key s)); ("op", VStr (sim_op s));
          ("opType", VStr (sim_opType s))] ++
         optional_field "amf" (sim_amf s) ++
         list_field "configured_nssai" slice_value (configured_nssai s) ++
         list_field "default_nssai" slice_value (default_nssai s) ++
         list_field "sessions" session_value (sim_sessions s)).
Definition gnb_slice_value (s : GNBPDUSlice) : pyval := VDict [("sst", VInt (sst s)); ("sd", VInt (sd s))].
Definition route_value (r : Route) : pyval :=
  VDict ([("network_cidr", VStr (network_cidr r)); ("next_hop", VStr (next_hop r))] ++
         optional_field "device" (device r)).
Definition gnb_fields (c : GNBPDUConfigure) : list (string * pyval) :=
  [("area", VInt (gnb_area c)); ("plmn", VStr (gnb_plmn c)); ("tac", VInt (tac c)); ("amf_ip", VStr (amf_ip c));
   ("upf_ip", VStr (upf_ip c)); ("amf_port", VInt (amf_port c)); ("nssai", VList (gnb_slice_value <$> nssai c));
   ("additional_routes", VList (route_value <$> additional_routes c))].

Definition sim_config_path (s : UeransimSim) : string := "/opt/UERANSIM/ue-sim-" +:+ sim_imsi s +:+ ".conf".
Definition sim_service (s : UeransimSim) : string := "ueransim-ue-sim-" +:+ sim_imsi s.
Definition sim_service_path (s : UeransimSim) : string :=
  "/etc/systemd/system/ueransim-ue-sim-" +:+ sim_imsi s +:+ ".service".

Section playbooks.
Variable rel_path : string → string.         (* the directory of the module *)

Definition gnb_playbook (configuration : GNBPDUConfigure) (radio_addr ngap_addr gtp_addr n3_nic_name : string)
  (routes : list Route) : AnsiblePlaybook :=
  let p := new_builder "Playbook UeransimGNBConfigurator" in
  let p := add_template_task (rel_path "config/gnb_conf_file.jinja2") "/opt/UERANSIM/gnb.conf" None p in
  let p := set_vars_from_fields (gnb_fields configuration) p in
  let p := set_var "radio_addr" (VStr radio_addr) p in
  let p := set_var "ngap_addr" (VStr ngap_addr) p in
  let p := set_var "gtp_addr" (VStr gtp_addr) p in
  let p := if (0 <? length routes)%nat
           then set_var "additional_routes" (VList ((λ r, VStr (as_linux_replace_command r)) <$> routes)) p else p in
  let p := add_template_task (rel_path "config/config_network.sh.jinja2") "/opt/config_network.sh" None p in
  let p := add_template_task (rel_path "config/config-network.service.jinja2")
             "/etc/systemd/system/config-network.service" None p in
  let p := set_var "n3_if" (VStr n3_nic_name) p in
  let p := add_shell_task "systemctl daemon-reload" None p in
  let p := add_service_task "config-network" RESTARTED true p in
  add_service_task "ueransim-gnb" RESTARTED true p.

Definition stop_sim (p : AnsiblePlaybook) (s : UeransimSim) : AnsiblePlaybook :=
  let p := add_service_task (sim_service s) STOPPED false p in
  add_shell_task ("rm " +:+ sim_config_path s +:+ " " +:+ sim_service_path s) None p.

Definition start_sim (gnbSearchList : list string) (p : AnsiblePlaybook) (s : UeransimSim) : AnsiblePlaybook :=
  let p := add_template_task (rel_path "config/ue_conf_file.jinja2") (sim_config_path s)
             (Some [("sim", sim_value s); ("gnbSearchList", VList (VStr <$> gnbSearchList))]) p in
  let p := add_copy_task "/etc/systemd/system/ueransim-ue.service" (sim_service_path s) true 511 p in
  let p := add_replace_task (sim_service_path s) "/opt/UERANSIM/ue.conf" (sim_config_path s) p in
  let p := add_replace_task (sim_service_path s) "UERANSIM UE" ("UERANSIM UE SIM " +:+ sim_imsi s) p in
  let p := add_shell_task "systemctl daemon-reload" None p in
  add_service_task (sim_service s) RESTARTED true p.

Definition ue_playbook (sims : list UeransimSim) (gnbSearchList : list string) (sims_to_delete : list UeransimSim) :
  AnsiblePlaybook :=
  let p := foldl stop_sim (new_builder "Playbook UeransimUEConfigurator") sims_to_delete in
  foldl (start_sim gnbSearchList) p sims.

(** The dump of the playbook of a UE forgets the SIMs to delete. *)
#[export] Instance ueransim_configurator : Configurator UeransimConf := {|
  vm_resource c := match c with UeransimGNBConfigurator vm _ _ _ _ _ _ => vm | UeransimUEConfigurator vm _ _ _ => vm end;
  dump_playbook _ c :=
    match c with
    | UeransimGNBConfigurator _ conf radio ngap gtp nic routes =>
        (Ok (build (gnb_playbook conf radio ngap gtp nic routes)), c)
    | UeransimUEConfigurator vm sims search del =>
        (Ok (build (ue_playbook sims search del)), UeransimUEConfigurator vm sims search [])
    end
|}.
End playbooks.

(** [update_sims] takes sets of models, which have no hash. *)
Definition update_sims (new_sims : list UeransimSim) (c : UeransimConf) : result UeransimConf :=
  match c with
  | UeransimUEConfigurator vm sims search del =>
      match sims, new_sims with
      | [], [] => Ok (UeransimUEConfigurator vm [] search [])
      | _, _ => Raise TypeError
      end
  | _ => Raise AttributeError
  end.

(** ** The state *)

(** The optional references are always set when an entry is built. *)
Record BlueUeransimUe := { ue_id : string; vm_ue : loc; vm_ue_configurator : loc }.
Record BlueUeransimArea := {
  vm_gnb : loc;
  vm_gnb_configurator : option loc;
  ues : list BlueUeransimUe;
  radio_net : loc
}.
(** The areas of the state, and the endpoints of the stored request. *)
Record UeransimState := {
  areas : list (string * BlueUeransimArea);
  create_config : option UeransimNetworkEndpoints
}.

Definition set_areas (l : list (string * BlueUeransimArea)) (s : UeransimState) : UeransimState :=
  {| areas := l; create_config := create_config s |}.
Definition set_create_config (e : UeransimNetworkEndpoints) (s : UeransimState) : UeransimState :=
  {| areas := areas s; create_config := Some e |}.
Definition set_ues (l : list BlueUeransimUe) (a : BlueUeransimArea) : BlueUeransimArea :=
  {| vm_gnb := vm_gnb a; vm_gnb_configurator := vm_gnb_configurator a; ues := l; radio_net := radio_net a |}.
Definition set_gnb_configurator (c : loc) (a : BlueUeransimArea) : BlueUeransimArea :=
  {| vm_gnb := vm_gnb a; vm_gnb_configurator := Some c; ues := ues a; radio_net := radio_net a |}.

Definition ueransim_image : VmResourceImage :=
  {| image_name := "ueransim-v3.2.6-dev-3";
     image_url := Some "https://images.tnt-lab.unige.it/ueransim/ueransim-v3.2.6-dev-3-ubuntu2204.qcow2";
     check_sha512sum := false |}.
Definition ueransim_flavor : VmResourceFlavor :=
  {| flavor_name := None; vcpu_count := "2"; memory_mb := "4096"; storage_gb := "10"; vcpu_type := Some "host";
     flavor_port_security := Some false |}.

(** The two methods of the topology that are called. *)
Class PduTopology (X : Type) := {
  add_pdu : PduModel → M X unit;
  del_pdu : string → M X unit
}.

Section ueransim.
Context {X : Type} `{!Provider X} `{!PduTopology X}.
Variable set_order : list string → list string.   (* in which a set is iterated *)
Variable rel_path : string → string.
Variable self_id : string.                        (* the identifier of the blueprint *)
#[local] Existing Instance ueransim_configurator.
#[local] Notation Blue := (Blueprint UeransimConf UeransimState X).
#[local] Notation B := (M Blue).
#[local] Notation "'configure_vm' l" := (provider_configure_vm (Configurator0 := ueransim_configurator rel_path) l) (at level 10).

Definition endpoints : B UeransimNetworkEndpoints :=
  s ← get_state; match create_config s with Some e => mret e | None => raise AttributeError end.
Definition get_area (area_id : string) : B BlueUeransimArea := s ← get_state; liftR (od_getitem area_id (areas s)).
Definition put_area (area_id : string) (a : BlueUeransimArea) : B unit :=
  update_state (λ s, set_areas (od_set area_id a (areas s)) s).

(** ** The topology *)
Definition gnb_pdu_name (area_id : Z) : string := "UERANSIM_GNB_" +:+ self_id +:+ "_" +:+ pretty area_id.
Definition add_gnb_to_topology (area_id : Z) : B unit :=
  on_ext (add_pdu {| pdu_name := gnb_pdu_name area_id; pdu_area := area_id; pdu_type := GNB;
    instance_type := "UERANSIM"; NetworkModels.description := None; NetworkModels.network_interfaces := [];
    NetworkModels.username := None; NetworkModels.password := None; NetworkModels.become_password := None;
    NetworkModels.config := [("blue_id", VStr self_id)]; locked_by := None |}).
Definition del_gnb_from_topology (area_id : Z) : B unit :=
  catch (on_ext (del_pdu (gnb_pdu_name area_id))) (λ _, Some (mret tt)).

(** ** GNBs *)
Definition radio_network_name (area_id : string) : string := "radio_" +:+ self_id +:+ "_" +:+ area_id.

Definition _create_gnb (area_id : string) : B unit :=
  s ← get_state;
  if od_in area_id (areas s) then raise BlueprintNGException
  else
    area ← liftR (py_int area_id);
    network ← alloc (ONet (new_NetResource area (radio_network_name area_id) ("10.168." +:+ area_id +:+ ".0/24")));
    register_resource network ;;
    provider_create_net network ;;
    e ← endpoints;
    gnb ← alloc (OVm (new_VmResource set_order area (self_id +:+ "_" +:+ area_id +:+ "_GNB") ueransim_image
      ueransim_flavor "ubuntu" "ubuntu" (ep_mgt e) [ep_n2 e; ep_n3 e; radio_network_name area_id] (Some true)));
    register_resource gnb ;;
    provider_create_vm gnb ;;
    put_area area_id {| vm_gnb := gnb; vm_gnb_configurator := None; ues := []; radio_net := network |} ;;
    add_gnb_to_topology area.

Definition first_address (network : string) (v : VmResource) : B VmResourceNetworkInterfaceAddress :=
  i ← liftR (first_interface network v); mret (fixed i).

Definition configure_gnb (model : GNBPDUConfigure) : B unit :=
  area ← get_area (pretty (gnb_area model));
  gnb ← load_vm (vm_gnb area);
  net ← load_net (radio_net area);
  radio ← first_address (net_name net) gnb;
  e ← endpoints;
  ngap ← first_address (ep_n2 e) gnb;
  gtp ← first_address (ep_n3 e) gnb;
  conf ← alloc (OConf None (UeransimGNBConfigurator (vm_gnb area) model (ip radio) (ip ngap) (ip gtp)
    (interface_name gtp) (additional_routes model)));
  put_area (pretty (gnb_area model)) (set_gnb_configurator conf area) ;;
  register_resource conf ;;
  configure_vm conf ;;
  mret tt.

(** ** UEs *)
Definition ue_text (o : option Z) : string := match o with Some z => pretty z | None => "None" end.

Definition _create_ue (area_id : string) (ue : UeransimUe) : B unit :=
  s ← get_state;
  match od_get area_id (areas s) with
  | None => raise BlueprintNGException
  | Some a =>
      area ← liftR (py_int area_id);
      e ← endpoints;
      vm ← alloc (OVm (new_VmResource set_order area
        (self_id +:+ "_" +:+ area_id +:+ "_UE_" +:+ ue_text (request_ue_id ue)) ueransim_image ueransim_flavor
        "ubuntu" "ubuntu" (ep_mgt e) [radio_network_name area_id] (Some false)));
      register_resource vm ;;
      provider_create_vm vm ;;
      gnb ← load_vm (vm_gnb a);
      search ← first_address (radio_network_name area_id) gnb;
      sims ← match request_sims ue with Some l => mret l | None => raise TypeError end;
      conf ← alloc (OConf None (UeransimUEConfigurator vm sims [ip search] []));
      register_resource conf ;;
      configure_vm conf ;;
      put_area area_id (set_ues (ues a ++
        [{| ue_id := ue_text (request_ue_id ue); vm_ue := vm; vm_ue_configurator := conf |}]) a)
  end.

(** Models are equal when their fields are, those of the resources they refer to included. *)
Definition conf_view (b : Blue) (l : loc) : option (option string * UeransimConf * option (obj UeransimConf)) :=
  match objs b !! l with
  | Some (OConf i (UeransimUEConfigurator vm sims search del)) =>
      Some (i, UeransimUEConfigurator 0%nat sims search del, objs b !! vm)
  | Some (OConf i (UeransimGNBConfigurator vm c r n g nic routes)) =>
      Some (i, UeransimGNBConfigurator 0%nat c r n g nic routes, objs b !! vm)
  | _ => None
  end.
Definition ue_eqb (b : Blue) (u v : BlueUeransimUe) : bool :=
  String.eqb (ue_id u) (ue_id v) && bool_decide (objs b !! vm_ue u = objs b !! vm_ue v) &&
  bool_decide (conf_view b (vm_ue_configurator u) = conf_view b (vm_ue_configurator v)).

Definition delete_ue_resources (ue : BlueUeransimUe) : B unit :=
  provider_destroy_vm (vm_ue ue) ;;
  deregister_resource (vm_ue ue) ;;
  deregister_resource (vm_ue_configurator ue).

Definition _delete_ue (area_id : string) (id : Z) : B unit :=
  s ← get_state;
  match od_get area_id (areas s) with
  | None => raise BlueprintNGException
  | Some a =>
      for_each (ues a) (λ ue,
        if String.eqb (ue_id ue) (pretty id) then
          delete_ue_resources ue ;;
          now ← get_area area_id;
          b ← getS;
          l ← liftR (py_remove (ue_eqb b) ue (ues now));
          put_area area_id (set_ues l now)
        else raise BlueprintNGException)
  end.

Definition _delete_gnb (area_id : string) : B unit :=
  s ← get_state;
  match od_get area_id (areas s) with
  | None => raise BlueprintNGException
  | Some a =>
      for_each (ues a) delete_ue_resources ;;
      provider_destroy_vm (vm_gnb a) ;;
      deregister_resource (vm_gnb a) ;;
      match vm_gnb_configurator a with Some c => deregister_resource c | None => mret tt end ;;
      update_state (λ s, set_areas (od_pop area_id (areas s)) s) ;;
      area ← liftR (py_int area_id);
      del_gnb_from_topology area
  end.

(** ** SIMs *)

(** The configurator of a UE, with its fields. *)
Definition load_ue_conf (l : loc) : B (option string * loc * list UeransimSim * list string * list UeransimSim) :=
  ic ← load_conf l;
  match ic.2 with
  | UeransimUEConfigurator vm sims search del => mret (ic.1, vm, sims, search, del)
  | _ => raise AttributeError
  end.

Definition _add_sim (area_id : string) (id : Z) (new_sim : UeransimSim) : B unit :=
  a ← get_area area_id;
  for_each (ues a) (λ ue,
    if String.eqb (ue_id ue) (pretty id) then
      '(i, vm, sims, search, del) ← load_ue_conf (vm_ue_configurator ue);
      if existsb (λ sim, String.eqb (sim_imsi sim) (sim_imsi new_sim)) sims then raise BlueprintNGException
      else
        store (vm_ue_configurator ue) (OConf i (UeransimUEConfigurator vm (sims ++ [new_sim]) search del)) ;;
        configure_vm (vm_ue_configurator ue) ;;
        mret tt
    else mret tt).

(** The method returns at the first SIM found. *)
Fixpoint del_sim_from (us : list BlueUeransimUe) (id : Z) (imsi : string) : B unit :=
  match us with
  | [] => mret tt
  | ue :: us' =>
      if String.eqb (ue_id ue) (pretty id) then
        '(i, vm, sims, search, del) ← load_ue_conf (vm_ue_configurator ue);
        match find (λ sim, String.eqb (sim_imsi sim) imsi) sims with
        | Some sim =>
            sims' ← liftR (py_remove (λ s t, bool_decide (s = t)) sim sims);
            store (vm_ue_configurator ue) (OConf i (UeransimUEConfigurator vm sims' search (del ++ [sim]))) ;;
            configure_vm (vm_ue_configurator ue) ;;
            mret tt
        | None => raise BlueprintNGException
        end
      else del_sim_from us' id imsi
  end.
Definition _del_sim (area_id : string) (id : Z) (imsi : string) : B unit :=
  a ← get_area area_id; del_sim_from (ues a) id imsi.

(** ** The blueprint *)
Definition create (create_model : UeransimBlueprintRequestInstance) : B unit :=
  update_state (set_create_config (network_endpoints create_model)) ;;
  for_each (request_areas create_model) (λ area,
    _create_gnb (pretty (request_area_id area)) ;;
    for_each (request_ues area) (_create_ue (pretty (request_area_id area)))).

Definition destroy : B unit :=
  s ← get_state;
  for_each (od_keys (areas s)) (λ area, id ← liftR (py_int area); del_gnb_from_topology id) ;;
  base_destroy.

(** The day-2 requests. *)
Inductive Day2 :=
| AddGNB (area_id : string)
| ConfigureGNB (model : GNBPDUConfigure)
| DelGNB (area_id : string)
| AddUE (area_id : string) (ue : UeransimUe)
| DelUE (area_id : string) (id : Z)
| AddSim (area_id : string) (id : Z) (sim : UeransimSim)
| DelSim (area_id : string) (id : Z) (imsi : string).

Definition day2 (r : Day2) : B unit :=
  match r with
  | AddGNB area_id => _create_gnb area_id
  | ConfigureGNB model => configure_gnb model
  | DelGNB area_id => _delete_gnb area_id
  | AddUE area_id ue => _create_ue area_id ue
  | DelUE area_id id => _delete_ue area_id id
  | AddSim area_id id sim => _add_sim area_id id sim
  | DelSim area_id id imsi => _del_sim area_id id imsi
  end.

(** What [to_dict] adds to the summary of the blueprint. *)
Definition access_value (v : VmResource) : pyval := match access_ip v with Some a => VStr a | None => VNone end.
Definition gnbs_summary (b : Blue) : result pyval :=
  let vm_at l := match objs b !! l with Some (OVm v) => Ok v | _ => Raise AttributeError end in
  entries ← map_result (λ ka,
    gnb ← vm_at (vm_gnb ka.2);
    ues ← map_result (λ ue, v ← vm_at (vm_ue ue); Ok (access_value v)) (ues ka.2);
    Ok (ka.1, VDict [("gnb", access_value gnb); ("ues", VList ues)])) (areas (state b));
  Ok (VDict entries).
End ueransim.
