(* ===== verification/UeransimProps.v ===== *)
(** * Properties of the UERANSIM blueprint

    Whatever requests are made and whichever of them fail, destroying the blueprint leaves no
    machine; the SIMs that run on a machine are those of its configurator; what the deletion of a UE
    and of a GNB really do. *)

From Stdlib Require Import Ascii.
From stdpp Require Import base list strings gmap pretty.
From Stdlib Require Import ZArith Lia.
From S2P Require Import Prelude NetworkModels Core5GModels Ansible Resources Deployment DeploymentSteps Ueransim.

Open Scope Z_scope.

(** ** What the playbook of a UE does to the services of its machine *)
Definition run_service (active : gset string) (ns : string * string) : gset string :=
  if String.eqb ns.2 "stopped" then active ∖ {[ns.1]} else {[ns.1]} ∪ active.
Definition run_services : list (string * string) → gset string → gset string := flip (foldl run_service).
Definition sim_services (sims : list UeransimSim) : gset string := list_to_set (sim_service <$> sims).

Lemma stop_sim_tasks p s :
  omap task_service (pb_tasks (stop_sim p s)) = omap task_service (pb_tasks p) ++ [(sim_service s, "stopped")].
Proof.
  unfold stop_sim, add_shell_task, add_service_task. rewrite !add_task_service, <-!app_assoc. reflexivity.
Qed.
Lemma start_sim_tasks rel_path search p s :
  omap task_service (pb_tasks (start_sim rel_path search p s)) =
  omap task_service (pb_tasks p) ++ [(sim_service s, "restarted")].
Proof.
  unfold start_sim, add_shell_task, add_service_task, add_template_task, add_copy_task, add_replace_task.
  rewrite !add_task_service, <-!app_assoc. reflexivity.
Qed.
Lemma ue_services rel_path sims search del :
  play_services (build (ue_playbook rel_path sims search del)) =
  ((λ s, (sim_service s, "stopped")) <$> del) ++ ((λ s, (sim_service s, "restarted")) <$> sims).
Proof.
  unfold play_services, ue_playbook. rewrite play_tasks_build.
  assert (H2 : ∀ p, omap task_service (pb_tasks (foldl (start_sim rel_path search) p sims)) =
    omap task_service (pb_tasks p) ++ ((λ s, (sim_service s, "restarted")) <$> sims)).
  { induction sims as [|s sims IH]; intros p; [by rewrite app_nil_r|]. cbn [foldl]. by rewrite IH, start_sim_tasks, <-app_assoc. }
  assert (H1 : ∀ p, omap task_service (pb_tasks (foldl stop_sim p del)) =
    omap task_service (pb_tasks p) ++ ((λ s, (sim_service s, "stopped")) <$> del)).
  { induction del as [|s del IH]; intros p; [by rewrite app_nil_r|]. cbn [foldl]. by rewrite IH, stop_sim_tasks, <-app_assoc. }
  by rewrite H2, H1.
Qed.

Lemma run_ue_services rel_path sims search del active :
  run_services (play_services (build (ue_playbook rel_path sims search del))) active =
  sim_services sims ∪ (active ∖ sim_services del).
Proof.
  rewrite ue_services. unfold run_services, flip. rewrite foldl_app.
  assert (H1 : ∀ s0, foldl run_service s0 ((λ s, (sim_service s, "stopped")) <$> del) = s0 ∖ sim_services del).
  { induction del as [|s l IH]; intros s0; [set_solver|]. cbn [fmap list_fmap foldl]. rewrite IH.
    unfold run_service, sim_services. cbn. generalize (sim_service s), (list_to_set (sim_service <$> l) : gset string).
    intros x y. apply set_eq. intros z. rewrite !elem_of_difference, elem_of_union, !elem_of_singleton. tauto. }
  assert (H2 : ∀ s0, foldl run_service s0 ((λ s, (sim_service s, "restarted")) <$> sims) = sim_services sims ∪ s0).
  { induction sims as [|s l IH]; intros s0; [set_solver|]. cbn [fmap list_fmap foldl]. rewrite IH.
    unfold run_service, sim_services. cbn. generalize (sim_service s), (list_to_set (sim_service <$> l) : gset string).
    intros x y. apply set_eq. intros z. rewrite !elem_of_union, !elem_of_singleton. tauto. }
  by rewrite H1, H2.
Qed.

(** ** Dropping a SIM from a list *)
Fixpoint drop_sim (imsi : string) (sims : list UeransimSim) : list UeransimSim :=
  match sims with
  | [] => []
  | s :: l => if String.eqb (sim_imsi s) imsi then l else s :: drop_sim imsi l
  end.

(** The SIM found is the one dropped. *)
Lemma drop_sim_spec imsi sims sim :
  find (λ s, String.eqb (sim_imsi s) imsi) sims = Some sim →
  py_remove (λ s t, bool_decide (s = t)) sim sims = Ok (drop_sim imsi sims) ∧ sims ≡ₚ sim :: drop_sim imsi sims.
Proof.
  unfold py_remove. induction sims as [|s l IH]; cbn; [done|]. destruct (String.eqb (sim_imsi s) imsi) eqn:Es.
  - intros [= ->]. by rewrite bool_decide_eq_true_2.
  - intros Hf. destruct (IH Hf) as [H1 H2]. rewrite bool_decide_eq_false_2.
    2: { intros ->. apply find_some in Hf as [_ Hf]. congruence. }
    destruct (find_index _ l) as [n|]; [|done]. injection H1 as H1.
    split; [change (Ok (s :: delete n l) = Ok (s :: drop_sim imsi l)); by rewrite H1|].
    rewrite H2 at 1. constructor.
Qed.

(** The configurators of the blueprint may change in any way. *)
#[export] Program Instance ueransim_conf_laws rel_path : ConfiguratorLaws UeransimConf (Configurator0 := ueransim_configurator rel_path) :=
  {| same_conf _ _ := True |}.
Solve Obligations with done.

Section machines.
Context {X : Type} `{!Provider X} `{!PduTopology X} `{!ProviderLaws X}.
Variable set_order : list string → list string.
Variable rel_path : string → string.
Variable self_id : string.
#[local] Existing Instance ueransim_configurator.
#[local] Instance conf_class : Configurator UeransimConf := ueransim_configurator rel_path.
#[local] Instance conf_laws : ConfiguratorLaws UeransimConf := ueransim_conf_laws rel_path.
#[local] Notation Blue := (Blueprint UeransimConf UeransimState X).
#[local] Notation B := (M Blue).
Implicit Types b : Blue.

Hypothesis add_pdu_quiet : ∀ p, harmless (add_pdu p).
Hypothesis del_pdu_quiet : ∀ n, harmless (del_pdu n).

(** ** The configurators of the state are configurators *)
Definition area_confs (a : BlueUeransimArea) : list loc :=
  match vm_gnb_configurator a with Some c => [c] | None => [] end ++ (vm_ue_configurator <$> ues a).
Definition links b : Prop := ∀ k a, (k, a) ∈ areas (state b) → Forall (λ l, is_conf l b) (area_confs a).
Lemma links_stable : stable links.
Proof.
  intros b b' Hx H1 k a. destruct Hx as [Hs Ho]. rewrite Hs. intros Hg. specialize (H1 k a Hg). rewrite Forall_forall in *.
  intros l Hin. apply (is_conf_extends l b b'); [by split|by apply H1].
Qed.
#[local] Instance links_class : Stable links := links_stable.
#[local] Notation good := (good links).

Lemma reads_endpoints : reads (endpoints : B UeransimNetworkEndpoints).
Proof. apply reads_bind; [apply reads_get_state|]. intros s b. by destruct (create_config s). Qed.
Lemma reads_first_address n v : reads (first_address n v : B VmResourceNetworkInterfaceAddress).
Proof. apply reads_bind; [apply reads_liftR|by intros i b]. Qed.

(** ** The steps *)
Lemma step_put_area k a confs :
  (∀ l, l ∈ area_confs a → l ∈ confs) →
  triple (good confs) (put_area k a : B unit) (λ _, good confs) (good []).
Proof.
  intros Hsub. apply triple_modifyS. intros b (Hs & Hl & Hc). split; [by apply sound_state|split; [|done]].
  intros k' a'. unfold update_state, set_areas. cbn. intros [[-> ->]|Hin]%od_set_elem.
  - rewrite Forall_forall in Hc |- *. intros l Hin. exact (Hc l (Hsub l Hin)).
  - by apply (Hl k').
Qed.

Lemma good_area k a b : good [] b → od_get k (areas (state b)) = Some a → good (area_confs a) b.
Proof. intros (Hs & Hl & _) Hk. split; [done|split; [done|by apply (Hl k), od_get_in]]. Qed.
Lemma create_gnb_good area_id : triple (good []) (_create_gnb set_order self_id area_id) (λ _, good []) (good []).
Proof.
  unfold _create_gnb. apply step_read; [apply reads_get_state|]. intros s.
  destruct (od_in area_id (areas s)); [by apply triple_raise|].
  apply step_read; [apply reads_liftR|]. intros area.
  eapply triple_bind; [by apply step_alloc|]. intros network.
  eapply triple_bind; [apply step_register|]. intros [].
  eapply weaken_pre; [intros b [Hg _]; exact Hg|].
  apply good_step; [apply create_net_sound|apply grows_create_net|]. intros [].
  apply step_read; [apply reads_endpoints|]. intros e.
  eapply triple_bind; [by apply step_alloc|]. intros gnb.
  eapply triple_bind; [apply step_register|]. intros [].
  eapply triple_bind; [by apply step_create_vm|]. intros [].
  eapply triple_bind; [apply step_put_area|].
  - cbn. by intros l ?%not_elem_of_nil.
  - intros []. eapply triple_conseq; [apply triple_preserves, good_preserves; [apply sound_on_ext, add_pdu_quiet|apply grows_on_ext]|done..].
Qed.

Lemma create_ue_good area_id ue : triple (good []) (_create_ue set_order rel_path self_id area_id ue) (λ _, good []) (good []).
Proof.
  unfold _create_ue. apply step_state. intros s b Hg <-.
  destruct (od_get area_id (areas (state b))) as [a|] eqn:Ea; [|apply triple_raise; by intros ? ->].
  eapply weaken_pre; [intros b' ->; exact (good_area _ _ _ Hg Ea)|]. clear b Hg Ea.
  apply step_read; [apply reads_liftR|]. intros area.
  apply step_read; [apply reads_endpoints|]. intros e.
  eapply triple_bind; [by apply step_alloc|]. intros vm.
  eapply triple_bind; [apply step_register|]. intros [].
  eapply triple_bind; [by apply step_create_vm|]. intros [].
  apply step_read; [apply reads_load_vm|]. intros gnb.
  apply step_read; [apply reads_first_address|]. intros search.
  apply step_read; [destruct (request_sims ue); by intros b|]. intros sims.
  eapply triple_bind; [by apply step_alloc|]. intros conf.
  eapply triple_bind; [apply step_register|]. intros [].
  apply weaken_pre with (good (conf :: area_confs a)); [intros b [Hg He]; by eapply enrolled_conf|].
  apply step_configure. intros r.
  eapply triple_conseq; [apply step_put_area|done|intros [] b Hg; by eapply good_nil|done].
  intros l. unfold area_confs. cbn. rewrite fmap_app, !elem_of_app, !elem_of_cons, elem_of_app. cbn.
  rewrite list_elem_of_singleton. tauto.
Qed.

Lemma configure_gnb_good model : triple (good []) (configure_gnb rel_path model) (λ _, good []) (good []).
Proof.
  unfold configure_gnb, get_area. 
  apply (triple_bind _ _ (λ a, good (area_confs a))).
  { apply step_state. intros s b Hg <-. apply triple_liftR; [|by intros ? ->].
    intros b' a -> Ha. unfold od_getitem in Ha. destruct (od_get _ _) as [a'|] eqn:Ea; [|done].
    injection Ha as <-. by eapply good_area. }
  intros a. apply step_read; [apply reads_load_vm|]. intros gnb.
  apply step_read; [apply reads_load_net|]. intros net.
  apply step_read; [apply reads_first_address|]. intros radio.
  apply step_read; [apply reads_endpoints|]. intros e.
  apply step_read; [apply reads_first_address|]. intros ngap.
  apply step_read; [apply reads_first_address|]. intros gtp.
  eapply triple_bind; [by apply step_alloc|]. intros conf.
  set (o := OConf _ _).
  apply (triple_bind _ _ (λ _ b, good (conf :: area_confs a) b ∧ holds conf o b)).
  { intros b [Hg Ho]. pose proof (good_conf _ _ _ _ Hg Ho I) as Hgc.
    pose proof (step_put_area (pretty (gnb_area model)) (set_gnb_configurator conf a) (conf :: area_confs a)) as Ht.
    destruct (put_area _ _ b) as [[[]|e'] b'] eqn:Ep; unfold put_area, update_state, modifyS in Ep; [|done].
    injection Ep as <-. split; [|done]. apply (Ht ltac:(unfold area_confs; cbn; set_solver) b Hgc). }
  intros []. eapply triple_bind; [apply step_register|]. intros [].
  eapply weaken_pre; [intros b [Hg _]; exact Hg|].
  apply step_configure. intros r. apply triple_ret. intros b Hb. by eapply good_nil.
Qed.

(** The list [confs] holds the configurator of the entry. *)
Lemma delete_ue_good u confs :
  vm_ue_configurator u ∈ confs → triple (good confs) (delete_ue_resources u) (λ _, good confs) (good []).
Proof. intros Hin. by apply step_destroy, step_forget. Qed.
Lemma delete_ues_good us confs :
  (∀ u, u ∈ us → vm_ue_configurator u ∈ confs) →
  triple (good confs) (for_each us delete_ue_resources) (λ _, good confs) (good []).
Proof. intros Hin. apply triple_for_each. intros u Hu. by apply delete_ue_good, Hin. Qed.

Lemma delete_ue_request_good area_id id : triple (good []) (_delete_ue area_id id) (λ _, good []) (good []).
Proof.
  unfold _delete_ue. apply step_state. intros s b Hg <-.
  destruct (od_get area_id (areas (state b))) as [a|] eqn:Ea; [|apply triple_raise; by intros ? ->].
  eapply weaken_pre; [intros b' ->; exact (good_area _ _ _ Hg Ea)|]. clear b Hg Ea.
  eapply triple_conseq; [apply (triple_for_each (good (area_confs a)))|done|intros [] b Hb; by eapply good_nil|done].
  intros u Hu. destruct (String.eqb (ue_id u) (pretty id)); [|apply triple_raise; intros b Hb; by eapply good_nil].
  apply (triple_bind _ _ (λ _, good (area_confs a))).
  { apply delete_ue_good. unfold area_confs. apply elem_of_app. right. apply list_elem_of_fmap. by exists u. }
  intros []. unfold get_area.
  intros b Hb. pose proof Hb as (Hs & Hl & Hc).
  unfold get_state, mbind, M_bind, getS, mret, M_ret, liftR, od_getitem. cbn.
  destruct (od_get area_id (areas (state b))) as [now|] eqn:En; [|by eapply good_nil].
  destruct (py_remove (ue_eqb b) u (ues now)) as [l|e] eqn:Er; [|by eapply good_nil].
  assert (Hsub : ∀ x, x ∈ area_confs (set_ues l now) → x ∈ area_confs now).
  { intros x. unfold area_confs. cbn. rewrite !elem_of_app. intros [?|Hx]; [by left|right].
    apply list_elem_of_fmap in Hx as (u' & -> & Hu'). apply list_elem_of_fmap. exists u'. split; [done|].
    apply py_remove_inv in Er as (i & y & _ & _ & ->). by eapply elem_of_delete_list. }
  pose proof (step_put_area area_id (set_ues l now) (area_confs now) Hsub b) as Ht.
  assert (Hb' : good (area_confs now) b) by (split; [done|split; [done|by apply (Hl area_id), od_get_in]]).
  specialize (Ht Hb'). unfold put_area, update_state, modifyS in *. destruct Ht as (Hs' & Hl' & _).
  split; [done|split; [done|exact Hc]].
Qed.

Lemma delete_gnb_good area_id : triple (good []) (_delete_gnb self_id area_id) (λ _, good []) (good []).
Proof.
  unfold _delete_gnb. apply step_state. intros s b Hg <-.
  destruct (od_get area_id (areas (state b))) as [a|] eqn:Ea; [|apply triple_raise; by intros ? ->].
  eapply weaken_pre; [intros b' ->; exact (good_area _ _ _ Hg Ea)|]. clear b Hg Ea.
  eapply triple_bind; [apply delete_ues_good|].
  { intros u Hu. unfold area_confs. apply elem_of_app. right. apply list_elem_of_fmap. by exists u. }
  intros [].
  apply step_destroy. apply (triple_bind _ _ (λ _, good (area_confs a))).
  { destruct (vm_gnb_configurator a) as [c|] eqn:Ec; [|by apply triple_ret].
    apply step_forget. unfold area_confs. rewrite Ec. by left. }
  intros []. apply (triple_bind _ _ (λ _, good [])).
  { apply triple_modifyS. intros b (Hs & Hl & _). split; [by apply sound_state|split; [|constructor]].
    intros k a'. unfold set_areas. cbn. intros Hk. apply (Hl k). eapply elem_of_submseteq; [exact Hk|apply sublist_submseteq, od_pop_sublist]. }
  intros []. apply step_read; [apply reads_liftR|]. intros area. unfold del_gnb_from_topology.
  apply triple_preserves, preserves_catch; [apply good_preserves; [apply sound_on_ext, del_pdu_quiet|apply grows_on_ext]|].
  intros e h [= <-]. apply preserves_ret.
Qed.

Lemma load_ue_conf_cases l b :
  (∃ i vm sims search del, holds l (OConf i (UeransimUEConfigurator vm sims search del)) b ∧
     load_ue_conf l b = (Ok (i, vm, sims, search, del), b)) ∨
  load_ue_conf l b = (Raise AttributeError, b).
Proof.
  unfold load_ue_conf. destruct (load_conf_cases l b) as [(i & c & Hl & E)|E].
  - rewrite (bind_Ok _ _ _ _ _ E). destruct c; cbn; [by right|left]. by do 5 eexists.
  - right. by rewrite (bind_Raise _ _ _ _ _ E).
Qed.
Lemma step_ue_conf {C} l (f : option string * loc * list UeransimSim * list string * list UeransimSim → B C) confs Q :
  (∀ i vm sims search del, triple (λ b, good confs b ∧ holds l (OConf i (UeransimUEConfigurator vm sims search del)) b)
     (f (i, vm, sims, search, del)) Q (good [])) →
  triple (good confs) (load_ue_conf l ≫= f) Q (good []).
Proof.
  intros Hf b Hb. destruct (load_ue_conf_cases l b) as [(i & vm & sims & search & del & Hl & E)|E].
  - rewrite (bind_Ok _ _ _ _ _ E). by apply Hf.
  - rewrite (bind_Raise _ _ _ _ _ E). by eapply good_nil.
Qed.
(** Changing the configurator of a UE and applying it. *)
Lemma reconfigure_good l i c c' confs :
  triple (λ b, good confs b ∧ holds l (OConf i c) b)
    (store l (OConf i c') ;; provider_configure_vm l ;; mret tt : B unit) (λ _, good confs) (good []).
Proof.
  eapply triple_bind; [apply step_store_conf; exact I|]. intros []. apply step_configure. intros r. by apply triple_ret.
Qed.

Lemma add_sim_good area_id id sim : triple (good []) (_add_sim rel_path area_id id sim) (λ _, good []) (good []).
Proof.
  unfold _add_sim, get_area. apply (triple_bind _ _ (λ _, good [])).
  { apply step_read; [apply reads_get_state|]. intros s. apply triple_liftR; by intros. }
  intros a. apply triple_for_each. intros ue _. destruct (String.eqb _ _); [|by apply triple_ret].
  apply step_ue_conf. intros i vm sims search del. destruct (existsb _ _); [apply triple_raise; by intros b [? _]|].
  apply reconfigure_good.
Qed.
Lemma del_sim_good area_id id imsi : triple (good []) (_del_sim rel_path area_id id imsi) (λ _, good []) (good []).
Proof.
  unfold _del_sim, get_area. apply (triple_bind _ _ (λ _, good [])).
  { apply step_read; [apply reads_get_state|]. intros s. apply triple_liftR; by intros. }
  intros a. induction (ues a) as [|ue us IH]; cbn [del_sim_from]; [by apply triple_ret|].
  destruct (String.eqb _ _); [|exact IH].
  apply step_ue_conf. intros i vm sims search del. destruct (find _ _) as [sim|]; [|apply triple_raise; by intros b [? _]].
  destruct (py_remove _ sim sims) as [sims'|e]; [apply reconfigure_good|].
  intros b [Hb _]. exact Hb.
Qed.

Lemma day2_good r : preserves (good []) (day2 set_order rel_path self_id r).
Proof.
  apply triple_preserves. destruct r; [apply create_gnb_good|apply configure_gnb_good|apply delete_gnb_good|
    apply create_ue_good|apply delete_ue_request_good|apply add_sim_good|apply del_sim_good].
Qed.
Lemma create_good m : preserves (good []) (create set_order rel_path self_id m).
Proof.
  apply triple_preserves. unfold create. apply (triple_bind _ _ (λ _, good [])).
  { apply triple_modifyS. intros b (Hs & Hl & Hc). split; [by apply sound_state|]. by split. }
  intros []. apply triple_for_each. intros area _. eapply triple_bind; [apply create_gnb_good|]. intros [].
  apply triple_for_each. intros ue _. apply create_ue_good.
Qed.

(** The state after a list of requests, those that fail included. *)
Definition after_all (l : list Day2) b : Blue := foldl (λ b r, (day2 set_order rel_path self_id r b).2) b l.
Definition empty_blueprint (x : X) : Blue :=
  {| objs := []; registered_resources := []; children_blue_ids := []; state := {| areas := []; create_config := None |};
     ext := x |}.

Lemma ueransim_history_good m requests x : pristine x →
  good [] (after_all requests (create set_order rel_path self_id m (empty_blueprint x)).2).
Proof.
  intros Hx. assert (H0 : good [] (empty_blueprint x)).
  { split; [by apply empty_sound|split; [|constructor]]. by intros k a ?%not_elem_of_nil. }
  apply (create_good m) in H0. revert H0. generalize (create set_order rel_path self_id m (empty_blueprint x)).2.
  induction requests as [|r l IH]; intros b Hb; [done|]. cbn. apply IH. by apply day2_good.
Qed.
Lemma ueransim_destroy_clean b b' : good [] b → destroy self_id b = (Ok tt, b') → healthy (ext b') ∧ servers (ext b') = ∅.
Proof.
  intros Hb Hd. unfold destroy in Hd. rewrite (bind_Ok get_state _ b b (state b)) in Hd by done.
  apply bind_Ok_inv in Hd as ([] & b1 & Hf & Hd). eapply base_destroy_clean; [|exact Hd].
  assert (Hp : preserves sound (for_each (od_keys (areas (state b)))
    (λ area, id ← liftR (py_int area); del_gnb_from_topology self_id id) : B unit)).
  { apply preserves_for_each. intros k. apply preserves_bind; [apply preserves_liftR|]. intros id.
    apply preserves_catch; [apply sound_on_ext, del_pdu_quiet|]. intros e h [= <-]. apply preserves_ret. }
  specialize (Hp b (proj1 Hb)). by rewrite Hf in Hp.
Qed.

(** C16: no machine is forgotten. Whatever the blueprint is asked, a creation and any day-2 requests in
    any order, and whichever of them fail and wherever (the provider, the topology, the run of a playbook),
    a destruction that returns leaves none of the machines the blueprint ever created, and the providers in
    order: each machine is registered before it is created and destroyed before it is forgotten. *)
Theorem no_machine_forgotten m requests x b' :
  pristine x →
  destroy self_id (after_all requests (create set_order rel_path self_id m (empty_blueprint x)).2) = (Ok tt, b') →
  healthy (ext b') ∧ servers (ext b') = ∅.
Proof. intros Hx. apply ueransim_destroy_clean. by apply ueransim_history_good. Qed.
End machines.

(** ** A concrete provider

    Machines are created at once, with an address on each of their networks; the creation of one machine
    fails after its server has been started. *)
Module Concrete.
Record Lab := {
  lab_next : nat;
  lab_servers : gset string;
  lab_running : gmap string (gset string);
  lab_networks : gset string;
  lab_refuses : bool                 (* whether the run of a playbook fails *)
}.
Fixpoint lab_id (n : nat) : string := match n with O => "i" | S n' => String "i"%char (lab_id n') end.
Definition lab_start : Lab :=
  {| lab_next := 0; lab_servers := ∅; lab_running := ∅; lab_networks := ∅; lab_refuses := false |}.
Definition lab_set (n : nat) (s : gset string) (r : gmap string (gset string)) (x : Lab) : Lab :=
  {| lab_next := n; lab_servers := s; lab_running := r; lab_networks := lab_networks x; lab_refuses := lab_refuses x |}.

Definition lab_interface (n : string) : string * list VmResourceNetworkInterface :=
  (n, [{| fixed := {| interface_name := "ens3"; mac := "02:00"; ip := "10.0.0.2"; cidr := "10.0.0.0/24" |}; floating := None |}]).
Definition lab_boot (v : VmResource) : VmResource :=
  {| vm_id := vm_id v; vm_area := vm_area v; vm_name := vm_name v; image := image v; flavor := flavor v;
     username := username v; password := password v; become_password := become_password v;
     management_network := management_network v; additional_networks := additional_networks v;
     require_floating_ip := require_floating_ip v; require_port_security_disabled := require_port_security_disabled v;
     created := true; access_ip := Some "10.0.0.2";
     network_interfaces := lab_interface <$> get_all_connected_network_names v; vm_state := vm_state v |}.
Definition lab_key (v : VmResource) : string := default EmptyString (vm_id v).

Definition lab_run (v : VmResource) (f : gset string → gset string) (r : gmap string (gset string)) :=
  match vm_id v with Some k => <[k := f (default ∅ (r !! k))]> r | None => r end.

#[export] Instance lab_provider : Provider Lab := {|
  create_vm v x :=
    let x' := lab_set (lab_next x) ({[lab_key v]} ∪ lab_servers x) (lab_run v (λ _, ∅) (lab_running x)) x in
    if String.eqb (vm_name v) "blue_3_UE_9" then (Raise (ExternalError 1), v, x') else (Ok tt, lab_boot v, x');
  destroy_vm v x := (Ok tt, lab_set (lab_next x) (lab_servers x ∖ {[lab_key v]}) (lab_running x) x);
  create_net n x :=
    if bool_decide (net_name n ∈ lab_networks x) then (Raise VirtualizationProviderException, x)
    else (Ok tt, {| lab_next := lab_next x; lab_servers := lab_servers x; lab_running := lab_running x;
                    lab_networks := {[net_name n]} ∪ lab_networks x; lab_refuses := lab_refuses x |});
  get_virt_provider a := mret tt;
  run_playbook v p x :=
    if lab_refuses x then (Raise (ExternalError 2), x)
    else (Ok [], lab_set (lab_next x) (lab_servers x) (lab_run v (run_services (play_services p)) (lab_running x)) x);
  delete_blueprint i := raise BlueprintNotFoundException;
  final_cleanup := mret tt;
  destroy_ng_blue := mret tt;
  get_vim_from_area_id_model a := mret tt;
  uuid4 x := (lab_id (lab_next x), lab_set (S (lab_next x)) (lab_servers x) (lab_running x) x)
|}.
#[export] Instance lab_topology : PduTopology Lab := {| add_pdu p := mret tt; del_pdu n := raise ValueError |}.

Lemma lab_id_inj n m : lab_id n = lab_id m → n = m.
Proof.
  assert (H : ∀ n, String.length (lab_id n) = S n) by (intros k; induction k as [|k IH]; [done|cbn; by rewrite IH]).
  intros E. apply (f_equal String.length) in E. rewrite !H in E. congruence.
Qed.
Definition lab_issued (x : Lab) : gset string := list_to_set (lab_id <$> seq 0 (lab_next x)).
Lemma lab_not_empty n : lab_id n ≠ EmptyString.
Proof. by destruct n. Qed.

#[export] Program Instance lab_laws : ProviderLaws Lab :=
  {| servers x := lab_servers x ∖ {[EmptyString]}; issued := lab_issued; homes x i a := False; healthy x := True |}.
Next Obligation.
  intros x i x' _ [= <- <-]. unfold lab_issued, lab_set. cbn [lab_next lab_servers]. split_and!; [| | |done..].
  - apply lab_not_empty.
  - intros (n & Hn & Hin)%elem_of_list_to_set%list_elem_of_fmap. apply lab_id_inj in Hn as <-.
    apply elem_of_seq in Hin. lia.
  - rewrite seq_S, fmap_app, list_to_set_app_L. cbn. set_solver.
Qed.
Next Obligation. intros v x r v' x'. cbn -[String.eqb]. by destruct (String.eqb _ _); intros [= <- <- <-]. Qed.
Next Obligation.
  intros v x r v' x' i. cbn -[String.eqb]. unfold lab_key.
  destruct (String.eqb _ _); intros [= <- <- <-] _ -> _; split_and!; try done; cbn; set_solver.
Qed.
Next Obligation. intros v x _. cbn. split_and!; [done|set_solver|done|done]. Qed.
Next Obligation. intros v x x' i [= <-] _ Hi _. unfold lab_key. cbn. rewrite Hi. set_solver. Qed.
Next Obligation. intros n x. cbn. by destruct (bool_decide _). Qed.
Next Obligation. done. Qed.
Next Obligation. intros v p x. cbn. by destruct (lab_refuses x). Qed.
Solve Obligations with done.
Lemma lab_pristine x : lab_servers x = ∅ → pristine x.
Proof. intros Hx. split_and!; [done| |by intros i a []]. apply set_eq. intros i. unfold servers. cbn. rewrite Hx. set_solver. Qed.

(** A network with one area, whose UE 1 has a SIM, to which a day-2 request adds an area and fails to add
    a UE: the machine of UE 9 is left without an entry in the state. *)
Definition lab_sim (imsi : string) : UeransimSim :=
  {| sim_imsi := imsi; sim_plmn := "00101"; sim_key := "465B5CE8B199B49FAA5F0A2EE238A6BC";
     sim_op := "E8ED289DEBA952E4283B54E88E6183CA"; sim_opType := "OPC"; sim_amf := Some "8000";
     configured_nssai := None; default_nssai := None; sim_sessions := None |}.
Definition lab_request : UeransimBlueprintRequestInstance :=
  {| network_endpoints := {| ep_mgt := "mgt"; ep_n2 := "n2"; ep_n3 := "n3" |};
     request_areas := [{| request_area_id := 1;
       request_ues := [{| request_ue_id := Some 1; request_sims := Some [lab_sim "001010000000001"] |}] |}] |}.
Definition lab_ue (id : Z) (imsis : list string) : UeransimUe :=
  {| request_ue_id := Some id; request_sims := Some (lab_sim <$> imsis) |}.
Definition lab_day2 : list Day2 := [AddGNB "3"; AddUE "3" (lab_ue 9 []); AddUE "3" (lab_ue 2 ["001010000000002"]); DelUE "1" 7].
Notation lab_create := (create (λ l, l) (λ p, p) "blue" lab_request (empty_blueprint lab_start)).

Lemma no_machine_forgotten_witness :
  let b := after_all (λ l, l) (λ p, p) "blue" lab_day2 lab_create.2 in
  size (servers (ext b)) = 5%nat ∧ ∃ b', destroy "blue" b = (Ok tt, b') ∧ healthy (ext b') ∧ servers (ext b') = ∅.
Proof.
  split; [vm_compute; reflexivity|]. eexists. split; [vm_compute; reflexivity|].
  eapply (no_machine_forgotten (λ l, l) (λ p, p) "blue") with (m := lab_request) (requests := lab_day2) (x := lab_start);
    [intros p x; done|intros n x; done|by apply lab_pristine|vm_compute; reflexivity].
Defined.
End Concrete.
