(* ===== verification/UeransimSims.v ===== *)
(** * The SIMs that run are the SIMs that were asked for

    The UERANSIM blueprint refines an abstract fleet: areas, their UEs and the SIMs of each.  As long
    as its requests succeed, the services running on the machine of every UE are those of its SIMs. *)

From Stdlib Require Import Ascii.
From stdpp Require Import base list strings gmap pretty.
From Stdlib Require Import ZArith Lia.
From S2P Require Import Prelude NetworkModels Core5GModels Ansible Resources Deployment DeploymentSteps Ueransim UeransimProps.

Open Scope Z_scope.

(** ** The abstract fleet *)
Definition Fleet : Type := list (string * list (string * list UeransimSim)).

(** The first SIM with the IMSI, out of the first UE with the name. *)
Fixpoint drop_from (name imsi : string) (l : list (string * list UeransimSim)) : list (string * list UeransimSim) :=
  match l with
  | [] => []
  | (n, sims) :: l' => if String.eqb n name then (n, drop_sim imsi sims) :: l' else (n, sims) :: drop_from name imsi l'
  end.

Definition fleet_area (k : string) (f : Fleet) : list (string * list UeransimSim) := default [] (od_get k f).
Definition fleet_day2 (r : Day2) (f : Fleet) : Fleet :=
  match r with
  | AddGNB k => f ++ [(k, [])]
  | ConfigureGNB _ => f
  | DelGNB k => od_pop k f
  | AddUE k ue => od_set k (fleet_area k f ++ [(ue_text (request_ue_id ue), default [] (request_sims ue))]) f
  | DelUE k _ => od_set k [] f
  | AddSim k id s =>
      od_set k ((λ ns, if String.eqb ns.1 (pretty id) then (ns.1, ns.2 ++ [s]) else ns) <$> fleet_area k f) f
  | DelSim k id imsi => od_set k (drop_from (pretty id) imsi (fleet_area k f)) f
  end.
Definition fleet_create (m : UeransimBlueprintRequestInstance) : Fleet :=
  (λ area, (pretty (request_area_id area),
            (λ ue, (ue_text (request_ue_id ue), default [] (request_sims ue))) <$> request_ues area)) <$> request_areas m.

(** ** What a machine runs

    [running] are the services the playbooks have left running on the machine of a resource. *)
Class MachineLaws (X : Type) `{!Provider X} `{!PduTopology X} := {
  running : X → string → gset string;
  run_effect : ∀ v p x r x' i, run_playbook v p x = (Ok r, x') → vm_id v = Some i →
    running x' i = run_services (play_services p) (running x i);
  run_others : ∀ v p x r x' j, run_playbook v p x = (Ok r, x') → vm_id v ≠ Some j → running x' j = running x j;
  create_effect : ∀ v x v' x' i, create_vm v x = (Ok tt, v', x') → vm_id v = Some i → running x' i = ∅;
  create_others : ∀ v x v' x' j, create_vm v x = (Ok tt, v', x') → vm_id v ≠ Some j → running x' j = running x j;
  destroy_others : ∀ v x x' j, destroy_vm v x = (Ok tt, x') → vm_id v ≠ Some j → running x' j = running x j;
  create_net_calm : ∀ n x, running (create_net n x).2 = running x;
  get_virt_provider_calm : ∀ a x, running (get_virt_provider a x).2 = running x;
  get_vim_calm : ∀ a x, running (get_vim_from_area_id_model a x).2 = running x;
  uuid4_calm : ∀ x, running (uuid4 x).2 = running x;
  add_pdu_calm : ∀ p x, running (add_pdu p x).2 = running x;
  del_pdu_calm : ∀ n x, running (del_pdu n x).2 = running x
}.

Section sims.
Context {X : Type} `{!Provider X} `{!PduTopology X} `{!ProviderLaws X} `{!MachineLaws X}.
Variable set_order : list string → list string.
Variable rel_path : string → string.
Variable self_id : string.
#[local] Instance conf_class : Configurator UeransimConf := ueransim_configurator rel_path.
#[local] Instance conf_laws : ConfiguratorLaws UeransimConf := ueransim_conf_laws rel_path.
#[local] Notation Blue := (Blueprint UeransimConf UeransimState X).
#[local] Notation B := (M Blue).
#[local] Notation good := (good links).
Implicit Types b : Blue.

Hypothesis add_pdu_quiet : ∀ p, harmless (add_pdu p).
Hypothesis del_pdu_quiet : ∀ n, harmless (del_pdu n).

(** ** One UE *)
Definition vm_ok (l : loc) (active : gset string) b : Prop :=
  ∃ v i, holds l (OVm v) b ∧ vm_id v = Some i ∧ running (ext b) i = active.
Definition ue_ok (us : BlueUeransimUe * list UeransimSim) b : Prop :=
  vm_ok (vm_ue us.1) (sim_services us.2) b ∧
  ∃ j search, holds (vm_ue_configurator us.1) (OConf j (UeransimUEConfigurator (vm_ue us.1) us.2 search [])) b.

(** A step that changes the object at [l] and what runs on the machine of the object at [m]. *)
Definition effect (l m : loc) b b' : Prop :=
  (∀ l', l' ≠ l → objs b' !! l' = objs b !! l') ∧
  (∀ j, (∀ v, holds m (OVm v) b → vm_id v ≠ Some j) → running (ext b') j = running (ext b) j).

Lemma effect_calm l m b b' :
  (∀ l', l' ≠ l → objs b' !! l' = objs b !! l') → running (ext b') = running (ext b) → effect l m b b'.
Proof. intros Ho Hr. split; [done|]. intros j _. by rewrite Hr. Qed.
Lemma vm_ok_effect l m l0 active b b' :
  sound b → effect l m b b' → l0 ≠ l → l0 ≠ m → vm_ok l0 active b → vm_ok l0 active b'.
Proof.
  intros Hs [Ho Hr] Hl Hm (v & i & Hv & Hi & Ha). exists v, i. unfold holds. rewrite Ho by done.
  split_and!; [exact Hv|done|]. rewrite <-Ha. apply Hr. intros v' Hv' Hi'. apply Hm.
  by apply (snd_ids b Hs l0 m (OVm v) (OVm v') i).
Qed.
Definition apart (l : loc) (us : list (BlueUeransimUe * list UeransimSim)) : Prop :=
  ∀ u s, (u, s) ∈ us → vm_ue u ≠ l ∧ vm_ue_configurator u ≠ l.
Definition okay (us : list (BlueUeransimUe * list UeransimSim)) b : Prop := Forall (λ u, ue_ok u b) us.

Lemma okay_effect l m us b b' :
  sound b → effect l m b b' → apart l us → apart m us → okay us b → okay us b'.
Proof.
  intros Hs He Hl Hm Hok. unfold okay in *. rewrite Forall_forall in *. intros [u s] Hin.
  destruct (Hok _ Hin) as [Hv (j & search & Hc)]. destruct (Hl u s Hin) as [Hl1 Hl2], (Hm u s Hin) as [Hm1 _].
  split; [by apply (vm_ok_effect l m _ _ b)|]. exists j, search. unfold holds. cbn in *. destruct He as [-> _]; [exact Hc|done].
Qed.
Lemma okay_calm us b b' : objs b' = objs b → running (ext b') = running (ext b) → okay us b → okay us b'.
Proof.
  intros Ho He Hok. unfold okay in *. rewrite Forall_forall in *. intros u Hin. specialize (Hok u Hin).
  unfold ue_ok, vm_ok, holds in *. by rewrite Ho, He.
Qed.
Lemma okay_same us b b' : objs b' = objs b → ext b' = ext b → okay us b → okay us b'.
Proof. intros Ho He. apply okay_calm; [done|by rewrite He]. Qed.
Lemma okay_app us us' b : okay (us ++ us') b ↔ okay us b ∧ okay us' b.
Proof. apply Forall_app. Qed.
Lemma apart_app l us us' : apart l (us ++ us') ↔ apart l us ∧ apart l us'.
Proof.
  unfold apart. split; [intros H; split; intros u s Hin; apply (H u s), elem_of_app; [by left|by right]|].
  intros [H1 H2] u s [?|?]%elem_of_app; [by apply (H1 u s)|by apply (H2 u s)].
Qed.
(** What [okay] speaks of is in the store. *)
Lemma okay_lt l us b : okay us b → (length (objs b) ≤ l)%nat → apart l us.
Proof.
  intros Hok Hl u s Hin. unfold okay in Hok. rewrite Forall_forall in Hok.
  destruct (Hok _ Hin) as [(v & i & Hv & _) (j & search & Hc)]. apply lookup_lt_Some in Hv, Hc. cbn in *. lia.
Qed.

(** ** The steps *)
Lemma alloc_fwd o us b l b' :
  sound b → okay us b → alloc o b = (Ok l, b') → obj_id o = None →
  sound b' ∧ okay us b' ∧ apart l us ∧ holds l o b' ∧ state b' = state b ∧ l = length (objs b) ∧
  effect l l b b' ∧ length (objs b') = S (length (objs b)).
Proof.
  intros Hs Hok H Hid. pose proof (alloc_triple o Hid b Hs) as Ht. rewrite H in Ht. destruct Ht as [Hs' Hh].
  unfold alloc, putS, getS, mbind, M_bind, mret, M_ret in H. injection H as <- <-.
  assert (He : effect (length (objs b)) (length (objs b)) b (set_objs (objs b ++ [o]) b)).
  { apply effect_calm; [|done]. intros l' Hne. cbn. destruct (decide (l' < length (objs b))%nat).
    - by apply lookup_app_l.
    - rewrite (proj2 (lookup_ge_None (objs b) l')) by lia. apply lookup_ge_None. rewrite length_app. cbn. lia. }
  assert (Ha : apart (length (objs b)) us) by by apply (okay_lt _ us b).
  split_and!; [done|by apply (okay_effect (length (objs b)) (length (objs b)) us b)|done|done|done|done|done|]. cbn. rewrite length_app. cbn. lia.
Qed.

Lemma register_shape l o b b' :
  holds l o b → obj_id o = None → register_resource l b = (Ok tt, b') →
  ∃ i, objs b' = <[l:=set_obj_id i o]> (objs b) ∧ running (ext b') = running (ext b) ∧ state b' = state b.
Proof.
  intros Hl Hid H. unfold register_resource in H. rewrite (bind_Ok _ _ _ _ _ (load_run l o b Hl)) in H.
  rewrite (bind_Ok getS _ b b b) in H by done. rewrite Hid in H. cbn [is_registered str_true andb] in H.
  rewrite (bind_Ok (mret tt) _ b b tt) in H by done.
  set (i := (uuid4 (ext b)).1) in *.
  set (b1 := set_objs (<[l:=set_obj_id i o]> (objs b)) (set_ext (uuid4 (ext b)).2 b)) in *.
  rewrite (bind_Ok _ _ b b1 (set_obj_id i o)) in H by reflexivity.
  apply bind_Ok_inv in H as ([] & b2 & H1 & H2). injection H2 as <-. exists i.
  cbn [set_registered objs ext state].
  assert (objs b2 = objs b1 ∧ running (ext b2) = running (ext b1) ∧ state b2 = state b1) as (-> & -> & ->).
  { destruct (obj_area (set_obj_id i o)) as [a|]; [|by injection H1 as <-]. unfold catch, on_ext, zoom in H1.
    pose proof (get_vim_calm a (ext b1)) as Hc. destruct (get_vim_from_area_id_model a (ext b1)) as [[[]|e] x].
    - injection H1 as <-. done.
    - by destruct (is_value_error e). }
  split_and!; [done| |done]. apply uuid4_calm.
Qed.
Lemma register_fwd l o us b b' :
  sound b → okay us b → apart l us → holds l o b → register_resource l b = (Ok tt, b') → obj_id o = None →
  sound b' ∧ okay us b' ∧ state b' = state b ∧ enrolled l o b' ∧ effect l l b b' ∧ length (objs b') = length (objs b) ∧
  ∃ i, holds l (set_obj_id i o) b'.
Proof.
  intros Hs Hok Ha Hl H Hid. pose proof (register_triple l o b (conj Hs Hl)) as Ht. rewrite H in Ht.
  destruct Ht as [Hs' He]. destruct (register_shape l o b b' Hl Hid H) as (i & Ho & Hr & Hst).
  assert (Heff : effect l l b b').
  { apply effect_calm; [|done]. intros l' Hne. by rewrite Ho, list_lookup_insert_ne. }
  split_and!; [done|by apply (okay_effect l l us b)|done|done|done|by rewrite Ho, length_insert|].
  exists i. unfold holds. rewrite Ho. apply list_lookup_insert_eq. by eapply lookup_lt_Some.
Qed.

Lemma create_vm_fwd l v us b b' :
  vm_id v = None → sound b → okay us b → apart l us → enrolled l (OVm v) b → provider_create_vm l b = (Ok tt, b') →
  sound b' ∧ okay us b' ∧ state b' = state b ∧ vm_ok l ∅ b' ∧ effect l l b b' ∧ length (objs b') = length (objs b).
Proof.
  intros Hnew Hs Hok Ha He H. pose proof (create_vm_triple l v Hnew b (conj Hs He)) as Ht. rewrite H in Ht.
  destruct He as (o & i & Hl & Hk & Hid & Hg & _). destruct o as [v0| |]; [|done..].
  unfold provider_create_vm in H. rewrite (bind_Ok _ _ _ _ _ (load_vm_run l v0 b Hl)) in H.
  rewrite (bind_Ok getS _ b b b) in H by done. destruct (create_vm v0 (ext b)) as [[r v'] x] eqn:Ec.
  rewrite (bind_Ok (putS _) _ b (set_ext x b) tt) in H by done.
  rewrite (bind_Ok (store _ _) _ _ (set_objs (<[l:=OVm v']> (objs b)) (set_ext x b)) tt) in H by done.
  unfold liftR in H. injection H as -> <-. destruct (create_vm_same _ _ _ _ _ Ec) as (Hi & _ & _). cbn in Hid.
  assert (Heff : effect l l b (set_objs (<[l:=OVm v']> (objs b)) (set_ext x b))).
  { split; [intros l' Hne; cbn; by rewrite list_lookup_insert_ne|]. intros j Hj. cbn. eapply create_others; [exact Ec|].
    apply (Hj v0). exact Hl. }
  split_and!; [done|by apply (okay_effect l l us b)|done| |done|cbn; by rewrite length_insert].
  exists v', i. split_and!; [unfold holds; cbn; apply list_lookup_insert_eq; by eapply lookup_lt_Some|congruence|].
  by eapply create_effect.
Qed.

(** A new machine, and a new object of another kind. *)
Lemma new_vm_fwd v us b l b1 b2 b' :
  sound b → okay us b → alloc (OVm v) b = (Ok l, b1) → register_resource l b1 = (Ok tt, b2) →
  provider_create_vm l b2 = (Ok tt, b') → vm_id v = None →
  sound b' ∧ okay us b' ∧ apart l us ∧ state b' = state b ∧ vm_ok l ∅ b' ∧ l = length (objs b) ∧
  length (objs b') = S (length (objs b)).
Proof.
  intros Hs Hok H1 H2 H3 Hid.
  destruct (alloc_fwd _ us _ _ _ Hs Hok H1 Hid) as (Hs1 & Hok1 & Ha & Hl1 & Hst1 & -> & _ & Hlen1).
  destruct (register_fwd _ _ us _ _ Hs1 Hok1 Ha Hl1 H2 Hid) as (Hs2 & Hok2 & Hst2 & He2 & _ & Hlen2 & _).
  destruct (create_vm_fwd _ _ us _ _ Hid Hs2 Hok2 Ha He2 H3) as (Hs3 & Hok3 & Hst3 & Hv & _ & Hlen3).
  split_and!; [done|done|done|congruence|done|done|congruence].
Qed.
Lemma new_obj_fwd o us b l b1 b' :
  sound b → okay us b → alloc o b = (Ok l, b1) → register_resource l b1 = (Ok tt, b') → obj_id o = None →
  sound b' ∧ okay us b' ∧ apart l us ∧ state b' = state b ∧ l = length (objs b) ∧
  length (objs b') = S (length (objs b)) ∧ (∃ i, holds l (set_obj_id i o) b') ∧
  ∀ l0 active, l0 ≠ l → vm_ok l0 active b → vm_ok l0 active b'.
Proof.
  intros Hs Hok H1 H2 Hid.
  destruct (alloc_fwd _ us _ _ _ Hs Hok H1 Hid) as (Hs1 & Hok1 & Ha & Hl1 & Hst1 & -> & He1 & Hlen1).
  destruct (register_fwd _ _ us _ _ Hs1 Hok1 Ha Hl1 H2 Hid) as (Hs2 & Hok2 & Hst2 & _ & He2 & Hlen2 & Hh).
  split_and!; [done|done|done|congruence|done|congruence|done|].
  intros l0 active Hne Hv. apply (vm_ok_effect _ _ l0 active b1 b' Hs1 He2 Hne Hne).
  by apply (vm_ok_effect _ _ l0 active b b1 Hs He1 Hne Hne).
Qed.

Lemma ext_fwd {A} (m : M X A) us b a b' :
  harmless m → (∀ x, running (m x).2 = running x) → sound b → okay us b → on_ext m b = (Ok a, b') →
  sound b' ∧ okay us b' ∧ state b' = state b ∧ objs b' = objs b ∧ running (ext b') = running (ext b).
Proof.
  intros Hq Hc Hs Hok H. pose proof (sound_on_ext m Hq b Hs) as Hs'. rewrite H in Hs'. unfold on_ext, zoom in H.
  pose proof (Hc (ext b)) as Hr. destruct (m (ext b)) as [r x]. injection H as -> <-. cbn in Hr.
  split_and!; [done|by apply (okay_calm us b)|done|done|done].
Qed.
Lemma del_pdu_fwd area us b b' :
  okay us b → del_gnb_from_topology self_id area b = (Ok tt, b') →
  okay us b' ∧ state b' = state b ∧ objs b' = objs b.
Proof.
  intros Hok H. unfold del_gnb_from_topology, catch, on_ext, zoom in H.
  pose proof (del_pdu_calm (gnb_pdu_name self_id area) (ext b)) as Hcalm.
  assert (Hok' : okay us (set_ext (del_pdu (gnb_pdu_name self_id area) (ext b)).2 b)) by by apply (okay_calm us b).
  destruct (del_pdu (gnb_pdu_name self_id area) (ext b)) as [[[]|e] x]; injection H as <-; done.
Qed.
Lemma create_net_fwd l us b b' :
  sound b → okay us b → provider_create_net l b = (Ok tt, b') →
  sound b' ∧ okay us b' ∧ state b' = state b ∧ objs b' = objs b.
Proof.
  intros Hs Hok H. unfold provider_create_net in H. apply bind_Ok_inv in H as (n & b1 & H1 & H).
  pose proof (reads_load_net l b) as Hr. rewrite H1 in Hr. cbn in Hr. subst b1.
  destruct (ext_fwd _ us b _ b' (create_net_quiet n) (create_net_calm n) Hs Hok H) as (? & ? & ? & ? & _). done.
Qed.

Lemma deregister_shape l b b' :
  deregister_resource l b = (Ok tt, b') → objs b' = objs b ∧ ext b' = ext b ∧ state b' = state b.
Proof.
  intros H. unfold deregister_resource in H. apply bind_Ok_inv in H as (o & b1 & H1 & H).
  pose proof (reads_load l b) as Hr. rewrite H1 in Hr. cbn in Hr. subst b1.
  rewrite (bind_Ok getS _ b b b) in H by done. destruct (str_true (obj_id o)); [|done].
  destruct (is_registered (obj_id o) b); [|done]. by injection H as <-.
Qed.
Lemma destroy_fwd l us b b1 b' :
  sound b → okay us b → apart l us → provider_destroy_vm l b = (Ok tt, b1) → deregister_resource l b1 = (Ok tt, b') →
  sound b' ∧ okay us b' ∧ state b' = state b ∧ objs b' = objs b.
Proof.
  intros Hs Hok Ha H1 H2.
  assert (Hs' : sound b').
  { pose proof (destroy_deregister_sound l (mret tt : B unit) (preserves_ret _ tt) b Hs) as Hd.
    by rewrite (bind_Ok _ _ _ _ _ H1), (bind_Ok _ _ _ _ _ H2) in Hd. }
  destruct (deregister_shape _ _ _ H2) as (Ho & He & Hst).
  destruct (load_vm_cases l b) as [(v & Hl & E)|E]; [|unfold provider_destroy_vm in H1; by rewrite (bind_Raise _ _ _ _ _ E) in H1].
  unfold provider_destroy_vm in H1. rewrite (bind_Ok _ _ _ _ _ E) in H1. unfold on_ext, zoom in H1.
  destruct (destroy_vm v (ext b)) as [r x] eqn:Ed. injection H1 as -> <-. cbn in *.
  split_and!; [done| |done|done]. apply (okay_same us (set_ext x b)); [done|done|].
  apply (okay_effect l l us b); [done| |done|done|done]. split; [done|]. intros j Hj. cbn.
  eapply destroy_others; [exact Ed|]. by apply Hj.
Qed.
Lemma forget_fwd l us b b' :
  sound b → okay us b → is_conf l b → deregister_resource l b = (Ok tt, b') →
  sound b' ∧ okay us b' ∧ state b' = state b ∧ objs b' = objs b.
Proof.
  intros Hs Hok (i & c & Hc) H. pose proof (deregister_other l b Hs) as Hs'. rewrite H in Hs'.
  destruct (deregister_shape _ _ _ H) as (Ho & He & Hst). split_and!; [|by apply (okay_same us b)|done|done].
  apply Hs'. by exists (OConf i c).
Qed.
Lemma delete_ue_fwd u s us b b' :
  sound b → ue_ok (u, s) b → okay us b → apart (vm_ue u) us → delete_ue_resources u b = (Ok tt, b') →
  sound b' ∧ okay us b' ∧ state b' = state b ∧ objs b' = objs b.
Proof.
  intros Hs [_ (j & search & Hc)] Hok Ha H. unfold delete_ue_resources in H.
  apply bind_Ok_inv in H as ([] & b1 & H1 & H). apply bind_Ok_inv in H as ([] & b2 & H2 & H).
  destruct (destroy_fwd _ us b b1 b2 Hs Hok Ha H1 H2) as (Hs2 & Hok2 & Hst2 & Ho2).
  assert (Hic : is_conf (vm_ue_configurator u) b2) by (eexists _, _; rewrite Ho2; exact Hc).
  destruct (forget_fwd _ us b2 b' Hs2 Hok2 Hic H) as (? & ? & ? & ?).
  split_and!; [done|done|congruence|congruence].
Qed.

(** Applying a configurator; the SIMs of a UE are then those that run. *)
Lemma configure_fwd l us b r b' :
  sound b → okay us b → provider_configure_vm l b = (Ok r, b') →
  (∀ i c, holds l (OConf i c) b → apart l us ∧ apart (vm_resource c) us) →
  sound b' ∧ okay us b' ∧ state b' = state b ∧ length (objs b') = length (objs b) ∧
  ∀ i vm sims search del active, holds l (OConf i (UeransimUEConfigurator vm sims search del)) b → vm_ok vm active b →
    holds l (OConf i (UeransimUEConfigurator vm sims search [])) b' ∧
    vm_ok vm (sim_services sims ∪ (active ∖ sim_services del)) b'.
Proof.
  intros Hs Hok H Ha. pose proof (configure_vm_sound l b Hs) as Hs'. rewrite H in Hs'. cbn in Hs'.
  destruct (configure_vm_cases l b) as [(e & b1 & E & _)|(i & c & v & x & Hl & Hv & _ & Hg & E)]; [congruence|].
  rewrite E in H. clear E. pose proof (get_virt_provider_calm (vm_area v) (ext b)) as Hx. rewrite Hg in Hx. cbn in Hx.
  set (b1 := set_ext x (set_objs (<[l:=OConf i (dump_playbook v c).2]> (objs b)) b)) in *.
  apply bind_Ok_inv in H as (p & b2 & Hp & H). unfold liftR in Hp. injection Hp as Hp <-.
  unfold on_ext, zoom in H. destruct (run_playbook v p (ext b1)) as [r' x'] eqn:Er. injection H as -> <-. cbn in Er.
  destruct (Ha i c Hl) as [Ha1 Ha2].
  assert (Heff : effect l (vm_resource c) b (set_ext x' b1)).
  { split; [intros l' Hne; cbn; by rewrite list_lookup_insert_ne|]. intros j Hj. cbn. rewrite <-Hx.
    eapply run_others; [exact Er|]. by apply Hj. }
  split_and!; [done|by apply (okay_effect l (vm_resource c) us b)|done|cbn; by rewrite length_insert|].
  intros i' vm sims search del active Hl' (v' & k & Hv' & Hk & Hact). unfold holds in *. rewrite Hl in Hl'. injection Hl' as -> ->.
  cbn in Hv, Hp. rewrite Hv in Hv'. injection Hv' as ->. split; [cbn; apply list_lookup_insert_eq; by eapply lookup_lt_Some|].
  exists v', k. split_and!; [|done|].
  - unfold holds. cbn. rewrite list_lookup_insert_ne; [done|]. intros ->. congruence.
  - cbn. injection Hp as <-. rewrite (run_effect _ _ _ _ _ _ Er Hk). rewrite run_ue_services. by rewrite Hx, Hact.
Qed.

(** ** The whole state *)
Definition ue_locs (u : BlueUeransimUe) : list loc := [vm_ue u; vm_ue_configurator u].
Definition ulocs (l : list BlueUeransimUe) : list loc := concat (ue_locs <$> l).
Definition gnbs (d : list (string * BlueUeransimArea)) : list loc := (λ ka, vm_gnb ka.2) <$> d.
Definition d_ues (d : list (string * BlueUeransimArea)) : list BlueUeransimUe := concat ((λ ka, ues ka.2) <$> d).
Definition all_locs (d : list (string * BlueUeransimArea)) : list loc := gnbs d ++ ulocs (d_ues d).

Definition conf_sims b (l : loc) : list UeransimSim :=
  match objs b !! l with Some (OConf _ (UeransimUEConfigurator _ sims _ _)) => sims | _ => [] end.
Definition tracked b (l : list BlueUeransimUe) : list (BlueUeransimUe * list UeransimSim) :=
  (λ u, (u, conf_sims b (vm_ue_configurator u))) <$> l.
(** The fleet a state stands for. *)
Definition area_fleet b (a : BlueUeransimArea) : list (string * list UeransimSim) :=
  (λ us, (ue_id us.1, us.2)) <$> tracked b (ues a).
Definition fleet_of b (d : list (string * BlueUeransimArea)) : Fleet := (λ ka, (ka.1, area_fleet b ka.2)) <$> d.
Definition fleet b : Fleet := fleet_of b (areas (state b)).

Record in_step b : Prop := {
  is_good : good [] b;
  is_locs : NoDup (all_locs (areas (state b)));
  is_valid : Forall (λ l, (l < length (objs b))%nat) (all_locs (areas (state b)));
  is_okay : okay (tracked b (d_ues (areas (state b)))) b
}.

Lemma ulocs_app l l' : ulocs (l ++ l') = ulocs l ++ ulocs l'.
Proof. unfold ulocs. by rewrite fmap_app, concat_app. Qed.
Lemma d_ues_app d d' : d_ues (d ++ d') = d_ues d ++ d_ues d'.
Proof. unfold d_ues. by rewrite fmap_app, concat_app. Qed.
Lemma tracked_app b l l' : tracked b (l ++ l') = tracked b l ++ tracked b l'.
Proof. apply fmap_app. Qed.
Lemma tracked_fst b l : (tracked b l).*1 = l.
Proof. unfold tracked. rewrite <-list_fmap_compose. apply list_fmap_id. Qed.
Lemma length_tracked b l : length (tracked b l) = length l.
Proof. apply length_fmap. Qed.
Lemma all_locs_app d d' : all_locs (d ++ d') ≡ₚ all_locs d ++ all_locs d'.
Proof. unfold all_locs, gnbs. rewrite fmap_app, d_ues_app, ulocs_app. solve_Permutation. Qed.
Lemma apart_ulocs l us : apart l us ↔ l ∉ ulocs us.*1.
Proof.
  unfold apart. induction us as [|[u s] us IH]; [split; [set_solver|by intros _ u s ?%not_elem_of_nil]|].
  cbn [fmap list_fmap fst]. change (u :: us.*1) with ([u] ++ us.*1). rewrite ulocs_app, not_elem_of_app, <-IH. clear IH.
  unfold ulocs, ue_locs. cbn. rewrite !not_elem_of_cons. split.
  - intros H. destruct (H u s) as [H1 H2]; [by left|]. split_and!; [congruence|congruence|apply not_elem_of_nil|].
    intros u' s' Hin. apply (H u' s'). by right.
  - intros [(H1 & H2 & _) H] u' s' [[= -> ->]|Hin]%elem_of_cons; [split; congruence|by apply (H u' s')].
Qed.
(** What a configurator in order holds is what is read from it. *)
Lemma okay_tracked us b : okay us b → tracked b us.*1 = us.
Proof.
  intros Hok. unfold tracked. induction Hok as [|[u s] us [_ (j & search & Hc)] _ IH]; [done|].
  cbn. f_equal; [|exact IH]. unfold conf_sims, holds in *. cbn in *. by rewrite Hc.
Qed.

(** The area of a key, in its place. *)
Lemma od_split {V} k (a : V) d :
  od_get k d = Some a → ∃ d1 d2, d = d1 ++ (k, a) :: d2 ∧ k ∉ od_keys d1.
Proof.
  induction d as [|[k1 a1] d IH]; simpl; [done|]. destruct (String.eqb_spec k1 k) as [->|Hne].
  - intros [= ->]. exists [], d. split; [done|apply not_elem_of_nil].
  - intros (d1 & d2 & -> & Hn)%IH. exists ((k1, a1) :: d1), d2. split; [done|]. cbn. apply not_elem_of_cons. by split.
Qed.
Lemma od_at {V} k (a : V) d1 d2 :
  k ∉ od_keys d1 →
  od_get k (d1 ++ (k, a) :: d2) = Some a ∧ (∀ a', od_set k a' (d1 ++ (k, a) :: d2) = d1 ++ (k, a') :: d2) ∧
  od_pop k (d1 ++ (k, a) :: d2) = d1 ++ d2.
Proof.
  induction d1 as [|[k1 a1] d1 IH]; cbn; [by rewrite String.eqb_refl|].
  intros [Hne Hn]%not_elem_of_cons. destruct (String.eqb_spec k1 k) as [->|]; [done|].
  destruct (IH Hn) as (-> & H2 & ->). split_and!; [done|intros a'; by rewrite H2|done].
Qed.
Lemma fleet_of_app b d d' : fleet_of b (d ++ d') = fleet_of b d ++ fleet_of b d'.
Proof. apply fmap_app. Qed.
Lemma fleet_of_keys b d : od_keys (fleet_of b d) = od_keys d.
Proof. unfold od_keys, fleet_of. by rewrite <-list_fmap_compose. Qed.
Lemma fleet_of_tracked b b' d : tracked b' (d_ues d) = tracked b (d_ues d) → fleet_of b' d = fleet_of b d.
Proof.
  induction d as [|[k a] d IH]; [done|]. change ((k, a) :: d) with ([(k, a)] ++ d).
  rewrite d_ues_app, !tracked_app, !fleet_of_app. unfold d_ues at 1 3. cbn [fmap list_fmap concat snd]. rewrite app_nil_r.
  intros [H1 H2]%app_inj_1; [|by rewrite !length_tracked]. rewrite (IH H2). f_equal. unfold fleet_of, area_fleet. cbn. by rewrite H1.
Qed.

(** Putting the result of a request together: the areas [mid] became [mid'], the UEs elsewhere are as
    they were, those of [mid'] are in order. *)
Lemma back_in_step b b' d1 mid mid' d2 new :
  in_step b → areas (state b) = d1 ++ mid ++ d2 → areas (state b') = d1 ++ mid' ++ d2 →
  good [] b' → okay (tracked b (d_ues d1 ++ d_ues d2)) b' → okay new b' → new.*1 = d_ues mid' →
  NoDup (all_locs mid') → (∀ l, l ∈ all_locs mid' → l ∈ all_locs mid ∨ (length (objs b) ≤ l)%nat) →
  Forall (λ l, (l < length (objs b'))%nat) (all_locs mid') → (length (objs b) ≤ length (objs b'))%nat →
  in_step b' ∧ fleet b' = fleet_of b d1 ++ fleet_of b' mid' ++ fleet_of b d2 ∧ tracked b' (d_ues mid') = new.
Proof.
  intros [_ Hnd Hval Hokb] Hb Hb' Hg Hother Hnew Hfst Hndm Hsub Hvm Hlen. rewrite Hb in Hnd, Hval, Hokb.
  assert (Ht : tracked b' (d_ues d1 ++ d_ues d2) = tracked b (d_ues d1 ++ d_ues d2)).
  { pose proof (okay_tracked _ _ Hother) as E. by rewrite tracked_fst in E. }
  pose proof (okay_tracked _ _ Hnew) as Etn. rewrite Hfst in Etn.
  rewrite !tracked_app in Ht. apply app_inj_1 in Ht as [Ht1 Ht2]; [|by rewrite !length_tracked].
  split_and!; [|unfold fleet; by rewrite Hb', !fleet_of_app, (fleet_of_tracked b b' d1 Ht1), (fleet_of_tracked b b' d2 Ht2)|done].
  rewrite !all_locs_app in Hnd, Hval. rewrite !Forall_app in Hval. destruct Hval as (Hv1 & Hv & Hv2).
  apply NoDup_app in Hnd as (Hn1 & Hn12 & Hn2). apply NoDup_app in Hn2 as (Hnm & Hnm2 & Hn2).
  assert (Hw : ∀ d, Forall (λ l, (l < length (objs b))%nat) d → Forall (λ l, (l < length (objs b'))%nat) d).
  { intros d. rewrite !Forall_forall. intros H l Hl. specialize (H l Hl). lia. }
  constructor; rewrite ?Hb'; [done|..].
  - rewrite !all_locs_app. rewrite Forall_forall in Hv1, Hv2. apply NoDup_app. split_and!; [done| |apply NoDup_app; split_and!; [done| |done]].
    + intros l Hl1 Hl. apply elem_of_app in Hl as [Hl|Hl]; [|by apply (Hn12 l Hl1), elem_of_app; right].
      destruct (Hsub l Hl) as [Hm|Hm]; [by apply (Hn12 l Hl1), elem_of_app; left|]. specialize (Hv1 l Hl1). lia.
    + intros l Hl Hl2. destruct (Hsub l Hl) as [Hm|Hm]; [by apply (Hnm2 l)|]. specialize (Hv2 l Hl2). lia.
  - rewrite !all_locs_app, !Forall_app. auto.
  - rewrite !d_ues_app, !tracked_app, Etn, Ht1, Ht2. rewrite tracked_app in Hother. apply okay_app in Hother as [? ?].
    rewrite !okay_app. auto.
Qed.

(** ** The requests *)
Lemma reads_Ok {A} (m : B A) b a b' : reads m → m b = (Ok a, b') → b' = b.
Proof. intros Hr H. specialize (Hr b). by rewrite H in Hr. Qed.

Lemma add_gnb_in_step k b b' :
  in_step b → good [] b' → _create_gnb set_order self_id k b = (Ok tt, b') →
  in_step b' ∧ fleet b' = fleet_day2 (AddGNB k) (fleet b).
Proof.
  intros Hin Hg H. unfold _create_gnb in H. rewrite (bind_Ok get_state _ b b (state b)) in H by done.
  destruct (od_in k (areas (state b))) eqn:Ek; [done|].
  apply bind_Ok_inv in H as (area & b0 & H0 & H). apply reads_Ok in H0 as ->; [|apply reads_liftR].
  set (us := tracked b (d_ues (areas (state b)))).
  apply bind_Ok_inv in H as (network & b1 & H1 & H). apply bind_Ok_inv in H as ([] & b2 & H2 & H).
  destruct (new_obj_fwd _ us _ _ _ _ (proj1 (is_good b Hin)) (is_okay b Hin) H1 H2 eq_refl)
    as (Hs2 & Hok2 & _ & Hst2 & -> & Hlen2 & _).
  apply bind_Ok_inv in H as ([] & b3 & H3 & H).
  destruct (create_net_fwd _ us _ _ Hs2 Hok2 H3) as (Hs3 & Hok3 & Hst3 & Ho3).
  apply bind_Ok_inv in H as (e & b4 & H4 & H). apply reads_Ok in H4 as ->; [|apply reads_endpoints].
  apply bind_Ok_inv in H as (gnb & b5 & H5 & H). apply bind_Ok_inv in H as ([] & b6 & H6 & H).
  apply bind_Ok_inv in H as ([] & b7 & H7 & H).
  destruct (new_vm_fwd _ us _ _ _ _ _ Hs3 Hok3 H5 H6 H7 eq_refl) as (Hs7 & Hok7 & _ & Hst7 & _ & Egnb & Hlen7).
  rewrite Ho3, Hlen2 in Egnb, Hlen7.
  apply bind_Ok_inv in H as ([] & b8 & H8 & H). unfold put_area, update_state, modifyS in H8. injection H8 as <-.
  assert (Hst : state b7 = state b) by congruence.
  match type of H with add_gnb_to_topology _ _ ?b0 = _ => set (b8 := b0) in * end.
  assert (Hs8 : sound b8) by by apply sound_state.
  assert (Hok8 : okay us b8) by by apply (okay_same us b7).
  destruct (ext_fwd _ us b8 tt b' (add_pdu_quiet _) (add_pdu_calm _) Hs8 Hok8 H) as (_ & Hok' & Hst' & Ho' & _).
  assert (Hareas : areas (state b') = areas (state b) ++ [(k, {| vm_gnb := gnb; vm_gnb_configurator := None; ues := []; radio_net := length (objs b) |})] ++ []).
  { rewrite Hst'. cbn. rewrite Hst. apply od_set_new. by apply od_in_false. }
  assert (Ho8 : objs b' = objs b7) by done.
  destruct (back_in_step b b' (areas (state b)) [] [(k, {| vm_gnb := gnb; vm_gnb_configurator := None; ues := []; radio_net := length (objs b) |})] [] [])
    as (Hin' & -> & _); try done.
  - by rewrite app_nil_r.
  - by rewrite app_nil_r.
  - by constructor.
  - cbn. apply NoDup_singleton.
  - intros l Hl. right. cbn in Hl. apply list_elem_of_singleton in Hl as ->. lia.
  - rewrite Ho8, Hlen7. constructor; [|constructor]. cbn. lia.
  - rewrite Ho8, Hlen7. lia.
Qed.

Lemma all_locs_one k a : all_locs [(k, a)] = vm_gnb a :: ulocs (ues a).
Proof. unfold all_locs, d_ues. cbn. by rewrite app_nil_r. Qed.
Lemma d_ues_one k a : d_ues [(k, a)] = ues a.
Proof. unfold d_ues. cbn. by rewrite app_nil_r. Qed.

(** An area of a state in step, and the UEs of the others. *)
Lemma at_area b k a :
  in_step b → od_get k (areas (state b)) = Some a →
  ∃ d1 d2, areas (state b) = d1 ++ [(k, a)] ++ d2 ∧ k ∉ od_keys d1 ∧
    okay (tracked b (d_ues d1 ++ d_ues d2)) b ∧ okay (tracked b (ues a)) b ∧
    NoDup (vm_gnb a :: ulocs (ues a)) ∧ Forall (λ l, (l < length (objs b))%nat) (vm_gnb a :: ulocs (ues a)) ∧
    ∀ l, l ∈ vm_gnb a :: ulocs (ues a) → l ∉ ulocs (d_ues d1 ++ d_ues d2).
Proof.
  intros [_ Hnd Hval Hok] Ha. apply od_split in Ha as (d1 & d2 & Hd & Hk). exists d1, d2. rewrite Hd in *.
  change ((k, a) :: d2) with ([(k, a)] ++ d2) in *. rewrite !d_ues_app, !tracked_app, !okay_app, d_ues_one in Hok.
  rewrite !all_locs_app, all_locs_one in Hnd, Hval. rewrite !Forall_app in Hval.
  apply NoDup_app in Hnd as (Hn1 & Hn12 & Hn2). apply NoDup_app in Hn2 as (Hnm & Hnm2 & Hn2).
  split_and!; [done|done|rewrite tracked_app, okay_app; tauto|tauto|done|tauto|].
  intros l Hl. rewrite ulocs_app. intros [Hl'|Hl']%elem_of_app.
  - apply (Hn12 l); [unfold all_locs; apply elem_of_app; by right|]. apply elem_of_app. by left.
  - apply (Hnm2 l Hl). unfold all_locs. apply elem_of_app. by right.
Qed.
Lemma apart_tracked b l us : l ∉ ulocs us → apart l (tracked b us).
Proof. intros H. apply apart_ulocs. by rewrite tracked_fst. Qed.

(** A request that changes one area. *)
Lemma replace_area b b' k a a' d1 d2 new :
  in_step b → areas (state b) = d1 ++ [(k, a)] ++ d2 → k ∉ od_keys d1 →
  areas (state b') = od_set k a' (areas (state b)) → good [] b' →
  okay (tracked b (d_ues d1 ++ d_ues d2)) b' → okay new b' → new.*1 = ues a' → vm_gnb a' = vm_gnb a →
  NoDup (vm_gnb a :: ulocs (ues a')) →
  (∀ l, l ∈ ulocs (ues a') → l ∈ ulocs (ues a) ∨ (length (objs b) ≤ l)%nat) →
  Forall (λ l, (l < length (objs b'))%nat) (vm_gnb a :: ulocs (ues a')) → (length (objs b) ≤ length (objs b'))%nat →
  in_step b' ∧ fleet b' = od_set k ((λ us, (ue_id us.1, us.2)) <$> new) (fleet b).
Proof.
  intros Hin Hd Hk Hd' Hg Hother Hnew Hfst Hgnb Hnd Hsub Hval Hlen.
  destruct (od_at k a d1 d2 Hk) as (_ & Hset & _). rewrite Hd in Hd'. cbn [app] in Hd'. rewrite Hset in Hd'.
  destruct (back_in_step b b' d1 [(k, a)] [(k, a')] d2 new Hin Hd Hd' Hg Hother Hnew) as (Hin' & Hf & Ht);
    rewrite ?all_locs_one, ?d_ues_one, ?Hgnb; try done.
  - intros l [->|Hl]%elem_of_cons; [left; by left|]. destruct (Hsub l Hl); [left; by right|by right].
  - split; [done|]. rewrite Hf. unfold fleet. rewrite Hd, !fleet_of_app. rewrite d_ues_one in Ht.
    assert (Hk' : k ∉ od_keys (fleet_of b d1)) by by rewrite fleet_of_keys.
    destruct (od_at k (area_fleet b a) (fleet_of b d1) (fleet_of b d2) Hk') as (_ & Hs & _).
    cbn [fleet_of fmap list_fmap fst snd app]. rewrite Hs. unfold area_fleet. by rewrite Ht.
Qed.
Lemma fleet_area_at b k a : od_get k (areas (state b)) = Some a → fleet_area k (fleet b) = area_fleet b a.
Proof.
  intros (d1 & d2 & Hd & Hk)%od_split. unfold fleet_area, fleet. rewrite Hd. change ((k, a) :: d2) with ([(k, a)] ++ d2).
  rewrite !fleet_of_app. assert (Hk' : k ∉ od_keys (fleet_of b d1)) by by rewrite fleet_of_keys.
  destruct (od_at k (area_fleet b a) (fleet_of b d1) (fleet_of b d2) Hk') as (Hg & _).
  cbn [fleet_of fmap list_fmap fst snd app]. by rewrite Hg.
Qed.

Lemma get_area_Ok k b a b' : get_area k b = (Ok a, b') → od_get k (areas (state b)) = Some a ∧ b' = b.
Proof.
  unfold get_area. rewrite (bind_Ok get_state _ b b (state b)) by done. unfold liftR, od_getitem.
  destruct (od_get k (areas (state b))) as [a'|]; [|done]. by intros [= -> <-].
Qed.
Lemma apart_all b d1 d2 a l :
  (∀ l, l ∈ vm_gnb a :: ulocs (ues a) → l ∉ ulocs (d_ues d1 ++ d_ues d2)) → NoDup (vm_gnb a :: ulocs (ues a)) →
  l = vm_gnb a → apart l (tracked b (d_ues d1 ++ d_ues d2) ++ tracked b (ues a)).
Proof.
  intros H Hnd ->. apply apart_app. split; apply apart_tracked; [apply H; by left|by apply NoDup_cons in Hnd as [? _]].
Qed.

Lemma configure_gnb_in_step model b b' :
  in_step b → good [] b' → configure_gnb rel_path model b = (Ok tt, b') →
  in_step b' ∧ fleet b' = fleet b.
Proof.
  intros Hin Hg H. set (k := pretty (gnb_area model)) in *. unfold configure_gnb in H.
  apply bind_Ok_inv in H as (a & b1 & Ha & H). apply get_area_Ok in Ha as [Ha ->]. fold k in Ha, H.
  apply bind_Ok_inv in H as (v & b1 & H1 & H). apply reads_Ok in H1 as ->; [|apply reads_load_vm].
  apply bind_Ok_inv in H as (n & b1 & H1 & H). apply reads_Ok in H1 as ->; [|apply reads_load_net].
  apply bind_Ok_inv in H as (radio & b1 & H1 & H). apply reads_Ok in H1 as ->; [|apply reads_first_address].
  apply bind_Ok_inv in H as (e & b1 & H1 & H). apply reads_Ok in H1 as ->; [|apply reads_endpoints].
  apply bind_Ok_inv in H as (ngap & b1 & H1 & H). apply reads_Ok in H1 as ->; [|apply reads_first_address].
  apply bind_Ok_inv in H as (gtp & b1 & H1 & H). apply reads_Ok in H1 as ->; [|apply reads_first_address].
  destruct (at_area b k a Hin Ha) as (d1 & d2 & Hd & Hk & Hother & Hmine & Hnd & Hval & Hapart).
  set (us := tracked b (d_ues d1 ++ d_ues d2) ++ tracked b (ues a)).
  assert (Hus : okay us b) by by apply okay_app.
  apply bind_Ok_inv in H as (conf & b1 & H1 & H).
  destruct (alloc_fwd _ us _ _ _ (proj1 (is_good b Hin)) Hus H1 eq_refl) as (Hs1 & Hok1 & Ha1 & Hl1 & Hst1 & -> & _ & Hlen1).
  apply bind_Ok_inv in H as ([] & b2 & H2 & H). unfold put_area, update_state, modifyS in H2. injection H2 as <-.
  apply bind_Ok_inv in H as ([] & b3 & H3 & H).
  match type of H3 with _ ?b0 = _ => set (b2 := b0) in * end.
  assert (Hs2 : sound b2) by by apply sound_state.
  assert (Hok2 : okay us b2) by by apply (okay_same us b1).
  destruct (register_fwd _ _ us _ _ Hs2 Hok2 Ha1 Hl1 H3 eq_refl) as (Hs3 & Hok3 & Hst3 & _ & _ & Hlen3 & i & Hl3).
  apply bind_Ok_inv in H as (r & b4 & H4 & H). injection H as <-.
  destruct (configure_fwd _ us _ _ _ Hs3 Hok3 H4) as (_ & Hok4 & Hst4 & Hlen4 & _).
  { intros i' c Hc. unfold holds in *. rewrite Hl3 in Hc. injection Hc as <- <-. split; [done|]. by apply (apart_all b d1 d2 a). }
  apply okay_app in Hok4 as [Hok4 Hok5].
  assert (Hlen : length (objs b4) = S (length (objs b))) by (rewrite Hlen4, Hlen3; exact Hlen1).
  destruct (replace_area b b4 k a (set_gnb_configurator (length (objs b)) a) d1 d2 (tracked b (ues a))) as [Hin' Hf]; try done.
  - rewrite Hst4, Hst3. cbn. by rewrite Hst1.
  - apply tracked_fst.
  - by left.
  - eapply Forall_impl; [exact Hval|]. intros l Hl. cbn in *. lia.
  - lia.
  - split; [done|]. rewrite Hf. apply od_set_same. unfold fleet. destruct (od_at k (area_fleet b a) (fleet_of b d1) (fleet_of b d2)) as (Hg' & _).
    { by rewrite fleet_of_keys. }
    rewrite Hd, !fleet_of_app. exact Hg'.
Qed.

Lemma get_state_Ok {A} (f : UeransimState → B A) b r : (s ← get_state; f s) b = r → f (state b) b = r.
Proof. done. Qed.

(** The configurator of a new UE: its SIMs are started on its machine, which runs nothing yet. *)
Lemma new_conf_fwd vm sims search us b conf b1 b2 r b' :
  sound b → okay us b → vm_ok vm ∅ b → apart vm us →
  alloc (OConf None (UeransimUEConfigurator vm sims [search] [])) b = (Ok conf, b1) →
  register_resource conf b1 = (Ok tt, b2) → provider_configure_vm conf b2 = (Ok r, b') →
  okay us b' ∧ state b' = state b ∧ length (objs b') = S (length (objs b)) ∧ conf = length (objs b) ∧
  ∀ id, ue_ok ({| ue_id := id; vm_ue := vm; vm_ue_configurator := conf |}, sims) b'.
Proof.
  intros Hs Hok Hvm Hapart H1 H2 H3.
  destruct (new_obj_fwd _ us _ _ _ _ Hs Hok H1 H2 eq_refl) as (Hs2 & Hok2 & Ha & Hst2 & -> & Hlen2 & (i & Hc) & Hkeep).
  assert (Hne : vm ≠ length (objs b)).
  { intros ->. destruct Hvm as (v & j & Hv & _). apply lookup_lt_Some in Hv. lia. }
  destruct (configure_fwd _ us _ _ _ Hs2 Hok2 H3) as (_ & Hok' & Hst' & Hlen' & Heff).
  { intros i' c Hc'. unfold holds in *. rewrite Hc in Hc'. injection Hc' as <- <-. done. }
  destruct (Heff _ _ _ _ _ ∅ Hc (Hkeep vm ∅ Hne Hvm)) as [Hc' Hv']. split_and!; [done|congruence|congruence|done|].
  assert (Heq : sim_services sims ∪ ∅ ∖ sim_services [] = sim_services sims) by set_solver. rewrite Heq in Hv'.
  intros id. split; [exact Hv'|by exists (Some i), [search]].
Qed.

Lemma add_ue_in_step k ue b b' :
  in_step b → good [] b' → _create_ue set_order rel_path self_id k ue b = (Ok tt, b') →
  in_step b' ∧ fleet b' = fleet_day2 (AddUE k ue) (fleet b).
Proof.
  intros Hin Hg H. unfold _create_ue in H. apply get_state_Ok in H.
  destruct (od_get k (areas (state b))) as [a|] eqn:Ha; [|done].
  destruct (at_area b k a Hin Ha) as (d1 & d2 & Hd & Hk & Hother & Hmine & Hnd & Hval & Hapart).
  set (us := tracked b (d_ues d1 ++ d_ues d2) ++ tracked b (ues a)).
  assert (Hus : okay us b) by by apply okay_app.
  apply bind_Ok_inv in H as (area & b0 & H0 & H). apply reads_Ok in H0 as ->; [|apply reads_liftR].
  apply bind_Ok_inv in H as (e & b0 & H0 & H). apply reads_Ok in H0 as ->; [|apply reads_endpoints].
  apply bind_Ok_inv in H as (vm & b1 & H1 & H). apply bind_Ok_inv in H as ([] & b2 & H2 & H).
  apply bind_Ok_inv in H as ([] & b3 & H3 & H).
  destruct (new_vm_fwd _ us _ _ _ _ _ (proj1 (is_good b Hin)) Hus H1 H2 H3 eq_refl) as (Hs3 & Hok3 & Ha3 & Hst3 & Hvm & Evm & Hlen3).
  apply bind_Ok_inv in H as (gnb & b0 & H0 & H). apply reads_Ok in H0 as ->; [|apply reads_load_vm].
  apply bind_Ok_inv in H as (search & b0 & H0 & H). apply reads_Ok in H0 as ->; [|apply reads_first_address].
  apply bind_Ok_inv in H as (sims & b0 & H0 & H).
  assert (request_sims ue = Some sims ∧ b0 = b3) as [Esims ->] by (destruct (request_sims ue); [by injection H0 as -> <-|done]).
  apply bind_Ok_inv in H as (conf & b4 & H4 & H). apply bind_Ok_inv in H as ([] & b5 & H5 & H).
  apply bind_Ok_inv in H as (r & b6 & H6 & H). unfold put_area, update_state, modifyS in H. injection H as <-.
  destruct (new_conf_fwd _ _ _ us _ _ _ _ _ _ Hs3 Hok3 Hvm Ha3 H4 H5 H6) as (Hok6 & Hst6 & Hlen6 & Econf & Hue).
  apply okay_app in Hok6 as [Hok6 Hmine6].
  set (u := {| ue_id := ue_text (request_ue_id ue); vm_ue := vm; vm_ue_configurator := conf |}) in *.
  match goal with |- in_step ?b0 ∧ _ => set (b7 := b0) in * end.
  assert (Hnew : ∀ l, l ∈ ulocs (ues a ++ [u]) → l ∈ ulocs (ues a) ∨ l = vm ∨ l = conf).
  { intros l. rewrite ulocs_app, elem_of_app. unfold ulocs at 2, ue_locs. cbn.
    intros [Hl|[->|[->|[]%not_elem_of_nil]%elem_of_cons]%elem_of_cons]; [by left|right; by left|right; by right]. }
  rewrite Forall_cons, Forall_forall in Hval. destruct Hval as [Hvg Hval].
  destruct (replace_area b b7 k a (set_ues (ues a ++ [u]) a) d1 d2 (tracked b (ues a) ++ [(u, sims)])) as [Hin' Hf]; try done.
  - cbn. by rewrite Hst6, Hst3.
  - rewrite okay_app. split; [done|]. constructor; [apply Hue|constructor].
  - rewrite fmap_app, tracked_fst. done.
  - change (NoDup (vm_gnb a :: ulocs (ues a ++ [u]))). rewrite ulocs_app. change (vm_gnb a :: ulocs (ues a) ++ ulocs [u]) with ((vm_gnb a :: ulocs (ues a)) ++ ulocs [u]).
    apply NoDup_app. split_and!; [done| |unfold ulocs, ue_locs; cbn; rewrite !NoDup_cons, !not_elem_of_cons].
    + unfold ulocs at 2, ue_locs. cbn. intros l Hl. rewrite !not_elem_of_cons. split_and!; [| |apply not_elem_of_nil].
      * intros ->. apply elem_of_cons in Hl as [Hl|Hl]; [|specialize (Hval _ Hl)]; lia.
      * intros ->. apply elem_of_cons in Hl as [Hl|Hl]; [|specialize (Hval _ Hl)]; lia.
    + split_and!; [lia|apply not_elem_of_nil|apply not_elem_of_nil|constructor].
  - intros l [?|[->| ->]]%Hnew; [by left|right; lia|right; lia].
  - cbn [b7 objs set_state]. rewrite Hlen6, Hlen3. constructor; [lia|]. apply Forall_forall.
    intros l [Hl|[->| ->]]%Hnew; [specialize (Hval l Hl)|..]; lia.
  - cbn. lia.
  - split; [done|]. rewrite Hf. cbn [fleet_day2]. rewrite (fleet_area_at b k a Ha), Esims, fmap_app. done.
Qed.

(** The entries of [t], each apart from the others and from [us]. *)
Definition separate (t us : list (BlueUeransimUe * list UeransimSim)) : Prop :=
  NoDup (ulocs t.*1) ∧ ∀ l, l ∈ ulocs t.*1 → apart l us.
Lemma separate_cons u s t us :
  separate ((u, s) :: t) us → apart (vm_ue u) (t ++ us) ∧ apart (vm_ue_configurator u) (t ++ us) ∧ separate t us.
Proof.
  unfold separate. cbn [fmap list_fmap fst]. change (u :: t.*1) with ([u] ++ t.*1). rewrite ulocs_app. unfold ulocs at 1 3, ue_locs. cbn.
  intros [Hnd Ha]. rewrite !NoDup_cons, !not_elem_of_cons in Hnd. destruct Hnd as ([_ Hv] & Hc & Hnd).
  rewrite !apart_app, !apart_ulocs. split_and!; try done.
  - apply apart_ulocs, Ha. by left.
  - apply apart_ulocs, Ha. right. by left.
  - intros l Hl. apply Ha. right. by right.
Qed.
Lemma separate_area b a d1 d2 :
  NoDup (vm_gnb a :: ulocs (ues a)) → (∀ l, l ∈ vm_gnb a :: ulocs (ues a) → l ∉ ulocs (d_ues d1 ++ d_ues d2)) →
  separate (tracked b (ues a)) (tracked b (d_ues d1 ++ d_ues d2)).
Proof.
  intros [_ Hnd]%NoDup_cons Ha. unfold separate. rewrite tracked_fst. split; [done|].
  intros l Hl. apply apart_tracked, Ha. by right.
Qed.

Lemma delete_ues_fwd t us b b' :
  sound b → okay t b → okay us b → separate t us → for_each t.*1 delete_ue_resources b = (Ok tt, b') →
  sound b' ∧ okay us b' ∧ state b' = state b ∧ objs b' = objs b.
Proof.
  revert b. induction t as [|[u s] t IH]; intros b Hs Ht Hus Hsep H; [by injection H as <-|].
  apply Forall_cons in Ht as [Hu Ht]. destruct (separate_cons _ _ _ _ Hsep) as (Hav & _ & Hsep').
  cbn [fmap list_fmap for_each fst] in H. apply bind_Ok_inv in H as ([] & b1 & H1 & H).
  assert (Hall : okay (t ++ us) b) by by apply okay_app.
  destruct (delete_ue_fwd u s _ b b1 Hs Hu Hall Hav H1) as (Hs1 & Hok1 & Hst1 & Ho1). apply okay_app in Hok1 as [Ht1 Hus1].
  destruct (IH b1 Hs1 Ht1 Hus1 Hsep' H) as (? & ? & ? & ?). split_and!; [done|done|congruence|congruence].
Qed.

Lemma delete_gnb_in_step k b b' :
  in_step b → good [] b' → _delete_gnb self_id k b = (Ok tt, b') →
  in_step b' ∧ fleet b' = fleet_day2 (DelGNB k) (fleet b).
Proof.
  intros Hin Hg H. unfold _delete_gnb in H. apply get_state_Ok in H.
  destruct (od_get k (areas (state b))) as [a|] eqn:Ha; [|done].
  destruct (at_area b k a Hin Ha) as (d1 & d2 & Hd & Hk & Hother & Hmine & Hnd & Hval & Hapart).
  set (us := tracked b (d_ues d1 ++ d_ues d2)) in *.
  assert (Hgnb : apart (vm_gnb a) us) by (apply apart_tracked, Hapart; by left).
  apply bind_Ok_inv in H as ([] & b1 & H1 & H). rewrite <-(tracked_fst b (ues a)) in H1.
  destruct (delete_ues_fwd _ us b b1 (proj1 (is_good b Hin)) Hmine Hother (separate_area b a d1 d2 Hnd Hapart) H1) as (Hs1 & Hok1 & Hst1 & Ho1).
  apply bind_Ok_inv in H as ([] & b2 & H2 & H). apply bind_Ok_inv in H as ([] & b3 & H3 & H).
  destruct (destroy_fwd _ us b1 b2 b3 Hs1 Hok1 Hgnb H2 H3) as (Hs3 & Hok3 & Hst3 & Ho3).
  apply bind_Ok_inv in H as ([] & b4 & H4 & H).
  assert (sound b4 ∧ okay us b4 ∧ state b4 = state b3 ∧ objs b4 = objs b3) as (Hs4 & Hok4 & Hst4 & Ho4).
  { destruct (vm_gnb_configurator a) as [c|] eqn:Ec; [|by injection H4 as <-].
    apply (forget_fwd c us b3 b4 Hs3 Hok3); [|done]. destruct (is_good b Hin) as (_ & Hl & _).
    pose proof (Hl k a (od_get_in _ _ _ Ha)) as Hc. rewrite Forall_forall in Hc. destruct (Hc c) as (i & cf & Hcf).
    { unfold area_confs. rewrite Ec. by left. } exists i, cf. by rewrite Ho3, Ho1. }
  apply bind_Ok_inv in H as ([] & b5 & H5 & H). unfold update_state, modifyS in H5. injection H5 as <-.
  apply bind_Ok_inv in H as (area & b0 & H0 & H). apply reads_Ok in H0 as ->; [|apply reads_liftR].
  match type of H with del_gnb_from_topology _ _ ?b0 = _ => set (b5 := b0) in * end.
  assert (Hs5 : sound b5) by by apply sound_state.
  assert (Hok5 : okay us b5) by by apply (okay_same us b4).
  destruct (del_pdu_fwd area us b5 b' Hok5 H) as (Hok' & Hst' & Ho').
  destruct (back_in_step b b' d1 [(k, a)] [] d2 [] Hin Hd) as (Hin' & Hf & _); try done.
  - rewrite Hst'. cbn. rewrite Hst4, Hst3, Hst1, Hd. by apply (od_at k a d1 d2).
  - constructor.
  - constructor.
  - cbn. intros l ?%not_elem_of_nil. done.
  - rewrite Ho'. cbn. by rewrite Ho4, Ho3, Ho1.
  - split; [done|]. rewrite Hf. unfold fleet. rewrite Hd, !fleet_of_app. cbn [fleet_of fmap list_fmap app fleet_day2 fst snd].
    symmetry. apply (od_at k (area_fleet b a) (fleet_of b d1) (fleet_of b d2)). by rewrite fleet_of_keys.
Qed.

(** The deletion of a UE that returns has deleted every UE of the area. *)
Lemma ue_eqb_refl b u : ue_eqb b u u = true.
Proof. unfold ue_eqb. rewrite String.eqb_refl. by rewrite !bool_decide_eq_true_2. Qed.
Lemma delete_ue_loop k a d1 d2 (id : Z) t us b b' :
  k ∉ od_keys d1 → areas (state b) = d1 ++ (k, set_ues t.*1 a) :: d2 → sound b → okay t b → okay us b → separate t us →
  for_each t.*1 (λ ue,
    if String.eqb (ue_id ue) (pretty id) then
      delete_ue_resources ue ;;
      now ← get_area k;
      b ← getS;
      l ← liftR (py_remove (ue_eqb b) ue (ues now));
      put_area k (set_ues l now)
    else raise BlueprintNGException) b = (Ok tt, b') →
  okay us b' ∧ areas (state b') = d1 ++ (k, set_ues [] a) :: d2 ∧ objs b' = objs b.
Proof.
  intros Hk. revert b. induction t as [|[u s] t IH]; intros b Hd Hs Ht Hus Hsep H; [by injection H as <-|].
  apply Forall_cons in Ht as [Hu Ht]. destruct (separate_cons _ _ _ _ Hsep) as (Hav & _ & Hsep').
  cbn [fmap list_fmap for_each fst] in H. apply bind_Ok_inv in H as ([] & b1 & H1 & H).
  destruct (String.eqb (ue_id u) (pretty id)); [|done]. apply bind_Ok_inv in H1 as ([] & b2 & H2 & H1).
  assert (Hall : okay (t ++ us) b) by by apply okay_app.
  destruct (delete_ue_fwd u s _ b b2 Hs Hu Hall Hav H2) as (Hs2 & Hok2 & Hst2 & Ho2).
  destruct (od_at k (set_ues (u :: t.*1) a) d1 d2 Hk) as (Hget & Hset & _).
  apply bind_Ok_inv in H1 as (now & b0 & H0 & H1). apply get_area_Ok in H0 as [Hnow ->].
  rewrite Hst2, Hd in Hnow. cbn [fmap list_fmap fst] in Hnow. rewrite Hget in Hnow. injection Hnow as <-.
  rewrite (bind_Ok getS _ b2 b2 b2) in H1 by done. unfold py_remove in H1. cbn [ues set_ues find_index] in H1.
  rewrite ue_eqb_refl in H1. rewrite (bind_Ok (liftR _) _ b2 b2 t.*1) in H1 by done.
  unfold put_area, update_state, modifyS in H1. injection H1 as <-.
  apply okay_app in Hok2 as [Ht2 Hus2].
  destruct (IH (set_state (set_areas (od_set k (set_ues t.*1 (set_ues (u :: t.*1) a)) (areas (state b2))) (state b2)) b2))
    as (Hus' & Hd' & Ho'); try done.
  - cbn. rewrite Hst2, Hd. apply Hset.
  - by apply sound_state.
  - split_and!; [done|exact Hd'|]. rewrite Ho'. exact Ho2.
Qed.
Lemma delete_ue_in_step k id b b' :
  in_step b → good [] b' → _delete_ue k id b = (Ok tt, b') →
  in_step b' ∧ fleet b' = fleet_day2 (DelUE k id) (fleet b).
Proof.
  intros Hin Hg H. unfold _delete_ue in H. apply get_state_Ok in H.
  destruct (od_get k (areas (state b))) as [a|] eqn:Ha; [|done].
  destruct (at_area b k a Hin Ha) as (d1 & d2 & Hd & Hk & Hother & Hmine & Hnd & Hval & Hapart).
  rewrite <-(tracked_fst b (ues a)) in H.
  assert (Hd0 : areas (state b) = d1 ++ (k, set_ues (tracked b (ues a)).*1 a) :: d2) by (rewrite tracked_fst, Hd; by destruct a).
  destruct (delete_ue_loop k a d1 d2 id _ _ b b' Hk Hd0 (proj1 (is_good b Hin)) Hmine Hother (separate_area b a d1 d2 Hnd Hapart) H)
    as (Hok' & Hd' & Ho').
  apply Forall_cons in Hval as [Hv _].
  destruct (replace_area b b' k a (set_ues [] a) d1 d2 []) as [Hin' Hf]; try done.
  - rewrite Hd', Hd. symmetry. by apply (od_at k a d1 d2).
  - constructor.
  - apply NoDup_singleton.
  - intros l ?%not_elem_of_nil. done.
  - rewrite Ho'. by constructor.
  - by rewrite Ho'.
Qed.

(** The configurator of a UE gets other SIMs and is applied. *)
Lemma reconfigure_fwd u sims sims' del i search us b b' :
  sound b → vm_ok (vm_ue u) (sim_services sims) b →
  holds (vm_ue_configurator u) (OConf i (UeransimUEConfigurator (vm_ue u) sims search [])) b → okay us b →
  apart (vm_ue u) us → apart (vm_ue_configurator u) us →
  (store (vm_ue_configurator u) (OConf i (UeransimUEConfigurator (vm_ue u) sims' search del)) ;;
   provider_configure_vm (vm_ue_configurator u) ;; mret tt) b = (Ok tt, b') →
  sim_services sims' ∪ (sim_services sims ∖ sim_services del) = sim_services sims' →
  sound b' ∧ okay ((u, sims') :: us) b' ∧ state b' = state b ∧ length (objs b') = length (objs b).
Proof.
  intros Hs Hv Hc Hus Hav Hac H Heq.
  apply bind_Ok_inv in H as ([] & b1 & H1 & H). unfold store, modifyS in H1. injection H1 as <-.
  apply bind_Ok_inv in H as (r & b2 & H2 & H). injection H as <-.
  set (c' := OConf i (UeransimUEConfigurator (vm_ue u) sims' search del)) in *.
  set (b1 := set_objs (<[vm_ue_configurator u:=c']> (objs b)) b) in *.
  assert (He : effect (vm_ue_configurator u) (vm_ue_configurator u) b b1).
  { apply effect_calm; [|done]. intros l' Hne. cbn. by rewrite list_lookup_insert_ne. }
  assert (Hs1 : sound b1) by by apply (sound_store b _ (OConf i (UeransimUEConfigurator (vm_ue u) sims search []))).
  assert (Hus1 : okay us b1) by by apply (okay_effect _ _ us b b1 Hs He Hac Hac).
  assert (Hc1 : holds (vm_ue_configurator u) c' b1) by (apply list_lookup_insert_eq; by eapply lookup_lt_Some).
  assert (Hne : vm_ue u ≠ vm_ue_configurator u).
  { intros E. destruct Hv as (v & j & Hv & _). unfold holds in *. rewrite E in Hv. congruence. }
  assert (Hv1 : vm_ok (vm_ue u) (sim_services sims) b1) by by apply (vm_ok_effect _ _ _ _ b b1 Hs He Hne Hne).
  destruct (configure_fwd _ us _ _ _ Hs1 Hus1 H2) as (Hs2 & Hus2 & Hst2 & Hlen2 & Heff).
  { intros i' c Hc'. unfold holds in *. rewrite Hc1 in Hc'. injection Hc' as <- <-. done. }
  destruct (Heff _ _ _ _ _ _ Hc1 Hv1) as [Hc2 Hv2]. rewrite Heq in Hv2.
  split_and!; [done| |done|rewrite Hlen2; cbn; by rewrite length_insert].
  constructor; [|done]. split; [exact Hv2|by exists i, search].
Qed.

(** What [ue_ok] gives when the configurator is loaded. *)
Lemma load_ue_conf_ok u sims b :
  ue_ok (u, sims) b → ∃ i search,
    holds (vm_ue_configurator u) (OConf i (UeransimUEConfigurator (vm_ue u) sims search [])) b ∧
    load_ue_conf (vm_ue_configurator u) b = (Ok (i, vm_ue u, sims, search, []), b).
Proof.
  intros [_ (j & search & Hc)]. cbn in Hc. exists j, search. split; [done|].
  destruct (load_ue_conf_cases (vm_ue_configurator u) b) as [(i & vm & sims' & search' & del & Hl & E)|E].
  - unfold holds in *. rewrite Hc in Hl. injection Hl as <- <- <- <- <-. exact E.
  - unfold load_ue_conf in *. destruct (load_conf_cases (vm_ue_configurator u) b) as [(i & c & Hl & E')|E'].
    + unfold holds in *. rewrite Hc in Hl. injection Hl as <- <-. by rewrite (bind_Ok _ _ _ _ _ E') in E.
    + unfold load_conf in E'. by rewrite (bind_Ok _ _ _ _ _ (load_run _ _ b Hc)) in E'.
Qed.

Definition with_sim (id : Z) (s : UeransimSim) (us : BlueUeransimUe * list UeransimSim) :=
  if String.eqb (ue_id us.1) (pretty id) then (us.1, us.2 ++ [s]) else us.
Lemma with_sim_fst id sim t : (with_sim id sim <$> t).*1 = t.*1.
Proof.
  rewrite <-list_fmap_compose. apply list_fmap_ext. intros i [u s] _. unfold with_sim. cbn. by destruct (String.eqb _ _).
Qed.
Lemma add_sim_loop (id : Z) sim t us b b' :
  sound b → okay t b → okay us b → separate t us →
  for_each t.*1 (λ ue,
    if String.eqb (ue_id ue) (pretty id) then
      '(i, vm, sims, search, del) ← load_ue_conf (vm_ue_configurator ue);
      if existsb (λ s, String.eqb (sim_imsi s) (sim_imsi sim)) sims then raise BlueprintNGException
      else
        store (vm_ue_configurator ue) (OConf i (UeransimUEConfigurator vm (sims ++ [sim]) search del)) ;;
        provider_configure_vm (vm_ue_configurator ue) ;;
        mret tt
    else mret tt) b = (Ok tt, b') →
  okay ((with_sim id sim <$> t) ++ us) b' ∧ state b' = state b ∧ length (objs b') = length (objs b).
Proof.
  revert us b. induction t as [|[u s] t IH]; intros us b Hs Ht Hus Hsep H; [by injection H as <-|].
  apply Forall_cons in Ht as [Hu Ht]. destruct (separate_cons _ _ _ _ Hsep) as (Hav & Hac & Hsep').
  assert (Hsep2 : ∀ s', separate t ((u, s') :: us)).
  { intros s'. destruct Hsep' as [Hnd Ha]. split; [done|]. intros l Hl u' s'' [[= -> ->]|Hin]%elem_of_cons; [|by apply (Ha l Hl u' s'')].
    apply apart_app in Hav as [Hav _]. apply apart_app in Hac as [Hac _]. rewrite apart_ulocs in Hav, Hac. split; congruence. }
  cbn [fmap list_fmap for_each fst] in H. apply bind_Ok_inv in H as ([] & b1 & H1 & H).
  assert (∃ s', with_sim id sim (u, s) = (u, s') ∧ sound b1 ∧ okay ((u, s') :: t ++ us) b1 ∧ state b1 = state b ∧ length (objs b1) = length (objs b))
    as (s' & Ew & Hs1 & Hok1 & Hst1 & Hlen1).
  { unfold with_sim. cbn [fst snd]. destruct (String.eqb (ue_id u) (pretty id)).
    - destruct (load_ue_conf_ok u s b Hu) as (i & search & Hc & E). rewrite (bind_Ok _ _ _ _ _ E) in H1.
      destruct (existsb _ _); [done|]. exists (s ++ [sim]). split; [done|].
      apply (reconfigure_fwd u s (s ++ [sim]) [] i search (t ++ us) b b1); [done|apply Hu|done|by apply okay_app|done|done|exact H1|].
      unfold sim_services. rewrite fmap_app, list_to_set_app_L. set_solver.
    - injection H1 as <-. exists s. split_and!; [done|done| |done|done]. constructor; [done|by apply okay_app]. }
  apply Forall_cons in Hok1 as [Hu1 Hok1]. apply okay_app in Hok1 as [Ht1 Hus1].
  destruct (IH ((u, s') :: us) b1 Hs1 Ht1) as (Hok' & Hst' & Hlen'); [by constructor|apply Hsep2|exact H|].
  split_and!; [|congruence|congruence]. cbn [fmap list_fmap]. rewrite Ew. apply okay_app in Hok' as [Hok' [Hu' Hus']%Forall_cons].
  apply okay_app. split; [by constructor|done].
Qed.

(** A request that changes the SIMs of an area, and nothing else. *)
Lemma same_area b b' k a new :
  in_step b → good [] b' → od_get k (areas (state b)) = Some a → state b' = state b → length (objs b') = length (objs b) →
  new.*1 = ues a →
  (∀ d1 d2, okay (tracked b (ues a)) b → okay (tracked b (d_ues d1 ++ d_ues d2)) b →
     separate (tracked b (ues a)) (tracked b (d_ues d1 ++ d_ues d2)) →
     okay (new ++ tracked b (d_ues d1 ++ d_ues d2)) b') →
  in_step b' ∧ fleet b' = od_set k ((λ us, (ue_id us.1, us.2)) <$> new) (fleet b).
Proof.
  intros Hin Hg Ha Hst Hlen Hfst Hok.
  destruct (at_area b k a Hin Ha) as (d1 & d2 & Hd & Hk & Hother & Hmine & Hnd & Hval & Hapart).
  specialize (Hok d1 d2 Hmine Hother (separate_area b a d1 d2 Hnd Hapart)). apply okay_app in Hok as [Hnew Hother'].
  apply (replace_area b b' k a a d1 d2 new); try done.
  - rewrite Hst. symmetry. by apply od_set_same.
  - by left.
  - by rewrite Hlen.
  - lia.
Qed.

Lemma add_sim_in_step k id sim b b' :
  in_step b → good [] b' → _add_sim rel_path k id sim b = (Ok tt, b') →
  in_step b' ∧ fleet b' = fleet_day2 (AddSim k id sim) (fleet b).
Proof.
  intros Hin Hg H. unfold _add_sim in H. apply bind_Ok_inv in H as (a & b0 & Ha & H). apply get_area_Ok in Ha as [Ha ->].
  rewrite <-(tracked_fst b (ues a)) in H.
  assert (Hloop : ∀ us, okay (tracked b (ues a)) b → okay us b → separate (tracked b (ues a)) us →
    okay ((with_sim id sim <$> tracked b (ues a)) ++ us) b' ∧ state b' = state b ∧ length (objs b') = length (objs b))
    by (intros us ???; by apply (add_sim_loop id sim _ us b b' (proj1 (is_good b Hin)))).
  destruct (at_area b k a Hin Ha) as (d1 & d2 & _ & _ & Hother & Hmine & Hnd & _ & Hapart).
  destruct (Hloop _ Hmine Hother (separate_area b a d1 d2 Hnd Hapart)) as (_ & Hst & Hlen).
  destruct (same_area b b' k a (with_sim id sim <$> tracked b (ues a)) Hin Hg Ha Hst Hlen) as [Hin' Hf].
  - by rewrite with_sim_fst, tracked_fst.
  - intros d1' d2' ???. by apply Hloop.
  - split; [done|]. rewrite Hf. cbn [fleet_day2]. rewrite (fleet_area_at b k a Ha). unfold area_fleet. f_equal.
    rewrite <-!list_fmap_compose. apply list_fmap_ext. intros i [u s] _. unfold with_sim. cbn. by destruct (String.eqb _ _).
Qed.

Fixpoint without_sim (id : Z) (imsi : string) (t : list (BlueUeransimUe * list UeransimSim)) :=
  match t with
  | [] => []
  | (u, sims) :: t' =>
      if String.eqb (ue_id u) (pretty id) then (u, drop_sim imsi sims) :: t' else (u, sims) :: without_sim id imsi t'
  end.
Lemma without_sim_fst id imsi t : (without_sim id imsi t).*1 = t.*1.
Proof.
  induction t as [|[u s] t IH]; [done|]. cbn [without_sim]. destruct (String.eqb _ _); [done|].
  cbn [fmap list_fmap fst]. f_equal. exact IH.
Qed.
Lemma del_sim_loop (id : Z) imsi t us b b' :
  sound b → okay t b → okay us b → separate t us → del_sim_from rel_path t.*1 id imsi b = (Ok tt, b') →
  okay (without_sim id imsi t ++ us) b' ∧ state b' = state b ∧ length (objs b') = length (objs b).
Proof.
  revert us. induction t as [|[u s] t IH]; intros us Hs Ht Hus Hsep H; [by injection H as <-|].
  apply Forall_cons in Ht as [Hu Ht]. destruct (separate_cons _ _ _ _ Hsep) as (Hav & Hac & Hsep').
  cbn [fmap list_fmap fst del_sim_from] in H. cbn [without_sim]. destruct (String.eqb (ue_id u) (pretty id)).
  - destruct (load_ue_conf_ok u s b Hu) as (i & search & Hc & E). rewrite (bind_Ok _ _ _ _ _ E) in H.
    destruct (find _ s) as [sim|] eqn:Ef; [|done]. destruct (drop_sim_spec imsi s sim Ef) as [Er Hp]. rewrite Er in H.
    rewrite (bind_Ok (liftR _) _ b b (drop_sim imsi s)) in H by done.
    destruct (reconfigure_fwd u s (drop_sim imsi s) [sim] i search (t ++ us) b b') as (_ & Hok & Hst & Hlen);
      [done|apply Hu|done|by apply okay_app|done|done|exact H| |done].
    assert (Hss : sim_services s = {[sim_service sim]} ∪ sim_services (drop_sim imsi s)).
    { unfold sim_services. by rewrite Hp at 1. }
    rewrite Hss. unfold sim_services at 3. cbn. set_solver.
  - assert (Hsep2 : separate t ((u, s) :: us)).
    { destruct Hsep' as [Hnd Ha]. split; [done|]. intros l Hl u' s'' [[= -> ->]|Hin]%elem_of_cons; [|by apply (Ha l Hl u' s'')].
      apply apart_app in Hav as [Hav _]. apply apart_app in Hac as [Hac _]. rewrite apart_ulocs in Hav, Hac. split; congruence. }
    destruct (IH ((u, s) :: us) Hs Ht) as (Hok & Hst & Hlen); [by constructor|done|exact H|]. split_and!; [|done|done].
    apply okay_app in Hok as [Hok [Hu' Hus']%Forall_cons]. apply okay_app. split; [by constructor|done].
Qed.
Lemma del_sim_in_step k id imsi b b' :
  in_step b → good [] b' → _del_sim rel_path k id imsi b = (Ok tt, b') →
  in_step b' ∧ fleet b' = fleet_day2 (DelSim k id imsi) (fleet b).
Proof.
  intros Hin Hg H. unfold _del_sim in H. apply bind_Ok_inv in H as (a & b0 & Ha & H). apply get_area_Ok in Ha as [Ha ->].
  rewrite <-(tracked_fst b (ues a)) in H.
  assert (Hloop : ∀ us, okay (tracked b (ues a)) b → okay us b → separate (tracked b (ues a)) us →
    okay (without_sim id imsi (tracked b (ues a)) ++ us) b' ∧ state b' = state b ∧ length (objs b') = length (objs b))
    by (intros us ???; by apply (del_sim_loop id imsi _ us b b' (proj1 (is_good b Hin)))).
  destruct (at_area b k a Hin Ha) as (d1 & d2 & _ & _ & Hother & Hmine & Hnd & _ & Hapart).
  destruct (Hloop _ Hmine Hother (separate_area b a d1 d2 Hnd Hapart)) as (_ & Hst & Hlen).
  destruct (same_area b b' k a (without_sim id imsi (tracked b (ues a))) Hin Hg Ha Hst Hlen) as [Hin' Hf].
  - by rewrite without_sim_fst, tracked_fst.
  - intros d1' d2' ???. by apply Hloop.
  - split; [done|]. rewrite Hf. cbn [fleet_day2]. rewrite (fleet_area_at b k a Ha). unfold area_fleet. f_equal.
    clear. induction (tracked b (ues a)) as [|[u s] t IH]; [done|]. cbn. destruct (String.eqb _ _); [done|]. cbn. by rewrite IH.
Qed.

(** ** The refinement *)
#[local] Notation run_day2 := (day2 set_order rel_path self_id).
Lemma day2_in_step r b b' :
  in_step b → run_day2 r b = (Ok tt, b') → in_step b' ∧ fleet b' = fleet_day2 r (fleet b).
Proof.
  intros Hin H. pose proof (day2_good set_order rel_path self_id add_pdu_quiet del_pdu_quiet r b (is_good b Hin)) as Hg.
  rewrite H in Hg. cbn in Hg. destruct r; cbn [day2] in H.
  - by apply add_gnb_in_step.
  - by apply (configure_gnb_in_step model).
  - by apply delete_gnb_in_step.
  - by apply add_ue_in_step.
  - by apply delete_ue_in_step.
  - by apply add_sim_in_step.
  - by apply del_sim_in_step.
Qed.

Lemma fleet_keys b : od_keys (fleet b) = od_keys (areas (state b)).
Proof. apply fleet_of_keys. Qed.
Lemma create_ues_in_step k us b b' f done_ :
  in_step b → fleet b = f ++ [(k, done_)] → k ∉ od_keys f →
  for_each us (_create_ue set_order rel_path self_id k) b = (Ok tt, b') →
  in_step b' ∧
  fleet b' = f ++ [(k, done_ ++ ((λ ue, (ue_text (request_ue_id ue), default [] (request_sims ue))) <$> us))].
Proof.
  intros Hin Hf Hk. revert b done_ Hin Hf. induction us as [|ue us IH]; intros b done_ Hin Hf H.
  { injection H as <-. by rewrite app_nil_r. }
  cbn [for_each] in H. apply bind_Ok_inv in H as ([] & b1 & H1 & H).
  destruct (day2_in_step (AddUE k ue) b b1 Hin H1) as [Hin1 Hf1]. cbn [fleet_day2] in Hf1. unfold fleet_area in Hf1.
  rewrite Hf in Hf1. destruct (od_at k done_ f [] Hk) as (Hget & Hset & _). rewrite Hget, Hset in Hf1.
  destruct (IH b1 _ Hin1 Hf1 H) as [Hin' Hf']. split; [done|]. rewrite Hf', <-app_assoc. done.
Qed.
Lemma create_in_step m b b' :
  in_step b → create set_order rel_path self_id m b = (Ok tt, b') →
  in_step b' ∧ fleet b' = fleet b ++ fleet_create m.
Proof.
  intros Hin H. unfold create in H. apply bind_Ok_inv in H as ([] & b0 & H0 & H).
  unfold update_state, modifyS in H0. injection H0 as <-.
  match type of H with _ ?b0 = _ => assert (Hin0 : in_step b0 ∧ fleet b0 = fleet b) end.
  { split; [|done]. destruct Hin as [(Hs & Hl & Hc) Hnd Hv Hok]. constructor; [|done|done|by apply (okay_same _ b)].
    split; [by apply sound_state|by split]. }
  destruct Hin0 as [Hin0 <-]. unfold fleet_create.
  match type of H with _ ?b0 = _ => generalize dependent b0 end.
  induction (request_areas m) as [|area l IH]; intros b0 H Hin0; [injection H as <-; by rewrite app_nil_r|].
  cbn [for_each] in H. apply bind_Ok_inv in H as ([] & b2 & H12 & H).
  apply bind_Ok_inv in H12 as ([] & b1 & H1 & H2). set (k := pretty (request_area_id area)) in *.
  destruct (day2_in_step (AddGNB k) b0 b1 Hin0 H1) as [Hin1 Hf1]. cbn [fleet_day2] in Hf1.
  assert (Hk : k ∉ od_keys (fleet b0)).
  { rewrite fleet_keys, <-od_get_None. unfold _create_gnb in H1. apply get_state_Ok in H1.
    destruct (od_in k (areas (state b0))) eqn:Ek; [done|]. by apply od_in_false. }
  destruct (create_ues_in_step k _ b1 b2 (fleet b0) [] Hin1 Hf1 Hk H2) as [Hin2 Hf2].
  destruct (IH b2 H Hin2) as [Hin' Hf']. split; [done|]. rewrite Hf', Hf2, <-app_assoc. done.
Qed.

(** What runs on the machines of the UEs. *)
Definition services_at b (l : loc) : gset string :=
  match objs b !! l with Some (OVm v) => running (ext b) (default EmptyString (vm_id v)) | _ => ∅ end.
Definition observed b : list (string * list (string * gset string)) :=
  (λ ka, (ka.1, (λ u, (ue_id u, services_at b (vm_ue u))) <$> ues ka.2)) <$> areas (state b).
Definition fleet_services (f : Fleet) : list (string * list (string * gset string)) :=
  (λ ka : string * list (string * list UeransimSim), (ka.1, (λ ns, (ns.1, sim_services ns.2)) <$> ka.2)) <$> f.

Lemma observed_in_step b : in_step b → observed b = fleet_services (fleet b).
Proof.
  intros [_ _ _ Hok]. unfold observed, fleet_services, fleet, fleet_of. rewrite <-list_fmap_compose.
  apply list_fmap_ext. intros i [k a] Hi. unfold area_fleet, tracked. cbn. f_equal. rewrite <-!list_fmap_compose.
  apply list_fmap_ext. intros j u Hj. cbn. f_equal. unfold okay in Hok. rewrite Forall_forall in Hok.
  assert (Hu : u ∈ d_ues (areas (state b))).
  { unfold d_ues. apply list_elem_of_In, in_concat. exists (ues a). split; apply list_elem_of_In.
    - apply list_elem_of_fmap. exists (k, a). split; [done|]. by eapply list_elem_of_lookup_2.
    - by eapply list_elem_of_lookup_2. }
  destruct (Hok (u, conf_sims b (vm_ue_configurator u))) as [(v & id & Hv & Hid & Hr) _].
  { apply list_elem_of_fmap. by exists u. }
  unfold services_at, holds in *. cbn in *. by rewrite Hv, Hid.
Qed.

(** C17: the machines run the SIMs that were asked for. As long as the requests to the blueprint succeed,
    its creation and any day-2 requests refine the plain description of the simulated network, in which an
    area is added or removed, a UE added with its SIMs, the UEs of an area removed, a SIM added to the UEs of
    a number or dropped from the first of them: area by area and UE by UE, in order, the services that the
    playbooks have left running on the machine of a UE are exactly those of the SIMs the description gives it.
    It rests on what a playbook does to the services it names, on fresh machines running none of them, and on
    the other calls leaving machines alone. *)
Theorem running_sims_follow_requests m requests x b :
  pristine x →
  (create set_order rel_path self_id m ;; for_each requests run_day2) (empty_blueprint x) = (Ok tt, b) →
  observed b = fleet_services (foldl (λ f r, fleet_day2 r f) (fleet_create m) requests).
Proof.
  intros Hx H. apply bind_Ok_inv in H as ([] & b1 & H1 & H).
  assert (Hin0 : in_step (empty_blueprint x)).
  { constructor; [|constructor|constructor|constructor]. split; [by apply empty_sound|].
    split; [|constructor]. by intros k a ?%not_elem_of_nil. }
  destruct (create_in_step m _ b1 Hin0 H1) as [Hin1 Hf1]. cbn [fleet fleet_of state empty_blueprint areas app fmap list_fmap] in Hf1.
  rewrite <-Hf1. clear H1 Hf1 Hin0 Hx. revert b1 Hin1 H.
  induction requests as [|r l IH]; intros b1 Hin1 H; [injection H as <-; by apply observed_in_step|].
  cbn [for_each] in H. apply bind_Ok_inv in H as ([] & b2 & H2 & H). cbn [foldl].
  destruct (day2_in_step r b1 b2 Hin1 H2) as [Hin2 <-]. by apply IH.
Qed.
End sims.

(** ** On the concrete provider *)
Module Concrete.
Export UeransimProps.Concrete.

Definition lab_services (x : Lab) (i : string) : gset string := default ∅ (lab_running x !! i).
Lemma lab_run_eq v f x i : vm_id v = Some i → default ∅ (lab_run v f (lab_running x) !! i) = f (lab_services x i).
Proof. intros Hi. unfold lab_run. by rewrite Hi, lookup_insert_eq. Qed.
Lemma lab_run_ne v f x j : vm_id v ≠ Some j → default ∅ (lab_run v f (lab_running x) !! j) = lab_services x j.
Proof.
  intros Hj. unfold lab_run. destruct (vm_id v) as [i|]; [|done]. rewrite lookup_insert_ne; [done|]. by intros ->.
Qed.

#[export] Program Instance lab_machine : MachineLaws Lab := {| running := lab_services |}.
Next Obligation. intros v p x r x' i. cbn. destruct (lab_refuses x); intros [= _ <-] Hi. by apply lab_run_eq. Qed.
Next Obligation. intros v p x r x' j. cbn. destruct (lab_refuses x); intros [= _ <-] Hj. by apply lab_run_ne. Qed.
Next Obligation.
  intros v x v' x' i. cbn -[String.eqb]. destruct (String.eqb _ _); intros [= <- <-] Hi. by apply lab_run_eq.
Qed.
Next Obligation.
  intros v x v' x' j. cbn -[String.eqb]. destruct (String.eqb _ _); intros [= <- <-] Hj. by apply lab_run_ne.
Qed.
Next Obligation. by intros v x x' j [= <-]. Qed.
Next Obligation. intros n x. cbn. by destruct (bool_decide _). Qed.
Solve Obligations with done.

(** SIMs come and go on two UEs, a GNB is configured and another one removed. *)
Definition lab_changes : list Day2 :=
  [AddGNB "3"; AddUE "3" (lab_ue 2 ["001010000000002"]); AddUE "1" (lab_ue 5 ["001010000000005"; "001010000000006"]);
   AddSim "1" 1 (lab_sim "001010000000007"); DelSim "1" 1 "001010000000001"; DelSim "1" 5 "001010000000005";
   ConfigureGNB {| gnb_area := 1; gnb_plmn := "00101"; tac := 1; amf_ip := "10.0.0.9"; upf_ip := "10.0.0.8";
     amf_port := 38412; nssai := [{| sst := 1; sd := 1 |}];
     additional_routes := [{| network_cidr := "10.1.0.0/16"; next_hop := "10.0.0.1"; device := None |}] |};
   DelGNB "3"].

Lemma running_sims_follow_requests_witness : ∃ b,
  (create (λ l, l) (λ p, p) "blue" lab_request ;; for_each lab_changes (day2 (λ l, l) (λ p, p) "blue"))
    (empty_blueprint lab_start) = (Ok tt, b) ∧
  observed b = [("1", [("1", {["ueransim-ue-sim-001010000000007"]}); ("5", {["ueransim-ue-sim-001010000000006"]})])].
Proof.
  eexists. split; [vm_compute; reflexivity|].
  match goal with |- observed ?b = _ => pose proof (running_sims_follow_requests (λ l, l) (λ p, p) "blue"
    ltac:(intros p x; done) ltac:(intros n x; done) lab_request lab_changes lab_start b
    ltac:(by apply lab_pristine) ltac:(vm_compute; reflexivity)) as H end.
  rewrite H. apply (bool_decide_eq_true_1 _). vm_compute. reflexivity.
Defined.
End Concrete.
