(* ===== verification/UeransimErrors.v ===== *)
(** * What the requests to the UERANSIM blueprint get wrong

    The deletion of a UE, the reuse of an area, and a SIM whose playbook failed. *)

From Stdlib Require Import Ascii.
From stdpp Require Import base list strings gmap pretty.
From Stdlib Require Import ZArith Lia.
From S2P Require Import Prelude NetworkModels Core5GModels Ansible Resources Deployment DeploymentSteps Ueransim UeransimProps.

Open Scope Z_scope.

Section errors.
Context {X : Type} `{!Provider X} `{!PduTopology X}.
Variable set_order : list string → list string.
Variable rel_path : string → string.
Variable self_id : string.
#[local] Instance conf_class : Configurator UeransimConf := ueransim_configurator rel_path.
#[local] Instance conf_laws : ConfiguratorLaws UeransimConf := ueransim_conf_laws rel_path.
#[local] Abbreviation Blue := (Blueprint UeransimConf UeransimState X).
#[local] Abbreviation B := (M Blue).
Implicit Types b : Blue.

(** ** Deleting a UE *)
Lemma get_state_run {A} (f : UeransimState → B A) b : (s ← get_state; f s) b = f (state b) b.
Proof. done. Qed.

Lemma grows_delete_ue u : grows (delete_ue_resources u : B unit).
Proof.
  apply grows_bind; [apply grows_destroy_vm|]. intros []. apply grows_bind; [apply grows_deregister|].
  intros []. apply grows_deregister.
Qed.

(** The deletion of a UE fails in every area that has another UE. The request goes through the UEs of
    the area and raises at the first one with another number. So it never returns when there is such a UE; when
    that UE comes first nothing is done, and no retry will do more as long as it is there; when the UE asked for
    comes first it is destroyed and dropped from the state, and the request raises all the same. *)
Theorem delete_ue_needs_no_other k id a b :
  od_get k (areas (state b)) = Some a →
  (∀ u, u ∈ ues a → ue_id u ≠ pretty id → ∃ e, (_delete_ue k id b).1 = Raise e) ∧
  (∀ u us, ues a = u :: us → ue_id u ≠ pretty id → _delete_ue k id b = (Raise BlueprintNGException, b)) ∧
  (∀ u v us b1, ues a = u :: v :: us → ue_id u = pretty id → ue_id v ≠ pretty id →
     delete_ue_resources u b = (Ok tt, b1) →
     ∃ b', _delete_ue k id b = (Raise BlueprintNGException, b') ∧
       od_get k (areas (state b')) = Some (set_ues (v :: us) a)).
Proof.
  intros Ha. unfold _delete_ue. rewrite !get_state_run, Ha. split_and!.
  - intros u Hu Hne. apply (for_each_raises (λ _, True) (λ u, ue_id u ≠ pretty id)); [done| |done|apply Exists_exists; by exists u].
    intros u' b0 Hne' _. destruct (String.eqb_spec (ue_id u') (pretty id)); [done|]. by eexists.
  - intros u us Hus Hne. rewrite Hus. cbn [for_each].
    destruct (String.eqb_spec (ue_id u) (pretty id)); [done|]. done.
  - intros u v us b1 Hus Hu Hv H1. rewrite Hus. cbn [for_each].
    rewrite (proj2 (String.eqb_eq _ _) Hu), (proj2 (String.eqb_neq _ _) Hv).
    pose proof (grows_delete_ue u b) as [Hst _]. rewrite H1 in Hst. cbn in Hst.
    set (b2 := set_state (set_areas (od_set k (set_ues (v :: us) a) (areas (state b1))) (state b1)) b1).
    exists b2. split; [|cbn; by rewrite od_get_set_eq].
    rewrite (bind_Ok _ _ b b2 tt); [done|]. rewrite (bind_Ok _ _ _ _ _ H1).
    rewrite (bind_Ok (get_area k) _ b1 b1 a) by (unfold get_area; rewrite get_state_run, Hst; unfold liftR, od_getitem; by rewrite Ha).
    rewrite (bind_Ok getS _ b1 b1 b1) by done. unfold py_remove. rewrite Hus. cbn [find_index].
    assert (Hr : ue_eqb b1 u u = true) by (unfold ue_eqb; rewrite String.eqb_refl; by rewrite !bool_decide_eq_true_2).
    rewrite Hr. done.
Qed.

(** ** Using an area again *)

(** Networks stay until the blueprint is destroyed, and a second one of the same name is refused. *)
Class NetworkLaws := {
  networks : X → gset string;
  create_net_new : ∀ n x x', create_net n x = (Ok tt, x') → net_name n ∈ networks x';
  create_net_again : ∀ n x, net_name n ∈ networks x → ∃ e, (create_net n x).1 = Raise e;
  create_net_keeps : ∀ n x, networks x ⊆ networks (create_net n x).2;
  create_vm_keeps : ∀ v x, networks x ⊆ networks (create_vm v x).2;
  destroy_vm_keeps : ∀ v x, networks x ⊆ networks (destroy_vm v x).2;
  get_virt_provider_keeps : ∀ a x, networks x ⊆ networks (get_virt_provider a x).2;
  run_playbook_keeps : ∀ v p x, networks x ⊆ networks (run_playbook v p x).2;
  get_vim_keeps : ∀ a x, networks x ⊆ networks (get_vim_from_area_id_model a x).2;
  uuid4_keeps : ∀ x, networks x ⊆ networks (uuid4 x).2;
  add_pdu_keeps : ∀ p x, networks x ⊆ networks (add_pdu p x).2;
  del_pdu_keeps : ∀ n x, networks x ⊆ networks (del_pdu n x).2
}.

Section networks.
Context {nl : NetworkLaws}.
Variable name : string.
Definition has b : Prop := name ∈ networks (ext b).

Lemma has_on_ext {A} (m : M X A) : (∀ x, networks x ⊆ networks (m x).2) → preserves has (on_ext m).
Proof. intros Hm b Hb. unfold on_ext, zoom, has in *. specialize (Hm (ext b)). destruct (m (ext b)). cbn in *. set_solver. Qed.
Lemma has_update f : (∀ b, ext (f b) = ext b) → preserves has (modifyS f).
Proof. intros Hf b Hb. unfold has in *. cbn. by rewrite Hf. Qed.
Lemma has_reads {A} (m : B A) : reads m → preserves has m.
Proof. apply preserves_reads. Qed.
Lemma has_get_state {A} (f : UeransimState → B A) : (∀ s, preserves has (f s)) → preserves has (s ← get_state; f s).
Proof. intros Hf b Hb. by apply Hf. Qed.
Lemma has_get {A} (f : Blue → B A) : (∀ b, preserves has (f b)) → preserves has (b ← getS; f b).
Proof. intros Hf b Hb. by apply Hf. Qed.

Lemma has_alloc o : preserves has (alloc o : B loc).
Proof. intros b Hb. exact Hb. Qed.
Lemma has_load l : preserves has (load l : B (obj UeransimConf)).
Proof. apply has_reads. intros b. unfold load, mbind, M_bind, getS. by destruct (objs b !! l). Qed.
Lemma has_load_vm l : preserves has (load_vm l : B VmResource).
Proof. apply preserves_bind; [apply has_load|]. intros []; first [apply preserves_ret|apply preserves_raise]. Qed.
Lemma has_load_net l : preserves has (load_net l : B NetResource).
Proof. apply preserves_bind; [apply has_load|]. intros []; first [apply preserves_ret|apply preserves_raise]. Qed.
Lemma has_load_conf l : preserves has (load_conf l : B (option string * UeransimConf)).
Proof. apply preserves_bind; [apply has_load|]. intros []; first [apply preserves_ret|apply preserves_raise]. Qed.
Lemma has_store l o : preserves has (store l o : B unit).
Proof. by apply has_update. Qed.
Lemma has_register l : preserves has (register_resource l : B unit).
Proof.
  apply preserves_bind; [apply has_load|]. intros o. apply has_get. intros b0.
  apply preserves_bind; [destruct (is_registered _ _); [apply preserves_raise|apply preserves_ret]|]. intros _.
  apply preserves_bind.
  - destruct (str_true (obj_id o)); [apply preserves_ret|]. apply preserves_bind.
    + intros b Hb. unfold has in *. cbn. pose proof (uuid4_keeps (ext b)). set_solver.
    + intros i. apply preserves_bind; [apply has_store|]. intros _. apply preserves_ret.
  - intros o'. apply preserves_bind; [|intros _; by apply has_update]. destruct (obj_area o'); [|apply preserves_ret].
    apply preserves_catch; [apply has_on_ext, get_vim_keeps|]. intros e h. destruct (is_value_error e); [|done].
    intros [= <-]. apply preserves_raise.
Qed.
Lemma has_deregister l : preserves has (deregister_resource l : B unit).
Proof.
  apply preserves_bind; [apply has_load|]. intros o b Hb. unfold mbind, M_bind, getS.
  destruct (str_true (obj_id o)); [|done]. by destruct (is_registered (obj_id o) b).
Qed.
Lemma has_create_vm l : preserves has (provider_create_vm l : B unit).
Proof.
  apply preserves_bind; [apply has_load_vm|]. intros v b Hb. unfold has in *. unfold mbind, M_bind, getS.
  pose proof (create_vm_keeps v (ext b)) as Hk. destruct (create_vm v (ext b)) as [[r v'] x]. cbn in *.
  unfold liftR. destruct r; cbn; set_solver.
Qed.
Lemma has_destroy_vm l : preserves has (provider_destroy_vm l : B unit).
Proof. apply preserves_bind; [apply has_load_vm|]. intros v. apply has_on_ext, destroy_vm_keeps. Qed.
Lemma has_create_net l : preserves has (provider_create_net l : B unit).
Proof. apply preserves_bind; [apply has_load_net|]. intros n. apply has_on_ext, create_net_keeps. Qed.
Lemma has_configure_vm l : preserves has (provider_configure_vm l : B (list (string * pyval))).
Proof.
  apply preserves_bind; [apply has_load_conf|]. intros ic. apply preserves_bind; [apply has_load_vm|]. intros v.
  apply preserves_bind; [apply has_on_ext, get_virt_provider_keeps|]. intros _.
  destruct (created v); [|apply preserves_raise]. destruct (dump_playbook v ic.2) as [r c].
  apply preserves_bind; [apply has_store|]. intros _. apply preserves_bind; [apply preserves_liftR|]. intros p.
  apply has_on_ext, run_playbook_keeps.
Qed.
Lemma has_put_area k a : preserves has (put_area k a : B unit).
Proof. by apply has_update. Qed.
Lemma has_endpoints : preserves has (endpoints : B UeransimNetworkEndpoints).
Proof. apply has_get_state. intros s. destruct (create_config s); [apply preserves_ret|apply preserves_raise]. Qed.
Lemma has_get_area k : preserves has (get_area k : B BlueUeransimArea).
Proof. apply has_get_state. intros s. apply preserves_liftR. Qed.
Lemma has_load_ue_conf l : preserves has (load_ue_conf l : B _).
Proof. apply preserves_bind; [apply has_load_conf|]. intros [i []]; first [apply preserves_ret|apply preserves_raise]. Qed.
Lemma has_add_pdu p : preserves has (on_ext (add_pdu p) : B unit).
Proof. apply has_on_ext, add_pdu_keeps. Qed.
Lemma has_del_gnb z : preserves has (del_gnb_from_topology self_id z : B unit).
Proof. apply preserves_catch; [apply has_on_ext, del_pdu_keeps|]. intros e h [= <-]. apply preserves_ret. Qed.
#[local] Hint Resolve has_alloc has_load has_load_vm has_load_net has_load_conf has_store has_register has_deregister
  has_create_vm has_destroy_vm has_create_net has_configure_vm has_put_area has_endpoints has_get_area has_load_ue_conf
  has_add_pdu has_del_gnb : preserve.

(** Every request keeps the networks there are. *)
Lemma has_day2 r : preserves has (day2 set_order rel_path self_id r).
Proof.
  assert (Hfa : ∀ n v, preserves has (first_address n v : B VmResourceNetworkInterfaceAddress)).
  { intros n v. apply preserves_bind; [apply preserves_liftR|]. intros i. apply preserves_ret. }
  assert (Hue : ∀ u, preserves has (delete_ue_resources u : B unit)) by (intros u; unfold delete_ue_resources; preserve_steps).
  assert (Hup : ∀ f, preserves has (update_state f : B unit)) by (intros f; by apply has_update).
  destruct r; cbn [day2].
  - unfold _create_gnb. apply has_get_state. intros s. preserve_steps.
  - unfold configure_gnb. preserve_steps.
  - unfold _delete_gnb. apply has_get_state. intros s. preserve_steps.
  - unfold _create_ue. apply has_get_state. intros s. preserve_steps.
  - unfold _delete_ue. apply has_get_state. intros s. preserve_steps.
  - unfold _add_sim. preserve_steps.
  - unfold _del_sim. preserve_steps. induction (ues _); cbn [del_sim_from]; preserve_steps.
Qed.
End networks.

(** A network keeps its name when it is registered. *)
Lemma register_net l n b b' :
  holds l (ONet n) b → register_resource l b = (Ok tt, b') → ∃ n', holds l (ONet n') b' ∧ net_name n' = net_name n.
Proof.
  intros Hl H. unfold register_resource in H. rewrite (bind_Ok _ _ _ _ _ (load_run l _ b Hl)) in H.
  rewrite (bind_Ok getS _ b b b) in H by done. destruct (is_registered _ b); [done|].
  rewrite (bind_Ok (mret tt) _ b b tt) in H by done.
  apply bind_Ok_inv in H as (o & b1 & Ho & H). apply bind_Ok_inv in H as ([] & b2 & Hv & H). injection H as <-.
  assert (objs b2 = objs b1) as Hobjs.
  { destruct (obj_area o) as [a|]; [|by injection Hv as <-]. unfold catch, on_ext, zoom in Hv.
    destruct (get_vim_from_area_id_model a (ext b1)) as [[[]|e] x]; [by injection Hv as <-|].
    by destruct (is_value_error e). }
  unfold holds. cbn [set_registered objs]. rewrite Hobjs. destruct (str_true (obj_id (ONet n))).
  - injection Ho as <- <-. by exists n.
  - unfold new_id, mbind, M_bind, getS, putS, store, modifyS, mret, M_ret in Ho. injection Ho as <- <-.
    eexists. split; [apply list_lookup_insert_eq; by eapply lookup_lt_Some|done].
Qed.
Lemma load_net_run l n b : holds l (ONet n) b → load_net l b = (Ok n, b).
Proof. intros H. unfold load_net. by rewrite (bind_Ok _ _ _ _ _ (load_run l _ b H)). Qed.
Lemma get_net_new n b b1 l b2 :
  alloc (ONet n) b = (Ok l, b1) → register_resource l b1 = (Ok tt, b2) →
  ∃ n', net_name n' = net_name n ∧ provider_create_net l b2 = on_ext (create_net n') b2.
Proof.
  intros H1 H2. unfold alloc, putS, getS, mbind, M_bind, mret, M_ret in H1. injection H1 as <- <-.
  assert (Hl : holds (length (objs b)) (ONet n) (set_objs (objs b ++ [ONet n]) b)) by by apply list_lookup_middle.
  destruct (register_net _ _ _ _ Hl H2) as (n' & Hn' & Hname). exists n'. split; [done|].
  unfold provider_create_net. by rewrite (bind_Ok _ _ _ _ _ (load_net_run _ _ _ Hn')).
Qed.

Lemma created_network {nl : NetworkLaws} k b b1 :
  _create_gnb set_order self_id k b = (Ok tt, b1) → has (radio_network_name self_id k) b1.
Proof.
  intros H. unfold _create_gnb in H. rewrite get_state_run in H. destruct (od_in k _); [done|].
  apply bind_Ok_inv in H as (area & b0 & _ & H). apply bind_Ok_inv in H as (l & b2 & H2 & H).
  apply bind_Ok_inv in H as ([] & b3 & H3 & H). apply bind_Ok_inv in H as ([] & b4 & H4 & H).
  destruct (get_net_new _ _ _ _ _ H2 H3) as (n & Hname & E). rewrite E in H4.
  assert (H4' : has (radio_network_name self_id k) b4).
  { unfold on_ext, zoom in H4. destruct (create_net n (ext b3)) as [[[]|e] x] eqn:Ec; [|done]. injection H4 as <-.
    unfold has. cbn. apply create_net_new in Ec. by rewrite Hname in Ec. }
  match type of H with ?m b4 = _ => assert (Hr : preserves (has (radio_network_name self_id k)) m) end.
  { preserve_steps; first [apply has_endpoints|apply has_alloc|apply has_register|apply has_create_vm|apply has_put_area|apply has_add_pdu]. }
  specialize (Hr b4 H4'). by rewrite H in Hr.
Qed.
Lemma create_refused {nl : NetworkLaws} k b :
  has (radio_network_name self_id k) b → ∃ e, (_create_gnb set_order self_id k b).1 = Raise e.
Proof.
  intros Ha. unfold _create_gnb. rewrite get_state_run. destruct (od_in k _); [by eexists|].
  destruct (py_int k) as [area|e]; [|by exists e]. rewrite (bind_Ok (liftR (Ok area)) _ b b area) by done.
  match goal with |- context [alloc (ONet ?n) ≫= _] => destruct (alloc (ONet n) b) as [[l|e] b3] eqn:E1 end;
    [rewrite (bind_Ok _ _ _ _ _ E1)|rewrite (bind_Raise _ _ _ _ _ E1); by exists e].
  destruct (register_resource l b3) as [[[]|e] b4] eqn:E2;
    [rewrite (bind_Ok _ _ _ _ _ E2)|rewrite (bind_Raise _ _ _ _ _ E2); by exists e].
  destruct (get_net_new _ _ _ _ _ E1 E2) as (n & Hname & E3).
  assert (Ha4 : net_name n ∈ networks (ext b4)).
  { rewrite Hname. match type of E1 with alloc ?o b = _ => pose proof (has_alloc (radio_network_name self_id k) o b Ha) as Hx end. rewrite E1 in Hx.
    pose proof (has_register (radio_network_name self_id k) l _ Hx) as Hy. cbn [snd] in Hy. by rewrite E2 in Hy. }
  destruct (create_net_again n (ext b4) Ha4) as [e He]. exists e.
  unfold mbind, M_bind. rewrite E3. unfold on_ext, zoom.
  destruct (create_net n (ext b4)) as [[[]|e'] x]; cbn in He; [done|by injection He as ->].
Qed.

(** An area can be used once. When a GNB has been created in an area, every further creation in that
    area fails, whatever was asked in between: as long as the GNB is there the area is taken, and once the GNB
    is deleted its radio network is still there, since nothing ever removes it, and the provider refuses a second
    network of the same name. *)
Theorem area_used_once {nl : NetworkLaws} k b b1 requests :
  _create_gnb set_order self_id k b = (Ok tt, b1) →
  ∃ e, (_create_gnb set_order self_id k (after_all set_order rel_path self_id requests b1)).1 = Raise e.
Proof.
  intros H. apply create_refused. apply created_network in H. revert b1 H.
  induction requests as [|r l IH]; intros b1 Hn; [done|]. cbn. apply IH. by apply has_day2.
Qed.

(** ** A playbook that fails *)

(** The area has one UE, whose machine can be reached and refuses every playbook. *)
Record refusing (k : string) (id : Z) b (a : BlueUeransimArea) (u : BlueUeransimUe) (i : option string)
  (sims : list UeransimSim) (search : list string) (e : exn) : Prop := {
  rf_area : od_get k (areas (state b)) = Some a;
  rf_ues : ues a = [u];
  rf_id : ue_id u = pretty id;
  rf_conf : holds (vm_ue_configurator u) (OConf i (UeransimUEConfigurator (vm_ue u) sims search [])) b;
  rf_vm : ∃ v, holds (vm_ue u) (OVm v) b ∧ created v = true ∧
    get_virt_provider (vm_area v) (ext b) = (Ok tt, ext b) ∧ ∀ p, (run_playbook v p (ext b)) = (Raise e, ext b)
}.

Lemma load_ue_conf_run l i vm sims search del b :
  holds l (OConf i (UeransimUEConfigurator vm sims search del)) b → load_ue_conf l b = (Ok (i, vm, sims, search, del), b).
Proof.
  intros H. unfold load_ue_conf, load_conf, mbind, M_bind. by rewrite (load_run l _ b H).
Qed.
(** The new configurator stays, its SIMs to delete forgotten. *)
Lemma refused_configuration k id b a u i sims search e sims' del :
  refusing k id b a u i sims search e →
  ∃ b', (store (vm_ue_configurator u) (OConf i (UeransimUEConfigurator (vm_ue u) sims' search del)) ;;
         provider_configure_vm (vm_ue_configurator u) ;; mret tt) b = (Raise e, b') ∧
    ext b' = ext b ∧ refusing k id b' a u i sims' search e.
Proof.
  intros [Ha Hu Hid Hc (v & Hv & Hcr & Hg & Hr)].
  set (c' := OConf i (UeransimUEConfigurator (vm_ue u) sims' search del)).
  set (b1 := set_objs (<[vm_ue_configurator u := c']> (objs b)) b).
  assert (Hc1 : holds (vm_ue_configurator u) c' b1) by (apply list_lookup_insert_eq; by eapply lookup_lt_Some).
  assert (Hne : vm_ue u ≠ vm_ue_configurator u) by (intros E; unfold holds in *; rewrite E in Hv; congruence).
  assert (Hv1 : holds (vm_ue u) (OVm v) b1) by (unfold holds; cbn; by rewrite list_lookup_insert_ne).
  rewrite (bind_Ok (store _ _) _ b b1 tt) by done.
  rewrite (bind_Raise (provider_configure_vm _) _ b1 (set_ext (ext b) (set_objs (<[vm_ue_configurator u :=
    OConf i (UeransimUEConfigurator (vm_ue u) sims' search [])]> (objs b1)) b1)) e).
  2: { rewrite (configure_vm_run (Configurator0 := conf_class) _ i (UeransimUEConfigurator (vm_ue u) sims' search del) v (ext b) b1 Hc1 Hv1 Hcr Hg).
       cbn [dump_playbook conf_class ueransim_configurator fst snd].
       rewrite (bind_Ok (liftR _) _ _ (set_ext (ext b) (set_objs (<[vm_ue_configurator u := OConf i (UeransimUEConfigurator (vm_ue u) sims' search [])]> (objs b1)) b1))
         (build (ue_playbook rel_path sims' search del))) by done.
       unfold on_ext, zoom. cbn [ext set_ext]. by rewrite Hr. }
  eexists. split; [done|]. split; [done|]. constructor; cbn; [done..| |].
  - unfold holds. cbn. apply list_lookup_insert_eq. rewrite length_insert. by eapply lookup_lt_Some.
  - exists v. split_and!; [|done..]. unfold holds in *. cbn. by rewrite list_lookup_insert_ne.
Qed.

(** A change of SIMs whose playbook fails cannot be tried again. When the run of the playbook fails, the
    SIM that was to be added is recorded as there, and adding it again is refused; the SIM that was to be deleted
    is recorded as gone, and so is the note that its service has to be stopped: deleting it again is refused
    while the service was never stopped. In each case the outside is as before the request. *)
Theorem failed_sims_cannot_be_retried k id b a u i sims search e :
  refusing k id b a u i sims search e →
  (∀ sim, existsb (λ s, String.eqb (sim_imsi s) (sim_imsi sim)) sims = false →
     ∃ b', _add_sim rel_path k id sim b = (Raise e, b') ∧ ext b' = ext b ∧
       refusing k id b' a u i (sims ++ [sim]) search e ∧
       _add_sim rel_path k id sim b' = (Raise BlueprintNGException, b')) ∧
  (∀ imsi sim, find (λ s, String.eqb (sim_imsi s) imsi) sims = Some sim → NoDup (sim_imsi <$> sims) →
     ∃ b' sims', _del_sim rel_path k id imsi b = (Raise e, b') ∧ ext b' = ext b ∧
       refusing k id b' a u i sims' search e ∧ imsi ∉ sim_imsi <$> sims' ∧
       _del_sim rel_path k id imsi b' = (Raise BlueprintNGException, b')).
Proof.
  intros Href. pose proof Href as [Ha Hu Hid Hc _].
  assert (Hga : ∀ b0 sims0, refusing k id b0 a u i sims0 search e → get_area k b0 = (Ok a, b0)).
  { intros b0 sims0 []. unfold get_area. rewrite get_state_run. unfold liftR, od_getitem. by rewrite rf_area0. }
  assert (Hlc : ∀ b0 sims0, refusing k id b0 a u i sims0 search e →
    load_ue_conf (vm_ue_configurator u) b0 = (Ok (i, vm_ue u, sims0, search, []), b0)).
  { intros b0 sims0 []. by apply load_ue_conf_run. }
  split.
  - intros sim Hnew. destruct (refused_configuration k id b a u i sims search e (sims ++ [sim]) [] Href) as (b' & E & Hx & Href').
    exists b'. split_and!; [|done|done|].
    + unfold _add_sim. rewrite (bind_Ok _ _ _ _ _ (Hga b sims Href)), Hu. cbn [for_each].
      apply bind_Raise. rewrite (proj2 (String.eqb_eq _ _) Hid). rewrite (bind_Ok _ _ _ _ _ (Hlc b sims Href)), Hnew. exact E.
    + unfold _add_sim. rewrite (bind_Ok _ _ _ _ _ (Hga b' _ Href')), Hu. cbn [for_each].
      apply bind_Raise. rewrite (proj2 (String.eqb_eq _ _) Hid). rewrite (bind_Ok _ _ _ _ _ (Hlc b' _ Href')).
      rewrite existsb_app. cbn. by rewrite String.eqb_refl, orb_true_r.
  - intros imsi sim Hf Hnd. destruct (drop_sim_spec imsi sims sim Hf) as [Hrm Hp].
    set (sims' := drop_sim imsi sims) in *.
    assert (Himsi : sim_imsi sim = imsi) by (apply find_some in Hf as [_ Hf]; by apply String.eqb_eq).
    assert (Hgone : imsi ∉ sim_imsi <$> sims').
    { rewrite Hp in Hnd. cbn in Hnd. apply NoDup_cons in Hnd as [Hn _]. by rewrite <-Himsi. }
    destruct (refused_configuration k id b a u i sims search e sims' [sim] Href) as (b' & E & Hx & Href').
    exists b', sims'. split_and!; [|done|done|done|].
    + unfold _del_sim. rewrite (bind_Ok _ _ _ _ _ (Hga b sims Href)), Hu. cbn [del_sim_from].
      rewrite (proj2 (String.eqb_eq _ _) Hid). rewrite (bind_Ok _ _ _ _ _ (Hlc b sims Href)), Hf, Hrm. exact E.
    + unfold _del_sim. rewrite (bind_Ok _ _ _ _ _ (Hga b' _ Href')), Hu. cbn [del_sim_from].
      rewrite (proj2 (String.eqb_eq _ _) Hid). rewrite (bind_Ok _ _ _ _ _ (Hlc b' _ Href')).
      destruct (find _ sims') as [s|] eqn:Ef; [|done]. exfalso. apply Hgone. apply find_some in Ef as [Hin Heq].
      apply String.eqb_eq in Heq. apply list_elem_of_fmap. exists s. split; [done|]. by apply list_elem_of_In.
Qed.
End errors.

(** ** On the concrete provider *)
Module Concrete.
Export UeransimProps.Concrete.

#[export] Program Instance lab_network_laws : NetworkLaws (X := Lab) := {| networks := lab_networks |}.
Next Obligation. intros n x x'. cbn. case_bool_decide; intros [= <-]. cbn. set_solver. Qed.
Next Obligation. intros n x Hn. cbn. rewrite bool_decide_eq_true_2 by done. by eexists. Qed.
Next Obligation. intros n x. cbn. case_bool_decide; cbn; set_solver. Qed.
Next Obligation. intros v x. cbn -[String.eqb]. by destruct (String.eqb _ _). Qed.
Next Obligation. done. Qed.
Next Obligation. done. Qed.
Next Obligation. intros v p x. cbn. by destruct (lab_refuses x). Qed.
Solve Obligations with done.

Definition no_order (l : list string) : list string := l.
Definition lab_created : Blueprint UeransimConf UeransimState Lab := lab_create.2.

Lemma area_used_once_witness : ∃ b1 e,
  _create_gnb no_order "blue" "3" lab_created = (Ok tt, b1) ∧
  (after_all no_order (λ p, p) "blue" [DelGNB "3"] b1).(state).(areas) = lab_created.(state).(areas) ∧
  (_create_gnb no_order "blue" "3" (after_all no_order (λ p, p) "blue" [DelGNB "3"] b1)).1 = Raise e.
Proof.
  destruct (_create_gnb no_order "blue" "3" lab_created) as [r b1] eqn:E.
  assert (Hr : r = Ok tt) by (apply (f_equal fst) in E; vm_compute in E; by symmetry). subst r.
  destruct (area_used_once no_order (λ p, p) "blue" "3" lab_created b1 [DelGNB "3"] E) as [e He].
  exists b1, e. split_and!; [done| |exact He]. apply (f_equal snd) in E. cbn [snd] in E. subst b1. vm_compute. reflexivity.
Defined.

(** Two UEs in an area, of which the second is asked to go. *)
Definition lab_two : Blueprint UeransimConf UeransimState Lab :=
  after_all no_order (λ p, p) "blue" [AddUE "1" (lab_ue 2 [])] lab_created.
Lemma delete_ue_needs_no_other_witness :
  (_delete_ue "1" 2 lab_two).1 = Raise BlueprintNGException ∧
  (_delete_ue "1" 1 lab_two).1 = Raise BlueprintNGException ∧
  size (lab_servers (ext (_delete_ue "1" 1 lab_two).2)) = 2%nat ∧
  ∃ u us a, od_get "1" (areas (state lab_two)) = Some a ∧ ues a = u :: us ∧
    _delete_ue "1" 2 lab_two = (Raise BlueprintNGException, lab_two).
Proof.
  split_and!; [vm_compute; reflexivity..|].
  destruct (od_get "1" (areas (state lab_two))) as [a|] eqn:Ea; [|vm_compute in Ea; discriminate Ea].
  destruct (ues a) as [|u us] eqn:Eu.
  { vm_compute in Ea. injection Ea as <-. discriminate Eu. }
  exists u, us, a. split_and!; [done|done|].
  apply (delete_ue_needs_no_other (λ p, p) "1" 2 a lab_two Ea) with u us; [done|].
  vm_compute in Ea. injection Ea as <-. injection Eu as <- _. vm_compute. discriminate.
Defined.

(** The machine of UE 1 refuses playbooks. *)
Definition lab_refusing : Blueprint UeransimConf UeransimState Lab :=
  set_ext {| lab_next := lab_next (ext lab_created); lab_servers := lab_servers (ext lab_created);
             lab_running := lab_running (ext lab_created); lab_networks := lab_networks (ext lab_created);
             lab_refuses := true |} lab_created.
Lemma failed_sims_cannot_be_retried_witness :
  ∃ b', (_del_sim (λ p, p) "1" 1 "001010000000001" lab_refusing) = (Raise (ExternalError 2), b') ∧
    (_del_sim (λ p, p) "1" 1 "001010000000001" b').1 = Raise BlueprintNGException.
Proof.
  assert (H : ∃ a u i sims search, refusing "1" 1 lab_refusing a u i sims search (ExternalError 2) ∧
    ∃ sim, find (λ s, String.eqb (sim_imsi s) "001010000000001") sims = Some sim ∧ NoDup (sim_imsi <$> sims)).
  { do 5 eexists. split.
    - constructor; [vm_compute; reflexivity|vm_compute; reflexivity|vm_compute; reflexivity|vm_compute; reflexivity|].
      eexists. split_and!; [vm_compute; reflexivity|vm_compute; reflexivity|vm_compute; reflexivity|intros p; reflexivity].
    - eexists. split; [vm_compute; reflexivity|]. vm_compute. apply NoDup_singleton. }
  destruct H as (a & u & i & sims & search & Href & sim & Hf & Hnd).
  destruct (proj2 (failed_sims_cannot_be_retried (λ p, p) "1" 1 lab_refusing a u i sims search (ExternalError 2) Href) _ sim Hf Hnd)
    as (b' & sims' & E & _ & _ & _ & E').
  exists b'. split; [exact E|]. by rewrite E'.
Defined.
End Concrete.
