(* ===== verification/Upf5G.v ===== *)
(** * UPF blueprints

    blueprints_ng/modules/generic_5g/generic_5g_upf.py, what UPF blueprints share, and
    blueprints_ng/modules/sdcore_upf/sdcore_upf_blueprint.py, which deploys a machine for each data network. *)

From Stdlib Require Import Ascii.
From stdpp Require Import base list strings gmap pretty.
From Stdlib Require Import ZArith Lia.
From S2P Require Import Prelude Ipam IPv4Text Core5GModels Ansible Resources Deployment.

Open Scope Z_scope.

#[export] Instance DeployedUPFInfo_eq_dec : EqDecision DeployedUPFInfo.
Proof.
  assert (EqDecision DnnModel) by solve_decision.
  assert (EqDecision SliceModel) by solve_decision.
  assert (EqDecision UPFNetworkInfo) by solve_decision.
  solve_decision.
Defined.

(** ** What they share: the requests and what is deployed; [own] is the part of the subclass *)
Record UpfState (E : Type) := {
  create_config : option UPFBlueCreateModel;
  current_config : option UPFBlueCreateModel;
  upf_list : list DeployedUPFInfo;
  vm_resources : list (string * loc);
  own : E
}.
Arguments create_config {_} _.
Arguments current_config {_} _.
Arguments upf_list {_} _.
Arguments vm_resources {_} _.
Arguments own {_} _.

Section generic.
Context {K E X : Type} `{!Provider X} `{!Configurator K}.
#[local] Abbreviation B := (M (Blueprint K (UpfState E) X)).

Definition set_create_config m (s : UpfState E) : UpfState E :=
  {| create_config := Some m; current_config := current_config s; upf_list := upf_list s; vm_resources := vm_resources s; own := own s |}.
Definition set_current_config m (s : UpfState E) : UpfState E :=
  {| create_config := create_config s; current_config := Some m; upf_list := upf_list s; vm_resources := vm_resources s; own := own s |}.
Definition set_upf_list l (s : UpfState E) : UpfState E :=
  {| create_config := create_config s; current_config := current_config s; upf_list := l; vm_resources := vm_resources s; own := own s |}.
Definition set_vm_resources l (s : UpfState E) : UpfState E :=
  {| create_config := create_config s; current_config := current_config s; upf_list := upf_list s; vm_resources := l; own := own s |}.
Definition set_own o (s : UpfState E) : UpfState E :=
  {| create_config := create_config s; current_config := current_config s; upf_list := upf_list s; vm_resources := vm_resources s; own := o |}.

Definition attr {A} (o : option A) : B A := match o with Some a => mret a | None => raise AttributeError end.
Definition get_current : B UPFBlueCreateModel := s ← get_state; attr (current_config s).
Definition get_created : B UPFBlueCreateModel := s ← get_state; attr (create_config s).

Definition upf_create (create_upf : B unit) (create_model : UPFBlueCreateModel) : B unit :=
  update_state (set_create_config create_model) ;;
  update_state (set_current_config create_model) ;;
  create_upf.
Definition upf_update (update_upf : B unit) (create_model : UPFBlueCreateModel) : B unit :=
  update_state (set_current_config create_model) ;;
  update_upf.
Definition day2_update_upf (update_upf : B unit) (update_model : UPFBlueCreateModel) : B unit :=
  c ← get_current;
  if negb (upf_area_id update_model =? upf_area_id c) then raise ValueError else upf_update update_upf update_model.
Definition get_upfs_info : B (list DeployedUPFInfo) := s ← get_state; mret (upf_list s).

(** [vm.network_interfaces[network][0].fixed], and the addresses of a machine on the networks of a request. *)
Definition fixed_on (network : string) (v : VmResource) : result VmResourceNetworkInterfaceAddress :=
  i ← first_interface network v; Ok (fixed i).
Definition network_info_of (n : BlueCreateModelNetworks) (v : VmResource) : result UPFNetworkInfo :=
  a4 ← fixed_on (n4_net n) v; c4 ← IPv4Network_str (cidr a4);
  a3 ← fixed_on (n3_net n) v; c3 ← IPv4Network_str (cidr a3);
  a6 ← fixed_on (n6_net n) v; c6 ← IPv4Network_str (cidr a6);
  i4 ← IPv4Address_str (ip a4);
  i3 ← IPv4Address_str (ip a3);
  i6 ← IPv4Address_str (ip a6);
  Ok {| n4_cidr := c4; n3_cidr := c3; n6_cidr := c6; upf_n4_ip := i4; upf_n3_ip := i3; upf_n6_ip := i6 |}.
End generic.

(** ** SD-Core: the configuration of a UPF, and its playbook *)
Record SDCoreUPFConfiguration := {
  upf_mode : string;
  n3_nic_name : string;
  n6_nic_name : string;
  n3_net_cidr : string;
  n6_net_cidr : string;
  n3_nic_mac : string;
  n6_nic_mac : string;
  n3_nh_ip : string;
  n6_nh_ip : string;
  n3_route : string;
  n6_route : string;
  start : bool;
  conf_dnn : string;
  ue_ip_pool_cidr : string
}.
Record SDCoreUPFConfigurator := { sc_vm : loc; configuration : SDCoreUPFConfiguration }.

Definition configuration_fields (c : SDCoreUPFConfiguration) : list (string * pyval) :=
  [("upf_mode", VStr (upf_mode c)); ("n3_nic_name", VStr (n3_nic_name c)); ("n6_nic_name", VStr (n6_nic_name c));
   ("n3_net_cidr", VStr (n3_net_cidr c)); ("n6_net_cidr", VStr (n6_net_cidr c)); ("n3_nic_mac", VStr (n3_nic_mac c));
   ("n6_nic_mac", VStr (n6_nic_mac c)); ("n3_nh_ip", VStr (n3_nh_ip c)); ("n6_nh_ip", VStr (n6_nh_ip c));
   ("n3_route", VStr (n3_route c)); ("n6_route", VStr (n6_route c)); ("start", VBool (start c)); ("dnn", VStr (conf_dnn c));
   ("ue_ip_pool_cidr", VStr (ue_ip_pool_cidr c))].
Definition arping (nic next_hop : string) : string := "sudo arping -r -c 1 -I " +:+ nic +:+ " " +:+ next_hop.
Definition sdcore_upf_playbook (rel_path : string → string) (c : SDCoreUPFConfiguration) : AnsiblePlaybook :=
  let p := new_builder "Playbook SDCoreUPFConfigurator" in
  let p := add_run_command_and_gather_output_tasks (arping (n3_nic_name c) (n3_nh_ip c)) "n3_nh_mac" p in
  let p := add_run_command_and_gather_output_tasks (arping (n6_nic_name c) (n6_nh_ip c)) "n6_nh_mac" p in
  let p := add_template_task (rel_path "config/upf.jsonc.jinja2") "/opt/upf/upf.jsonc" None p in
  let p := add_template_task (rel_path "config/run_upf.env.jinja2") "/opt/upf/run_upf.env" None p in
  let p := set_vars_from_fields (configuration_fields c) p in
  if start c then add_service_task "sdcore-upf" RESTARTED true p else p.
Definition sdcore_upf_configurator (rel_path : string → string) : Configurator SDCoreUPFConfigurator :=
  {| vm_resource := sc_vm; dump_playbook _ c := (Ok (build (sdcore_upf_playbook rel_path (configuration c))), c) |}.

(** ** The blueprint *)
Record SdUpfOwn := {
  vm_configurators : list (string * loc);
  currently_deployed_dnns : list (string * DeployedUPFInfo)
}.
Definition set_configurators l (o : SdUpfOwn) : SdUpfOwn := {| vm_configurators := l; currently_deployed_dnns := currently_deployed_dnns o |}.
Definition set_deployed l (o : SdUpfOwn) : SdUpfOwn := {| vm_configurators := vm_configurators o; currently_deployed_dnns := l |}.

Definition sdcore_upf_image : VmResourceImage :=
  {| image_name := "sd-core-upf-v1.4.0-2"; image_url := Some "https://images.tnt-lab.unige.it/sd-core-upf/sd-core-upf-v1.4.0-2-ubuntu2404.qcow2";
     check_sha512sum := false |}.
Definition sdcore_upf_flavor : VmResourceFlavor :=
  {| flavor_name := None; vcpu_count := "4"; memory_mb := "8192"; storage_gb := "10"; vcpu_type := Some "host";
     flavor_port_security := Some false |}.

(** Names of data networks may be [None] in a request: this is their text, and their place in a set of names. *)
Definition name_text (o : option string) : string := match o with Some s => s | None => "None" end.
Definition requested (c : UPFBlueCreateModel) : list (option string) := concat ((λ slice, dnn_name <$> dnn_list slice) <$> upf_slices c).
Definition mentions (d : option string) (x : DnnModel) : bool := bool_decide (dnn_name x = d).
Fixpoint pool_loop (d : option string) (l : list DnnModel) (found_ip_pool : option string) : result (option string) :=
  match l with
  | [] => Ok found_ip_pool
  | x :: l' =>
      if mentions d x then
        match found_ip_pool with
        | None => pool_loop d l' (dnn_cidr x)
        | Some _ => if bool_decide (found_ip_pool = dnn_cidr x) then pool_loop d l' found_ip_pool else Raise ValueError
        end
      else pool_loop d l' found_ip_pool
  end.
Definition get_dnn_ip_pool (d : option string) (c : UPFBlueCreateModel) : result string :=
  o ← pool_loop d (concat (dnn_list <$> upf_slices c)) None;
  match o with Some s => Ok s | None => Raise ValueError end.
Definition get_slices_for_dnn (d : option string) (c : UPFBlueCreateModel) : list SliceModel :=
  List.filter (λ slice, existsb (mentions d) (dnn_list slice)) (upf_slices c).

Section sdcore_upf.
Context {X : Type} `{!Provider X}.
Variable set_order : list string → list string.   (* in which a set of networks is iterated *)
Variable dnn_order : list (option string) → list (option string).   (* and a set of names of data networks *)
Variable rel_path : string → string.
Variable self_id : string.
#[local] Instance upf_configurator : Configurator SDCoreUPFConfigurator := sdcore_upf_configurator rel_path.
#[local] Abbreviation Blue := (Blueprint SDCoreUPFConfigurator (UpfState SdUpfOwn) X).
#[local] Abbreviation B := (M Blue).

(** What the configurator is built from; [None] is refused where the model has a text or a truth value. *)
Definition configuration_of (d : option string) (c : UPFBlueCreateModel) (v : VmResource) : result SDCoreUPFConfiguration :=
  let n := upf_networks c in
  a3 ← fixed_on (n3_net n) v;
  a6 ← fixed_on (n6_net n) v;
  pool ← get_dnn_ip_pool d c;
  match upf_start c, d with
  | Some start, Some name =>
      Ok {| upf_mode := "dpdk"; n3_nic_name := interface_name a3; n6_nic_name := interface_name a6; n3_net_cidr := get_ip_prefix a3;
            n6_net_cidr := get_ip_prefix a6; n3_nic_mac := mac a3; n6_nic_mac := mac a6; n3_nh_ip := exploded (n3_gateway_ip c);
            n6_nh_ip := exploded (n6_gateway_ip c); n3_route := net_exploded (upf_gnb_cidr c); n6_route := "0.0.0.0/0"; start := start;
            conf_dnn := name; ue_ip_pool_cidr := pool |}
  | _, _ => Raise ValidationError
  end.
(** The identifier of a registered object. *)
Definition id_at (l : loc) : B string := o ← load l; match obj_id o with Some i => mret i | None => raise ValidationError end.

Definition deploy_upf_vm (d : option string) : B DeployedUPFInfo :=
  c ← get_current;
  let n := upf_networks c in
  upf_vm ← alloc (OVm (new_VmResource set_order (upf_area_id c)
    (self_id +:+ "_" +:+ pretty (upf_area_id c) +:+ "_SDCORE_UPF_" +:+ name_text d) sdcore_upf_image sdcore_upf_flavor "ubuntu" "ubuntu"
    (mgt_net n) [n4_net n; n3_net n; n6_net n] (Some true)));
  register_resource upf_vm ;;
  provider_create_vm upf_vm ;;
  v ← load_vm upf_vm;
  configuration ← liftR (configuration_of d c v);
  conf ← alloc (OConf None {| sc_vm := upf_vm; configuration := configuration |});
  register_resource conf ;;
  provider_configure_vm conf ;;
  vm_id ← id_at upf_vm;
  conf_id ← id_at conf;
  update_state (λ s, set_vm_resources (od_set vm_id upf_vm (vm_resources s)) s) ;;
  update_state (λ s, set_own (set_configurators (od_set conf_id conf (vm_configurators (own s))) (own s)) s) ;;
  created ← get_created;
  info ← liftR (network_info_of (upf_networks created) v);
  mret {| deployed_area := upf_area_id c; served_slices := get_slices_for_dnn d c; network_info := Some info;
          vm_resource_id := vm_id; vm_configurator_id := conf_id |}.

Definition deregister_resource_by_id (i : string) : B unit :=
  b ← getS;
  if od_in i (registered_resources b) then putS (set_registered (od_pop i (registered_resources b)) b) else raise BlueprintNGException.
Definition undeploy_upf_vm (d : string) : B DeployedUPFInfo :=
  s ← get_state;
  upf_info ← liftR (od_getitem d (currently_deployed_dnns (own s)));
  vm ← liftR (od_getitem (vm_resource_id upf_info) (vm_resources s));
  provider_destroy_vm vm ;;
  deregister_resource_by_id (vm_resource_id upf_info) ;;
  deregister_resource_by_id (vm_configurator_id upf_info) ;;
  update_state (λ s, set_vm_resources (od_pop (vm_resource_id upf_info) (vm_resources s)) s) ;;
  s ← get_state;
  (if od_in (vm_configurator_id upf_info) (vm_configurators (own s)) then mret tt else raise KeyError) ;;
  update_state (λ s, set_own (set_configurators (od_pop (vm_configurator_id upf_info) (vm_configurators (own s))) (own s)) s) ;;
  mret upf_info.

Definition is_deployed (d : option string) (s : UpfState SdUpfOwn) : bool :=
  match d with Some name => od_in name (currently_deployed_dnns (own s)) | None => false end.
Definition deploy_missing (d : option string) : B unit :=
  s ← get_state;
  if is_deployed d s then mret tt
  else
    deployed_info ← deploy_upf_vm d;
    update_state (λ s, set_upf_list (upf_list s ++ [deployed_info]) s) ;;
    update_state (λ s, set_own (set_deployed (od_set (name_text d) deployed_info (currently_deployed_dnns (own s))) (own s)) s).
Definition undeploy_one (d : option string) : B unit :=
  let d := name_text d in
  deployed_info ← undeploy_upf_vm d;
  s ← get_state;
  l ← liftR (py_remove (λ a b, bool_decide (a = b)) deployed_info (upf_list s));
  update_state (set_upf_list l) ;;
  update_state (λ s, set_own (set_deployed (od_pop d (currently_deployed_dnns (own s))) (own s)) s).
Definition update_deployments : B unit :=
  c ← get_current;
  let dnns_to_deploy := requested c in
  for_each (dnn_order (remove_dups dnns_to_deploy)) deploy_missing ;;
  s ← get_state;
  let dnn_to_undeploy := List.filter (λ d, negb (bool_decide (d ∈ dnns_to_deploy))) (Some <$> od_keys (currently_deployed_dnns (own s))) in
  for_each (dnn_order dnn_to_undeploy) undeploy_one.

Definition sd_upf_create : UPFBlueCreateModel → B unit := upf_create update_deployments.
Definition sd_upf_update : UPFBlueCreateModel → B unit := day2_update_upf update_deployments.
End sdcore_upf.
