(* ===== verification/Upf5GProps.v ===== *)
(** * The UPFs deployed are those of the last request

    Theorems on Upf5G: after a request that returns, an SD-Core UPF blueprint has one UPF for each data network of the
    request, whatever was asked for and failed before. *)

From stdpp Require Import base list strings gmap pretty.
From Stdlib Require Import ZArith Lia.
From S2P Require Import Prelude Ipam IPv4Text Core5GModels Ansible Resources Deployment DeploymentSteps UeransimProps Upf5G.

Open Scope Z_scope.

Section upfs.
Context {X : Type} `{!Provider X} `{!ProviderLaws X}.
Variable set_order : list string → list string.
Variable dnn_order : list (option string) → list (option string).
Variable rel_path : string → string.
Variable self_id : string.
#[local] Instance this_configurator : Configurator SDCoreUPFConfigurator := upf_configurator rel_path.
#[local] Instance this_laws : ConfiguratorLaws SDCoreUPFConfigurator.
Proof. refine {| same_conf c c' := c' = c |}; [done|congruence|done]. Defined.
#[local] Abbreviation Blue := (Blueprint SDCoreUPFConfigurator (UpfState SdUpfOwn) X).
#[local] Abbreviation B := (M Blue).
Implicit Types (b : Blue) (c : UPFBlueCreateModel) (d : option string) (D : list (string * DeployedUPFInfo)) (L : list DeployedUPFInfo).

#[local] Abbreviation deploy := (deploy_upf_vm set_order rel_path self_id).
#[local] Abbreviation create := (sd_upf_create set_order dnn_order rel_path self_id).
#[local] Abbreviation update := (sd_upf_update set_order dnn_order rel_path self_id).

(** The request in force, and what the state says is deployed. *)
Definition shows c D L b : Prop :=
  current_config (state b) = Some c ∧ currently_deployed_dnns (own (state b)) = D ∧ upf_list (state b) = L.

Lemma shows_grows {A} c D L (m : B A) : grows m → preserves (shows c D L) m.
Proof. intros Hg b Hb. destruct (Hg b) as [E _]. unfold shows. by rewrite E. Qed.
Lemma shows_reads {A} c D L (m : B A) : reads m → preserves (shows c D L) m.
Proof. apply preserves_reads. Qed.
Lemma shows_update c D L f : (∀ b, shows c D L b → shows c D L (set_state (f (state b)) b)) → preserves (shows c D L) (update_state f : B unit).
Proof. intros Hf b Hb. by apply Hf. Qed.
Lemma shows_attr {A} c D L (o : option A) : preserves (shows c D L) (attr o : B A).
Proof. destruct o; [apply preserves_ret|apply preserves_raise]. Qed.
Lemma shows_deregister c D L i : preserves (shows c D L) (deregister_resource_by_id i : B unit).
Proof. intros b Hb. unfold deregister_resource_by_id. rewrite bind_getS. by destruct (od_in _ _). Qed.
Lemma shows_current {A} c D L b (f : UPFBlueCreateModel → B A) : shows c D L b → (get_current ≫= f) b = f c b.
Proof.
  intros [E _]. unfold get_current. assert (Hg : (get_current : B _) b = (Ok c, b)) by (unfold get_current, get_state; run_M; by rewrite E).
  by rewrite (bind_Ok _ _ _ _ _ Hg).
Qed.

(** A deployment, also one that fails, changes nothing of this. *)
Lemma deploy_shows c D L d : preserves (shows c D L) (deploy d : B _).
Proof.
  intros b Hb. unfold deploy_upf_vm. rewrite (shows_current c D L) by done. cbv zeta. revert b Hb.
  apply preserves_bind; [apply shows_grows, grows_alloc|]. intros vm.
  apply preserves_bind; [apply shows_grows, grows_register|]. intros [].
  apply preserves_bind; [apply shows_grows, grows_create_vm; apply _|]. intros [].
  apply preserves_bind; [apply shows_reads, reads_load_vm|]. intros v.
  apply preserves_bind; [apply preserves_liftR|]. intros k.
  apply preserves_bind; [apply shows_grows, grows_alloc|]. intros l.
  apply preserves_bind; [apply shows_grows, grows_register|]. intros [].
  apply preserves_bind; [apply shows_grows, grows_configure_vm|]. intros r.
  assert (Hid : ∀ l, preserves (shows c D L) (id_at l : B string)).
  { intros l'. unfold id_at. apply preserves_bind; [apply shows_reads, reads_load|]. intros o. destruct (obj_id o); [apply preserves_ret|apply preserves_raise]. }
  apply preserves_bind; [apply Hid|]. intros i. apply preserves_bind; [apply Hid|]. intros j.
  apply preserves_bind; [by apply shows_update|]. intros [].
  apply preserves_bind; [by apply shows_update|]. intros [].
  apply preserves_bind; [unfold get_created; apply preserves_bind; [by apply shows_reads, reads_get_state|intros s; apply shows_attr]|]. intros m.
  apply preserves_bind; [apply preserves_liftR|]. intros n. apply preserves_ret.
Qed.

(** What a deployment returns describes a UPF for the data network. *)
Definition serves c (name : string) (info : DeployedUPFInfo) : Prop :=
  deployed_area info = upf_area_id c ∧ served_slices info = get_slices_for_dnn (Some name) c ∧ is_Some (network_info info).
Lemma deploy_returns c D L d b info b' : shows c D L b → deploy d b = (Ok info, b') →
  ∃ name, d = Some name ∧ serves c name info.
Proof.
  intros Hb H. unfold deploy_upf_vm in H. rewrite (shows_current c D L) in H by done. cbv zeta in H.
  repeat match type of H with (_ ≫= _) _ = (Ok _, _) => apply bind_Ok_inv in H as (? & ? & ? & H) end.
  injection H as <- <-. destruct d as [name|].
  - exists name. split; [done|]. split_and!; [done|done|by eexists].
  - match goal with Hc : liftR (configuration_of None _ _) _ = (Ok _, _) |- _ => rename Hc into Hk end. exfalso. revert Hk.
    unfold configuration_of, liftR, mbind, result_bind. repeat (case_match; try done).
Qed.

Lemma undeploy_shows c D L name : preserves (shows c D L) (undeploy_upf_vm name : B _).
Proof.
  unfold undeploy_upf_vm. apply preserves_bind; [apply shows_reads, reads_get_state|]. intros s.
  apply preserves_bind; [apply preserves_liftR|]. intros info. apply preserves_bind; [apply preserves_liftR|]. intros vm.
  apply preserves_bind; [apply shows_grows, grows_destroy_vm|]. intros [].
  apply preserves_bind; [apply shows_deregister|]. intros []. apply preserves_bind; [apply shows_deregister|]. intros [].
  apply preserves_bind; [by apply shows_update|]. intros [].
  apply preserves_bind; [apply shows_reads, reads_get_state|]. intros s'.
  apply preserves_bind; [destruct (od_in _ _); [apply preserves_ret|apply preserves_raise]|]. intros [].
  apply preserves_bind; [by apply shows_update|]. intros []. apply preserves_ret.
Qed.
Lemma undeploy_returns c D L name b info b' : shows c D L b → undeploy_upf_vm name b = (Ok info, b') → od_get name D = Some info.
Proof.
  intros (_ & E & _) H. unfold undeploy_upf_vm in H. apply bind_Ok_inv in H as (s & b1 & Hs & H).
  injection Hs as <- <-. rewrite E in H. unfold od_getitem in H. destruct (od_get name D) as [i|]; [|done].
  rewrite bind_liftR in H.
  repeat match type of H with (_ ≫= _) _ = (Ok _, _) => apply bind_Ok_inv in H as (? & ? & ? & H) end.
  by injection H as <- <-.
Qed.

(** ** The two loops *)
Definition tidy D L : Prop := NoDup (od_keys D) ∧ L ≡ₚ od_values D.
Definition settled c b : Prop := ∃ D L, shows c D L b ∧ tidy D L.

Lemma tidy_add D L name info : tidy D L → od_get name D = None → tidy (od_set name info D) (L ++ [info]).
Proof.
  intros [Hn HL] Hg. split; [by apply od_keys_set_NoDup|]. rewrite od_set_new by done. unfold od_values in *.
  rewrite fmap_app. cbn. by rewrite HL.
Qed.
Lemma values_pop name info D : od_get name D = Some info → od_values D ≡ₚ info :: od_values (od_pop name D).
Proof.
  induction D as [|[k v] D IH]; [done|]. cbn. destruct (String.eqb k name); [by intros [= ->]|]. intros H. cbn.
  rewrite (IH H). apply Permutation_swap.
Qed.
Lemma remove_info info L L' : L ≡ₚ info :: L' → ∃ L'', py_remove (λ x y, bool_decide (x = y)) info L = Ok L'' ∧ L'' ≡ₚ L'.
Proof.
  intros HL. destruct (py_remove (λ x y, bool_decide (x = y)) info L) as [L''|e] eqn:E.
  - exists L''. split; [done|]. apply py_remove_inv in E as (i & y & Hy & Heq & ->). apply bool_decide_eq_true in Heq as ->.
    apply (Permutation_cons_inv (a:=info)). rewrite <-HL. symmetry. by apply delete_Permutation.
  - exfalso. unfold py_remove in E. destruct (find_index _ L) eqn:Ef; [done|].
    pose proof (proj1 (find_index_None _ _) Ef info) as Hf. cbv beta in Hf. rewrite bool_decide_true in Hf by done.
    specialize (Hf ltac:(rewrite HL; by left)). done.
Qed.

Lemma deploy_missing_cases d c D L b : shows c D L b → tidy D L →
  match deploy_missing set_order rel_path self_id d b with
  | (Ok _, b') => ∃ name D' L', d = Some name ∧ shows c D' L' b' ∧ tidy D' L' ∧
      (od_in name D = true ∧ D' = D ∨ od_get name D = None ∧ ∃ info, serves c name info ∧ D' = od_set name info D)
  | (Raise _, b') => settled c b'
  end.
Proof.
  intros Hb Ht. unfold deploy_missing. assert (Hs : (get_state : B _) b = (Ok (state b), b)) by done.
  rewrite (bind_Ok _ _ _ _ _ Hs). destruct (is_deployed d (state b)) eqn:Ed.
  - destruct d as [name|]; [|done]. cbn in Ed. pose proof Hb as (_ & E & _). rewrite E in Ed. exists name, D, L. split_and!; [done..|by left].
  - pose proof (deploy_shows c D L d b Hb) as Hb1. destruct (deploy d b) as [[info|e] b1] eqn:E1.
    2: { rewrite (bind_Raise _ _ _ _ _ E1). by exists D, L. }
    destruct (deploy_returns c D L d b info b1 Hb E1) as (name & -> & Hi). rewrite (bind_Ok _ _ _ _ _ E1).
    assert (Hg : od_get name D = None) by (apply od_in_false; pose proof Hb as (_ & <- & _); exact Ed).
    destruct Hb1 as (E2 & E3 & E4). cbn [snd] in E2, E3, E4.
    exists name, (od_set name info D), (L ++ [info]). split; [done|]. split; [|split; [by apply tidy_add|right; split; [done|by exists info]]].
    unfold shows. cbn. by rewrite E2, E3, E4.
Qed.

Definition deployed_after c D (ds : list (option string)) D' : Prop :=
  (∀ d, d ∈ ds → ∃ name, d = Some name ∧ od_in name D' = true) ∧
  (∀ name info, od_get name D = Some info → od_get name D' = Some info) ∧
  (∀ name info, od_get name D' = Some info → od_get name D = Some info ∨ od_get name D = None ∧ Some name ∈ ds ∧ serves c name info).
Lemma deploy_loop ds c D L b : shows c D L b → tidy D L →
  match for_each ds (deploy_missing set_order rel_path self_id) b with
  | (Ok _, b') => ∃ D' L', shows c D' L' b' ∧ tidy D' L' ∧ deployed_after c D ds D'
  | (Raise _, b') => settled c b'
  end.
Proof.
  revert D L b. induction ds as [|d ds IH]; intros D L b Hb Ht.
  { exists D, L. split_and!; [done..|]. split_and!; [by intros d ?%not_elem_of_nil|done|by left]. }
  cbn [for_each]. pose proof (deploy_missing_cases d c D L b Hb Ht) as H1. unfold mbind, M_bind.
  destruct (deploy_missing _ _ _ d b) as [[[]|e] b1]; [|done]. destruct H1 as (name & D1 & L1 & -> & Hb1 & Ht1 & H1).
  specialize (IH D1 L1 b1 Hb1 Ht1). destruct (for_each ds _ b1) as [[[]|e] b2]; [|done].
  destruct IH as (D2 & L2 & Hb2 & Ht2 & Ha & Hk & Hn). exists D2, L2. split; [done|]. split; [done|].
  assert (H1k : ∀ n i, od_get n D = Some i → od_get n D1 = Some i).
  { intros n i Hi. destruct H1 as [[_ ->]|(Hg & info & _ & ->)]; [done|]. rewrite od_get_set_ne; [done|]. intros ->. congruence. }
  assert (H1n : od_in name D1 = true).
  { destruct H1 as [[Hin ->]|(_ & info & _ & ->)]; [done|]. unfold od_in. by rewrite od_get_set_eq. }
  split_and!.
  - intros d [->|Hd]%elem_of_cons; [|by apply Ha]. exists name. split; [done|]. unfold od_in in *.
    destruct (od_get name D1) as [i|] eqn:Ei; [|done]. by rewrite (Hk name i Ei).
  - auto.
  - intros n i [Hi|(Hg & Hin & Hs)]%Hn.
    + destruct H1 as [[_ ->]|(Hg & info & Hs & ->)]; [by left|]. rewrite od_get_set in Hi. destruct (String.eqb_spec name n) as [<-|]; [|by left].
      injection Hi as <-. right. split_and!; [done|by left|done].
    + right. split; [|split; [by right|done]]. destruct (od_get n D) as [j|] eqn:Ej; [|done]. by rewrite (H1k n j Ej) in Hg.
Qed.

Lemma undeploy_one_cases name c D L b : shows c D L b → tidy D L →
  match undeploy_one (Some name) b with
  | (Ok _, b') => ∃ L', shows c (od_pop name D) L' b' ∧ tidy (od_pop name D) L'
  | (Raise _, b') => settled c b'
  end.
Proof.
  intros Hb [Hn HL]. unfold undeploy_one. cbn [name_text]. pose proof (undeploy_shows c D L name b Hb) as Hb1.
  destruct (undeploy_upf_vm name b) as [[info|e] b1] eqn:E1.
  2: { rewrite (bind_Raise _ _ _ _ _ E1). by exists D, L. }
  pose proof (undeploy_returns c D L name b info b1 Hb E1) as Hg. rewrite (bind_Ok _ _ _ _ _ E1).
  assert (Hs : (get_state : B _) b1 = (Ok (state b1), b1)) by done. rewrite (bind_Ok _ _ _ _ _ Hs), bind_liftR.
  destruct Hb1 as (E2 & E3 & E4). cbn [snd] in E2, E3, E4. rewrite E4.
  destruct (remove_info info L (od_values (od_pop name D))) as (L' & -> & HL').
  { rewrite HL. by apply values_pop. }
  exists L'. split; [|split; [by apply od_keys_pop_NoDup|done]]. unfold shows. cbn. by rewrite E2, E3.
Qed.
Lemma undeploy_loop names c D L b : shows c D L b → tidy D L →
  match for_each (Some <$> names) undeploy_one b with
  | (Ok _, b') => ∃ L', shows c (foldl (λ D n, od_pop n D) D names) L' b' ∧ tidy (foldl (λ D n, od_pop n D) D names) L'
  | (Raise _, b') => settled c b'
  end.
Proof.
  revert D L b. induction names as [|n names IH]; intros D L b Hb Ht; [by exists L|].
  cbn [for_each fmap list_fmap foldl]. pose proof (undeploy_one_cases n c D L b Hb Ht) as H1. unfold mbind, M_bind.
  destruct (undeploy_one (Some n) b) as [[[]|e] b1]; [|done]. destruct H1 as (L1 & Hb1 & Ht1). by apply (IH _ L1).
Qed.
Lemma pop_all names D k : NoDup (od_keys D) →
  od_get k (foldl (λ D n, od_pop n D) D names) = if bool_decide (k ∈ names) then None else od_get k D.
Proof.
  revert D. induction names as [|n names IH]; intros D Hn; [done|]. cbn [foldl]. rewrite IH by by apply od_keys_pop_NoDup.
  rewrite od_get_pop by done. destruct (bool_decide_reflect (k ∈ names)) as [Hk|Hk].
  - by rewrite bool_decide_true by by right.
  - destruct (String.eqb_spec n k) as [->|Hne]; [by rewrite bool_decide_true by by left|].
    rewrite bool_decide_false; [done|]. by intros [->|?]%elem_of_cons.
Qed.

(** ** The requests *)
Context (order_perm : ∀ l, dnn_order l ≡ₚ l).

(** The UPFs after the request [c]: one for each of its data networks, those there were before as they were. *)
Definition follows c D D' : Prop :=
  (∀ name, name ∈ od_keys D' ↔ Some name ∈ requested c) ∧ None ∉ requested c ∧
  ∀ name info, od_get name D' = Some info →
    od_get name D = Some info ∨ od_get name D = None ∧ serves c name info.

Lemma texts (l : list (option string)) names : l ≡ₚ Some <$> names → ∃ names', l = Some <$> names' ∧ names' ≡ₚ names.
Proof. intros H. apply Permutation_map_inv in H as (l' & -> & H). exists l'. by split. Qed.

Lemma deployments_cases c D L b : shows c D L b → tidy D L →
  match update_deployments set_order dnn_order rel_path self_id b with
  | (Ok _, b') => ∃ D' L', shows c D' L' b' ∧ tidy D' L' ∧ follows c D D'
  | (Raise _, b') => settled c b'
  end.
Proof.
  intros Hb Ht. unfold update_deployments. rewrite (shows_current c D L) by done. cbv zeta.
  pose proof (deploy_loop (dnn_order (remove_dups (requested c))) c D L b Hb Ht) as H1. unfold mbind at 1, M_bind at 1.
  destruct (for_each _ _ b) as [[[]|e] b1]; [|done]. destruct H1 as (D1 & L1 & Hb1 & Ht1 & Hall & Hkeep & Hnew).
  assert (Hs : (get_state : B _) b1 = (Ok (state b1), b1)) by done. rewrite (bind_Ok _ _ _ _ _ Hs).
  pose proof Hb1 as (_ & -> & _).
  set (gone := List.filter (λ n, negb (bool_decide (Some n ∈ requested c))) (od_keys D1)).
  assert (Eg : List.filter (λ d, negb (bool_decide (d ∈ requested c))) (Some <$> od_keys D1) = Some <$> gone).
  { subst gone. induction (od_keys D1) as [|n l IH]; [done|]. cbn. rewrite IH. by destruct (negb _). }
  rewrite Eg. destruct (texts (dnn_order (Some <$> gone)) gone) as (names & -> & Hnames); [apply order_perm|].
  pose proof (undeploy_loop names c D1 L1 b1 Hb1 Ht1) as H2. destruct (for_each _ _ b1) as [[[]|e] b2]; [|done].
  destruct H2 as (L2 & Hb2 & Ht2). eexists _, L2. split; [exact Hb2|]. split; [done|].
  assert (Hreq : ∀ d, d ∈ requested c → ∃ name, d = Some name ∧ od_in name D1 = true).
  { intros d Hd. apply Hall. rewrite order_perm. by apply elem_of_remove_dups. }
  assert (Hget : ∀ k, od_get k (foldl (λ D n, od_pop n D) D1 names) = if bool_decide (Some k ∈ requested c) then od_get k D1 else None).
  { intros k. rewrite pop_all by apply Ht1. destruct (bool_decide_reflect (Some k ∈ requested c)) as [Hr|Hr].
    - rewrite bool_decide_false; [done|]. rewrite Hnames. intros [_ Hk]%list_elem_of_In%filter_In. by rewrite bool_decide_true in Hk.
    - destruct (od_get k D1) as [i|] eqn:Ei; [|by destruct (bool_decide _)]. rewrite bool_decide_true; [done|]. rewrite Hnames.
      apply list_elem_of_In, filter_In. split; [|by rewrite bool_decide_false]. apply list_elem_of_In, od_in_keys. unfold od_in. by rewrite Ei. }
  split_and!.
  - intros name. rewrite <-od_in_keys. unfold od_in. rewrite Hget. destruct (bool_decide_reflect (Some name ∈ requested c)) as [Hr|Hr]; [|done].
    split; [done|]. intros _. destruct (Hreq _ Hr) as (n & [= <-] & Hin). exact Hin.
  - intros Hr. by destruct (Hreq _ Hr) as (n & ? & _).
  - intros name info. rewrite Hget. destruct (bool_decide _); [|done]. intros [Hi|(? & _ & ?)]%Hnew; [by left|by right].
Qed.

Lemma created_cases m b : currently_deployed_dnns (own (state b)) = [] → upf_list (state b) = [] →
  match create m b with
  | (Ok _, b') => ∃ D' L', shows m D' L' b' ∧ tidy D' L' ∧ follows m [] D'
  | (Raise _, b') => settled m b'
  end.
Proof.
  intros HD HL. unfold sd_upf_create, upf_create, update_state. rewrite !bind_modifyS. apply (deployments_cases m [] []); [by split_and!|].
  split; [apply NoDup_nil_2|done].
Qed.
Lemma updated_cases c c0 D L b : shows c0 D L b → tidy D L →
  match update c b with
  | (Ok _, b') => upf_area_id c = upf_area_id c0 ∧ ∃ D' L', shows c D' L' b' ∧ tidy D' L' ∧ follows c D D'
  | (Raise _, b') => settled c b' ∨ b' = b
  end.
Proof.
  intros Hb Ht. unfold sd_upf_update, day2_update_upf. rewrite (shows_current c0 D L) by done.
  destruct (Z.eqb_spec (upf_area_id c) (upf_area_id c0)) as [Ea|]; cbn [negb]; [|by right].
  unfold upf_update, update_state. rewrite bind_modifyS.
  pose proof (deployments_cases c D L (set_state (set_current_config c (state b)) b)) as H.
  destruct Hb as (_ & E1 & E2). specialize (H (conj eq_refl (conj E1 E2)) Ht).
  destruct (update_deployments _ _ _ _ _) as [[[]|e] b']; [by split|by left].
Qed.

(** A new blueprint, created and then updated, whether or not the requests return. *)
Definition new_upf (x : X) : Blue :=
  {| objs := []; registered_resources := []; children_blue_ids := [];
     state := {| create_config := None; Upf5G.current_config := None; upf_list := []; vm_resources := [];
                 own := {| vm_configurators := []; currently_deployed_dnns := [] |} |}; ext := x |}.
Definition tried m (l : list UPFBlueCreateModel) (x : X) : Blue := foldl (λ b c, (update c b).2) (create m (new_upf x)).2 l.
Lemma tried_settled m l x : ∃ c, settled c (tried m l x).
Proof.
  assert (H0 : ∃ c, settled c (create m (new_upf x)).2).
  { exists m. pose proof (created_cases m (new_upf x) eq_refl eq_refl) as H. destruct (create m (new_upf x)) as [[[]|e] b]; [|done].
    destruct H as (D & L & ? & ? & _). by exists D, L. }
  revert H0. unfold tried. generalize (create m (new_upf x)).2. induction l as [|c l IH]; intros b H0; [done|]. cbn [foldl]. apply IH.
  destruct H0 as (c0 & D & L & Hb & Ht). pose proof (updated_cases c c0 D L b Hb Ht) as H.
  destruct (update c b) as [[[]|e] b'].
  - destruct H as (_ & D' & L' & ? & ? & _). exists c, D', L'. by split.
  - destruct H as [H| ->]; [by exists c|]. exists c0, D, L. by split.
Qed.

(** C22: the UPFs of an SD-Core UPF blueprint follow its requests.  Whatever a blueprint was asked for, wherever its creation
    or an update failed, and in whatever order sets of names are iterated, an update that returns leaves one UPF for each
    data network of the request and no other: the list of UPFs that other blueprints read has exactly these, those of data
    networks that had none are for the area of the request and the slices of it that have the data network, and those of
    data networks that had one are as they were. *)
Theorem upfs_follow_requests m l c x b' :
  update c (tried m l x) = (Ok tt, b') →
  let before := currently_deployed_dnns (own (state (tried m l x))) in
  let after := currently_deployed_dnns (own (state b')) in
  NoDup (od_keys after) ∧ upf_list (state b') ≡ₚ od_values after ∧ follows c before after.
Proof.
  intros H. destruct (tried_settled m l x) as (c0 & D & L & Hb & Ht). pose proof (updated_cases c c0 D L _ Hb Ht) as Hu.
  rewrite H in Hu. destruct Hu as (_ & D' & L' & (_ & E1 & E2) & [Hn HL] & Hf). cbv zeta. rewrite E1, E2.
  pose proof Hb as (_ & -> & _). done.
Qed.
End upfs.

(** ** A concrete history

    A UPF for the Internet; an update that moves it to another slice and is in force, one for another area that is refused,
    and one that replaces the Internet with video. *)
Module ConcreteUpf.
#[local] Existing Instances Concrete.lab_provider Concrete.lab_laws.
Definition lab_slice (id : string) (names : list string) : SliceModel :=
  {| slice_id := id; slice_type := EMBB; dnn_list := (λ n, {| dnn_name := Some n; dnn_cidr := Some "10.1.0.0/16" |}) <$> names |}.
Definition lab_request (area : Z) (l : list SliceModel) : UPFBlueCreateModel :=
  {| upf_area_id := area; upf_networks := {| mgt_net := "mgt"; n4_net := "n4"; n3_net := "n3"; n6_net := "n6" |}; nrf_ip := None;
     upf_slices := l; upf_start := Some true; n3_gateway_ip := 167772161; n6_gateway_ip := 167772162;
     upf_gnb_cidr := {| network_address := 167772160; prefixlen := 24 |} |}.
Definition history (updates : list UPFBlueCreateModel) :=
  tried (λ l, l) (λ l, l) (λ p, p) "blue" (lab_request 1 [lab_slice "000001" ["internet"]]) updates Concrete.lab_start.
Definition lab_updates : list UPFBlueCreateModel :=
  [lab_request 1 [lab_slice "000002" ["internet"]]; lab_request 2 [lab_slice "000001" ["video"]]].
Definition lab_last : UPFBlueCreateModel := lab_request 1 [lab_slice "000001" ["video"]].
Definition lab_result := sd_upf_update (λ l, l) (λ l, l) (λ p, p) "blue" lab_last (history lab_updates).
Lemma lab_returns : lab_result = (Ok tt, lab_result.2).
Proof. vm_compute. reflexivity. Qed.
Example upf_replaced :
  od_keys (currently_deployed_dnns (own (state (history lab_updates)))) = ["internet"] ∧
  od_keys (currently_deployed_dnns (own (state lab_result.2))) = ["video"].
Proof. split; vm_compute; reflexivity. Qed.
(** The UPF of a data network that stays keeps the slices it had. *)
Example kept_upf_is_not_updated :
  served_slices <$> upf_list (state (history [lab_request 1 [lab_slice "000002" ["internet"]]])) = [[lab_slice "000001" ["internet"]]].
Proof. vm_compute. reflexivity. Qed.

Lemma upfs_follow_requests_witness :
  od_keys (currently_deployed_dnns (own (state lab_result.2))) = ["video"] ∧
  follows lab_last (currently_deployed_dnns (own (state (history lab_updates)))) (currently_deployed_dnns (own (state lab_result.2))).
Proof.
  split; [vm_compute; reflexivity|].
  apply (upfs_follow_requests (λ l, l) (λ l, l) (λ p, p) "blue" (λ l, reflexivity l) (lab_request 1 [lab_slice "000001" ["internet"]])
    lab_updates lab_last Concrete.lab_start). apply lab_returns.
Defined.
End ConcreteUpf.
