(* ===== verification/Vyos.v ===== *)
(** * The VyOS blueprint

    blueprints_ng/modules/vyos with models/blueprint_ng/vyos: a router in a virtual machine, its first
    configuration and the rules of its address translation.  The objects live in the store of Deployment. *)

From Stdlib Require Import Ascii.
From stdpp Require Import base list strings gmap pretty.
From Stdlib Require Import ZArith Lia.
From S2P Require Import Prelude Ansible Resources Deployment.

Open Scope Z_scope.

(** ** Tasks of the modules of VyOS *)
Inductive VyOSTask :=
| AnsibleVyOSConfigTask (lines : list string) (save : string)
| AnsibleVyOSInterface (config : list dict) (state : string)
| AnsibleVyOSL3Interface (config : list dict) (state : string).
Definition dump_vyos_task (t : VyOSTask) : pyval :=
  VDict match t with
  | AnsibleVyOSConfigTask lines save => [("lines", VList (VStr <$> lines)); ("save", VStr save)]
  | AnsibleVyOSInterface config state | AnsibleVyOSL3Interface config state =>
      [("config", VList (VDict <$> config)); ("state", VStr state)]
  end.
Definition enabled_text (enable : bool) : string := if enable then "true" else "false".
Definition retrieve_info : VyOSTask := AnsibleVyOSInterface [] "gathered".
Definition set_description_and_enable (name description : string) (enable : bool) : VyOSTask :=
  AnsibleVyOSInterface [[("name", VStr name); ("description", VStr description); ("enabled", VStr (enabled_text enable))]] "merged".
Definition set_description_mtu_and_enable (name description : string) (enable : bool) : VyOSTask :=
  AnsibleVyOSInterface [[("name", VStr name); ("description", VStr description); ("mtu", VInt 1450);
                         ("enabled", VStr (enabled_text enable))]] "merged".
Definition set_loopback : VyOSTask :=
  AnsibleVyOSInterface [[("name", VStr "lo"); ("description", VStr "Loopback interface"); ("enabled", VStr "true")]] "merged".
Definition retrieve_l3_info : VyOSTask := AnsibleVyOSL3Interface [] "gathered".
Definition set_dhcp (interface_name : string) : VyOSTask :=
  AnsibleVyOSL3Interface [[("name", VStr interface_name); ("ipv4", VDict [("address", VStr "dhcp")])]] "merged".
Definition set_address (interface_name ipv4_and_mask : string) : VyOSTask :=
  AnsibleVyOSL3Interface [[("name", VStr interface_name); ("ipv4", VList [VDict [("address", VStr ipv4_and_mask)]])]] "merged".
Definition set_l3_loopback : VyOSTask :=
  AnsibleVyOSL3Interface [[("name", VStr "lo"); ("ipv4", VList [VDict [("address", VStr "10.200.200.200/32")]])]] "merged".

(** A task description: name, module, task, and the variable its result is kept in. *)
Record VyOSTaskDescription := { vt_name : string; vt_module : string; vt_task : VyOSTask; vt_register : option string }.
Definition embed_task (p : AnsiblePlaybook) (d : VyOSTaskDescription) : AnsiblePlaybook :=
  add_task (vt_name d) (vt_module d) (dump_vyos_task (vt_task d)) (vt_register d) None p.
Definition interfaces_task (name : string) (t : VyOSTask) : VyOSTaskDescription :=
  {| vt_name := name; vt_module := "vyos.vyos.vyos_interfaces"; vt_task := t; vt_register := None |}.
Definition l3_interfaces_task (name : string) (t : VyOSTask) : VyOSTaskDescription :=
  {| vt_name := name; vt_module := "vyos.vyos.vyos_l3_interfaces"; vt_task := t; vt_register := None |}.
Definition config_task (name : string) (lines : list string) : VyOSTaskDescription :=
  {| vt_name := name; vt_module := "vyos.vyos.vyos_config"; vt_task := AnsibleVyOSConfigTask lines "yes"; vt_register := None |}.

(** ** Rules *)
Record VyOSSourceNATRule := {
  outbound_network : string;
  outbound_interface : option string;
  source_address : string;
  snat_virtual_ip : string;
  snat_number : Z;
  snat_description : string
}.
Record VyOSDestNATRule := {
  inbound_network : string;
  inbound_interface : option string;
  dnat_virtual_ip : string;
  real_destination_ip : string;
  dnat_number : Z;
  dnat_description : string
}.
Record VyOSCreateModel := { mgmt_net : string; data_nets : list string; create_area : Z }.

(** An optional text in an f-string. *)
Definition opt_text (o : option string) : string := default "None" o.
Definition snat_lines (r : VyOSSourceNATRule) : list string :=
  let n := pretty (snat_number r) in
  ["set nat source rule " +:+ n +:+ " outbound-interface name " +:+ opt_text (outbound_interface r);
   "set nat source rule " +:+ n +:+ " source address " +:+ source_address r;
   "set nat source rule " +:+ n +:+ " translation address " +:+ snat_virtual_ip r].
Definition dnat_lines (r : VyOSDestNATRule) : list string :=
  let n := pretty (dnat_number r) in
  ["set nat destination rule " +:+ n +:+ " inbound-interface name " +:+ opt_text (inbound_interface r);
   "set nat destination rule " +:+ n +:+ " destination address " +:+ dnat_virtual_ip r;
   "set nat destination rule " +:+ n +:+ " translation address " +:+ real_destination_ip r;
   "set nat destination rule " +:+ n +:+ " description '" +:+ dnat_description r +:+ "'"].

(** ** The configurators *)
Record Day0Conf := { d0_tasks : list VyOSTaskDescription; vars_to_be_collected : list string }.
Record NatConf := {
  nat_tasks : list VyOSTaskDescription;
  nat_rules : list Z;
  applied_snat_rules : list VyOSSourceNATRule;
  applied_dnat_rules : list VyOSDestNATRule
}.
Inductive VyosConf :=
| VmVyOSDay0Configurator (vm : loc) (c : Day0Conf)
| VmVyOSNatConfigurator (vm : loc) (c : NatConf).

Definition new_day0 : Day0Conf := {| d0_tasks := []; vars_to_be_collected := [] |}.
Definition new_nat : NatConf := {| nat_tasks := []; nat_rules := []; applied_snat_rules := []; applied_dnat_rules := [] |}.

Definition vyos_builder (name : string) : AnsiblePlaybook :=
  set_var "ansible_connection" (VStr "network_cli")
    (set_var "ansible_network_os" (VStr "vyos") (set_var "ansible_python_interpreter" (VStr "/usr/bin/python3") (new_builder name))).
Definition collect_var (p : AnsiblePlaybook) (v : string) : AnsiblePlaybook :=
  add_gather_template_result_task v ("{{ " +:+ v +:+ " }}") p.
Definition day0_playbook (c : Day0Conf) : AnsiblePlaybook :=
  foldl collect_var (foldl embed_task (vyos_builder "Playbook ExampleVmUbuntuConfigurator") (d0_tasks c)) (vars_to_be_collected c).
Definition nat_playbook (tasks : list VyOSTaskDescription) : AnsiblePlaybook :=
  foldl embed_task (vyos_builder "Playbook VyOS NAT configuration") tasks.

(** The dump of a playbook forgets the tasks. *)
Definition forget_tasks (c : NatConf) : NatConf :=
  {| nat_tasks := []; nat_rules := nat_rules c; applied_snat_rules := applied_snat_rules c; applied_dnat_rules := applied_dnat_rules c |}.
#[export] Instance vyos_configurator : Configurator VyosConf := {|
  vm_resource c := match c with VmVyOSDay0Configurator vm _ | VmVyOSNatConfigurator vm _ => vm end;
  dump_playbook _ c :=
    match c with
    | VmVyOSDay0Configurator vm d => (Ok (build (day0_playbook d)), VmVyOSDay0Configurator vm new_day0)
    | VmVyOSNatConfigurator vm d => (Ok (build (nat_playbook (nat_tasks d))), VmVyOSNatConfigurator vm (forget_tasks d))
    end
|}.

(** *** Day 0 *)
Definition append_day0 (t : VyOSTaskDescription) : M Day0Conf unit :=
  modifyS (λ c, {| d0_tasks := d0_tasks c ++ [t]; vars_to_be_collected := vars_to_be_collected c |}).
Definition vyos_l1interfaces_collect_info : M Day0Conf unit :=
  append_day0 {| vt_name := "Collect L1 Info"; vt_module := "vyos.vyos.vyos_interfaces"; vt_task := retrieve_info; vt_register := Some "l1info" |} ;;
  modifyS (λ c, {| d0_tasks := d0_tasks c; vars_to_be_collected := vars_to_be_collected c ++ ["l1info"] |}).
Definition setup_data_int_task (i : VmResourceNetworkInterfaceAddress) : M Day0Conf unit :=
  append_day0 (interfaces_task (interface_name i +:+ " set description")
                 (set_description_mtu_and_enable (interface_name i) ("Data int - net " +:+ cidr i) true)) ;;
  append_day0 (l3_interfaces_task (interface_name i +:+ " set IP") (set_address (interface_name i) (get_ip_prefix i))).
Definition initial_setup (vm : VmResource) : M Day0Conf unit :=
  append_day0 (interfaces_task "ETH0 set description" (set_description_and_enable "eth0" "Management Network" true)) ;;
  interfaces ← liftR (get_additional_interfaces vm);
  for_each interfaces (λ interface, setup_data_int_task (fixed interface)) ;;
  append_day0 (interfaces_task "Loopback set description" set_loopback) ;;
  append_day0 (l3_interfaces_task "Loopback set IP 10.200.200.200/32" set_l3_loopback).

(** *** Address translation *)
Definition _setup_snat_rule (rule : VyOSSourceNATRule) : M NatConf unit :=
  modifyS (λ c, {| nat_tasks := nat_tasks c ++ [config_task ("SNAT rule " +:+ pretty (snat_number rule) +:+ " creation") (snat_lines rule)];
                   nat_rules := nat_rules c ++ [snat_number rule];
                   applied_snat_rules := applied_snat_rules c ++ [rule]; applied_dnat_rules := applied_dnat_rules c |}).
Definition _setup_dnat_rule (rule : VyOSDestNATRule) : M NatConf unit :=
  modifyS (λ c, {| nat_tasks := nat_tasks c ++ [config_task ("DNAT rule " +:+ pretty (dnat_number rule) +:+ " creation") (dnat_lines rule)];
                   nat_rules := nat_rules c ++ [dnat_number rule];
                   applied_snat_rules := applied_snat_rules c; applied_dnat_rules := applied_dnat_rules c ++ [rule] |}).
Definition nat_add_snat_rule (rule : VyOSSourceNATRule) : M NatConf unit :=
  c ← getS;
  if py_in Z.eqb (snat_number rule) (nat_rules c) then raise VyOSNATRuleAlreadyPresent else _setup_snat_rule rule.
Definition nat_add_dnat_rule (rule : VyOSDestNATRule) : M NatConf unit :=
  c ← getS;
  if py_in Z.eqb (dnat_number rule) (nat_rules c) then raise VyOSNATRuleAlreadyPresent else _setup_dnat_rule rule.
(** These two read [self._nat_rules], which the model does not have, before anything else. *)
Definition add_1to1_rule : M NatConf unit := raise AttributeError.
Definition delete_nat_rule (rule_number : Z) : M NatConf unit := raise AttributeError.
Definition delete_task (kind : string) (name : string) (rule : VyOSSourceNATRule) : M NatConf unit :=
  modifyS (λ c, {| nat_tasks := nat_tasks c ++ [config_task (name +:+ " rule " +:+ pretty (snat_number rule) +:+ " deletion")
                                                 ["del nat " +:+ kind +:+ " rule " +:+ pretty (snat_number rule)]];
                   nat_rules := nat_rules c; applied_snat_rules := applied_snat_rules c ++ [rule];
                   applied_dnat_rules := applied_dnat_rules c |}).
Definition _delete_snat_rule : VyOSSourceNATRule → M NatConf unit := delete_task "source" "SNAT".
Definition _delete_dnat_rule : VyOSSourceNATRule → M NatConf unit := delete_task "destination" "DNAT".

(** ** The blueprint *)
Record VyOSBlueprintNGState := {
  vm_vyos : option loc;
  vm_vyos_configurator : option loc;
  vm_vyos_nat_configurator : option loc
}.
Definition empty_state : VyOSBlueprintNGState := {| vm_vyos := None; vm_vyos_configurator := None; vm_vyos_nat_configurator := None |}.
Definition set_vm l (s : VyOSBlueprintNGState) : VyOSBlueprintNGState :=
  {| vm_vyos := Some l; vm_vyos_configurator := vm_vyos_configurator s; vm_vyos_nat_configurator := vm_vyos_nat_configurator s |}.
Definition set_configurator l (s : VyOSBlueprintNGState) : VyOSBlueprintNGState :=
  {| vm_vyos := vm_vyos s; vm_vyos_configurator := Some l; vm_vyos_nat_configurator := vm_vyos_nat_configurator s |}.
Definition set_nat_configurator l (s : VyOSBlueprintNGState) : VyOSBlueprintNGState :=
  {| vm_vyos := vm_vyos s; vm_vyos_configurator := vm_vyos_configurator s; vm_vyos_nat_configurator := Some l |}.

Definition vyos_image : VmResourceImage :=
  {| image_name := "VyOS"; image_url := Some "https://images.tnt-lab.unige.it/k8s/k8s-v0.0.1.qcow2"; check_sha512sum := false |}.
Definition vyos_flavor : VmResourceFlavor :=
  {| flavor_name := None; vcpu_count := "2"; memory_mb := "4096"; storage_gb := "16"; vcpu_type := Some "host";
     flavor_port_security := Some false |}.

Section vyos.
Context {X : Type} `{!Provider X}.
Variable set_order : list string → list string.   (* in which a set is iterated *)
Variable self_id : string.                        (* the identifier of the blueprint *)
#[local] Abbreviation Blue := (Blueprint VyosConf VyOSBlueprintNGState X).
#[local] Abbreviation B := (M Blue).

Definition the_loc (o : option loc) : B loc := match o with Some l => mret l | None => raise AttributeError end.

(** Methods of the configurators, on the objects of the store. *)
Definition call_day0 (l : loc) (m : VmResource → M Day0Conf unit) : B unit :=
  ic ← load_conf l;
  match ic.2 with
  | VmVyOSDay0Configurator vm c =>
      v ← load_vm vm;
      let '(r, c') := m v c in
      store l (OConf ic.1 (VmVyOSDay0Configurator vm c')) ;; liftR r
  | _ => raise AttributeError
  end.
Definition call_nat (l : loc) (m : M NatConf unit) : B unit :=
  ic ← load_conf l;
  match ic.2 with
  | VmVyOSNatConfigurator vm c =>
      let '(r, c') := m c in
      store l (OConf ic.1 (VmVyOSNatConfigurator vm c')) ;; liftR r
  | _ => raise AttributeError
  end.

Definition create (model : VyOSCreateModel) : B unit :=
  vm ← alloc (OVm (new_VmResource set_order (create_area model) (self_id +:+ "_VM_VyOS") vyos_image vyos_flavor "vyos" "vyos"
                     (mgmt_net model) (data_nets model) (Some false)));
  update_state (set_vm vm) ;;
  register_resource vm ;;
  provider_create_vm vm ;;
  conf ← alloc (OConf None (VmVyOSDay0Configurator vm new_day0));
  update_state (set_configurator conf) ;;
  register_resource conf ;;
  nat ← alloc (OConf None (VmVyOSNatConfigurator vm new_nat));
  update_state (set_nat_configurator nat) ;;
  register_resource nat ;;
  call_day0 conf initial_setup ;;
  provider_configure_vm conf ;;
  mret tt.

Definition add_snat_rule (model : VyOSSourceNATRule) : B unit :=
  s ← get_state;
  vm ← the_loc (vm_vyos s);
  v ← load_vm vm;
  match match outbound_interface model with Some n => get_network_interface_by_name n v | None => None end with
  | None => raise VyOSInterfaceNotExisting
  | Some _ =>
      if check_if_network_connected_by_cidr (source_address model) v then
        nat ← the_loc (vm_vyos_nat_configurator s);
        call_nat nat (nat_add_snat_rule model) ;;
        provider_configure_vm nat ;;
        mret tt
      else raise VyOSNetworkNotConnectedToVM
  end.
End vyos.
