(* ===== verification/VyosProps.v ===== *)
(** * The VyOS blueprint does what it is asked

    Its rules reach the router in the order of the requests, a rule whose playbook fails does not and cannot be
    asked for again, and no machine is forgotten. *)

From Stdlib Require Import Ascii.
From stdpp Require Import base list strings gmap pretty.
From Stdlib Require Import ZArith Lia.
From S2P Require Import Prelude Ansible Resources Deployment DeploymentSteps Vyos UeransimProps.

Open Scope Z_scope.

(** ** Configurators keep their kind and their machine *)
Definition same_vyos (c c' : VyosConf) : Prop :=
  match c, c' with
  | VmVyOSDay0Configurator vm _, VmVyOSDay0Configurator vm' _ | VmVyOSNatConfigurator vm _, VmVyOSNatConfigurator vm' _ => vm' = vm
  | _, _ => False
  end.
#[export] Program Instance vyos_conf_laws : ConfiguratorLaws VyosConf := {| same_conf := same_vyos |}.
Next Obligation. by intros []. Qed.
Next Obligation. intros [] [] []; cbn; try done; congruence. Qed.
Next Obligation. by intros v []. Qed.

(** ** No machine is forgotten *)
Section machines.
Context {X : Type} `{!Provider X} `{!ProviderLaws X}.
Variable set_order : list string → list string.
Variable self_id : string.
#[local] Abbreviation Blue := (Blueprint VyosConf VyOSBlueprintNGState X).
#[local] Abbreviation B := (M Blue).
Implicit Types b : Blue.

Definition anything b : Prop := True.
#[local] Instance anything_stable : Stable anything.
Proof. by intros b b' _ _. Qed.
#[local] Notation good := (good anything).

Lemma good_state s confs b : good confs b → good confs (set_state s b).
Proof. intros (Hs & _ & Hc). split; [by apply sound_state|]. by split. Qed.
Lemma step_set f confs (P : Blue → Prop) : (∀ s b, P b → P (set_state s b)) →
  triple (λ b, good confs b ∧ P b) (update_state f : B unit) (λ _ b, good confs b ∧ P b) (good []).
Proof. intros HP. apply step_update_keep; [auto|done]. Qed.

Lemma sound_call_day0 l m : preserves sound (call_day0 l m : B unit).
Proof.
  unfold call_day0. intros b Hb. destruct (load_conf_cases l b) as [(i & c & Hl & E)|E]; [|by rewrite (bind_Raise _ _ _ _ _ E)].
  rewrite (bind_Ok _ _ _ _ _ E). cbn [snd fst]. destruct c as [vm c|]; [|done].
  destruct (load_vm_cases vm b) as [(v & _ & E')|E']; [|by rewrite (bind_Raise _ _ _ _ _ E')].
  rewrite (bind_Ok _ _ _ _ _ E'). destruct (m v c) as [r c']. unfold store, mbind, M_bind, modifyS, liftR. cbn.
  by apply (sound_store b l (OConf i (VmVyOSDay0Configurator vm c))).
Qed.
Lemma grows_call_day0 l m : grows (call_day0 l m : B unit).
Proof.
  unfold call_day0. intros b. destruct (load_conf_cases l b) as [(i & c & Hl & E)|E]; [|rewrite (bind_Raise _ _ _ _ _ E); apply extends_refl].
  rewrite (bind_Ok _ _ _ _ _ E). cbn [snd fst]. destruct c as [vm c|]; [|apply extends_refl].
  destruct (load_vm_cases vm b) as [(v & _ & E')|E']; [|rewrite (bind_Raise _ _ _ _ _ E'); apply extends_refl].
  rewrite (bind_Ok _ _ _ _ _ E'). destruct (m v c) as [r c'].
  by apply (extends_insert b _ l (OConf i (VmVyOSDay0Configurator vm c)) (OConf i (VmVyOSDay0Configurator vm c'))).
Qed.
Lemma sound_call_nat l m : preserves sound (call_nat l m : B unit).
Proof.
  unfold call_nat. intros b Hb. destruct (load_conf_cases l b) as [(i & c & Hl & E)|E]; [|by rewrite (bind_Raise _ _ _ _ _ E)].
  rewrite (bind_Ok _ _ _ _ _ E). cbn [snd fst]. destruct c as [|vm c]; [done|].
  destruct (m c) as [r c']. unfold store, mbind, M_bind, modifyS, liftR. cbn.
  by apply (sound_store b l (OConf i (VmVyOSNatConfigurator vm c))).
Qed.

Lemma create_sound model : preserves sound (create set_order self_id model : B unit).
Proof.
  assert (Ht : triple (good []) (create set_order self_id model : B unit) (λ _, good []) (good [])).
  { unfold create.
    eapply triple_bind; [by apply step_alloc|]. intros vm.
    eapply triple_bind; [by apply step_set|]. intros [].
    eapply triple_bind; [apply step_register|]. intros [].
    eapply triple_bind; [by apply step_create_vm|]. intros [].
    eapply triple_bind; [by apply step_alloc|]. intros conf.
    eapply triple_bind; [by apply step_set|]. intros [].
    eapply triple_bind; [apply step_register|]. intros [].
    eapply weaken_pre; [intros b [Hg _]; exact Hg|].
    eapply triple_bind; [by apply step_alloc|]. intros nat.
    eapply triple_bind; [by apply step_set|]. intros [].
    eapply triple_bind; [apply step_register|]. intros [].
    eapply weaken_pre; [intros b [Hg _]; exact Hg|].
    apply good_step; [apply sound_call_day0|apply grows_call_day0|]. intros [].
    apply step_configure. intros r. by apply triple_ret. }
  intros b Hb. specialize (Ht b). destruct (create set_order self_id model b) as [[]]; apply Ht; split; try done; by split.
Qed.

Lemma add_snat_sound r : preserves sound (add_snat_rule r : B unit).
Proof.
  unfold add_snat_rule. apply preserves_bind; [apply preserves_reads, reads_get_state|]. intros s.
  apply preserves_bind; [destruct (vm_vyos s); preserve_steps|]. intros vm.
  apply preserves_bind; [apply preserves_reads, reads_load_vm|]. intros v.
  destruct (match outbound_interface r with Some n => _ | None => None end); [|apply preserves_raise].
  destruct (check_if_network_connected_by_cidr _ v); [|apply preserves_raise].
  apply preserves_bind; [destruct (vm_vyos_nat_configurator s); preserve_steps|]. intros nat.
  apply preserves_bind; [apply sound_call_nat|]. intros [].
  apply preserves_bind; [apply configure_vm_sound|]. intros f. apply preserves_ret.
Qed.

Definition served (l : list VyOSSourceNATRule) b : Blue := foldl (λ b r, (add_snat_rule r b).2) b l.
Definition new_blueprint (x : X) : Blue :=
  {| objs := []; registered_resources := []; children_blue_ids := []; state := empty_state; ext := x |}.

(** A destroyed VyOS blueprint leaves no machine. Whatever rules it was asked for, and wherever its creation
    or a request failed, a destruction that returns leaves none of its machines. *)
Theorem vyos_leaves_no_machine model rules x b' :
  pristine x → base_destroy (served rules (create set_order self_id model (new_blueprint x)).2) = (Ok tt, b') →
  healthy (ext b') ∧ servers (ext b') = ∅.
Proof.
  intros Hx. apply base_destroy_clean.
  assert (H0 : sound (create set_order self_id model (new_blueprint x)).2) by (apply create_sound; by apply empty_sound).
  revert H0. generalize (create set_order self_id model (new_blueprint x)).2.
  induction rules as [|r l IH]; intros b Hb; [done|]. cbn. apply IH. by apply add_snat_sound.
Qed.
End machines.

(** ** The rules on the router *)

(** The lines a playbook applies. *)
Definition task_lines (t : dict) : list string :=
  match od_get "vyos.vyos.vyos_config" t with
  | Some (VDict d) =>
      match od_get "lines" d with
      | Some (VList l) => omap (λ v, match v with VStr s => Some s | _ => None end) l
      | _ => []
      end
  | _ => []
  end.
Definition play_lines (playbook : pyval) : list string := concat (task_lines <$> play_tasks playbook).

Lemma omap_texts (l : list string) : omap (λ v, match v with VStr s => Some s | _ => None end) (VStr <$> l) = l.
Proof. induction l as [|s l IH]; [done|]. cbn. by f_equal. Qed.
Lemma rule_lines r : play_lines (build (nat_playbook [config_task ("SNAT rule " +:+ pretty (snat_number r) +:+ " creation") (snat_lines r)])) = snat_lines r.
Proof.
  unfold play_lines. rewrite play_tasks_build. unfold nat_playbook. cbn [foldl]. unfold embed_task.
  destruct (added_task (vt_name (config_task ("SNAT rule " +:+ pretty (snat_number r) +:+ " creation") (snat_lines r)))
              "vyos.vyos.vyos_config" (dump_vyos_task (AnsibleVyOSConfigTask (snat_lines r) "yes")) None None
              (vyos_builder "Playbook VyOS NAT configuration")) as (d & E & Hd).
  cbn [vt_name vt_module vt_task vt_register config_task] in E |- *. rewrite E.
  change (pb_tasks (vyos_builder "Playbook VyOS NAT configuration")) with (@nil dict). cbn [app fmap list_fmap concat].
  rewrite app_nil_r. unfold task_lines. rewrite Hd by set_solver. rewrite String.eqb_refl. cbn [dump_vyos_task].
  change (od_get "lines" [("lines", VList (VStr <$> snat_lines r)); ("save", VStr "yes")]) with (Some (VList (VStr <$> snat_lines r))).
  cbn [od_get]. apply omap_texts.
Qed.

(** What happens to a rule: the specification. *)
Definition accept (v : VmResource) (applied : list VyOSSourceNATRule) (r : VyOSSourceNATRule) : result (list VyOSSourceNATRule) :=
  match match outbound_interface r with Some n => get_network_interface_by_name n v | None => None end with
  | None => Raise VyOSInterfaceNotExisting
  | Some _ =>
      if check_if_network_connected_by_cidr (source_address r) v then
        if existsb (λ r', snat_number r' =? snat_number r) applied then Raise VyOSNATRuleAlreadyPresent else Ok (applied ++ [r])
      else Raise VyOSNetworkNotConnectedToVM
  end.
Fixpoint accept_all (v : VmResource) (applied : list VyOSSourceNATRule) (l : list VyOSSourceNATRule) :
  list (result unit) * list VyOSSourceNATRule :=
  match l with
  | [] => ([], applied)
  | r :: l' =>
      match accept v applied r with
      | Ok applied' => let '(rs, a) := accept_all v applied' l' in (Ok tt :: rs, a)
      | Raise e => let '(rs, a) := accept_all v applied l' in (Raise e :: rs, a)
      end
  end.

(** The commands that make a source rule: leaving through the interface, from the addresses, with the translation. *)
Definition rule_commands (r : VyOSSourceNATRule) : list string :=
  match outbound_interface r with
  | Some interface =>
      (λ c, "set nat source rule " +:+ pretty (snat_number r) +:+ c) <$>
        [" outbound-interface name " +:+ interface; " source address " +:+ source_address r; " translation address " +:+ snat_virtual_ip r]
  | None => []
  end.
Lemma snat_lines_commands r n : outbound_interface r = Some n → snat_lines r = rule_commands r.
Proof. intros E. unfold snat_lines, rule_commands, opt_text. by rewrite E. Qed.

(** What a router was told, machine by machine. *)
Class RouterLaws (X : Type) `{!Provider X} := {
  router : X → string → list string;
  apply_effect : ∀ v p x r x' i, run_playbook v p x = (Ok r, x') → vm_id v = Some i → router x' i = router x i ++ play_lines p;
  look_calm : ∀ a x, router (get_virt_provider a x).2 = router x
}.

Section rules.
Context {X : Type} `{!Provider X} `{!RouterLaws X}.
#[local] Abbreviation Blue := (Blueprint VyosConf VyOSBlueprintNGState X).
Implicit Types b : Blue.

(** The configurator with the rules [applied], and nothing waiting. *)
Definition nat_of (applied : list VyOSSourceNATRule) : NatConf :=
  {| nat_tasks := []; nat_rules := snat_number <$> applied; applied_snat_rules := applied; applied_dnat_rules := [] |}.
(** The blueprint was created: its machine is [v], and [applied] are the rules it recorded. *)
Definition ready (v : VmResource) (applied : list VyOSSourceNATRule) b : Prop :=
  created v = true ∧ ∃ l k j, vm_vyos (state b) = Some l ∧ holds l (OVm v) b ∧
    vm_vyos_nat_configurator (state b) = Some k ∧ holds k (OConf j (VmVyOSNatConfigurator l (nat_of applied))) b.

Lemma recorded_number applied n : py_in Z.eqb n (snat_number <$> applied) = existsb (λ r', snat_number r' =? n) applied.
Proof. unfold py_in. induction applied as [|r l IH]; [done|]. cbn. by rewrite IH. Qed.
Lemma set_objs_same b l o : objs b !! l = Some o → set_objs (<[l:=o]> (objs b)) b = b.
Proof. intros Hl. unfold set_objs. rewrite list_insert_id by done. by destruct b. Qed.

(** One request: refused as the specification says and nothing changes, or recorded and its playbook run. *)
Lemma add_snat_cases r v applied b :
  ready v applied b →
  match accept v applied r with
  | Raise e => add_snat_rule r b = (Raise e, b)
  | Ok applied' =>
      ∃ b1, ext b1 = ext b ∧ ready v applied' b1 ∧ registered_resources b1 = registered_resources b ∧
      ∀ x, get_virt_provider (vm_area v) (ext b) = (Ok tt, x) →
        ∃ p, play_lines p = snat_lines r ∧ add_snat_rule r b = (on_ext (run_playbook v p) ;; mret tt) (set_ext x b1)
  end.
Proof.
  intros (Hc & l & k & j & Hl & Hv & Hk & Hn). unfold accept, add_snat_rule.
  rewrite (bind_Ok get_state _ b b (state b)) by done. rewrite Hl. rewrite (bind_Ok (the_loc (Some l)) _ b b l) by done.
  rewrite (bind_Ok _ _ _ _ _ (load_vm_run l v b Hv)).
  destruct (match outbound_interface r with Some n => _ | None => None end); [|done].
  destruct (check_if_network_connected_by_cidr _ v); [|done].
  rewrite Hk. rewrite (bind_Ok (the_loc (Some k)) _ b b k) by done.
  assert (Hcall : call_nat k (nat_add_snat_rule r) b =
    if existsb (λ r', snat_number r' =? snat_number r) applied then (Raise VyOSNATRuleAlreadyPresent, b)
    else (Ok tt, set_objs (<[k:=OConf j (VmVyOSNatConfigurator l
           {| nat_tasks := [config_task ("SNAT rule " +:+ pretty (snat_number r) +:+ " creation") (snat_lines r)];
              nat_rules := snat_number <$> applied ++ [r]; applied_snat_rules := applied ++ [r]; applied_dnat_rules := [] |})]> (objs b)) b)).
  { unfold call_nat. rewrite (bind_Ok _ _ _ _ _ (load_conf_run k j _ b Hn)). cbn [snd fst].
    unfold nat_add_snat_rule. rewrite (bind_Ok getS _ (nat_of applied) (nat_of applied) (nat_of applied)) by done.
    cbn [nat_rules nat_of]. rewrite recorded_number. destruct (existsb _ applied).
    - unfold raise, store, mbind, M_bind, modifyS, liftR. by rewrite set_objs_same.
    - unfold _setup_snat_rule, store, mbind, M_bind, modifyS, liftR. cbn [nat_tasks nat_rules applied_snat_rules applied_dnat_rules nat_of app].
      by rewrite fmap_app. }
  destruct (existsb _ applied); [by rewrite (bind_Raise _ _ _ _ _ Hcall)|].
  set (c1 := {| nat_tasks := _ |}) in Hcall. set (b0 := set_objs _ b) in Hcall.
  assert (Hlk : l ≠ k) by (intros ->; unfold holds in *; congruence).
  assert (Hk0 : holds k (OConf j (VmVyOSNatConfigurator l c1)) b0) by (apply list_lookup_insert_eq; by eapply lookup_lt_Some).
  assert (Hv0 : holds l (OVm v) b0) by (unfold holds, b0; cbn; by rewrite list_lookup_insert_ne).
  exists (set_objs (<[k:=OConf j (VmVyOSNatConfigurator l (nat_of (applied ++ [r])))]> (objs b0)) b0).
  split_and!; [done| |done|].
  - split; [done|]. exists l, k, j. split_and!; [done| |done|].
    + unfold holds. cbn [objs set_objs]. rewrite list_lookup_insert_ne by done. exact Hv0.
    + apply list_lookup_insert_eq. by eapply lookup_lt_Some.
  - intros x Hx. exists (build (nat_playbook (nat_tasks c1))). split; [apply rule_lines|].
    rewrite (bind_Ok _ _ _ _ _ Hcall).
    assert (Hrun : provider_configure_vm k b0 = on_ext (run_playbook v (build (nat_playbook (nat_tasks c1))))
      (set_ext x (set_objs (<[k:=OConf j (VmVyOSNatConfigurator l (nat_of (applied ++ [r])))]> (objs b0)) b0))).
    { pose proof (configure_vm_run (Configurator0 := vyos_configurator) k j _ v x b0 Hk0 Hv0 Hc Hx) as Hcv. exact Hcv. }
    unfold mbind at 1, M_bind at 1. rewrite Hrun. done.
Qed.

Lemma ready_ext v applied b x : ready v applied b → ready v applied (set_ext x b).
Proof. done. Qed.

Fixpoint serve_all (l : list VyOSSourceNATRule) b : list (result unit) * Blue :=
  match l with
  | [] => ([], b)
  | r :: l' => let '(a, b') := add_snat_rule r b in let '(rs, b2) := serve_all l' b' in (a :: rs, b2)
  end.

(** C21: the rules on the router follow the requests.  As long as the provider answers and playbooks run, the
    requests for source rules are answered as the specification answers them, which refuses a rule for an unknown
    interface, for addresses that are not those of a network of the router, or with a number in use, and the router
    is told the commands of the accepted rules, in the order of the requests, and nothing else. *)
Theorem router_follows_requests v applied requests b i :
  (∀ a x, (get_virt_provider a x).1 = Ok tt) → (∀ v p x, ∃ f, (run_playbook v p x).1 = Ok f) →
  ready v applied b → vm_id v = Some i →
  let '(answers, b') := serve_all requests b in
  let '(expected, rules) := accept_all v applied requests in
  answers = expected ∧ ready v rules b' ∧
  ∃ new, rules = applied ++ new ∧ router (ext b') i = router (ext b) i ++ concat (rule_commands <$> new).
Proof.
  intros Hlook Hrun. revert applied b. induction requests as [|r l IH]; intros applied b Hb Hi; cbn.
  { split; [done|]. split; [done|]. exists []. by rewrite !app_nil_r. }
  pose proof (add_snat_cases r v applied b Hb) as Hr.
  destruct (accept v applied r) as [applied'|e] eqn:Ea.
  - destruct Hr as (b1 & Hx1 & Hb1 & _ & Hr).
    destruct (get_virt_provider (vm_area v) (ext b)) as [[[]|e] x] eqn:Eg; [|specialize (Hlook (vm_area v) (ext b)); by rewrite Eg in Hlook].
    destruct (Hr x eq_refl) as (p & Hp & E). rewrite E. destruct (Hrun v p x) as [f Hf].
    unfold mbind at 1, M_bind at 1, on_ext, zoom. cbn [ext set_ext].
    destruct (run_playbook v p x) as [rr x'] eqn:Ep. cbn in Hf. subst rr. cbn [mret M_ret].
    specialize (IH applied' (set_ext x' (set_ext x b1)) (ready_ext _ _ _ _ (ready_ext _ _ _ _ Hb1)) Hi).
    unfold mret, M_ret. destruct (serve_all l _) as [rs b2]. destruct (accept_all v applied' l) as [es a].
    destruct IH as (-> & Hb2 & new & -> & Hrt). split; [done|]. split; [done|].
    unfold accept in Ea. destruct (outbound_interface r) as [n|] eqn:En; [|done]. destruct (get_network_interface_by_name n v); [|done].
    destruct (check_if_network_connected_by_cidr _ v); [|done]. destruct (existsb _ applied); [done|]. injection Ea as <-.
    exists (r :: new). split; [by rewrite <-app_assoc|]. rewrite Hrt. cbn [ext set_ext fmap list_fmap concat].
    rewrite (apply_effect v p x f x' i Ep Hi), Hp, (snat_lines_commands r n En). pose proof (look_calm (vm_area v) (ext b)) as Hl. rewrite Eg in Hl. cbn in Hl.
    by rewrite Hl, app_assoc.
  - rewrite Hr. specialize (IH applied b Hb Hi). destruct (serve_all l b) as [rs b2]. destruct (accept_all v applied l) as [es a].
    destruct IH as (-> & H2). done.
Qed.

Lemma accepted_at_the_end v applied applied' r : accept v applied r = Ok applied' →
  applied' = applied ++ [r] ∧ accept v applied' r = Raise VyOSNATRuleAlreadyPresent.
Proof.
  unfold accept. destruct (match outbound_interface r with Some n => _ | None => None end); [|done].
  destruct (check_if_network_connected_by_cidr _ v); [|done]. destruct (existsb _ applied); [done|]. intros [= <-].
  split; [done|]. rewrite existsb_app. cbn. by rewrite Z.eqb_refl, orb_true_r.
Qed.

(** A rule whose playbook fails is lost.  When the run of its playbook raises, the request fails although
    the rule is now recorded as applied and nothing is left to run: asking for it again is refused because its
    number is in use, and does not reach the router. *)
Theorem failed_rule_is_lost r v applied applied' b x e :
  ready v applied b → accept v applied r = Ok applied' →
  get_virt_provider (vm_area v) (ext b) = (Ok tt, x) →
  (∀ p, play_lines p = snat_lines r → (run_playbook v p x).1 = Raise e) →
  ∃ b', add_snat_rule r b = (Raise e, b') ∧ ready v applied' b' ∧ r ∈ applied' ∧
        add_snat_rule r b' = (Raise VyOSNATRuleAlreadyPresent, b').
Proof.
  intros Hb Ha Hx Hrun. pose proof (add_snat_cases r v applied b Hb) as Hr. rewrite Ha in Hr.
  destruct Hr as (b1 & _ & Hb1 & _ & Hr). destruct (Hr x Hx) as (p & Hp & E). specialize (Hrun p Hp).
  destruct (run_playbook v p x) as [rr x'] eqn:Ep. cbn in Hrun. subst rr.
  destruct (accepted_at_the_end _ _ _ _ Ha) as [-> Hagain].
  exists (set_ext x' (set_ext x b1)). split; [|split; [done|split; [apply elem_of_app; right; left|]]].
  - rewrite E. unfold mbind, M_bind, on_ext, zoom. cbn [ext set_ext]. by rewrite Ep.
  - pose proof (add_snat_cases r v (applied ++ [r]) (set_ext x' (set_ext x b1)) Hb1) as Hr2. by rewrite Hagain in Hr2.
Qed.
End rules.

(** ** A concrete router *)
Module ConcreteRouter.
(** A provider that applies every playbook; its world is what the router was told. *)
#[export] Instance log_provider : Provider (list string) := {|
  create_vm v x := (Ok tt, v, x);
  destroy_vm v := mret tt;
  create_net n := mret tt;
  get_virt_provider a := mret tt;
  run_playbook v p := modifyS (λ x, x ++ play_lines p) ;; mret [];
  delete_blueprint i := mret tt;
  final_cleanup := mret tt;
  destroy_ng_blue := mret tt;
  get_vim_from_area_id_model a := mret tt;
  uuid4 x := ("i", x)
|}.
#[export] Program Instance log_laws : RouterLaws (list string) := {| router x i := x |}.
Next Obligation. by intros v p x r x' i [= _ <-]. Qed.
Next Obligation. done. Qed.

Definition lab_model : VyOSCreateModel := {| mgmt_net := "mgt"; data_nets := ["n6"]; create_area := 0 |}.
Definition lab_vm : VmResource :=
  Concrete.lab_boot (set_vm_id "i" (new_VmResource (λ l, l) 0 "blue_VM_VyOS" vyos_image vyos_flavor "vyos" "vyos" "mgt" ["n6"] (Some false))).
Definition lab_rule (n : Z) (iface : string) : VyOSSourceNATRule :=
  {| outbound_network := "10.0.0.0/24"; outbound_interface := Some iface; source_address := "10.0.0.0/24";
     snat_virtual_ip := "masquerade"; snat_number := n; snat_description := EmptyString |}.
Definition lab_ready {X} (x : X) : Blueprint VyosConf VyOSBlueprintNGState X :=
  {| objs := [OVm lab_vm; OConf (Some "d") (VmVyOSDay0Configurator 0%nat new_day0); OConf (Some "n") (VmVyOSNatConfigurator 0%nat new_nat)];
     registered_resources := [("i", 0%nat); ("d", 1%nat); ("n", 2%nat)]; children_blue_ids := [];
     state := {| vm_vyos := Some 0%nat; vm_vyos_configurator := Some 1%nat; vm_vyos_nat_configurator := Some 2%nat |}; ext := x |}.
Lemma lab_is_ready {X} (x : X) : ready lab_vm [] (lab_ready x).
Proof. split; [done|]. by exists 0%nat, 2%nat, (Some "n"). Qed.

Definition lab_rules : list VyOSSourceNATRule := [lab_rule 1 "ens3"; lab_rule 2 "eth7"; lab_rule 1 "ens3"; lab_rule 3 "ens3"].
Lemma router_follows_requests_witness :
  (serve_all lab_rules (lab_ready [])).1 = [Ok tt; Raise VyOSInterfaceNotExisting; Raise VyOSNATRuleAlreadyPresent; Ok tt] ∧
  ext (serve_all lab_rules (lab_ready [])).2 = rule_commands (lab_rule 1 "ens3") ++ rule_commands (lab_rule 3 "ens3").
Proof.
  assert (Hlook : ∀ a (x : list string), (get_virt_provider a x).1 = Ok tt) by reflexivity.
  assert (Hrun : ∀ v p (x : list string), ∃ f, (run_playbook v p x).1 = Ok f) by (intros v p x; by exists []).
  assert (H := router_follows_requests lab_vm [] lab_rules (lab_ready []) "i" Hlook Hrun (lab_is_ready []) eq_refl).
  change (accept_all lab_vm [] lab_rules) with
    ([Ok tt; Raise VyOSInterfaceNotExisting; Raise VyOSNATRuleAlreadyPresent; Ok tt], [lab_rule 1 "ens3"; lab_rule 3 "ens3"]) in H.
  destruct (serve_all lab_rules (lab_ready [])) as [answers b']. destruct H as (-> & _ & new & E & Hr).
  split; [reflexivity|]. cbn [app] in E. subst new. exact Hr.
Defined.

#[local] Existing Instances Concrete.lab_provider Concrete.lab_laws.
Definition lab_stopped : Concrete.Lab :=
  {| Concrete.lab_next := 3; Concrete.lab_servers := {["i"]}; Concrete.lab_running := ∅; Concrete.lab_networks := ∅; Concrete.lab_refuses := true |}.
Lemma failed_rule_is_lost_witness :
  ∃ b', add_snat_rule (lab_rule 1 "ens3") (lab_ready lab_stopped) = (Raise (ExternalError 2), b') ∧
        add_snat_rule (lab_rule 1 "ens3") b' = (Raise VyOSNATRuleAlreadyPresent, b').
Proof.
  destruct (failed_rule_is_lost (lab_rule 1 "ens3") lab_vm [] [lab_rule 1 "ens3"] (lab_ready lab_stopped) lab_stopped (ExternalError 2))
    as (b' & E & _ & _ & Ha).
  - apply lab_is_ready.
  - reflexivity.
  - reflexivity.
  - intros p _. reflexivity.
  - exists b'. split; [exact E|exact Ha].
Defined.

(** A router is created, asked for two rules, and destroyed. *)
Definition lab_blueprint := served lab_rules (create (λ l, l) "blue" lab_model (new_blueprint Concrete.lab_start)).2.
Lemma vyos_leaves_no_machine_witness :
  size (servers (ext lab_blueprint)) = 1%nat ∧
  ∃ b', base_destroy lab_blueprint = (Ok tt, b') ∧ servers (ext b') = ∅.
Proof.
  split; [vm_compute; reflexivity|]. eexists. split; [vm_compute; reflexivity|].
  eapply (vyos_leaves_no_machine (λ l, l) "blue" lab_model lab_rules Concrete.lab_start); [by apply Concrete.lab_pristine|vm_compute; reflexivity].
Defined.
End ConcreteRouter.
