(* ===== verification/K8sBlueprint.v ===== *)
(** * The Kubernetes blueprint

    blueprints_ng/modules/k8s/k8s_blueprint.py with its configurators and request models: a cluster made of
    a master machine and of workers in several areas, each with a number that is reserved for it; workers
    join by the key the configuration of the master returns, and leave by commands run on the master.
    The machines and configurators live in the store of Deployment. *)

From Stdlib Require Import Ascii.
From stdpp Require Import base list strings gmap pretty.
From Stdlib Require Import ZArith Lia.
From S2P Require Import Prelude Core5GModels K8sModels Regex Ansible Resources HelmPlugins Deployment.

Open Scope Z_scope.

(** ** Requests

    Addresses and networks are their texts. *)
Record K8sAreaDeployment := {
  area_id : Z;
  is_master_area : bool;
  mgmt_net : string;
  area_networks : list string;
  load_balancer_pools_ips : list string;
  worker_replicas : nat;                   (* positive *)
  worker_flavors : VmResourceFlavor
}.
Definition K8sAreaDeployment_eq (a b : K8sAreaDeployment) : bool := area_id a =? area_id b.

Record K8sCreateModel := {
  request_cni : string;
  request_pod_network_cidr : string;
  request_service_cidr : string;
  topology_onboard : bool;
  request_password : string;
  install_plugins_flag : bool;
  request_cadvisor_node_port : Z;
  master_flavors : VmResourceFlavor;
  request_port_security : option bool;
  request_areas : list K8sAreaDeployment
}.
(** [check_areas]: one area, and one only, is the master's. *)
Definition check_areas (areas : list K8sAreaDeployment) : result (list K8sAreaDeployment) :=
  let master_areas := filter (λ a, is_master_area a = true) areas in
  if (length master_areas <? 1)%nat then Raise ValidationError
  else if (1 <? length master_areas)%nat then Raise ValidationError
  else Ok areas.
Definition get_master_area (m : K8sCreateModel) : option K8sAreaDeployment :=
  head (filter (λ a, is_master_area a = true) (request_areas m)).
(** [K8sAddNodeModel.check_areas]. *)
Definition check_areas_day2 (areas : list K8sAreaDeployment) : result (list K8sAreaDeployment) :=
  if (1 <=? length (filter (λ a, is_master_area a = true) areas))%nat then Raise ValidationError else Ok areas.

Record KarmadaInstallModel := {
  cluster_id : string;
  kube_config_location : string;
  submariner_broker : string;
  karmada_control_plane : string;
  karmada_token : string;
  discovery_token_hash : string
}.

(** ** The configurators

    The builder of a day-0 configurator is kept between a call that fills it and its dump; that of the day-2
    one is never set. *)
Inductive K8sConf :=
| VmK8sDay0Configurator (vm : loc) (builder : AnsiblePlaybook) (vm_number : Z)
| VmK8sDay2Configurator (vm : loc)
| VmK8sDayNConfigurator (vm : loc) (task_list : list AnsibleTaskDescription).

(** [VmK8sDay0Configurator(vm_resource, vm_number)]. *)
Definition new_day0 (vm : loc) (vm_number : Z) : K8sConf :=
  VmK8sDay0Configurator vm (new_builder "K8s Master Day0Configurator") vm_number.

Definition dayN_playbook (task_list : list AnsibleTaskDescription) : AnsiblePlaybook :=
  foldl (λ p d, add_pause_task 30 (add_task_embedded d p)) (new_builder "Playbook VyOS NAT configuration") task_list.

#[export] Instance k8s_configurator : Configurator K8sConf := {|
  vm_resource c := match c with
    | VmK8sDay0Configurator vm _ _ | VmK8sDay2Configurator vm | VmK8sDayNConfigurator vm _ => vm end;
  dump_playbook _ c :=
    match c with
    | VmK8sDay0Configurator _ builder _ => (Ok (build builder), c)
    | VmK8sDay2Configurator _ => (Raise AttributeError, c)
    | VmK8sDayNConfigurator vm tasks => (Ok (build (dayN_playbook tasks)), VmK8sDayNConfigurator vm [])
    end
|}.

Definition shell_description (name command : string) : AnsibleTaskDescription :=
  {| tasks_name := name; tasks_module := "ansible.builtin.shell"; task := AnsibleShellTask (VStr command);
     register_name := None |}.
Definition drain_command (vm_name : string) : string :=
  "kubectl drain " +:+ vm_name +:+ " --ignore-daemonsets --delete-emptydir-data".
Definition delete_command (vm_name : string) : string := "kubectl delete node " +:+ vm_name.
Definition delete_node (vm_name : string) (task_list : list AnsibleTaskDescription) : list AnsibleTaskDescription :=
  task_list ++ [shell_description ("K8S node drain - " +:+ vm_name) (drain_command vm_name)] ++
               [shell_description ("K8S node removal - " +:+ vm_name) (delete_command vm_name)].

Definition text_value (o : option string) : pyval := match o with Some s => VStr s | None => VNone end.

Section playbooks.
Variable rel_path : string → string.         (* the directory of the module *)
Variable tasks_of : string → list dict.       (* the tasks of a playbook file *)

Definition file_tasks (file : string) : AnsiblePlaybook → AnsiblePlaybook :=
  add_tasks_from_file (tasks_of (rel_path file)).

Definition configure_master (master_ip : string) (master_external_ip : option string) (pod_cidr service_cidr : string) :
  AnsiblePlaybook :=
  let p := new_builder "K8s Master Day0Configurator" in
  let p := file_tasks "playbooks/kubernetes_master_day0_1.yaml" p in
  let p := set_var "pod_network_cidr" (VStr pod_cidr) p in
  let p := set_var "k8s_master_ip" (VStr master_ip) p in
  let p := set_var "k8s_master_external_ip" (text_value master_external_ip) p in
  let p := set_var "k8s_service_cidr" (VStr service_cidr) p in
  let p := add_gather_var_task "credentials_file" p in
  add_gather_var_task "kubernetes_join_command" p.

Definition configure_worker (join_command credentials_file : string) : AnsiblePlaybook :=
  let p := new_builder "K8s Worker Day0Configurator" in
  let p := file_tasks "playbooks/kubernetes_worker_day0.yaml" p in
  let p := set_var "join_command" (VStr join_command) p in
  let p := set_var "credentials_file" (LS credentials_file) p in
  add_gather_var_task "joined_or_not" p.

Definition install_karmada_playbook (r : KarmadaInstallModel) : AnsiblePlaybook :=
  let p := new_builder "K8s Master Day0 Karmada" in
  let p := file_tasks "playbooks/kubernetes_master_inst_karmada.yaml" p in
  let p := set_var "cluster_id" (VStr (cluster_id r)) p in
  let p := set_var "kube_config_location" (VStr (kube_config_location r)) p in
  let p := set_var "submariner_broker" (VStr (submariner_broker r)) p in
  let p := set_var "karmada_control_plane" (VStr (karmada_control_plane r)) p in
  let p := set_var "karmada_token" (VStr (karmada_token r)) p in
  set_var "discovery_token_hash" (VStr (discovery_token_hash r)) p.

Definition install_istio_playbook : AnsiblePlaybook :=
  file_tasks "playbooks/kubernetes_master_istio.yaml" (new_builder "K8s Master Day0 Istio").
End playbooks.

(** ** The state *)
Record K8sBlueprintNGState := {
  state_version : K8sVersion;
  state_cni : string;
  pod_network_cidr : string;
  pod_service_cidr : string;
  state_cadvisor_node_port : Z;
  state_password : string;
  require_port_security : option bool;
  topology_onboarded : bool;
  master_area : option K8sAreaDeployment;
  area_list : list K8sAreaDeployment;
  load_balancer_ips_area : list (string * list string);
  load_balancer_pools : list K8sLoadBalancerPoolArea;
  worker_numbers : list Z;
  attached_networks : list string;
  vm_master : option loc;
  day_0_master_configurator : option loc;
  day_2_master_configurator : option loc;
  vm_workers : list loc;
  day_0_workers_configurators : list loc;
  day_0_workers_configurators_tobe_exec : list loc;
  master_key_add_worker : string;
  master_credentials : string
}.

Definition set_request (c : string) (pod : string) (svc : string) (pass : string) (p : Z) (s : K8sBlueprintNGState) : K8sBlueprintNGState :=
  {| state_version := state_version s; state_cni := c; pod_network_cidr := pod; pod_service_cidr := svc;
     state_cadvisor_node_port := p; state_password := pass; require_port_security := require_port_security s;
     topology_onboarded := topology_onboarded s; master_area := master_area s; area_list := area_list s;
     load_balancer_ips_area := load_balancer_ips_area s; load_balancer_pools := load_balancer_pools s;
     worker_numbers := worker_numbers s; attached_networks := attached_networks s; vm_master := vm_master s;
     day_0_master_configurator := day_0_master_configurator s;
     day_2_master_configurator := day_2_master_configurator s; vm_workers := vm_workers s;
     day_0_workers_configurators := day_0_workers_configurators s;
     day_0_workers_configurators_tobe_exec := day_0_workers_configurators_tobe_exec s;
     master_key_add_worker := master_key_add_worker s; master_credentials := master_credentials s |}.
Definition set_master_area (o : option K8sAreaDeployment) (r : option bool) (s : K8sBlueprintNGState) : K8sBlueprintNGState :=
  {| state_version := state_version s; state_cni := state_cni s; pod_network_cidr := pod_network_cidr s;
     pod_service_cidr := pod_service_cidr s; state_cadvisor_node_port := state_cadvisor_node_port s;
     state_password := state_password s; require_port_security := r;
     topology_onboarded := topology_onboarded s; master_area := o; area_list := area_list s;
     load_balancer_ips_area := load_balancer_ips_area s; load_balancer_pools := load_balancer_pools s;
     worker_numbers := worker_numbers s; attached_networks := attached_networks s; vm_master := vm_master s;
     day_0_master_configurator := day_0_master_configurator s;
     day_2_master_configurator := day_2_master_configurator s; vm_workers := vm_workers s;
     day_0_workers_configurators := day_0_workers_configurators s;
     day_0_workers_configurators_tobe_exec := day_0_workers_configurators_tobe_exec s;
     master_key_add_worker := master_key_add_worker s; master_credentials := master_credentials s |}.
Definition set_lb_ips (l : list (string * list string)) (s : K8sBlueprintNGState) : K8sBlueprintNGState :=
  {| state_version := state_version s; state_cni := state_cni s; pod_network_cidr := pod_network_cidr s;
     pod_service_cidr := pod_service_cidr s; state_cadvisor_node_port := state_cadvisor_node_port s;
     state_password := state_password s; require_port_security := require_port_security s;
     topology_onboarded := topology_onboarded s; master_area := master_area s; area_list := area_list s;
     load_balancer_ips_area := l; load_balancer_pools := load_balancer_pools s;
     worker_numbers := worker_numbers s; attached_networks := attached_networks s; vm_master := vm_master s;
     day_0_master_configurator := day_0_master_configurator s;
     day_2_master_configurator := day_2_master_configurator s; vm_workers := vm_workers s;
     day_0_workers_configurators := day_0_workers_configurators s;
     day_0_workers_configurators_tobe_exec := day_0_workers_configurators_tobe_exec s;
     master_key_add_worker := master_key_add_worker s; master_credentials := master_credentials s |}.
Definition set_lb_pools (l : list K8sLoadBalancerPoolArea) (s : K8sBlueprintNGState) : K8sBlueprintNGState :=
  {| state_version := state_version s; state_cni := state_cni s; pod_network_cidr := pod_network_cidr s;
     pod_service_cidr := pod_service_cidr s; state_cadvisor_node_port := state_cadvisor_node_port s;
     state_password := state_password s; require_port_security := require_port_security s;
     topology_onboarded := topology_onboarded s; master_area := master_area s; area_list := area_list s;
     load_balancer_ips_area := load_balancer_ips_area s; load_balancer_pools := l;
     worker_numbers := worker_numbers s; attached_networks := attached_networks s; vm_master := vm_master s;
     day_0_master_configurator := day_0_master_configurator s;
     day_2_master_configurator := day_2_master_configurator s; vm_workers := vm_workers s;
     day_0_workers_configurators := day_0_workers_configurators s;
     day_0_workers_configurators_tobe_exec := day_0_workers_configurators_tobe_exec s;
     master_key_add_worker := master_key_add_worker s; master_credentials := master_credentials s |}.
Definition set_worker_numbers (l : list Z) (s : K8sBlueprintNGState) : K8sBlueprintNGState :=
  {| state_version := state_version s; state_cni := state_cni s; pod_network_cidr := pod_network_cidr s;
     pod_service_cidr := pod_service_cidr s; state_cadvisor_node_port := state_cadvisor_node_port s;
     state_password := state_password s; require_port_security := require_port_security s;
     topology_onboarded := topology_onboarded s; master_area := master_area s; area_list := area_list s;
     load_balancer_ips_area := load_balancer_ips_area s; load_balancer_pools := load_balancer_pools s;
     worker_numbers := l; attached_networks := attached_networks s; vm_master := vm_master s;
     day_0_master_configurator := day_0_master_configurator s;
     day_2_master_configurator := day_2_master_configurator s; vm_workers := vm_workers s;
     day_0_workers_configurators := day_0_workers_configurators s;
     day_0_workers_configurators_tobe_exec := day_0_workers_configurators_tobe_exec s;
     master_key_add_worker := master_key_add_worker s; master_credentials := master_credentials s |}.
Definition set_attached (nets : list string) (l : list K8sAreaDeployment) (s : K8sBlueprintNGState) : K8sBlueprintNGState :=
  {| state_version := state_version s; state_cni := state_cni s; pod_network_cidr := pod_network_cidr s;
     pod_service_cidr := pod_service_cidr s; state_cadvisor_node_port := state_cadvisor_node_port s;
     state_password := state_password s; require_port_security := require_port_security s;
     topology_onboarded := topology_onboarded s; master_area := master_area s; area_list := l;
     load_balancer_ips_area := load_balancer_ips_area s; load_balancer_pools := load_balancer_pools s;
     worker_numbers := worker_numbers s; attached_networks := nets; vm_master := vm_master s;
     day_0_master_configurator := day_0_master_configurator s;
     day_2_master_configurator := day_2_master_configurator s; vm_workers := vm_workers s;
     day_0_workers_configurators := day_0_workers_configurators s;
     day_0_workers_configurators_tobe_exec := day_0_workers_configurators_tobe_exec s;
     master_key_add_worker := master_key_add_worker s; master_credentials := master_credentials s |}.
Definition set_vm_master (o : option loc) (s : K8sBlueprintNGState) : K8sBlueprintNGState :=
  {| state_version := state_version s; state_cni := state_cni s; pod_network_cidr := pod_network_cidr s;
     pod_service_cidr := pod_service_cidr s; state_cadvisor_node_port := state_cadvisor_node_port s;
     state_password := state_password s; require_port_security := require_port_security s;
     topology_onboarded := topology_onboarded s; master_area := master_area s; area_list := area_list s;
     load_balancer_ips_area := load_balancer_ips_area s; load_balancer_pools := load_balancer_pools s;
     worker_numbers := worker_numbers s; attached_networks := attached_networks s; vm_master := o;
     day_0_master_configurator := day_0_master_configurator s;
     day_2_master_configurator := day_2_master_configurator s; vm_workers := vm_workers s;
     day_0_workers_configurators := day_0_workers_configurators s;
     day_0_workers_configurators_tobe_exec := day_0_workers_configurators_tobe_exec s;
     master_key_add_worker := master_key_add_worker s; master_credentials := master_credentials s |}.
Definition set_day_0_master (o : option loc) (s : K8sBlueprintNGState) : K8sBlueprintNGState :=
  {| state_version := state_version s; state_cni := state_cni s; pod_network_cidr := pod_network_cidr s;
     pod_service_cidr := pod_service_cidr s; state_cadvisor_node_port := state_cadvisor_node_port s;
     state_password := state_password s; require_port_security := require_port_security s;
     topology_onboarded := topology_onboarded s; master_area := master_area s; area_list := area_list s;
     load_balancer_ips_area := load_balancer_ips_area s; load_balancer_pools := load_balancer_pools s;
     worker_numbers := worker_numbers s; attached_networks := attached_networks s; vm_master := vm_master s;
     day_0_master_configurator := o; day_2_master_configurator := day_2_master_configurator s;
     vm_workers := vm_workers s; day_0_workers_configurators := day_0_workers_configurators s;
     day_0_workers_configurators_tobe_exec := day_0_workers_configurators_tobe_exec s;
     master_key_add_worker := master_key_add_worker s; master_credentials := master_credentials s |}.
Definition set_day_2_master (o : option loc) (s : K8sBlueprintNGState) : K8sBlueprintNGState :=
  {| state_version := state_version s; state_cni := state_cni s; pod_network_cidr := pod_network_cidr s;
     pod_service_cidr := pod_service_cidr s; state_cadvisor_node_port := state_cadvisor_node_port s;
     state_password := state_password s; require_port_security := require_port_security s;
     topology_onboarded := topology_onboarded s; master_area := master_area s; area_list := area_list s;
     load_balancer_ips_area := load_balancer_ips_area s; load_balancer_pools := load_balancer_pools s;
     worker_numbers := worker_numbers s; attached_networks := attached_networks s; vm_master := vm_master s;
     day_0_master_configurator := day_0_master_configurator s; day_2_master_configurator := o;
     vm_workers := vm_workers s; day_0_workers_configurators := day_0_workers_configurators s;
     day_0_workers_configurators_tobe_exec := day_0_workers_configurators_tobe_exec s;
     master_key_add_worker := master_key_add_worker s; master_credentials := master_credentials s |}.
Definition set_vm_workers (l : list loc) (s : K8sBlueprintNGState) : K8sBlueprintNGState :=
  {| state_version := state_version s; state_cni := state_cni s; pod_network_cidr := pod_network_cidr s;
     pod_service_cidr := pod_service_cidr s; state_cadvisor_node_port := state_cadvisor_node_port s;
     state_password := state_password s; require_port_security := require_port_security s;
     topology_onboarded := topology_onboarded s; master_area := master_area s; area_list := area_list s;
     load_balancer_ips_area := load_balancer_ips_area s; load_balancer_pools := load_balancer_pools s;
     worker_numbers := worker_numbers s; attached_networks := attached_networks s; vm_master := vm_master s;
     day_0_master_configurator := day_0_master_configurator s;
     day_2_master_configurator := day_2_master_configurator s; vm_workers := l;
     day_0_workers_configurators := day_0_workers_configurators s;
     day_0_workers_configurators_tobe_exec := day_0_workers_configurators_tobe_exec s;
     master_key_add_worker := master_key_add_worker s; master_credentials := master_credentials s |}.
Definition set_workers_configurators (l : list loc) (s : K8sBlueprintNGState) : K8sBlueprintNGState :=
  {| state_version := state_version s; state_cni := state_cni s; pod_network_cidr := pod_network_cidr s;
     pod_service_cidr := pod_service_cidr s; state_cadvisor_node_port := state_cadvisor_node_port s;
     state_password := state_password s; require_port_security := require_port_security s;
     topology_onboarded := topology_onboarded s; master_area := master_area s; area_list := area_list s;
     load_balancer_ips_area := load_balancer_ips_area s; load_balancer_pools := load_balancer_pools s;
     worker_numbers := worker_numbers s; attached_networks := attached_networks s; vm_master := vm_master s;
     day_0_master_configurator := day_0_master_configurator s;
     day_2_master_configurator := day_2_master_configurator s; vm_workers := vm_workers s;
     day_0_workers_configurators := l;
     day_0_workers_configurators_tobe_exec := day_0_workers_configurators_tobe_exec s;
     master_key_add_worker := master_key_add_worker s; master_credentials := master_credentials s |}.
Definition set_tobe_exec (l : list loc) (s : K8sBlueprintNGState) : K8sBlueprintNGState :=
  {| state_version := state_version s; state_cni := state_cni s; pod_network_cidr := pod_network_cidr s;
     pod_service_cidr := pod_service_cidr s; state_cadvisor_node_port := state_cadvisor_node_port s;
     state_password := state_password s; require_port_security := require_port_security s;
     topology_onboarded := topology_onboarded s; master_area := master_area s; area_list := area_list s;
     load_balancer_ips_area := load_balancer_ips_area s; load_balancer_pools := load_balancer_pools s;
     worker_numbers := worker_numbers s; attached_networks := attached_networks s; vm_master := vm_master s;
     day_0_master_configurator := day_0_master_configurator s;
     day_2_master_configurator := day_2_master_configurator s; vm_workers := vm_workers s;
     day_0_workers_configurators := day_0_workers_configurators s; day_0_workers_configurators_tobe_exec := l;
     master_key_add_worker := master_key_add_worker s; master_credentials := master_credentials s |}.
Definition set_master_key (k : string) (s : K8sBlueprintNGState) : K8sBlueprintNGState :=
  {| state_version := state_version s; state_cni := state_cni s; pod_network_cidr := pod_network_cidr s;
     pod_service_cidr := pod_service_cidr s; state_cadvisor_node_port := state_cadvisor_node_port s;
     state_password := state_password s; require_port_security := require_port_security s;
     topology_onboarded := topology_onboarded s; master_area := master_area s; area_list := area_list s;
     load_balancer_ips_area := load_balancer_ips_area s; load_balancer_pools := load_balancer_pools s;
     worker_numbers := worker_numbers s; attached_networks := attached_networks s; vm_master := vm_master s;
     day_0_master_configurator := day_0_master_configurator s;
     day_2_master_configurator := day_2_master_configurator s; vm_workers := vm_workers s;
     day_0_workers_configurators := day_0_workers_configurators s;
     day_0_workers_configurators_tobe_exec := day_0_workers_configurators_tobe_exec s;
     master_key_add_worker := k; master_credentials := master_credentials s |}.
Definition set_master_credentials (k : string) (s : K8sBlueprintNGState) : K8sBlueprintNGState :=
  {| state_version := state_version s; state_cni := state_cni s; pod_network_cidr := pod_network_cidr s;
     pod_service_cidr := pod_service_cidr s; state_cadvisor_node_port := state_cadvisor_node_port s;
     state_password := state_password s; require_port_security := require_port_security s;
     topology_onboarded := topology_onboarded s; master_area := master_area s; area_list := area_list s;
     load_balancer_ips_area := load_balancer_ips_area s; load_balancer_pools := load_balancer_pools s;
     worker_numbers := worker_numbers s; attached_networks := attached_networks s; vm_master := vm_master s;
     day_0_master_configurator := day_0_master_configurator s;
     day_2_master_configurator := day_2_master_configurator s; vm_workers := vm_workers s;
     day_0_workers_configurators := day_0_workers_configurators s;
     day_0_workers_configurators_tobe_exec := day_0_workers_configurators_tobe_exec s;
     master_key_add_worker := master_key_add_worker s; master_credentials := k |}.
Definition set_onboarded (o : bool) (s : K8sBlueprintNGState) : K8sBlueprintNGState :=
  {| state_version := state_version s; state_cni := state_cni s; pod_network_cidr := pod_network_cidr s;
     pod_service_cidr := pod_service_cidr s; state_cadvisor_node_port := state_cadvisor_node_port s;
     state_password := state_password s; require_port_security := require_port_security s;
     topology_onboarded := o; master_area := master_area s; area_list := area_list s;
     load_balancer_ips_area := load_balancer_ips_area s; load_balancer_pools := load_balancer_pools s;
     worker_numbers := worker_numbers s; attached_networks := attached_networks s; vm_master := vm_master s;
     day_0_master_configurator := day_0_master_configurator s;
     day_2_master_configurator := day_2_master_configurator s; vm_workers := vm_workers s;
     day_0_workers_configurators := day_0_workers_configurators s;
     day_0_workers_configurators_tobe_exec := day_0_workers_configurators_tobe_exec s;
     master_key_add_worker := master_key_add_worker s; master_credentials := master_credentials s |}.

Definition initial_state : K8sBlueprintNGState :=
  {| state_version := V1_30; state_cni := "flannel"; pod_network_cidr := "10.254.0.0/16";
     pod_service_cidr := "10.200.0.0/16"; state_cadvisor_node_port := 30080; state_password := "ubuntu";
     require_port_security := Some true; topology_onboarded := false; master_area := None; area_list := [];
     load_balancer_ips_area := []; load_balancer_pools := []; worker_numbers := replicate 18 0;
     attached_networks := []; vm_master := None; day_0_master_configurator := None;
     day_2_master_configurator := None; vm_workers := []; day_0_workers_configurators := [];
     day_0_workers_configurators_tobe_exec := []; master_key_add_worker := EmptyString;
     master_credentials := EmptyString |}.

(** [reserve_worker_number] and [_release_worker_number], on the numbers. *)
Definition reserve_worker_number (numbers : list Z) : result (nat * list Z) :=
  match find_index (λ val, val =? 0) numbers with
  | Some position => Ok (position, <[position:=1]> numbers)
  | None => Raise ValueError
  end.
Definition _release_worker_number (number : Z) (numbers : list Z) : result (list Z) :=
  val ← py_getitem numbers number;
  if val =? 1 then py_setitem numbers number 0 else Raise ValueError.

(** The state has no field [reserved_pools]. *)
Definition get_reserved_ip_list (s : K8sBlueprintNGState) : result (list string) := Raise AttributeError.

Definition node_image : VmResourceImage :=
  {| image_name := "u24-k8s-base-v0.0.4-rev"; image_url := Some "https://images.tnt-lab.unige.it/k8s/k8s-v0.0.4-ubuntu2404.qcow2";
     check_sha512sum := false |}.

(** The methods of the topology that are called. *)
Class ClusterTopology (X : Type) := {
  get_vim_name_from_area_id : Z → M X (option string);
  add_k8scluster : TopologyK8sModel → M X unit;
  del_k8scluster : string → M X unit;
  release_ranges : string → M X unit
}.

Section k8s.
Context {X : Type} `{!Provider X} `{!ClusterApi X} `{!ClusterTopology X}.
Variable set_order : list string → list string.   (* in which a set is iterated *)
Variable rel_path : string → string.
Variable tasks_of : string → list dict.
Variable self_id : string.                        (* the identifier of the blueprint *)
#[local] Notation Blue := (Blueprint K8sConf K8sBlueprintNGState X).
#[local] Notation B := (M Blue).

(** A reference of the state that may be [None]. *)
Definition the (o : option loc) : B loc := match o with Some l => mret l | None => raise AttributeError end.
Definition name_of (l : loc) : B string := v ← load_vm l; mret (vm_name v).
(** The configurator at [l], a day-0 one, with its fields. *)
Definition load_day0 (l : loc) : B (option string * loc * AnsiblePlaybook * Z) :=
  ic ← load_conf l;
  match ic.2 with
  | VmK8sDay0Configurator vm builder n => mret (ic.1, vm, builder, n)
  | _ => raise AttributeError
  end.
Definition set_builder (l : loc) (p : AnsiblePlaybook) : B unit :=
  '(i, vm, _, n) ← load_day0 l; store l (OConf i (VmK8sDay0Configurator vm p n)).

(** ** Workers leave the state *)

(** The list is changed while it is iterated: after a removal the next element is skipped. *)
Fixpoint remove_configurators (fuel i : nat) (name : string) : B (list loc) :=
  match fuel with
  | O => mret []
  | S fuel =>
      s ← get_state;
      match day_0_workers_configurators s !! i with
      | None => mret []
      | Some c =>
          '(_, vm, _, number) ← load_day0 c;
          n ← name_of vm;
          if String.eqb n name then
            numbers ← liftR (_release_worker_number number (worker_numbers s));
            update_state (set_worker_numbers numbers) ;;
            confs ← liftR (py_remove Nat.eqb c (day_0_workers_configurators s));
            update_state (set_workers_configurators confs) ;;
            rest ← remove_configurators fuel (S i) name;
            mret (c :: rest)
          else remove_configurators fuel (S i) name
      end
  end.

(** [[x for x in l if name(x) != name]]. *)
Fixpoint others (name_at : loc → B string) (name : string) (l : list loc) : B (list loc) :=
  match l with
  | [] => mret []
  | x :: l' => n ← name_at x; r ← others name_at name l'; mret (if String.eqb n name then r else x :: r)
  end.

Definition remove_worker (worker_to_be_rem : loc) : B (list loc) :=
  name ← name_of worker_to_be_rem;
  s ← get_state;
  workers ← others name_of name (vm_workers s);
  update_state (set_vm_workers workers) ;;
  confs ← remove_configurators (length (day_0_workers_configurators s)) 0 name;
  s ← get_state;
  tobe ← others (λ c, '(_, vm, _, _) ← load_day0 c; name_of vm) name (day_0_workers_configurators_tobe_exec s);
  update_state (set_tobe_exec tobe) ;;
  mret confs.

(** ** Machines *)
Definition master_name : string := lower self_id +:+ "-vm-k8s-c".
Definition worker_name (n : nat) : string := lower self_id +:+ "-vm-w-" +:+ pretty n.

Definition deploy_master_node (area : K8sAreaDeployment) (flavors : VmResourceFlavor) : B unit :=
  s ← get_state;
  vm ← alloc (OVm (new_VmResource set_order (area_id area) master_name node_image flavors "ubuntu" (state_password s)
         (mgmt_net area) (area_networks area) (require_port_security s)));
  update_state (set_vm_master (Some vm)) ;;
  register_resource vm ;;
  provider_create_vm vm ;;
  day0 ← alloc (OConf None (new_day0 vm 0));
  update_state (set_day_0_master (Some day0)) ;;
  day2 ← alloc (OConf None (VmK8sDay2Configurator vm));
  update_state (set_day_2_master (Some day2)) ;;
  register_resource day0 ;;
  register_resource day2.

Definition deploy_worker (area : K8sAreaDeployment) : B unit :=
  s ← get_state;
  '(worker_number, numbers) ← liftR (reserve_worker_number (worker_numbers s));
  update_state (set_worker_numbers numbers) ;;
  vm ← alloc (OVm (new_VmResource set_order (area_id area) (worker_name worker_number) node_image (worker_flavors area)
         "ubuntu" (state_password s) (mgmt_net area) (area_networks area) (require_port_security s)));
  update_state (λ s, set_vm_workers (vm_workers s ++ [vm]) s) ;;
  register_resource vm ;;
  provider_create_vm vm ;;
  configurator ← alloc (OConf None (new_day0 vm (Z.of_nat worker_number)));
  update_state (λ s, set_workers_configurators (day_0_workers_configurators s ++ [configurator]) s) ;;
  update_state (λ s, set_tobe_exec (day_0_workers_configurators_tobe_exec s ++ [configurator]) s) ;;
  register_resource configurator.

Definition add_if_new {A} (eqb : A → A → bool) (l : list A) (x : A) : list A := if py_in eqb x l then l else l ++ [x].

Definition deploy_area (area : K8sAreaDeployment) : B unit :=
  for_each (seq 0 (worker_replicas area)) (λ _, deploy_worker area) ;;
  update_state (λ s, set_attached
    (foldl (add_if_new String.eqb) (attached_networks s) (mgmt_net area :: area_networks area))
    (add_if_new K8sAreaDeployment_eq (area_list s) area) s).

(** ** Load balancer *)
Definition workers_in (area : Z) (workers : list loc) (b : Blue) : result (list string) :=
  vs ← map_result (λ l, match objs b !! l with Some (OVm v) => Ok v | _ => Raise AttributeError end) workers;
  Ok (map (λ v, lower (vm_name v)) (List.filter (λ v, vm_area v =? area) vs)).

Definition pool_area (key : string) (value : list string) : B K8sLoadBalancerPoolArea :=
  s ← get_state;
  area ← liftR (py_int key);
  b ← getS;
  hostnames ← liftR (workers_in area (vm_workers s) b);
  master ← the (vm_master s);
  v ← load_vm master;
  let hostnames := if vm_area v =? area then hostnames ++ [lower (vm_name v)] else hostnames in
  let name := lower self_id +:+ "-area1" in
  if valid_pool_name name then
    mret {| pool_name := name; ip_list := value;
            host_names := if (length hostnames =? 0)%nat then None else Some hostnames |}
  else raise ValidationError.

Fixpoint pool_areas (l : list (string * list string)) : B (list K8sLoadBalancerPoolArea) :=
  match l with
  | [] => mret []
  | (key, value) :: l' => a ← pool_area key value; r ← pool_areas l'; mret (a :: r)
  end.
Definition setup_load_balancer_pool : B unit :=
  s ← get_state;
  lb_area_list ← pool_areas (load_balancer_ips_area s);
  update_state (set_lb_pools lb_area_list).

(** ** Configuration *)

(** [facts[name]["stdout"]]. *)
Definition fact_stdout (name : string) (facts : list (string * pyval)) : result string :=
  v ← od_getitem name facts;
  match v with
  | VDict d => out ← dict_getitem d "stdout"; match out with VStr s => Ok s | _ => Raise TypeError end
  | _ => Raise TypeError
  end.
Definition shown (o : option string) : string := default "None" o.
Definition join_address : list atom := [digits; Dot; digits; Dot; digits; Dot; digits] ++ literal ":6443".
Definition server_address : list atom := literal "https://" ++ [Star not_newline] ++ literal ":6443".

Definition configure_the_master : B unit :=
  s ← get_state;
  master_conf ← the (day_0_master_configurator s);
  master ← the (vm_master s);
  v ← load_vm master;
  i ← liftR (get_management_interface v);
  set_builder master_conf (configure_master rel_path tasks_of (ip (fixed i)) (access_ip v) (pod_network_cidr s)
    (pod_service_cidr s)) ;;
  master_result ← provider_configure_vm master_conf;
  join ← liftR (fact_stdout "kubernetes_join_command" master_result);
  update_state (set_master_key (re_sub join_address (shown (access_ip v) +:+ ":6443") join)) ;;
  file ← liftR (fact_stdout "credentials_file" master_result);
  update_state (set_master_credentials (re_sub server_address ("https://" +:+ shown (access_ip v) +:+ ":6443") file)).

Definition day0conf (configure_master : bool) : B unit :=
  (if configure_master then configure_the_master else mret tt) ;;
  s ← get_state;
  for_each (day_0_workers_configurators_tobe_exec s) (λ configurator,
    s ← get_state;
    set_builder configurator (configure_worker rel_path tasks_of (master_key_add_worker s) (master_credentials s)) ;;
    provider_configure_vm configurator ;;
    mret tt) ;;
  update_state (set_tobe_exec []).

Definition maas_forward : string :=
  "maas:53 {" +:+ String newline ("    forward . 192.168.17.25" +:+ String newline ("}" +:+ String newline EmptyString)).
Definition fix_dns_problem : B unit :=
  s ← get_state;
  let client_config := master_credentials s in
  on_ext (load_kube_config client_config) ;;
  data ← on_ext (read_config_map client_config "kube-system" "coredns");
  dns ← liftR (od_getitem "Corefile" data);
  on_ext (patch_config_map client_config "kube-system" "coredns" (od_set "Corefile" (dns +:+ maas_forward) data)).

(** The list of plugins that depends on the network plugin of the request is not used. *)
Definition install_default_plugins : B unit :=
  s ← get_state;
  let client_config := master_credentials s in
  on_ext (load_kube_config client_config) ;;
  cidr ← on_ext (get_k8s_cidr_info client_config);
  cidr ← liftR (match cidr with VStr t => Ok (Some t) | VNone => Ok None | _ => Raise ValidationError end);
  let plugin_data := {| data_areas := Some (load_balancer_pools s); data_pod_network_cidr := cidr;
                        data_cadvisor_node_port := Some (state_cadvisor_node_port s) |} in
  on_ext (load_kube_config client_config) ;;
  on_ext (install_plugins client_config self_id [FLANNEL; METALLB; OPEN_EBS] plugin_data).

(** ** The blueprint *)
Definition onboard_cluster : B unit :=
  s ← get_state;
  area ← (match master_area s with Some a => mret (area_id a) | None => raise AttributeError end);
  vim ← on_ext (get_vim_name_from_area_id area);
  let k8s_cluster :=
    {| k8s_name := self_id; provided_by := "NFVCL"; blueprint_ref := self_id; deployed_blueprints := [];
       credentials := master_credentials s; k8s_vim_name := vim; k8s_version := V1_29;
       k8s_networks := attached_networks s; k8s_areas := area_id <$> area_list s; cni := Some EmptyString;
       cadvisor_node_port := Some (state_cadvisor_node_port s); nfvo_status := NOT_ONBOARDED; nfvo_onboard := false;
       anti_spoofing_enabled := Some (match require_port_security s with Some true => false | _ => true end) |} in
  (if validate_k8s k8s_cluster then mret tt else raise ValidationError) ;;
  on_ext (add_k8scluster k8s_cluster).

Definition deploy_request_area (m : K8sCreateModel) (area : K8sAreaDeployment) : B unit :=
  (if is_master_area area then
     update_state (set_master_area (Some area) (request_port_security m)) ;;
     deploy_master_node area (master_flavors m)
   else mret tt) ;;
  (if (0 <? length (load_balancer_pools_ips area))%nat
   then update_state (λ s, set_lb_ips (od_set (pretty (area_id area)) (load_balancer_pools_ips area)
                                              (load_balancer_ips_area s)) s)
   else mret tt) ;;
  deploy_area area.

Definition create (m : K8sCreateModel) : B unit :=
  update_state (set_request (request_cni m) (request_pod_network_cidr m) (request_service_cidr m) (request_password m)
    (request_cadvisor_node_port m)) ;;
  for_each (request_areas m) (deploy_request_area m) ;;
  setup_load_balancer_pool ;;
  day0conf true ;;
  fix_dns_problem ;;
  (if install_plugins_flag m then install_default_plugins else mret tt) ;;
  if topology_onboard m then onboard_cluster ;; update_state (set_onboarded true) else mret tt.

Definition add_worker (areas : list K8sAreaDeployment) : B unit :=
  for_each areas deploy_area ;; day0conf false.

(** The first worker of a name. *)
Fixpoint find_worker (node : string) (workers : list loc) : B (option loc) :=
  match workers with
  | [] => mret None
  | l :: ls => n ← name_of l; if String.eqb n node then mret (Some l) else find_worker node ls
  end.
(** The machines to destroy, and the tasks that take them out of the cluster. *)
Fixpoint select_workers (nodes : list string) (workers : list loc) (tasks : list AnsibleTaskDescription) :
  B (list loc * list AnsibleTaskDescription) :=
  match nodes with
  | [] => mret ([], tasks)
  | node :: nodes' =>
      target ← find_worker node workers;
      match target with
      | Some l =>
          n ← name_of l;
          '(rest, tasks) ← select_workers nodes' workers (delete_node (get_name_k8s_format n) tasks);
          mret (l :: rest, tasks)
      | None => select_workers nodes' workers tasks
      end
  end.

Definition destroy_worker (vm : loc) : B unit :=
  provider_destroy_vm vm ;;
  deregister_resource vm ;;
  conf_to_be_deregistered ← remove_worker vm;
  for_each conf_to_be_deregistered deregister_resource.

Definition del_workers (node_names : list string) : B unit :=
  s ← get_state;
  master ← the (vm_master s);
  master_nm ← name_of master;
  let node_names := match py_remove String.eqb master_nm node_names with Ok l => l | Raise _ => node_names end in
  if (length (vm_workers s) <=? 1)%nat then mret tt
  else
    '(vm_to_be_destroyed, tasks) ← select_workers node_names (vm_workers s) [];
    dayNconf ← alloc (OConf None (VmK8sDayNConfigurator master tasks));
    provider_configure_vm dayNconf ;;
    for_each vm_to_be_destroyed destroy_worker.

Definition run_on_master (p : AnsiblePlaybook) : B unit :=
  s ← get_state;
  master_conf ← the (day_0_master_configurator s);
  set_builder master_conf p ;;
  provider_configure_vm master_conf ;;
  mret tt.
Definition configure_karmada (r : KarmadaInstallModel) : B unit := run_on_master (install_karmada_playbook rel_path tasks_of r).
Definition install_istio : B unit := run_on_master (install_istio_playbook rel_path tasks_of).

Definition destroy : B unit :=
  s ← get_state;
  (if topology_onboarded s then
     catch (on_ext (del_k8scluster self_id)) (λ e, if is_value_error e then Some (mret tt) else None)
   else mret tt) ;;
  base_destroy ;;
  on_ext (release_ranges self_id).

(** The day-2 requests. *)
Inductive Day2 :=
| AddNode (areas : list K8sAreaDeployment)
| DelWorkers (node_names : list string)
| InstallKarmada (r : KarmadaInstallModel)
| InstallIstio.
Definition day2 (r : Day2) : B unit :=
  match r with
  | AddNode areas => add_worker areas
  | DelWorkers nodes => del_workers nodes
  | InstallKarmada r => configure_karmada r
  | InstallIstio => install_istio
  end.

(** What [to_dict] adds to the summary. *)
Definition node_text (kind : string) (v : VmResource) : string :=
  kind +:+ " " +:+ vm_name v +:+ ": " +:+ shown (access_ip v).
Definition node_list (b : Blue) : result (option (list string)) :=
  let vm_at l := match objs b !! l with Some (OVm v) => Ok v | _ => Raise AttributeError end in
  match vm_master (state b) with
  | Some m =>
      v ← vm_at m;
      ws ← map_result vm_at (vm_workers (state b));
      Ok (Some (node_text "Controller" v :: (node_text "Worker" <$> ws)))
  | None => Ok None
  end.
End k8s.
