(* ===== verification/K8sProps.v ===== *)
(** * Properties of the Kubernetes blueprint

    Whatever is asked of a cluster and whichever requests fail, its destruction leaves no machine, and
    its workers have distinct names, with distinct reserved numbers. *)

From Stdlib Require Import Ascii.
From stdpp Require Import base list strings gmap pretty.
From Stdlib Require Import ZArith Lia.
From S2P Require Import Prelude Core5GModels K8sModels Regex Ansible Resources HelmPlugins Deployment DeploymentSteps K8sBlueprint.

Open Scope Z_scope.

(** ** Reserved numbers *)
Lemma reserve_inv numbers n numbers' :
  reserve_worker_number numbers = Ok (n, numbers') → numbers !! n = Some 0 ∧ numbers' = <[n:=1]> numbers.
Proof.
  unfold reserve_worker_number. destruct (find_index _ numbers) as [i|] eqn:E; [|done]. intros [= <- <-].
  apply find_index_Some in E as (v & Hv & Hz & _). apply Z.eqb_eq in Hz as ->. done.
Qed.
Lemma release_inv n numbers numbers' :
  _release_worker_number (Z.of_nat n) numbers = Ok numbers' → numbers' = <[n:=0]> numbers.
Proof.
  unfold _release_worker_number, mbind, result_bind. destruct (py_getitem _ _) as [v|] eqn:E; [|done].
  destruct (v =? 1); [|done]. unfold py_getitem in E. destruct (py_pos numbers (Z.of_nat n)) as [k|] eqn:Ek; [|done].
  pose proof (py_pos_lt _ _ _ Ek) as Hk. unfold py_setitem. rewrite Ek. intros [= <-].
  unfold py_pos in Ek. destruct (Z.of_nat n <? 0) eqn:En; [apply Z.ltb_lt in En; lia|].
  destruct (_ && _); [|done]. injection Ek as <-. by rewrite Nat2Z.id.
Qed.

Lemma worker_name_inj self_id n m : worker_name self_id n = worker_name self_id m → n = m.
Proof.
  unfold worker_name. intros H. apply (inj (String.append _)) in H. apply (inj (String.append "-vm-w-")) in H.
  by apply (inj pretty) in H.
Qed.

(** The configurators keep their machine and their number. *)
Definition same_k8s_conf (c d : K8sConf) : Prop :=
  match c, d with
  | VmK8sDay0Configurator vm _ n, VmK8sDay0Configurator vm' _ n' => vm' = vm ∧ n' = n
  | VmK8sDay2Configurator vm, VmK8sDay2Configurator vm' => vm' = vm
  | VmK8sDayNConfigurator vm _, VmK8sDayNConfigurator vm' _ => vm' = vm
  | _, _ => False
  end.
#[export] Program Instance k8s_conf_laws : ConfiguratorLaws K8sConf := {| same_conf := same_k8s_conf |}.
Next Obligation. intros []; naive_solver. Qed.
Next Obligation. intros [] [] []; naive_solver. Qed.
Next Obligation. intros v []; naive_solver. Qed.

(** The other calls of the blueprint leave machines and identifiers alone. *)
Class QuietCluster (X : Type) `{!Provider X, !ClusterApi X, !ClusterTopology X, !ProviderLaws X} := {
  load_kube_config_quiet : ∀ c, harmless (load_kube_config c);
  read_config_map_quiet : ∀ c n m, harmless (read_config_map c n m);
  patch_config_map_quiet : ∀ c n m d, harmless (patch_config_map c n m d);
  get_daemon_sets_quiet : ∀ c, harmless (get_daemon_sets c);
  get_chart_quiet : ∀ c p r v, harmless (get_chart c p r v);
  install_release_quiet : ∀ c n o d s, harmless (install_or_upgrade_release c n o d s);
  read_storage_quiet : ∀ c n, harmless (read_namespaced_storage_class c n);
  patch_storage_quiet : ∀ c n a, harmless (patch_namespaced_storage_class c n a);
  render_quiet : ∀ t d c, harmless (render_file_from_template t d c);
  create_from_yaml_quiet : ∀ c p, harmless (create_from_yaml c p);
  get_vim_name_quiet : ∀ a, harmless (get_vim_name_from_area_id a);
  add_k8scluster_quiet : ∀ k, harmless (add_k8scluster k);
  del_k8scluster_quiet : ∀ i, harmless (del_k8scluster i);
  release_ranges_quiet : ∀ i, harmless (release_ranges i)
}.

Section quiet.
Context {X : Type} `{!Provider X, !ClusterApi X, !ClusterTopology X, !ProviderLaws X, !QuietCluster X}.
#[local] Abbreviation still := harmless.

#[local] Ltac quiet_steps :=
  repeat first
    [ apply quiet_ret | apply quiet_raise | apply quiet_liftR | apply quiet_bind; [|intros ?] | apply quiet_if
    | apply read_config_map_quiet | apply get_daemon_sets_quiet | apply get_chart_quiet | apply install_release_quiet
    | apply read_storage_quiet | apply patch_storage_quiet | apply render_quiet | apply create_from_yaml_quiet
    | apply quiet_for_each; intros ? | apply quiet_catch; [|intros ? ?] ].
Lemma get_k8s_cidr_info_quiet c : still (get_k8s_cidr_info c).
Proof. unfold get_k8s_cidr_info. quiet_steps. Qed.
Lemma install_plugins_quiet c n l d : still (install_plugins c n l d).
Proof.
  unfold install_plugins, get_installed_plugins, _install_flannel, _install_calico, _install_openebs, _install_metallb,
    install_plugin. quiet_steps. match goal with |- context [match ?p with _ => _ end] => destruct p end;
    quiet_steps; try (destruct e; try done; intros [= <-]; quiet_steps).
Qed.
End quiet.

Section k8s_props.
Context {X : Type} `{!Provider X, !ClusterApi X, !ClusterTopology X, !ProviderLaws X, !QuietCluster X}.
Variable set_order : list string → list string.
Variable rel_path : string → string.
Variable tasks_of : string → list dict.
Variable self_id : string.
#[local] Notation Blue := (Blueprint K8sConf K8sBlueprintNGState X).
#[local] Notation B := (M Blue).
#[local] Notation worker_name := (worker_name self_id).
Implicit Types b : Blue.

(** ** The invariant *)
Definition named (l : loc) (n : nat) b : Prop := ∃ v, holds l (OVm v) b ∧ vm_name v = worker_name n.
(** A configurator in the list of the workers: its number is that of the name of its machine. *)
Definition worker_conf (c : loc) b : Prop :=
  ∃ i vm p n, holds c (OConf i (VmK8sDay0Configurator vm p (Z.of_nat n))) b ∧ named vm n b.
Record numbered b : Prop := {
  nb_workers : ∃ ns, Forall2 (λ l n, named l n b) (vm_workers (state b)) ns ∧ NoDup ns ∧
    ∀ n, n ∈ ns → worker_numbers (state b) !! n = Some 1;
  nb_length : length (worker_numbers (state b)) = 18%nat;
  nb_confs : Forall (λ c, worker_conf c b) (day_0_workers_configurators (state b))
}.

Lemma named_extends l n b b' : extends b b' → named l n b → named l n b'.
Proof.
  intros [_ H] (v & Hv & Hn). destruct (H l _ Hv) as ([v'| |] & Hv' & Hk); [|done..]. exists v'. destruct Hk as [Hk _].
  split; [done|congruence].
Qed.
Lemma worker_conf_extends c b b' : extends b b' → worker_conf c b → worker_conf c b'.
Proof.
  intros Hx (i & vm & p & n & Hc & Hn). pose proof Hx as [_ H]. destruct (H c _ Hc) as ([| |i' []] & Hc' & Hk); try done.
  cbn in Hk. destruct Hk as [-> ->]. do 4 eexists. split; [done|by eapply named_extends].
Qed.
Lemma worker_conf_is_conf c b : worker_conf c b → is_conf c b.
Proof. intros (i & vm & p & n & Hc & _). by do 2 eexists. Qed.
#[local] Instance numbered_stable : Stable numbered.
Proof.
  intros b b' Hx [(ns & H1 & H2 & H3) Hl Hc]. pose proof Hx as [Hs _]. constructor; rewrite Hs.
  - exists ns. split_and!; [|done|done]. eapply Forall2_impl; [exact H1|]. intros l n. by apply named_extends.
  - done.
  - eapply Forall_impl; [exact Hc|]. intros c. by apply worker_conf_extends.
Qed.
#[local] Instance and_stable (F G : Blue → Prop) : Stable F → Stable G → Stable (λ b, F b ∧ G b).
Proof. intros HF HG b b' Hx [H1 H2]. split; [by apply (HF b)|by apply (HG b)]. Qed.
#[local] Instance named_stable l n : Stable (named l n).
Proof. intros b b'. by apply named_extends. Qed.
Lemma worker_named b l : numbered b → l ∈ vm_workers (state b) → ∃ n, named l n b.
Proof.
  intros [(ns & H1 & _) _ _] [i Hi]%list_elem_of_lookup. destruct (Forall2_lookup_l _ _ _ _ _ H1 Hi) as (n & _ & Hn).
  by exists n.
Qed.
(** No worker has the name. *)
Definition absent (name : string) b : Prop := ∀ l v, l ∈ vm_workers (state b) → holds l (OVm v) b → vm_name v ≠ name.
#[local] Instance absent_stable name : Stable (λ b, numbered b ∧ absent name b).
Proof.
  intros b b' Hx [Hn Ha]. split; [by apply (numbered_stable b)|].
  intros l v'. pose proof Hx as [-> H]. intros Hl Hv'. destruct (worker_named b l Hn Hl) as (n & v & Hv & _).
  destruct (H l _ Hv) as ([w| |] & Hw & Hk); [|done..]. unfold holds in Hv'. rewrite Hw in Hv'. injection Hv' as ->. destruct Hk as [-> _].
  by apply (Ha l).
Qed.

Lemma numbered_state b s :
  vm_workers s = vm_workers (state b) → worker_numbers s = worker_numbers (state b) →
  day_0_workers_configurators s = day_0_workers_configurators (state b) → numbered b → numbered (set_state s b).
Proof. intros H1 H2 H3 []. constructor; cbn; by rewrite ?H1, ?H2, ?H3. Qed.

#[local] Notation good := (good numbered).
(** An update of the state that is not about the workers. *)
Ltac update_other := apply step_update_state; intros ? (? & ? & ?); by apply numbered_state.

(** ** Deploying *)
Lemma deploy_master_good area flavors : triple (good []) (deploy_master_node set_order self_id area flavors) (λ _, good []) (good []).
Proof.
  unfold deploy_master_node. apply step_read; [apply reads_get_state|]. intros s.
  eapply triple_bind; [by apply step_alloc|]. intros vm.
  eapply triple_bind; [apply step_update_keep; [done|intros b (? & ? & ?) _; by apply numbered_state]|]. intros [].
  eapply triple_bind; [apply step_register|]. intros [].
  eapply triple_bind; [by apply step_create_vm|]. intros [].
  eapply triple_bind; [by apply step_alloc|]. intros day0.
  eapply weaken_pre; [intros b [Hg _]; exact Hg|]. eapply triple_bind; [update_other|]. intros [].
  eapply triple_bind; [by apply step_alloc|]. intros day2.
  eapply weaken_pre; [intros b [Hg _]; exact Hg|]. eapply triple_bind; [update_other|]. intros [].
  apply step_register_any. intros []. apply step_last; [apply register_any_sound|apply grows_register].
Qed.

(** The state and the objects after the first steps of the deployment of a worker. *)
Definition worker_vm (area : K8sAreaDeployment) (n : nat) b : VmResource :=
  new_VmResource set_order (area_id area) (worker_name n) node_image (worker_flavors area) "ubuntu"
    (state_password (state b)) (mgmt_net area) (area_networks area) (require_port_security (state b)).
Definition new_worker (area : K8sAreaDeployment) (n : nat) (numbers : list Z) b : Blue :=
  set_state (set_vm_workers (vm_workers (state b) ++ [length (objs b)]) (set_worker_numbers numbers (state b)))
    (set_objs (objs b ++ [OVm (worker_vm area n b)]) b).
Definition finish_worker (vm : loc) (n : nat) : B unit :=
  register_resource vm ;;
  provider_create_vm vm ;;
  configurator ← alloc (OConf None (new_day0 vm (Z.of_nat n)));
  update_state (λ s, set_workers_configurators (day_0_workers_configurators s ++ [configurator]) s) ;;
  update_state (λ s, set_tobe_exec (day_0_workers_configurators_tobe_exec s ++ [configurator]) s) ;;
  register_resource configurator.
Lemma deploy_worker_run area b :
  deploy_worker set_order self_id area b =
  match reserve_worker_number (worker_numbers (state b)) with
  | Ok (n, numbers) => finish_worker (length (objs b)) n (new_worker area n numbers b)
  | Raise e => (Raise e, b)
  end.
Proof. unfold deploy_worker, get_state, mbind, M_bind, getS, mret, M_ret, liftR. by destruct (reserve_worker_number _) as [[]|]. Qed.

Lemma new_worker_good area n numbers b :
  good [] b → reserve_worker_number (worker_numbers (state b)) = Ok (n, numbers) →
  DeploymentSteps.good (λ b', numbered b' ∧ named (length (objs b)) n b') [] (new_worker area n numbers b) ∧
  holds (length (objs b)) (OVm (worker_vm area n b)) (new_worker area n numbers b).
Proof.
  intros (Hs & [(ns & H1 & H2 & H3) Hl Hc] & _) [Hn ->]%reserve_inv.
  pose proof (alloc_triple (OVm (worker_vm area n b)) eq_refl b Hs) as [Hs1 Ho]. cbn in Ho.
  assert (Hx : extends b (set_objs (objs b ++ [OVm (worker_vm area n b)]) b)).
  { pose proof (grows_alloc (OVm (worker_vm area n b)) b) as Hx. exact Hx. }
  assert (Hnew : named (length (objs b)) n (new_worker area n (<[n:=1]> (worker_numbers (state b))) b)) by by eexists.
  split; [|exact Ho]. split; [by apply (sound_state _ _ Hs1)|]. split; [|constructor]. split; [|exact Hnew].
  constructor; cbn.
  - exists (ns ++ [n]). split_and!.
    + apply Forall2_app; [|by constructor]. eapply Forall2_impl; [exact H1|]. intros l m. apply (named_extends _ _ _ _ Hx).
    + apply NoDup_app. split_and!; [done| |apply NoDup_singleton]. intros m Hm ->%list_elem_of_singleton.
      specialize (H3 n Hm). congruence.
    + intros m [Hm|Hm%list_elem_of_singleton]%elem_of_app.
      * rewrite list_lookup_insert_ne; [by apply H3|]. intros <-. specialize (H3 n Hm). congruence.
      * subst m. apply list_lookup_insert_eq. by eapply lookup_lt_Some.
  - by rewrite length_insert.
  - eapply Forall_impl; [exact Hc|]. intros c. apply (worker_conf_extends _ _ _ Hx).
Qed.

Lemma finish_worker_good vm n v : vm_id v = None →
  triple (λ b, DeploymentSteps.good (λ b, numbered b ∧ named vm n b) [] b ∧ holds vm (OVm v) b)
    (finish_worker vm n) (λ _, good []) (good []).
Proof.
  intros Hid. apply triple_inv with (λ b, numbered b ∧ named vm n b); [by intros b []|]. unfold finish_worker.
  eapply triple_bind; [apply step_register|]. intros [].
  eapply triple_bind; [by apply step_create_vm|]. intros [].
  eapply triple_bind; [by apply step_alloc|]. intros conf.
  eapply triple_bind; [apply step_update_keep; [done|]|].
  { intros b (_ & [[Hw Hl Hc] Hn] & _) Ho. split; [|exact Hn]. constructor; cbn; [exact Hw|exact Hl|].
    apply Forall_app. split; [exact Hc|]. constructor; [|constructor]. exists None, vm, (new_builder "K8s Master Day0Configurator"), n.
    by split. }
  intros []. eapply weaken_pre; [intros b [Hg _]; exact Hg|].
  eapply triple_bind; [apply step_update_state; intros b (_ & [Hn Hm] & _); split; [by apply numbered_state|exact Hm]|].
  intros []. apply step_last; [apply register_any_sound|apply grows_register].
Qed.
Lemma deploy_worker_good area : triple (good []) (deploy_worker set_order self_id area) (λ _, good []) (good []).
Proof.
  intros b Hb. rewrite deploy_worker_run. destruct (reserve_worker_number _) as [[n numbers]|e] eqn:Er; [|exact Hb].
  exact (finish_worker_good _ _ (worker_vm area n b) eq_refl _ (new_worker_good area n numbers b Hb Er)).
Qed.
Lemma deploy_area_good area : triple (good []) (deploy_area set_order self_id area) (λ _, good []) (good []).
Proof.
  unfold deploy_area. eapply triple_bind; [apply triple_for_each; intros i _; apply deploy_worker_good|]. intros [].
  update_other.
Qed.

(** ** Configuring *)
Lemma reads_load_day0 l : reads (load_day0 l : B (option string * loc * AnsiblePlaybook * Z)).
Proof. apply reads_bind; [apply reads_load_conf|]. by intros [i []] b. Qed.
Lemma set_builder_good l p confs : triple (good confs) (set_builder l p) (λ _, good confs) (good []).
Proof.
  intros b Hb. unfold set_builder, load_day0. destruct (load_conf_cases l b) as [(i & c & Hl & E)|E].
  - unfold mbind, M_bind. rewrite E. cbn. destruct c as [vm q n|vm|vm tasks]; cbn; [|by eapply good_nil..].
    pose proof (step_store_conf (inv:=numbered) l i (VmK8sDay0Configurator vm q n) (VmK8sDay0Configurator vm p n) confs (conj eq_refl eq_refl) b (conj Hb Hl)) as Ht.
    exact Ht.
  - unfold mbind, M_bind. rewrite E. by eapply good_nil.
Qed.
Lemma reads_the o : reads (the o : B loc).
Proof. by destruct o. Qed.
Lemma configure_the_master_good : triple (good []) (configure_the_master rel_path tasks_of) (λ _, good []) (good []).
Proof.
  unfold configure_the_master. apply step_read; [apply reads_get_state|]. intros s.
  apply step_read; [apply reads_the|]. intros mc. apply step_read; [apply reads_the|]. intros m.
  apply step_read; [apply reads_load_vm|]. intros v. apply step_read; [apply reads_liftR|]. intros i.
  eapply triple_bind; [apply set_builder_good|]. intros []. apply step_configure. intros facts.
  apply step_read; [apply reads_liftR|]. intros join. eapply triple_bind; [update_other|]. intros [].
  apply step_read; [apply reads_liftR|]. intros file. update_other.
Qed.
Lemma day0conf_good c : triple (good []) (day0conf rel_path tasks_of c) (λ _, good []) (good []).
Proof.
  unfold day0conf. apply triple_bind with (λ _, good []).
  { destruct c; [apply configure_the_master_good|by apply triple_ret]. }
  intros []. apply step_read; [apply reads_get_state|]. intros s. apply triple_bind with (λ _, good []).
  - apply triple_for_each. intros conf _. apply step_read; [apply reads_get_state|]. intros s'.
    eapply triple_bind; [apply set_builder_good|]. intros []. apply step_configure. intros r. by apply triple_ret.
  - intros []. update_other.
Qed.
Lemma run_on_master_good p : triple (good []) (run_on_master p) (λ _, good []) (good []).
Proof.
  unfold run_on_master. apply step_read; [apply reads_get_state|]. intros s.
  apply step_read; [apply reads_the|]. intros mc. eapply triple_bind; [apply set_builder_good|]. intros [].
  apply step_configure. intros r. by apply triple_ret.
Qed.

(** ** Deleting workers *)
Lemma reads_name_of l : reads (name_of l : B string).
Proof. apply reads_bind; [apply reads_load_vm|by intros v b]. Qed.
Lemma name_of_run l n b : named l n b → name_of l b = (Ok (worker_name n), b).
Proof. intros (v & Hv & Hn). unfold name_of. rewrite (bind_Ok _ _ _ _ _ (load_vm_run l v b Hv)). by rewrite Hn. Qed.
Lemma reads_others (f : loc → B string) name l : (∀ x, reads (f x)) → reads (others f name l).
Proof.
  intros Hf. induction l as [|x l IH]; [by intros b|]. apply reads_bind; [apply Hf|]. intros n.
  apply reads_bind; [exact IH|by intros r b].
Qed.
Lemma others_named name l ns b :
  Forall2 (λ x n, named x n b) l ns →
  ∃ r, others name_of name l b = (Ok r, b) ∧ Forall2 (λ x n, named x n b) r (filter (λ n, worker_name n ≠ name) ns) ∧
    r `sublist_of` l.
Proof.
  induction 1 as [|x n l ns Hn H (r & E & H1 & H2)]; [by exists []|]. cbn [others].
  rewrite (bind_Ok _ _ _ _ _ (name_of_run x n b Hn)), (bind_Ok _ _ _ _ _ E). rewrite filter_cons.
  destruct (String.eqb_spec (worker_name n) name) as [Heq|Hne].
  - rewrite decide_False by (by intros ?). exists r. split_and!; [done|done|by constructor].
  - rewrite decide_True by done. exists (x :: r). split_and!; [done|by constructor|by constructor].
Qed.

#[local] Notation gone_from name := (DeploymentSteps.good (λ b, numbered b ∧ absent name b)).
Lemma load_day0_run c i vm p n b :
  holds c (OConf i (VmK8sDay0Configurator vm p n)) b → load_day0 c b = (Ok (i, vm, p, n), b).
Proof. intros H. unfold load_day0. by rewrite (bind_Ok _ _ _ _ _ (load_conf_run c _ _ b H)). Qed.

(** One configurator of a worker that is gone is taken out of the list, its number released. *)
Lemma take_out_good name confs c n i b numbers ls :
  gone_from name confs b → worker_conf c b → worker_name n = name →
  _release_worker_number (Z.of_nat n) (worker_numbers (state b)) = Ok numbers →
  ls = delete i (day_0_workers_configurators (state b)) →
  gone_from name (c :: confs) (set_state (set_workers_configurators ls (set_worker_numbers numbers (state b))) b).
Proof.
  intros (Hs & [[(ns & H1 & H2 & H3) Hl Hc] Ha] & Hcf) Hw Hn ->%release_inv ->.
  split; [by apply sound_state|split; [split|]]; [|exact Ha|constructor; [by apply worker_conf_is_conf|exact Hcf]].
  constructor; cbn; [|by rewrite length_insert|by apply Forall_delete_list].
  exists ns. split_and!; [exact H1|done|]. intros m Hm. rewrite list_lookup_insert_ne; [by apply H3|]. intros ->.
  apply list_elem_of_lookup in Hm as [j Hj]. destruct (Forall2_lookup_r _ _ _ _ _ H1 Hj) as (l & Hl' & v & Hv & Hnv).
  apply (Ha l v); [by eapply list_elem_of_lookup_2|exact Hv|congruence].
Qed.
Lemma remove_configurators_good fuel : ∀ i name confs,
  triple (gone_from name confs) (remove_configurators fuel i name) (λ r, gone_from name (r ++ confs)) (gone_from name []).
Proof.
  induction fuel as [|fuel IH]; intros i name confs b Hb; [exact Hb|]. cbn [remove_configurators].
  rewrite (bind_Ok get_state _ b b (state b)) by done.
  destruct (day_0_workers_configurators (state b) !! i) as [c|] eqn:Ec; [|exact Hb].
  pose proof Hb as (Hs & [[Hw Hl Hc] Ha] & Hcf). pose proof (Forall_lookup_1 _ _ _ _ Hc Ec) as Hwc.
  pose proof Hwc as (j & vm & p & n & Hcn & Hvm).
  rewrite (bind_Ok _ _ _ _ _ (load_day0_run _ _ _ _ _ _ Hcn)), (bind_Ok _ _ _ _ _ (name_of_run _ _ _ Hvm)).
  destruct (String.eqb_spec (worker_name n) name) as [Hn|Hne]; [|by apply IH].
  destruct (_release_worker_number (Z.of_nat n) (worker_numbers (state b))) as [numbers|e] eqn:Er; [|by eapply good_nil].
  rewrite (bind_Ok (liftR (Ok numbers)) _ b b numbers) by done.
  set (b1 := set_state (set_worker_numbers numbers (state b)) b). rewrite (bind_Ok (update_state _) _ b b1 tt) by done.
  destruct (py_remove Nat.eqb c (day_0_workers_configurators (state b))) as [ls|e] eqn:Ep.
  2: { exfalso. unfold py_remove in Ep. destruct (find_index _ _) eqn:Ef; [done|].
       pose proof (proj1 (find_index_None _ _) Ef c (list_elem_of_lookup_2 _ _ _ Ec)) as Hf. cbn in Hf.
       by rewrite Nat.eqb_refl in Hf. }
  pose proof (py_remove_inv _ _ _ _ Ep) as (k & y & Hk & _ & Hls).
  rewrite (bind_Ok (liftR (Ok ls)) _ b1 b1 ls) by done.
  pose proof (take_out_good name confs c n k b numbers ls Hb Hwc Hn Er Hls) as Hb2.
  set (b2 := set_state _ b) in Hb2. rewrite (bind_Ok (update_state _) _ b1 b2 tt) by done.
  specialize (IH (S i) name (c :: confs) b2 Hb2).
  unfold mbind at 1, M_bind. destruct (remove_configurators fuel (S i) name b2) as [[r|e] b3]; [|exact IH].
  eapply good_weaken; [|exact IH]. intros l. cbn. rewrite !elem_of_cons, !elem_of_app, elem_of_cons. tauto.
Qed.

Lemma remove_worker_good vm : triple (good []) (remove_worker vm) (λ r, good r) (good []).
Proof.
  intros b Hb. unfold remove_worker. pose proof (reads_name_of vm b) as Hr. unfold mbind at 1, M_bind.
  destruct (name_of vm b) as [[name|e] b']; cbn in Hr; subst b'; [|exact Hb].
  rewrite (bind_Ok get_state _ b b (state b)) by done.
  pose proof Hb as (Hs & [(ns & H1 & H2 & H3) Hl Hc] & _).
  destruct (others_named name _ _ _ H1) as (ws & E & Hws & Hsub). rewrite (bind_Ok _ _ _ _ _ E).
  set (b1 := set_state (set_vm_workers ws (state b)) b). rewrite (bind_Ok (update_state _) _ b b1 tt) by done.
  assert (Hb1 : gone_from name [] b1).
  { split; [by apply sound_state|split; [split|constructor]].
    - constructor; cbn; [|exact Hl|exact Hc]. exists (filter (λ n, worker_name n ≠ name) ns). split_and!; [exact Hws|by apply NoDup_filter|].
      intros n [_ Hn]%list_elem_of_filter. by apply H3.
    - intros l v Hin Hv. cbn in Hin. apply list_elem_of_lookup in Hin as [i Hi].
      destruct (Forall2_lookup_l _ _ _ _ _ Hws Hi) as (n & Hn%list_elem_of_lookup_2 & w & Hw & Hnw).
      apply list_elem_of_filter in Hn as [Hn _]. unfold holds in Hv, Hw. cbn in Hv. rewrite Hw in Hv. injection Hv as ->. congruence. }
  revert b1 Hb1. generalize (length (day_0_workers_configurators (state b))). intros fuel b1 Hb1.
  pose proof (remove_configurators_good fuel 0 name [] b1 Hb1) as Ht. unfold mbind at 1, M_bind.
  destruct (remove_configurators fuel 0 name b1) as [[r|e] b2].
  2: { eapply good_inv; [|exact Ht]. by intros ? []. }
  rewrite app_nil_r in Ht. assert (Hb2 : good r b2) by (eapply good_inv; [|exact Ht]; by intros ? []).
  clear Ht. revert b2 Hb2. apply step_read; [apply reads_get_state|]. intros s. apply step_read.
  { apply reads_others. intros c. apply reads_bind; [apply reads_load_day0|]. intros [[[? ?] ?] ?]. apply reads_name_of. }
  intros tobe. eapply triple_bind; [update_other|]. intros []. by apply triple_ret.
Qed.
Lemma destroy_worker_good vm : triple (good []) (destroy_worker vm) (λ _, good []) (good []).
Proof.
  unfold destroy_worker. apply step_destroy. eapply triple_bind; [apply remove_worker_good|]. intros r.
  eapply triple_conseq; [apply (triple_for_each (good r))|done|intros [] b Hb; by eapply good_nil|done].
  intros c Hc. by apply step_forget.
Qed.

Lemma reads_find_worker node l : reads (find_worker node l : B (option loc)).
Proof.
  induction l as [|x l IH]; [by intros b|]. apply reads_bind; [apply reads_name_of|]. intros n.
  destruct (String.eqb _ _); [by intros b|exact IH].
Qed.
Lemma reads_select nodes l tasks : reads (select_workers nodes l tasks : B (list loc * list AnsibleTaskDescription)).
Proof.
  revert tasks. induction nodes as [|n nodes IH]; intros tasks; [by intros b|]. apply reads_bind; [apply reads_find_worker|].
  intros [x|]; [|apply IH]. apply reads_bind; [apply reads_name_of|]. intros nm. apply reads_bind; [apply IH|]. by intros [] b.
Qed.
Lemma del_workers_good nodes : triple (good []) (del_workers nodes) (λ _, good []) (good []).
Proof.
  unfold del_workers. apply step_read; [apply reads_get_state|]. intros s. apply step_read; [apply reads_the|].
  intros m. apply step_read; [apply reads_name_of|]. intros nm. destruct (_ <=? _)%nat; [by apply triple_ret|].
  apply step_read; [apply reads_select|]. intros [vms tasks]. eapply triple_bind; [by apply step_alloc|]. intros conf.
  eapply weaken_pre; [intros b [Hg _]; exact Hg|]. apply step_configure. intros r. apply triple_for_each.
  intros vm _. apply destroy_worker_good.
Qed.

(** ** The requests *)
Lemma add_worker_good l : triple (good []) (add_worker set_order rel_path tasks_of self_id l) (λ _, good []) (good []).
Proof.
  unfold add_worker. apply triple_bind with (λ _, good []); [|intros []; apply day0conf_good]. apply triple_for_each. intros a _. apply deploy_area_good.
Qed.
Lemma cluster_day2_good r : preserves (good []) (day2 set_order rel_path tasks_of self_id r).
Proof.
  apply triple_preserves. destruct r; [apply add_worker_good|apply del_workers_good|apply run_on_master_good..].
Qed.
Lemma step_quiet_last {A} (m : M X A) confs : harmless m → triple (good confs) (on_ext m) (λ _, good confs) (good []).
Proof. intros Hq. apply step_last; [by apply sound_on_ext|apply grows_on_ext]. Qed.
Lemma reads_pool_areas l : reads (pool_areas self_id l : B (list K8sLoadBalancerPoolArea)).
Proof.
  assert (Hr : ∀ k v, reads (pool_area self_id k v : B K8sLoadBalancerPoolArea)).
  { intros k v. apply reads_bind; [apply reads_get_state|]. intros s. apply reads_bind; [apply reads_liftR|]. intros a.
    apply reads_bind; [by intros b|]. intros b. apply reads_bind; [apply reads_liftR|]. intros hs.
    apply reads_bind; [apply reads_the|]. intros m. apply reads_bind; [apply reads_load_vm|]. intros w b'.
    cbv zeta. by destruct (valid_pool_name (lower self_id +:+ "-area1")). }
  induction l as [|[k v] l IH]; [by intros b|]. apply reads_bind; [apply Hr|]. intros a.
  apply reads_bind; [exact IH|by intros r b].
Qed.
Lemma setup_pools_good : triple (good []) (setup_load_balancer_pool self_id) (λ _, good []) (good []).
Proof.
  unfold setup_load_balancer_pool. apply step_read; [apply reads_get_state|]. intros s.
  apply step_read; [apply reads_pool_areas|intros l; update_other].
Qed.
Lemma cluster_create_good m : preserves (good []) (create set_order rel_path tasks_of self_id m).
Proof.
  apply triple_preserves. unfold create. eapply triple_bind; [update_other|]. intros [].
  apply triple_bind with (λ _, good []); [apply triple_for_each|intros []].
  { intros area _. unfold deploy_request_area. apply triple_bind with (λ _, good []); [|intros []].
    - destruct (is_master_area area); [|by apply triple_ret]. eapply triple_bind; [update_other|]. intros []. apply deploy_master_good.
    - apply triple_bind with (λ _, good []); [|intros []; apply deploy_area_good]. destruct (_ <? _)%nat; [update_other|by apply triple_ret]. }
  eapply triple_bind; [apply setup_pools_good|]. intros []. eapply triple_bind; [apply day0conf_good|]. intros [].
  apply triple_bind with (λ _, good []); [|intros []; apply triple_bind with (λ _, good []); [|intros []]].
  - unfold fix_dns_problem. apply step_read; [apply reads_get_state|]. intros s.
    apply step_quiet; [apply load_kube_config_quiet|]. intros []. apply step_quiet; [apply read_config_map_quiet|]. intros d.
    apply step_read; [apply reads_liftR|]. intros t. apply step_quiet_last, patch_config_map_quiet.
  - destruct (install_plugins_flag m); [|by apply triple_ret]. unfold install_default_plugins.
    apply step_read; [apply reads_get_state|]. intros s. apply step_quiet; [apply load_kube_config_quiet|]. intros [].
    apply step_quiet; [apply get_k8s_cidr_info_quiet|]. intros c. apply step_read; [apply reads_liftR|]. intros cidr.
    apply step_quiet; [apply load_kube_config_quiet|]. intros []. apply step_quiet_last, install_plugins_quiet.
  - destruct (topology_onboard m); [|by apply triple_ret]. apply triple_bind with (λ _, good []); [|intros []; update_other].
    unfold onboard_cluster. apply step_read; [apply reads_get_state|]. intros s.
    apply step_read; [by destruct (master_area s)|]. intros a. apply step_quiet; [apply get_vim_name_quiet|]. intros vim.
    destruct (validate_k8s _); [|intros b Hb; exact Hb]. apply step_read; [by intros b|]. intros []. apply step_quiet_last, add_k8scluster_quiet.
Qed.

(** The state after a list of requests, those that fail included. *)
Definition after_all (l : list Day2) b : Blue := foldl (λ b r, (day2 set_order rel_path tasks_of self_id r b).2) b l.
Definition empty_blueprint (x : X) : Blue :=
  {| objs := []; registered_resources := []; children_blue_ids := []; state := initial_state; ext := x |}.
Lemma empty_good x : pristine x → good [] (empty_blueprint x).
Proof.
  intros Hx. split; [by apply empty_sound|split; [|constructor]].
  constructor; cbn; [|done|constructor]. exists []. split_and!; [constructor|constructor|]. by intros n ?%not_elem_of_nil.
Qed.
Lemma history_good m requests x : pristine x →
  good [] (after_all requests (create set_order rel_path tasks_of self_id m (empty_blueprint x)).2).
Proof.
  intros Hx. pose proof (cluster_create_good m _ (empty_good x Hx)) as H. revert H.
  generalize (create set_order rel_path tasks_of self_id m (empty_blueprint x)).2.
  induction requests as [|r l IH]; intros b Hb; [done|]. cbn. apply IH. by apply cluster_day2_good.
Qed.

Lemma cluster_destroy_clean b b' : good [] b → destroy self_id b = (Ok tt, b') → healthy (ext b') ∧ servers (ext b') = ∅.
Proof.
  intros Hb Hd.
  unfold destroy in Hd. rewrite (bind_Ok get_state _ b b (state b)) in Hd by done.
  apply bind_Ok_inv in Hd as ([] & b1 & H1 & Hd). apply bind_Ok_inv in Hd as ([] & b2 & H2 & Hd).
  assert (Hs : sound b1).
  { assert (Hp : preserves sound (if topology_onboarded (state b) then catch (on_ext (del_k8scluster self_id))
      (λ e, if is_value_error e then Some (mret tt) else None) else mret tt : B unit)).
    { destruct (topology_onboarded _); [|apply preserves_ret]. apply preserves_catch; [apply sound_on_ext, del_k8scluster_quiet|].
      intros e k. destruct (is_value_error e); [|done]. intros [= <-]. apply preserves_ret. }
    specialize (Hp b (proj1 Hb)). by rewrite H1 in Hp. }
  pose proof (base_destroy_clean b1 b2 Hs H2) as Hc. unfold on_ext, zoom in Hd.
  destruct Hc as [Hok Hc]. destruct (release_ranges_quiet self_id (ext b2) Hok) as (? & Hq & _).
  destruct (release_ranges self_id (ext b2)) as [r x2]. injection Hd as -> <-. split; [done|]. cbn in *. set_solver.
Qed.

(** C19: no machine of a cluster is forgotten. Whatever the blueprint is asked, a creation and any
    additions and deletions of workers in any order, and whichever of them fail and wherever (the provider, a
    playbook, the Kubernetes API, the topology), a destruction that returns leaves none of the machines the
    blueprint ever created, and the providers in order. *)
Theorem cluster_leaves_no_machine m requests x b' :
  pristine x →
  destroy self_id (after_all requests (create set_order rel_path tasks_of self_id m (empty_blueprint x)).2) = (Ok tt, b') →
  healthy (ext b') ∧ servers (ext b') = ∅.
Proof. intros Hx. apply cluster_destroy_clean. by apply history_good. Qed.

(** Workers never share a name or a number. After a creation and any day-2 requests, failed ones
    included, each worker of the state is a machine named after a number, the numbers are different, all of them
    are marked as reserved, and there are at most eighteen workers. *)
Theorem workers_have_their_own_numbers m requests x :
  pristine x →
  let b := after_all requests (create set_order rel_path tasks_of self_id m (empty_blueprint x)).2 in
  (length (vm_workers (state b)) ≤ 18)%nat ∧
  ∃ ns, NoDup ns ∧ Forall2 (λ l n, ∃ v, holds l (OVm v) b ∧ vm_name v = worker_name n) (vm_workers (state b)) ns ∧
    ∀ n, n ∈ ns → (n < 18)%nat ∧ worker_numbers (state b) !! n = Some 1.
Proof.
  intros Hx b. destruct (history_good m requests x Hx) as (_ & [(ns & H1 & H2 & H3) Hl _] & _). fold b in H1, H3, Hl.
  assert (H4 : ∀ n, n ∈ ns → (n < 18)%nat ∧ worker_numbers (state b) !! n = Some 1).
  { intros n Hn. specialize (H3 n Hn). split; [|done]. rewrite <-Hl. by eapply lookup_lt_Some. }
  split; [|by exists ns]. rewrite (Forall2_length _ _ _ H1). change 18%nat with (length (seq 0 18)).
  apply submseteq_length, NoDup_submseteq; [done|]. intros n Hn%H4. apply elem_of_seq. lia.
Qed.
End k8s_props.

(** ** What playbooks do to the cluster

    The worker playbook makes its machine a node; "kubectl delete node" takes a node out. *)
Definition play_vars (playbook : pyval) : dict :=
  match playbook with
  | VList (VDict play :: _) => match od_get "vars" play with Some (VDict d) => d | _ => [] end
  | _ => []
  end.
Definition joins (playbook : pyval) : bool := od_in "join_command" (play_vars playbook).
Definition deleted_nodes (playbook : pyval) : gset string :=
  list_to_set (omap (strip_prefix "kubectl delete node ") (play_shells playbook)).
Definition play_members (v : VmResource) (playbook : pyval) (members : gset string) : gset string :=
  (if joins playbook then {[get_name_k8s_format (vm_name v)]} else ∅) ∪ (members ∖ deleted_nodes playbook).

(** ** A concrete cluster

    The creation of the machine of worker 2 fails after its server has been started. *)
Module Concrete.
Record Lab := { lab_next : nat; lab_servers : gset string; lab_members : gset string }.
Fixpoint lab_id (n : nat) : string := match n with O => "i" | S n' => String "i"%char (lab_id n') end.
Definition lab_start : Lab := {| lab_next := 0; lab_servers := ∅; lab_members := ∅ |}.

Definition lab_interface (n : string) : string * list VmResourceNetworkInterface :=
  (n, [{| fixed := {| interface_name := "ens3"; mac := "02:00"; ip := "10.0.0.2"; cidr := "10.0.0.0/24" |}; floating := None |}]).
Definition lab_boot (v : VmResource) : VmResource :=
  {| vm_id := vm_id v; vm_area := vm_area v; vm_name := vm_name v; image := image v; flavor := flavor v;
     username := username v; password := password v; become_password := become_password v;
     management_network := management_network v; additional_networks := additional_networks v;
     require_floating_ip := require_floating_ip v; require_port_security_disabled := require_port_security_disabled v;
     created := true; access_ip := Some "1.2.3.4";
     network_interfaces := lab_interface <$> get_all_connected_network_names v; vm_state := vm_state v |}.
Definition lab_key (v : VmResource) : string := default EmptyString (vm_id v).
Definition lab_facts : list (string * pyval) :=
  [("kubernetes_join_command", VDict [("stdout", VStr "kubeadm join 10.0.0.2:6443 --token t")]);
   ("credentials_file", VDict [("stdout", VStr "server: https://10.0.0.2:6443")])].

#[export] Instance lab_provider : Provider Lab := {|
  create_vm v x :=
    let x' := {| lab_next := lab_next x; lab_servers := {[lab_key v]} ∪ lab_servers x; lab_members := lab_members x |} in
    if String.eqb (vm_name v) "blue-vm-w-2" then (Raise (ExternalError 1), v, x') else (Ok tt, lab_boot v, x');
  destroy_vm v x :=
    (Ok tt, {| lab_next := lab_next x; lab_servers := lab_servers x ∖ {[lab_key v]}; lab_members := lab_members x |});
  create_net n := mret tt;
  get_virt_provider a := mret tt;
  run_playbook v p x :=
    (Ok lab_facts, {| lab_next := lab_next x; lab_servers := lab_servers x; lab_members := play_members v p (lab_members x) |});
  delete_blueprint i := raise BlueprintNotFoundException;
  final_cleanup := mret tt;
  destroy_ng_blue := mret tt;
  get_vim_from_area_id_model a := mret tt;
  uuid4 x := (lab_id (lab_next x), {| lab_next := S (lab_next x); lab_servers := lab_servers x; lab_members := lab_members x |})
|}.
#[export] Instance lab_api : ClusterApi Lab := {|
  chart_object := unit;
  load_kube_config c := mret tt;
  read_config_map c ns n := mret [("Corefile", ".:53"); ("ClusterConfiguration", "networking")];
  patch_config_map c ns n d := mret tt;
  get_daemon_sets c := mret [Some [("app", "metallb")]];
  get_chart c p r v := mret tt;
  install_or_upgrade_release c n o d s := mret tt;
  read_namespaced_storage_class c n := mret (Some []);
  patch_namespaced_storage_class c n a := mret tt;
  render_file_from_template t d c := mret "file";
  create_from_yaml c p := mret tt;
  safe_load s := Ok (VDict [("networking", VDict [("podSubnet", VStr "10.254.0.0/16")])]);
  safe_load_path s := Raise AttributeError
|}.
#[export] Instance lab_topology : ClusterTopology Lab := {|
  get_vim_name_from_area_id a := mret (Some "vim"); add_k8scluster k := mret tt; del_k8scluster i := mret tt;
  release_ranges i := mret tt |}.

Lemma lab_cluster_id_inj n m : lab_id n = lab_id m → n = m.
Proof.
  assert (H : ∀ n, String.length (lab_id n) = S n) by (intros k; induction k as [|k IH]; [done|cbn; by rewrite IH]).
  intros E. apply (f_equal String.length) in E. rewrite !H in E. congruence.
Qed.
Definition lab_issued (x : Lab) : gset string := list_to_set (lab_id <$> seq 0 (lab_next x)).
#[export] Program Instance lab_laws : ProviderLaws Lab :=
  {| servers x := lab_servers x ∖ {[EmptyString]}; issued := lab_issued; homes x i a := False; healthy x := True |}.
Next Obligation.
  intros x i x' _ [= <- <-]. unfold lab_issued. cbn [lab_next lab_servers]. split_and!; [| | |done..].
  - by destruct (lab_next x).
  - intros (n & Hn & Hin)%elem_of_list_to_set%list_elem_of_fmap. apply lab_cluster_id_inj in Hn as <-.
    apply elem_of_seq in Hin. lia.
  - rewrite seq_S, fmap_app, list_to_set_app_L. cbn. set_solver.
Qed.
Next Obligation. intros v x r v' x'. cbn -[String.eqb]. by destruct (String.eqb _ _); intros [= <- <- <-]. Qed.
Next Obligation.
  intros v x r v' x' i. cbn -[String.eqb]. unfold lab_key.
  destruct (String.eqb _ _); intros [= <- <- <-] _ -> _; split_and!; try done; cbn; set_solver.
Qed.
Next Obligation. intros v x _. cbn. split_and!; [done|set_solver|done|done]. Qed.
Next Obligation. intros v x x' i [= <-] _ Hi _. unfold lab_key. cbn. rewrite Hi. set_solver. Qed.
Solve Obligations with done.
Lemma lab_start_pristine : pristine lab_start.
Proof. split_and!; [done| |by intros i a []]. apply set_eq. intros i. unfold servers. cbn. set_solver. Qed.
#[export] Program Instance lab_quiet : QuietCluster Lab.
Solve Obligations with done.

(** A master and two workers in area 1, and a request that adds two workers in area 2, of which the first
    cannot be created; then worker 0 is deleted. *)
Definition lab_flavor : VmResourceFlavor :=
  {| flavor_name := None; vcpu_count := "2"; memory_mb := "2048"; storage_gb := "16"; vcpu_type := Some "host";
     flavor_port_security := Some false |}.
Definition lab_area (id : Z) (master : bool) (replicas : nat) : K8sAreaDeployment :=
  {| area_id := id; is_master_area := master; mgmt_net := "mgmt"; area_networks := ["data"];
     load_balancer_pools_ips := ["10.0.0.30"]; worker_replicas := replicas; worker_flavors := lab_flavor |}.
Definition lab_request : K8sCreateModel :=
  {| request_cni := "flannel"; request_pod_network_cidr := "10.254.0.0/16"; request_service_cidr := "10.200.0.0/16";
     topology_onboard := true; request_password := "ubuntu"; install_plugins_flag := true;
     request_cadvisor_node_port := 30080; master_flavors := lab_flavor; request_port_security := Some true;
     request_areas := [lab_area 1 true 2] |}.
Definition lab_day2 : list Day2 := [AddNode [lab_area 2 false 2]; DelWorkers ["blue-vm-w-0"]; AddNode [lab_area 2 false 1]].
Definition no_files (f : string) : list dict := [].
Notation lab_create := (create (λ l, l) (λ p, p) no_files "blue" lab_request (empty_blueprint lab_start)).
Notation lab_after := (after_all (λ l, l) (λ p, p) no_files "blue" lab_day2 lab_create.2).

Lemma cluster_leaves_no_machine_witness :
  lab_create.1 = Ok tt ∧ size (servers (ext lab_after)) = 4%nat ∧
  ∃ b', destroy "blue" lab_after = (Ok tt, b') ∧ healthy (ext b') ∧ servers (ext b') = ∅.
Proof.
  split; [vm_compute; reflexivity|]. split; [vm_compute; reflexivity|]. eexists. split; [vm_compute; reflexivity|].
  eapply (cluster_leaves_no_machine (λ l, l) (λ p, p) no_files "blue") with (m := lab_request) (requests := lab_day2) (x := lab_start);
    [apply lab_start_pristine|vm_compute; reflexivity].
Defined.
Lemma workers_have_their_own_numbers_witness : (length (vm_workers (state lab_after)) ≤ 18)%nat.
Proof.
  apply (workers_have_their_own_numbers (λ l, l) (λ p, p) no_files "blue" lab_request lab_day2 lab_start), lab_start_pristine.
Defined.
End Concrete.
