(* ===== verification/K8sRefinement.v ===== *)
(** * The nodes of a cluster follow the requests

    As long as the requests succeed, the creation of a cluster and the additions and deletions of workers
    refine a plain list of worker numbers: new workers take the first free numbers, deleted ones give theirs
    back, and the nodes that have joined the cluster are those of the list. *)

From Stdlib Require Import Ascii.
From stdpp Require Import base list strings gmap pretty.
From Stdlib Require Import ZArith Lia.
From S2P Require Import Prelude Core5GModels K8sModels Regex Ansible Resources HelmPlugins Deployment DeploymentSteps K8sBlueprint K8sProps.

Open Scope Z_scope.

(** ** The specification *)
Definition first_free (ns : list nat) : option nat := find (λ n, bool_decide (n ∉ ns)) (seq 0 18).
Definition spec_worker (ns : list nat) : list nat := match first_free ns with Some n => ns ++ [n] | None => ns end.
Definition spec_area (ns : list nat) (area : K8sAreaDeployment) : list nat := Nat.iter (worker_replicas area) spec_worker ns.
Definition spec_create (m : K8sCreateModel) : list nat := foldl spec_area [] (request_areas m).
Definition spec_day2 (self_id : string) (r : Day2) (ns : list nat) : list nat :=
  match r with
  | AddNode areas => foldl spec_area ns areas
  | DelWorkers nodes => if (length ns <=? 1)%nat then ns else filter (λ n, worker_name self_id n ∉ nodes) ns
  | _ => ns
  end.
Definition node_name (self_id : string) (n : nat) : string := get_name_k8s_format (worker_name self_id n).
Definition nodes (self_id : string) (ns : list nat) : gset string := list_to_set (node_name self_id <$> ns).

(** Different numbers, different nodes: the change of case keeps the digits. *)
Lemma string_map_append f s t : string_map f (s +:+ t) = string_map f s +:+ string_map f t.
Proof. induction s as [|c s IH]; [done|]. exact (f_equal (String (f c)) IH). Qed.
Lemma string_map_digits f s : (∀ c, is_digit c = true → f c = c) → all_chars is_digit s = true → string_map f s = s.
Proof.
  intros Hf. induction s as [|c s IH]; [done|]. cbn. intros [Hc Hs]%andb_true_iff. by rewrite (Hf c Hc), IH.
Qed.
Lemma k8s_format_digits s : all_chars is_digit s = true → get_name_k8s_format s = s.
Proof.
  intros H. unfold get_name_k8s_format, replace_char, lower.
  rewrite (string_map_digits ascii_lower s); [|by intros [[] [] [] [] [] [] [] []]|done].
  apply string_map_digits; [by intros [[] [] [] [] [] [] [] []]|done].
Qed.
Lemma k8s_format_append s t : get_name_k8s_format (s +:+ t) = get_name_k8s_format s +:+ get_name_k8s_format t.
Proof. unfold get_name_k8s_format, replace_char, lower. by rewrite !string_map_append. Qed.
Lemma node_name_inj self_id n m : node_name self_id n = node_name self_id m → n = m.
Proof.
  unfold node_name, worker_name. rewrite !k8s_format_append. intros H.
  apply (inj (String.append _)) in H. apply (inj (String.append _)) in H.
  rewrite !k8s_format_digits in H by (apply pretty_N_digits). by apply (inj pretty) in H.
Qed.
Lemma elem_of_nodes self_id ns s : s ∈ nodes self_id ns ↔ ∃ n, s = node_name self_id n ∧ n ∈ ns.
Proof. unfold nodes. by rewrite elem_of_list_to_set, list_elem_of_fmap. Qed.
Lemma nodes_filter self_id sel ns :
  nodes self_id (filter (λ n, n ∉ sel) ns) = nodes self_id ns ∖ nodes self_id sel.
Proof.
  apply set_eq. intros s. rewrite elem_of_difference, !elem_of_nodes. split.
  - intros (n & -> & [Hs Hn]%list_elem_of_filter). split; [by exists n|]. intros (m & ->%node_name_inj & Hm). done.
  - intros [(n & -> & Hn) Hs]. exists n. split; [done|]. apply list_elem_of_filter. split; [|done]. intros Hm. apply Hs. by exists n.
Qed.

(** ** What the outside does to the nodes of the cluster

    Only the run of a playbook changes them. *)
Definition calm {X A} (members : X → gset string) (m : M X A) : Prop := ∀ x, members (m x).2 = members x.
Class ClusterLaws (X : Type) `{!Provider X, !ClusterApi X, !ClusterTopology X} := {
  members : X → gset string;
  run_members : ∀ v p x r x', run_playbook v p x = (Ok r, x') → members x' = play_members v p (members x);
  create_members : ∀ v x, members (create_vm v x).2 = members x;
  uuid4_members : ∀ x, members (uuid4 x).2 = members x;
  destroy_calm : ∀ v, calm members (destroy_vm v);
  get_virt_provider_calm : ∀ a, calm members (get_virt_provider a);
  get_vim_calm : ∀ a, calm members (get_vim_from_area_id_model a);
  load_kube_config_calm : ∀ c, calm members (load_kube_config c);
  read_config_map_calm : ∀ c n m, calm members (read_config_map c n m);
  patch_config_map_calm : ∀ c n m d, calm members (patch_config_map c n m d);
  get_daemon_sets_calm : ∀ c, calm members (get_daemon_sets c);
  get_chart_calm : ∀ c p r v, calm members (get_chart c p r v);
  install_release_calm : ∀ c n o d s, calm members (install_or_upgrade_release c n o d s);
  read_storage_calm : ∀ c n, calm members (read_namespaced_storage_class c n);
  patch_storage_calm : ∀ c n a, calm members (patch_namespaced_storage_class c n a);
  render_calm : ∀ t d c, calm members (render_file_from_template t d c);
  create_from_yaml_calm : ∀ c p, calm members (create_from_yaml c p);
  get_vim_name_calm : ∀ a, calm members (get_vim_name_from_area_id a);
  add_k8scluster_calm : ∀ k, calm members (add_k8scluster k)
}.

Section calm.
Context {X : Type} `{!Provider X, !ClusterApi X, !ClusterTopology X, !ClusterLaws X}.
#[local] Abbreviation still := (calm members).

Lemma calm_ret {A} (a : A) : still (mret a : M X A).
Proof. by intros x. Qed.
Lemma calm_raise {A} e : still (raise e : M X A).
Proof. by intros x. Qed.
Lemma calm_liftR {A} (r : result A) : still (liftR r : M X A).
Proof. by intros x. Qed.
Lemma calm_bind {A B} (m : M X A) (f : A → M X B) : still m → (∀ a, still (f a)) → still (m ≫= f).
Proof.
  intros Hm Hf x. unfold mbind, M_bind. specialize (Hm x). destruct (m x) as [[a|e] x1]; [|done].
  by rewrite Hf.
Qed.
Lemma calm_catch {A} (m : M X A) h : still m → (∀ e k, h e = Some k → still k) → still (catch m h).
Proof.
  intros Hm Hh x. unfold catch. specialize (Hm x). destruct (m x) as [[a|e] x1]; [done|].
  destruct (h e) as [k|] eqn:Ek; [|done]. by rewrite (Hh e k Ek).
Qed.
Lemma calm_for_each {A} (l : list A) f : (∀ a, still (f a)) → still (for_each l f).
Proof. intros Hf. induction l as [|a l IH]; [apply calm_ret|]. by apply calm_bind. Qed.
Lemma calm_if {A} (c : bool) (m1 m2 : M X A) : still m1 → still m2 → still (if c then m1 else m2).
Proof. by destruct c. Qed.

#[local] Ltac calm_steps :=
  repeat first
    [ apply calm_ret | apply calm_raise | apply calm_liftR | apply calm_bind; [|intros ?] | apply calm_if
    | apply read_config_map_calm | apply get_daemon_sets_calm | apply get_chart_calm | apply install_release_calm
    | apply read_storage_calm | apply patch_storage_calm | apply render_calm | apply create_from_yaml_calm
    | apply calm_for_each; intros ? | apply calm_catch; [|intros ? ?] ].
Lemma get_k8s_cidr_info_calm c : still (get_k8s_cidr_info c).
Proof. unfold get_k8s_cidr_info. calm_steps. Qed.
Lemma install_plugins_calm c n l d : still (install_plugins c n l d).
Proof.
  unfold install_plugins, get_installed_plugins, _install_flannel, _install_calico, _install_openebs, _install_metallb,
    install_plugin. calm_steps. match goal with |- context [match ?p with _ => _ end] => destruct p end;
    calm_steps; try (destruct e; try done; intros [= <-]; calm_steps).
Qed.
End calm.

(** ** Numbers *)
Definition indicator (ns : list nat) : list Z := (λ n, if decide (n ∈ ns) then 1 else 0) <$> seq 0 18.
Lemma indicator_lookup ns n : (n < 18)%nat → indicator ns !! n = Some (if decide (n ∈ ns) then 1 else 0).
Proof. intros Hn. unfold indicator. by rewrite list_lookup_fmap, lookup_seq_lt. Qed.
Lemma indicator_insert ns n v ms :
  (∀ m, (m < 18)%nat → (if decide (m ∈ ms) then 1 else 0) = (if decide (m = n) then v else if decide (m ∈ ns) then 1 else 0)) →
  <[n:=v]> (indicator ns) = indicator ms.
Proof.
  intros H. apply list_eq. intros i. destruct (decide (i < 18)%nat) as [Hi|Hi].
  - rewrite (indicator_lookup ms i Hi), H by done. destruct (decide (i = n)) as [->|Hne].
    + apply list_lookup_insert_eq. unfold indicator. by rewrite length_fmap, length_seq.
    + rewrite list_lookup_insert_ne by done. by apply indicator_lookup.
  - rewrite !lookup_ge_None_2; [done|unfold indicator; rewrite length_fmap, length_seq; lia|].
    rewrite length_insert. unfold indicator. rewrite length_fmap, length_seq. lia.
Qed.
Lemma first_free_Some ns n : first_free ns = Some n → (n < 18)%nat ∧ n ∉ ns.
Proof.
  unfold first_free. intros [Hin Hb]%find_some. apply bool_decide_eq_true in Hb. apply in_seq in Hin. split; [lia|done].
Qed.
Lemma find_index_find {A} (p : A → bool) l :
  find p l = (i ← find_index p l; l !! i).
Proof.
  induction l as [|a l IH]; [done|]. cbn. destruct (p a); [done|]. rewrite IH. by destruct (find_index p l).
Qed.
Lemma find_index_fmap {A C} (f : A → C) p l : find_index p (f <$> l) = find_index (λ a, p (f a)) l.
Proof. induction l as [|a l IH]; [done|]. cbn. destruct (p (f a)); [done|]. by rewrite IH. Qed.
Lemma reserve_indicator ns n numbers :
  reserve_worker_number (indicator ns) = Ok (n, numbers) → first_free ns = Some n ∧ numbers = indicator (ns ++ [n]).
Proof.
  unfold reserve_worker_number. destruct (find_index _ _) as [i|] eqn:E; [|done]. intros [= <- <-].
  assert (Hf : first_free ns = Some i).
  { unfold first_free. rewrite find_index_find. unfold indicator in E. rewrite find_index_fmap in E.
    replace (find_index (λ n0, bool_decide (n0 ∉ ns)) (seq 0 18)) with (Some i).
    - cbn -[seq]. apply find_index_lt in E. rewrite length_seq in E. by apply lookup_seq_lt.
    - rewrite <-E. generalize (seq 0 18). intros l. induction l as [|a l IH]; [done|]. cbn.
      destruct (decide (a ∈ ns)); [rewrite bool_decide_eq_false_2 by (by intros ?)|rewrite bool_decide_eq_true_2 by done]; cbn; [by rewrite IH|done]. }
  split; [done|]. apply first_free_Some in Hf as [Hi Hn]. apply indicator_insert. intros m _.
  destruct (decide (m = i)) as [->|Hne]; [rewrite decide_True; [done|set_solver]|].
  destruct (decide (m ∈ ns)); [rewrite decide_True; [done|set_solver]|rewrite decide_False; [done|set_solver]].
Qed.
Lemma release_indicator ns n numbers :
  _release_worker_number (Z.of_nat n) (indicator ns) = Ok numbers → numbers = indicator (filter (λ m, m ≠ n) ns).
Proof.
  intros ->%release_inv. apply indicator_insert. intros m _. destruct (decide (m = n)) as [->|Hne].
  - rewrite decide_False; [done|]. by intros [? _]%list_elem_of_filter.
  - destruct (decide (m ∈ ns)) as [Hm|Hm]; [rewrite decide_True; [done|by apply list_elem_of_filter]|].
    rewrite decide_False; [done|]. by intros [_ ?]%list_elem_of_filter.
Qed.

(** ** Playbooks *)
Lemma play_vars_build p : play_vars (build p) = pb_vars p.
Proof. by destruct p as [[] ? [] ? ? ? ? ?]. Qed.
Lemma gather_shell var p : omap task_shell (pb_tasks (add_gather_var_task var p)) = omap task_shell (pb_tasks p).
Proof.
  unfold add_gather_var_task, add_gather_template_result_task, append_task. cbn [set_tasks pb_tasks].
  rewrite omap_app. cbn [omap list_omap]. by rewrite app_nil_r.
Qed.

Section playbooks.
Variable rel_path : string → string.
Variable tasks_of : string → list dict.
(** The playbook files of the module delete no node. *)
Definition files_delete_nothing : Prop :=
  ∀ f, omap (strip_prefix "kubectl delete node ") (omap task_shell (tasks_of f)) = [].
Hypothesis files_ok : files_delete_nothing.

Lemma file_deletes_nothing f p :
  omap task_shell (pb_tasks p) = omap task_shell (tasks_of f) → deleted_nodes (build p) = ∅.
Proof. intros H. unfold deleted_nodes. by rewrite play_shells_build, H, files_ok. Qed.

Lemma configure_worker_members v join credentials mem :
  play_members v (build (configure_worker rel_path tasks_of join credentials)) mem = {[get_name_k8s_format (vm_name v)]} ∪ mem.
Proof.
  unfold play_members. rewrite (file_deletes_nothing (rel_path "playbooks/kubernetes_worker_day0.yaml")).
  - unfold joins. rewrite play_vars_build. cbn -[union difference]. by rewrite difference_empty_L.
  - unfold configure_worker. by rewrite gather_shell.
Qed.
(** The playbooks of the master. *)
Lemma master_members v p f mem :
  od_in "join_command" (pb_vars p) = false → omap task_shell (pb_tasks p) = omap task_shell (tasks_of f) →
  play_members v (build p) mem = mem.
Proof.
  intros Hj Hs. unfold play_members. rewrite (file_deletes_nothing f p Hs). unfold joins. rewrite play_vars_build, Hj.
  by rewrite difference_empty_L, union_empty_l_L.
Qed.
Lemma configure_master_members v i e pod svc mem :
  play_members v (build (configure_master rel_path tasks_of i e pod svc)) mem = mem.
Proof.
  apply (master_members v _ (rel_path "playbooks/kubernetes_master_day0_1.yaml")); [by destruct e|].
  unfold configure_master. by rewrite !gather_shell.
Qed.
Lemma karmada_members v r mem : play_members v (build (install_karmada_playbook rel_path tasks_of r)) mem = mem.
Proof. by apply (master_members v _ (rel_path "playbooks/kubernetes_master_inst_karmada.yaml")). Qed.
Lemma istio_members v mem : play_members v (build (install_istio_playbook rel_path tasks_of)) mem = mem.
Proof. by apply (master_members v _ (rel_path "playbooks/kubernetes_master_istio.yaml")). Qed.
End playbooks.

(** The tasks that delete nodes. *)
Definition delete_nodes (names : list string) : list AnsibleTaskDescription := foldl (λ l n, delete_node n l) [] names.
Lemma dayN_shells tasks p :
  omap task_shell (pb_tasks (foldl (λ p d, add_pause_task 30 (add_task_embedded d p)) p tasks)) =
  omap task_shell (pb_tasks p) ++
  (tasks ≫= λ d, if String.eqb (tasks_module d) "ansible.builtin.shell"
                 then option_list (task_shell [("ansible.builtin.shell", dump_task (task d))]) else []).
Proof.
  revert p. induction tasks as [|d tasks IH]; intros p; [by rewrite app_nil_r|]. cbn [foldl]. rewrite IH.
  unfold add_pause_task, add_task_embedded. rewrite !add_task_shell. cbn [String.eqb Ascii.eqb Bool.eqb mbind list_bind].
  by rewrite app_nil_r, <-app_assoc.
Qed.
Lemma delete_nodes_snoc names n : delete_nodes (names ++ [n]) = delete_node n (delete_nodes names).
Proof. unfold delete_nodes. by rewrite foldl_app. Qed.
Lemma dayN_members v names mem :
  play_members v (build (dayN_playbook (delete_nodes names))) mem = mem ∖ list_to_set names.
Proof.
  unfold play_members, joins. rewrite play_vars_build. unfold dayN_playbook.
  assert (Hv : ∀ tasks p, pb_vars (foldl (λ p d, add_pause_task 30 (add_task_embedded d p)) p tasks) = pb_vars p).
  { induction tasks as [|d tasks IH]; intros p; [done|]. cbn [foldl]. by rewrite IH. }
  rewrite Hv. cbn [od_in od_get pb_vars new_builder AnsiblePlaybookBuilder]. rewrite union_empty_l_L. f_equal.
  unfold deleted_nodes. rewrite play_shells_build, dayN_shells. cbn [pb_tasks new_builder AnsiblePlaybookBuilder omap list_omap app].
  f_equal. induction names as [|n names IH] using rev_ind; [done|].
  rewrite delete_nodes_snoc. unfold delete_node. rewrite !bind_app, !omap_app, IH. f_equal.
Qed.

Section refinement.
Context {X : Type} `{!Provider X, !ClusterApi X, !ClusterTopology X, !ProviderLaws X, !QuietCluster X, !ClusterLaws X}.
Variable set_order : list string → list string.
Variable rel_path : string → string.
Variable tasks_of : string → list dict.
Variable self_id : string.
Hypothesis files_ok : files_delete_nothing tasks_of.
#[local] Notation Blue := (Blueprint K8sConf K8sBlueprintNGState X).
#[local] Notation B := (M Blue).
#[local] Notation worker_name := (worker_name self_id).
#[local] Notation named := (named self_id).
#[local] Notation nodes := (nodes self_id).
Implicit Types (b : Blue) (ns wns nums cns tns : list nat) (mem : gset string).

(** ** The nodes through the steps *)
Definition bcalm {A} (m : B A) : Prop := ∀ b, members (ext (m b).2) = members (ext b).
Lemma bcalm_bind {A C} (m : B A) (f : A → B C) : bcalm m → (∀ a, bcalm (f a)) → bcalm (m ≫= f).
Proof.
  intros Hm Hf b. unfold mbind, M_bind. specialize (Hm b). destruct (m b) as [[a|e] b1]; [by rewrite Hf|done].
Qed.
Lemma bcalm_reads {A} (m : B A) : reads m → bcalm m.
Proof. intros Hr b. by rewrite Hr. Qed.
Lemma bcalm_on_ext {A} (m : M X A) : calm members m → bcalm (on_ext m).
Proof. intros Hm b. unfold on_ext, zoom. specialize (Hm (ext b)). by destruct (m (ext b)). Qed.
Lemma bcalm_update f : bcalm (update_state f : B unit).
Proof. by intros b. Qed.
Lemma bcalm_alloc o : bcalm (alloc o : B loc).
Proof. by intros b. Qed.
Lemma bcalm_catch {A} (m : B A) h : bcalm m → (∀ e k, h e = Some k → bcalm k) → bcalm (catch m h).
Proof.
  intros Hm Hh b. unfold catch. specialize (Hm b). destruct (m b) as [[a|e] b1]; [done|].
  destruct (h e) as [k|] eqn:Ek; [|done]. by rewrite (Hh e k Ek).
Qed.
Lemma bcalm_new_id l (o : obj K8sConf) : bcalm (i ← new_id; store l (set_obj_id i o) ;; mret (set_obj_id i o)).
Proof. intros b. cbn. apply uuid4_members. Qed.
Lemma bcalm_register l : bcalm (register_resource l).
Proof.
  unfold register_resource. apply bcalm_bind; [apply bcalm_reads, reads_load|]. intros o. intros b.
  rewrite (bind_Ok getS _ b b b) by done. revert b. apply bcalm_bind.
  { intros b. by destruct (is_registered _ _). }
  intros []. apply bcalm_bind; [destruct (str_true _); [by intros b|apply bcalm_new_id]|]. intros o'.
  apply bcalm_bind; [|by intros [] b]. destruct (obj_area o'); [|by intros b].
  apply bcalm_catch; [apply bcalm_on_ext, get_vim_calm|]. intros e k. destruct (is_value_error e); [|done]. by intros [= <-] b.
Qed.
Lemma bcalm_deregister l : bcalm (deregister_resource l).
Proof.
  unfold deregister_resource. apply bcalm_bind; [apply bcalm_reads, reads_load|]. intros o b.
  rewrite (bind_Ok getS _ b b b) by done. destruct (str_true _); [|done]. by destruct (is_registered _ _).
Qed.
Lemma bcalm_create_vm l : bcalm (provider_create_vm l).
Proof.
  apply bcalm_bind; [apply bcalm_reads, reads_load_vm|]. intros v b. rewrite (bind_Ok getS _ b b b) by done.
  pose proof (create_members v (ext b)) as H. destruct (create_vm v (ext b)) as [[r v'] x]. exact H.
Qed.
Lemma bcalm_destroy_vm l : bcalm (provider_destroy_vm l).
Proof. apply bcalm_bind; [apply bcalm_reads, reads_load_vm|]. intros v. apply bcalm_on_ext, destroy_calm. Qed.

(** ** What holds between two requests that succeed *)

(** The configurator of a worker of number [n]. *)
Definition conf_of (c : loc) (n : nat) b : Prop :=
  ∃ i vm p, holds c (OConf i (VmK8sDay0Configurator vm p (Z.of_nat n))) b ∧ named vm n b.
Record shape wns nums cns tns b : Prop := {
  sh_workers : Forall2 (λ l n, named l n b) (vm_workers (state b)) wns;
  sh_numbers : worker_numbers (state b) = indicator nums;
  sh_confs : Forall2 (λ c n, conf_of c n b) (day_0_workers_configurators (state b)) cns;
  sh_tobe : Forall2 (λ c n, conf_of c n b) (day_0_workers_configurators_tobe_exec (state b)) tns;
  sh_master : ∀ m, vm_master (state b) = Some m → ∃ v, holds m (OVm v) b ∧ vm_name v = master_name self_id
}.
Lemma conf_of_extends c n b b' : extends b b' → conf_of c n b → conf_of c n b'.
Proof.
  intros Hx (i & vm & p & Hc & Hn). pose proof Hx as [_ H]. destruct (H c _ Hc) as ([| |i' []] & Hc' & Hk); try done.
  cbn in Hk. destruct Hk as [-> ->]. do 3 eexists. split; [done|by eapply named_extends].
Qed.
#[local] Instance shape_stable wns nums cns tns : Stable (shape wns nums cns tns).
Proof.
  intros b b' Hx [H1 H2 H3 H4 H5]. pose proof Hx as [Hs Ho]. constructor; rewrite Hs.
  - eapply Forall2_impl; [exact H1|]. intros l n. by apply named_extends.
  - done.
  - eapply Forall2_impl; [exact H3|]. intros c n. by apply conf_of_extends.
  - eapply Forall2_impl; [exact H4|]. intros c n. by apply conf_of_extends.
  - intros m (v & Hv & Hn)%H5. destruct (Ho m _ Hv) as ([v'| |] & Hv' & Hk); [|done..]. exists v'. destruct Hk as [Hk _]. split; [done|congruence].
Qed.
#[local] Instance named_is_stable l n : Stable (X := X) (named l n).
Proof. intros b b'. by apply named_extends. Qed.
#[local] Instance both_stable (F G : Blue → Prop) : Stable F → Stable G → Stable (λ b, F b ∧ G b).
Proof. intros HF HG b b' Hx [H1 H2]. split; [by apply (HF b)|by apply (HG b)]. Qed.
#[local] Instance Forall2_conf_stable l tl : Stable (λ b, Forall2 (λ c n, conf_of c n b) l tl).
Proof. intros b b' Hx H. eapply Forall2_impl; [exact H|]. intros c n. by apply conf_of_extends. Qed.

(** [F], with the nodes [mem]; nothing is said of calls that raise. *)
Definition at_ (F : Blue → Prop) mem b : Prop := F b ∧ members (ext b) = mem.
Notation tri P m Q := (triple P m Q (λ _, True)).
Lemma tri_keep {A} F mem (m : B A) : Stable F → grows m → bcalm m → tri (at_ F mem) m (λ _, at_ F mem).
Proof.
  intros HF Hg Hc b [Hb Hm]. specialize (Hg b). specialize (Hc b). destruct (m b) as [[a|e] b']; cbn in *; [|done].
  split; [by apply (HF b)|congruence].
Qed.
Lemma tri_then {A C} F mem (m : B A) (f : A → B C) Q :
  Stable F → grows m → bcalm m → (∀ a, tri (at_ F mem) (f a) Q) → tri (at_ F mem) (m ≫= f) Q.
Proof. intros HF Hg Hc Hf. eapply triple_bind; [by apply tri_keep|exact Hf]. Qed.
Lemma tri_read {A C} F mem (m : B A) (f : A → B C) Q :
  reads m → (∀ a, tri (at_ F mem) (f a) Q) → tri (at_ F mem) (m ≫= f) Q.
Proof.
  intros Hr Hf b Hb. unfold mbind, M_bind. pose proof (Hr b) as H. destruct (m b) as [[a|e] b']; cbn in H; subst b'; [by apply Hf|done].
Qed.
Lemma tri_update F G mem f : (∀ b, F b → G (set_state (f (state b)) b)) → tri (at_ F mem) (update_state f : B unit) (λ _, at_ G mem).
Proof. intros H. apply triple_modifyS. intros b [Hb Hm]. split; [by apply H|done]. Qed.
Lemma tri_pre {A} (P P' : Blue → Prop) (m : B A) Q : (∀ b, P b → P' b) → tri P' m Q → tri P m Q.
Proof. intros H Ht. by eapply weaken_pre. Qed.
Lemma shape_other wns nums cns tns b s :
  vm_workers s = vm_workers (state b) → worker_numbers s = worker_numbers (state b) →
  day_0_workers_configurators s = day_0_workers_configurators (state b) →
  day_0_workers_configurators_tobe_exec s = day_0_workers_configurators_tobe_exec (state b) →
  vm_master s = vm_master (state b) → shape wns nums cns tns b → shape wns nums cns tns (set_state s b).
Proof. intros H1 H2 H3 H4 H5 []. constructor; cbn; by rewrite ?H1, ?H2, ?H3, ?H4, ?H5. Qed.

(** ** Deploying *)
Lemma finish_worker_follows vm n wns nums cns tns mem :
  tri (at_ (λ b, (shape wns nums cns tns b ∧ named vm n b)) mem) (finish_worker (X := X) vm n)
    (λ _, at_ (shape wns nums (cns ++ [n]) (tns ++ [n])) mem).
Proof.
  unfold finish_worker. apply tri_then; [apply _|apply grows_register|apply bcalm_register|]. intros [].
  apply tri_then; [apply _|apply grows_create_vm|apply bcalm_create_vm|]. intros [].
  intros b [[Hsh Hn] Hm]. rewrite (bind_Ok (alloc _) _ b (set_objs (objs b ++ [OConf None (new_day0 vm (Z.of_nat n))]) b) (length (objs b))) by done.
  set (b1 := set_objs _ b). set (c := length (objs b)).
  assert (Hx : extends b b1) by (pose proof (grows_alloc (OConf None (new_day0 vm (Z.of_nat n))) b) as Hx; exact Hx).
  assert (Hc : conf_of c n b1).
  { exists None, vm, (new_builder "K8s Master Day0Configurator"). split; [by apply list_lookup_middle|by eapply named_extends]. }
  pose proof (shape_stable _ _ _ _ b b1 Hx Hsh) as [H1 H2 H3 H4 H5].
  rewrite (bind_Ok (update_state _) _ b1 (set_state (set_workers_configurators (day_0_workers_configurators (state b1) ++ [c]) (state b1)) b1) tt) by done.
  set (b2 := set_state _ b1).
  rewrite (bind_Ok (update_state _) _ b2 (set_state (set_tobe_exec (day_0_workers_configurators_tobe_exec (state b2) ++ [c]) (state b2)) b2) tt) by done.
  set (b3 := set_state _ b2).
  apply (tri_keep _ mem); [apply _|apply grows_register|apply bcalm_register|].
  split; [|exact Hm]. constructor; cbn; [exact H1|exact H2| | |exact H5].
  - apply Forall2_app; [exact H3|]. by constructor.
  - apply Forall2_app; [exact H4|]. by constructor.
Qed.
Lemma deploy_worker_follows area ns tns mem :
  tri (at_ (shape ns ns ns tns) mem) (deploy_worker set_order self_id area)
    (λ _ b, ∃ n, first_free ns = Some n ∧ at_ (shape (ns ++ [n]) (ns ++ [n]) (ns ++ [n]) (tns ++ [n])) mem b).
Proof.
  intros b [Hsh Hm]. rewrite deploy_worker_run. pose proof Hsh as [H1 H2 H3 H4 H5]. rewrite H2.
  destruct (reserve_worker_number (indicator ns)) as [[n numbers]|e] eqn:Er; [|done].
  apply reserve_indicator in Er as [Hf ->].
  pose proof (finish_worker_follows (length (objs b)) n (ns ++ [n]) (ns ++ [n]) ns tns mem
    (new_worker set_order self_id area n (indicator (ns ++ [n])) b)) as Ht.
  assert (Hx : extends b (set_objs (objs b ++ [OVm (worker_vm set_order self_id area n b)]) b)).
  { pose proof (grows_alloc (OVm (worker_vm set_order self_id area n b)) b) as Hx. exact Hx. }
  destruct (shape_stable _ _ _ _ _ _ Hx Hsh) as [G1 G2 G3 G4 G5].
  assert (Hn : named (length (objs b)) n (new_worker set_order self_id area n (indicator (ns ++ [n])) b)).
  { eexists. split; [by apply list_lookup_middle|done]. }
  destruct (finish_worker _ _ _) as [[[]|e] b']; [|done]. exists n. split; [done|]. apply Ht. split; [split; [|exact Hn]|exact Hm].
  constructor; cbn; [|done|exact G3|exact G4|exact G5]. apply Forall2_app; [exact G1|]. by constructor.
Qed.

(** [done] have joined the cluster, [todo] are still to be configured. *)
Definition phase (done todo : list nat) b : Prop :=
  at_ (shape (done ++ todo) (done ++ todo) (done ++ todo) todo) (nodes done) b.
Lemma spec_worker_free ns n : first_free ns = Some n → spec_worker ns = ns ++ [n].
Proof. unfold spec_worker. by intros ->. Qed.
Lemma deploy_workers_follow area {A} (l : list A) dn todo :
  tri (phase dn todo) (for_each l (λ _, deploy_worker set_order self_id area))
    (λ _ b, ∃ todo', dn ++ todo' = Nat.iter (length l) spec_worker (dn ++ todo) ∧ phase dn todo' b).
Proof.
  revert todo. induction l as [|i l IH]; intros todo b Hb; [by exists todo|]. cbn [for_each length].
  pose proof (deploy_worker_follows area _ _ _ b Hb) as Ht. unfold mbind, M_bind.
  destruct (deploy_worker set_order self_id area b) as [[[]|e] b1]; [|done]. destruct Ht as (n & Hf & Hb1).
  rewrite <-app_assoc in Hb1. specialize (IH (todo ++ [n]) b1 Hb1). destruct (for_each l _ b1) as [[[]|e] b2]; [|done].
  destruct IH as (todo' & Heq & Hb2). exists todo'. split; [|done].
  by rewrite Nat.iter_succ_r, (spec_worker_free _ _ Hf), <-app_assoc.
Qed.
Lemma update_other_phase dn todo f :
  (∀ s, vm_workers (f s) = vm_workers s ∧ worker_numbers (f s) = worker_numbers s ∧
    day_0_workers_configurators (f s) = day_0_workers_configurators s ∧
    day_0_workers_configurators_tobe_exec (f s) = day_0_workers_configurators_tobe_exec s ∧ vm_master (f s) = vm_master s) →
  tri (phase dn todo) (update_state f : B unit) (λ _, phase dn todo).
Proof. intros H. apply tri_update. intros b Hs. destruct (H (state b)) as (? & ? & ? & ? & ?). by apply shape_other. Qed.
Lemma deploy_area_follows area dn todo :
  tri (phase dn todo) (deploy_area set_order self_id area)
    (λ _ b, ∃ todo', dn ++ todo' = spec_area (dn ++ todo) area ∧ phase dn todo' b).
Proof.
  unfold deploy_area. eapply triple_bind; [apply deploy_workers_follow|]. intros [] b (todo' & Heq & Hb).
  exists todo'. rewrite length_seq in Heq. split; [exact Heq|].
  exact (update_other_phase dn todo' (λ s, set_attached
    (foldl (add_if_new String.eqb) (attached_networks s) (mgmt_net area :: area_networks area))
    (add_if_new K8sAreaDeployment_eq (area_list s) area) s) ltac:(done) b Hb).
Qed.

(** ** Configuring *)
Lemma tri_assoc {A C E} P (m : B A) (f : A → B C) (g : C → B E) Q :
  tri P ((m ≫= f) ≫= g) Q → tri P (m ≫= λ a, f a ≫= g) Q.
Proof. intros H b Hb. specialize (H b Hb). unfold mbind, M_bind in *. by destruct (m b) as [[]]. Qed.

(** A playbook put in a configurator and run, on a machine with a name in [G]. *)
Lemma builder_runs F (G : string → Prop) l p mem : Stable F →
  tri (at_ (λ b, F b ∧ ∀ i vm q m v, holds l (OConf i (VmK8sDay0Configurator vm q m)) b → holds vm (OVm v) b → G (vm_name v)) mem)
    (set_builder l p ;; provider_configure_vm l)
    (λ _ b, ∃ v, G (vm_name v) ∧ at_ F (play_members v (build p) mem) b).
Proof.
  intros HF b [[Hb HG] Hm]. unfold set_builder, load_day0.
  destruct (load_conf_cases l b) as [(i & c & Hl & E)|E]; [|unfold mbind, M_bind; by rewrite E].
  destruct c as [vm q m|vm|vm tasks]; [|unfold mbind, M_bind; by rewrite E..].
  set (c := VmK8sDay0Configurator vm p m). set (b1 := set_objs (<[l:=OConf i c]> (objs b)) b).
  rewrite (bind_Ok _ _ b b1 tt) by (unfold mbind, M_bind; by rewrite E).
  assert (Hl1 : holds l (OConf i c) b1) by (apply list_lookup_insert_eq; by eapply lookup_lt_Some).
  assert (Hx : extends b b1) by (by apply (extends_insert b b1 l (OConf i (VmK8sDay0Configurator vm q m)) (OConf i c))).
  destruct (configure_vm_cases l b1) as [(e & b' & -> & _)|(i' & c' & v & x & Hl' & Hv & _ & Hg & ->)]; [done|].
  unfold holds in Hl', Hl1. rewrite Hl1 in Hl'. injection Hl' as <- <-. unfold on_ext, zoom, liftR, mbind, M_bind. cbn [dump_playbook k8s_configurator fst snd c].
  set (b2 := set_ext x _). assert (Hx2 : extends b1 b2).
  { apply (extends_insert b1 b2 l (OConf i c) (OConf i c)); [done|done|exact Hl1|apply same_kind_refl]. }
  destruct (run_playbook v (build p) (ext b2)) as [[r|e] x'] eqn:Er; [|done].
  exists v. split; [|split].
  - apply (HG i vm q m v Hl). unfold holds in Hv. cbn in Hv. rewrite list_lookup_insert_ne in Hv; [exact Hv|].
    intros <-. rewrite list_lookup_insert_eq in Hv by (by eapply lookup_lt_Some). done.
  - apply (HF b2); [by apply extends_objs|]. apply (HF b1); [done|]. by apply (HF b).
  - cbn. rewrite (run_members _ _ _ _ _ Er). cbn. f_equal. pose proof (get_virt_provider_calm (vm_area v) (ext b1)) as Hc.
    rewrite Hg in Hc. cbn in Hc. by rewrite Hc.
Qed.

Definition join_body (configurator : loc) : B unit :=
  s ← get_state;
  set_builder configurator (configure_worker rel_path tasks_of (master_key_add_worker s) (master_credentials s)) ;;
  provider_configure_vm configurator ;;
  mret tt.
Lemma join_loop ns tns l tl mem :
  tri (at_ (λ b, shape ns ns ns tns b ∧ Forall2 (λ c n, conf_of c n b) l tl) mem) (for_each l join_body)
    (λ _, at_ (shape ns ns ns tns) (nodes tl ∪ mem)).
Proof.
  revert tl mem. induction l as [|c l IH]; intros tl mem.
  { intros b [[Hs Hl] Hm]. apply Forall2_nil_inv_l in Hl as ->. split; [done|]. unfold K8sRefinement.nodes. cbn. by rewrite union_empty_l_L. }
  cbn [for_each]. intros b [[Hs Hl] Hm]. apply Forall2_cons_inv_l in Hl as (n & tl' & Hc & Hl & ->).
  set (F := λ b, shape ns ns ns tns b ∧ Forall2 (λ c n, conf_of c n b) l tl').
  apply (triple_bind (at_ (λ b, F b ∧ conf_of c n b) mem) _ (λ _, at_ F ({[node_name self_id n]} ∪ mem)));
    [|intros []|by split; [split; [split|]|]].
  - unfold join_body. apply tri_read; [apply reads_get_state|]. intros s. apply tri_assoc.
    eapply triple_bind.
    + eapply tri_pre; [|apply (builder_runs F (λ nm, nm = worker_name n) c _ mem); apply _].
      intros b' [[HF (i & vm & q & Hcq & v0 & Hv0 & Hn0)] Hm']. split; [split; [exact HF|]|exact Hm'].
      intros i' vm' q' m' v' Hc' Hv'. unfold holds in *. rewrite Hcq in Hc'. injection Hc' as <- <- <- <-.
      rewrite Hv0 in Hv'. injection Hv' as <-. exact Hn0.
    + intros r. apply triple_ret. intros b' (v & Hv & HF & Hm'). split; [exact HF|].
      rewrite Hm', configure_worker_members by done. by rewrite Hv.
  - eapply triple_conseq; [apply (IH tl')|done| |done]. intros [] b' [HF Hm']. split; [exact HF|]. rewrite Hm'.
    unfold K8sRefinement.nodes. cbn. set_solver.
Qed.
Lemma day0conf_follows dn todo c :
  tri (phase dn todo) (if c : bool then configure_the_master rel_path tasks_of else mret tt : B unit) (λ _, phase dn todo) →
  tri (phase dn todo) (day0conf rel_path tasks_of c) (λ _, phase (dn ++ todo) []).
Proof.
  intros Hmaster. unfold day0conf. eapply triple_bind; [exact Hmaster|]. intros [] b Hb.
  rewrite (bind_Ok get_state _ b b (state b)) by done. pose proof Hb as [Hs Hm].
  apply (triple_bind (at_ (λ b', shape (dn ++ todo) (dn ++ todo) (dn ++ todo) todo b' ∧
      Forall2 (λ c n, conf_of c n b') (day_0_workers_configurators_tobe_exec (state b)) todo) (nodes dn)) _
    (λ _, at_ (shape (dn ++ todo) (dn ++ todo) (dn ++ todo) todo) (nodes todo ∪ nodes dn))); [apply join_loop| |by destruct Hs].
  intros []. unfold phase. rewrite app_nil_r. replace (nodes (dn ++ todo)) with (nodes todo ∪ nodes dn).
  - apply tri_update. intros b' [H1 H2 H3 H4 H5]. constructor; cbn; [exact H1|exact H2|exact H3|constructor|exact H5].
  - unfold K8sRefinement.nodes. rewrite fmap_app, list_to_set_app_L. set_solver.
Qed.
Lemma run_on_conf dn todo l p {C} (f : list (string * pyval) → B C) Q :
  (∀ v mem, play_members v (build p) mem = mem) → (∀ r, tri (phase dn todo) (f r) Q) →
  tri (phase dn todo) (set_builder l p ;; r ← provider_configure_vm l; f r) Q.
Proof.
  intros Hp Hf. apply tri_assoc. eapply triple_bind; [|exact Hf].
  eapply triple_conseq; [apply (builder_runs (shape (dn ++ todo) (dn ++ todo) (dn ++ todo) todo) (λ _, True)); apply _| | |done].
  - intros b [Hs Hm]. by split.
  - intros r b (v & _ & Hs & Hm). by rewrite Hp in Hm.
Qed.
Lemma configure_the_master_follows dn todo :
  tri (phase dn todo) (configure_the_master rel_path tasks_of : B unit) (λ _, phase dn todo).
Proof.
  unfold configure_the_master. apply tri_read; [apply reads_get_state|]. intros s.
  apply tri_read; [apply reads_the|]. intros mc. apply tri_read; [apply reads_the|]. intros m.
  apply tri_read; [apply reads_load_vm|]. intros v. apply tri_read; [apply reads_liftR|]. intros i.
  apply run_on_conf; [intros; by apply configure_master_members|]. intros facts.
  apply tri_read; [apply reads_liftR|]. intros join. eapply triple_bind; [by apply update_other_phase|]. intros [].
  apply tri_read; [apply reads_liftR|]. intros file. by apply update_other_phase.
Qed.
Lemma run_on_master_follows dn todo p :
  (∀ v mem, play_members v (build p) mem = mem) → tri (phase dn todo) (run_on_master p : B unit) (λ _, phase dn todo).
Proof.
  intros Hp. unfold run_on_master. apply tri_read; [apply reads_get_state|]. intros s.
  apply tri_read; [apply reads_the|]. intros mc. apply run_on_conf; [done|]. intros r. by apply triple_ret.
Qed.

(** ** Deleting *)
Lemma conf_of_fun c n m b : conf_of c n b → conf_of c m b → n = m.
Proof.
  intros (i & vm & p & Hc & _) (i' & vm' & p' & Hc' & _). unfold holds in *. rewrite Hc in Hc'. injection Hc'. lia.
Qed.

(** What is said of the objects alone. *)
Class OnStore (R : Blue → Prop) : Prop := on_store : ∀ b s, R b → R (set_state s b).
Section with_rest.
Context (R : Blue → Prop) {HR : Stable R} {HS : OnStore R}.

(** The loop takes the configurator of worker [n] out, wherever it is from the position [i] on. *)
Lemma remove_configurators_follow n wns mem fuel : ∀ i ns, NoDup ns → n ∉ take i ns → (length ns ≤ fuel + i)%nat →
  tri (at_ (λ b, shape wns ns ns [] b ∧ R b) mem) (remove_configurators fuel i (worker_name n))
    (λ _, at_ (λ b, shape wns (filter (λ m, m ≠ n) ns) (filter (λ m, m ≠ n) ns) [] b ∧ R b) mem).
Proof.
  induction fuel as [|fuel IH]; intros i ns Hnd Hn Hf b Hb.
  { rewrite take_ge in Hn by (by cbn in Hf). cbn. by rewrite filter_absent. }
  cbn [remove_configurators]. rewrite (bind_Ok get_state _ b b (state b)) by done. pose proof Hb as [[[H1 H2 H3 H4 H5] Hr] Hm].
  destruct (day_0_workers_configurators (state b) !! i) as [c|] eqn:Ec.
  2: { apply lookup_ge_None in Ec. rewrite (Forall2_length _ _ _ H3) in Ec. rewrite take_ge in Hn by done. by rewrite filter_absent. }
  destruct (Forall2_lookup_l _ _ _ _ _ H3 Ec) as (m & Hmi & Hcm). pose proof Hcm as (j & vm & p & Hc & Hvm).
  rewrite (bind_Ok _ _ _ _ _ (load_day0_run _ _ _ _ _ _ Hc)), (bind_Ok _ _ _ _ _ (name_of_run self_id _ _ _ Hvm)).
  destruct (String.eqb_spec (worker_name m) (worker_name n)) as [->%worker_name_inj|Hne].
  2: { apply (IH (S i) ns Hnd); [|lia|done]. rewrite (take_S_r _ _ _ Hmi), elem_of_app, list_elem_of_singleton. intros [|Heq]; [done|].
       by rewrite Heq in Hne. }
  rewrite H2. destruct (_release_worker_number (Z.of_nat n) (indicator ns)) as [numbers|e] eqn:Er; [|done].
  apply release_indicator in Er as ->. rewrite (bind_Ok (liftR (Ok (indicator (filter (λ m, m ≠ n) ns)))) _ b b _ eq_refl).
  set (numbers := indicator _). set (b1 := set_state (set_worker_numbers numbers (state b)) b).
  rewrite (bind_Ok (update_state _) _ b b1 tt) by done.
  destruct (py_remove Nat.eqb c (day_0_workers_configurators (state b))) as [ls|e] eqn:Ep; [|done].
  rewrite (bind_Ok (liftR (Ok ls)) _ b1 b1 ls) by done. apply py_remove_inv in Ep as (k & y & Hk & Hy & ->).
  apply Nat.eqb_eq in Hy as ->. set (ls := delete k _). set (b2 := set_state (set_workers_configurators ls (state b1)) b1).
  rewrite (bind_Ok (update_state _) _ b1 b2 tt) by done.
  destruct (Forall2_lookup_l _ _ _ _ _ H3 Hk) as (n' & Hn' & Hcn'). pose proof (conf_of_fun _ _ _ _ Hcm Hcn') as <-.
  assert (Hls : Forall2 (λ c n, conf_of c n b2) ls (filter (λ m, m ≠ n) ns)).
  { rewrite <-(delete_filter ns k n Hnd Hn'). by apply Forall2_delete. }
  assert (Hb2 : at_ (λ b, shape wns (filter (λ m, m ≠ n) ns) (filter (λ m, m ≠ n) ns) [] b ∧ R b) mem b2).
  { split; [split; [|by apply (on_store b1), (on_store b)]|exact Hm]. constructor; cbn; [exact H1|done|exact Hls|exact H4|exact H5]. }
  assert (Hin : n ∉ filter (λ m, m ≠ n) ns) by (by intros [? _]%list_elem_of_filter).
  assert (Hrec := IH (S i) (filter (λ m, m ≠ n) ns) (NoDup_filter _ _ Hnd)).
  rewrite (filter_absent n (filter _ ns) Hin) in Hrec. unfold mbind at 1, M_bind.
  assert (Hlen : (length (filter (λ m, m ≠ n) ns) ≤ fuel + S i)%nat).
  { pose proof (length_filter (λ m : nat, m ≠ n) ns). lia. }
  specialize (Hrec (λ Hin', Hin (elem_of_sublist _ _ _ Hin' (sublist_take _ _))) Hlen b2 Hb2).
  by destruct (remove_configurators fuel (S i) (worker_name n) b2) as [[r|e] b3].
Qed.

Lemma filter_name (n : nat) ns : filter (λ m, worker_name m ≠ worker_name n) ns = filter (λ m, m ≠ n) ns.
Proof.
  apply list_filter_iff. intros m. split; intros H; [by intros ->|]. by intros ->%worker_name_inj.
Qed.
Lemma remove_worker_follows vm n ns mem :
  NoDup ns →
  tri (at_ (λ b, (shape ns ns ns [] b ∧ R b) ∧ named vm n b) mem) (remove_worker vm)
    (λ _, at_ (λ b, shape (filter (λ m, m ≠ n) ns) (filter (λ m, m ≠ n) ns) (filter (λ m, m ≠ n) ns) [] b ∧ R b) mem).
Proof.
  intros Hnd b [[[Hs Hr] Hvm] Hm]. unfold remove_worker. rewrite (bind_Ok _ _ _ _ _ (name_of_run self_id vm n b Hvm)).
  rewrite (bind_Ok get_state _ b b (state b)) by done. pose proof Hs as [H1 H2 H3 H4 H5].
  destruct (others_named self_id (worker_name n) _ _ _ H1) as (ws & E & Hws & _). rewrite (bind_Ok _ _ _ _ _ E), filter_name in *.
  set (b1 := set_state (set_vm_workers ws (state b)) b). rewrite (bind_Ok (update_state _) _ b b1 tt) by done.
  assert (Hb1 : at_ (λ b, shape (filter (λ m, m ≠ n) ns) ns ns [] b ∧ R b) mem b1).
  { split; [split; [|by apply (on_store b)]|exact Hm]. constructor; cbn; [exact Hws|exact H2|exact H3|exact H4|exact H5]. }
  eapply (triple_bind _ _ _ _ (remove_configurators _ 0 (worker_name n)));
    [eapply (remove_configurators_follow n _ mem _ 0 ns Hnd)| |exact Hb1].
  - by intros ?%not_elem_of_nil.
  - rewrite (Forall2_length _ _ _ H3). lia.
  - intros r b2 [[[G1 G2 G3 G4 G5] Hr2] Hm2]. rewrite (bind_Ok get_state _ b2 b2 (state b2)) by done.
    apply Forall2_nil_inv_r in G4. rewrite G4. cbn [others].
    rewrite (bind_Ok (mret []) _ b2 b2 []) by done. split; [split; [|by apply (on_store b2)]|exact Hm2].
    constructor; cbn; [exact G1|exact G2|exact G3|constructor|exact G5].
Qed.
Lemma bcalm_for_each {A} (l : list A) (f : A → B unit) : (∀ x, bcalm (f x)) → bcalm (for_each l f).
Proof. intros Hf. induction l as [|x l IH]; [by intros b|]. by apply bcalm_bind. Qed.
Lemma destroy_worker_follows vm n ns mem : NoDup ns →
  tri (at_ (λ b, (shape ns ns ns [] b ∧ R b) ∧ named vm n b) mem) (destroy_worker vm)
    (λ _, at_ (λ b, shape (filter (λ m, m ≠ n) ns) (filter (λ m, m ≠ n) ns) (filter (λ m, m ≠ n) ns) [] b ∧ R b) mem).
Proof.
  intros Hnd. unfold destroy_worker. apply tri_then; [apply _|apply grows_destroy_vm|apply bcalm_destroy_vm|]. intros [].
  apply tri_then; [apply _|apply grows_deregister|apply bcalm_deregister|]. intros [].
  eapply triple_bind; [by apply remove_worker_follows|]. intros r.
  apply tri_keep; [apply _|apply grows_for_each; intros c; apply grows_deregister|apply bcalm_for_each; intros c; apply bcalm_deregister].
Qed.
End with_rest.

#[local] Instance named_on_store l ns : OnStore (λ b : Blue, Forall2 (λ l n, named l n b) l ns).
Proof. by intros b s. Qed.
#[local] Instance Forall2_named_stable l ns : Stable (X := X) (λ b, Forall2 (λ l n, named l n b) l ns).
Proof. intros b b' Hx H. eapply Forall2_impl; [exact H|]. intros x n. by apply named_extends. Qed.

(** All the workers [sel] are destroyed, one after the other. *)
Lemma destroy_workers_follow vms sel mem : ∀ ns, NoDup ns →
  tri (at_ (λ b, shape ns ns ns [] b ∧ Forall2 (λ l n, named l n b) vms sel) mem) (for_each vms destroy_worker)
    (λ _, let ns' := filter (λ m, m ∉ sel) ns in at_ (shape ns' ns' ns' []) mem).
Proof.
  revert sel. induction vms as [|vm vms IH]; intros sel ns Hnd.
  { intros b [[Hs Hsel] Hm]. apply Forall2_nil_inv_l in Hsel as ->. cbn. replace (filter (λ m, m ∉ []) ns) with ns; [by split|].
    clear. induction ns as [|n ns IH]; [done|]. rewrite filter_cons, decide_True by apply not_elem_of_nil. by rewrite <-IH. }
  cbn [for_each]. intros b [[Hs Hsel] Hm]. apply Forall2_cons_inv_l in Hsel as (n & sel' & Hn & Hsel & ->).
  apply (triple_bind (at_ (λ b, (shape ns ns ns [] b ∧ Forall2 (λ l n, named l n b) vms sel') ∧ named vm n b) mem) _
    (λ _, at_ (λ b, shape (filter (λ m, m ≠ n) ns) (filter (λ m, m ≠ n) ns) (filter (λ m, m ≠ n) ns) [] b ∧
                    Forall2 (λ l n, named l n b) vms sel') mem)); [by apply (destroy_worker_follows _)| |by split].
  intros []. replace (filter (λ m, m ∉ n :: sel') ns) with (filter (λ m, m ∉ sel') (filter (λ m, m ≠ n) ns)).
  - apply IH. by apply NoDup_filter.
  - rewrite list_filter_filter. apply list_filter_iff. intros m. rewrite not_elem_of_cons. tauto.
Qed.

(** ** Which workers are deleted *)
Lemma find_worker_run node l ns b :
  Forall2 (λ l n, named l n b) l ns →
  (∃ x n, find_worker node l b = (Ok (Some x), b) ∧ named x n b ∧ n ∈ ns ∧ worker_name n = node) ∨
  (find_worker node l b = (Ok None, b) ∧ ∀ n, n ∈ ns → worker_name n ≠ node).
Proof.
  induction 1 as [|x n l ns Hn H IH]; [by right; split; [|intros n ?%not_elem_of_nil]|]. cbn [find_worker].
  rewrite (bind_Ok _ _ _ _ _ (name_of_run self_id x n b Hn)). destruct (String.eqb_spec (worker_name n) node) as [Heq|Hne].
  - left. exists x, n. split_and!; [done|done|by left|done].
  - destruct IH as [(y & m & E & Hy & Hm & Heq)|[E Hno]]; [left; exists y, m; split_and!; [done|done|by right|done]|].
    right. split; [done|]. intros m [->|Hm]%elem_of_cons; [done|by apply Hno].
Qed.
Lemma select_run l ns b : Forall2 (λ l n, named l n b) l ns → ∀ node_names tasks,
  ∃ vms sel, select_workers node_names l tasks b =
      (Ok (vms, foldl (λ t n, delete_node n t) tasks (node_name self_id <$> sel)), b) ∧
    Forall2 (λ l n, named l n b) vms sel ∧ ∀ n, n ∈ sel ↔ n ∈ ns ∧ worker_name n ∈ node_names.
Proof.
  intros Hl. induction node_names as [|node node_names IH]; intros tasks.
  { exists [], []. split_and!; [done|constructor|]. intros n. split; [by intros ?%not_elem_of_nil|by intros [_ ?%not_elem_of_nil]]. }
  cbn [select_workers]. destruct (find_worker_run node l ns b Hl) as [(x & n & E & Hx & Hn & Heq)|[E Hno]]; rewrite (bind_Ok _ _ _ _ _ E).
  - rewrite (bind_Ok _ _ _ _ _ (name_of_run self_id x n b Hx)).
    destruct (IH (delete_node (get_name_k8s_format (worker_name n)) tasks)) as (vms & sel & E' & H1 & H2). rewrite (bind_Ok _ _ _ _ _ E').
    exists (x :: vms), (n :: sel). split_and!; [done|by constructor|]. intros m. rewrite !elem_of_cons, H2. split.
    + intros [->|[? ?]]; [by split; [|left]|by split; [|right]].
    + intros [Hm [Hm'|Hm']]; [left; apply (worker_name_inj self_id); congruence|by right].
  - destruct (IH tasks) as (vms & sel & E' & H1 & H2). exists vms, sel. split_and!; [done|done|]. intros m. rewrite H2, elem_of_cons.
    split; [intros [? ?]; by split; [|right]|]. intros [Hm [Hm'|Hm']]; [by destruct (Hno m Hm)|done].
Qed.

(** ** The requests *)
Lemma delete_nodes_run F l m names mem : Stable F →
  tri (at_ (λ b, F b ∧ holds l (OConf None (VmK8sDayNConfigurator m (delete_nodes names))) b) mem)
    (provider_configure_vm l : B _) (λ _, at_ F (mem ∖ list_to_set names)).
Proof.
  intros HF b [[Hb Hl] Hm].
  destruct (configure_vm_cases l b) as [(e & b' & -> & _)|(i & c & v & x & Hl' & Hv & _ & Hg & ->)]; [done|].
  unfold holds in Hl, Hl'. rewrite Hl in Hl'. injection Hl' as <- <-. unfold on_ext, zoom, liftR, mbind, M_bind.
  cbn [dump_playbook k8s_configurator fst snd]. set (b2 := set_ext x _).
  assert (Hx2 : extends b b2) by (by apply (extends_insert b b2 l _ (OConf None (VmK8sDayNConfigurator m [])) eq_refl eq_refl Hl)).
  destruct (run_playbook v _ (ext b2)) as [[r|e] x'] eqn:Er; [|done]. split.
  - apply (HF b2); [by apply extends_objs|]. by apply (HF b).
  - cbn. rewrite (run_members _ _ _ _ _ Er), dayN_members. cbn. f_equal.
    pose proof (get_virt_provider_calm (vm_area v) (ext b)) as Hc. rewrite Hg in Hc. cbn in Hc. by rewrite Hc.
Qed.
(** Asking for the master to be deleted changes nothing. *)
Lemma without_master node_names n :
  worker_name n ∈ match py_remove String.eqb (master_name self_id) node_names with Ok l => l | Raise _ => node_names end ↔
  worker_name n ∈ node_names.
Proof.
  destruct (py_remove _ _ _) as [l|e] eqn:E; [|done]. apply py_remove_inv in E as (i & y & Hi & Hy & ->).
  apply String.eqb_eq in Hy as Hy'. rewrite (delete_take_drop node_names i). rewrite <-(take_drop_middle _ _ _ Hi) at 3.
  rewrite !elem_of_app, elem_of_cons. split; [tauto|]. intros [?|[Hw|?]]; [tauto| |tauto]. exfalso.
  rewrite Hy' in *. unfold K8sBlueprint.worker_name, master_name in Hw. by apply (inj (String.append _)) in Hw.
Qed.
Lemma del_workers_follows node_names ns : NoDup ns →
  tri (phase ns []) (del_workers node_names : B unit) (λ _, phase (spec_day2 self_id (DelWorkers node_names) ns) []).
Proof.
  intros Hnd b Hb. unfold phase in *. rewrite !app_nil_r in *. pose proof Hb as [Hs Hm]. pose proof Hs as [H1 _ _ _ H5].
  unfold del_workers. rewrite (bind_Ok get_state _ b b (state b)) by done.
  destruct (vm_master (state b)) as [m|]; [|done]. destruct (H5 m eq_refl) as (v & Hv & Hvn).
  rewrite (bind_Ok (the (Some m)) _ b b m) by done. unfold name_of at 1.
  rewrite (bind_Ok _ _ _ _ (master_name self_id)) by (rewrite (bind_Ok _ _ _ _ _ (load_vm_run m v b Hv)); by rewrite <-Hvn).
  cbv zeta. pose proof (without_master node_names) as Hw. revert Hw.
  generalize (match py_remove String.eqb (master_name self_id) node_names with Ok l => l | Raise _ => node_names end).
  intros names Hw. rewrite (Forall2_length _ _ _ H1). cbn [spec_day2]. destruct (length ns <=? 1)%nat; [exact Hb|].
  destruct (select_run _ _ b H1 names []) as (vms & sel & E & Hsel & Hin). rewrite (bind_Ok _ _ _ _ _ E).
  replace (filter (λ n, worker_name n ∉ node_names) ns) with (filter (λ n, n ∉ sel) ns) by (apply filter_in_iff; intros n Hn; rewrite Hin, Hw; tauto).
  rewrite nodes_filter. set (c := OConf None (VmK8sDayNConfigurator m (delete_nodes (node_name self_id <$> sel)))).
  change (foldl _ [] _) with (delete_nodes (node_name self_id <$> sel)). set (b1 := set_objs (objs b ++ [c]) b).
  rewrite (bind_Ok (alloc _) _ b b1 (length (objs b))) by done.
  assert (Hx : extends b b1) by (pose proof (grows_alloc c b) as Hx; exact Hx).
  set (F := λ b, shape ns ns ns [] b ∧ Forall2 (λ l n, named l n b) vms sel).
  assert (Hl : holds (length (objs b)) c b1) by by apply list_lookup_middle.
  assert (HF : F b1) by (split; [by apply (shape_stable _ _ _ _ b)|by apply (Forall2_named_stable _ _ b)]).
  refine (triple_bind _ _ _ _ _ _ (delete_nodes_run F (length (objs b)) m _ (nodes ns) _) _ b1 (conj (conj HF Hl) Hm)).
  intros r. by apply (destroy_workers_follow vms sel).
Qed.

Lemma deploy_all_follows {A} (g : A → K8sAreaDeployment) (f : A → B unit) l dn :
  (∀ a todo, tri (phase dn todo) (f a) (λ _ b, ∃ todo', dn ++ todo' = spec_area (dn ++ todo) (g a) ∧ phase dn todo' b)) →
  ∀ todo, tri (phase dn todo) (for_each l f) (λ _ b, ∃ todo', dn ++ todo' = foldl spec_area (dn ++ todo) (g <$> l) ∧ phase dn todo' b).
Proof.
  intros Hf. induction l as [|a l IH]; intros todo b Hb; [by exists todo|]. cbn [for_each].
  specialize (Hf a todo b Hb). unfold mbind, M_bind. destruct (f a b) as [[[]|e] b1]; [|done]. destruct Hf as (todo1 & E1 & Hb1).
  specialize (IH todo1 b1 Hb1). destruct (for_each l f b1) as [[[]|e] b2]; [|done]. destruct IH as (todo2 & E2 & Hb2).
  exists todo2. split; [|done]. cbn. by rewrite E2, E1.
Qed.
Lemma spec_worker_NoDup ns : NoDup ns → NoDup (spec_worker ns).
Proof.
  intros H. unfold spec_worker. destruct (first_free ns) as [n|] eqn:E; [|done]. apply first_free_Some in E as [_ Hn].
  apply NoDup_app. split_and!; [done| |apply NoDup_singleton]. by intros m Hm ->%list_elem_of_singleton.
Qed.
Lemma spec_areas_NoDup l ns : NoDup ns → NoDup (foldl spec_area ns l).
Proof.
  revert ns. induction l as [|a l IH]; intros ns H; [done|]. apply IH. unfold spec_area.
  induction (worker_replicas a) as [|k IHk]; [done|]. by apply spec_worker_NoDup.
Qed.
Lemma spec_day2_NoDup r ns : NoDup ns → NoDup (spec_day2 self_id r ns).
Proof.
  intros H. destruct r; cbn; [by apply spec_areas_NoDup| |done..]. destruct (_ <=? _)%nat; [done|]. by apply NoDup_filter.
Qed.
Lemma day2_follows r ns : NoDup ns →
  tri (phase ns []) (day2 set_order rel_path tasks_of self_id r) (λ _, phase (spec_day2 self_id r ns) []).
Proof.
  intros Hnd. destruct r as [areas|names|k|]; cbn [day2].
  - unfold add_worker. eapply triple_bind.
    + apply (deploy_all_follows id). intros a todo. apply deploy_area_follows.
    + intros [] b (todo & E & Hb). rewrite app_nil_r, list_fmap_id in E. cbn [spec_day2]. rewrite <-E.
      by apply (day0conf_follows ns todo false); [by apply triple_ret|].
  - by apply del_workers_follows.
  - apply run_on_master_follows. intros. by apply karmada_members.
  - apply run_on_master_follows. intros. by apply istio_members.
Qed.
Lemma deploy_master_follows area flavors dn todo :
  tri (phase dn todo) (deploy_master_node set_order self_id area flavors : B unit) (λ _, phase dn todo).
Proof.
  unfold deploy_master_node. apply tri_read; [apply reads_get_state|]. intros s b Hb.
  set (o := new_VmResource _ _ _ _ _ _ _ _ _ _). set (b1 := set_objs (objs b ++ [OVm o]) b).
  rewrite (bind_Ok (alloc (OVm o)) _ b b1 (length (objs b))) by done.
  set (b2 := set_state (set_vm_master (Some (length (objs b))) (state b1)) b1).
  rewrite (bind_Ok (update_state _) _ b1 b2 tt) by done.
  assert (Hx : extends b b1) by (pose proof (grows_alloc (OVm o) b) as Hx; exact Hx).
  assert (Hb2 : phase dn todo b2).
  { destruct Hb as [Hs Hm]. split; [|exact Hm]. apply (shape_stable _ _ _ _ b b1 Hx) in Hs as [H1 H2 H3 H4 H5].
    constructor; cbn; [exact H1|exact H2|exact H3|exact H4|]. intros l [= <-]. exists o. split; [by apply list_lookup_middle|done]. }
  revert b2 Hb2. generalize (length (objs b)). intros vm.
  apply tri_then; [apply _|apply grows_register|apply bcalm_register|]. intros [].
  apply tri_then; [apply _|apply grows_create_vm|apply bcalm_create_vm|]. intros [].
  apply tri_then; [apply _|apply grows_alloc|apply bcalm_alloc|]. intros day0.
  eapply triple_bind; [by apply update_other_phase|]. intros [].
  apply tri_then; [apply _|apply grows_alloc|apply bcalm_alloc|]. intros day2.
  eapply triple_bind; [by apply update_other_phase|]. intros [].
  apply tri_then; [apply _|apply grows_register|apply bcalm_register|]. intros [].
  apply tri_keep; [apply _|apply grows_register|apply bcalm_register].
Qed.
Lemma deploy_request_area_follows m area dn todo :
  tri (phase dn todo) (deploy_request_area set_order self_id m area)
    (λ _ b, ∃ todo', dn ++ todo' = spec_area (dn ++ todo) area ∧ phase dn todo' b).
Proof.
  unfold deploy_request_area. apply triple_bind with (λ _, phase dn todo); [|intros []].
  - destruct (is_master_area area); [|by apply triple_ret]. eapply triple_bind; [by apply update_other_phase|]. intros [].
    apply deploy_master_follows.
  - apply triple_bind with (λ _, phase dn todo); [|intros []; apply deploy_area_follows].
    destruct (_ <? _)%nat; [by apply update_other_phase|by apply triple_ret].
Qed.
(** After the machines: nothing else the creation does changes the nodes. *)
#[local] Ltac quiet_call := apply tri_then; [apply _|apply grows_on_ext|apply bcalm_on_ext|].
Lemma fix_dns_follows ns : tri (phase ns []) (fix_dns_problem : B unit) (λ _, phase ns []).
Proof.
  unfold fix_dns_problem. apply tri_read; [apply reads_get_state|]. intros s.
  quiet_call; [apply load_kube_config_calm|]. intros []. quiet_call; [apply read_config_map_calm|]. intros d.
  apply tri_read; [apply reads_liftR|]. intros t. apply tri_keep; [apply _|apply grows_on_ext|apply bcalm_on_ext, patch_config_map_calm].
Qed.
Lemma plugins_follow ns : tri (phase ns []) (install_default_plugins self_id : B unit) (λ _, phase ns []).
Proof.
  unfold install_default_plugins. apply tri_read; [apply reads_get_state|]. intros s.
  quiet_call; [apply load_kube_config_calm|]. intros []. quiet_call; [apply get_k8s_cidr_info_calm|]. intros c.
  apply tri_read; [apply reads_liftR|]. intros cidr. quiet_call; [apply load_kube_config_calm|]. intros [].
  apply tri_keep; [apply _|apply grows_on_ext|apply bcalm_on_ext, install_plugins_calm].
Qed.
Lemma onboard_follows ns : tri (phase ns []) (onboard_cluster self_id : B unit) (λ _, phase ns []).
Proof.
  unfold onboard_cluster. apply tri_read; [apply reads_get_state|]. intros s.
  apply tri_read; [by destruct (master_area s)|]. intros a. quiet_call; [apply get_vim_name_calm|]. intros vim.
  apply tri_read; [by destruct (validate_k8s _)|]. intros [].
  apply tri_keep; [apply _|apply grows_on_ext|apply bcalm_on_ext, add_k8scluster_calm].
Qed.
Lemma create_follows m : tri (phase [] []) (create set_order rel_path tasks_of self_id m) (λ _, phase (spec_create m) []).
Proof.
  unfold create. eapply triple_bind; [by apply update_other_phase|]. intros [].
  eapply triple_bind; [apply (deploy_all_follows id); intros; apply deploy_request_area_follows|].
  intros [] b (ns & E & Hb). rewrite list_fmap_id in E. cbn in E. unfold spec_create. rewrite <-E. revert b Hb.
  apply triple_bind with (λ _, phase [] ns); [|intros []].
  { unfold setup_load_balancer_pool. apply tri_read; [apply reads_get_state|]. intros s.
    apply tri_read; [apply reads_pool_areas|]. intros l. by apply update_other_phase. }
  eapply triple_bind; [apply day0conf_follows, configure_the_master_follows|]. intros [].
  apply triple_bind with (λ _, phase ns []); [apply fix_dns_follows|intros []].
  apply triple_bind with (λ _, phase ns []); [destruct (install_plugins_flag m); [apply plugins_follow|by apply triple_ret]|intros []].
  destruct (topology_onboard m); [|by apply triple_ret].
  apply triple_bind with (λ _, phase ns []); [apply onboard_follows|intros []]. by apply update_other_phase.
Qed.
Lemma requests_follow requests : ∀ ns, NoDup ns →
  tri (phase ns []) (for_each requests (day2 set_order rel_path tasks_of self_id))
    (λ _, phase (foldl (λ ns r, spec_day2 self_id r ns) ns requests) []).
Proof.
  induction requests as [|r requests IH]; intros ns Hnd; [by apply triple_ret|]. cbn [for_each foldl].
  eapply triple_bind; [by apply day2_follows|]. intros []. by apply IH, spec_day2_NoDup.
Qed.

(** C18: the cluster follows the requests. A creation and any sequence of day-2 requests (workers added in
    any areas, workers deleted by name, Karmada and Istio installed) that succeed leave the workers, the reserved
    numbers and the nodes that have joined the Kubernetes cluster exactly as the specification says, which is a
    function on lists of numbers: a new worker takes the smallest free number, a deletion takes out the workers
    it names (never the master, and nothing when at most one worker is left), everything else changes nothing. *)
Theorem cluster_follows_requests m requests x b' :
  members x = ∅ →
  (create set_order rel_path tasks_of self_id m ;;
   for_each requests (day2 set_order rel_path tasks_of self_id)) (empty_blueprint x) = (Ok tt, b') →
  let ns := foldl (λ ns r, spec_day2 self_id r ns) (spec_create m) requests in
  members (ext b') = nodes ns ∧ worker_numbers (state b') = indicator ns ∧
  Forall2 (λ l n, ∃ v, holds l (OVm v) b' ∧ vm_name v = worker_name n) (vm_workers (state b')) ns.
Proof.
  intros Hx Hrun ns.
  assert (H0 : phase [] [] (empty_blueprint x)) by (split; [by constructor|by cbn]).
  assert (Hnd : NoDup (spec_create m)) by apply spec_areas_NoDup, NoDup_nil_2.
  pose proof (triple_bind _ _ _ _ _ _ (create_follows m) (λ _ , requests_follow requests (spec_create m) Hnd) _ H0) as Ht.
  rewrite Hrun in Ht. fold ns in Ht. destruct Ht as [Hs Hm]. rewrite !app_nil_r in *. destruct Hs. by split_and!.
Qed.
End refinement.

(** ** A concrete cluster

    Two workers; the first is deleted, and its number is taken by the worker that is added afterwards. *)
Module ConcreteRefinement.
Import K8sProps.Concrete.
#[export] Program Instance lab_cluster_laws : ClusterLaws Lab := {| members := lab_members |}.
Next Obligation. by intros v p x r x' [= <- <-]. Qed.
Next Obligation. intros v x. cbn -[String.eqb]. by destruct (String.eqb _ _). Qed.
Solve Obligations with done.

Definition lab_requests : list Day2 :=
  [DelWorkers ["blue-vm-w-0"; "blue-vm-k8s-c"]; InstallIstio; AddNode [lab_area 2 false 1]; DelWorkers ["blue-vm-w-7"]].
Notation lab_history := ((create (λ l, l) (λ p, p) no_files "blue" lab_request ;;
  for_each lab_requests (day2 (λ l, l) (λ p, p) no_files "blue")) (empty_blueprint lab_start)).

Lemma cluster_follows_requests_witness :
  lab_history.1 = Ok tt ∧ members (ext lab_history.2) = nodes "blue" [1; 0]%nat.
Proof.
  split; [by vm_compute|].
  apply (cluster_follows_requests (λ l, l) (λ p, p) no_files "blue" (λ f, eq_refl) lab_request lab_requests lab_start);
    [vm_compute; reflexivity|vm_compute; reflexivity].
Defined.
End ConcreteRefinement.
