(* ===== verification/ProvidersAggregator.v ===== *)
(** * The providers of a blueprint

    [ProvidersAggregator] of blueprints_ng/blueprint_ng.py: which provider serves an area, and how the calls of
    the modules reach it; with [get_os_client_from_vim] and [OpenStackClient.__init__], which share one
    connection between all blueprints.  It is an instance of the interface of Deployment. *)

From stdpp Require Import base list strings gmap pretty.
From Stdlib Require Import ZArith Lia.
From S2P Require Import Prelude VimModels TopologyModel Ansible Resources Deployment VirtCommon.
From S2P Require OpenStack Proxmox.

Open Scope Z_scope.

(** ** The state *)
Inductive Impl :=
| IOpenStack (vim : VimModel) (conn project_id : string) (data : OpenStack.VirtualizationProviderDataOpenstack)
| IProxmox (vim : VimModel) (path : pyval) (data : Proxmox.VirtualizationProviderDataProxmox).

(** The aggregator with its own view of the topology, the connections all blueprints share, where identifiers
    come from, and the rest of the world. *)
Record Agg (U P : Type) := {
  agg_topology : TopologyModel;
  virt_providers_impl : list (Z * Impl);
  virt_providers : list (string * (string * string));
  os_clients_dict : list (Z * (string * string));
  os_connections : list string;
  uuids : U;
  around : P
}.
Arguments agg_topology {_ _} _.
Arguments virt_providers_impl {_ _} _.
Arguments virt_providers {_ _} _.
Arguments os_clients_dict {_ _} _.
Arguments os_connections {_ _} _.
Arguments uuids {_ _} _.
Arguments around {_ _} _.

Class Random (U : Type) := { random_uuid : U → string * U }.
(** What the aggregator and the blueprint reach beside the virtualization providers: the topology in the
    database, the performance manager, the other providers, the other blueprints and the database. *)
Class Siblings (P : Type) := {
  topology_now : M P TopologyModel;
  start_call : string → M P unit;
  end_call : M P unit;
  delete_child : string → M P unit;
  other_cleanups : M P unit;
  delete_from_db : M P unit
}.

Section aggregator.
Context {U P : Type} `{!Random U, !Siblings P, !OpenStack.OpenStack P, !Proxmox.Proxmox P, !Machines P, !Persistence P}.
Variable blueprint_id : string.
(** How often a guest agent is asked before [Unfinished] is answered. *)
Variable patience : nat.
#[local] Abbreviation X := (Agg U P).
#[local] Abbreviation MX := (M (Agg U P)).
Implicit Types x : X.

Definition set_impls l x : X :=
  {| agg_topology := agg_topology x; virt_providers_impl := l; virt_providers := virt_providers x; os_clients_dict := os_clients_dict x;
     os_connections := os_connections x; uuids := uuids x; around := around x |}.
Definition set_recorded l x : X :=
  {| agg_topology := agg_topology x; virt_providers_impl := virt_providers_impl x; virt_providers := l; os_clients_dict := os_clients_dict x;
     os_connections := os_connections x; uuids := uuids x; around := around x |}.
Definition set_os_clients l x : X :=
  {| agg_topology := agg_topology x; virt_providers_impl := virt_providers_impl x; virt_providers := virt_providers x; os_clients_dict := l;
     os_connections := os_connections x; uuids := uuids x; around := around x |}.
Definition set_connections l x : X :=
  {| agg_topology := agg_topology x; virt_providers_impl := virt_providers_impl x; virt_providers := virt_providers x;
     os_clients_dict := os_clients_dict x; os_connections := l; uuids := uuids x; around := around x |}.
Definition set_uuids u x : X :=
  {| agg_topology := agg_topology x; virt_providers_impl := virt_providers_impl x; virt_providers := virt_providers x;
     os_clients_dict := os_clients_dict x; os_connections := os_connections x; uuids := u; around := around x |}.
Definition set_around p x : X :=
  {| agg_topology := agg_topology x; virt_providers_impl := virt_providers_impl x; virt_providers := virt_providers x;
     os_clients_dict := os_clients_dict x; os_connections := os_connections x; uuids := uuids x; around := p |}.
Definition put_impl (area : Z) (i : Impl) x : X := set_impls (z_set area i (virt_providers_impl x)) x.
Definition outside {A} (m : M P A) : MX A := zoom around set_around m.

(** ** Connections *)
Definition get_client (cloud_name : string) : MX string :=
  x ← getS;
  if py_in String.eqb cloud_name (os_connections x) then mret cloud_name
  else outside (OpenStack.connect cloud_name) ;;
       modifyS (λ x, set_connections (os_connections x ++ [cloud_name]) x) ;;
       mret cloud_name.
(** [OpenStackClient.__init__]: the connection and the identifier of the project. *)
Definition new_client (vim : VimModel) : MX (string * string) :=
  outside (OpenStack.render_clouds_file vim) ;;
  client ← get_client (vim_name vim);
  project ← outside (OpenStack.find_project client (vim_tenant_name vim));
  id ← liftR (match project with Some i => Ok i | None => Raise AttributeError end);
  mret (client, id).
Definition get_os_client_from_vim (vim : VimModel) (area : Z) : MX (string * string) :=
  x ← getS;
  match z_get area (os_clients_dict x) with
  | Some c => mret c
  | None =>
      c ← new_client vim;
      modifyS (λ x, set_os_clients (z_set area c (os_clients_dict x)) x) ;;
      mret c
  end.

(** ** The provider of an area *)
Definition vim_of_area (area : Z) : MX VimModel := x ← getS; liftR (get_vim_by_area area (agg_topology x)).1.
(** Each provider reads the topology when it is built. *)
Definition fresh_vim (area : Z) : MX VimModel :=
  t ← outside topology_now; liftR (get_vim_by_area area t).1.
Definition new_openstack (area : Z) : MX Impl :=
  vim ← fresh_vim area;
  '(conn, project_id) ← get_os_client_from_vim vim area;
  mret (IOpenStack vim conn project_id OpenStack.new_data).
Definition new_proxmox (area : Z) : MX Impl :=
  vim ← fresh_vim area;
  '(path, d) ← outside (Proxmox.init vim);
  mret (IProxmox vim path d).

Definition provider_path (i : Impl) : string * string :=
  match i with
  | IOpenStack _ _ _ _ =>
      ("nfvcl.blueprints_ng.providers.virtualization.virtualization_provider_openstack.VirtualizationProviderOpenstack",
       "nfvcl.blueprints_ng.providers.virtualization.virtualization_provider_openstack.VirtualizationProviderDataOpenstack")
  | IProxmox _ _ _ =>
      ("nfvcl.blueprints_ng.providers.virtualization.proxmox.virtualization_provider_proxmox.VirtualizationProviderProxmox",
       "nfvcl.blueprints_ng.providers.virtualization.proxmox.virtualization_provider_proxmox.VirtualizationProviderDataProxmox")
  end.
Definition virt_provider (area : Z) : MX Impl :=
  vim ← vim_of_area area;
  x ← getS;
  match z_get area (virt_providers_impl x) with
  | Some i => mret i
  | None =>
      i ← (match vim_type vim with OPENSTACK => new_openstack area | PROXMOX => new_proxmox area end);
      modifyS (put_impl area i) ;;
      modifyS (λ x, if od_in (pretty area) (virt_providers x) then x
                    else set_recorded (od_set (pretty area) (provider_path i) (virt_providers x)) x) ;;
      mret i
  end.

(** ** Calls of the provider of an area *)
Definition on_impl {A} (area : Z) (i : Impl)
    (os : VimModel → string → string → M (OpenStack.VirtualizationProviderDataOpenstack * P) A)
    (px : VimModel → pyval → M (Proxmox.VirtualizationProviderDataProxmox * P) A) : MX A := λ x,
  match i with
  | IOpenStack vim conn prj d =>
      let '(r, (d', p)) := os vim conn prj (d, around x) in (r, put_impl area (IOpenStack vim conn prj d') (set_around p x))
  | IProxmox vim path d =>
      let '(r, (d', p)) := px vim path (d, around x) in (r, put_impl area (IProxmox vim path d') (set_around p x))
  end.
(** A call that is given a machine and may change it; one that waits for a guest agent may not return. *)
Definition on_impl_vm (area : Z) (i : Impl) (v : VmResource)
    (os : VimModel → string → string → M (Call OpenStack.VirtualizationProviderDataOpenstack P) unit)
    (px : VimModel → pyval → M (Call Proxmox.VirtualizationProviderDataProxmox P) (option unit)) x : result unit * VmResource * X :=
  match i with
  | IOpenStack vim conn prj d =>
      let '(r, c) := os vim conn prj {| call_vm := v; call_data := d; call_world := around x |} in
      (r, call_vm c, put_impl area (IOpenStack vim conn prj (call_data c)) (set_around (call_world c) x))
  | IProxmox vim path d =>
      let '(r, c) := px vim path {| call_vm := v; call_data := d; call_world := around x |} in
      (match r with Ok (Some _) => Ok tt | Ok None => Raise Unfinished | Raise e => Raise e end,
       call_vm c, put_impl area (IProxmox vim path (call_data c)) (set_around (call_world c) x))
  end.

(** [register_performance]: the end of a call that raises is not recorded. *)
Definition measured {A} (name : string) (m : MX A) : MX A :=
  outside (start_call name) ;; a ← m; outside end_call ;; mret a.

Definition agg_create_vm (v : VmResource) x : result unit * VmResource * X :=
  match (outside (start_call "create_vm") ;; virt_provider (vm_area v)) x with
  | (Raise e, x) => (Raise e, v, x)
  | (Ok i, x) =>
      let '(r, v', x) := on_impl_vm (vm_area v) i v
                           (λ vim conn prj, OpenStack.create_vm vim conn prj blueprint_id)
                           (λ vim path, Proxmox.create_vm vim path blueprint_id patience) x in
      match r with
      | Ok _ => let '(r, x) := outside end_call x in (r, v', x)
      | Raise e => (Raise e, v', x)
      end
  end.
Definition agg_destroy_vm (v : VmResource) : MX unit :=
  measured "destroy_vm" (
    i ← virt_provider (vm_area v);
    on_impl (vm_area v) i (λ vim conn prj, OpenStack.destroy_vm conn blueprint_id v) (λ vim path, Proxmox.destroy_vm vim path blueprint_id v)).
Definition agg_create_net (n : NetResource) : MX unit :=
  measured "create_net" (
    i ← virt_provider (net_area n);
    on_impl (net_area n) i (λ vim conn prj, OpenStack.create_net conn prj n) (λ vim path, Proxmox.create_net vim n)).
(** [configure_vm] in two halves: until the provider is known, and the run of the dumped playbook. *)
Definition agg_get_virt_provider (area : Z) : MX unit :=
  outside (start_call "configure_vm") ;; virt_provider area ;; mret tt.
Definition agg_run_playbook (v : VmResource) (playbook : pyval) : MX (list (string * pyval)) :=
  x ← getS;
  match z_get (vm_area v) (virt_providers_impl x) with
  | Some i =>
      facts ← on_impl (vm_area v) i (λ vim conn prj, OpenStack.configure_vm blueprint_id v playbook)
                (λ vim path, Proxmox.configure_vm blueprint_id v playbook);
      outside end_call ;;
      mret facts
  | None => raise KeyError
  end.
Definition cleanup_impl (area : Z) (i : Impl) : MX unit :=
  on_impl area i (λ vim conn prj, OpenStack.final_cleanup conn) (λ vim path, Proxmox.final_cleanup vim).
Definition agg_final_cleanup : MX unit :=
  measured "final_cleanup" (
    x ← getS;
    for_each (virt_providers_impl x).*1 (λ area,
      x ← getS; match z_get area (virt_providers_impl x) with Some i => cleanup_impl area i | None => mret tt end) ;;
    outside other_cleanups).

#[export] Instance aggregator_provider : Provider X := {|
  create_vm := agg_create_vm;
  destroy_vm := agg_destroy_vm;
  create_net := agg_create_net;
  get_virt_provider := agg_get_virt_provider;
  run_playbook := agg_run_playbook;
  delete_blueprint i := measured "delete_blueprint" (outside (delete_child i));
  final_cleanup := agg_final_cleanup;
  destroy_ng_blue := outside delete_from_db;
  get_vim_from_area_id_model a := vim_of_area a ;; mret tt;
  uuid4 x := ((random_uuid (uuids x)).1, set_uuids (random_uuid (uuids x)).2 x)
|}.
End aggregator.
