(* ===== verification/AggregatorProps.v ===== *)
(** * OpenStack providers keep what the blueprints rely on

    The aggregator of an installation whose areas are OpenStack clouds fulfils the laws of Deployment: every
    server the clouds handed over since the blueprint exists is recorded by a provider for one resource. *)

From stdpp Require Import base list strings gmap pretty.
From Stdlib Require Import ZArith Lia.
From S2P Require Import Prelude VimModels TopologyModel Ansible Resources Deployment VirtCommon ProvidersAggregator OpenStackProps.
From S2P Require OpenStack Proxmox ProxmoxProps.

Open Scope Z_scope.

(** ** What the other parts do to the servers: nothing, but for the deletion of another blueprint *)
Class RandomLaws (U : Type) `{!Random U} := {
  drawn : U → gset string;
  random_fresh : ∀ u i u', random_uuid u = (i, u') → i ≠ EmptyString ∧ i ∉ drawn u ∧ drawn u' = {[i]} ∪ drawn u
}.
Class SiblingLaws (P : Type) `{!Siblings P, !OpenStack.OpenStack P, !Machines P, !Persistence P, !OpenStackLaws P} := {
  topology_now_inert : inert ledger topology_now;
  start_call_inert : ∀ n, inert ledger (start_call n);
  end_call_inert : inert ledger end_call;
  delete_child_shrinks : ∀ i p, active (delete_child i p).2 ⊆ active p ∧ past (delete_child i p).2 = past p;
  other_cleanups_inert : inert ledger other_cleanups;
  delete_from_db_inert : inert ledger delete_from_db
}.
#[export] Hint Resolve topology_now_inert start_call_inert end_call_inert other_cleanups_inert delete_from_db_inert : inert.

Section laws.
Context {U P : Type} `{!Random U, !Siblings P, !OpenStack.OpenStack P, !Proxmox.Proxmox P, !Machines P, !Persistence P}.
Context `{!OpenStackLaws P, !RandomLaws U, !SiblingLaws P}.
Variable blueprint_id : string.
Variable patience : nat.
(** The servers that were there before. *)
Variable foreign : gset (string * string).
#[local] Abbreviation X := (Agg U P).
#[local] Abbreviation MX := (M (Agg U P)).
Implicit Types x : X.

(** ** The books of the providers *)
Definition book_of (i : Impl) : gmap (option string) (string * string) :=
  match i with IOpenStack _ conn _ d => (λ s, (conn, s)) <$> OpenStack.os_dict d | IProxmox _ _ _ => ∅ end.
Definition book x (a : Z) : gmap (option string) (string * string) :=
  match z_get a (virt_providers_impl x) with Some i => book_of i | None => ∅ end.
Definition keys_with (act : gset (string * string)) (b : gmap (option string) (string * string)) : gset string :=
  set_omap id (dom (filter (λ kv, kv.2 ∈ act) b)).
Definition agg_servers x : gset string :=
  ⋃ ((λ a, keys_with (active (around x)) (book x a)) <$> (virt_providers_impl x).*1).
Definition is_openstack (i : Impl) : Prop := match i with IOpenStack _ _ _ _ => True | IProxmox _ _ _ => False end.
Definition all_openstack x : Prop :=
  (∀ a v, (get_vim_by_area a (agg_topology x)).1 = Ok v → vim_type v = OPENSTACK) ∧
  ∀ a i, z_get a (virt_providers_impl x) = Some i → is_openstack i.
Record agg_healthy x : Prop := {
  ah_openstack : all_openstack x;
  ah_tracked : ∀ cs, cs ∈ active (around x) → cs ∈ foreign ∨ ∃ a i, book x a !! Some i = Some cs;
  ah_past : ∀ a k cs, book x a !! k = Some cs → cs ∈ past (around x)
}.

Lemma elem_of_servers i x : i ∈ agg_servers x ↔ ∃ a cs, book x a !! Some i = Some cs ∧ cs ∈ active (around x).
Proof.
  unfold agg_servers. rewrite elem_of_union_list. split.
  - intros (s & Hs & Hi). apply list_elem_of_fmap in Hs as (a & -> & _). unfold keys_with in Hi.
    apply elem_of_set_omap in Hi as (k & Hk & Hki). unfold id in Hki. subst k. apply elem_of_dom in Hk as [cs Hk].
    apply map_lookup_filter_Some in Hk as [Hk Hin]. by exists a, cs.
  - intros (a & cs & Hb & Hin). exists (keys_with (active (around x)) (book x a)). split.
    + apply list_elem_of_fmap. exists a. split; [done|]. unfold book in Hb. destruct (z_get a (virt_providers_impl x)) as [i'|] eqn:E; [|done].
      by eapply z_get_in.
    + apply elem_of_set_omap. exists (Some i). split; [|done]. apply elem_of_dom. exists cs. by apply map_lookup_filter_Some.
Qed.

(** ** Calls that leave the books alone *)
Definition sim x x' : Prop :=
  all_openstack x' ∧ uuids x' = uuids x ∧ (∀ a, book x' a = book x a) ∧
  active (around x') ⊆ active (around x) ∧ past (around x') = past (around x).
Definition tame {A : Type} (m : MX A) : Prop := ∀ x, all_openstack x → sim x (m x).2.

Lemma sim_refl x : all_openstack x → sim x x.
Proof. intros Hx. unfold sim. by split_and!. Qed.
Lemma sim_trans x y z : sim x y → sim y z → sim x z.
Proof. intros (H1 & H2 & H3 & H4 & H5) (G1 & G2 & G3 & G4 & G5). unfold sim. split_and!; [done|congruence|congruence|set_solver|congruence]. Qed.
Lemma tame_ret {A} (a : A) : tame (mret a).
Proof. intros x. apply sim_refl. Qed.
Lemma tame_raise {A} e : tame (raise (A:=A) e).
Proof. intros x. apply sim_refl. Qed.
Lemma tame_liftR {A} (r : result A) : tame (liftR r).
Proof. intros x. apply sim_refl. Qed.
Lemma tame_getS : tame getS.
Proof. intros x. apply sim_refl. Qed.
Lemma tame_bind {A B} (m : MX A) (f : A → MX B) : tame m → (∀ a, tame (f a)) → tame (m ≫= f).
Proof.
  intros Hm Hf x Hx. unfold mbind, M_bind. specialize (Hm x Hx). destruct (m x) as [[a|e] x1]; [|done].
  eapply sim_trans; [exact Hm|]. apply Hf, Hm.
Qed.
Lemma tame_for_each {A} (l : list A) f : (∀ a, tame (f a)) → tame (for_each l f).
Proof. intros Hf. induction l as [|a l IH]; [apply tame_ret|]. by apply tame_bind. Qed.
Lemma tame_outside {A} (m : M P A) :
  (∀ p, active (m p).2 ⊆ active p ∧ past (m p).2 = past p) → tame (outside m).
Proof.
  intros Hm x Hx. unfold outside, zoom. specialize (Hm (around x)). destruct (m (around x)) as [r p]. by destruct Hm.
Qed.
Lemma tame_inert {A} (m : M P A) : inert ledger m → tame (outside m).
Proof. intros Hm. apply tame_outside. intros p. unfold active, past. by rewrite Hm. Qed.
Lemma tame_modify f : (∀ x, agg_topology (f x) = agg_topology x ∧ virt_providers_impl (f x) = virt_providers_impl x ∧
  uuids (f x) = uuids x ∧ around (f x) = around x) → tame (modifyS f).
Proof.
  intros Hf x [Hx1 Hx2]. destruct (Hf x) as (H1 & H2 & H3 & H4). cbn. unfold sim, all_openstack, book. rewrite H1, H2, H3, H4. by split_and!.
Qed.

(** An area whose provider changes. *)
Lemma book_put a i x b : book (put_impl a i x) b = if a =? b then book_of i else book x b.
Proof. unfold book, put_impl. cbn. rewrite z_get_set. by destruct (a =? b). Qed.
Lemma openstack_put a i x : all_openstack x → is_openstack i → all_openstack (put_impl a i x).
Proof.
  intros [H1 H2] Hi. split; [done|]. intros b j. unfold put_impl. cbn. rewrite z_get_set. destruct (a =? b); [by intros [= <-]|apply H2].
Qed.
Lemma sim_put a i x p : all_openstack x → is_openstack i → book x a = book_of i →
  active p ⊆ active (around x) → past p = past (around x) → sim x (put_impl a i (set_around p x)).
Proof.
  intros Hx Hi Hb Ha Hp. unfold sim. split_and!; [by apply openstack_put|done| |done|done]. intros b. rewrite book_put.
  destruct (Z.eqb_spec a b) as [->|]; done.
Qed.

(** ** The provider of an area *)
Lemma tame_get_client n : tame (get_client n).
Proof.
  unfold get_client. apply tame_bind; [apply tame_getS|intros x]. destruct (py_in _ _ _); [apply tame_ret|].
  apply tame_bind; [apply tame_inert; auto with inert|intros _]. apply tame_bind; [by apply tame_modify|intros _]. apply tame_ret.
Qed.
Lemma tame_new_client v : tame (new_client v).
Proof.
  unfold new_client. apply tame_bind; [apply tame_inert; auto with inert|intros _]. apply tame_bind; [apply tame_get_client|intros c].
  apply tame_bind; [apply tame_inert; auto with inert|intros o]. apply tame_bind; [apply tame_liftR|intros i; apply tame_ret].
Qed.
Lemma tame_os_client v a : tame (get_os_client_from_vim v a).
Proof.
  unfold get_os_client_from_vim. apply tame_bind; [apply tame_getS|intros x]. destruct (z_get a _); [apply tame_ret|].
  apply tame_bind; [apply tame_new_client|intros c]. apply tame_bind; [by apply tame_modify|intros _; apply tame_ret].
Qed.
Lemma tame_vim_of_area a : tame (vim_of_area a).
Proof. apply tame_bind; [apply tame_getS|intros x; apply tame_liftR]. Qed.
Lemma tame_fresh_vim a : tame (fresh_vim a).
Proof. apply tame_bind; [apply tame_inert; auto with inert|intros t; apply tame_liftR]. Qed.

Definition gives_openstack (m : MX Impl) : Prop := ∀ x, all_openstack x →
  sim x (m x).2 ∧ ∀ i, (m x).1 = Ok i → is_openstack i ∧ book_of i = ∅.
Lemma gives_bind {A} (m : MX A) f : tame m → (∀ a, gives_openstack (f a)) → gives_openstack (m ≫= f).
Proof.
  intros Hm Hf x Hx. unfold mbind, M_bind. specialize (Hm x Hx). destruct (m x) as [[a|e] x1]; [|split; [exact Hm|intros ? [=]]].
  destruct (Hf a x1 (proj1 Hm)) as [H1 H2]. split; [by eapply sim_trans|done].
Qed.
Lemma new_openstack_empty a : gives_openstack (new_openstack a).
Proof.
  apply gives_bind; [apply tame_fresh_vim|intros v]. apply gives_bind; [apply tame_os_client|intros [c p]].
  intros x Hx. split; [by apply sim_refl|]. intros i [= <-]. split; [done|]. cbn. apply fmap_empty.
Qed.

(** The provider found or built, in the state it is in. *)
Definition serves (a : Z) (i : Impl) x : Prop := is_openstack i ∧ z_get a (virt_providers_impl x) = Some i.
Lemma virt_provider_spec a x : all_openstack x →
  sim x (virt_provider a x).2 ∧ ∀ i, (virt_provider a x).1 = Ok i → serves a i (virt_provider a x).2.
Proof.
  intros Hx. unfold virt_provider. unfold vim_of_area. destruct (get_vim_by_area a (agg_topology x)).1 as [v|e] eqn:Ev.
  2: { rewrite (bind_Raise _ _ x x e) by (unfold mbind, M_bind, getS, liftR; cbn; by rewrite Ev). split; [by apply sim_refl|by intros ? [=]]. }
  rewrite (bind_Ok _ _ x x v) by (unfold mbind, M_bind, getS, liftR; cbn; by rewrite Ev). rewrite (bind_Ok getS _ x x x) by done.
  destruct (z_get a (virt_providers_impl x)) as [i|] eqn:Ei.
  { split; [by apply sim_refl|]. intros i' [= <-]. split; [by apply (proj2 Hx a)|done]. }
  rewrite (proj1 Hx a v Ev). pose proof (new_openstack_empty a x Hx) as [Hs Hi].
  destruct (new_openstack a x) as [[i|e] x1] eqn:En; cbn in Hs, Hi.
  2: { rewrite (bind_Raise _ _ x x1 e En). split; [exact Hs|by intros ? [=]]. }
  rewrite (bind_Ok _ _ x x1 i En). destruct (Hi i eq_refl) as [Ho Hb].
  assert (Hput : sim x (put_impl a i x1)).
  { eapply sim_trans; [exact Hs|]. apply (sim_put a i x1 (around x1) (proj1 Hs) Ho); [|done|done]. rewrite Hb.
    rewrite (proj1 (proj2 (proj2 Hs)) a). unfold book. by rewrite Ei. }
  rewrite (bind_Ok (modifyS _) _ x1 (put_impl a i x1) tt) by done. erewrite (bind_Ok (modifyS _) _ (put_impl a i x1)) by reflexivity.
  cbn beta iota. split.
  - cbn [snd mret M_ret]. eapply sim_trans; [exact Hput|]. destruct (od_in (pretty a) _); [by apply sim_refl, Hput|].
    apply (tame_modify (λ x, set_recorded (od_set (pretty a) (provider_path i) (virt_providers x)) x)); [done|apply Hput].
  - intros i' [= <-]. split; [done|]. cbn [snd mret M_ret]. destruct (od_in (pretty a) _); cbn; by rewrite z_get_set, Z.eqb_refl.
Qed.
Lemma tame_virt_provider a : tame (virt_provider a).
Proof. intros x Hx. by apply virt_provider_spec. Qed.

(** ** Calls of a provider *)
Definition os_tame {A : Type} (m : M (OpenStack.VirtualizationProviderDataOpenstack * P) A) : Prop := ∀ s,
  OpenStack.os_dict (m s).2.1 = OpenStack.os_dict s.1 ∧ active (m s).2.2 ⊆ active s.2 ∧ past (m s).2.2 = past s.2.
Lemma on_impl_sim {A} a i x os px : all_openstack x → serves a i x → (∀ v c p, os_tame (A:=A) (os v c p)) →
  sim x (on_impl a i os px x).2.
Proof.
  intros Hx [Ho Hi] Hos. destruct i as [v c p d|v path d]; [|done]. cbn. specialize (Hos v c p (d, around x)).
  destruct (os v c p (d, around x)) as [r [d' p']]. cbn in *. destruct Hos as (H1 & H2 & H3).
  apply sim_put; [done|done| |done|done]. unfold book. rewrite Hi. cbn. by rewrite H1.
Qed.
Lemma os_tame_ret {A} (a : A) : os_tame (mret a).
Proof. by intros s. Qed.
Lemma os_tame_raise {A} e : os_tame (raise (A:=A) e).
Proof. by intros s. Qed.
Lemma os_tame_world {A} (m : M P A) : inert ledger m → os_tame (OpenStack.data_world m).
Proof.
  intros Hm s. unfold OpenStack.data_world, zoom, active, past. specialize (Hm s.2). destruct (m s.2) as [r p]. cbn in *. by rewrite Hm.
Qed.
Lemma os_tame_bind {A B} (m : M (OpenStack.VirtualizationProviderDataOpenstack * P) A) f :
  os_tame m → (∀ a, os_tame (A:=B) (f a)) → os_tame (m ≫= f).
Proof.
  intros Hm Hf s. unfold mbind, M_bind. specialize (Hm s). destruct (m s) as [[a|e] s1]; [|done]. cbn in Hm.
  destruct Hm as (H1 & H2 & H3), (Hf a s1) as (G1 & G2 & G3). split_and!; [congruence|set_solver|congruence].
Qed.

Lemma os_tame_destroy conn v : os_tame (OpenStack.destroy_vm conn blueprint_id v).
Proof.
  intros [d p]. split; [apply destroy_vm_dict|]. apply destroy_vm_ledger.
Qed.
Lemma os_tame_create_net conn prj n : os_tame (OpenStack.create_net conn prj n).
Proof.
  apply os_tame_bind; [apply os_tame_world; auto with inert|intros []]; [apply os_tame_raise|].
  apply os_tame_bind; [apply os_tame_world; auto with inert|intros []]; [|apply os_tame_raise].
  apply os_tame_bind; [apply os_tame_world; auto with inert|intros net].
  apply os_tame_bind; [apply os_tame_world; auto with inert|intros sub]. by intros s.
Qed.
Lemma os_tame_configure v pb : os_tame (OpenStack.configure_vm blueprint_id v pb).
Proof.
  apply os_tame_bind; [apply os_tame_world; auto with inert|intros f].
  apply os_tame_bind; [apply os_tame_world; auto with inert|intros _; apply os_tame_ret].
Qed.
Lemma os_tame_each {A} (l : list A) f : (∀ a, os_tame (f a)) → os_tame (for_each l f).
Proof. intros Hf. induction l as [|a l IH]; [apply os_tame_ret|]. by apply os_tame_bind. Qed.
Lemma os_tame_cleanup conn : os_tame (OpenStack.final_cleanup conn).
Proof.
  apply os_tame_bind; [by intros s|intros s].
  do 2 (apply os_tame_bind; [apply os_tame_each; intros i; apply os_tame_world; auto with inert|intros _]).
  apply os_tame_each. intros i. apply os_tame_world. auto with inert.
Qed.

(** A call of the provider of an area. *)
Lemma tame_call {A} a os px : (∀ v c p, os_tame (A:=A) (os v c p)) → tame (i ← virt_provider a; on_impl a i os px).
Proof.
  intros Hos x Hx. destruct (virt_provider_spec a x Hx) as [Hs Hi]. unfold mbind, M_bind.
  destruct (virt_provider a x) as [[i|e] x1]; [|done]. cbn in *. eapply sim_trans; [exact Hs|].
  by apply on_impl_sim; [apply Hs|apply Hi|].
Qed.
Lemma tame_measured {A} n (m : MX A) : tame m → tame (measured n m).
Proof.
  intros Hm. apply tame_bind; [apply tame_inert; auto with inert|intros _]. apply tame_bind; [done|intros a].
  apply tame_bind; [apply tame_inert; auto with inert|intros _; apply tame_ret].
Qed.
Lemma tame_destroy v : tame (agg_destroy_vm blueprint_id v).
Proof. apply tame_measured, tame_call. intros vim c p. exact (os_tame_destroy c v). Qed.
Lemma tame_create_net n : tame (agg_create_net n).
Proof. apply tame_measured, tame_call. intros vim c p. exact (os_tame_create_net c p n). Qed.
Lemma tame_get_provider a : tame (agg_get_virt_provider a).
Proof.
  apply tame_bind; [apply tame_inert; auto with inert|intros _]. apply tame_bind; [apply tame_virt_provider|intros i; apply tame_ret].
Qed.
Lemma tame_found {A} a (f : Impl → MX A) m : (∀ i x, all_openstack x → serves a i x → sim x (f i x).2) → tame m →
  tame (x ← getS; match z_get a (virt_providers_impl x) with Some i => f i | None => m end).
Proof.
  intros Hf Hm x Hx. rewrite (bind_Ok getS _ x x x) by done. destruct (z_get a _) as [i|] eqn:Ei; [|by apply Hm].
  apply Hf; [done|]. split; [by apply (proj2 Hx a)|done].
Qed.
Lemma tame_playbook v pb : tame (agg_run_playbook blueprint_id v pb).
Proof.
  unfold agg_run_playbook. apply tame_found; [|apply tame_raise]. intros i x Hx Hs.
  pose proof (on_impl_sim (vm_area v) i x _ (λ vim path, Proxmox.configure_vm blueprint_id v pb) Hx Hs
    (λ vim conn prj, os_tame_configure v pb)) as H1. unfold mbind, M_bind.
  destruct (on_impl (vm_area v) i _ _ x) as [[r|e] x1]; [|done]. eapply sim_trans; [exact H1|].
  pose proof (tame_inert end_call (end_call_inert) x1 (proj1 H1)) as H2. unfold outside in *. by destruct (zoom _ _ end_call x1) as [[] x2].
Qed.
Lemma tame_final : tame agg_final_cleanup.
Proof.
  apply tame_measured. apply tame_bind; [apply tame_getS|intros x0]. apply tame_bind; [|intros _; apply tame_inert; auto with inert].
  apply tame_for_each. intros a. apply tame_found; [|apply tame_ret]. intros i x Hx Hs. unfold cleanup_impl. apply on_impl_sim; [done|done|].
  intros vim c p. exact (os_tame_cleanup c).
Qed.

(** ** The laws of Deployment *)
Definition agg_issued x : gset string := drawn (uuids x).
Definition agg_homes x (i : string) (a : Z) : Prop := is_Some (book x a !! Some i).

Lemma sim_healthy x x' : agg_healthy x → sim x x' → agg_healthy x'.
Proof.
  intros [_ Ht Hp] (H1 & _ & H3 & H4 & H5). split; [done|..].
  - intros cs Hcs. destruct (Ht cs) as [|(a & k & Hb)]; [set_solver|by left|right]. exists a, k. by rewrite H3.
  - intros a k cs. rewrite H3, H5. apply Hp.
Qed.
Lemma sim_servers x x' : sim x x' → agg_servers x' ⊆ agg_servers x.
Proof.
  intros (_ & _ & H3 & H4 & _) i. rewrite !elem_of_servers. intros (a & cs & Hb & Hin). exists a, cs. rewrite <-H3. set_solver.
Qed.
Lemma sim_quiet x x' : agg_healthy x → sim x x' →
  agg_healthy x' ∧ agg_servers x' ⊆ agg_servers x ∧ agg_issued x' = agg_issued x ∧ ∀ i a, agg_homes x' i a → agg_homes x i a.
Proof.
  intros Hx Hs. split_and!; [by eapply sim_healthy|by apply sim_servers|..].
  - unfold agg_issued. by destruct Hs as (_ & -> & _).
  - intros i a. unfold agg_homes. by destruct Hs as (_ & _ & -> & _).
Qed.
Lemma tame_quiet {A} (m : MX A) : tame m → quiet agg_servers agg_issued agg_homes agg_healthy m.
Proof. intros Hm x Hx. apply sim_quiet; [done|]. apply Hm, Hx. Qed.

(** A server enters the books of one area under one identifier. *)
Record enters (a : Z) (i : string) x x' : Prop := {
  en_openstack : all_openstack x';
  en_uuids : uuids x' = uuids x;
  en_book : ∃ cs, cs ∉ past (around x) ∧ (∀ b, book x' b = if a =? b then <[Some i := cs]> (book x b) else book x b) ∧
    active (around x') ⊆ {[cs]} ∪ active (around x) ∧ past (around x') = {[cs]} ∪ past (around x)
}.
Lemma enters_effect a i x x' : agg_healthy x → enters a i x x' → (∀ b, ¬ agg_homes x i b) →
  agg_healthy x' ∧ agg_issued x' = agg_issued x ∧ agg_servers x' ⊆ {[i]} ∪ agg_servers x ∧
  ∀ j b, agg_homes x' j b → agg_homes x j b ∨ j = i ∧ b = a.
Proof.
  intros [_ Ht Hp] [H1 H2 (cs & Hnew & Hb & Ha & Hpast)] Hh.
  assert (Hin : ∀ b k c, book x' b !! k = Some c → (b = a ∧ k = Some i ∧ c = cs) ∨ book x b !! k = Some c).
  { intros b k c. rewrite Hb. destruct (Z.eqb_spec a b) as [->|]; [|by right]. destruct (decide (k = Some i)) as [->|Hk].
    - rewrite lookup_insert_eq. intros [= ->]. by left.
    - rewrite lookup_insert_ne by done. by right. }
  split_and!.
  - split; [done|..].
    + intros c Hc. destruct (decide (c = cs)) as [->|Hne].
      * right. exists a, i. by rewrite Hb, Z.eqb_refl, lookup_insert_eq.
      * destruct (Ht c) as [|(b & k & Hbk)]; [set_solver|by left|right]. exists b, k. rewrite Hb.
        destruct (Z.eqb_spec a b) as [->|]; [|done]. rewrite lookup_insert_ne; [done|]. intros [= <-]. destruct (Hh b). by exists c.
    + intros b k c Hbk. rewrite Hpast. destruct (Hin b k c Hbk) as [(_ & _ & ->)|Hold]; [set_solver|]. apply Hp in Hold. set_solver.
  - unfold agg_issued. by rewrite H2.
  - intros j. rewrite elem_of_union, elem_of_singleton, !elem_of_servers. intros (b & c & Hbc & Hc).
    destruct (Hin b (Some j) c Hbc) as [(_ & [= ->] & _)|Hold]; [by left|right]. exists b, c. split; [done|].
    assert (c ≠ cs) by (intros ->; by apply Hnew, (Hp b (Some j))). set_solver.
  - intros j b [c Hbc]. destruct (Hin b (Some j) c Hbc) as [(-> & [= ->] & _)|Hold]; [by right|left; by exists c].
Qed.
Lemma sim_enters a i x y z : sim x y → enters a i y z → enters a i x z.
Proof.
  intros (H1 & H2 & H3 & H4 & H5) [G1 G2 (cs & Hnew & Hb & Ha & Hp)]. split; [done|congruence|]. exists cs.
  rewrite <-H5. split_and!; [done| |set_solver|done]. intros b. by rewrite Hb, H3.
Qed.
Lemma enters_sim a i x y z : enters a i x y → sim y z → enters a i x z.
Proof.
  intros [G1 G2 (cs & Hnew & Hb & Ha & Hp)] (H1 & H2 & H3 & H4 & H5). split; [done|congruence|]. exists cs.
  split_and!; [done| |set_solver|congruence]. intros b. by rewrite H3.
Qed.

(** *** A machine is created *)
Definition created_in (v : VmResource) (i : string) x x' : Prop := sim x x' ∨ enters (vm_area v) i x x'.
Lemma created_sim v i x y z : sim x y → created_in v i y z → created_in v i x z.
Proof. intros Hs [G|G]; [left; by eapply sim_trans|right; by eapply sim_enters]. Qed.
Lemma created_after v i x y z : created_in v i x y → sim y z → created_in v i x z.
Proof. intros [G|G] Hs; [left; by eapply sim_trans|right; by eapply enters_sim]. Qed.
Lemma created_openstack v i x y : created_in v i x y → all_openstack y.
Proof. intros [G|G]; apply G. Qed.

Lemma on_impl_vm_created v i impl x : all_openstack x → serves (vm_area v) impl x → vm_id v = Some i →
  let '(r, v', x') := on_impl_vm (vm_area v) impl v (λ vim conn prj, OpenStack.create_vm vim conn prj blueprint_id)
                        (λ vim path, Proxmox.create_vm vim path blueprint_id patience) x in
  same_machine v v' ∧ created_in v i x x'.
Proof.
  intros Hx [Ho Hi] Hv. destruct impl as [vim conn prj d|]; [|done]. cbn.
  set (c := {| call_vm := v; call_data := d; call_world := around x |}).
  pose proof (create_vm_launches vim conn prj blueprint_id (Some i) c Hv) as [Hm Hl].
  destruct (OpenStack.create_vm vim conn prj blueprint_id c) as [r c']. cbn in *. split; [done|].
  assert (Hb : book x (vm_area v) = (λ s, (conn, s)) <$> OpenStack.os_dict d) by (unfold book; by rewrite Hi).
  destruct Hl as [(sid & Hnew & Hd & Hl)|[[Hd Hl] _]]; cbn in *.
  - right. split; [by apply openstack_put|done|]. exists (conn, sid). unfold active, past in *. cbn. rewrite Hl. split_and!; [done| |done|done].
    intros b. rewrite book_put. destruct (Z.eqb_spec (vm_area v) b) as [<-|]; [|done]. cbn. by rewrite Hd, Hv, fmap_insert, Hb.
  - left. apply sim_put; [done|done| |unfold active; by rewrite Hl|unfold past; by rewrite Hl]. cbn. by rewrite Hd.
Qed.

(** The steps of [agg_create_vm]. *)
Lemma on_impl_vm_same impl v x :
  let '(r, v', x') := on_impl_vm (vm_area v) impl v (λ vim conn prj, OpenStack.create_vm vim conn prj blueprint_id)
                        (λ vim path, Proxmox.create_vm vim path blueprint_id patience) x in
  same_machine v v'.
Proof.
  destruct impl as [vim conn prj d|vim path d]; cbn.
  - pose proof (create_vm_launches vim conn prj blueprint_id (vm_id v) {| call_vm := v; call_data := d; call_world := around x |} eq_refl) as [Hm _].
    by destruct (OpenStack.create_vm _ _ _ _ _) as [r c'].
  - pose proof (ProxmoxProps.create_records vim path blueprint_id (vm_id v) patience
      {| call_vm := v; call_data := d; call_world := around x |} eq_refl) as [Hm _].
    by destruct (Proxmox.create_vm _ _ _ _ _) as [r c'].
Qed.
Lemma agg_create_same v x r v' x' : agg_create_vm blueprint_id patience v x = (r, v', x') → same_machine v v'.
Proof.
  unfold agg_create_vm. destruct ((outside (start_call _) ;; _) x) as [[impl|e] x1]; [|by intros [= _ <- _]].
  pose proof (on_impl_vm_same impl v x1) as Hm. destruct (on_impl_vm _ _ _ _ _ x1) as [[r1 v1] x2].
  destruct r1; [|by intros [= _ <- _]]. destruct (outside end_call x2). by intros [= _ <- _].
Qed.
Lemma agg_create_created v x r v' x' i : agg_create_vm blueprint_id patience v x = (r, v', x') →
  all_openstack x → vm_id v = Some i → created_in v i x x'.
Proof.
  intros Hc Hx Hv. unfold agg_create_vm in Hc.
  assert (Hp : sim x ((outside (start_call "create_vm") ;; virt_provider (vm_area v)) x).2 ∧
    ∀ i, ((outside (start_call "create_vm") ;; virt_provider (vm_area v)) x).1 = Ok i →
      serves (vm_area v) i ((outside (start_call "create_vm") ;; virt_provider (vm_area v)) x).2).
  { pose proof (tame_inert _ (start_call_inert "create_vm") x Hx) as H1. unfold mbind, M_bind.
    destruct (outside (start_call "create_vm") x) as [[[]|e] x1]; [|split; [done|by intros ? [=]]].
    destruct (virt_provider_spec (vm_area v) x1 (proj1 H1)) as [H2 H3]. split; [by eapply sim_trans|done]. }
  destruct ((outside (start_call _) ;; _) x) as [[impl|e] x1]; cbn in Hp; destruct Hp as [H1 H2].
  2: { injection Hc as _ _ <-. by left. }
  pose proof (on_impl_vm_created v i impl x1 (proj1 H1) (H2 impl eq_refl) Hv) as Hm.
  destruct (on_impl_vm _ _ _ _ _ x1) as [[r1 v1] x2]. destruct Hm as [_ Hm]. apply (created_sim v i x x1 x2 H1) in Hm.
  destruct r1 as [[]|e]; [|by injection Hc as _ _ <-].
  pose proof (tame_inert end_call end_call_inert x2 (created_openstack v i x x2 Hm)) as H3.
  destruct (outside end_call x2) as [r3 x3]. injection Hc as _ _ <-. by eapply created_after.
Qed.

(** *** A machine is destroyed *)
Lemma agg_destroy_effect v x x' i : agg_destroy_vm blueprint_id v x = (Ok tt, x') → all_openstack x →
  vm_id v = Some i → (∀ a, agg_homes x i a → a = vm_area v) → i ∉ agg_servers x'.
Proof.
  intros Hd Hx Hv Hh. unfold agg_destroy_vm, measured in Hd. apply bind_Ok_inv in Hd as ([] & x1 & H1 & Hd).
  apply bind_Ok_inv in Hd as ([] & x4 & H4 & Hd). apply bind_Ok_inv in H4 as (impl & x2 & H2 & H4).
  apply bind_Ok_inv in Hd as ([] & x5 & H5 & Hd). injection Hd as ->.
  pose proof (tame_inert _ (start_call_inert "destroy_vm") x Hx) as S1. rewrite H1 in S1. cbn in S1.
  pose proof (virt_provider_spec (vm_area v) x1 (proj1 S1)) as [S2 Hs]. rewrite H2 in S2, Hs. cbn in S2, Hs.
  destruct (Hs impl eq_refl) as [Ho Hi]. assert (S12 : sim x x2) by by eapply sim_trans.
  assert (Hgone : i ∉ agg_servers x4 ∧ all_openstack x4).
  { pose proof (on_impl_sim (vm_area v) impl x2 _ (λ vim path, Proxmox.destroy_vm vim path blueprint_id v) (proj1 S2) (Hs impl eq_refl)
      (λ vim c p, os_tame_destroy c v)) as S3. rewrite H4 in S3. cbn in S3. split; [|by apply S3].
    rewrite elem_of_servers. intros (a & cs & Hb & Hin). destruct S3 as (_ & _ & Hbk & Hsub & _). rewrite Hbk in Hb.
    assert (a = vm_area v) as ->. { apply Hh. exists cs. rewrite <-Hb. symmetry. by destruct S12 as (_ & _ & -> & _). }
    destruct impl as [vim conn prj d|]; [|done]. cbn in H4. unfold book in Hb. rewrite Hi in Hb. cbn in Hb.
    apply lookup_fmap_Some in Hb as (sid & <- & Hsid).
    destruct (OpenStack.destroy_vm conn blueprint_id v (d, around x2)) as [r [d' p']] eqn:Ed. injection H4 as -> <-. cbn in Hin.
    apply (destroy_vm_deletes conn blueprint_id v d (around x2) d' p' sid) in Ed; [|by rewrite Hv]. set_solver. }
  pose proof (tame_inert end_call end_call_inert x4 (proj2 Hgone)) as S5. rewrite H5 in S5. cbn in S5.
  apply sim_servers in S5. set_solver.
Qed.

#[export] Program Instance aggregator_laws : ProviderLaws X (Provider0 := aggregator_provider blueprint_id patience) := {|
  servers := agg_servers; issued := agg_issued; homes := agg_homes; healthy := agg_healthy
|}.
Next Obligation.
  intros x i x' Hx. cbn. destruct (random_uuid (uuids x)) as [j u] eqn:E. cbn. intros [= <- <-].
  destruct (random_fresh _ _ _ E) as (H1 & H2 & H3). destruct Hx as [[Ha Hb] Ht Hp]. by repeat split.
Qed.
Next Obligation. intros v x r v' x' Hc. by apply (agg_create_same v x r v' x'). Qed.
Next Obligation.
  intros v x r v' x' i Hc Hx Hv Hh. destruct (agg_create_created v x r v' x' i Hc (ah_openstack x Hx) Hv) as [Hs|He].
  - destruct (sim_quiet x x' Hx Hs) as (H1 & H2 & H3 & H4). split_and!; [done|done|set_solver|]. intros j a Hj. left. by apply H4.
  - by apply enters_effect.
Qed.
Next Obligation. intros v. apply tame_quiet, tame_destroy. Qed.
Next Obligation. intros v x x' i Hd Hx. apply agg_destroy_effect; [done|apply Hx]. Qed.
Next Obligation. intros n. apply tame_quiet, tame_create_net. Qed.
Next Obligation. intros a. apply tame_quiet, tame_get_provider. Qed.
Next Obligation. intros v p. apply tame_quiet, tame_playbook. Qed.
Next Obligation. intros i. apply tame_quiet, tame_measured, tame_outside, delete_child_shrinks. Qed.
Next Obligation. apply tame_quiet, tame_final. Qed.
Next Obligation. apply tame_quiet, tame_inert. auto with inert. Qed.
Next Obligation.
  intros a. apply tame_quiet, tame_bind; [apply tame_vim_of_area|intros w; apply tame_ret].
Qed.
End laws.

(** ** A machine on Proxmox that is not recorded *)
Section stuck.
Context {U P : Type} `{!Random U, !Siblings P, !OpenStack.OpenStack P, !Proxmox.Proxmox P, !Machines P, !Persistence P}.
Context {K S : Type}.
Variable blueprint_id : string.
Variable patience : nat.
#[local] Abbreviation X := (Agg U P).
#[local] Abbreviation MX := (M (Agg U P)).
#[local] Instance stuck_provider : Provider X := aggregator_provider blueprint_id patience.
#[local] Abbreviation Blue := (Blueprint K S X).
#[local] Abbreviation B := (M Blue).
Variables (v : VmResource).

(** The provider of the machine's area does not know the machine. *)
Definition unknown (x : X) : Prop := ∃ vim path d, z_get (vm_area v) (virt_providers_impl x) = Some (IProxmox vim path d) ∧
  Proxmox.proxmox_dict d !! vm_id v = None.
Lemma unknown_put a i x p : unknown x →
  (a = vm_area v → ∃ vim path d, i = IProxmox vim path d ∧ Proxmox.proxmox_dict d !! vm_id v = None) →
  unknown (put_impl a i (set_around p x)).
Proof.
  intros (vim & path & d & Hz & Hd) Hi. unfold unknown, put_impl. cbn. rewrite z_get_set.
  destruct (Z.eqb_spec a (vm_area v)) as [E|]; [|by exists vim, path, d]. destruct (Hi E) as (vim' & path' & d' & -> & Hd').
  by exists vim', path', d'.
Qed.
Lemma unknown_outside {A} (m : M P A) : preserves unknown (outside m : MX A).
Proof. intros x Hx. unfold outside, zoom. by destruct (m (around x)). Qed.
Lemma unknown_same (f : X → X) : (∀ x, virt_providers_impl (f x) = virt_providers_impl x) → preserves unknown (modifyS f : MX unit).
Proof. intros Hf x (vim & path & d & Hz & Hd). exists vim, path, d. cbn. by rewrite Hf. Qed.
Lemma unknown_fresh a : preserves unknown (fresh_vim a : MX _).
Proof. apply preserves_bind; [apply unknown_outside|intros t; apply preserves_liftR]. Qed.
Lemma unknown_client n : preserves unknown (get_client n : MX _).
Proof.
  apply preserves_bind; [apply preserves_getS|intros x]. destruct (py_in _ _ _); [apply preserves_ret|].
  apply preserves_bind; [apply unknown_outside|intros _]. apply preserves_bind; [by apply unknown_same|intros _; apply preserves_ret].
Qed.
Lemma unknown_os_client w a : preserves unknown (get_os_client_from_vim w a : MX _).
Proof.
  apply preserves_bind; [apply preserves_getS|intros x]. destruct (z_get a _); [apply preserves_ret|]. apply preserves_bind.
  - apply preserves_bind; [apply unknown_outside|intros _]. apply preserves_bind; [apply unknown_client|intros c].
    apply preserves_bind; [apply unknown_outside|intros o]. apply preserves_bind; [apply preserves_liftR|intros i; apply preserves_ret].
  - intros c. apply preserves_bind; [by apply unknown_same|intros _; apply preserves_ret].
Qed.
Lemma unknown_build a w : preserves unknown (match w with OPENSTACK => new_openstack a | PROXMOX => new_proxmox a end : MX Impl).
Proof.
  destruct w; (apply preserves_bind; [apply unknown_fresh|intros vim]).
  - apply preserves_bind; [apply unknown_os_client|intros [c p]; apply preserves_ret].
  - apply preserves_bind; [apply unknown_outside|intros [path d]; apply preserves_ret].
Qed.
Lemma unknown_install a (m : MX Impl) x : unknown x → a ≠ vm_area v → preserves unknown m →
  match (i ← m;
         modifyS (put_impl a i) ;;
         modifyS (λ x, if od_in (pretty a) (virt_providers x) then x
                       else set_recorded (od_set (pretty a) (provider_path i) (virt_providers x)) x) ;;
         mret i) x with
  | (Ok i, x') => unknown x' ∧ z_get a (virt_providers_impl x') = Some i
  | (Raise _, x') => unknown x'
  end.
Proof.
  intros Hx Hne Hm. specialize (Hm x Hx). destruct (m x) as [[i|e] x1] eqn:Em; [|by rewrite (bind_Raise _ _ _ _ _ Em)].
  rewrite (bind_Ok _ _ _ _ _ Em). cbn in Hm.
  assert (Hu : unknown (put_impl a i x1)) by (apply (unknown_put a i x1 (around x1) Hm); by intros ->).
  rewrite (bind_Ok (modifyS _) _ x1 (put_impl a i x1) tt) by done. erewrite (bind_Ok (modifyS _) _ (put_impl a i x1)) by reflexivity.
  cbn beta iota. destruct (od_in (pretty a) _); cbn; (split; [exact Hu|by rewrite z_get_set, Z.eqb_refl]).
Qed.
(** A provider that exists is found; one that is built serves another area. *)
Lemma virt_provider_unknown a : triple unknown (virt_provider a : MX Impl)
  (λ i x, unknown x ∧ z_get a (virt_providers_impl x) = Some i) unknown.
Proof.
  intros x Hx. unfold virt_provider, vim_of_area. destruct (get_vim_by_area a (agg_topology x)).1 as [w|e] eqn:Ew.
  2: { rewrite (bind_Raise _ _ x x e) by (unfold mbind, M_bind, getS, liftR; cbn; by rewrite Ew). exact Hx. }
  rewrite (bind_Ok _ _ x x w) by (unfold mbind, M_bind, getS, liftR; cbn; by rewrite Ew). rewrite (bind_Ok getS _ x x x) by done.
  destruct (z_get a (virt_providers_impl x)) as [i|] eqn:Ei; [by split|].
  assert (Hne : a ≠ vm_area v) by (intros ->; destruct Hx as (? & ? & ? & Hz & _); congruence).
  apply unknown_install; [done|done|]. apply unknown_build.
Qed.
Lemma unknown_run_provider {A} a os px :
  (∀ vim path d p, a = vm_area v → Proxmox.proxmox_dict d !! vm_id v = None →
     Proxmox.proxmox_dict (px vim path (d, p)).2.1 !! vm_id v = None) →
  preserves unknown (i ← virt_provider a; on_impl (A:=A) a i os px : MX A).
Proof.
  intros Hpx x Hx. pose proof (virt_provider_unknown a x Hx) as Hp. unfold mbind, M_bind.
  destruct (virt_provider a x) as [[i|e] x1]; [|exact Hp]. destruct Hp as [Hu Hi]. cbn.
  destruct Hu as (vim0 & path0 & d0 & Hz & Hd0). destruct i as [vim c p d|vim path d]; cbn.
  - destruct (os vim c p (d, around x1)) as [r [d' p']]. cbn. apply unknown_put; [by exists vim0, path0, d0|].
    intros ->. congruence.
  - specialize (Hpx vim path d (around x1)). destruct (px vim path (d, around x1)) as [r [d' p']]. cbn in *.
    apply unknown_put; [by exists vim0, path0, d0|]. intros ->. exists vim, path, d'. split; [done|]. apply Hpx; [done|]. congruence.
Qed.

Lemma unknown_measured {A} n (m : MX A) : preserves unknown m → preserves unknown (measured n m).
Proof.
  intros Hm. apply preserves_bind; [apply unknown_outside|intros _]. apply preserves_bind; [done|intros a].
  apply preserves_bind; [apply unknown_outside|intros _; apply preserves_ret].
Qed.
Lemma unknown_destroy w : preserves unknown (agg_destroy_vm blueprint_id w : MX unit).
Proof.
  apply unknown_measured, unknown_run_provider. intros vim path d p _ Hd. by apply ProxmoxProps.destroy_vm_absent.
Qed.
Lemma unknown_not_destroyed x : unknown x → ∃ e, (agg_destroy_vm blueprint_id v x).1 = Raise e.
Proof.
  intros Hx. unfold agg_destroy_vm, measured. pose proof (unknown_outside (start_call "destroy_vm") x Hx) as H1.
  destruct (outside (start_call "destroy_vm") x) as [[[]|e] x1] eqn:E1; [|rewrite (bind_Raise _ _ _ _ _ E1); by exists e].
  rewrite (bind_Ok _ _ _ _ _ E1). pose proof (virt_provider_unknown (vm_area v) x1 H1) as Hp.
  destruct (virt_provider (vm_area v) x1) as [[i|e] x2] eqn:E2.
  2: { rewrite (bind_Raise _ _ _ _ _ (bind_Raise _ _ _ _ _ E2)). by exists e. }
  destruct Hp as [(vim & path & d & Hz & Hd) Hi]. assert (i = IProxmox vim path d) as -> by congruence.
  pose proof (ProxmoxProps.destroy_vm_absent vim path blueprint_id (vm_id v) v d (around x2) Hd) as [_ Hr]. specialize (Hr eq_refl).
  destruct (Proxmox.destroy_vm vim path blueprint_id v (d, around x2)) as [r [d' p']] eqn:E3. cbn in Hr. subst r.
  exists KeyError. erewrite bind_Raise; [done|]. rewrite (bind_Ok _ _ _ _ _ E2). cbn. by rewrite E3.
Qed.

(** A blueprint with a machine that Proxmox does not know cannot be destroyed. If a registered machine is in an
    area whose Proxmox provider has no record of it, as after a creation that failed early, then every destruction
    of the blueprint raises, whatever its other resources are and whatever the outside answers, and it leaves
    the blueprint in a state with the same property: trying again does not help. *)
Theorem unrecorded_machine_blocks_destruction (b : Blue) l :
  holds l (OVm v) b → l ∈ od_values (registered_resources b) → unknown (ext b) →
  (∃ e, (base_destroy b).1 = Raise e) ∧
  holds l (OVm v) (base_destroy b).2 ∧ l ∈ od_values (registered_resources (base_destroy b).2) ∧ unknown (ext (base_destroy b).2).
Proof.
  intros Hl Hr Hu. set (I := λ b' : Blue, objs b' = objs b ∧ registered_resources b' = registered_resources b ∧ unknown (ext b')).
  assert (Hext : ∀ A (m : MX A), preserves unknown m → preserves I (on_ext m : B A)).
  { intros A m Hm b' (H1 & H2 & H3). unfold on_ext, zoom. specialize (Hm (ext b') H3). by destruct (m (ext b')). }
  assert (Hload : ∀ k, preserves I (load k : B (obj K))).
  { intros k b' Hb. unfold load, mbind, M_bind, getS. by destruct (objs b' !! k). }
  assert (Hobj : ∀ k, preserves I (o ← load k; destroy_object o : B unit)).
  { intros k. apply preserves_bind; [apply Hload|intros []]; [|apply preserves_ret..]. apply Hext, unknown_destroy. }
  assert (Hfinal : (∃ e, (base_destroy b).1 = Raise e) ∧ I (base_destroy b).2).
  { unfold base_destroy. rewrite (bind_Ok getS _ b b b) by done.
    match goal with |- context [(?m ≫= ?f) b] => set (children := m); set (rest := f) end.
    assert (Hc : preserves I children).
    { apply preserves_for_each. intros child. apply preserves_bind; [|intros _].
      - apply preserves_catch; [apply Hext, unknown_measured, unknown_outside|]. intros e h. destruct e; try done. intros [= <-]. apply preserves_ret.
      - intros b' Hb. unfold deregister_children. rewrite (bind_Ok getS _ b' b' b') by done. destruct (py_in _ _ _); [|done].
        unfold mbind, M_bind, liftR. by destruct (py_remove _ _ _). }
    specialize (Hc b ltac:(by split_and!)). unfold mbind, M_bind. destruct (children b) as [[[]|e] b1]; [|by split; [exists e|]]. cbn in Hc.
    unfold rest. destruct Hc as (C1 & C2 & C3). assert (HI : I b1) by done.
    assert (Hd : (∃ e, (destroy_registered b1).1 = Raise e) ∧ I (destroy_registered b1).2).
    { unfold destroy_registered. rewrite (bind_Ok getS _ b1 b1 b1) by done. split; [|by apply preserves_for_each].
      apply (for_each_raises I (λ k, k = l)); [done| |done|rewrite C2; apply Exists_exists; by exists l].
      intros k b2 -> (D1 & D2 & D3). rewrite (bind_Ok (load l) _ b2 b2 (OVm v)) by (apply load_run; unfold holds in *; by rewrite D1).
      cbn [destroy_object]. unfold on_ext, zoom. destruct (unknown_not_destroyed (ext b2) D3) as [e He].
      change (destroy_vm v (ext b2)) with (agg_destroy_vm blueprint_id v (ext b2)). destruct (agg_destroy_vm blueprint_id v (ext b2)) as [r x].
      cbn in *. by exists e. }
    destruct Hd as [[e He] HI2]. unfold mbind, M_bind. destruct (destroy_registered b1) as [[[]|e'] b2]; [done|]. by split; [exists e'|]. }
  destruct Hfinal as [He (F1 & F2 & F3)]. split; [done|]. unfold holds in *. rewrite F1, F2. done.
Qed.
End stuck.
