(* ===== verification/OpenStackBlueprints.v ===== *)
(** * Blueprints on OpenStack

    The theorems about the UERANSIM and the Kubernetes blueprint, for the aggregator of an OpenStack
    installation: what a destruction leaves on the clouds. *)

From stdpp Require Import base list strings gmap pretty.
From Stdlib Require Import ZArith Lia.
From S2P Require Import Prelude VimModels TopologyModel Ansible Resources Deployment VirtCommon ProvidersAggregator OpenStackProps AggregatorProps HelmPlugins.
From S2P Require OpenStack Proxmox Ueransim UeransimProps K8sBlueprint K8sProps.

Open Scope Z_scope.

Section blueprints.
Context {U P : Type} `{!Random U, !Siblings P, !OpenStack.OpenStack P, !Proxmox.Proxmox P, !Machines P, !Persistence P}.
Context `{!OpenStackLaws P, !RandomLaws U, !SiblingLaws P}.
Variable set_order : list string → list string.
Variable rel_path : string → string.
Variable self_id : string.
Variable patience : nat.
#[local] Abbreviation X := (Agg U P).
#[local] Instance the_provider : Provider X := aggregator_provider self_id patience.
#[local] Instance the_laws (foreign : gset (string * string)) : ProviderLaws X := aggregator_laws self_id patience foreign.

(** An aggregator that was just built, for areas of OpenStack clouds. *)
Record new_aggregator (x : X) : Prop := {
  na_openstack : ∀ a v, (get_vim_by_area a (agg_topology x)).1 = Ok v → vim_type v = OPENSTACK;
  na_empty : virt_providers_impl x = []
}.
Lemma new_aggregator_pristine x : new_aggregator x → pristine (H := the_laws (active (around x))) x.
Proof.
  intros [Ho He]. assert (Hb : ∀ a, book x a = ∅) by (intros a; unfold book; by rewrite He).
  unfold pristine. cbn. split_and!.
  - split; [split; [done|]|..].
    + intros a i. by rewrite He.
    + intros cs Hcs. by left.
    + intros a k cs. by rewrite Hb.
  - apply set_eq. intros i. rewrite elem_of_servers. split; [|by intros ?%not_elem_of_empty]. intros (a & cs & Hk & _). by rewrite Hb in Hk.
  - intros i a [cs Hk]. by rewrite Hb in Hk.
Qed.
(** In order, and without machines: the servers left are the foreign ones. *)
Lemma nothing_left foreign x : healthy (ProviderLaws := the_laws foreign) x → servers (ProviderLaws := the_laws foreign) x = ∅ →
  active (around x) ⊆ foreign.
Proof.
  intros [_ Ht _] Hs cs Hcs. destruct (Ht cs Hcs) as [|(a & i & Hb)]; [done|].
  exfalso. apply (not_elem_of_empty (C:=gset string) i). change (servers (ProviderLaws := the_laws foreign) x) with (agg_servers x) in Hs.
  rewrite <-Hs. apply elem_of_servers. by exists a, cs.
Qed.

(** ** UERANSIM *)
Section ueransim.
Context `{!Ueransim.PduTopology X}.
Hypothesis add_pdu_tame : ∀ p, tame (Ueransim.add_pdu p : M X unit).
Hypothesis del_pdu_tame : ∀ n, tame (Ueransim.del_pdu n : M X unit).

(** C14: a destroyed UERANSIM network leaves no server on OpenStack. On clouds that never give an identifier twice
    and delete what they say they delete, for a blueprint with providers of its own: whatever was asked of it, and
    whichever calls failed (of the clouds, SSH, Ansible, the topology, the database), once a destruction returns,
    every server the clouds handed over and did not delete was there before the blueprint. *)
Theorem ueransim_leaves_no_server m requests x b' :
  new_aggregator x →
  Ueransim.destroy self_id (UeransimProps.after_all set_order rel_path self_id requests
    (Ueransim.create set_order rel_path self_id m (UeransimProps.empty_blueprint x)).2) = (Ok tt, b') →
  active (around (ext b')) ⊆ active (around x).
Proof.
  intros Hx Hd. pose proof (new_aggregator_pristine x Hx) as Hp. pose (the_laws (active (around x))) as laws.
  assert (Ha : ∀ p, quiet servers issued homes healthy (Ueransim.add_pdu p : M X unit)) by (intros p; apply tame_quiet, add_pdu_tame).
  assert (Hn : ∀ n, quiet servers issued homes healthy (Ueransim.del_pdu n : M X unit)) by (intros n; apply tame_quiet, del_pdu_tame).
  pose proof (UeransimProps.ueransim_history_good set_order rel_path self_id Ha Hn m requests x Hp) as Hg.
  destruct (UeransimProps.ueransim_destroy_clean self_id Hn _ b' Hg Hd) as [Hh Hs]. by apply (nothing_left (active (around x))).
Qed.
End ueransim.

(** ** Kubernetes *)
Section k8s.
Context `{!ClusterApi X, !K8sBlueprint.ClusterTopology X}.
Variable tasks_of : string → list dict.
Hypothesis quiet_cluster : ∀ foreign, K8sProps.QuietCluster X (ProviderLaws0 := the_laws foreign).

(** The same of a cluster. *)
Lemma cluster_leaves_no_server m requests x b' :
  new_aggregator x →
  K8sBlueprint.destroy self_id (K8sProps.after_all set_order rel_path tasks_of self_id requests
    (K8sBlueprint.create set_order rel_path tasks_of self_id m (K8sProps.empty_blueprint x)).2) = (Ok tt, b') →
  active (around (ext b')) ⊆ active (around x).
Proof.
  intros Hx Hd. pose proof (new_aggregator_pristine x Hx) as Hp. pose (the_laws (active (around x))) as laws.
  pose proof (quiet_cluster (active (around x))) as Hq.
  pose proof (K8sProps.history_good set_order rel_path tasks_of self_id m requests x Hp) as Hg.
  destruct (K8sProps.cluster_destroy_clean rel_path tasks_of self_id _ b' Hg Hd) as [Hh Hs]. by apply (nothing_left (active (around x))).
Qed.
End k8s.
End blueprints.

(** ** A small installation *)
Module ConcreteInstallation.
Import ConcreteCloud.
(** Identifiers of growing length. *)
Fixpoint lab_id (n : nat) : string := match n with O => "i" | S n' => "i" +:+ lab_id n' end.
#[export] Instance lab_random : Random nat := {| random_uuid n := (lab_id n, S n) |}.
Definition lab_drawn (n : nat) : gset string := list_to_set (lab_id <$> seq 0 n).
Lemma lab_id_length n : String.length (lab_id n) = S n.
Proof. induction n as [|n IH]; [done|exact (f_equal S IH)]. Qed.
#[export] Program Instance lab_random_laws : RandomLaws nat := {| drawn := lab_drawn |}.
Next Obligation.
  intros u i u' [= <- <-]. split_and!; [by destruct u|..].
  - unfold lab_drawn. rewrite elem_of_list_to_set, list_elem_of_fmap. intros (m & Hm & Hin%elem_of_seq).
    apply (f_equal String.length) in Hm. rewrite !lab_id_length in Hm. lia.
  - unfold lab_drawn. rewrite seq_S, fmap_app, list_to_set_app_L. set_solver.
Qed.
Definition lab_topology : TopologyModel :=
  {| topo_id := Some "topology"; topo_callback := None;
     topo_vims := [{| vim_name := "cloud"; vim_type := OPENSTACK; schema_version := "1.0"; vim_url := "https://cloud:5000"; vim_tenant_name := "admin";
       vim_user := "admin"; vim_password := "admin"; ssh_keys := Some []; vim_proxmox_realm := None; vim_proxmox_storage_id := None;
       vim_proxmox_storage_volume := None; osm_onboard := None;
       vim_config := {| insecure := true; APIversion := "v3.3"; use_floating_ip := false |};
       networks := []; routers := []; areas := [1; 3] |}];
     topo_kubernetes := []; topo_networks := []; topo_routers := []; topo_pdus := []; topo_prometheus_srv := [] |}.
#[export] Instance lab_siblings : Siblings Cloud := {|
  topology_now := mret lab_topology;
  start_call n := mret tt;
  end_call := mret tt;
  delete_child i := mret tt;
  other_cleanups := mret tt;
  delete_from_db := mret tt
|}.
#[export] Program Instance lab_sibling_laws : SiblingLaws Cloud.
Solve All Obligations with (repeat (intros ?); try split; reflexivity).
(** There is no Proxmox node. *)
#[export] Instance no_proxmox : Proxmox.Proxmox Cloud := {|
  Proxmox.host_connect h u pw := raise OSError;
  Proxmox.exec_command h c := raise OSError;
  Proxmox.sftp_put h a b := raise OSError;
  Proxmox.http_request t u h p j := raise OSError;
  Proxmox.json_loads s := Raise ValueError;
  Proxmox.repr v := "";
  Proxmox.validate_nodes v := Raise ValidationError;
  Proxmox.validate_zones v := Raise ValidationError;
  Proxmox.validate_subnets v := Raise ValidationError
|}.
#[export] Instance lab_pdus : Ueransim.PduTopology (Agg nat Cloud) := {| Ueransim.add_pdu p := mret tt; Ueransim.del_pdu n := mret tt |}.
#[export] Instance lab_provider : Provider (Agg nat Cloud) := aggregator_provider "blue" 3.

(** A server of somebody else is there before. *)
Definition lab_start : Agg nat Cloud :=
  {| agg_topology := lab_topology; virt_providers_impl := []; virt_providers := []; os_clients_dict := []; os_connections := []; uuids := 0%nat;
     around := {| live := [("cloud", {| OpenStack.server_id := "mine"; OpenStack.addresses := [] |})]; gone := []; stuck := []; cards := 0;
                  made := ["mgt"; "n2"; "n3"] |} |}.
Definition lab_created := Ueransim.create (λ l, l) (λ p, p) "blue" UeransimProps.Concrete.lab_request (UeransimProps.empty_blueprint lab_start).
Lemma lab_start_new : new_aggregator lab_start.
Proof.
  split; [|done]. intros a v. unfold get_vim_by_area. rewrite (bind_Ok getS _ _ (agg_topology lab_start) (agg_topology lab_start)) by done.
  destruct (next_item _ _) as [w|] eqn:E; [|done]. intros [= <-]. unfold next_item in E. apply find_some in E as [[<-|[]] _]. done.
Qed.
Example lab_creation : lab_created.1 = Ok tt ∧ size (active (around (ext lab_created.2))) = 3%nat.
Proof. vm_compute. split; reflexivity. Qed.

Lemma ueransim_leaves_no_server_witness :
  let b := UeransimProps.after_all (λ l, l) (λ p, p) "blue" UeransimProps.Concrete.lab_day2 lab_created.2 in
  (4 ≤ size (active (around (ext b))))%nat ∧
  ∃ b', Ueransim.destroy "blue" b = (Ok tt, b') ∧ active (around (ext b')) ⊆ active (around lab_start).
Proof.
  split; [apply Nat.leb_le; vm_compute; reflexivity|]. eexists. split; [vm_compute; reflexivity|].
  eapply (ueransim_leaves_no_server (λ l, l) (λ p, p) "blue" 3) with (m := UeransimProps.Concrete.lab_request)
    (requests := UeransimProps.Concrete.lab_day2) (x := lab_start);
    [intros p; apply tame_ret|intros n; apply tame_ret|apply lab_start_new|vm_compute; reflexivity].
Defined.

(** A blueprint with one machine, in an area of a Proxmox node that does not know it. *)
Definition lab_stuck : Blueprint unit unit (Agg nat Cloud) :=
  {| objs := [OVm (lab_vm "machine")]; registered_resources := [("vm", 0%nat)]; children_blue_ids := []; state := tt;
     ext := put_impl 0 (IProxmox lab_vim VNone Proxmox.new_data) lab_start |}.
Lemma unrecorded_machine_blocks_destruction_witness : ∃ e, (base_destroy lab_stuck).1 = Raise e.
Proof.
  apply (unrecorded_machine_blocks_destruction "blue" 3 (lab_vm "machine") lab_stuck 0%nat).
  - reflexivity.
  - cbn. left.
  - exists lab_vim, VNone, Proxmox.new_data. split; vm_compute; reflexivity.
Defined.
End ConcreteInstallation.
